(* ===== verification/_CoqProject ===== *)
-Q . S2P
Prelude.v
CString.v
CStringProofs.v
Strbuf.v
Printf.v
PrintfProofs.v
Readline.v
HistoryProofs.v
ReadlineProofs.v
EditorProofs.v
Bootdevs.v
Elf.v
CmosIo.v
PciIo.v
Region.v
Pci.v
Acpi.v
PciResource.v
PciResourceProofs.v
PciTheorems.v
PciRegisters.v
Mptable.v
Pirq.v
PciFixup.v
PciScan.v
PciMachine.v
PciCalm.v
PciNumbers.v
PciEnum.v
PirqProofs.v
MptableProofs.v
MptableBuild.v
Memtest.v
MemtestProofs.v
Poll.v
Menu.v
MenuTables.v
MenuProofs.v
Gdb.v
GdbProofs.v
I2c.v
I2cProofs.v
Systype.v
Serial.v
Lcd.v
LcdProofs.v
Eeprom.v
EepromProofs.v
Cmos.v
CmosProofs.v
CmosInit.v
CmosTheorems.v
Rtc.v
Freemap.v
Layout.v
BlockLayer.v
BlockCache.v
StdioDevice.v
Fs.v
Inode.v
Namei.v
Directory.v
Mount.v
FileIO.v
Remove.v
Tools.v
ReadProofs.v
DirProofs.v
WriteProofs.v
Tree.v
MountProofs.v
MkfsProofs.v
DirTheorems.v
Scenario.v
FsTheorems.v
I18n.v
I18nProofs.v
Boot.v
BootProofs.v
Findings.v
