(* ===== verification/Prelude.v ===== *)
(** * Cobalt ROM: verification development (root file)

    The repository is the boot ROM of the Cobalt server appliances: assembly that starts
    the machine, C code that drives the hardware, a monitor with menus and commands, the
    code that loads and starts a kernel ([src/x86/]), and a file system, CRFS, kept in the
    flash memory with the host tools that build it ([src/cobalt_romfs/]).  This library
    models the C code, with the devices it talks to as parameters that have documented
    behaviour, and proves what it does.

    ** How the program is put together

    The assembly finds the memory and jumps to the RAM code ([x86/ramcode/main.c]), which
    sets up a console, the panel and the flash memory, mounts CRFS and loads the monitor
    from it.  The monitor ([x86/monitor/]) reads its settings from the battery-backed
    memory, numbers the PCI buses, gives addresses and interrupts to the devices, writes
    the tables an operating system reads, and then boots the default kernel or takes
    commands from the console and from the panel.  Booting is in two stages: a kernel of
    the ROM is loaded from CRFS, unpacked and started; it loads another one from disk or
    network and returns to the ROM, which starts that.

    ** Parts and files

    - CRFS ([src/cobalt_romfs/crfs_func.c], [crfs.h], [crfs_func.h],
      [crfs_block_stdio.c]).  [Freemap]: the bit maps of free blocks and inodes
      ([freemap_*]).  [Layout]: the structures on the disk as bytes.  [BlockLayer]: the
      interface [crfs_block.h] as a class with its laws; [BlockCache]: the cache of
      dirty blocks of [crfs_func.c], an instance over any device that meets them;
      [StdioDevice]: the device over an image file.  [Fs]: the static variables of
      [crfs_func.c] as the record [fs], and the inode functions; [Inode]: what
      storing an inode does (phased commit, relocation of the table).  [Namei]: path
      resolution.  [Directory]: [crfs_create], [crfs_mkdir], [crfs_open],
      [crfs_stat], the directory handles.  [Mount]: [crfs_init], [crfs_mkfs],
      [cache_flush].  [FileIO]: [crfs_read], [crfs_write], [crfs_seek].  [Remove]:
      [crfs_remove], [crfs_rmdir].  [Tools]: the mains of the [co_*] programs.
    - Library code ([src/x86/common/]).  [CString]: [string.c], [memfuncs.c], [ctype.c]
      and the macros of their headers, on a memory of bytes.  [Strbuf], [Printf]: the
      string buffer and the formatted output ([strbuf.c], [printf.c]).  [Readline]: the
      line editor with its history ([readline.c]).  [Region]: the allocator of I/O and
      memory windows ([region.c]).  [Elf], [Bootdevs]: the ELF loader and the table of
      boot devices ([elf.c], [bootdevs.c]).  [I18n]: the messages ([i18n.c]), which are
      files of CRFS.
    - Settings and clock.  [CmosIo], [Cmos]: the battery-backed memory, its checksum, its
      flags and what is kept in it ([cmos_io.c], [cmos.c]).  [Rtc]: the clock and its
      commands ([common/rtc.c], [monitor/rtc.c]).
    - PCI.  [PciIo]: configuration space over the ports ([pci_io.c]).  [Pci]: devices and
      buses as a tree ([pci.h]).  [PciScan], [PciFixup]: the discovery of devices and the
      fixups ([pci.c], [pci_fixup.c]).  [PciResource]: the assignment of addresses
      ([pci_resource.c]), over [Region].
    - Interrupts and tables.  [Pirq]: routing ([pirq.c]); [Mptable]: the I/O
      controllers ([ioapic.c]) and the multiprocessor tables ([mptable.c]); [Acpi]: the ACPI
      tables ([acpi.c]).
    - Devices.  [Poll]: waiting loops.  [I2c]: the system management bus ([i2c.c],
      [id_eeprom.c]); [Lcd]: the panel ([lcd.c], [parallel.c]), by port or by that bus;
      [Serial]: the serial line ([serial.c]); [Eeprom]: the flash memory ([eeprom.c],
      [eeprom_ops.c], [spin.c]); [Systype]: which board this is ([systype.c]); [Memtest]:
      the memory test ([x86/tests/memtest/]).
    - Monitor.  [Menu], [MenuTables]: both loops over the menus and every menu
      ([common/menu.c], [monitor/menu.c]).  [Gdb]: the debugging stub ([gdb-x86.c]).
      [Boot]: loading and starting a kernel and the monitor ([common/fs.c],
      [boot_main.c], [x86-boot.c], [monitor/boot.c], [monitor/fs.c], [ramcode/main.c]),
      over CRFS, [Elf], [Printf], [Bootdevs] and [Cmos].

    ** How the code is rendered

    State is passed explicitly, in monads where many functions share it; C integers are
    [Z] with the wrap-around of their width written out ([u8], [u16], [u32], [s32]);
    structures are records, or bytes at their offsets where the code writes them to a disk
    or to memory; pointers to errors and error codes are sums and options; [None] is
    undefined behaviour.  Definitions carry the names of the C functions; parts of a
    function that have a name of their own carry the name of the function in their
    comment.  What a component uses of the hardware is a class ([Ports], [Config],
    [IoPorts], [Mmio], [Ram], [Target], [Around] and the like), so that definitions and
    theorems are those of every machine; behaviour the proofs rely on is a class or a
    record of laws, or a concrete machine after the documentation of the device.

    ** What the theorems show

    - [FsTheorems] (with [ReadProofs], [DirProofs], [WriteProofs], [Tree],
      [DirTheorems], [MountProofs], [MkfsProofs]): on a well-formed tree, what [crfs_create] and
      [crfs_mkdir] add and keep, the errors they give, path resolution against a
      relational specification, listing, reading and writing against the chain of
      blocks of a file, storing an inode in each of its outcomes, the atomicity of a commit under a crash after any number of device writes,
      mkfs followed by mount, and the tool [co_cat] end to end.  [Scenario] evaluates a
      concrete image.
    - [BootProofs]: the monitor is loaded and started; what Linux finds in the zero page;
      booting from disk through both stages, for any loader kernel that keeps the state
      of the ROM.
    - [CStringProofs], [PrintfProofs], [I18nProofs]: the string functions; [snprintf] and
      [printf] give the text the C standard says, where the program agrees with it
      ([Standard]), and what is printed is read back; a
      table of messages written to a file is read back.
    - [HistoryProofs], [ReadlineProofs], [EditorProofs]: the history keeps the last
      lines, its expansion is that of a list of words, and the keys do on the screen what
      the user thinks they do.
    - [PciTheorems], [PciResourceProofs]: an address given to a device reaches that
      device and nothing else; [PciRegisters]: it is in the registers of the device and of
      the bridges on the way.  [PciMachine], [PciCalm], [PciNumbers], [PciEnum]: on every
      machine that fits into 256 buses the scan ends, and finds and numbers everything.
    - [PirqProofs], [MptableBuild], [MptableProofs]: the routing table and the
      multiprocessor tables are what a reader of them expects; interrupts are shared out
      in turn.
    - [CmosTheorems] (with [CmosProofs], [CmosInit]) and [Rtc]: the checksum detects a
      changed byte, round trips, and the invariant that initialisation establishes, over
      every clock chip; dates written are read back.
    - [I2cProofs], [LcdProofs], [EepromProofs], [MemtestProofs],
      [Serial], [Systype]: transfers within their waiting times and errors after them, the
      panel shows the menu, a chip is erased and written, the faults a memory test finds,
      the waiting of the serial line, every board is recognised.
    - [MenuProofs], [GdbProofs]: the menus of the monitor are well typed and a line
      reaches its command; memory written through the debugger is read back.
    - [Region], [Elf]: blocks are powers of two, aligned and disjoint; where the loader
      writes.
    - [Findings]: behaviour that differs from what the code or a comment means; more of it
      is next to the component it is about.

    ** Fuel and bounds

    Loops over memory have one unit of fuel for each byte of it: more steps would be an
    access outside.  [roundup2_loop] has 32 units for 32 bits, [checksum_loop] one for
    each byte summed.  [CHAIN_MAX] and [MARK_DEPTH] of [Mount] bound the chain of a file
    by the number of block numbers and the depth of a tree by that of the inodes;
    [COPY_FUEL] and [LS_FUEL] of [Tools] bound the loops of the tools by the size of a file
    and of a directory, as [PARSE_FUEL] of [I18n] and [LOAD_FUEL] of [Boot] do.  The loops
    over blocks of [crfs_read] and [crfs_write] have the number of complete blocks as their
    fuel.  [pci_bus_scan] has the depth of the tree, [next_irq] the 16 interrupts,
    loops with a counter of a byte 257 turns ([sum_loop], [CTR_FUEL]).  The waiting loops of
    the drivers have the counts the code has; where it has none ([WAIT_TURNS],
    [SERIAL_TURNS]), so many turns that a device which answers at all does so, and [None]
    stands for one that does not.  [SPACE_FUEL] is the size of the address space.

    ** Simplifications

    The padding of inodes in memory is zero, and names are copied into directory entries
    as the C library of the host does, where the file system code runs.  Allocation failure
    is an argument where the code tests it; CRFS carries the outcomes of its coming calls of
    [malloc] ([allocs]), and the theorems on operations that succeed assume they do
    ([fs_ok]).  The block cache asks for a node until it gets one; its
    buffers, whose failure no caller tests, are taken to be there.  Reserved bits read as zero.  A device keeps the
    number of the bus it is found on.  The clock stands still while it is read; delays have
    no effect.  Debug messages, the spinner and the segment registers are left out.  A memory
    access of the debugger that faults says so, by no handler.  A kernel started by the ROM
    is arbitrary, but for keeping the state of the ROM when it is to return.  The peer host
    buses of the 5000 series are outside of the theorem on the scan.

    ** Not modelled

    Assembly; third-party code (bzip2, gzip, MD5, malloc), which is an argument where it is
    used; the processor registers ([cache.c], [apic.c], [mp.c], [msr.c], [microcode.c]);
    IDE, Ethernet and delay drivers; the rest of the commands of the monitor, which parse
    arguments and print; the sequence of calls at the beginning of [ram_main] and of the
    monitor; the build tools. *)

From stdpp Require Export base list gmap.
From Stdlib Require Export ZArith Lia.
From Stdlib Require String Ascii.
From Stdlib Require Import FunctionalExtensionality.

#[global] Set Default Goal Selector "!".
#[global] Open Scope Z_scope.

Declare Scope rom_scope.
Delimit Scope rom_scope with rom.

(** ** Machine integers *)

Definition u8 (v : Z) : Z := v mod 256.
Definition u16 (v : Z) : Z := v mod 65536.
Definition u32 (v : Z) : Z := v mod 4294967296.
(** Conversion of an unsigned 32-bit value to a C [int]. *)
Definition s32 (v : Z) : Z :=
  let w := u32 v in if w <? 2147483648 then w else w - 4294967296.

(** ** Byte ranges of a memory block *)

(** [sub off n b]: the [n] bytes of [b] at offset [off]. *)
Definition sub (off n : nat) (b : list Z) : list Z := take n (drop off b).
(** [put off bs b]: [b] with the bytes [bs] stored at offset [off]. *)
Definition put (off : nat) (bs : list Z) (b : list Z) : list Z :=
  take off b ++ bs ++ drop (off + length bs) b.

Fixpoint le_bytes (n : nat) (v : Z) : list Z :=
  match n with
  | O => []
  | S n => v mod 256 :: le_bytes n (v / 256)
  end.

Fixpoint le_val (bs : list Z) : Z :=
  match bs with
  | [] => 0
  | b :: bs => b + 256 * le_val bs
  end.

Definition get16 (off : nat) (b : list Z) : Z := le_val (sub off 2 b).
Definition get32 (off : nat) (b : list Z) : Z := le_val (sub off 4 b).
Definition put16 (off : nat) (v : Z) (b : list Z) : list Z := put off (le_bytes 2 v) b.
Definition put32 (off : nat) (v : Z) (b : list Z) : list Z := put off (le_bytes 4 v) b.

(** [memset(p, 0, n)]. *)
Definition zeros (n : nat) : list Z := replicate n 0.

Notation "b '.[' off ',' n ']'" := (sub off n b)
  (at level 1, left associativity, off at level 99, n at level 99,
   format "b .[ off ,  n ]") : rom_scope.

(** ** C strings

    A C string is a list of non-zero bytes; [cstr] reads one from memory, up to
    the terminating zero byte. *)
Fixpoint cstr (mem : list Z) : list Z :=
  match mem with
  | [] => []
  | c :: mem => if c =? 0 then [] else c :: cstr mem
  end.

(** The bytes of a string literal. *)
Definition chars (s : String.string) : list Z :=
  map (fun a => Z.of_N (Ascii.N_of_ascii a)) (String.list_ascii_of_string s).

(** [strcmp(a, b) == 0]. *)
Definition str_eqb (a b : list Z) : bool := bool_decide (a = b).

(** ** Lemmas on byte ranges *)

(** [rom]: well-formedness facts for [auto]; [rom_len]: lengths for [len]. *)
Create HintDb rom.
Create Rewrite HintDb rom_len.

Lemma length_le_bytes n v : length (le_bytes n v) = n.
Proof. revert v; induction n; simpl; intros; [done | by rewrite IHn]. Qed.
#[export] Hint Rewrite length_le_bytes : rom_len.

Lemma length_zeros n : length (zeros n) = n.
Proof. apply length_replicate. Qed.
#[export] Hint Rewrite length_zeros : rom_len.

#[export] Hint Rewrite @length_cons @length_app @length_take @length_drop @length_replicate
  @length_insert @length_fmap @length_reverse : rom_len.

(** [len]: normalise lengths and close by [lia]. *)
Ltac len := autorewrite with rom_len in *; simpl length in *; try lia.

(** [dlia]: [lia] with quotients and remainders. *)
Ltac dlia := Z.to_euclidean_division_equations; lia.

Lemma length_put off bs b :
  (off + length bs <= length b)%nat -> length (put off bs b) = length b.
Proof. intros. unfold put. len. Qed.

Lemma length_sub off n b : (off + n <= length b)%nat -> length (sub off n b) = n.
Proof. intros. unfold sub. len. Qed.

Lemma length_put16 off v b :
  (off + 2 <= length b)%nat -> length (put16 off v b) = length b.
Proof. intros. apply length_put. len. Qed.

Lemma length_put32 off v b :
  (off + 4 <= length b)%nat -> length (put32 off v b) = length b.
Proof. intros. apply length_put. len. Qed.

Lemma sub_put_same off bs b :
  (off <= length b)%nat -> sub off (length bs) (put off bs b) = bs.
Proof.
  intros. unfold sub, put. rewrite drop_app_length'; [|len].
  by rewrite take_app_length.
Qed.

Lemma sub_put_same' off n bs b :
  n = length bs -> (off <= length b)%nat -> sub off n (put off bs b) = bs.
Proof. intros ->. apply sub_put_same. Qed.

Lemma lookup_sub off n b (i : nat) :
  sub off n b !! i = if decide (i < n)%nat then b !! (off + i)%nat else None.
Proof.
  unfold sub. case_decide.
  - by rewrite lookup_take_lt, lookup_drop.
  - rewrite lookup_ge_None. len.
Qed.

Lemma lookup_put off bs b (i : nat) :
  (off + length bs <= length b)%nat ->
  put off bs b !! i =
    if decide (off <= i < off + length bs)%nat then bs !! (i - off)%nat else b !! i.
Proof.
  intros H. unfold put. case_decide.
  - rewrite lookup_app_r; len. rewrite lookup_app_l; len.
    f_equal. lia.
  - destruct (decide (i < off)%nat).
    + rewrite lookup_app_l; len. by rewrite lookup_take_lt.
    + rewrite lookup_app_r; len. rewrite lookup_app_r; len.
      rewrite lookup_drop. f_equal. lia.
Qed.

Lemma sub_put_ne off n off' bs b :
  (off' + length bs <= length b)%nat ->
  (off + n <= off' \/ off' + length bs <= off)%nat ->
  sub off n (put off' bs b) = sub off n b.
Proof.
  intros Hle Hd. apply list_eq. intros i. rewrite !lookup_sub.
  case_decide; [|done]. rewrite lookup_put by done. case_decide; [lia|done].
Qed.

Lemma put_sub_id off n b : (off + n <= length b)%nat -> put off (sub off n b) b = b.
Proof.
  intros. pose proof (length_sub off n b ltac:(lia)) as Hl. apply list_eq. intros i.
  rewrite lookup_put, Hl by lia. case_decide; [|done]. rewrite lookup_sub. case_decide; [f_equal; lia | lia].
Qed.

Lemma le_val_le_bytes n v : le_val (le_bytes n v) = v mod (256 ^ Z.of_nat n).
Proof.
  revert v. induction n as [|n IH]; intros v.
  - by rewrite Z.mod_1_r.
  - cbn [le_bytes le_val]. rewrite IH, Nat2Z.inj_succ, Z.pow_succ_r by lia.
    rewrite Z.rem_mul_r by lia. lia.
Qed.

Lemma le_val_bytes16 v : le_val (le_bytes 2 v) = u16 v.
Proof. apply le_val_le_bytes. Qed.
Lemma le_val_bytes32 v : le_val (le_bytes 4 v) = u32 v.
Proof. apply le_val_le_bytes. Qed.

Lemma get16_put16 off v b :
  (off <= length b)%nat -> get16 off (put16 off v b) = u16 v.
Proof. intros. unfold get16, put16. rewrite sub_put_same' by len. apply le_val_bytes16. Qed.

Lemma get32_put32 off v b :
  (off <= length b)%nat -> get32 off (put32 off v b) = u32 v.
Proof. intros. unfold get32, put32. rewrite sub_put_same' by len. apply le_val_bytes32. Qed.

Lemma get16_put_ne off off' bs b :
  (off' + length bs <= length b)%nat ->
  (off + 2 <= off' \/ off' + length bs <= off)%nat ->
  get16 off (put off' bs b) = get16 off b.
Proof. intros. unfold get16. by rewrite sub_put_ne. Qed.

Lemma get32_put_ne off off' bs b :
  (off' + length bs <= length b)%nat ->
  (off + 4 <= off' \/ off' + length bs <= off)%nat ->
  get32 off (put off' bs b) = get32 off b.
Proof. intros. unfold get32. by rewrite sub_put_ne. Qed.

Lemma sub_sub off n off' n' b :
  (off' + n' <= n)%nat -> sub off' n' (sub off n b) = sub (off + off') n' b.
Proof.
  intros. apply list_eq. intros i. rewrite !lookup_sub.
  repeat case_decide; try lia; try done. f_equal. lia.
Qed.

(** Bytes are in range. *)
Definition bytes_ok (b : list Z) : Prop := Forall (fun x => 0 <= x < 256) b.

Lemma bytes_ok_app a b : bytes_ok (a ++ b) <-> bytes_ok a /\ bytes_ok b.
Proof. apply Forall_app. Qed.

Lemma bytes_ok_le_bytes n v : bytes_ok (le_bytes n v).
Proof.
  revert v. induction n as [|n IH]; intros v; simpl; constructor; [|apply IH].
  by apply Z.mod_pos_bound.
Qed.

Lemma bytes_ok_zeros n : bytes_ok (zeros n).
Proof. apply Forall_replicate. lia. Qed.

Lemma bytes_ok_sub off n b : bytes_ok b -> bytes_ok (sub off n b).
Proof. intros. by apply Forall_take, Forall_drop. Qed.

Lemma bytes_ok_put off bs b : bytes_ok bs -> bytes_ok b -> bytes_ok (put off bs b).
Proof.
  intros. unfold put. rewrite !bytes_ok_app.
  split_and!; [by apply Forall_take | done | by apply Forall_drop].
Qed.
#[export] Hint Resolve bytes_ok_le_bytes bytes_ok_zeros bytes_ok_sub bytes_ok_put : rom.

Lemma le_val_range bs : bytes_ok bs -> 0 <= le_val bs < 256 ^ Z.of_nat (length bs).
Proof.
  induction 1 as [|b bs Hb _ IH]; [done|].
  cbn [le_val length]. rewrite Nat2Z.inj_succ, Z.pow_succ_r by lia. lia.
Qed.

Lemma le_bytes_le_val bs : bytes_ok bs -> le_bytes (length bs) (le_val bs) = bs.
Proof.
  induction 1 as [|b bs Hb _ IH]; [done|]. cbn [length le_bytes le_val].
  replace (b + 256 * le_val bs) with (le_val bs * 256 + b) by lia.
  rewrite Z.div_add_l, (Z.div_small b), Z.add_0_r, IH by lia. f_equal.
  rewrite Z.add_comm, Z.mod_add by lia. by apply Z.mod_small.
Qed.

Lemma get16_range off b : bytes_ok b -> 0 <= get16 off b < 65536.
Proof.
  intros Hb. pose proof (le_val_range (sub off 2 b) (bytes_ok_sub _ _ _ Hb)) as H.
  assert (length (sub off 2 b) <= 2)%nat by (unfold sub; len).
  unfold get16. split; [lia|]. eapply Z.lt_le_trans; [apply H|].
  change 65536 with (256 ^ 2). apply Z.pow_le_mono_r; lia.
Qed.

Lemma get32_range off b : bytes_ok b -> 0 <= get32 off b < 4294967296.
Proof.
  intros Hb. pose proof (le_val_range (sub off 4 b) (bytes_ok_sub _ _ _ Hb)) as H.
  assert (length (sub off 4 b) <= 4)%nat by (unfold sub; len).
  unfold get32. split; [lia|]. eapply Z.lt_le_trans; [apply H|].
  change 4294967296 with (256 ^ 4). apply Z.pow_le_mono_r; lia.
Qed.

Lemma u16_small v : 0 <= v < 65536 -> u16 v = v.
Proof. apply Z.mod_small. Qed.
Lemma u32_small v : 0 <= v < 4294967296 -> u32 v = v.
Proof. apply Z.mod_small. Qed.
Lemma u8_small v : 0 <= v < 256 -> u8 v = v.
Proof. apply Z.mod_small. Qed.
Lemma u8_bounds v : 0 <= u8 v < 256.
Proof. by apply Z.mod_pos_bound. Qed.
Lemma u16_range v : 0 <= u16 v < 65536.
Proof. apply Z.mod_pos_bound. lia. Qed.
Lemma u32_range v : 0 <= u32 v < 4294967296.
Proof. apply Z.mod_pos_bound. lia. Qed.
Lemma u32_mod v : u32 v = v mod 4294967296.
Proof. done. Qed.

(** ** Lemmas on C strings *)

Lemma str_eqb_eq a b : str_eqb a b = true <-> a = b.
Proof. unfold str_eqb. apply bool_decide_eq_true. Qed.
Lemma str_eqb_refl a : str_eqb a a = true.
Proof. by apply str_eqb_eq. Qed.

(** [nonzero s]: the characters of a C string. *)
Definition nonzero (s : list Z) : Prop := Forall (fun c => c <> 0) s.

Lemma cstr_nonzero m : nonzero (cstr m).
Proof.
  induction m as [|c m IH]; simpl; [constructor|].
  destruct (Z.eqb_spec c 0); constructor; done.
Qed.

Lemma cstr_app0 s m : nonzero s -> cstr (s ++ 0 :: m) = s.
Proof.
  induction 1 as [|c s Hc _ IH]; simpl; [done|].
  destruct (Z.eqb_spec c 0); [done | by rewrite IH].
Qed.

Lemma cstr_idem s : nonzero s -> cstr s = s.
Proof.
  induction 1 as [|c s Hc _ IH]; simpl; [done|].
  destruct (Z.eqb_spec c 0); [done | by rewrite IH].
Qed.

(** ** Bounded searches: [for (j = a; j < a + n; j++) if (f(j)) ...] *)

Lemma find_seqZ_Some f a n j :
  List.find f (seqZ a n) = Some j ->
  a <= j < a + n /\ f j = true /\ forall k, a <= k < j -> f k = false.
Proof.
  destruct (decide (0 <= n)) as [Hn|]; [|by rewrite seqZ_nil by lia].
  revert a. pattern n. apply natlike_ind; [done| |done].
  intros m Hm IH a. rewrite seqZ_cons by lia. simpl.
  rewrite Z.pred_succ. destruct (f a) eqn:E.
  - intros [= <-]. split_and!; [lia|lia|done|lia].
  - intros (Hr & Hf & Hk)%IH. split_and!; [lia|lia|done|].
    intros k ?. destruct (decide (k = a)) as [->|]; [done | apply Hk; lia].
Qed.

Lemma find_seqZ_None f a n :
  List.find f (seqZ a n) = None -> forall k, a <= k < a + n -> f k = false.
Proof.
  intros H k Hk. eapply List.find_none; [done|].
  apply list_elem_of_In, elem_of_seqZ. lia.
Qed.

(** A terminated string does not depend on the memory behind it. *)
Lemma cstr_app_stop a b : 0 ∈ a -> cstr (a ++ b) = cstr a.
Proof.
  induction a as [|c a IH]; simpl; [by intros ?%elem_of_nil|].
  intros [<-|Hin]%elem_of_cons; [done|]. destruct (c =? 0); [done|]. by rewrite IH.
Qed.

Lemma drop_sub off n b : drop off b = sub off n b ++ drop (off + n) b.
Proof. unfold sub. rewrite <- drop_drop. by rewrite take_drop. Qed.

Lemma find_ext_seqZ f g a n :
  (forall k, a <= k < a + n -> f k = g k) -> List.find f (seqZ a n) = List.find g (seqZ a n).
Proof.
  intros Hfg. assert (forall k, k ∈ seqZ a n -> f k = g k) as Hin.
  { intros k Hk%elem_of_seqZ. by apply Hfg. }
  induction (seqZ a n) as [|x l IH]; simpl; [done|].
  rewrite Hin by (apply elem_of_cons; by left). destruct (g x); [done|].
  apply IH. intros k Hk. apply Hin. apply elem_of_cons. by right.
Qed.

(** Removing one element from a list without duplicates. *)
Lemma filter_ne_id (b : Z) (l : list Z) : b ∉ l -> filter (fun i => i <> b) l = l.
Proof.
  induction l as [|x l IH]; [done|]. intros [Hne Hni]%not_elem_of_cons.
  rewrite filter_cons_True by congruence. by rewrite IH.
Qed.

Lemma length_filter_ne (b : Z) (l : list Z) :
  NoDup l -> (length l <= S (length (filter (fun i => i <> b) l)))%nat.
Proof.
  induction 1 as [|x l Hx Hnd IH]; [simpl; lia|]. destruct (decide (x = b)) as [->|Hne].
  - rewrite filter_cons_False by tauto. rewrite filter_ne_id by done. simpl. lia.
  - rewrite filter_cons_True by done. simpl. lia.
Qed.

(** ** Memory as a function *)

(** Data at an address, the rest of the memory as it was. *)
Definition stored (a : Z) (data : list Z) (f : Z -> Z) (x : Z) : Z :=
  if (a <=? x) && (x <? a + Z.of_nat (length data)) then nth (Z.to_nat (x - a)) data 0 else f x.
Lemma stored_nil a f : stored a [] f = f.
Proof.
  apply functional_extensionality. intros x. unfold stored. cbn [length].
  destruct (Z.leb_spec a x), (Z.ltb_spec x (a + Z.of_nat 0)); (done || lia).
Qed.
Lemma stored_cons a b data f : stored (a + 1) data (fun x => if x =? a then b else f x) = stored a (b :: data) f.
Proof.
  apply functional_extensionality. intros x. unfold stored. cbn [length]. rewrite Nat2Z.inj_succ.
  destruct (Z.eq_dec x a) as [->|Hx].
  - rewrite (proj2 (Z.leb_gt (a + 1) a)), (proj2 (Z.leb_le a a)), Z.eqb_refl, Z.sub_diag by lia.
    by rewrite (proj2 (Z.ltb_lt a (a + Z.succ (Z.of_nat (length data))))) by lia.
  - rewrite (proj2 (Z.eqb_neq x a) Hx). destruct (Z.leb_spec a x), (Z.leb_spec (a + 1) x); try lia; [|done].
    replace (x <? a + Z.succ (Z.of_nat (length data))) with (x <? a + 1 + Z.of_nat (length data)) by (f_equal; lia).
    replace (x - a) with (Z.succ (x - (a + 1))) by lia. by rewrite Z2Nat.inj_succ by lia.
Qed.
