(* ===== verification/CString.v ===== *)
(** * CString: the ROM's string and memory functions

    Model of [x86/common/string.c], [x86/common/memfuncs.c], [x86/common/ctype.c]
    and the macros of [x86/include/string.h] and [ctype.h].  Memory is a list of
    bytes and a pointer an index into it; both arguments of a copy point into the
    same memory, so that overlap shows.  [None] is an access outside it.  A loop
    over memory has one unit of fuel for each byte; running out of it is an access
    outside too. *)

From S2P Require Import Prelude.

Abbreviation mem := (list Z).

Definition load (m : mem) (p : nat) : option Z := m !! p.
Definition store (m : mem) (p : nat) (v : Z) : option mem :=
  if (p <? length m)%nat then Some (<[p := v]> m) else None.

(** A [char] is signed. *)
Definition s8 (c : Z) : Z := if c <? 128 then c else c - 256.

(** ** ctype *)

Definition _U : Z := 1.
Definition _L : Z := 2.
Definition _N : Z := 4.
Definition _S : Z := 8.
Definition _P : Z := 16.
Definition _C : Z := 32.
Definition _X : Z := 64.
Definition _B : Z := 128.

(** The rows of [__ctype], without its first entry (for EOF). *)
Definition ctype_table : list Z :=
  replicate 9 _C ++ [Z.lor _C (Z.lor _S _B)] ++ replicate 4 (Z.lor _C _S) ++ replicate 18 _C ++
  [Z.lor _S _B] ++ replicate 15 _P ++ replicate 10 _N ++ replicate 7 _P ++
  replicate 6 (Z.lor _U _X) ++ replicate 20 _U ++ replicate 6 _P ++
  replicate 6 (Z.lor _L _X) ++ replicate 20 _L ++ replicate 4 _P ++ [_C] ++ replicate 128 0.

(** [__ctype[c+1] & type], for an [unsigned char]. *)
Definition is_char (c type : Z) : bool :=
  negb (Z.land (default 0 (ctype_table !! Z.to_nat c)) type =? 0).

Definition isalnum (c : Z) : bool := is_char c (Z.lor _U (Z.lor _L _N)).
Definition isalpha (c : Z) : bool := is_char c (Z.lor _U _L).
Definition isascii (c : Z) : bool := is_char c (Z.lor _U (Z.lor _L (Z.lor _N (Z.lor _P _B)))).
Definition isblank (c : Z) : bool := is_char c _B.
Definition iscntrl (c : Z) : bool := is_char c _C.
Definition isdigit (c : Z) : bool := is_char c _N.
Definition islower (c : Z) : bool := is_char c _L.
Definition isprint (c : Z) : bool := is_char c (Z.lor _U (Z.lor _L (Z.lor _N (Z.lor _P _B)))).
Definition ispunct (c : Z) : bool := is_char c _P.
Definition isspace (c : Z) : bool := is_char c _S.
Definition isupper (c : Z) : bool := is_char c _U.
Definition isxdigit (c : Z) : bool := is_char c (Z.lor _N _X).

(** ** Macros of string.h *)

Definition toupper (x : Z) : Z := if (97 <=? x) && (x <=? 122) then x - 32 else x.
Definition tolower (x : Z) : Z := if (65 <=? x) && (x <=? 90) then x + 32 else x.
Definition hexatoi (x : Z) : Z :=
  if (48 <=? x) && (x <=? 57) then x - 48 else toupper x - 65 + 10.
Definition itohexa (x : Z) : Z := if (9 <=? x) && (x <=? 9) then x + 48 else x + 65 - 10.
Definition printable (x : Z) : Z := if (31 <? x) && (x <? 127) then x else 46.

(** ** memfuncs.c *)

(** [memcpy]: bytes in ascending order; the result is [reg2]. *)
Fixpoint memcpy (m : mem) (reg2 reg1 : nat) (n : nat) : option mem :=
  match n with
  | O => Some m
  | S n => c ← load m reg1; m ← store m reg2 c; memcpy m (S reg2) (S reg1) n
  end.

(** The loop of [memmove], from the last byte down. *)
Fixpoint copy_down (m : mem) (dest src : nat) (n : nat) : option mem :=
  match n with
  | O => Some m
  | S n => c ← load m (src + n)%nat; m ← store m (dest + n)%nat c; copy_down m dest src n
  end.

Definition memmove (m : mem) (dest src : nat) (n : nat) : option mem :=
  if (dest <? src)%nat then memcpy m dest src n else copy_down m dest src n.

Fixpoint memset (m : mem) (p : nat) (c : Z) (n : nat) : option mem :=
  match n with
  | O => Some m
  | S n => m ← store m p (u8 c); memset m (S p) c n
  end.

Fixpoint memcmp (m : mem) (p1 p2 : nat) (n : nat) : option Z :=
  match n with
  | O => Some 0
  | S n =>
    a ← load m p1; b ← load m p2;
    if negb (a - b =? 0) then Some (a - b) else memcmp m (S p1) (S p2) n
  end.

(** ** string.c *)

Fixpoint strlen_loop (fuel : nat) (m : mem) (str : nat) (len : Z) : option Z :=
  match fuel with
  | O => None
  | S fuel =>
    c ← load m str;
    if c =? 0 then Some len else strlen_loop fuel m (S str) (len + 1)
  end.
Definition strlen (m : mem) (str : nat) : option Z := strlen_loop (length m) m str 0.

Fixpoint strcmp_loop (fuel : nat) (m : mem) (str1 str2 : nat) : option Z :=
  match fuel with
  | O => None
  | S fuel =>
    a ← load m str1; b ← load m str2;
    if negb (a =? 0) && negb (b =? 0) && (a =? b)
    then strcmp_loop fuel m (S str1) (S str2) else Some (s8 a - s8 b)
  end.
Definition strcmp (m : mem) (str1 str2 : nat) : option Z := strcmp_loop (length m) m str1 str2.

(** The copy loop of [strcpy] and [strcat]; the result is the end of the copy. *)
Fixpoint strcpy_loop (fuel : nat) (m : mem) (str1 str2 : nat) : option (mem * nat) :=
  match fuel with
  | O => None
  | S fuel =>
    c ← load m str2;
    if c =? 0 then m ← store m str1 0; Some (m, str1)
    else m ← store m str1 c; strcpy_loop fuel m (S str1) (S str2)
  end.
Definition strcpy (m : mem) (str1 str2 : nat) : option (mem * nat) :=
  strcpy_loop (length m) m str1 str2.

(** The loop of [strncpy] and [strncat]; a negative [len] never reaches 0. *)
Fixpoint strncpy_loop (fuel : nat) (m : mem) (str1 str2 : nat) (len : Z) : option (mem * nat) :=
  match fuel with
  | O => None
  | S fuel =>
    if len =? 0 then m ← store m str1 0; Some (m, str1) else
    c ← load m str2;
    if c =? 0 then m ← store m str1 0; Some (m, str1)
    else m ← store m str1 c; strncpy_loop fuel m (S str1) (S str2) (len - 1)
  end.
Definition strncpy (m : mem) (str1 str2 : nat) (len : Z) : option (mem * nat) :=
  strncpy_loop (length m) m str1 str2 len.

(** The loop that finds the end of [str1]. *)
Definition str_end (m : mem) (str1 : nat) : option nat :=
  len ← strlen m str1; Some (str1 + Z.to_nat len)%nat.

Definition strcat (m : mem) (str1 str2 : nat) : option (mem * nat) :=
  str1 ← str_end m str1; strcpy m str1 str2.
Definition strncat (m : mem) (str1 str2 : nat) (len : Z) : option (mem * nat) :=
  str1 ← str_end m str1; strncpy m str1 str2 len.

(** The arguments are [unsigned char *]. *)
Fixpoint strncmp_loop (fuel : nat) (m : mem) (str1 str2 : nat) (n : Z) : option Z :=
  match fuel with
  | O => None
  | S fuel =>
    if n =? 0 then Some 0 else
    a ← load m str1; b ← load m str2;
    if negb (a =? 0) && negb (b =? 0) && (a =? b)
    then strncmp_loop fuel m (S str1) (S str2) (n - 1) else Some (a - b)
  end.
Definition strncmp (m : mem) (str1 str2 : nat) (n : Z) : option Z :=
  strncmp_loop (S (length m)) m str1 str2 n.

(** [new] is what [malloc] gave: [None] for NULL. *)
Definition strdup (m : mem) (new : option nat) (s : nat) : option (mem * option nat) :=
  match new with
  | None => Some (m, None)
  | Some p => '(m, _) ← strcpy m p s; Some (m, Some p)
  end.

(** [stoli]: status, value, memory (a hexadecimal string is put in upper case).
    [ctr] is an [unsigned char]. *)
Fixpoint stoli_hex (fuel : nat) (m : mem) (val : nat) (ctr addr : Z) : option (Z * Z * Z * mem) :=
  match fuel with
  | O => None
  | S fuel =>
    let p := (val + Z.to_nat ctr)%nat in
    c ← load m p;
    if c =? 0 then Some (0, ctr, addr, m) else
    m ← store m p (toupper c);
    if isxdigit (toupper c)
    then stoli_hex fuel m val (u8 (ctr + 1)) (u32 (Z.shiftl addr 4 + hexatoi (toupper c)))
    else Some (1, ctr, addr, m)
  end.

Fixpoint stoli_dec (fuel : nat) (m : mem) (val : nat) (ctr addr : Z) : option (Z * Z * Z) :=
  match fuel with
  | O => None
  | S fuel =>
    c ← load m (val + Z.to_nat ctr)%nat;
    if c =? 0 then Some (0, ctr, addr) else
    if isdigit c then stoli_dec fuel m val (u8 (ctr + 1)) (u32 (addr * 10 + hexatoi c))
    else Some (1, ctr, addr)
  end.

(** More steps than [ctr] has values: what has not ended by then never does. *)
Definition STOLI_FUEL : nat := 300.

Definition stoli (m : mem) (val : nat) : option (Z * Z * mem) :=
  x ← load m (S val);
  if (x =? 120) || (x =? 88) then
    '(st, ctr, addr, m) ← stoli_hex STOLI_FUEL m val 2 0;
    if negb (st =? 0) then Some (1, addr, m)
    else if (10 <? ctr) || (ctr =? 2) then Some (1, addr, m) else Some (0, addr, m)
  else
    '(st, ctr, addr) ← stoli_dec STOLI_FUEL m val 0 0;
    if negb (st =? 0) then Some (1, addr, m)
    else if 12 <? ctr then Some (1, addr, m) else Some (0, addr, m).

(** [itohexs]: digit [ctr] (from the right) of [val]. *)
Fixpoint itohexs_loop (m : mem) (str : nat) (val type_ : Z) (ctrs : list Z) : option mem :=
  match ctrs with
  | [] => Some m
  | ctr :: ctrs =>
    let x := Z.land (Z.shiftr val (ctr * 4)) 15 in
    m ← store m (str + Z.to_nat (type_ + 1 - ctr))%nat (u8 (itohexa x));
    itohexs_loop m str val type_ ctrs
  end.
Definition itohexs (m : mem) (str : nat) (val type_ : Z) : option mem :=
  m ← store m str 48;
  m ← store m (S str) 120;
  m ← itohexs_loop m str val type_ (seqZ 0 type_);
  store m (str + Z.to_nat type_ + 2)%nat 0.

Fixpoint catpstr_loop (n : nat) (m : mem) (ptr ptr2 : nat) : option mem :=
  match n with
  | O => store m ptr 0
  | S n =>
    c ← load m ptr2;
    m ← store m ptr (if (31 <? c) && (c <? 127) then c else 46);
    catpstr_loop n m (S ptr) (S ptr2)
  end.
Definition catpstr (m : mem) (str1 str2 : nat) : option mem :=
  ptr ← str_end m str1; catpstr_loop 4 m ptr str2.
