(* ===== verification/CStringProofs.v ===== *)
(** * CStringProofs: correctness of the string and memory functions *)

From S2P Require Import Prelude CString.

(** ** Stores and ranges *)

Lemma load_lt m p c : load m p = Some c -> (p < length m)%nat.
Proof. apply lookup_lt_Some. Qed.

Lemma store_Some m p v : (p < length m)%nat -> store m p v = Some (<[p := v]> m).
Proof. intros Hp. unfold store. by rewrite (proj2 (Nat.ltb_lt _ _) Hp). Qed.

Lemma put_nil p (m : mem) : put p [] m = m.
Proof. unfold put. simpl. by rewrite Nat.add_0_r, take_drop. Qed.

Lemma put_single p v (m : mem) : (p < length m)%nat -> <[p := v]> m = put p [v] m.
Proof.
  intros Hp. apply list_eq. intros i. rewrite lookup_put by (simpl; lia). simpl.
  destruct (decide (i = p)) as [->|Hne].
  - rewrite list_lookup_insert_eq by done. rewrite decide_True by lia. by rewrite Nat.sub_diag.
  - rewrite list_lookup_insert_ne by done. rewrite decide_False by lia. done.
Qed.

(** Storing one more byte before, or after, a stored range. *)
Lemma put_cons p v l (m : mem) :
  (p + S (length l) <= length m)%nat -> put (S p) l (<[p := v]> m) = put p (v :: l) m.
Proof.
  intros Hp. apply list_eq. intros i.
  rewrite !lookup_put by (rewrite ?length_insert; simpl; lia). simpl.
  destruct (decide (i = p)) as [->|Hne].
  - rewrite decide_False by lia. rewrite decide_True by lia.
    rewrite list_lookup_insert_eq by lia. by rewrite Nat.sub_diag.
  - rewrite list_lookup_insert_ne by done.
    destruct (decide (S p <= i < S p + length l)%nat).
    + rewrite !decide_True by lia. destruct (i - p)%nat as [|k] eqn:E; [lia|].
      by replace (i - S p)%nat with k by lia.
    + by rewrite !decide_False by lia.
Qed.

Lemma put_snoc p v l (m : mem) :
  (p + S (length l) <= length m)%nat ->
  put p l (<[(p + length l)%nat := v]> m) = put p (l ++ [v]) m.
Proof.
  intros Hp. apply list_eq. intros i.
  rewrite !lookup_put by (rewrite ?length_insert, ?length_app; simpl; lia).
  rewrite length_app. simpl. destruct (decide (i = p + length l)%nat) as [->|Hne].
  - rewrite decide_False by lia. rewrite decide_True by lia.
    rewrite list_lookup_insert_eq by lia. rewrite lookup_app_r by lia.
    by replace (p + length l - p - length l)%nat with O by lia.
  - rewrite list_lookup_insert_ne by done.
    destruct (decide (p <= i < p + length l)%nat).
    + rewrite !decide_True by lia. by rewrite lookup_app_l by lia.
    + by rewrite !decide_False by lia.
Qed.

Lemma sub_insert_out p n q v (m : mem) :
  (q < p \/ p + n <= q)%nat -> sub p n (<[q := v]> m) = sub p n m.
Proof.
  intros Hq. apply list_eq. intros i. rewrite !lookup_sub. case_decide; [|done].
  by rewrite list_lookup_insert_ne by lia.
Qed.

Lemma sub_cons p n c (m : mem) : m !! p = Some c -> sub p (S n) m = c :: sub (S p) n m.
Proof. intros Hc. unfold sub. by rewrite (drop_S _ _ _ Hc). Qed.

Lemma sub_snoc p n c (m : mem) :
  m !! (p + n)%nat = Some c -> sub p (S n) m = sub p n m ++ [c].
Proof.
  intros Hc. unfold sub. apply take_S_r. by rewrite lookup_drop.
Qed.

(** ** Copies *)

Lemma memcpy_spec m reg2 reg1 n :
  (reg1 + n <= length m)%nat -> (reg2 + n <= length m)%nat ->
  (reg2 <= reg1 \/ reg1 + n <= reg2)%nat ->
  memcpy m reg2 reg1 n = Some (put reg2 (sub reg1 n m) m).
Proof.
  revert m reg2 reg1. induction n as [|n IH]; intros m reg2 reg1 H1 H2 Hov.
  { simpl. by rewrite put_nil. }
  cbn [memcpy]. unfold load. destruct (lookup_lt_is_Some_2 m reg1) as [c Hc]; [lia|].
  rewrite Hc. cbn [mbind option_bind]. rewrite store_Some by lia. cbn [mbind option_bind].
  rewrite IH by (rewrite ?length_insert; lia). rewrite sub_insert_out by lia.
  rewrite (sub_cons reg1 n c m Hc). f_equal. apply put_cons. rewrite length_sub; lia.
Qed.

Lemma copy_down_spec m dest src n :
  (src + n <= length m)%nat -> (dest + n <= length m)%nat -> (src <= dest)%nat ->
  copy_down m dest src n = Some (put dest (sub src n m) m).
Proof.
  revert m. induction n as [|n IH]; intros m H1 H2 Hov.
  { simpl. by rewrite put_nil. }
  cbn [copy_down]. unfold load. destruct (lookup_lt_is_Some_2 m (src + n)%nat) as [c Hc]; [lia|].
  rewrite Hc. cbn [mbind option_bind]. rewrite store_Some by lia. cbn [mbind option_bind].
  rewrite IH by (rewrite ?length_insert; lia). rewrite sub_insert_out by lia.
  rewrite (sub_snoc src n c m Hc). f_equal.
  assert (length (sub src n m) = n) as Hl by (apply length_sub; lia).
  rewrite <- put_snoc by (rewrite Hl; lia). by rewrite Hl.
Qed.

Lemma memmove_spec m dest src n :
  (src + n <= length m)%nat -> (dest + n <= length m)%nat ->
  memmove m dest src n = Some (put dest (sub src n m) m).
Proof.
  intros H1 H2. unfold memmove. destruct (Nat.ltb_spec dest src).
  - apply memcpy_spec; lia.
  - by apply copy_down_spec.
Qed.

Lemma memset_spec m p c n :
  (p + n <= length m)%nat -> memset m p c n = Some (put p (replicate n (u8 c)) m).
Proof.
  revert m p. induction n as [|n IH]; intros m p Hp; [simpl; by rewrite put_nil|].
  cbn [memset]. rewrite store_Some by lia. cbn [mbind option_bind].
  rewrite IH by (rewrite ?length_insert; lia). f_equal.
  cbn [replicate]. apply put_cons. rewrite length_replicate. lia.
Qed.

(** ** Strings in memory *)

(** The string [s] is at [p], with its terminating zero. *)
Record str_at (m : mem) (p : nat) (s : list Z) : Prop := {
  sa_nonzero : nonzero s;
  sa_bytes : sub p (length s + 1) m = s ++ [0];
}.

Lemma str_at_lookup m p s i :
  str_at m p s -> (i <= length s)%nat -> m !! (p + i)%nat = (s ++ [0]) !! i.
Proof.
  intros [_ Hb] Hi. rewrite <- Hb, lookup_sub. by rewrite decide_True by lia.
Qed.

Lemma str_at_end m p s : str_at m p s -> (p + length s < length m)%nat.
Proof.
  intros Hs. apply (lookup_lt_Some m _ 0). rewrite (str_at_lookup m p s) by done.
  by rewrite lookup_app_r, Nat.sub_diag by done.
Qed.

Lemma str_at_nil m p : str_at m p [] -> load m p = Some 0.
Proof.
  intros Hs. unfold load. pose proof (str_at_lookup m p [] 0 Hs) as Hl.
  rewrite Nat.add_0_r in Hl. rewrite Hl; done.
Qed.

Lemma str_at_cons m p c s :
  str_at m p (c :: s) -> load m p = Some c /\ c <> 0 /\ str_at m (S p) s.
Proof.
  intros Hs. pose proof (str_at_lookup m p _ 0 Hs ltac:(lia)) as Hc. rewrite Nat.add_0_r in Hc.
  simpl in Hc. destruct Hs as [Hnz Hb]. inversion Hnz; subst. split; [done|]. split; [done|].
  split; [done|]. simpl in Hb. rewrite (sub_cons p _ c m Hc) in Hb. by injection Hb.
Qed.

Lemma str_at_insert m p s q v :
  (q < p \/ p + length s < q)%nat -> str_at m p s -> str_at (<[q := v]> m) p s.
Proof. intros Hq [Hnz Hb]. split; [done|]. rewrite sub_insert_out; [done|lia]. Qed.

Lemma strlen_loop_spec fuel m p s len :
  str_at m p s -> (length s < fuel)%nat ->
  strlen_loop fuel m p len = Some (len + Z.of_nat (length s)).
Proof.
  revert fuel p len. induction s as [|c s IH]; intros fuel p len Hs Hf;
    (destruct fuel as [|fuel]; [simpl in Hf; lia|]); cbn [strlen_loop].
  - rewrite (str_at_nil m p Hs). cbn. f_equal. lia.
  - destruct (str_at_cons m p c s Hs) as (-> & Hc & Hs'). cbn [mbind option_bind].
    rewrite (proj2 (Z.eqb_neq c 0) Hc). rewrite IH by (done || simpl in Hf; lia).
    f_equal. simpl length. lia.
Qed.

Lemma strlen_spec m p s : str_at m p s -> strlen m p = Some (Z.of_nat (length s)).
Proof.
  intros Hs. unfold strlen. rewrite (strlen_loop_spec _ m p s) by
    (done || (pose proof (str_at_end m p s Hs); lia)). done.
Qed.

Lemma strcpy_loop_spec fuel m dst src s :
  str_at m src s -> (length s < fuel)%nat -> (dst + length s < length m)%nat ->
  (dst <= src \/ src + length s < dst)%nat ->
  strcpy_loop fuel m dst src = Some (put dst (s ++ [0]) m, (dst + length s)%nat).
Proof.
  revert fuel m dst src. induction s as [|c s IH]; intros fuel m dst src Hs Hf Hd Hov;
    (destruct fuel as [|fuel]; [simpl in Hf; lia|]); cbn [strcpy_loop].
  - rewrite (str_at_nil m src Hs). cbn [mbind option_bind]. simpl in Hd.
    rewrite Z.eqb_refl, store_Some by lia. cbn [mbind option_bind].
    rewrite put_single by lia. by rewrite Nat.add_0_r.
  - destruct (str_at_cons m src c s Hs) as (-> & Hc & Hs'). cbn [mbind option_bind].
    simpl in Hf, Hd, Hov. rewrite (proj2 (Z.eqb_neq c 0) Hc), store_Some by lia.
    cbn [mbind option_bind].
    rewrite IH; [|apply str_at_insert; [lia|done]|lia|rewrite length_insert; lia|lia].
    rewrite put_cons by (rewrite length_app; simpl; lia). simpl. do 2 f_equal. lia.
Qed.

Lemma strncpy_loop_spec fuel m dst src s n :
  str_at m src s -> 0 <= n -> (length s < fuel)%nat ->
  let k := Nat.min (Z.to_nat n) (length s) in
  (dst + k < length m)%nat -> (dst <= src \/ src + length s < dst)%nat ->
  strncpy_loop fuel m dst src n = Some (put dst (take (Z.to_nat n) s ++ [0]) m, (dst + k)%nat).
Proof.
  revert fuel m dst src n. induction s as [|c s IH]; intros fuel m dst src n Hs Hn Hf k Hd Hov;
    (destruct fuel as [|fuel]; [simpl in Hf; lia|]); cbn [strncpy_loop]; unfold k in *.
  - simpl length in *. rewrite Nat.min_0_r in *. rewrite (str_at_nil m src Hs). cbn [mbind option_bind].
    rewrite Z.eqb_refl, store_Some by lia. cbn [mbind option_bind].
    rewrite put_single by lia. rewrite take_nil, Nat.add_0_r. by destruct (n =? 0).
  - destruct (Z.eqb_spec n 0) as [->|Hnz].
    { cbn [Z.to_nat Nat.min take] in *. rewrite store_Some by lia. cbn [mbind option_bind].
      rewrite put_single by lia. by rewrite Nat.add_0_r. }
    destruct (str_at_cons m src c s Hs) as (-> & Hc & Hs'). cbn [mbind option_bind].
    simpl length in *. rewrite (proj2 (Z.eqb_neq c 0) Hc), store_Some by lia.
    cbn [mbind option_bind].
    rewrite IH; [|apply str_at_insert; [lia|done]|lia|lia|rewrite length_insert; lia|lia].
    replace (Z.to_nat n) with (S (Z.to_nat (n - 1))) by lia. cbn [take].
    rewrite put_cons by (rewrite length_app, length_take; simpl; lia).
    simpl. do 2 f_equal. lia.
Qed.

(** ** Comparison *)

Lemma s8_inj a b : 0 <= a < 256 -> 0 <= b < 256 -> s8 a - s8 b = 0 -> a = b.
Proof. unfold s8. intros. destruct (Z.ltb_spec a 128), (Z.ltb_spec b 128); lia. Qed.

Lemma strcmp_loop_spec fuel m p q a b :
  str_at m p a -> str_at m q b -> bytes_ok a -> bytes_ok b -> (length a < fuel)%nat ->
  exists r, strcmp_loop fuel m p q = Some r /\ (r = 0 <-> a = b).
Proof.
  revert fuel p q b. induction a as [|x a IH]; intros fuel p q b Ha Hb Hxa Hyb Hf;
    (destruct fuel as [|fuel]; [simpl in Hf; lia|]); cbn [strcmp_loop].
  - rewrite (str_at_nil m p Ha). cbn [mbind option_bind]. destruct b as [|y b].
    + rewrite (str_at_nil m q Hb). by exists 0.
    + destruct (str_at_cons m q y b Hb) as (-> & Hy & _). cbn [mbind option_bind].
      exists (s8 0 - s8 y). split; [done|]. inversion Hyb; subst.
      split; [|done]. intros E%s8_inj; [congruence|lia|done].
  - destruct (str_at_cons m p x a Ha) as (-> & Hx & Ha'). cbn [mbind option_bind].
    inversion Hxa; subst. rewrite (proj2 (Z.eqb_neq x 0) Hx). destruct b as [|y b].
    + rewrite (str_at_nil m q Hb). cbn [mbind option_bind]. exists (s8 x - s8 0).
      rewrite andb_false_r. split; [done|]. split; [|done]. intros E%s8_inj; [done|done|lia].
    + destruct (str_at_cons m q y b Hb) as (-> & Hy & Hb'). cbn [mbind option_bind].
      inversion Hyb; subst. rewrite (proj2 (Z.eqb_neq y 0) Hy). cbn [negb andb].
      destruct (Z.eqb_spec x y) as [->|Hne].
      * destruct (IH fuel (S p) (S q) b) as (r & -> & Hr); [done..|simpl in Hf; lia|].
        exists r. split; [done|]. rewrite Hr. split; [by intros ->|by intros [= ->]].
      * exists (s8 x - s8 y). split; [done|]. split; [|congruence]. by intros E%s8_inj.
Qed.

(** Memory that is filled from a place on. *)
Lemma store_at (m acc : list Z) c : take (length acc) m = acc -> (length acc < length m)%nat ->
  exists m', store m (length acc) c = Some m' /\ take (length (acc ++ [c])) m' = acc ++ [c] /\ length m' = length m.
Proof.
  intros Ht Hl. unfold store. rewrite (proj2 (Nat.ltb_lt _ _) Hl). eexists. split; [done|].
  rewrite length_insert. split; [|done]. rewrite length_app. cbn [length]. rewrite Nat.add_1_r.
  rewrite (take_S_r _ _ c); [|by rewrite list_lookup_insert_eq]. by rewrite take_insert_ge, Ht.
Qed.

Lemma take_str_at m s : Forall (fun c => c <> 0) s -> take (length (s ++ [0])) m = s ++ [0] -> str_at m 0 s.
Proof. intros Hn Ht. split; [done|]. unfold sub. rewrite drop_0, <- Ht, length_app. f_equal. Qed.

(** ** Numbers *)

(** The characters of decimal digits, and their value. *)
Definition digit_chars (ds : list Z) : list Z := map (fun d => 48 + d) ds.
Definition dec_value (acc : Z) (ds : list Z) : Z := foldl (fun a d => a * 10 + d) acc ds.
Definition is_digits (ds : list Z) : Prop := Forall (fun d => 0 <= d < 10) ds.

Lemma digit_char d : 0 <= d < 10 -> isdigit (48 + d) = true /\ hexatoi (48 + d) = d /\ 48 + d <> 0.
Proof.
  intros Hd. split_and!; [|unfold hexatoi|lia].
  - assert (d = 0 \/ d = 1 \/ d = 2 \/ d = 3 \/ d = 4 \/ d = 5 \/ d = 6 \/ d = 7 \/ d = 8 \/ d = 9)
      as Hc by lia.
    repeat destruct Hc as [-> | Hc]; [reflexivity..|]. by rewrite Hc.
  - rewrite (proj2 (Z.leb_le _ _)), (proj2 (Z.leb_le _ _)) by lia. simpl. lia.
Qed.

Lemma u32_step a d : u32 (u32 a * 10 + d) = u32 (a * 10 + d).
Proof. unfold u32. by rewrite Z.add_mod, Z.mul_mod_idemp_l, <- Z.add_mod by lia. Qed.

Lemma stoli_dec_spec fuel m val ctr addr ds :
  str_at m (val + Z.to_nat ctr) (digit_chars ds) -> is_digits ds -> (length ds < fuel)%nat ->
  0 <= ctr -> ctr + Z.of_nat (length ds) < 256 ->
  stoli_dec fuel m val ctr (u32 addr) =
    Some (0, ctr + Z.of_nat (length ds), u32 (dec_value addr ds)).
Proof.
  revert fuel ctr addr. induction ds as [|d ds IH]; intros fuel ctr addr Hs Hd Hf Hc Hlen;
    (destruct fuel as [|fuel]; [simpl in Hf; lia|]); cbn [stoli_dec].
  - rewrite (str_at_nil m _ Hs). cbn. by rewrite Z.add_0_r.
  - inversion Hd as [|? ? Hd0 Hds]; subst. destruct (digit_char d Hd0) as (Hdig & Hval & Hnz).
    destruct (str_at_cons m _ (48 + d) (digit_chars ds) Hs) as (-> & _ & Hs').
    cbn [mbind option_bind]. rewrite (proj2 (Z.eqb_neq _ 0) Hnz), Hdig, Hval, u32_step.
    simpl length in Hf, Hlen. assert (u8 (ctr + 1) = ctr + 1) as Hu by (apply Z.mod_small; lia).
    rewrite Hu, IH; [|by rewrite Z2Nat.inj_add, Nat.add_1_r, Nat.add_succ_r by lia|done|lia|lia|lia].
    cbn [dec_value foldl length]. do 3 f_equal. lia.
Qed.

Lemma digit_chars_nonzero ds : is_digits ds -> nonzero (digit_chars ds).
Proof. intros Hd. apply Forall_map. eapply Forall_impl; [exact Hd|]. simpl. lia. Qed.

(** ** Properties *)

(** [strcpy] copies a string.  When the target is inside memory and does not
    begin inside the source, it holds the string and its terminator afterwards, all
    other bytes are unchanged, and the result is the address of the terminator. *)
Theorem strcpy_copies m dst src s :
  str_at m src s -> (dst + length s < length m)%nat -> (dst <= src \/ src + length s < dst)%nat ->
  strcpy m dst src = Some (put dst (s ++ [0]) m, (dst + length s)%nat) /\
  str_at (put dst (s ++ [0]) m) dst s.
Proof.
  intros Hs Hd Hov. pose proof (str_at_end m src s Hs). split.
  - apply strcpy_loop_spec; done || lia.
  - split; [apply Hs|]. apply sub_put_same'; [by rewrite length_app|lia].
Qed.

(** [memmove] handles overlap: for any two ranges inside memory, the target
    range holds what the source range held, and nothing else changes. *)
Theorem memmove_copies m dest src n :
  (src + n <= length m)%nat -> (dest + n <= length m)%nat ->
  memmove m dest src n = Some (put dest (sub src n m) m).
Proof. apply memmove_spec. Qed.

(** [strcmp] gives 0 exactly for equal strings. *)
Theorem strcmp_equal m p q a b :
  str_at m p a -> str_at m q b -> bytes_ok a -> bytes_ok b ->
  exists r, strcmp m p q = Some r /\ (r = 0 <-> a = b).
Proof.
  intros Ha Hb Hxa Hxb. pose proof (str_at_end m p a Ha).
  apply strcmp_loop_spec; done || lia.
Qed.

(** [strncpy] is not the library function: for a string of at least [n]
    characters it writes [n + 1] bytes, a zero past the [n] it was given. *)
Theorem strncpy_overruns m dst src s n :
  str_at m src s -> 0 <= n <= Z.of_nat (length s) -> (dst + Z.to_nat n < length m)%nat ->
  (dst <= src \/ src + length s < dst)%nat ->
  exists m', strncpy m dst src n = Some (m', (dst + Z.to_nat n)%nat) /\
    m' = put dst (take (Z.to_nat n) s ++ [0]) m /\ m' !! (dst + Z.to_nat n)%nat = Some 0.
Proof.
  intros Hs Hn Hd Hov. pose proof (str_at_end m src s Hs). eexists. split; [|split; [done|]].
  - unfold strncpy. rewrite (strncpy_loop_spec _ m dst src s n) by (done || lia).
    do 2 f_equal. lia.
  - assert (length (take (Z.to_nat n) s) = Z.to_nat n) as Hl by (rewrite length_take; lia).
    rewrite lookup_put by (rewrite length_app, Hl; simpl; lia).
    rewrite decide_True by (rewrite length_app, Hl; simpl; lia).
    by rewrite lookup_app_r, Hl, Nat.add_sub', Nat.sub_diag by lia.
Qed.

Lemma stoli_spec m p ds :
  str_at m p (digit_chars ds) -> is_digits ds -> (1 <= length ds <= 255)%nat ->
  stoli m p = Some (if (length ds <=? 12)%nat then 0 else 1, u32 (dec_value 0 ds), m).
Proof.
  intros Hs Hd Hlen. unfold stoli. destruct ds as [|d ds]; [simpl in Hlen; lia|].
  destruct (str_at_cons m p _ _ Hs) as (_ & _ & Hs1).
  assert (exists x, load m (S p) = Some x /\ x <> 120 /\ x <> 88) as (x & -> & Hx1 & Hx2).
  { inversion Hd as [|? ? _ Hds]; subst. destruct ds as [|e ds].
    - exists 0. by rewrite (str_at_nil m _ Hs1).
    - destruct (str_at_cons m (S p) _ _ Hs1) as (-> & _). inversion Hds; subst.
      exists (48 + e). split_and!; [done|lia|lia]. }
  cbn [mbind option_bind].
  rewrite (proj2 (Z.eqb_neq x 120) Hx1), (proj2 (Z.eqb_neq x 88) Hx2). cbn [orb].
  pose proof (stoli_dec_spec STOLI_FUEL m p 0 0 (d :: ds)) as E. change (u32 0) with 0 in E.
  rewrite E; [|by rewrite Nat.add_0_r|done|unfold STOLI_FUEL; lia|lia|lia].
  cbn [mbind option_bind]. rewrite Z.add_0_l. change (negb (0 =? 0)) with false. cbv iota.
  destruct (Nat.leb_spec (length (d :: ds)) 12), (Z.ltb_spec 12 (Z.of_nat (length (d :: ds))));
    done || lia.
Qed.

(** Hexadecimal digits, the most significant first, and their characters. *)
Definition hex_char (d : Z) : Z := if d <? 10 then 48 + d else 87 + d.
Fixpoint hex_digits (n : nat) (v : Z) : list Z :=
  match n with O => [] | S n => (v / 16 ^ Z.of_nat n) mod 16 :: hex_digits n v end.
Definition hex_value (acc : Z) (ds : list Z) : Z := foldl (fun a d => a * 16 + d) acc ds.
Definition is_hex (ds : list Z) : Prop := Forall (fun d => 0 <= d < 16) ds.

Definition hex_facts (d : Z) : bool :=
  isxdigit (toupper (hex_char d)) && (hexatoi (toupper (hex_char d)) =? d) && isxdigit (hex_char d) &&
  (48 <=? hex_char d) && (hex_char d <? 128) && negb (hex_char d =? 0).
Lemma hex_char_facts d : 0 <= d < 16 -> hex_facts d = true.
Proof.
  intros Hd. assert (forallb hex_facts (seqZ 0 16) = true) as H by reflexivity.
  rewrite forallb_forall in H. apply H, list_elem_of_In, elem_of_seqZ. lia.
Qed.
Lemma hex_char_ok d : 0 <= d < 16 ->
  isxdigit (toupper (hex_char d)) = true /\ hexatoi (toupper (hex_char d)) = d /\
  isxdigit (hex_char d) = true /\ 48 <= hex_char d < 128.
Proof. intros Hd. pose proof (hex_char_facts d Hd) as H. unfold hex_facts in H. rewrite !andb_true_iff in H. destruct_and!. split_and!; (done || lia). Qed.

Lemma hex_digits_length n v : length (hex_digits n v) = n.
Proof. induction n as [|n IH]; [done|]. simpl. by rewrite IH. Qed.
Lemma hex_digits_is_hex n v : is_hex (hex_digits n v).
Proof. induction n as [|n IH]; constructor; [|done]. by apply Z.mod_pos_bound. Qed.
Lemma hex_digits_value n v acc : hex_value acc (hex_digits n v) = acc * 16 ^ Z.of_nat n + v mod 16 ^ Z.of_nat n.
Proof.
  revert acc. induction n as [|n IH]; intros acc; [by rewrite Z.mod_1_r; simpl; lia|].
  unfold hex_value in *. cbn [hex_digits foldl]. rewrite IH, Nat2Z.inj_succ, Z.pow_succ_r by lia.
  rewrite (Z.mul_comm 16), Z.rem_mul_r by lia. lia.
Qed.

Lemma u32_step16 a d : u32 (Z.shiftl (u32 a) 4 + d) = u32 (a * 16 + d).
Proof.
  rewrite Z.shiftl_mul_pow2 by lia. change (2 ^ 4) with 16.
  unfold u32. by rewrite Z.add_mod, Z.mul_mod_idemp_l, <- Z.add_mod by lia.
Qed.

Lemma str_at_store m p q s c m' : str_at m p s -> (q < p)%nat -> store m q c = Some m' -> str_at m' p s.
Proof.
  intros [Hnz Hs] Hq. unfold store. destruct (q <? length m)%nat; [|done]. intros [= <-]. split; [done|].
  rewrite <- Hs. unfold sub. rewrite drop_insert_lt by lia. done.
Qed.

Lemma stoli_hex_spec fuel m val ctr addr ds :
  str_at m (val + Z.to_nat ctr) (map hex_char ds) -> is_hex ds -> 0 <= ctr -> ctr + Z.of_nat (length ds) < 256 ->
  (length ds < fuel)%nat ->
  exists m', stoli_hex fuel m val ctr (u32 addr) = Some (0, ctr + Z.of_nat (length ds), u32 (hex_value addr ds), m') /\
    length m' = length m.
Proof.
  revert fuel m ctr addr. induction ds as [|d ds IH]; intros fuel m ctr addr Hs Hd Hc Hlen Hf;
    (destruct fuel as [|fuel]; [simpl in Hf; lia|]); cbn [stoli_hex map] in *.
  - rewrite (str_at_nil _ _ Hs). cbn. exists m. by rewrite Z.add_0_r.
  - destruct (str_at_cons _ _ _ _ Hs) as (E & Hnz & Hs'). rewrite E. cbn [mbind option_bind].
    inversion Hd as [|? ? Hd0 Hds]; subst. destruct (hex_char_ok d Hd0) as (H1 & H2 & H3 & H4).
    rewrite (proj2 (Z.eqb_neq _ 0) Hnz). cbn [length] in Hlen, Hf.
    assert (exists m1, store m (val + Z.to_nat ctr) (toupper (hex_char d)) = Some m1 /\ length m1 = length m) as (m1 & E1 & Hm1).
    { unfold store. pose proof (lookup_lt_Some _ _ _ E) as Hlt. rewrite (proj2 (Nat.ltb_lt _ _) Hlt).
      eexists. split; [done|]. by rewrite length_insert. }
    rewrite E1. cbn [mbind option_bind]. rewrite H1, H2, u32_step16.
    rewrite u8_small by lia.
    assert (val + Z.to_nat (ctr + 1) = S (val + Z.to_nat ctr))%nat as Hp by lia.
    destruct (IH fuel m1 (ctr + 1) (addr * 16 + d)) as (m' & -> & Hm').
    + rewrite Hp. eapply str_at_store; [exact Hs'| |exact E1]. lia.
    + done.
    + lia.
    + lia.
    + lia.
    + exists m'. split; [|by rewrite Hm']. cbn [length]. by replace (ctr + Z.of_nat (S (length ds))) with (ctr + 1 + Z.of_nat (length ds)) by lia.
Qed.

(** A number written with "0x" and up to eight digits. *)
Lemma stoli_hex_number m p ds :
  str_at m p (48 :: 120 :: map hex_char ds) -> is_hex ds -> (1 <= length ds <= 8)%nat ->
  exists m', stoli m p = Some (0, u32 (hex_value 0 ds), m') /\ length m' = length m.
Proof.
  intros Hs Hd Hlen. unfold stoli. destruct (str_at_cons _ _ _ _ Hs) as (_ & _ & Hs1).
  destruct (str_at_cons _ _ _ _ Hs1) as (-> & _ & Hs2). cbn [mbind option_bind].
  change ((120 =? 120) || (120 =? 88)) with true. cbv iota.
  destruct (stoli_hex_spec STOLI_FUEL m p 2 0 ds) as (m' & E & Hm'); [|done|lia|lia|unfold STOLI_FUEL; lia|].
  { by replace (p + Z.to_nat 2)%nat with (S (S p)) by lia. }
  change (u32 0) with 0 in E. rewrite E. cbn [mbind option_bind]. change (negb (0 =? 0)) with false. cbv iota.
  rewrite (proj2 (Z.ltb_ge _ _)), (proj2 (Z.eqb_neq _ _)) by lia. by exists m'.
Qed.

(** [stoli] reads decimal numbers: for a string of 1 to 12 digits it succeeds
    with the value of the digits modulo 2^32 (12 digits can overflow 32 bits, which
    is not reported); for 13 to 255 digits it reports a bad string. *)
Theorem stoli_decimal m p ds :
  str_at m p (digit_chars ds) -> is_digits ds -> (1 <= length ds <= 255)%nat ->
  stoli m p = Some (if (length ds <=? 12)%nat then 0 else 1, u32 (dec_value 0 ds), m).
Proof. apply stoli_spec. Qed.

(** [itohexa] is the hexadecimal digit of its argument only from 9 on: its
    test for a decimal digit is [x >= 9 && x <= 9]. *)
Theorem itohexa_digit x :
  0 <= x < 16 ->
  itohexa x = (if x <? 10 then 48 + x else 55 + x) <-> 9 <= x.
Proof.
  intros Hx. unfold itohexa.
  destruct (Z.leb_spec 9 x), (Z.leb_spec x 9), (Z.ltb_spec x 10); simpl; lia.
Qed.

(** ** At concrete memories *)

Lemma strcpy_copies_witness :
  strcpy [97; 98; 0; 1; 1; 1; 1] 3 0 = Some ([97; 98; 0; 97; 98; 0; 1], 5%nat) /\
  str_at [97; 98; 0; 97; 98; 0; 1] 3 [97; 98].
Proof.
  apply (strcpy_copies [97; 98; 0; 1; 1; 1; 1] 3 0 [97; 98]); [|simpl; lia|simpl; lia].
  split; [by repeat constructor|done].
Defined.

Lemma memmove_copies_witness : memmove [1; 2; 3; 4; 5; 6] 2 0 4 = Some [1; 2; 1; 2; 3; 4].
Proof. apply (memmove_copies [1; 2; 3; 4; 5; 6] 2 0 4); simpl; lia. Defined.

Lemma strcmp_equal_witness :
  exists r, strcmp [97; 0; 98; 0] 0 2 = Some r /\ (r = 0 <-> [97] = [98]).
Proof.
  apply (strcmp_equal [97; 0; 98; 0] 0 2 [97] [98]);
    [split; [by repeat constructor|done]..|repeat constructor; lia|repeat constructor; lia].
Defined.

Lemma strncpy_overruns_witness :
  exists m', strncpy [97; 98; 0; 1; 1; 1; 1] 3 0 2 = Some (m', 5%nat) /\
    m' = [97; 98; 0; 97; 98; 0; 1] /\ m' !! 5%nat = Some 0.
Proof.
  apply (strncpy_overruns [97; 98; 0; 1; 1; 1; 1] 3 0 [97; 98] 2); [|simpl; lia..].
  split; [by repeat constructor|done].
Defined.

Lemma stoli_decimal_witness : stoli [49; 50; 51; 0] 0 = Some (0, 123, [49; 50; 51; 0]).
Proof.
  apply (stoli_decimal [49; 50; 51; 0] 0 [1; 2; 3]).
  - split; [by repeat constructor|done].
  - repeat constructor; lia.
  - simpl; lia.
Defined.

Lemma itohexa_digit_witness : itohexa 4 = (if 4 <? 10 then 48 + 4 else 55 + 4) <-> 9 <= 4.
Proof. apply (itohexa_digit 4). lia. Defined.
