(* ===== verification/Strbuf.v ===== *)
(** * Strbuf: string buffers

    Model of [x86/common/strbuf.c].  A buffer's storage is the list of its bytes, or
    [None] for a null pointer.  The allocator is an argument: [malloc n] is the
    storage of [n] bytes it gives, with whatever they hold, or [None].  The result
    [None] of an operation is an access outside the storage. *)

From S2P Require Import Prelude CString CStringProofs.

Definition STRBUF_GROW : Z := -2.
Definition STRBUF_FIXED : Z := -1.

Record strbuf := mk_strbuf { len : Z; max : Z; buf : option (list Z) }.

Definition STRBUF_HAS_MAX (b : strbuf) : bool := 0 <=? max b.

(** [strlen] of a string given by its bytes. *)
Definition slen (str : list Z) : Z := Z.of_nat (length (cstr str)).

(** Bytes stored from position [p] on. *)
Definition store_bytes (m : list Z) (p : nat) (bs : list Z) : option (list Z) :=
  if (p + length bs <=? length m)%nat then Some (put p bs m) else None.

Section Strbuf.
Variable malloc : Z -> option (list Z).

(** [realloc]: the bytes of the old storage that fit are kept. *)
Definition realloc (b : option (list Z)) (n : Z) : option (list Z) :=
  g ← malloc n;
  Some (match b with
        | None => g
        | Some m => take (length g) m ++ drop (length m) g
        end).

Definition strbuf_init (str : option (list Z)) (mx : Z) : option (Z * strbuf) :=
  let b := mk_strbuf 0 mx str in
  if bool_decide (str = None) && STRBUF_HAS_MAX b then
    match malloc (mx + 1) with
    | None => Some (-1, mk_strbuf 0 mx None)
    | Some m => m ← store m 0 0; Some (0, mk_strbuf 0 mx (Some m))
    end
  else
    match str with
    | None => Some (0, b)
    | Some m => m ← store m 0 0; Some (0, mk_strbuf 0 mx (Some m))
    end.

(** The loop of [strbuf_append]: [p] is always at position [len]. *)
Fixpoint append_loop (l mx : Z) (m q : list Z) (n : Z) : option (Z * Z * list Z) :=
  let stop := m ← store m (Z.to_nat l) 0; Some (n, l, m) in
  match q with
  | [] => stop
  | c :: q =>
    if negb (c =? 0) && ((mx <? 0) || (l <? mx))
    then m ← store m (Z.to_nat l) c; append_loop (l + 1) mx m q (n + 1)
    else stop
  end.

Definition strbuf_append (b : strbuf) (str : list Z) : option (Z * strbuf) :=
  match (if max b =? STRBUF_GROW then realloc (buf b) (len b + slen str + 1) else Some [])  with
  | None => Some (-1, b)
  | Some new =>
    m ← (if max b =? STRBUF_GROW then Some new else buf b);
    '(n, l, m) ← append_loop (len b) (max b) m str 0;
    Some (n, mk_strbuf l (max b) (Some m))
  end.

Definition strbuf_appendc (b : strbuf) (c : Z) : option (Z * strbuf) := strbuf_append b [c; 0].

Definition strbuf_insert (b : strbuf) (idx : Z) (str : list Z) : option (Z * strbuf) :=
  if (len b <? idx) || (idx <? 0) then Some (0, b) else
  match (if max b =? STRBUF_GROW then realloc (buf b) (len b + 1 + slen str) else Some []) with
  | None => Some (-1, b)
  | Some new =>
    m ← (if max b =? STRBUF_GROW
         then if bool_decide (buf b = None) then store new 0 0 else Some new
         else buf b);
    let src := Z.to_nat idx in
    let dest := (src + Z.to_nat (slen str))%nat in
    let '(n, l) :=
      if STRBUF_HAS_MAX b && (max b <? len b + slen str)
      then (Z.max 0 (len b - idx - slen str), len b)
      else (len b - idx + 1, len b + slen str) in
    m ← memmove m dest src (Z.to_nat n);
    m ← store_bytes m src (cstr str);
    Some (slen str, mk_strbuf l (max b) (Some m))
  end.

Definition strbuf_insertc (b : strbuf) (idx c : Z) : option (Z * strbuf) :=
  strbuf_insert b idx [c; 0].

(** A negative length is a huge one for [memmove]. *)
Definition strbuf_delete (b : strbuf) (idx nchars : Z) : option (Z * strbuf) :=
  if (len b <=? idx) || (idx <? 0) then Some (0, b) else
  m ← buf b;
  let n := len b - idx - nchars + 1 in
  if (n <? 0) || (idx + nchars <? 0) then None else
  m ← memmove m (Z.to_nat idx) (Z.to_nat (idx + nchars)) (Z.to_nat n);
  if max b =? STRBUF_GROW then
    match realloc (Some m) (len b + 1 - nchars) with
    | None => Some (-1, mk_strbuf (len b) (max b) (Some m))
    | Some new => Some (nchars, mk_strbuf (len b - nchars) (max b) (Some new))
    end
  else Some (nchars, mk_strbuf (len b - nchars) (max b) (Some m)).

Definition strbuf_deletec (b : strbuf) (idx : Z) : option (Z * strbuf) := strbuf_delete b idx 1.
End Strbuf.

(** * buffers hold strings

    [holds b s]: the buffer [b] is well-formed and its string is [s].  The
    operations are those of lists, up to the limit of the buffer and the failure of
    the allocator. *)

(** With a limit, the string is within it and the storage has room for it and a
    terminator; only a growing buffer may have no storage. *)
Definition holds (b : strbuf) (s : list Z) : Prop :=
  nonzero s /\ len b = Z.of_nat (length s) /\
  match buf b with
  | None => s = [] /\ max b = STRBUF_GROW
  | Some m => exists rest, m = s ++ 0 :: rest /\
      (0 <= max b -> Z.of_nat (length s) <= max b < Z.of_nat (length m))
  end.

(** What [strbuf_append] adds of [t]. *)
Definition clip (b : strbuf) (t : list Z) : list Z :=
  if STRBUF_HAS_MAX b then take (Z.to_nat (max b - len b)) t else t.

(** The storage of a buffer that does not grow has room for [n] more characters. *)
Definition fits (b : strbuf) (n : nat) : Prop :=
  max b <> STRBUF_GROW ->
  exists m, buf b = Some m /\ (Z.to_nat (len b) + n < length m)%nat.

Lemma cstr_str t : nonzero t -> cstr t = t.
Proof. apply cstr_idem. Qed.

Lemma nonzero_app a b : nonzero (a ++ b) <-> nonzero a /\ nonzero b.
Proof. apply Forall_app. Qed.

Lemma nonzero_take n a : nonzero a -> nonzero (take n a).
Proof. apply Forall_take. Qed.

Lemma nonzero_drop n a : nonzero a -> nonzero (drop n a).
Proof. apply Forall_drop. Qed.

Lemma store_app s x rest v :
  store (s ++ x :: rest) (length s) v = Some (s ++ v :: rest).
Proof.
  rewrite store_Some by (rewrite length_app; simpl; lia).
  by rewrite insert_app_r_alt, Nat.sub_diag by done.
Qed.

(** The loop of [strbuf_append] over the string [t], [k] characters of which are within
    the limit. *)
Lemma append_loop_spec mx t : forall s rest n,
  nonzero t ->
  let k := if mx <? 0 then length t else Nat.min (length t) (Z.to_nat (mx - Z.of_nat (length s))) in
  (k < length rest)%nat ->
  append_loop (Z.of_nat (length s)) mx (s ++ rest) t n =
  Some (n + Z.of_nat k, Z.of_nat (length s + k), s ++ take k t ++ 0 :: drop (S k) rest).
Proof.
  induction t as [|c t IH]; intros s rest n Ht k Hk; subst k.
  - assert (Hk0 : (if mx <? 0 then length (@nil Z) else
      Nat.min (length (@nil Z)) (Z.to_nat (mx - Z.of_nat (length s)))) = 0%nat)
      by (simpl; by destruct (mx <? 0)).
    rewrite Hk0 in *. destruct rest as [|x rest]; [simpl in Hk; lia|].
    cbn [append_loop]. rewrite Nat2Z.id, store_app. cbn [mbind option_bind].
    rewrite Nat.add_0_r, Z.add_0_r. simpl. by rewrite drop_0.
  - inversion Ht as [|? ? Hc Ht']; subst. cbn [append_loop].
    rewrite (proj2 (Z.eqb_neq c 0) Hc), Nat2Z.id. cbn [negb andb].
    destruct rest as [|x rest]; [simpl in Hk; lia|].
    destruct ((mx <? 0) || (Z.of_nat (length s) <? mx)) eqn:Hgo.
    + rewrite store_app. cbn [mbind option_bind].
      change (s ++ c :: rest) with (s ++ [c] ++ rest). rewrite app_assoc.
      replace (Z.of_nat (length s) + 1) with (Z.of_nat (length (s ++ [c])))
        by (rewrite length_app; simpl; lia).
      set (k := if mx <? 0 then _ else _) in Hk |- *.
      assert (Ek : k = S (if mx <? 0 then length t else
        Nat.min (length t) (Z.to_nat (mx - Z.of_nat (length (s ++ [c])))))).
      { unfold k. rewrite length_app. cbn [length]. destruct (mx <? 0) eqn:?; [done|]. lia. }
      rewrite Ek in Hk |- *. rewrite IH by (done || simpl in Hk; lia).
      generalize (if mx <? 0 then length t else
        Nat.min (length t) (Z.to_nat (mx - Z.of_nat (length (s ++ [c]))))). intros j.
      rewrite length_app. cbn [length take drop]. rewrite <- !app_assoc. cbn [app].
      replace (n + 1 + Z.of_nat j) with (n + Z.of_nat (S j)) by lia.
      by replace (length s + 1 + j)%nat with (length s + S j)%nat by lia.
    + rewrite store_app. cbn [mbind option_bind].
      set (k := if mx <? 0 then _ else _) in Hk |- *.
      assert (Ek : k = 0%nat) by (unfold k; destruct (mx <? 0) eqn:?; lia).
      rewrite Ek. cbn [take app drop]. rewrite drop_0. f_equal. f_equal. f_equal; lia.
Qed.

Section StrbufProofs.
Variable malloc : Z -> option (list Z).
Hypothesis malloc_length : forall n g, malloc n = Some g -> Z.of_nat (length g) = n.

(** A grown storage holds the string of the old one, if it is large enough. *)
Lemma realloc_grow b s n new :
  holds b s -> realloc malloc (buf b) n = Some new -> Z.of_nat (length s) < n ->
  Z.of_nat (length new) = n /\
  (buf b = None \/ exists rest, new = s ++ 0 :: rest).
Proof.
  intros (Hnz & Hl & Hb) Hr Hn. unfold realloc in Hr.
  destruct (malloc n) as [g|] eqn:Eg; [|done]. apply malloc_length in Eg.
  cbn [mbind option_bind] in Hr. destruct (buf b) as [m|]; simplify_eq.
  - destruct Hb as (rest & -> & _). split.
    + rewrite length_app, length_take, length_drop. lia.
    + right. rewrite take_app_ge by lia. rewrite length_app. cbn [length].
      destruct (length g - length s)%nat as [|k] eqn:Ek; [lia|]. cbn [take].
      rewrite <- app_assoc. cbn [app]. by eexists.
  - split; [done|by left].
Qed.

(** The storage a growing buffer writes to, or that of the others. *)
Definition ready (b : strbuf) (s : list Z) (n : nat) (m : list Z) : Prop :=
  exists rest, m = s ++ rest /\ (n < length rest)%nat /\
    (0 <= max b -> Z.of_nat (length s) <= max b < Z.of_nat (length m)).

Definition grow (b : strbuf) (n : nat) : option (list Z) :=
  if max b =? STRBUF_GROW then realloc malloc (buf b) (Z.of_nat n) else Some [].

(** Before an append, the storage is ready or the allocator has failed. *)
Lemma append_ready b s k n :
  holds b s -> fits b k -> (length s + k < n)%nat ->
  (max b = STRBUF_GROW /\ malloc (Z.of_nat n) = None /\ grow b n = None) \/
  exists new m, grow b n = Some new /\
    (if max b =? STRBUF_GROW then Some new else buf b) = Some m /\ ready b s k m.
Proof.
  intros Hh Hf Hn. unfold grow. destruct (Z.eqb_spec (max b) STRBUF_GROW) as [E|E].
  - destruct (realloc malloc (buf b) (Z.of_nat n)) as [new|] eqn:Er; [right|left].
    2: { split; [done|]. split; [|done]. unfold realloc in Er. by destruct (malloc (Z.of_nat n)). }
    exists new, new. split; [done|]. split; [done|].
    destruct (realloc_grow b s _ new Hh Er ltac:(lia)) as [Hl [Hb|[rest ->]]].
    + destruct Hh as (_ & _ & Hh). rewrite Hb in Hh. destruct Hh as [-> _].
      exists new. split; [done|]. simpl in *. split; [lia|].
      unfold STRBUF_GROW in E. lia.
    + exists (0 :: rest). split; [done|]. rewrite length_app in Hl. split; [lia|].
      unfold STRBUF_GROW in E. lia.
  - right. destruct (Hf E) as (m & Em & Hm). exists [], m. split; [done|]. split; [done|].
    destruct Hh as (_ & Hl & Hh). rewrite Em in Hh. destruct Hh as (rest & -> & Hmax).
    exists (0 :: rest). split; [done|]. rewrite length_app in Hm. simpl in Hm |- *.
    split; [rewrite Hl in Hm; lia|done].
Qed.

Lemma slen_str t : nonzero t -> slen t = Z.of_nat (length t).
Proof. intros Ht. unfold slen. by rewrite cstr_idem. Qed.

Lemma append_ok b s t :
  holds b s -> nonzero t -> fits b (length (clip b t)) ->
  (strbuf_append malloc b t = Some (-1, b) /\ max b = STRBUF_GROW /\
     malloc (len b + slen t + 1) = None) \/
  exists b', strbuf_append malloc b t = Some (Z.of_nat (length (clip b t)), b') /\
    holds b' (s ++ clip b t) /\ max b' = max b.
Proof.
  intros Hh Ht Hf. pose proof Hh as (Hnz & Hl & _). unfold strbuf_append.
  rewrite slen_str by done.
  replace (len b + Z.of_nat (length t) + 1) with (Z.of_nat (length s + length t + 1)) by lia.
  destruct (append_ready b s _ (length s + length t + 1) Hh Hf)
    as [(Hg & Hm & E)|(new & m & E & Em & Hr)].
  - unfold clip. destruct (STRBUF_HAS_MAX b); [rewrite length_take|]; lia.
  - left. unfold grow in E. by rewrite E.
  - right. unfold grow in E. rewrite Hl, E, Em. cbn [mbind option_bind].
    destruct Hr as (rest & -> & Hk & Hmax).
    pose proof (append_loop_spec (max b) t s rest 0 Ht) as Hloop. cbv zeta in Hloop.
    set (k := if max b <? 0 then _ else _) in Hloop.
    assert (Ek : length (clip b t) = k /\ clip b t = take k t).
    { unfold clip, STRBUF_HAS_MAX, k. rewrite Hl.
      destruct (Z.leb_spec 0 (max b)), (Z.ltb_spec (max b) 0); try lia.
      - rewrite length_take. split; [lia|].
        destruct (Nat.le_ge_cases (Z.to_nat (max b - Z.of_nat (length s))) (length t)).
        + by rewrite Nat.min_r by lia.
        + by rewrite Nat.min_l, !take_ge by lia.
      - by rewrite take_ge. }
    destruct Ek as [Ek1 Ek2]. rewrite Ek1 in Hk |- *. rewrite Hloop by lia. cbn [mbind option_bind].
    eexists. split; [do 2 f_equal; lia|]. split; [|done]. rewrite Ek2. split; [|split].
    + apply nonzero_app. split; [done|by apply nonzero_take].
    + simpl. rewrite length_app, <- Ek2. lia.
    + simpl. exists (drop (S k) rest). split; [by rewrite <- app_assoc|]. intros H0.
      specialize (Hmax H0). rewrite !length_app in *. cbn [length]. rewrite length_drop.
      rewrite <- Ek2, Ek1. unfold k in *. destruct (Z.ltb_spec (max b) 0); lia.
Qed.

(** [strbuf_append] appends: the buffer then holds its string followed by as much of
    [t] as its limit allows, and the number of characters added is returned; or the buffer
    grows, the allocator fails, the answer is -1 and the buffer is as it was. *)
Theorem strbuf_append_appends b s t :
  holds b s -> nonzero t -> fits b (length (clip b t)) ->
  (strbuf_append malloc b t = Some (-1, b) /\ max b = STRBUF_GROW /\
     malloc (len b + slen t + 1) = None) \/
  exists b', strbuf_append malloc b t = Some (Z.of_nat (length (clip b t)), b') /\
    holds b' (s ++ clip b t) /\ max b' = max b.
Proof. apply append_ok. Qed.

(** Storage split around a position. *)
Lemma store_bytes_mid s1 old rest t :
  length old = length t ->
  store_bytes (s1 ++ old ++ rest) (length s1) t = Some (s1 ++ t ++ rest).
Proof.
  intros Hlen. unfold store_bytes. rewrite (proj2 (Nat.leb_le _ _)) by (rewrite !length_app; lia).
  unfold put. rewrite take_app_length. do 2 f_equal. f_equal.
  rewrite drop_app_ge by lia. replace (length s1 + length t - length s1)%nat with (length t) by lia.
  by rewrite <- Hlen, drop_app_length.
Qed.

(** Before an insertion, the storage holds the old string and room for [k] characters. *)
Lemma insert_ready b s k :
  holds b s -> fits b k ->
  let new := grow b (length s + k + 1) in
  (max b = STRBUF_GROW /\ malloc (Z.of_nat (length s + k + 1)) = None /\ new = None) \/
  exists g rest, new = Some g /\ (k <= length rest)%nat /\
    (if max b =? STRBUF_GROW then if bool_decide (buf b = None) then store g 0 0 else Some g
     else buf b) = Some (s ++ 0 :: rest) /\
    (0 <= max b -> max b < Z.of_nat (length (s ++ 0 :: rest))).
Proof.
  intros Hh Hf new. subst new.
  destruct (append_ready b s k (length s + k + 1) Hh Hf) as [?|(g & m & E & Em & Hr)];
    [lia|by left|right]. exists g. pose proof Hh as (Hnz & Hl & Hb).
  destruct (Z.eqb_spec (max b) STRBUF_GROW) as [Eg|Eg].
  - pose proof E as E0. unfold grow in E. rewrite Eg, Z.eqb_refl in E. injection Em as ->.
    assert (Hno : 0 <= max b -> False) by (unfold STRBUF_GROW in Eg; lia).
    destruct (realloc_grow b s _ m Hh E) as [Hlm [Hn|[rest ->]]]; [lia|..].
    + rewrite Hn in Hb |- *. destruct Hb as [-> _]. rewrite bool_decide_true by done.
      destruct m as [|x m]; [simpl in Hlm; lia|]. exists m. split; [exact E0|]. simpl in *.
      split; [lia|]. split; [done|]. intros H0. by destruct (Hno H0).
    + exists rest. rewrite length_app in Hlm. cbn [length] in Hlm. split; [exact E0|].
      split; [lia|]. split; [|intros H0; by destruct (Hno H0)].
      case_bool_decide as Hbn; [|done]. rewrite Hbn in Hb. destruct Hb as [-> _].
      by rewrite store_Some by (simpl; lia).
  - destruct Hr as (r & Er & Hk & Hmax). rewrite Em in Hb |- *. destruct Hb as (rest & -> & _).
    apply app_inv_head in Er as <-. simpl in Hk. exists rest. split; [exact E|]. split; [lia|].
    split; [done|]. intros H0. specialize (Hmax H0). lia.
Qed.

(** The tail of a string is moved with its terminator. *)
Lemma sub_tail s1 s2 rest : sub (length s1) (S (length s2)) (s1 ++ s2 ++ 0 :: rest) = s2 ++ [0].
Proof.
  unfold sub. rewrite drop_app_length. change (s2 ++ 0 :: rest) with (s2 ++ [0] ++ rest).
  rewrite app_assoc, take_app_le by (rewrite length_app; simpl; lia).
  apply take_ge. rewrite length_app. simpl. lia.
Qed.

Lemma insert_ok b s1 s2 t :
  holds b (s1 ++ s2) -> nonzero t -> fits b (length t) ->
  (STRBUF_HAS_MAX b = true -> Z.of_nat (length (s1 ++ t ++ s2)) <= max b) ->
  (strbuf_insert malloc b (Z.of_nat (length s1)) t = Some (-1, b) /\ max b = STRBUF_GROW /\
     malloc (len b + 1 + slen t) = None) \/
  exists b', strbuf_insert malloc b (Z.of_nat (length s1)) t = Some (Z.of_nat (length t), b') /\
    holds b' (s1 ++ t ++ s2) /\ max b' = max b.
Proof.
  intros Hh Ht Hf Hroom. pose proof Hh as (Hnz & Hl & Hb). unfold strbuf_insert.
  rewrite length_app in Hl. rewrite (proj2 (Z.ltb_ge _ _)), (proj2 (Z.ltb_ge _ 0)) by lia. cbn [orb].
  rewrite slen_str, Hl by done.
  replace (Z.of_nat (length s1 + length s2) + 1 + Z.of_nat (length t)) with
    (Z.of_nat (length (s1 ++ s2) + length t + 1)) by (rewrite length_app; lia).
  destruct (insert_ready b _ _ Hh Hf) as [(Hg & Hm & E)|(new & rest & E & Hk & Em & Hcap)];
    unfold grow in E; rewrite E; [by left|right].
  rewrite Em. cbn [mbind option_bind]. rewrite <- app_assoc in Hcap |- *.
  assert (Hno : STRBUF_HAS_MAX b && (max b <? Z.of_nat (length s1 + length s2) + Z.of_nat (length t))
                = false).
  { destruct (STRBUF_HAS_MAX b); [|done]. specialize (Hroom eq_refl). rewrite !length_app in Hroom.
    cbn [andb]. apply Z.ltb_ge. lia. }
  rewrite Hno, !Nat2Z.id.
  replace (Z.to_nat (Z.of_nat (length s1 + length s2) - Z.of_nat (length s1) + 1))
    with (S (length s2)) by lia.
  rewrite memmove_spec by (rewrite !length_app; cbn [length]; lia). cbn [mbind option_bind].
  rewrite sub_tail. unfold put at 1. rewrite take_app_ge by lia.
  replace (length s1 + length t - length s1)%nat with (length t) by lia.
  rewrite cstr_idem, <- app_assoc by done.
  rewrite store_bytes_mid by (rewrite length_take, length_app; simpl; lia). cbn [mbind option_bind].
  eexists. split; [done|]. split; [|done]. split; [|split].
  - apply nonzero_app in Hnz as [? ?]. rewrite !nonzero_app. tauto.
  - simpl. rewrite !length_app. lia.
  - cbn [buf]. eexists. split; [by rewrite <- !app_assoc|]. cbn [max]. intros H0.
    specialize (Hcap H0). specialize (Hroom (proj2 (Z.leb_le _ _) H0)).
    split; [done|]. rewrite !length_app in *. cbn [length] in *.
    rewrite length_drop, !length_app. cbn [length]. lia.
Qed.

(** Only the string itself matters, not what is behind it. *)
Lemma insert_cstr b idx q : strbuf_insert malloc b idx q = strbuf_insert malloc b idx (cstr q).
Proof. unfold strbuf_insert, slen. by rewrite (cstr_idem (cstr q)) by apply cstr_nonzero. Qed.

(** [strbuf_insert] inserts: when there is room, the buffer then holds its string with
    [t] in the middle, at any position up to its end. *)
Theorem strbuf_insert_inserts b s1 s2 t :
  holds b (s1 ++ s2) -> nonzero t -> fits b (length t) ->
  (STRBUF_HAS_MAX b = true -> Z.of_nat (length (s1 ++ t ++ s2)) <= max b) ->
  (strbuf_insert malloc b (Z.of_nat (length s1)) t = Some (-1, b) /\ max b = STRBUF_GROW /\
     malloc (len b + 1 + slen t) = None) \/
  exists b', strbuf_insert malloc b (Z.of_nat (length s1)) t = Some (Z.of_nat (length t), b') /\
    holds b' (s1 ++ t ++ s2) /\ max b' = max b.
Proof. apply insert_ok. Qed.

Lemma delete_ok b s1 d s2 :
  holds b (s1 ++ d ++ s2) -> d <> [] ->
  (exists b', strbuf_delete malloc b (Z.of_nat (length s1)) (Z.of_nat (length d)) = Some (-1, b') /\
     max b = STRBUF_GROW /\ malloc (len b + 1 - Z.of_nat (length d)) = None) \/
  exists b', strbuf_delete malloc b (Z.of_nat (length s1)) (Z.of_nat (length d)) =
               Some (Z.of_nat (length d), b') /\ holds b' (s1 ++ s2) /\ max b' = max b.
Proof.
  intros Hh Hd. pose proof Hh as (Hnz & Hl & Hb). unfold strbuf_delete.
  assert (Hd0 : (0 < length d)%nat) by (destruct d; [done|simpl; lia]).
  rewrite !length_app in Hl. rewrite (proj2 (Z.leb_gt _ _)), (proj2 (Z.ltb_ge _ 0)) by lia. cbn [orb].
  destruct (buf b) as [m|] eqn:Em.
  2: { destruct Hb as [Hs _]. apply (f_equal length) in Hs. rewrite !length_app in Hs. simpl in Hs. lia. }
  destruct Hb as (rest & -> & Hmax). cbn [mbind option_bind].
  rewrite (proj2 (Z.ltb_ge _ 0)), (proj2 (Z.ltb_ge _ 0)) by lia. cbn [orb].
  rewrite Nat2Z.id.
  replace (Z.to_nat (Z.of_nat (length s1) + Z.of_nat (length d))) with (length s1 + length d)%nat by lia.
  replace (Z.to_nat (len b - Z.of_nat (length s1) - Z.of_nat (length d) + 1))
    with (S (length s2)) by lia.
  rewrite <- !app_assoc.
  rewrite memmove_spec by (rewrite !length_app; cbn [length]; lia). cbn [mbind option_bind].
  assert (Hs : sub (length s1 + length d) (S (length s2)) (s1 ++ d ++ s2 ++ 0 :: rest) = s2 ++ [0]).
  { rewrite app_assoc, <- length_app. apply sub_tail. }
  rewrite Hs. unfold put. rewrite take_app_length, <- !app_assoc. cbn [app].
  set (tl := drop _ _).
  assert (Htl : length (s1 ++ s2 ++ 0 :: tl) = length (s1 ++ d ++ s2 ++ 0 :: rest)).
  { unfold tl. rewrite !length_app. cbn [length]. rewrite length_drop, !length_app. cbn [length]. lia. }
  assert (Hnz' : nonzero (s1 ++ s2)).
  { apply nonzero_app in Hnz as [? Hnz]. apply nonzero_app in Hnz as [? ?]. by apply nonzero_app. }
  destruct (Z.eqb_spec (max b) STRBUF_GROW) as [Eg|Eg].
  - destruct (realloc malloc _ _) as [new|] eqn:Er; [right|left].
    2: { eexists. split; [done|]. split; [done|]. unfold realloc in Er.
         by destruct (malloc _). }
    eexists. split; [done|]. split; [|done]. split; [done|]. cbn [len buf max].
    split; [rewrite length_app; lia|].
    assert (Hh' : holds (mk_strbuf (Z.of_nat (length (s1 ++ s2))) STRBUF_GROW
                           (Some (s1 ++ s2 ++ 0 :: tl))) (s1 ++ s2)).
    { split; [done|]. split; [done|]. simpl. exists tl. by rewrite <- app_assoc. }
    destruct (realloc_grow _ _ _ new Hh' Er) as [_ [Hx|[r ->]]]; [rewrite length_app; lia|done|].
    exists r. split; [done|]. unfold STRBUF_GROW in Eg. lia.
  - right. eexists. split; [done|]. split; [|done]. split; [done|]. cbn [len buf max].
    split; [rewrite length_app; lia|]. exists tl. rewrite <- app_assoc. split; [done|].
    intros H0. rewrite Htl. specialize (Hmax H0). rewrite <- !app_assoc in Hmax.
    rewrite !length_app in *. lia.
Qed.

(** [strbuf_delete] deletes the characters asked for, when they are all in the string. *)
Theorem strbuf_delete_deletes b s1 d s2 :
  holds b (s1 ++ d ++ s2) -> d <> [] ->
  (exists b', strbuf_delete malloc b (Z.of_nat (length s1)) (Z.of_nat (length d)) = Some (-1, b') /\
     max b = STRBUF_GROW /\ malloc (len b + 1 - Z.of_nat (length d)) = None) \/
  exists b', strbuf_delete malloc b (Z.of_nat (length s1)) (Z.of_nat (length d)) =
               Some (Z.of_nat (length d), b') /\ holds b' (s1 ++ s2) /\ max b' = max b.
Proof. apply delete_ok. Qed.
End StrbufProofs.

(** ** Growing buffers, when the allocator never fails *)

Section Growing.
Variable malloc : Z -> option (list Z).
Hypothesis malloc_length : forall n g, malloc n = Some g -> Z.of_nat (length g) = n.
Hypothesis malloc_total : forall n, 0 < n -> is_Some (malloc n).

Definition growing (b : strbuf) (s : list Z) : Prop := holds b s /\ max b = STRBUF_GROW.

Lemma growing_fits b s n : growing b s -> fits b n.
Proof. intros [_ Hm] Hne. by destruct Hne. Qed.

Lemma growing_len b s : growing b s -> len b = Z.of_nat (length s).
Proof. by intros [(_ & ? & _) _]. Qed.

Lemma malloc_not_None n : 0 < n -> malloc n <> None.
Proof. intros Hn E. destruct (malloc_total n Hn) as [g Hg]. by rewrite E in Hg. Qed.

(** A buffer that was appended to has storage. *)
Lemma append_storage b t n b' :
  strbuf_append malloc b t = Some (n, b') -> 0 <= n -> buf b' <> None.
Proof.
  unfold strbuf_append. intros E Hn.
  destruct (if max b =? STRBUF_GROW then realloc _ _ _ else Some []); [|injection E as <- _; lia].
  destruct (if max b =? STRBUF_GROW then Some _ else buf b) as [m|]; [|done].
  cbn [mbind option_bind] in E. by destruct (append_loop _ _ m t 0) as [[[? ?] ?]|]; simplify_eq/=.
Qed.

Lemma growing_append b s t :
  growing b s -> nonzero t ->
  exists b', strbuf_append malloc b t = Some (Z.of_nat (length t), b') /\ growing b' (s ++ t) /\
    buf b' <> None.
Proof.
  intros Hg Ht. pose proof Hg as [Hh Hm].
  assert (Hc : clip b t = t) by (unfold clip, STRBUF_HAS_MAX; by rewrite Hm).
  destruct (append_ok malloc malloc_length b s t Hh Ht) as [(_ & _ & E)|(b' & E & H & Hm')];
    [by eapply growing_fits|..].
  - by apply malloc_not_None in E; [|unfold slen; rewrite (growing_len _ _ Hg); lia].
  - rewrite Hc in *. exists b'. split; [done|]. split; [split; [done|congruence]|].
    eapply append_storage; [done|lia].
Qed.

Lemma growing_insert b s1 s2 t :
  growing b (s1 ++ s2) -> nonzero t ->
  exists b', strbuf_insert malloc b (Z.of_nat (length s1)) t = Some (Z.of_nat (length t), b') /\
    growing b' (s1 ++ t ++ s2).
Proof.
  intros Hg Ht. pose proof Hg as [Hh Hm].
  destruct (insert_ok malloc malloc_length b s1 s2 t Hh Ht) as [(_ & _ & E)|(b' & E & H & Hm')].
  - by eapply growing_fits.
  - unfold STRBUF_HAS_MAX. by rewrite Hm.
  - by apply malloc_not_None in E; [|unfold slen; rewrite (growing_len _ _ Hg); lia].
  - exists b'. split; [done|]. split; [done|congruence].
Qed.

Lemma growing_delete b s1 d s2 :
  growing b (s1 ++ d ++ s2) -> d <> [] ->
  exists b', strbuf_delete malloc b (Z.of_nat (length s1)) (Z.of_nat (length d)) =
               Some (Z.of_nat (length d), b') /\ growing b' (s1 ++ s2).
Proof.
  intros Hg Hd. pose proof Hg as [Hh Hm].
  destruct (delete_ok malloc malloc_length b s1 d s2 Hh Hd) as [(b' & _ & _ & E)|(b' & E & H & Hm')].
  - apply malloc_not_None in E; [done|]. rewrite (growing_len _ _ Hg), !length_app. lia.
  - exists b'. split; [done|]. split; [done|congruence].
Qed.
End Growing.

(** ** Concrete buffers *)

(** An allocator with 1000 bytes, which holds 170 everywhere. *)
Definition heap (n : Z) : option (list Z) :=
  if (0 <=? n) && (n <=? 1000) then Some (replicate (Z.to_nat n) 170) else None.

Lemma heap_length n g : heap n = Some g -> Z.of_nat (length g) = n.
Proof.
  unfold heap. intros H. destruct (Z.leb_spec 0 n); cbn [andb] in H; [|done].
  destruct (n <=? 1000); [|done]. simplify_eq. rewrite length_replicate. lia.
Qed.

(** An allocator that never fails. *)
Definition endless (n : Z) : option (list Z) := if 0 <=? n then Some (replicate (Z.to_nat n) 170) else None.

Lemma endless_length n g : endless n = Some g -> Z.of_nat (length g) = n.
Proof.
  unfold endless. intros H. destruct (Z.leb_spec 0 n); [|done]. simplify_eq.
  rewrite length_replicate. lia.
Qed.

Lemma endless_total n : 0 < n -> is_Some (endless n).
Proof. intros Hn. unfold endless. rewrite (proj2 (Z.leb_le 0 n)) by lia. by eexists. Qed.

(** "hello" in a growing buffer, and in one of at most 8 characters. *)
Definition hello : list Z := [104; 101; 108; 108; 111].
Definition hello_grow : strbuf := mk_strbuf 5 STRBUF_GROW (Some (hello ++ [0])).
Definition hello_max : strbuf := mk_strbuf 5 8 (Some (hello ++ [0; 9; 9; 9])).

Lemma hello_nonzero : nonzero hello.
Proof. by repeat constructor. Qed.

Lemma hello_grow_holds : holds hello_grow hello.
Proof. split; [apply hello_nonzero|]. split; [done|]. by exists []. Qed.

Lemma hello_max_holds : holds hello_max hello.
Proof. split; [apply hello_nonzero|]. split; [done|]. by exists [9; 9; 9]. Qed.

Lemma hello_max_fits n : (n <= 3)%nat -> fits hello_max n.
Proof. intros Hn _. eexists. split; [done|]. simpl. lia. Qed.

Lemma strbuf_append_appends_witness :
  exists b, strbuf_append heap hello_max [33; 33; 33; 33] = Some (3, b) /\ holds b (hello ++ [33; 33; 33]).
Proof.
  destruct (strbuf_append_appends heap heap_length hello_max hello [33; 33; 33; 33])
    as [(_ & H & _)|(b & E & H & _)].
  - exact hello_max_holds.
  - by repeat constructor.
  - by apply hello_max_fits.
  - discriminate H.
  - exists b. split; [exact E|exact H].
Defined.

Lemma strbuf_insert_inserts_witness :
  exists b, strbuf_insert heap hello_max 1 [33; 33] = Some (2, b) /\ holds b [104; 33; 33; 101; 108; 108; 111].
Proof.
  destruct (strbuf_insert_inserts heap heap_length hello_max [104] [101; 108; 108; 111] [33; 33])
    as [(_ & H & _)|(b & E & H & _)].
  - exact hello_max_holds.
  - by repeat constructor.
  - apply hello_max_fits. simpl. lia.
  - intros _. by vm_compute.
  - discriminate H.
  - exists b. split; [exact E|exact H].
Defined.

Lemma strbuf_delete_deletes_witness :
  exists b, strbuf_delete heap hello_max 1 3 = Some (3, b) /\ holds b [104; 111].
Proof.
  destruct (strbuf_delete_deletes heap heap_length hello_max [104] [101; 108; 108] [111])
    as [(b & _ & H & _)|(b & E & H & _)].
  - exact hello_max_holds.
  - discriminate.
  - discriminate H.
  - exists b. split; [exact E|exact H].
Defined.

(** An insertion that does not fit keeps the length: of "hello", in a buffer of at most 8,
    only the "h" is left behind four new characters. *)
Example insert_over_max :
  strbuf_insert heap hello_max 0 [49; 50; 51; 52] =
  Some (4, mk_strbuf 5 8 (Some [49; 50; 51; 52; 104; 0; 9; 9; 9])).
Proof. reflexivity. Qed.
