(* ===== verification/Printf.v ===== *)
(** * Printf: formatted output

    Model of [x86/common/printf.c].  A format is the list of its bytes with the
    terminator; the arguments are a list of typed values, [None] stands for a read
    past the terminator, an argument of another type than the conversion takes, or a
    write outside a buffer.  The console output of [putc] and [puts] is a list of
    bytes.  A [long] has 32 bits and wraps around. *)

From stdpp Require Import strings.
From S2P Require Import Prelude CString Strbuf.
Open Scope list_scope.
Open Scope Z_scope.

(** ** Conversions *)

Record conv := mk_conv { alt : Z; width : Z; precis : Z; mod_ : Z }.

Definition NEW_CONV : conv := mk_conv 0 (-1) (-1) 0.

Definition CONV_ALT_HASH : Z := 1.
Definition CONV_ALT_ZERO : Z := 2.
Definition CONV_ALT_MINUS : Z := 4.
Definition CONV_ALT_PLUS : Z := 8.
Definition CONV_ALT_SPACE : Z := 16.
Definition CONV_ALT_UPPER : Z := 128.
Definition CONV_MOD_SHORT : Z := 1.
Definition CONV_MOD_LONG : Z := 2.
Definition CONV_MOD_LONGLONG : Z := 4.
Definition CONV_MOD_UNSIGNED : Z := 128.

(** [c.alt & flag], [c.mod & flag]. *)
Definition has (x flag : Z) : bool := negb (Z.land x flag =? 0).

Definition conv_alt_val (c : Z) : Z :=
  if c =? 35 then CONV_ALT_HASH
  else if c =? 48 then CONV_ALT_ZERO
  else if c =? 45 then CONV_ALT_MINUS
  else if c =? 43 then CONV_ALT_PLUS
  else if c =? 32 then CONV_ALT_SPACE
  else 0.

(** ** Numbers *)

Definition NBUF : Z := 128.

Definition digit_chars_of (c : conv) : list Z :=
  if has (alt c) CONV_ALT_UPPER then chars "0123456789ABCDEF" else chars "0123456789abcdef".

(** [p--; *p = ch]: [ds] is what the buffer [nbuf] holds from [p] on. *)
Definition push (p : Z) (ds : list Z) (ch : Z) : option (Z * list Z) :=
  let p := p - 1 in
  if p <? 0 then None else Some (p, ch :: ds).

(** The state of the conversion: [p], the text from [p] on, [width] and [precis]. *)
Record nstate := mk_nstate { np : Z; nds : list Z; nwidth : Z; nprecis : Z }.

Definition step (ch : Z) (s : nstate) : option nstate :=
  '(p, ds) ← push (np s) (nds s) ch;
  Some (mk_nstate p ds (nwidth s - 1) (nprecis s - 1)).

(** "Write the number, from the right": the loop.  A 64 bit number has at most 64
    digits. *)
Fixpoint digit_loop (fuel : nat) (tbl : list Z) (base n : Z) (s : nstate) : option nstate :=
  if (0 <=? np s) && negb (n =? 0) then
    match fuel with
    | O => None
    | S fuel =>
      ch ← tbl !! Z.to_nat (n mod base);
      s ← step ch s;
      digit_loop fuel tbl base (n / base) s
    end
  else Some s.

(** "Fulfill a precision specifier".  The buffer has 128 bytes. *)
Fixpoint precis_loop (fuel : nat) (s : nstate) : option nstate :=
  if (0 <=? np s) && (0 <? nprecis s) then
    match fuel with
    | O => None
    | S fuel => s ← step 48 s; precis_loop fuel s
    end
  else Some s.

(** "Fill any extra padding from width specifier". *)
Fixpoint pad_loop (fuel : nat) (pad : Z) (s : nstate) : option nstate :=
  if (0 <=? np s) && (0 <? nwidth s) then
    match fuel with
    | O => None
    | S fuel =>
      '(p, ds) ← push (np s) (nds s) pad;
      pad_loop fuel pad (mk_nstate p ds (nwidth s - 1) (nprecis s))
    end
  else Some s.

Section Printf.
Variable malloc : Z -> option (list Z).
Abbreviation append b str := (strbuf_append malloc b str).

(** The results of the buffer operations are ignored. *)
Definition put_str (b : strbuf) (str : list Z) : option strbuf :=
  '(_, b) ← append b str; Some b.
Definition put_char (b : strbuf) (c : Z) : option strbuf :=
  '(_, b) ← strbuf_appendc malloc b c; Some b.

(** A left-aligned field: "handle a width request". *)
Fixpoint put_spaces (n : nat) (b : strbuf) : option strbuf :=
  match n with O => Some b | S n => b ← put_char b 32; put_spaces n b end.

(** "Handle signs/leading space if requested": the sign character, if any. *)
Definition sign_char (c : conv) (isneg : bool) : option Z :=
  if has (mod_ c) CONV_MOD_UNSIGNED then None
  else if isneg then Some 45
  else if has (alt c) CONV_ALT_PLUS then Some 43
  else if has (alt c) CONV_ALT_SPACE then Some 32
  else None.

(** "Handle '#' altform".  The pointer [p] is still null in the tests [p-2 >= nbuf] and
    [p-1 >= nbuf], whose left sides wrap to the end of memory: they hold. *)
Definition alt_prefix (c : conv) (base : Z) : list Z :=
  if has (alt c) CONV_ALT_HASH then
    if base =? 16 then [48; if has (alt c) CONV_ALT_UPPER then 88 else 120]
    else if base =? 8 then [48] else []
  else [].

(** The part [sprintf_num] and [sprintf_ll_num] share: [n] is the magnitude. *)
Definition format_num (b : strbuf) (c : conv) (isneg : bool) (n base : Z) : option strbuf :=
  let tbl := digit_chars_of c in
  let head := option_list (sign_char c isneg) ++ alt_prefix c base in
  b ← foldl (fun b ch => b ← b; put_char b ch) (Some b) head;
  let w := width c - Z.of_nat (length head) in
  ch ← tbl !! Z.to_nat (n mod base);
  s ← digit_loop 64 tbl base (n / base) (mk_nstate (NBUF - 2) [ch] (w - 1) (precis c - 1));
  s ← precis_loop 128 s;
  if negb (has (alt c) CONV_ALT_MINUS) then
    let pad := if has (alt c) CONV_ALT_ZERO && (precis c <? 0) then 48 else 32 in
    s ← pad_loop 128 pad s;
    put_str b (nds s ++ [0])
  else
    b ← put_str b (nds s ++ [0]);
    put_spaces (Z.to_nat (nwidth s)) b.

Definition sprintf_num (b : strbuf) (c : conv) (num base : Z) : option strbuf :=
  if (base <? 2) || (16 <? base) then Some b else
  let isneg := negb (has (mod_ c) CONV_MOD_UNSIGNED) && (s32 num <? 0) in
  let num := if isneg then u32 (s32 num * -1) else num in
  let n := if has (mod_ c) CONV_MOD_SHORT then u16 num else u32 num in
  format_num b c isneg n base.

Definition s64 (v : Z) : Z := if v <? 2 ^ 63 then v else v - 2 ^ 64.

Definition sprintf_ll_num (b : strbuf) (c : conv) (num base : Z) : option strbuf :=
  if (base <? 2) || (16 <? base) then Some b else
  let isneg := negb (has (mod_ c) CONV_MOD_UNSIGNED) && (s64 num <? 0) in
  let n := if isneg then (s64 num * -1) mod 2 ^ 64 else num in
  format_num b c isneg n base.

(** With a precision, the first [precis] characters, copied by [strncpy] to a buffer that
    must be there; a null pointer prints as "(NULL)". *)
Definition sprintf_string (b : strbuf) (c : conv) (str : option (list Z)) : option strbuf :=
  match str with
  | None => put_str b (chars "(NULL)")
  | Some s =>
    if 0 <? precis c then
      _ ← malloc (precis c + 1);
      put_str b (take (Z.to_nat (precis c)) (cstr s) ++ [0])
    else put_str b s
  end.

(** ** Formats *)

(** An argument: a word of 32 bits, one of 64, a string, or the address of an [int]. *)
Inductive arg :=
  | AWord (n : Z)
  | ALong (n : Z)
  | AStr (s : option (list Z))
  | APtr.

Definition next_word (args : list arg) : option (Z * list arg) :=
  match args with AWord n :: args => Some (n, args) | _ => None end.
Definition next_long (args : list arg) : option (Z * list arg) :=
  match args with ALong n :: args => Some (n, args) | _ => None end.

Definition is_flag (c : Z) : bool :=
  (c =? 35) || (c =? 48) || (c =? 45) || (c =? 43) || (c =? 32).

(** "First, look for alternate form flags". *)
Fixpoint parse_flags (p : list Z) (a : Z) : option (Z * list Z) :=
  match p with
  | [] => None
  | c :: p' => if is_flag c then parse_flags p' (Z.lor a (conv_alt_val c)) else Some (a, p)
  end.

(** "Read an integer string". *)
Fixpoint parse_int (p : list Z) (v : Z) : option (Z * list Z) :=
  match p with
  | [] => None
  | c :: p' => if isdigit c then parse_int p' (s32 (u32 (v * 10 + (c - 48)))) else Some (v, p)
  end.

(** "Second, look for a field width". *)
Definition parse_width (p : list Z) (args : list arg) : option (Z * list Z * list arg) :=
  match p with
  | [] => None
  | c :: p' =>
    if c =? 42 then '(n, args) ← next_word args; Some (s32 n, p', args)
    else if isdigit c then '(n, p) ← parse_int p 0; Some (n, p, args)
    else Some (-1, p, args)
  end.

(** "Third, look for precision". *)
Definition parse_precis (p : list Z) (args : list arg) : option (Z * list Z * list arg) :=
  match p with
  | [] => None
  | c :: p' =>
    if c =? 46 then
      match p' with
      | [] => None
      | c' :: p'' =>
        if c' =? 42 then '(n, args) ← next_word args; Some (s32 n, p'', args)
        else
          let '(neg, p) := if c' =? 45 then (-1, p'') else (1, p') in
          '(n, p) ← parse_int p 0; Some (n * neg, p, args)
      end
    else Some (-1, p, args)
  end.

(** "Fourth, look for a length modifier". *)
Definition parse_mod (p : list Z) : option (Z * list Z) :=
  match p with
  | [] => None
  | c :: p' =>
    if c =? 104 then Some (CONV_MOD_SHORT, p')
    else if (c =? 76) || (c =? 113) then Some (CONV_MOD_LONGLONG, p')
    else if c =? 108 then
      match p' with
      | [] => None
      | c' :: p'' => if c' =? 108 then Some (CONV_MOD_LONGLONG, p'') else Some (CONV_MOD_LONG, p')
      end
    else Some (0, p)
  end.

(** An integer conversion, from the [long long] or the [long] the modifier says. *)
Definition conv_int (b : strbuf) (c : conv) (base : Z) (args : list arg) :
    option (strbuf * list arg) :=
  if has (mod_ c) CONV_MOD_LONGLONG
  then '(n, args) ← next_long args; b ← sprintf_ll_num b c n base; Some (b, args)
  else '(n, args) ← next_word args; b ← sprintf_num b c n base; Some (b, args).

Definition unsigned (c : conv) : conv :=
  mk_conv (alt c) (width c) (precis c) (Z.lor (mod_ c) CONV_MOD_UNSIGNED).
Definition set_alt (f : Z) (c : conv) : conv :=
  mk_conv (Z.lor (alt c) f) (width c) (precis c) (mod_ c).

(** The switch on the conversion specifier [ch].  The last component is what [%n] stores. *)
Definition convert (b : strbuf) (c : conv) (ch : Z) (args : list arg) :
    option (strbuf * list arg * list Z) :=
  let int c base := '(b, args) ← conv_int b c base args; Some (b, args, []) in
  if (ch =? 100) || (ch =? 105) then int c 10                           (* d i *)
  else if ch =? 111 then int (unsigned c) 8                             (* o *)
  else if ch =? 88 then int (unsigned (set_alt CONV_ALT_UPPER c)) 16    (* X *)
  else if ch =? 120 then int (unsigned c) 16                            (* x *)
  else if ch =? 98 then int (unsigned c) 2                              (* b *)
  else if ch =? 117 then int (unsigned c) 10                            (* u *)
  else if ch =? 99 then                                                 (* c *)
    '(n, args) ← next_word args; b ← put_char b (u8 n); Some (b, args, [])
  else if ch =? 115 then                                                (* s *)
    match args with
    | AStr s :: args => b ← sprintf_string b c s; Some (b, args, [])
    | _ => None
    end
  else if ch =? 112 then                                                (* p *)
    '(n, args) ← next_word args;
    b ← sprintf_num b (unsigned (set_alt (Z.lor CONV_ALT_HASH CONV_ALT_ZERO) c)) n 16;
    Some (b, args, [])
  else if ch =? 110 then                                                (* n *)
    match args with APtr :: args => Some (b, args, [len b]) | _ => None end
  else if ch =? 37 then b ← put_char b 37; Some (b, args, [])           (* % *)
  else b ← put_char b ch; Some (b, args, []).

(** The main loop; one unit of fuel for each byte of the format. *)
Fixpoint core_loop (fuel : nat) (b : strbuf) (p : list Z) (args : list arg) (outs : list Z) :
    option (strbuf * list Z) :=
  match fuel with
  | O => None
  | S fuel =>
    match p with
    | [] => None
    | c :: p =>
      if c =? 0 then Some (b, outs)
      else if c =? 37 then
        '(a, p) ← parse_flags p 0;
        '(w, p, args) ← parse_width p args;
        '(pr, p, args) ← parse_precis p args;
        '(md, p) ← parse_mod p;
        match p with
        | [] => None
        | ch :: p =>
          '(b, args, o) ← convert b (mk_conv a w pr md) ch args;
          core_loop fuel b p args (outs ++ o)
        end
      else b ← put_char b c; core_loop fuel b p args outs
    end
  end.

Definition sprintf_core (b : strbuf) (fmt : list Z) (args : list arg) :
    option (Z * strbuf * list Z) :=
  '(b, outs) ← core_loop (length fmt) b fmt args [];
  Some (len b, b, outs).

Definition vsnprintf (str : list Z) (maxlen : Z) (fmt : list Z) (args : list arg) :
    option (Z * strbuf * list Z) :=
  '(_, b) ← strbuf_init malloc (Some str) (if 0 <? maxlen then maxlen - 1 else STRBUF_FIXED);
  sprintf_core b fmt args.

Definition sprintf (str fmt : list Z) (args : list arg) : option (Z * strbuf * list Z) :=
  vsnprintf str (-1) fmt args.
Definition snprintf (str : list Z) (maxlen : Z) (fmt : list Z) (args : list arg) :
    option (Z * strbuf * list Z) :=
  vsnprintf str maxlen fmt args.

(** ** Console output *)

Definition putc (c : Z) : list Z := if c =? 10 then [c; 13] else [c].

(** The number of characters, and what goes to the console. *)
Definition puts (str : option (list Z)) : Z * list Z :=
  let p := cstr (default (chars "(NULL)") str) in
  (Z.of_nat (length p), concat (map putc p)).

Definition vprintf (fmt : list Z) (args : list arg) : option (Z * list Z) :=
  '(_, b) ← strbuf_init malloc None STRBUF_GROW;
  '(n, b, _) ← sprintf_core b fmt args;
  Some (n, snd (puts (buf b))).

Definition printf (fmt : list Z) (args : list arg) : option (Z * list Z) := vprintf fmt args.

(** ** Sizes *)

Definition units_table : list (Z * Z) := [(0x40000000, 71); (0x00100000, 77); (0x00000400, 75)].

Fixpoint units_loop (num : Z) (t : list (Z * Z)) : option (Z * Z) :=
  match t with
  | [] => None
  | (d, sym) :: t => if (d <=? num) && (num mod d =? 0) then Some (d, sym) else units_loop num t
  end.

(** [None] for a null result, when there is no memory; else the text. *)
Definition print_bytes (num : Z) : option (option (list Z)) :=
  match malloc 32 with
  | None => Some None
  | Some m =>
    m ← memset m 0 0 32;
    '(_, b, _) ← match units_loop num units_table with
      | Some (d, sym) => sprintf m (chars "%d%c" ++ [0]) [AWord (num / d); AWord sym]
      | None => sprintf m (chars "%d" ++ [0]) [AWord num]
      end;
    Some (buf b)
  end.
End Printf.
