(* ===== verification/PrintfProofs.v ===== *)
(** * PrintfProofs: the text a conversion prints

    [numeral base n] is the numeral of [n]; [field] is the text of a number with its
    sign, prefix, precision and width.  [open_ b s k]: a buffer without limit that
    holds [s] and has room for [k] more characters.  A format is a list of [piece]s, text and
    conversions, and [text_of] is what it stands for; [Writer] is what the conversions need of
    a buffer, met by one without a limit and by one that cuts off what does not fit.
    [Standard] is what the C standard says of the same formats. *)

From stdpp Require Import strings.
From S2P Require Import Prelude CString CStringProofs Strbuf Printf.
Open Scope list_scope.
Open Scope Z_scope.

(** ** Numerals *)

Definition value (base : Z) (ds : list Z) : Z := foldl (fun a d => a * base + d) 0 ds.

(** The digits of [n] without leading zeros; none for 0. *)
Fixpoint digits_of (fuel : nat) (base n : Z) : list Z :=
  match fuel with
  | O => []
  | S fuel => if n =? 0 then [] else digits_of fuel base (n / base) ++ [n mod base]
  end.

Definition numeral (base n : Z) : list Z := digits_of 64 base (n / base) ++ [n mod base].

Lemma value_snoc base ds d : value base (ds ++ [d]) = value base ds * base + d.
Proof. unfold value. by rewrite foldl_app. Qed.

Lemma digits_of_spec base fuel : forall n,
  2 <= base -> 0 <= n < base ^ Z.of_nat fuel ->
  value base (digits_of fuel base n) = n /\
  Forall (fun d => 0 <= d < base) (digits_of fuel base n) /\
  (length (digits_of fuel base n) <= fuel)%nat /\ head (digits_of fuel base n) <> Some 0.
Proof.
  induction fuel as [|fuel IH]; intros n Hb Hn; [change (base ^ Z.of_nat 0) with 1 in Hn|].
  { assert (n = 0) as -> by lia. split; [done|split; [constructor|split; [simpl; lia|done]]]. }
  cbn [digits_of]. destruct (Z.eqb_spec n 0) as [->|Hne]; [split; [done|split; [constructor|split; [simpl; lia|done]]]|].
  rewrite Nat2Z.inj_succ, Z.pow_succ_r in Hn by lia.
  assert (Hq : 0 <= n / base < base ^ Z.of_nat fuel).
  { split; [apply Z.div_pos; lia|apply Z.div_lt_upper_bound; lia]. }
  pose proof (Z.mod_pos_bound n base ltac:(lia)) as Hm.
  destruct (IH _ Hb Hq) as (V & F & L & H). split; [|split; [|split]].
  - rewrite value_snoc, V. pose proof (Z.div_mod n base). lia.
  - apply Forall_app. split; [done|by apply Forall_singleton].
  - rewrite length_app. simpl. lia.
  - destruct (digits_of fuel base (n / base)) as [|d ds] eqn:E; [|done]. simpl.
    unfold value in V. simpl in V. intros [= E0]. pose proof (Z.div_mod n base). lia.
Qed.

Lemma numeral_spec base n :
  2 <= base -> 0 <= n < 2 ^ 64 ->
  value base (numeral base n) = n /\ Forall (fun d => 0 <= d < base) (numeral base n) /\
  (1 <= length (numeral base n) <= 65)%nat /\ (head (numeral base n) = Some 0 -> n = 0).
Proof.
  intros Hb Hn.
  assert (Hq : 0 <= n / base < base ^ Z.of_nat 64).
  { split; [apply Z.div_pos; lia|]. apply Z.div_lt_upper_bound; [lia|].
    assert (2 ^ 64 <= base ^ 64) by (apply Z.pow_le_mono_l; lia).
    change (Z.of_nat 64) with 64. nia. }
  destruct (digits_of_spec base 64 _ Hb Hq) as (V & F & L & H). unfold numeral.
  set (D := digits_of 64 base (n / base)) in *. clearbody D. clear Hq Hn.
  pose proof (Z.mod_pos_bound n base ltac:(lia)). pose proof (Z.div_mod n base ltac:(lia)) as Hd.
  split; [|split; [|split]].
  - rewrite value_snoc, V. lia.
  - apply Forall_app. split; [done|by apply Forall_singleton].
  - rewrite length_app. simpl. lia.
  - destruct D as [|d ds]; simpl; [|intros [= ->]; done].
    intros [= E]. unfold value in V. simpl in V. rewrite <- V, E in Hd. lia.
Qed.

(** ** The loops of a conversion *)

(** [len] characters more in front of the text. *)
Definition pushed (s : nstate) (txt : list Z) : nstate :=
  mk_nstate (np s - Z.of_nat (length txt)) (txt ++ nds s) (nwidth s - Z.of_nat (length txt))
    (nprecis s - Z.of_nat (length txt)).

Lemma pushed_nil s : pushed s [] = s.
Proof. destruct s. unfold pushed. simpl. by rewrite !Z.sub_0_r. Qed.

Lemma pushed_snoc s txt c : pushed s (txt ++ [c]) = pushed (pushed s [c]) txt.
Proof.
  unfold pushed. rewrite length_app. cbn [length np nds nwidth nprecis].
  rewrite <- app_assoc. cbn [app]. f_equal; lia.
Qed.

Lemma step_pushed c s : 1 <= np s -> step c s = Some (pushed s [c]).
Proof.
  intros Hp. unfold step, push, pushed. rewrite (proj2 (Z.ltb_ge _ 0)) by lia.
  cbn [mbind option_bind length]. by change (Z.of_nat 1) with 1.
Qed.

Section loops.
Variables (tbl : list Z) (base : Z) (ch : Z -> Z).
Hypothesis Hbase : 2 <= base.
Hypothesis Htbl : forall d, 0 <= d < base -> tbl !! Z.to_nat d = Some (ch d).

Lemma digit_loop_spec fuel : forall n s,
  0 <= n < base ^ Z.of_nat fuel -> Z.of_nat fuel <= np s ->
  digit_loop fuel tbl base n s = Some (pushed s (map ch (digits_of fuel base n))).
Proof.
  induction fuel as [|fuel IH]; intros n s Hn Hp; cbn [digit_loop digits_of].
  - change (base ^ Z.of_nat 0) with 1 in Hn. assert (n = 0) as -> by lia.
    rewrite andb_false_r. simpl. by rewrite pushed_nil.
  - rewrite (proj2 (Z.leb_le 0 _)) by lia. cbn [andb].
    destruct (Z.eqb_spec n 0) as [->|Hne]; cbn [negb map]; [by rewrite pushed_nil|].
    rewrite Htbl by (apply Z.mod_pos_bound; lia). cbn [mbind option_bind].
    rewrite step_pushed by lia. cbn [mbind option_bind].
    rewrite Nat2Z.inj_succ, Z.pow_succ_r in Hn by lia. rewrite IH.
    + rewrite map_app. cbn [map]. by rewrite pushed_snoc.
    + split; [apply Z.div_pos; lia|apply Z.div_lt_upper_bound; lia].
    + unfold pushed. simpl. lia.
Qed.
End loops.

Lemma replicate_snoc (n : nat) (x : Z) : replicate (S n) x = replicate n x ++ [x].
Proof. replace (S n) with (n + 1)%nat by lia. by rewrite replicate_add. Qed.

Lemma precis_loop_spec fuel : forall s,
  let k := Z.to_nat (nprecis s) in (k <= fuel)%nat -> Z.of_nat k <= np s ->
  precis_loop fuel s = Some (pushed s (replicate k 48)).
Proof.
  induction fuel as [|fuel IH]; intros s k Hk Hp; subst k; cbn [precis_loop].
  - rewrite (proj2 (Z.ltb_ge 0 _)) by lia. rewrite andb_false_r.
    replace (Z.to_nat (nprecis s)) with O by lia. simpl. by rewrite pushed_nil.
  - rewrite (proj2 (Z.leb_le 0 _)) by lia. cbn [andb]. destruct (Z.ltb_spec 0 (nprecis s)).
    + rewrite step_pushed by lia. cbn [mbind option_bind]. rewrite IH; cbn [nprecis np pushed length].
      * replace (Z.to_nat (nprecis s)) with (S (Z.to_nat (nprecis s - Z.of_nat 1))) by lia.
        by rewrite replicate_snoc, pushed_snoc.
      * lia.
      * lia.
    + replace (Z.to_nat (nprecis s)) with O by lia. simpl. by rewrite pushed_nil.
Qed.

(** Padding does not count as precision. *)
Lemma pad_loop_spec fuel pad : forall s,
  let k := Z.to_nat (nwidth s) in (k <= fuel)%nat -> Z.of_nat k <= np s ->
  exists s', pad_loop fuel pad s = Some s' /\ nds s' = replicate k pad ++ nds s.
Proof.
  induction fuel as [|fuel IH]; intros s k Hk Hp; subst k; cbn [pad_loop].
  - rewrite (proj2 (Z.ltb_ge 0 _)) by lia. rewrite andb_false_r.
    replace (Z.to_nat (nwidth s)) with O by lia. by exists s.
  - rewrite (proj2 (Z.leb_le 0 _)) by lia. cbn [andb]. destruct (Z.ltb_spec 0 (nwidth s)).
    + unfold push. rewrite (proj2 (Z.ltb_ge _ 0)) by lia. cbn [mbind option_bind].
      destruct (IH (mk_nstate (np s - 1) (pad :: nds s) (nwidth s - 1) (nprecis s)))
        as (s' & -> & E); [simpl; lia..|].
      exists s'. split; [done|]. rewrite E. cbn [nds nwidth].
      replace (Z.to_nat (nwidth s)) with (S (Z.to_nat (nwidth s - 1))) by lia.
      by rewrite replicate_snoc, <- app_assoc.
    + replace (Z.to_nat (nwidth s)) with O by lia. by exists s.
Qed.

(** ** The text of a number *)

Definition digit_char_of (c : conv) (d : Z) : Z := default 0 (digit_chars_of c !! Z.to_nat d).

Definition head_of (c : conv) (isneg : bool) (base : Z) : list Z :=
  option_list (sign_char c isneg) ++ alt_prefix c base.

(** The digits, after the zeros the precision asks for. *)
Definition body_of (c : conv) (n base : Z) : list Z :=
  let ds := map (digit_char_of c) (numeral base n) in
  replicate (Z.to_nat (precis c - Z.of_nat (length ds))) 48 ++ ds.

Definition room_of (c : conv) (isneg : bool) (n base : Z) : nat :=
  Z.to_nat (width c - Z.of_nat (length (head_of c isneg base)) - Z.of_nat (length (body_of c n base))).

Definition pad_of (c : conv) : Z :=
  if has (alt c) CONV_ALT_ZERO && (precis c <? 0) then 48 else 32.

Definition field (c : conv) (isneg : bool) (n base : Z) : list Z :=
  let head := head_of c isneg base in
  let body := body_of c n base in
  let room := room_of c isneg n base in
  if has (alt c) CONV_ALT_MINUS then head ++ body ++ replicate room 32
  else head ++ replicate room (pad_of c) ++ body.

Lemma digit_chars_of_lookup c d :
  0 <= d < 16 -> digit_chars_of c !! Z.to_nat d = Some (digit_char_of c d) /\ digit_char_of c d <> 0.
Proof.
  intros Hd. unfold digit_char_of, digit_chars_of.
  assert (H : Forall (fun d => (exists x, chars "0123456789ABCDEF" !! Z.to_nat d = Some x /\ x <> 0) /\
                (exists x, chars "0123456789abcdef" !! Z.to_nat d = Some x /\ x <> 0)) (seqZ 0 16)).
  { vm_compute. repeat constructor; eexists; split; (reflexivity || discriminate). }
  rewrite Forall_forall in H. destruct (H d) as [(x & E1 & N1) (y & E2 & N2)];
    [apply elem_of_seqZ; lia|].
  destruct (has (alt c) CONV_ALT_UPPER); [rewrite E1|rewrite E2]; done.
Qed.

Lemma nonzero_replicate n x : x <> 0 -> nonzero (replicate n x).
Proof. intros Hx. by apply Forall_replicate. Qed.

Lemma nonzero_body c n base : 2 <= base <= 16 -> 0 <= n < 2 ^ 64 -> nonzero (body_of c n base).
Proof.
  intros Hb Hn. apply nonzero_app. split; [by apply nonzero_replicate|].
  destruct (numeral_spec base n) as (_ & F & _); [lia|done|]. apply Forall_map.
  eapply Forall_impl; [exact F|]. intros d [Hd1 Hd2]. apply digit_chars_of_lookup. lia.
Qed.

Lemma nonzero_head c isneg base : nonzero (head_of c isneg base).
Proof.
  unfold head_of, sign_char, alt_prefix. apply nonzero_app.
  split; repeat case_match; simpl; repeat constructor; done.
Qed.

Section Printf.
Variable malloc : Z -> option (list Z).
Hypothesis malloc_length : forall n g, malloc n = Some g -> Z.of_nat (length g) = n.
Hypothesis malloc_total : forall n, 0 < n -> is_Some (malloc n).

Definition open_ (b : strbuf) (s : list Z) (k : nat) : Prop := holds b s /\ max b < 0 /\ fits b k.

Lemma append_loop_cstr q : forall l mx m n,
  append_loop l mx m q n = append_loop l mx m (cstr q) n.
Proof.
  induction q as [|c q IH]; intros l mx m n; [done|]. cbn [cstr append_loop].
  destruct (Z.eqb_spec c 0) as [->|Hc]; [done|]. cbn [append_loop].
  rewrite (proj2 (Z.eqb_neq c 0) Hc). cbn [negb andb].
  destruct (_ || _); [|done]. destruct (store m (Z.to_nat l) c); [apply IH|done].
Qed.

Lemma append_cstr b q : strbuf_append malloc b q = strbuf_append malloc b (cstr q).
Proof.
  unfold strbuf_append, slen. rewrite (cstr_idem (cstr q)) by apply cstr_nonzero.
  destruct (if max b =? STRBUF_GROW then realloc _ _ _ else Some []) as [new|]; [|done].
  destruct (if max b =? STRBUF_GROW then Some new else buf b); [|done].
  cbn [mbind option_bind]. by rewrite append_loop_cstr.
Qed.

Lemma fits_le b k j : (j <= k)%nat -> fits b k -> fits b j.
Proof. intros Hj Hf Hne. destruct (Hf Hne) as (m & E & Hm). exists m. split; [done|lia]. Qed.

Lemma put_str_open b s k t :
  open_ b s k -> nonzero t -> (length t <= k)%nat ->
  exists b', put_str malloc b (t ++ [0]) = Some b' /\ open_ b' (s ++ t) (k - length t).
Proof.
  intros (Hh & Hmax & Hf) Ht Hk. pose proof Hh as (Hnz & Hl & _). unfold put_str.
  rewrite append_cstr, cstr_app0 by done. unfold strbuf_append. rewrite slen_str by done.
  replace (len b + Z.of_nat (length t) + 1) with (Z.of_nat (length s + length t + 1)) by lia.
  destruct (append_ready malloc malloc_length b s (length t) (length s + length t + 1) Hh)
    as [(_ & E & _)|(new & m & E & Em & rest & -> & Hrest & _)]; [by eapply fits_le|lia|..].
  - by apply (malloc_not_None malloc malloc_total) in E; [|lia].
  - unfold grow in E. rewrite E, Em. cbn [mbind option_bind]. rewrite Hl.
    pose proof (append_loop_spec (max b) t s rest 0 Ht) as Hloop. cbv zeta in Hloop.
    rewrite (proj2 (Z.ltb_lt _ 0) Hmax) in Hloop. rewrite Hloop by done. cbn [mbind option_bind].
    rewrite take_ge by done. eexists. split; [done|]. split; [|split; [done|]].
    + split; [by apply nonzero_app|]. cbn [len buf max]. rewrite length_app. split; [lia|].
      exists (drop (S (length t)) rest). split; [by rewrite <- app_assoc|]. lia.
    + intros Hne. cbn [max] in Hne. destruct (Hf Hne) as (m & Eb & Hm). cbn [buf len].
      rewrite (proj2 (Z.eqb_neq _ _) Hne), Eb in Em. simplify_eq.
      eexists. split; [done|]. rewrite !length_app in *. cbn [length]. rewrite length_drop. lia.
Qed.

(** Text can be written behind the string [s], if it is of at most [k] characters. *)
Class Writer (W : strbuf -> list Z -> nat -> Prop) : Prop :=
  put_str_law : forall b s k t, W b s k -> nonzero t -> (length t <= k)%nat ->
    exists b', put_str malloc b (t ++ [0]) = Some b' /\ W b' (s ++ t) (k - length t)%nat.

#[local] Instance open_writer : Writer open_ := put_str_open.

(** A buffer with a limit: it holds the start of what was written, of at most [mx] characters,
    and its storage keeps its size. *)
Record clipped (mx N : nat) (b : strbuf) (s : list Z) (k : nat) : Prop := {
  cl_nonzero : nonzero s;
  cl_max : max b = Z.of_nat mx;
  cl_room : (mx < N)%nat;
  cl_len : len b = Z.of_nat (length (take mx s));
  cl_buf : exists rest, buf b = Some (take mx s ++ 0 :: rest) /\ length (take mx s ++ 0 :: rest) = N;
}.

#[local] Instance clipped_writer mx N : Writer (clipped mx N).
Proof.
  intros b s k t [Hs Hm Hr Hl (rest & Hb & HN)] Ht _. unfold put_str.
  rewrite append_cstr, cstr_app0 by done. unfold strbuf_append.
  assert (Hg : (max b =? STRBUF_GROW) = false) by (apply Z.eqb_neq; unfold STRBUF_GROW; lia).
  rewrite Hg, Hb. cbn [mbind option_bind]. rewrite Hl, Hm.
  rewrite length_app in HN. cbn [length] in HN.
  pose proof (append_loop_spec (Z.of_nat mx) t (take mx s) (0 :: rest) 0 Ht) as Hloop. cbv zeta in Hloop.
  rewrite (proj2 (Z.ltb_ge _ 0)) in Hloop by lia.
  set (k' := Nat.min _ _) in Hloop. pose proof (length_take_le s mx) as Hls.
  assert (Ek : k' = Nat.min (length t) (mx - length (take mx s))) by (unfold k'; lia).
  rewrite Hloop by (simpl; lia). cbn [mbind option_bind].
  assert (Et : take mx (s ++ t) = take mx s ++ take k' t).
  { rewrite take_app, Ek, length_take. f_equal. destruct (Nat.le_gt_cases mx (length s)).
    - replace (mx - length s)%nat with 0%nat by lia.
      by replace (Nat.min (length t) (mx - Nat.min mx (length s)))%nat with 0%nat by lia.
    - rewrite (Nat.min_r mx) by lia. destruct (Nat.le_gt_cases (length t) (mx - length s)).
      + rewrite (Nat.min_l (length t)) by lia. by rewrite (take_ge t (mx - length s)%nat), (take_ge t (length t)) by lia.
      + by rewrite (Nat.min_r (length t)) by lia. }
  eexists. split; [reflexivity|]. split; cbn [max len buf]; [by apply nonzero_app|done|done| |].
  - rewrite Et, !length_app, !length_take. rewrite length_take in Ek. lia.
  - exists (drop (S k') (0 :: rest)). rewrite Et, <- app_assoc. split; [done|].
    rewrite length_take in HN, Ek. rewrite !length_app, !length_take. cbn [length]. rewrite length_drop. cbn [length]. lia.
Qed.

Section Writer.
Context {W : strbuf -> list Z -> nat -> Prop} `{!Writer W}.

Lemma put_char_open b s k c :
  W b s k -> c <> 0 -> (1 <= k)%nat ->
  exists b', put_char malloc b c = Some b' /\ W b' (s ++ [c]) (k - 1)%nat.
Proof. intros Ho Hc Hk. by apply (put_str_law b s k [c]); [|repeat constructor|]. Qed.

Lemma put_head_open head : forall b s k,
  W b s k -> nonzero head -> (length head <= k)%nat ->
  exists b', foldl (fun b ch => b ← b; put_char malloc b ch) (Some b) head = Some b' /\
    W b' (s ++ head) (k - length head)%nat.
Proof.
  induction head as [|c head IH]; intros b s k Ho Hnz Hk.
  - exists b. rewrite app_nil_r. simpl. by rewrite Nat.sub_0_r.
  - inversion Hnz as [|? ? Hc Hnz']; subst. simpl in Hk. cbn [foldl mbind option_bind].
    destruct (put_char_open b s k c Ho Hc) as (b1 & -> & Ho1); [lia|].
    destruct (IH b1 _ _ Ho1 Hnz') as (b2 & -> & Ho2); [lia|]. exists b2. split; [done|].
    rewrite <- app_assoc in Ho2. cbn [length app] in *.
    by replace (k - S (length head))%nat with (k - 1 - length head)%nat by lia.
Qed.

Lemma put_spaces_open n : forall b s k,
  W b s k -> (n <= k)%nat ->
  exists b', put_spaces malloc n b = Some b' /\ W b' (s ++ replicate n 32) (k - n)%nat.
Proof.
  induction n as [|n IH]; intros b s k Ho Hk.
  - exists b. simpl. by rewrite app_nil_r, Nat.sub_0_r.
  - cbn [put_spaces]. destruct (put_char_open b s k 32 Ho) as (b1 & -> & Ho1); [done|lia|].
    cbn [mbind option_bind]. destruct (IH b1 _ _ Ho1) as (b2 & -> & Ho2); [lia|].
    exists b2. split; [done|]. rewrite <- app_assoc in Ho2. cbn [replicate app] in *.
    by replace (k - S n)%nat with (k - 1 - n)%nat by lia.
Qed.

(** The digits and zeros, in the number buffer. *)
Lemma body_built c n base w :
  2 <= base <= 16 -> 0 <= n < 2 ^ 64 -> precis c <= 127 ->
  exists s, (ch ← digit_chars_of c !! Z.to_nat (n mod base);
    s ← digit_loop 64 (digit_chars_of c) base (n / base)
          (mk_nstate (NBUF - 2) [ch] (w - 1) (precis c - 1));
    precis_loop 128 s) = Some s /\
    nds s = body_of c n base /\ nwidth s = w - Z.of_nat (length (body_of c n base)) /\
    np s = 127 - Z.of_nat (length (body_of c n base)) /\ (length (body_of c n base) <= 127)%nat.
Proof.
  intros Hb Hn Hp. pose proof (Z.mod_pos_bound n base ltac:(lia)) as Hm.
  destruct (digit_chars_of_lookup c (n mod base)) as [-> _]; [lia|]. cbn [mbind option_bind].
  assert (Hq : 0 <= n / base < base ^ Z.of_nat 64).
  { split; [apply Z.div_pos; lia|]. apply Z.div_lt_upper_bound; [lia|].
    assert (2 ^ 64 <= base ^ 64) by (apply Z.pow_le_mono_l; lia).
    change (Z.of_nat 64) with 64. nia. }
  destruct (numeral_spec base n) as (_ & _ & HL & _); [lia|done|]. unfold body_of.
  unfold numeral in *. rewrite map_app in *.
  rewrite (digit_loop_spec _ base (digit_char_of c)).
  - set (D := digits_of 64 base (n / base)) in *. clearbody D. clear Hq Hn.
    cbn [mbind option_bind]. cbn [map].
    set (ds := map (digit_char_of c) D ++ [digit_char_of c (n mod base)]).
    assert (Hds : (length ds <= 65)%nat).
    { unfold ds. rewrite length_app, length_map in *. simpl in *. lia. }
    assert (Es : pushed (mk_nstate (NBUF - 2) [digit_char_of c (n mod base)] (w - 1) (precis c - 1))
                   (map (digit_char_of c) D) =
                 mk_nstate (127 - Z.of_nat (length ds)) ds (w - Z.of_nat (length ds))
                   (precis c - Z.of_nat (length ds))).
    { unfold pushed, ds, NBUF. rewrite length_app. cbn [np nds nwidth nprecis length]. f_equal; lia. }
    rewrite Es. rewrite precis_loop_spec by (cbn [nprecis np]; lia).
    eexists. split; [done|]. cbn [pushed nds nwidth np nprecis].
    rewrite length_app, length_replicate. split; [done|]. lia.
  - lia.
  - intros d Hd. apply digit_chars_of_lookup. lia.
  - done.
  - unfold NBUF. simpl. lia.
Qed.

(** The text of a number is its field. *)
Lemma format_num_field b s k c isneg n base :
  W b s k -> 2 <= base <= 16 -> 0 <= n < 2 ^ 64 -> width c <= 127 -> precis c <= 127 ->
  (length (field c isneg n base) <= k)%nat ->
  exists b', format_num malloc b c isneg n base = Some b' /\
    W b' (s ++ field c isneg n base) (k - length (field c isneg n base))%nat.
Proof.
  intros Ho Hb Hn Hw Hp Hk. unfold format_num. fold (head_of c isneg base).
  assert (Hlen : length (field c isneg n base) =
    (length (head_of c isneg base) + room_of c isneg n base + length (body_of c n base))%nat).
  { unfold field. destruct (has _ _); rewrite !length_app, length_replicate; lia. }
  destruct (put_head_open (head_of c isneg base) b s k Ho) as (b1 & -> & Ho1);
    [apply nonzero_head|lia|]. cbn [mbind option_bind].
  destruct (body_built c n base (width c - Z.of_nat (length (head_of c isneg base))) Hb Hn Hp)
    as (st & E & E1 & E2 & E3 & E4).
  pose proof (nonzero_body c n base Hb Hn) as Hnb.
  assert (Hroom : Z.to_nat (nwidth st) = room_of c isneg n base) by (unfold room_of; rewrite E2; lia).
  destruct (digit_chars_of c !! Z.to_nat (n mod base)) as [ch|]; [|done].
  cbn [mbind option_bind] in E |- *.
  destruct (digit_loop _ _ _ _ _) as [s1|]; [|done]. cbn [mbind option_bind] in E |- *.
  rewrite E. cbn [mbind option_bind]. unfold field in *.
  destruct (has (alt c) CONV_ALT_MINUS); cbn [negb].
  - rewrite E1. destruct (put_str_law b1 _ _ _ Ho1 Hnb) as (b2 & -> & Ho2); [lia|].
    cbn [mbind option_bind]. rewrite Hroom.
    destruct (put_spaces_open (room_of c isneg n base) b2 _ _ Ho2) as (b3 & -> & Ho3); [lia|].
    exists b3. split; [done|]. rewrite <- !app_assoc in Ho3. by rewrite Hlen, !Nat.sub_add_distr in *;
      replace (k - _ - _ - _)%nat with
        (k - length (head_of c isneg base) - length (body_of c n base) - room_of c isneg n base)%nat by lia.
  - fold (pad_of c). destruct (pad_loop_spec 128 (pad_of c) st) as (s2 & -> & E5);
      [rewrite Hroom; unfold room_of; lia|rewrite Hroom, E3; unfold room_of; lia|].
    cbn [mbind option_bind]. rewrite E5, Hroom, E1.
    destruct (put_str_law b1 _ _ (replicate (room_of c isneg n base) (pad_of c) ++ body_of c n base) Ho1)
      as (b2 & -> & Ho2).
    { apply nonzero_app. split; [|done]. apply nonzero_replicate. unfold pad_of. by destruct (_ && _). }
    { rewrite length_app, length_replicate. lia. }
    exists b2. split; [done|]. rewrite <- !app_assoc in *. rewrite Hlen.
    rewrite length_app, length_replicate in Ho2.
    by replace (k - (length (head_of c isneg base) + room_of c isneg n base + length (body_of c n base)))%nat
      with (k - length (head_of c isneg base) - (room_of c isneg n base + length (body_of c n base)))%nat by lia.
Qed.

End Writer.

(** What [sprintf_num] takes as negative, and the magnitude it prints. *)
Definition is_neg (c : conv) (num : Z) : bool :=
  negb (has (mod_ c) CONV_MOD_UNSIGNED) && (s32 num <? 0).
Definition magnitude (c : conv) (num : Z) : Z :=
  let m := if is_neg c num then - s32 num else num in
  if has (mod_ c) CONV_MOD_SHORT then u16 m else m.

Lemma neg_s32 num : 0 <= num < 2 ^ 32 -> (s32 num <? 0) = true -> 0 <= - s32 num < 2 ^ 32.
Proof.
  intros Hn E. unfold s32 in *. change (2 ^ 32) with 4294967296 in *.
  rewrite u32_small in * by done. destruct (num <? 2147483648) eqn:?; lia.
Qed.

Lemma magnitude_range c num : 0 <= num < 2 ^ 32 -> 0 <= magnitude c num < 2 ^ 32.
Proof.
  intros Hn. unfold magnitude. set (m := if is_neg c num then _ else _).
  assert (Hm : 0 <= m < 2 ^ 32).
  { unfold m. destruct (is_neg c num) eqn:E; [|done]. unfold is_neg in E.
    apply andb_true_iff in E as [_ E]. by apply neg_s32. }
  destruct (has _ _); [|done]. pose proof (u16_range m). change (2 ^ 32) with 4294967296. lia.
Qed.

Lemma sprintf_num_open {W : strbuf -> list Z -> nat -> Prop} `{!Writer W} b s k c num base :
  W b s k -> 2 <= base <= 16 -> 0 <= num < 2 ^ 32 -> width c <= 127 -> precis c <= 127 ->
  let t := field c (is_neg c num) (magnitude c num) base in
  (length t <= k)%nat ->
  exists b', sprintf_num malloc b c num base = Some b' /\ W b' (s ++ t) (k - length t)%nat.
Proof.
  intros Ho Hb Hn Hw Hp t Hk. pose proof (magnitude_range c num Hn) as Hr.
  destruct (format_num_field b s k c (is_neg c num) (magnitude c num) base Ho Hb) as (b' & E & Ho'); try done; [lia|].
  exists b'. split; [|exact Ho']. unfold sprintf_num.
  rewrite (proj2 (Z.ltb_ge _ 2)), (proj2 (Z.ltb_ge 16 _)) by lia. cbn [orb]. fold (is_neg c num).
  assert (En : (if has (mod_ c) CONV_MOD_SHORT then u16 (if is_neg c num then u32 (s32 num * -1) else num)
                else u32 (if is_neg c num then u32 (s32 num * -1) else num)) = magnitude c num); [|by rewrite En].
  unfold magnitude. destruct (is_neg c num) eqn:Eg.
  - assert (Hs : 0 <= - s32 num < 4294967296).
    { unfold is_neg in Eg. apply andb_true_iff in Eg as [_ Eg]. by apply neg_s32. }
    replace (s32 num * -1) with (- s32 num) by lia. rewrite (u32_small (- s32 num)) by done.
    destruct (has _ _); [done|]. by apply u32_small.
  - destruct (has _ _); [done|]. apply u32_small. lia.
Qed.

(** Numbers.  [sprintf_num] prints, after what the buffer holds, the field of the
    number: sign and prefix, then the numeral of its magnitude with the zeros of the
    precision, padded to the width on the left, or on the right with the flag [-].  The
    numeral has digits below the base, the value of the magnitude, and no leading zero. *)
Theorem sprintf_num_field b s k c num base :
  open_ b s k -> 2 <= base <= 16 -> 0 <= num < 2 ^ 32 -> width c <= 127 -> precis c <= 127 ->
  let n := magnitude c num in
  (length (field c (is_neg c num) n base) <= k)%nat ->
  (exists b', sprintf_num malloc b c num base = Some b' /\
     holds b' (s ++ field c (is_neg c num) n base)) /\
  value base (numeral base n) = n /\ Forall (fun d => 0 <= d < base) (numeral base n) /\
  (head (numeral base n) = Some 0 -> n = 0).
Proof.
  intros Ho Hb Hn Hw Hp n Hk. pose proof (magnitude_range c num Hn) as Hr. fold n in Hr.
  destruct (numeral_spec base n) as (V & F & _ & H); [lia|lia|]. split; [|done].
  destruct (sprintf_num_open b s k c num base Ho Hb Hn Hw Hp Hk) as (b' & E & Ho' & _). by exists b'.
Qed.

(** ** A number read back *)

Lemma length_digits_of base fuel : forall n k,
  2 <= base -> 0 <= n < base ^ Z.of_nat k -> (length (digits_of fuel base n) <= k)%nat.
Proof.
  induction fuel as [|fuel IH]; intros n k Hb Hn; cbn [digits_of]; [simpl; lia|].
  destruct (Z.eqb_spec n 0) as [->|Hne]; [simpl; lia|].
  destruct k as [|k]; [change (base ^ Z.of_nat 0) with 1 in Hn; lia|].
  rewrite Nat2Z.inj_succ, Z.pow_succ_r in Hn by lia. rewrite length_app. simpl.
  assert (length (digits_of fuel base (n / base)) <= k)%nat; [|lia].
  apply IH; [done|]. split; [apply Z.div_pos; lia|apply Z.div_lt_upper_bound; lia].
Qed.

Lemma decimal_char d : 0 <= d < 10 -> digit_char_of NEW_CONV d = 48 + d.
Proof.
  intros Hd.
  assert (H : Forall (fun d => digit_char_of NEW_CONV d = 48 + d) (seqZ 0 10))
    by (repeat constructor).
  rewrite Forall_forall in H. apply H, elem_of_seqZ. lia.
Qed.

(** The field of an unsigned conversion without flags, width or precision. *)
Lemma field_u n : 0 <= n < 2 ^ 32 ->
  field (unsigned NEW_CONV) false n 10 = digit_chars (numeral 10 n) /\
  (1 <= length (numeral 10 n) <= 10)%nat /\ value 10 (numeral 10 n) = n /\ is_digits (numeral 10 n).
Proof.
  intros Hn. destruct (numeral_spec 10 n) as (V & F & L & _); [lia|lia|].
  assert (HL : (length (numeral 10 n) <= 10)%nat).
  { unfold numeral in *. rewrite length_app in *. cbn [length] in *.
    assert (length (digits_of 64 10 (n / 10)) <= 9)%nat; [|lia].
    apply length_digits_of; [lia|]. change (10 ^ Z.of_nat 9) with 1000000000.
    change (2 ^ 32) with 4294967296 in Hn. dlia. }
  split; [|split; [lia|done]].
  assert (Em : map (digit_char_of (unsigned NEW_CONV)) (numeral 10 n) = digit_chars (numeral 10 n)).
  { apply map_ext_in. intros d Hd. apply decimal_char.
    rewrite Forall_forall in F. apply F. by apply list_elem_of_In. }
  unfold field, body_of, room_of. change (has (alt (unsigned NEW_CONV)) CONV_ALT_MINUS) with false.
  change (head_of (unsigned NEW_CONV) false 10) with (@nil Z).
  change (width (unsigned NEW_CONV)) with (-1). change (precis (unsigned NEW_CONV)) with (-1).
  cbv iota. replace (Z.to_nat (-1 - _ - _)) with O by lia. cbn [replicate app].
  rewrite Em. by replace (Z.to_nat (-1 - _)) with O by lia.
Qed.

(** round trip.  The text [sprintf] prints for a number with "%u" is one that [stoli]
    reads as the same number, for every 32 bit number. *)
Theorem sprintf_stoli_roundtrip str n :
  (12 <= length str)%nat -> 0 <= n < 2 ^ 32 ->
  exists len b m, sprintf malloc str (chars "%u" ++ [0]) [AWord n] = Some (len, b, []) /\
    buf b = Some m /\ stoli m 0 = Some (0, n, m).
Proof.
  intros Hlen Hn. destruct (field_u n Hn) as (Ef & HL & V & D).
  unfold sprintf, vsnprintf, strbuf_init. cbn [bool_decide andb Z.ltb].
  destruct str as [|x str]; [simpl in Hlen; lia|]. simpl in Hlen.
  change (0 <? -1) with false. cbv iota. rewrite bool_decide_false by done. cbn [andb].
  rewrite store_Some by (simpl; lia). cbn [mbind option_bind].
  set (b0 := mk_strbuf 0 STRBUF_FIXED _).
  assert (Ho : open_ b0 [] 10).
  { split; [|split; [done|]].
    - split; [by constructor|]. split; [done|]. simpl. by exists str.
    - intros _. eexists. split; [done|]. simpl. lia. }
  unfold sprintf_core. change (length (chars "%u" ++ [0])) with 3%nat.
  change (chars "%u" ++ [0]) with [37; 117; 0]. cbn [core_loop].
  change (37 =? 0) with false. change (37 =? 37) with true. cbv iota.
  change (parse_flags [117; 0] 0) with (Some (0, [117; 0])). cbn [mbind option_bind].
  change (parse_width [117; 0] [AWord n]) with (Some (-1, [117; 0], [AWord n])).
  cbn [mbind option_bind].
  change (parse_precis [117; 0] [AWord n]) with (Some (-1, [117; 0], [AWord n])).
  cbn [mbind option_bind]. change (parse_mod [117; 0]) with (Some (0, [117; 0])).
  cbn [mbind option_bind]. change (mk_conv 0 (-1) (-1) 0) with NEW_CONV.
  assert (Ec : convert malloc b0 NEW_CONV 117 [AWord n] =
    (b ← sprintf_num malloc b0 (unsigned NEW_CONV) n 10; Some (b, [], []))).
  { unfold convert. cbn [Z.eqb Pos.eqb orb]. unfold conv_int. cbn [next_word mbind option_bind].
    change (has (mod_ (unsigned NEW_CONV)) CONV_MOD_LONGLONG) with false. cbv iota.
    by destruct (sprintf_num malloc b0 (unsigned NEW_CONV) n 10). }
  rewrite Ec.
  assert (Es : sprintf_num malloc b0 (unsigned NEW_CONV) n 10 =
               format_num malloc b0 (unsigned NEW_CONV) false n 10).
  { unfold sprintf_num. change (has (mod_ (unsigned NEW_CONV)) CONV_MOD_UNSIGNED) with true.
    change (has (mod_ (unsigned NEW_CONV)) CONV_MOD_SHORT) with false. cbn [negb andb orb Z.ltb].
    change ((10 <? 2) || (16 <? 10)) with false. cbv iota. by rewrite u32_small. }
  rewrite Es.
  destruct (format_num_field b0 [] 10 (unsigned NEW_CONV) false n 10 Ho) as (b1 & -> & Hh & _);
    [lia|lia|by vm_compute|by vm_compute| |].
  { rewrite Ef. unfold digit_chars. rewrite length_map. lia. }
  cbn [mbind option_bind core_loop]. change (0 =? 0) with true. cbv iota. cbn [mbind option_bind].
  rewrite Ef in Hh. destruct Hh as (Hnz & Hl & Hb). destruct (buf b1) as [m|] eqn:Em.
  2: { destruct Hb as [Hb _]. simpl in Hb. destruct (numeral 10 n); [simpl in HL; lia|done]. }
  destruct Hb as (rest & -> & _). eexists _, b1, _. split; [done|]. split; [done|].
  rewrite (stoli_spec _ 0 (numeral 10 n)).
  - rewrite (proj2 (Nat.leb_le _ 12)) by lia. unfold dec_value. fold (value 10 (numeral 10 n)).
    by rewrite V, u32_small.
  - split; [done|]. unfold sub. rewrite drop_0. cbn [app].
    change (0 :: rest) with ([0] ++ rest). rewrite app_assoc.
    rewrite take_app_le by (rewrite length_app; simpl; lia).
    apply take_ge. rewrite length_app. simpl. lia.
  - done.
  - lia.
Qed.

(** ** Plain text *)

Lemma core_loop_plain t : forall b s k outs,
  open_ b s k -> nonzero t -> 37 ∉ t -> (length t <= k)%nat ->
  exists b', core_loop malloc (length t + 1) b (t ++ [0]) [] outs = Some (b', outs) /\
    open_ b' (s ++ t) (k - length t).
Proof.
  induction t as [|c t IH]; intros b s k outs Ho Hnz Hp Hk.
  - exists b. simpl. by rewrite app_nil_r, Nat.sub_0_r.
  - inversion Hnz as [|? ? Hc Hnz']; subst. apply not_elem_of_cons in Hp as [Hc37 Hp].
    simpl in Hk. cbn [length Nat.add app core_loop].
    rewrite (proj2 (Z.eqb_neq c 0)), (proj2 (Z.eqb_neq c 37)) by done.
    destruct (put_char_open b s k c Ho Hc) as (b1 & -> & Ho1); [lia|]. cbn [mbind option_bind].
    destruct (IH b1 _ _ outs Ho1) as (b2 & -> & Ho2); [done..|lia|]. exists b2. split; [done|].
    rewrite <- app_assoc in Ho2. cbn [app] in Ho2.
    by replace (k - S (length t))%nat with (k - 1 - length t)%nat by lia.
Qed.

(** text without conversions goes to the console as it is, with a carriage return after
    each newline, and its length is returned. *)
Theorem printf_plain t :
  nonzero t -> 37 ∉ t -> t <> [] ->
  printf malloc (t ++ [0]) [] = Some (Z.of_nat (length t), concat (map putc t)).
Proof.
  intros Hnz Hp Hne. unfold printf, vprintf, strbuf_init.
  change (STRBUF_HAS_MAX (mk_strbuf 0 STRBUF_GROW None)) with false. rewrite andb_false_r.
  cbn [mbind option_bind]. unfold sprintf_core.
  assert (Ho : open_ (mk_strbuf 0 STRBUF_GROW None) [] (length t)).
  { split; [|split; [done|by intros []]]. split; [by constructor|by split]. }
  rewrite length_app. cbn [length].
  destruct (core_loop_plain t _ _ _ [] Ho Hnz Hp) as (b & -> & (Hh & _)); [lia|].
  cbn [mbind option_bind]. destruct Hh as (_ & Hl & Hb). rewrite Hl. cbn [app] in *.
  destruct (buf b) as [m|]; [|by destruct Hb]. destruct Hb as (rest & -> & _).
  unfold puts, default, from_option, id. cbn [snd]. by rewrite cstr_app0.
Qed.

(** An empty text leaves the buffer without storage, which prints as "(NULL)". *)
Lemma printf_empty : printf malloc [0] [] = Some (0, chars "(NULL)").
Proof. reflexivity. Qed.
(** ** Formats

    A format as a list of pieces: text, and conversions with flags and a width. *)

Inductive piece :=
  | Text (t : list Z)
  | Conv (flags digits : list Z) (ch : Z).

Definition piece_format (p : piece) : list Z :=
  match p with Text t => t | Conv fl ds ch => 37 :: fl ++ ds ++ [ch] end.
Definition format (ps : list piece) : list Z := concat (map piece_format ps).

Definition width_value (ds : list Z) : Z := foldl (fun v c => s32 (u32 (v * 10 + (c - 48)))) 0 ds.
Definition conv_of (fl ds : list Z) : conv :=
  mk_conv (foldl (fun a c => Z.lor a (conv_alt_val c)) 0 fl) (if bool_decide (ds = []) then -1 else width_value ds) (-1) 0.

(** The conversion and the base of a number, signed or not. *)
Definition number_conv (ch : Z) (c : conv) : option (conv * Z) :=
  if (ch =? 100) || (ch =? 105) then Some (c, 10)
  else if ch =? 111 then Some (unsigned c, 8)
  else if ch =? 88 then Some (unsigned (set_alt CONV_ALT_UPPER c), 16)
  else if ch =? 120 then Some (unsigned c, 16)
  else if ch =? 98 then Some (unsigned c, 2)
  else if ch =? 117 then Some (unsigned c, 10)
  else None.

(** What a piece prints, and the arguments it leaves. *)
Definition piece_text (p : piece) (args : list arg) : option (list Z * list arg) :=
  match p with
  | Text t => Some (t, args)
  | Conv fl ds ch =>
    match number_conv ch (conv_of fl ds), args with
    | Some (c, base), AWord n :: args => Some (field c (is_neg c n) (magnitude c n) base, args)
    | None, AWord n :: args => if ch =? 99 then Some ([u8 n], args) else None
    | None, AStr t :: args => if ch =? 115 then Some (default (chars "(NULL)") t, args) else None
    | _, _ => None
    end
  end.
Fixpoint text_of (ps : list piece) (args : list arg) : option (list Z) :=
  match ps with
  | [] => Some []
  | p :: ps => '(t, args) ← piece_text p args; ts ← text_of ps args; Some (t ++ ts)
  end.

Definition piece_ok (p : piece) : bool :=
  match p with
  | Text t => forallb (fun c => negb (c =? 0) && negb (c =? 37)) t
  | Conv fl ds ch =>
    forallb is_flag fl && forallb isdigit ds && negb (is_flag (hd 0 ds)) && (width_value ds <=? 127) &&
    existsb (Z.eqb ch) [100; 105; 111; 88; 120; 98; 117; 99; 115]
  end.
Definition arg_ok (a : arg) : Prop :=
  match a with
  | AWord n => 0 <= n < 2 ^ 32
  | AStr (Some t) => nonzero t
  | _ => True
  end.

Lemma parse_flags_run fl : forall p a c, forallb is_flag fl = true -> is_flag c = false ->
  parse_flags (fl ++ c :: p) a = Some (foldl (fun a c => Z.lor a (conv_alt_val c)) a fl, c :: p).
Proof.
  induction fl as [|f fl IH]; intros p a c Hf Hc; cbn [parse_flags app]; [by rewrite Hc|].
  cbn [forallb] in Hf. apply andb_true_iff in Hf as [-> Hf]. by apply IH.
Qed.
Lemma parse_int_run ds : forall p v c, forallb isdigit ds = true -> isdigit c = false ->
  parse_int (ds ++ c :: p) v = Some (foldl (fun v c => s32 (u32 (v * 10 + (c - 48)))) v ds, c :: p).
Proof.
  induction ds as [|d ds IH]; intros p v c Hd Hc; cbn [parse_int app]; [by rewrite Hc|].
  cbn [forallb] in Hd. apply andb_true_iff in Hd as [-> Hd]. by apply IH.
Qed.

Lemma specifier_plain ch : existsb (Z.eqb ch) [100; 105; 111; 88; 120; 98; 117; 99; 115] = true ->
  is_flag ch = false /\ isdigit ch = false /\ ch <> 42 /\ ch <> 46 /\ ch <> 104 /\ ch <> 76 /\ ch <> 113 /\ ch <> 108.
Proof.
  intros H. apply existsb_exists in H as (x & Hx & ->%Z.eqb_eq). cbn [In] in Hx.
  repeat (destruct Hx as [<-|Hx]; [by split_and!|]). done.
Qed.

(** Reading a conversion. *)
Lemma core_loop_conv fuel b fl ds ch p args outs : piece_ok (Conv fl ds ch) = true ->
  core_loop malloc (S fuel) b (piece_format (Conv fl ds ch) ++ p) args outs =
  ('(b, args, o) ← convert malloc b (conv_of fl ds) ch args; core_loop malloc fuel b p args (outs ++ o)).
Proof.
  cbn [piece_ok]. rewrite !andb_true_iff. intros ((((Hf & Hd) & Hz) & _) & Hch).
  destruct (specifier_plain ch Hch) as (H1 & H2 & H3 & H4 & H5 & H6 & H7 & H8).
  cbn [piece_format app core_loop]. change (37 =? 0) with false. change (37 =? 37) with true. cbv iota.
  rewrite <- !app_assoc. cbn [app]. unfold conv_of.
  assert (Hw : exists h t, ds ++ ch :: p = h :: t /\ is_flag h = false /\
            parse_width (h :: t) args = Some (if bool_decide (ds = []) then -1 else width_value ds, ch :: p, args)).
  { destruct ds as [|d ds]; [|].
    - exists ch, p. split; [done|]. split; [done|]. unfold parse_width. by rewrite (proj2 (Z.eqb_neq ch 42)), H2.
    - exists d, (ds ++ ch :: p). split; [done|]. cbn [hd] in Hz. split; [by destruct (is_flag d)|].
      cbn [forallb] in Hd. pose proof Hd as [Hd1 _]%andb_true_iff. unfold parse_width.
      rewrite (proj2 (Z.eqb_neq d 42)), Hd1 by (by intros ->).
      change (d :: ds ++ ch :: p) with ((d :: ds) ++ ch :: p).
      by rewrite (parse_int_run (d :: ds)) by done. }
  destruct Hw as (h & t & E & Hh & Hpw). rewrite E, (parse_flags_run fl t 0 h Hf Hh). cbn [mbind option_bind].
  rewrite Hpw. cbn [mbind option_bind]. unfold parse_precis. rewrite (proj2 (Z.eqb_neq ch 46)) by done.
  cbn [mbind option_bind]. unfold parse_mod.
  rewrite (proj2 (Z.eqb_neq ch 104)), (proj2 (Z.eqb_neq ch 76)), (proj2 (Z.eqb_neq ch 113)), (proj2 (Z.eqb_neq ch 108)) by done.
  done.
Qed.

Section Formats.
Context {W : strbuf -> list Z -> nat -> Prop} `{!Writer W}.

Lemma nonzero_field c isneg n base : 2 <= base <= 16 -> 0 <= n < 2 ^ 64 -> nonzero (field c isneg n base).
Proof.
  intros Hb Hn. pose proof (nonzero_body c n base Hb Hn) as Hbody. pose proof (nonzero_head c isneg base) as Hh.
  unfold field. destruct (has _ _); rewrite !nonzero_app; (split; [done|]); (split; [|done]) || (split; [done|]);
    apply nonzero_replicate; [done|]. unfold pad_of. by destruct (_ && _).
Qed.

Lemma number_conv_range ch c c' base : number_conv ch c = Some (c', base) ->
  2 <= base <= 16 /\ width c' = width c /\ precis c' = precis c.
Proof. unfold number_conv. intros E. repeat case_match; simplify_eq; simpl; lia. Qed.

Lemma convert_number b ch c c' base n args : number_conv ch c = Some (c', base) -> mod_ c = 0 ->
  convert malloc b c ch (AWord n :: args) = (b ← sprintf_num malloc b c' n base; Some (b, args, [])).
Proof.
  intros E Hm. unfold number_conv in E. unfold convert.
  assert (Hc : forall d x, has (mod_ d) CONV_MOD_LONGLONG = false ->
    ('(b, args) ← conv_int malloc b d x (AWord n :: args); Some (b, args, @nil Z)) =
    (b ← sprintf_num malloc b d n x; Some (b, args, []))).
  { intros d x Hd. unfold conv_int. rewrite Hd. cbn [next_word mbind option_bind].
    by destruct (sprintf_num malloc b d n x). }
  repeat case_match; simplify_eq; apply Hc; unfold unsigned, set_alt; cbn [mod_]; rewrite Hm; reflexivity.
Qed.
End Formats.

Section Rendering.
Context {W : strbuf -> list Z -> nat -> Prop} `{!Writer W}.

Lemma conv_written b s k fl ds ch args t args' :
  W b s k -> piece_ok (Conv fl ds ch) = true -> Forall arg_ok args ->
  piece_text (Conv fl ds ch) args = Some (t, args') -> nonzero t -> (length t <= k)%nat ->
  exists b', convert malloc b (conv_of fl ds) ch args = Some (b', args', []) /\ W b' (s ++ t) (k - length t)%nat.
Proof.
  intros Hb Hp Ha Ht Hnz Hk. cbn [piece_text] in Ht. set (c := conv_of fl ds) in *.
  destruct (number_conv ch c) as [[c' base]|] eqn:Ec.
  - destruct args as [|[n| | |] args]; try discriminate. injection Ht as <- <-.
    rewrite (convert_number b ch c c' base n args Ec) by done.
    destruct (number_conv_range _ _ _ _ Ec) as (Hbase & Hw & Hpr). inversion Ha as [|? ? Hn _]; subst.
    destruct (sprintf_num_open b s k c' n base Hb Hbase Hn) as (b' & -> & Hb').
    + rewrite Hw. unfold c, conv_of. cbn [width]. cbn [piece_ok] in Hp. rewrite !andb_true_iff in Hp.
      destruct Hp as [[_ Hp] _]. apply Z.leb_le in Hp. by destruct (bool_decide _); [|lia].
    + by rewrite Hpr.
    + exact Hk.
    + by exists b'.
  - assert (Hch : ch = 99 \/ ch = 115).
    { cbn [piece_ok] in Hp. rewrite !andb_true_iff in Hp. destruct Hp as [_ Hp].
      apply existsb_exists in Hp as (x & Hx & ->%Z.eqb_eq). cbn [In] in Hx. unfold number_conv in Ec.
      repeat (destruct Hx as [<-|Hx]; [try discriminate Ec; auto|]). done. }
    destruct args as [|[n| |u|] args]; try discriminate.
    + destruct Hch as [-> | ->]; [|discriminate]. cbn [Z.eqb Pos.eqb] in Ht. injection Ht as <- <-.
      inversion Hnz as [|? ? Hc _]; subst. destruct (put_char_open b s k (u8 n) Hb Hc) as (b' & E & Hb'); [exact Hk|].
      exists b'. split; [|exact Hb']. change (convert malloc b c 99 (AWord n :: args)) with
        (b ← put_char malloc b (u8 n); Some (b, args, @nil Z)). by rewrite E.
    + destruct Hch as [-> | ->]; [discriminate|]. cbn [Z.eqb Pos.eqb] in Ht. injection Ht as <- <-.
      destruct (put_str_law b s k (default (chars "(NULL)") u) Hb Hnz Hk) as (b' & E & Hb').
      exists b'. split; [|exact Hb']. change (convert malloc b c 115 (AStr u :: args)) with
        (b ← sprintf_string malloc b c u; Some (b, args, @nil Z)).
      assert (Es : sprintf_string malloc b c u = put_str malloc b (default (chars "(NULL)") u ++ [0])).
      { destruct u as [u|]; cbn [default]; unfold sprintf_string; [change (0 <? precis c) with false; cbv iota|];
          unfold put_str; rewrite (append_cstr b (_ ++ [0])), cstr_app0 by done; [|reflexivity].
        inversion Ha; subst. by rewrite append_cstr, cstr_str. }
      by rewrite Es, E.
Qed.

Lemma core_loop_text u : forall n b s k p args,
  W b s k -> piece_ok (Text u) = true -> (length u <= k)%nat ->
  exists b', core_loop malloc (length u + n) b (u ++ p) args [] = core_loop malloc n b' p args [] /\
    W b' (s ++ u) (k - length u)%nat.
Proof.
  induction u as [|c u IH]; intros n b s k p args Hb Hu Hk.
  { exists b. by rewrite app_nil_r, Nat.sub_0_r. }
  cbn [piece_ok forallb] in Hu. rewrite !andb_true_iff, !negb_true_iff in Hu. destruct Hu as [[H0 H37] Hu].
  cbn [length Nat.add app core_loop] in Hk |- *. rewrite H0, H37. apply Z.eqb_neq in H0.
  destruct (put_char_open b s k c Hb H0) as (b1 & -> & Hb1); [lia|]. cbn [mbind option_bind].
  destruct (IH n b1 _ _ p args Hb1 Hu) as (b2 & -> & Hb2); [lia|]. exists b2. split; [done|].
  rewrite <- app_assoc in Hb2. cbn [app] in Hb2.
  by replace (k - S (length u))%nat with (k - 1 - length u)%nat by lia.
Qed.

Lemma piece_text_args p args t args' : piece_text p args = Some (t, args') -> Forall arg_ok args -> Forall arg_ok args'.
Proof.
  destruct p as [u|fl ds ch]; cbn [piece_text]; [by intros [= _ <-]|].
  intros E Ha. destruct (number_conv _ _) as [[c base]|]; destruct args as [|[n| |u|] args]; try discriminate;
    inversion Ha; subst; [by injection E as _ <-|..]; destruct (_ =? _); try discriminate; by injection E as _ <-.
Qed.

(** The main loop writes the text of the format. *)
Lemma core_loop_pieces ps : forall fuel b s k args t,
  W b s k -> forallb piece_ok ps = true -> Forall arg_ok args -> text_of ps args = Some t -> nonzero t ->
  (length t <= k)%nat -> (length (format ps) < fuel)%nat ->
  exists b', core_loop malloc fuel b (format ps ++ [0]) args [] = Some (b', []) /\ W b' (s ++ t) (k - length t)%nat.
Proof.
  induction ps as [|p ps IH]; intros fuel b s k args t Hb Hp Ha Ht Hnz Hk Hf.
  - injection Ht as <-. destruct fuel as [|fuel]; [simpl in Hf; lia|]. exists b.
    split; [reflexivity|]. by rewrite app_nil_r, Nat.sub_0_r.
  - cbn [forallb] in Hp. apply andb_true_iff in Hp as [Hp Hps]. cbn [text_of] in Ht.
    destruct (piece_text p args) as [[u args']|] eqn:Eu; [|discriminate]. cbn [mbind option_bind] in Ht.
    destruct (text_of ps args') as [v|] eqn:Ev; [|discriminate]. injection Ht as <-.
    apply nonzero_app in Hnz as [Hu Hv]. rewrite length_app in Hk |- *.
    unfold format in *. cbn [map concat] in Hf |- *. rewrite length_app in Hf. rewrite <- app_assoc, (app_assoc s u v).
    rewrite Nat.sub_add_distr.
    pose proof (piece_text_args p args u args' Eu Ha) as Ha'. destruct p as [u'|fl ds ch].
    + injection Eu as -> <-. cbn [piece_format] in *.
      destruct (core_loop_text u (fuel - length u) b s k (concat (map piece_format ps) ++ [0]) args Hb Hp) as (b1 & E1 & Hb1); [lia|].
      replace (length u + (fuel - length u))%nat with fuel in E1 by lia. rewrite E1.
      apply (IH _ b1 _ _ args v Hb1); (done || lia).
    + destruct fuel as [|fuel]; [lia|]. rewrite core_loop_conv by done.
      destruct (conv_written b s k fl ds ch args u args' Hb Hp Ha Eu Hu) as (b1 & -> & Hb1); [lia|].
      cbn [mbind option_bind app]. apply (IH _ b1 _ _ args' v Hb1); try done; [lia|].
      cbn [piece_format length] in Hf. lia.
Qed.
End Rendering.

(** [snprintf] renders: for a format of text and conversions and arguments that fit it, the
    buffer then holds the text, cut off behind [maxlen] - 1 characters, and its size stays. *)
Lemma snprintf_text ps str maxlen args t :
  0 < maxlen <= Z.of_nat (length str) -> forallb piece_ok ps = true -> Forall arg_ok args ->
  text_of ps args = Some t -> nonzero t ->
  exists n b m, snprintf malloc str maxlen (format ps ++ [0]) args = Some (n, b, []) /\ buf b = Some m /\
    cstr m = take (Z.to_nat (maxlen - 1)) t /\ n = Z.of_nat (length (cstr m)) /\ length m = length str.
Proof.
  intros Hm Hp Ha Ht Hnz. unfold snprintf, vsnprintf, strbuf_init.
  destruct str as [|x str]; [simpl in Hm; lia|]. rewrite (proj2 (Z.ltb_lt 0 maxlen)) by lia.
  rewrite bool_decide_false by done. cbn [andb]. rewrite store_Some by (simpl; lia). cbn [mbind option_bind].
  set (b0 := mk_strbuf 0 (maxlen - 1) _).
  assert (Hb : clipped (Z.to_nat (maxlen - 1)) (length (x :: str)) b0 [] (length t)).
  { split; unfold b0; cbn [max len buf]; [constructor|lia|lia|by rewrite take_nil|].
    exists str. rewrite take_nil. split; reflexivity. }
  unfold sprintf_core.
  destruct (core_loop_pieces ps (length (format ps ++ [0])) b0 [] _ args t Hb Hp Ha Ht Hnz) as (b & -> & Hb');
    [lia|rewrite length_app; simpl; lia|]. cbn [mbind option_bind app] in *.
  destruct Hb' as [_ _ _ Hl (rest & Em & HN)]. rewrite Hl. eexists _, b, _. split; [reflexivity|]. split; [exact Em|].
  rewrite cstr_app0 by (apply nonzero_take, Hnz). by split.
Qed.

(** [printf] renders the whole text. *)
Lemma printf_text ps args t :
  forallb piece_ok ps = true -> Forall arg_ok args -> text_of ps args = Some t -> nonzero t -> t <> [] ->
  printf malloc (format ps ++ [0]) args = Some (Z.of_nat (length t), concat (map putc t)).
Proof.
  intros Hp Ha Ht Hnz Hne. unfold printf, vprintf, strbuf_init.
  change (STRBUF_HAS_MAX (mk_strbuf 0 STRBUF_GROW None)) with false. rewrite andb_false_r.
  cbn [mbind option_bind]. unfold sprintf_core.
  assert (Ho : open_ (mk_strbuf 0 STRBUF_GROW None) [] (length t)).
  { split; [|split; [done|by intros []]]. split; [by constructor|by split]. }
  destruct (core_loop_pieces ps (length (format ps ++ [0])) _ [] _ args t Ho Hp Ha Ht Hnz) as (b & -> & (Hh & _));
    [lia|rewrite length_app; simpl; lia|].
  cbn [mbind option_bind]. destruct Hh as (_ & Hl & Hb). rewrite Hl. cbn [app] in *.
  destruct (buf b) as [m|]; [|by destruct Hb]. destruct Hb as (rest & -> & _).
  unfold puts, default, from_option, id. cbn [snd]. by rewrite cstr_app0.
Qed.
End Printf.

(** ** What the C standard says

    The text of a conversion with flags and a width, without the program: [padded] puts a text
    with the [prefix] of a number, its sign or its 0x, into a field.  [agrees] holds where
    the program does what the standard says. *)

Module Standard.
Definition flag (f : Z) (fl : list Z) : bool := existsb (Z.eqb f) fl.
Definition field_width (ds : list Z) : Z := foldl (fun v c => v * 10 + (c - 48)) 0 ds.

Definition padded (fl : list Z) (w : Z) (prefix t : list Z) : list Z :=
  let gap := Z.to_nat (w - Z.of_nat (length prefix) - Z.of_nat (length t)) in
  if flag 45 fl then prefix ++ t ++ replicate gap 32
  else if flag 48 fl then prefix ++ replicate gap 48 ++ t
  else replicate gap 32 ++ prefix ++ t.

Definition signed (ch : Z) : bool := (ch =? 100) || (ch =? 105).
Definition base_of (ch : Z) : option Z :=
  if signed ch || (ch =? 117) then Some 10
  else if ch =? 111 then Some 8
  else if (ch =? 120) || (ch =? 88) then Some 16
  else if ch =? 98 then Some 2
  else None.
Definition digit (ch d : Z) : Z :=
  if d <? 10 then 48 + d else if ch =? 88 then 65 + (d - 10) else 97 + (d - 10).

Definition prefix (fl : list Z) (ch n : Z) : list Z :=
  if signed ch then
    if s32 n <? 0 then [45] else if flag 43 fl then [43] else if flag 32 fl then [32] else []
  else if flag 35 fl && negb (n =? 0) then
    if ch =? 120 then [48; 120] else if ch =? 88 then [48; 88] else if ch =? 111 then [48] else []
  else [].
Definition number (ch n base : Z) : list Z :=
  map (digit ch) (numeral base (if signed ch then Z.abs (s32 n) else n)).

(** A null pointer for a string is undefined; the program prints "(NULL)". *)
Definition piece_text (p : piece) (args : list arg) : option (list Z * list arg) :=
  match p with
  | Text t => Some (t, args)
  | Conv fl ds ch =>
    match base_of ch, args with
    | Some base, AWord n :: args => Some (padded fl (field_width ds) (prefix fl ch n) (number ch n base), args)
    | None, AWord n :: args => if ch =? 99 then Some (padded fl (field_width ds) [] [u8 n], args) else None
    | None, AStr t :: args =>
      if ch =? 115 then Some (padded fl (field_width ds) [] (default (chars "(NULL)") t), args) else None
    | _, _ => None
    end
  end.
Fixpoint text_of (ps : list piece) (args : list arg) : option (list Z) :=
  match ps with
  | [] => Some []
  | p :: ps => '(t, args) ← piece_text p args; ts ← text_of ps args; Some (t ++ ts)
  end.

(** A width of at most 127.  A number: a prefix that needs no padding, or zeros or spaces
    behind it; no zero with the flag # and no binary one.  A string or a character: no padding. *)
Definition conv_agrees (fl ds : list Z) (ch : Z) (a : arg) : bool :=
  let w := field_width ds in
  (w <=? 127) &&
  match base_of ch, a with
  | Some base, AWord n =>
    (flag 45 fl || flag 48 fl || bool_decide (prefix fl ch n = []) ||
     (w <=? Z.of_nat (length (prefix fl ch n ++ number ch n base)))) &&
    negb (flag 35 fl && ((n =? 0) || (ch =? 98)))
  | None, AStr t => w <=? Z.of_nat (length (default (chars "(NULL)") t))
  | _, _ => w <=? 1
  end.
Fixpoint agrees (ps : list piece) (args : list arg) : bool :=
  match ps, args with
  | [], _ => true
  | Text _ :: ps, _ => agrees ps args
  | Conv fl ds ch :: ps, a :: args => conv_agrees fl ds ch a && agrees ps args
  | Conv _ _ _ :: _, [] => false
  end.
End Standard.

Lemma has_lor a b f : has (Z.lor a b) f = has a f || has b f.
Proof.
  unfold has. rewrite Z.land_lor_distr_l.
  destruct (Z.eqb_spec (Z.land a f) 0) as [->|Ha]; [by rewrite Z.lor_0_l|]. cbn [negb orb].
  destruct (Z.eqb_spec (Z.lor (Z.land a f) (Z.land b f)) 0) as [E|]; [|done].
  by apply Z.lor_eq_0_iff in E as [E _].
Qed.

Lemma has_flags f fl : forall a, f <> 0 -> is_flag f = true -> forallb is_flag fl = true ->
  has (foldl (fun a c => Z.lor a (conv_alt_val c)) a fl) (conv_alt_val f) =
  has a (conv_alt_val f) || Standard.flag f fl.
Proof.
  induction fl as [|c fl IH]; intros a H0 Hf Hfl; cbn [foldl]; [by rewrite orb_false_r|].
  cbn [forallb] in Hfl. apply andb_true_iff in Hfl as [Hc Hfl]. rewrite IH, has_lor by done.
  unfold Standard.flag. cbn [existsb]. rewrite orb_assoc. f_equal. f_equal.
  unfold is_flag in Hc, Hf. rewrite !orb_true_iff, !Z.eqb_eq in Hc, Hf.
  destruct Hf as [[[[->| ->]| ->]| ->]| ->]; by destruct Hc as [[[[->| ->]| ->]| ->]| ->].
Qed.

Lemma no_upper fl : forall a, has a CONV_ALT_UPPER = false -> forallb is_flag fl = true ->
  has (foldl (fun a c => Z.lor a (conv_alt_val c)) a fl) CONV_ALT_UPPER = false.
Proof.
  induction fl as [|c fl IH]; intros a Ha Hfl; cbn [foldl]; [done|].
  cbn [forallb] in Hfl. apply andb_true_iff in Hfl as [Hc Hfl]. apply IH; [|done].
  rewrite has_lor, Ha. unfold is_flag in Hc. rewrite !orb_true_iff, !Z.eqb_eq in Hc.
  by destruct Hc as [[[[->| ->]| ->]| ->]| ->].
Qed.

Lemma isdigit_range c : isdigit c = true -> 48 <= c <= 57.
Proof.
  intros H. unfold isdigit, is_char in H. rewrite negb_true_iff, Z.eqb_neq in H.
  destruct (ctype_table !! Z.to_nat c) as [x|] eqn:E; [|done]. cbn [default from_option id] in H.
  assert (F : Forall (fun '(i, x) => Z.land x _N = 0 \/ 48 <= i <= 57) (zip (seqZ 0 256) ctype_table)).
  { apply (bool_decide_unpack _). by vm_compute. }
  assert (Hl : (Z.to_nat c < 256)%nat) by (by apply lookup_lt_Some in E).
  rewrite Forall_lookup in F. specialize (F (Z.to_nat c) (Z.of_nat (Z.to_nat c), x)).
  destruct F as [F|F]; [|done|lia].
  apply lookup_zip_Some. split; [|done]. by rewrite lookup_seqZ_lt by lia.
Qed.

Lemma width_plain ds : forall v, 0 <= v -> forallb isdigit ds = true ->
  let w := foldl (fun v c => v * 10 + (c - 48)) v ds in
  v <= w /\ (w <= 127 -> foldl (fun v c => s32 (u32 (v * 10 + (c - 48)))) v ds = w).
Proof.
  induction ds as [|c ds IH]; intros v Hv Hd; cbn [foldl]; [lia|].
  cbn [forallb] in Hd. apply andb_true_iff in Hd as [Hc Hd]. apply isdigit_range in Hc.
  destruct (IH (v * 10 + (c - 48))) as [Hle Heq]; [lia|done|]. split; [lia|]. intros Hw.
  rewrite <- Heq by done. f_equal. rewrite u32_small by lia. unfold s32. rewrite u32_small by lia.
  by rewrite (proj2 (Z.ltb_lt _ _)) by lia.
Qed.

(** ** The standard text is the text of the program *)

Section Agreement.
Context (fl ds : list Z) (ch : Z).
Hypothesis Hok : piece_ok (Conv fl ds ch) = true.
Hypothesis Hwidth : Standard.field_width ds <= 127.

Lemma fl_flags : forallb is_flag fl = true.
Proof. cbn [piece_ok] in Hok. rewrite !andb_true_iff in Hok. apply Hok. Qed.

Lemma flag_of f : is_flag f = true -> has (alt (conv_of fl ds)) (conv_alt_val f) = Standard.flag f fl.
Proof.
  intros Hf. unfold conv_of. cbn [alt]. rewrite has_flags; [done| |done|apply fl_flags]. by intros ->.
Qed.

Lemma gap_width k : 0 <= k ->
  Z.to_nat (width (conv_of fl ds) - k) = Z.to_nat (Standard.field_width ds - k).
Proof.
  intros Hk. pose proof Hok as H. cbn [piece_ok] in H. rewrite !andb_true_iff in H.
  destruct H as [[[[_ Hd] _] _] _]. destruct (width_plain ds 0) as [_ E]; [lia|done|].
  unfold conv_of. cbn [width]. unfold width_value. rewrite E by exact Hwidth. unfold Standard.field_width.
  case_bool_decide as Hds; [|done]. subst ds. simpl. lia.
Qed.

Lemma no_upper_conv : has (alt (conv_of fl ds)) CONV_ALT_UPPER = false.
Proof. unfold conv_of. cbn [alt]. apply no_upper; [done|apply fl_flags]. Qed.

(** The conversion of a number: its base, case, signedness and flags. *)
Lemma number_conv_std : match number_conv ch (conv_of fl ds) with
  | Some (c, base) => Standard.base_of ch = Some base /\ precis c = -1 /\ width c = width (conv_of fl ds) /\
      has (mod_ c) CONV_MOD_SHORT = false /\
      has (mod_ c) CONV_MOD_UNSIGNED = negb (Standard.signed ch) /\ has (alt c) CONV_ALT_UPPER = (ch =? 88) /\
      forall f, is_flag f = true -> has (alt c) (conv_alt_val f) = Standard.flag f fl
  | None => Standard.base_of ch = None
  end.
Proof.
  pose proof Hok as H. cbn [piece_ok] in H. rewrite !andb_true_iff in H. destruct H as [_ Hch].
  apply existsb_exists in Hch as (x & Hx & Ex%Z.eqb_eq).
  pose proof no_upper_conv as Hu. pose proof flag_of as Hf.
  assert (Hp : forall f, is_flag f = true ->
    has (alt (set_alt CONV_ALT_UPPER (conv_of fl ds))) (conv_alt_val f) = Standard.flag f fl).
  { intros f H. unfold set_alt. cbn [alt]. rewrite has_lor, (Hf f H). unfold is_flag in H.
    rewrite !orb_true_iff, !Z.eqb_eq in H.
    destruct H as [[[[->| ->]| ->]| ->]| ->]; apply orb_false_r. }
  cbn [In] in Hx.
  repeat (destruct Hx as [<-|Hx]; [rewrite Ex in *; unfold number_conv, Standard.base_of, Standard.signed;
    cbn [Z.eqb Pos.eqb orb negb]; (split_and!; (assumption || reflexivity || idtac)) || reflexivity|]); [..|done].
  unfold unsigned, set_alt. cbn [alt]. rewrite has_lor. apply orb_true_r.
Qed.
End Agreement.

Lemma digit_std c ch d : has (alt c) CONV_ALT_UPPER = (ch =? 88) -> 0 <= d < 16 ->
  digit_char_of c d = Standard.digit ch d.
Proof.
  intros Hu Hd. unfold digit_char_of, digit_chars_of, Standard.digit. rewrite Hu.
  assert (F : Forall (fun d => default 0 (chars "0123456789ABCDEF" !! Z.to_nat d) =
                        (if d <? 10 then 48 + d else 65 + (d - 10)) /\
                      default 0 (chars "0123456789abcdef" !! Z.to_nat d) =
                        (if d <? 10 then 48 + d else 97 + (d - 10))) (seqZ 0 16)) by (by repeat constructor).
  rewrite Forall_forall in F. destruct (F d) as [F1 F2]; [apply elem_of_seqZ; lia|].
  by destruct (ch =? 88); [rewrite F1|rewrite F2]; destruct (d <? 10).
Qed.

Lemma body_std c ch n base : has (alt c) CONV_ALT_UPPER = (ch =? 88) -> precis c = -1 ->
  2 <= base <= 16 -> 0 <= n < 2 ^ 64 -> body_of c n base = map (Standard.digit ch) (numeral base n).
Proof.
  intros Hu Hp Hb Hn. unfold body_of. rewrite Hp. replace (Z.to_nat (-1 - _)) with O by lia. cbn [replicate app].
  destruct (numeral_spec base n) as (_ & F & _); [lia|done|]. apply map_ext_in. intros d Hd.
  apply digit_std; [done|]. rewrite Forall_forall in F. specialize (F d). rewrite list_elem_of_In in F.
  specialize (F Hd). simpl in F. lia.
Qed.

(** A number. *)
Lemma field_std fl ds ch c base n : piece_ok (Conv fl ds ch) = true ->
  number_conv ch (conv_of fl ds) = Some (c, base) -> 0 <= n < 2 ^ 32 ->
  Standard.conv_agrees fl ds ch (AWord n) = true ->
  Standard.base_of ch = Some base /\
  field c (is_neg c n) (magnitude c n) base =
  Standard.padded fl (Standard.field_width ds) (Standard.prefix fl ch n) (Standard.number ch n base).
Proof.
  intros Hok Hc Hn Ha. unfold Standard.conv_agrees in Ha. apply andb_true_iff in Ha as [Hw%Z.leb_le Ha].
  pose proof (number_conv_std fl ds ch Hok) as S. rewrite Hc in S.
  destruct S as (Hb & Hp & Hwd & Hsh & Hus & Hup & Hfl). split; [done|]. rewrite Hb in Ha.
  apply andb_true_iff in Ha as [Ha Hh]. destruct (number_conv_range _ _ _ _ Hc) as (Hr & _ & _).
  assert (Hm : magnitude c n = if Standard.signed ch then Z.abs (s32 n) else n).
  { unfold magnitude, is_neg. rewrite Hsh, Hus, negb_involutive. destruct (Standard.signed ch); [|done].
    cbn [andb]. destruct (Z.ltb_spec (s32 n) 0); [lia|]. unfold s32 in *. rewrite u32_small in * by done.
    destruct (n <? 2147483648) eqn:?; [lia|]. lia. }
  pose proof (magnitude_range c n Hn) as Hmr.
  assert (Hbody : body_of c (magnitude c n) base = Standard.number ch n base).
  { rewrite (body_std c ch) by (done || lia). by rewrite Hm. }
  assert (Hhead : head_of c (is_neg c n) base = Standard.prefix fl ch n).
  { unfold head_of, sign_char, alt_prefix, is_neg, Standard.prefix. rewrite Hus, negb_involutive, Hup.
    rewrite (Hfl 35 eq_refl : has (alt c) CONV_ALT_HASH = _), (Hfl 43 eq_refl : has (alt c) CONV_ALT_PLUS = _),
      (Hfl 32 eq_refl : has (alt c) CONV_ALT_SPACE = _).
    pose proof Hok as H. cbn [piece_ok] in H. rewrite !andb_true_iff in H. destruct H as [_ Hch].
    apply existsb_exists in Hch as (x & Hx & Ex%Z.eqb_eq). rewrite Ex in *. cbn [In] in Hx.
    destruct (Standard.flag 35 fl); cbn [andb negb] in Hh |- *;
      [rewrite negb_true_iff, orb_false_iff in Hh; destruct Hh as [-> Hh]|];
      repeat (destruct Hx as [<-|Hx]; [try discriminate Hh; try discriminate Hb; injection Hb as <-;
        cbn [Standard.signed Z.eqb Pos.eqb orb andb negb];
        repeat match goal with |- context [if ?b then _ else _] => destruct b end; reflexivity|]); done. }
  unfold field, room_of. rewrite Hbody, Hhead.
  rewrite (Hfl 45 eq_refl : has (alt c) CONV_ALT_MINUS = _). unfold pad_of.
  rewrite (Hfl 48 eq_refl : has (alt c) CONV_ALT_ZERO = _), Hp. rewrite andb_true_r.
  set (P := Standard.prefix fl ch n) in *. set (N := Standard.number ch n base) in *.
  rewrite Hwd, <- !Z.sub_add_distr, (gap_width fl ds ch Hok Hw) by lia. unfold Standard.padded.
  rewrite Z.sub_add_distr. destruct (Standard.flag 45 fl); [done|]. destruct (Standard.flag 48 fl); [done|].
  cbn [orb] in Ha. apply orb_true_iff in Ha as [Ha%bool_decide_eq_true|Ha%Z.leb_le]; [by rewrite Ha|].
  rewrite length_app in Ha.
  by replace (Z.to_nat (Standard.field_width ds - Z.of_nat (length P) - Z.of_nat (length N))) with O by lia.
Qed.

Lemma pad_none fl w t : w <= Z.of_nat (length t) -> Standard.padded fl w [] t = t.
Proof.
  intros H. unfold Standard.padded. cbn [length].
  replace (Z.to_nat (w - Z.of_nat 0 - Z.of_nat (length t))) with O by lia.
  cbn [replicate app]. rewrite app_nil_r. by destruct (Standard.flag 45 fl), (Standard.flag 48 fl).
Qed.

Lemma text_std ps : forall args, forallb piece_ok ps = true -> Forall arg_ok args ->
  Standard.agrees ps args = true -> Standard.text_of ps args = text_of ps args.
Proof.
  induction ps as [|p ps IH]; intros args Hp Ha Hg; [done|]. cbn [forallb] in Hp.
  apply andb_true_iff in Hp as [Hp Hps]. cbn [Standard.text_of text_of]. destruct p as [u|fl ds ch].
  { cbn [Standard.piece_text piece_text mbind option_bind]. by rewrite IH. }
  destruct args as [|a args]; [done|]. cbn [Standard.agrees] in Hg. apply andb_true_iff in Hg as [Hc Hg].
  inversion Ha as [|? ? Ha1 Ha2]; subst. specialize (IH args Hps Ha2 Hg). rename Ha1 into Harg.
  cbn [Standard.piece_text piece_text]. destruct (number_conv ch (conv_of fl ds)) as [[c base]|] eqn:E.
  - destruct a as [n| |u|].
    1: destruct (field_std fl ds ch c base n Hp E Harg Hc) as [-> ->]; cbn [mbind option_bind]; by rewrite IH.
    all: pose proof (number_conv_std fl ds ch Hp) as S; rewrite E in S; by destruct S as [-> _].
  - pose proof (number_conv_std fl ds ch Hp) as S. rewrite E in S. unfold Standard.conv_agrees in Hc.
    apply andb_true_iff in Hc as [_ Hc]. rewrite S in Hc |- *. destruct a as [n| |u|]; [|done| |done].
    + apply Z.leb_le in Hc. destruct (ch =? 99); [|done]. rewrite pad_none by done. cbn [mbind option_bind]. by rewrite IH.
    + apply Z.leb_le in Hc. destruct (ch =? 115); [|done]. rewrite pad_none by done. cbn [mbind option_bind]. by rewrite IH.
Qed.

Section Renders.
Variable malloc : Z -> option (list Z).
Hypothesis malloc_length : forall n g, malloc n = Some g -> Z.of_nat (length g) = n.
Hypothesis malloc_total : forall n, 0 < n -> is_Some (malloc n).

(** C16: formatted output.  For a format of text and conversions d i u o x X b c s with flags
    and a width up to 127, and arguments that fit it, where all allocations succeed, [snprintf]
    leaves in a buffer of at least [maxlen] characters the text the C standard gives, cut off
    behind [maxlen] - 1 characters and followed by a NUL, returns its length and stays within
    the buffer; [printf] puts the whole text, which must have a character and no NUL, on the
    console with a carriage return behind each newline, and returns its length.  [agrees]
    leaves out what the program does otherwise: spaces in front of a number with a sign or a
    prefix (they go behind it), a width that pads c or s (it is ignored), and the flag # with
    0 or with b.  A null string stands for "(NULL)". *)
Theorem printf_renders ps str maxlen args t :
  0 < maxlen <= Z.of_nat (length str) -> forallb piece_ok ps = true -> Forall arg_ok args ->
  Standard.agrees ps args = true -> Standard.text_of ps args = Some t -> nonzero t -> t <> [] ->
  (exists n b m, snprintf malloc str maxlen (format ps ++ [0]) args = Some (n, b, []) /\ buf b = Some m /\
     cstr m = take (Z.to_nat (maxlen - 1)) t /\ n = Z.of_nat (length (cstr m)) /\ length m = length str) /\
  printf malloc (format ps ++ [0]) args = Some (Z.of_nat (length t), concat (map putc t)).
Proof.
  intros Hm Hp Ha Hg Ht Hnz Hne. rewrite (text_std ps args Hp Ha Hg) in Ht. split.
  - eapply snprintf_text; eassumption.
  - eapply printf_text; eassumption.
Qed.
End Renders.

(** ** Concrete runs *)

(** "%+08d" of -42: the sign goes before the padding. *)
Definition conv_08d : conv := mk_conv (Z.lor CONV_ALT_PLUS CONV_ALT_ZERO) 8 (-1) 0.

Lemma hello_open k : open_ hello_grow hello k.
Proof. split; [exact hello_grow_holds|]. split; [done|]. by intros []. Qed.

Lemma sprintf_num_field_witness :
  exists b, sprintf_num endless hello_grow conv_08d (2 ^ 32 - 42) 10 = Some b /\
    holds b (hello ++ chars "-0000042").
Proof.
  destruct (sprintf_num_field endless endless_length endless_total hello_grow hello 100 conv_08d
              (2 ^ 32 - 42) 10) as [H _].
  - apply hello_open.
  - lia.
  - lia.
  - by vm_compute.
  - by vm_compute.
  - vm_compute. lia.
  - exact H.
Defined.

Lemma sprintf_stoli_roundtrip_witness :
  exists len b m, sprintf endless (replicate 12 0) (chars "%u" ++ [0]) [AWord 4294967295] =
    Some (len, b, []) /\ buf b = Some m /\ stoli m 0 = Some (0, 4294967295, m).
Proof.
  apply (sprintf_stoli_roundtrip endless endless_length endless_total (replicate 12 0) 4294967295).
  - simpl. lia.
  - lia.
Defined.

Lemma printf_plain_witness :
  printf endless (chars "ok" ++ [10; 0]) [] = Some (3, chars "ok" ++ [10; 13]).
Proof.
  apply (printf_plain endless endless_length endless_total (chars "ok" ++ [10])).
  - by repeat constructor.
  - by apply (bool_decide_unpack _); vm_compute.
  - discriminate.
Defined.

(** A negative number in a wider field: the padding follows the sign. *)
Example padded_after_sign :
  (b ← sprintf_num endless (mk_strbuf 0 STRBUF_GROW None) (mk_conv 0 5 (-1) 0) (2 ^ 32 - 3) 10;
   cstr <$> buf b) = Some (chars "-   3").
Proof. reflexivity. Qed.

(** A precision of 128 writes below the number buffer. *)
Example precision_underflow :
  sprintf_num endless (mk_strbuf 0 STRBUF_GROW None) (mk_conv 0 (-1) 128 0) 1 10 = None.
Proof. reflexivity. Qed.

(** A format that ends in a percent sign is read past its end. *)
Example percent_at_end : printf endless (chars "100%" ++ [0]) [] = None.
Proof. reflexivity. Qed.

(** "%s=%05d,%#x" of a name, -42 and 255. *)
Definition sample_format : list piece :=
  [Conv [] [] 115; Text [61]; Conv [48] [53] 100; Text [44]; Conv [35] [] 120].
Lemma printf_renders_witness :
  format sample_format = chars "%s=%05d,%#x" /\
  Standard.text_of sample_format [AStr (Some (chars "n")); AWord (2 ^ 32 - 42); AWord 255] = Some (chars "n=-0042,0xff") /\
  (exists n b m, snprintf endless (zeros 8) 8 (format sample_format ++ [0])
       [AStr (Some (chars "n")); AWord (2 ^ 32 - 42); AWord 255] = Some (n, b, []) /\ buf b = Some m /\
     cstr m = chars "n=-0042" /\ n = Z.of_nat (length (cstr m)) /\ length m = 8%nat) /\
  printf endless (format sample_format ++ [0]) [AStr (Some (chars "n")); AWord (2 ^ 32 - 42); AWord 255] =
    Some (12, chars "n=-0042,0xff").
Proof.
  split; [reflexivity|]. split; [reflexivity|].
  apply (printf_renders endless endless_length endless_total sample_format (zeros 8) 8
           [AStr (Some (chars "n")); AWord (2 ^ 32 - 42); AWord 255] (chars "n=-0042,0xff")).
  - simpl. lia.
  - reflexivity.
  - repeat constructor; done.
  - reflexivity.
  - reflexivity.
  - by repeat constructor.
  - discriminate.
Defined.
