(* ===== verification/Readline.v ===== *)
(** * Readline: line editing, history and its expansion

    Model of [x86/common/readline.c].  The history is the array of its entries with
    their links as indices.  Strings are lists of bytes, a line with its terminator;
    keys come from a list and what is printed is a list.  [malloc] is an argument as
    in [Strbuf].  A buffer that is handed over is a value here: the freeing of old
    lines is not modelled.  [None]: an access outside a buffer, or the end of the
    keys. *)

From stdpp Require Import strings.
From S2P Require Import Prelude CString Strbuf Printf.
Open Scope list_scope.
Open Scope Z_scope.

(** ** History *)

Definition HISTSZ : nat := 128.

Record histent := mk_histent { h_num : Z; h_line : option (list Z); h_next : nat; h_prev : nat }.

(** The static variables of the history; [sync] is that of [saveline]. *)
Record hist := mk_hist {
  history : list histent;
  histn : nat;
  hist0 : nat;
  histnum : Z;
  sync : bool;
}.

(** The links [readline_init] sets: a circle. *)
Definition link_next (i : nat) : nat := if (i <? HISTSZ - 1)%nat then S i else O.
Definition link_prev (i : nat) : nat := if (0 <? i)%nat then (i - 1)%nat else (HISTSZ - 1)%nat.

Definition readline_init : hist :=
  mk_hist (map (fun i => mk_histent 0 None (link_next i) (link_prev i)) (seq 0 HISTSZ))
    0 0 0 false.

Section History.
Variable malloc : Z -> option (list Z).

(** [strdup]: the copy, or a null pointer. *)
Definition strdup_line (s : list Z) : option (list Z) :=
  _ ← malloc (slen s + 1); Some (cstr s).

Definition saveline (line : list Z) (h : hist) : option (Z * hist) :=
  e ← history h !! histn h;
  let e := mk_histent (histnum h) (strdup_line line) (h_next e) (h_prev e) in
  let hs := <[histn h := e]> (history h) in
  let n := h_next e in
  let h0 := if sync h then n else hist0 h in
  let sy := sync h || (n =? h0)%nat in
  Some (histnum h, mk_hist hs n h0 (histnum h + 1) sy).
End History.

(** The [do ... while] loops go round the circle once at most. *)
Fixpoint num_loop (fuel : nat) (h : hist) (i : nat) (num : Z) : option (option (list Z)) :=
  match fuel with
  | O => None
  | S fuel =>
    e ← history h !! i;
    if h_num e =? num then Some (h_line e)
    else if (h_next e =? histn h)%nat then Some None
    else num_loop fuel h (h_next e) num
  end.

Definition histlookup_num (h : hist) (num : Z) : option (option (list Z)) :=
  num_loop HISTSZ h (hist0 h) num.

(** [!strncmp(h->h_line, str, strlen(str))]. *)
Definition starts_with (line str : list Z) : bool := bool_decide (str `prefix_of` line).

Fixpoint str_loop (fuel : nat) (h : hist) (i stop : nat) (str : list Z) :
    option (option (list Z)) :=
  match fuel with
  | O => None
  | S fuel =>
    e ← history h !! i;
    match h_line e with
    | Some l => if starts_with l str then Some (Some l)
                else if (h_prev e =? stop)%nat then Some None
                else str_loop fuel h (h_prev e) stop str
    | None => if (h_prev e =? stop)%nat then Some None else str_loop fuel h (h_prev e) stop str
    end
  end.

Definition histlookup_str (h : hist) (str : list Z) : option (option (list Z)) :=
  e ← history h !! histn h;
  str_loop HISTSZ h (h_prev e) (h_prev e) str.

(** ** Expansion *)

Inductive readline_state_t :=
  | ST_FAIL | ST_SUCCESS | ST_LINE | ST_BANG | ST_BANGNUM | ST_BANGSTR
  | ST_SLASHESC | ST_SQSTR | ST_DQSTR.

Definition iseol (c : Z) : bool := c =? 0.

(** The local variables of [readline]; [ptr] is the index of the next character. *)
Record rl := mk_rl {
  bangflag : bool;
  state : readline_state_t;
  pushed_state : readline_state_t;
  ptr : nat;
  out : strbuf;
  bbuf : list Z;
  bi : nat;
}.

Section Expand.
Variable malloc : Z -> option (list Z).
Variable h : hist.

Definition goto (st : readline_state_t) (r : rl) : rl :=
  mk_rl (bangflag r) st (pushed_state r) (ptr r) (out r) (bbuf r) (bi r).
Definition push_to (st : readline_state_t) (r : rl) : rl :=
  mk_rl (bangflag r) st (state r) (ptr r) (out r) (bbuf r) (bi r).
Definition bang_to (st : readline_state_t) (back : nat) (r : rl) : rl :=
  mk_rl true st (pushed_state r) (ptr r - back)%nat (out r) (bbuf r) (bi r).
Definition pop_back (r : rl) : rl :=
  mk_rl (bangflag r) (pushed_state r) (pushed_state r) (ptr r - 1)%nat (out r) (bbuf r) 0.
Definition fail_bang (r : rl) : rl :=
  mk_rl (bangflag r) ST_FAIL (pushed_state r) (ptr r) (out r) (bbuf r) 0.

Definition emit (c : Z) (r : rl) : option rl :=
  '(_, b) ← strbuf_appendc malloc (out r) c;
  Some (mk_rl (bangflag r) (state r) (pushed_state r) (ptr r) b (bbuf r) (bi r)).
Definition emit_str (s : list Z) (r : rl) : option rl :=
  '(_, b) ← strbuf_append malloc (out r) s;
  Some (mk_rl (bangflag r) (state r) (pushed_state r) (ptr r) b (bbuf r) (bi r)).

(** [bbuf[bi++] = c; bbuf[bi] = 0]. *)
Definition collect (c : Z) (r : rl) : option rl :=
  m ← store (bbuf r) (bi r) c;
  m ← store m (S (bi r)) 0;
  Some (mk_rl (bangflag r) (state r) (pushed_state r) (ptr r) (out r) m (S (bi r))).

Definition step_line (c : Z) (r : rl) : option rl :=
  if iseol c then Some (goto ST_SUCCESS r)
  else if c =? 33 then Some (push_to ST_BANG r)
  else if c =? 92 then Some (goto ST_SLASHESC r)
  else if c =? 39 then emit c (push_to ST_SQSTR r)
  else if c =? 34 then emit c (goto ST_DQSTR r)
  else emit c r.

Definition step_bang (c : Z) (r : rl) : option rl :=
  if c =? 33 then
    p ← histlookup_num h (histnum h - 1);
    let r := bang_to ST_BANG 0 r in
    match p with
    | Some p => emit_str p (goto ST_LINE r)
    | None => Some (goto ST_FAIL r)
    end
  else if isdigit c then Some (bang_to ST_BANGNUM 1 r)
  else if isalnum c then Some (bang_to ST_BANGSTR 1 r)
  else Some (goto ST_FAIL r).

Definition step_bangnum (c : Z) (r : rl) : option rl :=
  if isdigit c then collect c r
  else
    '(_, n, _) ← stoli (bbuf r) 0;
    p ← histlookup_num h (s32 n);
    match p with
    | Some p => r ← emit_str p r; Some (pop_back r)
    | None => Some (fail_bang r)
    end.

Definition step_bangstr (c : Z) (r : rl) : option rl :=
  if negb (iseol c) && negb (isspace c) then collect c r
  else
    p ← histlookup_str h (cstr (bbuf r));
    match p with
    | Some p => r ← emit_str p r; Some (pop_back r)
    | None => Some (fail_bang r)
    end.

Definition step_sqstr (c : Z) (r : rl) : option rl :=
  if c =? 39 then emit c (goto (pushed_state r) r)
  else if iseol c then Some (goto ST_FAIL r)
  else emit c r.

Definition step_dqstr (c : Z) (r : rl) : option rl :=
  if c =? 34 then emit c (goto ST_LINE r)
  else if iseol c then Some (goto ST_FAIL r)
  else if c =? 33 then Some (push_to ST_BANG r)
  else if c =? 39 then emit c (push_to ST_SQSTR r)
  else emit c r.

(** The body of the loop: [c = *ptr++] and the switch. *)
Definition rl_step (raw : list Z) (r : rl) : option rl :=
  c ← raw !! ptr r;
  let r := mk_rl (bangflag r) (state r) (pushed_state r) (S (ptr r)) (out r) (bbuf r) (bi r) in
  match state r with
  | ST_LINE => step_line c r
  | ST_BANG => step_bang c r
  | ST_BANGNUM => step_bangnum c r
  | ST_BANGSTR => step_bangstr c r
  | ST_SLASHESC => emit c (goto ST_LINE r)
  | ST_SQSTR => step_sqstr c r
  | ST_DQSTR => step_dqstr c r
  | ST_FAIL | ST_SUCCESS => Some (goto ST_FAIL r)
  end.

Definition finished (r : rl) : bool :=
  match state r with ST_SUCCESS | ST_FAIL => true | _ => false end.

(** A character is read again at most twice. *)
Fixpoint rl_loop (fuel : nat) (raw : list Z) (r : rl) : option rl :=
  if finished r then Some r
  else match fuel with
       | O => None
       | S fuel => r ← rl_step raw r; rl_loop fuel raw r
       end.

Definition expand (raw : list Z) : option rl :=
  '(_, b) ← strbuf_init malloc (m ← malloc 1; store m 0 0) STRBUF_GROW;
  rl_loop (3 * length raw) raw (mk_rl false ST_LINE ST_FAIL 0 b (replicate 128 0) 0).
End Expand.

(** [readline] after [raw_read] has given the line [raw]: the line returned, and the
    history. *)
Definition readline_line (malloc : Z -> option (list Z)) (raw : list Z) (h : hist) :
    option (list Z * hist) :=
  r ← expand malloc h raw;
  line ← buf (out r);
  c ← raw !! O;
  match state r with
  | ST_SUCCESS =>
    if c =? 0 then Some (line, h)
    else '(_, h) ← saveline malloc line h; Some (line, h)
  | _ => Some (line, h)
  end.

(** ** The line editor *)

Definition ESC : Z := 27.
Definition ESC2 : Z := 91.
Definition ARROW_UP : Z := 65.
Definition ARROW_DOWN : Z := 66.
Definition ARROW_RIGHT : Z := 67.
Definition ARROW_LEFT : Z := 68.
Definition HOME : Z := 49.
Definition INSERT : Z := 50.
Definition END_ : Z := 52.
Definition CTRL_PAD : Z := 126.
Definition DEL : Z := 127.
Definition CTRL (c : Z) : Z := 1 + (c - 65).

(** The [whence] of [raw_cursor]. *)
Inductive whence_t := CURSOR_SET | CURSOR_CUR | CURSOR_END.

(** The static variables of the editor, the keys to come and what was printed. *)
Record ed := mk_ed {
  rawbuf : strbuf;
  rawpos : Z;
  overwrite : bool;
  ups : nat;
  prevs : list (option (list Z));
  keys : list Z;
  printed : list Z;
}.

Definition set_rawbuf (b : strbuf) (e : ed) : ed :=
  mk_ed b (rawpos e) (overwrite e) (ups e) (prevs e) (keys e) (printed e).
Definition set_prevs (u : nat) (p : list (option (list Z))) (e : ed) : ed :=
  mk_ed (rawbuf e) (rawpos e) (overwrite e) u p (keys e) (printed e).

Definition PUTC (c : Z) (e : ed) : ed :=
  mk_ed (rawbuf e) (rawpos e) (overwrite e) (ups e) (prevs e) (keys e) (printed e ++ putc c).
Definition beep (e : ed) : ed := PUTC 7 e.

Definition GETC (e : ed) : option (Z * ed) :=
  match keys e with
  | [] => None
  | c :: k => Some (c, mk_ed (rawbuf e) (rawpos e) (overwrite e) (ups e) (prevs e) k (printed e))
  end.

Definition raw_putc (c : Z) (e : ed) : ed :=
  let e := PUTC c e in
  let pos := if c =? 8 then rawpos e - 1
             else if (c =? 10) || (c =? 13) then 0 else rawpos e + 1 in
  mk_ed (rawbuf e) pos (overwrite e) (ups e) (prevs e) (keys e) (printed e).

(** [while (newpos > rawpos) raw_putc(rawbuf->buf[rawpos])]: a step for each position, or
    the loop does not end. *)
Fixpoint cursor_right (n : nat) (newpos : Z) (e : ed) : option ed :=
  if rawpos e <? newpos then
    match n with
    | O => None
    | S n =>
      m ← buf (rawbuf e);
      c ← m !! Z.to_nat (rawpos e);
      cursor_right n newpos (raw_putc c e)
    end
  else Some e.

(** [while (newpos < rawpos) raw_putc('\b')]. *)
Fixpoint cursor_left (n : nat) (newpos : Z) (e : ed) : option ed :=
  if newpos <? rawpos e then
    match n with
    | O => None
    | S n => cursor_left n newpos (raw_putc 8 e)
    end
  else Some e.

Definition raw_cursor (off : Z) (whence : whence_t) (e : ed) : option (Z * ed) :=
  let newpos := match whence with
                | CURSOR_SET => off
                | CURSOR_CUR => rawpos e + off
                | CURSOR_END => len (rawbuf e) - off
                end in
  if (newpos <? 0) || (len (rawbuf e) <? newpos) then Some (-1, e)
  else
    e ← cursor_right (Z.to_nat (newpos - rawpos e)) newpos e;
    e ← cursor_left (Z.to_nat (rawpos e - newpos)) newpos e;
    Some (rawpos e, e).

Definition cursor (off : Z) (whence : whence_t) (e : ed) : option ed :=
  '(_, e) ← raw_cursor off whence e; Some e.

Section Editor.
Variable malloc : Z -> option (list Z).
Variable h : hist.

Definition delete_here (e : ed) : option ed :=
  '(_, b) ← strbuf_deletec malloc (rawbuf e) (rawpos e); Some (set_rawbuf b e).
Definition insert_here (c : Z) (e : ed) : option ed :=
  '(_, b) ← strbuf_insertc malloc (rawbuf e) (rawpos e) c; Some (set_rawbuf b e).

Definition raw_backspace (e : ed) : option ed :=
  if rawpos e =? 0 then Some (beep e)
  else
    let i := rawpos e - 1 in
    e ← cursor (-1) CURSOR_CUR e;
    e ← delete_here e;
    if rawpos e =? len (rawbuf e) then Some (raw_putc 8 (raw_putc 32 e))
    else
      e ← cursor 0 CURSOR_END e;
      cursor i CURSOR_SET (raw_putc 8 (raw_putc 32 e)).

(** [while (rawpos > i) raw_backspace()]. *)
Fixpoint backspaces (n : nat) (i : Z) (e : ed) : option ed :=
  if i <? rawpos e then
    match n with
    | O => None
    | S n => e ← raw_backspace e; backspaces n i e
    end
  else Some e.

(** "Clear the old": blanks over the line and one more. *)
Fixpoint blanks (n : nat) (e : ed) : option ed :=
  if rawpos e <=? len (rawbuf e) then
    match n with O => None | S n => blanks n (raw_putc 32 e) end
  else Some e.

Definition clear_line (e : ed) : option ed :=
  e ← cursor 0 CURSOR_SET e;
  e ← blanks (S (Z.to_nat (len (rawbuf e)))) e;
  cursor 0 CURSOR_SET e.

(** "Reveal the new". *)
Definition reveal (p : option (list Z)) (l : Z) (e : ed) : option ed :=
  cursor 0 CURSOR_END (set_rawbuf (mk_strbuf l (max (rawbuf e)) p) e).

(** A store to, or a load from, the array [prevs]. *)
Definition save_prev (e : ed) : option (list (option (list Z))) :=
  if (ups e <? HISTSZ)%nat then Some (<[ups e := buf (rawbuf e)]> (prevs e)) else None.

Definition arrow_up (e : ed) : option ed :=
  p ← histlookup_num h (histnum h - (Z.of_nat (ups e) + 1));
  match p with
  | None => Some (beep e)
  | Some p =>
    ps ← save_prev e;
    let e := set_prevs (S (ups e)) ps e in
    q ← prevs e !! ups e;
    p ← match q with
        | Some q => Some q
        | None => (fun s => s ++ [0]) <$> strdup_line malloc p
        end;
    e ← clear_line e;
    reveal (Some p) (slen p) e
  end.

Definition arrow_down (e : ed) : option ed :=
  match ups e with
  | O => Some (beep e)
  | S u =>
    ps ← save_prev e;
    let e := set_prevs u ps e in
    e ← clear_line e;
    p ← prevs e !! ups e;
    reveal p (match p with Some p => slen p | None => 0 end) e
  end.

Definition move (off : Z) (e : ed) : option ed :=
  '(r, e) ← raw_cursor off CURSOR_CUR e;
  Some (if r <? 0 then beep e else e).

Definition raw_arrow (which : Z) (e : ed) : option ed :=
  if which =? ARROW_UP then arrow_up e
  else if which =? ARROW_DOWN then arrow_down e
  else if which =? ARROW_LEFT then move (-1) e
  else if which =? ARROW_RIGHT then move 1 e
  else Some e.

(** A key that must be followed by [CTRL_PAD]. *)
Definition pad_then (f : ed -> option ed) (e : ed) : option ed :=
  '(c, e) ← GETC e;
  if c =? CTRL_PAD then f e else Some (beep e).

(** The switch on the code after "ESC [". *)
Definition escape_code (c2 : Z) (e : ed) : option ed :=
  if (c2 =? ARROW_UP) || (c2 =? ARROW_DOWN) || (c2 =? ARROW_RIGHT) || (c2 =? ARROW_LEFT)
  then raw_arrow c2 e
  else if c2 =? INSERT then
    pad_then (fun e => Some (mk_ed (rawbuf e) (rawpos e) (negb (overwrite e)) (ups e)
                               (prevs e) (keys e) (printed e))) e
  else if c2 =? HOME then pad_then (cursor 0 CURSOR_SET) e
  else if c2 =? END_ then pad_then (cursor 0 CURSOR_END) e
  else Some (beep e).

(** "ESC codes we can handle": whether the line is done, and the state. *)
Definition escape (e : ed) : option (bool * ed) :=
  '(c2, e) ← GETC e;
  if c2 =? ESC2 then
    '(c2, e) ← GETC e;
    e ← escape_code c2 e;
    Some (false, e)
  else if c2 =? 90 then
    '(c3, e) ← GETC e;
    if c3 =? 90 then Some (true, raw_putc 10 e) else Some (false, beep e)
  else Some (false, beep e).

(** The default case: "print it". *)
Definition type_key (c : Z) (e : ed) : option ed :=
  let i := rawpos e in
  e ← (if overwrite e && negb (bool_decide (buf (rawbuf e) = None)) then delete_here e else Some e);
  e ← insert_here c e;
  e ← cursor 0 CURSOR_END e;
  cursor (i + 1) CURSOR_SET e.

(** The switch on a key. *)
Definition key (c : Z) (e : ed) : option (bool * ed) :=
  let go (m : option ed) := e ← m; Some (false, e) in
  if (c =? 13) || (c =? 10) then Some (true, e)
  else if (c =? 8) || (c =? DEL) then go (raw_backspace e)
  else if c =? 9 then Some (false, e)
  else if c =? ESC then escape e
  else if c =? CTRL 65 then go (cursor 0 CURSOR_SET e)
  else if c =? CTRL 69 then go (cursor 0 CURSOR_END e)
  else if (c =? CTRL 85) || (c =? CTRL 87) then go (backspaces (Z.to_nat (rawpos e)) 0 e)
  else if c =? CTRL 75 then
    let i := rawpos e in
    go (e ← cursor 0 CURSOR_END e; backspaces (Z.to_nat (rawpos e - i)) i e)
  else if c =? CTRL 68 then
    if rawpos e <? len (rawbuf e) then go (e ← raw_arrow ARROW_RIGHT e; raw_backspace e)
    else Some (false, e)
  else if c =? CTRL 80 then go (raw_arrow ARROW_UP e)
  else if c =? CTRL 78 then go (raw_arrow ARROW_DOWN e)
  else if c =? CTRL 66 then go (raw_arrow ARROW_LEFT e)
  else if c =? CTRL 70 then go (raw_arrow ARROW_RIGHT e)
  else if c =? CTRL 67 then
    Some (true, set_rawbuf (mk_strbuf (len (rawbuf e)) (max (rawbuf e)) None) e)
  else if c =? CTRL 76 then Some (false, PUTC c e)
  else go (type_key c e).

(** The loop of [raw_read]: one key or more each time round. *)
Fixpoint key_loop (fuel : nat) (e : ed) : option ed :=
  match fuel with
  | O => None
  | S fuel =>
    '(c, e) ← GETC e;
    '(done, e) ← key c e;
    if done : bool then Some e else key_loop fuel e
  end.

(** The line that was read, with its terminator, and the state. *)
Definition raw_read (ks : list Z) (ovr : bool) : option (list Z * ed) :=
  '(_, b) ← strbuf_init malloc None STRBUF_GROW;
  e ← key_loop (length ks) (mk_ed b 0 ovr 0 (replicate HISTSZ None) ks []);
  let e := raw_putc 10 e in
  line ← match buf (rawbuf e) with
         | Some m => Some m
         | None => _ ← malloc 1; Some [0]
         end;
  Some (line, e).
End Editor.

Definition readline (malloc : Z -> option (list Z)) (ks : list Z) (ovr : bool) (h : hist) :
    option (list Z * hist) :=
  '(raw, _) ← raw_read malloc h ks ovr;
  readline_line malloc raw h.
