(* ===== verification/HistoryProofs.v ===== *)
(** * HistoryProofs: the history keeps the last 128 lines

    [hist_of h L]: the circular list [h] after the lines [L] were saved, the latest
    last; a line is [None] when there was no memory to copy it.  What the two lookups
    find is stated on [L]. *)

From S2P Require Import Prelude CString Strbuf Readline.

(** ** The circle *)

Lemma link_next_mod i : (i < 128)%nat -> link_next i = (S i mod 128)%nat.
Proof.
  intros Hi. unfold link_next, HISTSZ. destruct (Nat.ltb_spec i (128 - 1)%nat).
  - by rewrite Nat.mod_small by lia.
  - by replace (S i) with 128%nat by lia.
Qed.

Lemma link_prev_mod i : (i < 128)%nat -> link_prev i = ((i + 127) mod 128)%nat.
Proof.
  intros Hi. unfold link_prev, HISTSZ. destruct (Nat.ltb_spec 0 i).
  - replace (i + 127)%nat with ((i - 1) + 1 * 128)%nat by lia.
    by rewrite Nat.Div0.mod_add, Nat.mod_small by lia.
  - by replace i with 0%nat by lia.
Qed.

Lemma ring_lt k : (k mod 128 < 128)%nat.
Proof. apply Nat.mod_upper_bound. lia. Qed.

Lemma ring_next k : link_next (k mod 128) = (S k mod 128)%nat.
Proof.
  rewrite link_next_mod by apply ring_lt.
  replace (S (k mod 128)) with (k mod 128 + 1)%nat by lia.
  rewrite Nat.Div0.add_mod_idemp_l. f_equal. lia.
Qed.

Lemma ring_prev k : link_prev (S k mod 128) = (k mod 128)%nat.
Proof.
  rewrite link_prev_mod by apply ring_lt. rewrite Nat.Div0.add_mod_idemp_l.
  replace (S k + 127)%nat with (k + 1 * 128)%nat by lia. apply Nat.Div0.mod_add.
Qed.

(** Positions less than 128 apart are different. *)
Lemma ring_inj j k : (j <= k < j + 128)%nat -> (j mod 128 = k mod 128)%nat -> j = k.
Proof.
  intros Hk E. pose proof (Nat.div_mod_eq j 128). pose proof (Nat.div_mod_eq k 128).
  assert ((k / 128 = j / 128)%nat) by nia. lia.
Qed.

(** ** The invariant *)

(** The first line still kept. *)
Definition oldest (n : nat) : nat := (n - 128)%nat.

(** What the entry at position [i] holds after [L]. *)
Record hist_of (h : hist) (L : list (option (list Z))) : Prop := {
  ho_length : length (history h) = 128%nat;
  ho_links : forall i e, history h !! i = Some e -> h_next e = link_next i /\ h_prev e = link_prev i;
  ho_kept : forall k l, (oldest (length L) <= k)%nat -> L !! k = Some l ->
      exists e, history h !! (k mod 128)%nat = Some e /\ h_num e = Z.of_nat k /\ h_line e = l;
  ho_empty : forall i e, (length L <= i)%nat -> history h !! i = Some e ->
      h_num e = 0 /\ h_line e = None;
  ho_histn : histn h = (length L mod 128)%nat;
  ho_hist0 : hist0 h = (oldest (length L) mod 128)%nat;
  ho_histnum : histnum h = Z.of_nat (length L);
  ho_sync : sync h = (128 <=? length L)%nat;
}.

Lemma readline_init_hist : hist_of readline_init [].
Proof.
  split; try done.
  - unfold readline_init, history. intros i e He. apply list_lookup_fmap_Some in He as (j & -> & Hj).
    apply lookup_seq in Hj as [-> _]. done.
  - intros i e _ He. unfold readline_init, history in He.
    by apply list_lookup_fmap_Some in He as (j & -> & _).
Qed.

Section Saved.
Variable malloc : Z -> option (list Z).

Lemma saveline_hist h L line :
  hist_of h L ->
  exists h', saveline malloc line h = Some (Z.of_nat (length L), h') /\
    hist_of h' (L ++ [strdup_line malloc line]).
Proof.
  intros Hh. set (n := length L). unfold saveline.
  rewrite (ho_histn h L Hh), (ho_histnum h L Hh). fold n.
  destruct (lookup_lt_is_Some_2 (history h) (n mod 128)) as [e He].
  { rewrite (ho_length h L Hh). apply ring_lt. }
  rewrite He. cbn [mbind option_bind].
  destruct (ho_links h L Hh _ _ He) as [En Ep]. rewrite En, Ep, ring_next.
  eexists. split; [done|]. cbn [h_next].
  assert (Hlen : length (L ++ [strdup_line malloc line]) = S n) by (rewrite length_app; simpl; lia).
  split; cbn [history histn hist0 histnum sync]; rewrite ?Hlen.
  - rewrite length_insert. apply Hh.
  - intros i x Hx. apply list_lookup_insert_Some in Hx as [(Ei & <- & _)|[_ Hx]].
    + cbn [h_next h_prev]. rewrite <- Ei. by rewrite ring_next.
    + by apply Hh.
  - intros k l Hk Hl. unfold oldest in Hk.
    destruct (decide (k = n)) as [->|Hne].
    + rewrite list_lookup_middle in Hl by done. simplify_eq. eexists.
      rewrite list_lookup_insert_eq; [done|]. rewrite (ho_length h L Hh). apply ring_lt.
    + assert (Hkn : (k < n)%nat).
      { apply lookup_lt_Some in Hl. rewrite Hlen in Hl. lia. }
      rewrite lookup_app_l in Hl by done.
      destruct (ho_kept h L Hh k l) as (x & Hx & Hnum & Hline); [unfold oldest; fold n; lia|done|].
      exists x. rewrite list_lookup_insert_ne; [done|]. intros E.
      apply Hne. apply (ring_inj k n); [lia|done].
  - intros i x Hi Hx. assert (Hlt : (i < 128)%nat).
    { apply lookup_lt_Some in Hx. rewrite length_insert, (ho_length h L Hh) in Hx. done. }
    rewrite list_lookup_insert_ne in Hx by (rewrite Nat.mod_small by lia; lia).
    apply (ho_empty h L Hh i); [fold n; lia|done].
  - done.
  - rewrite (ho_sync h L Hh), (ho_hist0 h L Hh). fold n. unfold oldest.
    destruct (Nat.leb_spec 128 n).
    + replace (S n) with (S n - 128 + 1 * 128)%nat at 1 by lia. apply Nat.Div0.mod_add.
    + by replace (n - 128)%nat with 0%nat by lia; replace (S n - 128)%nat with 0%nat by lia.
  - lia.
  - rewrite (ho_sync h L Hh), (ho_hist0 h L Hh). fold n. unfold oldest.
    destruct (Nat.leb_spec 128 n); cbn [orb]; [symmetry; apply Nat.leb_le; lia|].
    replace (n - 128)%nat with 0%nat by lia. rewrite Nat.Div0.mod_0_l.
    destruct (Nat.leb_spec 128 (S n)).
    + by replace (S n) with 128%nat by lia.
    + rewrite Nat.mod_small by lia. by apply Nat.eqb_neq.
Qed.

(** Lines saved one after the other. *)
Definition save_all (lines : list (list Z)) (h : hist) : option hist :=
  foldl (fun h line => h ← h; '(_, h) ← saveline malloc line h; Some h) (Some h) lines.

Lemma save_all_hist lines : forall h L,
  hist_of h L ->
  exists h', save_all lines h = Some h' /\ hist_of h' (L ++ map (strdup_line malloc) lines).
Proof.
  unfold save_all. induction lines as [|line lines IH]; intros h L Hh.
  - exists h. by rewrite app_nil_r.
  - destruct (saveline_hist h L line Hh) as (h1 & E & Hh1). cbn [foldl mbind option_bind].
    rewrite E. cbn [mbind option_bind].
    destruct (IH h1 _ Hh1) as (h' & -> & Hh'). exists h'. split; [done|].
    by rewrite <- app_assoc in Hh'.
Qed.

(** ** Lookup by number *)

Section Lookup.
Variables (h : hist) (L : list (option (list Z))).
Hypothesis Hh : hist_of h L.
Let n := length L.

(** The line saved under the number [num], while it is kept. *)
Definition numbered (num : Z) : option (list Z) :=
  if (Z.of_nat (oldest n) <=? num) && (num <? Z.of_nat n)
  then match L !! Z.to_nat num with Some l => l | None => None end else None.

Lemma entry_kept k : (oldest n <= k < n)%nat ->
  exists e l, L !! k = Some l /\ history h !! (k mod 128)%nat = Some e /\
    h_num e = Z.of_nat k /\ h_line e = l /\ h_next e = (S k mod 128)%nat.
Proof.
  intros Hk. destruct (lookup_lt_is_Some_2 L k) as [l Hl]; [apply Hk|].
  destruct (ho_kept h L Hh k l) as (e & He & Hnum & Hline); [apply Hk|done|].
  exists e, l. destruct (ho_links h L Hh _ _ He) as [En _]. by rewrite ring_next in En.
Qed.

Lemma num_loop_spec num fuel : forall k,
  (oldest n <= k < n)%nat -> (n - k <= fuel)%nat ->
  num_loop fuel h (k mod 128) num =
  Some (if (Z.of_nat k <=? num) && (num <? Z.of_nat n)
        then match L !! Z.to_nat num with Some l => l | None => None end else None).
Proof.
  induction fuel as [|fuel IH]; intros k Hk Hf; [lia|]. cbn [num_loop].
  destruct (entry_kept k Hk) as (e & l & Hl & He & Hnum & Hline & Hnext).
  rewrite He. cbn [mbind option_bind]. rewrite Hnum, Hnext, Hline, (ho_histn h L Hh). fold n.
  destruct (Z.eqb_spec (Z.of_nat k) num) as [<-|Hne].
  - rewrite Nat2Z.id, Hl, (proj2 (Z.leb_le _ _)), (proj2 (Z.ltb_lt _ _)) by lia. done.
  - destruct (Nat.eqb_spec (S k mod 128) (n mod 128)) as [E|E].
    + apply ring_inj in E; [|unfold oldest in Hk; lia].
      by replace ((Z.of_nat k <=? num) && (num <? Z.of_nat n)) with false by lia.
    + assert (S k <> n) by (intros E'; by rewrite E' in E).
      rewrite IH by lia.
      by destruct (Z.leb_spec (Z.of_nat k) num), (Z.leb_spec (Z.of_nat (S k)) num); try lia.
Qed.

(** An empty history: all round the circle, over entries without a line. *)
Lemma num_loop_empty num fuel : forall i,
  n = 0%nat -> (i < 128)%nat -> (128 - i <= fuel)%nat -> num_loop fuel h i num = Some None.
Proof.
  induction fuel as [|fuel IH]; intros i Hn Hi Hf; [lia|]. cbn [num_loop].
  destruct (lookup_lt_is_Some_2 (history h) i) as [e He]; [by rewrite (ho_length h L Hh)|].
  rewrite He. cbn [mbind option_bind]. destruct (ho_links h L Hh _ _ He) as [En _].
  destruct (ho_empty h L Hh i e) as [_ Hline]; [unfold n in Hn; lia|done|].
  rewrite Hline. destruct (h_num e =? num); [done|].
  rewrite En, link_next_mod, (ho_histn h L Hh) by done. fold n. rewrite Hn.
  rewrite Nat.Div0.mod_0_l. destruct (Nat.eqb_spec (S i mod 128) 0) as [E|E]; [done|].
  assert (Hi' : S i <> 128%nat) by (intros E'; by rewrite E' in E).
  rewrite Nat.mod_small by lia. apply IH; [done|lia|lia].
Qed.

Lemma histlookup_num_spec num : histlookup_num h num = Some (numbered num).
Proof.
  unfold histlookup_num, numbered. rewrite (ho_hist0 h L Hh). fold n.
  destruct (decide (n = 0%nat)) as [Hn|Hn].
  - rewrite Hn. cbn [oldest Nat.sub]. rewrite Nat.Div0.mod_0_l, num_loop_empty by (done || lia).
    by replace ((Z.of_nat 0 <=? num) && (num <? Z.of_nat 0)) with false by lia.
  - apply num_loop_spec; unfold oldest, HISTSZ; lia.
Qed.

(** ** Lookup by prefix *)

(** The first line of a list that starts with [str]. *)
Fixpoint first_match (str : list Z) (ls : list (option (list Z))) : option (list Z) :=
  match ls with
  | [] => None
  | Some l :: ls => if starts_with l str then Some l else first_match str ls
  | None :: ls => first_match str ls
  end.

(** The kept lines, the latest first. *)
Definition kept : list (option (list Z)) := reverse (drop (oldest n) L).

(** The line of the entry [j] before the current one. *)
Definition back (j : nat) : option (list Z) :=
  match kept !! j with Some l => l | None => None end.

Lemma entry_back j : (j < 128)%nat ->
  exists e, history h !! ((n + 255 - j) mod 128)%nat = Some e /\ h_line e = back j /\
    h_prev e = ((n + 255 - S j) mod 128)%nat.
Proof.
  intros Hj.
  destruct (lookup_lt_is_Some_2 (history h) ((n + 255 - j) mod 128)) as [e He].
  { rewrite (ho_length h L Hh). apply ring_lt. }
  exists e. split; [done|]. destruct (ho_links h L Hh _ _ He) as [_ Ep]. split.
  - unfold back, kept. destruct (decide (j < n)%nat) as [Hlt|Hge].
    + rewrite reverse_lookup by (rewrite length_drop; unfold oldest; fold n; lia).
      rewrite length_drop. fold n. rewrite lookup_drop.
      replace (oldest n + (n - oldest n - S j))%nat with (n - 1 - j)%nat by (unfold oldest; lia).
      destruct (lookup_lt_is_Some_2 L (n - 1 - j)) as [l Hl]; [fold n; lia|].
      destruct (ho_kept h L Hh (n - 1 - j) l) as (x & Hx & _ & Hline);
        [unfold oldest; fold n; lia|done|].
      rewrite Hl. replace (n + 255 - j)%nat with (n - 1 - j + 2 * 128)%nat in He by lia.
      rewrite Nat.Div0.mod_add in He. congruence.
    + rewrite (lookup_ge_None_2 (reverse _)) by
        (rewrite length_reverse, length_drop; unfold oldest; fold n; lia).
      replace (n + 255 - j)%nat with (n + 127 - j + 1 * 128)%nat in He by lia.
      rewrite Nat.Div0.mod_add, Nat.mod_small in He by lia.
      by apply (ho_empty h L Hh (n + 127 - j)); [fold n; lia|].
  - rewrite Ep. replace (n + 255 - j)%nat with (S (n + 255 - S j)) by lia. apply ring_prev.
Qed.

Lemma str_loop_spec str d : forall j,
  (j + d = 128)%nat -> (0 < d)%nat ->
  str_loop d h ((n + 255 - j) mod 128) ((n + 127) mod 128) str =
  Some (first_match str (drop j kept)).
Proof.
  induction d as [|d IH]; intros j Hj Hd; [lia|]. cbn [str_loop].
  destruct (entry_back j) as (e & He & Hline & Hprev); [lia|].
  rewrite He. cbn [mbind option_bind]. rewrite Hline, Hprev.
  assert (Hstop : ((n + 255 - S j) mod 128 =? (n + 127) mod 128)%nat = (S j =? 128)%nat).
  { destruct (Nat.eqb_spec (S j) 128) as [Ej|Ej].
    - apply Nat.eqb_eq. rewrite Ej. by replace (n + 255 - 128)%nat with (n + 127)%nat by lia.
    - apply Nat.eqb_neq. intros E. replace (n + 255 - S j)%nat with (n + 127 - S j + 1 * 128)%nat in E by lia.
      rewrite Nat.Div0.mod_add in E. apply ring_inj in E; lia. }
  rewrite Hstop.
  assert (Hstep : first_match str (drop j kept) =
    match back j with
    | Some l => if starts_with l str then Some l else first_match str (drop (S j) kept)
    | None => first_match str (drop (S j) kept)
    end).
  { unfold back. destruct (kept !! j) as [l|] eqn:El.
    - rewrite (drop_S kept l j El). by destruct l.
    - apply lookup_ge_None in El. by rewrite !drop_ge by lia. }
  rewrite Hstep.
  assert (Hrest : (if (S j =? 128)%nat then Some None
                   else str_loop d h ((n + 255 - S j) mod 128) ((n + 127) mod 128) str) =
                  Some (first_match str (drop (S j) kept))).
  { destruct (Nat.eqb_spec (S j) 128) as [Ej|Ej]; [|apply IH; lia].
    rewrite drop_ge; [done|]. unfold kept. rewrite length_reverse, length_drop. unfold oldest. lia. }
  destruct (back j) as [l|]; [destruct (starts_with l str)|]; done.
Qed.

Lemma histlookup_str_spec str : histlookup_str h str = Some (first_match str kept).
Proof.
  unfold histlookup_str. rewrite (ho_histn h L Hh). fold n.
  destruct (lookup_lt_is_Some_2 (history h) (n mod 128)) as [e He].
  { rewrite (ho_length h L Hh). apply ring_lt. }
  rewrite He. cbn [mbind option_bind]. destruct (ho_links h L Hh _ _ He) as [_ Ep].
  rewrite Ep, link_prev_mod, Nat.Div0.add_mod_idemp_l by apply ring_lt.
  pose proof (str_loop_spec str 128 0 eq_refl ltac:(lia)) as E.
  replace (n + 255 - 0)%nat with (n + 127 + 1 * 128)%nat in E by lia.
  by rewrite Nat.Div0.mod_add, drop_0 in E.
Qed.
End Lookup.

(** C21: the history is a window of 128 lines: whatever lines were saved since
    [readline_init], each is found by its number as long as it is among the last 128, no
    other number finds one, and a prefix finds the latest of them that starts with it. *)
Theorem history_window lines :
  exists h, save_all lines readline_init = Some h /\
    (forall num, histlookup_num h num = Some (numbered (map (strdup_line malloc) lines) num)) /\
    (forall str, histlookup_str h str =
       Some (first_match str (kept (map (strdup_line malloc) lines)))).
Proof.
  destruct (save_all_hist lines _ _ readline_init_hist) as (h & E & Hh).
  exists h. split; [done|]. split; intros x.
  - by apply histlookup_num_spec.
  - by apply histlookup_str_spec.
Qed.
End Saved.
