(* ===== verification/ReadlineProofs.v ===== *)
(** * ReadlineProofs: history expansion

    A command line as a list of words ([token]): plain characters, a backslash before
    a character, quoted text and references to the history.  The machine of
    [readline] gives the text of the words one after the other. *)

From stdpp Require Import strings.
From S2P Require Import Prelude CString CStringProofs Strbuf Printf PrintfProofs Readline HistoryProofs.
Open Scope list_scope.
Open Scope Z_scope.

(** ** The language *)

(** A reference to the history: "!!", "!12" or "!name". *)
Inductive event := Last | Number (ds : list Z) | Name (w : list Z).

(** What may stand in double quotes. *)
Inductive item := Inner (c : Z) | InnerQuoted (s : list Z) | InnerEvent (v : event).

Inductive token :=
  | Plain (c : Z) | Escaped (c : Z) | Quoted (s : list Z) | Event (v : event)
  | Double (items : list item).

Definition event_word (v : event) : list Z :=
  match v with Last => [33] | Number ds => digit_chars ds | Name w => w end.
Definition event_raw (v : event) : list Z := 33 :: event_word v.

Definition quoted (s : list Z) : list Z := 39 :: s ++ [39].

Definition item_raw (i : item) : list Z :=
  match i with Inner c => [c] | InnerQuoted s => quoted s | InnerEvent v => event_raw v end.

Definition token_raw (t : token) : list Z :=
  match t with
  | Plain c => [c]
  | Escaped c => [92; c]
  | Quoted s => quoted s
  | Event v => event_raw v
  | Double items => 34 :: concat (map item_raw items) ++ [34]
  end.

(** A name goes on to the next blank or the end of the line, a number to the next
    character that is not a digit. *)
Definition event_ok (v : event) (next : Z) : Prop :=
  match v with
  | Last => True
  | Number ds => is_digits ds /\ (1 <= length ds <= 127)%nat /\ isdigit next = false
  | Name w => nonzero w /\ Forall (fun c => isspace c = false) w /\ (1 <= length w <= 127)%nat /\
      (exists c, head w = Some c /\ isalnum c = true /\ isdigit c = false) /\
      (next = 0 \/ isspace next = true)
  end.

Definition special (c : Z) : bool := bool_decide (c ∈ [0; 33; 92; 39; 34]).

(** After "!!" in double quotes the machine is out of them: it is not in the language. *)
Definition item_ok (i : item) (next : Z) : Prop :=
  match i with
  | Inner c => c ∉ [0; 33; 39; 34]
  | InnerQuoted s => Forall (fun c => c <> 0 /\ c <> 39) s
  | InnerEvent Last => False
  | InnerEvent v => event_ok v next
  end.

(** Each element is right for the character behind it. *)
Fixpoint seq_ok {A} (ok : A -> Z -> Prop) (raw : A -> list Z) (ts : list A) (end_ : Z) : Prop :=
  match ts with
  | [] => True
  | t :: ts => ok t (default end_ (head (concat (map raw ts)))) /\ seq_ok ok raw ts end_
  end.

Definition token_ok (t : token) (next : Z) : Prop :=
  match t with
  | Plain c => special c = false
  | Escaped c => c <> 0
  | Quoted s => Forall (fun c => c <> 0 /\ c <> 39) s
  | Event v => event_ok v next
  | Double items => seq_ok item_ok item_raw items 34
  end.

Section Meaning.
Variable h : hist.

(** The line a reference stands for. *)
Definition event_line (v : event) : option (list Z) :=
  p ← match v with
      | Last => histlookup_num h (histnum h - 1)
      | Number ds => histlookup_num h (s32 (u32 (dec_value 0 ds)))
      | Name w => histlookup_str h w
      end;
  cstr <$> p.

Definition item_out (i : item) : option (list Z) :=
  match i with
  | Inner c => Some [c]
  | InnerQuoted s => Some (quoted s)
  | InnerEvent v => event_line v
  end.

Fixpoint outs {A} (out : A -> option (list Z)) (ts : list A) : option (list Z) :=
  match ts with
  | [] => Some []
  | t :: ts => o ← out t; os ← outs out ts; Some (o ++ os)
  end.

Definition token_out (t : token) : option (list Z) :=
  match t with
  | Plain c | Escaped c => Some [c]
  | Quoted s => Some (quoted s)
  | Event v => event_line v
  | Double items => o ← outs item_out items; Some (34 :: o ++ [34])
  end.
End Meaning.

(** ** Runs of the machine *)

(** The output always has storage. *)
Definition stored (b : strbuf) (s : list Z) : Prop := growing b s /\ buf b <> None.

Section Machine.
Variable malloc : Z -> option (list Z).
Hypothesis malloc_length : forall n g, malloc n = Some g -> Z.of_nat (length g) = n.
Hypothesis malloc_total : forall n, 0 < n -> is_Some (malloc n).
Variable h : hist.

Section Raw.
Variable raw : list Z.

(** [k] times round the loop. *)
Fixpoint run (k : nat) (r r' : rl) : Prop :=
  match k with
  | O => r = r'
  | S k => finished r = false /\ exists r1, rl_step malloc h raw r = Some r1 /\ run k r1 r'
  end.

Lemma run_trans k1 : forall k2 r1 r2 r3, run k1 r1 r2 -> run k2 r2 r3 -> run (k1 + k2) r1 r3.
Proof.
  induction k1 as [|k1 IH]; intros k2 r1 r2 r3; [by intros ->|].
  intros (Hf & r & E & Hr) H2. split; [done|]. exists r. split; [done|]. by eapply IH.
Qed.

Lemma rl_loop_run k : forall fuel r r',
  run k r r' -> rl_loop malloc h (k + fuel) raw r = rl_loop malloc h fuel raw r'.
Proof.
  induction k as [|k IH]; intros fuel r r'; [by intros ->|].
  intros (Hf & r1 & E & Hr). cbn [Nat.add rl_loop]. rewrite Hf, E. by apply IH.
Qed.

(** The machine is in the state [st] before position [pos] and has put out [s]; for the
    outer loop ([bi] = 0) the word collected for a reference is empty. *)
Record at_ (st : readline_state_t) (pos : nat) (s : list Z) (r : rl) : Prop := {
  at_state : state r = st;
  at_ptr : ptr r = pos;
  at_out : stored (out r) s;
  at_bbuf : length (bbuf r) = 128%nat;
  at_bi : bi r = 0%nat;
}.

(** From any machine of [P] to one of [Q], in at most [k] steps. *)
Definition leads (k : nat) (P Q : rl -> Prop) : Prop :=
  forall r, P r -> exists j r', (j <= k)%nat /\ run j r r' /\ Q r'.

Lemma leads_trans k1 k2 P Q R : leads k1 P Q -> leads k2 Q R -> leads (k1 + k2) P R.
Proof.
  intros H1 H2 r Hr. destruct (H1 r Hr) as (j1 & r1 & Hj1 & Hrun1 & Ha1).
  destruct (H2 r1 Ha1) as (j2 & r2 & Hj2 & Hrun2 & Ha2).
  exists (j1 + j2)%nat, r2. split; [lia|]. split; [by eapply run_trans|done].
Qed.

Lemma leads_refl k P : leads k P P.
Proof. intros r Hr. exists 0%nat, r. split; [lia|]. by split. Qed.

Lemma leads_le k k' P Q : leads k P Q -> (k <= k')%nat -> leads k' P Q.
Proof.
  intros H Hk r Hr. destruct (H r Hr) as (j & r' & Hj & ?). exists j, r'. split; [lia|done].
Qed.

(** One step. *)
Lemma leads_step (P Q : rl -> Prop) :
  (forall r, P r -> finished r = false /\ exists r', rl_step malloc h raw r = Some r' /\ Q r') ->
  leads 1 P Q.
Proof.
  intros H r Hr. destruct (H r Hr) as (Hf & r' & E & Hq). exists 1%nat, r'.
  split; [done|]. split; [|done]. split; [done|]. by exists r'.
Qed.

(** At [st], with the state to return to. *)
Definition at_from (back st : readline_state_t) (pos : nat) (s : list Z) (r : rl) : Prop :=
  at_ st pos s r /\ pushed_state r = back.

(** ** Output *)

Definition with_out (b : strbuf) (r : rl) : rl :=
  mk_rl (bangflag r) (state r) (pushed_state r) (ptr r) b (bbuf r) (bi r).

Lemma emit_growing c r s :
  stored (out r) s -> c <> 0 ->
  exists b, emit malloc c r = Some (with_out b r) /\ stored b (s ++ [c]).
Proof.
  intros Hg Hc. unfold emit, strbuf_appendc.
  destruct (growing_append malloc malloc_length malloc_total (out r) s [c] (proj1 Hg)) as (b & E & Hb);
    [by repeat constructor|].
  rewrite append_cstr. change [c; 0] with ([c] ++ [0]).
  rewrite cstr_app0, E by (by repeat constructor). by exists b.
Qed.

Lemma emit_str_growing p r s :
  stored (out r) s ->
  exists b, emit_str malloc p r = Some (with_out b r) /\ stored b (s ++ cstr p).
Proof.
  intros Hg. unfold emit_str.
  destruct (growing_append malloc malloc_length malloc_total (out r) s (cstr p) (proj1 Hg)) as (b & E & Hb);
    [apply cstr_nonzero|].
  rewrite append_cstr, E. by exists b.
Qed.

(** One character put out. *)
Lemma emit_at s c (r : rl) :
  c <> 0 -> stored (out r) s -> length (bbuf r) = 128%nat -> bi r = 0%nat ->
  exists r', emit malloc c r = Some r' /\
    at_from (pushed_state r) (state r) (ptr r) (s ++ [c]) r'.
Proof.
  intros Hc Hg Hb Hi. destruct (emit_growing c r s Hg Hc) as (b & E & Hb').
  exists (with_out b r). split; [done|]. by split.
Qed.

(** A step at a known character. *)
Ltac at_step Hraw :=
  apply leads_step; intros r Hr; 
  lazymatch type of Hr with at_from _ _ _ _ _ => destruct Hr as [Hr Hpush] | _ => idtac end;
  destruct Hr as [Hst Hptr Hout Hbb Hbi];
  unfold finished, rl_step; rewrite Hst, Hptr, Hraw; split; [done|];
  cbn [mbind option_bind state];
  unfold step_line, step_dqstr, step_sqstr, step_bang, step_bangnum, step_bangstr, iseol.

Ltac not_special Hc :=
  repeat match type of Hc with
  | ?c ∉ ?x :: _ =>
    let H := fresh in apply not_elem_of_cons in Hc as [H Hc];
    rewrite (proj2 (Z.eqb_neq c x) H)
  end.

Ltac at_done :=
  lazymatch goal with
  | |- at_from _ _ _ _ _ => split; [at_done|cbn in *; first [done|congruence]]
  | |- at_ _ _ _ _ => constructor; cbn in *; first [done|congruence]
  end.

Ltac emitting s :=
  match goal with |- context [emit _ ?c ?r] =>
    let x := fresh "r'" in let H := fresh "Hat" in
    destruct (emit_at s c r) as (x & -> & H); [done|done|done|done|];
    exists x; split; [reflexivity|]; destruct H as [[] ?]; cbn in *; at_done
  end.

Lemma plain_leads pos s c :
  special c = false -> raw !! pos = Some c ->
  leads 1 (at_ ST_LINE pos s) (at_ ST_LINE (S pos) (s ++ [c])).
Proof.
  intros Hc Hraw. unfold special in Hc. apply bool_decide_eq_false in Hc.
  assert (c <> 0) by (apply not_elem_of_cons in Hc; tauto).
  at_step Hraw. not_special Hc. emitting s.
Qed.

Lemma inner_leads pos s c :
  c ∉ [0; 33; 39; 34] -> raw !! pos = Some c ->
  leads 1 (at_ ST_DQSTR pos s) (at_ ST_DQSTR (S pos) (s ++ [c])).
Proof.
  intros Hc Hraw. assert (c <> 0) by (apply not_elem_of_cons in Hc; tauto).
  at_step Hraw. not_special Hc. emitting s.
Qed.

Lemma escaped_leads pos s c :
  c <> 0 -> raw !! pos = Some 92 -> raw !! S pos = Some c ->
  leads 2 (at_ ST_LINE pos s) (at_ ST_LINE (S (S pos)) (s ++ [c])).
Proof.
  intros Hc Hraw1 Hraw2. apply (leads_trans 1 1 _ (at_ ST_SLASHESC (S pos) s)).
  - at_step Hraw1. eexists. split; [reflexivity|]. at_done.
  - at_step Hraw2. emitting s.
Qed.

(** *** Quoted text, in the line or in double quotes *)

Lemma open_quote_leads st pos s :
  st = ST_LINE \/ st = ST_DQSTR -> raw !! pos = Some 39 ->
  leads 1 (at_ st pos s) (at_from st ST_SQSTR (S pos) (s ++ [39])).
Proof. intros [-> | ->] Hraw; at_step Hraw; cbn [Z.eqb Pos.eqb]; emitting s. Qed.

Lemma close_quote_leads st pos s :
  raw !! pos = Some 39 -> leads 1 (at_from st ST_SQSTR pos s) (at_ st (S pos) (s ++ [39])).
Proof. intros Hraw. at_step Hraw. cbn [Z.eqb Pos.eqb]. emitting s. Qed.

(** A word of the line at a position. *)
Definition here (pos : nat) (w : list Z) : Prop := exists rest, drop pos raw = w ++ rest.

Lemma here_cons pos c w : here pos (c :: w) <-> raw !! pos = Some c /\ here (S pos) w.
Proof.
  split.
  - intros [rest E]. assert (Hc : raw !! pos = Some c).
    { pose proof (lookup_drop raw pos 0) as Hl. by rewrite E, Nat.add_0_r in Hl. }
    split; [done|]. exists rest. rewrite (drop_S raw c pos Hc) in E. by injection E.
  - intros [Hc [rest E]]. exists rest. by rewrite (drop_S raw c pos Hc), E.
Qed.

Lemma here_app pos u w : here pos (u ++ w) <-> here pos u /\ here (pos + length u) w.
Proof.
  revert pos. induction u as [|c u IH]; intros pos; cbn [app length].
  - rewrite Nat.add_0_r. split; [|tauto]. intros H. split; [|done]. by exists (drop pos raw).
  - rewrite !here_cons, IH. replace (pos + S (length u))%nat with (S pos + length u)%nat by lia. tauto.
Qed.

Lemma quote_body_leads st u : forall pos s,
  Forall (fun c => c <> 0 /\ c <> 39) u -> here pos u ->
  leads (length u) (at_from st ST_SQSTR pos s) (at_from st ST_SQSTR (pos + length u) (s ++ u)).
Proof.
  induction u as [|c u IH]; intros pos s Hu Hw; cbn [length].
  - rewrite Nat.add_0_r, app_nil_r. apply leads_refl.
  - inversion Hu as [|? ? [Hc0 Hc] Hu']; subst. apply here_cons in Hw as [Hraw Hw].
    apply (leads_trans 1 (length u) _ (at_from st ST_SQSTR (S pos) (s ++ [c]))).
    + at_step Hraw. rewrite (proj2 (Z.eqb_neq c 39) Hc), (proj2 (Z.eqb_neq c 0) Hc0). emitting s.
    + replace (pos + S (length u))%nat with (S pos + length u)%nat by lia.
      replace (s ++ c :: u) with ((s ++ [c]) ++ u) by (by rewrite <- app_assoc). by apply IH.
Qed.

Lemma quoted_leads st u pos s :
  st = ST_LINE \/ st = ST_DQSTR -> Forall (fun c => c <> 0 /\ c <> 39) u ->
  here pos (quoted u) ->
  leads (length (quoted u)) (at_ st pos s) (at_ st (pos + length (quoted u)) (s ++ quoted u)).
Proof.
  intros Hst Hu Hw. unfold quoted in *. apply here_cons in Hw as [Hq Hw].
  apply here_app in Hw as [Hw He]. apply here_cons in He as [He _].
  cbn [length]. rewrite length_app. cbn [length].
  apply (leads_trans 1 (length u + 1) _ (at_from st ST_SQSTR (S pos) (s ++ [39]))).
  { by apply open_quote_leads. }
  apply (leads_trans (length u) 1 _ (at_from st ST_SQSTR (S pos + length u) ((s ++ [39]) ++ u))).
  { by apply quote_body_leads. }
  replace (pos + S (length u + 1))%nat with (S (S pos + length u)) by lia.
  replace (s ++ 39 :: u ++ [39]) with (((s ++ [39]) ++ u) ++ [39]) by (by rewrite <- !app_assoc).
  by apply close_quote_leads.
Qed.

(** *** References to the history *)

(** The word [w] has been collected. *)
Definition collected (back st : readline_state_t) (pos : nat) (s w : list Z) (r : rl) : Prop :=
  state r = st /\ pushed_state r = back /\ ptr r = pos /\ stored (out r) s /\
  length (bbuf r) = 128%nat /\ bi r = length w /\
  (w <> [] -> sub 0 (length w + 1) (bbuf r) = w ++ [0]).

Lemma bang_leads st pos s :
  st = ST_LINE \/ st = ST_DQSTR -> raw !! pos = Some 33 ->
  leads 1 (at_ st pos s) (at_from st ST_BANG (S pos) s).
Proof.
  intros [-> | ->] Hraw; at_step Hraw; cbn [Z.eqb Pos.eqb];
    eexists; (split; [reflexivity|]); at_done.
Qed.

Lemma collect_word (m : list Z) (w : list Z) c :
  length m = 128%nat -> (length w < 127)%nat ->
  (w <> [] -> sub 0 (length w + 1) m = w ++ [0]) ->
  exists m1 m2, store m (length w) c = Some m1 /\ store m1 (S (length w)) 0 = Some m2 /\
    length m2 = 128%nat /\ sub 0 (length (w ++ [c]) + 1) m2 = (w ++ [c]) ++ [0].
Proof.
  intros Hm Hw Hsub. eexists _, _.
  rewrite store_Some by lia. split; [reflexivity|].
  rewrite store_Some by (rewrite length_insert; lia). split; [reflexivity|].
  rewrite !length_insert. split; [done|]. apply list_eq. intros i. rewrite lookup_sub, length_app.
  cbn [length Nat.add]. destruct (decide (i < length w + 1 + 1)%nat) as [Hi|Hi].
  - destruct (decide (i = S (length w))) as [->|H1].
    { rewrite list_lookup_insert_eq by (rewrite length_insert; lia).
      by rewrite lookup_app_r, length_app, Nat.add_1_r, Nat.sub_diag
        by (rewrite length_app; simpl; lia). }
    rewrite list_lookup_insert_ne by done. rewrite lookup_app_l by (rewrite length_app; simpl; lia).
    destruct (decide (i = length w)) as [->|H2].
    { rewrite list_lookup_insert_eq by lia. by rewrite lookup_app_r, Nat.sub_diag. }
    rewrite list_lookup_insert_ne, lookup_app_l by lia.
    destruct w as [|x w]; [simpl in *; lia|].
    assert (E : sub 0 (length (x :: w) + 1) m !! i = ((x :: w) ++ [0]) !! i) by (by rewrite Hsub).
    rewrite lookup_sub, decide_True, lookup_app_l in E by lia. done.
  - symmetry. apply lookup_ge_None. rewrite !length_app. simpl. lia.
Qed.

Lemma collect_leads back st ok pos s w c :
  (st = ST_BANGNUM /\ ok = isdigit c) \/
    (st = ST_BANGSTR /\ ok = negb (iseol c) && negb (isspace c)) ->
  ok = true -> (length w < 127)%nat -> raw !! pos = Some c ->
  leads 1 (collected back st pos s w) (collected back st (S pos) s (w ++ [c])).
Proof.
  intros Hst Hok Hw Hraw. apply leads_step. intros r (Es & Ep & Eptr & Ho & Hb & Ei & Hsub).
  unfold finished, rl_step. rewrite Eptr, Hraw, Es.
  destruct (collect_word (bbuf r) w c Hb Hw Hsub) as (m1 & m2 & E1 & E2 & Hl & Hs).
  assert (E : collect c (mk_rl (bangflag r) st (pushed_state r) (S pos) (out r) (bbuf r) (bi r)) =
    Some (mk_rl (bangflag r) st (pushed_state r) (S pos) (out r) m2 (S (length w)))).
  { unfold collect. cbn [bbuf bi]. by rewrite Ei, E1; cbn [mbind option_bind]; rewrite E2. }
  destruct Hst as [[-> ->]|[-> ->]]; (split; [done|]); cbn [mbind option_bind state];
    unfold step_bangnum, step_bangstr; rewrite Hok, E; eexists; (split; [reflexivity|]);
    repeat split; try done; rewrite ?length_app; cbn; try lia; by apply Ho.
Qed.

Lemma collect_all_leads back st u : forall pos s w,
  (st = ST_BANGNUM /\ Forall (fun c => isdigit c = true) u) \/
    (st = ST_BANGSTR /\ Forall (fun c => c <> 0 /\ isspace c = false) u) ->
  (length w + length u <= 127)%nat -> here pos u ->
  leads (length u) (collected back st pos s w) (collected back st (pos + length u) s (w ++ u)).
Proof.
  induction u as [|c u IH]; intros pos s w Hu Hl Hw; cbn [length].
  - rewrite Nat.add_0_r, app_nil_r. apply leads_refl.
  - apply here_cons in Hw as [Hraw Hw]. cbn [length] in Hl.
    apply (leads_trans 1 (length u) _ (collected back st (S pos) s (w ++ [c]))).
    + destruct Hu as [[-> Hu]|[-> Hu]]; inversion Hu as [|? ? Hc Hu']; subst.
      * eapply collect_leads; [left; done|done|lia|done].
      * eapply collect_leads; [right; done| |lia|done]. destruct Hc as [Hc0 Hc].
        unfold iseol. by rewrite (proj2 (Z.eqb_neq c 0) Hc0), Hc.
    + replace (pos + S (length u))%nat with (S pos + length u)%nat by lia.
      replace (w ++ c :: u) with ((w ++ [c]) ++ u) by (by rewrite <- app_assoc).
      apply IH; [|rewrite length_app; simpl; lia|done].
      destruct Hu as [[-> Hu]|[-> Hu]]; inversion Hu; subst; [by left|by right].
Qed.

(** The line of a reference, when the word is complete. *)
Lemma number_leads back pos s ds next o :
  is_digits ds -> (1 <= length ds <= 127)%nat -> isdigit next = false ->
  raw !! pos = Some next -> event_line h (Number ds) = Some o ->
  leads 1 (collected back ST_BANGNUM pos s (digit_chars ds)) (at_ back pos (s ++ o)).
Proof.
  intros Hds Hl Hn Hraw Ho. apply leads_step. intros r (Es & Ep & Eptr & Hg & Hb & Ei & Hsub).
  assert (Hat : str_at (bbuf r) 0 (digit_chars ds)).
  { split; [by apply digit_chars_nonzero|]. apply Hsub. intros E. destruct ds; [simpl in Hl; lia|done]. }
  unfold event_line in Ho. destruct (histlookup_num _ _) as [[p|]|] eqn:Eh; [|discriminate Ho..].
  change (Some (cstr p) = Some o) in Ho. injection Ho as <-.
  unfold finished, rl_step. rewrite Es, Eptr, Hraw. split; [done|]. cbn [mbind option_bind state].
  unfold step_bangnum. rewrite Hn. cbn [bbuf].
  rewrite (stoli_spec _ _ ds Hat Hds) by lia. cbn [mbind option_bind]. rewrite Eh.
  cbn [mbind option_bind].
  match goal with |- context [emit_str _ p ?r0] =>
    destruct (emit_str_growing p r0 s Hg) as (b & Eb & Hg') end.
  cbn [mbind option_bind]. rewrite Eb. eexists. split; [reflexivity|].
  constructor; cbn; [done|lia|done|done|done].
Qed.

Lemma name_leads back pos s w next o :
  nonzero w -> w <> [] -> next = 0 \/ isspace next = true ->
  raw !! pos = Some next -> event_line h (Name w) = Some o ->
  leads 1 (collected back ST_BANGSTR pos s w) (at_ back pos (s ++ o)).
Proof.
  intros Hw Hne Hn Hraw Ho. apply leads_step. intros r (Es & Ep & Eptr & Hg & Hb & Ei & Hsub).
  assert (Hcw : cstr (bbuf r) = w).
  { pose proof (Hsub Hne) as E. unfold sub in E. rewrite drop_0 in E.
    rewrite <- (take_drop (length w + 1) (bbuf r)), E, <- app_assoc. by apply cstr_app0. }
  unfold event_line in Ho. destruct (histlookup_str _ _) as [[p|]|] eqn:Eh; [|discriminate Ho..].
  change (Some (cstr p) = Some o) in Ho. injection Ho as <-.
  unfold finished, rl_step. rewrite Es, Eptr, Hraw. split; [done|]. cbn [mbind option_bind state].
  unfold step_bangstr.
  replace (negb (iseol next) && negb (isspace next)) with false.
  2: { destruct Hn as [-> | ->]; [done|]. by rewrite andb_false_r. }
  cbn [bbuf]. rewrite Hcw in *. rewrite Eh.
  cbn [mbind option_bind].
  match goal with |- context [emit_str _ p ?r0] =>
    destruct (emit_str_growing p r0 s Hg) as (b & Eb & Hg') end.
  cbn [mbind option_bind]. rewrite Eb. eexists. split; [reflexivity|].
  constructor; cbn; [done|lia|done|done|done].
Qed.

(** The state after a reference. *)
Definition after_event (v : event) (st : readline_state_t) : readline_state_t :=
  match v with Last => ST_LINE | _ => st end.

Lemma last_leads st pos s o :
  raw !! pos = Some 33 -> event_line h Last = Some o ->
  leads 1 (at_from st ST_BANG pos s) (at_ ST_LINE (S pos) (s ++ o)).
Proof.
  intros Hraw Ho. unfold event_line in Ho.
  destruct (histlookup_num _ _) as [[p|]|] eqn:Eh; [|discriminate Ho..].
  change (Some (cstr p) = Some o) in Ho. injection Ho as <-.
  at_step Hraw. cbn [Z.eqb Pos.eqb]. rewrite Eh. cbn [mbind option_bind].
  match goal with |- context [emit_str _ p ?r0] =>
    destruct (emit_str_growing p r0 s Hout) as (b & Eb & Hg') end.
  rewrite Eb. eexists. split; [reflexivity|]. constructor; cbn; try done.
Qed.

(** The first character of a word decides which kind it is, and is read again. *)
Lemma word_leads st st' pos s c :
  raw !! pos = Some c -> c <> 33 ->
  (st' = ST_BANGNUM /\ isdigit c = true) \/
    (st' = ST_BANGSTR /\ isdigit c = false /\ isalnum c = true) ->
  leads 1 (at_from st ST_BANG pos s) (collected st st' pos s []).
Proof.
  intros Hraw Hc Hkind. at_step Hraw. rewrite (proj2 (Z.eqb_neq c 33) Hc).
  destruct Hkind as [[-> ->]|(-> & -> & ->)]; eexists; (split; [reflexivity|]);
    (split; [done|]); cbn; (split; [done|]); (split; [lia|]); done.
Qed.

Lemma isalnum_bang c : isalnum c = true -> c <> 33.
Proof. by intros H ->. Qed.

Lemma event_word_leads st v pos s next o :
  event_ok v next -> here pos (event_word v) ->
  raw !! (pos + length (event_word v))%nat = Some next -> event_line h v = Some o ->
  leads (2 + length (event_word v)) (at_from st ST_BANG pos s)
    (at_ (after_event v st) (pos + length (event_word v)) (s ++ o)).
Proof.
  intros Hok Hw Hnext Ho. destruct v as [|ds|w]; cbn [after_event event_word length] in *.
  - apply here_cons in Hw as [Hb _]. replace (pos + 1)%nat with (S pos) by lia.
    apply (leads_le 1); [by apply last_leads|lia].
  - destruct Hok as (Hds & Hl & Hnd).
    assert (Hlen : length (digit_chars ds) = length ds) by apply length_map.
    apply (leads_le (1 + (length (digit_chars ds) + 1))); [|lia].
    apply (leads_trans 1 _ _ (collected st ST_BANGNUM pos s [])).
    { destruct ds as [|d ds]; [simpl in Hl; lia|]. inversion Hds; subst.
      apply here_cons in Hw as [Hd _]. destruct (digit_char d) as (Hdc & _); [done|].
      eapply word_leads; [done|lia|by left]. }
    eapply (leads_trans (length (digit_chars ds)) 1).
    { apply collect_all_leads; [left|simpl; lia|done]. split; [done|].
      unfold digit_chars. apply Forall_map. eapply Forall_impl; [exact Hds|].
      intros d Hd. by apply digit_char. }
    by eapply number_leads.
  - destruct Hok as (Hnz & Hsp & Hl & (c & Hc & Hal & Hdg) & Hn).
    apply (leads_le (1 + (length w + 1))); [|lia].
    apply (leads_trans 1 _ _ (collected st ST_BANGSTR pos s [])).
    { destruct w as [|c' w]; [done|]. injection Hc as ->. apply here_cons in Hw as [Hd _].
      eapply word_leads; [done|by apply isalnum_bang|by right]. }
    eapply (leads_trans (length w) 1).
    { apply collect_all_leads; [right|simpl; lia|done]. split; [done|].
      apply Forall_and. by split. }
    cbn [app]. apply (name_leads _ _ _ _ next); try done. intros ->. simpl in Hl. lia.
Qed.

Lemma event_leads st v pos s next o :
  st = ST_LINE \/ st = ST_DQSTR -> event_ok v next -> here pos (event_raw v) ->
  raw !! (pos + length (event_raw v))%nat = Some next -> event_line h v = Some o ->
  leads (3 * length (event_raw v)) (at_ st pos s)
    (at_ (after_event v st) (pos + length (event_raw v)) (s ++ o)).
Proof.
  intros Hst Hok Hw Hnext Ho. unfold event_raw in *. apply here_cons in Hw as [Hb Hw].
  cbn [length] in *. rewrite Nat.add_succ_r in Hnext |- *.
  apply (leads_le (1 + (2 + length (event_word v)))); [|lia].
  eapply leads_trans; [by apply bang_leads|]. by eapply event_word_leads.
Qed.

(** *** Double quotes and whole lines *)

Lemma item_leads i pos s next o :
  item_ok i next -> here pos (item_raw i) ->
  raw !! (pos + length (item_raw i))%nat = Some next -> item_out h i = Some o ->
  leads (3 * length (item_raw i)) (at_ ST_DQSTR pos s)
    (at_ ST_DQSTR (pos + length (item_raw i)) (s ++ o)).
Proof.
  intros Hok Hw Hnext Ho. destruct i as [c|u|v]; cbn [item_raw item_out item_ok] in *.
  - injection Ho as <-. apply here_cons in Hw as [Hc _]. cbn [length].
    replace (pos + 1)%nat with (S pos) by lia.
    apply (leads_le 1); [by apply inner_leads|lia].
  - injection Ho as <-. eapply leads_le; [apply quoted_leads; [by right|done|done]|lia].
  - replace ST_DQSTR with (after_event v ST_DQSTR) at 2 by (by destruct v).
    eapply event_leads; [by right| |done|done|done]. by destruct v.
Qed.

(** A sequence of elements, each of which leads on. *)
Lemma seq_leads {A} (ok : A -> Z -> Prop) (spell : A -> list Z) (out : A -> option (list Z)) st :
  (forall t pos s next o, ok t next -> here pos (spell t) ->
     raw !! (pos + length (spell t))%nat = Some next -> out t = Some o ->
     leads (3 * length (spell t)) (at_ st pos s) (at_ st (pos + length (spell t)) (s ++ o))) ->
  forall ts pos s end_ o,
    seq_ok ok spell ts end_ -> here pos (concat (map spell ts) ++ [end_]) ->
    outs out ts = Some o ->
    leads (3 * length (concat (map spell ts))) (at_ st pos s)
      (at_ st (pos + length (concat (map spell ts))) (s ++ o)).
Proof.
  intros Hone. induction ts as [|t ts IH]; intros pos s end_ o Hok Hw Ho.
  - injection Ho as <-. cbn. rewrite Nat.add_0_r, app_nil_r. apply leads_refl.
  - cbn [outs] in Ho. destruct (out t) as [o1|] eqn:E1; [|done].
    destruct (outs out ts) as [o2|] eqn:E2; [|done]. injection Ho as <-.
    cbn [seq_ok] in Hok. destruct Hok as [Hok1 Hok2]. cbn [map concat] in Hw |- *.
    rewrite <- app_assoc in Hw. apply here_app in Hw as [Hw1 Hw2].
    rewrite length_app, app_assoc, Nat.mul_add_distr_l, Nat.add_assoc.
    eapply leads_trans; [|by eapply IH]. eapply Hone; [done|done| |done].
    destruct (concat (map spell ts)) as [|c w]; by apply here_cons in Hw2 as [-> _].
Qed.

Lemma double_leads items pos s o :
  seq_ok item_ok item_raw items 34 -> here pos (token_raw (Double items)) ->
  outs (item_out h) items = Some o ->
  leads (3 * length (token_raw (Double items))) (at_ ST_LINE pos s)
    (at_ ST_LINE (pos + length (token_raw (Double items))) (s ++ 34 :: o ++ [34])).
Proof.
  intros Hok Hw Ho. cbn [token_raw] in *. apply here_cons in Hw as [Hq Hw].
  cbn [length]. rewrite length_app. cbn [length].
  set (n := length (concat (map item_raw items))) in *.
  apply (leads_le (1 + (3 * n + 1))); [|lia].
  apply (leads_trans 1 _ _ (at_ ST_DQSTR (S pos) (s ++ [34]))).
  { at_step Hq. cbn [Z.eqb Pos.eqb]. emitting s. }
  eapply leads_trans; [by eapply (seq_leads item_ok item_raw (item_out h)); [apply item_leads|..]|].
  apply here_app in Hw as [_ Hw]. apply here_cons in Hw as [Hq2 _]. fold n in Hq2 |- *.
  replace (pos + S (n + 1))%nat with (S (S pos + n)) by lia.
  replace (s ++ 34 :: o ++ [34]) with (((s ++ [34]) ++ o) ++ [34]) by (by rewrite <- !app_assoc).
  at_step Hq2. cbn [Z.eqb Pos.eqb]. emitting ((s ++ [34]) ++ o).
Qed.

Lemma token_leads t pos s next o :
  token_ok t next -> here pos (token_raw t) ->
  raw !! (pos + length (token_raw t))%nat = Some next -> token_out h t = Some o ->
  leads (3 * length (token_raw t)) (at_ ST_LINE pos s)
    (at_ ST_LINE (pos + length (token_raw t)) (s ++ o)).
Proof.
  intros Hok Hw Hnext Ho.
  destruct t as [c|c|u|v|items]; [cbn [token_raw token_out token_ok] in *..|].
  - injection Ho as <-. apply here_cons in Hw as [Hc _]. cbn [length].
    replace (pos + 1)%nat with (S pos) by lia. apply (leads_le 1); [by apply plain_leads|lia].
  - injection Ho as <-. apply here_cons in Hw as [Hb Hw]. apply here_cons in Hw as [Hc _].
    cbn [length]. replace (pos + 2)%nat with (S (S pos)) by lia.
    apply (leads_le 2); [by apply escaped_leads|lia].
  - injection Ho as <-. eapply leads_le; [apply quoted_leads; [by left|done|done]|lia].
  - replace ST_LINE with (after_event v ST_LINE) at 2 by (by destruct v).
    eapply event_leads; [by left|done..].
  - cbn [token_out token_ok] in *. destruct (outs _ items) as [oi|] eqn:E; [|done].
    injection Ho as <-. by apply double_leads.
Qed.
End Raw.

Lemma token_raw_head t next : token_ok t next -> exists c w, token_raw t = c :: w /\ c <> 0.
Proof.
  destruct t as [c|c|u|v|items]; intros Hok; try (eexists _, _; split; [reflexivity|done]).
  exists c, []. split; [done|]. cbn in Hok. unfold special in Hok.
  apply bool_decide_eq_false in Hok. apply not_elem_of_cons in Hok. tauto.
Qed.

Lemma expand_init : exists b,
  strbuf_init malloc (m ← malloc 1; store m 0 0) STRBUF_GROW = Some (0, b) /\ stored b [].
Proof.
  destruct (malloc_total 1 ltac:(lia)) as [g Eg]. pose proof (malloc_length _ _ Eg) as Hl.
  destruct g as [|x [|y g]]; [done| |simpl in Hl; lia]. rewrite Eg. cbn.
  eexists. split; [reflexivity|]. split; [|done]. split; [|done]. split; [by constructor|].
  split; [done|]. cbn. exists []. unfold STRBUF_GROW. split; [done|lia].
Qed.

(** The whole line is read, its expansion is put out and the machine stops. *)
Lemma expand_tokens ts o :
  seq_ok token_ok token_raw ts 0 -> outs (token_out h) ts = Some o ->
  exists r, expand malloc h (concat (map token_raw ts) ++ [0]) = Some r /\
    state r = ST_SUCCESS /\ stored (out r) o.
Proof.
  intros Hok Ho. set (line := concat (map token_raw ts)). unfold expand.
  destruct expand_init as (b & -> & Hb). cbn [mbind option_bind].
  set (r0 := mk_rl _ _ _ _ _ _ _).
  assert (Hr0 : at_ ST_LINE 0 [] r0) by (by constructor).
  destruct (seq_leads (line ++ [0]) token_ok token_raw (token_out h) ST_LINE
              (token_leads (line ++ [0])) ts 0 [] 0 o Hok) with r0
    as (j & r1 & Hj & Hrun & Hr1); [by exists [];rewrite app_nil_r|done|done|].
  fold line in Hj, Hr1. rewrite length_app. cbn [length].
  replace (3 * (length line + 1))%nat with (j + S (3 * length line + 2 - j))%nat by lia.
  erewrite rl_loop_run by exact Hrun.
  destruct Hr1 as [Hst Hptr Hout Hbb Hbi]. cbn [rl_loop]. unfold finished at 1. rewrite Hst.
  unfold rl_step. rewrite Hptr, lookup_app_r, Nat.add_0_l, Nat.sub_diag, Hst by lia.
  cbn [lookup list_lookup mbind option_bind state]. unfold step_line, iseol. cbn [Z.eqb].
  destruct (3 * length line + 2 - j)%nat; cbn [rl_loop finished state goto];
    eexists; (split; [reflexivity|]); by split.
Qed.

(** C20: history expansion: a line made of plain and escaped characters, quoted text,
    references to saved lines that exist, alone or in double quotes, is returned with each
    reference replaced by its line and the backslashes gone, and, unless it is empty, becomes
    the latest line of the history.  A number or name has at most 127 characters, a number
    ends before a character that is not a digit, a name before a blank or the end of the line;
    in double quotes the reference !! is left out (it ends the quotes), and so is an escape.
    Every allocation succeeds. *)
Theorem readline_expands ts o L :
  seq_ok token_ok token_raw ts 0 -> outs (token_out h) ts = Some o -> hist_of h L ->
  exists line h', readline_line malloc (concat (map token_raw ts) ++ [0]) h = Some (line, h') /\
    cstr line = o /\ hist_of h' (match ts with [] => L | _ => L ++ [Some o] end).
Proof.
  intros Hok Ho HL. destruct (expand_tokens ts o Hok Ho) as (r & E & Hst & [[Hh Hm] Hbuf]).
  unfold readline_line. rewrite E. cbn [mbind option_bind].
  assert (exists line, buf (out r) = Some line /\ cstr line = o) as (line & -> & Hline).
  { destruct Hh as (Hnz & _ & Hb). destruct (buf (out r)) as [m|]; [|done].
    destruct Hb as (rest & -> & _). eexists. split; [done|]. by apply cstr_app0. }
  cbn [mbind option_bind]. rewrite Hst. destruct ts as [|t ts].
  - exists line, h. by split.
  - destruct (token_raw_head t _ (proj1 Hok)) as (c & w & Et & Hc). cbn [map concat]. rewrite Et.
    cbn [app lookup list_lookup mbind option_bind]. rewrite (proj2 (Z.eqb_neq c 0) Hc).
    destruct (saveline_hist malloc h L line HL) as (h' & -> & Hh').
    exists line, h'. split; [done|]. split; [done|]. unfold strdup_line in Hh'.
    destruct (malloc_total (slen line + 1)) as [g Eg]; [unfold slen; lia|].
    rewrite Eg in Hh'. cbn [mbind option_bind] in Hh'. by rewrite Hline in Hh'.
Qed.
End Machine.

(** ** A concrete line *)

Definition sample_hist : hist :=
  default readline_init (save_all endless [chars "ls"; chars "boot"] readline_init).

Lemma sample_hist_of : hist_of sample_hist [Some (chars "ls"); Some (chars "boot")].
Proof.
  destruct (save_all_hist endless [chars "ls"; chars "boot"] _ _ readline_init_hist)
    as (h & E & Hh). unfold sample_hist. by rewrite E.
Qed.

(** ["!0" '!x' \! !bo !!] *)
Definition sample_tokens : list token :=
  [Double [InnerEvent (Number [0])]; Plain 32; Quoted (chars "!x"); Plain 32; Escaped 33;
   Plain 32; Event (Name (chars "bo")); Plain 32; Event Last].

Lemma readline_expands_witness : exists line h,
  readline_line endless (concat (map token_raw sample_tokens) ++ [0]) sample_hist = Some (line, h) /\
  cstr line = [34] ++ chars "ls" ++ [34] ++ chars " '!x' ! boot boot" /\
  hist_of h [Some (chars "ls"); Some (chars "boot"); Some ([34] ++ chars "ls" ++ [34] ++ chars " '!x' ! boot boot")].
Proof.
  apply (readline_expands endless endless_length endless_total sample_hist sample_tokens
           ([34] ++ chars "ls" ++ [34] ++ chars " '!x' ! boot boot")
           [Some (chars "ls"); Some (chars "boot")]).
  - repeat split; try done; try (simpl; lia); try (by repeat constructor); try by right.
    exists 98. split; [done|]. by vm_compute.
  - by vm_compute.
  - exact sample_hist_of.
Defined.

(** After "!!" in double quotes the machine is in [ST_LINE]: the closing quote opens
    another text, which has no end, and the line is not saved. *)
Example bang_bang_in_quotes :
  readline_line endless ([34] ++ chars "!!" ++ [34; 0]) sample_hist =
  Some ([34] ++ chars "boot" ++ [34; 0], sample_hist).
Proof. reflexivity. Qed.

(** A backslash at the end of the line takes the terminator: the next read is behind it. *)
Example backslash_at_end :
  readline_line endless (chars "ls" ++ [92; 0]) sample_hist = None.
Proof. reflexivity. Qed.

(** A reference of 128 characters is too long for [bbuf]. *)
Example long_reference :
  readline_line endless ([33] ++ replicate 128 97 ++ [0]) sample_hist = None.
Proof. vm_compute. reflexivity. Qed.
