(* ===== verification/EditorProofs.v ===== *)
(** * EditorProofs: the line editor

    The text and the cursor as the user thinks of them ([op], [edit]), the keys for
    each operation ([press]), and a terminal ([term_put]).  The editor keeps the text
    in its buffer and on the screen. *)

From stdpp Require Import strings.
From S2P Require Import Prelude CString CStringProofs Strbuf Printf PrintfProofs Readline.
Open Scope list_scope.
Open Scope Z_scope.

(** ** Specification *)

Inductive op :=
  | Ins (c : Z) | Backspace | Left | Right | Home | End_line | Kill_left | Kill_right
  | Delete | Toggle | Nop.

(** The text, the cursor and whether characters replace others. *)
Record text := mk_text { chars_of : list Z; cursor_at : nat; replacing : bool }.

Definition edit (o : op) (t : text) : text :=
  let s := chars_of t in
  let p := cursor_at t in
  let mk s p := mk_text s p (replacing t) in
  match o with
  | Ins c => mk (take p s ++ c :: drop (if replacing t then S p else p) s) (S p)
  | Backspace => mk (take (p - 1) s ++ drop p s) (p - 1)%nat
  | Left => mk s (p - 1)%nat
  | Right => mk s (Nat.min (S p) (length s))
  | Home => mk s 0%nat
  | End_line => mk s (length s)
  | Kill_left => mk (drop p s) 0%nat
  | Kill_right => mk (take p s) p
  | Delete => mk (take p s ++ drop (S p) s) p
  | Toggle => mk_text s p (negb (replacing t))
  | Nop => t
  end.

Definition text_char (c : Z) : Prop := 32 <= c < 127.

(** The bytes of a key. *)
Inductive press : list Z -> op -> Prop :=
  | press_char c : text_char c -> press [c] (Ins c)
  | press_bs : press [8] Backspace
  | press_del : press [127] Backspace
  | press_ctrl_b : press [2] Left
  | press_left : press [27; 91; 68] Left
  | press_ctrl_f : press [6] Right
  | press_right : press [27; 91; 67] Right
  | press_ctrl_a : press [1] Home
  | press_home : press [27; 91; 49; 126] Home
  | press_ctrl_e : press [5] End_line
  | press_end : press [27; 91; 52; 126] End_line
  | press_ctrl_u : press [21] Kill_left
  | press_ctrl_w : press [23] Kill_left
  | press_ctrl_k : press [11] Kill_right
  | press_ctrl_d : press [4] Delete
  | press_insert : press [27; 91; 50; 126] Toggle
  | press_tab : press [9] Nop.

(** A terminal: the characters of its line and its cursor.  7 rings, 8 goes back. *)
Definition term_put (t : list Z * nat) (c : Z) : list Z * nat :=
  let '(scr, pos) := t in
  if c =? 8 then (scr, (pos - 1)%nat)
  else if c =? 7 then (scr, pos)
  else (put pos [c] scr, S pos).

Definition term_of (out : list Z) : list Z * nat := foldl term_put ([], 0%nat) out.

(** ** Writing on a line *)

Lemma put_put pos c t (scr : list Z) :
  (pos <= length scr)%nat -> put (S pos) t (put pos [c] scr) = put pos (c :: t) scr.
Proof.
  intros Hp. unfold put. cbn [length]. rewrite take_app_ge by len.
  rewrite length_take, Nat.min_l by lia. replace (S pos - pos)%nat with 1%nat by lia.
  cbn [take app]. rewrite take_0, <- app_assoc. cbn [app]. do 3 f_equal.
  rewrite drop_app_ge by len. rewrite length_take, Nat.min_l by lia.
  replace (S pos + length t - pos)%nat with (S (length t)) by lia. cbn [drop].
  rewrite drop_drop. f_equal. lia.
Qed.

Lemma length_put_ge pos t (scr : list Z) :
  (pos <= length scr)%nat -> (length scr <= length (put pos t scr))%nat /\
  (pos + length t <= length (put pos t scr))%nat.
Proof. intros Hp. unfold put. rewrite !length_app, length_take, length_drop. lia. Qed.

Lemma put_nil' pos (scr : list Z) : put pos [] scr = scr.
Proof. unfold put. cbn. by rewrite Nat.add_0_r, take_drop. Qed.

Section Editor.
Variable malloc : Z -> option (list Z).
Hypothesis malloc_length : forall n g, malloc n = Some g -> Z.of_nat (length g) = n.
Hypothesis malloc_total : forall n, 0 < n -> is_Some (malloc n).
Variable h : hist.

(** The buffer holds [s]; the terminal shows [scr] and its cursor is where the editor
    believes it to be. *)
Record view (e : ed) (s : list Z) (pos : nat) (scr : list Z) : Prop := {
  vw_buf : growing (rawbuf e) s;
  vw_pos : rawpos e = Z.of_nat pos;
  vw_term : term_of (printed e) = (scr, pos);
  vw_scr : (pos <= length scr)%nat;
}.

(** What moving and typing leave alone. *)
Definition same (e e' : ed) : Prop := overwrite e' = overwrite e /\ keys e' = keys e.

Lemma same_refl e : same e e.
Proof. done. Qed.

Lemma same_trans e1 e2 e3 : same e1 e2 -> same e2 e3 -> same e1 e3.
Proof. intros [? ?] [? ?]. split; congruence. Qed.

Lemma term_of_snoc out c : term_of (out ++ [c]) = term_put (term_of out) c.
Proof. unfold term_of. by rewrite foldl_app. Qed.

Lemma putc_char c : c <> 10 -> putc c = [c].
Proof. intros Hc. unfold putc. by rewrite (proj2 (Z.eqb_neq c 10) Hc). Qed.

Lemma raw_putc_view c e s pos scr :
  text_char c -> view e s pos scr ->
  view (raw_putc c e) s (S pos) (put pos [c] scr) /\ same e (raw_putc c e).
Proof.
  intros Hc [Hb Hp Ht Hs]. unfold text_char in Hc. split; [|done]. unfold raw_putc.
  rewrite (proj2 (Z.eqb_neq c 8)), (proj2 (Z.eqb_neq c 10)), (proj2 (Z.eqb_neq c 13)) by lia.
  constructor; cbn [rawbuf rawpos printed PUTC orb]; [done|lia| |].
  - rewrite putc_char, term_of_snoc, Ht by lia. unfold term_put.
    by rewrite (proj2 (Z.eqb_neq c 8)), (proj2 (Z.eqb_neq c 7)) by lia.
  - pose proof (length_put_ge pos [c] scr Hs) as [_ Hl]. cbn [length] in Hl. lia.
Qed.

Lemma raw_back_view e s pos scr :
  (0 < pos)%nat -> view e s pos scr ->
  view (raw_putc 8 e) s (pos - 1) scr /\ same e (raw_putc 8 e).
Proof.
  intros Hpos [Hb Hp Ht Hs]. split; [|done]. unfold raw_putc.
  constructor; cbn [rawbuf rawpos printed PUTC Z.eqb Pos.eqb]; [done|lia| |lia].
  rewrite putc_char, term_of_snoc, Ht by lia. done.
Qed.

Lemma beep_view e s pos scr : view e s pos scr -> view (beep e) s pos scr /\ same e (beep e).
Proof.
  intros [Hb Hp Ht Hs]. split; [|done]. unfold beep.
  constructor; cbn [rawbuf rawpos printed PUTC]; [done|done| |done].
  rewrite putc_char, term_of_snoc, Ht by lia. done.
Qed.

(** A character of the text, in the buffer. *)
Lemma growing_lookup b s i c :
  growing b s -> s !! i = Some c -> exists m, buf b = Some m /\ m !! i = Some c.
Proof.
  intros [(_ & _ & Hb) _] Hc. destruct (buf b) as [m|]; [|by destruct Hb as [-> _]].
  destruct Hb as (rest & -> & _). exists (s ++ 0 :: rest). split; [done|].
  by apply lookup_app_l_Some.
Qed.

Lemma cursor_right_view n : forall e s pos scr,
  Forall text_char s -> view e s pos scr -> (pos + n <= length s)%nat ->
  exists e', cursor_right n (Z.of_nat (pos + n)) e = Some e' /\
    view e' s (pos + n) (put pos (sub pos n s) scr) /\ same e e'.
Proof.
  induction n as [|n IH]; intros e s pos scr Hs Hv Hn; cbn [cursor_right].
  - rewrite (vw_pos _ _ _ _ Hv), Nat.add_0_r, Z.ltb_irrefl. exists e.
    split; [done|]. unfold sub. by rewrite take_0, put_nil'.
  - rewrite (vw_pos _ _ _ _ Hv), (proj2 (Z.ltb_lt _ _)) by lia.
    destruct (lookup_lt_is_Some_2 s pos) as [c Hc]; [lia|].
    destruct (growing_lookup (rawbuf e) s pos c (vw_buf _ _ _ _ Hv) Hc) as (m & -> & Hm).
    cbn [mbind option_bind]. rewrite Nat2Z.id, Hm. cbn [mbind option_bind].
    assert (Hpc : text_char c) by (by apply (proj1 (Forall_lookup _ _) Hs pos)).
    destruct (raw_putc_view c e s pos scr Hpc Hv) as [Hv' Hsame].
    destruct (IH (raw_putc c e) s (S pos) _ Hs Hv') as (e' & E & Hv2 & Hsame2); [lia|].
    replace (S pos + n)%nat with (pos + S n)%nat in E, Hv2 by lia.
    exists e'. split; [done|]. split; [|by eapply same_trans].
    rewrite put_put in Hv2 by apply Hv.
    replace (sub pos (S n) s) with (c :: sub (S pos) n s); [done|].
    unfold sub. by rewrite (drop_S s c pos Hc).
Qed.

Lemma cursor_left_view n : forall e s pos scr,
  view e s pos scr -> (n <= pos)%nat ->
  exists e', cursor_left n (Z.of_nat (pos - n)) e = Some e' /\ view e' s (pos - n) scr /\ same e e'.
Proof.
  induction n as [|n IH]; intros e s pos scr Hv Hn; cbn [cursor_left].
  - rewrite (vw_pos _ _ _ _ Hv), Nat.sub_0_r, Z.ltb_irrefl. by exists e.
  - rewrite (vw_pos _ _ _ _ Hv), (proj2 (Z.ltb_lt _ _)) by lia.
    destruct (raw_back_view e s pos scr) as [Hv' Hsame]; [lia|done|].
    destruct (IH (raw_putc 8 e) s (pos - 1)%nat scr Hv') as (e' & E & Hv2 & Hsame2); [lia|].
    replace (pos - 1 - n)%nat with (pos - S n)%nat in E, Hv2 by lia.
    exists e'. split; [done|]. split; [done|by eapply same_trans].
Qed.

(** Where [raw_cursor] is asked to go. *)
Definition target (off : Z) (whence : whence_t) (e : ed) : Z :=
  match whence with
  | CURSOR_SET => off
  | CURSOR_CUR => rawpos e + off
  | CURSOR_END => len (rawbuf e) - off
  end.

Lemma raw_cursor_view off whence e s pos scr q :
  Forall text_char s -> view e s pos scr -> (pos <= length s)%nat -> (q <= length s)%nat ->
  target off whence e = Z.of_nat q ->
  exists e', raw_cursor off whence e = Some (Z.of_nat q, e') /\
    view e' s q (put pos (sub pos (q - pos) s) scr) /\ same e e'.
Proof.
  intros Hs Hv Hp Hq Ht. unfold raw_cursor. fold (target off whence e). rewrite Ht.
  rewrite (growing_len _ _ (vw_buf _ _ _ _ Hv)).
  rewrite (proj2 (Z.ltb_ge _ 0)), (proj2 (Z.ltb_ge _ _)) by lia. cbn [orb].
  rewrite (vw_pos _ _ _ _ Hv).
  destruct (decide (pos <= q)%nat) as [Hle|Hgt].
  - destruct (cursor_right_view (q - pos) e s pos scr Hs Hv) as (e' & E & Hv' & Hsame); [lia|].
    replace (pos + (q - pos))%nat with q in E, Hv' by lia.
    replace (Z.to_nat (Z.of_nat q - Z.of_nat pos)) with (q - pos)%nat by lia. rewrite E.
    cbn [mbind option_bind]. rewrite (vw_pos _ _ _ _ Hv'), Z.sub_diag. change (Z.to_nat 0) with 0%nat. cbn [cursor_left].
    rewrite ?(vw_pos _ _ _ _ Hv'), Z.ltb_irrefl. cbn [mbind option_bind].
    rewrite (vw_pos _ _ _ _ Hv'). by exists e'.
  - replace (Z.to_nat (Z.of_nat q - Z.of_nat pos)) with 0%nat by lia. cbn [cursor_right].
    rewrite (vw_pos _ _ _ _ Hv), (proj2 (Z.ltb_ge _ _)) by lia. cbn [mbind option_bind].
    destruct (cursor_left_view (pos - q) e s pos scr Hv) as (e' & E & Hv' & Hsame); [lia|].
    replace (pos - (pos - q))%nat with q in E, Hv' by lia. rewrite (vw_pos _ _ _ _ Hv).
    replace (Z.to_nat (Z.of_nat pos - Z.of_nat q)) with (pos - q)%nat by lia. rewrite E.
    cbn [mbind option_bind]. rewrite (vw_pos _ _ _ _ Hv'). exists e'. split; [done|].
    replace (q - pos)%nat with 0%nat by lia. unfold sub. by rewrite take_0, put_nil'.
Qed.

(** ** The screen shows the text *)

(** The text [s] on the screen, blanks after it, and the cursor at [p]. *)
Definition editing (e : ed) (s : list Z) (p : nat) : Prop :=
  Forall text_char s /\ (p <= length s)%nat /\
  exists k, view e s p (s ++ replicate k 32).

Lemma text_char_nonzero s : Forall text_char s -> nonzero s.
Proof. intros Hs. eapply Forall_impl; [exact Hs|]. unfold text_char. intros c Hc. simpl in Hc. lia. Qed.

(** Writing what is there already. *)
Lemma put_own pos n (s t : list Z) :
  (pos + n <= length s)%nat -> put pos (sub pos n s) (s ++ t) = s ++ t.
Proof.
  intros Hn. assert (E : sub pos n s = sub pos n (s ++ t)).
  { unfold sub. rewrite drop_app_le, take_app_le by len. done. }
  rewrite E. apply put_sub_id. len.
Qed.

Lemma cursor_editing off whence e s p q :
  editing e s p -> (q <= length s)%nat -> target off whence e = Z.of_nat q ->
  exists e', raw_cursor off whence e = Some (Z.of_nat q, e') /\ editing e' s q /\ same e e'.
Proof.
  intros (Hs & Hp & k & Hv) Hq Ht.
  destruct (raw_cursor_view off whence e s p _ q Hs Hv Hp Hq Ht) as (e' & E & Hv' & Hsame).
  exists e'. split; [done|]. split; [|done]. split; [done|]. split; [done|]. exists k.
  destruct (decide (p <= q)%nat); [by rewrite put_own in Hv' by lia|].
  replace (q - p)%nat with 0%nat in Hv' by lia. unfold sub in Hv'. by rewrite take_0, put_nil' in Hv'.
Qed.

(** The cursor goes to the end: the line is redrawn from [p]. *)
Lemma to_end e s p scr :
  Forall text_char s -> view e s p scr -> (p <= length s)%nat -> take p scr = take p s ->
  exists e', cursor 0 CURSOR_END e = Some e' /\
    view e' s (length s) (s ++ drop (length s) scr) /\ same e e'.
Proof.
  intros Hs Hv Hp Htake. unfold cursor.
  destruct (raw_cursor_view 0 CURSOR_END e s p scr (length s) Hs Hv Hp) as (e' & E & Hv' & Hsame);
    [done|unfold target; rewrite (growing_len _ _ (vw_buf _ _ _ _ Hv)); lia|].
  rewrite E. exists e'. split; [done|]. split; [|done].
  assert (Esub : sub p (length s - p) s = drop p s) by (unfold sub; apply take_ge; len).
  rewrite Esub in Hv'. unfold put in Hv'. rewrite length_drop, Htake in Hv'.
  replace (p + (length s - p))%nat with (length s) in Hv' by lia.
  by rewrite app_assoc, take_drop in Hv'.
Qed.

Lemma view_set_rawbuf b e s s' pos scr :
  view e s pos scr -> growing b s' -> view (set_rawbuf b e) s' pos scr /\ same e (set_rawbuf b e).
Proof. intros [Hb Hp Ht Hs] Hg. split; [by constructor|done]. Qed.

(** [s = a ++ x :: b], the cursor at [x]: [x] is deleted. *)
Lemma delete_view e a x b scr :
  view e (a ++ x :: b) (length a) scr ->
  exists e', delete_here malloc e = Some e' /\ view e' (a ++ b) (length a) scr /\ same e e'.
Proof.
  intros Hv. unfold delete_here, strbuf_deletec. rewrite (vw_pos _ _ _ _ Hv).
  destruct (growing_delete malloc malloc_length malloc_total (rawbuf e) a [x] b (vw_buf _ _ _ _ Hv))
    as (bf & E & Hg); [done|]. change (Z.of_nat (length [x])) with 1 in E. rewrite E.
  eexists. split; [reflexivity|]. by eapply view_set_rawbuf.
Qed.

Lemma insert_view c e a b scr :
  c <> 0 -> view e (a ++ b) (length a) scr ->
  exists e', insert_here malloc c e = Some e' /\ view e' (a ++ c :: b) (length a) scr /\ same e e'.
Proof.
  intros Hc Hv. unfold insert_here, strbuf_insertc. rewrite (vw_pos _ _ _ _ Hv).
  destruct (growing_insert malloc malloc_length malloc_total (rawbuf e) a b [c] (vw_buf _ _ _ _ Hv))
    as (bf & E & Hg); [by repeat constructor|].
  rewrite insert_cstr. change [c; 0] with ([c] ++ [0]). rewrite cstr_app0, E by (by repeat constructor).
  eexists. split; [reflexivity|]. by eapply view_set_rawbuf.
Qed.

(** *** Keys *)

(** What [raw_backspace] does when the character is gone from the buffer. *)
Definition erase (e : ed) : option ed :=
  if rawpos e =? len (rawbuf e) then Some (raw_putc 8 (raw_putc 32 e))
  else
    let i := rawpos e in
    e ← cursor 0 CURSOR_END e;
    cursor i CURSOR_SET (raw_putc 8 (raw_putc 32 e)).

(** The last character on the screen is the one to blank. *)
Lemma erase_tail (a b : list Z) x k :
  drop (S (length (a ++ b))) ((a ++ x :: b) ++ replicate k 32) = replicate k 32.
Proof.
  rewrite drop_app_ge by len. rewrite !length_app. cbn [length].
  by replace (S (length a + length b) - (length a + S (length b)))%nat with 0%nat by lia.
Qed.

Lemma blanked e s scr k :
  view e s (length s) (s ++ drop (length s) scr) -> drop (S (length s)) scr = replicate k 32 ->
  Forall text_char s ->
  editing (raw_putc 8 (raw_putc 32 e)) s (length s) /\ same e (raw_putc 8 (raw_putc 32 e)).
Proof.
  intros Hv Hk Hs. destruct (raw_putc_view 32 _ _ _ _ ltac:(unfold text_char; lia) Hv) as [Hv1 H1].
  destruct (raw_back_view _ _ _ _ (Nat.lt_0_succ _) Hv1) as [Hv2 H2].
  split; [|by eapply same_trans]. split; [done|]. split; [lia|]. exists (S k).
  replace (S (length s) - 1)%nat with (length s) in Hv2 by lia.
  unfold put in Hv2. rewrite take_app_length, drop_app_ge, drop_drop in Hv2 by (simpl; lia).
  cbn [length] in Hv2. replace (length s + (length s + 1 - length s))%nat with (S (length s)) in Hv2 by lia.
  by rewrite Hk in Hv2.
Qed.

Lemma erase_editing e a x b k :
  Forall text_char (a ++ b) -> view e (a ++ b) (length a) ((a ++ x :: b) ++ replicate k 32) ->
  exists e', erase e = Some e' /\ editing e' (a ++ b) (length a) /\ same e e'.
Proof.
  intros Hs Hv. set (scr := (a ++ x :: b) ++ replicate k 32) in *. unfold erase.
  rewrite (vw_pos _ _ _ _ Hv), (growing_len _ _ (vw_buf _ _ _ _ Hv)).
  assert (Htake : take (length a) scr = take (length a) (a ++ b)).
  { unfold scr. by rewrite <- app_assoc, !take_app_length. }
  destruct (Z.eqb_spec (Z.of_nat (length a)) (Z.of_nat (length (a ++ b)))) as [E|E].
  - apply Nat2Z.inj in E. rewrite E in Hv, Htake.
    replace scr with ((a ++ b) ++ drop (length (a ++ b)) scr) in Hv.
    2: { rewrite <- (take_drop (length (a ++ b)) scr) at 2. by rewrite Htake, take_ge. }
    destruct (blanked e _ scr k Hv) as [He Hsame]; [apply erase_tail|done|].
    eexists. split; [reflexivity|]. by rewrite E.
  - destruct (to_end e _ _ _ Hs Hv) as (e1 & -> & Hv1 & Hsame1); [len|done|].
    destruct (blanked e1 _ scr k Hv1) as [He Hsame]; [apply erase_tail|done|].
    cbn [mbind option_bind]. unfold cursor.
    destruct (cursor_editing (Z.of_nat (length a)) CURSOR_SET _ _ _ (length a) He)
      as (e2 & -> & He2 & Hsame2); [len|done|].
    exists e2. split; [done|]. split; [done|]. eapply same_trans; [done|by eapply same_trans].
Qed.

Lemma backspace_editing e a x b :
  editing e (a ++ x :: b) (S (length a)) ->
  exists e', raw_backspace malloc e = Some e' /\ editing e' (a ++ b) (length a) /\ same e e'.
Proof.
  intros He. pose proof He as (Hs & Hp & k & Hv). unfold raw_backspace.
  rewrite (vw_pos _ _ _ _ Hv). rewrite (proj2 (Z.eqb_neq _ 0)) by lia.
  destruct (cursor_editing (-1) CURSOR_CUR e _ _ (length a) He) as (e1 & E1 & (_ & _ & k1 & Hv1) & Hsame1);
    [len|unfold target; rewrite (vw_pos _ _ _ _ Hv); lia|].
  replace (cursor (-1) CURSOR_CUR e) with (Some e1) by (unfold cursor; by rewrite E1).
  cbn [mbind option_bind].
  destruct (delete_view e1 a x b _ Hv1) as (e2 & E2 & Hv2 & Hsame2). rewrite E2.
  cbn [mbind option_bind].
  assert (Hs' : Forall text_char (a ++ b)).
  { apply Forall_app in Hs as [? Hs]. inversion Hs; subst. by apply Forall_app. }
  destruct (erase_editing e2 a x b k1 Hs' Hv2) as (e3 & E3 & He3 & Hsame3).
  exists e3. split; [|split; [done|eapply same_trans; [done|by eapply same_trans]]].
  rewrite <- E3. unfold erase. replace (Z.of_nat (S (length a)) - 1) with (rawpos e2); [done|].
  rewrite (vw_pos _ _ _ _ Hv2). lia.
Qed.

(** ** Every key is its operation *)

(** The editor holds and shows [t]. *)
Definition editor (e : ed) (t : text) : Prop :=
  editing e (chars_of t) (cursor_at t) /\ overwrite e = replacing t.

(** [f] takes the editor from its state to [t], using no keys. *)
Definition reaches (f : ed -> option ed) (e : ed) (t : text) : Prop :=
  exists e', f e = Some e' /\ editor e' t /\ keys e' = keys e.

Lemma reaches_same f e s p ov e' :
  f e = Some e' -> editing e' s p -> same e e' -> overwrite e = ov ->
  reaches f e (mk_text s p ov).
Proof. intros E He [Ho Hk] Hov. exists e'. split; [done|]. split; [split; [done|cbn; congruence]|done]. Qed.

Lemma cursor_reaches off whence e t q :
  editor e t -> (q <= length (chars_of t))%nat -> target off whence e = Z.of_nat q ->
  reaches (cursor off whence) e (mk_text (chars_of t) q (replacing t)).
Proof.
  intros [He Ho] Hq Ht.
  destruct (cursor_editing off whence e _ _ q He Hq Ht) as (e' & E & He' & Hsame).
  eapply reaches_same; [|done..]. unfold cursor. by rewrite E.
Qed.

Lemma beep_editing e s p : editing e s p -> editing (beep e) s p /\ same e (beep e).
Proof.
  intros (Hs & Hp & k & Hv). destruct (beep_view _ _ _ _ Hv) as [Hv' Hsame].
  split; [|done]. split; [done|]. split; [done|by exists k].
Qed.

Lemma backspace_reaches e t : editor e t -> reaches (raw_backspace malloc) e (edit Backspace t).
Proof.
  intros [He Ho]. destruct t as [s p ov]. cbn in *. pose proof He as (Hs & Hp & k & Hv).
  destruct p as [|p].
  - rewrite drop_0. destruct (beep_editing _ _ _ He) as [He' Hsame].
    eapply reaches_same; [|done..]. unfold raw_backspace. by rewrite (vw_pos _ _ _ _ Hv).
  - destruct (lookup_lt_is_Some_2 s p) as [x Hx]; [lia|].
    pose proof (take_drop_middle s p x Hx) as E. assert (Hl : length (take p s) = p) by len.
    cbn [Nat.sub]. rewrite Nat.sub_0_r.
    assert (He1 : editing e (take p s ++ x :: drop (S p) s) (S (length (take p s))))
      by (by rewrite E, Hl).
    destruct (backspace_editing _ _ _ _ He1) as (e' & E' & He' & Hsame).
    rewrite Hl in He'. by eapply reaches_same.
Qed.

(** The cursor one to the left or right, or a ring. *)
Lemma move_reaches off e t :
  editor e t -> off = -1 \/ off = 1 ->
  reaches (move off) e (edit (if off <? 0 then Left else Right) t).
Proof.
  intros [He Ho] Hoff. destruct t as [s p ov]. cbn in Ho, He. pose proof He as (Hs & Hp & k & Hv).
  set (q := Z.of_nat p + off).
  destruct (decide (0 <= q <= Z.of_nat (length s))) as [Hq|Hq].
  - destruct (cursor_editing off CURSOR_CUR e s p (Z.to_nat q) He) as (e' & E & He' & Hsame);
      [lia|unfold target; rewrite (vw_pos _ _ _ _ Hv); lia|].
    replace (edit _ _) with (mk_text s (Z.to_nat q) ov).
    2: { unfold q in *. destruct Hoff as [-> | ->]; cbn [Z.ltb Z.compare edit chars_of cursor_at replacing];
         f_equal; lia. }
    eapply reaches_same; [|done..]. unfold move. rewrite E. cbn [mbind option_bind].
    by rewrite (proj2 (Z.ltb_ge _ 0)) by lia.
  - destruct (beep_editing _ _ _ He) as [He' Hsame].
    replace (edit _ _) with (mk_text s p ov).
    2: { unfold q in *. destruct Hoff as [-> | ->]; cbn [Z.ltb Z.compare edit chars_of cursor_at replacing];
         f_equal; lia. }
    eapply reaches_same; [|done..]. unfold move, raw_cursor.
    rewrite (vw_pos _ _ _ _ Hv), (growing_len _ _ (vw_buf _ _ _ _ Hv)). fold q.
    by replace ((q <? 0) || (Z.of_nat (length s) <? q)) with true by lia.
Qed.

(** Backspaces to a position: what is between it and the cursor goes. *)
Lemma backspaces_editing n : forall e s p i,
  editing e s p -> (i + n = p)%nat ->
  exists e', backspaces malloc n (Z.of_nat i) e = Some e' /\
    editing e' (take i s ++ drop p s) i /\ same e e'.
Proof.
  induction n as [|n IH]; intros e s p i He Hn; pose proof He as (Hs & Hp & k & Hv);
    cbn [backspaces]; rewrite (vw_pos _ _ _ _ Hv).
  - rewrite (proj2 (Z.ltb_ge _ _)) by lia. exists e. split; [done|]. split; [|done].
    replace i with p by lia. by rewrite take_drop.
  - rewrite (proj2 (Z.ltb_lt _ _)) by lia.
    destruct (backspace_reaches e (mk_text s p (overwrite e))) as (e1 & -> & [He1 Ho1] & Hk1); [done|].
    cbn [mbind option_bind]. cbn in He1, Ho1.
    destruct (IH e1 _ (p - 1)%nat i He1) as (e' & E & He' & [Ho' Hk']); [lia|].
    exists e'. split; [done|]. split; [|split; congruence].
    rewrite take_app_le, take_take, drop_app_ge in He' by len.
    rewrite length_take in He'. replace (p - 1 - Nat.min (p - 1) (length s))%nat with 0%nat in He' by lia.
    by replace (Nat.min i (p - 1)) with i in He' by lia.
Qed.

Lemma kill_left_reaches e t : editor e t ->
  reaches (fun e => backspaces malloc (Z.to_nat (rawpos e)) 0 e) e (edit Kill_left t).
Proof.
  intros [He Ho]. destruct t as [s p ov]. cbn in Ho, He. pose proof He as (Hs & Hp & k & Hv).
  destruct (backspaces_editing p e s p 0 He eq_refl) as (e' & E & He' & Hsame).
  eapply reaches_same; [|done..]. by rewrite (vw_pos _ _ _ _ Hv), Nat2Z.id.
Qed.

(** Control-K. *)
Definition kill_right (e : ed) : option ed :=
  let i := rawpos e in
  e ← cursor 0 CURSOR_END e; backspaces malloc (Z.to_nat (rawpos e - i)) i e.

Lemma kill_right_reaches e t : editor e t -> reaches kill_right e (edit Kill_right t).
Proof.
  intros [He Ho]. destruct t as [s p ov]. cbn in Ho, He. pose proof He as (Hs & Hp & k & Hv).
  destruct (cursor_editing 0 CURSOR_END e s p (length s) He) as (e1 & E1 & He1 & Hsame1); [lia|..].
  { unfold target. rewrite (growing_len _ _ (vw_buf _ _ _ _ Hv)). lia. }
  pose proof He1 as (_ & _ & k1 & Hv1).
  destruct (backspaces_editing (length s - p) e1 s (length s) p He1) as (e2 & E2 & He2 & Hsame2); [lia|].
  rewrite drop_ge, app_nil_r in He2 by lia.
  eapply reaches_same; [|done|by eapply same_trans|done].
  unfold kill_right, cursor. rewrite E1. cbn [mbind option_bind].
  rewrite (vw_pos _ _ _ _ Hv1), (vw_pos _ _ _ _ Hv).
  by replace (Z.to_nat (Z.of_nat (length s) - Z.of_nat p)) with (length s - p)%nat by lia.
Qed.

Lemma delete_reaches e t : editor e t ->
  reaches (fun e => if rawpos e <? len (rawbuf e)
    then e ← raw_arrow malloc h ARROW_RIGHT e; raw_backspace malloc e else Some e) e (edit Delete t).
Proof.
  intros Hed. pose proof Hed as [He Ho]. destruct t as [s p ov]. cbn in Ho, He.
  pose proof He as (Hs & Hp & k & Hv). unfold reaches.
  rewrite (vw_pos _ _ _ _ Hv), (growing_len _ _ (vw_buf _ _ _ _ Hv)).
  destruct (Z.ltb_spec (Z.of_nat p) (Z.of_nat (length s))).
  - change (raw_arrow malloc h ARROW_RIGHT e) with (move 1 e).
    destruct (move_reaches 1 e _ Hed) as (e1 & -> & Hed1 & Hk1); [by right|].
    destruct (backspace_reaches e1 _ Hed1) as (e2 & E2 & Hed2 & Hk2).
    exists e2. split; [done|]. split; [|congruence].
    replace (edit Delete _) with (edit Backspace (edit (if 1 <? 0 then Left else Right) (mk_text s p ov)));
      [done|].
    cbn [Z.ltb Z.compare edit chars_of cursor_at replacing].
    replace (Nat.min (S p) (length s)) with (S p) by lia.
    by replace (S p - 1)%nat with p by lia.
  - exists e. split; [done|]. split; [|done]. split; [|done].
    cbn [edit chars_of cursor_at].
    by rewrite (drop_ge s (S p)), app_nil_r, take_ge by lia.
Qed.

(** When characters are replaced, the one under the cursor goes first; there is none at
    the end of the line. *)
Lemma replace_view e s p scr :
  view e s p scr -> (p <= length s)%nat ->
  exists e', (if overwrite e && negb (bool_decide (buf (rawbuf e) = None))
              then delete_here malloc e else Some e) = Some e' /\
    view e' (take p s ++ drop (if overwrite e then S p else p) s) p scr /\ same e e'.
Proof.
  intros Hv Hp. destruct (overwrite e); cbn [andb].
  2: { exists e. by rewrite take_drop. }
  destruct (decide (p < length s)%nat) as [Hlt|Hge].
  - destruct (lookup_lt_is_Some_2 s p Hlt) as [x Hx].
    pose proof (take_drop_middle s p x Hx) as E. assert (Hl : length (take p s) = p) by len.
    assert (Hv1 : view e (take p s ++ x :: drop (S p) s) (length (take p s)) scr) by (by rewrite E, Hl).
    destruct (delete_view e _ _ _ _ Hv1) as (e' & E' & Hv' & Hsame).
    destruct (growing_lookup _ _ _ _ (vw_buf _ _ _ _ Hv) Hx) as (m & -> & _).
    rewrite bool_decide_false by done. exists e'. rewrite Hl in Hv'. done.
  - rewrite drop_ge, app_nil_r, take_ge by lia.
    destruct (bool_decide _); cbn [negb]; [by exists e|].
    unfold delete_here, strbuf_deletec, strbuf_delete.
    rewrite (vw_pos _ _ _ _ Hv), (growing_len _ _ (vw_buf _ _ _ _ Hv)).
    rewrite (proj2 (Z.leb_le _ _)) by lia. eexists. split; [reflexivity|].
    by eapply view_set_rawbuf; [|apply Hv].
Qed.

Lemma type_reaches c e t : editor e t -> text_char c -> reaches (type_key malloc c) e (edit (Ins c) t).
Proof.
  intros [He Ho] Hc. destruct t as [s p ov]. cbn in Ho, He. pose proof He as (Hs & Hp & k & Hv).
  unfold type_key, reaches. rewrite (vw_pos _ _ _ _ Hv).
  destruct (replace_view e s p _ Hv Hp) as (e1 & -> & Hv1 & Hsame1). cbn [mbind option_bind].
  rewrite Ho in Hv1. set (b := drop (if ov then S p else p) s) in *.
  assert (Hl : length (take p s) = p) by len. assert (Hv1' : view e1 (take p s ++ b) (length (take p s)) (s ++ replicate k 32)) by (by rewrite Hl).
  destruct (insert_view c e1 (take p s) b _ ltac:(unfold text_char in Hc; lia) Hv1')
    as (e2 & -> & Hv2 & Hsame2). cbn [mbind option_bind]. rewrite Hl in Hv2.
  set (s' := take p s ++ c :: b) in *.
  assert (Hs' : Forall text_char s').
  { apply Forall_app. split; [by apply Forall_take|]. constructor; [done|].
    unfold b. by apply Forall_drop. }
  assert (Hlen : (length s <= length s' /\ S p <= length s')%nat).
  { unfold s', b. rewrite length_app. cbn [length]. rewrite length_drop, Hl. destruct ov; lia. }
  destruct (to_end e2 s' p _ Hs' Hv2) as (e3 & -> & Hv3 & Hsame3); [lia|..].
  { unfold s'. by rewrite take_app_le, take_app_le, take_take, Nat.min_id by len. }
  cbn [mbind option_bind].
  assert (He3 : editing e3 s' (length s')).
  { split; [done|]. split; [lia|]. eexists. rewrite drop_app_ge, drop_replicate in Hv3 by lia.
    exact Hv3. }
  destruct (cursor_editing (Z.of_nat p + 1) CURSOR_SET e3 _ _ (S p) He3) as (e4 & E4 & He4 & Hsame4);
    [lia|unfold target; lia|].
  unfold cursor. rewrite E4. exists e4. split; [done|].
  assert (Hall : same e e4).
  { eapply same_trans; [exact Hsame1|]. eapply same_trans; [exact Hsame2|].
    by eapply same_trans; [exact Hsame3|]. }
  split; [|apply Hall]. split; [exact He4|]. cbn. destruct Hall. congruence.
Qed.

(** ** The keys *)

Lemma GETC_editor e t c k :
  keys e = c :: k -> editor e t ->
  exists e', GETC e = Some (c, e') /\ editor e' t /\ keys e' = k.
Proof.
  intros Hk [(Hs & Hp & j & Hv) Ho]. unfold GETC. rewrite Hk. eexists. split; [reflexivity|].
  split; [|done]. split; [|done]. split; [done|]. split; [done|]. exists j.
  destruct Hv as [? ? ? ?]. by constructor.
Qed.

(** A key on the state after its bytes but the first were left to come. *)
Definition handles (c : Z) (e : ed) (t : text) (rest : list Z) : Prop :=
  exists e', key malloc h c e = Some (false, e') /\ editor e' t /\ keys e' = rest.

Lemma handles_go c f e t rest :
  key malloc h c e = (e ← f e; Some (false, e)) -> reaches f e t -> keys e = rest ->
  handles c e t rest.
Proof.
  intros E (e' & Ef & He & Hk) Hr. exists e'. rewrite E, Ef. split; [done|]. split; [done|congruence].
Qed.

(** The keys of more than one byte. *)
Lemma handles_escape e t c k t' rest :
  keys e = 91 :: c :: k -> editor e t ->
  (forall e1, editor e1 t -> keys e1 = k -> exists e',
     escape_code malloc h c e1 = Some e' /\ editor e' t' /\ keys e' = rest) ->
  handles 27 e t' rest.
Proof.
  intros Hk He H. unfold handles. change (key malloc h 27 e) with (escape malloc h e). unfold escape.
  destruct (GETC_editor e t 91 _ Hk He) as (e1 & -> & He1 & Hk1). cbn [mbind option_bind].
  change (91 =? ESC2) with true. cbv iota.
  destruct (GETC_editor e1 t c _ Hk1 He1) as (e2 & -> & He2 & Hk2). cbn [mbind option_bind].
  destruct (H e2 He2 Hk2) as (e' & -> & He' & Hk'). by exists e'.
Qed.

Lemma pad_then_editor f e t t' rest :
  keys e = 126 :: rest -> editor e t -> (forall e1, editor e1 t -> reaches f e1 t') ->
  exists e', pad_then f e = Some e' /\ editor e' t' /\ keys e' = rest.
Proof.
  intros Hk He H. unfold pad_then.
  destruct (GETC_editor e t 126 _ Hk He) as (e1 & -> & He1 & Hk1). cbn [mbind option_bind].
  change (126 =? CTRL_PAD) with true. cbv iota.
  destruct (H e1 He1) as (e' & E & He' & Hk'). exists e'. split; [done|]. split; [done|congruence].
Qed.

Lemma reaches_keys f e t rest :
  reaches f e t -> keys e = rest -> exists e', f e = Some e' /\ editor e' t /\ keys e' = rest.
Proof. intros (e' & E & He & Hk) Hr. exists e'. split; [done|]. split; [done|congruence]. Qed.

Lemma home_reaches e t : editor e t -> reaches (cursor 0 CURSOR_SET) e (edit Home t).
Proof. intros He. apply cursor_reaches; [done|lia|done]. Qed.

Lemma end_reaches e t : editor e t -> reaches (cursor 0 CURSOR_END) e (edit End_line t).
Proof.
  intros He. apply cursor_reaches; [done|lia|]. destruct He as [(_ & _ & k & Hv) _].
  unfold target. rewrite (growing_len _ _ (vw_buf _ _ _ _ Hv)). lia.
Qed.

(** The Insert key. *)
Definition toggle (e : ed) : option ed :=
  Some (mk_ed (rawbuf e) (rawpos e) (negb (overwrite e)) (ups e) (prevs e) (keys e) (printed e)).

Lemma toggle_reaches e t : editor e t -> reaches toggle e (edit Toggle t).
Proof.
  intros [(Hs & Hp & k & Hv) Ho]. eexists. split; [reflexivity|]. split; [|done]. split.
  - split; [done|]. split; [done|]. exists k. destruct Hv. by constructor.
  - cbn. by rewrite Ho.
Qed.

(** A printable character falls through to the default case. *)
Lemma key_text_char c e :
  text_char c -> key malloc h c e = (e ← type_key malloc c e; Some (false, e)).
Proof.
  unfold text_char. intros Hc. unfold key, DEL, ESC, CTRL.
  by repeat rewrite (proj2 (Z.eqb_neq c _)) by lia.
Qed.

Lemma press_handles bs o c w e t rest :
  press bs o -> bs = c :: w -> editor e t -> keys e = w ++ rest ->
  handles c e (edit o t) rest.
Proof.
  intros Hp Ebs He Hk.
  destruct Hp; injection Ebs as <- <-; cbn [app] in Hk;
    try (eapply handles_escape; [exact Hk|exact He|]; intros e1 He1 Hk1).
  - eapply handles_go; [by apply key_text_char|by apply type_reaches|done].
  - by eapply handles_go; [reflexivity|apply backspace_reaches|].
  - by eapply handles_go; [reflexivity|apply backspace_reaches|].
  - by eapply handles_go; [reflexivity|apply (move_reaches (-1)); [|left]|].
  - by eapply reaches_keys; [apply (move_reaches (-1)); [|left]|].
  - by eapply handles_go; [reflexivity|apply (move_reaches 1); [|right]|].
  - by eapply reaches_keys; [apply (move_reaches 1); [|right]|].
  - by eapply handles_go; [reflexivity|apply home_reaches|].
  - eapply pad_then_editor; [done|done|intros e2 He2; by apply home_reaches].
  - by eapply handles_go; [reflexivity|apply end_reaches|].
  - eapply pad_then_editor; [done|done|intros e2 He2; by apply end_reaches].
  - by eapply handles_go; [reflexivity|apply kill_left_reaches|].
  - by eapply handles_go; [reflexivity|apply kill_left_reaches|].
  - by apply (handles_go 11 kill_right); [|apply kill_right_reaches|].
  - eapply handles_go; [|by apply delete_reaches|done].
    change (key malloc h 4 e) with (if rawpos e <? len (rawbuf e)
      then x ← (e ← raw_arrow malloc h ARROW_RIGHT e; raw_backspace malloc e); Some (false, x)
      else Some (false, e)).
    cbv beta. by destruct (rawpos e <? len (rawbuf e)).
  - apply (pad_then_editor toggle _ t); [done|done|intros e2 He2; by apply toggle_reaches].
  - exists e. by split.
Qed.

Lemma press_cons bs o : press bs o -> exists c w, bs = c :: w.
Proof. by destruct 1; eexists _, _. Qed.

Lemma key_loop_presses kss ops : Forall2 press kss ops -> forall fuel e t rest,
  editor e t -> keys e = concat kss ++ rest ->
  exists e', key_loop malloc h (length kss + fuel) e = key_loop malloc h fuel e' /\
    editor e' (foldl (flip edit) t ops) /\ keys e' = rest.
Proof.
  induction 1 as [|bs o kss ops Hb _ IH]; intros fuel e t rest He Hk; [by exists e|].
  destruct (press_cons bs o Hb) as (c & w & ->). cbn [concat app] in Hk.
  rewrite <- app_assoc in Hk. cbn [length Nat.add key_loop].
  destruct (GETC_editor e t _ _ Hk He) as (e1 & -> & He1 & Hk1). cbn [mbind option_bind].
  destruct (press_handles _ _ c w e1 t _ Hb eq_refl He1 Hk1) as (e2 & -> & He2 & Hk2).
  cbn [mbind option_bind]. by apply IH.
Qed.

(** Every key has a byte at least: there is fuel enough. *)
Lemma presses_length kss ops : Forall2 press kss ops -> (length kss <= length (concat kss))%nat.
Proof.
  induction 1 as [|bs o kss ops Hb _ IH]; [done|]. destruct (press_cons bs o Hb) as (c & w & ->).
  cbn [concat app length]. rewrite length_app. lia.
Qed.

(** C19: the line editor: whatever keys are pressed before Enter (characters, both
    backspaces, arrows to the left and right, Home, End, Insert and the control keys that
    do the same or delete a part of the line), the line returned is the text they make, the
    screen shows it with only blanks behind, the cursor where it is in the text, and the
    keys behind Enter are left. *)
Theorem raw_read_edits kss ops ovr rest :
  Forall2 press kss ops ->
  let t := foldl (flip edit) (mk_text [] 0 ovr) ops in
  exists line e out k, raw_read malloc h (concat kss ++ 13 :: rest) ovr = Some (line, e) /\
    cstr line = chars_of t /\ keys e = rest /\ overwrite e = replacing t /\
    printed e = out ++ [10; 13] /\ term_of out = (chars_of t ++ replicate k 32, cursor_at t).
Proof.
  intros Hp t. unfold raw_read. cbn [strbuf_init mbind option_bind].
  set (ks := concat kss ++ 13 :: rest).
  change (strbuf_init malloc None STRBUF_GROW) with (Some (0, mk_strbuf 0 STRBUF_GROW None)).
  cbn [mbind option_bind]. set (e0 := mk_ed _ _ _ _ _ _ _).
  assert (He0 : editor e0 (mk_text [] 0 ovr)).
  { split; [|done]. split; [by constructor|]. split; [done|]. exists 0%nat.
    constructor; [|done..]. split; [|done]. split; [by constructor|]. by split. }
  pose proof (presses_length _ _ Hp) as Hlen.
  replace (length ks) with (length kss + S (length ks - length kss - 1))%nat
    by (unfold ks; rewrite length_app; simpl; lia).
  destruct (key_loop_presses kss ops Hp (S (length ks - length kss - 1)) e0 _ (13 :: rest) He0 eq_refl)
    as (e1 & -> & He1 & Hk1). fold t in He1. cbn [key_loop].
  destruct (GETC_editor e1 t _ _ Hk1 He1) as (e2 & -> & [(Hs & Hpos & k & Hv) Ho] & Hk2).
  cbn [mbind option_bind]. change (key malloc h 13 e2) with (Some (true, e2)).
  cbn [mbind option_bind]. change (rawbuf (raw_putc 10 e2)) with (rawbuf e2).
  pose proof (vw_buf _ _ _ _ Hv) as [(_ & _ & Hb) _]. destruct (buf (rawbuf e2)) as [m|].
  - destruct Hb as (r & -> & _). cbn [mbind option_bind]. eexists _, _, (printed e2), k.
    split; [reflexivity|]. split; [by apply cstr_app0, text_char_nonzero|].
    split; [done|]. split; [done|]. split; [done|]. apply Hv.
  - destruct Hb as [Hb _]. destruct (malloc_total 1 ltac:(lia)) as [g ->]. cbn [mbind option_bind].
    eexists _, _, (printed e2), k. split; [reflexivity|]. split; [by rewrite Hb|].
    split; [done|]. split; [done|]. split; [done|]. apply Hv.
Qed.
End Editor.

(** ** A concrete session *)

(** "bot", left, "o", Home, Insert, "B", End, "x", backspace. *)
Definition sample_keys : list (list Z) :=
  [[98]; [111]; [116]; [27; 91; 68]; [111]; [1]; [27; 91; 50; 126]; [66]; [5]; [120]; [127]].

Definition sample_ops : list op :=
  [Ins 98; Ins 111; Ins 116; Left; Ins 111; Home; Toggle; Ins 66; End_line; Ins 120; Backspace].

Lemma raw_read_edits_witness :
  foldl (flip edit) (mk_text [] 0 false) sample_ops = mk_text (chars "Boot") 4 true /\
  exists line e out k, raw_read endless readline_init (concat sample_keys ++ [13]) false = Some (line, e) /\
    cstr line = chars "Boot" /\ keys e = [] /\ overwrite e = true /\
    printed e = out ++ [10; 13] /\ term_of out = (chars "Boot" ++ replicate k 32, 4%nat).
Proof.
  split; [reflexivity|].
  apply (raw_read_edits endless endless_length endless_total readline_init sample_keys sample_ops false []).
  repeat (constructor; [by repeat constructor|]). constructor.
Defined.
