(* ===== verification/Bootdevs.v ===== *)
(** * Bootdevs: the devices the ROM boots from

    Model of [x86/common/bootdevs.c]: the table, without the entry that ends it, and
    the two searches.  A name is the list of its characters; a search gives the entry
    itself. *)

From stdpp Require Import strings.
From S2P Require Import Prelude CString.
Open Scope list_scope.
Open Scope Z_scope.

Record boot_dev_t := mk_boot_dev_t { dev_name : list Z; maj : Z; min : Z }.

Definition boot_devs : list boot_dev_t :=
  [mk_boot_dev_t (chars "hda1") 3 1; mk_boot_dev_t (chars "hda2") 3 2;
   mk_boot_dev_t (chars "hda3") 3 3; mk_boot_dev_t (chars "hda4") 3 4;
   mk_boot_dev_t (chars "hda5") 3 5; mk_boot_dev_t (chars "hda6") 3 6;
   mk_boot_dev_t (chars "hda7") 3 7; mk_boot_dev_t (chars "hda8") 3 8;
   mk_boot_dev_t (chars "hdb1") 3 65; mk_boot_dev_t (chars "hdb2") 3 66;
   mk_boot_dev_t (chars "hdb3") 3 67; mk_boot_dev_t (chars "hdb4") 3 68;
   mk_boot_dev_t (chars "hdb5") 3 69; mk_boot_dev_t (chars "hdb6") 3 70;
   mk_boot_dev_t (chars "hdb7") 3 71; mk_boot_dev_t (chars "hdb8") 3 72;
   mk_boot_dev_t (chars "hdc1") 22 1; mk_boot_dev_t (chars "hdc2") 22 2;
   mk_boot_dev_t (chars "hdc3") 22 3; mk_boot_dev_t (chars "hdc4") 22 4;
   mk_boot_dev_t (chars "hdc5") 22 5; mk_boot_dev_t (chars "hdc6") 22 6;
   mk_boot_dev_t (chars "hdc7") 22 7; mk_boot_dev_t (chars "hdc8") 22 8;
   mk_boot_dev_t (chars "hdd1") 22 65; mk_boot_dev_t (chars "hdd2") 22 66;
   mk_boot_dev_t (chars "hdd3") 22 67; mk_boot_dev_t (chars "hdd4") 22 68;
   mk_boot_dev_t (chars "hdd5") 22 69; mk_boot_dev_t (chars "hdd6") 22 70;
   mk_boot_dev_t (chars "hdd7") 22 71; mk_boot_dev_t (chars "hdd8") 22 72;
   mk_boot_dev_t (chars "hde1") 33 1; mk_boot_dev_t (chars "hde2") 33 2;
   mk_boot_dev_t (chars "hde3") 33 3; mk_boot_dev_t (chars "hde4") 33 4;
   mk_boot_dev_t (chars "hde5") 33 5; mk_boot_dev_t (chars "hde6") 33 6;
   mk_boot_dev_t (chars "hde7") 33 7; mk_boot_dev_t (chars "hde8") 33 8;
   mk_boot_dev_t (chars "hdf1") 33 65; mk_boot_dev_t (chars "hdf2") 33 66;
   mk_boot_dev_t (chars "hdf3") 33 67; mk_boot_dev_t (chars "hdf4") 33 68;
   mk_boot_dev_t (chars "hdf5") 33 69; mk_boot_dev_t (chars "hdf6") 33 70;
   mk_boot_dev_t (chars "hdf7") 33 71; mk_boot_dev_t (chars "hdf8") 33 72;
   mk_boot_dev_t (chars "hdg1") 34 1; mk_boot_dev_t (chars "hdg2") 34 2;
   mk_boot_dev_t (chars "hdg3") 34 3; mk_boot_dev_t (chars "hdg4") 34 4;
   mk_boot_dev_t (chars "hdg5") 34 5; mk_boot_dev_t (chars "hdg6") 34 6;
   mk_boot_dev_t (chars "hdg7") 34 7; mk_boot_dev_t (chars "hdg8") 34 8;
   mk_boot_dev_t (chars "hdh1") 34 65; mk_boot_dev_t (chars "hdh2") 34 66;
   mk_boot_dev_t (chars "hdh3") 34 67; mk_boot_dev_t (chars "hdh4") 34 68;
   mk_boot_dev_t (chars "hdh5") 34 69; mk_boot_dev_t (chars "hdh6") 34 70;
   mk_boot_dev_t (chars "hdh7") 34 71; mk_boot_dev_t (chars "hdh8") 34 72;
   mk_boot_dev_t (chars "hdi1") 56 1; mk_boot_dev_t (chars "hdi2") 56 2;
   mk_boot_dev_t (chars "hdi3") 56 3; mk_boot_dev_t (chars "hdi4") 56 4;
   mk_boot_dev_t (chars "hdi5") 56 5; mk_boot_dev_t (chars "hdi6") 56 6;
   mk_boot_dev_t (chars "hdi7") 56 7; mk_boot_dev_t (chars "hdi8") 56 8;
   mk_boot_dev_t (chars "hdj1") 56 65; mk_boot_dev_t (chars "hdj2") 56 66;
   mk_boot_dev_t (chars "hdj3") 56 67; mk_boot_dev_t (chars "hdj4") 56 68;
   mk_boot_dev_t (chars "hdj5") 56 69; mk_boot_dev_t (chars "hdj6") 56 70;
   mk_boot_dev_t (chars "hdj7") 56 71; mk_boot_dev_t (chars "hdj8") 56 72;
   mk_boot_dev_t (chars "hdk1") 57 1; mk_boot_dev_t (chars "hdk2") 57 2;
   mk_boot_dev_t (chars "hdk3") 57 3; mk_boot_dev_t (chars "hdk4") 57 4;
   mk_boot_dev_t (chars "hdk5") 57 5; mk_boot_dev_t (chars "hdk6") 57 6;
   mk_boot_dev_t (chars "hdk7") 57 7; mk_boot_dev_t (chars "hdk8") 57 8;
   mk_boot_dev_t (chars "hdl1") 57 65; mk_boot_dev_t (chars "hdl2") 57 66;
   mk_boot_dev_t (chars "hdl3") 57 67; mk_boot_dev_t (chars "hdl4") 57 68;
   mk_boot_dev_t (chars "hdl5") 57 69; mk_boot_dev_t (chars "hdl6") 57 70;
   mk_boot_dev_t (chars "hdl7") 57 71; mk_boot_dev_t (chars "hdl8") 57 72;
   mk_boot_dev_t (chars "sda1") 8 1; mk_boot_dev_t (chars "sda2") 8 2;
   mk_boot_dev_t (chars "sda3") 8 3; mk_boot_dev_t (chars "sda4") 8 4;
   mk_boot_dev_t (chars "sda5") 8 5; mk_boot_dev_t (chars "sda6") 8 6;
   mk_boot_dev_t (chars "sda7") 8 7; mk_boot_dev_t (chars "sda8") 8 8;
   mk_boot_dev_t (chars "sda9") 8 9; mk_boot_dev_t (chars "sda10") 8 10;
   mk_boot_dev_t (chars "sda11") 8 11; mk_boot_dev_t (chars "sda12") 8 12;
   mk_boot_dev_t (chars "sda13") 8 13; mk_boot_dev_t (chars "sda14") 8 14;
   mk_boot_dev_t (chars "sda15") 8 15; mk_boot_dev_t (chars "sda16") 8 16;
   mk_boot_dev_t (chars "sdb1") 8 17; mk_boot_dev_t (chars "sdb2") 8 18;
   mk_boot_dev_t (chars "sdb3") 8 19; mk_boot_dev_t (chars "sdb4") 8 20;
   mk_boot_dev_t (chars "sdb5") 8 21; mk_boot_dev_t (chars "sdb6") 8 22;
   mk_boot_dev_t (chars "sdb7") 8 23; mk_boot_dev_t (chars "sdb8") 8 24;
   mk_boot_dev_t (chars "sdb9") 8 25; mk_boot_dev_t (chars "sdb10") 8 26;
   mk_boot_dev_t (chars "sdb11") 8 27; mk_boot_dev_t (chars "sdb12") 8 28;
   mk_boot_dev_t (chars "sdb13") 8 29; mk_boot_dev_t (chars "sdb14") 8 30;
   mk_boot_dev_t (chars "sdb15") 8 31; mk_boot_dev_t (chars "sdb16") 8 32;
   mk_boot_dev_t (chars "sdc1") 8 33; mk_boot_dev_t (chars "sdc2") 8 34;
   mk_boot_dev_t (chars "sdc3") 8 35; mk_boot_dev_t (chars "sdc4") 8 36;
   mk_boot_dev_t (chars "sdc5") 8 37; mk_boot_dev_t (chars "sdc6") 8 38;
   mk_boot_dev_t (chars "sdc7") 8 39; mk_boot_dev_t (chars "sdc8") 8 40;
   mk_boot_dev_t (chars "sdc9") 8 41; mk_boot_dev_t (chars "sdc10") 8 42;
   mk_boot_dev_t (chars "sdc11") 8 43; mk_boot_dev_t (chars "sdc12") 8 44;
   mk_boot_dev_t (chars "sdc13") 8 45; mk_boot_dev_t (chars "sdc14") 8 46;
   mk_boot_dev_t (chars "sdc15") 8 47; mk_boot_dev_t (chars "sdc16") 8 48;
   mk_boot_dev_t (chars "sdd1") 8 49; mk_boot_dev_t (chars "sdd2") 8 50;
   mk_boot_dev_t (chars "sdd3") 8 51; mk_boot_dev_t (chars "sdd4") 8 52;
   mk_boot_dev_t (chars "sdd5") 8 53; mk_boot_dev_t (chars "sdd6") 8 54;
   mk_boot_dev_t (chars "sdd7") 8 55; mk_boot_dev_t (chars "sdd8") 8 56;
   mk_boot_dev_t (chars "sdd9") 8 57; mk_boot_dev_t (chars "sdd10") 8 58;
   mk_boot_dev_t (chars "sdd11") 8 59; mk_boot_dev_t (chars "sdd12") 8 60;
   mk_boot_dev_t (chars "sdd13") 8 61; mk_boot_dev_t (chars "sdd14") 8 62;
   mk_boot_dev_t (chars "sdd15") 8 63; mk_boot_dev_t (chars "sdd16") 8 64;
   mk_boot_dev_t (chars "sde1") 8 65; mk_boot_dev_t (chars "sde2") 8 66;
   mk_boot_dev_t (chars "sde3") 8 67; mk_boot_dev_t (chars "sde4") 8 68;
   mk_boot_dev_t (chars "sde5") 8 69; mk_boot_dev_t (chars "sde6") 8 70;
   mk_boot_dev_t (chars "sde7") 8 71; mk_boot_dev_t (chars "sde8") 8 72;
   mk_boot_dev_t (chars "sde9") 8 73; mk_boot_dev_t (chars "sde10") 8 74;
   mk_boot_dev_t (chars "sde11") 8 75; mk_boot_dev_t (chars "sde12") 8 76;
   mk_boot_dev_t (chars "sde13") 8 77; mk_boot_dev_t (chars "sde14") 8 78;
   mk_boot_dev_t (chars "sde15") 8 79; mk_boot_dev_t (chars "sde16") 8 80;
   mk_boot_dev_t (chars "sdf1") 8 81; mk_boot_dev_t (chars "sdf2") 8 82;
   mk_boot_dev_t (chars "sdf3") 8 83; mk_boot_dev_t (chars "sdf4") 8 84;
   mk_boot_dev_t (chars "sdf5") 8 85; mk_boot_dev_t (chars "sdf6") 8 86;
   mk_boot_dev_t (chars "sdf7") 8 87; mk_boot_dev_t (chars "sdf8") 8 88;
   mk_boot_dev_t (chars "sdf9") 8 89; mk_boot_dev_t (chars "sdf10") 8 90;
   mk_boot_dev_t (chars "sdf11") 8 91; mk_boot_dev_t (chars "sdf12") 8 92;
   mk_boot_dev_t (chars "sdf13") 8 93; mk_boot_dev_t (chars "sdf14") 8 94;
   mk_boot_dev_t (chars "sdf15") 8 95; mk_boot_dev_t (chars "sdf16") 8 96;
   mk_boot_dev_t (chars "sdg1") 8 97; mk_boot_dev_t (chars "sdg2") 8 98;
   mk_boot_dev_t (chars "sdg3") 8 99; mk_boot_dev_t (chars "sdg4") 8 100;
   mk_boot_dev_t (chars "sdg5") 8 101; mk_boot_dev_t (chars "sdg6") 8 102;
   mk_boot_dev_t (chars "sdg7") 8 103; mk_boot_dev_t (chars "sdg8") 8 104;
   mk_boot_dev_t (chars "sdg9") 8 105; mk_boot_dev_t (chars "sdg10") 8 106;
   mk_boot_dev_t (chars "sdg11") 8 107; mk_boot_dev_t (chars "sdg12") 8 108;
   mk_boot_dev_t (chars "sdg13") 8 109; mk_boot_dev_t (chars "sdg14") 8 110;
   mk_boot_dev_t (chars "sdg15") 8 111; mk_boot_dev_t (chars "sdg16") 8 112;
   mk_boot_dev_t (chars "scd0") 11 0; mk_boot_dev_t (chars "scd1") 11 1;
   mk_boot_dev_t (chars "md0") 9 0; mk_boot_dev_t (chars "md1") 9 1;
   mk_boot_dev_t (chars "md2") 9 2; mk_boot_dev_t (chars "md3") 9 3;
   mk_boot_dev_t (chars "md4") 9 4; mk_boot_dev_t (chars "md5") 9 5].

(** [while (boot_devs[i].name)]: the first entry that [f] accepts. *)
Definition find_dev (f : boot_dev_t -> bool) : option boot_dev_t := List.find f boot_devs.

(** [!strcmp(name, boot_devs[i].name)], for a string in memory. *)
Definition find_dev_by_name (name : list Z) : option boot_dev_t :=
  find_dev (fun d => str_eqb (cstr name) (dev_name d)).

Definition find_dev_by_num (dev : Z) : option boot_dev_t :=
  let ma := Z.land (Z.shiftr dev 8) 255 in
  let mi := Z.land dev 255 in
  find_dev (fun d => (maj d =? ma) && (min d =? mi)).

(** * the table is a bijection

    Names and numbers both identify an entry of [boot_devs], so the two searches are
    inverse to each other. *)

(** The number of an entry as the kernel writes it. *)
Definition dev_number (d : boot_dev_t) : Z := 256 * maj d + min d.

(** Names are strings and the numbers are bytes. *)
Definition entry_ok (d : boot_dev_t) : bool :=
  forallb (fun c => negb (c =? 0)) (dev_name d) && (0 <=? maj d) && (maj d <? 256) &&
  (0 <=? min d) && (min d <? 256).

Lemma boot_devs_ok : forallb entry_ok boot_devs = true.
Proof. by vm_compute. Qed.

Lemma boot_devs_names : NoDup (map dev_name boot_devs).
Proof. apply (bool_decide_unpack _). by vm_compute. Qed.

Lemma boot_devs_numbers : NoDup (map dev_number boot_devs).
Proof. apply (bool_decide_unpack _). by vm_compute. Qed.

Lemma entry_ok_spec d : d ∈ boot_devs ->
  nonzero (dev_name d) /\ 0 <= maj d < 256 /\ 0 <= min d < 256.
Proof.
  intros Hd. pose proof boot_devs_ok as H. rewrite forallb_forall in H.
  specialize (H d (proj1 (list_elem_of_In _ _) Hd)). unfold entry_ok in H.
  repeat (apply andb_prop in H as [H ?]). split; [|lia].
  apply Forall_forall. intros c Hc. rewrite forallb_forall in H.
  specialize (H c (proj1 (list_elem_of_In _ _) Hc)). by destruct (Z.eqb_spec c 0).
Qed.

(** A key without duplicates finds its entry. *)
Lemma find_key {A K} (key : A -> K) (f : A -> bool) (l : list A) d :
  NoDup (map key l) -> (forall x, x ∈ l -> f x = true <-> key x = key d) ->
  d ∈ l -> List.find f l = Some d.
Proof.
  induction l as [|x l IH]; intros Hnd Hf Hd; [by apply elem_of_nil in Hd|]. cbn [map] in Hnd.
  apply NoDup_cons in Hnd as [Hx Hnd]. cbn [List.find]. apply elem_of_cons in Hd as [<-|Hd].
  - by rewrite (proj2 (Hf d ltac:(by left))).
  - destruct (f x) eqn:E.
    + apply Hf in E; [|by left]. destruct Hx. rewrite E. by apply (list_elem_of_fmap_2 key).
    + apply IH; [done| |done]. intros y Hy. apply Hf. by right.
Qed.

Lemma byte_split d : d ∈ boot_devs ->
  Z.land (Z.shiftr (dev_number d) 8) 255 = maj d /\ Z.land (dev_number d) 255 = min d.
Proof.
  intros Hd. destruct (entry_ok_spec d Hd) as (_ & Ha & Hi). unfold dev_number.
  change 255 with (Z.ones 8). rewrite !Z.land_ones, Z.shiftr_div_pow2 by lia.
  change (2 ^ 8) with 256. split; dlia.
Qed.

(** The two searches of the boot device table are inverse to each other: every entry is
    found by its name, whatever follows the name in memory, and by its number; and what is
    found is an entry with that name or that number. *)
Theorem boot_devs_lookup d rest :
  (d ∈ boot_devs <-> find_dev_by_name (dev_name d ++ 0 :: rest) = Some d) /\
  (d ∈ boot_devs <-> find_dev_by_num (dev_number d) = Some d) /\
  (forall name d', find_dev_by_name name = Some d' -> d' ∈ boot_devs /\ dev_name d' = cstr name) /\
  (forall dev d', 0 <= dev < 65536 -> find_dev_by_num dev = Some d' ->
     d' ∈ boot_devs /\ dev_number d' = dev).
Proof.
  assert (Hname : forall n d', find_dev_by_name n = Some d' -> d' ∈ boot_devs /\ dev_name d' = cstr n).
  { intros n d' H. apply List.find_some in H as [Hin E]. apply str_eqb_eq in E.
    split; [by apply list_elem_of_In|done]. }
  split_and!.
  - split; [|by intros [? _]%Hname]. intros Hd. destruct (entry_ok_spec d Hd) as (Hnz & _).
    apply (find_key dev_name); [exact boot_devs_names| |done].
    intros x _. rewrite str_eqb_eq, cstr_app0 by done. done.
  - split; [|by intros [? _]%List.find_some; apply list_elem_of_In]. intros Hd.
    apply (find_key dev_number); [exact boot_devs_numbers| |done].
    intros x Hx. destruct (byte_split d Hd) as [-> ->].
    destruct (entry_ok_spec x Hx) as (_ & Hxa & Hxi). destruct (entry_ok_spec d Hd) as (_ & Ha & Hi).
    unfold dev_number. rewrite andb_true_iff, !Z.eqb_eq. lia.
  - exact Hname.
  - intros dev d' Hdev H. apply List.find_some in H as [Hin E].
    apply andb_true_iff in E as [Ea Ei]. apply Z.eqb_eq in Ea, Ei.
    split; [by apply list_elem_of_In|]. unfold dev_number. rewrite Ea, Ei.
    change 255 with (Z.ones 8). rewrite !Z.land_ones, Z.shiftr_div_pow2 by lia.
    change (2 ^ 8) with 256. dlia.
Qed.
