(* ===== verification/Elf.v ===== *)
(** * Elf: loading an executable

    Model of [x86/common/elf.c].  Memory is a function from 32-bit addresses to bytes,
    and addresses wrap.  The structures of [linux/elf.h] are not in the repository:
    where their fields are is an argument ([elf_layout]). *)

From S2P Require Import Prelude.

Definition memory : Type := Z -> Z.

Definition upd (m : memory) (a v : Z) : memory := fun x => if x =? a then v else m x.

(** [memcpy] ([rep movsb]): upwards, a byte at a time. *)
Fixpoint copy_up (m : memory) (dst src : Z) (n : nat) : memory :=
  match n with
  | O => m
  | S n => copy_up (upd m dst (m src)) (u32 (dst + 1)) (u32 (src + 1)) n
  end.

Definition get (m : memory) (a : Z) (n : nat) : list Z :=
  map (fun i => m (u32 (a + Z.of_nat i))) (seq 0 n).

Definition read16 (m : memory) (a : Z) : Z := le_val (get m a 2).
Definition read32 (m : memory) (a : Z) : Z := le_val (get m a 4).

(** The offsets of the fields that the code reads, in [Elf32_Ehdr] and [Elf32_Phdr]. *)
Record elf_layout := mk_elf_layout {
  e_ident : Z; e_type : Z; e_machine : Z; e_entry : Z; e_phoff : Z; e_phentsize : Z; e_phnum : Z;
  p_offset : Z; p_vaddr : Z; p_filesz : Z; p_memsz : Z;
  EI_MAG0 : Z; EI_MAG1 : Z; EI_MAG2 : Z; EI_MAG3 : Z; EI_CLASS : Z; EI_DATA : Z;
}.

Definition MY_ELF_CLASS : Z := 1.
Definition MY_ELF_ENDIAN : Z := 1.
Definition MY_ELF_MACHINE : Z := 3.

Section Elf.
Variable L : elf_layout.

Definition ident (m : memory) (obj i : Z) : Z := m (u32 (obj + e_ident L + i)).

Definition elf_valid (m : memory) (elf_obj : Z) : Z :=
  if negb (ident m elf_obj (EI_MAG0 L) =? 127) || negb (ident m elf_obj (EI_MAG1 L) =? 69) ||
     negb (ident m elf_obj (EI_MAG2 L) =? 76) || negb (ident m elf_obj (EI_MAG3 L) =? 70) then 0
  else if negb (ident m elf_obj (EI_CLASS L) =? MY_ELF_CLASS) then 0
  else if negb (ident m elf_obj (EI_DATA L) =? MY_ELF_ENDIAN) then 0
  else if negb (read16 m (elf_obj + e_type L) =? 2) then 0
  else if negb (read16 m (elf_obj + e_machine L) =? MY_ELF_MACHINE) then 0
  else 1.

(** The program header [i]. *)
Definition phdr (m : memory) (from ph_loc i : Z) : Z :=
  u32 (ph_loc + i * read16 m (from + e_phentsize L)).

(** One time round the loop: -1, or the memory with the segment in its place. *)
Definition load_segment (m : memory) (from to max_size ph : Z) : option memory :=
  if read32 m (ph + p_vaddr L) <? u32 to then None
  else if u32 (to + max_size) <? u32 (read32 m (ph + p_vaddr L) + read32 m (ph + p_memsz L)) then None
  else Some (copy_up m (read32 m (ph + p_vaddr L)) (u32 (from + read32 m (ph + p_offset L)))
               (Z.to_nat (read32 m (ph + p_filesz L)))).

(** The count is read again each time. *)
Fixpoint relocate_loop (fuel : nat) (m : memory) (from to max_size ph_loc i : Z) : option (Z * memory) :=
  if i <? read16 m (from + e_phnum L) then
    match fuel with
    | O => None
    | S fuel =>
      match load_segment m from to max_size (phdr m from ph_loc i) with
      | None => Some (-1, m)
      | Some m => relocate_loop fuel m from to max_size ph_loc (i + 1)
      end
    end
  else Some (0, m).

(** A count is below 65536. *)
Definition elf_relocate (m : memory) (from to max_size : Z) : option (Z * memory) :=
  if elf_valid m from =? 0 then Some (-1, m)
  else relocate_loop (Z.to_nat 65536) m from to max_size (u32 (from + read32 m (from + e_phoff L))) 0.

Definition elf_entry (m : memory) (elf_obj : Z) : Z :=
  if elf_valid m elf_obj =? 0 then 0 else read32 m (elf_obj + e_entry L).
End Elf.

(** * what [elf_relocate] leaves in memory

    [loaded m segs]: the memory [m] with the segments [segs] copied to their places.
    The theorem needs the image and the window it is loaded to apart, and sizes the
    bound check is right for; [elf_relocate_overruns] shows what it misses. *)

(** ** Copying *)

Definition word (a : Z) : Prop := 0 <= a < 4294967296.

Lemma upd_eq m a v : upd m a v a = v.
Proof. unfold upd. by rewrite Z.eqb_refl. Qed.

Lemma upd_ne m a v x : x <> a -> upd m a v x = m x.
Proof. intros H. unfold upd. by rewrite (proj2 (Z.eqb_neq x a) H). Qed.

Lemma u32_succ a j : u32 (u32 (a + 1) + j) = u32 (a + (1 + j)).
Proof. unfold u32. rewrite Z.add_mod_idemp_l by lia. f_equal. lia. Qed.

Lemma in_range a b c : a <= b < c -> (a <=? b) && (b <? c) = true.
Proof. intros H. by rewrite (proj2 (Z.leb_le _ _)), (proj2 (Z.ltb_lt _ _)) by lia. Qed.

Lemma not_in_range a b c : ~ (a <= b < c) -> (a <=? b) && (b <? c) = false.
Proof. intros H. destruct (Z.leb_spec a b), (Z.ltb_spec b c); [lia|done..]. Qed.

(** A source outside of the destination is copied as it was. *)
Lemma memcpy_apart n : forall m dst src a,
  0 <= dst -> dst + Z.of_nat n <= 4294967296 ->
  (forall j, 0 <= j < Z.of_nat n -> ~ (dst <= u32 (src + j) < dst + Z.of_nat n)) -> word src ->
  copy_up m dst src n a =
    if (dst <=? a) && (a <? dst + Z.of_nat n) then m (u32 (src + (a - dst))) else m a.
Proof.
  induction n as [|n IH]; intros m dst src a Hd Hn Hs Hsrc.
  - cbn [copy_up]. by rewrite not_in_range by lia.
  - cbn [copy_up]. destruct (decide (n = 0%nat)) as [->|Hn0].
    + cbn [copy_up]. destruct (Z.eq_dec a dst) as [->|Hne].
      * rewrite upd_eq, in_range, Z.sub_diag, Z.add_0_r by lia.
        by rewrite u32_small.
      * rewrite upd_ne by done.
        by rewrite not_in_range by lia.
    + rewrite (u32_small (dst + 1)) by lia.
      rewrite IH; [|lia|lia| |apply u32_range].
      2: { intros j Hj. rewrite u32_succ. specialize (Hs (1 + j) ltac:(lia)). lia. }
      destruct (Z.eq_dec a dst) as [->|Hne].
      * rewrite not_in_range by lia. rewrite upd_eq, in_range, Z.sub_diag, Z.add_0_r by lia.
        by rewrite u32_small.
      * destruct (decide (dst <= a < dst + Z.of_nat (S n))) as [Hin|Hout].
        { rewrite !in_range by lia. rewrite u32_succ.
          replace (src + (1 + (a - (dst + 1)))) with (src + (a - dst)) by lia.
          apply upd_ne. specialize (Hs (a - dst) ltac:(lia)). lia. }
        { rewrite !not_in_range by lia. by apply upd_ne. }
Qed.

(** ** Segments *)

Record seg := mk_seg { s_vaddr : Z; s_memsz : Z; s_filesz : Z; s_src : Z }.

(** The byte at [a] after a segment was copied from [m]. *)
Definition place (m : memory) (s : seg) (v : memory) : memory :=
  fun a => if (s_vaddr s <=? a) && (a <? s_vaddr s + s_filesz s)
           then m (u32 (s_src s + (a - s_vaddr s))) else v a.

Definition loaded (m : memory) (segs : list seg) : memory := foldl (fun v s => place m s v) m segs.

Section Load.
Variables (L : elf_layout) (m : memory) (from to max_size : Z).

(** The segment a program header describes, and those of an image. *)
Definition seg_of (mem : memory) (ph : Z) : seg :=
  mk_seg (read32 mem (ph + p_vaddr L)) (read32 mem (ph + p_memsz L))
    (read32 mem (ph + p_filesz L)) (u32 (from + read32 mem (ph + p_offset L))).

Definition ph_loc : Z := u32 (from + read32 m (from + e_phoff L)).
Definition phnum : Z := read16 m (from + e_phnum L).
Definition segment (i : Z) : seg := seg_of m (phdr L m from ph_loc i).
Definition segments : list seg := map segment (seqZ 0 phnum).

(** The check of the code. *)
Definition within (s : seg) : bool :=
  (to <=? s_vaddr s) && (u32 (s_vaddr s + s_memsz s) <=? to + max_size).

(** The segments before the first that fails it. *)
Fixpoint accepted (segs : list seg) : list seg :=
  match segs with
  | [] => []
  | s :: segs => if within s then s :: accepted segs else []
  end.

Definition in_target (a : Z) : Prop := to <= a < to + max_size.

(** [n] bytes from [a] on are not in the target. *)
Definition apart (a n : Z) : Prop := forall j, 0 <= j < n -> ~ in_target (u32 (a + j)).

Definition seg_ok (s : seg) : Prop :=
  s_filesz s <= s_memsz s /\ s_vaddr s + s_memsz s < 4294967296 /\ apart (s_src s) (s_filesz s).

(** The image: bytes, and what the loop reads of it is not in the target. *)
Record image_apart : Prop := {
  ia_bytes : forall a, 0 <= m a < 256;
  ia_to : 0 <= to;
  ia_size : 0 <= max_size;
  ia_end : to + max_size < 4294967296;
  ia_phnum : apart (from + e_phnum L) 2;
  ia_phentsize : apart (from + e_phentsize L) 2;
  ia_phdr : forall i, 0 <= i < phnum ->
    apart (phdr L m from ph_loc i + p_vaddr L) 4 /\ apart (phdr L m from ph_loc i + p_memsz L) 4 /\
    apart (phdr L m from ph_loc i + p_filesz L) 4 /\ apart (phdr L m from ph_loc i + p_offset L) 4;
  ia_segs : forall i, 0 <= i < phnum -> seg_ok (segment i);
}.

Hypothesis Hia : image_apart.

(** Only the target has changed. *)
Definition agrees (m' : memory) : Prop := forall a, ~ in_target a -> m' a = m a.

Lemma get_agrees m' a (n : nat) : agrees m' -> apart a (Z.of_nat n) -> get m' a n = get m a n.
Proof.
  intros Hm Ha. unfold get. apply map_ext_in. intros i Hi%in_seq. apply Hm, Ha. lia.
Qed.

Lemma read32_agrees m' a : agrees m' -> apart a 4 -> read32 m' a = read32 m a.
Proof. intros Hm Ha. unfold read32. by rewrite (get_agrees m'). Qed.

Lemma read16_agrees m' a : agrees m' -> apart a 2 -> read16 m' a = read16 m a.
Proof. intros Hm Ha. unfold read16. by rewrite (get_agrees m'). Qed.

Lemma get_length mem a n : length (get mem a n) = n.
Proof. unfold get. by rewrite length_map, length_seq. Qed.

Lemma get_bytes a n : bytes_ok (get m a n).
Proof.
  unfold get. apply Forall_forall. intros x Hx. apply list_elem_of_fmap in Hx as (i & -> & _).
  apply (ia_bytes Hia).
Qed.

Lemma read32_word a : word (read32 m a).
Proof.
  unfold read32. pose proof (le_val_range _ (get_bytes a 4)) as H. rewrite get_length in H. exact H.
Qed.

Lemma phnum_range : 0 <= phnum < 65536.
Proof.
  unfold phnum, read16. pose proof (le_val_range _ (get_bytes (from + e_phnum L) 2)) as H.
  rewrite get_length in H. exact H.
Qed.

(** A turn of the loop on a memory that differs in the target only. *)
Lemma load_segment_agrees m' i :
  agrees m' -> 0 <= i < phnum ->
  let s := segment i in
  match load_segment L m' from to max_size (phdr L m' from ph_loc i) with
  | None => within s = false
  | Some m2 => within s = true /\ agrees m2 /\ forall a, m2 a = place m s m' a
  end.
Proof.
  intros Hm Hi s. destruct (ia_phdr Hia i Hi) as (Av & Am & Af & Ao).
  assert (Hph : phdr L m' from ph_loc i = phdr L m from ph_loc i).
  { unfold phdr. by rewrite (read16_agrees m') by (done || apply Hia). }
  rewrite Hph. set (ph := phdr L m from ph_loc i) in *. unfold load_segment.
  rewrite !(read32_agrees m') by done.
  destruct (ia_segs Hia i Hi) as (Hfs & Hnw & Hsrc).
  change (segment i) with s in Hfs, Hnw, Hsrc.
  change (read32 m (ph + p_vaddr L)) with (s_vaddr s).
  change (read32 m (ph + p_memsz L)) with (s_memsz s).
  change (read32 m (ph + p_filesz L)) with (s_filesz s).
  change (u32 (from + read32 m (ph + p_offset L))) with (s_src s).
  assert (Hv : word (s_vaddr s)) by apply read32_word.
  assert (Hf : word (s_filesz s)) by apply read32_word.
  assert (Hms : word (s_memsz s)) by apply read32_word.
  assert (Hsw : word (s_src s)) by apply u32_range.
  pose proof (ia_to Hia). pose proof (ia_size Hia). pose proof (ia_end Hia).
  unfold word in *. rewrite (u32_small to), (u32_small (to + max_size)) by lia.
  unfold within. rewrite (u32_small (s_vaddr s + s_memsz s)) by lia.
  destruct (Z.ltb_spec (s_vaddr s) to); [lia|].
  destruct (Z.ltb_spec (to + max_size) (s_vaddr s + s_memsz s)); [lia|].
  split; [lia|].
  assert (Hcp : forall a, copy_up m' (s_vaddr s) (s_src s) (Z.to_nat (s_filesz s)) a = place m s m' a).
  { intros a. rewrite memcpy_apart; [|lia|lia| |done].
    - rewrite Z2Nat.id by lia. unfold place.
      destruct ((s_vaddr s <=? a) && (a <? s_vaddr s + s_filesz s)) eqn:E; [|done].
      apply Hm, Hsrc. lia.
    - intros j Hj. rewrite Z2Nat.id in * by lia. specialize (Hsrc j Hj). unfold in_target in Hsrc. lia. }
  split; [|exact Hcp]. intros a Ha. rewrite Hcp. unfold place. unfold in_target in Ha.
  rewrite not_in_range by lia. by apply Hm.
Qed.

Lemma place_ext s v v' : (forall a, v a = v' a) -> forall a, place m s v a = place m s v' a.
Proof. intros H a. unfold place. by rewrite H. Qed.

Lemma foldl_place_ext segs : forall v v', (forall a, v a = v' a) ->
  forall a, foldl (fun v s => place m s v) v segs a = foldl (fun v s => place m s v) v' segs a.
Proof.
  induction segs as [|s segs IH]; intros v v' H a; [apply H|]. cbn [foldl].
  apply IH. by apply place_ext.
Qed.

Lemma relocate_loop_spec fuel : forall m' i,
  agrees m' -> 0 <= i <= phnum -> phnum - i <= Z.of_nat fuel ->
  let rest := map segment (seqZ i (phnum - i)) in
  exists m2, relocate_loop L fuel m' from to max_size ph_loc i =
      Some (if forallb within rest then 0 else -1, m2) /\
    forall a, m2 a = foldl (fun v s => place m s v) m' (accepted rest) a.
Proof.
  induction fuel as [|fuel IH]; intros m' i Hm Hi Hf rest; subst rest; cbn [relocate_loop];
    rewrite (read16_agrees m') by (done || apply Hia); fold phnum.
  - rewrite (proj2 (Z.ltb_ge _ _)) by lia. replace (phnum - i) with 0 by lia.
    exists m'. by split.
  - destruct (Z.ltb_spec i phnum) as [Hlt|Hge].
    2: { replace (phnum - i) with 0 by lia. exists m'. by split. }
    rewrite seqZ_cons by lia. cbn [map accepted forallb].
    pose proof (load_segment_agrees m' i Hm ltac:(lia)) as Hload. cbv zeta in Hload.
    destruct (load_segment _ _ _ _ _ _) as [m2|].
    + destruct Hload as (-> & Hm2 & Heq). replace (Z.pred (phnum - i)) with (phnum - (i + 1)) by lia.
      replace (Z.succ i) with (i + 1) by lia.
      destruct (IH m2 (i + 1) Hm2) as (m3 & E & H3); [lia|lia|]. rewrite E.
      exists m3. split; [done|]. intros a. rewrite H3. cbn [foldl]. by apply foldl_place_ext.
    + rewrite Hload. exists m'. by split.
Qed.

Lemma accepted_elem s segs : s ∈ accepted segs -> s ∈ segs /\ within s = true.
Proof.
  induction segs as [|x segs IH]; cbn [accepted]; [by intros ?%elem_of_nil|].
  destruct (within x) eqn:Ex; [|by intros ?%elem_of_nil].
  intros [->|Hs]%elem_of_cons; [split; [by left|done]|].
  destruct (IH Hs). split; [by right|done].
Qed.

(** An accepted segment stays in the window. *)
Lemma place_outside s v a : s ∈ accepted segments -> ~ in_target a -> place m s v a = v a.
Proof.
  intros [Hin Hw]%accepted_elem Ha. apply list_elem_of_fmap in Hin as (i & -> & Hi%elem_of_seqZ).
  destruct (ia_segs Hia i) as (Hfs & Hnw & _); [lia|]. unfold within in Hw. unfold place.
  assert (word (s_vaddr (segment i))) by apply read32_word.
  assert (word (s_memsz (segment i))) by apply read32_word. unfold word, in_target in *.
  rewrite u32_small in Hw by lia. by rewrite not_in_range by lia.
Qed.

Lemma loaded_outside a : ~ in_target a -> loaded m (accepted segments) a = m a.
Proof.
  intros Ha. unfold loaded. pose proof (fun s v Hs => place_outside s v a Hs Ha) as Hp.
  assert (G : forall l v, (forall s v, s ∈ l -> place m s v a = v a) ->
     foldl (fun v s => place m s v) v l a = v a); [|by apply G; intros; apply Hp].
  induction l as [|s l IH]; intros v Hl; [done|]. cbn [foldl].
  rewrite IH; [apply Hl; by left|]. intros x w Hx. apply Hl. by right.
Qed.

(** [elf_relocate] loads: for a valid image outside the window it is loaded to, it copies
    the segments in order, up to the first whose place is not inside the window; it returns 0
    when there is none and -1 otherwise; and nothing outside the window changes. *)
Theorem elf_relocate_loads :
  elf_valid L m from <> 0 ->
  exists m', elf_relocate L m from to max_size =
      Some (if forallb within segments then 0 else -1, m') /\
    (forall a, m' a = loaded m (accepted segments) a) /\ agrees m'.
Proof.
  intros Hv. unfold elf_relocate. rewrite (proj2 (Z.eqb_neq _ 0) Hv). fold ph_loc.
  pose proof phnum_range as Hn.
  destruct (relocate_loop_spec (Z.to_nat 65536) m 0) as (m' & E & Hm'); [done|lia|lia|].
  rewrite Z.sub_0_r in *. fold segments in E, Hm'. exists m'. split; [done|]. split; [done|].
  intros a Ha. rewrite Hm'. by apply loaded_outside.
Qed.
End Load.

(** ** A concrete image *)

(** The layout of the System V ABI. *)
Definition abi : elf_layout :=
  mk_elf_layout 0 16 18 24 28 42 44 4 8 16 20 0 1 2 3 4 5.

(** Little-endian words. *)
Definition ehdr (entry phoff phentsize phnum : Z) : list Z :=
  [127; 69; 76; 70; 1; 1; 1] ++ replicate 9 0 ++ le_bytes 2 2 ++ le_bytes 2 3 ++ le_bytes 4 1 ++
  le_bytes 4 entry ++ le_bytes 4 phoff ++ le_bytes 4 0 ++ le_bytes 4 0 ++ le_bytes 2 52 ++
  le_bytes 2 phentsize ++ le_bytes 2 phnum ++ replicate 6 0.

Definition phdr_bytes (offset vaddr filesz memsz : Z) : list Z :=
  le_bytes 4 1 ++ le_bytes 4 offset ++ le_bytes 4 vaddr ++ le_bytes 4 vaddr ++
  le_bytes 4 filesz ++ le_bytes 4 memsz ++ le_bytes 4 7 ++ le_bytes 4 4096.

(** Memory that holds [bs] at [base] and zeros elsewhere. *)
Definition holding (base : Z) (bs : list Z) : memory :=
  fun a => if a <? base then 0 else default 0 (bs !! Z.to_nat (a - base)).

(** Two segments for the window of 64 bytes at 4096; the image is at 256. *)
Definition sample_image : list Z :=
  ehdr 4100 52 32 2 ++ phdr_bytes 116 4100 3 8 ++ phdr_bytes 119 4128 2 2 ++ [10; 11; 12; 13; 14].
Definition sample_memory : memory := holding 256 sample_image.

(** The bound is checked for [p_memsz], but [p_filesz] bytes are copied: a segment of 4
    bytes in memory and 8 in the file goes 4 bytes beyond a window of 4. *)
Definition overrun_image : list Z :=
  ehdr 4096 52 32 1 ++ phdr_bytes 84 4096 8 4 ++ [1; 2; 3; 4; 5; 6; 7; 8].

Lemma elf_relocate_overruns :
  exists m', elf_relocate abi (holding 256 overrun_image) 256 4096 4 = Some (0, m') /\
    m' 4103 = 8 /\ holding 256 overrun_image 4103 = 0.
Proof. eexists. split; [reflexivity|]. split; reflexivity. Qed.

Lemma below_apart to max_size a n :
  0 <= a -> a + n <= to -> to < 4294967296 -> apart to max_size a n.
Proof. intros Ha Hn Hto j Hj. rewrite u32_small by lia. unfold in_target. lia. Qed.

Lemma sample_bytes a : 0 <= sample_memory a < 256.
Proof.
  unfold sample_memory, holding. destruct (a <? 256); [lia|].
  destruct (sample_image !! Z.to_nat (a - 256)) as [x|] eqn:E; [|simpl; lia].
  assert (Hf : Forall (fun x => 0 <= x < 256) sample_image) by (apply (bool_decide_unpack _); by vm_compute).
  exact (proj1 (Forall_lookup _ _) Hf _ x E).
Qed.

Lemma sample_apart : image_apart abi sample_memory 256 4096 64.
Proof.
  assert (Hi : forall i, 0 <= i < phnum abi sample_memory 256 -> i = 0 \/ i = 1).
  { assert (E : phnum abi sample_memory 256 = 2) by (by vm_compute). rewrite E. lia. }
  split; try lia; try (apply below_apart; simpl; lia).
  - exact sample_bytes.
  - intros i [-> | ->]%Hi; split_and!; apply below_apart; vm_compute; congruence || done.
  - intros i [-> | ->]%Hi; (split; [vm_compute; congruence|]); (split; [by vm_compute|]);
      apply below_apart; vm_compute; congruence || done.
Qed.

Lemma elf_relocate_loads_witness :
  elf_valid abi sample_memory 256 <> 0 /\
  (forallb (within 4096 64) (segments abi sample_memory 256) = true /\
   map (loaded sample_memory (accepted 4096 64 (segments abi sample_memory 256)))
       [4099; 4100; 4101; 4102; 4103; 4128; 4129] = [0; 10; 11; 12; 0; 13; 14]) /\
  exists m', elf_relocate abi sample_memory 256 4096 64 =
      Some (if forallb (within 4096 64) (segments abi sample_memory 256) then 0 else -1, m') /\
    (forall a, m' a = loaded sample_memory (accepted 4096 64 (segments abi sample_memory 256)) a) /\
    agrees sample_memory 4096 64 m'.
Proof.
  split; [by vm_compute|]. split; [split; by vm_compute|].
  apply (elf_relocate_loads abi sample_memory 256 4096 64 sample_apart).
  by vm_compute.
Defined.
