(* ===== verification/CmosIo.v ===== *)
(** * CmosIo: the battery-backed memory, its checksum and its flags

    Model of [x86/common/cmos_io.c], of the constants of [x86/include/common/cmos.h]
    and of the board queries of [x86/common/systype.c].  The hardware is a parameter:
    a type of device states with the two port instructions ([Ports]); [Rtc] states what
    the code relies on of the clock chip, an address register, a bank selector and bytes
    that keep what is written.  [chip] is one such device. *)

From S2P Require Import Prelude.

(** ** State monad *)

Definition St (S A : Type) : Type := S -> A * S.
#[export] Instance St_ret S : MRet (St S) := fun A a s => (a, s).
#[export] Instance St_bind S : MBind (St S) := fun A B k m s => let '(a, s') := m s in k a s'.

(** Steps in sequence, for each element of a list. *)
Fixpoint each {S A} (f : A -> St S unit) (l : list A) : St S unit :=
  match l with [] => mret tt | a :: l => _ ← f a; each f l end.

(** ** Hardware *)

(** [outb value port] and [inb port]. *)
Class Ports (hw : Type) := {
  dev_outb : Z -> Z -> hw -> hw;
  dev_inb : Z -> hw -> Z * hw;
}.

Definition CMOS_ADDR_PORT : Z := 0x70.
Definition CMOS_DATA_PORT : Z := 0x71.
Definition NATSEMI_GPE1_PORT : Z := 0x530.
Definition CMOS_INFO_MAX : Z := 0x7f.
Definition CMOS_CKS_START : Z := 0x0e.
Definition CMOS_CKS_END : Z := CMOS_INFO_MAX.
Definition CMOS_FLAG_BYTE_0 : Z := 0x10.
Definition CMOS_FLAG_BYTE_1 : Z := 0x11.
Definition CMOS_FLAG_MIN : Z := 0x0001.
Definition CMOS_FLAG_MAX : Z := 0x0800.
Definition CMOS_CHECKSUM : Z := 0x2e.
Definition PNP_NS_RTC_CRA : Z := 0x0a.
Definition PNP_NS_RTC_BANK_0 : Z := 0x20.
Definition PNP_NS_RTC_BANK_2 : Z := 0x40.
Definition PNP_NS_APCR6 : Z := 0x4c.
Definition APCR6_WAKE_VAL : Z := 0x80.
Definition APCR6_WAKE_MASK : Z := 0xc0.
Definition NS_GP1_EN0 : Z := 0x04.
Definition NS_GP1_EN0_PME2_E : Z := 0x02.

Definition SYSTYPE_3K : Z := 0x10000.
Definition SYSTYPE_5K : Z := 0x20000.
Definition BOARDTYPE_MONTEREY : Z := 0x3.
Definition BOARDTYPE_ALPINE : Z := 0x4.

(** One entry of [cmos_flags]. *)
Record cmos_flag := mk_cmos_flag { fname : list Z; flag : Z; fstate : Z }.

(** The globals of cmos.c. *)
Record cmos_vars := mk_cmos_vars {
  serial_num : list Z;
  console : Z;
  debug : Z;
  boot_method : Z;
  auto_prompt : Z;
  first_boot : Z;
  clean_boot : Z;
  show_logo : Z;
  unique_root : Z;
  sysfault : Z;
  bto_ip : Z;
  cmos_version : Z;
  boot_type : Z;
  cmos_flags : list cmos_flag;
}.

Section CmosIo.
Context {hw : Type} `{!Ports hw}.

(** The state of the ROM: the hardware, the detected system and the globals. *)
Record rom := mk_rom { dev : hw; cur_systype : Z; vars : cmos_vars }.

Definition set_dev (h : hw) (s : rom) : rom := mk_rom h (cur_systype s) (vars s).

Definition outb (v port : Z) : St rom unit :=
  fun s => (tt, set_dev (dev_outb (u8 v) port (dev s)) s).
Definition inb (port : Z) : St rom Z :=
  fun s => let '(v, h) := dev_inb port (dev s) in (v, set_dev h s).

(** ** systype.c *)

Definition systype (s : rom) : Z := Z.land (cur_systype s) 0xffff0000.
Definition boardtype (s : rom) : Z := Z.land (cur_systype s) 0x0000ffff.
Definition systype_is_3k (s : rom) : bool := systype s =? SYSTYPE_3K.
Definition systype_is_5k (s : rom) : bool := systype s =? SYSTYPE_5K.

(** A query of the state. *)
Definition gets {A} (f : rom -> A) : St rom A := fun s => (f s, s).

(** ** Power management bits *)

Definition cmos_get_powerfail : St rom Z :=
  is5k ← gets systype_is_5k;
  if negb is5k then mret 0
  else
    outb PNP_NS_RTC_CRA CMOS_ADDR_PORT;;
    bank ← inb CMOS_DATA_PORT;
    outb (Z.lor (Z.land bank 0x8f) PNP_NS_RTC_BANK_2) CMOS_DATA_PORT;;
    outb PNP_NS_APCR6 CMOS_ADDR_PORT;;
    apcr6 ← inb CMOS_DATA_PORT;
    outb PNP_NS_RTC_CRA CMOS_ADDR_PORT;;
    outb bank CMOS_DATA_PORT;;
    mret (Z.b2z (negb (Z.land apcr6 APCR6_WAKE_MASK =? APCR6_WAKE_VAL))).

Definition cmos_set_powerfail (state : Z) : St rom unit :=
  is5k ← gets systype_is_5k;
  if negb is5k then mret tt
  else
    outb PNP_NS_RTC_CRA CMOS_ADDR_PORT;;
    bank ← inb CMOS_DATA_PORT;
    outb (Z.lor (Z.land bank 0x8f) PNP_NS_RTC_BANK_2) CMOS_DATA_PORT;;
    outb PNP_NS_APCR6 CMOS_ADDR_PORT;;
    apcr6 ← inb CMOS_DATA_PORT;
    let apcr6 := Z.land apcr6 (Z.lnot APCR6_WAKE_MASK) in
    let apcr6 := if state =? 0 then Z.lor apcr6 APCR6_WAKE_VAL else apcr6 in
    outb apcr6 CMOS_DATA_PORT;;
    outb PNP_NS_RTC_CRA CMOS_ADDR_PORT;;
    outb bank CMOS_DATA_PORT.

Definition cmos_get_powerapply : St rom Z :=
  is5k ← gets systype_is_5k;
  if negb is5k then mret 0
  else
    reg ← inb (Z.lor NATSEMI_GPE1_PORT NS_GP1_EN0);
    mret (Z.land reg NS_GP1_EN0_PME2_E).

Definition cmos_set_powerapply (state : Z) : St rom unit :=
  is5k ← gets systype_is_5k;
  if negb is5k then mret tt
  else
    reg ← inb (Z.lor NATSEMI_GPE1_PORT NS_GP1_EN0);
    let reg := Z.land reg (Z.lnot NS_GP1_EN0_PME2_E) in
    let reg := if state =? 0 then reg else Z.lor reg NS_GP1_EN0_PME2_E in
    outb reg (Z.lor NATSEMI_GPE1_PORT NS_GP1_EN0).

(** ** Bytes *)

(** "Force bank 0", the opening of both byte functions. *)
Definition force_bank0 : St rom unit :=
  b ← gets boardtype;
  if b =? BOARDTYPE_MONTEREY
  then
    outb PNP_NS_RTC_CRA CMOS_ADDR_PORT;;
    bank ← inb CMOS_DATA_PORT;
    outb (Z.lor (Z.land bank 0x8f) PNP_NS_RTC_BANK_0) CMOS_DATA_PORT
  else mret tt.

Definition cmos_read_byte (index : Z) : St rom Z :=
  if CMOS_INFO_MAX <? index then mret 0
  else
    force_bank0;;
    outb index CMOS_ADDR_PORT;;
    inb CMOS_DATA_PORT.

Definition cmos_write_byte (index val : Z) : St rom Z :=
  if CMOS_INFO_MAX <? index then mret (-1)
  else
    force_bank0;;
    outb index CMOS_ADDR_PORT;;
    outb val CMOS_DATA_PORT;;
    mret 0.

(** A write whose result is ignored, as in every call. *)
Definition write_byte (index val : Z) : St rom unit := _ ← cmos_write_byte index val; mret tt.

(** ** Checksum *)

(** The loop over [CMOS_CKS_START..CMOS_CKS_END], shared by both functions: [sum] is an
    [unsigned short]. *)
Fixpoint checksum_loop (n : nat) (i sum : Z) : St rom Z :=
  match n with
  | O => mret sum
  | S n =>
    if (i =? CMOS_CHECKSUM) || (i =? CMOS_CHECKSUM + 1) then checksum_loop n (i + 1) sum
    else b ← cmos_read_byte i; checksum_loop n (i + 1) (u16 (sum + b))
  end.

Definition checksum_count : nat := Z.to_nat (CMOS_CKS_END + 1 - CMOS_CKS_START).

Definition cmos_check_checksum : St rom bool :=
  sum ← checksum_loop checksum_count CMOS_CKS_START 0;
  hi ← cmos_read_byte CMOS_CHECKSUM;
  lo ← cmos_read_byte (CMOS_CHECKSUM + 1);
  mret (Z.land sum 0xffff =? Z.lor (Z.shiftl hi 8) lo).

Definition cmos_set_checksum : St rom unit :=
  sum ← checksum_loop checksum_count CMOS_CKS_START 0;
  write_byte CMOS_CHECKSUM (Z.shiftr sum 8);;
  write_byte (CMOS_CHECKSUM + 1) (Z.land sum 0xff).

(** ** Flags *)

Definition cmos_read_all_flags : St rom Z :=
  b1 ← cmos_read_byte CMOS_FLAG_BYTE_1;
  b0 ← cmos_read_byte CMOS_FLAG_BYTE_0;
  mret (le_val [b1; b0; 0; 0]).

Definition cmos_write_all_flags (flags : Z) : St rom unit :=
  write_byte CMOS_FLAG_BYTE_1 (u8 flags);;
  write_byte CMOS_FLAG_BYTE_0 (u8 (Z.shiftr flags 8));;
  cmos_set_checksum.

Definition cmos_read_flag (f : Z) : St rom Z :=
  if (f <? CMOS_FLAG_MIN) || (CMOS_FLAG_MAX <? f) then mret (-1)
  else
    flags ← cmos_read_all_flags;
    mret (if Z.land flags f =? 0 then 0 else 1).

Definition cmos_write_flag (f v : Z) : St rom Z :=
  if (f <? CMOS_FLAG_MIN) || (CMOS_FLAG_MAX <? f) then mret (-1)
  else
    flags ← cmos_read_all_flags;
    cmos_write_all_flags (if v =? 0 then Z.land flags (Z.lnot f) else Z.lor flags f);;
    mret 0.

End CmosIo.
Arguments rom : clear implicits.
