(* ===== verification/PciIo.v ===== *)
(** * PciIo: access to PCI configuration space

    Model of [x86/common/pci_io.c].  The I/O ports of the processor are the class
    [IoPorts]; what the rest of the PCI code uses is the class [Config], and
    [port_config] is the implementation of the source over the ports.  [mechanism] is the
    documented behaviour of the two ports (configuration mechanism #1) in front of any
    configuration space, and the theorem at the end shows that the source over it behaves
    as the space itself. *)

From S2P Require Import Prelude.

(** The [in] and [out] instructions of [io.h]; the first argument is the width in
    bytes. *)
Class IoPorts (hw : Type) := {
  port_out : Z -> Z -> Z -> hw -> hw;
  port_in : Z -> Z -> hw -> Z * hw;
}.

(** 32-bit reads and writes of device memory. *)
Class Mmio (hw : Type) := {
  mmio_read : Z -> hw -> Z * hw;
  mmio_write : Z -> Z -> hw -> hw;
}.

(** Reads and writes of configuration space: bus, device and function, register, (value,)
    number of bytes. *)
Class Config (hw : Type) := {
  read_config : Z -> Z -> Z -> Z -> hw -> Z * hw;
  write_config : Z -> Z -> Z -> Z -> Z -> hw -> hw;
}.

Definition PCI_DEVFN (d fn : Z) : Z :=
  u8 (Z.lor (Z.shiftl (Z.land d 0x1f) 3) (Z.land fn 0x07)).
Definition PCI_SLOT (devfn : Z) : Z := u8 (Z.land (Z.shiftr devfn 3) 0x1f).
Definition PCI_FUNC (devfn : Z) : Z := u8 (Z.land devfn 0x07).

Section PciIo.
Context {hw : Type} `{!IoPorts hw}.

Definition outb (v port : Z) : hw -> hw := port_out 1 (u8 v) (u16 port).
Definition outw (v port : Z) : hw -> hw := port_out 2 (u16 v) (u16 port).
Definition outl (v port : Z) : hw -> hw := port_out 4 (u32 v) (u16 port).
Definition inb (port : Z) : hw -> Z * hw := port_in 1 (u16 port).
Definition inw (port : Z) : hw -> Z * hw := port_in 2 (u16 port).
Definition inl (port : Z) : hw -> Z * hw := port_in 4 (u16 port).

Definition PCI_CONFIG (bus devfn reg : Z) : Z :=
  u32 (Z.lor (Z.lor (Z.lor 0x80000000 (Z.land reg 0xfc)) (Z.shiftl (Z.land bus 0xff) 16))
         (Z.shiftl (Z.land devfn 0xff) 8)).

Definition pci_read_config (bus devfn reg size : Z) (h : hw) : Z * hw :=
  let h := outl (PCI_CONFIG bus devfn reg) 0xcf8 h in
  let in_port := 0xcfc + Z.land reg 0x3 in
  if size =? 1 then let '(v, h) := inb in_port h in (u8 v, h)
  else if size =? 2 then let '(v, h) := inw in_port h in (u16 v, h)
  else if size =? 4 then let '(v, h) := inl in_port h in (u32 v, h)
  else (0, h).

Definition pci_write_config (bus devfn reg value size : Z) (h : hw) : hw :=
  let h := outl (PCI_CONFIG bus devfn reg) 0xcf8 h in
  let out_port := 0xcfc + Z.land reg 0x3 in
  if size =? 1 then outb value out_port h
  else if size =? 2 then outw value out_port h
  else if size =? 4 then outl value out_port h
  else h.

#[export] Instance port_config : Config hw := {|
  read_config bus devfn reg size := pci_read_config (u8 bus) (u8 devfn) (u8 reg) size;
  write_config bus devfn reg value size :=
    pci_write_config (u8 bus) (u8 devfn) (u8 reg) (u32 value) size;
|}.

End PciIo.

(** ** Configuration mechanism #1 *)

(** The address register and the configuration space behind the ports. *)
Record mechanism (space : Type) := mk_mechanism { latch : Z; behind : space }.
Arguments mk_mechanism {space} _ _.
Arguments latch {space} _.
Arguments behind {space} _.

Definition latch_bus (a : Z) : Z := Z.land (Z.shiftr a 16) 0xff.
Definition latch_devfn (a : Z) : Z := Z.land (Z.shiftr a 8) 0xff.
Definition latch_reg (a : Z) : Z := Z.land a 0xfc.

Section Mechanism.
Context {space : Type} `{!Config space}.

(** A 32-bit write to 0xcf8 sets the address; while its top bit is set, the ports from
    0xcfc to 0xcff are the four bytes of the register it selects. *)
Definition mech_out (n v port : Z) (m : mechanism space) : mechanism space :=
  if (port =? 0xcf8) && (n =? 4) then mk_mechanism v (behind m)
  else if (0xcfc <=? port) && (port + n <=? 0xd00) && Z.testbit (latch m) 31
  then mk_mechanism (latch m)
         (write_config (latch_bus (latch m)) (latch_devfn (latch m))
            (latch_reg (latch m) + (port - 0xcfc)) v n (behind m))
  else m.

Definition mech_in (n port : Z) (m : mechanism space) : Z * mechanism space :=
  if (port =? 0xcf8) && (n =? 4) then (latch m, m)
  else if (0xcfc <=? port) && (port + n <=? 0xd00) && Z.testbit (latch m) 31
  then let '(v, s) := read_config (latch_bus (latch m)) (latch_devfn (latch m))
                        (latch_reg (latch m) + (port - 0xcfc)) n (behind m) in
       (v, mk_mechanism (latch m) s)
  else (2 ^ (8 * n) - 1, m).

#[export] Instance mech_ports : IoPorts (mechanism space) :=
  {| port_out := mech_out; port_in := mech_in |}.

End Mechanism.

(** A disjunction of a multiple of [2^k] and a number below it is their sum. *)
Lemma lor_shifted k a b : 0 <= k -> 0 <= b < 2 ^ k -> Z.lor (Z.shiftl a k) b = a * 2 ^ k + b.
Proof.
  intros Hk Hb. rewrite <- Z.shiftl_mul_pow2 by done.
  rewrite <- Z.add_lor_land. enough (Z.land (Z.shiftl a k) b = 0) by lia.
  apply Z.bits_inj'. intros i Hi. rewrite Z.land_spec, Z.bits_0.
  destruct (decide (i < k)); [by rewrite Z.shiftl_spec_low by lia|].
  rewrite <- (Z.mod_small b (2 ^ k)) by lia.
  rewrite Z.mod_pow2_bits_high by lia. apply andb_false_r.
Qed.

Lemma land_small k a : 0 <= k -> 0 <= a < 2 ^ k -> Z.land a (2 ^ k - 1) = a.
Proof. intros Hk Ha. rewrite Z.sub_1_r, <- Z.ones_equiv, Z.land_ones by lia. by apply Z.mod_small. Qed.

Lemma reg_mask reg : 0 <= reg < 256 -> Z.land reg 0xfc = 4 * (reg / 4) /\ Z.land reg 3 = reg mod 4.
Proof.
  intros Hr. assert (E3 : Z.land reg 3 = reg mod 4)
    by (change 3 with (Z.ones 2); by rewrite Z.land_ones).
  split; [|done]. rewrite <- (land_small 8 reg) by lia.
  assert (E : Z.land reg 0xfc = Z.ldiff reg 3).
  { rewrite Z.ldiff_land. change (0xfc) with (Z.land (2 ^ 8 - 1) (Z.lnot 3)).
    by rewrite Z.land_assoc, (land_small 8) by lia. }
  rewrite (land_small 8), E by lia. change 3 with (Z.ones 2).
  rewrite Z.ldiff_ones_r, Z.shiftl_mul_pow2, Z.shiftr_div_pow2 by lia. change (2 ^ 2) with 4. lia.
Qed.

(** The word the code writes to the address register. *)
Lemma PCI_CONFIG_value bus devfn reg :
  0 <= bus < 256 -> 0 <= devfn < 256 -> 0 <= reg < 256 ->
  PCI_CONFIG bus devfn reg = 2 ^ 31 + bus * 2 ^ 16 + devfn * 2 ^ 8 + 4 * (reg / 4).
Proof.
  intros Hb Hd Hr. unfold PCI_CONFIG. rewrite (proj1 (reg_mask reg Hr)).
  change 0xff with (2 ^ 8 - 1). rewrite !land_small by lia.
  pose proof (Z.div_mod reg 4 ltac:(lia)). pose proof (Z.mod_pos_bound reg 4 ltac:(lia)).
  replace (Z.lor (Z.lor (Z.lor 0x80000000 (4 * (reg / 4))) (Z.shiftl bus 16)) (Z.shiftl devfn 8))
    with (Z.lor (Z.shiftl 1 31) (Z.lor (Z.shiftl bus 16) (Z.lor (Z.shiftl devfn 8) (4 * (reg / 4))))).
  2:{ change 0x80000000 with (Z.shiftl 1 31). rewrite !Z.lor_assoc.
      rewrite <- !Z.lor_assoc. f_equal. rewrite !Z.lor_assoc, (Z.lor_comm (4 * _)).
      rewrite <- !Z.lor_assoc. f_equal. apply Z.lor_comm. }
  rewrite (lor_shifted 8) by lia. rewrite (lor_shifted 16) by lia. rewrite (lor_shifted 31) by lia.
  rewrite u32_small by lia. lia.
Qed.

(** Every field of it can be read back. *)
Lemma PCI_CONFIG_fields bus devfn reg :
  0 <= bus < 256 -> 0 <= devfn < 256 -> 0 <= reg < 256 ->
  latch_bus (PCI_CONFIG bus devfn reg) = bus /\ latch_devfn (PCI_CONFIG bus devfn reg) = devfn /\
  latch_reg (PCI_CONFIG bus devfn reg) = 4 * (reg / 4) /\
  Z.testbit (PCI_CONFIG bus devfn reg) 31 = true.
Proof.
  intros Hb Hd Hr. rewrite PCI_CONFIG_value by done.
  pose proof (Z.div_mod reg 4 ltac:(lia)). pose proof (Z.mod_pos_bound reg 4 ltac:(lia)).
  unfold latch_bus, latch_devfn, latch_reg. change 0xff with (Z.ones 8).
  rewrite !Z.land_ones, !Z.shiftr_div_pow2 by lia. split_and!; [dlia..| |].
  - set (v := _ + 4 * (reg / 4)).
    replace (Z.land v 0xfc) with (Z.land (Z.land v (Z.ones 8)) 0xfc)
      by (rewrite <- Z.land_assoc; reflexivity).
    rewrite Z.land_ones by lia. replace (v mod 2 ^ 8) with (4 * (reg / 4)) by (subst v; dlia).
    rewrite (proj1 (reg_mask (4 * (reg / 4)) ltac:(lia))). dlia.
  - rewrite Z.testbit_odd, Z.shiftr_div_pow2 by lia.
    by replace (_ / 2 ^ 31) with 1 by dlia.
Qed.

(** ** The code over the mechanism *)

(** An access that does not leave its register. *)
Definition access_ok (bus devfn reg size : Z) : Prop :=
  0 <= bus < 256 /\ 0 <= devfn < 256 /\ 0 <= reg < 256 /\
  (size = 1 \/ size = 2 \/ size = 4) /\ reg mod 4 + size <= 4.

Section Access.
Context {space : Type} `{!Config space}.

(** After the write to 0xcf8 the data ports reach the register asked for. *)
Lemma latched bus devfn reg (m : mechanism space) :
  outl (PCI_CONFIG bus devfn reg) 0xcf8 m = mk_mechanism (PCI_CONFIG bus devfn reg) (behind m).
Proof.
  unfold outl, PCI_CONFIG. cbn. unfold mech_out. cbn. f_equal.
  apply u32_small. unfold u32. apply Z.mod_pos_bound. lia.
Qed.

Lemma data_port reg : 0 <= reg < 256 -> u16 (0xcfc + Z.land reg 3) = 0xcfc + reg mod 4.
Proof. intros Hr. rewrite (proj2 (reg_mask reg Hr)), u16_small by dlia. done. Qed.

Lemma window_open n reg :
  0 <= reg < 256 -> reg mod 4 + n <= 4 ->
  ((0xcfc + reg mod 4 =? 0xcf8) && (n =? 4) = false) /\
  ((0xcfc <=? 0xcfc + reg mod 4) && (0xcfc + reg mod 4 + n <=? 0xd00) = true).
Proof.
  intros Hr Hn. pose proof (Z.mod_pos_bound reg 4 ltac:(lia)). split.
  - by rewrite (proj2 (Z.eqb_neq (0xcfc + reg mod 4) 0xcf8)) by lia.
  - rewrite (proj2 (Z.leb_le _ _)), (proj2 (Z.leb_le (0xcfc + reg mod 4 + n) _)) by lia. done.
Qed.

Lemma mech_in_window bus devfn reg n (s : space) :
  access_ok bus devfn reg n ->
  mech_in n (u16 (0xcfc + Z.land reg 3)) (mk_mechanism (PCI_CONFIG bus devfn reg) s) =
  let '(v, s) := read_config bus devfn reg n s in (v, mk_mechanism (PCI_CONFIG bus devfn reg) s).
Proof.
  intros (Hb & Hd & Hr & _ & Hn). rewrite data_port by done.
  destruct (window_open n reg Hr Hn) as [E1 E2].
  destruct (PCI_CONFIG_fields bus devfn reg) as (Eb & Ed & Er & Et); [done..|].
  unfold mech_in. rewrite E1, E2. cbn [latch behind]. rewrite Et, Eb, Ed, Er. cbn [andb].
  by replace (4 * (reg / 4) + (0xcfc + reg mod 4 - 0xcfc)) with reg by dlia.
Qed.

Lemma mech_out_window bus devfn reg n v (s : space) :
  access_ok bus devfn reg n ->
  mech_out n v (u16 (0xcfc + Z.land reg 3)) (mk_mechanism (PCI_CONFIG bus devfn reg) s) =
  mk_mechanism (PCI_CONFIG bus devfn reg) (write_config bus devfn reg v n s).
Proof.
  intros (Hb & Hd & Hr & _ & Hn). rewrite data_port by done.
  destruct (window_open n reg Hr Hn) as [E1 E2].
  destruct (PCI_CONFIG_fields bus devfn reg) as (Eb & Ed & Er & Et); [done..|].
  unfold mech_out. rewrite E1, E2. cbn [latch behind]. rewrite Et, Eb, Ed, Er. cbn [andb].
  by replace (4 * (reg / 4) + (0xcfc + reg mod 4 - 0xcfc)) with reg by dlia.
Qed.

End Access.

(** C26: Reads and writes through the ports are reads and writes of the space behind them, for
    every bus, device, function and register, and every access that does not leave its
    register. *)
Theorem pci_config_access space `{!Config space} bus devfn reg size v (m : mechanism space) :
  access_ok bus devfn reg size ->
  (forall s, 0 <= (read_config bus devfn reg size s).1 < 2 ^ (8 * size)) ->
  0 <= v < 2 ^ (8 * size) ->
  pci_read_config bus devfn reg size m =
    (let '(r, s) := read_config bus devfn reg size (behind m) in
     (r, mk_mechanism (PCI_CONFIG bus devfn reg) s)) /\
  pci_write_config bus devfn reg v size m =
    mk_mechanism (PCI_CONFIG bus devfn reg) (write_config bus devfn reg v size (behind m)).
Proof.
  intros Hok Hr Hv. specialize (Hr (behind m)). pose proof Hok as (_ & _ & _ & Hsize & _).
  unfold pci_read_config, pci_write_config. rewrite !latched.
  destruct Hsize as [-> | [-> | ->]]; cbn [Z.eqb Pos.eqb]; unfold inb, inw, inl, outb, outw, outl;
    cbn [port_in port_out mech_ports]; rewrite mech_in_window, mech_out_window by done;
    destruct (read_config _ _ _ _ _) as [r s]; cbn [fst] in Hr; unfold u8, u16, u32.
  - change 256 with (2 ^ (8 * 1)). by rewrite !Z.mod_small.
  - change 65536 with (2 ^ (8 * 2)). by rewrite !Z.mod_small.
  - change 4294967296 with (2 ^ (8 * 4)). by rewrite !Z.mod_small.
Qed.

(** A configuration space of bytes. *)
Definition space_at (bus devfn reg : Z) : Z := bus * 2 ^ 16 + devfn * 2 ^ 8 + reg.
Fixpoint space_get (n : nat) (a : Z) (s : Z -> Z) : Z :=
  match n with
  | O => 0
  | S n' => u8 (s a) + 256 * space_get n' (a + 1) s
  end.
Fixpoint space_put (n : nat) (a v : Z) (s : Z -> Z) : Z -> Z :=
  match n with
  | O => s
  | S n' => space_put n' (a + 1) (v / 256) (fun b => if b =? a then u8 v else s b)
  end.
#[local] Instance byte_space : Config (Z -> Z) := {|
  read_config bus devfn reg n s := (space_get (Z.to_nat n) (space_at bus devfn reg) s, s);
  write_config bus devfn reg v n s := space_put (Z.to_nat n) (space_at bus devfn reg) v s;
|}.

Lemma space_get_range n : forall a s, 0 <= space_get n a s < 2 ^ (8 * Z.of_nat n).
Proof.
  induction n as [|n IH]; intros a s; [done|]. cbn [space_get]. specialize (IH (a + 1) s).
  assert (0 <= u8 (s a) < 256) by (apply Z.mod_pos_bound; lia).
  replace (2 ^ (8 * Z.of_nat (S n))) with (256 * 2 ^ (8 * Z.of_nat n)); [lia|].
  replace (8 * Z.of_nat (S n)) with (8 + 8 * Z.of_nat n) by lia. rewrite Z.pow_add_r by lia. done.
Qed.

(** The second byte of a register that holds 0x1234. *)
Lemma pci_config_access_witness :
  let s := space_put 2 (space_at 0 0x78 0x40) 0x1234 (fun _ => 0) in
  (pci_read_config 0 0x78 0x41 1 (mk_mechanism 0 s)).1 = 0x12.
Proof.
  intros s. assert (Hok : access_ok 0 0x78 0x41 1) by (split_and!; try done; by left).
  rewrite (proj1 (@pci_config_access (Z -> Z) byte_space 0 0x78 0x41 1 0 (mk_mechanism 0 s) Hok
    (fun t => space_get_range 1 (space_at 0 0x78 0x41) t) ltac:(done))). reflexivity.
Defined.
