(* ===== verification/Region.v ===== *)
(** * Region: allocation of I/O and memory windows

    Model of [x86/common/region.c].  The list of regions is a list of records in the
    order of the [next] pointers; a pointer to one is its index.  [None] is undefined
    behaviour: a null pointer followed, or a shift by the width of an [int].  [malloc]
    is not modelled: whether it succeeds is an argument of [region_init]. *)

From S2P Require Import Prelude.

Record region_info := mk_region_info {
  id : Z;
  mask : Z;
  limit : Z;
  base : Z;
  rsize : Z;
  name : list Z;
}.

(** The global [region_list]. *)
Abbreviation regions := (list region_info).

Fixpoint region_find (region_list : regions) (i : Z) : option nat :=
  match region_list with
  | [] => None
  | cur :: rest => if id cur =? i then Some O else S <$> region_find rest i
  end.

Definition region_init (malloc_ok : bool) (i align : Z) (b : Z) (n : list Z)
    (region_list : regions) : regions :=
  if malloc_ok
  then region_list ++ [mk_region_info (u8 i) (u8 align) (u32 b) (u32 b) 0 n]
  else region_list.

(** The loop of [roundup2], with the counters [aligned] and [shifts].  A [uint32] is
    zero after 32 shifts. *)
Fixpoint roundup2_loop (fuel : nat) (n aligned shifts : Z) : option (Z * Z) :=
  if n =? 0 then Some (aligned, shifts)
  else match fuel with
       | O => None
       | S fuel =>
         roundup2_loop fuel (Z.shiftr n 1)
           (if Z.odd n && (1 <? n) then aligned + 1 else aligned) (shifts + 1)
       end.

(** [1 << shifts] is undefined when [shifts] is 32. *)
Definition roundup2 (num : Z) : option Z :=
  '(aligned, shifts) ← roundup2_loop 32 num 0 0;
  if aligned =? 0 then Some num
  else if shifts <? 32 then Some (Z.shiftl 1 shifts) else None.

Definition region_allocate (i size : Z) (region_list : regions) : option (Z * regions) :=
  match region_find region_list i with
  | None => Some (0, region_list)
  | Some p =>
    r ← region_list !! p;
    if size =? 0 then Some (rsize r, region_list)
    else
      size ← roundup2 size;
      let b := Z.land (base r) (Z.lnot (Z.lor (size - 1) (mask r))) in
      let b := u32 (b - size) in
      Some (b, <[p := mk_region_info (id r) (mask r) (limit r) b (u32 (rsize r + size))
                        (name r)]> region_list)
  end.

Definition region_align (i msk : Z) (region_list : regions) : option (Z * regions) :=
  p ← region_find region_list i;
  r ← region_list !! p;
  let b := Z.land (base r) (Z.lnot msk) in
  Some (b, <[p := mk_region_info (id r) (mask r) (limit r) b (rsize r) (name r)]> region_list).

Definition region_get_name (i : Z) (region_list : regions) : option (list Z) :=
  p ← region_find region_list i; name <$> region_list !! p.
Definition region_get_size (i : Z) (region_list : regions) : Z :=
  default 0 (p ← region_find region_list i; rsize <$> region_list !! p).
Definition region_get_base (i : Z) (region_list : regions) : Z :=
  default 0 (p ← region_find region_list i; base <$> region_list !! p).
Definition region_get_limit (i : Z) (region_list : regions) : Z :=
  default 0 (p ← region_find region_list i; limit <$> region_list !! p).

(** * windows are powers of two, aligned and disjoint *)

(** ** Rounding up *)

(** The size of the window the allocator takes for a request of [n] bytes. *)
Definition window (n : Z) : Z := 2 ^ Z.log2_up n.

Lemma log2_half n : 1 < n -> Z.log2 (Z.shiftr n 1) = Z.log2 n - 1.
Proof. intros Hn. rewrite Z.log2_shiftr by lia. pose proof (Z.log2_pos n ltac:(lia)). lia. Qed.

(** The loop counts the bits of [n], and below the highest one those that are set. *)
Lemma roundup2_loop_spec fuel : forall n a s,
  0 < n < 2 ^ Z.of_nat fuel ->
  exists a', roundup2_loop fuel n a s = Some (a', s + Z.log2 n + 1) /\ a <= a' /\
             (a' = a <-> n = 2 ^ Z.log2 n).
Proof.
  induction fuel as [|fuel IH]; intros n a s Hn; [change (2 ^ Z.of_nat 0) with 1 in Hn; lia|].
  cbn [roundup2_loop]. rewrite (proj2 (Z.eqb_neq n 0)) by lia.
  destruct (decide (n = 1)) as [->|H1].
  { exists a. split; [by destruct fuel; simpl; do 2 f_equal; lia|]. simpl. lia. }
  rewrite (proj2 (Z.ltb_lt 1 n)), andb_true_r by lia.
  assert (Hh : n = 2 * Z.shiftr n 1 + Z.b2z (Z.odd n)).
  { rewrite Z.shiftr_div_pow2, Z.pow_1_r by lia. rewrite <- Z.bit0_odd.
    pose proof (Z.div_mod n 2 ltac:(lia)) as Hd. by rewrite <- Z.bit0_mod in Hd. }
  rewrite Nat2Z.inj_succ, Z.pow_succ_r in Hn by lia.
  assert (Hb : 0 <= Z.b2z (Z.odd n) < 2) by (destruct (Z.odd n); simpl; lia).
  destruct (IH (Z.shiftr n 1) (if Z.odd n then a + 1 else a) (s + 1)) as (a' & -> & Hle & Heq);
    [lia|].
  exists a'. rewrite log2_half by lia. split; [do 2 f_equal; lia|].
  assert (Hlog : 1 <= Z.log2 n) by (pose proof (Z.log2_pos n ltac:(lia)); lia).
  rewrite log2_half in Heq by lia.
  assert (Hpow : 2 ^ Z.log2 n = 2 * 2 ^ (Z.log2 n - 1))
    by (rewrite <- Z.pow_succ_r by lia; f_equal; lia).
  rewrite Hpow. destruct (Z.odd n); simpl in Hh; lia.
Qed.

Lemma roundup2_window n : 1 <= n <= 2 ^ 31 -> roundup2 n = Some (window n).
Proof.
  intros Hn. unfold roundup2, window.
  destruct (roundup2_loop_spec 32 n 0 0) as (a & -> & Ha & Hp); [lia|]. cbn [mbind option_bind].
  destruct (decide (a = 0)) as [->|Hne].
  - cbn [Z.eqb]. destruct Hp as [Hp _]. rewrite Hp at 1 by done.
    rewrite (Hp eq_refl) at 2. by rewrite Z.log2_up_pow2 by apply Z.log2_nonneg.
  - rewrite (proj2 (Z.eqb_neq a 0)) by done.
    assert (Hn1 : 1 < n) by (destruct (decide (n = 1)) as [->|]; [tauto|lia]).
    assert (Hup : Z.log2_up n = Z.log2 n + 1).
    { pose proof (Z.le_log2_up_succ_log2 n).
      pose proof (Z.le_log2_log2_up n).
      assert (Z.log2_up n <> Z.log2 n); [|lia]. intros E. apply Hne, Hp.
      pose proof (Z.log2_spec n ltac:(lia)). pose proof (Z.log2_up_spec n Hn1). rewrite E in *. lia. }
    assert (Z.log2_up n <= 31).
    { rewrite <- (Z.log2_up_pow2 31) by lia. apply Z.log2_up_le_mono. lia. }
    rewrite (proj2 (Z.ltb_lt _ _)) by lia.
    rewrite Z.shiftl_mul_pow2 by (pose proof (Z.log2_nonneg n); lia).
    by rewrite Z.mul_1_l, Hup, Z.add_0_l.
Qed.

Lemma window_le n : 1 <= n -> n <= window n < 2 * n.
Proof.
  intros Hn. unfold window. destruct (decide (n = 1)) as [->|H1]; [by vm_compute|].
  pose proof (Z.log2_up_spec n ltac:(lia)) as Hs.
  assert (Hp : 0 < Z.log2_up n) by (apply Z.log2_up_pos; lia).
  assert (2 ^ Z.log2_up n = 2 * 2 ^ Z.pred (Z.log2_up n)); [|lia].
  rewrite <- Z.pow_succ_r by lia. f_equal. lia.
Qed.

(** Clearing the low bits loses no more than the mask. *)
Lemma land_lnot_bounds b m : 0 <= b -> 0 <= m -> b - m <= Z.land b (Z.lnot m) <= b.
Proof.
  intros Hb Hm. rewrite <- Z.ldiff_land.
  assert (Hd : b - Z.land b m = Z.ldiff b m).
  { rewrite Z.sub_nocarry_ldiff.
    - apply Z.bits_inj'. intros i Hi. rewrite !Z.ldiff_spec, Z.land_spec.
      by destruct (Z.testbit b i), (Z.testbit m i).
    - apply Z.bits_inj'. intros i Hi. rewrite Z.ldiff_spec, Z.land_spec, Z.bits_0.
      by destruct (Z.testbit b i), (Z.testbit m i). }
  assert (Hm' : m - Z.land b m = Z.ldiff m b).
  { rewrite Z.sub_nocarry_ldiff.
    - apply Z.bits_inj'. intros i Hi. rewrite !Z.ldiff_spec, Z.land_spec.
      by destruct (Z.testbit b i), (Z.testbit m i).
    - apply Z.bits_inj'. intros i Hi. rewrite Z.ldiff_spec, Z.land_spec, Z.bits_0.
      by destruct (Z.testbit b i), (Z.testbit m i). }
  assert (0 <= Z.ldiff m b) by (apply Z.ldiff_nonneg; lia).
  assert (0 <= Z.land b m) by (apply Z.land_nonneg; lia). lia.
Qed.

Lemma lor_le_add a b : 0 <= a -> 0 <= b -> 0 <= Z.lor a b <= a + b.
Proof.
  intros Ha Hb. split; [by apply Z.lor_nonneg|].
  pose proof (Z.add_lor_land a b). assert (0 <= Z.land a b) by (apply Z.land_nonneg; lia). lia.
Qed.

(** A block cut below a base with the low bits cleared is aligned to its size. *)
Lemma cleared_mod b k m : 0 <= k -> Z.land b (Z.lnot (Z.lor (2 ^ k - 1) m)) mod 2 ^ k = 0.
Proof.
  intros Hk. rewrite <- Z.land_ones by lia. rewrite Z.ones_equiv, <- Z.sub_1_r.
  apply Z.bits_inj'. intros i Hi.
  rewrite !Z.land_spec, Z.lnot_spec, Z.lor_spec, Z.bits_0 by lia.
  destruct (Z.testbit b i), (Z.testbit (2 ^ k - 1) i), (Z.testbit m i); done.
Qed.

(** ** One allocation *)

(** Region [i] is the record [r]. *)
Definition region_at (i : Z) (r : region_info) (l : regions) : Prop :=
  exists p, region_find l i = Some p /\ l !! p = Some r.

(** The values of the C fields. *)
Definition region_ok (r : region_info) : Prop :=
  0 <= base r < 2 ^ 32 /\ 0 <= mask r < 256 /\ 0 <= rsize r < 2 ^ 32.

Lemma region_find_id l i p : region_find l i = Some p -> exists r, l !! p = Some r /\ id r = i.
Proof.
  revert p. induction l as [|r l IH]; intros p H; [done|]. cbn [region_find] in H.
  destruct (Z.eqb_spec (id r) i) as [He|Hne].
  - simplify_eq. by exists r.
  - destruct (region_find l i) as [q|]; [|done]. simplify_option_eq. by apply IH.
Qed.

(** Replacing a record by one with the same id does not change what is found. *)
Lemma region_find_insert l p r' i :
  (forall r, l !! p = Some r -> id r' = id r) -> region_find (<[p := r']> l) i = region_find l i.
Proof.
  revert p. induction l as [|r l IH]; intros [|p] Hid; [done..| |].
  - cbn. by rewrite (Hid r eq_refl).
  - cbn. rewrite IH; [done|]. intros r0 H. by apply Hid.
Qed.

Lemma region_at_insert l p r r' :
  region_find l (id r) = Some p -> l !! p = Some r -> id r' = id r ->
  region_at (id r) r' (<[p := r']> l).
Proof.
  intros Hf Hp Hid. exists p. split.
  - rewrite region_find_insert; [done|]. intros r0 H0. congruence.
  - apply list_lookup_insert_eq. by eapply lookup_lt_Some.
Qed.

Lemma region_at_other l p r r' j rj :
  l !! p = Some r -> id r' = id r -> j <> id r ->
  region_at j rj l -> region_at j rj (<[p := r']> l).
Proof.
  intros Hp Hid Hj (q & Hf & Hq). exists q. split.
  - rewrite region_find_insert; [done|]. intros r0 H0. congruence.
  - rewrite list_lookup_insert_ne; [done|]. intros ->.
    destruct (region_find_id _ _ _ Hf) as (rq & ? & ?). congruence.
Qed.

Lemma region_at_id i r l : region_at i r l -> id r = i.
Proof. intros (p & Hf & Hp). destruct (region_find_id _ _ _ Hf) as (r' & ? & ?). congruence. Qed.

(** What an allocation needs so that the base does not wrap below zero. *)
Definition room (n : Z) (r : region_info) : Z := 2 * window n + mask r.

Lemma region_allocate_step i n r l :
  region_at i r l -> region_ok r -> 1 <= n <= 2 ^ 31 -> room n r <= base r ->
  exists b l', region_allocate i n l = Some (b, l') /\
    base r - room n r <= b /\ b + window n <= base r /\ b mod window n = 0 /\
    region_at i (mk_region_info i (mask r) (limit r) b (u32 (rsize r + window n)) (name r)) l' /\
    (forall j rj, j <> i -> region_at j rj l -> region_at j rj l').
Proof.
  intros Hat (Hb & Hm & Hs) Hn Hroom. pose proof (region_at_id _ _ _ Hat) as Hid.
  destruct Hat as (p & Hf & Hp). pose proof (window_le n ltac:(lia)) as Hw. unfold room in *.
  unfold region_allocate. rewrite Hf, Hp. cbn [mbind option_bind].
  rewrite (proj2 (Z.eqb_neq n 0)), roundup2_window by lia. cbn [mbind option_bind].
  pose proof (lor_le_add (window n - 1) (mask r) ltac:(lia) ltac:(lia)).
  pose proof (land_lnot_bounds (base r) (Z.lor (window n - 1) (mask r)) ltac:(lia) ltac:(lia)).
  pose proof (cleared_mod (base r) (Z.log2_up n) (mask r) ltac:(apply Z.log2_up_nonneg)) as Hmod.
  fold (window n) in Hmod.
  set (c := Z.land (base r) _) in *.
  rewrite u32_small by lia. eexists _, _. split; [done|].
  split; [lia|]. split; [lia|]. split.
  { rewrite <- (Z.mod_add c (-1) (window n)) in Hmod by lia.
    by replace (c + -1 * window n) with (c - window n) in Hmod by lia. }
  rewrite <- Hid. split; [by apply region_at_insert; rewrite ?Hid|].
  intros j rj Hj Hjat. by eapply region_at_other.
Qed.

(** ** A sequence of allocations *)

Fixpoint allocate_all (i : Z) (sizes : list Z) (l : regions) : option (list Z * regions) :=
  match sizes with
  | [] => Some ([], l)
  | n :: sizes =>
    '(b, l) ← region_allocate i n l;
    '(bs, l) ← allocate_all i sizes l;
    Some (b :: bs, l)
  end.

(** The blocks lie one below the other, all below [top] and from [bottom] up. *)
Fixpoint stacked (top : Z) (blocks : list (Z * Z)) (bottom : Z) : Prop :=
  match blocks with
  | [] => bottom = top
  | (b, w) :: blocks => b + w <= top /\ 0 < w /\ b mod w = 0 /\ stacked b blocks bottom
  end.

Definition room_all (sizes : list Z) (r : region_info) : Z :=
  foldr (fun n t => room n r + t) 0 sizes.

Lemma room_all_nonneg sizes r :
  0 <= mask r -> Forall (fun n => 1 <= n <= 2 ^ 31) sizes -> 0 <= room_all sizes r.
Proof.
  intros Hm. induction 1 as [|n sizes Hn _ IH]; [done|]. simpl. unfold room.
  pose proof (window_le n ltac:(lia)). lia.
Qed.

(** C38: allocations of any sizes from 1 to 2^31 bytes (not of size 0, which gets an address and
    no block) from a region that has room give blocks that are each a power of two of bytes
    at least as large as asked for, aligned to its size, and stacked downward without overlap
    from the old base to the new one; the other regions are untouched. *)
Theorem region_allocate_windows i sizes r l :
  region_at i r l -> region_ok r -> Forall (fun n => 1 <= n <= 2 ^ 31) sizes ->
  room_all sizes r <= base r ->
  exists bs l' r', allocate_all i sizes l = Some (bs, l') /\ length bs = length sizes /\
    stacked (base r) (zip bs (map window sizes)) (base r') /\
    Forall (fun n => n <= window n) sizes /\
    region_at i r' l' /\ region_get_base i l' = base r' /\ region_ok r' /\
    (forall j rj, j <> i -> region_at j rj l -> region_at j rj l').
Proof.
  intros Hat Hok Hsz. revert r l Hat Hok.
  induction Hsz as [|n sizes Hn Hsz IH]; intros r l Hat Hok Hroom.
  - exists [], l, r. split_and!; try done.
    destruct Hat as (p & Hf & Hp). unfold region_get_base. rewrite Hf. cbn. by rewrite Hp.
  - cbn [room_all foldr] in Hroom. change (foldr _ 0 sizes) with (room_all sizes r) in Hroom.
    pose proof (room_all_nonneg sizes r ltac:(apply Hok) Hsz) as Hnn.
    destruct (region_allocate_step i n r l Hat Hok Hn ltac:(lia))
      as (b & l1 & E & Hlow & Hhigh & Hmod & Hat1 & Hoth).
    pose proof (window_le n ltac:(lia)). destruct Hok as (? & ? & ?). unfold room in *.
    destruct (IH _ l1 Hat1) as (bs & l2 & r2 & E2 & Hlen & Hst & Hfa & Hat2 & Hg & Hok2 & Hoth2).
    { split_and!; cbn; try lia; try apply u32_range. }
    { change (room_all sizes _) with (room_all sizes r). cbn [base]. lia. }
    exists (b :: bs), l2, r2. cbn [allocate_all]. rewrite E. cbn [mbind option_bind].
    rewrite E2. cbn [mbind option_bind]. split; [done|]. split; [by simpl; rewrite Hlen|].
    split; [by cbn; split_and!; try lia|]. split; [by constructor; [lia|]|].
    split_and!; try done; try apply Hok2. intros j rj Hj Hrj. by apply Hoth2, Hoth.
Qed.

(** The I/O and memory regions of [pci_resource_init]. *)
Definition pci_regions : regions :=
  region_init true 2 15 4261412864 [77; 77; 73; 79] (region_init true 1 3 61440 [73; 47; 79] []).

Lemma region_allocate_windows_witness :
  exists bs l' r', allocate_all 2 [4096; 100; 16] pci_regions = Some (bs, l') /\
    stacked 4261412864 (zip bs [4096; 128; 16]) (base r') /\ region_at 2 r' l'.
Proof.
  destruct (region_allocate_windows 2 [4096; 100; 16]
              (mk_region_info 2 15 4261412864 4261412864 0 [77; 77; 73; 79]) pci_regions)
    as (bs & l' & r' & E & _ & Hst & _ & Hat & _).
  - exists 1%nat. by vm_compute.
  - repeat split; by vm_compute.
  - repeat constructor; by vm_compute.
  - by vm_compute.
  - exists bs, l', r'. split; [exact E|]. split; [exact Hst|exact Hat].
Defined.

(** C39: [roundup2] turns every size up to [2^31] into the least power of two that is not
    below it, and its loop ends. *)
Theorem roundup2_least n :
  1 <= n <= 2 ^ 31 ->
  exists k, 0 <= k <= 31 /\ roundup2 n = Some (2 ^ k) /\ n <= 2 ^ k /\
            (forall j, 0 <= j -> n <= 2 ^ j -> 2 ^ k <= 2 ^ j).
Proof.
  intros Hn. exists (Z.log2_up n). rewrite roundup2_window by done.
  pose proof (Z.log2_up_nonneg n). pose proof (window_le n ltac:(lia)) as Hw.
  split; [split; [done|]|split; [done|split; [unfold window in Hw; lia|]]].
  - rewrite <- (Z.log2_up_pow2 31) by lia. apply Z.log2_up_le_mono; lia.
  - intros j Hj Hle. apply Z.pow_le_mono_r; [lia|].
    rewrite <- (Z.log2_up_pow2 j) by lia. by apply Z.log2_up_le_mono.
Qed.

Lemma roundup2_least_witness :
  roundup2 1025 = Some 2048 /\
  exists k, 0 <= k <= 31 /\ roundup2 1025 = Some (2 ^ k) /\ 1025 <= 2 ^ k /\
            (forall j, 0 <= j -> 1025 <= 2 ^ j -> 2 ^ k <= 2 ^ j).
Proof. split; [reflexivity|]. apply (roundup2_least 1025). split; by vm_compute. Defined.

(** A request smaller than the alignment of its region gives a block that is not
    aligned to the region: the base is aligned before the size is subtracted, not after. *)
Theorem region_allocate_mask_lost :
  exists l', region_allocate 2 4 pci_regions = Some (4261412860, l') /\
    region_get_base 2 pci_regions = 4261412864 /\ Z.land 4261412860 15 = 12.
Proof. eexists. split; [vm_compute; reflexivity|]. split; reflexivity. Qed.
