(* ===== verification/Pci.v ===== *)
(** * Pci: devices, buses and their base address registers

    Model of the data of [x86/include/common/pci.h] and of the parts of
    [x86/common/pci.c] that work on one device or search the tree.  A bus owns its
    devices and the buses below it ([kids], in the order of the [peer] pointers); the
    bridge that leads to it ([self]) is named by its bus number and its
    device/function number, which is all the code uses of it.  Names of devices are not
    modelled. *)

From S2P Require Import Prelude Region PciIo.

Inductive pci_bar_t := PCI_BAR_EMPTY | PCI_BAR_IO | PCI_BAR_MMIO | PCI_BAR_PMMIO.

#[export] Instance pci_bar_t_eq_dec : EqDecision pci_bar_t.
Proof. solve_decision. Defined.

(** The value of the enumeration: the index of a resource and the id of a region. *)
Definition bar_id (t : pci_bar_t) : Z :=
  match t with PCI_BAR_EMPTY => 0 | PCI_BAR_IO => 1 | PCI_BAR_MMIO => 2 | PCI_BAR_PMMIO => 3 end.

Record pci_bar := mk_bar {
  bar_type : pci_bar_t;
  bar_base : Z;
  bar_limit : Z;
  bar_size : Z;
  bar_size2 : Z;
  bar_addr64 : Z;
}.

Record pci_dev := mk_dev {
  vendor : Z;
  device : Z;
  htype : Z;
  class : Z;
  revision : Z;
  devfn : Z;
  irq : Z;
  master : Z;
  multifunc : Z;
  bar : list pci_bar;
}.

(** The functions [set_resource_range] can point to. *)
Inductive range_fn := pci_resource_bridge | pci_resource_cardbus | pci_resource_cnb30le | pci_resource_m1541.

Record bus_info := mk_bus_info {
  busnum : Z;
  pri : Z;
  bus_sub : Z;
  last_kid : Z;
  fbbe : Z;
  freq : Z;
  root : Z;
  self : option (Z * Z);
  resource : list pci_bar;
  set_resource_range : option range_fn;
}.

Inductive pci_bus := mk_bus (info : bus_info) (devices : list pci_dev) (kids : list pci_bus).

Definition info (b : pci_bus) : bus_info := let 'mk_bus i _ _ := b in i.
Definition devices (b : pci_bus) : list pci_dev := let 'mk_bus _ d _ := b in d.
Definition kids (b : pci_bus) : list pci_bus := let 'mk_bus _ _ k := b in k.

(** Induction on a bus with the hypothesis for every bus below it. *)
Lemma pci_bus_nested_ind (P : pci_bus -> Prop) :
  (forall i d k, Forall P k -> P (mk_bus i d k)) -> forall b, P b.
Proof.
  intros H. fix IH 1. intros [i d k]. apply H. induction k as [|b k IHk]; constructor; [apply IH|done].
Qed.

(** ** Updates of fields *)

Definition set_bar_window (b l : Z) (r : pci_bar) : pci_bar :=
  mk_bar (bar_type r) b l (bar_size r) (bar_size2 r) (bar_addr64 r).
Definition set_bar_size (n : Z) (r : pci_bar) : pci_bar :=
  mk_bar (bar_type r) (bar_base r) (bar_limit r) n (bar_size2 r) (bar_addr64 r).
Definition set_bars (bs : list pci_bar) (d : pci_dev) : pci_dev :=
  mk_dev (vendor d) (device d) (htype d) (class d) (revision d) (devfn d) (irq d) (master d)
    (multifunc d) bs.
Definition set_resource (rs : list pci_bar) (i : bus_info) : bus_info :=
  mk_bus_info (busnum i) (pri i) (bus_sub i) (last_kid i) (fbbe i) (freq i) (root i) (self i) rs
    (set_resource_range i).

(** ** Fresh structures *)

Definition bar_blank (t : pci_bar_t) : pci_bar := mk_bar t 0 0 0 0 0.
Definition pci_dev_blank : pci_dev := mk_dev 0 0 0 0 0 0 0 0 0 (replicate 6 (bar_blank PCI_BAR_EMPTY)).
Definition pci_bus_blank : bus_info :=
  mk_bus_info 0 0 0 0 0 0 0 None
    (map bar_blank [PCI_BAR_EMPTY; PCI_BAR_IO; PCI_BAR_MMIO; PCI_BAR_PMMIO]) None.

(** The resource of one type. *)
Definition map_of (t : pci_bar_t) (i : bus_info) : pci_bar :=
  nth (Z.to_nat (bar_id t)) (resource i) (bar_blank t).
Definition set_map (t : pci_bar_t) (m : pci_bar) (i : bus_info) : bus_info :=
  set_resource (<[Z.to_nat (bar_id t) := m]> (resource i)) i.

(** ** Lookups *)

(** [find_bus]: a level of the tree, depth first. *)
Fixpoint find_bus_in (num : Z) (b : pci_bus) : option pci_bus :=
  if busnum (info b) =? num then Some b
  else
    (fix find (l : list pci_bus) :=
       match l with
       | [] => None
       | b :: peers =>
         match find_bus_in num b with Some r => Some r | None => find peers end
       end) (kids b).

Fixpoint find_bus (num : Z) (l : list pci_bus) : option pci_bus :=
  match l with
  | [] => None
  | b :: peers =>
    match find_bus_in num b with Some r => Some r | None => find_bus num peers end
  end.

(** What the list [pci_devices] says of a device: the number of its bus, and the fields
    that never change once it is in the list. *)
Record dev_id := mk_dev_id { id_bus : Z; id_devfn : Z; id_vendor : Z; id_device : Z }.

Definition pci_lookup_dev_by_bus (bus dfn : Z) (pci_devices : list dev_id) : option (nat * dev_id) :=
  list_find (fun e => id_bus e = bus /\ id_devfn e = dfn) pci_devices.

(** [start] is the position of a device in the list, or none to begin at the head. *)
Definition pci_lookup_dev (v dv : Z) (start : option nat) (pci_devices : list dev_id) :
  option (nat * dev_id) :=
  let from := match start with Some i => S i | None => O end in
  '(i, d) ← list_find (fun e => id_vendor e = v /\ id_device e = dv) (drop from pci_devices);
  Some ((from + i)%nat, d).

Definition pci_lookup (v dv : Z) (pci_devices : list dev_id) : option (nat * dev_id) :=
  pci_lookup_dev v dv None pci_devices.

(** ** State of the PCI code *)

(** A [mptable_INT_t]; [irq] is the byte of the union, [pin] in bits 1:0 and [dev] in bits
    6:2 for PCI. *)
Record mptable_INT := mk_mptable_INT {
  int_entry : Z;
  int_type : Z;
  int_polarity : Z;
  int_trigger : Z;
  int_bus : Z;
  int_irq : Z;
  int_dest_id : Z;
  int_dest_input : Z;
}.

(** The detected system of systype.c, what the next calls of [malloc] answer (when there
    is no more, they succeed), the list [pci_devices], [cardbus_legacy_bar] of pci.c,
    [last] of [pciirq_5k], the memory [pmap] points to, [ioapic_next_id] of ioapic.c and
    [mpINT_list] of mptable.c.  [mpINT_lost] is set once [mpINT_list_head] no longer leads
    to the list. *)
Record boot_vars := mk_boot_vars {
  cur_systype : Z;
  mallocs : list bool;
  pci_devices : list dev_id;
  cardbus_legacy_bar : Z;
  pirq_last : Z;
  pmap : list Z;
  ioapic_next_id : Z;
  mpINT_list : list mptable_INT;
  mpINT_lost : bool;
}.

Definition set_mallocs (l : list bool) (v : boot_vars) : boot_vars :=
  mk_boot_vars (cur_systype v) l (pci_devices v) (cardbus_legacy_bar v) (pirq_last v) (pmap v)
    (ioapic_next_id v) (mpINT_list v) (mpINT_lost v).
Definition set_pci_devices (l : list dev_id) (v : boot_vars) : boot_vars :=
  mk_boot_vars (cur_systype v) (mallocs v) l (cardbus_legacy_bar v) (pirq_last v) (pmap v)
    (ioapic_next_id v) (mpINT_list v) (mpINT_lost v).
Definition set_cardbus_legacy_bar (n : Z) (v : boot_vars) : boot_vars :=
  mk_boot_vars (cur_systype v) (mallocs v) (pci_devices v) n (pirq_last v) (pmap v)
    (ioapic_next_id v) (mpINT_list v) (mpINT_lost v).
Definition set_pirq_last (n : Z) (v : boot_vars) : boot_vars :=
  mk_boot_vars (cur_systype v) (mallocs v) (pci_devices v) (cardbus_legacy_bar v) n (pmap v)
    (ioapic_next_id v) (mpINT_list v) (mpINT_lost v).
Definition set_pmap (m : list Z) (v : boot_vars) : boot_vars :=
  mk_boot_vars (cur_systype v) (mallocs v) (pci_devices v) (cardbus_legacy_bar v) (pirq_last v) m
    (ioapic_next_id v) (mpINT_list v) (mpINT_lost v).
Definition set_ioapic_next_id (n : Z) (v : boot_vars) : boot_vars :=
  mk_boot_vars (cur_systype v) (mallocs v) (pci_devices v) (cardbus_legacy_bar v) (pirq_last v)
    (pmap v) n (mpINT_list v) (mpINT_lost v).
Definition set_mpINT (l : list mptable_INT) (lost : bool) (v : boot_vars) : boot_vars :=
  mk_boot_vars (cur_systype v) (mallocs v) (pci_devices v) (cardbus_legacy_bar v) (pirq_last v)
    (pmap v) (ioapic_next_id v) l lost.

(** The hardware, the regions of [region.c], the variables [mem_size] of memory.c,
    [bridge] of pci_resource.c and [serverworks_fadt_table] of acpi.c, and the others. *)
Record pci_state (hw : Type) := mk_pci_state {
  hardware : hw;
  regs : regions;
  mem_size : Z;
  bridge : Z;
  fadt : list Z;
  boot : boot_vars;
}.
Arguments mk_pci_state {hw} _ _ _ _ _ _.
Arguments hardware {hw} _.
Arguments regs {hw} _.
Arguments mem_size {hw} _.
Arguments bridge {hw} _.
Arguments fadt {hw} _.
Arguments boot {hw} _.

(** The queries of systype.c. *)
Definition systype (v : boot_vars) : Z := Z.land (cur_systype v) 0xffff0000.
Definition boardtype (v : boot_vars) : Z := Z.land (cur_systype v) 0x0000ffff.

(** Computations that change a state and can go wrong. *)
Definition Run (S A : Type) : Type := S -> option (A * S).
#[export] Instance Run_ret S : MRet (Run S) := fun A a s => Some (a, s).
#[export] Instance Run_bind S : MBind (Run S) :=
  fun A B k m s => match m s with Some (a, s) => k a s | None => None end.

Section Access.
Context {hw : Type} `{!IoPorts hw, !Config hw}.

Definition set_hw (h : hw) (s : pci_state hw) : pci_state hw :=
  mk_pci_state h (regs s) (mem_size s) (bridge s) (fadt s) (boot s).
Definition set_regs (l : regions) (s : pci_state hw) : pci_state hw :=
  mk_pci_state (hardware s) l (mem_size s) (bridge s) (fadt s) (boot s).
Definition set_mem_size (n : Z) (s : pci_state hw) : pci_state hw :=
  mk_pci_state (hardware s) (regs s) n (bridge s) (fadt s) (boot s).
Definition set_bridge (n : Z) (s : pci_state hw) : pci_state hw :=
  mk_pci_state (hardware s) (regs s) (mem_size s) n (fadt s) (boot s).
Definition set_fadt (t : list Z) (s : pci_state hw) : pci_state hw :=
  mk_pci_state (hardware s) (regs s) (mem_size s) (bridge s) t (boot s).
Definition set_boot (v : boot_vars) (s : pci_state hw) : pci_state hw :=
  mk_pci_state (hardware s) (regs s) (mem_size s) (bridge s) (fadt s) v.

(** Operations of the parts of the state. *)
Definition on_hw (f : hw -> hw) : Run (pci_state hw) unit := fun s => Some (tt, set_hw (f (hardware s)) s).
Definition ask_hw {A} (f : hw -> A * hw) : Run (pci_state hw) A :=
  fun s => let '(a, h) := f (hardware s) in Some (a, set_hw h s).
Definition on_regs (f : regions -> option (Z * regions)) : Run (pci_state hw) Z :=
  fun s => '(v, l) ← f (regs s); Some (v, set_regs l s).
Definition upd (f : pci_state hw -> pci_state hw) : Run (pci_state hw) unit := fun s => Some (tt, f s).
Definition ask {A} (f : pci_state hw -> A) : Run (pci_state hw) A := fun s => Some (f s, s).
Definition upd_boot (f : boot_vars -> boot_vars) : Run (pci_state hw) unit :=
  upd (fun s => set_boot (f (boot s)) s).

(** A null pointer followed, or an access outside an array. *)
Definition crash {A} : Run (pci_state hw) A := fun _ => None.

(** One call of [malloc]: whether it succeeds. *)
Definition malloc : Run (pci_state hw) bool :=
  fun s =>
    let l := mallocs (boot s) in
    Some (default true (head l), set_boot (set_mallocs (tail l) (boot s)) s).

(** [pci_dev_read_config] and [pci_dev_write_config]: a device is the number of its bus
    and its device/function number. *)
Definition pci_dev_read_config (d : Z * Z) (reg n : Z) : Run (pci_state hw) Z :=
  ask_hw (read_config d.1 d.2 reg n).
Definition pci_dev_write_config (d : Z * Z) (reg v n : Z) : Run (pci_state hw) unit :=
  on_hw (write_config d.1 d.2 reg v n).
Definition pci_dev_readb (d : Z * Z) (reg : Z) := v ← pci_dev_read_config d reg 1; mret (u8 v).
Definition pci_dev_readw (d : Z * Z) (reg : Z) := v ← pci_dev_read_config d reg 2; mret (u16 v).
Definition pci_dev_readl (d : Z * Z) (reg : Z) := v ← pci_dev_read_config d reg 4; mret (u32 v).
Definition pci_dev_writeb (d : Z * Z) (reg v : Z) := pci_dev_write_config d reg (u8 v) 1.
Definition pci_dev_writew (d : Z * Z) (reg v : Z) := pci_dev_write_config d reg (u16 v) 2.
Definition pci_dev_writel (d : Z * Z) (reg v : Z) := pci_dev_write_config d reg (u32 v) 4.

End Access.
