(* ===== verification/Acpi.v ===== *)
(** * Acpi: the ACPI tables and the I/O blocks of the power management unit

    Model of [x86/common/acpi.c] but for [superio_init].  The packed structures are
    their bytes; a field is written at its offset.  Physical memory is the page from
    [ACPI_BASE] to [ACPI_END], where [table_init] copies the tables. *)

From stdpp Require Import strings.
From S2P Require Import Prelude Region PciIo Pci.
Open Scope list_scope.
Open Scope Z_scope.

Definition ACPI_INDEX_REG : Z := 0x0cd6.
Definition ACPI_DATA_REG : Z := 0x0cd7.
Definition PM1_EVT_REG : Z := 0x20.
Definition PM1_CNT_REG : Z := 0x22.
Definition PM_TMR_REG : Z := 0x24.
Definition P_CNT_REG : Z := 0x26.
Definition GPE0_BLK_REG : Z := 0x28.

Definition ACPI_BASE : Z := 0xffe00.
Definition ACPI_END : Z := 0xfffff.
Definition ACPI_RSDP_SIZE : nat := 36.
Definition ACPI_RSDT_SIZE : nat := 40.
Definition ACPI_XSDT_SIZE : nat := 44.
Definition ACPI_FADT_SIZE : nat := 244.
Definition ACPI_RSDP_OFF : Z := ACPI_BASE.
Definition ACPI_RSDT_OFF : Z := ACPI_RSDP_OFF + Z.of_nat ACPI_RSDP_SIZE.
Definition ACPI_XSDT_OFF : Z := ACPI_RSDT_OFF + Z.of_nat ACPI_RSDT_SIZE.
Definition ACPI_FADT_OFF : Z := ACPI_XSDT_OFF + Z.of_nat ACPI_XSDT_SIZE.

Definition PM1_EVT_LEN : Z := 4.
Definition PM1_CNT_LEN : Z := 2.
Definition PM1_CNT_LEN_A : Z := 4.
Definition PM_TMR_LEN : Z := 4.
Definition P_CNT_LEN_A : Z := 8.
Definition GPE0_BLK_LEN : Z := 8.
Definition GPE1_BLK_LEN : Z := 0x10.
Definition GAS_ADDR_SYSTEM_MEMORY : Z := 0.
Definition GAS_ADDR_SYSTEM_IO : Z := 1.
Definition IRQ_ACPI : Z := 10.

(** ** The initial tables *)

Definition OEMID : list Z := chars "COBT" ++ [0; 0].
Definition OEMMODELID : list Z := chars "MONTEREY".
Definition CREATOR_ID : list Z := chars "COBT".

(** An [sdth_table_t]; the checksum is calculated later. *)
Definition sdth (sig : list Z) (len : nat) (rev : Z) : list Z :=
  sig ++ le_bytes 4 (Z.of_nat len) ++ [rev; 0] ++ OEMID ++ OEMMODELID ++ le_bytes 4 1 ++
  CREATOR_ID ++ le_bytes 4 0x01000000.

(** A [gas_addr_t]. *)
Definition gas (space width offset addr : Z) : list Z :=
  [u8 space; u8 width; u8 offset; 0] ++ le_bytes 8 addr.

Definition FFEATURE_FLAG_DEFAULT : Z :=
  Z.lor (Z.lor (Z.lor (Z.lor (Z.shiftl 1 0) (Z.shiftl 1 1)) (Z.shiftl 1 4)) (Z.shiftl 1 10)) (Z.shiftl 1 12).

Definition serverworks_fadt_table : list Z :=
  sdth (chars "FACP") ACPI_FADT_SIZE 3 ++
  le_bytes 4 0 ++ le_bytes 4 0 ++ [0; 0] ++ le_bytes 2 IRQ_ACPI ++ le_bytes 4 0 ++ [0; 0; 0; 0] ++
  zeros 32 ++
  [PM1_EVT_LEN; PM1_CNT_LEN; 0; PM_TMR_LEN; GPE0_BLK_LEN; GPE1_BLK_LEN; 0; 0] ++
  le_bytes 2 0x65 ++ le_bytes 2 0x3e9 ++ le_bytes 2 0 ++ le_bytes 2 0 ++ [0; 0; 0; 0; 0] ++
  le_bytes 2 0 ++ [0] ++ le_bytes 4 FFEATURE_FLAG_DEFAULT ++
  gas GAS_ADDR_SYSTEM_MEMORY 2 0 0x0cf9 ++ [0x06] ++ zeros 3 ++
  le_bytes 8 0 ++ le_bytes 8 0 ++ zeros 96.

Definition serverworks_rsdp_table : list Z :=
  chars "RSD " ++ chars "PTR " ++ [0] ++ OEMID ++ [2] ++ le_bytes 4 ACPI_RSDT_OFF ++
  le_bytes 4 (Z.of_nat ACPI_RSDP_SIZE) ++ le_bytes 8 ACPI_XSDT_OFF ++ [0] ++ zeros 3.
Definition serverworks_rsdt_table : list Z :=
  sdth (chars "RSDT") ACPI_RSDT_SIZE 2 ++ le_bytes 4 ACPI_FADT_OFF.
Definition serverworks_xsdt_table : list Z :=
  sdth (chars "XSDT") ACPI_XSDT_SIZE 2 ++ le_bytes 8 ACPI_FADT_OFF.

(** Offsets of the fields that are written. *)
Definition rsdp_checksum : nat := 8.
Definition rsdp_extended_csum : nat := 32.
Definition sdth_checksum : nat := 9.
Definition fadt_sci_int : nat := 46.
Definition fadt_pm1a_evt_blk : nat := 56.
Definition fadt_pm1a_cnt_blk : nat := 64.
Definition fadt_pm_tmr_blk : nat := 76.
Definition fadt_gpe0_blk : nat := 80.
Definition fadt_x_pm1a_evt_blk : nat := 148.
Definition fadt_x_pm1a_cnt_blk : nat := 172.
Definition fadt_x_pm_tmr_blk : nat := 208.
Definition fadt_x_gpe0_blk : nat := 220.

(** ** table_init *)

(** The loops over the bytes of a table: [sum -= byte]. *)
Fixpoint sub_sum (bs : list Z) (sum : Z) : Z :=
  match bs with
  | [] => sum
  | b :: bs => sub_sum bs (u8 (sum - b))
  end.

(** The static tables. *)
Record acpi_tables := mk_acpi_tables { rsdp : list Z; rsdt : list Z; xsdt : list Z; t_fadt : list Z }.

Definition table_init (irq : Z) (t : acpi_tables) (page : list Z) : acpi_tables * list Z :=
  let fadt := put16 fadt_sci_int irq (t_fadt t) in
  let sum := sub_sum (take 20 (rsdp t)) 0 in
  let rsdp' := put rsdp_checksum [sum] (rsdp t) in
  let sum := sub_sum (drop 20 rsdp') sum in
  let rsdp' := put rsdp_extended_csum [sum] rsdp' in
  let rsdt' := put sdth_checksum [sub_sum (rsdt t) 0] (rsdt t) in
  let xsdt' := put sdth_checksum [sub_sum (xsdt t) 0] (xsdt t) in
  let fadt := put sdth_checksum [sub_sum fadt 0] fadt in
  let at_ a := Z.to_nat (a - ACPI_BASE) in
  (mk_acpi_tables rsdp' rsdt' xsdt' fadt,
   put (at_ ACPI_FADT_OFF) fadt
     (put (at_ ACPI_XSDT_OFF) xsdt'
       (put (at_ ACPI_RSDT_OFF) rsdt'
         (put (at_ ACPI_RSDP_OFF) rsdp' page)))).

(** ** I/O blocks *)

Section Acpi.
Context {hw : Type} `{!IoPorts hw, !Config hw}.

Definition p_outb (v port : Z) : Run (pci_state hw) unit := on_hw (outb v port).

Definition acpi_allocate (n port : Z) : Run (pci_state hw) Z :=
  addr ← on_regs (region_allocate (bar_id PCI_BAR_IO) n);
  p_outb port ACPI_INDEX_REG;;
  p_outb (Z.land addr 0xff) ACPI_DATA_REG;;
  p_outb (port + 1) ACPI_INDEX_REG;;
  p_outb (Z.land (Z.shiftr addr 8) 0xff) ACPI_DATA_REG;;
  mret addr.

(** [acpi_gas_assign] leaves the reserved byte of the structure. *)
Definition acpi_gas_assign (off : nat) (addr type len offset : Z) (t : list Z) : list Z :=
  put (off + 4) (le_bytes 8 addr) (put off [u8 type; u8 len; u8 offset] t).

(** A block of the FADT in its 32-bit field and its extended one. *)
Definition set_block (blk x_blk : nat) (addr len : Z) : Run (pci_state hw) unit :=
  upd (fun s => set_fadt (acpi_gas_assign x_blk addr GAS_ADDR_SYSTEM_IO len 0
                           (put32 blk addr (fadt s))) s).

(** [addr] is a [word]. *)
Definition acpi_osb4_init : Run (pci_state hw) unit :=
  p_outb 0x0e ACPI_INDEX_REG;;
  p_outb 0x8 ACPI_DATA_REG;;
  addr ← acpi_allocate PM1_EVT_LEN PM1_EVT_REG;
  set_block fadt_pm1a_evt_blk fadt_x_pm1a_evt_blk (u16 addr) PM1_EVT_LEN;;
  addr ← acpi_allocate PM1_CNT_LEN_A PM1_CNT_REG;
  set_block fadt_pm1a_cnt_blk fadt_x_pm1a_cnt_blk (u16 addr) PM1_CNT_LEN;;
  on_hw (outw 0x1 (u16 addr));;
  addr ← acpi_allocate PM_TMR_LEN PM_TMR_REG;
  set_block fadt_pm_tmr_blk fadt_x_pm_tmr_blk (u16 addr) PM_TMR_LEN;;
  _ ← acpi_allocate P_CNT_LEN_A P_CNT_REG;
  addr ← acpi_allocate GPE0_BLK_LEN GPE0_BLK_REG;
  set_block fadt_gpe0_blk fadt_x_gpe0_blk (u16 addr) GPE0_BLK_LEN;;
  p_outb 0x40 (u16 addr + 4);;
  p_outb 0xff (u16 addr);;
  p_outb 0xff (u16 addr + 1);;
  p_outb 0xff (u16 addr + 2);;
  p_outb 0xff (u16 addr + 3).

End Acpi.

Example tables_sized :
  length serverworks_fadt_table = ACPI_FADT_SIZE /\ length serverworks_rsdp_table = ACPI_RSDP_SIZE /\
  length serverworks_rsdt_table = ACPI_RSDT_SIZE /\ length serverworks_xsdt_table = ACPI_XSDT_SIZE.
Proof. done. Qed.

(** ** The checksums *)

Definition byte_sum (bs : list Z) : Z := foldr Z.add 0 bs.

Lemma sub_sum_spec bs : forall sum, bs <> [] -> sub_sum bs sum = u8 (sum - byte_sum bs).
Proof.
  induction bs as [|b bs IH]; intros sum Hne; [done|]. cbn [sub_sum byte_sum foldr].
  change (foldr Z.add 0 bs) with (byte_sum bs). destruct bs as [|c bs].
  { change (u8 (sum - b) = u8 (sum - (b + 0))). f_equal. lia. }
  rewrite IH by done. unfold u8. rewrite Zminus_mod_idemp_l. f_equal. lia.
Qed.

Lemma byte_sum_app a b : byte_sum (a ++ b) = byte_sum a + byte_sum b.
Proof. induction a as [|x a IH]; [done|]. simpl. rewrite IH. lia. Qed.

(** Writing one byte changes the sum by the difference. *)
Lemma byte_sum_put i v w bs :
  bs !! i = Some v -> byte_sum (put i [w] bs) = byte_sum bs - v + w.
Proof.
  intros H. assert (E : byte_sum bs = byte_sum (take i bs ++ v :: drop (S i) bs))
    by (by rewrite (take_drop_middle bs i v H)).
  rewrite E. unfold put. rewrite !byte_sum_app. simpl length. rewrite Nat.add_1_r. simpl. lia.
Qed.

(** Setting the checksum field of a table that holds 0 there makes its sum 0. *)
Lemma checksum_zero i bs :
  bs !! i = Some 0 -> byte_sum (put i [sub_sum bs 0] bs) mod 256 = 0.
Proof.
  intros H. rewrite (byte_sum_put i 0) by done. rewrite sub_sum_spec by (by intros ->).
  unfold u8. rewrite Z.add_mod_idemp_r by done. by replace (_ + _) with 0 by lia.
Qed.

(** A table of the page. *)
Definition table_at (a : Z) (n : nat) (page : list Z) : list Z := sub (Z.to_nat (a - ACPI_BASE)) n page.

(** The four tables lie one behind the other in the page. *)
Lemma tables_placed a b c d page :
  length a = ACPI_RSDP_SIZE -> length b = ACPI_RSDT_SIZE -> length c = ACPI_XSDT_SIZE ->
  length d = ACPI_FADT_SIZE -> length page = 512%nat ->
  let page' := put 120 d (put 76 c (put 36 b (put 0 a page))) in
  length page' = 512%nat /\ sub 0 36 page' = a /\ sub 36 40 page' = b /\ sub 76 44 page' = c /\
  sub 120 244 page' = d /\ drop 364 page' = drop 364 page.
Proof.
  intros Ha Hb Hc Hd Hp page'.
  unfold ACPI_RSDP_SIZE, ACPI_RSDT_SIZE, ACPI_XSDT_SIZE, ACPI_FADT_SIZE in *.
  assert (H0 : length (put 0 a page) = 512%nat) by (rewrite length_put; lia).
  assert (H1 : length (put 36 b (put 0 a page)) = 512%nat) by (rewrite length_put; lia).
  assert (H2 : length (put 76 c (put 36 b (put 0 a page))) = 512%nat) by (rewrite length_put; lia).
  subst page'. split_and!.
  - rewrite length_put; lia.
  - rewrite !sub_put_ne by lia. rewrite <- Ha. apply sub_put_same. lia.
  - rewrite !sub_put_ne by lia. rewrite <- Hb. apply sub_put_same. lia.
  - rewrite !sub_put_ne by lia. rewrite <- Hc. apply sub_put_same. lia.
  - rewrite <- Hd. apply sub_put_same. lia.
  - apply list_eq. intros i. rewrite !lookup_drop, !lookup_put by lia.
    do 4 (rewrite decide_False by lia). done.
Qed.

(** The tables of the machine after boot: of the FADT, blocks may have been set. *)
Definition boot_tables (fadt : list Z) : acpi_tables :=
  mk_acpi_tables serverworks_rsdp_table serverworks_rsdt_table serverworks_xsdt_table fadt.

(** [table_init] puts the four tables one behind the other into the page; the bytes
    of the RSDT, of the XSDT and of the FADT, and the first twenty of the RSDP, each sum to
    zero modulo 256, and both root tables point to the FADT, which names the interrupt.  The
    sum of the whole RSDP, which its extended checksum is to make zero, is 134. *)
Theorem table_init_checksums irq fadt page :
  length fadt = ACPI_FADT_SIZE -> fadt !! sdth_checksum = Some 0 -> length page = 512%nat ->
  exists t page', table_init irq (boot_tables fadt) page = (t, page') /\
    table_at ACPI_RSDP_OFF ACPI_RSDP_SIZE page' = rsdp t /\
    table_at ACPI_RSDT_OFF ACPI_RSDT_SIZE page' = rsdt t /\
    table_at ACPI_XSDT_OFF ACPI_XSDT_SIZE page' = xsdt t /\
    table_at ACPI_FADT_OFF ACPI_FADT_SIZE page' = t_fadt t /\
    drop 364 page' = drop 364 page /\
    byte_sum (take 20 (rsdp t)) mod 256 = 0 /\ byte_sum (rsdt t) mod 256 = 0 /\
    byte_sum (xsdt t) mod 256 = 0 /\ byte_sum (t_fadt t) mod 256 = 0 /\
    get32 36 (rsdt t) = ACPI_FADT_OFF /\ le_val (sub 36 8 (xsdt t)) = ACPI_FADT_OFF /\
    get16 fadt_sci_int (t_fadt t) = u16 irq /\
    byte_sum (rsdp t) mod 256 = 134.
Proof.
  intros Hlen Hsum Hpage. unfold ACPI_FADT_SIZE, sdth_checksum in *.
  set (f := put16 fadt_sci_int irq fadt).
  assert (Hf : length f = 244%nat) by (unfold f, fadt_sci_int; rewrite length_put16; lia).
  assert (Hs : f !! 9%nat = Some 0).
  { unfold f, put16, fadt_sci_int. rewrite lookup_put by (rewrite length_le_bytes; lia).
    by rewrite decide_False by lia. }
  set (t := (table_init irq (boot_tables fadt) page).1).
  destruct (tables_placed (rsdp t) (rsdt t) (xsdt t) (t_fadt t) page) as (_ & P1 & P2 & P3 & P4 & P5).
  1-3: reflexivity.
  - change (length (put 9 [sub_sum f 0] f) = 244%nat). rewrite length_put; simpl; lia.
  - done.
  - exists t, (table_init irq (boot_tables fadt) page).2. split; [apply surjective_pairing|].
    split; [exact P1|]. split; [exact P2|]. split; [exact P3|]. split; [exact P4|].
    split; [exact P5|]. split; [reflexivity|]. split; [reflexivity|]. split; [reflexivity|].
    split; [exact (checksum_zero 9 f Hs)|]. split; [reflexivity|]. split; [reflexivity|].
    split; [|reflexivity]. change (get16 46 (put 9 [sub_sum f 0] f) = u16 irq).
    rewrite get16_put_ne by (simpl; lia). unfold f. apply get16_put16. unfold fadt_sci_int. lia.
Qed.

Lemma table_init_checksums_witness :
  exists t page', table_init IRQ_ACPI (boot_tables serverworks_fadt_table) (zeros 512) = (t, page') /\
    byte_sum (t_fadt t) mod 256 = 0.
Proof.
  destruct (table_init_checksums IRQ_ACPI serverworks_fadt_table (zeros 512))
    as (t & page' & E & _ & _ & _ & _ & _ & _ & _ & _ & H & _); [reflexivity..|].
  exists t, page'. split; [exact E|exact H].
Defined.
