(* ===== verification/PciResource.v ===== *)
(** * PciResource: assignment of addresses to the devices on the PCI buses

    Model of [x86/common/pci_resource.c] and of the resource fixups of
    [x86/common/pci_fixup.c].  Each bus is handled after its peers and after the buses
    below it, so that the windows of the bridges come out of the downward growing region
    one below the other. *)

From S2P Require Import Prelude Region PciIo Pci Acpi.

(** ** Registers *)

Definition PCI_COMMAND : Z := 0x04.
Definition PCI_CMD_IO : Z := 0x1.
Definition PCI_CMD_MEMORY : Z := 0x2.
Definition PCI_BAR_ADDR (r : Z) : Z := u8 (0x10 + 4 * r).

Definition PCI2PCI_IO_BASE : Z := 0x1c.
Definition PCI2PCI_IO_LIMIT : Z := 0x1d.
Definition PCI2PCI_MMIO_BASE : Z := 0x20.
Definition PCI2PCI_MMIO_LIMIT : Z := 0x22.
Definition PCI2PCI_PMMIO_BASE : Z := 0x24.
Definition PCI2PCI_PMMIO_LIMIT : Z := 0x26.
Definition PCI2PCI_PMMIO_BASE_UPPER : Z := 0x28.
Definition PCI2PCI_PMMIO_LIMIT_UPPER : Z := 0x2c.
Definition PCI2PCI_IO_BASE_UPPER : Z := 0x30.
Definition PCI2PCI_IO_LIMIT_UPPER : Z := 0x34.

Definition PCI2CB_MMIO_BASE0 : Z := 0x1c.
Definition PCI2CB_MMIO_LIMIT0 : Z := 0x20.
Definition PCI2CB_MMIO_BASE1 : Z := 0x24.
Definition PCI2CB_MMIO_LIMIT1 : Z := 0x28.
Definition PCI2CB_IO_BASE0 : Z := 0x2c.
Definition PCI2CB_IO_LIMIT0 : Z := 0x30.
Definition PCI2CB_IO_BASE1 : Z := 0x34.
Definition PCI2CB_IO_LIMIT1 : Z := 0x38.

Definition PCI_SERVERWORKS_MULR : Z := 0x70.
Definition PCI_SERVERWORKS_MRDRU7 : Z := 0x8f.
Definition PCI_SERVERWORKS_IO_BASE : Z := 0xd0.
Definition PCI_SERVERWORKS_IO_LIMIT : Z := 0xd2.
Definition PCI_SERVERWORKS_IO_EN : Z := 0x01.
Definition PCI_SERVERWORKS_IORV : Z := 0xdc.
Definition PCI_SERVERWORKS_MMIO_BASE : Z := 0xc0.
Definition PCI_SERVERWORKS_MMIO_LIMIT : Z := 0xc2.
Definition PCI_SERVERWORKS_MMIO_EN : Z := 0x01.
Definition PCI_SERVERWORKS_MMIO_WC : Z := 0x01.
Definition PCI_SERVERWORKS_PMMIO_BASE : Z := 0xc4.
Definition PCI_SERVERWORKS_PMMIO_LIMIT : Z := 0xc6.
Definition PCI_SERVERWORKS_PMMIO_EN : Z := 0x0c.
Definition PCI_SERVERWORKS_PMMIO_WC : Z := 0x02.
Definition PCI_SERVERWORKS_PMRV : Z := 0xcc.
Definition PCI_SERVERWORKS_WCCR : Z := 0xcd.

Definition RAM_PCI_REGION_IO : Z := 0xffff.
Definition RAM_PCI_REGION_MMIO : Z := 0xfec00000.

(** The four tables of alignments. *)
Definition pci_resource_align_dev (t : pci_bar_t) : Z :=
  match t with PCI_BAR_EMPTY => 0 | PCI_BAR_IO => 0x3 | PCI_BAR_MMIO => 0xf | PCI_BAR_PMMIO => 0xf end.
Definition pci_resource_align_bus (t : pci_bar_t) : Z :=
  match t with
  | PCI_BAR_EMPTY => 0 | PCI_BAR_IO => 0x3 | PCI_BAR_MMIO => 0xffff | PCI_BAR_PMMIO => 0xffff
  end.
Definition pci_resource_align_bridge (t : pci_bar_t) : Z :=
  match t with
  | PCI_BAR_EMPTY => 0 | PCI_BAR_IO => 0xfff | PCI_BAR_MMIO => 0xfffff | PCI_BAR_PMMIO => 0xfffff
  end.
Definition pci_resource_align_cardbus (t : pci_bar_t) : Z :=
  match t with
  | PCI_BAR_EMPTY => 0 | PCI_BAR_IO => 0x3ff | PCI_BAR_MMIO => 0xfff | PCI_BAR_PMMIO => 0xfff
  end.

(** ** The table of fixups, as far as resources go *)

Definition PCI_VENDOR_AL : Z := 0x10b9.
Definition PCI_DEVICE_AL_M7101 : Z := 0x7101.
Definition PCI_VENDOR_SERVERWORKS : Z := 0x1166.
Definition PCI_DEVICE_SERVERWORKS_OSB4 : Z := 0x0200.
Definition PCI_DEVICE_SERVERWORKS_CSB5 : Z := 0x0201.

Inductive resource_fixup := m7101_fixup | osb4_acpi_io_fixup.

(** The entries of [fixup_table] with an [io_fixup], before and after; no entry has an
    [mmio_fixup] or a [pmmio_fixup]. *)
Definition fixup_table : list (Z * Z * (option resource_fixup * option resource_fixup)) :=
  [(PCI_VENDOR_SERVERWORKS, PCI_DEVICE_SERVERWORKS_OSB4, (None, Some osb4_acpi_io_fixup));
   (PCI_VENDOR_SERVERWORKS, PCI_DEVICE_SERVERWORKS_CSB5, (None, Some osb4_acpi_io_fixup));
   (PCI_VENDOR_AL, PCI_DEVICE_AL_M7101, (Some m7101_fixup, None))].

Definition find_fixup (d : pci_dev) : option (option resource_fixup * option resource_fixup) :=
  snd <$> (snd <$> list_find (fun e => e.1 = (vendor d, device d)) fixup_table).

Section PciResource.
Context {hw : Type} `{!IoPorts hw, !Config hw}.
Abbreviation M := (Run (pci_state hw)).

Definition fixed_bar (b : Z) (r : pci_bar) : pci_bar :=
  mk_bar PCI_BAR_IO b (b + 4 - 1) 4 (bar_size2 r) (bar_addr64 r).

(** Fixups get the bus number of the device and return the device as they leave it. *)
Definition run_fixup (f : resource_fixup) (bn : Z) (d : pci_dev) : M (Z * pci_dev) :=
  match f with
  | m7101_fixup =>
    pci_dev_write_config (bn, devfn d) (PCI_BAR_ADDR 0) 0x00006001 4;;
    pci_dev_write_config (bn, devfn d) (PCI_BAR_ADDR 1) 0x00003a81 4;;
    mret (1, set_bars (alter (fixed_bar 0x00003a81) 1%nat
                        (alter (fixed_bar 0x00006001) 0%nat (bar d))) d)
  | osb4_acpi_io_fixup => acpi_osb4_init;; mret (0, d)
  end.

Definition run_fixup_if (t : pci_bar_t) (f : option resource_fixup) (bn : Z) (d : pci_dev) : M (Z * pci_dev) :=
  match t, f with
  | PCI_BAR_IO, Some f => run_fixup f bn d
  | _, _ => mret (0, d)
  end.

Definition pci_resource_fixup_pre (bn : Z) (d : pci_dev) (t : pci_bar_t) : M (Z * pci_dev) :=
  run_fixup_if t (f ← find_fixup d; f.1) bn d.
Definition pci_resource_fixup_post (bn : Z) (d : pci_dev) (t : pci_bar_t) : M (Z * pci_dev) :=
  run_fixup_if t (f ← find_fixup d; f.2) bn d.

(** ** The bridges *)

(** "chew out of ram", the same for both kinds of memory. *)
Definition chew_ram (d : Z * Z) (map_base : Z) : M unit :=
  n ← ask mem_size;
  if map_base <? n then
    let n := Z.land map_base (Z.lnot (Z.shiftl 64 20 - 1)) in
    upd (set_mem_size n);;
    pci_dev_writeb d PCI_SERVERWORKS_MULR (Z.land (Z.shiftr n 24) 0xff);;
    pci_dev_writeb d PCI_SERVERWORKS_MRDRU7 (Z.land (Z.shiftr n 24) 0xff)
  else mret tt.

Definition or_byte (d : Z * Z) (reg bits : Z) : M unit :=
  r ← pci_dev_readb d reg; pci_dev_writeb d reg (Z.lor r bits).

Definition resource_cnb30le (i : bus_info) (t : pci_bar_t) : M (Z * bus_info) :=
  if decide (t = PCI_BAR_EMPTY) then mret (0, i)
  else
    let map := map_of t i in
    if bar_limit map <=? bar_base map then mret (0, i)
    else
      b ← on_regs (region_align (bar_id t) (pci_resource_align_bus t));
      let l := bar_limit map in
      let i := set_map t (set_bar_window b l map) i in
      match self i with
      | None => crash
      | Some dev =>
        match t with
        | PCI_BAR_PMMIO =>
          pci_dev_writew dev PCI_SERVERWORKS_PMMIO_BASE (Z.shiftr b 16);;
          pci_dev_writew dev PCI_SERVERWORKS_PMMIO_LIMIT (Z.shiftr l 16);;
          or_byte dev PCI_SERVERWORKS_PMRV PCI_SERVERWORKS_PMMIO_EN;;
          or_byte dev PCI_SERVERWORKS_WCCR PCI_SERVERWORKS_PMMIO_WC;;
          chew_ram dev b
        | PCI_BAR_MMIO =>
          pci_dev_writew dev PCI_SERVERWORKS_MMIO_BASE (Z.shiftr b 16);;
          pci_dev_writew dev PCI_SERVERWORKS_MMIO_LIMIT (Z.shiftr l 16);;
          or_byte dev PCI_SERVERWORKS_PMRV PCI_SERVERWORKS_MMIO_EN;;
          or_byte dev PCI_SERVERWORKS_WCCR PCI_SERVERWORKS_MMIO_WC;;
          chew_ram dev b
        | _ =>
          pci_dev_writew dev PCI_SERVERWORKS_IO_BASE b;;
          pci_dev_writew dev PCI_SERVERWORKS_IO_LIMIT l;;
          or_byte dev PCI_SERVERWORKS_IORV PCI_SERVERWORKS_IO_EN
        end;;
        mret (u32 (l - b + 1), i)
      end.

(** What goes into the base and limit registers of a PCI-PCI bridge; without a
    window the base is above the limit. *)
Definition bridge_base (t : pci_bar_t) (n b : Z) : Z :=
  match t with
  | PCI_BAR_IO => if n =? 0 then 0xf0 else Z.land (Z.shiftr b 8) 0xf0
  | _ => if n =? 0 then 0xfff0 else Z.land (Z.shiftr b 16) 0xfff0
  end.
Definition bridge_limit (t : pci_bar_t) (n l : Z) : Z :=
  match t with
  | PCI_BAR_IO => if n =? 0 then 0 else Z.land (Z.shiftr l 8) 0xf0
  | _ => if n =? 0 then 0 else Z.land (Z.shiftr l 16) 0xfff0
  end.

(** "32-bit I/O" and "64-bit PMMIO": clears the upper register if the lower one says
    there is one. *)
Definition clear_upper (d : Z * Z) (reg upper : Z) : M unit :=
  highmem ← pci_dev_readb d reg;
  if negb (Z.land highmem 0x01 =? 0) then pci_dev_writeb d upper 0 else mret tt.

(** The window of the bridge: [size] and the resource with its base aligned. *)
Definition bridge_window (t : pci_bar_t) (i : bus_info) : M (Z * bus_info) :=
  let map := map_of t i in
  if bar_limit map <=? bar_base map then mret (0, i)
  else
    b ← on_regs (region_align (bar_id t) (pci_resource_align_bridge t));
    let l := bar_limit map in
    mret (if b <? l then u32 (l - b) else 0, set_map t (set_bar_window b l map) i).

Definition resource_bridge (i : bus_info) (t : pci_bar_t) : M (Z * bus_info) :=
  if decide (t = PCI_BAR_EMPTY) then mret (0, i)
  else
    upd (set_bridge 1);;
    '(n, i) ← bridge_window t i;
    match self i with
    | None => crash
    | Some dev =>
      let b := bar_base (map_of t i) in
      let l := bar_limit (map_of t i) in
      pcicmd ← pci_dev_readw dev PCI_COMMAND;
      pcicmd ←
        match t with
        | PCI_BAR_MMIO =>
          pci_dev_writew dev PCI2PCI_MMIO_BASE (bridge_base t n b);;
          pci_dev_writew dev PCI2PCI_MMIO_LIMIT (bridge_limit t n l);;
          mret (Z.lor pcicmd PCI_CMD_MEMORY)
        | PCI_BAR_PMMIO =>
          pci_dev_writew dev PCI2PCI_PMMIO_BASE (bridge_base t n b);;
          pci_dev_writew dev PCI2PCI_PMMIO_LIMIT (bridge_limit t n l);;
          clear_upper dev PCI2PCI_PMMIO_BASE PCI2PCI_PMMIO_BASE_UPPER;;
          clear_upper dev PCI2PCI_PMMIO_LIMIT PCI2PCI_PMMIO_LIMIT_UPPER;;
          mret (Z.lor pcicmd PCI_CMD_MEMORY)
        | _ =>
          pci_dev_writeb dev PCI2PCI_IO_BASE (bridge_base t n b);;
          pci_dev_writeb dev PCI2PCI_IO_LIMIT (bridge_limit t n l);;
          clear_upper dev PCI2PCI_IO_BASE PCI2PCI_IO_BASE_UPPER;;
          clear_upper dev PCI2PCI_IO_LIMIT PCI2PCI_IO_LIMIT_UPPER;;
          mret (Z.lor pcicmd PCI_CMD_IO)
        end;
      if n =? 0 then mret (0, i)
      else pci_dev_writew dev PCI_COMMAND pcicmd;; mret (u32 (n + 1), i)
    end.

Definition cardbus_allocate (i : bus_info) (t : pci_bar_t) (len iobase iolimit membase memlimit : Z) :
  M (Z * bus_info) :=
  _ ← on_regs (region_allocate (bar_id t) len);
  b ← on_regs (region_align (bar_id t) (pci_resource_align_cardbus t));
  let l := u32 (b + len - 1) in
  let i := set_map t (set_bar_window b l (map_of t i)) i in
  let n := if b <? l then l - b else 0 in
  if n =? 0 then mret (0, i)
  else
    match self i with
    | None => crash
    | Some dev =>
      pcicmd ← pci_dev_readw dev PCI_COMMAND;
      pcicmd ←
        match t with
        | PCI_BAR_IO =>
          pci_dev_writel dev iobase (Z.land b 0xffff);;
          pci_dev_writel dev iolimit (Z.land l 0xffff);;
          mret (Z.lor pcicmd PCI_CMD_IO)
        | PCI_BAR_EMPTY => mret pcicmd
        | _ =>
          pci_dev_writel dev membase (Z.land b 0xfffff000);;
          pci_dev_writel dev memlimit (Z.land l 0xfffff000);;
          mret (Z.lor pcicmd PCI_CMD_MEMORY)
        end;
      pci_dev_writew dev PCI_COMMAND pcicmd;;
      mret (u32 (n + 1), i)
    end.

Definition resource_cardbus (i : bus_info) (t : pci_bar_t) : M (Z * bus_info) :=
  if decide (t = PCI_BAR_EMPTY) then mret (0, i)
  else
    '(n, i) ←
      (if bar_size (map_of t i) =? 0 then mret (0, i)
       else cardbus_allocate i t (bar_size (map_of t i)) PCI2CB_IO_BASE0 PCI2CB_IO_LIMIT0
              PCI2CB_MMIO_BASE0 PCI2CB_MMIO_LIMIT0);
    if bar_size2 (map_of t i) =? 0 then mret (n, i)
    else
      '(n2, i) ← cardbus_allocate i t (bar_size2 (map_of t i)) PCI2CB_IO_BASE1 PCI2CB_IO_LIMIT1
                   PCI2CB_MMIO_BASE1 PCI2CB_MMIO_LIMIT1;
      mret (u32 (n + n2), i).

Definition resource_m1541 (i : bus_info) (t : pci_bar_t) : M (Z * bus_info) :=
  if decide (t = PCI_BAR_EMPTY) then mret (0, i)
  else
    match self i with
    | None => crash
    | Some dev =>
      let map := map_of t i in
      let n := if bar_limit map <=? bar_base map then 0 else u32 (bar_limit map - bar_base map) in
      pcicmd ← pci_dev_readw dev PCI_COMMAND;
      let pcicmd := Z.lor pcicmd (if decide (t = PCI_BAR_IO) then PCI_CMD_IO else PCI_CMD_MEMORY) in
      if n =? 0 then mret (0, i)
      else pci_dev_writew dev PCI_COMMAND pcicmd;; mret (u32 (n + 1), i)
    end.

(** A call through [bus->set_resource_range]. *)
Definition call_range (i : bus_info) (t : pci_bar_t) : M (Z * bus_info) :=
  match set_resource_range i with
  | None => crash
  | Some pci_resource_bridge => resource_bridge i t
  | Some pci_resource_cardbus => resource_cardbus i t
  | Some pci_resource_cnb30le => resource_cnb30le i t
  | Some pci_resource_m1541 => resource_m1541 i t
  end.

(** ** The walk over the tree *)

(** The loop over the BARs of a device, from register [j] on. *)
Fixpoint allocate_bars (d : Z * Z) (t : pci_bar_t) (j : Z) (bs : list pci_bar) : M (list pci_bar) :=
  match bs with
  | [] => mret []
  | r :: bs =>
    r ← (if decide (bar_type r = t) then
           b ← on_regs (region_allocate (bar_id t) (bar_size r));
           if b =? 0 then mret (set_bar_window 0 (bar_limit r) r)
           else pci_dev_writel d (PCI_BAR_ADDR j) b;;
                mret (set_bar_window b (u32 (b + bar_size r - 1)) r)
         else mret r);
    bs ← allocate_bars d t (j + 1) bs;
    mret (r :: bs)
  end.

(** The body of the loop over the devices of bus [bn]. *)
Definition allocate_dev (bn : Z) (t : pci_bar_t) (d : pci_dev) : M pci_dev :=
  '(r, d) ← pci_resource_fixup_pre bn d t;
  if 0 <? r then mret d
  else
    bs ← allocate_bars (bn, devfn d) t 0 (bar d);
    '(_, d) ← pci_resource_fixup_post bn (set_bars bs d) t;
    mret d.

Fixpoint map_run {A B} (f : A -> M B) (l : list A) : M (list B) :=
  match l with
  | [] => mret []
  | a :: l => b ← f a; bs ← map_run f l; mret (b :: bs)
  end.

(** [pci_resource_allocate], what follows the call for the peers; the recursive call for
    the kids begins with the last of them. *)
Fixpoint allocate_bus (t : pci_bar_t) (bus : pci_bus) : M pci_bus :=
  let '(mk_bus i ds ks) := bus in
  l ← on_regs (region_align (bar_id t) (pci_resource_align_bus t));
  let i := set_map t (set_bar_window (bar_base (map_of t i)) (u32 (l - 1)) (map_of t i)) i in
  ks ← (fix peers (ks : list pci_bus) : M (list pci_bus) :=
          match ks with
          | [] => mret []
          | b :: ks => ks ← peers ks; b ← allocate_bus t b; mret (b :: ks)
          end) ks;
  ds ← map_run (allocate_dev (busnum i) t) ds;
  b ← ask (fun s => region_get_base (bar_id t) (regs s));
  let i := set_map t (set_bar_window b (bar_limit (map_of t i)) (map_of t i)) i in
  '(n, i) ← call_range i t;
  mret (mk_bus (set_map t (set_bar_size n (map_of t i)) i) ds ks).

(** The function on a bus and its peers. *)
Fixpoint allocate_peers (t : pci_bar_t) (l : list pci_bus) : M (list pci_bus) :=
  match l with
  | [] => mret []
  | b :: l => l ← allocate_peers t l; b ← allocate_bus t b; mret (b :: l)
  end.

(** [pci_resource_allocate] on the root and its peers, with the value it returns. *)
Definition pci_resource_allocate (t : pci_bar_t) (l : list pci_bus) : M (Z * list pci_bus) :=
  l ← allocate_peers t l;
  match l with
  | [] => crash
  | b :: _ => mret (bar_base (map_of t (info b)), l)
  end.

(** [malloc_ok] says which of the three regions [malloc] has memory for. *)
Definition init_region (malloc_ok : pci_bar_t -> bool) (t : pci_bar_t) (limit : Z) (n : list Z) : M unit :=
  upd (fun s => set_regs (region_init (malloc_ok t) (bar_id t) (pci_resource_align_dev t) limit n (regs s)) s).

Definition pci_resource_init (malloc_ok : pci_bar_t -> bool) (l : list pci_bus) : M (list pci_bus) :=
  init_region malloc_ok PCI_BAR_IO RAM_PCI_REGION_IO [73; 47; 79];;
  '(_, l) ← pci_resource_allocate PCI_BAR_IO l;
  init_region malloc_ok PCI_BAR_MMIO RAM_PCI_REGION_MMIO [77; 77; 73; 79];;
  '(b, l) ← pci_resource_allocate PCI_BAR_MMIO l;
  br ← ask bridge;
  let b := if br =? 0 then b
           else u32 (Z.land b (Z.lnot (pci_resource_align_bridge PCI_BAR_PMMIO)) - 1) in
  init_region malloc_ok PCI_BAR_PMMIO b [80; 77; 77; 73; 79];;
  '(_, l) ← pci_resource_allocate PCI_BAR_PMMIO l;
  mret l.

End PciResource.
