(* ===== verification/PciResourceProofs.v ===== *)
(** * PciResourceProofs: an address of a device reaches that device and nothing else

    [deliver] is what the hardware does with an access on a bus: the devices whose base
    address registers contain the address and the bridges whose windows contain it
    answer; if one bridge does, the access goes on behind it; if more than one answers
    there is contention.  The theorem says that after [pci_resource_allocate] no address
    has contention anywhere, and every address in a base address register of any device
    behind any number of bridges is delivered to that device. *)

From S2P Require Import Prelude Region PciIo Pci Acpi PciResource.

(** ** The hardware *)

Inductive delivery := Nobody | Device (bus dfn : Z) (j : nat) | Contention.

Definition settle (hits : list delivery) : delivery :=
  match hits with [] => Nobody | [x] => x | _ => Contention end.

Definition bar_hit (t : pci_bar_t) (a : Z) (r : pci_bar) : bool :=
  bool_decide (bar_type r = t) && (bar_base r <=? a) && (a <=? bar_limit r).

Fixpoint bar_hits (t : pci_bar_t) (a : Z) (bn dfn : Z) (j : nat) (bs : list pci_bar) : list delivery :=
  match bs with
  | [] => []
  | r :: bs => (if bar_hit t a r then [Device bn dfn j] else []) ++ bar_hits t a bn dfn (S j) bs
  end.

Definition dev_hits (t : pci_bar_t) (a bn : Z) (ds : list pci_dev) : list delivery :=
  concat (map (fun d => bar_hits t a bn (devfn d) 0 (bar d)) ds).

(** The window of a bridge, as it decodes its base and limit registers: bits 15 to 12 of
    an I/O address, bits 31 to 20 of a memory address. *)
Definition window_base (t : pci_bar_t) (i : bus_info) : Z :=
  let m := map_of t i in
  match t with
  | PCI_BAR_IO => Z.shiftl (bridge_base t (bar_size m) (bar_base m)) 8
  | _ => Z.shiftl (bridge_base t (bar_size m) (bar_base m)) 16
  end.
Definition window_limit (t : pci_bar_t) (i : bus_info) : Z :=
  let m := map_of t i in
  match t with
  | PCI_BAR_IO => Z.lor (Z.shiftl (bridge_limit t (bar_size m) (bar_limit m)) 8) 0xfff
  | _ => Z.lor (Z.shiftl (bridge_limit t (bar_size m) (bar_limit m)) 16) 0xfffff
  end.
Definition decodes (t : pci_bar_t) (a : Z) (i : bus_info) : bool :=
  (window_base t i <=? a) && (a <=? window_limit t i).

Fixpoint deliver (t : pci_bar_t) (a : Z) (b : pci_bus) : delivery :=
  let '(mk_bus i ds ks) := b in
  settle (concat (map (fun k => if decodes t a (info k) then [deliver t a k] else []) ks) ++
          dev_hits t a (busnum i) ds).

Definition kid_hits (t : pci_bar_t) (a : Z) (ks : list pci_bus) : list delivery :=
  concat (map (fun k => if decodes t a (info k) then [deliver t a k] else []) ks).

(** ** Trees *)

(** The BAR [j] of a device of the tree. *)
Inductive bar_at : pci_bus -> delivery -> pci_bar -> Prop :=
| bar_here i ds ks d j r :
    d ∈ ds -> bar d !! j = Some r -> bar_at (mk_bus i ds ks) (Device (busnum i) (devfn d) j) r
| bar_below i ds ks k x r : k ∈ ks -> bar_at k x r -> bar_at (mk_bus i ds ks) x r.

(** What the allocation of type [t] keeps: everything but the windows of the BARs of that
    type and the resources of that type. *)
Definition bar_frame (t : pci_bar_t) (r : pci_bar) : pci_bar :=
  if decide (bar_type r = t) then set_bar_window 0 0 r else r.
Definition dev_frame (t : pci_bar_t) (d : pci_dev) : pci_dev := set_bars (map (bar_frame t) (bar d)) d.
Fixpoint frame (t : pci_bar_t) (b : pci_bus) : pci_bus :=
  let '(mk_bus i ds ks) := b in
  mk_bus (set_map t (bar_blank t) i) (map (dev_frame t) ds) (map (frame t) ks).

(** Devices whose BARs have sizes a register can express.  The fixup that gives a device
    fixed ports is left out. *)
Definition dev_ok (t : pci_bar_t) (d : pci_dev) : Prop :=
  (find_fixup d = None \/ find_fixup d = Some (None, Some osb4_acpi_io_fixup)) /\
  Forall (fun r => bar_type r = t -> 2 <= bar_size r <= 2 ^ 31) (bar d).

(** Buses behind PCI-PCI bridges. *)
Inductive plain (t : pci_bar_t) : pci_bus -> Prop :=
| plain_bus i ds ks :
    length (resource i) = 4%nat -> is_Some (self i) ->
    set_resource_range i = Some pci_resource_bridge ->
    Forall (dev_ok t) ds -> Forall (plain t) ks -> plain t (mk_bus i ds ks).

(** Buses of host bridges. *)
Inductive host (t : pci_bar_t) : pci_bus -> Prop :=
| host_bus i ds ks :
    length (resource i) = 4%nat -> is_Some (self i) ->
    set_resource_range i = Some pci_resource_cnb30le \/ set_resource_range i = Some pci_resource_m1541 ->
    Forall (dev_ok t) ds -> Forall (plain t) ks -> host t (mk_bus i ds ks).

(** An upper bound of the addresses the allocation of a tree uses up. *)
Definition bar_need (t : pci_bar_t) (r : pci_bar) : Z :=
  if decide (bar_type r = t) then 2 * Region.window (bar_size r) + pci_resource_align_dev t else 0.
Definition bars_need (t : pci_bar_t) (bs : list pci_bar) : Z := foldr (fun r n => bar_need t r + n) 0 bs.
(** [acpi_osb4_init] allocates five blocks. *)
Definition dev_need (t : pci_bar_t) (d : pci_dev) : Z :=
  bars_need t (bar d) +
  (if decide (t = PCI_BAR_IO /\ is_Some (find_fixup d)) then 71 else 0).
Definition devs_need (t : pci_bar_t) (ds : list pci_dev) : Z :=
  foldr (fun d n => dev_need t d + n) 0 ds.
Fixpoint need (t : pci_bar_t) (b : pci_bus) : Z :=
  let '(mk_bus i ds ks) := b in
  pci_resource_align_bus t + pci_resource_align_bridge t + devs_need t ds +
  foldr Z.add 0 (map (need t) ks).
Definition needs (t : pci_bar_t) (l : list pci_bus) : Z := foldr Z.add 0 (map (need t) l).

(** ** Answers *)

(** A BAR in its place: the address is a multiple of the size. *)
Definition placed (r : pci_bar) : Prop :=
  bar_limit r = bar_base r + bar_size r - 1 /\ bar_base r mod Region.window (bar_size r) = 0 /\
  2 <= bar_size r.

(** A part of the hardware answers every address at most once, and only between [wlo] and
    [whi]; the BARs of type [t] in it lie between [lo] and [hi] and answer for
    themselves. *)
Definition answers (t : pci_bar_t) (lo hi wlo whi : Z) (hits : Z -> list delivery)
    (own : delivery -> pci_bar -> Prop) : Prop :=
  (forall a, hits a = [] \/ exists x, hits a = [x] /\ x <> Contention /\ wlo <= a < whi) /\
  (forall x r, own x r -> bar_type r = t ->
     placed r /\ lo <= bar_base r /\ bar_limit r < hi /\
     forall a, bar_base r <= a <= bar_limit r -> hits a = [x]).

Lemma answers_none t lo hi wlo whi : answers t lo hi wlo whi (fun _ => []) (fun _ _ => False).
Proof. split; [by left|done]. Qed.

(** Two parts one below the other. *)
Lemma answers_join t lo mid hi wlo wmid wmid' whi hits1 own1 hits2 own2 :
  answers t lo mid wlo wmid hits1 own1 -> answers t mid hi wmid' whi hits2 own2 ->
  lo <= mid <= hi -> wlo <= wmid -> wmid <= wmid' <= whi ->
  answers t lo hi wlo whi (fun a => hits1 a ++ hits2 a) (fun x r => own1 x r \/ own2 x r) /\
  answers t lo hi wlo whi (fun a => hits2 a ++ hits1 a) (fun x r => own2 x r \/ own1 x r).
Proof.
  intros [A1 O1] [A2 O2] Hm Hw Hw'.
  assert (Hap : forall a, (hits1 a = [] /\ hits2 a = []) \/
      (exists x, hits1 a = [x] /\ hits2 a = [] /\ x <> Contention /\ wlo <= a < whi) \/
      (exists x, hits1 a = [] /\ hits2 a = [x] /\ x <> Contention /\ wlo <= a < whi)).
  { intros a. destruct (A1 a) as [E1|(x & E1 & Hx & Ha)], (A2 a) as [E2|(y & E2 & Hy & Hb)].
    - by left.
    - right; right. exists y. split_and!; try done; lia.
    - right; left. exists x. split_and!; try done; lia.
    - lia. }
  split; split.
  1,3: intros a; destruct (Hap a) as [[E1 E2]|[(x & E1 & E2 & ?)|(x & E1 & E2 & ?)]]; rewrite E1, E2;
    [by left|right; by exists x..].
  all: intros x r [Ho|Ho] Ht; first [pose proof (O1 x r Ho Ht) as HO | pose proof (O2 x r Ho Ht) as HO];
    destruct HO as (? & ? & ? & Hit); split_and!; try done; try lia; intros a Ha; specialize (Hit a Ha);
    destruct (Hap a) as [[E1 E2]|[(y & E1 & E2 & ?)|(y & E1 & E2 & ?)]];
    rewrite ?E1, ?E2 in *; simplify_eq; done.
Qed.

Lemma answers_weaken t lo hi wlo whi lo' hi' wlo' whi' hits own hits' own' :
  answers t lo hi wlo whi hits own ->
  lo' <= lo -> hi <= hi' -> wlo' <= wlo -> whi <= whi' ->
  (forall a, hits' a = hits a) -> (forall x r, own' x r -> own x r) ->
  answers t lo' hi' wlo' whi' hits' own'.
Proof.
  intros [A O] ? ? ? ? Eh Eo. split.
  - intros a. rewrite Eh. destruct (A a) as [E|(x & E & Hx & Ha)]; [by left|right; exists x].
    split_and!; try done; lia.
  - intros x r Ho Ht. destruct (O x r (Eo x r Ho) Ht) as (? & ? & ? & Hit).
    split_and!; [done|lia..|]. intros a Ha. rewrite Eh. by apply Hit.
Qed.

(** ** The region of a type *)

(** Among the regions with ids [ids], that of type [t] has base [B]. *)
Definition base_is (ids : list Z) (t : pci_bar_t) (B : Z) (l : regions) : Prop :=
  (exists r, region_at (bar_id t) r l /\ region_ok r /\ Region.base r = B /\
             mask r = pci_resource_align_dev t) /\ map Region.id l = ids.

Section Bases.
Context (ids : list Z).

Lemma base_is_range t B l : base_is ids t B l -> 0 <= B < 2 ^ 32.
Proof. by intros [(r & _ & [? _] & <- & _) _]. Qed.

Lemma base_is_get t B l : base_is ids t B l -> region_get_base (bar_id t) l = B.
Proof. intros [(r & (p & Hf & Hp) & _ & <- & _) _]. unfold region_get_base. rewrite Hf. cbn. by rewrite Hp. Qed.

Lemma ids_insert p r r' (l : regions) :
  l !! p = Some r -> Region.id r' = Region.id r -> map Region.id (<[p := r']> l) = map Region.id l.
Proof.
  revert p. induction l as [|x l IH]; intros [|p] Hp Hid; simpl in *; [done..| |].
  - by simplify_eq; rewrite Hid.
  - by rewrite (IH p).
Qed.

Lemma base_is_allocate t B n l :
  base_is ids t B l -> 1 <= n <= 2 ^ 31 -> 2 * Region.window n + pci_resource_align_dev t <= B ->
  exists b l', region_allocate (bar_id t) n l = Some (b, l') /\ base_is ids t b l' /\
    B - (2 * Region.window n + pci_resource_align_dev t) <= b /\
    b + Region.window n <= B /\ b mod Region.window n = 0.
Proof.
  intros [(r & Hat & Hok & HB & Hm) Hids] Hn Hroom. subst B. rewrite <- Hm in *.
  destruct (region_allocate_step (bar_id t) n r l Hat Hok Hn Hroom)
    as (b & l' & E & Hlow & Hhigh & Hmod & Hat' & _).
  exists b, l'. split; [done|]. unfold room in *. split; [|done]. split.
  - eexists. split; [exact Hat'|]. split; [|done].
    destruct Hok as (? & ? & ?). pose proof (window_le n ltac:(lia)).
    split_and!; cbn; try lia; try apply u32_range.
  - destruct Hat as (p & Hf & Hp). unfold region_allocate in E. rewrite Hf in E. cbn [mbind option_bind] in E. rewrite Hp in E.
    cbn [mbind option_bind] in E. rewrite (proj2 (Z.eqb_neq n 0)) in E by lia. rewrite roundup2_window in E by lia. cbn [mbind option_bind] in E.
    injection E as _ <-. by rewrite (ids_insert p r).
Qed.

(** Aligning to a power of two. *)
Lemma base_is_align t B k l :
  base_is ids t B l -> 0 <= k ->
  exists l', region_align (bar_id t) (2 ^ k - 1) l = Some (B - B mod 2 ^ k, l') /\
             base_is ids t (B - B mod 2 ^ k) l'.
Proof.
  intros [(r & Hat & Hok & HB & Hm) Hids] Hk. subst B. pose proof (region_at_id _ _ _ Hat) as Hid.
  assert (E : Z.land (Region.base r) (Z.lnot (2 ^ k - 1)) = Region.base r - Region.base r mod 2 ^ k).
  { rewrite <- Z.ldiff_land, Z.sub_1_r, <- Z.ones_equiv, Z.ldiff_ones_r by lia.
    rewrite Z.shiftl_mul_pow2, Z.shiftr_div_pow2 by lia.
    pose proof (Z.div_mod (Region.base r) (2 ^ k) ltac:(lia)). lia. }
  destruct Hat as (p & Hf & Hp). unfold region_align. rewrite Hf. cbn [mbind option_bind].
  rewrite Hp. cbn [mbind option_bind]. rewrite E. eexists. split; [done|].
  split; [|by rewrite (ids_insert p r)].
  exists (mk_region_info (id r) (mask r) (Region.limit r) (Region.base r - Region.base r mod 2 ^ k)
            (rsize r) (name r)).
  split; [|split; [|split; [reflexivity|exact Hm]]].
  - rewrite <- Hid. by apply region_at_insert; rewrite ?Hid.
  - destruct Hok as (? & ? & ?). pose proof (Z.mod_pos_bound (Region.base r) (2 ^ k) ltac:(lia)).
    pose proof (Z.mod_le (Region.base r) (2 ^ k) ltac:(lia) ltac:(lia)).
    split_and!; cbn; lia.
Qed.

End Bases.

(** ** Hardware accesses leave the regions alone *)

Section Walk.
Context {hw : Type} `{!IoPorts hw, !Config hw} (ids : list Z).
Abbreviation M := (Run (pci_state hw)).

Lemma run_bind {A B} (m : M A) (k : A -> M B) s a s' :
  m s = Some (a, s') -> (m ≫= k) s = k a s'.
Proof. intros E. unfold mbind, Run_bind. by rewrite E. Qed.

(** A computation that always succeeds and leaves the regions as they are. *)
Definition quiet {A} (m : M A) : Prop := forall s, exists a s', m s = Some (a, s') /\ regs s' = regs s.

Lemma quiet_ret {A} (a : A) : quiet (mret a).
Proof. intros s. by exists a, s. Qed.
Lemma quiet_bind {A B} (m : M A) (k : A -> M B) : quiet m -> (forall a, quiet (k a)) -> quiet (m ≫= k).
Proof.
  intros Hm Hk s. destruct (Hm s) as (a & s1 & E1 & R1). destruct (Hk a s1) as (b & s2 & E2 & R2).
  exists b, s2. rewrite (run_bind m k s a s1 E1). split; [done|congruence].
Qed.
Lemma quiet_hw (f : hw -> hw) : quiet (on_hw f).
Proof. intros s. by eexists _, _. Qed.
Lemma quiet_ask_hw {A} (f : hw -> A * hw) : quiet (ask_hw f).
Proof. intros s. unfold ask_hw. destruct (f (hardware s)) as [a h]. by eexists _, _. Qed.
Lemma quiet_ask {A} (f : pci_state hw -> A) : quiet (ask f).
Proof. intros s. by eexists _, _. Qed.
Lemma quiet_upd (f : pci_state hw -> pci_state hw) : (forall s, regs (f s) = regs s) -> quiet (upd f).
Proof. intros Hf s. eexists _, _. split; [done|apply Hf]. Qed.
Lemma quiet_if {A} (c : bool) (m1 m2 : M A) : quiet m1 -> quiet m2 -> quiet (if c then m1 else m2).
Proof. by destruct c. Qed.

(** ** Base address registers *)

Definition size_ok (t : pci_bar_t) (r : pci_bar) : Prop := bar_type r = t -> 2 <= bar_size r <= 2 ^ 31.

Lemma bar_need_nonneg t r : size_ok t r -> 0 <= bar_need t r.
Proof.
  unfold bar_need, size_ok. case_decide as Ht; [|lia]. intros Hs. specialize (Hs Ht).
  pose proof (window_le (bar_size r) ltac:(lia)). assert (0 <= pci_resource_align_dev t) by (by destruct t). lia.
Qed.

Lemma bars_need_cons t r bs : bars_need t (r :: bs) = bar_need t r + bars_need t bs.
Proof. done. Qed.

Lemma bars_need_nonneg t bs : Forall (size_ok t) bs -> 0 <= bars_need t bs.
Proof.
  induction 1 as [|r bs Hr _ IH]; [done|]. simpl. pose proof (bar_need_nonneg t r Hr). lia.
Qed.

(** One BAR of the type that is being allocated. *)
Lemma answers_bar t b B r bn dfn j :
  2 <= bar_size r <= 2 ^ 31 -> b + Region.window (bar_size r) <= B ->
  b mod Region.window (bar_size r) = 0 ->
  answers t b B b B
    (fun a => if bar_hit t a (set_bar_window b (b + bar_size r - 1) r) then [Device bn dfn j] else [])
    (fun x r' => r' = set_bar_window b (b + bar_size r - 1) r /\ x = Device bn dfn j).
Proof.
  intros Hs Hw Hm. pose proof (window_le (bar_size r) ltac:(lia)). split.
  - intros a. unfold bar_hit. cbn [bar_type set_bar_window bar_base bar_limit].
    destruct (bool_decide _ && _ && _) eqn:E; [right|by left].
    apply andb_true_iff in E as [E1 E2]. apply andb_true_iff in E1 as [_ E1].
    eexists. split_and!; [done|done|lia..].
  - intros x r' [-> ->] Ht. unfold placed. cbn [bar_type set_bar_window bar_base bar_limit bar_size] in *.
    split_and!; try done; try lia. intros a Ha. unfold bar_hit.
    cbn [bar_type set_bar_window bar_base bar_limit]. rewrite bool_decide_true by done.
    by rewrite (proj2 (Z.leb_le _ _)), (proj2 (Z.leb_le a _)) by lia.
Qed.

Lemma allocate_bars_spec t bn dfn : forall bs j s B,
  Forall (size_ok t) bs -> base_is ids t B (regs s) -> bars_need t bs < B ->
  exists bs' s' B', allocate_bars (hw := hw) (bn, dfn) t (Z.of_nat j) bs s = Some (bs', s') /\
    base_is ids t B' (regs s') /\ B - bars_need t bs <= B' <= B /\ map (bar_frame t) bs' = map (bar_frame t) bs /\
    answers t B' B B' B (fun a => bar_hits t a bn dfn j bs')
      (fun x r => exists i, bs' !! i = Some r /\ x = Device bn dfn (j + i)).
Proof.
  induction bs as [|r bs IH]; intros j s B Hbs HB Hneed.
  - exists [], s, B. do 4 (split; [first [done|simpl; lia]|]). split; [by left|].
    by intros x r (i & ? & _).
  - apply Forall_cons in Hbs as [Hr Hbs]. rewrite bars_need_cons in Hneed.
    pose proof (bars_need_nonneg t bs Hbs) as Hnn.
    pose proof (base_is_range _ _ _ _ HB) as HBr. cbn [allocate_bars].
    unfold bar_need in *. destruct (decide (bar_type r = t)) as [Ht|Ht].
    + specialize (Hr Ht). pose proof (window_le (bar_size r) ltac:(lia)) as Hwin.
      assert (Hm : 0 <= pci_resource_align_dev t) by (by destruct t).
      destruct (base_is_allocate ids t B (bar_size r) (regs s) HB) as (b & l' & E & Hb & Hlo & Hhi & Hmod);
        [lia..|].
      assert (Hu : u32 (b + bar_size r - 1) = b + bar_size r - 1) by (apply u32_small; lia).
      set (s1 := set_hw (write_config bn dfn (PCI_BAR_ADDR (Z.of_nat j)) (u32 b) 4 (hardware s)) (set_regs l' s)).
      destruct (IH (S j) s1 b Hbs Hb ltac:(lia)) as (bs' & s' & B' & E' & HB' & Hr' & Hsh & Hans).
      exists (set_bar_window b (b + bar_size r - 1) r :: bs'), s', B'. split.
      { rewrite (run_bind _ _ s (set_bar_window b (b + bar_size r - 1) r) s1).
        - replace (Z.of_nat j + 1) with (Z.of_nat (S j)) by lia. by rewrite (run_bind _ _ _ _ _ E').
        - rewrite (run_bind _ _ s b (set_regs l' s)) by (unfold on_regs; by rewrite E).
          rewrite (proj2 (Z.eqb_neq b 0)) by lia. by rewrite Hu. }
      split; [done|]. split; [rewrite bars_need_cons; unfold bar_need; rewrite decide_True by done; lia|].
      split; [cbn [map]; rewrite Hsh; f_equal; unfold bar_frame; by rewrite !decide_True by done|].
      eapply answers_weaken; [eapply (proj2 (answers_join t B' b B B' b b B _ _ _ _ Hans
        (answers_bar t b B r bn dfn j Hr Hhi Hmod) ltac:(lia) ltac:(lia) ltac:(lia)))|lia..| |].
      * done.
      * intros x r' (i & Hi & ->). destruct i as [|i]; simpl in Hi.
        -- left. simplify_eq. by rewrite Nat.add_0_r.
        -- right. exists i. split; [done|]. f_equal. lia.
    + destruct (IH (S j) s B Hbs HB ltac:(lia)) as (bs' & s' & B' & E' & HB' & Hr' & Hsh & Hans).
      exists (r :: bs'), s', B'. split.
      { rewrite (run_bind _ _ s r s) by done. replace (Z.of_nat j + 1) with (Z.of_nat (S j)) by lia.
        by rewrite (run_bind _ _ _ _ _ E'). }
      split; [done|]. split; [rewrite bars_need_cons; unfold bar_need; rewrite decide_False by done; lia|].
      split; [simpl; by rewrite Hsh|].
      split.
      * intros a. cbn [bar_hits]. unfold bar_hit. rewrite bool_decide_false by done. apply Hans.
      * intros x r' (i & Hi & ->) Ht'. destruct i as [|i]; simpl in Hi; [congruence|].
        destruct (proj2 Hans (Device bn dfn (S j + i)) r') as (? & ? & ? & Hit); [by exists i|done|].
        split_and!; try done. intros a Ha. cbn [bar_hits]. unfold bar_hit at 1.
        rewrite bool_decide_false by done. simpl. rewrite Hit by done. do 2 f_equal. lia.
Qed.

(** ** Devices *)

Lemma acpi_allocate_spec n c port (s : pci_state hw) B :
  base_is ids PCI_BAR_IO B (regs s) -> 1 <= n <= 2 ^ 31 -> 2 * Region.window n + 3 = c -> c <= B ->
  exists b s', acpi_allocate n port s = Some (b, s') /\ base_is ids PCI_BAR_IO b (regs s') /\
    B - c <= b <= B.
Proof.
  intros HB Hn <- Hroom.
  destruct (base_is_allocate ids PCI_BAR_IO B n (regs s) HB Hn Hroom) as (b & l' & E & Hb & Hlo & Hhi & _).
  cbn [pci_resource_align_dev] in Hlo. pose proof (window_le n ltac:(lia)).
  unfold acpi_allocate. rewrite (run_bind _ _ s b (set_regs l' s)) by (unfold on_regs; by rewrite E).
  eexists b, _. split; [reflexivity|]. split; [exact Hb|lia].
Qed.

(** The five blocks of the power management unit come out of the I/O region. *)
Lemma acpi_osb4_init_spec (s : pci_state hw) B :
  base_is ids PCI_BAR_IO B (regs s) -> 71 <= B ->
  exists s' B', acpi_osb4_init s = Some (tt, s') /\ base_is ids PCI_BAR_IO B' (regs s') /\ B - 71 <= B' <= B.
Proof.
  intros HB Hroom. unfold acpi_osb4_init.
  do 2 rewrite (run_bind (p_outb _ _) _ _ tt _ eq_refl).
  set (s0 := set_hw _ (set_hw _ s)).
  destruct (acpi_allocate_spec PM1_EVT_LEN 11 PM1_EVT_REG s0 B HB) as (b1 & s1 & E1 & HB1 & H1); [by vm_compute|done|lia|].
  rewrite (run_bind _ _ _ _ _ E1). rewrite (run_bind (set_block _ _ _ _) _ _ tt _ eq_refl).
  set (s1' := set_fadt _ s1).
  destruct (acpi_allocate_spec PM1_CNT_LEN_A 11 PM1_CNT_REG s1' b1 HB1) as (b2 & s2 & E2 & HB2 & H2); [by vm_compute|done|lia|].
  rewrite (run_bind _ _ _ _ _ E2). rewrite (run_bind (set_block _ _ _ _) _ _ tt _ eq_refl).
  rewrite (run_bind (on_hw _) _ _ tt _ eq_refl). set (s2' := set_hw _ (set_fadt _ s2)).
  destruct (acpi_allocate_spec PM_TMR_LEN 11 PM_TMR_REG s2' b2 HB2) as (b3 & s3 & E3 & HB3 & H3); [by vm_compute|done|lia|].
  rewrite (run_bind _ _ _ _ _ E3). rewrite (run_bind (set_block _ _ _ _) _ _ tt _ eq_refl).
  set (s3' := set_fadt _ s3).
  destruct (acpi_allocate_spec P_CNT_LEN_A 19 P_CNT_REG s3' b3 HB3) as (b4 & s4 & E4 & HB4 & H4); [by vm_compute|done|lia|]. rewrite (run_bind _ _ _ _ _ E4).
  destruct (acpi_allocate_spec GPE0_BLK_LEN 19 GPE0_BLK_REG s4 b4 HB4) as (b5 & s5 & E5 & HB5 & H5); [by vm_compute|done|lia|].
  rewrite (run_bind _ _ _ _ _ E5). rewrite (run_bind (set_block _ _ _ _) _ _ tt _ eq_refl).
  eexists _, b5. split; [reflexivity|]. split; [exact HB5|lia].
Qed.

(** No fixup runs before the BARs of such a device. *)
Lemma fixup_pre_none t bn d : dev_ok t d -> pci_resource_fixup_pre (hw := hw) bn d t = mret (0, d).
Proof. intros [[Hf | Hf] _]; unfold pci_resource_fixup_pre; rewrite Hf; by destruct t. Qed.

Lemma fixup_post_spec t bn d bs (s : pci_state hw) B :
  dev_ok t d -> base_is ids t B (regs s) ->
  (if decide (t = PCI_BAR_IO /\ is_Some (find_fixup d)) then 71 else 0) <= B ->
  exists v s' B', pci_resource_fixup_post bn (set_bars bs d) t s = Some ((v, set_bars bs d), s') /\
    base_is ids t B' (regs s') /\
    B - (if decide (t = PCI_BAR_IO /\ is_Some (find_fixup d)) then 71 else 0) <= B' <= B.
Proof.
  intros [Hf _] HB Hroom. unfold pci_resource_fixup_post.
  change (find_fixup (set_bars bs d)) with (find_fixup d).
  destruct (decide (t = PCI_BAR_IO)) as [->|Ht].
  - destruct Hf as [Hf|Hf]; rewrite Hf in *.
    + exists 0, s, B. rewrite decide_False by (intros [_ [? ?]]; done). split; [done|]. split; [done|lia].
    + rewrite decide_True in * by (split; [done|by eexists]).
      destruct (acpi_osb4_init_spec s B HB Hroom) as (s' & B' & E & HB' & Hr).
      exists 0, s', B'. split; [|done]. cbn [mbind option_bind snd run_fixup_if run_fixup].
      by rewrite (run_bind _ _ _ _ _ E).
  - rewrite decide_False in * by (by intros [? _]).
    exists 0, s, B. split; [|split; [done|lia]]. by destruct t.
Qed.

Lemma dev_need_nonneg t d : dev_ok t d -> 0 <= dev_need t d.
Proof.
  intros [_ Hd]. unfold dev_need. pose proof (bars_need_nonneg t (bar d) Hd). case_decide; lia.
Qed.

Lemma devs_need_cons t d ds : devs_need t (d :: ds) = dev_need t d + devs_need t ds.
Proof. done. Qed.

Lemma devs_need_nonneg t ds : Forall (dev_ok t) ds -> 0 <= devs_need t ds.
Proof.
  induction 1 as [|d ds Hd _ IH]; [done|]. rewrite devs_need_cons. pose proof (dev_need_nonneg t d Hd). lia.
Qed.

Lemma allocate_dev_spec t bn d s B :
  dev_ok t d -> base_is ids t B (regs s) -> dev_need t d < B ->
  exists bs' s' B', allocate_dev (hw := hw) bn t d s = Some (set_bars bs' d, s') /\
    base_is ids t B' (regs s') /\ B - dev_need t d <= B' <= B /\
    map (bar_frame t) bs' = map (bar_frame t) (bar d) /\
    answers t B' B B' B (fun a => bar_hits t a bn (devfn d) 0 bs')
      (fun x r => exists i, bs' !! i = Some r /\ x = Device bn (devfn d) i).
Proof.
  intros Hok HB Hn. pose proof Hok as [_ Hbs]. unfold dev_need in *.
  assert (Hfix : 0 <= if decide (t = PCI_BAR_IO /\ is_Some (find_fixup d)) then 71 else 0) by (by case_decide).
  destruct (allocate_bars_spec t bn (devfn d) (bar d) 0 s B Hbs HB ltac:(lia))
    as (bs' & s1 & B1 & E & HB1 & Hr & Hsh & Hans).
  destruct (fixup_post_spec t bn d bs' s1 B1 Hok HB1 ltac:(lia)) as (v & s2 & B2 & E2 & HB2 & Hr2).
  exists bs', s2, B2. split.
  { unfold allocate_dev. rewrite fixup_pre_none by done. rewrite (run_bind _ _ s (0, d) s) by done.
    cbn [Z.ltb Z.compare]. change 0 with (Z.of_nat 0) at 1. rewrite (run_bind _ _ _ _ _ E).
    by rewrite (run_bind _ _ _ _ _ E2). }
  split; [done|]. split; [lia|]. split; [done|].
  eapply answers_weaken; [exact Hans|lia..|done|done].
Qed.

Lemma allocate_devs_spec t bn : forall ds s B,
  Forall (dev_ok t) ds -> base_is ids t B (regs s) -> devs_need t ds < B ->
  exists ds' s' B', map_run (hw := hw) (allocate_dev bn t) ds s = Some (ds', s') /\
    base_is ids t B' (regs s') /\ B - devs_need t ds <= B' <= B /\
    map (dev_frame t) ds' = map (dev_frame t) ds /\
    answers t B' B B' B (fun a => dev_hits t a bn ds')
      (fun x r => exists d j, d ∈ ds' /\ bar d !! j = Some r /\ x = Device bn (devfn d) j).
Proof.
  induction ds as [|d ds IH]; intros s B Hds HB Hneed.
  - exists [], s, B. do 4 (split; [first [done|simpl; lia]|]). split; [by left|].
    intros x r (d & j & Hd & _). by apply not_elem_of_nil in Hd.
  - apply Forall_cons in Hds as [Hd Hds]. rewrite devs_need_cons in *.
    pose proof (devs_need_nonneg t ds Hds). pose proof (dev_need_nonneg t d Hd).
    destruct (allocate_dev_spec t bn d s B Hd HB ltac:(lia))
      as (bs' & s1 & B1 & E1 & HB1 & Hr1 & Hsh1 & Hans1).
    destruct (IH s1 B1 Hds HB1 ltac:(lia)) as (ds' & s2 & B2 & E2 & HB2 & Hr2 & Hsh2 & Hans2).
    exists (set_bars bs' d :: ds'), s2, B2. split.
    { cbn [map_run]. rewrite (run_bind _ _ _ _ _ E1). by rewrite (run_bind _ _ _ _ _ E2). }
    split; [done|]. split; [lia|]. split.
    { cbn [map]. rewrite Hsh2. f_equal. unfold dev_frame. cbn [bar set_bars]. by rewrite Hsh1. }
    eapply answers_weaken; [eapply (proj2 (answers_join t B2 B1 B B2 B1 B1 B _ _ _ _ Hans2 Hans1
      ltac:(lia) ltac:(lia) ltac:(lia)))|lia..| |].
    + done.
    + intros x r (d' & j & Hin & Hj & ->). apply elem_of_cons in Hin as [->|Hin].
      * left. by exists j.
      * right. by exists d', j.
Qed.

(** ** Bridges *)

(** A computation that always returns [a] and leaves the regions as they are. *)
Definition yields {A} (m : M A) (a : A) : Prop := forall s, exists s', m s = Some (a, s') /\ regs s' = regs s.

Lemma yields_ret {A} (a : A) : yields (mret a) a.
Proof. intros s. by exists s. Qed.
Lemma yields_bind {A B} (m : M A) (k : A -> M B) b :
  quiet m -> (forall a, yields (k a) b) -> yields (m ≫= k) b.
Proof.
  intros Hm Hk s. destruct (Hm s) as (a & s1 & E1 & R1). destruct (Hk a s1) as (s2 & E2 & R2).
  exists s2. rewrite (run_bind m k s a s1 E1). split; [done|congruence].
Qed.

Create HintDb quiet.
Hint Resolve quiet_ret quiet_hw quiet_ask_hw quiet_ask yields_ret : quiet.

(** Sequences of quiet steps. *)
Ltac quiets := repeat first
  [ progress intros | solve [eauto 2 with quiet]
  | apply yields_bind | apply quiet_bind | apply quiet_if
  | apply quiet_upd; intros; reflexivity ].

Lemma quiet_readb d reg : quiet (pci_dev_readb d reg).
Proof. unfold pci_dev_readb, pci_dev_read_config. quiets. Qed.
Lemma quiet_readw d reg : quiet (pci_dev_readw d reg).
Proof. unfold pci_dev_readw, pci_dev_read_config. quiets. Qed.
Lemma quiet_writeb d reg v : quiet (pci_dev_writeb d reg v).
Proof. unfold pci_dev_writeb, pci_dev_write_config. quiets. Qed.
Lemma quiet_writew d reg v : quiet (pci_dev_writew d reg v).
Proof. unfold pci_dev_writew, pci_dev_write_config. quiets. Qed.
Hint Resolve quiet_readb quiet_readw quiet_writeb quiet_writew : quiet.
Lemma quiet_clear_upper d reg upper : quiet (clear_upper d reg upper).
Proof. unfold clear_upper. quiets. Qed.
Lemma quiet_or_byte d reg bits : quiet (or_byte d reg bits).
Proof. unfold or_byte. quiets. Qed.
Lemma quiet_chew_ram d b : quiet (chew_ram d b).
Proof. unfold chew_ram. quiets. Qed.
Hint Resolve quiet_clear_upper quiet_or_byte quiet_chew_ram : quiet.

(** The step of a granule. *)
Definition granule (t : pci_bar_t) : Z := pci_resource_align_bridge t + 1.
Definition ceil (t : pci_bar_t) (x : Z) : Z := (x + granule t - 1) / granule t * granule t.

Lemma align_bridge_pow t : t <> PCI_BAR_EMPTY ->
  exists k, 0 <= k /\ pci_resource_align_bridge t = 2 ^ k - 1 /\ granule t = 2 ^ k.
Proof. destruct t; [done|by exists 12|by exists 20|by exists 20]. Qed.

Lemma align_bus_pow t : t <> PCI_BAR_EMPTY ->
  exists k, 0 <= k /\ pci_resource_align_bus t = 2 ^ k - 1 /\ 2 ^ k <= granule t.
Proof. destruct t; [done|by exists 2|by exists 16|by exists 16]. Qed.

(** A function of a bridge whose window starts at the base of the region. *)
Lemma resource_bridge_spec t i s B :
  t <> PCI_BAR_EMPTY -> is_Some (self i) -> base_is ids t B (regs s) -> bar_base (map_of t i) = B ->
  bar_limit (map_of t i) < 2 ^ 32 ->
  let l := bar_limit (map_of t i) in let b := B - B mod granule t in
  exists s', base_is ids t (if l <=? B then B else b) (regs s') /\
    resource_bridge (hw := hw) i t s =
      Some (if l <=? B then (0, i) else (u32 (l - b + 1), set_map t (set_bar_window b l (map_of t i)) i), s').
Proof.
  intros Ht [dv Hself] HB Hbase Hhigh l b.
  destruct (align_bridge_pow t Ht) as (k & Hk & Eal & Eg). pose proof (base_is_range _ _ _ _ HB) as HBr.
  assert (Hmod : 0 <= B mod granule t < granule t) by (apply Z.mod_pos_bound; rewrite Eg; lia).
  assert (Hble : B mod granule t <= B) by (apply Z.mod_le; rewrite ?Eg; lia).
  unfold resource_bridge. rewrite decide_False by done.
  rewrite (run_bind _ _ s tt (set_bridge 1 s)) by done.
  assert (Hw : exists s1, base_is ids t (if l <=? B then B else b) (regs s1) /\
    bridge_window t i (set_bridge 1 s) =
      Some (if l <=? B then (0, i) else (l - b, set_map t (set_bar_window b l (map_of t i)) i), s1)).
  { unfold bridge_window. rewrite Hbase. fold l. destruct (l <=? B) eqn:E; [by exists (set_bridge 1 s)|].
    apply Z.leb_gt in E. destruct (base_is_align ids t B k (regs s) HB Hk) as (l' & El & Hl').
    rewrite <- Eal, <- Eg in El. rewrite <- Eg in Hl'. fold b in El, Hl'.
    exists (set_regs l' (set_bridge 1 s)). split; [done|].
    rewrite (run_bind _ _ (set_bridge 1 s) b (set_regs l' (set_bridge 1 s)))
      by (unfold on_regs; cbn [regs set_bridge]; by rewrite El).
    rewrite (proj2 (Z.ltb_lt b l)) by lia. rewrite u32_small by lia. done. }
  destruct Hw as (s1 & HB1 & Ew). rewrite (run_bind _ _ _ _ _ Ew). clear Ew.
  destruct (l <=? B) eqn:E; [|apply Z.leb_gt in E]; cbn [self set_map set_resource]; rewrite Hself.
  - change (0 =? 0) with true. cbv iota.
    match goal with |- exists s', _ /\ ?m s1 = Some (?r, s') => assert (Hy : yields m r) end.
    { destruct t; [done|..]; quiets. }
    destruct (Hy s1) as (s' & E' & R). exists s'. by rewrite R, E'.
  - rewrite (proj2 (Z.eqb_neq (l - b) 0)) by lia. cbv iota.
    match goal with |- exists s', _ /\ ?m s1 = Some (?r, s') => assert (Hy : yields m r) end.
    { destruct t; [done|..]; quiets. }
    destruct (Hy s1) as (s' & E' & R). exists s'. by rewrite R, E'.
Qed.

(** The two host bridges: the base of the resource is that of the region. *)
Lemma host_range_spec t i s B :
  t <> PCI_BAR_EMPTY -> is_Some (self i) -> length (resource i) = 4%nat ->
  set_resource_range i = Some pci_resource_cnb30le \/ set_resource_range i = Some pci_resource_m1541 ->
  base_is ids t B (regs s) -> bar_base (map_of t i) = B ->
  exists v i' s' B', call_range (hw := hw) i t s = Some ((v, i'), s') /\ base_is ids t B' (regs s') /\
    B - pci_resource_align_bus t <= B' <= B /\
    (i' = i /\ B' = B \/ i' = set_map t (set_bar_window B' (bar_limit (map_of t i)) (map_of t i)) i).
Proof.
  intros Ht [dv Hself] Hlen Hrange HB Hbase. unfold call_range.
  destruct (align_bus_pow t Ht) as (k & Hk & Eal & Hg).
  destruct Hrange as [-> | ->].
  - unfold resource_cnb30le. rewrite decide_False by done. rewrite Hbase.
    destruct (_ <=? B) eqn:E.
    { exists 0, i, s, B. split; [done|]. split; [done|]. split; [|by left].
      assert (0 <= pci_resource_align_bus t) by (by destruct t). lia. }
    destruct (base_is_align ids t B k (regs s) HB Hk) as (l' & El & Hl'). rewrite <- Eal in El.
    pose proof (Z.mod_pos_bound B (2 ^ k) ltac:(lia)).
    rewrite (run_bind _ _ s (B - B mod 2 ^ k) (set_regs l' s)) by (unfold on_regs; by rewrite El).
    cbn [self set_map set_resource]. rewrite Hself.
    match goal with |- context [mret (?v, ?x)] =>
      match goal with |- exists _ _ _ _, ?m _ = _ /\ _ => assert (Hy : yields m (v, x)) end end.
    { destruct t; [done|..]; quiets. }
    destruct (Hy (set_regs l' s)) as (s' & E' & R).
    eexists _, _, s', (B - B mod 2 ^ k). split; [exact E'|]. rewrite R. split; [done|].
    split; [lia|by right].
  - unfold resource_m1541. rewrite decide_False, Hself by done.
    set (n := if _ <=? _ then 0 else _).
    match goal with |- exists _ _ _ _, ?m _ = _ /\ _ =>
      assert (Hy : yields m (if n =? 0 then 0 else u32 (n + 1), i)) end.
    { apply yields_bind; [quiets|]. intros cmd. destruct (n =? 0); quiets. }
    destruct (Hy s) as (s' & E' & R).
    eexists _, _, s', B. split; [exact E'|]. rewrite R. split; [done|]. split; [|by left].
    assert (0 <= pci_resource_align_bus t) by (by destruct t). lia.
Qed.

End Walk.

(** ** Windows *)

Lemma map_of_set t m i : length (resource i) = 4%nat -> map_of t (set_map t m i) = m.
Proof.
  intros Hl. unfold map_of, set_map. cbn [resource set_resource].
  rewrite nth_lookup, list_lookup_insert_eq; [done|]. rewrite Hl. destruct t; cbn; lia.
Qed.

Lemma length_set_map t m i : length (resource (set_map t m i)) = length (resource i).
Proof. apply length_insert. Qed.

(** The bits of a mask that begin at bit [k]. *)
Lemma land_shifted x m k : 0 <= k -> Z.land x (Z.shiftl m k) = Z.shiftl (Z.land (Z.shiftr x k) m) k.
Proof.
  intros Hk. apply Z.bits_inj'. intros i Hi. rewrite Z.land_spec, !Z.shiftl_spec, Z.land_spec by lia.
  destruct (decide (k <= i)).
  - rewrite Z.shiftr_spec by lia. by replace (i - k + k) with i by lia.
  - rewrite !(Z.testbit_neg_r _ (i - k)) by lia. by rewrite andb_false_r.
Qed.

(** A register that keeps the bits of an address from [c + 4] on, [w] of them, at bit 4. *)
Lemma kept_bits x c w : 0 <= c -> 0 <= w -> 0 <= x < 2 ^ (c + 4 + w) ->
  Z.shiftl (Z.land (Z.shiftr x c) (Z.shiftl (Z.ones w) 4)) c = x / 2 ^ (c + 4) * 2 ^ (c + 4).
Proof.
  intros Hc Hw Hx. rewrite land_shifted, Z.land_ones, Z.shiftr_shiftr by lia.
  rewrite !Z.shiftl_mul_pow2, Z.shiftr_div_pow2 by lia. rewrite Z.mod_small.
  - rewrite Z.pow_add_r by lia. lia.
  - split; [apply Z.div_pos; lia|]. apply Z.div_lt_upper_bound; [lia|]. rewrite <- Z.pow_add_r by lia. lia.
Qed.

(** The highest address of a type plus one. *)
Definition top (t : pci_bar_t) : Z := match t with PCI_BAR_IO => 2 ^ 16 | _ => 2 ^ 32 end.

Lemma decodes_window t i b l n a :
  t <> PCI_BAR_EMPTY -> bar_base (map_of t i) = b -> bar_limit (map_of t i) = l ->
  bar_size (map_of t i) = n -> n <> 0 -> b mod granule t = 0 -> 0 <= b <= l -> l < top t ->
  decodes t a i = true <-> b <= a < ceil t (l + 1).
Proof.
  intros Ht Hb Hl Hn Hn0 Hmod Hbl Htop.
  assert (E : window_base t i = b /\ window_limit t i = l / granule t * granule t + (granule t - 1)).
  { unfold window_base, window_limit, bridge_base, bridge_limit. rewrite Hb, Hl, Hn.
    rewrite (proj2 (Z.eqb_neq n 0)) by done. destruct t; [done|..];
      change (granule _) with (2 ^ 12) in * || change (granule _) with (2 ^ 20) in *; cbn [top] in Htop.
    1: change 0xf0 with (Z.shiftl (Z.ones 4) 4); rewrite !(kept_bits _ 8 4) by lia;
       change (8 + 4) with 12.
    2-3: change 0xfff0 with (Z.shiftl (Z.ones 12) 4); rewrite !(kept_bits _ 16 12) by lia;
       change (16 + 4) with 20.
    all: rewrite <- (Z.shiftl_mul_pow2 (l / _)), lor_shifted, ?Z.shiftl_mul_pow2 by lia;
      change (2 ^ 12) with 4096 in *; change (2 ^ 20) with 1048576 in *; split; dlia. }
  unfold decodes. rewrite (proj1 E), (proj2 E), andb_true_iff, !Z.leb_le. unfold ceil.
  assert (Hg : 0 < granule t) by (by destruct t).
  replace (l + 1 + granule t - 1) with (l + 1 * granule t) by lia.
  rewrite Z.div_add by lia. lia.
Qed.

Lemma decodes_none t i a :
  bar_size (map_of t i) = 0 -> decodes t a i = false.
Proof.
  intros Hn. unfold decodes, window_base, window_limit, bridge_base, bridge_limit. rewrite Hn.
  apply andb_false_iff. rewrite !Z.leb_gt. change (0 =? 0) with true.
  destruct t; cbv iota;
    change (Z.shiftl 0xf0 8) with 0xf000; change (Z.shiftl 0xfff0 16) with 0xfff00000;
    change (Z.lor (Z.shiftl 0 8) 0xfff) with 0xfff; change (Z.lor (Z.shiftl 0 16) 0xfffff) with 0xfffff; lia.
Qed.
