(* ===== verification/PciTheorems.v ===== *)
(** * PciTheorems: the walk over the tree of buses

    By induction on the tree, a bus takes a piece of the region from the top down, and
    what answers on it lies in that piece, rounded up to the granule of the bridges. *)

From S2P Require Import Prelude Region PciIo Pci Acpi PciResource PciResourceProofs.

Section Tree.
Context {hw : Type} `{!IoPorts hw, !Config hw} (ids : list Z).

(** ** Rounding to the granule *)

Lemma granule_pos t : 0 < granule t.
Proof. by destruct t. Qed.

Lemma ceil_bounds t x : x <= ceil t x < x + granule t.
Proof. pose proof (granule_pos t). unfold ceil. dlia. Qed.

Lemma ceil_mono t x y : x <= y -> ceil t x <= ceil t y.
Proof.
  intros H. pose proof (granule_pos t). unfold ceil.
  apply Z.mul_le_mono_nonneg_r; [lia|]. apply Z.div_le_mono; lia.
Qed.

Lemma ceil_multiple t x : x mod granule t = 0 -> ceil t x = x.
Proof.
  intros H. pose proof (granule_pos t). unfold ceil. replace (x + granule t - 1) with (granule t - 1 + x) by lia.
  pose proof (Z.div_mod x (granule t) ltac:(lia)) as Hd. rewrite H, Z.add_0_r in Hd.
  rewrite Hd at 1. rewrite (Z.mul_comm (granule t)), Z.div_add, Z.div_small by lia. lia.
Qed.

Lemma floor_multiple t x : (x - x mod granule t) mod granule t = 0.
Proof. pose proof (granule_pos t). rewrite Zminus_mod_idemp_r, Z.sub_diag. by apply Z.mod_0_l; lia. Qed.

(** ** One bus *)

(** A bus behind a bridge as its parent sees it. *)
Definition kid_hit (t : pci_bar_t) (b : pci_bus) (a : Z) : list delivery :=
  if decodes t a (info b) then [deliver t a b] else [].

Definition bus_spec (t : pci_bar_t) (b : pci_bus) : Prop :=
  forall (s : pci_state hw) B, base_is ids t B (regs s) -> B <= top t -> need t b < B ->
  exists b' s' B', allocate_bus t b s = Some (b', s') /\ base_is ids t B' (regs s') /\
    B - need t b <= B' <= B /\ frame t b' = frame t b /\
    answers t B' B (ceil t B') (ceil t B) (kid_hit t b') (bar_at b').

Lemma allocate_bus_eq t i ds ks :
  allocate_bus (hw := hw) t (mk_bus i ds ks) =
  (l ← on_regs (region_align (bar_id t) (pci_resource_align_bus t));
   let i := set_map t (set_bar_window (bar_base (map_of t i)) (u32 (l - 1)) (map_of t i)) i in
   ks ← allocate_peers t ks;
   ds ← map_run (allocate_dev (busnum i) t) ds;
   b ← ask (fun s => region_get_base (bar_id t) (regs s));
   let i := set_map t (set_bar_window b (bar_limit (map_of t i)) (map_of t i)) i in
   '(n, i) ← call_range i t;
   mret (mk_bus (set_map t (set_bar_size n (map_of t i)) i) ds ks)).
Proof.
  cbn [allocate_bus].
  assert (E : forall ks, (fix peers (ks : list pci_bus) : Run (pci_state hw) (list pci_bus) :=
          match ks with
          | [] => mret []
          | b :: ks => ks ← peers ks; b ← allocate_bus t b; mret (b :: ks)
          end) ks = allocate_peers t ks).
  { clear. induction ks as [|b ks IH]; [done|]. cbn [allocate_peers]. by rewrite <- IH. }
  by rewrite E.
Qed.

Definition kids_need (t : pci_bar_t) (ks : list pci_bus) : Z := foldr Z.add 0 (map (need t) ks).

Lemma need_nonneg t b : plain t b -> 0 <= need t b.
Proof.
  revert b. apply (pci_bus_nested_ind (fun b => plain t b -> 0 <= need t b)). intros i ds ks IH Hp.
  inversion Hp as [? ? ? _ _ _ Hds Hks]; subst. cbn [need].
  pose proof (devs_need_nonneg t ds Hds).
  assert (0 <= pci_resource_align_bus t + pci_resource_align_bridge t) by (by destruct t).
  enough (0 <= foldr Z.add 0 (map (need t) ks)) by lia. clear -IH Hks.
  induction ks as [|k ks IHk]; [done|]. apply Forall_cons in IH as [H1 H2]. apply Forall_cons in Hks as [H3 H4].
  simpl. specialize (H1 H3). specialize (IHk H2 H4). lia.
Qed.

Lemma kids_need_nonneg t ks : Forall (plain t) ks -> 0 <= kids_need t ks.
Proof.
  induction 1 as [|k ks Hk _ IH]; [done|]. unfold kids_need in *. simpl. pose proof (need_nonneg t k Hk). lia.
Qed.

(** The buses behind one bus. *)
Lemma allocate_kids_spec t : forall ks (s : pci_state hw) B,
  Forall (plain t) ks -> Forall (bus_spec t) ks -> base_is ids t B (regs s) -> B <= top t -> kids_need t ks < B ->
  exists ks' s' B', allocate_peers t ks s = Some (ks', s') /\ base_is ids t B' (regs s') /\
    B - kids_need t ks <= B' <= B /\ map (frame t) ks' = map (frame t) ks /\
    answers t B' B (ceil t B') (ceil t B) (fun a => kid_hits t a ks')
      (fun x r => exists k, k ∈ ks' /\ bar_at k x r).
Proof.
  induction ks as [|k ks IH]; intros s B Hp Hks HB Htop Hneed.
  - exists [], s, B. do 4 (split; [first [done|unfold kids_need; simpl; lia]|]). split; [by left|].
    intros x r (k & Hk & _). by apply not_elem_of_nil in Hk.
  - apply Forall_cons in Hp as [Hpk Hp]. apply Forall_cons in Hks as [Hk Hks].
    assert (En : kids_need t (k :: ks) = need t k + kids_need t ks) by done. rewrite En in *.
    pose proof (need_nonneg t k Hpk). pose proof (kids_need_nonneg t ks Hp).
    destruct (IH s B Hp Hks HB Htop ltac:(lia)) as (ks' & s1 & B1 & E1 & HB1 & Hr1 & Hsh1 & Hans1).
    destruct (Hk s1 B1 HB1 ltac:(lia) ltac:(lia)) as (k' & s2 & B2 & E2 & HB2 & Hr2 & Hsh2 & Hans2).
    exists (k' :: ks'), s2, B2. split.
    { cbn [allocate_peers]. rewrite (run_bind _ _ _ _ _ E1). by rewrite (run_bind _ _ _ _ _ E2). }
    split; [done|]. split; [lia|]. split; [simpl; by rewrite Hsh1, Hsh2|].
    pose proof (ceil_mono t B2 B1 ltac:(lia)). pose proof (ceil_mono t B1 B ltac:(lia)).
    eapply answers_weaken; [eapply (proj1 (answers_join t B2 B1 B _ _ _ _ _ _ _ _ Hans2 Hans1
      ltac:(lia) ltac:(lia) ltac:(lia)))|lia..| |].
    + done.
    + intros x r (q & Hin & Hq). apply elem_of_cons in Hin as [->|Hin]; [by left|right; by exists q].
Qed.

(** What a bus record keeps while resources of type [t] are assigned. *)
Definition same_bus (t : pci_bar_t) (i' i : bus_info) : Prop :=
  set_map t (bar_blank t) i' = set_map t (bar_blank t) i /\ length (resource i') = length (resource i).

Lemma set_map_twice t m m' i : set_map t m (set_map t m' i) = set_map t m i.
Proof. unfold set_map, set_resource. cbn. by rewrite list_insert_insert_eq. Qed.

Lemma same_bus_set_map t m i : same_bus t (set_map t m i) i.
Proof. split; [apply set_map_twice|apply length_set_map]. Qed.

Lemma same_bus_trans t i1 i2 i3 : same_bus t i1 i2 -> same_bus t i2 i3 -> same_bus t i1 i3.
Proof. intros [E1 L1] [E2 L2]. split; congruence. Qed.

Lemma same_bus_fields t i' i : same_bus t i' i ->
  self i' = self i /\ set_resource_range i' = set_resource_range i /\ busnum i' = busnum i.
Proof. intros [E _]. exact (conj (f_equal self E) (conj (f_equal set_resource_range E) (f_equal busnum E))). Qed.

(** Everything up to the call through [set_resource_range]. *)
Lemma body_spec t i ds ks (s : pci_state hw) B :
  t <> PCI_BAR_EMPTY -> length (resource i) = 4%nat -> Forall (dev_ok t) ds -> Forall (plain t) ks ->
  Forall (bus_spec t) ks -> base_is ids t B (regs s) -> B <= top t ->
  pci_resource_align_bus t + devs_need t ds + kids_need t ks < B ->
  exists i' ds' ks' s' B1 B2,
    allocate_bus t (mk_bus i ds ks) s =
      ('(n, i) ← call_range i' t; mret (mk_bus (set_map t (set_bar_size n (map_of t i)) i) ds' ks')) s' /\
    base_is ids t B2 (regs s') /\ B - pci_resource_align_bus t <= B1 <= B /\ 0 < B1 /\
    B1 - (devs_need t ds + kids_need t ks) <= B2 <= B1 /\
    same_bus t i' i /\ bar_base (map_of t i') = B2 /\ bar_limit (map_of t i') = B1 - 1 /\
    map (dev_frame t) ds' = map (dev_frame t) ds /\ map (frame t) ks' = map (frame t) ks /\
    answers t B2 B1 B2 (ceil t B1) (fun a => kid_hits t a ks' ++ dev_hits t a (busnum i) ds')
      (fun x r => (exists k, k ∈ ks' /\ bar_at k x r) \/
                  (exists d j, d ∈ ds' /\ bar d !! j = Some r /\ x = Device (busnum i) (devfn d) j)).
Proof.
  intros Ht Hlen Hds Hp Hks HB Htop Hneed. destruct (align_bus_pow t Ht) as (k & Hk & Eal & _).
  pose proof (devs_need_nonneg t ds Hds). pose proof (kids_need_nonneg t ks Hp).
  pose proof (base_is_range _ _ _ _ HB) as HBr.
  destruct (base_is_align ids t B k (regs s) HB Hk) as (l' & El & HB1). rewrite <- Eal in El.
  set (B1 := B - B mod 2 ^ k) in *. pose proof (Z.mod_pos_bound B (2 ^ k) ltac:(lia)).
  set (s1 := set_regs l' s).
  set (i1 := set_map t (set_bar_window (bar_base (map_of t i)) (u32 (B1 - 1)) (map_of t i)) i).
  destruct (allocate_kids_spec t ks s1 B1 Hp Hks HB1 ltac:(lia) ltac:(lia))
    as (ks' & s2 & B2 & E2 & HB2 & Hr2 & Hsh2 & Hans2).
  destruct (allocate_devs_spec ids t (busnum i) ds s2 B2 Hds HB2 ltac:(lia))
    as (ds' & s3 & B3 & E3 & HB3 & Hr3 & Hsh3 & Hans3).
  assert (Hmap : map_of t i1 = set_bar_window (bar_base (map_of t i)) (B1 - 1) (map_of t i)).
  { subst i1. rewrite map_of_set by done. by rewrite u32_small by lia. }
  exists (set_map t (set_bar_window B3 (bar_limit (map_of t i1)) (map_of t i1)) i1), ds', ks', s3, B1, B3.
  split.
  { rewrite allocate_bus_eq. rewrite (run_bind _ _ s B1 s1) by (unfold on_regs; by rewrite El).
    fold i1. cbv zeta. rewrite (run_bind _ _ _ _ _ E2). change (busnum i1) with (busnum i).
    rewrite (run_bind _ _ _ _ _ E3).
    rewrite (run_bind _ _ s3 B3 s3) by (unfold ask; by rewrite (base_is_get _ _ _ _ HB3)). done. }
  split; [done|]. split; [lia|]. split; [lia|]. split; [lia|]. split.
  { eapply same_bus_trans; apply same_bus_set_map. }
  rewrite map_of_set by (subst i1; by rewrite length_set_map). rewrite Hmap.
  split; [done|]. split; [done|]. split; [done|]. split; [done|].
  pose proof (ceil_bounds t B2). pose proof (ceil_mono t B2 B1 ltac:(lia)).
  eapply (proj2 (answers_join t B3 B2 B1 B3 B2 (ceil t B2) (ceil t B1) _ _ _ _ Hans3 Hans2
    ltac:(lia) ltac:(lia) ltac:(lia))).
Qed.

(** What the hits on a bus say about accesses to it. *)
Lemma deliver_answers t i ds ks lo hi wlo whi :
  answers t lo hi wlo whi (fun a => kid_hits t a ks ++ dev_hits t a (busnum i) ds)
    (fun x r => (exists k, k ∈ ks /\ bar_at k x r) \/
                (exists d j, d ∈ ds /\ bar d !! j = Some r /\ x = Device (busnum i) (devfn d) j)) ->
  (forall a, deliver t a (mk_bus i ds ks) <> Contention) /\
  (forall x r, bar_at (mk_bus i ds ks) x r -> bar_type r = t ->
     placed r /\ lo <= bar_base r /\ bar_limit r < hi /\
     forall a, bar_base r <= a <= bar_limit r -> deliver t a (mk_bus i ds ks) = x).
Proof.
  intros [Ha Ho].
  assert (E : forall a, deliver t a (mk_bus i ds ks) = settle (kid_hits t a ks ++ dev_hits t a (busnum i) ds))
    by done.
  split.
  - intros a. rewrite E. destruct (Ha a) as [->|(x & -> & Hx & _)]; done.
  - intros x r Hbar Ht. destruct (Ho x r) as (? & ? & ? & Hit); [|done|].
    { inversion Hbar; subst; [right|left]; eauto. }
    split; [done|]. split; [done|]. split; [done|]. intros a Hr. by rewrite E, Hit.
Qed.

(** The bus as the parent sees it, once its bridge is set up. *)
Lemma answers_kid t i ds ks lo hi wlo whi b l n B :
  answers t lo hi wlo whi (fun a => kid_hits t a ks ++ dev_hits t a (busnum i) ds)
    (fun x r => (exists k, k ∈ ks /\ bar_at k x r) \/
                (exists d j, d ∈ ds /\ bar d !! j = Some r /\ x = Device (busnum i) (devfn d) j)) ->
  t <> PCI_BAR_EMPTY ->
  bar_size (map_of t i) = n -> bar_base (map_of t i) = b -> bar_limit (map_of t i) = l -> l = hi - 1 -> hi <= B -> hi <= top t ->
  (n = 0 /\ l <= lo /\ lo = b \/ n <> 0 /\ b <= lo /\ 0 <= b <= l /\ b mod granule t = 0) ->
  answers t b B (ceil t b) (ceil t B) (kid_hit t (mk_bus i ds ks)) (bar_at (mk_bus i ds ks)).
Proof.
  intros Hans Ht Hmn Hmb Hml -> HhiB Htop Hcase. destruct (deliver_answers t i ds ks _ _ _ _ Hans) as [Hc Hd].
  unfold kid_hit, info. destruct Hcase as [(-> & Hl & ->)|(Hn & Hblo & Hbl & Hmod)].
  - assert (Hno : forall a, decodes t a i = false) by (intros a; by apply decodes_none).
    split; [intros a; left; by rewrite Hno|]. intros x r Hbar Hty.
    destruct (Hd x r Hbar Hty) as ((E & _ & Hs) & H1 & H2 & _). lia.
  - assert (Hdec : forall a, decodes t a i = true <-> b <= a < ceil t hi).
    { intros a. rewrite (decodes_window t i b (hi - 1) n a) by (done || lia).
      by replace (hi - 1 + 1) with hi by lia. }
    pose proof (ceil_mono t hi B HhiB). rewrite (ceil_multiple t b Hmod). split.
    + intros a. destruct (decodes t a i) eqn:E; [right|by left]. apply Hdec in E.
      eexists. split_and!; [done|apply Hc|lia|lia].
    + intros x r Hbar Hty. destruct (Hd x r Hbar Hty) as (Hpl & H1 & H2 & Hit).
      split; [done|]. split; [lia|]. split; [lia|]. intros a Ha. pose proof (ceil_bounds t hi).
      rewrite (proj2 (Hdec a)) by lia. by rewrite Hit.
Qed.

Lemma plain_spec t : t <> PCI_BAR_EMPTY -> forall b, plain t b -> bus_spec t b.
Proof.
  intros Ht. apply (pci_bus_nested_ind (fun b => plain t b -> bus_spec t b)).
  intros i ds ks IH Hp. inversion Hp as [? ? ? Hlen Hself Hrange Hds Hks]; subst.
  intros s B HB Htop Hneed. cbn [need] in *. fold (kids_need t ks) in *.
  assert (Hspec : Forall (bus_spec t) ks) by (rewrite Forall_forall in *; auto).
  assert (Hbr : 0 <= pci_resource_align_bridge t) by (by destruct t).
  destruct (body_spec t i ds ks s B Ht Hlen Hds Hks Hspec HB Htop ltac:(lia))
    as (i' & ds' & ks' & s1 & B1 & B2 & E & HB2 & HB1 & HB1p & Hr2 & Hsame & Hb & Hl & Hshd & Hshk & Hans).
  destruct (same_bus_fields _ _ _ Hsame) as (Fs & Fr & Fn). rewrite <- Fn in Hans.
  assert (Htop32 : top t <= 2 ^ 32) by (by destruct t).
  assert (Hlen' : length (resource i') = 4%nat) by (destruct Hsame as [_ ->]; done).
  destruct (resource_bridge_spec ids t i' s1 B2 Ht ltac:(by rewrite Fs) HB2 Hb ltac:(rewrite Hl; lia))
    as (s2 & HB3 & E2).
  rewrite Hl in *. pose proof (granule_pos t).
  pose proof (Z.mod_pos_bound B2 (granule t) ltac:(lia)).
  pose proof (base_is_range _ _ _ _ HB2).
  pose proof (Z.mod_le B2 (granule t) ltac:(lia) ltac:(lia)).
  assert (Hg : granule t = pci_resource_align_bridge t + 1) by done.
  rewrite E. unfold call_range. rewrite Fr, Hrange. rewrite (run_bind _ _ _ _ _ E2). clear E E2.
  destruct (B1 - 1 <=? B2) eqn:Ecase.
  - apply Z.leb_le in Ecase.
    eexists _, s2, B2. split; [done|]. split; [done|]. split; [lia|]. split.
    { cbn [frame]. rewrite Hshd, Hshk. f_equal. rewrite !set_map_twice. apply Hsame. }
    eapply (answers_kid t _ ds' ks' B2 B1 _ _ B2 (B1 - 1) 0 B); try exact Hans; try done; try lia.
    all: by rewrite map_of_set by done.
  - apply Z.leb_gt in Ecase. set (b := B2 - B2 mod granule t) in *.
    set (m := set_bar_window b (B1 - 1) (map_of t i')).
    set (n := u32 (B1 - 1 - b + 1)).
    assert (Hn : n <> 0) by (unfold n; rewrite u32_small; lia).
    eexists _, s2, b. split; [done|]. split; [done|]. split; [lia|]. split.
    { cbn [frame]. rewrite Hshd, Hshk. f_equal. rewrite !set_map_twice. apply Hsame. }
    eapply (answers_kid t _ ds' ks' B2 B1 _ _ b (B1 - 1) n B); try exact Hans; try done; try lia.
    1-3: rewrite !map_of_set by (rewrite ?length_set_map; done); done.
    right. split; [done|]. split; [lia|]. split; [lia|]. apply floor_multiple.
Qed.

(** ** Host buses *)

(** What the processor sees of the tree behind a host bridge: no address has contention,
    and the BARs of type [t] lie in the resource of the bus, each in its place and reached
    by each of its addresses. *)
Definition served (t : pci_bar_t) (b : pci_bus) : Prop :=
  (forall a, deliver t a b <> Contention) /\
  (forall x r, bar_at b x r -> bar_type r = t ->
     placed r /\ bar_base (map_of t (info b)) <= bar_base r /\ bar_limit r <= bar_limit (map_of t (info b)) /\
     forall a, bar_base r <= a <= bar_limit r -> deliver t a b = x).

Lemma host_need t b : t <> PCI_BAR_EMPTY -> host t b -> 0 <= need t b.
Proof.
  intros Ht Hh. inversion Hh as [i ds ks _ _ _ Hds Hks]; subst. cbn [need]. fold (kids_need t ks).
  pose proof (devs_need_nonneg t ds Hds). pose proof (kids_need_nonneg t ks Hks).
  assert (0 <= pci_resource_align_bus t + pci_resource_align_bridge t) by (by destruct t). lia.
Qed.

Lemma needs_nonneg t l : t <> PCI_BAR_EMPTY -> Forall (host t) l -> 0 <= needs t l.
Proof.
  intros Ht. induction 1 as [|c l Hc _ IH]; [done|]. unfold needs in *. simpl.
  pose proof (host_need t c Ht Hc). lia.
Qed.

Lemma host_spec t b (s : pci_state hw) B :
  t <> PCI_BAR_EMPTY -> host t b -> base_is ids t B (regs s) -> B <= top t -> need t b < B ->
  exists b' s' B', allocate_bus t b s = Some (b', s') /\ base_is ids t B' (regs s') /\
    B - need t b <= B' <= B /\ frame t b' = frame t b /\ served t b' /\
    bar_base (map_of t (info b')) = B' /\ bar_limit (map_of t (info b')) < B.
Proof.
  intros Ht Hh HB Htop Hneed. inversion Hh as [i ds ks Hlen Hself Hrange Hds Hks]; subst.
  cbn [need] in *. fold (kids_need t ks) in *.
  assert (Hal : 0 <= pci_resource_align_bus t <= pci_resource_align_bridge t) by (by destruct t).
  assert (Hspec : Forall (bus_spec t) ks) by (rewrite Forall_forall in *; intros k Hk; apply plain_spec; auto).
  destruct (body_spec t i ds ks s B Ht Hlen Hds Hks Hspec HB Htop ltac:(lia))
    as (i' & ds' & ks' & s1 & B1 & B2 & E & HB2 & HB1 & HB1p & Hr2 & Hsame & Hb & Hl & Hshd & Hshk & Hans).
  destruct (same_bus_fields _ _ _ Hsame) as (Fs & Fr & Fn). rewrite <- Fn in Hans.
  assert (Hlen' : length (resource i') = 4%nat) by (destruct Hsame as [_ ->]; done).
  destruct (host_range_spec ids t i' s1 B2 Ht ltac:(by rewrite Fs) Hlen' ltac:(by rewrite Fr) HB2 Hb)
    as (v & i2 & s2 & B3 & E2 & HB3 & Hr3 & Hi2).
  rewrite E, (run_bind _ _ _ _ _ E2). eexists _, s2, B3. split; [reflexivity|]. split; [done|]. split; [lia|].
  assert (Hsame2 : same_bus t i2 i') by (destruct Hi2 as [[-> _]| ->]; [done|apply same_bus_set_map]).
  assert (Hm2 : map_of t i2 = set_bar_window B3 (B1 - 1) (map_of t i')).
  { destruct Hi2 as [[-> ->]| ->]; [|by rewrite map_of_set, Hl].
    rewrite <- Hb, <- Hl. by destruct (map_of t i'). }
  assert (Hlen2 : length (resource i2) = 4%nat) by (by destruct Hsame2 as [_ ->]).
  split.
  { cbn [frame]. rewrite Hshd, Hshk. f_equal. rewrite set_map_twice.
    rewrite (proj1 Hsame2). apply Hsame. }
  set (i3 := set_map t (set_bar_size v (map_of t i2)) i2).
  assert (Hm3 : map_of t i3 = set_bar_size v (set_bar_window B3 (B1 - 1) (map_of t i')))
    by (unfold i3; by rewrite map_of_set, Hm2).
  destruct (same_bus_fields _ _ _ Hsame2) as (_ & _ & Fn2). rewrite <- Fn2 in Hans.
  destruct (deliver_answers t i3 ds' ks' B2 B1 B2 (ceil t B1) Hans) as [Hc Hd].
  unfold served, info. rewrite Hm3. cbn [bar_base bar_limit set_bar_size set_bar_window].
  split; [|lia]. split; [done|]. intros x r Hbar Hty.
  destruct (Hd x r Hbar Hty) as (? & ? & ? & ?). split_and!; try done; lia.
Qed.

(** Resources of the host buses do not overlap. *)
Definition apart (t : pci_bar_t) (l : list pci_bus) : Prop :=
  forall m n b c, (m < n)%nat -> l !! m = Some b -> l !! n = Some c ->
    bar_limit (map_of t (info b)) < bar_base (map_of t (info c)).

Lemma hosts_spec t : t <> PCI_BAR_EMPTY -> forall l (s : pci_state hw) B,
  Forall (host t) l -> base_is ids t B (regs s) -> B <= top t -> needs t l < B ->
  exists l' s' B', allocate_peers t l s = Some (l', s') /\ base_is ids t B' (regs s') /\
    B - needs t l <= B' <= B /\ map (frame t) l' = map (frame t) l /\
    Forall (served t) l' /\ apart t l' /\
    Forall (fun b => B' <= bar_base (map_of t (info b)) /\ bar_limit (map_of t (info b)) < B) l' /\
    (forall b, head l' = Some b -> bar_base (map_of t (info b)) = B').
Proof.
  intros Ht. induction l as [|b l IH]; intros s B Hh HB Htop Hneed.
  - exists [], s, B. do 5 (split; [first [done|unfold needs; simpl; lia]|]).
    split; [|done]. intros m n c d _ Hm. by rewrite lookup_nil in Hm.
  - apply Forall_cons in Hh as [Hb Hh].
    assert (En : needs t (b :: l) = need t b + needs t l) by done. rewrite En in *.
    pose proof (host_need t b Ht Hb).
    pose proof (needs_nonneg t l Ht Hh).
    destruct (IH s B Hh HB Htop ltac:(lia))
      as (l' & s1 & B1 & E1 & HB1 & Hr1 & Hsh1 & Hs1 & Hap1 & Hin1 & _).
    destruct (host_spec t b s1 B1 Ht Hb HB1 ltac:(lia) ltac:(lia))
      as (b' & s2 & B2 & E2 & HB2 & Hr2 & Hsh2 & Hs2 & Hbase & Hlim).
    exists (b' :: l'), s2, B2. split.
    { cbn [allocate_peers]. rewrite (run_bind _ _ _ _ _ E1). by rewrite (run_bind _ _ _ _ _ E2). }
    split; [done|]. split; [lia|]. split; [cbn [map]; by rewrite Hsh1, Hsh2|].
    split; [by constructor|]. split; [|split].
    + intros m n c d Hmn Hm Hn. destruct n as [|n]; [lia|]. simpl in Hn. destruct m as [|m]; simpl in Hm.
      * simplify_eq. rewrite Forall_forall in Hin1.
        destruct (Hin1 d (list_elem_of_lookup_2 _ _ _ Hn)). lia.
      * eapply (Hap1 m n); [lia|done..].
    + constructor; [lia|]. eapply Forall_impl; [exact Hin1|]. simpl. intros c ?. lia.
    + intros c Hc. simpl in Hc. by simplify_eq.
Qed.

End Tree.

(** * the three passes of [pci_resource_init]

    A pass for one type of resource leaves those of the other types alone, so that what
    each pass establishes holds at the end. *)

(** ** What a pass does not touch *)

Section Frame.
Context (t t' : pci_bar_t) (Ht : t <> t').

Lemma bar_frame_type r : bar_type (bar_frame t' r) = bar_type r.
Proof. unfold bar_frame. by case_decide. Qed.

Lemma bar_frame_size r : bar_size (bar_frame t' r) = bar_size r.
Proof. unfold bar_frame. by case_decide. Qed.

Lemma bar_frame_other r : bar_type r = t -> bar_frame t' r = r.
Proof. intros E. unfold bar_frame. rewrite decide_False; [done|congruence]. Qed.

Lemma map_of_other m i : map_of t (set_map t' m i) = map_of t i.
Proof.
  unfold map_of, set_map. cbn. rewrite !nth_lookup, list_lookup_insert_ne; [done|].
  by destruct t, t'.
Qed.

Lemma bar_hits_frame a bn dfn j bs : bar_hits t a bn dfn j (map (bar_frame t') bs) = bar_hits t a bn dfn j bs.
Proof.
  revert j. induction bs as [|r bs IH]; intros j; [done|]. cbn [map bar_hits]. rewrite IH. f_equal.
  unfold bar_hit. rewrite bar_frame_type. destruct (decide (bar_type r = t)) as [E|E].
  - by rewrite bar_frame_other.
  - by rewrite !bool_decide_false by done.
Qed.

Lemma dev_hits_frame a bn ds : dev_hits t a bn (map (dev_frame t') ds) = dev_hits t a bn ds.
Proof.
  unfold dev_hits. f_equal. rewrite map_map. apply map_ext. intros d. apply bar_hits_frame.
Qed.

Lemma info_frame b : info (frame t' b) = set_map t' (bar_blank t') (info b).
Proof. by destruct b. Qed.

Lemma decodes_frame a b : decodes t a (info (frame t' b)) = decodes t a (info b).
Proof. unfold decodes, window_base, window_limit. by rewrite info_frame, map_of_other. Qed.

Lemma deliver_frame a b : deliver t a (frame t' b) = deliver t a b.
Proof.
  revert b. apply pci_bus_nested_ind. intros i ds ks IH. cbn [frame deliver].
  change (busnum (set_map _ _ i)) with (busnum i). rewrite dev_hits_frame. do 2 f_equal.
  rewrite map_map. f_equal. induction IH as [|k ks Hk _ IHks]; [done|]. cbn [map].
  by rewrite IHks, decodes_frame, Hk.
Qed.

(** The BARs of other types are the same in two trees with the same frame. *)
Lemma bar_at_frame b x r : bar_at b x r -> bar_at (frame t' b) x (bar_frame t' r).
Proof.
  induction 1 as [i ds ks d j r Hd Hj|i ds ks k x r Hk _ IH]; cbn [frame].
  - change (Device (busnum i) (devfn d) j)
      with (Device (busnum (set_map t' (bar_blank t') i)) (devfn (dev_frame t' d)) j).
    apply bar_here; [by apply list_elem_of_fmap_2|]. cbn [bar dev_frame set_bars].
    by rewrite (list_lookup_fmap (bar_frame t')), Hj.
  - apply (bar_below _ _ _ (frame t' k)); [by apply list_elem_of_fmap_2|done].
Qed.

Lemma bar_at_unframe b x r : bar_at (frame t' b) x r -> exists r', bar_at b x r' /\ r = bar_frame t' r'.
Proof.
  revert b x r. apply (pci_bus_nested_ind (fun b => forall x r, bar_at (frame t' b) x r ->
    exists r', bar_at b x r' /\ r = bar_frame t' r')).
  intros i ds ks IH x r Hbar. cbn [frame] in Hbar.
  inversion Hbar as [? ? ? d j ? Hd Hj|? ? ? k ? ? Hk Hin]; subst.
  - apply list_elem_of_fmap in Hd as (d' & -> & Hd'). cbn [bar dev_frame set_bars] in Hj.
    rewrite (list_lookup_fmap (bar_frame t')) in Hj. destruct (bar d' !! j) as [r'|] eqn:E; [|done].
    simpl in Hj. simplify_eq. exists r'. split; [exact (bar_here i ds ks d' j r' Hd' E)|done].
  - apply list_elem_of_fmap in Hk as (k' & -> & Hk'). rewrite Forall_forall in IH.
    destruct (IH k' Hk' x r Hin) as (r' & Hr' & ->). exists r'. split; [|done]. by eapply bar_below.
Qed.

Lemma served_frame b c : frame t' b = frame t' c -> served t b -> served t c.
Proof.
  intros E [Hc Hd]. assert (Hm : map_of t (info c) = map_of t (info b)).
  { rewrite <- (map_of_other (bar_blank t') (info c)), <- info_frame, <- E, info_frame. apply map_of_other. }
  assert (Hdel : forall a, deliver t a c = deliver t a b)
    by (intros a; rewrite <- (deliver_frame a c), <- E; apply deliver_frame).
  split; [intros a; rewrite Hdel; apply Hc|]. intros x r Hbar Hty. rewrite Hm.
  apply bar_at_frame in Hbar. rewrite <- E in Hbar. apply bar_at_unframe in Hbar as (r' & Hbar & Er).
  rewrite bar_frame_other in Er by done.
  assert (Ht' : bar_type r' = t) by (rewrite <- Hty, Er; symmetry; apply bar_frame_type).
  rewrite bar_frame_other in Er by done. subst r'.
  destruct (Hd x r Hbar Hty) as (H1 & H2 & H3 & H4). split_and!; try done. intros a Ha. rewrite Hdel. by apply H4.
Qed.

(** ** Conditions that do not depend on the windows *)

Lemma dev_ok_frame d : dev_ok t (dev_frame t' d) <-> dev_ok t d.
Proof.
  unfold dev_ok. cbn [bar dev_frame set_bars]. rewrite Forall_map.
  assert (E : forall r, (bar_type (bar_frame t' r) = t -> 2 <= bar_size (bar_frame t' r) <= 2 ^ 31) <->
                        (bar_type r = t -> 2 <= bar_size r <= 2 ^ 31))
    by (intros r; by rewrite bar_frame_type, bar_frame_size).
  by rewrite (Forall_iff _ _ _ E).
Qed.

Lemma plain_frame b : plain t (frame t' b) <-> plain t b.
Proof.
  revert b. apply pci_bus_nested_ind. intros i ds ks IH. cbn [frame].
  assert (Hds : Forall (dev_ok t) (map (dev_frame t') ds) <-> Forall (dev_ok t) ds)
    by (rewrite Forall_map; apply Forall_iff, dev_ok_frame).
  assert (Hks : Forall (plain t) (map (frame t') ks) <-> Forall (plain t) ks)
    by (rewrite Forall_map; rewrite !Forall_forall in *; split; intros H k Hk; apply (IH k Hk), H, Hk).
  split; intros H; inversion H; subst; constructor; rewrite ?length_set_map in *; tauto.
Qed.

Lemma host_frame b : host t (frame t' b) <-> host t b.
Proof.
  destruct b as [i ds ks]. cbn [frame].
  assert (Hds : Forall (dev_ok t) (map (dev_frame t') ds) <-> Forall (dev_ok t) ds)
    by (rewrite Forall_map; apply Forall_iff, dev_ok_frame).
  assert (Hks : Forall (plain t) (map (frame t') ks) <-> Forall (plain t) ks)
    by (rewrite Forall_map; apply Forall_iff, plain_frame).
  split; intros H; inversion H; subst; constructor; rewrite ?length_set_map in *; tauto.
Qed.

Lemma dev_need_frame d : dev_need t (dev_frame t' d) = dev_need t d.
Proof.
  unfold dev_need. cbn [bar dev_frame set_bars]. f_equal.
  induction (bar d) as [|r bs IH]; [done|]. cbn [map]. rewrite !bars_need_cons, IH. f_equal.
  unfold bar_need. by rewrite bar_frame_type, bar_frame_size.
Qed.

Lemma need_frame b : need t (frame t' b) = need t b.
Proof.
  revert b. apply pci_bus_nested_ind. intros i ds ks IH. cbn [frame need]. f_equal.
  - f_equal. induction ds as [|d ds IHds]; [done|]. cbn [map]. by rewrite !devs_need_cons, IHds, dev_need_frame.
  - rewrite map_map. f_equal. induction IH as [|k ks Hk _ IHks]; [done|]. cbn [map]. by rewrite IHks, Hk.
Qed.

Lemma hosts_frame l l' : map (frame t') l' = map (frame t') l ->
  Forall (host t) l -> Forall (host t) l' /\ needs t l' = needs t l.
Proof.
  intros E Hl. split.
  - assert (H : Forall (host t) (map (frame t') l)) by (rewrite Forall_map; eapply Forall_impl; [exact Hl|apply host_frame]).
    rewrite <- E, Forall_map in H. eapply Forall_impl; [exact H|apply host_frame].
  - unfold needs. f_equal.
    rewrite <- (map_ext (fun b => need t (frame t' b)) (need t) need_frame l').
    rewrite <- (map_ext (fun b => need t (frame t' b)) (need t) need_frame l).
    by rewrite <- !(map_map (frame t') (need t)), E.
Qed.

End Frame.

Lemma set_map_comm t1 t2 m1 m2 i : t1 <> t2 -> set_map t1 m1 (set_map t2 m2 i) = set_map t2 m2 (set_map t1 m1 i).
Proof.
  intros H. unfold set_map, set_resource. cbn. f_equal. apply list_insert_insert_ne. by destruct t1, t2.
Qed.

Lemma frame_comm t1 t2 b : t1 <> t2 -> frame t1 (frame t2 b) = frame t2 (frame t1 b).
Proof.
  intros H. revert b. apply pci_bus_nested_ind. intros i ds ks IH. cbn [frame].
  rewrite set_map_comm by done. f_equal.
  - rewrite !map_map. apply map_ext. intros d. unfold dev_frame. cbn [bar set_bars].
    unfold set_bars. cbn. f_equal. rewrite !map_map. apply map_ext. intros r.
    unfold bar_frame. repeat case_decide; simpl in *; congruence.
  - rewrite !map_map. induction IH as [|k ks Hk _ IHks]; [done|]. cbn [map]. by rewrite Hk, IHks.
Qed.

(** The trees without anything that is assigned. *)
Definition wiped (b : pci_bus) : pci_bus := frame PCI_BAR_IO (frame PCI_BAR_MMIO (frame PCI_BAR_PMMIO b)).

Lemma wiped_frame t b c : t <> PCI_BAR_EMPTY -> frame t b = frame t c -> wiped b = wiped c.
Proof.
  intros Ht E. unfold wiped. destruct t; [done|..].
  - rewrite (frame_comm PCI_BAR_IO) by done. rewrite (frame_comm PCI_BAR_IO _ b), E by done.
    rewrite <- (frame_comm PCI_BAR_IO _ c) by done. by rewrite <- (frame_comm PCI_BAR_IO).
  - rewrite (frame_comm PCI_BAR_MMIO _ b), E by done. by rewrite <- (frame_comm PCI_BAR_MMIO).
  - by rewrite E.
Qed.

Lemma wiped_frames t l l' : t <> PCI_BAR_EMPTY -> map (frame t) l' = map (frame t) l -> map wiped l' = map wiped l.
Proof.
  intros Ht. revert l. induction l' as [|b l' IH]; intros [|c l] E; [done..|].
  cbn [map] in *. injection E as E1 E2. f_equal; [by apply (wiped_frame t)|by apply IH].
Qed.

Lemma served_frames t t' l l' : t <> t' -> map (frame t') l' = map (frame t') l ->
  Forall (served t) l -> Forall (served t) l'.
Proof.
  intros Ht. revert l. induction l' as [|b l' IH]; intros [|c l] E Hl; [done..|].
  cbn [map] in *. injection E as E1 E2. apply Forall_cons in Hl as [Hc Hl].
  constructor; [by apply (served_frame t t' Ht c)|by apply (IH l)].
Qed.

(** The resources of the host buses after passes for other types. *)
Lemma maps_frames t t' l l' : t <> t' -> map (frame t') l' = map (frame t') l ->
  map (fun b => map_of t (info b)) l' = map (fun b => map_of t (info b)) l.
Proof.
  intros Ht E. transitivity (map (fun b => map_of t (info b)) (map (frame t') l')).
  - rewrite map_map. apply map_ext. intros b. by rewrite info_frame, map_of_other.
  - rewrite E, map_map. apply map_ext. intros b. by rewrite info_frame, map_of_other.
Qed.

(** [apart] in terms of the resources alone. *)
Definition maps_apart (ms : list pci_bar) : Prop :=
  forall m n r q, (m < n)%nat -> ms !! m = Some r -> ms !! n = Some q -> bar_limit r < bar_base q.

Lemma apart_maps t l : apart t l <-> maps_apart (map (fun b => map_of t (info b)) l).
Proof.
  split.
  - intros H m n r q Hmn Hr Hq. rewrite (list_lookup_fmap (fun b => map_of t (info b))) in Hr, Hq.
    destruct (l !! m) as [b|] eqn:Eb, (l !! n) as [c|] eqn:Ec; try done. simpl in *. simplify_eq.
    by eapply (H m n).
  - intros H m n b c Hmn Hb Hc. eapply (H m n); [done|..];
      rewrite (list_lookup_fmap (fun b => map_of t (info b))); by rewrite ?Hb, ?Hc.
Qed.

Section Init.
Context {hw : Type} `{!IoPorts hw, !Config hw}.

Lemma region_find_app l r i : i ∉ map Region.id l -> Region.id r = i -> region_find (l ++ [r]) i = Some (length l).
Proof.
  intros Hi Hr. induction l as [|x l IH]; cbn [map app region_find] in *.
  - by rewrite (proj2 (Z.eqb_eq _ _) Hr).
  - apply not_elem_of_cons in Hi as [Hx Hi]. rewrite (proj2 (Z.eqb_neq _ _)) by done. by rewrite IH.
Qed.

Lemma init_region_spec ids t B n (s : pci_state hw) :
  map Region.id (regs s) = ids -> bar_id t ∉ ids -> 0 <= B < 2 ^ 32 ->
  exists s', init_region (fun _ => true) t B n s = Some (tt, s') /\ base_is (ids ++ [bar_id t]) t B (regs s') /\
             bridge s' = bridge s.
Proof.
  intros Hids Hi HB. eexists. split; [reflexivity|]. split; [|done]. cbn [regs set_regs region_init].
  set (r := mk_region_info _ _ _ _ _ _). split.
  - exists r. assert (Hid : Region.id r = bar_id t) by (by destruct t).
    assert (Hu : u32 B = B) by (apply u32_small; lia). split; [|split; [|split]].
    + exists (length (regs s)). split; [apply region_find_app; [by rewrite Hids|done]|].
      by apply list_lookup_middle.
    + unfold region_ok, r. cbn. rewrite Hu. split; [lia|]. split; [by destruct t|lia].
    + by unfold r; cbn.
    + by destruct t.
  - rewrite map_app, Hids. by destruct t.
Qed.

(** One pass. *)
Lemma pass_spec ids t l (s : pci_state hw) B :
  t <> PCI_BAR_EMPTY -> l <> [] -> Forall (host t) l -> base_is ids t B (regs s) -> B <= top t -> needs t l < B ->
  exists B' l' s', pci_resource_allocate t l s = Some ((B', l'), s') /\ map Region.id (regs s') = ids /\
    B - needs t l <= B' <= B /\ map (frame t) l' = map (frame t) l /\ Forall (served t) l' /\ apart t l' /\
    Forall (fun b => B' <= bar_base (map_of t (info b)) /\ bar_limit (map_of t (info b)) < B) l'.
Proof.
  intros Ht Hl Hh HB Htop Hneed.
  destruct (hosts_spec ids t Ht l s B Hh HB Htop Hneed)
    as (l' & s' & B' & E & HB' & Hr & Hf & Hs & Hap & Hin & Hhead).
  exists B', l', s'. unfold pci_resource_allocate. rewrite (run_bind _ _ _ _ _ E).
  destruct l' as [|b l']; [by destruct l|]. rewrite (Hhead b eq_refl). split; [done|].
  split; [apply HB'|]. done.
Qed.

(** The base of the prefetchable region. *)
Lemma pmmio_base (v br : Z) : 2 ^ 20 < v < 2 ^ 32 ->
  let b := if br =? 0 then v
           else u32 (Z.land v (Z.lnot (pci_resource_align_bridge PCI_BAR_PMMIO)) - 1) in
  v - 2 ^ 20 <= b <= v /\ 0 <= b < 2 ^ 32.
Proof.
  intros Hv b. unfold b. destruct (br =? 0); [lia|].
  pose proof (land_lnot_bounds v (pci_resource_align_bridge PCI_BAR_PMMIO) ltac:(lia) ltac:(done)) as Hl.
  cbn [pci_resource_align_bridge] in *. change 0xfffff with (2 ^ 20 - 1) in *. rewrite u32_small by lia. lia.
Qed.

(** Three passes in a row. *)
Lemma pci_resource_init_spec l (s : pci_state hw) :
  regs s = [] -> l <> [] -> Forall (fun b => forall t, t <> PCI_BAR_EMPTY -> host t b) l ->
  needs PCI_BAR_IO l < RAM_PCI_REGION_IO ->
  needs PCI_BAR_MMIO l + needs PCI_BAR_PMMIO l + 2 ^ 20 < RAM_PCI_REGION_MMIO ->
  exists l' s', pci_resource_init (fun _ => true) l s = Some (l', s') /\ map wiped l' = map wiped l /\
    (forall t, t <> PCI_BAR_EMPTY -> Forall (served t) l' /\ apart t l') /\
    (forall b c, b ∈ l' -> c ∈ l' ->
       bar_limit (map_of PCI_BAR_PMMIO (info b)) < bar_base (map_of PCI_BAR_MMIO (info c))).
Proof.
  intros Hs Hl Hh Hio Hmem. unfold RAM_PCI_REGION_IO, RAM_PCI_REGION_MMIO in *.
  assert (Hhost : forall t, t <> PCI_BAR_EMPTY -> Forall (host t) l)
    by (intros t Ht; eapply Forall_impl; [exact Hh|]; intros b Hb; by apply Hb).
  unfold pci_resource_init.
  destruct (init_region_spec [] PCI_BAR_IO 0xffff [73; 47; 79] s) as (s1 & E1 & HB1 & _);
    [by rewrite Hs|apply not_elem_of_nil|lia|]. rewrite (run_bind _ _ _ _ _ E1). clear E1.
  destruct (pass_spec _ PCI_BAR_IO l s1 0xffff ltac:(done) Hl (Hhost PCI_BAR_IO ltac:(done)) HB1 ltac:(by vm_compute) Hio)
    as (v1 & l1 & s2 & E2 & Hids2 & _ & Hf1 & Hs1 & Ha1 & _). rewrite (run_bind _ _ _ _ _ E2). clear E2.
  assert (Hl1 : l1 <> []) by (intros ->; by destruct l).
  destruct (hosts_frame PCI_BAR_MMIO PCI_BAR_IO l l1 Hf1 (Hhost PCI_BAR_MMIO ltac:(done))) as [Hh1 Hn1].
  destruct (hosts_frame PCI_BAR_PMMIO PCI_BAR_IO l l1 Hf1 (Hhost PCI_BAR_PMMIO ltac:(done))) as [Hh1p Hn1p].
  destruct (init_region_spec _ PCI_BAR_MMIO 0xfec00000 [77; 77; 73; 79] s2 Hids2) as (s3 & E3 & HB3 & _);
    [by vm_compute; set_solver|lia|]. rewrite (run_bind _ _ _ _ _ E3). clear E3.
  pose proof (needs_nonneg PCI_BAR_PMMIO l ltac:(done) (Hhost PCI_BAR_PMMIO ltac:(done))) as Hpn.
  destruct (pass_spec _ PCI_BAR_MMIO l1 s3 0xfec00000 ltac:(done) Hl1 Hh1 HB3 ltac:(by vm_compute) ltac:(lia))
    as (v2 & l2 & s4 & E4 & Hids4 & Hv2 & Hf2 & Hs2 & Ha2 & Hr2). rewrite (run_bind _ _ _ _ _ E4). clear E4.
  assert (Hl2 : l2 <> []) by (intros ->; by destruct l1).
  destruct (hosts_frame PCI_BAR_PMMIO PCI_BAR_MMIO l1 l2 Hf2 Hh1p) as [Hh2 Hn2].
  rewrite (run_bind _ _ s4 (bridge s4) s4) by done.
  destruct (pmmio_base v2 (bridge s4)) as [Hb Hb32]; [lia|]. cbv zeta in Hb, Hb32.
  set (b := if bridge s4 =? 0 then v2 else _) in *.
  destruct (init_region_spec _ PCI_BAR_PMMIO b [80; 77; 77; 73; 79] s4 Hids4) as (s5 & E5 & HB5 & _);
    [by vm_compute; set_solver|lia|]. cbv zeta. rewrite (run_bind _ _ _ _ _ E5). clear E5.
  destruct (pass_spec _ PCI_BAR_PMMIO l2 s5 b ltac:(done) Hl2 Hh2 HB5 ltac:(cbn [top]; lia) ltac:(lia))
    as (v3 & l3 & s6 & E6 & _ & Hv3 & Hf3 & Hs3 & Ha3 & Hr3). rewrite (run_bind _ _ _ _ _ E6). clear E6.
  exists l3, s6. split; [done|]. split.
  { rewrite (wiped_frames PCI_BAR_PMMIO l2) by done. rewrite (wiped_frames PCI_BAR_MMIO l1) by done.
    by apply (wiped_frames PCI_BAR_IO). }
  split.
  - intros [| | |] Ht; [done|..].
    + split; [by apply (served_frames _ PCI_BAR_PMMIO l2), (served_frames _ PCI_BAR_MMIO l1)|].
      apply apart_maps. rewrite (maps_frames _ PCI_BAR_PMMIO l2), (maps_frames _ PCI_BAR_MMIO l1) by done.
      by apply apart_maps.
    + split; [by apply (served_frames _ PCI_BAR_PMMIO l2)|].
      apply apart_maps. rewrite (maps_frames _ PCI_BAR_PMMIO l2) by done. by apply apart_maps.
    + done.
  - intros c d Hc Hd. rewrite Forall_forall in Hr3. destruct (Hr3 c Hc) as [_ Hlim].
    enough (v2 <= bar_base (map_of PCI_BAR_MMIO (info d))) by lia.
    apply (list_elem_of_fmap_2 (fun b => map_of PCI_BAR_MMIO (info b))) in Hd.
    change (map_of PCI_BAR_MMIO (info d) ∈ map (fun b => map_of PCI_BAR_MMIO (info b)) l3) in Hd.
    rewrite (maps_frames PCI_BAR_MMIO PCI_BAR_PMMIO l2 l3 ltac:(done) Hf3) in Hd.
    apply list_elem_of_fmap in Hd as (e & -> & He). rewrite Forall_forall in Hr2. by destruct (Hr2 e He).
Qed.

End Init.

(** ** A machine *)

(** Hardware that records the writes and reads as zero. *)
Definition trace : Type := list (Z * Z * Z * Z).
#[export] Instance trace_ports : IoPorts trace :=
  {| port_out n v p h := (n, p, 0, v) :: h; port_in n p h := (0, h) |}.
#[export] Instance trace_config : Config trace :=
  {| read_config b d r n h := (0, h); write_config b d r v n h := (b, d, r, v) :: h |}.

Definition io_bar (n : Z) : pci_bar := mk_bar PCI_BAR_IO 0 0 n 0 0.
Definition mem_bar (n : Z) : pci_bar := mk_bar PCI_BAR_MMIO 0 0 n 0 0.
Definition pmem_bar (n : Z) : pci_bar := mk_bar PCI_BAR_PMMIO 0 0 n 0 0.
Definition machine_dev (v dv dfn : Z) (bs : list pci_bar) : pci_dev := mk_dev v dv 0 0 0 dfn 0 0 0 bs.
Definition machine_info (n : Z) (slf : Z * Z) (f : range_fn) : bus_info :=
  mk_bus_info n 0 0 0 0 0 0 (Some slf) (resource pci_bus_blank) (Some f).

(** A host bridge with its south bridge and a network device, a bridge with a disk
    controller and a second bridge behind it, and a peer host bus. *)
Definition machine : list pci_bus :=
  [mk_bus (machine_info 0 (0, 0) pci_resource_cnb30le)
     [machine_dev 0x1166 0x9 0 []; machine_dev 0x1166 0x200 120 [];
      machine_dev 0x8086 0x1229 88 [mem_bar 4096; io_bar 64; mem_bar 0x100000]]
     [mk_bus (machine_info 1 (0, 40) pci_resource_bridge)
        [machine_dev 0x1000 0x20 8 [io_bar 256; mem_bar 1024; pmem_bar 8192]]
        [mk_bus (machine_info 2 (1, 16) pci_resource_bridge) [machine_dev 0x100b 0x20 0 [io_bar 256; mem_bar 4096]] []];
      mk_bus (machine_info 3 (0, 48) pci_resource_bridge) [machine_dev 0x100b 0x20 0 [io_bar 256; mem_bar 4096]] []];
   mk_bus (machine_info 4 (0, 1) pci_resource_cnb30le) [machine_dev 0x1011 0x24 8 [pmem_bar 0x1000000; io_bar 32]] []].

Definition machine_state : pci_state trace := 
  mk_pci_state [] [] 0x10000000 0 serverworks_fadt_table (mk_boot_vars 0 [] [] 0x3e0 0 [] 4 [] false).

Lemma machine_hosts t : t <> PCI_BAR_EMPTY -> Forall (host t) machine.
Proof.
  intros Ht. assert (H : forall bs, Forall (fun r => 2 <= bar_size r <= 2 ^ 31) bs ->
    Forall (fun r => bar_type r = t -> 2 <= bar_size r <= 2 ^ 31) bs)
    by (intros bs Hbs; eapply Forall_impl; [exact Hbs|by intros r Hr _]).
  repeat match goal with
  | |- _ \/ _ => first [left; reflexivity | right; reflexivity]
  | |- is_Some _ => by eexists
  | |- Forall (fun r => bar_type r = t -> _) _ => apply H
  | |- _ /\ _ => split
  | |- Forall _ _ => constructor
  | |- host _ _ => constructor
  | |- plain _ _ => constructor
  | |- dev_ok _ _ => split
  | |- _ = _ => reflexivity
  | |- _ <= _ => by vm_compute
  end.
Qed.

(** ** Where the windows go wrong *)

(** A bus behind a PCI-Cardbus bridge, as [pci_cardbus_init] leaves its sizes. *)
Definition cardbus_info : bus_info :=
  set_map PCI_BAR_IO (mk_bar PCI_BAR_IO 0 0 0x100 0x100 0) (machine_info 2 (0, 48) pci_resource_cardbus).

(** A PCI-PCI bridge and, behind a higher device number, a Cardbus bridge. *)
Definition laptop : list pci_bus :=
  [mk_bus (machine_info 0 (0, 0) pci_resource_cnb30le) []
     [mk_bus (machine_info 1 (0, 40) pci_resource_bridge) [machine_dev 0x1000 0x20 8 [io_bar 256]] [];
      mk_bus cardbus_info [] []]].

(** The Cardbus window is cut out at a multiple of 1K; the bridge that is handled next
    decodes the whole 4K around it, so both answer to the ports of the Cardbus window. *)
Lemma cardbus_window_overlapped :
  match pci_resource_allocate PCI_BAR_IO laptop
          (set_regs (region_init true 1 3 0xffff [] []) machine_state) with
  | Some (_, [mk_bus _ _ [k; c]], _) =>
    (bar_base (map_of PCI_BAR_IO (info c)), bar_limit (map_of PCI_BAR_IO (info c))) = (0xf800, 0xf8ff) /\
    decodes PCI_BAR_IO 0xf800 (info k) = true
  | _ => False
  end.
Proof. vm_compute. by split. Qed.

(** A BAR whose size register reads as zero (a 64-bit BAR of 4 GB): the allocator takes a
    request of no bytes for a query and returns how much is allocated, and that number is
    written to the BAR as an address. *)
Lemma bar_of_no_size :
  match pci_resource_allocate PCI_BAR_PMMIO
          [mk_bus (machine_info 0 (0, 0) pci_resource_cnb30le)
             [machine_dev 0x1000 0x20 8 [pmem_bar 0x100000; pmem_bar 0]] []]
          (set_regs (region_init true 3 15 0xfec00000 [] []) machine_state) with
  | Some (_, [mk_bus _ [d] _], _) => map bar_base (bar d) = [0xfeb00000; 0x100000]
  | _ => False
  end.
Proof. vm_compute. reflexivity. Qed.
