(* ===== verification/PciRegisters.v ===== *)
(** * PciRegisters: the registers hold what was assigned

    The log of the writes to configuration space, whatever hardware is behind it, shows that
    the resources recorded in the tree are those the devices and the bridges were told:
    the last write to every base address register and to every window register is that of the
    recorded value.  With it, what [PciTheorems] says of the tree is true of the machine. *)

From S2P Require Import Prelude Region PciIo Pci Acpi PciResource PciResourceProofs PciTheorems.

(** ** The log *)

(** A register: bus, device and function, offset and number of bytes. *)
Record reg := Reg { rg_bus : Z; rg_devfn : Z; rg_off : Z; rg_len : Z }.

Record cfg_write := CfgWrite { w_at : reg; w_val : Z }.

(** Hardware with the log of the writes to its configuration space, the newest first. *)
Record logged (hw : Type) := Logged { writes : list cfg_write; under : hw }.
Arguments Logged {hw} _ _.
Arguments writes {hw} _.
Arguments under {hw} _.

#[export] Instance logged_ports hw `{!IoPorts hw} : IoPorts (logged hw) := {|
  port_out n v p h := Logged (writes h) (port_out n v p (under h));
  port_in n p h := let '(v, u) := port_in n p (under h) in (v, Logged (writes h) u);
|}.
#[export] Instance logged_config hw `{!Config hw} : Config (logged hw) := {|
  read_config b d r n h := let '(v, u) := read_config b d r n (under h) in (v, Logged (writes h) u);
  write_config b d r v n h :=
    Logged (CfgWrite (Reg b d r n) v :: writes h) (write_config b d r v n (under h));
|}.

Definition overlap (a b : reg) : bool :=
  (rg_bus a =? rg_bus b) && (rg_devfn a =? rg_devfn b) &&
  (rg_off a <? rg_off b + rg_len b) && (rg_off b <? rg_off a + rg_len a).

(** The last write that touched the register was of [v], to the whole of it. *)
Definition holds (ws : list cfg_write) (r : reg) (v : Z) : Prop :=
  List.find (fun w => overlap r (w_at w)) ws = Some (CfgWrite r v).

Lemma overlap_comm a b : overlap a b = overlap b a.
Proof.
  unfold overlap. rewrite (Z.eqb_sym (rg_bus a)), (Z.eqb_sym (rg_devfn a)), <- !andb_assoc.
  do 2 f_equal. apply andb_comm.
Qed.
Lemma overlap_refl a : 0 < rg_len a -> overlap a a = true.
Proof. intros H. unfold overlap. rewrite !Z.eqb_refl. cbn [andb]. by rewrite (proj2 (Z.ltb_lt _ _)) by lia. Qed.

Lemma holds_write ws r v : 0 < rg_len r -> holds (CfgWrite r v :: ws) r v.
Proof. intros H. unfold holds. cbn [List.find w_at]. by rewrite overlap_refl. Qed.
Lemma holds_app_l ws new r v : holds new r v -> holds (new ++ ws) r v.
Proof.
  unfold holds. induction new as [|w new IH]; [done|]. cbn [app List.find]. destruct (overlap _ _); [done|apply IH].
Qed.
Lemma holds_app_r ws new r v :
  Forall (fun w => overlap r (w_at w) = false) new -> holds ws r v -> holds (new ++ ws) r v.
Proof. intros Hn H. induction Hn as [|w new Hw _ IH]; [done|]. unfold holds in *. cbn [app List.find]. by rewrite Hw. Qed.

(** ** Registers that share no byte *)

(** The bytes of the base address registers and of the windows of bridges. *)
Definition inside (r : reg) : bool := (0x10 <=? rg_off r) && (rg_off r + rg_len r <=? 0x28) && (0 <? rg_len r).
Definition outside (r : reg) : bool := (rg_off r + rg_len r <=? 0x10) || (0x28 <=? rg_off r).

Fixpoint separate (rs : list reg) : bool :=
  match rs with
  | [] => true
  | r :: rs => forallb (fun q => negb (overlap r q)) rs && separate rs
  end.

Definition clear (rs qs : list reg) : Prop := forall r q, r ∈ rs -> q ∈ qs -> overlap r q = false.

Lemma separate_cons r rs : separate (r :: rs) = true <-> clear [r] rs /\ separate rs = true.
Proof.
  cbn [separate]. rewrite andb_true_iff, forallb_forall. split; intros [H1 H2]; (split; [|done]).
  - intros a q ->%list_elem_of_singleton Hq. apply negb_true_iff, H1, list_elem_of_In, Hq.
  - intros q Hq. apply negb_true_iff, H1; [apply list_elem_of_singleton; done|by apply list_elem_of_In].
Qed.
Lemma separate_app rs qs :
  separate (rs ++ qs) = true <-> separate rs = true /\ separate qs = true /\ clear rs qs.
Proof.
  induction rs as [|r rs IH]; cbn [app].
  { split; [intros H|tauto]. split; [done|]. split; [done|]. by intros a q Ha%elem_of_nil. }
  rewrite !separate_cons, IH. unfold clear. split.
  - intros (H1 & H2 & H3 & H4). split_and!; [|done|done|].
    + intros a q Ha Hq. apply H1; [done|]. apply elem_of_app. by left.
    + intros a q [->|Ha]%elem_of_cons Hq; [|by apply H4].
      apply H1; [by apply list_elem_of_singleton|]. apply elem_of_app. by right.
  - intros ((H1 & H2) & H3 & H4). split_and!; [|done|done|].
    + intros a q Ha [Hq|Hq]%elem_of_app; [by apply H1|]. apply H4; [|done]. apply elem_of_cons.
      left. by apply list_elem_of_singleton in Ha.
    + intros a q Ha Hq. apply H4; [|done]. apply elem_of_cons. by right.
Qed.

(** ** What is assigned *)

(** The base address registers of type [t], from register [j] of a device on. *)
Fixpoint bar_values (t : pci_bar_t) (bn dfn j : Z) (bs : list pci_bar) : list (reg * Z) :=
  match bs with
  | [] => []
  | r :: bs =>
    (if decide (bar_type r = t) then [(Reg bn dfn (PCI_BAR_ADDR j) 4, u32 (bar_base r))] else []) ++
    bar_values t bn dfn (j + 1) bs
  end.
Definition dev_values (t : pci_bar_t) (bn : Z) (d : pci_dev) : list (reg * Z) :=
  bar_values t bn (devfn d) 0 (bar d).

(** The base and the limit register of a PCI-PCI bridge: those that [decodes] reads. *)
Definition window_regs (t : pci_bar_t) (d : Z * Z) (n b l : Z) : list (reg * Z) :=
  match t with
  | PCI_BAR_EMPTY => []
  | PCI_BAR_IO => [(Reg d.1 d.2 PCI2PCI_IO_BASE 1, bridge_base t n b);
                   (Reg d.1 d.2 PCI2PCI_IO_LIMIT 1, bridge_limit t n l)]
  | PCI_BAR_MMIO => [(Reg d.1 d.2 PCI2PCI_MMIO_BASE 2, bridge_base t n b);
                     (Reg d.1 d.2 PCI2PCI_MMIO_LIMIT 2, bridge_limit t n l)]
  | PCI_BAR_PMMIO => [(Reg d.1 d.2 PCI2PCI_PMMIO_BASE 2, bridge_base t n b);
                      (Reg d.1 d.2 PCI2PCI_PMMIO_LIMIT 2, bridge_limit t n l)]
  end.
Lemma land_word x m k : 0 <= k -> Z.land m (Z.ones k) = m -> Z.land x m mod 2 ^ k = Z.land x m.
Proof. intros Hk Hm. rewrite <- Z.land_ones, <- Z.land_assoc by done. by rewrite Hm. Qed.

(** The values fit the registers. *)
Lemma bridge_words n x :
  u8 (bridge_base PCI_BAR_IO n x) = bridge_base PCI_BAR_IO n x /\
  u8 (bridge_limit PCI_BAR_IO n x) = bridge_limit PCI_BAR_IO n x /\
  forall t, t <> PCI_BAR_IO ->
    u16 (bridge_base t n x) = bridge_base t n x /\ u16 (bridge_limit t n x) = bridge_limit t n x.
Proof.
  unfold bridge_base, bridge_limit. split; [|split].
  - destruct (n =? 0); [done|]. by apply (land_word _ _ 8).
  - destruct (n =? 0); [done|]. by apply (land_word _ _ 8).
  - intros t Ht. assert (H : forall y, u16 (Z.land y 0xfff0) = Z.land y 0xfff0) by (intros; by apply (land_word _ _ 16)).
    destruct t; try done; destruct (n =? 0); done || (split; apply H).
Qed.

Definition window_values (t : pci_bar_t) (i : bus_info) : list (reg * Z) :=
  match set_resource_range i, self i with
  | Some pci_resource_bridge, Some d =>
    let m := map_of t i in window_regs t d (bar_size m) (bar_base m) (bar_limit m)
  | _, _ => []
  end.

Fixpoint assigned (t : pci_bar_t) (b : pci_bus) : list (reg * Z) :=
  let '(mk_bus i ds ks) := b in
  concat (map (assigned t) ks) ++ concat (map (dev_values t (busnum i)) ds) ++ window_values t i.

(** ** Runs *)

Section Runs.
Context {hw : Type} `{!IoPorts hw, !Config hw}.
Abbreviation M := (Run (pci_state (logged hw))).
Implicit Types s : pci_state (logged hw).

(** A write to one of the registers, or to none of those that matter. *)
Definition within (rs : list reg) (w : cfg_write) : Prop := outside (w_at w) = true \/ w_at w ∈ rs.

(** From [s] to [s'], only the registers of [vs] were written, and they hold the values,
    but for those that [Q] exempts. *)
Definition done_in (Q : reg * Z -> Prop) (vs : list (reg * Z)) s s' : Prop :=
  exists new, writes (hardware s') = new ++ writes (hardware s) /\ Forall (within (map fst vs)) new /\
    Forall (fun p => Q p \/ holds new p.1 p.2) vs.

Lemma done_none Q s s' : writes (hardware s') = writes (hardware s) -> done_in Q [] s s'.
Proof. intros E. exists []. by split_and!. Qed.

Lemma outside_clear r q : inside r = true -> outside q = true -> overlap r q = false.
Proof. unfold inside, outside, overlap. intros. lia. Qed.

(** Two parts of a run, on different registers. *)
Lemma done_join Q vs1 vs2 s s1 s2 :
  done_in Q vs1 s s1 -> done_in Q vs2 s1 s2 -> clear (map fst vs1) (map fst vs2) ->
  Forall (fun p => inside p.1 = true) vs1 ->
  done_in Q (vs1 ++ vs2) s s2 /\ done_in Q (vs2 ++ vs1) s s2.
Proof.
  intros (n1 & E1 & W1 & H1) (n2 & E2 & W2 & H2) Hc Hi.
  assert (K1 : Forall (fun p => Q p \/ holds (n2 ++ n1) p.1 p.2) vs1).
  { apply Forall_forall. intros p Hp. rewrite Forall_forall in H1, Hi. destruct (H1 p Hp) as [|Hh]; [by left|right].
    apply holds_app_r; [|done]. eapply Forall_impl; [exact W2|]. intros w [Ho|Hw].
    - by apply outside_clear; [apply Hi|].
    - apply Hc; [by apply list_elem_of_fmap_2|done]. }
  assert (K2 : Forall (fun p => Q p \/ holds (n2 ++ n1) p.1 p.2) vs2).
  { eapply Forall_impl; [exact H2|]. intros p [|Hh]; [by left|right]. by apply holds_app_l. }
  assert (Hw : forall vs : list (reg * Z), (forall p, p ∈ map fst vs1 \/ p ∈ map fst vs2 -> p ∈ map fst vs) ->
    Forall (within (map fst vs)) (n2 ++ n1)).
  { intros vs Hvs. apply Forall_app. split; (eapply Forall_impl; [eassumption|]);
      (intros w [|Hin]; [by left|right; apply Hvs; tauto]). }
  split; exists (n2 ++ n1); rewrite E2, E1, app_assoc; (split; [done|]); (split; [|by apply Forall_app]);
    apply Hw; intros p; rewrite map_app, elem_of_app; tauto.
Qed.
Lemma done_seq Q vs1 vs2 s s1 s2 :
  done_in Q vs1 s s1 -> done_in Q vs2 s1 s2 -> clear (map fst vs1) (map fst vs2) ->
  Forall (fun p => inside p.1 = true) vs1 -> done_in Q (vs1 ++ vs2) s s2.
Proof. intros H1 H2 Hc Hi. by apply (done_join Q vs1 vs2 s s1 s2). Qed.
Lemma done_join_none Q vs s s1 s2 :
  done_in Q [] s s1 -> done_in Q vs s1 s2 -> done_in Q vs s s2.
Proof.
  intros H1 H2. destruct (done_join Q [] vs s s1 s2 H1 H2) as [H _]; [by intros a q Ha%elem_of_nil|constructor|exact H].
Qed.
Lemma done_then_none Q vs s s1 s2 :
  done_in Q vs s s1 -> done_in Q [] s1 s2 -> Forall (fun p => inside p.1 = true) vs -> done_in Q vs s s2.
Proof.
  intros H1 H2 Hi. destruct (done_join Q vs [] s s1 s2 H1 H2) as [_ H]; [by intros a q _ Ha%elem_of_nil|done|exact H].
Qed.

(** Computations that write to no register that matters. *)
Definition aside {A} (m : M A) : Prop := forall Q s a s', m s = Some (a, s') -> done_in Q [] s s'.

Lemma run_inv {A B} (m : M A) (k : A -> M B) s b s' :
  (m ≫= k) s = Some (b, s') -> exists a s1, m s = Some (a, s1) /\ k a s1 = Some (b, s').
Proof. unfold mbind, Run_bind. destruct (m s) as [[a s1]|]; [|done]. intros E. by exists a, s1. Qed.

Lemma aside_ret {A} (a : A) : aside (mret a).
Proof. intros Q s b s' [= <- <-]. by apply done_none. Qed.
Lemma aside_bind {A B} (m : M A) (k : A -> M B) : aside m -> (forall a, aside (k a)) -> aside (m ≫= k).
Proof.
  intros Hm Hk Q s b s' (a & s1 & E1 & E2)%run_inv. eapply done_join_none; [by eapply Hm|by eapply Hk].
Qed.
Lemma aside_if {A} (c : bool) (m1 m2 : M A) : aside m1 -> aside m2 -> aside (if c then m1 else m2).
Proof. by destruct c. Qed.
Lemma aside_crash {A} : aside (crash : M A).
Proof. by intros Q s a s' E. Qed.
Lemma aside_ask {A} (f : pci_state (logged hw) -> A) : aside (ask f).
Proof. intros Q s a s' [= <- <-]. by apply done_none. Qed.
Lemma aside_upd (f : pci_state (logged hw) -> pci_state (logged hw)) :
  (forall s, hardware (f s) = hardware s) -> aside (upd f).
Proof. intros Hf Q s a s' [= <- <-]. apply done_none. by rewrite Hf. Qed.
Lemma aside_regs f : aside (on_regs f).
Proof.
  intros Q s a s'. unfold on_regs. destruct (f (regs s)) as [[v l]|]; [|done]. intros [= <- <-]. by apply done_none.
Qed.
Lemma aside_ports n v p : aside (on_hw (port_out n v p)).
Proof. intros Q s a s' [= <- <-]. by apply done_none. Qed.
Lemma aside_read d r n : aside (pci_dev_read_config d r n).
Proof.
  intros Q s a s'. unfold pci_dev_read_config, ask_hw. cbn [read_config logged_config].
  destruct (read_config _ _ _ _ _) as [v u]. intros [= <- <-]. by apply done_none.
Qed.
Lemma aside_write d r v n : outside (Reg d.1 d.2 r n) = true -> aside (pci_dev_write_config d r v n).
Proof.
  intros Ho Q s a s' [= <- <-]. exists [CfgWrite (Reg d.1 d.2 r n) v]. split_and!; [done| |done].
  constructor; [by left|done].
Qed.

(** One register written. *)
Lemma done_write Q d r v n s a s' :
  pci_dev_write_config d r v n s = Some (a, s') -> 0 < n -> done_in Q [(Reg d.1 d.2 r n, v)] s s'.
Proof.
  intros [= <- <-] Hn. exists [CfgWrite (Reg d.1 d.2 r n) v]. split_and!; [done| |].
  - constructor; [right; by apply list_elem_of_singleton|done].
  - constructor; [right; by apply holds_write|done].
Qed.
End Runs.

Create HintDb aside.
#[export] Hint Resolve aside_ret aside_crash aside_ask aside_regs aside_ports aside_read : aside.

(** Sequences of such steps. *)
Ltac asides := repeat first
  [ progress intros | solve [eauto 2 with aside]
  | apply aside_bind | apply aside_if | (apply aside_upd; intros; reflexivity)
  | (apply aside_write; reflexivity) ].

Lemma bar_values_regs t bn dfn j bs bs' :
  map (bar_frame t) bs' = map (bar_frame t) bs ->
  map fst (bar_values t bn dfn j bs') = map fst (bar_values t bn dfn j bs).
Proof.
  revert j bs. induction bs' as [|r' bs' IH]; intros j [|r bs] E; try done. cbn [map] in E. injection E as Er Eb.
  cbn [bar_values]. rewrite !map_app, (IH (j + 1) bs Eb).
  assert (Et : bar_type r' = bar_type r).
  { apply (f_equal bar_type) in Er. unfold bar_frame in Er. by repeat case_decide. }
  rewrite Et. by destruct (decide (bar_type r = t)).
Qed.

Lemma bar_frame_window t b l r : bar_type r = t -> bar_frame t (set_bar_window b l r) = bar_frame t r.
Proof. intros Ht. unfold bar_frame. cbn [bar_type set_bar_window]. by rewrite !decide_True by done. Qed.

Lemma cons_eq {A} (x y : A) l k : x :: l = y :: k -> x = y /\ l = k.
Proof. by intros [= -> ->]. Qed.

Section Walk.
Context {hw : Type} `{!IoPorts hw, !Config hw} (ids : list Z).
Abbreviation M := (Run (pci_state (logged hw))).
Implicit Types s : pci_state (logged hw).

Definition regs_ok (vs : list (reg * Z)) : Prop :=
  separate (map fst vs) = true /\ Forall (fun p => inside p.1 = true) vs.

Lemma regs_ok_app vs ws : regs_ok (vs ++ ws) <-> regs_ok vs /\ regs_ok ws /\ clear (map fst vs) (map fst ws).
Proof. unfold regs_ok. rewrite map_app, separate_app, Forall_app. tauto. Qed.

Lemma regs_ok_ext vs ws : map fst vs = map fst ws -> regs_ok vs <-> regs_ok ws.
Proof.
  intros E. unfold regs_ok. rewrite E.
  assert (H : forall us : list (reg * Z), Forall (fun p => inside p.1 = true) us <-> Forall (fun r => inside r = true) (map fst us))
    by (intros us; by rewrite Forall_map).
  by rewrite !H, E.
Qed.

Lemma clear_comm rs qs : clear rs qs -> clear qs rs.
Proof. intros H r q Hr Hq. rewrite overlap_comm. by apply H. Qed.

(** A BAR without an address is exempt; there is none when the region has room. *)
Definition no_address (p : reg * Z) : Prop := p.2 = 0.

Lemma bars_done t d : forall bs j s bs' s',
  allocate_bars d t j bs s = Some (bs', s') -> regs_ok (bar_values t d.1 d.2 j bs) ->
  done_in no_address (bar_values t d.1 d.2 j bs') s s' /\ map (bar_frame t) bs' = map (bar_frame t) bs.
Proof.
  induction bs as [|r bs IH]; intros j s bs' s' E Hok.
  { injection E as <- <-. split; [by apply done_none|done]. }
  cbn [allocate_bars] in E. apply run_inv in E as (r' & s1 & E1 & E).
  apply run_inv in E as (bs1 & s2 & E2 & [= <- <-]). cbn [bar_values] in *.
  apply regs_ok_app in Hok as (Hok1 & Hok2 & Hc). destruct (IH _ _ _ _ E2 Hok2) as [Hd Hf].
  pose proof (bar_values_regs t d.1 d.2 (j + 1) bs bs1 Hf) as Hregs.
  destruct (decide (bar_type r = t)) as [Ht|Ht].
  - apply run_inv in E1 as (b & s0 & E0 & E1).
    assert (H0 : done_in no_address [] s s0) by (by eapply aside_regs).
    assert (Hr' : bar_type r' = t /\ bar_frame t r' = bar_frame t r /\
      done_in no_address [(Reg d.1 d.2 (PCI_BAR_ADDR j) 4, u32 (bar_base r'))] s0 s1).
    { destruct (b =? 0).
      - injection E1 as <- <-. split; [done|].
        split; [by apply bar_frame_window|].
        exists []. split_and!; [done|done|]. constructor; [by left|done].
      - apply run_inv in E1 as (u & s3 & E3 & [= <- <-]). split; [done|].
        split; [by apply bar_frame_window|].
        by eapply (done_write _ d). }
    destruct Hr' as (Ht' & Hfr & Hd'). rewrite decide_True by done. split; [|cbn [map]; by rewrite Hfr, Hf].
    eapply done_seq; [eapply done_join_none; [exact H0|exact Hd']|exact Hd| |].
    + rewrite Hregs. intros a q Ha Hq. apply Hc; [|done]. cbn [map fst] in *. done.
    + constructor; [|done]. destruct Hok1 as [_ Hi]. apply Forall_cons in Hi as [Hi _]. exact Hi.
  - injection E1 as <- <-. rewrite decide_False by done. split; [exact Hd|]. cbn [map]. by rewrite Hf.
Qed.

Lemma osb4_aside : aside (acpi_osb4_init (hw := logged hw)).
Proof.
  unfold acpi_osb4_init, acpi_allocate, set_block, p_outb, outb, outw. asides.
Qed.

Lemma dev_done t bn d s d' s' :
  dev_ok t d -> allocate_dev bn t d s = Some (d', s') -> regs_ok (dev_values t bn d) ->
  done_in no_address (dev_values t bn d') s s' /\ dev_frame t d' = dev_frame t d.
Proof.
  intros Hok E Hr. unfold allocate_dev in E. rewrite fixup_pre_none in E by done.
  apply run_inv in E as ([r d0] & s0 & [= <- <- <-] & E). change (0 <? 0) with false in E. cbv iota in E.
  apply run_inv in E as (bs' & s1 & E1 & E). apply run_inv in E as ([r d1] & s2 & E2 & [= <- <-]).
  destruct (bars_done t (bn, devfn d) _ _ _ _ _ E1 Hr) as [Hd Hf].
  assert (H2 : done_in no_address [] s1 s2 /\ d1 = set_bars bs' d).
  { revert E2. unfold pci_resource_fixup_post, run_fixup_if.
    assert (Hn : forall s, (mret (0, set_bars bs' d) : M (Z * pci_dev)) s = Some (r, d1, s2) ->
      done_in no_address [] s s2 /\ d1 = set_bars bs' d) by (intros s3 [= <- <- <-]; split; [by apply done_none|done]).
    destruct t; try apply Hn. destruct (_ ≫= _) as [[]|] eqn:Ef; [| |apply Hn].
    - exfalso. destruct Hok as [Hok _]. unfold find_fixup in *. cbn [vendor device set_bars] in Ef.
      destruct Hok as [Hok|Hok]; cbn [vendor device set_bars] in *; rewrite Hok in Ef; by cbn in Ef.
    - cbn [run_fixup]. intros E2. apply run_inv in E2 as (u & s3 & E3 & [= <- <- <-]).
      split; [by eapply osb4_aside|done]. }
  destruct H2 as [H2 ->]. split.
  - unfold dev_values. cbn [bar devfn set_bars]. eapply done_then_none; [exact Hd|exact H2|].
    apply (regs_ok_ext (bar_values t bn (devfn d) 0 bs')) in Hr; [apply Hr|]. by apply bar_values_regs.
  - unfold dev_frame. cbn [bar set_bars]. by rewrite Hf.
Qed.

Lemma dev_values_regs t bn d d' : dev_frame t d' = dev_frame t d ->
  map fst (dev_values t bn d') = map fst (dev_values t bn d).
Proof.
  intros E. unfold dev_values. assert (Eb : map (bar_frame t) (bar d') = map (bar_frame t) (bar d))
    by exact (f_equal bar E).
  assert (Ed : devfn d' = devfn d) by exact (f_equal devfn E). rewrite Ed. by apply bar_values_regs.
Qed.
Lemma devs_values_regs t bn ds ds' : map (dev_frame t) ds' = map (dev_frame t) ds ->
  map fst (concat (map (dev_values t bn) ds')) = map fst (concat (map (dev_values t bn) ds)).
Proof.
  revert ds. induction ds' as [|d' ds' IH]; intros [|d ds] E; try done.
  apply cons_eq in E as [E1 E2].
  cbn [map concat]. rewrite !map_app, (dev_values_regs t bn d d' E1). by rewrite (IH ds E2).
Qed.

Lemma devs_done t bn : forall ds s ds' s',
  Forall (dev_ok t) ds -> map_run (allocate_dev bn t) ds s = Some (ds', s') ->
  regs_ok (concat (map (dev_values t bn) ds)) ->
  done_in no_address (concat (map (dev_values t bn) ds')) s s' /\ map (dev_frame t) ds' = map (dev_frame t) ds.
Proof.
  induction ds as [|d ds IH]; intros s ds' s' Hok E Hr.
  { injection E as <- <-. split; [by apply done_none|done]. }
  apply Forall_cons in Hok as [Hd Hds]. cbn [map_run] in E. apply run_inv in E as (d' & s1 & E1 & E).
  apply run_inv in E as (ds1 & s2 & E2 & [= <- <-]). cbn [map concat] in *.
  apply regs_ok_app in Hr as (Hr1 & Hr2 & Hc).
  destruct (dev_done t bn d s d' s1 Hd E1 Hr1) as [D1 F1]. destruct (IH s1 ds1 s2 Hds E2 Hr2) as [D2 F2].
  split; [|by rewrite F1, F2]. eapply done_seq; [exact D1|exact D2| |].
  - by rewrite (dev_values_regs t bn d d' F1), (devs_values_regs t bn ds ds1 F2).
  - apply (regs_ok_ext (dev_values t bn d')) in Hr1; [apply Hr1|]. by apply dev_values_regs.
Qed.

(** ** Bridges *)

Lemma window_clear (d : Z * Z) o1 o2 n : o1 + n <= o2 -> clear [Reg d.1 d.2 o1 n] [Reg d.1 d.2 o2 n].
Proof.
  intros H a q ->%list_elem_of_singleton ->%list_elem_of_singleton. unfold overlap. cbn.
  rewrite (proj2 (Z.ltb_ge o2 _)) by lia. by rewrite !andb_false_r.
Qed.

(** Two registers of a bridge written one after the other. *)
Lemma two_writes Q (d : Z * Z) o1 o2 n v1 v2 {A} (k : M A) s a s' :
  0 < n -> o1 + n <= o2 -> inside (Reg d.1 d.2 o1 n) = true -> inside (Reg d.1 d.2 o2 n) = true -> aside k ->
  (pci_dev_write_config d o1 v1 n;; pci_dev_write_config d o2 v2 n;; k) s = Some (a, s') ->
  done_in Q [(Reg d.1 d.2 o1 n, v1); (Reg d.1 d.2 o2 n, v2)] s s'.
Proof.
  intros Hn Ho H1 H2 Hk (u & s1 & E1 & E)%run_inv. apply run_inv in E as (u2 & s2 & E2 & E).
  eapply done_then_none; [|by eapply Hk|by repeat constructor].
  change [(Reg d.1 d.2 o1 n, v1); (Reg d.1 d.2 o2 n, v2)]
    with ([(Reg d.1 d.2 o1 n, v1)] ++ [(Reg d.1 d.2 o2 n, v2)]).
  eapply done_seq; [by eapply done_write|by eapply done_write| |by repeat constructor].
  cbn [map fst]. by apply window_clear.
Qed.

Lemma aside_readb d r : aside (pci_dev_readb (hw := logged hw) d r).
Proof. unfold pci_dev_readb. asides. Qed.
Lemma aside_readw d r : aside (pci_dev_readw (hw := logged hw) d r).
Proof. unfold pci_dev_readw. asides. Qed.
Lemma aside_clear_upper d r u : outside (Reg d.1 d.2 u 1) = true -> aside (clear_upper (hw := logged hw) d r u).
Proof.
  intros Ho. unfold clear_upper, pci_dev_readb, pci_dev_writeb. asides. by apply aside_write.
Qed.
Lemma aside_window t i : aside (bridge_window (hw := logged hw) t i).
Proof. unfold bridge_window. asides. Qed.

(** The window [bridge_window] cuts out, and that it is the same bridge. *)
Lemma bridge_window_result t i s n0 i1 s' :
  bridge_window (hw := logged hw) t i s = Some ((n0, i1), s') ->
  (bar_limit (map_of t i) <= bar_base (map_of t i) -> n0 = 0) /\ self i1 = self i /\
  set_resource_range i1 = set_resource_range i.
Proof.
  unfold bridge_window. destruct (Z.leb_spec (bar_limit (map_of t i)) (bar_base (map_of t i))) as [Hle|Hgt].
  - by intros [= <- <- <-].
  - intros E. apply run_inv in E as (b & s1 & _ & [= <- <- <-]). split; [lia|done].
Qed.

Lemma bridge_done Q t i d s n i2 s' :
  t <> PCI_BAR_EMPTY -> self i = Some d -> resource_bridge (hw := logged hw) i t s = Some ((n, i2), s') ->
  exists n0, n = (if n0 =? 0 then 0 else u32 (n0 + 1)) /\
    (bar_limit (map_of t i) <= bar_base (map_of t i) -> n0 = 0) /\
    done_in Q (window_regs t d n0 (bar_base (map_of t i2)) (bar_limit (map_of t i2))) s s'.
Proof.
  intros Ht Hself. unfold resource_bridge. rewrite decide_False by done. intros E.
  apply run_inv in E as (u & s1 & E1 & E). apply run_inv in E as ([n0 i1] & s2 & E2 & E).
  destruct (bridge_window_result _ _ _ _ _ _ E2) as (Hn0 & Hs1 & _). rewrite Hs1, Hself in E.
  apply run_inv in E as (cmd & s3 & E3 & E). apply run_inv in E as (cmd2 & s4 & E4 & E).
  assert (H3 : done_in Q [] s s3).
  { eapply done_join_none; [eapply done_join_none|].
    - eapply aside_upd; [|exact E1]. done.
    - eapply aside_window. exact E2.
    - eapply aside_readw. exact E3. }
  set (vs := fun i => window_regs t d n0 (bar_base (map_of t i)) (bar_limit (map_of t i))).
  assert (H4 : done_in Q (vs i1) s3 s4).
  { pose proof (proj1 (bridge_words n0 (bar_base (map_of t i1)))) as W1.
    pose proof (proj1 (proj2 (bridge_words n0 (bar_limit (map_of t i1))))) as W2.
    pose proof (proj2 (proj2 (bridge_words n0 (bar_base (map_of t i1)))) t) as W3.
    pose proof (proj2 (proj2 (bridge_words n0 (bar_limit (map_of t i1)))) t) as W4.
    unfold pci_dev_writeb, pci_dev_writew in E4. unfold vs. destruct t; [done|..]; cbn [window_regs];
      [rewrite W1, W2 in E4|rewrite (proj1 (W3 ltac:(done))), (proj2 (W4 ltac:(done))) in E4..].
    - eapply two_writes; [done|done|done|done| |exact E4].
      apply aside_bind; [by apply aside_clear_upper|intros _].
      apply aside_bind; [by apply aside_clear_upper|intros _]. apply aside_ret.
    - eapply two_writes; [done|done|done|done| |exact E4]. apply aside_ret.
    - eapply two_writes; [done|done|done|done| |exact E4].
      apply aside_bind; [by apply aside_clear_upper|intros _].
      apply aside_bind; [by apply aside_clear_upper|intros _]. apply aside_ret. }
  assert (Hin : Forall (fun p => inside p.1 = true) (vs i1)) by (unfold vs; destruct t; by repeat constructor).
  exists n0. assert (H5 : i2 = i1 /\ n = (if n0 =? 0 then 0 else u32 (n0 + 1)) /\ done_in Q [] s4 s').
  { destruct (n0 =? 0).
    - injection E as <- <- <-. split_and!; [done|done|by apply done_none].
    - apply run_inv in E as (u5 & s5 & E5 & [= <- <- <-]). split_and!; [done|done|].
      eapply (aside_write d PCI_COMMAND _ 2); [done|exact E5]. }
  destruct H5 as (-> & -> & H5). split; [done|]. split; [done|].
  eapply done_join_none; [exact H3|]. by eapply done_then_none.
Qed.

(** The host bridges write to none of the registers. *)
Lemma or_byte_aside d r v : outside (Reg d.1 d.2 r 1) = true -> aside (or_byte (hw := logged hw) d r v).
Proof. intros Ho. unfold or_byte, pci_dev_readb, pci_dev_writeb. asides. by apply aside_write. Qed.
Lemma chew_ram_aside d b : aside (chew_ram (hw := logged hw) d b).
Proof. unfold chew_ram, pci_dev_writeb. asides. Qed.

Lemma host_aside t i :
  set_resource_range i = Some pci_resource_cnb30le \/ set_resource_range i = Some pci_resource_m1541 ->
  aside (call_range (hw := logged hw) i t).
Proof.
  unfold call_range. intros [-> | ->].
  - unfold resource_cnb30le. destruct (decide _); [apply aside_ret|]. cbv zeta.
    apply aside_if; [apply aside_ret|]. apply aside_bind; [apply aside_regs|]. intros b.
    destruct (self _) as [d|]; [|apply aside_crash].
    apply aside_bind; [|intros _; apply aside_ret].
    destruct t; unfold pci_dev_writew; repeat first
      [ apply or_byte_aside; reflexivity | apply chew_ram_aside | apply aside_write; reflexivity
      | apply aside_bind; [|intros ?] ].
  - unfold resource_m1541. destruct (decide _); [apply aside_ret|]. destruct (self i) as [d|]; [|apply aside_crash].
    unfold pci_dev_writew. apply aside_bind; [apply aside_readw|]. intros c. cbv zeta.
    apply aside_if; [apply aside_ret|]. asides.
Qed.

(** ** The tree *)

Definition never (p : reg * Z) : Prop := False.

Lemma done_strict vs s s' : done_in no_address vs s s' -> Forall (fun p => p.2 <> 0) vs -> done_in never vs s s'.
Proof.
  intros (new & E & W & H) Hp. exists new. split_and!; [done|done|]. apply Forall_forall. intros p Hin.
  rewrite Forall_forall in H, Hp. destruct (H p Hin) as [H0|]; [by destruct (Hp p Hin)|by right].
Qed.

Lemma bar_values_positive t bn dfn j bs :
  (forall r, r ∈ bs -> bar_type r = t -> 0 < bar_base r < 2 ^ 32) ->
  Forall (fun p => p.2 <> 0) (bar_values t bn dfn j bs).
Proof.
  revert j. induction bs as [|r bs IH]; intros j H; [done|]. cbn [bar_values]. apply Forall_app. split.
  - destruct (decide (bar_type r = t)) as [Ht|]; [|done]. constructor; [|done]. cbn [snd].
    specialize (H r ltac:(apply elem_of_cons; by left) Ht). rewrite u32_small by lia. lia.
  - apply IH. intros q Hq. apply H. apply elem_of_cons. by right.
Qed.

Lemma devs_positive t bn ds lo hi wlo whi hits own :
  answers t lo hi wlo whi hits own -> 0 < lo -> hi < 2 ^ 32 ->
  (forall d j r, d ∈ ds -> bar d !! j = Some r -> exists x, own x r) ->
  Forall (fun p => p.2 <> 0) (concat (map (dev_values t bn) ds)).
Proof.
  intros [_ Ha] Hlo Hhi Hown. induction ds as [|d ds IH]; [done|]. cbn [map concat]. apply Forall_app. split.
  - apply bar_values_positive. intros r Hr Ht. apply list_elem_of_lookup in Hr as [j Hj].
    destruct (Hown d j r ltac:(apply elem_of_cons; by left) Hj) as [x Hx].
    destruct (Ha x r Hx Ht) as ((Hl & _ & Hs) & H1 & H2 & _). lia.
  - apply IH. intros d' j r Hd. apply (Hown d' j r). apply elem_of_cons. by right.
Qed.

Lemma window_regs_fst t d n b l n' b' l' : map fst (window_regs t d n b l) = map fst (window_regs t d n' b' l').
Proof. by destruct t. Qed.

(** The registers are those of the tree, whatever is assigned. *)
Lemma assigned_frame t u b : map fst (assigned t (frame u b)) = map fst (assigned t b).
Proof.
  revert b. apply pci_bus_nested_ind. intros i ds ks IH. cbn [frame assigned]. rewrite !map_app. f_equal; [|f_equal].
  - induction IH as [|k ks Hk _ IHks]; [done|]. cbn [map concat]. by rewrite !map_app, Hk, IHks.
  - change (busnum (set_map u (bar_blank u) i)) with (busnum i).
    induction ds as [|d ds IHds]; [done|]. cbn [map concat]. rewrite !map_app, IHds. f_equal.
    unfold dev_values. cbn [bar devfn dev_frame set_bars]. generalize 0. induction (bar d) as [|r bs IHbs]; intros j; [done|].
    cbn [map bar_values]. rewrite !map_app, IHbs, bar_frame_type. by destruct (decide _).
  - unfold window_values. cbn [set_resource_range self set_map set_resource].
    destruct (set_resource_range i) as [[]|]; try done. destruct (self i) as [d|]; [|done]. apply window_regs_fst.
Qed.
Lemma assigned_regs t u b b' : frame u b' = frame u b -> map fst (assigned t b') = map fst (assigned t b).
Proof. intros E. by rewrite <- (assigned_frame t u b'), E, assigned_frame. Qed.
Lemma forest_regs t u l l' : map (frame u) l' = map (frame u) l ->
  map fst (concat (map (assigned t) l')) = map fst (concat (map (assigned t) l)).
Proof.
  revert l. induction l' as [|b' l' IH]; intros [|b l] E; try done. cbn [map] in E. apply cons_eq in E as [E1 E2].
  cbn [map concat]. rewrite !map_app, (assigned_regs t u b b' E1). by rewrite (IH l E2).
Qed.

Definition bus_done (t : pci_bar_t) (b : pci_bus) : Prop :=
  forall s B b' s', base_is ids t B (regs s) -> B <= top t -> need t b < B -> regs_ok (assigned t b) ->
  allocate_bus t b s = Some (b', s') -> done_in never (assigned t b') s s'.

(** What the walk needs to know of a bus. *)
Definition walks (t : pci_bar_t) (b : pci_bus) : Prop :=
  0 <= need t b /\ forall s B, base_is ids t B (regs s) -> B <= top t -> need t b < B ->
  exists b' s' B', allocate_bus t b s = Some (b', s') /\ base_is ids t B' (regs s') /\
    B - need t b <= B' <= B /\ frame t b' = frame t b.

Lemma needs_cons t b l : needs t (b :: l) = need t b + needs t l.
Proof. done. Qed.
Lemma needs_walk t l : Forall (walks t) l -> 0 <= needs t l.
Proof. induction 1 as [|b l [Hb _] _ IH]; [done|]. rewrite needs_cons. lia. Qed.

Lemma peers_done t : forall l s B l' s',
  Forall (walks t) l -> Forall (bus_done t) l -> base_is ids t B (regs s) -> B <= top t -> needs t l < B ->
  regs_ok (concat (map (assigned t) l)) -> allocate_peers t l s = Some (l', s') ->
  exists B', base_is ids t B' (regs s') /\ B - needs t l <= B' <= B /\
    map (frame t) l' = map (frame t) l /\ done_in never (concat (map (assigned t) l')) s s'.
Proof.
  induction l as [|b l IH]; intros s B l' s' Hw Hd HB Htop Hn Hok E.
  { injection E as <- <-. exists B. split; [done|]. split; [unfold needs; simpl; lia|]. split; [done|]. by apply done_none. }
  apply Forall_cons in Hw as [[Hn0 Hwb] Hw]. apply Forall_cons in Hd as [Hdb Hd]. rewrite needs_cons in *.
  pose proof (needs_walk t l Hw). cbn [map concat] in Hok. apply regs_ok_app in Hok as (Hok1 & Hok2 & Hc).
  cbn [allocate_peers] in E. apply run_inv in E as (l1 & s1 & E1 & E). apply run_inv in E as (b1 & s2 & E2 & [= <- <-]).
  destruct (IH s B l1 s1 Hw Hd HB Htop ltac:(lia) Hok2 E1) as (B1 & HB1 & Hr1 & Hf1 & D1).
  destruct (Hwb s1 B1 HB1 ltac:(lia) ltac:(lia)) as (b2 & s3 & B2 & E3 & HB2 & Hr2 & Hf2).
  rewrite E2 in E3. injection E3 as <- <-.
  pose proof (Hdb s1 B1 b1 s2 HB1 ltac:(lia) ltac:(lia) Hok1 E2) as D2.
  exists B2. split; [done|]. split; [lia|]. split; [cbn [map]; by rewrite Hf1, Hf2|]. cbn [map concat].
  eapply (done_join never (concat (map (assigned t) l1))); [exact D1|exact D2| |].
  - rewrite (forest_regs t t l l1 Hf1), (assigned_regs t t b b1 Hf2). by apply clear_comm.
  - apply (regs_ok_ext (concat (map (assigned t) l1))) in Hok2; [apply Hok2|by apply (forest_regs t t)].
Qed.

Lemma plain_walks t b : t <> PCI_BAR_EMPTY -> plain t b -> walks t b.
Proof.
  intros Ht Hp. split; [by apply need_nonneg|]. intros s B HB Htop Hn.
  destruct (plain_spec ids t Ht b Hp s B HB Htop Hn) as (b' & s' & B' & E & HB' & Hr & Hf & _). by exists b', s', B'.
Qed.
Lemma host_walks t b : t <> PCI_BAR_EMPTY -> host t b -> walks t b.
Proof.
  intros Ht Hp. split; [by apply host_need|]. intros s B HB Htop Hn.
  destruct (host_spec ids t b s B Ht Hp HB Htop Hn) as (b' & s' & B' & E & HB' & Hr & Hf & _). by exists b', s', B'.
Qed.

(** Everything up to the call through [set_resource_range]. *)
Lemma body_done t i ds ks s B b' s' :
  t <> PCI_BAR_EMPTY -> length (resource i) = 4%nat -> Forall (dev_ok t) ds -> Forall (walks t) ks ->
  Forall (bus_done t) ks -> base_is ids t B (regs s) -> B <= top t ->
  pci_resource_align_bus t + devs_need t ds + needs t ks < B ->
  regs_ok (concat (map (assigned t) ks) ++ concat (map (dev_values t (busnum i)) ds)) ->
  allocate_bus t (mk_bus i ds ks) s = Some (b', s') ->
  exists i' ds' ks' s1 n i2 B1 B2,
    b' = mk_bus (set_map t (set_bar_size n (map_of t i2)) i2) ds' ks' /\
    call_range i' t s1 = Some ((n, i2), s') /\ base_is ids t B2 (regs s1) /\ same_bus t i' i /\
    bar_base (map_of t i') = B2 /\ bar_limit (map_of t i') = B1 - 1 /\ 0 < B1 < 2 ^ 32 /\
    map (dev_frame t) ds' = map (dev_frame t) ds /\ map (frame t) ks' = map (frame t) ks /\
    done_in never (concat (map (assigned t) ks') ++ concat (map (dev_values t (busnum i)) ds')) s s1.
Proof.
  intros Ht Hlen Hds Hw Hd HB Htop Hneed Hok. destruct (align_bus_pow t Ht) as (k & Hk & Eal & _).
  pose proof (devs_need_nonneg t ds Hds). pose proof (needs_walk t ks Hw). pose proof (base_is_range _ _ _ _ HB) as HBr.
  destruct (base_is_align ids t B k (regs s) HB Hk) as (l' & El & HB1). rewrite <- Eal in El.
  set (B1 := B - B mod 2 ^ k) in *. pose proof (Z.mod_pos_bound B (2 ^ k) ltac:(lia)).
  rewrite allocate_bus_eq. intros E. apply run_inv in E as (l & s1 & E1 & E).
  assert (Hs1 : l = B1 /\ s1 = set_regs l' s) by (unfold on_regs in E1; rewrite El in E1; by injection E1 as <- <-).
  destruct Hs1 as [-> ->]. cbv zeta in E. apply run_inv in E as (ks' & s2 & E2 & E).
  apply run_inv in E as (ds' & s3 & E3 & E). apply run_inv in E as (b & s4 & E4 & E).
  apply run_inv in E as ([n i2] & s5 & E5 & [= <- <-]).
  apply regs_ok_app in Hok as (Hok1 & Hok2 & Hc).
  destruct (peers_done t ks (set_regs l' s) B1 ks' s2 Hw Hd HB1 ltac:(lia) ltac:(lia) Hok1 E2)
    as (B2 & HB2 & Hr2 & Hf2 & D2).
  change (busnum (set_map t _ i)) with (busnum i) in E3.
  destruct (devs_done t (busnum i) ds s2 ds' s3 Hds E3 Hok2) as [D3 F3].
  destruct (allocate_devs_spec ids t (busnum i) ds s2 B2 Hds HB2 ltac:(lia))
    as (ds'' & s3' & B3 & E3' & HB3 & Hr3 & _ & Hans). rewrite E3 in E3'. injection E3' as <- <-.
  assert (Hs4 : b = B3 /\ s4 = s3) by (unfold ask in E4; rewrite (base_is_get _ _ _ _ HB3) in E4; by injection E4 as <- <-).
  destruct Hs4 as [-> ->].
  eexists _, ds', ks', s3, n, i2, B1, B3. split; [done|]. split; [exact E5|]. split; [done|].
  set (i1 := set_map t (set_bar_window (bar_base (map_of t i)) (u32 (B1 - 1)) (map_of t i)) i).
  assert (Hm1 : map_of t i1 = set_bar_window (bar_base (map_of t i)) (B1 - 1) (map_of t i))
    by (unfold i1; rewrite map_of_set by done; by rewrite u32_small by lia).
  split; [eapply same_bus_trans; apply same_bus_set_map|].
  rewrite map_of_set by (unfold i1; by rewrite length_set_map). rewrite Hm1.
  split; [done|]. split; [done|]. split; [lia|]. split; [done|]. split; [done|].
  eapply done_seq; [|apply (done_strict _ s2); [exact D3|]| |].
  - destruct D2 as (new & N1 & N2 & N3). by exists new.
  - eapply (devs_positive t (busnum i) ds'); [exact Hans|lia|lia|]. intros d j r Hin Hj. by eexists _, d, j.
  - by rewrite (forest_regs t t ks ks' Hf2), (devs_values_regs t (busnum i) ds ds' F3).
  - apply (regs_ok_ext (concat (map (assigned t) ks'))) in Hok1; [apply Hok1|by apply (forest_regs t t)].
Qed.

Lemma window_regs_size t d n n0 b l : (n = 0 <-> n0 = 0) -> window_regs t d n b l = window_regs t d n0 b l.
Proof.
  intros Hn. assert (E : (n =? 0) = (n0 =? 0)) by lia. unfold window_regs, bridge_base, bridge_limit. by rewrite E.
Qed.

Lemma plain_done t : t <> PCI_BAR_EMPTY -> forall b, plain t b -> bus_done t b.
Proof.
  intros Ht. apply (pci_bus_nested_ind (fun b => plain t b -> bus_done t b)).
  intros i ds ks IH Hp. inversion Hp as [? ? ? Hlen [d Hself] Hrange Hds Hks]; subst.
  intros s B b' s' HB Htop Hneed Hok E. cbn [need assigned] in *.
  assert (Hbr : 0 <= pci_resource_align_bridge t) by (by destruct t).
  assert (Hd : Forall (bus_done t) ks) by (rewrite Forall_forall in *; auto).
  assert (Hw : Forall (walks t) ks) by (eapply Forall_impl; [exact Hks|]; intros; by apply plain_walks).
  rewrite app_assoc in Hok. apply regs_ok_app in Hok as (Hok1 & Hok2 & Hc).
  destruct (body_done t i ds ks s B b' s' Ht Hlen Hds Hw Hd HB Htop ltac:(unfold needs; lia) Hok1 E)
    as (i' & ds' & ks' & s1 & n & i2 & B1 & B2 & -> & E2 & HB2 & Hsame & Hb & Hl & HB1 & Fd & Fk & D1).
  destruct (same_bus_fields _ _ _ Hsame) as (Fs & Fr & Fn).
  unfold call_range in E2. rewrite Fr, Hrange in E2.
  assert (Hlen' : length (resource i') = 4%nat) by (destruct Hsame as [_ ->]; done).
  destruct (bridge_done never t i' d s1 n i2 s' Ht ltac:(by rewrite Fs) E2) as (n0 & Hn & Hn0 & D2).
  destruct (resource_bridge_spec ids t i' s1 B2 Ht ltac:(rewrite Fs; by eexists) HB2 Hb ltac:(rewrite Hl; lia)) as (s2 & _ & E3).
  rewrite E2 in E3. pose proof (base_is_range _ _ _ _ HB2). pose proof (granule_pos t).
  pose proof (Z.mod_pos_bound B2 (granule t) ltac:(lia)). pose proof (Z.mod_le B2 (granule t) ltac:(lia) ltac:(lia)).
  rewrite Hl in E3.
  assert (Hi2 : (n = 0 <-> n0 = 0) /\ self i2 = Some d /\ set_resource_range i2 = Some pci_resource_bridge /\
    busnum i2 = busnum i /\ length (resource i2) = 4%nat).
  { destruct (Z.leb_spec (B1 - 1) B2) as [Hle|Hgt]; injection E3 as En Ei _.
    - rewrite Ei, Fs, Fr. split; [|done]. rewrite Hn0 by lia. split; [done|]. intros _. exact En.
    - rewrite Ei. cbn [self set_resource_range busnum set_map set_resource]. rewrite length_set_map, Fs, Fr. split; [|done].
      assert (n <> 0) by (rewrite En, u32_small; lia). split; [lia|]. intros Hz0. rewrite Hz0 in Hn. exact Hn. }
  destruct Hi2 as (Hz & Hs2 & Hr2 & Hbn & Hlen2).
  cbn [assigned]. change (busnum (set_map t _ i2)) with (busnum i2). rewrite Hbn, app_assoc.
  assert (Hwv : window_values t (set_map t (set_bar_size n (map_of t i2)) i2) =
                window_regs t d n0 (bar_base (map_of t i2)) (bar_limit (map_of t i2))).
  { unfold window_values. cbn [self set_resource_range set_map set_resource]. rewrite Hr2, Hs2.
    rewrite map_of_set by done. cbn [bar_size bar_base bar_limit set_bar_size]. by apply window_regs_size. }
  rewrite Hwv. eapply done_seq; [exact D1|exact D2| |].
  - rewrite map_app, (forest_regs t t ks ks' Fk), (devs_values_regs t (busnum i) ds ds' Fd), <- map_app.
    unfold window_values in Hc. rewrite Hrange, Hself in Hc.
    erewrite (window_regs_fst t d n0). exact Hc.
  - apply (regs_ok_ext (concat (map (assigned t) ks') ++ concat (map (dev_values t (busnum i)) ds'))) in Hok1; [apply Hok1|].
    by rewrite !map_app, (forest_regs t t ks ks' Fk), (devs_values_regs t (busnum i) ds ds' Fd).
Qed.

Lemma host_done t b : t <> PCI_BAR_EMPTY -> host t b -> bus_done t b.
Proof.
  intros Ht Hh. inversion Hh as [i ds ks Hlen Hself Hrange Hds Hks]; subst.
  intros s B b' s' HB Htop Hneed Hok E. cbn [need assigned] in *.
  assert (Hbr : 0 <= pci_resource_align_bridge t) by (by destruct t).
  assert (Hd : Forall (bus_done t) ks) by (rewrite Forall_forall in *; intros; apply plain_done; auto).
  assert (Hw : Forall (walks t) ks) by (eapply Forall_impl; [exact Hks|]; intros; by apply plain_walks).
  rewrite app_assoc in Hok. apply regs_ok_app in Hok as (Hok1 & Hok2 & Hc).
  destruct (body_done t i ds ks s B b' s' Ht Hlen Hds Hw Hd HB Htop ltac:(unfold needs; lia) Hok1 E)
    as (i' & ds' & ks' & s1 & n & i2 & B1 & B2 & -> & E2 & HB2 & Hsame & Hb & Hl & HB1 & Fd & Fk & D1).
  destruct (same_bus_fields _ _ _ Hsame) as (Fs & Fr & Fn).
  assert (Hlen' : length (resource i') = 4%nat) by (destruct Hsame as [_ ->]; done).
  destruct (host_range_spec ids t i' s1 B2 Ht ltac:(by rewrite Fs) Hlen' ltac:(by rewrite Fr) HB2 Hb)
    as (v & i3 & s3 & B3 & E3 & _ & _ & Hi3). rewrite E2 in E3. injection E3 as <- <- <-.
  assert (Hf2 : set_resource_range i2 = set_resource_range i /\ busnum i2 = busnum i)
    by (destruct Hi3 as [[-> _]| ->]; cbn [set_resource_range busnum set_map set_resource]; by rewrite Fr, Fn).
  destruct Hf2 as [Hr2 Hbn].
  cbn [assigned]. change (busnum (set_map t _ i2)) with (busnum i2). rewrite Hbn, app_assoc.
  assert (Hwv : window_values t (set_map t (set_bar_size n (map_of t i2)) i2) = []).
  { unfold window_values. cbn [set_resource_range set_map set_resource]. rewrite Hr2. by destruct Hrange as [-> | ->]. }
  rewrite Hwv, app_nil_r. eapply done_then_none; [exact D1|eapply (host_aside t i'); [by rewrite Fr|exact E2]|].
  apply (regs_ok_ext (concat (map (assigned t) ks') ++ concat (map (dev_values t (busnum i)) ds'))) in Hok1; [apply Hok1|].
  by rewrite !map_app, (forest_regs t t ks ks' Fk), (devs_values_regs t (busnum i) ds ds' Fd).
Qed.

(** One pass over the host buses. *)
Lemma pass_done t l s B v l' s' :
  t <> PCI_BAR_EMPTY -> Forall (host t) l -> base_is ids t B (regs s) -> B <= top t -> needs t l < B ->
  regs_ok (concat (map (assigned t) l)) -> pci_resource_allocate t l s = Some ((v, l'), s') ->
  done_in never (concat (map (assigned t) l')) s s'.
Proof.
  intros Ht Hh HB Htop Hn Hok E. unfold pci_resource_allocate in E. apply run_inv in E as (l1 & s1 & E1 & E).
  destruct (peers_done t l s B l1 s1) as (B' & _ & _ & _ & D); try done.
  - eapply Forall_impl; [exact Hh|]. intros; by apply host_walks.
  - eapply Forall_impl; [exact Hh|]. intros; by apply host_done.
  - destruct l1 as [|b l1]; [done|]. injection E as _ <- <-. exact D.
Qed.
End Walk.

(** ** The three passes *)

Section Init.
Context {hw : Type} `{!IoPorts hw, !Config hw}.
Implicit Types s : pci_state (logged hw).

(** What is assigned of one type stays when another type is assigned. *)
Lemma assigned_other t u b : t <> u -> assigned t (frame u b) = assigned t b.
Proof.
  intros Hne. revert b. apply pci_bus_nested_ind. intros i ds ks IH. cbn [frame assigned]. f_equal; [|f_equal].
  - f_equal. induction IH as [|k ks Hk _ IHks]; [done|]. cbn [map]. by rewrite Hk, IHks.
  - change (busnum (set_map u (bar_blank u) i)) with (busnum i). rewrite map_map. f_equal. apply map_ext. intros d.
    unfold dev_values. cbn [bar devfn dev_frame set_bars]. generalize 0. induction (bar d) as [|r bs IHbs]; intros j; [done|].
    cbn [map bar_values]. rewrite IHbs, bar_frame_type. f_equal. destruct (decide (bar_type r = t)) as [E|]; [|done].
    unfold bar_frame. rewrite decide_False; [done|]. congruence.
  - unfold window_values. cbn [set_resource_range self set_map set_resource].
    by rewrite (map_of_other t u Hne).
Qed.
Lemma forest_other t u l l' : t <> u -> map (frame u) l' = map (frame u) l ->
  concat (map (assigned t) l') = concat (map (assigned t) l).
Proof.
  intros Hne. revert l. induction l' as [|b' l' IH]; intros [|b l] E; try done. cbn [map] in E.
  apply cons_eq in E as [E1 E2]. cbn [map concat]. rewrite (IH l E2).
  by rewrite <- (assigned_other t u b' Hne), E1, assigned_other.
Qed.

Lemma region_aside t n ns : aside (init_region (hw := logged hw) (fun _ => true) t n ns).
Proof. unfold init_region. apply aside_upd. done. Qed.

(** Everything that is assigned of a forest. *)
Definition all_assigned (l : list pci_bus) : list (reg * Z) :=
  concat (map (assigned PCI_BAR_IO) l) ++ concat (map (assigned PCI_BAR_MMIO) l) ++
  concat (map (assigned PCI_BAR_PMMIO) l).

Lemma init_done l s l' s' :
  regs s = [] -> l <> [] -> Forall (fun b => forall t, t <> PCI_BAR_EMPTY -> host t b) l ->
  needs PCI_BAR_IO l < RAM_PCI_REGION_IO ->
  needs PCI_BAR_MMIO l + needs PCI_BAR_PMMIO l + 2 ^ 20 < RAM_PCI_REGION_MMIO ->
  regs_ok (all_assigned l) -> pci_resource_init (fun _ => true) l s = Some (l', s') ->
  done_in never (all_assigned l') s s'.
Proof.
  intros Hs Hl Hh Hio Hmem Hok. unfold RAM_PCI_REGION_IO, RAM_PCI_REGION_MMIO in *.
  assert (Hhost : forall t, t <> PCI_BAR_EMPTY -> Forall (host t) l)
    by (intros t Ht; eapply Forall_impl; [exact Hh|]; intros b Hb; by apply Hb).
  apply regs_ok_app in Hok as (Oio & Orest & Cio). apply regs_ok_app in Orest as (Om & Op & Cmp).
  rewrite map_app in Cio. unfold pci_resource_init.
  destruct (init_region_spec [] PCI_BAR_IO 0xffff [73; 47; 79] s) as (s1 & E1 & HB1 & _);
    [by rewrite Hs|apply not_elem_of_nil|lia|]. rewrite (run_bind _ _ _ _ _ E1).
  destruct (pass_spec _ PCI_BAR_IO l s1 0xffff ltac:(done) Hl (Hhost PCI_BAR_IO ltac:(done)) HB1 ltac:(by vm_compute) Hio)
    as (v1 & l1 & s2 & E2 & Hids2 & _ & Hf1 & _ & _ & _). rewrite (run_bind _ _ _ _ _ E2).
  pose proof (pass_done _ PCI_BAR_IO l s1 0xffff v1 l1 s2 ltac:(done) (Hhost PCI_BAR_IO ltac:(done)) HB1 ltac:(by vm_compute) Hio Oio E2) as D1.
  assert (Hl1 : l1 <> []) by (intros ->; by destruct l).
  destruct (hosts_frame PCI_BAR_MMIO PCI_BAR_IO l l1 Hf1 (Hhost PCI_BAR_MMIO ltac:(done))) as [Hh1 Hn1].
  destruct (hosts_frame PCI_BAR_PMMIO PCI_BAR_IO l l1 Hf1 (Hhost PCI_BAR_PMMIO ltac:(done))) as [Hh1p Hn1p].
  pose proof (needs_nonneg PCI_BAR_MMIO l ltac:(done) (Hhost PCI_BAR_MMIO ltac:(done))).
  pose proof (needs_nonneg PCI_BAR_PMMIO l ltac:(done) (Hhost PCI_BAR_PMMIO ltac:(done))).
  destruct (init_region_spec _ PCI_BAR_MMIO 0xfec00000 [77; 77; 73; 79] s2 Hids2) as (s3 & E3 & HB3 & _);
    [by vm_compute; set_solver|lia|]. rewrite (run_bind _ _ _ _ _ E3).
  destruct (pass_spec _ PCI_BAR_MMIO l1 s3 0xfec00000 ltac:(done) Hl1 Hh1 HB3 ltac:(by vm_compute) ltac:(lia))
    as (v2 & l2 & s4 & E4 & Hids4 & Hv2 & Hf2 & _ & _ & _). rewrite (run_bind _ _ _ _ _ E4).
  assert (Om' : regs_ok (concat (map (assigned PCI_BAR_MMIO) l1))) by (by rewrite (forest_other _ PCI_BAR_IO l l1)).
  pose proof (pass_done _ PCI_BAR_MMIO l1 s3 0xfec00000 v2 l2 s4 ltac:(done) Hh1 HB3 ltac:(by vm_compute) ltac:(lia) Om' E4) as D2.
  assert (Hl2 : l2 <> []) by (intros ->; by destruct l1).
  destruct (hosts_frame PCI_BAR_PMMIO PCI_BAR_MMIO l1 l2 Hf2 Hh1p) as [Hh2 Hn2].
  rewrite (run_bind _ _ s4 (bridge s4) s4) by done.
  destruct (pmmio_base v2 (bridge s4)) as [Hb Hb32]; [lia|]. cbv zeta in Hb, Hb32 |- *.
  set (b := if bridge s4 =? 0 then v2 else _) in *.
  destruct (init_region_spec _ PCI_BAR_PMMIO b [80; 77; 77; 73; 79] s4 Hids4) as (s5 & E5 & HB5 & _);
    [by vm_compute; set_solver|lia|]. rewrite (run_bind _ _ _ _ _ E5).
  destruct (pass_spec _ PCI_BAR_PMMIO l2 s5 b ltac:(done) Hl2 Hh2 HB5 ltac:(cbn [top]; lia) ltac:(lia))
    as (v3 & l3 & s6 & E6 & _ & _ & Hf3 & _ & _ & _). rewrite (run_bind _ _ _ _ _ E6).
  assert (Op' : regs_ok (concat (map (assigned PCI_BAR_PMMIO) l2)))
    by (rewrite (forest_other _ PCI_BAR_MMIO l1 l2) by done; by rewrite (forest_other _ PCI_BAR_IO l l1)).
  pose proof (pass_done _ PCI_BAR_PMMIO l2 s5 b v3 l3 s6 ltac:(done) Hh2 HB5 ltac:(cbn [top]; lia) ltac:(lia) Op' E6) as D3.
  intros [= <- <-].
  (* the registers of one type, while the others are assigned *)
  assert (R1 : done_in never (concat (map (assigned PCI_BAR_IO) l1)) s s3).
  { eapply done_then_none; [eapply done_join_none; [by eapply region_aside|exact D1]|by eapply region_aside|].
    apply (regs_ok_ext (concat (map (assigned PCI_BAR_IO) l1))) in Oio; [apply Oio|by apply (forest_regs _ PCI_BAR_IO)]. }
  assert (R2 : done_in never (concat (map (assigned PCI_BAR_MMIO) l2) ++ concat (map (assigned PCI_BAR_PMMIO) l3)) s3 s6).
  { eapply done_seq; [eapply done_then_none; [exact D2|by eapply region_aside|]|exact D3| |].
    1,3: apply (regs_ok_ext (concat (map (assigned PCI_BAR_MMIO) l2))) in Om'; [apply Om'|by apply (forest_regs _ PCI_BAR_MMIO)].
    rewrite (forest_regs PCI_BAR_MMIO PCI_BAR_MMIO l1 l2 Hf2), (forest_regs PCI_BAR_PMMIO PCI_BAR_PMMIO l2 l3 Hf3).
    by rewrite (forest_other PCI_BAR_MMIO PCI_BAR_IO l l1), (forest_other PCI_BAR_PMMIO PCI_BAR_MMIO l1 l2),
      (forest_other PCI_BAR_PMMIO PCI_BAR_IO l l1). }
  unfold all_assigned.
  rewrite (forest_other PCI_BAR_IO PCI_BAR_PMMIO l2 l3), (forest_other PCI_BAR_IO PCI_BAR_MMIO l1 l2),
    (forest_other PCI_BAR_MMIO PCI_BAR_PMMIO l2 l3) by done.
  eapply done_seq; [exact R1|exact R2| |].
  - rewrite map_app, (forest_regs PCI_BAR_IO PCI_BAR_IO l l1 Hf1).
    rewrite (forest_regs PCI_BAR_MMIO PCI_BAR_MMIO l1 l2 Hf2), (forest_regs PCI_BAR_PMMIO PCI_BAR_PMMIO l2 l3 Hf3).
    by rewrite (forest_other PCI_BAR_MMIO PCI_BAR_IO l l1), (forest_other PCI_BAR_PMMIO PCI_BAR_MMIO l1 l2),
      (forest_other PCI_BAR_PMMIO PCI_BAR_IO l l1).
  - apply (regs_ok_ext (concat (map (assigned PCI_BAR_IO) l1))) in Oio; [apply Oio|by apply (forest_regs _ PCI_BAR_IO)].
Qed.
End Init.

(** C14: [pci_resource_init] assigns an address to every BAR of every device behind any tree of
    PCI-PCI bridges below the host bridges, and tells the devices: for each of the three types
    of resource, each BAR is aligned to its size and lies in the resource of its host bus, an
    access to any of its addresses is delivered to it through the windows of the bridges, no
    address has two devices or bridges answering on any bus, the resources of peer host buses
    are disjoint, prefetchable memory is below all other memory; and for every BAR and the
    base and limit of every window, the last write to configuration space that touches its
    register is of the whole register, with that address.  Buses, devices, types and sizes
    stay.  It takes BARs with sizes from 2 to 2^31 (not size 0), no M7101, whose ports are
    fixed, no Cardbus bridges, no two of the registers the same, sizes that fit below the two
    limits, and memory for the regions. *)
Theorem pci_resource_init_delivers hw `{!IoPorts hw, !Config hw} l (s : pci_state (logged hw)) :
  regs s = [] -> l <> [] -> Forall (fun b => forall t, t <> PCI_BAR_EMPTY -> host t b) l ->
  needs PCI_BAR_IO l < RAM_PCI_REGION_IO ->
  needs PCI_BAR_MMIO l + needs PCI_BAR_PMMIO l + 2 ^ 20 < RAM_PCI_REGION_MMIO ->
  regs_ok (all_assigned l) ->
  exists l' s', pci_resource_init (fun _ => true) l s = Some (l', s') /\ map wiped l' = map wiped l /\
    (forall t, t <> PCI_BAR_EMPTY -> Forall (served t) l' /\ apart t l') /\
    (forall b c, b ∈ l' -> c ∈ l' ->
       bar_limit (map_of PCI_BAR_PMMIO (info b)) < bar_base (map_of PCI_BAR_MMIO (info c))) /\
    Forall (fun p => holds (writes (hardware s')) p.1 p.2) (all_assigned l').
Proof.
  intros Hs Hl Hh Hio Hmem Hok.
  destruct (pci_resource_init_spec l s Hs Hl Hh Hio Hmem) as (l' & s' & E & Hw & Hsv & Hpm).
  exists l', s'. split; [exact E|]. split; [exact Hw|]. split; [exact Hsv|]. split; [exact Hpm|].
  destruct (init_done l s l' s' Hs Hl Hh Hio Hmem Hok E) as (new & -> & _ & H).
  eapply Forall_impl; [exact H|]. intros p [[]|Hp]. by apply holds_app_l.
Qed.

(** ** The machine of [PciTheorems.v] *)

Definition logged_machine : pci_state (logged trace) :=
  mk_pci_state (Logged [] []) [] 0x10000000 0 serverworks_fadt_table (mk_boot_vars 0 [] [] 0x3e0 0 [] 4 [] false).

Lemma machine_registers : regs_ok (all_assigned machine).
Proof. split; [by vm_compute|]. repeat constructor. Qed.

Lemma pci_resource_init_delivers_witness :
  exists l' s', pci_resource_init (fun _ => true) machine logged_machine = Some (l', s') /\
    map wiped l' = map wiped machine /\ Forall (served PCI_BAR_MMIO) l' /\
    Forall (fun p => holds (writes (hardware s')) p.1 p.2) (all_assigned l').
Proof.
  destruct (pci_resource_init_delivers trace machine logged_machine) as (l' & s' & E & Hw & Hs & _ & Hr).
  - reflexivity.
  - discriminate.
  - rewrite Forall_forall. intros b Hb t Ht.
    exact (proj1 (Forall_forall _ _) (machine_hosts t Ht) b Hb).
  - by vm_compute.
  - by vm_compute.
  - exact machine_registers.
  - exists l', s'. split; [exact E|]. split; [exact Hw|]. split; [by apply Hs|exact Hr].
Defined.
