(* ===== verification/Mptable.v ===== *)
(** * Mptable: the I/O interrupt controllers and the multiprocessor tables

    Model of [x86/common/ioapic.c], in Section Ioapic, and of [x86/common/mptable.c].  The list [mpINT_list] is part of the state of the
    PCI code; the tables are bytes, [mp_mem], from [MP_BASE_ADDRESS] on: the floating
    pointer, the header of the configuration table, its entries and the extended
    entries.  What [mptable_print_INT] prints is not modelled. *)

From stdpp Require Import strings.
From S2P Require Import Prelude CmosIo PciIo Pci Acpi.
Open Scope list_scope.
Open Scope Z_scope.

(** ** The I/O interrupt controllers

    Model of [x86/common/ioapic.c].  A controller has an index register and a data
    register in device memory ([Mmio]).  A redirection entry is its two 32-bit words. *)

Definition IOAPIC_BASE : Z := 0xFEC00000.
Definition IOAPIC_ID : Z := 0x00.
Definition IOAPIC_VERSION : Z := 0x01.
Definition IOAPIC_INITIAL_ID : Z := 4.
Definition IOAPIC_NUM : Z := 2.
Definition IOAPIC_ISA : Z := 0.
Definition IOAPIC_PCI0 : Z := 1.

(** An [IO_APIC_entry_t] as its two words; [mask] is bit 16 of the first. *)
Definition redir : Type := Z * Z.
Definition set_mask (e : redir) : redir := (Z.lor e.1 (Z.shiftl 1 16), e.2).

Section Ioapic.
Context {hw : Type} `{!Mmio hw}.
Abbreviation M := (Run (pci_state hw)).

Definition ioapic_index (n index : Z) : M unit :=
  on_hw (mmio_write (Z.lor IOAPIC_BASE (Z.shiftl n 12)) (u32 index)).
Definition ioapic_set (n data : Z) : M unit :=
  on_hw (mmio_write (Z.lor (Z.lor IOAPIC_BASE 0x10) (Z.shiftl n 12)) (u32 data)).
Definition ioapic_get (n : Z) : M Z :=
  v ← ask_hw (mmio_read (Z.lor (Z.lor IOAPIC_BASE 0x10) (Z.shiftl n 12))); mret (u32 v).

Definition ioapic_get_reg (num index : Z) : M Z := ioapic_index num index;; ioapic_get num.
Definition ioapic_set_reg (num index value : Z) : M unit :=
  ioapic_index num index;; ioapic_set num value.

Definition ioapic_set_id (num id : Z) : M unit :=
  ioapic_index num IOAPIC_ID;;
  reg ← ioapic_get num;
  let reg := Z.land reg (Z.lnot (Z.shiftl 0xf 24)) in
  let reg := Z.lor reg (Z.shiftl (Z.land (u8 id) 0xf) 24) in
  ioapic_set num reg.

Definition ioapic_get_id (num : Z) : M Z :=
  ioapic_index num IOAPIC_ID;;
  v ← ioapic_get num; mret (u8 (Z.land (Z.shiftr v 24) 0xf)).
Definition ioapic_get_version (num : Z) : M Z :=
  ioapic_index num IOAPIC_VERSION;;
  v ← ioapic_get num; mret (u8 (Z.land v 0xff)).
Definition ioapic_get_entries (num : Z) : M Z :=
  ioapic_index num IOAPIC_VERSION;;
  v ← ioapic_get num; mret (u8 (1 + Z.land (Z.shiftr v 16) 0xff)).
Definition ioapic_get_base (num : Z) : Z := u32 (Z.lor IOAPIC_BASE (Z.shiftl num 12)).

Definition ioapic_get_redir (num intr : Z) : M redir :=
  ioapic_index num (Z.shiftl intr 1 + 0x10);;
  lo ← ioapic_get num;
  ioapic_index num (Z.shiftl intr 1 + 0x11);;
  hi ← ioapic_get num;
  mret (lo, hi).

Definition ioapic_set_redir (num intr : Z) (e : redir) : M unit :=
  ioapic_index num (Z.shiftl intr 1 + 0x11);;
  ioapic_set num e.2;;
  _ ← ioapic_get num;
  ioapic_index num (Z.shiftl intr 1 + 0x10);;
  ioapic_set num e.1;;
  _ ← ioapic_get num;
  mret tt.

(** The argument [intr] of the two functions above is a byte. *)
Definition ioapic_mask (num intr : Z) : M unit :=
  e ← ioapic_get_redir num (u8 intr);
  ioapic_set_redir num (u8 intr) (set_mask e);;
  _ ← ioapic_get num;
  mret tt.

(** A loop over the entries, from the first. *)
Fixpoint for_entries (n : nat) (x : Z) (f : Z -> M unit) : M unit :=
  match n with
  | O => mret tt
  | S n => f x;; for_entries n (x + 1) f
  end.

Definition ioapic_setup (num : Z) : M unit :=
  entries ← ioapic_get_entries num;
  for_entries (Z.to_nat entries) 0 (ioapic_mask num);;
  for_entries (Z.to_nat entries) 0 (fun x => ioapic_set_redir num (u8 x) (set_mask (0, 0)));;
  id ← ask (fun s => ioapic_next_id (boot s));
  upd_boot (set_ioapic_next_id (id + 1));;
  ioapic_set_id num id.

Definition ioapic_init : M unit :=
  t ← ask (fun s => systype (boot s));
  if negb (t =? SYSTYPE_5K) then mret tt
  else
    upd_boot (set_ioapic_next_id IOAPIC_INITIAL_ID);;
    for_entries (Z.to_nat IOAPIC_NUM) 0 ioapic_setup.

End Ioapic.

(** ** The tables *)

Definition MP_SPEC_REV : Z := 0x04.
Definition MP_OEM_ID : list Z := chars "COBALT  ".
Definition MP_BASE_ADDRESS : Z := 0xF8200.
Definition MPTABLE_FLPOINTER_SIG : Z := le_val (chars "_MP_").
Definition MPTABLE_CFHEADER_SIG : Z := le_val (chars "PCMP").
Definition MPTABLE_BUS_ISA : list Z := chars "ISA   ".
Definition MPTABLE_BUS_PCI : list Z := chars "PCI   ".

Definition mp_entry_CPU : Z := 0.
Definition mp_entry_BUS : Z := 1.
Definition mp_entry_IOAPIC : Z := 2.
Definition mp_entry_IOINT : Z := 3.
Definition mp_entry_LocalINT : Z := 4.
Definition mp_entry_SysAddrMap : Z := 128.
Definition mp_entry_BusTree : Z := 129.
Definition mp_entry_BusCompat : Z := 130.

Definition mpINT_type__INT : Z := 0.
Definition mpINT_type__NMI : Z := 1.
Definition mpINT_type__EXT : Z := 3.
Definition mpINT_polarity__Hi : Z := 1.
Definition mpINT_polarity__Lo : Z := 3.
Definition mpINT_trigger__Edge : Z := 1.
Definition mpINT_trigger__Level : Z := 3.
Definition mpextable_range__ISA : Z := 0.

Definition IRQMAP_ISA : Z :=
  Z.lor (Z.lor (Z.lor (Z.shiftl 1 1) (Z.shiftl 1 3)) (Z.shiftl 1 4)) (Z.shiftl 1 8).

(** ** The list of interrupt entries *)

(** The device and the pin in the byte [src.irq.pci]. *)
Definition pci_irq (dev pin : Z) : Z := Z.lor (Z.shiftl (Z.land dev 0x1f) 2) (Z.land pin 3).
Definition irq_dev (b : Z) : Z := Z.land (Z.shiftr b 2) 0x1f.
Definition irq_pin (b : Z) : Z := Z.land b 3.

Section MpInt.
Context {hw : Type}.
Abbreviation M := (Run (pci_state hw)).

Definition mpINT_add (intr : mptable_INT) : M unit :=
  node ← malloc;
  if negb node then mret tt
  else
    entry ← malloc;
    if negb entry then mret tt
    else upd_boot (fun v => if mpINT_lost v then v else set_mpINT (mpINT_list v ++ [intr]) false v).

(** The position of the entry in the list. *)
Definition mpINT_find (bus dev pin : Z) (l : list mptable_INT) : option (nat * mptable_INT) :=
  list_find (fun e => int_bus e = bus /\ irq_dev (int_irq e) = dev /\ irq_pin (int_irq e) = pin) l.

End MpInt.

(** ** The tables *)

(** The fields of [struct cpu_info] the table uses. *)
Record cpu_info := mk_cpu_info {
  cpu_family : Z; cpu_model : Z; cpu_stepping : Z; feature_mask : Z;
  bsp : Z; apic_id : Z; apic_version : Z;
}.

(** The bytes of an entry of each kind; bit fields start at the low bit. *)
Definition cpu_bytes (c : cpu_info) : list Z :=
  [mp_entry_CPU; u8 (apic_id c); u8 (apic_version c); Z.lor 1 (Z.shiftl (Z.land (bsp c) 1) 1)] ++
  le_bytes 4 (Z.lor (Z.lor (Z.land (cpu_stepping c) 0xf) (Z.shiftl (Z.land (cpu_model c) 0xf) 4))
                (Z.shiftl (Z.land (cpu_family c) 0xf) 8)) ++
  le_bytes 4 (feature_mask c) ++ zeros 8.
Definition bus_bytes (id : Z) (type : list Z) : list Z := [mp_entry_BUS; u8 id] ++ take 6 type.
Definition ioapic_bytes (id version address : Z) : list Z :=
  [mp_entry_IOAPIC; u8 id; u8 version; 1] ++ le_bytes 4 address.
Definition int_bytes (e : mptable_INT) : list Z :=
  [u8 (int_entry e); u8 (int_type e)] ++
  le_bytes 2 (Z.lor (Z.land (int_polarity e) 3) (Z.shiftl (Z.land (int_trigger e) 3) 2)) ++
  [u8 (int_bus e); u8 (int_irq e); u8 (int_dest_id e); u8 (int_dest_input e)].
Definition addr_map_bytes (bus type base len : Z) : list Z :=
  [mp_entry_SysAddrMap; 20; u8 bus; u8 type] ++ le_bytes 8 (u32 base) ++ le_bytes 8 (u32 len).
Definition bus_tree_bytes (bus decode parent : Z) : list Z :=
  [mp_entry_BusTree; 8; u8 bus; Z.land decode 1; u8 parent; 0; 0; 0].
Definition bus_compat_bytes (bus mod_ range : Z) : list Z :=
  [mp_entry_BusCompat; 8; u8 bus; Z.land mod_ 1] ++ le_bytes 4 range.

(** Offsets in [mp_mem] of the floating pointer, the header and their fields. *)
Definition FLPOINTER_SIZE : nat := 16.
Definition CFHEADER_SIZE : nat := 44.
Definition mpptr_checksum : nat := 10.
Definition mptable : nat := FLPOINTER_SIZE.
Definition mptable_length : nat := mptable + 4.
Definition mptable_csum : nat := mptable + 7.
Definition mptable_count : nat := mptable + 34.
Definition ext_length : nat := mptable + 40.
Definition ext_checksum : nat := mptable + 42.

(** The floating pointer and the header as [mptable_init] fills them in. *)
Definition flpointer : list Z :=
  le_bytes 4 MPTABLE_FLPOINTER_SIG ++ le_bytes 4 (MP_BASE_ADDRESS + Z.of_nat FLPOINTER_SIZE) ++
  [1; MP_SPEC_REV] ++ zeros 6.
Definition cfheader (prod_id : list Z) (apic : Z) : list Z :=
  le_bytes 4 MPTABLE_CFHEADER_SIG ++ le_bytes 2 (Z.of_nat CFHEADER_SIZE) ++ [MP_SPEC_REV; 0] ++
  MP_OEM_ID ++ take 12 prod_id ++ zeros 8 ++ le_bytes 4 apic ++ zeros 4.

(** The variables of mptable.c next to the state of the PCI code; [mpe] is an offset in
    [mp_mem]. *)
Record mp_state (hw : Type) := mk_mp_state {
  pci : pci_state hw;
  mp_mem : list Z;
  mpe : nat;
  ISA_busid : Z;
  mptable_save_flag : bool;
}.
Arguments mk_mp_state {hw} _ _ _ _ _.
Arguments pci {hw} _.
Arguments mp_mem {hw} _.
Arguments mpe {hw} _.
Arguments ISA_busid {hw} _.
Arguments mptable_save_flag {hw} _.

Section Mptable.
Context {hw : Type} `{!Mmio hw}.
Abbreviation M := (Run (mp_state hw)).

Definition on_pci {A} (m : Run (pci_state hw) A) : M A :=
  fun s => '(a, p) ← m (pci s);
    Some (a, mk_mp_state p (mp_mem s) (mpe s) (ISA_busid s) (mptable_save_flag s)).
Definition mp_ask {A} (f : mp_state hw -> A) : M A := fun s => Some (f s, s).
Definition set_mpe (n : nat) (s : mp_state hw) : mp_state hw :=
  mk_mp_state (pci s) (mp_mem s) n (ISA_busid s) (mptable_save_flag s).
Definition set_ISA_busid (n : Z) (s : mp_state hw) : mp_state hw :=
  mk_mp_state (pci s) (mp_mem s) (mpe s) n (mptable_save_flag s).
Definition set_save_flag (b : bool) (s : mp_state hw) : mp_state hw :=
  mk_mp_state (pci s) (mp_mem s) (mpe s) (ISA_busid s) b.
Definition set_mem (m : list Z) (s : mp_state hw) : mp_state hw :=
  mk_mp_state (pci s) m (mpe s) (ISA_busid s) (mptable_save_flag s).
Definition mp_upd (f : mp_state hw -> mp_state hw) : M unit := fun s => Some (tt, f s).

(** An error, or a loop that does not end. *)
Definition mp_crash {A} : M A := fun _ => None.

(** A store; one outside the memory is an error. *)
Definition mp_store (off : nat) (bs : list Z) : M unit :=
  fun s => if (off + length bs <=? length (mp_mem s))%nat then Some (tt, set_mem (put off bs (mp_mem s)) s)
           else None.
(** [field += n] of a 16-bit field. *)
Definition mp_add16 (off : nat) (n : Z) : M unit :=
  v ← mp_ask (fun s => get16 off (mp_mem s)); mp_store off (le_bytes 2 (v + n)).

(** The end of every function that adds an entry: the entry is stored, the length and the
    count grow, and [mpe] moves behind it. *)
Definition mp_append (bs : list Z) : M unit :=
  at_ ← mp_ask mpe;
  mp_store at_ bs;;
  mp_add16 mptable_length (Z.of_nat (length bs));;
  mp_add16 mptable_count 1;;
  mp_upd (set_mpe (at_ + length bs)).

Definition when_saving (m : M unit) : M unit :=
  save ← mp_ask mptable_save_flag; if negb save then mret tt else m.

Definition mptable_add_CPU (c : cpu_info) : M unit :=
  when_saving
    (n ← mp_ask (fun s => Z.to_nat (get16 ext_length (mp_mem s)));
     (if (0 <? n)%nat then
        at_ ← mp_ask mpe;
        ext ← mp_ask (fun s => sub at_ n (mp_mem s));
        mp_store (at_ + 20) ext
      else mret tt);;
     mp_append (cpu_bytes c)).

Definition mptable_add_BUS (id : Z) (type : list Z) : M unit :=
  when_saving (mp_append (bus_bytes (u8 id) type)).

Definition mptable_add_IOAPIC (num : Z) : M unit :=
  when_saving
    (id ← on_pci (ioapic_get_id num);
     version ← on_pci (ioapic_get_version num);
     mp_append (ioapic_bytes id version (ioapic_get_base num))).

Definition mptable_add_INT (e : mptable_INT) : M unit := when_saving (mp_append (int_bytes e)).

(** The end of every function that adds an extended entry. *)
Definition mp_append_ext (bs : list Z) : M unit :=
  at_ ← mp_ask mpe;
  n ← mp_ask (fun s => Z.to_nat (get16 ext_length (mp_mem s)));
  mp_store (at_ + n) bs;;
  mp_add16 ext_length (Z.of_nat (length bs)).

Definition mpextable_add_SysAddrMap (bus type base len : Z) : M unit :=
  when_saving (mp_append_ext (addr_map_bytes bus type base len)).
Definition mpextable_add_BusTree (bus decode parent : Z) : M unit :=
  when_saving (mp_append_ext (bus_tree_bytes bus decode parent)).
Definition mpextable_add_BusCompat (bus mod_ range : Z) : M unit :=
  when_saving (mp_append_ext (bus_compat_bytes bus mod_ range)).

Definition mp_add_map (i : bus_info) (t : pci_bar_t) : M unit :=
  mpextable_add_SysAddrMap (busnum i) (bar_id t - 1) (bar_base (map_of t i)) (bar_size (map_of t i)).
Definition mpextable_add_PCIAddrMap (i : bus_info) : M unit :=
  when_saving (mp_add_map i PCI_BAR_IO;; mp_add_map i PCI_BAR_MMIO;; mp_add_map i PCI_BAR_PMMIO).

(** [mptable_init]; [prod_id] is what [systype_productid_str] returns and [apic] what
    [lapic_get_base] does. *)
Definition mptable_init (prod_id : list Z) (apic : Z) : M unit :=
  mp_store 0 flpointer;;
  mp_store mptable (cfheader prod_id apic);;
  on_pci (upd_boot (fun v => set_mpINT [] (mpINT_lost v || negb (bool_decide (mpINT_list v = []))) v));;
  mp_upd (set_mpe (mptable + CFHEADER_SIZE)).

(** [for (info=systype_get_info(0); info; info=info->NEXT)]. *)
Fixpoint add_CPUs (l : list cpu_info) : M unit :=
  match l with
  | [] => mret tt
  | c :: l => mptable_add_CPU c;; add_CPUs l
  end.

(** [mptable_pci_walk]: a bus with everything below it, and a level. *)
Fixpoint pci_walk_bus (b : pci_bus) : M Z :=
  let 'mk_bus i _ ks := b in
  mptable_add_BUS (busnum i) MPTABLE_BUS_PCI;;
  id ← (fix walk (ks : list pci_bus) : M Z :=
          match ks with
          | [] => mret 0
          | b :: ks => n ← pci_walk_bus b; id ← walk ks; mret (n + id)
          end) ks;
  mret (id + 1).

Fixpoint mptable_pci_walk (l : list pci_bus) : M Z :=
  match l with
  | [] => mret 0
  | b :: l => n ← pci_walk_bus b; id ← mptable_pci_walk l; mret (n + id)
  end.

(** [for (list = mpINT_list; list; list = list->next)]. *)
Fixpoint add_INTs (l : list mptable_INT) : M unit :=
  match l with
  | [] => mret tt
  | e :: l => mptable_add_INT e;; add_INTs l
  end.

(** The entries of the buses from [j] on, [n] of them. *)
Fixpoint add_bus_INTs (n : nat) (j : Z) : M unit :=
  match n with
  | O => mret tt
  | S n =>
    l ← mp_ask (fun s => mpINT_list (boot (pci s)));
    add_INTs (filter (fun e => int_bus e = j) l);;
    add_bus_INTs n (j + 1)
  end.

(** An entry for the ISA bus. *)
Definition isa_INT (entry type bus irq dest_id dest_input : Z) : mptable_INT :=
  mk_mptable_INT entry type mpINT_polarity__Hi mpINT_trigger__Edge bus irq dest_id dest_input.

(** "ISA Interrupts": the condition reads the number of entries every time.  A shift by 32
    or more is an error. *)
Fixpoint add_ISA_INTs (fuel : nat) (dest_id j : Z) : M unit :=
  match fuel with
  | O => mp_crash
  | S fuel =>
    entries ← on_pci (ioapic_get_entries IOAPIC_ISA);
    if entries <=? j then mret tt
    else if 31 <? j then mp_crash
    else
      isa ← mp_ask ISA_busid;
      (if Z.testbit IRQMAP_ISA j
       then mptable_add_INT (isa_INT mp_entry_IOINT mpINT_type__INT (u8 isa) j dest_id j)
       else mret tt);;
      add_ISA_INTs fuel dest_id (j + 1)
  end.

(** "extra ISA bus entries": they get the number of the bus. *)
Definition set_int_bus (n : Z) (e : mptable_INT) : mptable_INT :=
  mk_mptable_INT (int_entry e) (int_type e) (int_polarity e) (int_trigger e) n (int_irq e)
    (int_dest_id e) (int_dest_input e).
Definition number_extra (isa : Z) (e : mptable_INT) : mptable_INT :=
  if int_bus e =? 0xff then set_int_bus (u8 isa) e else e.

Definition add_extra_INTs : M unit :=
  l ← mp_ask (fun s => mpINT_list (boot (pci s)));
  isa ← mp_ask ISA_busid;
  on_pci (upd_boot (fun v => set_mpINT (number_extra isa <$> l) (mpINT_lost v) v));;
  add_INTs (number_extra isa <$> filter (fun e => int_bus e = 0xff) l).

(** "traverse bridges: subordinate first, then peer": the buses in the order of the loop,
    each with the number of its parent. *)
Fixpoint hier_bus (parent : Z) (b : pci_bus) (rest : list (bus_info * Z)) : list (bus_info * Z) :=
  let 'mk_bus i _ ks := b in
  (i, parent) ::
  match ks with
  | [] => rest
  | _ => foldr (hier_bus (busnum i)) [] ks
  end.
Definition hierarchy (i : bus_info) (ks : list pci_bus) : list (bus_info * Z) :=
  foldr (hier_bus (busnum i)) [] ks.

Fixpoint add_hierarchy (l : list (bus_info * Z)) : M unit :=
  match l with
  | [] => mret tt
  | (i, parent) :: l =>
    mpextable_add_BusTree (busnum i) 0 parent;;
    mpextable_add_BusCompat (busnum i) 1 mpextable_range__ISA;;
    add_hierarchy l
  end.

Fixpoint add_buses (l : list pci_bus) : M unit :=
  match l with
  | [] => mret tt
  | b :: l =>
    let i := info b in
    mpextable_add_PCIAddrMap i;;
    mpextable_add_BusCompat (busnum i) (if busnum i =? 0 then 0 else 1) mpextable_range__ISA;;
    add_hierarchy (hierarchy i (kids b));;
    add_buses l
  end.

Definition mptable_checksum : M unit :=
  when_saving
    (m ← mp_ask mp_mem;
     mp_store mpptr_checksum [sub_sum (sub 0 FLPOINTER_SIZE m) 0];;
     mp_store mptable_csum [0];;
     mp_store ext_checksum [0];;
     m ← mp_ask mp_mem;
     at_ ← mp_ask mpe;
     mp_store ext_checksum [sub_sum (sub at_ (Z.to_nat (get16 ext_length m)) m) 0];;
     m ← mp_ask mp_mem;
     mp_store mptable_csum [sub_sum (sub mptable (Z.to_nat (get16 mptable_length m)) m) 0]).

(** [pci_lookup_bus] as the search for a level that starts with the bus: the buses that
    follow are its peers. *)
Fixpoint find_level_in (num : Z) (b : pci_bus) : option (list pci_bus) :=
  let 'mk_bus _ _ ks := b in
  (fix find (l : list pci_bus) :=
     match l with
     | [] => None
     | b :: peers =>
       if busnum (info b) =? num then Some (b :: peers)
       else match find_level_in num b with Some r => Some r | None => find peers end
     end) ks.
Definition pci_lookup_bus (num : Z) (l : list pci_bus) : list pci_bus :=
  default [] (find_level_in num (mk_bus pci_bus_blank [] l)).

(** [__mptable_build] on the processors and the tree of buses.  The counter of the loop over
    the buses is a byte: with 256 of them the loop does not end. *)
Definition mptable_build (save : bool) (cpus : list cpu_info) (pci_root : list pci_bus) : M unit :=
  t ← mp_ask (fun s => systype (boot (pci s)));
  if t =? SYSTYPE_3K then mret tt
  else
    mp_upd (set_save_flag save);;
    add_CPUs cpus;;
    let root := pci_lookup_bus 0 pci_root in
    isa ← mptable_pci_walk root;
    mp_upd (set_ISA_busid isa);;
    mptable_add_BUS isa MPTABLE_BUS_ISA;;
    mptable_add_IOAPIC 0;;
    mptable_add_IOAPIC 1;;
    if 255 <? isa then mp_crash
    else
      add_bus_INTs (Z.to_nat isa) 0;;
      id ← on_pci (ioapic_get_id IOAPIC_ISA);
      mptable_add_INT (isa_INT mp_entry_IOINT mpINT_type__EXT (u8 isa) 0 id 0);;
      id ← on_pci (ioapic_get_id IOAPIC_ISA);
      mptable_add_INT (isa_INT mp_entry_IOINT mpINT_type__INT (u8 isa) 0 id 0);;
      id ← on_pci (ioapic_get_id IOAPIC_ISA);
      add_ISA_INTs 257 id 0;;
      add_extra_INTs;;
      mptable_add_INT (isa_INT mp_entry_LocalINT mpINT_type__EXT (u8 isa) 0 0xff 0);;
      mptable_add_INT (isa_INT mp_entry_LocalINT mpINT_type__NMI 0 0 0xff 1);;
      add_buses root;;
      mpextable_add_BusTree isa 1 0;;
      mptable_checksum.

End Mptable.
