(* ===== verification/Pirq.v ===== *)
(** * Pirq: the interrupt routing table and the routing of PCI interrupts

    Model of [x86/common/pirq.c].  The two tables are their bytes; [pmap] of the state is
    the memory at [PIRQ_BASE_ADDRESS], where [pirq_init] copies the table of the board and
    where the routing code reads it. *)

From stdpp Require Import strings.
From S2P Require Import Prelude CmosIo PciIo Pci Acpi Mptable PciResource.
Open Scope list_scope.
Open Scope Z_scope.

Definition IRQMAP_PCI : Z :=
  Z.lor (Z.lor (Z.lor (Z.shiftl 1 5) (Z.shiftl 1 7)) (Z.shiftl 1 11)) (Z.shiftl 1 12).
Definition IRQ_USB : Z := 9.
Definition IRQ_IDE0 : Z := 14.
Definition IRQ_IDE1 : Z := 15.
Definition PIRQ_VERSION : Z := 0x0100.
Definition PIRQ_ELCR_REG : Z := 0x04d0.
Definition PIRQ_SIGNATURE : Z := le_val (chars "$PIR").
Definition PIRQ_TABLE_SIZE (e : Z) : Z := 16 * e + 32.
Definition SERVERWORKS_IRQ_INDEX : Z := 0x0C00.
Definition SERVERWORKS_IRQ_REDIRECT : Z := 0x0C01.
Definition SERVERWORKS_IRQ_INDEX_ACPI : Z := 0.
Definition SERVERWORKS_IRQ_INDEX_USB : Z := 1.
Definition SERVERWORKS_IRQ_INDEX_IDE0 : Z := 2.
Definition SERVERWORKS_IRQ_INDEX_IDE1 : Z := 4.

(** ** The tables *)

(** Offsets of fields of a [struct pirq_table] and of a [struct pirq_entry]. *)
Definition pirq_signature : nat := 0.
Definition pirq_version : nat := 4.
Definition pirq_size : nat := 6.
Definition pirq_checksum : nat := 31.
Definition pirq_slot (i : nat) : nat := 32 + 16 * i.
Definition slot_bus (i : nat) : nat := pirq_slot i.
Definition slot_devfn (i : nat) : nat := pirq_slot i + 1.
Definition slot_link (i pin : nat) : nat := pirq_slot i + 2 + 3 * pin.
Definition slot_map (i pin : nat) : nat := pirq_slot i + 3 + 3 * pin.

Definition pirq_entry (bus devfn : Z) (irq : list (Z * Z)) (slot : Z) : list Z :=
  [bus; devfn] ++ concat (map (fun e => u8 e.1 :: le_bytes 2 e.2) irq) ++ [slot; 0].

Definition pirq_table (size router_device : Z) (slots : list (list Z)) : list Z :=
  le_bytes 4 PIRQ_SIGNATURE ++ le_bytes 2 PIRQ_VERSION ++ le_bytes 2 size ++
  [0; PCI_DEVFN 0xf 0] ++ le_bytes 2 0 ++ le_bytes 2 PCI_VENDOR_SERVERWORKS ++
  le_bytes 2 router_device ++ le_bytes 4 0 ++ zeros 11 ++ [0] ++ concat slots.

Definition SERVERWORKS_PCIIRQ (slot : Z) : Z := Z.lor slot 0x10.

Definition pirq_map_5k_monterey : list Z :=
  let pci n := (SERVERWORKS_PCIIRQ n, IRQMAP_PCI) in
  pirq_table (PIRQ_TABLE_SIZE 7) PCI_DEVICE_SERVERWORKS_OSB4
    [pirq_entry 0 (PCI_DEVFN 0xb 0) [pci 9; (0, 0); (0, 0); (0, 0)] 0;
     pirq_entry 0 (PCI_DEVFN 0xd 0) [pci 10; (0, 0); (0, 0); (0, 0)] 0;
     pirq_entry 0 (PCI_DEVFN 0xf 0)
       [(SERVERWORKS_IRQ_INDEX_USB, Z.shiftl 1 IRQ_USB); (0, 0); (0, 0); (0, 0)] 0;
     pirq_entry 1 (PCI_DEVFN 0x2 0) [pci 4; pci 5; pci 4; pci 5] 1;
     pirq_entry 1 (PCI_DEVFN 0x3 0) [pci 6; pci 7; pci 8; pci 7] 2;
     pirq_entry 1 (PCI_DEVFN 0x4 0) [pci 7; pci 8; pci 7; pci 6] 3;
     pirq_entry 1 (PCI_DEVFN 0x5 0) [pci 8; pci 7; pci 6; pci 7] 4].

Definition pirq_map_5k_alpine : list Z :=
  let pci n := (SERVERWORKS_PCIIRQ n, IRQMAP_PCI) in
  pirq_table (PIRQ_TABLE_SIZE 4) PCI_DEVICE_SERVERWORKS_CSB5
    [pirq_entry 0 (PCI_DEVFN 0xf 0)
       [(SERVERWORKS_IRQ_INDEX_USB, Z.shiftl 1 IRQ_USB); (0, 0); (0, 0); (0, 0)] 0;
     pirq_entry 1 (PCI_DEVFN 0x6 0) [pci 0; (0, 0); (0, 0); (0, 0)] 0;
     pirq_entry 1 (PCI_DEVFN 0x7 0) [pci 1; (0, 0); (0, 0); (0, 0)] 0;
     pirq_entry 1 (PCI_DEVFN 0x8 0) [pci 2; pci 3; pci 4; pci 5] 1].

Example maps_sized :
  Z.of_nat (length pirq_map_5k_monterey) = PIRQ_TABLE_SIZE 7 /\
  Z.of_nat (length pirq_map_5k_alpine) = PIRQ_TABLE_SIZE 4.
Proof. done. Qed.

(** ** Initialisation *)

(** The loop that sums the table: [j] is a byte, [sum] a [word]. *)
Fixpoint sum_loop (fuel : nat) (j size sum : Z) (m : list Z) : option Z :=
  match fuel with
  | O => None
  | S fuel =>
    if j <? size then b ← m !! Z.to_nat j; sum_loop fuel (u8 (j + 1)) size (u16 (sum + b)) m
    else Some sum
  end.

(** From the copy of the table to the end of [pirq_init_5k], on the memory: the result
    and the memory. *)
Definition install_map (table m : list Z) : option (Z * list Z) :=
  if (length m <? length table)%nat then None
  else
    let m := put 0 table m in
    sum ← sum_loop 257 0 (get16 pirq_size m) 0 m;
    let m :=
      if sum mod 256 =? 0 then m
      else put pirq_checksum [u8 (Z.shiftl (Z.shiftr sum 8 + 1) 8 - sum)] m in
    if negb (get32 pirq_signature m =? PIRQ_SIGNATURE) then Some (-1, m)
    else if negb (get16 pirq_version m =? PIRQ_VERSION) then Some (-1, m)
    else if negb (get16 pirq_size m mod 16 =? 0) || (get16 pirq_size m <? 32) then Some (-1, m)
    else Some (0, m).

Section Init.
Context {hw : Type} `{!IoPorts hw, !Config hw}.
Abbreviation M := (Run (pci_state hw)).

Definition pirq_init_3k : M Z :=
  on_hw (write_config 0 (PCI_DEVFN 0x7 0) 0x48 0x31 1);;
  on_hw (write_config 0 (PCI_DEVFN 0x7 0) 0x49 0xb9 1);;
  on_hw (write_config 0 (PCI_DEVFN 0x7 0) 0x4c 0x0f 1);;
  mret 0.

Definition use_map (table : list Z) : M Z :=
  m ← ask (fun s => pmap (boot s));
  match install_map table m with
  | None => crash
  | Some (r, m) => upd_boot (set_pmap m);; mret r
  end.

Definition pirq_init_5k : M Z :=
  b ← ask (fun s => boardtype (boot s));
  if b =? BOARDTYPE_MONTEREY then use_map pirq_map_5k_monterey
  else if b =? BOARDTYPE_ALPINE then use_map pirq_map_5k_alpine
  else mret (-1).

Definition pirq_init : M Z :=
  t ← ask (fun s => systype (boot s));
  if t =? SYSTYPE_3K then pirq_init_3k
  else if t =? SYSTYPE_5K then pirq_init_5k
  else mret (-1).

(** ** The interrupt router of the chipset *)

(** "find the next available irq in bitmap". *)
Fixpoint next_irq (fuel : nat) (map last : Z) : option Z :=
  match fuel with
  | O => None
  | S fuel =>
    let last := if last <? 15 then last + 1 else 0 in
    if Z.testbit map last then Some last else next_irq fuel map last
  end.

(** No more than sixteen steps are needed; for a map with none of the sixteen bits the
    loop does not end. *)
Definition pciirq_5k (index map : Z) : M Z :=
  last ← ask (fun s => pirq_last (boot s));
  match next_irq 16 (u16 map) last with
  | None => crash
  | Some last =>
    upd_boot (set_pirq_last last);;
    on_hw (outb index SERVERWORKS_IRQ_INDEX);;
    on_hw (outb last SERVERWORKS_IRQ_REDIRECT);;
    mret last
  end.

Definition pciirq_lookup_5k (index : Z) : M Z :=
  on_hw (outb index SERVERWORKS_IRQ_INDEX);;
  ask_hw (inb SERVERWORKS_IRQ_REDIRECT).

Definition pciirq_5k_set_level (irq : Z) : M unit :=
  if 7 <? irq then
    reg ← ask_hw (inb (PIRQ_ELCR_REG + 1));
    on_hw (outb (Z.lor reg (Z.shiftl 1 (irq - 8))) (PIRQ_ELCR_REG + 1))
  else
    reg ← ask_hw (inb PIRQ_ELCR_REG);
    on_hw (outb (Z.lor reg (Z.shiftl 1 irq)) PIRQ_ELCR_REG).

End Init.

(** ** Routing *)

(** [find_slot]: the number of the entry.  The outer [None] is an access outside the
    memory. *)
Fixpoint slot_loop (n i : nat) (bus devfn : Z) (m : list Z) : option (option nat) :=
  match n with
  | O => Some None
  | S n =>
    b ← m !! slot_bus i;
    d ← m !! slot_devfn i;
    if (b =? bus) && (d =? devfn) then Some (Some i) else slot_loop n (S i) bus devfn m
  end.

Definition PMAP_NSLOTS (m : list Z) : nat := Z.to_nat (Z.quot (get16 pirq_size m - 32) 16).

Definition find_slot (bus devfn : Z) (m : list Z) : option (option nat) :=
  slot_loop (PMAP_NSLOTS m) 0 bus (PCI_DEVFN (PCI_SLOT devfn) 0) m.

(** What the routing code uses of a device: its number and the buses from its own up to the
    host bus. *)
Record place := mk_place { at_devfn : Z; at_bus : bus_info; above : list bus_info }.

(** "walk up the hierarchy until we get to a hostbus": the bridge to the last bus that is not
    the host's, and the number of the host bus.  A bus without a parent and a bus without a
    bridge are errors. *)
Fixpoint top_bridge (b : bus_info) (parents : list bus_info) : option (Z * (Z * Z)) :=
  match parents with
  | [] => None
  | p :: ps => if root p =? 0 then top_bridge p ps else d ← self b; Some (busnum p, d)
  end.

Definition intlines : list Z := [9; 10; 11; 12].

Section Pirq.
Context {hw : Type} `{!IoPorts hw, !Config hw, !Mmio hw}.
Abbreviation M := (Run (pci_state hw)).

Definition may_crash {A} (o : option A) : M A :=
  match o with None => crash | Some a => mret a end.

Definition pirq_route_pci_3k (d : place) (pin : Z) : M Z :=
  if busnum (at_bus d) =? 0 then
    if at_devfn d =? PCI_DEVFN 0x02 0x00 then mret 9
    else if at_devfn d =? PCI_DEVFN 0x0e 0x00 then mret 12
    else if at_devfn d =? PCI_DEVFN 0x0f 0x00 then mret 14
    else if at_devfn d =? PCI_DEVFN 0x10 0x00 then mret 11
    else if at_devfn d =? PCI_DEVFN 0x12 0x00 then mret 10
    else may_crash (intlines !! Z.to_nat pin)
  else may_crash (intlines !! Z.to_nat (PCI_SLOT (at_devfn d) mod 4 + pin)).

(** [irq[pin]] of an entry, which has four. *)
Definition slot_irq (i : nat) (pin : Z) : M (Z * Z) :=
  m ← ask (fun s => pmap (boot s));
  if 3 <? pin then crash
  else
    link ← may_crash (m !! slot_link i (Z.to_nat pin));
    mret (link, get16 (slot_map i (Z.to_nat pin)) m).

(** The first half of [pirq_route_pci_5k]: the link and the map, or none. *)
Definition route_entry (d : place) (pin : Z) : M (option (Z * Z)) :=
  m ← ask (fun s => pmap (boot s));
  e ← may_crash (find_slot (busnum (at_bus d)) (at_devfn d) m);
  match e with
  | Some i => r ← slot_irq i pin; mret (Some r)
  | None =>
    if negb (root (at_bus d) =? 0) then mret None
    else
      '(n, b) ← may_crash (top_bridge (at_bus d) (above d));
      e ← may_crash (find_slot n b.2 m);
      match e with
      | None => mret None
      | Some i => r ← slot_irq i (PCI_SLOT (at_devfn d) mod 4 + pin); mret (Some r)
      end
  end.

Definition pirq_route_pci_5k (d : place) (pin : Z) : M Z :=
  r ← route_entry d pin;
  match r with
  | None => mret 0
  | Some (index, map) =>
    if index =? 0 then mret 0
    else
      irq ← pciirq_5k index map;
      if irq =? 0 then mret 0
      else
        pciirq_5k_set_level irq;;
        id ← ioapic_get_id IOAPIC_PCI0;
        mpINT_add (mk_mptable_INT mp_entry_IOINT mpINT_type__INT mpINT_polarity__Lo
                     mpINT_trigger__Level (busnum (at_bus d)) (pci_irq (PCI_SLOT (at_devfn d)) pin)
                     id (Z.land index 0xf));;
        mret irq
  end.

Definition pirq_route_pci (d : place) (pin : Z) : M Z :=
  if (pin <? 1) || (4 <? pin) then mret 0
  else
    let pin := pin - 1 in
    t ← ask (fun s => systype (boot s));
    if t =? SYSTYPE_3K then pirq_route_pci_3k d pin
    else if t =? SYSTYPE_5K then pirq_route_pci_5k d pin
    else mret 0.

End Pirq.
