(* ===== verification/PciFixup.v ===== *)
(** * PciFixup: the fixups of devices and of their interrupts

    Model of [x86/common/pci_fixup.c] but for the fixups of resources, which are in
    [PciResource].  A fixup gets the device and the buses from its own up; it returns the
    device as it leaves it.  The entries of [mpINT_list] that are built on the stack without
    being cleared have the reserved bits of their third field, which are whatever the
    stack holds; they are taken as zero. *)

From S2P Require Import Prelude Region CmosIo PciIo Pci Acpi PciResource Mptable Pirq.

Definition PCI_DEVICE_SERVERWORKS_LE : Z := 0x0009.
Definition PCI_DEVICE_SERVERWORKS_OSB4IDE : Z := 0x0211.
Definition PCI_DEVICE_SERVERWORKS_CSB5IDE : Z := 0x0212.
Definition PCI_DEVICE_SERVERWORKS_USB : Z := 0x0220.
Definition PCI_DEVICE_SERVERWORKS_CSB5LPC : Z := 0x0230.
Definition PCI_DEVICE_AL_M1541 : Z := 0x1541.
Definition PCI_DEVICE_AL_M5229 : Z := 0x5229.
Definition PCI_DEVICE_AL_M5237 : Z := 0x5237.
Definition PCI_VENDOR_SYMBIOS : Z := 0x1000.
Definition PCI_DEVICE_SYMBIOS_53C875 : Z := 0x000f.
Definition PCI_VENDOR_CHRYSALIS : Z := 0xcafe.
Definition PCI_DEVICE_CHRYSALIS_LUNA340 : Z := 0xc0de.
Definition PCI_VENDOR_SUN : Z := 0x108e.
Definition PCI_SERVERWORKS_SCR2 : Z := 0x4f.

Definition PCI_STATUS : Z := 0x06.
Definition PCI_BUSNUM : Z := 0x44.
Definition PCI_SBUSNUM : Z := 0x45.
Definition PCI_SUBSYS_VENDOR : Z := 0x2c.
Definition PCI_INTERRUPT_LINE : Z := 0x3c.

Definition set_irq (n : Z) (d : pci_dev) : pci_dev :=
  mk_dev (vendor d) (device d) (htype d) (class d) (revision d) (devfn d) n (master d) (multifunc d) (bar d).

(** The entry of an interrupt of the ISA bus: [src.bus] is "set later". *)
Definition late_INT (polarity trigger dest_id n : Z) : mptable_INT :=
  mk_mptable_INT mp_entry_IOINT mpINT_type__INT polarity trigger 0xff n dest_id n.

(** The entry of [mpINT_list] at a position goes to another controller. *)
Definition redirect (i : nat) (dest_id dest_input : Z) (l : list mptable_INT) : list mptable_INT :=
  alter (fun e => mk_mptable_INT (int_entry e) (int_type e) (int_polarity e) (int_trigger e) (int_bus e)
                    (int_irq e) dest_id dest_input) i l.

(** A device that had its base, limit and size cleared. *)
Definition cleared_bar (r : pci_bar) : pci_bar := set_bar_size 0 (set_bar_window 0 0 r).

Section PciFixup.
Context {hw : Type} `{!IoPorts hw, !Config hw, !Mmio hw}.
Abbreviation M := (Run (pci_state hw)).

(** ** Before the configuration; a result other than zero ends it *)

Definition cnb30le_fixup_pre (bn : Z) (d : pci_dev) : M (Z * pci_dev) :=
  pci_dev_writeb (bn, devfn d) PCI_SBUSNUM 0xff;; mret (0, d).

Definition osb4_ide_fixup (bn : Z) (d : pci_dev) : M (Z * pci_dev) :=
  let dev := (bn, devfn d) in
  pci_dev_writeb dev 0x09 0x8F;;
  pci_dev_writel dev 0x44 0x20202020;;
  pci_dev_writew dev 0x56 0x2222;;
  pci_dev_writeb dev 0x54 0xf;;
  mret (0, d).

Definition csb5_ide_fixup (bn : Z) (d : pci_dev) : M (Z * pci_dev) :=
  let dev := (bn, devfn d) in
  sbdev ← ask (fun s => pci_lookup PCI_VENDOR_SERVERWORKS PCI_DEVICE_SERVERWORKS_CSB5 (pci_devices (boot s)));
  (match sbdev with
   | None => mret tt
   | Some (_, sb) =>
     let sb := (id_bus sb, id_devfn sb) in
     reg32 ← pci_dev_readl sb 0x64;
     pci_dev_writel sb 0x64 (Z.lor (Z.land reg32 (Z.lnot 0x380c0000)) 0x00004000);;
     reg8 ← pci_dev_readb sb 0xAC;
     pci_dev_writeb sb 0xAC (Z.lor reg8 0x01)
   end);;
  pci_dev_writeb dev 0x09 0x8f;;
  reg8 ← pci_dev_readb dev 0x5A;
  pci_dev_writeb dev 0x5A (Z.lor (Z.land reg8 (Z.lnot 0x40)) 0x03);;
  pci_dev_writew dev 0x48 0xf0f0;;
  pci_dev_writel dev 0x40 0x20202020;;
  pci_dev_writew dev 0x4a 0x4444;;
  pci_dev_writel dev 0x44 0x77777777;;
  pci_dev_writel dev PCI_SUBSYS_VENDOR (Z.lor PCI_VENDOR_SUN (Z.shiftl 0xc000 16));;
  mret (0, d).

Definition csb5_lpc_irq_fixup (bn : Z) (d : pci_dev) : M (Z * pci_dev) :=
  pci_dev_writeb (bn, devfn d) PCI_INTERRUPT_LINE 0xff;; mret (0xff, set_irq 0 d).

Definition sym53c875_fixup (bn : Z) (d : pci_dev) : M (Z * pci_dev) :=
  let dev := (bn, devfn d) in
  pci_dev_writel dev (PCI_BAR_ADDR 0) 0;;
  pci_dev_writel dev (PCI_BAR_ADDR 1) 0;;
  pci_dev_writel dev (PCI_BAR_ADDR 2) 0;;
  mret (0, set_bars (alter cleared_bar 2%nat (alter cleared_bar 1%nat (alter cleared_bar 0%nat (bar d)))) d).

(** ** Interrupts *)

Definition m5237_fixup (bn : Z) (d : pci_dev) : M (Z * pci_dev) :=
  pci_dev_write_config (bn, devfn d) PCI_INTERRUPT_LINE 6 1;; mret (1, set_irq 6 d).

Definition m5229_fixup (bn : Z) (d : pci_dev) : M pci_dev :=
  let dev := (bn, devfn d) in
  reg ← pci_dev_readb dev 0x50;
  pci_dev_writeb dev 0x50 (Z.lor reg 0x03);;
  reg ← pci_dev_readb dev 0x4d;
  pci_dev_writeb dev 0x4d (Z.land reg (Z.lnot 0x80));;
  pci_dev_writeb dev 0x43 0x00;;
  pci_dev_writeb dev 0x09 0xff;;
  pci_dev_writeb dev 0x54 0x99;;
  pci_dev_writeb dev 0x55 0x99;;
  pci_dev_writeb dev 0x56 0xcc;;
  pci_dev_writeb dev 0x57 0xcc;;
  mret d.

Definition svwks_usb_irq_fixup (bn : Z) (d : pci_dev) : M pci_dev :=
  l ← ask (fun s => mpINT_list (boot s));
  match mpINT_find bn (PCI_SLOT (devfn d)) 0 l with
  | None => mret d
  | Some (i, _) =>
    id ← ioapic_get_id IOAPIC_ISA;
    upd_boot (fun v => set_mpINT (redirect i id (irq d) (mpINT_list v)) (mpINT_lost v) v);;
    mret d
  end.

Definition svwks_ide_irq_fixup (_ : Z) (d : pci_dev) : M pci_dev :=
  '(ide0irq, ide1irq) ←
    (if device d =? PCI_DEVICE_SERVERWORKS_CSB5IDE then
       ide0irq ← pciirq_5k SERVERWORKS_IRQ_INDEX_IDE0 (Z.shiftl 1 IRQ_IDE0);
       ide1irq ← pciirq_5k SERVERWORKS_IRQ_INDEX_IDE1 (Z.shiftl 1 IRQ_IDE1);
       mret (ide0irq, ide1irq)
     else mret (IRQ_IDE0, IRQ_IDE1));
  id ← ioapic_get_id IOAPIC_ISA;
  mpINT_add (late_INT mpINT_polarity__Hi mpINT_trigger__Level id ide0irq);;
  mpINT_add (late_INT mpINT_polarity__Hi mpINT_trigger__Level id ide1irq);;
  mret (set_irq ide0irq d).

(** ** After the configuration

    These may change the bus and the peers hung on it; nothing uses their result. *)

Definition set_self (d : Z * Z) (f : range_fn) (fb : Z) (i : bus_info) : bus_info :=
  mk_bus_info (busnum i) (pri i) (bus_sub i) (last_kid i) fb (freq i) (root i) (Some d) (resource i) (Some f).

(** What a bus is made of while it is scanned: itself, its devices, the buses below, and the
    buses its [peer] pointer leads to. *)
Record bus_scan := mk_bus_scan {
  sc_info : bus_info;
  sc_devices : list pci_dev;
  sc_kids : list pci_bus;
  sc_peers : list pci_bus;
}.

Definition osb4_acpi_fixup (d : pci_dev) : M pci_dev :=
  n ← pciirq_5k SERVERWORKS_IRQ_INDEX_ACPI (Z.shiftl 1 Acpi.IRQ_ACPI);
  pciirq_5k_set_level n;;
  id ← ioapic_get_id IOAPIC_ISA;
  mpINT_add (late_INT mpINT_polarity__Lo mpINT_trigger__Level id n);;
  mret (set_irq n d).

Definition m1541_fixup (i : bus_info) (d : pci_dev) : M bus_info :=
  let dev := (busnum i, devfn d) in
  pci_dev_write_config dev PCI_COMMAND 0x0006 2;;
  pci_dev_write_config dev (PCI_STATUS + 1) 0xf4 1;;
  pci_dev_write_config dev 0x0d 0x20 1;;
  mret (mk_bus_info (busnum i) (pri i) (bus_sub i) (last_kid i) (fbbe i) (freq i) (root i) (self i)
          (resource i) (Some pci_resource_m1541)).

Definition chrysalis_luna340_fixup (bn : Z) (d : pci_dev) : M pci_dev :=
  if revision d =? 0 then
    b ← on_regs (region_allocate (bar_id PCI_BAR_MMIO) (Z.shiftl 16 20));
    pci_dev_writel (bn, devfn d) (PCI_BAR_ADDR 0) b;;
    let n := Z.shiftl 16 20 in
    mret (set_bars (alter (fun r => set_bar_size n (set_bar_window b (u32 (b + n - 1)) r)) 0%nat (bar d)) d)
  else mret d.

(** [dev->bus] of the device at a position of [pci_devices] becomes another bus. *)
Definition move_dev (at_ : nat) (n : Z) (l : list dev_id) : list dev_id :=
  alter (fun e => mk_dev_id n (id_devfn e) (id_vendor e) (id_device e)) at_ l.

(** [scan] is [pci_bus_scan] on a host bus, and [at_] the position of the device in
    [pci_devices]: the search for the end of the peers moves [dev->bus] along. *)
Definition cnb30le_fixup_post (scan : bus_info -> M bus_scan) (at_ : nat) (i : bus_info) (peers : list pci_bus)
  (d : pci_dev) : M (bus_info * list pci_bus) :=
  let dev := (busnum i, devfn d) in
  reg ← pci_dev_readb dev PCI_COMMAND;
  pci_dev_writeb dev PCI_COMMAND (Z.lor reg (Z.lor PCI_CMD_IO PCI_CMD_MEMORY));;
  if PCI_FUNC (devfn d) =? 0 then
    pci_dev_writeb dev PCI_SBUSNUM (bus_sub i);;
    mret (set_self dev pci_resource_cnb30le 1 i, peers)
  else if PCI_FUNC (devfn d) =? 1 then
    bus ← malloc;
    if negb bus then mret (i, peers)
    else
      match self i with
      | None => crash
      | Some host =>
        reg ← pci_dev_readb host PCI_SERVERWORKS_SCR2;
        let n := u8 (last_kid i + 1) in
        let bus := mk_bus_info n 0 0 n 1 (Z.land reg 1) 1 (Some dev) (resource pci_bus_blank)
                     (Some pci_resource_cnb30le) in
        pci_dev_writeb dev PCI_BUSNUM n;;
        r ← scan bus;
        let bus := sc_info r in
        let bus := mk_bus_info (busnum bus) (pri bus) (last_kid bus) (last_kid bus) (fbbe bus) (freq bus)
                     (root bus) (self bus) (resource bus) (set_resource_range bus) in
        pci_dev_writeb dev PCI_SBUSNUM (bus_sub bus);;
        match last peers with
        | None => mret tt
        | Some p => upd_boot (fun v => set_pci_devices (move_dev at_ (busnum (info p)) (pci_devices v)) v)
        end;;
        mret (i, peers ++ mk_bus bus (sc_devices r) (sc_kids r) :: sc_peers r)
      end
  else mret (i, peers).

(** ** The table and its dispatch *)

(** The device and the interrupt fixups of [fixup_table]. *)
Inductive post_fixup := post_cnb30le | post_osb4_acpi | post_m1541 | post_chrysalis.
Record dev_fixups := mk_dev_fixups {
  pre_dev : option (Z -> pci_dev -> M (Z * pci_dev));
  pre_irq : option (Z -> pci_dev -> M (Z * pci_dev));
  post_dev : option post_fixup;
  post_irq : option (Z -> pci_dev -> M pci_dev);
}.

Definition dev_fixup_table : list (Z * Z * dev_fixups) :=
  [(PCI_VENDOR_SERVERWORKS, PCI_DEVICE_SERVERWORKS_LE,
    mk_dev_fixups (Some cnb30le_fixup_pre) None (Some post_cnb30le) None);
   (PCI_VENDOR_SERVERWORKS, PCI_DEVICE_SERVERWORKS_OSB4,
    mk_dev_fixups None None (Some post_osb4_acpi) None);
   (PCI_VENDOR_SERVERWORKS, PCI_DEVICE_SERVERWORKS_OSB4IDE,
    mk_dev_fixups (Some osb4_ide_fixup) None None (Some svwks_ide_irq_fixup));
   (PCI_VENDOR_SERVERWORKS, PCI_DEVICE_SERVERWORKS_USB,
    mk_dev_fixups None None None (Some svwks_usb_irq_fixup));
   (PCI_VENDOR_SERVERWORKS, PCI_DEVICE_SERVERWORKS_CSB5,
    mk_dev_fixups None None (Some post_osb4_acpi) None);
   (PCI_VENDOR_SERVERWORKS, PCI_DEVICE_SERVERWORKS_CSB5IDE,
    mk_dev_fixups (Some csb5_ide_fixup) None None (Some svwks_ide_irq_fixup));
   (PCI_VENDOR_SERVERWORKS, PCI_DEVICE_SERVERWORKS_CSB5LPC,
    mk_dev_fixups (Some csb5_lpc_irq_fixup) None None None);
   (PCI_VENDOR_AL, PCI_DEVICE_AL_M1541, mk_dev_fixups None None (Some post_m1541) None);
   (PCI_VENDOR_AL, PCI_DEVICE_AL_M5229, mk_dev_fixups None None None (Some m5229_fixup));
   (PCI_VENDOR_AL, PCI_DEVICE_AL_M5237, mk_dev_fixups None (Some m5237_fixup) None None);
   (PCI_VENDOR_SYMBIOS, PCI_DEVICE_SYMBIOS_53C875, mk_dev_fixups (Some sym53c875_fixup) None None None);
   (PCI_VENDOR_CHRYSALIS, PCI_DEVICE_CHRYSALIS_LUNA340,
    mk_dev_fixups None None (Some post_chrysalis) None)].

Definition find_dev_fixup (d : pci_dev) : option dev_fixups :=
  snd <$> (snd <$> list_find (fun e => e.1 = (vendor d, device d)) dev_fixup_table).

Definition pci_fixup_pre (bn : Z) (d : pci_dev) : M (Z * pci_dev) :=
  match f ← find_dev_fixup d; pre_dev f with
  | Some f => f bn d
  | None => mret (0, d)
  end.
Definition pci_irq_fixup_pre (bn : Z) (d : pci_dev) : M (Z * pci_dev) :=
  match f ← find_dev_fixup d; pre_irq f with
  | Some f => f bn d
  | None => mret (0, d)
  end.
Definition pci_irq_fixup_post (bn : Z) (d : pci_dev) : M pci_dev :=
  match f ← find_dev_fixup d; post_irq f with
  | Some f => f bn d
  | None => mret d
  end.

Definition pci_fixup_post (scan : bus_info -> M bus_scan) (at_ : nat) (i : bus_info) (peers : list pci_bus)
  (d : pci_dev) : M (pci_dev * (bus_info * list pci_bus)) :=
  match f ← find_dev_fixup d; post_dev f with
  | Some post_cnb30le => r ← cnb30le_fixup_post scan at_ i peers d; mret (d, r)
  | Some post_osb4_acpi => d ← osb4_acpi_fixup d; mret (d, (i, peers))
  | Some post_m1541 => i ← m1541_fixup i d; mret (d, (i, peers))
  | Some post_chrysalis => d ← chrysalis_luna340_fixup (busnum i) d; mret (d, (i, peers))
  | None => mret (d, (i, peers))
  end.

End PciFixup.
