(* ===== verification/PciScan.v ===== *)
(** * PciScan: the discovery of devices and buses

    Model of the rest of [x86/common/pci.c]: [pci_bus_scan] with the functions it calls, and
    [pci_init].  The recursion over the bridges has the depth of the tree as its fuel.  What
    is printed, and the size of expansion ROMs, which is only printed, are left out. *)

From S2P Require Import Prelude Region CmosIo PciIo Pci Acpi PciResource Mptable Pirq PciFixup.

Definition PCI_VENDOR_ID : Z := 0x00.
Definition PCI_DEVICE_ID : Z := 0x02.
Definition PCI_CLASS_ID : Z := 0x08.
Definition PCI_REVISION_ID : Z := 0x08.
Definition PCI_CACHE_LINE_SIZE : Z := 0x0c.
Definition PCI_LATENCY_TIMER : Z := 0x0d.
Definition PCI_HTYPE : Z := 0x0e.
Definition PCI_HTYPE_STANDARD : Z := 0x00.
Definition PCI_HTYPE_PCI_BRIDGE : Z := 0x01.
Definition PCI_HTYPE_CARDBUS_BRIDGE : Z := 0x02.
Definition PCI_EXPANSION_ROM : Z := 0x30.
Definition PCI_INTERRUPT_PIN : Z := 0x3d.
Definition PCI_CMD_MASTER : Z := 0x4.
Definition PCI_CMD_VGA_PALETTE : Z := 0x20.
Definition PCI_CMD_FBBE : Z := 0x200.
Definition PCI_STATUS_FBBE : Z := 0x80.
Definition PCI_BAR_IS_IO : Z := 1.
Definition PCI_BAR_IS_LOWMEM : Z := 2.
Definition PCI_BAR_IS_64BIT : Z := 4.
Definition PCI_BAR_IS_PREFETCH : Z := 8.
Definition PCI2PCI_BUS_PRI : Z := 0x18.
Definition PCI2PCI_BUS_SEC : Z := 0x19.
Definition PCI2PCI_BUS_SUB : Z := 0x1a.
Definition PCI2PCI_LATENCY : Z := 0x1b.
Definition PCI2PCI_STATUS : Z := 0x1e.
Definition PCI2PCI_EXPANSION_ROM : Z := 0x38.
Definition PCI2PCI_BRIDGE_CTRL : Z := 0x3e.
Definition PCI2PCI_BCTL_ISA : Z := 0x4.
Definition PCI2PCI_BCTL_VGA : Z := 0x8.
Definition PCI2PCI_BCTL_RESET : Z := 0x40.
Definition PCI2PCI_BCTL_FBBE : Z := 0x80.
Definition PCI2CB_BRIDGE_CTRL : Z := 0x3e.
Definition PCI2CB_BCTL_ISA : Z := 0x4.
Definition PCI2CB_BCTL_VGA : Z := 0x8.
Definition PCI2CB_BCTL_RESET : Z := 0x40.
Definition PCI2CB_BCTL_INTR : Z := 0x80.
Definition PCI2CB_BCTL_PREFETCH0 : Z := 0x100.
Definition PCI2CB_BCTL_PREFETCH1 : Z := 0x200.
Definition PCI2CB_16BIT_LEGACY_BAR : Z := 0x44.

(** ** Updates of fields *)

Definition set_master (n : Z) (d : pci_dev) : pci_dev :=
  mk_dev (vendor d) (device d) (htype d) (class d) (revision d) (devfn d) (irq d) n (multifunc d) (bar d).
Definition set_fbbe (n : Z) (i : bus_info) : bus_info :=
  mk_bus_info (busnum i) (pri i) (bus_sub i) (last_kid i) n (freq i) (root i) (self i) (resource i)
    (set_resource_range i).
Definition set_last_kid (n : Z) (i : bus_info) : bus_info :=
  mk_bus_info (busnum i) (pri i) (bus_sub i) n (fbbe i) (freq i) (root i) (self i) (resource i)
    (set_resource_range i).
Definition set_sub (n : Z) (i : bus_info) : bus_info :=
  mk_bus_info (busnum i) (pri i) n (last_kid i) (fbbe i) (freq i) (root i) (self i) (resource i)
    (set_resource_range i).

(** ** pci_bar_scan *)

(** What the value a base address register gives back after all ones says of it: its type,
    its size, and whether it is the lower half of a 64-bit one. *)
Definition bar_decode (val : Z) (r : pci_bar) : pci_bar :=
  if Z.testbit val 0 then
    let n := Z.land (Z.lnot (Z.land val 0xfffffffc)) 0xff + 1 in
    mk_bar PCI_BAR_IO (bar_base r) (bar_limit r) (if 256 <? n then 256 else n) (bar_size2 r) (bar_addr64 r)
  else if Z.testbit val 1 then
    mk_bar PCI_BAR_EMPTY (bar_base r) (bar_limit r) (bar_size r) (bar_size2 r) (bar_addr64 r)
  else if negb (val =? 0) then
    mk_bar (if Z.testbit val 3 then PCI_BAR_PMMIO else PCI_BAR_MMIO) (bar_base r) (bar_limit r)
      (u32 (Z.lnot (Z.land val 0xfffffff0) + 1)) (bar_size2 r)
      (if Z.testbit val 2 then 1 else bar_addr64 r)
  else mk_bar PCI_BAR_EMPTY (bar_base r) (bar_limit r) (bar_size r) (bar_size2 r) (bar_addr64 r).

Section PciScan.
Context {hw : Type} `{!IoPorts hw, !Config hw, !Mmio hw}.
Abbreviation M := (Run (pci_state hw)).

(** "start by zeroing all the BARs". *)
Fixpoint zero_bars (dev : Z * Z) (n : nat) (cur : Z) : M unit :=
  match n with
  | O => mret tt
  | S n => pci_dev_writel dev (PCI_BAR_ADDR cur) 0;; zero_bars dev n (cur + 1)
  end.

(** The loop over the registers, with the bits for the command register. *)
Fixpoint bar_loop (dev : Z * Z) (n : nat) (cur nbars cmd : Z) (bs : list pci_bar) : M (Z * list pci_bar) :=
  match n with
  | O => mret (cmd, bs)
  | S n =>
    if nbars <=? cur then mret (cmd, bs)
    else
      pci_dev_writel dev (PCI_BAR_ADDR cur) 0xffffffff;;
      val ← pci_dev_readl dev (PCI_BAR_ADDR cur);
      let bs := alter (bar_decode val) (Z.to_nat cur) bs in
      if Z.testbit val 0 then bar_loop dev n (cur + 1) nbars (Z.lor cmd PCI_CMD_IO) bs
      else if Z.testbit val 1 || (val =? 0) then bar_loop dev n (cur + 1) nbars cmd bs
      else
        let cmd := Z.lor cmd PCI_CMD_MEMORY in
        if Z.testbit val 2 then
          pci_dev_writel dev (PCI_BAR_ADDR (cur + 1)) 0;;
          bar_loop dev n (cur + 2) nbars cmd bs
        else bar_loop dev n (cur + 1) nbars cmd bs
  end.

Definition pci_bar_scan (bn : Z) (d : pci_dev) (nbars : Z) : M pci_dev :=
  let dev := (bn, devfn d) in
  let nbars := if 6 <? nbars then 6 else nbars in
  zero_bars dev (Z.to_nat nbars) 0;;
  '(cmd, bs) ← bar_loop dev (Z.to_nat nbars) 0 nbars 0 (bar d);
  (if cmd =? 0 then mret tt
   else
     data ← pci_dev_readw dev PCI_COMMAND;
     pci_dev_writew dev PCI_COMMAND (Z.lor data cmd));;
  mret (set_bars bs d).

(** ** pci_dev_init *)

(** The expansion ROM: its size is asked for, and it is disabled. *)
Definition zero_rom (dev : Z * Z) (reg : Z) : M unit :=
  pci_dev_writel dev reg 0xffffffff;;
  _ ← pci_dev_readl dev reg;
  pci_dev_writel dev reg 0.

(** A latency timer below 32 becomes 64. *)
Definition set_latency (dev : Z * Z) (reg : Z) : M unit :=
  n ← pci_dev_readb dev reg;
  if n <? 32 then pci_dev_writeb dev reg 64 else mret tt.

(** "PCI 2.1 says intpin = 0 if dev uses no IRQ", to the fixup behind. *)
Definition init_irq (i : bus_info) (above : list bus_info) (d : pci_dev) : M pci_dev :=
  let dev := (busnum i, devfn d) in
  '(r, d) ← pci_irq_fixup_pre (busnum i) d;
  d ← (if 0 <? r then mret d
       else
         pin ← pci_dev_readb dev PCI_INTERRUPT_PIN;
         n ← pirq_route_pci (mk_place (devfn d) i above) pin;
         if n =? 0 then pci_dev_writeb dev PCI_INTERRUPT_LINE 0xff;; mret (set_irq 0 d)
         else
           pci_dev_writeb dev PCI_INTERRUPT_LINE n;;
           pin ← pci_dev_readb dev PCI_INTERRUPT_LINE;
           mret (set_irq (if pin =? n then n else pin) d));
  pci_irq_fixup_post (busnum i) d.

(** "set resources". *)
Definition init_resources (bn : Z) (d : pci_dev) : M pci_dev :=
  let dev := (bn, devfn d) in
  if htype d =? PCI_HTYPE_STANDARD then
    zero_rom dev PCI_EXPANSION_ROM;;
    pci_bar_scan bn d 6
  else if htype d =? PCI_HTYPE_PCI_BRIDGE then
    zero_rom dev PCI2PCI_EXPANSION_ROM;;
    pci_dev_writew dev PCI2PCI_BRIDGE_CTRL
      (Z.lnot (Z.lor (Z.lor (Z.lor PCI2PCI_BCTL_ISA PCI2PCI_BCTL_VGA) PCI2PCI_BCTL_RESET) PCI2PCI_BCTL_FBBE));;
    set_latency dev PCI2PCI_LATENCY;;
    pci_bar_scan bn d 2
  else if htype d =? PCI_HTYPE_CARDBUS_BRIDGE then
    pci_dev_writew dev PCI2CB_BRIDGE_CTRL
      (Z.lor (Z.lnot (Z.lor (Z.lor (Z.lor (Z.lor PCI2CB_BCTL_ISA PCI2CB_BCTL_VGA) PCI2CB_BCTL_RESET)
                               PCI2CB_BCTL_PREFETCH1) PCI2CB_BCTL_INTR)) PCI2CB_BCTL_PREFETCH0);;
    n ← ask (fun s => cardbus_legacy_bar (boot s));
    pci_dev_writel dev PCI2CB_16BIT_LEGACY_BAR n;;
    (if multifunc d =? 0 then upd_boot (set_cardbus_legacy_bar (u16 (n + 2))) else mret tt);;
    set_latency dev PCI2PCI_LATENCY;;
    pci_bar_scan bn d 1
  else mret d.

Definition pci_dev_init (i : bus_info) (above : list bus_info) (d : pci_dev) : M pci_dev :=
  let dev := (busnum i, devfn d) in
  d ← init_irq i above d;
  pci_dev_writeb dev PCI_CACHE_LINE_SIZE 8;;
  pci_dev_writew dev PCI_COMMAND
    (Z.lnot (Z.lor (Z.lor (Z.lor PCI_CMD_IO PCI_CMD_VGA_PALETTE) PCI_CMD_MEMORY) PCI_CMD_FBBE));;
  cmd ← pci_dev_readw dev PCI_COMMAND;
  let d := set_master (Z.b2z (Z.land cmd PCI_CMD_MASTER =? PCI_CMD_MASTER)) d in
  (if master d =? 0 then mret tt else set_latency dev PCI_LATENCY_TIMER);;
  init_resources (busnum i) d.

(** ** Bridges *)

(** [pci_bridge_bus_alloc], with the bus the bridge is on, whose [last_kid] grows. *)
Definition pci_bridge_bus_alloc (i : bus_info) (d : pci_dev) (f : range_fn) : M (option bus_info * bus_info) :=
  newbus ← malloc;
  if negb newbus then mret (None, i)
  else
    let n := u8 (last_kid i + 1) in
    v ← pci_dev_readb (busnum i, devfn d) PCI2PCI_STATUS;
    mret (Some (mk_bus_info n (busnum i) 0xff n (Z.land v PCI_STATUS_FBBE) 0 0 (Some (busnum i, devfn d))
                  (resource pci_bus_blank) (Some f)),
          set_last_kid n i).

Definition pci_cardbus_init (dev : Z * Z) (i : bus_info) : M bus_info :=
  pci_dev_writel dev PCI2CB_MMIO_BASE0 0;;
  pci_dev_writel dev PCI2CB_MMIO_LIMIT0 0;;
  pci_dev_writel dev PCI2CB_MMIO_BASE1 0;;
  pci_dev_writel dev PCI2CB_MMIO_LIMIT1 0;;
  pci_dev_writel dev PCI2CB_IO_BASE0 0;;
  pci_dev_writel dev PCI2CB_IO_LIMIT0 0;;
  pci_dev_writel dev PCI2CB_IO_BASE1 0;;
  pci_dev_writel dev PCI2CB_IO_LIMIT1 0;;
  let window t n n2 i :=
    let r := map_of t i in
    set_map t (mk_bar t (bar_base r) (bar_limit r) (default (bar_size r) n) (default (bar_size2 r) n2)
                 (bar_addr64 r)) i in
  mret (window PCI_BAR_MMIO None (Some 0x4000000)
          (window PCI_BAR_PMMIO (Some 0x400000) None
             (window PCI_BAR_IO (Some 0x100) (Some 0x100) i))).

(** [scan] is [pci_bus_scan] behind the bridge. *)
Definition pci_bridge_init (scan : bus_info -> M bus_scan) (dev : Z * Z) (type : Z) (i : bus_info) : M bus_scan :=
  reg ← pci_dev_readw dev PCI_COMMAND;
  pci_dev_writew dev PCI_COMMAND (Z.land reg (Z.lnot (Z.lor PCI_CMD_IO PCI_CMD_MEMORY)));;
  reg ← pci_dev_readw dev PCI_STATUS;
  pci_dev_writew dev PCI_STATUS reg;;
  pci_dev_writeb dev PCI2PCI_BUS_PRI (pri i);;
  pci_dev_writeb dev PCI2PCI_BUS_SEC (busnum i);;
  pci_dev_writeb dev PCI2PCI_BUS_SUB 0xff;;
  r ← (if type =? PCI_HTYPE_PCI_BRIDGE then scan i
       else if type =? PCI_HTYPE_CARDBUS_BRIDGE
       then i ← pci_cardbus_init dev i; mret (mk_bus_scan i [] [] [])
       else mret (mk_bus_scan i [] [] []));
  let i := set_sub (last_kid (sc_info r)) (sc_info r) in
  pci_dev_writeb dev PCI2PCI_BUS_SUB (bus_sub i);;
  mret (mk_bus_scan i (sc_devices r) (sc_kids r) (sc_peers r)).

(** ** pci_bus_scan *)

(** The buses below: a chain of [peer] pointers.  The buses the last of them leads to are
    dropped when the next is appended. *)
Record kid_list := mk_kid_list { linked : list pci_bus; tail_peers : list pci_bus }.
Definition chain (k : kid_list) : list pci_bus := linked k ++ tail_peers k.
Definition append_kid (r : bus_scan) (k : kid_list) : kid_list :=
  mk_kid_list (linked k ++ [mk_bus (sc_info r) (sc_devices r) (sc_kids r)]) (sc_peers r).

(** The state of the loop over the functions of a bus. *)
Record dev_loop := mk_dev_loop {
  lp_info : bus_info;
  lp_devices : list pci_dev;
  lp_kids : kid_list;
  lp_peers : list pci_bus;
  lp_multifunc : Z;
}.

(** "fill in the new structure", with what the function says of fast back-to-back
    transactions. *)
Definition read_dev (bn dfn x : Z) : M (pci_dev * Z) :=
  device ← ask_hw (read_config bn dfn PCI_DEVICE_ID 2);
  htype ← ask_hw (read_config bn dfn PCI_HTYPE 1);
  class ← ask_hw (read_config bn dfn PCI_CLASS_ID 4);
  revision ← ask_hw (read_config bn dfn PCI_REVISION_ID 1);
  status ← ask_hw (read_config bn dfn PCI_STATUS 1);
  mret (mk_dev (u16 x) (u16 device) (Z.land (u8 htype) 0x7f) (Z.shiftr (u32 class) 16) (u8 revision) (u8 dfn)
          0 0 (Z.land (u8 htype) 0x80) (bar pci_dev_blank),
        Z.land (u8 status) PCI_STATUS_FBBE).

(** "initialize known bridge types"; none if there is no memory for the bus.  [go] scans a
    bus below another. *)
Definition scan_bridge (go : list bus_info -> bus_info -> M bus_scan) (above : list bus_info) (d : pci_dev)
  (s : dev_loop) : M (option dev_loop) :=
  if (htype d =? PCI_HTYPE_PCI_BRIDGE) || (htype d =? PCI_HTYPE_CARDBUS_BRIDGE) then
    let f := if htype d =? PCI_HTYPE_PCI_BRIDGE then pci_resource_bridge else pci_resource_cardbus in
    '(newbus, i) ← pci_bridge_bus_alloc (lp_info s) d f;
    match newbus with
    | None => mret None
    | Some b =>
      r ← pci_bridge_init (go (i :: above)) (busnum i, devfn d) (htype d) b;
      mret (Some (mk_dev_loop (set_last_kid (last_kid (sc_info r)) i) (lp_devices s)
                    (append_kid r (lp_kids s)) (lp_peers s) (lp_multifunc s)))
    end
  else mret (Some s).

(** What follows once the device is in the lists, to [scan_continue]. *)
Definition configure_dev (go : list bus_info -> bus_info -> M bus_scan) (above : list bus_info) (at_ : nat)
  (d : pci_dev) (s : dev_loop) : M (pci_dev * dev_loop) :=
  '(r, d) ← pci_fixup_pre (busnum (lp_info s)) d;
  if negb (r =? 0) then mret (d, s)
  else
    b ← scan_bridge go above d s;
    match b with
    | None => mret (d, s)
    | Some s =>
      d ← pci_dev_init (lp_info s) above d;
      '(d, (i, peers)) ← pci_fixup_post (go []) at_ (lp_info s) (lp_peers s) d;
      mret (d, mk_dev_loop i (lp_devices s) (lp_kids s) peers (lp_multifunc s))
    end.

(** The body of the loop. *)
Definition scan_dev (go : list bus_info -> bus_info -> M bus_scan) (above : list bus_info) (dfn : Z)
  (s : dev_loop) : M dev_loop :=
  if (lp_multifunc s =? 0) && negb (PCI_FUNC dfn =? 0) then mret s
  else
    let bn := busnum (lp_info s) in
    x ← ask_hw (read_config bn dfn PCI_VENDOR_ID 2);
    if (u16 x =? 0xffff) || (u16 x =? 0) then mret s
    else
      newdev ← malloc;
      if negb newdev then mret s
      else
        '(d, fb) ← read_dev bn dfn x;
        let i := set_fbbe (Z.b2z (negb (fb =? 0) && negb (fbbe (lp_info s) =? 0))) (lp_info s) in
        at_ ← ask (fun s => length (pci_devices (boot s)));
        upd_boot (fun v => set_pci_devices (pci_devices v ++ [mk_dev_id bn (devfn d) (vendor d) (device d)]) v);;
        let mf := if PCI_FUNC dfn =? 0 then multifunc d else lp_multifunc s in
        '(d, s) ← configure_dev go above at_ d
                    (mk_dev_loop i (lp_devices s) (lp_kids s) (lp_peers s) mf);
        mret (mk_dev_loop (lp_info s) (lp_devices s ++ [d]) (lp_kids s) (lp_peers s) (lp_multifunc s)).

(** "for every device/function on this bus", from [dfn] on. *)
Fixpoint scan_devs (go : list bus_info -> bus_info -> M bus_scan) (above : list bus_info) (n : nat) (dfn : Z)
  (s : dev_loop) : M dev_loop :=
  match n with
  | O => mret s
  | S n => s ← scan_dev go above dfn s; scan_devs go above n (dfn + 1) s
  end.

(** [data |= bits] of a 16-bit register. *)
Definition or_word (dev : Z * Z) (reg bits : Z) : M unit :=
  data ← pci_dev_readw dev reg; pci_dev_writew dev reg (Z.lor data bits).

(** "if all devices on this bus are Fast Back-to-Back capable". *)
Fixpoint enable_devs (bn : Z) (ds : list pci_dev) : M unit :=
  match ds with
  | [] => mret tt
  | d :: ds => or_word (bn, devfn d) PCI_COMMAND PCI_CMD_FBBE;; enable_devs bn ds
  end.
Definition enable_fbbe (above : list bus_info) (s : dev_loop) : M unit :=
  let i := lp_info s in
  if fbbe i =? 0 then mret tt
  else
    enable_devs (busnum i) (lp_devices s);;
    match above with
    | [] => mret tt
    | _ => match self i with
           | None => crash
           | Some b => or_word b PCI2PCI_BRIDGE_CTRL PCI2PCI_BCTL_FBBE
           end
    end.

(** [above] are the buses from the parent of the bus up; the host bus has none. *)
Fixpoint pci_bus_scan (fuel : nat) (above : list bus_info) (i : bus_info) : M bus_scan :=
  match fuel with
  | O => crash
  | S fuel =>
    s ← scan_devs (pci_bus_scan fuel) above 256 0 (mk_dev_loop i [] (mk_kid_list [] []) [] 0);
    enable_fbbe above s;;
    mret (mk_bus_scan (lp_info s) (lp_devices s) (chain (lp_kids s)) (lp_peers s))
  end.

(** [pci_init]: the root and its peers.  [malloc_ok] is the memory for the regions. *)
Definition pci_root_blank : bus_info :=
  mk_bus_info 0 0 0 0 0 0 1 None (resource pci_bus_blank) None.

Definition pci_scan_root (fuel : nat) : M (list pci_bus) :=
  _ ← pirq_init;
  upd_boot (set_pci_devices []);;
  r ← pci_bus_scan fuel [] pci_root_blank;
  let i := set_sub (last_kid (sc_info r)) (sc_info r) in
  mret (mk_bus i (sc_devices r) (sc_kids r) :: sc_peers r).

Definition pci_init (fuel : nat) (malloc_ok : pci_bar_t -> bool) : M (list pci_bus) :=
  l ← pci_scan_root fuel;
  pci_resource_init malloc_ok l.

End PciScan.
