(* ===== verification/PciMachine.v ===== *)
(** * PciMachine: a tree of buses behind configuration space

    The documented behaviour of PCI hardware that the scan relies on, as a concrete machine:
    functions with 256 byte registers, some bits of which can be written, and bridges that
    pass on an access to the bus numbers from their secondary to their subordinate number.
    [context] says that a part of the machine is reached under its own bus number, and the
    lemmas reduce accesses of the code to accesses of one function. *)

From S2P Require Import Prelude PciIo Pci.

(** A function: its number, its registers, the bits of each that can be written, and the
    bus behind it if it is a bridge. *)
Inductive hfun := HFun (dfn : Z) (regs mask : Z -> Z) (behind : option (list hfun)).

Definition f_dfn (f : hfun) : Z := let 'HFun d _ _ _ := f in d.
Definition f_regs (f : hfun) : Z -> Z := let 'HFun _ r _ _ := f in r.
Definition f_mask (f : hfun) : Z -> Z := let 'HFun _ _ m _ := f in m.
Definition f_behind (f : hfun) : option (list hfun) := let 'HFun _ _ _ b := f in b.

Lemma hfun_nested_ind (P : hfun -> Prop) :
  (forall d r m, P (HFun d r m None)) ->
  (forall d r m l, Forall P l -> P (HFun d r m (Some l))) -> forall f, P f.
Proof.
  intros H1 H2. fix IH 1. intros [d r m [l|]]; [|apply H1]. apply H2.
  induction l as [|f l IHl]; constructor; [apply IH|done].
Qed.

(** ** Registers *)

Fixpoint f_read (n : nat) (a : Z) (f : hfun) : Z :=
  match n with
  | O => 0
  | S n => u8 (f_regs f a) + 256 * f_read n (a + 1) f
  end.

Definition write_reg (a v : Z) (f : hfun) : hfun :=
  let 'HFun d r m b := f in
  HFun d (fun x => if x =? a then Z.lor (Z.land (r a) (Z.lnot (m a))) (Z.land (u8 v) (m a)) else r x) m b.
Fixpoint f_write (n : nat) (a v : Z) (f : hfun) : hfun :=
  match n with
  | O => f
  | S n => f_write n (a + 1) (v / 256) (write_reg a v f)
  end.

Definition SEC (f : hfun) : Z := u8 (f_regs f 0x19).
Definition SUB (f : hfun) : Z := u8 (f_regs f 0x1a).

(** ** Routing *)

(** A bridge takes an access to bus [m]. *)
Definition claims (m : Z) (f : hfun) : bool :=
  match f_behind f with Some _ => (SEC f <=? m) && (m <=? SUB f) | None => false end.

Definition find_fun (dfn : Z) (l : list hfun) : option hfun :=
  snd <$> list_find (fun f => f_dfn f = dfn) l.
Fixpoint change_fun (dfn : Z) (g : hfun -> hfun) (l : list hfun) : list hfun :=
  match l with
  | [] => []
  | f :: l => if f_dfn f =? dfn then g f :: l else f :: change_fun dfn g l
  end.

(** What an access to function [dfn] of bus [m] finds behind a bridge, and on a bus with
    number [b]. *)
Fixpoint look (m dfn : Z) (f : hfun) : option hfun :=
  match f_behind f with
  | None => None
  | Some l =>
    if m =? SEC f then find_fun dfn l
    else
      (fix go l := match l with [] => None | g :: l => if claims m g then look m dfn g else go l end) l
  end.
Definition look_down (m dfn : Z) : list hfun -> option hfun :=
  fix go l := match l with [] => None | g :: l => if claims m g then look m dfn g else go l end.
Definition look_bus (b m dfn : Z) (l : list hfun) : option hfun :=
  if m =? b then find_fun dfn l else look_down m dfn l.

(** The same for a change of that function. *)
Fixpoint change (m dfn : Z) (g : hfun -> hfun) (f : hfun) : hfun :=
  match f with
  | HFun d r k None => f
  | HFun d r k (Some l) =>
    HFun d r k
      (Some (if m =? SEC f then change_fun dfn g l
             else
               (fix go l := match l with
                            | [] => []
                            | x :: l => if claims m x then change m dfn g x :: l else x :: go l
                            end) l))
  end.
Definition change_down (m dfn : Z) (g : hfun -> hfun) : list hfun -> list hfun :=
  fix go l := match l with
              | [] => []
              | x :: l => if claims m x then change m dfn g x :: l else x :: go l
              end.
Definition change_bus (b m dfn : Z) (g : hfun -> hfun) (l : list hfun) : list hfun :=
  if m =? b then change_fun dfn g l else change_down m dfn g l.

(** The machine is the host bus, number 0.  Nobody answers: all ones. *)
Definition machine := list hfun.
#[export] Instance machine_config : Config machine := {|
  read_config bus dfn reg n h :=
    (match look_bus 0 bus dfn h with
     | Some f => f_read (Z.to_nat n) reg f
     | None => 2 ^ (8 * n) - 1
     end, h);
  write_config bus dfn reg v n h := change_bus 0 bus dfn (f_write (Z.to_nat n) reg v) h;
|}.
(** It has no ports and no device memory the scan uses. *)
#[export] Instance machine_ports : IoPorts machine :=
  {| port_out := fun _ _ _ h => h; port_in := fun _ _ h => (0, h) |}.
#[export] Instance machine_mmio : Mmio machine :=
  {| mmio_read := fun _ h => (0, h); mmio_write := fun _ _ h => h |}.

(** ** Parts of the machine *)

(** [l] in the hole of [C] is the bus with number [n]: accesses to buses from [n] on are
    accesses to it and what is behind it. *)
Record context (n : Z) (C : list hfun -> machine) : Prop := mk_context {
  ctx_look : forall l m dfn, n <= m <= 255 -> look_bus 0 m dfn (C l) = look_bus n m dfn l;
  ctx_change : forall l m dfn g, n <= m <= 255 -> change_bus 0 m dfn g (C l) = C (change_bus n m dfn g l);
}.

Lemma context_root : context 0 (fun l => l).
Proof. split; done. Qed.

(** The bridge [HFun d r k _], which passes on everything from [n'] on. *)
Definition inner (C : list hfun -> machine) (l1 : list hfun) (d : Z) (r k : Z -> Z) (l2 : list hfun)
  (gs : list hfun) : machine :=
  C (l1 ++ HFun d r k (Some gs) :: l2).

Lemma look_down_app m dfn l1 l2 :
  Forall (fun g => claims m g = false) l1 -> look_down m dfn (l1 ++ l2) = look_down m dfn l2.
Proof. induction 1 as [|g l1 Hg _ IH]; [done|]. cbn. by rewrite Hg. Qed.
Lemma change_down_app m dfn g l1 l2 :
  Forall (fun g => claims m g = false) l1 -> change_down m dfn g (l1 ++ l2) = l1 ++ change_down m dfn g l2.
Proof. induction 1 as [|f l1 Hf _ IH]; [done|]. cbn. rewrite Hf. f_equal. exact IH. Qed.

Lemma context_inner n n' C l1 d r k l2 :
  context n C -> n < n' <= 255 -> u8 (r 0x19) = n' -> u8 (r 0x1a) = 255 ->
  (forall m, n' <= m -> Forall (fun g => claims m g = false) l1) ->
  context n' (inner C l1 d r k l2).
Proof.
  intros [HL HC] Hn Hsec Hsub H1. unfold inner.
  assert (Hne : forall m, n' <= m -> m =? n = false) by (intros; apply Z.eqb_neq; lia).
  assert (Hcl : forall m gs, n' <= m <= 255 -> claims m (HFun d r k (Some gs)) = true).
  { intros m gs Hm. unfold claims, SEC, SUB. cbn [f_behind f_regs]. rewrite Hsec, Hsub.
    by rewrite (proj2 (Z.leb_le _ _)), (proj2 (Z.leb_le m _)) by lia. }
  assert (Hs : forall gs, SEC (HFun d r k (Some gs)) = n') by done.
  split.
  - intros gs m dfn Hm. rewrite HL by lia. unfold look_bus at 1. rewrite Hne, look_down_app by (try apply H1; lia).
    cbn [look_down]. rewrite Hcl by lia. cbn [look f_behind]. rewrite Hs. done.
  - intros gs m dfn g Hm. rewrite HC by lia. do 2 f_equal. unfold change_bus at 1.
    rewrite Hne, change_down_app by (try apply H1; lia). f_equal.
    cbn [change_down]. rewrite Hcl by lia. cbn [change]. rewrite Hs. done.
Qed.

(** ** One function *)

Lemma find_fun_app dfn l1 f l2 :
  Forall (fun g => f_dfn g <> dfn) l1 -> f_dfn f = dfn -> find_fun dfn (l1 ++ f :: l2) = Some f.
Proof.
  intros H Hf. unfold find_fun. induction H as [|g l1 Hg _ IH].
  - cbn. by rewrite decide_True.
  - cbn. rewrite decide_False by done. destruct (list_find _ (l1 ++ f :: l2)) as [[i x]|] eqn:E; [|done].
    cbn in *. by simplify_eq.
Qed.
Lemma find_fun_none dfn l : Forall (fun g => f_dfn g <> dfn) l -> find_fun dfn l = None.
Proof.
  intros H. unfold find_fun. induction H as [|g l Hg _ IH]; [done|]. cbn. rewrite decide_False by done.
  by destruct (list_find _ l).
Qed.
Lemma change_fun_app dfn g l1 f l2 :
  Forall (fun g => f_dfn g <> dfn) l1 -> f_dfn f = dfn ->
  change_fun dfn g (l1 ++ f :: l2) = l1 ++ g f :: l2.
Proof.
  intros H Hf. induction H as [|x l1 Hx _ IH]; cbn.
  - by rewrite (proj2 (Z.eqb_eq _ _) Hf).
  - rewrite (proj2 (Z.eqb_neq _ _) Hx). by f_equal.
Qed.

Section Access.
Context (n : Z) (C : list hfun -> machine) (HC : context n C) (Hn : 0 <= n <= 255).

Lemma read_at l1 f l2 reg size :
  Forall (fun g => f_dfn g <> f_dfn f) l1 ->
  read_config n (f_dfn f) reg size (C (l1 ++ f :: l2)) =
  (f_read (Z.to_nat size) reg f, C (l1 ++ f :: l2)).
Proof.
  intros H. cbn. rewrite (ctx_look _ _ HC) by lia. unfold look_bus. rewrite Z.eqb_refl.
  by rewrite find_fun_app.
Qed.
Lemma read_none l dfn reg size :
  Forall (fun g => f_dfn g <> dfn) l ->
  read_config n dfn reg size (C l) = (2 ^ (8 * size) - 1, C l).
Proof.
  intros H. cbn. rewrite (ctx_look _ _ HC) by lia. unfold look_bus. rewrite Z.eqb_refl.
  by rewrite find_fun_none.
Qed.
Lemma write_at l1 f l2 reg v size :
  Forall (fun g => f_dfn g <> f_dfn f) l1 ->
  write_config n (f_dfn f) reg v size (C (l1 ++ f :: l2)) =
  C (l1 ++ f_write (Z.to_nat size) reg v f :: l2).
Proof.
  intros H. cbn. rewrite (ctx_change _ _ HC) by lia. unfold change_bus. rewrite Z.eqb_refl.
  by rewrite change_fun_app.
Qed.

End Access.

(** ** Changes that leave the numbers of a function *)

Definition bus_regs : list Z := [0x18; 0x19; 0x1a].
Lemma in_bus_regs a : (0x18 <=? a) && (a <=? 0x1a) = true -> a ∈ bus_regs.
Proof.
  intros [H1%Z.leb_le H2%Z.leb_le]%andb_prop. unfold bus_regs. rewrite !elem_of_cons.
  assert (a = 0x18 \/ a = 0x19 \/ a = 0x1a) by lia. tauto.
Qed.

(** The bits that cannot be written are the same, and so are the bus numbers of a
    bridge. *)
Record near (f g : hfun) : Prop := mk_near {
  near_dfn : f_dfn g = f_dfn f;
  near_mask : f_mask g = f_mask f;
  near_behind : f_behind g = f_behind f;
  near_ro : forall a, Z.land (f_regs g a) (Z.lnot (f_mask f a)) = Z.land (f_regs f a) (Z.lnot (f_mask f a));
  near_bus : is_Some (f_behind f) -> forall a, a ∈ bus_regs -> f_regs g a = f_regs f a;
}.

#[export] Instance near_preorder : PreOrder near.
Proof.
  split.
  - intros f. by split.
  - intros f g h [D M B R U] [D' M' B' R' U']. split; [congruence..| |].
    + intros a. etransitivity; [|apply R]. rewrite <- M. apply R'.
    + intros Hb a Ha. rewrite U' by (try done; by rewrite B). by apply U.
Qed.

(** A register without writable bits. *)
Lemma near_fixed f g a : near f g -> f_mask f a = 0 -> f_regs g a = f_regs f a.
Proof. intros N E. pose proof (near_ro _ _ N a) as R. rewrite E in R. by rewrite !Z.land_m1_r in R. Qed.

Lemma near_write_reg a v f :
  (is_Some (f_behind f) -> a ∉ bus_regs) -> near f (write_reg a v f).
Proof.
  intros H. destruct f as [d r m b]. split; try done; cbn.
  - intros x. destruct (Z.eqb_spec x a) as [->|]; [|done].
    rewrite Z.land_lor_distr_l, <- !Z.land_assoc, Z.land_diag, Z.land_lnot_diag, Z.land_0_r. apply Z.lor_0_r.
  - intros Hb x Hx. destruct (Z.eqb_spec x a) as [->|]; [|done]. by destruct (H Hb).
Qed.

Lemma near_f_write n : forall a v f,
  (is_Some (f_behind f) -> forall i, a <= i < a + Z.of_nat n -> i ∉ bus_regs) -> near f (f_write n a v f).
Proof.
  induction n as [|n IH]; intros a v f H; [done|]. cbn [f_write].
  assert (N : near f (write_reg a v f)) by (apply near_write_reg; intros Hb; apply (H Hb); lia).
  etransitivity; [exact N|]. apply IH. rewrite (near_behind _ _ N). intros Hb i Hi. apply (H Hb). lia.
Qed.
