(* ===== verification/PciCalm.v ===== *)
(** * PciCalm: what the configuration of one function leaves alone

    Of the operations of the scan on one function of [PciMachine]: none of them fails, and
    none changes another function, the identification of the function or the bus numbers of
    a bridge ([calm]).  The exception, [pci_bridge_init], is in [PciNumbers]. *)

From S2P Require Import Prelude Region CmosIo PciIo Pci PciResource Mptable Pirq PciFixup PciScan PciMachine.

(** ** Functions the scan can configure *)

Definition f_vendor (f : hfun) : Z := f_read 2 PCI_VENDOR_ID f.
Definition f_device (f : hfun) : Z := f_read 2 PCI_DEVICE_ID f.
Definition f_htype (f : hfun) : Z := Z.land (u8 (f_regs f PCI_HTYPE)) 0x7f.
Definition f_multi (f : hfun) : Z := Z.land (u8 (f_regs f PCI_HTYPE)) 0x80.
Definition f_pin (f : hfun) : Z := u8 (f_regs f PCI_INTERRUPT_PIN).

(** The pin of a function that is not on bus 0 can be routed on the 3000 series: the table of
    four lines is indexed without a reduction modulo four. *)
Definition pin_ok (systype_ : Z) (top : bool) (f : hfun) : Prop :=
  systype_ = SYSTYPE_3K -> top = true \/ f_pin f < 1 \/ 4 < f_pin f \/ PCI_SLOT (f_dfn f) mod 4 + (f_pin f - 1) <= 3.

(** The registers that identify a function cannot be written; it has no fixup of the
    ServerWorks chipset, whose host bridge has a bus of its own; and the second base address
    of a bridge is not 64 bits wide, for [pci_bar_scan] clears the register behind it, which
    holds the bus numbers. *)
Record func_ok (systype_ : Z) (top : bool) (f : hfun) : Prop := mk_func_ok {
  fo_dfn : 0 <= f_dfn f < 256;
  fo_fixed : forall a, a ∈ [0; 1; 2; 3; PCI_HTYPE; PCI_INTERRUPT_PIN] -> f_mask f a = 0;
  fo_vendor : f_vendor f <> 0 /\ f_vendor f <> 0xffff /\ f_vendor f <> PCI_VENDOR_SERVERWORKS;
  fo_sym : f_vendor f = PCI_VENDOR_SYMBIOS -> f_device f = PCI_DEVICE_SYMBIOS_53C875 -> f_behind f = None;
  fo_plain : f_behind f = None -> f_htype f <> PCI_HTYPE_PCI_BRIDGE /\ f_htype f <> PCI_HTYPE_CARDBUS_BRIDGE;
  fo_bridge : is_Some (f_behind f) ->
    f_htype f = PCI_HTYPE_PCI_BRIDGE \/ f_htype f = PCI_HTYPE_CARDBUS_BRIDGE /\ f_behind f = Some [];
  fo_numbers : is_Some (f_behind f) -> forall a, a ∈ bus_regs -> f_mask f a = 0xff;
  fo_bar1 : is_Some (f_behind f) -> Z.testbit (f_regs f 0x14) 2 = false /\ Z.testbit (f_mask f 0x14) 2 = false;
  fo_pin : pin_ok systype_ top f;
}.

(** The same function, but for what can be written and what is behind it. *)
Record alike (f g : hfun) : Prop := mk_alike {
  al_dfn : f_dfn g = f_dfn f;
  al_mask : f_mask g = f_mask f;
  al_ro : forall a, Z.land (f_regs g a) (Z.lnot (f_mask f a)) = Z.land (f_regs f a) (Z.lnot (f_mask f a));
}.

Lemma near_alike f g : near f g -> alike f g.
Proof. intros [D M _ R _]. by split. Qed.
#[export] Instance alike_preorder : PreOrder alike.
Proof.
  split; [by split|]. intros f g h [D M R] [D' M' R']. split; [congruence..|].
  intros a. etransitivity; [|apply R]. rewrite <- M. apply R'.
Qed.

Lemma alike_fixed f g a : alike f g -> f_mask f a = 0 -> f_regs g a = f_regs f a.
Proof. intros N E. pose proof (al_ro _ _ N a) as R. rewrite E in R. by rewrite !Z.land_m1_r in R. Qed.

(** A bit that cannot be written. *)
Lemma alike_bit f g a i : alike f g -> 0 <= i -> Z.testbit (f_mask f a) i = false ->
  Z.testbit (f_regs g a) i = Z.testbit (f_regs f a) i.
Proof.
  intros N Hi E. pose proof (f_equal (fun v => Z.testbit v i) (al_ro _ _ N a)) as R. cbn beta in R.
  rewrite !Z.land_spec, !Z.lnot_spec, E, !andb_true_r in R by done. done.
Qed.

Lemma f_read_ext n : forall a f g,
  (forall i, a <= i < a + Z.of_nat n -> f_regs g i = f_regs f i) -> f_read n a g = f_read n a f.
Proof.
  induction n as [|n IH]; intros a f g H; [done|]. cbn [f_read]. rewrite H by lia.
  rewrite (IH (a + 1) f g); [done|]. intros i Hi. apply H. lia.
Qed.

Section Alike.
Context {t : Z} {top : bool} {f g : hfun} (Hf : func_ok t top f) (N : alike f g).

Lemma alike_reg a : a ∈ [0; 1; 2; 3; PCI_HTYPE; PCI_INTERRUPT_PIN] -> f_regs g a = f_regs f a.
Proof. intros Ha. apply alike_fixed; [done|]. by apply (fo_fixed _ _ _ Hf). Qed.
Lemma alike_vendor : f_vendor g = f_vendor f.
Proof.
  apply f_read_ext. intros i Hi. apply alike_reg. unfold PCI_VENDOR_ID in Hi.
  assert (i = 0 \/ i = 1) as [-> | ->] by lia; set_solver.
Qed.
Lemma alike_device : f_device g = f_device f.
Proof.
  apply f_read_ext. intros i Hi. apply alike_reg. unfold PCI_DEVICE_ID in Hi.
  assert (i = 2 \/ i = 3) as [-> | ->] by lia; set_solver.
Qed.
Lemma alike_htype : f_htype g = f_htype f.
Proof. unfold f_htype. by rewrite alike_reg by set_solver. Qed.
Lemma alike_multi : f_multi g = f_multi f.
Proof. unfold f_multi. by rewrite alike_reg by set_solver. Qed.
Lemma alike_pin : f_pin g = f_pin f.
Proof. unfold f_pin. by rewrite alike_reg by set_solver. Qed.

Lemma alike_ok : (is_Some (f_behind g) <-> is_Some (f_behind f)) ->
  (f_behind f = Some [] -> f_behind g = Some []) -> func_ok t top g.
Proof.
  intros Hb Hc. pose proof alike_vendor as Hv. pose proof alike_device as Hd. pose proof alike_htype as Hh.
  pose proof alike_pin as Hp. pose proof (al_dfn _ _ N) as Hdf. pose proof (al_mask _ _ N) as Hm.
  assert (Hn : f_behind g = None -> f_behind f = None).
  { intros E. destruct (f_behind f); [|done]. destruct Hb as [_ [x Hx]]; [eauto|]. congruence. }
  assert (Hn' : f_behind f = None -> f_behind g = None).
  { intros E. destruct (f_behind g); [|done]. destruct Hb as [[x Hx] _]; [eauto|]. congruence. }
  split.
  - rewrite Hdf. apply Hf.
  - rewrite Hm. apply Hf.
  - rewrite Hv. apply Hf.
  - rewrite Hv, Hd. intros. by apply Hn', (fo_sym _ _ _ Hf).
  - rewrite Hh. intros. by apply (fo_plain _ _ _ Hf), Hn.
  - rewrite Hh. intros Hg. destruct (fo_bridge _ _ _ Hf) as [|[? ?]]; [by apply Hb|by left|right; auto].
  - rewrite Hm. intros Hg. apply (fo_numbers _ _ _ Hf). by apply Hb.
  - intros Hg. destruct (fo_bar1 _ _ _ Hf) as [B1 B2]; [by apply Hb|]. rewrite Hm. split; [|done].
    by rewrite (alike_bit f g) by (try done; lia).
  - unfold pin_ok. rewrite Hp, Hdf. apply Hf.
Qed.
End Alike.

Lemma near_ok t top f g : func_ok t top f -> near f g -> func_ok t top g.
Proof.
  intros Hf N. apply (alike_ok Hf (near_alike _ _ N)); rewrite (near_behind _ _ N); done.
Qed.

(** ** Calm computations *)

(** The allocator has memory, and there are no regions yet. *)
Record ready (t : Z) (s : pci_state machine) : Prop := mk_ready {
  rd_systype : systype (boot s) = t;
  rd_mallocs : mallocs (boot s) = [];
  rd_regs : regs s = [];
}.

Section Calm.
Context (t n : Z) (C : list hfun -> machine) (HC : context n C) (Hn : 0 <= n <= 255).
Context (l1 l2 : list hfun) (top : bool) (f0 : hfun).
Context (Hl1 : Forall (fun g => f_dfn g <> f_dfn f0) l1) (Hf0 : func_ok t top f0).

Definition calm {A} (m : Run (pci_state machine) A) (Q : A -> Prop) : Prop :=
  forall s f, near f0 f -> hardware s = C (l1 ++ f :: l2) -> ready t s ->
  exists a s' f', m s = Some (a, s') /\ near f0 f' /\ hardware s' = C (l1 ++ f' :: l2) /\ ready t s' /\
    pci_devices (boot s') = pci_devices (boot s) /\ Q a.

Lemma calm_ret {A} (a : A) (Q : A -> Prop) : Q a -> calm (mret a) Q.
Proof. intros Ha s f N H R. exists a, s, f. done. Qed.

Lemma calm_bind {A B} (m : Run _ A) (k : A -> Run _ B) (Q : A -> Prop) (R : B -> Prop) :
  calm m Q -> (forall a, Q a -> calm (k a) R) -> calm (mbind k m) R.
Proof.
  intros Hm Hk s f N H Hr. destruct (Hm s f N H Hr) as (a & s1 & f1 & E & N1 & H1 & R1 & D1 & Qa).
  destruct (Hk a Qa s1 f1 N1 H1 R1) as (b & s2 & f2 & E2 & N2 & H2 & R2 & D2 & Rb).
  exists b, s2, f2. split_and!; try done; [|congruence]. unfold mbind, Run_bind. by rewrite E.
Qed.

Lemma calm_mono {A} (m : Run _ A) (Q R : A -> Prop) : calm m Q -> (forall a, Q a -> R a) -> calm m R.
Proof.
  intros Hm HQ s f N H Hr. destruct (Hm s f N H Hr) as (a & s1 & f1 & E & N1 & H1 & R1 & D1 & Qa).
  exists a, s1, f1. split_and!; auto.
Qed.

Lemma calm_ask {A} (g : pci_state machine -> A) (Q : A -> Prop) :
  (forall s, ready t s -> Q (g s)) -> calm (ask g) Q.
Proof. intros Hg s f N H Hr. exists (g s), s, f. split_and!; auto. Qed.

Lemma calm_malloc : calm malloc (fun b => b = true).
Proof.
  intros s f N H [R1 R2 R3]. exists true, (set_boot (set_mallocs [] (boot s)) s), f.
  split; [unfold malloc; by rewrite R2|]. by split_and!.
Qed.

Lemma calm_upd_boot (g : boot_vars -> boot_vars) :
  (forall v, cur_systype (g v) = cur_systype v /\ mallocs (g v) = mallocs v /\ pci_devices (g v) = pci_devices v) ->
  calm (upd_boot g) (fun _ => True).
Proof.
  intros Hg s f N H [R1 R2 R3]. destruct (Hg (boot s)) as (G1 & G2 & G3). eexists tt, _, f.
  split; [done|]. split_and!; try done. split; cbn; [|congruence|done]. unfold systype in *. by rewrite G1.
Qed.

(** Ports are not part of the machine. *)
Lemma calm_port (g : machine -> machine) : (forall h, g h = h) -> calm (on_hw g) (fun _ => True).
Proof.
  intros Hg s f N H [R1 R2 R3]. eexists tt, _, f. split; [done|]. cbn. rewrite Hg. by split_and!.
Qed.
Lemma calm_ask_port {A} (g : machine -> A * machine) : (forall h, (g h).2 = h) -> calm (ask_hw g) (fun _ => True).
Proof.
  intros Hg s f N H [R1 R2 R3]. specialize (Hg (hardware s)).
  exists (g (hardware s)).1, (set_hw (g (hardware s)).2 s), f.
  split; [unfold ask_hw; by destruct (g (hardware s))|]. cbn [hardware set_hw]. rewrite Hg. by split_and!.
Qed.

Local Abbreviation dev := (n, f_dfn f0).

Lemma calm_read_config reg size : calm (ask_hw (read_config n (f_dfn f0) reg size))
  (fun v => exists f, near f0 f /\ v = f_read (Z.to_nat size) reg f).
Proof.
  intros s f N H [R1 R2 R3]. eexists _, _, f. unfold ask_hw. rewrite H, <- (near_dfn _ _ N).
  rewrite (read_at n) by (try done; by rewrite (near_dfn _ _ N)). split; [done|]. split_and!; try done.
  by exists f.
Qed.

Lemma calm_write_config reg v size :
  (is_Some (f_behind f0) -> forall i, reg <= i < reg + Z.of_nat (Z.to_nat size) -> i ∉ bus_regs) ->
  calm (on_hw (write_config n (f_dfn f0) reg v size)) (fun _ => True).
Proof.
  intros Hr s f N H [R1 R2 R3]. exists tt. eexists _, (f_write (Z.to_nat size) reg v f). split; [done|].
  split_and!; try done.
  - etransitivity; [exact N|]. apply near_f_write. by rewrite (near_behind _ _ N).
  - cbn [hardware set_hw]. rewrite H, <- (near_dfn _ _ N). apply (write_at n); try done.
    by rewrite (near_dfn _ _ N).
Qed.

Lemma calm_readb reg : calm (pci_dev_readb dev reg) (fun _ => True).
Proof. eapply calm_bind; [apply calm_read_config|]. intros. by apply calm_ret. Qed.
Lemma calm_readw reg : calm (pci_dev_readw dev reg) (fun _ => True).
Proof. eapply calm_bind; [apply calm_read_config|]. intros. by apply calm_ret. Qed.
Lemma calm_readl reg : calm (pci_dev_readl dev reg) (fun _ => True).
Proof. eapply calm_bind; [apply calm_read_config|]. intros. by apply calm_ret. Qed.

Lemma calm_true {A} (m : Run _ A) (Q : A -> Prop) : calm m Q -> calm m (fun _ => True).
Proof. intros H. by apply (calm_mono m Q). Qed.

(** Writes that do not touch the bus numbers, and any write to a function that is no
    bridge. *)
Definition clear_of (reg n : Z) : bool := (reg + n <=? 0x18) || (0x1b <=? reg).
Lemma clear_of_spec reg size i :
  0 <= size -> clear_of reg size = true -> reg <= i < reg + Z.of_nat (Z.to_nat size) -> i ∉ bus_regs.
Proof.
  unfold clear_of. intros Hs [H|H]%orb_true_iff Hi; apply Z.leb_le in H; unfold bus_regs;
    rewrite !not_elem_of_cons; split_and!; try lia; apply not_elem_of_nil.
Qed.

Definition writable (reg n : Z) : Prop := clear_of reg n = true \/ f_behind f0 = None.
Lemma calm_write reg v size : 0 <= size -> writable reg size ->
  calm (on_hw (write_config n (f_dfn f0) reg v size)) (fun _ => True).
Proof.
  intros Hs Hw. apply calm_write_config. intros [l Hl] i Hi. destruct Hw as [Hw|Hw]; [|congruence].
  by eapply clear_of_spec.
Qed.
Lemma calm_writeb reg v : writable reg 1 -> calm (pci_dev_writeb dev reg v) (fun _ => True).
Proof. intros. by apply calm_write. Qed.
Lemma calm_writew reg v : writable reg 2 -> calm (pci_dev_writew dev reg v) (fun _ => True).
Proof. intros. by apply calm_write. Qed.
Lemma calm_writel reg v : writable reg 4 -> calm (pci_dev_writel dev reg v) (fun _ => True).
Proof. intros. by apply calm_write. Qed.

(** A computation that gives no value of interest. *)
Lemma calm_seq {A B} (m : Run _ A) (k : A -> Run _ B) (R : B -> Prop) :
  calm m (fun _ => True) -> (forall a, calm (k a) R) -> calm (mbind k m) R.
Proof. intros Hm Hk. eapply calm_bind; [exact Hm|]. intros a _. apply Hk. Qed.

(** [calmly]: the steps of a sequence of reads and writes. *)
Ltac calmly :=
  repeat first
    [ progress intros
    | apply calm_seq; [first [apply calm_readb | apply calm_readw | apply calm_readl
        | apply calm_writeb; left; reflexivity | apply calm_writew; left; reflexivity
        | apply calm_writel; left; reflexivity
        | apply calm_port; done | apply calm_ask_port; done
        | apply calm_ask; done ] | ]
    | apply calm_writeb; left; reflexivity | apply calm_writew; left; reflexivity
    | apply calm_writel; left; reflexivity
    | apply calm_port; done
    | apply calm_ret; try done
    | case_match ].

(** ** Base address registers *)

Lemma calm_zero_bars k : forall cur,
  (forall i, 0 <= i < Z.of_nat k -> writable (PCI_BAR_ADDR (cur + i)) 4) ->
  calm (zero_bars dev k cur) (fun _ => True).
Proof.
  induction k as [|k IH]; intros cur Hw; [by apply calm_ret|]. cbn [zero_bars]. apply calm_seq.
  - apply calm_writel. replace cur with (cur + 0) by lia. apply Hw. lia.
  - intros _. apply IH. intros i Hi. replace (cur + 1 + i) with (cur + (1 + i)) by lia. apply Hw. lia.
Qed.

(** Without a bridge, every register may be written. *)
Lemma calm_bars_plain k : f_behind f0 = None -> forall cur nbars cmd bs,
  calm (bar_loop dev k cur nbars cmd bs) (fun _ => True).
Proof.
  intros Hb. assert (W : forall r, calm (pci_dev_writel dev r 0) (fun _ => True)) by (intros; apply calm_writel; by right).
  assert (W1 : forall r, calm (pci_dev_writel dev r 0xffffffff) (fun _ => True)) by (intros; apply calm_writel; by right).
  induction k as [|k IH]; intros cur nbars cmd bs; [by apply calm_ret|]. cbn [bar_loop].
  case_match; [by apply calm_ret|]. apply calm_seq; [apply W1|]. intros _.
  apply calm_seq; [apply calm_readl|]. intros v. case_match; [apply IH|]. case_match; [apply IH|].
  case_match; [|apply IH]. apply calm_seq; [apply W|]. intros _. apply IH.
Qed.

(** The second register of a bridge does not say 64 bits. *)
Lemma calm_read_bar1 : is_Some (f_behind f0) ->
  calm (pci_dev_readl dev (PCI_BAR_ADDR 1)) (fun v => Z.testbit v 2 = false).
Proof.
  intros Hb. eapply calm_bind; [apply calm_read_config|]. intros v (f & N & ->). apply calm_ret.
  destruct (fo_bar1 _ _ _ Hf0 Hb) as [B1 B2].
  pose proof (alike_bit f0 f 0x14 2 (near_alike _ _ N) ltac:(lia) B2) as B. rewrite B1 in B.
  change (PCI_BAR_ADDR 1) with 0x14. change (Z.to_nat 4) with 4%nat. cbn [f_read]. unfold u32, u8 at 1.
  change 4294967296 with (2 ^ 32). rewrite Z.mod_pow2_bits_low by lia.
  rewrite <- (Z.mod_pow2_bits_low _ 8 2) by lia.
  change 256 with (2 ^ 8). rewrite Z.mul_comm, Z_mod_plus_full, Z.mod_mod by done.
  rewrite Z.mod_pow2_bits_low by lia. exact B.
Qed.

Lemma calm_bars_bridge nbars bs : is_Some (f_behind f0) -> nbars = 1 \/ nbars = 2 ->
  calm (bar_loop dev (Z.to_nat nbars) 0 nbars 0 bs) (fun _ => True).
Proof.
  intros Hb Hnb.
  assert (L : forall k cmd bs, (k <= 1)%nat -> calm (bar_loop dev k 1 nbars cmd bs) (fun _ => True)).
  { intros k cmd bs0 Hk. destruct k as [|[|]]; [by apply calm_ret| |lia]. cbn [bar_loop].
    case_match; [by apply calm_ret|]. apply calm_seq; [apply calm_writel; by left|]. intros _.
    eapply calm_bind; [by apply calm_read_bar1|]. intros v Hv. rewrite Hv.
    case_match; [by apply calm_ret|]. case_match; by apply calm_ret. }
  assert (L2 : forall k cmd bs, calm (bar_loop dev k 2 nbars cmd bs) (fun _ => True)).
  { intros k cmd bs0. destruct k as [|k]; [by apply calm_ret|]. cbn [bar_loop].
    rewrite (proj2 (Z.leb_le nbars 2)) by lia. by apply calm_ret. }
  assert (Hk : exists k, Z.to_nat nbars = S k /\ (k <= 1)%nat)
    by (destruct Hnb as [-> | ->]; [exists 0%nat|exists 1%nat]; split; [done|lia|done|lia]).
  destruct Hk as (k & -> & Hk). cbn [bar_loop]. rewrite (proj2 (Z.leb_gt nbars 0)) by lia.
  apply calm_seq; [apply calm_writel; by left|]. intros _. apply calm_seq; [apply calm_readl|]. intros v.
  change (0 + 1) with 1. change (0 + 2) with 2. case_match; [by apply L|]. case_match; [by apply L|].
  case_match; [|by apply L]. apply calm_seq; [apply calm_writel; by left|]. intros _. apply L2.
Qed.

(** What stays of a device. *)
Definition ident (d : pci_dev) : Z * Z * Z * Z * Z := (vendor d, device d, devfn d, htype d, multifunc d).

Lemma calm_bar_scan d nbars :
  devfn d = f_dfn f0 -> f_behind f0 = None /\ nbars = 6 \/ is_Some (f_behind f0) /\ (nbars = 1 \/ nbars = 2) ->
  calm (pci_bar_scan n d nbars) (fun d' => ident d' = ident d).
Proof.
  intros Hd Hb. unfold pci_bar_scan. rewrite Hd. cbv zeta.
  assert (E : (if 6 <? nbars then 6 else nbars) = nbars) by (destruct (Z.ltb_spec 6 nbars); [lia|done]).
  rewrite E. apply calm_seq; [|intros _].
  - apply calm_zero_bars. intros i Hi. destruct Hb as [[Hb ->] | [_ Hb]]; [by right|left].
    assert (i = 0 \/ i = 1) as [-> | ->] by (destruct Hb as [-> | ->]; lia); done.
  - eapply (calm_bind _ _ (fun _ => True)).
    + destruct Hb as [[Hb ->] | [? ?]]; [by apply calm_bars_plain|by apply calm_bars_bridge].
    + intros [cmd bs] _. apply calm_seq; [|intros _; by apply calm_ret]. calmly.
Qed.

(** ** Interrupts *)

Lemma calm_read_pin : calm (pci_dev_readb dev PCI_INTERRUPT_PIN) (fun v => v = f_pin f0).
Proof.
  eapply calm_bind; [apply calm_read_config|]. intros v (f & N & ->). apply calm_ret.
  change (Z.to_nat 1) with 1%nat. cbn [f_read]. unfold u8 at 1. rewrite Z.mul_0_r, Z.add_0_r.
  unfold u8. rewrite Z.mod_mod by done. unfold f_pin, u8.
  by rewrite (alike_reg Hf0 (near_alike _ _ N)) by set_solver.
Qed.

Lemma calm_route i above pin : t <> SYSTYPE_5K -> top = (n =? 0) -> busnum i = n -> pin = f_pin f0 ->
  calm (pirq_route_pci (mk_place (f_dfn f0) i above) pin) (fun _ => True).
Proof.
  intros Ht Htop Hi Hp. unfold pirq_route_pci. rewrite Hp.
  destruct ((f_pin f0 <? 1) || (4 <? f_pin f0)) eqn:E; [by apply calm_ret|].
  apply orb_false_iff in E as [E1%Z.ltb_ge E2%Z.ltb_ge]. cbv zeta.
  eapply calm_bind; [by apply (calm_ask _ (fun v => v = t)); intros s' []|]. intros ? ->.
  destruct (Z.eqb_spec t SYSTYPE_3K) as [E3|_].
  2:{ destruct (Z.eqb_spec t SYSTYPE_5K); [done|]. by apply calm_ret. }
  assert (Hline : forall p, 0 <= p <= 3 -> calm (may_crash (intlines !! Z.to_nat p)) (fun _ => True)).
  { intros p Hr. assert (p = 0 \/ p = 1 \/ p = 2 \/ p = 3) as Hx by lia.
    destruct Hx as [-> | [-> | [-> | ->]]]; by apply calm_ret. }
  unfold pirq_route_pci_3k. cbn [at_bus at_devfn]. rewrite Hi.
  destruct (Z.eqb_spec n 0) as [E0|E0].
  - repeat (case_match; [by apply calm_ret|]). apply Hline. lia.
  - destruct (fo_pin _ _ _ Hf0 E3) as [Hx | [Hx | [Hx | Hx]]]; [congruence|lia|lia|].
    apply Hline. pose proof (Z.mod_pos_bound (PCI_SLOT (f_dfn f0)) 4 ltac:(lia)). lia.
Qed.

(** The fixups a device of another vendor than ServerWorks can have. *)
Lemma tame_fixups d fx : vendor d <> PCI_VENDOR_SERVERWORKS -> find_dev_fixup (hw:=machine) d = Some fx ->
  (pre_dev fx = None \/ pre_dev fx = Some sym53c875_fixup /\ vendor d = PCI_VENDOR_SYMBIOS /\
                        device d = PCI_DEVICE_SYMBIOS_53C875) /\
  (pre_irq fx = None \/ pre_irq fx = Some m5237_fixup) /\
  (post_irq fx = None \/ post_irq fx = Some m5229_fixup) /\
  (post_dev fx = None \/ post_dev fx = Some post_m1541 \/ post_dev fx = Some post_chrysalis).
Proof.
  intros Hv E. unfold find_dev_fixup in E. destruct (list_find _ dev_fixup_table) as [[k e]|] eqn:F; [|done].
  cbn in E. simplify_eq. apply list_find_Some in F as (Hk & He & _).
  do 12 (destruct k as [|k]; [cbn in Hk; simplify_eq; cbn in He; simplify_eq; cbn; naive_solver|]). done.
Qed.

Definition same_dev (d : pci_dev) : Prop :=
  vendor d = f_vendor f0 /\ device d = f_device f0 /\ devfn d = f_dfn f0.

Lemma calm_fixup_pre d : same_dev d ->
  calm (pci_fixup_pre n d) (fun r => r.1 = 0 /\ ident r.2 = ident d).
Proof.
  intros (Hv & Hd & Hdf). unfold pci_fixup_pre. destruct (find_dev_fixup d) as [fx|] eqn:E; [|by apply calm_ret].
  apply tame_fixups in E as ([E | (E & E1 & E2)] & _); [cbn; rewrite E; by apply calm_ret| |
    rewrite Hv; apply (fo_vendor _ _ _ Hf0)].
  cbn [mbind option_bind]. rewrite E. unfold sym53c875_fixup. rewrite Hdf. cbv zeta.
  assert (Hb : f_behind f0 = None) by (apply (fo_sym _ _ _ Hf0); congruence).
  do 3 (apply calm_seq; [apply calm_writel; by right|intros _]). by apply calm_ret.
Qed.

Lemma calm_irq_fixup_pre d : same_dev d ->
  calm (pci_irq_fixup_pre n d) (fun r => ident r.2 = ident d).
Proof.
  intros (Hv & Hd & Hdf). unfold pci_irq_fixup_pre. destruct (find_dev_fixup d) as [fx|] eqn:E; [|by apply calm_ret].
  apply tame_fixups in E as (_ & [E | E] & _); [cbn; rewrite E; by apply calm_ret| |
    rewrite Hv; apply (fo_vendor _ _ _ Hf0)].
  cbn [mbind option_bind]. rewrite E. unfold m5237_fixup. rewrite Hdf.
  apply calm_seq; [apply calm_write; [lia|by left]|intros _]. by apply calm_ret.
Qed.

Lemma calm_irq_fixup_post d : same_dev d ->
  calm (pci_irq_fixup_post n d) (fun d' => ident d' = ident d).
Proof.
  intros (Hv & Hd & Hdf). unfold pci_irq_fixup_post. destruct (find_dev_fixup d) as [fx|] eqn:E; [|by apply calm_ret].
  apply tame_fixups in E as (_ & _ & [E | E] & _); [cbn; rewrite E; by apply calm_ret| |
    rewrite Hv; apply (fo_vendor _ _ _ Hf0)].
  cbn [mbind option_bind]. rewrite E. unfold m5229_fixup. rewrite Hdf. cbv zeta. calmly.
Qed.

(** ** The configuration *)

Lemma ident_same d d' : ident d' = ident d -> same_dev d -> same_dev d'.
Proof. unfold ident, same_dev. intros E (? & ? & ?). injection E as ? ? ? ? ?. split_and!; congruence. Qed.

Lemma calm_init_irq i above d : t <> SYSTYPE_5K -> top = (n =? 0) -> busnum i = n -> same_dev d ->
  calm (init_irq i above d) (fun d' => ident d' = ident d).
Proof.
  intros Ht Htop Hi Hd. unfold init_irq. rewrite Hi. cbv zeta.
  eapply calm_bind; [by apply calm_irq_fixup_pre|]. intros [r d1] Hd1. cbn [snd] in Hd1.
  pose proof (ident_same _ _ Hd1 Hd) as Hs1.
  eapply (calm_bind _ _ (fun d' => ident d' = ident d)).
  - case_match; [by apply calm_ret|]. destruct Hd as (_ & _ & ->).
    eapply calm_bind; [apply calm_read_pin|]. intros pin Hp. destruct Hs1 as (_ & _ & ->).
    apply calm_seq; [by apply calm_route|]. intros v. case_match; calmly.
  - intros d2 Hd2. eapply calm_mono; [apply calm_irq_fixup_post; by eapply ident_same|].
    intros d3 Hd3. cbn beta in *. congruence.
Qed.

Lemma calm_latency reg : writable reg 1 -> calm (set_latency dev reg) (fun _ => True).
Proof.
  intros. unfold set_latency. apply calm_seq; [apply calm_readb|]. intros v.
  case_match; [by apply calm_writeb|by apply calm_ret].
Qed.

Lemma calm_zero_rom reg : writable reg 4 -> calm (zero_rom dev reg) (fun _ => True).
Proof.
  intros Hw. unfold zero_rom. apply calm_seq; [by apply calm_writel|intros _].
  apply calm_seq; [apply calm_readl|intros _]. by apply calm_writel.
Qed.

Lemma calm_init_resources d : htype d = f_htype f0 -> devfn d = f_dfn f0 ->
  calm (init_resources n d) (fun d' => ident d' = ident d).
Proof.
  intros Hh Hd. unfold init_resources. rewrite Hd, Hh. cbv zeta.
  destruct (f_behind f0) as [gs|] eqn:Hb.
  - pose proof (mk_is_Some _ _ Hb) as Hs. destruct (fo_bridge _ _ _ Hf0 Hs) as [-> | [-> _]]; cbn [Z.eqb Pos.eqb].
    + apply calm_seq; [apply calm_zero_rom; by left|intros _]. apply calm_seq; [calmly|intros _].
      apply calm_seq; [apply calm_latency; by left|intros _]. apply calm_bar_scan; [done|auto].
    + apply calm_seq; [calmly|intros _]. apply calm_seq; [by apply calm_ask|intros v].
      apply calm_seq; [calmly|intros _].
      apply calm_seq; [case_match; [by apply calm_upd_boot|by apply calm_ret]|intros _].
      apply calm_seq; [apply calm_latency; by left|intros _]. apply calm_bar_scan; [done|auto].
  - destruct (fo_plain _ _ _ Hf0 Hb) as [H1%Z.eqb_neq H2%Z.eqb_neq]. rewrite H1, H2. case_match.
    + apply calm_seq; [apply calm_zero_rom; by left|intros _]. apply calm_bar_scan; auto.
    + by apply calm_ret.
Qed.

Lemma calm_dev_init i above d : t <> SYSTYPE_5K -> top = (n =? 0) -> busnum i = n -> same_dev d ->
  htype d = f_htype f0 ->
  calm (pci_dev_init i above d) (fun d' => ident d' = ident d).
Proof.
  intros Ht Htop Hi Hd Hh. unfold pci_dev_init. destruct Hd as (Hv & Hdd & Hdf). rewrite Hi, Hdf. cbv zeta.
  eapply calm_bind; [by apply calm_init_irq|]. intros d1 Hd1. cbn beta in Hd1.
  apply calm_seq; [calmly|intros _]. apply calm_seq; [calmly|intros _].
  apply calm_seq; [apply calm_readw|intros cmd].
  apply calm_seq; [case_match; [by apply calm_ret|apply calm_latency; by left]|intros _].
  pose proof Hd1 as Hd2. unfold ident in Hd2. injection Hd2 as ? ? ? ? ?.
  eapply calm_mono; [apply calm_init_resources; cbn; congruence|].
  intros d2 Hd2. rewrite Hd2. exact Hd1.
Qed.

(** What stays of a bus. *)
Definition place_of (i : bus_info) : Z * Z * Z * Z * Z * option (Z * Z) :=
  (busnum i, pri i, bus_sub i, last_kid i, root i, self i).

Lemma calm_fixup_post go at_ i peers d : busnum i = n -> same_dev d ->
  calm (pci_fixup_post go at_ i peers d)
    (fun r => ident r.1 = ident d /\ place_of r.2.1 = place_of i /\ r.2.2 = peers).
Proof.
  intros Hi (Hv & Hdd & Hdf). unfold pci_fixup_post.
  destruct (find_dev_fixup d) as [fx|] eqn:E; [|by apply calm_ret].
  apply tame_fixups in E as (_ & _ & _ & [E | [E | E]]); [cbn; rewrite E; by apply calm_ret| | |
    rewrite Hv; apply (fo_vendor _ _ _ Hf0)].
  all: cbn [mbind option_bind]; rewrite E.
  - eapply (calm_bind _ _ (fun i' => place_of i' = place_of i)); [|intros i' Hi'; apply calm_ret; done].
    unfold m1541_fixup. rewrite Hi, Hdf. cbv zeta.
    do 3 (apply calm_seq; [apply calm_write; [lia|by left]|intros _]). apply calm_ret.
    unfold place_of. cbn. by rewrite Hi.
  - eapply (calm_bind _ _ (fun d' => ident d' = ident d)); [|intros d' Hd'; apply calm_ret; done].
    unfold chrysalis_luna340_fixup. rewrite Hi, Hdf. case_match; [|by apply calm_ret].
    apply calm_seq.
    { intros s f N Hs [R1 R2 R3]. exists 0. eexists _, f. split; [unfold on_regs; by rewrite R3|].
      split_and!; try done. }
    intros b. calmly.
Qed.

End Calm.
