(* ===== verification/PciNumbers.v ===== *)
(** * PciNumbers: the numbers of the buses

    What the scan is to find on a machine of [PciMachine], as functions of the machine alone
    ([plan], [found_bus]), what it is to leave in the bridges ([numbered]), and the proof
    that it does: by induction on the depth, and on each bus from function to function. *)

From S2P Require Import Prelude Region CmosIo PciIo Pci PciResource Mptable Pirq PciFixup PciScan PciMachine PciCalm.

(** ** The specification *)

(** The number of buses behind a function, and behind the functions of a bus. *)
Fixpoint buses (f : hfun) : Z :=
  match f_behind f with None => 0 | Some l => 1 + foldr (fun g n => buses g + n) 0 l end.
Definition total (l : list hfun) : Z := foldr (fun g n => buses g + n) 0 l.

Fixpoint depth (f : hfun) : nat :=
  match f_behind f with None => 0 | Some l => S (foldr (fun g n => depth g `max` n)%nat 0%nat l) end.
Definition depth_bus (l : list hfun) : nat := foldr (fun g n => depth g `max` n)%nat 0%nat l.

(** A bus: its number, the last number behind it, its devices (number, vendor, device) and
    the buses behind its bridges. *)
Inductive plan := Plan (number last : Z) (devs : list (Z * Z * Z)) (below : list plan).

Definition f_ids (f : hfun) : Z * Z * Z := (f_dfn f, f_vendor f, f_device f).
Definition d_ids (d : pci_dev) : Z * Z * Z := (devfn d, vendor d, device d).

(** Depth first: [lk] is the last number given so far. *)
Fixpoint plan_fun (lk : Z) (f : hfun) : list plan :=
  match f_behind f with
  | None => []
  | Some gs =>
    [Plan (lk + 1) (lk + buses f) (map f_ids gs)
       ((fix go lk gs := match gs with [] => [] | g :: gs => plan_fun lk g ++ go (lk + buses g) gs end)
          (lk + 1) gs)]
  end.
Fixpoint plans (lk : Z) (gs : list hfun) : list plan :=
  match gs with [] => [] | g :: gs => plan_fun lk g ++ plans (lk + buses g) gs end.

(** The list of all devices: a bridge comes before what is behind it. *)
Fixpoint found_fun (n lk : Z) (f : hfun) : list dev_id :=
  mk_dev_id n (f_dfn f) (f_vendor f) (f_device f) ::
  match f_behind f with
  | None => []
  | Some gs =>
    (fix go n lk gs := match gs with [] => [] | g :: gs => found_fun n lk g ++ go n (lk + buses g) gs end)
      (lk + 1) (lk + 1) gs
  end.
Fixpoint found_bus (n lk : Z) (gs : list hfun) : list dev_id :=
  match gs with [] => [] | g :: gs => found_fun n lk g ++ found_bus n (lk + buses g) gs end.

(** What a bus of the code amounts to. *)
Fixpoint abs (b : pci_bus) : plan :=
  Plan (busnum (info b)) (bus_sub (info b)) (map d_ids (devices b)) (map abs (kids b)).

(** Function [f] of bus [n] after the scan is [f']: a bridge has the numbers of its buses. *)
Inductive numbered : Z -> Z -> hfun -> hfun -> Prop :=
| numbered_plain n lk f f' : f_behind f = None -> near f f' -> numbered n lk f f'
| numbered_bridge n lk f f' gs gs' :
    alike f f' -> f_behind f = Some gs -> f_behind f' = Some gs' ->
    u8 (f_regs f' PCI2PCI_BUS_PRI) = n -> SEC f' = lk + 1 -> SUB f' = lk + buses f ->
    numbered_bus (lk + 1) (lk + 1) gs gs' -> numbered n lk f f'
with numbered_bus : Z -> Z -> list hfun -> list hfun -> Prop :=
| numbered_nil n lk : numbered_bus n lk [] []
| numbered_cons n lk f f' l l' :
    numbered n lk f f' -> numbered_bus n (lk + buses f) l l' -> numbered_bus n lk (f :: l) (f' :: l').

(** A machine after reset: the functions of a bus in the order of their numbers, from [lo]
    on, a function other than 0 only after a function 0 that says there are more ([mf]);
    the bridges have the bus number 0. *)
Inductive bus_ok (t : Z) : bool -> Z -> Z -> list hfun -> Prop :=
| bus_ok_nil top mf lo : bus_ok t top mf lo []
| bus_ok_cons top mf lo f l :
    func_ok t top f -> lo <= f_dfn f -> PCI_FUNC (f_dfn f) = 0 \/ mf <> 0 ->
    (is_Some (f_behind f) -> SEC f = 0 /\ SUB f = 0) ->
    (forall gs, f_behind f = Some gs -> bus_ok t false 0 0 gs) ->
    bus_ok t top (if PCI_FUNC (f_dfn f) =? 0 then f_multi f else mf) (f_dfn f + 1) l ->
    bus_ok t top mf lo (f :: l).

(** ** Facts about the specification *)

Lemma buses_eq f : buses f = match f_behind f with None => 0 | Some l => 1 + total l end.
Proof. by destruct f as [d r m [l|]]. Qed.
Lemma depth_eq f : depth f = match f_behind f with None => 0%nat | Some l => S (depth_bus l) end.
Proof. by destruct f as [d r m [l|]]. Qed.
Lemma plan_fun_eq lk f : plan_fun lk f =
  match f_behind f with
  | None => []
  | Some gs => [Plan (lk + 1) (lk + buses f) (map f_ids gs) (plans (lk + 1) gs)]
  end.
Proof. by destruct f as [d r m [l|]]. Qed.
Lemma found_fun_eq n lk f : found_fun n lk f =
  mk_dev_id n (f_dfn f) (f_vendor f) (f_device f) ::
  match f_behind f with None => [] | Some gs => found_bus (lk + 1) (lk + 1) gs end.
Proof. by destruct f as [d r m [l|]]. Qed.

Lemma total_nonneg_of l : Forall (fun f => 0 <= buses f) l -> 0 <= total l.
Proof. induction 1 as [|f l]; [done|]. change (0 <= buses f + total l). lia. Qed.
Lemma buses_nonneg f : 0 <= buses f.
Proof.
  induction f as [d r m|d r m l IH] using hfun_nested_ind; [done|]. rewrite buses_eq. cbn [f_behind].
  apply total_nonneg_of in IH. lia.
Qed.
Lemma total_nonneg l : 0 <= total l.
Proof. apply total_nonneg_of, Forall_forall. intros. apply buses_nonneg. Qed.

Lemma numbered_dfn n lk f f' : numbered n lk f f' -> f_dfn f' = f_dfn f.
Proof. intros [? ? ? ? ? N | ? ? ? ? ? ? N]; [apply N|apply N]. Qed.

(** A function that has its numbers passes on nothing above them. *)
Lemma numbered_claims n lk f f' m : numbered n lk f f' -> lk + buses f < m -> claims m f' = false.
Proof.
  intros [? ? ? ? E N | ? ? ? ? ? ? N E E' P S1 S2] Hm; unfold claims.
  - by rewrite (near_behind _ _ N), E.
  - rewrite E', S1, S2, (proj2 (Z.leb_gt m (_ + _))) by lia. apply andb_false_r.
Qed.

(** ** One write *)

Lemma write_reg_number f a v : f_mask f a = 0xff -> u8 (f_regs (write_reg a v f) a) = u8 v.
Proof.
  destruct f as [d r m b]. cbn. intros ->. rewrite Z.eqb_refl. unfold u8. change 256 with (2 ^ 8).
  change 0xff with (Z.ones 8). apply Z.bits_inj'. intros i Hi.
  destruct (decide (i < 8)).
  - rewrite !Z.mod_pow2_bits_low, Z.lor_spec, !Z.land_spec, Z.lnot_spec, Z.ones_spec_low, Z.mod_pow2_bits_low by lia.
    cbn. by rewrite andb_false_r, andb_true_r.
  - by rewrite !Z.mod_pow2_bits_high by lia.
Qed.
Lemma write_reg_ne f a v b : b <> a -> f_regs (write_reg a v f) b = f_regs f b.
Proof. destruct f as [d r m x]. cbn. intros H. by rewrite (proj2 (Z.eqb_neq b a)). Qed.
Lemma write_reg_alike a v f : alike f (write_reg a v f) /\ f_behind (write_reg a v f) = f_behind f.
Proof.
  destruct f as [d r m b]. split; [|done]. split; try done. cbn. intros x.
  destruct (Z.eqb_spec x a) as [->|]; [|done].
  rewrite Z.land_lor_distr_l, <- !Z.land_assoc, Z.land_diag, Z.land_lnot_diag, Z.land_0_r. apply Z.lor_0_r.
Qed.

Section Writes.
Context (t n : Z) (C : list hfun -> machine) (HC : context n C) (Hn : 0 <= n <= 255).
Context (l1 l2 : list hfun).

Lemma run_writeb f reg v s : Forall (fun g => f_dfn g <> f_dfn f) l1 -> hardware s = C (l1 ++ f :: l2) ->
  ready t s ->
  exists s', pci_dev_writeb (n, f_dfn f) reg v s = Some (tt, s') /\
    hardware s' = C (l1 ++ write_reg reg (u8 v) f :: l2) /\ ready t s' /\ boot s' = boot s.
Proof.
  intros Hl H [R1 R2 R3]. eexists. split; [done|]. split; [|by split_and!].
  cbn [hardware set_hw]. rewrite H. apply (write_at n); done.
Qed.
End Writes.

Lemma numbered_near n lk f f' f'' : numbered n lk f f' -> near f' f'' -> numbered n lk f f''.
Proof.
  intros Hnum N. destruct Hnum as [? ? ? ? E N0 | n lk f f' gs gs' N0 E E' P S1 S2 B].
  - apply numbered_plain; [done|]. by etransitivity.
  - assert (Hr : forall a, a ∈ bus_regs -> f_regs f'' a = f_regs f' a) by (intros; apply N; [by eexists|done]).
    apply numbered_bridge with gs gs'; try done.
    + etransitivity; [exact N0|]. by apply near_alike.
    + by rewrite (near_behind _ _ N).
    + by rewrite Hr by (by apply in_bus_regs).
    + unfold SEC. by rewrite Hr by (by apply in_bus_regs).
    + unfold SUB. by rewrite Hr by (by apply in_bus_regs).
Qed.

(** The specification is the same for a function that is near. *)
Section Near.
Context {f f1 : hfun} (N : near f f1).
Lemma near_buses : buses f1 = buses f.
Proof. by rewrite !buses_eq, (near_behind _ _ N). Qed.
Lemma near_depth : depth f1 = depth f.
Proof. by rewrite !depth_eq, (near_behind _ _ N). Qed.
Lemma near_plan lk : plan_fun lk f1 = plan_fun lk f.
Proof. by rewrite !plan_fun_eq, near_buses, (near_behind _ _ N). Qed.
Lemma near_found n lk : tail (found_fun n lk f1) = tail (found_fun n lk f).
Proof. by rewrite !found_fun_eq, (near_behind _ _ N). Qed.
Lemma near_numbered n lk f' : numbered n lk f1 f' -> numbered n lk f f'.
Proof.
  intros Hn. inversion Hn as [? ? ? ? E N' | ? ? ? ? gs gs' A E E' P S1 S2 B]; subst.
  - apply numbered_plain; [by rewrite <- (near_behind _ _ N)|by etransitivity].
  - apply numbered_bridge with gs gs'; try done.
    + etransitivity; [by apply near_alike|done].
    + by rewrite <- (near_behind _ _ N).
    + by rewrite S2, near_buses.
Qed.
End Near.

Lemma place_of_inj i j : place_of i = place_of j ->
  busnum i = busnum j /\ pri i = pri j /\ bus_sub i = bus_sub j /\ last_kid i = last_kid j /\ root i = root j /\ self i = self j.
Proof. unfold place_of. intros E. by injection E. Qed.

(** ** Behind a bridge *)

Lemma f_read_range k : forall a f, 0 <= f_read k a f < 256 ^ Z.of_nat k.
Proof.
  induction k as [|k IH]; intros a f; [done|]. cbn [f_read]. rewrite Nat2Z.inj_succ, Z.pow_succ_r by lia.
  specialize (IH (a + 1) f). pose proof (Z.mod_pos_bound (f_regs f a) 256 ltac:(lia)). unfold u8. lia.
Qed.
Lemma u16_f_read a f : u16 (f_read 2 a f) = f_read 2 a f.
Proof. apply u16_small. apply (f_read_range 2). Qed.

Section Scan.
Context (t : Z) (Ht : t <> SYSTYPE_5K).

(** The part of the state besides the machine. *)
Definition found (s s' : pci_state machine) (l : list dev_id) : Prop :=
  ready t s' /\ pci_devices (boot s') = pci_devices (boot s) ++ l.

(** What the scan of the bus behind [HFun d r k (Some gs)], which has its number, does. *)
Definition kid_spec (fuel : nat) : Prop :=
  forall n C l1 d r k gs l2 n' i above s,
  context n C -> 0 <= n -> n < n' -> n' + total gs <= 255 ->
  hardware s = C (l1 ++ HFun d r k (Some gs) :: l2) -> ready t s ->
  u8 (r 0x19) = n' -> u8 (r 0x1a) = 255 ->
  Forall (fun g => f_dfn g <> d) l1 -> (forall m, n' <= m -> Forall (fun g => claims m g = false) l1) ->
  func_ok t (n =? 0) (HFun d r k (Some gs)) ->
  bus_ok t false 0 0 gs -> (depth_bus gs < fuel)%nat ->
  busnum i = n' -> last_kid i = n' -> self i = Some (n, d) -> above <> [] ->
  exists sc s' r' gs', pci_bus_scan fuel above i s = Some (sc, s') /\
    hardware s' = C (l1 ++ HFun d r' k (Some gs') :: l2) /\
    near (HFun d r k (Some gs)) (HFun d r' k (Some gs)) /\ numbered_bus n' n' gs gs' /\
    found s s' (found_bus n' n' gs) /\
    busnum (sc_info sc) = n' /\ last_kid (sc_info sc) = n' + total gs /\
    map d_ids (sc_devices sc) = map f_ids gs /\ map abs (sc_kids sc) = plans n' gs /\ sc_peers sc = [].

(** The device a bridge is on. *)
Section Bridge.
Context (fuel : nat) (Hkid : kid_spec fuel).
Context (n : Z) (C : list hfun -> machine) (HC : context n C) (Hn : 0 <= n <= 255).
Context (l1 l2 : list hfun) (f : hfun) (gs : list hfun).
Context (Hl1 : Forall (fun g => f_dfn g <> f_dfn f) l1) (Hf : func_ok t (n =? 0) f).
Context (Hgs : f_behind f = Some gs) (Hok : bus_ok t false 0 0 gs) (Hdepth : (depth_bus gs < fuel)%nat).
Context (lk : Z) (Hlk : n <= lk) (Hmax : lk + buses f <= 255).
Context (Hclaims : forall m, lk < m -> Forall (fun g => claims m g = false) l1).

(** The first half of [pci_bridge_init]: the bridge gets its numbers, the last of them
    255. *)
Lemma bridge_opened s : hardware s = C (l1 ++ f :: l2) -> ready t s ->
  exists s' f', (forall A (k : Run (pci_state machine) A),
  (reg ← pci_dev_readw (n, f_dfn f) PCI_COMMAND;
   pci_dev_writew (n, f_dfn f) PCI_COMMAND (Z.land reg (Z.lnot (Z.lor PCI_CMD_IO PCI_CMD_MEMORY)));;
   reg ← pci_dev_readw (n, f_dfn f) PCI_STATUS;
   pci_dev_writew (n, f_dfn f) PCI_STATUS reg;;
   pci_dev_writeb (n, f_dfn f) PCI2PCI_BUS_PRI n;;
   pci_dev_writeb (n, f_dfn f) PCI2PCI_BUS_SEC (lk + 1);;
   pci_dev_writeb (n, f_dfn f) PCI2PCI_BUS_SUB 0xff;; k) s = k s') /\
  hardware s' = C (l1 ++ f' :: l2) /\ ready t s' /\ pci_devices (boot s') = pci_devices (boot s) /\
  alike f f' /\ f_behind f' = Some gs /\ u8 (f_regs f' 0x18) = n /\ SEC f' = lk + 1 /\ SUB f' = 255.
Proof.
  intros Hs Hr.
  assert (Hm : forall g a, alike f g -> a ∈ bus_regs -> f_mask g a = 0xff).
  { intros g a N Ha. rewrite (al_mask _ _ N). apply (fo_numbers _ _ _ Hf); [by rewrite Hgs|done]. }
  assert (Calm : calm t C l1 l2 f
    (reg ← pci_dev_readw (n, f_dfn f) PCI_COMMAND;
     pci_dev_writew (n, f_dfn f) PCI_COMMAND (Z.land reg (Z.lnot (Z.lor PCI_CMD_IO PCI_CMD_MEMORY)));;
     reg ← pci_dev_readw (n, f_dfn f) PCI_STATUS;
     pci_dev_writew (n, f_dfn f) PCI_STATUS reg) (fun _ => True)).
  { apply calm_seq; [by eapply calm_readw|intros v]. apply calm_seq; [eapply calm_writew; try done; by left|intros _].
    apply calm_seq; [by eapply calm_readw|intros w]. eapply calm_writew; try done. by left. }
  destruct (Calm s f (reflexivity f) Hs Hr) as (u & s1 & f1 & E1 & N1 & H1 & R1 & D1 & _).
  pose proof (near_alike _ _ N1) as A1.
  assert (Hl : forall g, alike f g -> Forall (fun x => f_dfn x <> f_dfn g) l1) by (intros g N; by rewrite (al_dfn _ _ N)).
  assert (Step : forall g reg v s, alike f g -> hardware s = C (l1 ++ g :: l2) -> ready t s ->
    exists s', pci_dev_writeb (n, f_dfn f) reg v s = Some (tt, s') /\
      hardware s' = C (l1 ++ write_reg reg (u8 v) g :: l2) /\ ready t s' /\ boot s' = boot s).
  { intros g reg v s0 N. rewrite <- (al_dfn _ _ N). apply run_writeb; auto. }
  destruct (Step f1 0x18 n s1 A1 H1 R1) as (s2 & E2 & H2 & R2 & D2).
  destruct (write_reg_alike 0x18 (u8 n) f1) as [A2 B2]. set (f2 := write_reg 0x18 (u8 n) f1) in *.
  destruct (Step f2 0x19 (lk + 1) s2 (transitivity A1 A2) H2 R2) as (s3 & E3 & H3 & R3 & D3).
  destruct (write_reg_alike 0x19 (u8 (lk + 1)) f2) as [A3 B3]. set (f3 := write_reg 0x19 (u8 (lk + 1)) f2) in *.
  assert (A03 : alike f f3) by (etransitivity; [|exact A3]; etransitivity; [exact A1|exact A2]).
  destruct (Step f3 0x1a 0xff s3 A03 H3 R3) as (s4 & E4 & H4 & R4 & D4).
  destruct (write_reg_alike 0x1a (u8 0xff) f3) as [A4 B4]. set (f4 := write_reg 0x1a (u8 0xff) f3) in *.
  exists s4, f4. split.
  { intros A k. unfold mbind, Run_bind in E1 |- *.
    repeat (match type of E1 with (match ?x with _ => _ end) = _ => destruct x as [[? ?]|]; [|done] end).
    rewrite E1. cbv beta iota. change PCI2PCI_BUS_PRI with 0x18. rewrite E2. cbv beta iota.
    change PCI2PCI_BUS_SEC with 0x19. rewrite E3. cbv beta iota. change PCI2PCI_BUS_SUB with 0x1a.
    rewrite E4. done. }
  split; [done|]. split; [done|]. split; [by rewrite D4, D3, D2|].
  assert (A04 : alike f f4) by (etransitivity; [exact A03|exact A4]).
  assert (Hm2 : forall a, a ∈ bus_regs -> f_mask f1 a = 0xff /\ f_mask f2 a = 0xff /\ f_mask f3 a = 0xff).
  { intros a Ha. split_and!; apply Hm; try done. etransitivity; [exact A1|exact A2]. }
  split; [done|]. split; [by rewrite B4, B3, B2, (near_behind _ _ N1)|].
  assert (I18 : 0x18 ∈ bus_regs) by (by apply in_bus_regs). assert (I19 : 0x19 ∈ bus_regs) by (by apply in_bus_regs).
  assert (I1a : 0x1a ∈ bus_regs) by (by apply in_bus_regs).
  split_and!.
  - unfold f4, f3. rewrite !write_reg_ne by done. unfold f2. rewrite write_reg_number by apply Hm2, I18.
    unfold u8. rewrite Z.mod_mod by done. apply Z.mod_small. lia.
  - unfold SEC, f4. rewrite write_reg_ne by done. unfold f3. rewrite write_reg_number by apply Hm2, I19.
    unfold u8. rewrite Z.mod_mod by done. apply Z.mod_small. rewrite buses_eq, Hgs in Hmax.
    pose proof (total_nonneg gs). lia.
  - unfold SUB, f4. rewrite write_reg_number by apply Hm2, I1a. done.
Qed.

(** A bus behind a cardbus bridge: nothing is there to be scanned. *)
Lemma calm_cardbus_init (f' : hfun) i : func_ok t (n =? 0) f' ->
  Forall (fun g => f_dfn g <> f_dfn f') l1 ->
  calm t C l1 l2 f' (pci_cardbus_init (n, f_dfn f') i)
    (fun i' => busnum i' = busnum i /\ last_kid i' = last_kid i).
Proof.
  intros Hf' Hl'. unfold pci_cardbus_init.
  do 8 (apply calm_seq; [eapply calm_writel; try done; by left|intros _]). by apply calm_ret.
Qed.

(** What is between the numbers and the last write. *)
Lemma bridge_scanned f' i above s :
  hardware s = C (l1 ++ f' :: l2) -> ready t s -> alike f f' -> f_behind f' = Some gs ->
  SEC f' = lk + 1 -> SUB f' = 255 ->
  busnum i = lk + 1 -> last_kid i = lk + 1 -> self i = Some (n, f_dfn f) -> above <> [] ->
  exists sc s' f'' gs',
  (if f_htype f =? PCI_HTYPE_PCI_BRIDGE then pci_bus_scan fuel above i
   else if f_htype f =? PCI_HTYPE_CARDBUS_BRIDGE
        then i ← pci_cardbus_init (n, f_dfn f) i; mret (mk_bus_scan i [] [] [])
        else mret (mk_bus_scan i [] [] [])) s = Some (sc, s') /\
  hardware s' = C (l1 ++ f'' :: l2) /\ alike f f'' /\ f_behind f'' = Some gs' /\
  (forall a, a ∈ bus_regs -> f_regs f'' a = f_regs f' a) /\
  numbered_bus (lk + 1) (lk + 1) gs gs' /\ found s s' (found_bus (lk + 1) (lk + 1) gs) /\
  busnum (sc_info sc) = lk + 1 /\ last_kid (sc_info sc) = lk + buses f /\
  map d_ids (sc_devices sc) = map f_ids gs /\ map abs (sc_kids sc) = plans (lk + 1) gs /\ sc_peers sc = [].
Proof.
  intros Hs Hr A Hb Hsec Hsub Hi Hk Hself Habove.
  assert (Hl' : Forall (fun g => f_dfn g <> f_dfn f') l1) by (by rewrite (al_dfn _ _ A)).
  assert (Hf' : func_ok t (n =? 0) f').
  { apply (alike_ok Hf A); rewrite Hb, Hgs; done. }
  assert (Hbuses : buses f = 1 + total gs) by (by rewrite buses_eq, Hgs). rewrite Hbuses in Hmax |- *.
  destruct (fo_bridge _ _ _ Hf) as [Ht1 | [Ht2 Hnone]]; [by rewrite Hgs|..].
  - rewrite Ht1, Z.eqb_refl. destruct f' as [d r k b] eqn:Ef. cbn in Hb. subst b.
    destruct (Hkid n C l1 d r k gs l2 (lk + 1) i above s) as
      (sc & s' & r' & gs' & E & H' & N & Nb & F & P1 & P2 & P3 & P4 & P5); try done; try lia.
    { intros m Hm. apply Hclaims. lia. } { by rewrite Hself, <- (al_dfn _ _ A). }
    eexists sc, s', _, gs'. split; [exact E|]. split; [exact H'|]. split.
    { etransitivity; [exact A|]. pose proof (near_alike _ _ N) as N1. by split; apply N1. }
    split; [done|]. split.
    { intros a Ha. apply (near_bus _ _ N); [by eexists|done]. }
    split_and!; try done. lia.
  - assert (gs = []) as -> by congruence. rewrite Ht2.
    destruct (calm_cardbus_init f' i Hf' Hl' s f' (reflexivity f') Hs Hr) as
      (i' & s' & f'' & E & N & H' & R & D & Q1 & Q2).
    eexists (mk_bus_scan i' [] [] []), s', f'', []. split.
    { change (PCI_HTYPE_CARDBUS_BRIDGE =? PCI_HTYPE_PCI_BRIDGE) with false.
      change (PCI_HTYPE_CARDBUS_BRIDGE =? PCI_HTYPE_CARDBUS_BRIDGE) with true. cbv iota.
      rewrite <- (al_dfn _ _ A). unfold mbind, Run_bind. by rewrite E. }
    split; [done|]. split; [etransitivity; [exact A|by apply near_alike]|].
    split; [by rewrite (near_behind _ _ N)|].
    split; [intros a Ha; apply (near_bus _ _ N); [by eexists|done]|].
    split; [constructor|]. split; [split; [done|by rewrite D, app_nil_r]|].
    cbn. split_and!; try done; [congruence|]. rewrite Q2, Hk. lia.
Qed.

(** [pci_bridge_init] gives the bridge and everything behind it their numbers. *)
Lemma bridge_init_spec i above s :
  hardware s = C (l1 ++ f :: l2) -> ready t s ->
  busnum i = lk + 1 -> last_kid i = lk + 1 -> pri i = n -> self i = Some (n, f_dfn f) -> above <> [] ->
  exists sc s' f', pci_bridge_init (pci_bus_scan fuel above) (n, f_dfn f) (f_htype f) i s = Some (sc, s') /\
    hardware s' = C (l1 ++ f' :: l2) /\ numbered n lk f f' /\ func_ok t (n =? 0) f' /\
    found s s' (found_bus (lk + 1) (lk + 1) gs) /\
    abs (mk_bus (sc_info sc) (sc_devices sc) (sc_kids sc)) =
      Plan (lk + 1) (lk + buses f) (map f_ids gs) (plans (lk + 1) gs) /\
    last_kid (sc_info sc) = lk + buses f /\ sc_peers sc = [].
Proof.
  intros Hs Hr Hi Hk Hpri Hself Habove. unfold pci_bridge_init. rewrite Hi, Hpri.
  destruct (bridge_opened s Hs Hr) as (s1 & f1 & E1 & H1 & R1 & D1 & A1 & B1 & N18 & N19 & N1a).
  rewrite E1. clear E1.
  destruct (bridge_scanned f1 i above s1 H1 R1 A1 B1 N19 N1a Hi Hk Hself Habove) as
    (sc & s2 & f2 & gs' & E2 & H2 & A2 & B2 & Regs & Nb & [R2 D2] & P1 & P2 & P3 & P4 & P5).
  unfold mbind at 1, Run_bind at 1. rewrite E2. cbv beta iota zeta. cbn [bus_sub set_sub].
  assert (Hl2 : Forall (fun g => f_dfn g <> f_dfn f2) l1) by (by rewrite (al_dfn _ _ A2)).
  destruct (run_writeb t n C HC Hn l1 l2 f2 0x1a (last_kid (sc_info sc)) s2 Hl2 H2 R2) as (s3 & E3 & H3 & R3 & D3).
  rewrite (al_dfn _ _ A2) in E3. change PCI2PCI_BUS_SUB with 0x1a.
  unfold mbind at 1, Run_bind at 1. rewrite E3.
  destruct (write_reg_alike 0x1a (u8 (last_kid (sc_info sc))) f2) as [A3 B3].
  set (f3 := write_reg 0x1a (u8 (last_kid (sc_info sc))) f2) in *.
  assert (A : alike f f3) by (etransitivity; [exact A2|exact A3]).
  assert (Hm : f_mask f2 0x1a = 0xff).
  { rewrite (al_mask _ _ A2). apply (fo_numbers _ _ _ Hf); [by rewrite Hgs|by apply in_bus_regs]. }
  eexists _, s3, f3. split; [done|]. split; [done|].
  assert (Hbuses : buses f = 1 + total gs) by (by rewrite buses_eq, Hgs). pose proof (total_nonneg gs).
  split_and!; try done.
  - apply numbered_bridge with gs gs'; try done.
    + by rewrite B3.
    + unfold f3. rewrite write_reg_ne by done. rewrite Regs by (by apply in_bus_regs). done.
    + unfold SEC, f3. rewrite write_reg_ne by done. rewrite Regs by (by apply in_bus_regs). done.
    + unfold SUB, f3. rewrite write_reg_number by done. rewrite P2. unfold u8. rewrite Z.mod_mod by done.
      apply Z.mod_small. lia.
  - apply (alike_ok Hf A); rewrite B3, B2, Hgs; [by split; eexists|]. intros [= ->]. by inversion Nb.
  - split; [done|]. rewrite D3, D2, D1. done.
  - cbn. rewrite P1, P2, P3, P4. done.
Qed.

End Bridge.

(** ** One function *)

(** How the loop over the functions goes on. *)
Record stepped (st st' : dev_loop) (last : Z) (below : list plan) : Prop := mk_stepped {
  sp_busnum : busnum (lp_info st') = busnum (lp_info st);
  sp_self : self (lp_info st') = self (lp_info st);
  sp_last : last_kid (lp_info st') = last;
  sp_kids : map abs (linked (lp_kids st')) = map abs (linked (lp_kids st)) ++ below;
  sp_tail : tail_peers (lp_kids st') = [];
  sp_peers : lp_peers st' = lp_peers st;
}.

Section Function_.
Context (fuel : nat) (Hkid : kid_spec fuel).
Context (n : Z) (C : list hfun -> machine) (HC : context n C) (Hn : 0 <= n <= 255).
Context (l1 l2 : list hfun) (f : hfun).
Context (Hl1 : Forall (fun g => f_dfn g <> f_dfn f) l1) (Hf : func_ok t (n =? 0) f).
Context (Hok : forall gs, f_behind f = Some gs -> bus_ok t false 0 0 gs) (Hdepth : (depth f <= fuel)%nat).
Context (lk : Z) (Hlk : n <= lk) (Hmax : lk + buses f <= 255).
Context (Hclaims : forall m, lk < m -> Forall (fun g => claims m g = false) l1).

Lemma calm_bridge_alloc i d r : busnum i = n -> last_kid i = lk -> devfn d = f_dfn f -> lk < 255 ->
  calm t C l1 l2 f (pci_bridge_bus_alloc i d r)
    (fun x => exists b, x = (Some b, set_last_kid (lk + 1) i) /\ busnum b = lk + 1 /\ last_kid b = lk + 1 /\
                pri b = n /\ self b = Some (n, f_dfn f)).
Proof.
  intros Hi Hk Hd Hlt. unfold pci_bridge_bus_alloc. eapply calm_bind; [apply calm_malloc|]. intros ? ->.
  cbn [negb]. rewrite Hi, Hk, Hd. cbv zeta. apply calm_seq; [by eapply calm_readb|intros v]. apply calm_ret.
  assert (E : u8 (lk + 1) = lk + 1) by (apply Z.mod_small; lia). rewrite E. eexists. by split_and!.
Qed.

Lemma scan_bridge_spec above d st s :
  hardware s = C (l1 ++ f :: l2) -> ready t s -> same_dev f d -> htype d = f_htype f ->
  busnum (lp_info st) = n -> last_kid (lp_info st) = lk -> tail_peers (lp_kids st) = [] ->
  exists st' s' f', scan_bridge (pci_bus_scan fuel) above d st s = Some (Some st', s') /\
    hardware s' = C (l1 ++ f' :: l2) /\ numbered n lk f f' /\ func_ok t (n =? 0) f' /\
    found s s' (tail (found_fun n lk f)) /\ stepped st st' (lk + buses f) (plan_fun lk f) /\
    lp_devices st' = lp_devices st /\ lp_multifunc st' = lp_multifunc st.
Proof.
  intros Hs Hr (Hv & Hd & Hdf) Hh Hi Hk Htail. unfold scan_bridge. rewrite Hh, found_fun_eq, plan_fun_eq. cbn [tail].
  destruct (f_behind f) as [gs|] eqn:Hgs.
  - assert (E : (f_htype f =? PCI_HTYPE_PCI_BRIDGE) || (f_htype f =? PCI_HTYPE_CARDBUS_BRIDGE) = true).
    { destruct (fo_bridge _ _ _ Hf) as [-> | [-> _]]; [by rewrite Hgs| |]; done. }
    assert (Hb : buses f = 1 + total gs) by (by rewrite buses_eq, Hgs). pose proof (total_nonneg gs).
    rewrite E. cbv zeta.
    destruct (calm_bridge_alloc (lp_info st) d (if f_htype f =? PCI_HTYPE_PCI_BRIDGE then pci_resource_bridge
      else pci_resource_cardbus) Hi Hk Hdf ltac:(lia) s f (reflexivity f) Hs Hr)
      as (x & s1 & f1 & E1 & N1 & H1 & R1 & D1 & b & -> & B1 & B2 & B3 & B4).
    unfold mbind at 1, Run_bind at 1. rewrite E1. cbv beta iota. cbn [busnum set_last_kid]. rewrite Hi, Hdf.
    pose proof (near_alike _ _ N1) as A1.
    assert (Hgs1 : f_behind f1 = Some gs) by (by rewrite (near_behind _ _ N1)).
    pose proof (near_buses N1) as Hbuses1.
    pose proof (near_ok _ _ _ _ Hf N1) as Hf1. rewrite depth_eq, Hgs in Hdepth.
    rewrite <- (al_dfn _ _ A1), <- (alike_htype Hf A1).
    destruct (bridge_init_spec fuel Hkid n C HC Hn l1 l2 f1 gs) with (lk := lk) (i := b) (s := s1)
      (above := set_last_kid (lk + 1) (lp_info st) :: above)
      as (sc & s2 & f2 & E2 & H2 & Nb & Hf2 & [R2 D2] & Habs & Hlast & Hpeers); try done.
    { by rewrite (near_dfn _ _ N1). } { by apply Hok. } { by rewrite Hbuses1. }
    { by rewrite B4, (near_dfn _ _ N1). }
    unfold mbind at 1, Run_bind at 1. rewrite E2. cbv beta iota.
    eexists _, s2, f2. split; [done|]. split; [done|].
    pose proof (near_numbered N1 _ _ _ Nb) as Nb'.
    rewrite Hbuses1 in *. split; [done|]. split; [done|]. split; [by split; [|rewrite D2, D1]|].
    split; [|done]. split; try done.
    cbn. rewrite map_app. f_equal. cbn. f_equal.
    change (abs (mk_bus (sc_info sc) (sc_devices sc) (sc_kids sc)) = Plan (lk + 1) (lk + buses f) (map f_ids gs) (plans (lk + 1) gs)).
    rewrite Habs. done.
  - destruct (fo_plain _ _ _ Hf Hgs) as [P1%Z.eqb_neq P2%Z.eqb_neq]. rewrite P1, P2. cbn [orb].
    assert (Hb : buses f = 0) by (by rewrite buses_eq, Hgs).
    exists st, s, f. split; [done|]. split; [done|]. split; [by apply numbered_plain|]. split; [done|].
    split; [split; [done|by rewrite app_nil_r]|]. split; [|done]. split; try done; [lia|by rewrite app_nil_r].
Qed.

End Function_.

Lemma same_dev_alike f f1 top d : func_ok t top f -> alike f f1 -> same_dev f d -> same_dev f1 d.
Proof.
  intros Hf A (? & ? & ?). unfold same_dev.
  by rewrite (alike_vendor Hf A), (alike_device Hf A), (al_dfn _ _ A).
Qed.

Lemma numbered_alike n lk f f' : numbered n lk f f' -> alike f f'.
Proof. by intros [? ? ? ? ? ?%near_alike | ? ? ? ? ? ? ?]. Qed.

Section Configure.
Context (fuel : nat) (Hkid : kid_spec fuel).
Context (n : Z) (C : list hfun -> machine) (HC : context n C) (Hn : 0 <= n <= 255).
Context (l1 l2 : list hfun) (f : hfun).
Context (Hl1 : Forall (fun g => f_dfn g <> f_dfn f) l1) (Hf : func_ok t (n =? 0) f).
Context (Hok : forall gs, f_behind f = Some gs -> bus_ok t false 0 0 gs) (Hdepth : (depth f <= fuel)%nat).
Context (lk : Z) (Hlk : n <= lk) (Hmax : lk + buses f <= 255).
Context (Hclaims : forall m, lk < m -> Forall (fun g => claims m g = false) l1).

(** The configuration after the bridge, with the fixups behind it, is calm. *)
Lemma configured f' above at_ d st s :
  hardware s = C (l1 ++ f' :: l2) -> ready t s -> alike f f' -> func_ok t (n =? 0) f' ->
  same_dev f d -> htype d = f_htype f -> busnum (lp_info st) = n ->
  exists d' i s' f'',
  (d ← pci_dev_init (lp_info st) above d;
   '(d, (i, peers)) ← pci_fixup_post (pci_bus_scan fuel []) at_ (lp_info st) (lp_peers st) d;
   mret (d, mk_dev_loop i (lp_devices st) (lp_kids st) peers (lp_multifunc st))) s =
  Some ((d', mk_dev_loop i (lp_devices st) (lp_kids st) (lp_peers st) (lp_multifunc st)), s') /\
  hardware s' = C (l1 ++ f'' :: l2) /\ near f' f'' /\ ident d' = ident d /\ found s s' [] /\
  place_of i = place_of (lp_info st).
Proof.
  intros Hs Hr A Hf' Hd Hh Hi.
  assert (Hl' : Forall (fun g => f_dfn g <> f_dfn f') l1) by (by rewrite (al_dfn _ _ A)).
  pose proof (same_dev_alike _ _ _ _ Hf A Hd) as Hd'. rewrite <- (alike_htype Hf A) in Hh.
  assert (Calm : calm t C l1 l2 f'
    (d ← pci_dev_init (lp_info st) above d;
     '(d, (i, peers)) ← pci_fixup_post (pci_bus_scan fuel []) at_ (lp_info st) (lp_peers st) d;
     mret (d, mk_dev_loop i (lp_devices st) (lp_kids st) peers (lp_multifunc st)))
    (fun r => ident r.1 = ident d /\ exists i, place_of i = place_of (lp_info st) /\
       r.2 = mk_dev_loop i (lp_devices st) (lp_kids st) (lp_peers st) (lp_multifunc st))).
  { eapply calm_bind; [by eapply (calm_dev_init t n C HC Hn l1 l2 (n =? 0) f')|]. intros d1 Hd1.
    eapply calm_bind; [eapply (calm_fixup_post t n C HC Hn l1 l2 (n =? 0) f'); try done; exact (ident_same _ _ _ Hd1 Hd')|].
    intros [d2 [i peers]] (Q1 & Q2 & Q3). cbn [fst snd] in *. subst peers. apply calm_ret. cbn.
    split; [congruence|]. by exists i. }
  destruct (Calm s f' (reflexivity f') Hs Hr) as ([d' st'] & s' & f'' & E & N & H' & R & D & Q1 & i & Q2 & Q3).
  cbn [fst snd] in *. subst st'. exists d', i, s', f''. split; [exact E|].
  split_and!; try done. split; [done|by rewrite app_nil_r].
Qed.

(** [configure_dev] with its fixups. *)
Lemma configure_dev_spec above at_ d st s :
  hardware s = C (l1 ++ f :: l2) -> ready t s -> same_dev f d -> htype d = f_htype f ->
  busnum (lp_info st) = n -> last_kid (lp_info st) = lk -> tail_peers (lp_kids st) = [] ->
  exists d' st' s' f', configure_dev (pci_bus_scan fuel) above at_ d st s = Some ((d', st'), s') /\
    hardware s' = C (l1 ++ f' :: l2) /\ numbered n lk f f' /\ ident d' = ident d /\
    found s s' (tail (found_fun n lk f)) /\ stepped st st' (lk + buses f) (plan_fun lk f) /\
    lp_devices st' = lp_devices st /\ lp_multifunc st' = lp_multifunc st.
Proof.
  intros Hs Hr Hd Hh Hi Hk Htail. unfold configure_dev. rewrite Hi.
  destruct (calm_fixup_pre t n C HC Hn l1 l2 (n =? 0) f Hl1 Hf d Hd s f (reflexivity f) Hs Hr)
    as ([r d1] & s1 & f1 & E1 & N1 & H1 & R1 & D1 & Q1 & Q2). cbn [fst snd] in Q1, Q2. subst r.
  unfold mbind at 1, Run_bind at 1. rewrite E1. cbv beta iota. change (negb (0 =? 0)) with false. cbv iota.
  pose proof (near_alike _ _ N1) as A1. pose proof (near_ok _ _ _ _ Hf N1) as Hf1.
  pose proof (ident_same f _ _ Q2 Hd) as Hd1.
  assert (Hh1 : htype d1 = f_htype f) by (unfold ident in Q2; injection Q2; congruence).
  destruct (scan_bridge_spec fuel Hkid n C HC Hn l1 l2 f1) with (lk := lk) (above := above) (d := d1) (st := st)
    (s := s1) as (st2 & s2 & f2 & E2 & H2 & Nb & Hf2 & [R2 D2] & Sp & S1 & S2); try done.
  { by rewrite (near_dfn _ _ N1). } { intros gs. rewrite (near_behind _ _ N1). apply Hok. }
  { by rewrite (near_depth N1). } { by rewrite (near_buses N1). } { eapply same_dev_alike; [exact Hf|exact A1|exact Hd1]. }
  { by rewrite (alike_htype Hf A1). }
  rewrite (near_buses N1), (near_plan N1) in Sp. rewrite (near_found N1) in D2.
  apply (near_numbered N1) in Nb.
  unfold mbind at 1, Run_bind at 1. rewrite E2. cbv beta iota.
  destruct (configured f2 above at_ d1 st2 s2 H2 R2 (numbered_alike _ _ _ _ Nb) Hf2 Hd1 Hh1
    ltac:(by rewrite (sp_busnum _ _ _ _ Sp))) as (d3 & i & s3 & f3 & E3 & H3 & N3 & Q3 & [R3 D3] & P3).
  eexists d3, _, s3, f3. split; [exact E3|]. split; [done|]. split; [by eapply numbered_near|].
  split; [congruence|]. split; [split; [done|by rewrite D3, D2, D1, app_nil_r]|]. split; [|done].
  apply place_of_inj in P3 as (P31 & _ & _ & P34 & _ & P36). destruct Sp as [Sp1 Sp2 Sp3 Sp4 Sp5 Sp6].
  split; cbn; try done; congruence.
Qed.

End Configure.

Section Device.
Context (fuel : nat) (Hkid : kid_spec fuel).
Context (n : Z) (C : list hfun -> machine) (HC : context n C) (Hn : 0 <= n <= 255).
Context (l1 l2 : list hfun) (f : hfun).
Context (Hl1 : Forall (fun g => f_dfn g <> f_dfn f) l1) (Hf : func_ok t (n =? 0) f).
Context (Hok : forall gs, f_behind f = Some gs -> bus_ok t false 0 0 gs) (Hdepth : (depth f <= fuel)%nat).
Context (lk : Z) (Hlk : n <= lk) (Hmax : lk + buses f <= 255).
Context (Hclaims : forall m, lk < m -> Forall (fun g => claims m g = false) l1).

(** The same once registers of the function have changed. *)
Lemma configure_dev_near f1 (N1 : near f f1) above at_ d st s :
  hardware s = C (l1 ++ f1 :: l2) -> ready t s -> same_dev f d -> htype d = f_htype f ->
  busnum (lp_info st) = n -> last_kid (lp_info st) = lk -> tail_peers (lp_kids st) = [] ->
  exists d' st' s' f', configure_dev (pci_bus_scan fuel) above at_ d st s = Some ((d', st'), s') /\
    hardware s' = C (l1 ++ f' :: l2) /\ numbered n lk f f' /\ ident d' = ident d /\
    found s s' (tail (found_fun n lk f)) /\ stepped st st' (lk + buses f) (plan_fun lk f) /\
    lp_devices st' = lp_devices st /\ lp_multifunc st' = lp_multifunc st.
Proof.
  intros Hs Hr Hd Hh Hi Hk Htail. pose proof (near_alike _ _ N1) as A1.
  destruct (configure_dev_spec fuel Hkid n C HC Hn l1 l2 f1) with (lk := lk) (above := above) (at_ := at_)
    (d := d) (st := st) (s := s) as (d' & st' & s' & f' & E & H & Nb & Q & F & Sp & S1 & S2); try done.
  { by rewrite (near_dfn _ _ N1). } { by eapply near_ok. } { intros gs. rewrite (near_behind _ _ N1). apply Hok. }
  { by rewrite (near_depth N1). } { by rewrite (near_buses N1). }
  { eapply same_dev_alike; [exact Hf|exact A1|exact Hd]. } { by rewrite (alike_htype Hf A1). }
  rewrite (near_found N1) in F. rewrite (near_buses N1), (near_plan N1) in Sp. apply (near_numbered N1) in Nb.
  exists d', st', s', f'. by split_and!.
Qed.

(** "fill in the new structure". *)
Lemma calm_read_dev x : u16 x = f_vendor f ->
  calm t C l1 l2 f (read_dev n (f_dfn f) x)
    (fun r => same_dev f r.1 /\ htype r.1 = f_htype f /\ multifunc r.1 = f_multi f).
Proof.
  intros Hx. unfold read_dev.
  eapply calm_bind; [apply (calm_read_config t n C HC Hn l1 l2 f Hl1)|]. intros v2 (g2 & N2 & ->).
  eapply calm_bind; [apply (calm_read_config t n C HC Hn l1 l2 f Hl1)|]. intros v (g & N & ->).
  do 3 (eapply calm_seq; [eapply calm_true; apply (calm_read_config t n C HC Hn l1 l2 f Hl1)|intros ?]). apply calm_ret.
  apply near_alike in N, N2. unfold same_dev. cbn [fst vendor device htype devfn multifunc].
  change (Z.to_nat 2) with 2%nat. change (Z.to_nat 1) with 1%nat.
  assert (E : u8 (f_read 1 PCI_HTYPE g) = u8 (f_regs f PCI_HTYPE)).
  { cbn [f_read]. rewrite (alike_reg Hf N) by set_solver. unfold u8. rewrite Z.mul_0_r, Z.add_0_r. apply Z.mod_mod. done. }
  rewrite Hx, E, u16_f_read. split_and!; try done.
  - apply (alike_device Hf N2).
  - apply Z.mod_small, Hf.
Qed.

(** The body of the loop, at a function that is there. *)
Lemma scan_dev_spec above st s :
  hardware s = C (l1 ++ f :: l2) -> ready t s ->
  busnum (lp_info st) = n -> last_kid (lp_info st) = lk -> tail_peers (lp_kids st) = [] ->
  PCI_FUNC (f_dfn f) = 0 \/ lp_multifunc st <> 0 ->
  exists st' s' f', scan_dev (pci_bus_scan fuel) above (f_dfn f) st s = Some (st', s') /\
    hardware s' = C (l1 ++ f' :: l2) /\ numbered n lk f f' /\
    found s s' (found_fun n lk f) /\ stepped st st' (lk + buses f) (plan_fun lk f) /\
    map d_ids (lp_devices st') = map d_ids (lp_devices st) ++ [f_ids f] /\
    lp_multifunc st' = (if PCI_FUNC (f_dfn f) =? 0 then f_multi f else lp_multifunc st).
Proof.
  intros Hs Hr Hi Hk Htail Hmf. unfold scan_dev.
  assert (E0 : (lp_multifunc st =? 0) && negb (PCI_FUNC (f_dfn f) =? 0) = false).
  { destruct Hmf as [-> | Hmf]; [by rewrite andb_false_r|]. by rewrite (proj2 (Z.eqb_neq _ _) Hmf). }
  rewrite E0, Hi. cbv zeta.
  destruct (calm_read_config t n C HC Hn l1 l2 f Hl1 PCI_VENDOR_ID 2 s f (reflexivity f) Hs Hr)
    as (x & s1 & f1 & E1 & N1 & H1 & R1 & D1 & g & Ng & ->).
  unfold mbind at 1, Run_bind at 1. rewrite E1. cbv beta iota.
  assert (Hx : u16 (f_read (Z.to_nat 2) PCI_VENDOR_ID g) = f_vendor f).
  { change (Z.to_nat 2) with 2%nat. rewrite u16_f_read. apply (alike_vendor Hf (near_alike _ _ Ng)). }
  destruct (fo_vendor _ _ _ Hf) as (V0%Z.eqb_neq & Vf%Z.eqb_neq & _). rewrite Hx, V0, Vf. cbn [orb].
  destruct (calm_malloc t C l1 l2 f s1 f1 N1 H1 R1) as (b & s2 & f2 & E2 & N2 & H2 & R2 & D2 & ->).
  unfold mbind at 1, Run_bind at 1. rewrite E2. cbv beta iota. cbn [negb].
  destruct (calm_read_dev _ Hx s2 f2 N2 H2 R2) as ([d fb] & s3 & f3 & E3 & N3 & H3 & R3 & D3 & Q1 & Q2 & Q3).
  cbn [fst] in Q1, Q2, Q3. unfold mbind at 1, Run_bind at 1. rewrite E3. cbv beta iota zeta.
  unfold mbind at 1, Run_bind at 1, ask at 1. cbv beta iota. unfold mbind at 1, Run_bind at 1, upd_boot at 1, upd at 1.
  cbv beta iota. set (s4 := set_boot _ s3). set (at_ := length _).
  set (st0 := mk_dev_loop _ (lp_devices st) (lp_kids st) (lp_peers st) _).
  assert (R4 : ready t s4) by (destruct R3; by split).
  destruct (configure_dev_near f3 N3 above at_ d st0 s4) as
    (d' & st' & s5 & f5 & E5 & H5 & Nb & Q4 & [R5 D5] & Sp & S1 & S2); try done.
  unfold mbind at 1, Run_bind at 1. rewrite E5. cbv beta iota.
  eexists _, s5, f5. split; [done|]. split; [done|]. split; [done|]. split; [split; [done|]|].
  { rewrite D5. cbn [s4 boot set_boot pci_devices set_pci_devices]. rewrite D3, D2, D1, <- app_assoc.
    rewrite found_fun_eq. destruct Q1 as (-> & -> & ->). done. }
  split; [by destruct Sp|]. cbn [lp_devices lp_multifunc]. split.
  - rewrite map_app, S1. cbn. unfold d_ids, f_ids. unfold ident in Q4. injection Q4 as -> -> -> _ _.
    by destruct Q1 as (-> & -> & ->).
  - rewrite S2. cbn. by rewrite Q3.
Qed.
End Device.
(** ** All functions of a bus *)

Section Bus.
Context (n : Z) (C : list hfun -> machine) (HC : context n C) (Hn : 0 <= n <= 255).

(** The body of the loop, where there is no function. *)
Lemma scan_dev_skip go above dfn st s l :
  hardware s = C l -> Forall (fun g => f_dfn g <> dfn) l -> busnum (lp_info st) = n ->
  scan_dev go above dfn st s = Some (st, s).
Proof.
  intros Hs Hl Hi. unfold scan_dev. case_match; [done|]. rewrite Hi. cbv zeta.
  unfold mbind at 1, Run_bind at 1, ask_hw at 1. rewrite Hs, (read_none n C HC Hn) by done. cbv beta iota.
  change (u16 (2 ^ (8 * 2) - 1) =? 0xffff) with true. cbn [orb].
  unfold mret, Run_ret. f_equal. f_equal. rewrite <- Hs. by destruct s.
Qed.

Lemma bus_ok_later t' top mf lo lo' l : bus_ok t' top mf lo l -> (forall f l', l = f :: l' -> lo' <= f_dfn f) ->
  bus_ok t' top mf lo' l.
Proof. intros H Hlo. destruct H; constructor; try done. by eapply Hlo. Qed.

Lemma bus_ok_above t' top mf lo l : bus_ok t' top mf lo l -> Forall (fun g => lo <= f_dfn g) l.
Proof.
  induction 1 as [|top mf lo f l H1 H2 H3 H4 H5 _ H6 IH]; constructor; [done|].
  eapply Forall_impl; [exact IH|]. cbn. lia.
Qed.

Lemma scan_devs_spec fuel (Hkid : kid_spec fuel) above cnt : forall dfn l1 todo lk st s,
  0 <= dfn -> dfn + Z.of_nat cnt = 256 ->
  hardware s = C (l1 ++ todo) -> ready t s -> Forall (fun g => f_dfn g < dfn) l1 ->
  bus_ok t (n =? 0) (lp_multifunc st) dfn todo -> (depth_bus todo <= fuel)%nat ->
  n <= lk -> lk + total todo <= 255 -> (forall m, lk < m -> Forall (fun g => claims m g = false) l1) ->
  busnum (lp_info st) = n -> last_kid (lp_info st) = lk -> tail_peers (lp_kids st) = [] ->
  exists st' s' todo', scan_devs (pci_bus_scan fuel) above cnt dfn st s = Some (st', s') /\
    hardware s' = C (l1 ++ todo') /\ numbered_bus n lk todo todo' /\ found s s' (found_bus n lk todo) /\
    stepped st st' (lk + total todo) (plans lk todo) /\
    map d_ids (lp_devices st') = map d_ids (lp_devices st) ++ map f_ids todo.
Proof.
  induction cnt as [|cnt IH]; intros dfn l1 todo lk st s Hd Hcnt Hs Hr Hl1 Hok Hdepth Hlk Hmax Hcl Hi Hk Htail.
  - assert (todo = []) as ->.
    { destruct Hok as [|top mf lo f l Hf Hlo]; [done|]. pose proof (fo_dfn _ _ _ Hf). lia. }
    exists st, s, []. cbn in *. split; [done|]. split; [done|]. split; [constructor|].
    split; [by split; [|rewrite app_nil_r]|]. split; [|by rewrite app_nil_r].
    split; try done; [lia|by rewrite app_nil_r].
  - cbn [scan_devs].
    destruct (decide (Exists (fun g => f_dfn g = dfn) todo)) as [Hex|Hex].
    + assert (exists f l, todo = f :: l /\ f_dfn f = dfn) as (f & l & -> & Hf).
      { destruct Hok as [|top mf lo f l Hf Hlo ? ? ? Hl]; [by inversion Hex|]. exists f, l. split; [done|].
        inversion Hex as [? ? E|? ? E]; [done|]. apply bus_ok_above in Hl.
        apply Exists_exists in E as (g & Hg & <-). rewrite Forall_forall in Hl. specialize (Hl g Hg). lia. }
      inversion Hok as [|? ? ? ? ? Hfun Hlo Hmf Hfresh Hin Hrest]; subst.
      cbn [total foldr depth_bus] in *. change (foldr _ 0 l) with (total l) in *.
      change (foldr (fun g m => depth g `max` m)%nat 0%nat l) with (depth_bus l) in *.
      pose proof (total_nonneg l). pose proof (buses_nonneg f).
      destruct (scan_dev_spec fuel Hkid (busnum (lp_info st)) C HC Hn l1 l f) with (lk := last_kid (lp_info st))
        (above := above) (st := st) (s := s) as (st1 & s1 & f' & E1 & H1 & Nb & [R1 D1] & Sp & Q1 & Q2); try done; try lia.
      { eapply Forall_impl; [exact Hl1|]. cbn. lia. }
      unfold mbind at 1, Run_bind at 1. rewrite E1.
      destruct Sp as [Sp1 Sp2 Sp3 Sp4 Sp5 Sp6].
      destruct (IH (f_dfn f + 1) (l1 ++ [f']) l (last_kid (lp_info st) + buses f) st1 s1) as
        (st2 & s2 & l' & E2 & H2 & Nb2 & [R2 D2] & Sp & Q3); try done; try lia.
      { by rewrite <- app_assoc. }
      { apply Forall_app. split; [eapply Forall_impl; [exact Hl1|cbn; lia]|].
        constructor; [|done]. rewrite (numbered_dfn _ _ _ _ Nb). lia. }
      { by rewrite Q2. }
      { intros m Hm. apply Forall_app. split; [apply Hcl; lia|]. constructor; [|done].
        by eapply numbered_claims. }
      destruct Sp as [Tp1 Tp2 Tp3 Tp4 Tp5 Tp6].
      exists st2, s2, (f' :: l'). split; [done|]. split; [by rewrite H2, <- app_assoc|].
      split; [by constructor|]. split; [split; [done|]|].
      { rewrite D2, D1. cbn [found_bus]. by rewrite app_assoc. }
      split; [split; try done; try congruence|].
      * lia.
      * rewrite Tp4, Sp4. cbn [plans]. by rewrite app_assoc.
      * rewrite Q3, Q1. cbn. by rewrite <- app_assoc.
    + assert (Hne : Forall (fun g => f_dfn g <> dfn) todo) by (apply Forall_Exists_neg; done).
      unfold mbind at 1, Run_bind at 1. rewrite (scan_dev_skip _ above dfn st s (l1 ++ todo)); try done.
      2:{ apply Forall_app. split; [|done]. eapply Forall_impl; [exact Hl1|]. cbn. lia. }
      apply IH; try done; try lia.
      * eapply Forall_impl; [exact Hl1|]. cbn. lia.
      * eapply bus_ok_later; [exact Hok|]. intros f l' ->. inversion Hok; subst. inversion Hne; subst. lia.
Qed.

End Bus.
End Scan.
