(* ===== verification/PciEnum.v ===== *)
(** * PciEnum: the scan of a whole machine

    The induction on the depth of the tree of buses, and the theorem on [pci_scan_root]: on
    every machine of [PciMachine] that fits into 256 buses it ends, it finds every device,
    it numbers the buses depth first, and afterwards every bus is reached under its
    number. *)

From S2P Require Import Prelude Region CmosIo PciIo Pci PciResource Mptable Pirq PciFixup PciScan PciMachine PciCalm PciNumbers.

(** ** Fast back-to-back transactions *)

Lemma split_fun dfn l : dfn ∈ map f_dfn l ->
  exists l1 f l2, l = l1 ++ f :: l2 /\ f_dfn f = dfn /\ Forall (fun g => f_dfn g <> dfn) l1.
Proof.
  induction l as [|f l IH]; [by intros ?%elem_of_nil|]. cbn. intros H.
  destruct (decide (f_dfn f = dfn)) as [E|E].
  - exists [], f, l. by split_and!.
  - apply elem_of_cons in H as [H|H]; [congruence|]. destruct (IH H) as (l1 & g & l2 & -> & Eg & Hl).
    exists (f :: l1), g, l2. split_and!; try done. by constructor.
Qed.

Lemma near_dfns l l' : Forall2 near l l' -> map f_dfn l' = map f_dfn l.
Proof. induction 1 as [|f g l l' N _ IH]; [done|]. cbn. by rewrite IH, (near_dfn _ _ N). Qed.

Lemma near_list_trans l1 l2 l3 : Forall2 near l1 l2 -> Forall2 near l2 l3 -> Forall2 near l1 l3.
Proof.
  intros H. revert l3. induction H; intros l3 H2; inversion H2; subst; constructor; auto. by etransitivity.
Qed.

Lemma numbered_near_list n lk l l' l'' : numbered_bus n lk l l' -> Forall2 near l' l'' -> numbered_bus n lk l l''.
Proof.
  intros H. revert l''. induction l as [|f l IH] in n, lk, l', H |- *; inversion H; subst; intros l'' F;
    inversion F; subst; constructor; [by eapply numbered_near|]. by eapply IH.
Qed.

Lemma numbered_dfns n lk l l' : numbered_bus n lk l l' -> map f_dfn l' = map f_dfn l.
Proof.
  induction l as [|f l IH] in n, lk, l' |- *; intros H; inversion H; subst; [done|]. cbn.
  by erewrite numbered_dfn, IH.
Qed.

Section Enum.
Context (t : Z) (Ht : t <> SYSTYPE_5K).

Section Enable.
Context (n : Z) (C : list hfun -> machine) (HC : context n C) (Hn : 0 <= n <= 255).

Lemma calm_or_word l1 l2 f reg bits :
  Forall (fun g => f_dfn g <> f_dfn f) l1 -> clear_of reg 2 = true ->
  calm t C l1 l2 f (or_word (n, f_dfn f) reg bits) (fun _ => True).
Proof.
  intros Hl Hr. unfold or_word. apply calm_seq; [by apply (calm_readw t n C HC Hn l1 l2 f Hl)|intros v].
  apply (calm_writew t n C HC Hn l1 l2 f Hl). by left.
Qed.

Lemma enable_devs_spec ds : forall l s, hardware s = C l -> ready t s ->
  Forall (fun d => devfn d ∈ map f_dfn l) ds ->
  exists s' l', enable_devs n ds s = Some (tt, s') /\ hardware s' = C l' /\ Forall2 near l l' /\ found t s s' [].
Proof.
  induction ds as [|d ds IH]; intros l s Hs Hr Hds.
  - exists s, l. split; [done|]. split; [done|]. split; [by apply Forall_Forall2_diag, Forall_forall|].
    split; [done|by rewrite app_nil_r].
  - inversion Hds as [|? ? Hd Hds']; subst. cbn [enable_devs].
    destruct (split_fun _ _ Hd) as (l1 & f & l2 & -> & Ef & Hl1).
    rewrite <- Ef in Hl1.
    destruct (calm_or_word l1 l2 f PCI_COMMAND PCI_CMD_FBBE Hl1 eq_refl s f (reflexivity f) Hs Hr)
      as ([] & s1 & f1 & E1 & N1 & H1 & R1 & D1 & _). rewrite Ef in E1.
    assert (F1 : Forall2 near (l1 ++ f :: l2) (l1 ++ f1 :: l2)).
    { apply Forall2_app; [by apply Forall_Forall2_diag, Forall_forall|]. constructor; [done|].
      by apply Forall_Forall2_diag, Forall_forall. }
    destruct (IH (l1 ++ f1 :: l2) s1 H1 R1) as (s2 & l' & E2 & H2 & F2 & [R2 D2]).
    { by rewrite (near_dfns _ _ F1). }
    exists s2, l'. split; [unfold mbind, Run_bind; by rewrite E1|]. split; [done|].
    split; [by eapply near_list_trans|]. split; [done|by rewrite D2, D1].
Qed.

End Enable.

(** ** The induction on the depth *)

Lemma near_behind_swap d r r' k a b :
  near (HFun d r k (Some a)) (HFun d r' k (Some a)) -> near (HFun d r k (Some b)) (HFun d r' k (Some b)).
Proof. intros [N1 N2 N3 N4 N5]. split; try done. intros _. apply N5. by eexists. Qed.

Lemma kid_of_loop fuel : kid_spec t fuel -> kid_spec t (S fuel).
Proof.
  intros Hkid n C l1 d r k gs l2 n' i above s HC Hn0 Hn' Hmax Hs Hr Hsec Hsub Hl1 Hcl Hf Hok Hdepth Hi Hk Hself Habove.
  pose proof (total_nonneg gs).
  assert (HC' : context n' (inner C l1 d r k l2)) by (eapply context_inner; try done; lia).
  cbn [pci_bus_scan].
  destruct (scan_devs_spec t Ht n' _ HC' ltac:(lia) fuel Hkid above 256 0 [] gs n'
    (mk_dev_loop i [] (mk_kid_list [] []) [] 0) s) as (st & s1 & gs1 & E1 & H1 & Nb & [R1 D1] & Sp & Q); try done; try lia.
  { by rewrite (proj2 (Z.eqb_neq n' 0)) by lia. }
  destruct Sp as [Sp1 Sp2 Sp3 Sp4 Sp5 Sp6]. cbn in Sp1, Sp2, Sp4, Sp6, Q.
  unfold mbind at 1, Run_bind at 1. rewrite E1.
  assert (Res : exists s2 r' gs2, enable_fbbe above st s1 = Some (tt, s2) /\
    hardware s2 = C (l1 ++ HFun d r' k (Some gs2) :: l2) /\
    near (HFun d r k (Some gs)) (HFun d r' k (Some gs)) /\ Forall2 near gs1 gs2 /\ found t s1 s2 []).
  { unfold enable_fbbe. cbv zeta. case_match.
    - exists s1, r, gs1. split; [done|]. split; [exact H1|]. split; [done|].
      split; [by apply Forall_Forall2_diag, Forall_forall|]. split; [done|by rewrite app_nil_r].
    - rewrite Sp1, Hi.
      destruct (enable_devs_spec n' _ HC' ltac:(lia) (lp_devices st) gs1 s1 H1 R1) as (s2 & gs2 & E2 & H2 & F2 & [R2 D2]).
      { rewrite (numbered_dfns _ _ _ _ Nb). apply Forall_forall. intros x Hx.
        replace (map f_dfn gs) with (map (fun p => p.1.1) (map f_ids gs)) by (rewrite map_map; done).
        rewrite <- Q, map_map. apply list_elem_of_In, in_map_iff. exists x. split; [done|]. by apply list_elem_of_In. }
      unfold mbind at 1, Run_bind at 1. rewrite E2.
      destruct above as [|p ps]; [done|]. rewrite Sp2, Hself.
      unfold inner in H2.
      destruct (calm_or_word n C HC ltac:(lia) l1 l2 (HFun d r k (Some gs2)) PCI2PCI_BRIDGE_CTRL PCI2PCI_BCTL_FBBE
        Hl1 eq_refl s2 _ (reflexivity _) H2 R2) as ([] & s3 & f3 & E3 & N3 & H3 & R3 & D3 & _).
      destruct f3 as [d3 r3 k3 b3]. pose proof N3 as [M1 M2 M3 _ _]. cbn in M1, M2, M3. subst d3 k3 b3.
      exists s3, r3, gs2. split; [exact E3|]. split; [exact H3|]. split; [by eapply near_behind_swap|].
      split; [done|]. split; [done|by rewrite D3, D2]. }
  destruct Res as (s2 & r' & gs2 & E2 & H2 & N2 & F2 & [R2 D2]).
  unfold mbind at 1, Run_bind at 1. rewrite E2.
  eexists _, s2, r', gs2. split; [done|]. split; [done|]. split; [done|].
  split; [by eapply numbered_near_list|]. split; [split; [done|by rewrite D2, D1, app_nil_r]|].
  cbn [sc_info sc_devices sc_kids sc_peers]. split; [congruence|]. split; [congruence|]. split; [done|].
  split; [|done]. unfold chain. by rewrite Sp5, app_nil_r.
Qed.

Lemma kid_spec_all fuel : kid_spec t fuel.
Proof.
  induction fuel as [|fuel IH]; [|by apply kid_of_loop].
  intros n C l1 d r k gs l2 n' i above s. intros. lia.
Qed.

(** The host bus. *)
Lemma root_spec fuel h i s :
  hardware s = h -> ready t s -> bus_ok t true 0 0 h -> (depth_bus h < fuel)%nat -> total h <= 255 ->
  busnum i = 0 -> last_kid i = 0 ->
  exists sc s' h', pci_bus_scan fuel [] i s = Some (sc, s') /\ hardware s' = h' /\
    numbered_bus 0 0 h h' /\ found t s s' (found_bus 0 0 h) /\
    busnum (sc_info sc) = 0 /\ last_kid (sc_info sc) = total h /\
    map d_ids (sc_devices sc) = map f_ids h /\ map abs (sc_kids sc) = plans 0 h /\ sc_peers sc = [].
Proof.
  intros Hs Hr Hok Hdepth Hmax Hi Hk. destruct fuel as [|fuel]; [lia|]. cbn [pci_bus_scan].
  destruct (scan_devs_spec t Ht 0 _ context_root ltac:(lia) fuel (kid_spec_all fuel) [] 256 0 [] h 0
    (mk_dev_loop i [] (mk_kid_list [] []) [] 0) s) as (st & s1 & h1 & E1 & H1 & Nb & [R1 D1] & Sp & Q); try done; try lia.
  destruct Sp as [Sp1 Sp2 Sp3 Sp4 Sp5 Sp6]. cbn in Sp1, Sp2, Sp4, Sp6, Q.
  unfold mbind at 1, Run_bind at 1. rewrite E1.
  assert (Res : exists s2 h2, enable_fbbe [] st s1 = Some (tt, s2) /\ hardware s2 = h2 /\
    Forall2 near h1 h2 /\ found t s1 s2 []).
  { unfold enable_fbbe. cbv zeta. case_match.
    - exists s1, h1. split; [done|]. split; [exact H1|].
      split; [by apply Forall_Forall2_diag, Forall_forall|]. split; [done|by rewrite app_nil_r].
    - rewrite Sp1, Hi.
      destruct (enable_devs_spec 0 _ context_root ltac:(lia) (lp_devices st) h1 s1 H1 R1) as (s2 & h2 & E2 & H2 & F2 & F3).
      { rewrite (numbered_dfns _ _ _ _ Nb). apply Forall_forall. intros x Hx.
        replace (map f_dfn h) with (map (fun p => p.1.1) (map f_ids h)) by (rewrite map_map; done).
        rewrite <- Q, map_map. apply list_elem_of_In, in_map_iff. exists x. split; [done|]. by apply list_elem_of_In. }
      unfold mbind at 1, Run_bind at 1. rewrite E2. by exists s2, h2. }
  destruct Res as (s2 & h2 & E2 & H2 & F2 & [R2 D2]).
  unfold mbind at 1, Run_bind at 1. rewrite E2.
  eexists _, s2, h2. split; [done|]. split; [done|]. split; [by eapply numbered_near_list|].
  split; [split; [done|by rewrite D2, D1, app_nil_r]|].
  cbn [sc_info sc_devices sc_kids sc_peers]. split; [congruence|]. split; [by rewrite Sp3|]. split; [done|].
  split; [|done]. unfold chain. by rewrite Sp5, app_nil_r.
Qed.
End Enum.

(** ** The routing table of the 3000 series *)

Lemma near_list_refl l : Forall2 near l l.
Proof. by apply Forall_Forall2_diag, Forall_forall. Qed.

Lemma change_fun_near dfn g l : (forall f, near f (g f)) -> Forall2 near l (change_fun dfn g l).
Proof.
  intros Hg. induction l as [|f l IH]; [constructor|]. cbn. case_match; constructor; auto using near_list_refl; reflexivity.
Qed.

Lemma write_near n a v f : clear_of a (Z.of_nat n) = true -> near f (f_write n a v f).
Proof.
  intros H. apply near_f_write. intros _ i Hi. apply (clear_of_spec a (Z.of_nat n)); [lia|done|].
  by rewrite Nat2Z.id.
Qed.

Section NearList.
Context {l l' : list hfun} (F : Forall2 near l l').
Lemma near_list_total : total l' = total l.
Proof. induction F as [|f g k k' N F' IH]; [done|].
  change (buses g + total k' = buses f + total k). by rewrite (near_buses N), (IH F').
Qed.
Lemma near_list_depth : depth_bus l' = depth_bus l.
Proof. induction F as [|f g k k' N F' IH]; [done|].
  change ((depth g `max` depth_bus k')%nat = (depth f `max` depth_bus k)%nat). by rewrite (near_depth N), (IH F').
Qed.
Lemma near_list_plans lk : plans lk l' = plans lk l.
Proof. induction F as [|f g k k' N F' IH] in lk |- *; [done|]. cbn. by rewrite (near_plan N), (near_buses N), IH. Qed.
Lemma near_list_numbered n lk h : numbered_bus n lk l' h -> numbered_bus n lk l h.
Proof.
  induction F as [|f g k k' N F' IH] in lk, h |- *; [done|]. intros H. inversion H; subst.
  constructor; [by eapply near_numbered|]. rewrite (near_buses N) in *. by apply IH.
Qed.
Lemma near_list_ok t top mf lo : bus_ok t top mf lo l -> bus_ok t top mf lo l' /\
  map f_ids l' = map f_ids l /\ (forall n lk, found_bus n lk l' = found_bus n lk l).
Proof.
  induction F as [|f g k k' N F' IH] in mf, lo |- *; [split; [constructor|done]|]. intros H.
  inversion H as [|? ? ? ? ? Hf Hlo Hmf Hfresh Hin Hrest]; subst.
  destruct (IH _ _ Hrest) as (IH1 & IH2 & IH3). pose proof (near_alike _ _ N) as A.
  assert (Hids : f_ids g = f_ids f)
    by (unfold f_ids; by rewrite (alike_vendor Hf A), (alike_device Hf A), (al_dfn _ _ A)).
  split_and!.
  - constructor.
    + by eapply near_ok.
    + by rewrite (near_dfn _ _ N).
    + by rewrite (near_dfn _ _ N).
    + rewrite (near_behind _ _ N). intros Hb. unfold SEC, SUB.
      rewrite !(near_bus _ _ N Hb) by (by apply in_bus_regs). by apply Hfresh.
    + rewrite (near_behind _ _ N). exact Hin.
    + rewrite (near_dfn _ _ N), (alike_multi Hf A). exact IH1.
  - cbn. by rewrite Hids, IH2.
  - intros n lk. cbn. rewrite IH3, (near_buses N). f_equal. rewrite !found_fun_eq, (near_behind _ _ N).
    unfold f_ids in Hids. by injection Hids as -> -> ->.
Qed.
End NearList.

Lemma pirq_init_near (s : pci_state machine) : systype (boot s) <> SYSTYPE_5K ->
  exists r s', pirq_init s = Some (r, s') /\ Forall2 near (hardware s) (hardware s') /\
    regs s' = regs s /\ boot s' = boot s.
Proof.
  intros Ht. unfold pirq_init. unfold mbind at 1, Run_bind at 1, ask at 1. cbv beta iota.
  destruct (Z.eqb_spec (systype (boot s)) SYSTYPE_3K) as [_|].
  - eexists 0, _. split; [done|]. split; [|done]. cbn [hardware set_hw].
    do 2 (eapply near_list_trans; [|apply change_fun_near; intros f; apply write_near; done]).
    apply change_fun_near. intros f. by apply write_near.
  - rewrite (proj2 (Z.eqb_neq _ _) Ht). exists (-1), s. split; [done|]. split; [apply near_list_refl|done].
Qed.

(** ** Every bus under its number *)

(** The buses of a machine, depth first. *)
Fixpoint buses_of (f : hfun) : list (list hfun) :=
  match f_behind f with None => [] | Some l => l :: foldr (fun g r => buses_of g ++ r) [] l end.
Definition buses_below (l : list hfun) : list (list hfun) := foldr (fun g r => buses_of g ++ r) [] l.

(** An access that should reach function [dfn] of a bus. *)
Definition reached (l : list hfun) (dfn : Z) (r : option hfun) : Prop :=
  match find_fun dfn l with
  | Some f => exists f', r = Some f' /\ alike f f'
  | None => r = None
  end.

Lemma find_fun_cons dfn f l : find_fun dfn (f :: l) = if decide (f_dfn f = dfn) then Some f else find_fun dfn l.
Proof. unfold find_fun. cbn. case_decide; [done|]. by destruct (list_find _ l) as [[i x]|]. Qed.

Lemma reached_here n lk l l' dfn : numbered_bus n lk l l' -> reached l dfn (find_fun dfn l').
Proof.
  unfold reached. induction l as [|f l IH] in lk, l' |- *; intros H; inversion H as [|? ? ? f' ? l1 Nf Nl]; subst; [done|].
  rewrite !find_fun_cons, (numbered_dfn _ _ _ _ Nf). case_decide; [|by eapply IH].
  exists f'. split; [done|]. by eapply numbered_alike.
Qed.

Lemma length_buses_of f : Z.of_nat (length (buses_of f)) = buses f.
Proof.
  induction f as [d r m|d r m l IH] using hfun_nested_ind; [done|]. rewrite buses_eq. cbn [buses_of f_behind length].
  rewrite Nat2Z.inj_succ. enough (Z.of_nat (length (foldr (fun g r => buses_of g ++ r) [] l)) = total l) by lia.
  induction IH as [|g k Hg _ IHk]; [done|]. cbn. rewrite length_app, Nat2Z.inj_add, Hg.
  change (foldr _ 0 k) with (total k). lia.
Qed.

(** Behind a function that has its numbers. *)
Definition routed (f : hfun) : Prop := forall n lk f' i gs dfn,
  numbered n lk f f' -> 0 <= lk -> buses_of f !! i = Some gs ->
  claims (lk + 1 + Z.of_nat i) f' = true /\ reached gs dfn (look (lk + 1 + Z.of_nat i) dfn f').

Lemma routed_below l : Forall routed l -> forall n lk l' i gs dfn,
  numbered_bus n lk l l' -> 0 <= lk -> buses_below l !! i = Some gs ->
  reached gs dfn (look_down (lk + 1 + Z.of_nat i) dfn l').
Proof.
  induction 1 as [|f l Hf _ IH]; intros n lk l' i gs dfn Hn Hlk Hi; [done|].
  inversion Hn as [|? ? ? f' ? l1 Nf Nl]; subst. cbn in Hi.
  change (foldr (fun g r => buses_of g ++ r) [] l) with (buses_below l) in Hi. cbn [look_down].
  pose proof (length_buses_of f) as Hlen. pose proof (buses_nonneg f).
  destruct (decide (i < length (buses_of f))%nat) as [Hlt|Hge].
  - rewrite lookup_app_l in Hi by done. destruct (Hf _ _ _ _ _ dfn Nf Hlk Hi) as [-> ?]. done.
  - rewrite lookup_app_r in Hi by lia.
    rewrite (numbered_claims _ _ _ _ _ Nf) by lia.
    specialize (IH _ _ _ _ _ dfn Nl ltac:(lia) Hi).
    replace (lk + buses f + 1 + Z.of_nat (i - length (buses_of f))) with (lk + 1 + Z.of_nat i) in IH by lia.
    exact IH.
Qed.

Lemma routed_all f : routed f.
Proof.
  induction f as [d r m|d r m l IH] using hfun_nested_ind; [by intros ? ? ? ? ? ? ? ? ?|].
  intros n lk f' i gs dfn Hn Hlk Hi. pose proof (length_buses_of (HFun d r m (Some l))) as Hlen.
  apply lookup_lt_Some in Hi as Hlt.
  inversion Hn as [|? ? ? ? l0 l' A E E' P S1 S2 B]; subst; [done|]. cbn in E. injection E as <-.
  split.
  - unfold claims. rewrite E', S1, S2, !(proj2 (Z.leb_le _ _)) by lia. done.
  - destruct f' as [d' r' m' b']. cbn in E'. subst b'. cbn [look f_behind]. rewrite S1.
    cbn [buses_of f_behind] in Hi. destruct i as [|i]; cbn in Hi.
    + injection Hi as <-. rewrite (proj2 (Z.eqb_eq _ _)) by lia. by eapply reached_here.
    + rewrite (proj2 (Z.eqb_neq _ _)) by lia.
      pose proof (routed_below l IH _ _ _ _ _ dfn B ltac:(lia) Hi) as R.
      replace (lk + 1 + 1 + Z.of_nat i) with (lk + 1 + Z.of_nat (S i)) in R by lia. exact R.
Qed.

(** Every bus of a numbered machine. *)
Lemma all_routed h h' i gs dfn : numbered_bus 0 0 h h' -> (h :: buses_below h) !! i = Some gs ->
  reached gs dfn (look_bus 0 (Z.of_nat i) dfn h').
Proof.
  intros Hn Hi. unfold look_bus. destruct i as [|i]; cbn in Hi.
  - injection Hi as <-. by eapply reached_here.
  - rewrite (proj2 (Z.eqb_neq _ _)) by lia.
    pose proof (routed_below h ltac:(apply Forall_forall; intros; apply routed_all) _ _ _ _ _ dfn Hn ltac:(lia) Hi) as R.
    replace (0 + 1 + Z.of_nat i) with (Z.of_nat (S i)) in R by lia. exact R.
Qed.

(** ** The scan *)

Lemma pci_scan_root_spec fuel (s : pci_state machine) :
  mallocs (boot s) = [] -> regs s = [] -> systype (boot s) <> SYSTYPE_5K ->
  bus_ok (systype (boot s)) true 0 0 (hardware s) ->
  (depth_bus (hardware s) < fuel)%nat -> total (hardware s) <= 255 ->
  exists b s', pci_scan_root fuel s = Some ([b], s') /\
    abs b = Plan 0 (total (hardware s)) (map f_ids (hardware s)) (plans 0 (hardware s)) /\
    pci_devices (boot s') = found_bus 0 0 (hardware s) /\
    numbered_bus 0 0 (hardware s) (hardware s').
Proof.
  intros Hm Hr Ht Hok Hd Hmax. destruct (pirq_init_near s Ht) as (r & s1 & E1 & F & R1 & B1).
  destruct (near_list_ok F _ _ _ _ Hok) as (Hok1 & Hids & Hfound).
  set (s2 := set_boot (set_pci_devices [] (boot s1)) s1).
  destruct (root_spec (systype (boot s)) Ht fuel (hardware s1) pci_root_blank s2) as
    (sc & s' & h' & E & H' & Nb & [R' D'] & P1 & P2 & P3 & P4 & P5); try done.
  { split; cbn; by rewrite ?R1, ?B1. } { by rewrite (near_list_depth F). } { by rewrite (near_list_total F). }
  eexists _, s'. split.
  { unfold pci_scan_root, mbind, Run_bind. rewrite E1. unfold upd_boot, upd.
    change (set_boot (set_pci_devices [] (boot s1)) s1) with s2. cbv beta iota.  rewrite E. by rewrite P5. }
  split.
  { cbn. rewrite P1, P2, P3, P4, Hids, (near_list_total F), (near_list_plans F). done. }
  split; [by rewrite D', Hfound|]. rewrite H'. by eapply near_list_numbered.
Qed.

(** C13: the scan of a machine after reset that fits into 256 buses ends.  The tree of buses
    mirrors the machine: the devices of each bus in the order of their numbers, the buses
    numbered depth first, each with the last number behind it; the list of all devices has
    them in the order of the scan; and in the machine as the scan leaves it, an access to any
    bus number that was given reaches the functions of that bus, or nobody.  Left out are the
    5000 series, functions of ServerWorks, a 53C875 that is a bridge, bridges whose second
    base address is 64 bits wide (the scan clears their bus numbers), cardbus bridges with
    functions behind them, on the 3000 series functions behind a bridge with slot modulo 4
    and pin beyond the four lines, and identification registers that can be written; every
    allocation succeeds ([func_ok], [bus_ok]). *)
Theorem pci_scan_root_enumerates fuel (s : pci_state machine) :
  mallocs (boot s) = [] -> regs s = [] -> systype (boot s) <> SYSTYPE_5K ->
  bus_ok (systype (boot s)) true 0 0 (hardware s) ->
  (depth_bus (hardware s) < fuel)%nat -> total (hardware s) <= 255 ->
  exists b s', pci_scan_root fuel s = Some ([b], s') /\
    abs b = Plan 0 (total (hardware s)) (map f_ids (hardware s)) (plans 0 (hardware s)) /\
    pci_devices (boot s') = found_bus 0 0 (hardware s) /\
    forall i gs dfn, (hardware s :: buses_below (hardware s)) !! i = Some gs ->
      reached gs dfn (look_bus 0 (Z.of_nat i) dfn (hardware s')).
Proof.
  intros Hm Hr Ht Hok Hd Hmax.
  destruct (pci_scan_root_spec fuel s Hm Hr Ht Hok Hd Hmax) as (b & s' & E & A & D & N).
  exists b, s'. split_and!; try done. intros i gs dfn Hi. by eapply all_routed.
Qed.

(** ** A decision procedure for the condition, and a machine *)

Definition pin_okb (t : Z) (top : bool) (f : hfun) : bool :=
  negb (t =? SYSTYPE_3K) || top || (f_pin f <? 1) || (4 <? f_pin f) ||
  (PCI_SLOT (f_dfn f) mod 4 + (f_pin f - 1) <=? 3).

Definition func_okb (t : Z) (top : bool) (f : hfun) : bool :=
  (0 <=? f_dfn f) && (f_dfn f <? 256) &&
  forallb (fun a => f_mask f a =? 0) [0; 1; 2; 3; PCI_HTYPE; PCI_INTERRUPT_PIN] &&
  negb (f_vendor f =? 0) && negb (f_vendor f =? 0xffff) && negb (f_vendor f =? PCI_VENDOR_SERVERWORKS) &&
  pin_okb t top f &&
  match f_behind f with
  | None => negb (f_htype f =? PCI_HTYPE_PCI_BRIDGE) && negb (f_htype f =? PCI_HTYPE_CARDBUS_BRIDGE)
  | Some l =>
    ((f_htype f =? PCI_HTYPE_PCI_BRIDGE) ||
     (f_htype f =? PCI_HTYPE_CARDBUS_BRIDGE) && match l with [] => true | _ => false end) &&
    negb ((f_vendor f =? PCI_VENDOR_SYMBIOS) && (f_device f =? PCI_DEVICE_SYMBIOS_53C875)) &&
    forallb (fun a => f_mask f a =? 0xff) bus_regs &&
    negb (Z.testbit (f_regs f 0x14) 2) && negb (Z.testbit (f_mask f 0x14) 2)
  end.

Lemma func_okb_ok t top f : func_okb t top f = true -> func_ok t top f.
Proof.
  unfold func_okb. rewrite !andb_true_iff, !negb_true_iff, !Z.leb_le, !Z.ltb_lt, !Z.eqb_neq, forallb_forall.
  intros (((((((D1 & D2) & M) & V1) & V2) & V3) & P) & B).
  assert (Hpin : pin_ok t top f).
  { unfold pin_okb in P. rewrite !orb_true_iff, negb_true_iff, Z.eqb_neq, !Z.ltb_lt, Z.leb_le in P.
    unfold pin_ok. intros ->. destruct P as [[[[P|P]|P]|P]|P]; auto. }
  assert (HM : forall a, a ∈ [0; 1; 2; 3; PCI_HTYPE; PCI_INTERRUPT_PIN] -> f_mask f a = 0).
  { intros a Ha. by apply Z.eqb_eq, M, list_elem_of_In. }
  destruct (f_behind f) as [l|] eqn:E.
  - rewrite !andb_true_iff, !negb_true_iff, orb_true_iff, forallb_forall, !andb_true_iff, andb_false_iff, !Z.eqb_eq, !Z.eqb_neq in B.
    destruct B as ((((B1 & B2) & B3) & B4) & B5). split; rewrite ?E; try done.
    + intros H1 H2. by destruct B2.
    + intros _. destruct B1 as [B1 | [B1 B1']]; [by left|right]. split; [done|]. by destruct l.
    + intros _ a Ha. by apply Z.eqb_eq, B3, list_elem_of_In.
  - rewrite andb_true_iff, !negb_true_iff, !Z.eqb_neq in B. split; rewrite ?E; try done; intros [? ?]; done.
Qed.

Section Okb.
Context (t : Z) (top : bool) (deep : hfun -> bool).
Fixpoint funs_okb (mf lo : Z) (l : list hfun) : bool :=
  match l with
  | [] => true
  | g :: l =>
    func_okb t top g && (lo <=? f_dfn g) && ((PCI_FUNC (f_dfn g) =? 0) || negb (mf =? 0)) && deep g &&
    funs_okb (if PCI_FUNC (f_dfn g) =? 0 then f_multi g else mf) (f_dfn g + 1) l
  end.
End Okb.
Fixpoint tree_okb (t : Z) (f : hfun) : bool :=
  match f_behind f with
  | None => true
  | Some l => (SEC f =? 0) && (SUB f =? 0) && funs_okb t false (tree_okb t) 0 0 l
  end.
Definition bus_okb (t : Z) (top : bool) (l : list hfun) : bool := funs_okb t top (tree_okb t) 0 0 l.

Definition tree_ok (t : Z) (f : hfun) : Prop := tree_okb t f = true ->
  (is_Some (f_behind f) -> SEC f = 0 /\ SUB f = 0) /\
  forall gs, f_behind f = Some gs -> bus_ok t false 0 0 gs.

Lemma bus_okb_ok_of t top l : Forall (tree_ok t) l -> forall mf lo,
  funs_okb t top (tree_okb t) mf lo l = true -> bus_ok t top mf lo l.
Proof.
  induction 1 as [|f l Hf _ IH]; intros mf lo H; [constructor|]. cbn in H.
  rewrite !andb_true_iff, orb_true_iff, negb_true_iff, Z.leb_le, Z.eqb_eq, Z.eqb_neq in H.
  destruct H as ((((H1 & H2) & H3) & H4) & H5). destruct (Hf H4) as [F1 F2].
  constructor; auto. by apply func_okb_ok.
Qed.

Lemma tree_okb_ok t f : tree_ok t f.
Proof.
  induction f as [d r m|d r m l IH] using hfun_nested_ind.
  - intros _. split; [by intros [? ?]|done].
  - intros H. cbn [tree_okb f_behind] in H. rewrite !andb_true_iff, !Z.eqb_eq in H. destruct H as ((H1 & H2) & H3).
    split; [done|]. intros gs [= <-]. apply (bus_okb_ok_of t false l IH 0 0). exact H3.
Qed.

Lemma bus_okb_ok t top l : bus_okb t top l = true -> bus_ok t top 0 0 l.
Proof. apply bus_okb_ok_of, Forall_forall. intros. apply tree_okb_ok. Qed.

(** A board of the 3000 series: the host bridge, a bridge at 5.0 with a device of two
    functions and a second bridge with a network card behind it, a cardbus bridge at 7.0
    and a disk controller at 8.0. *)
Definition reg_file (l : list (Z * Z)) (a : Z) : Z :=
  match list_find (fun e => e.1 = a) l with Some (_, e) => e.2 | None => 0 end.
Definition id_regs (vendor device htype : Z) : list (Z * Z) :=
  [(0, vendor mod 256); (1, vendor / 256); (2, device mod 256); (3, device / 256); (PCI_HTYPE, htype)].
Definition card_mask (a : Z) : Z := if (a =? 4) || (a =? 0x11) || (a =? 0x3c) then 0xff else 0.
Definition bridge_mask (a : Z) : Z := if (a =? 4) || ((0x18 <=? a) && (a <=? 0x3c)) then 0xff else 0.
Definition card (dfn vendor device htype : Z) : hfun :=
  HFun dfn (reg_file (id_regs vendor device htype)) card_mask None.
Definition bridge_to (dfn vendor device htype : Z) (l : list hfun) : hfun :=
  HFun dfn (reg_file (id_regs vendor device htype)) bridge_mask (Some l).

Definition board : list hfun :=
  [card 0 0x10b9 0x1541 0;
   bridge_to (8 * 5) 0x1011 0x0024 1
     [card 0 0x100b 0x0020 0x80; card 1 0x100b 0x0021 0;
      bridge_to (8 * 4) 0x1011 0x0024 1 [card 0 0x8086 0x1229 0]];
   bridge_to (8 * 7) 0x104c 0xac51 2 [];
   card (8 * 8) 0x1103 0x0004 0].
Definition board_state : pci_state machine :=
  mk_pci_state board [] 0x10000000 0 [] (mk_boot_vars SYSTYPE_3K [] [] 0x3e0 0 [] 4 [] false).

Lemma pci_scan_root_enumerates_witness :
  exists b s', pci_scan_root 4 board_state = Some ([b], s') /\
    abs b = Plan 0 3 [(0, 0x10b9, 0x1541); (40, 0x1011, 0x24); (56, 0x104c, 0xac51); (64, 0x1103, 4)]
              [Plan 1 2 [(0, 0x100b, 0x20); (1, 0x100b, 0x21); (32, 0x1011, 0x24)]
                 [Plan 2 2 [(0, 0x8086, 0x1229)] []];
               Plan 3 3 [] []] /\
    reached [card 0 0x8086 0x1229 0] 0 (look_bus 0 2 0 (hardware s')).
Proof.
  destruct (pci_scan_root_enumerates 4 board_state eq_refl eq_refl ltac:(done)
    ltac:(apply bus_okb_ok; reflexivity) ltac:(cbv; lia) ltac:(done)) as (b & s' & E & A & _ & R).
  exists b, s'. split; [exact E|]. split; [rewrite A; reflexivity|].
  apply (R 2%nat [card 0 0x8086 0x1229 0] 0). reflexivity.
Defined.
