(* ===== verification/PirqProofs.v ===== *)
(** * PirqProofs: the routing table in memory and the distribution of interrupts

    [pirq_init] leaves a table whose bytes sum to zero and in which the slots of the board
    are found; [pciirq_5k] hands out the interrupts of a map in turn. *)

From S2P Require Import Prelude Region CmosIo PciIo Pci Acpi PciResource Mptable Pirq PciMachine.

(** ** The table *)

(** Bus and device number of the entries of a table. *)
Definition monterey_slots : list (Z * Z) :=
  [(0, 0x58); (0, 0x68); (0, 0x78); (1, 0x10); (1, 0x18); (1, 0x20); (1, 0x28)].
Definition alpine_slots : list (Z * Z) := [(0, 0x78); (1, 0x30); (1, 0x38); (1, 0x40)].

Definition slot_of (bus devfn : Z) (l : list (Z * Z)) : option nat :=
  fst <$> list_find (fun e => e = (bus, PCI_DEVFN (PCI_SLOT devfn) 0)) l.

(** The memory once a table is installed. *)
Definition installed (table m : list Z) (slots : list (Z * Z)) (m' : list Z) : Prop :=
  install_map table m = Some (0, m') /\ length m' = length m /\
  byte_sum (take (length table) m') mod 256 = 0 /\ drop (length table) m' = drop (length table) m /\
  forall bus devfn, find_slot bus devfn m' = Some (slot_of bus devfn slots).

(** One step of the search. *)
Lemma slot_loop_step k i b d m bus devfn : m !! slot_bus i = Some b -> m !! slot_devfn i = Some d ->
  slot_loop (S k) i bus devfn m = if decide ((b, d) = (bus, devfn)) then Some (Some i) else slot_loop k (S i) bus devfn m.
Proof.
  intros E1 E2. cbn [slot_loop]. rewrite E1, E2. cbn [mbind option_bind]. case_decide as E; [injection E as -> ->; by rewrite !Z.eqb_refl|].
  destruct (Z.eqb_spec b bus) as [->|]; [|done]. by destruct (Z.eqb_spec d devfn) as [->|].
Qed.

(** The entries in memory, from the [i]th on. *)
Fixpoint holds_slots (i : nat) (l : list (Z * Z)) (m : list Z) : Prop :=
  match l with
  | [] => True
  | e :: l => m !! slot_bus i = Some e.1 /\ m !! slot_devfn i = Some e.2 /\ holds_slots (S i) l m
  end.

Lemma slot_loop_spec bus devfn m l : forall i, holds_slots i l m ->
  slot_loop (length l) i bus devfn m = Some ((fun k => (i + k)%nat) <$> (fst <$> list_find (fun e => e = (bus, devfn)) l)).
Proof.
  induction l as [|[b d] l IH]; intros i H; [done|]. destruct H as (H1 & H2 & H). cbn [length list_find].
  rewrite (slot_loop_step _ _ b d) by done. case_decide; cbn; [do 2 f_equal; lia|].
  rewrite (IH _ H). destruct (list_find _ l) as [[k e]|]; cbn; [do 2 f_equal; lia|done].
Qed.

Lemma find_slot_spec l m bus devfn : PMAP_NSLOTS m = length l -> holds_slots 0 l m ->
  find_slot bus devfn m = Some (slot_of bus devfn l).
Proof.
  intros E H. unfold find_slot. rewrite E, slot_loop_spec by done. unfold slot_of.
  by destruct (list_find _ l) as [[k e]|].
Qed.

Lemma put_0 table m : put 0 table m = table ++ drop (length table) m.
Proof. done. Qed.

(** A table with its checksum. *)
Definition summed (table : list Z) : list Z := put pirq_checksum [sub_sum table 0] table.

Lemma installed_with table slots m :
  (length table <= length m)%nat -> (pirq_checksum < length table)%nat ->
  (forall rest, install_map table (table ++ rest) = Some (0, summed table ++ rest)) ->
  byte_sum (summed table) mod 256 = 0 ->
  (forall rest, PMAP_NSLOTS (summed table ++ rest) = length slots /\ holds_slots 0 slots (summed table ++ rest)) ->
  installed table m slots (summed table ++ drop (length table) m).
Proof.
  intros Hm Hc Hi Hs Hslots.
  assert (Hl : length (summed table) = length table) by (unfold summed; apply length_put; unfold pirq_checksum in *; simpl; lia).
  split_and!.
  - rewrite <- Hi. unfold install_map. rewrite length_app, length_drop.
    rewrite !(proj2 (Nat.ltb_ge _ _)) by lia. by rewrite !put_0, drop_app_length.
  - rewrite length_app, length_drop. lia.
  - by rewrite <- Hl, take_app_length.
  - rewrite <- Hl at 1. apply drop_app_length.
  - intros. destruct (Hslots (drop (length table) m)). by apply find_slot_spec.
Qed.

Lemma monterey_installed m : (144 <= length m)%nat ->
  installed pirq_map_5k_monterey m monterey_slots
    (summed pirq_map_5k_monterey ++ drop 144 m).
Proof.
  intros Hm. apply (installed_with pirq_map_5k_monterey); try done.
  by apply Nat.ltb_lt.
Qed.
Lemma alpine_installed m : (96 <= length m)%nat ->
  installed pirq_map_5k_alpine m alpine_slots (summed pirq_map_5k_alpine ++ drop 96 m).
Proof.
  intros Hm. apply (installed_with pirq_map_5k_alpine); try done.
  by apply Nat.ltb_lt.
Qed.

(** The table of a board and its slots. *)
Definition board_map (b : Z) : list Z * list (Z * Z) :=
  if b =? BOARDTYPE_MONTEREY then (pirq_map_5k_monterey, monterey_slots)
  else (pirq_map_5k_alpine, alpine_slots).

(** C28: on both boards of the 5000 series [pirq_init] succeeds and leaves in memory a table
    whose bytes sum to zero modulo 256, and nothing else changes there; the search for a slot
    finds, for every bus and every function number, the first entry of the table with the bus
    and the device, or none. *)
Theorem pirq_init_installs hw `{!IoPorts hw, !Config hw} (s : pci_state hw) :
  systype (boot s) = SYSTYPE_5K ->
  boardtype (boot s) = BOARDTYPE_MONTEREY \/ boardtype (boot s) = BOARDTYPE_ALPINE ->
  (144 <= length (pmap (boot s)))%nat ->
  let '(table, slots) := board_map (boardtype (boot s)) in
  exists s', pirq_init s = Some (0, s') /\
    let m := pmap (boot s') in
    length m = length (pmap (boot s)) /\ byte_sum (take (length table) m) mod 256 = 0 /\
    drop (length table) m = drop (length table) (pmap (boot s)) /\
    forall bus devfn, find_slot bus devfn m = Some (slot_of bus devfn slots).
Proof.
  intros Ht Hb Hm.
  assert (H : let '(table, slots) := board_map (boardtype (boot s)) in
    exists m', installed table (pmap (boot s)) slots m' /\ pirq_init s = use_map table s).
  { unfold board_map, pirq_init, pirq_init_5k, mbind, Run_bind, ask. rewrite Ht. cbv beta iota.
    change (SYSTYPE_5K =? SYSTYPE_3K) with false. change (SYSTYPE_5K =? SYSTYPE_5K) with true. cbv iota.
    destruct Hb as [-> | ->].
    - eexists. split; [by apply monterey_installed|done].
    - eexists. split; [apply alpine_installed; lia|done]. }
  destruct (board_map _) as [table slots]. destruct H as (m' & (E & H) & Ei).
  exists (set_boot (set_pmap m' (boot s)) s). split; [|exact H].
  rewrite Ei. unfold use_map, mbind, Run_bind, ask. by rewrite E.
Qed.

Lemma pirq_init_installs_witness :
  let v := mk_boot_vars (Z.lor SYSTYPE_5K BOARDTYPE_ALPINE) [] [] 0 0 (zeros 512) 4 [] false in
  exists s', pirq_init (hw:=machine) (mk_pci_state [] [] 0 0 [] v) = Some (0, s') /\
    find_slot 1 0x40 (pmap (boot s')) = Some (Some 3%nat).
Proof.
  intros v. destruct (pirq_init_installs machine (mk_pci_state [] [] 0 0 [] v) eq_refl (or_intror eq_refl)
    ltac:(by apply Nat.leb_le)) as (s' & E & _ & _ & _ & F).
  exists s'. split; [exact E|]. rewrite F. reflexivity.
Defined.

(** ** Taking turns *)

(** The interrupts of a map, and the order in which they come after [last]. *)
Definition irqs (map : Z) : list Z := filter (fun i => Z.testbit map i = true) (seqZ 0 16).
Definition cycle (last : Z) : list Z := seqZ (last + 1) (15 - last) ++ seqZ 0 (last + 1).
Definition queue (map last : Z) : list Z := filter (fun i => Z.testbit map i = true) (cycle last).

Lemma sixteen (P : Z -> Prop) : Forall P (seqZ 0 16) -> forall i, 0 <= i <= 15 -> P i.
Proof. intros H i Hi. rewrite Forall_forall in H. apply H, elem_of_seqZ. lia. Qed.

Lemma head_filter (f : Z -> bool) l : head (filter (fun i => f i = true) l) = List.find f l.
Proof.
  induction l as [|i l IH]; [done|]. rewrite filter_cons. cbn [List.find].
  case_decide as E; [by rewrite E|]. apply not_true_iff_false in E. by rewrite E.
Qed.

(** The search finds the first of the queue. *)
Lemma next_irq_queue map last : 0 <= last <= 15 -> next_irq 16 map last = head (queue map last).
Proof.
  intros Hl. unfold queue. rewrite head_filter. revert last Hl. apply sixteen.
  repeat (constructor; [reflexivity|]). constructor.
Qed.

(** The order after [x] is a rotation. *)
Lemma cycle_rotate last i : 0 <= last <= 15 -> (i < 16)%nat ->
  exists x, cycle last !! i = Some x /\ 0 <= x <= 15 /\
    cycle x = drop (S i) (cycle last) ++ take i (cycle last) ++ [x].
Proof.
  intros Hl Hi. revert last Hl. apply sixteen.
  do 16 (destruct i as [|i]; [repeat (constructor; [eexists; split; [reflexivity|split; [lia|reflexivity]]|]); constructor|]).
  lia.
Qed.

Lemma filter_first (P : Z -> Prop) {dec : forall x, Decision (P x)} l x q : filter P l = x :: q ->
  exists i, l !! i = Some x /\ filter P (take i l) = [] /\ filter P (drop (S i) l) = q /\ P x.
Proof.
  induction l as [|y l IH]; [done|]. rewrite filter_cons. case_decide as E.
  - intros [= <- <-]. by exists 0%nat.
  - intros H. destruct (IH H) as (i & H1 & H2 & H3 & H4). exists (S i). cbn [lookup take drop].
    split_and!; try done. rewrite filter_cons. by rewrite decide_False.
Qed.

(** What was taken goes to the end of the queue. *)
Lemma queue_rotates map last x q : 0 <= last <= 15 -> queue map last = x :: q ->
  queue map x = q ++ [x] /\ 0 <= x <= 15.
Proof.
  intros Hl H. apply filter_first in H as (i & H1 & H2 & H3 & H4).
  assert (Hi : (i < 16)%nat).
  { apply lookup_lt_Some in H1. unfold cycle in H1. rewrite length_app, !length_seqZ in H1. lia. }
  destruct (cycle_rotate last i Hl Hi) as (y & E1 & Hy & E2). assert (y = x) as -> by congruence.
  unfold queue. rewrite E2, !filter_app, H2, H3. cbn [app]. split; [|done]. f_equal.
  rewrite filter_cons, decide_True by done. done.
Qed.

Lemma queue_perm map last : 0 <= last <= 15 -> Permutation (queue map last) (irqs map).
Proof.
  intros Hl. unfold queue, irqs. apply filter_Permutation. revert last Hl. apply sixteen.
  repeat (constructor; [unfold cycle; rewrite Permutation_app_comm; reflexivity|]). constructor.
Qed.

Section Turns.
Context {hw : Type} `{!IoPorts hw, !Config hw, !Mmio hw}.

(** One call takes the first of the queue. *)
Lemma pciirq_5k_takes index map (s : pci_state hw) x q :
  0 <= pirq_last (boot s) <= 15 -> queue (u16 map) (pirq_last (boot s)) = x :: q ->
  exists s', pciirq_5k index map s = Some (x, s') /\ pirq_last (boot s') = x.
Proof.
  intros Hl Hq. unfold pciirq_5k, mbind, Run_bind, ask. rewrite next_irq_queue, Hq by done.
  by eexists.
Qed.

(** The interrupts of as many calls as there are. *)
Lemma turns idxs map : forall (s : pci_state hw) q r,
  0 <= pirq_last (boot s) <= 15 -> queue (u16 map) (pirq_last (boot s)) = q ++ r -> length idxs = length q ->
  exists s', map_run (fun index => pciirq_5k index map) idxs s = Some (q, s').
Proof.
  induction idxs as [|index idxs IH]; intros s q r Hl Hq Hlen.
  - destruct q; [|done]. by exists s.
  - destruct q as [|x q]; [done|]. cbn [app] in Hq.
    destruct (pciirq_5k_takes index map s x (q ++ r) Hl Hq) as (s1 & E1 & L1).
    destruct (queue_rotates _ _ _ _ Hl Hq) as [R Hx]. cbn [map_run].
    destruct (IH s1 q (r ++ [x])) as (s2 & E2); [by rewrite L1|by rewrite L1, R, app_assoc|by injection Hlen|].
    exists s2. unfold mbind, Run_bind. by rewrite E1, E2.
Qed.

End Turns.

(** C29: [pciirq_5k] serves every interrupt of a map: as many calls in a row as the map has
    interrupts, for any inputs of the router, give each of them once, whatever was given out
    before; one call for a map without interrupts does not return. *)
Theorem pciirq_5k_fair hw `{!IoPorts hw, !Config hw, !Mmio hw} idxs map (s : pci_state hw) :
  0 <= pirq_last (boot s) <= 15 ->
  (length idxs = length (irqs (u16 map)) -> exists l s',
     map_run (fun index => pciirq_5k index map) idxs s = Some (l, s') /\ Permutation l (irqs (u16 map))) /\
  (irqs (u16 map) = [] -> forall index, pciirq_5k index map s = None).
Proof.
  intros Hl. pose proof (queue_perm (u16 map) _ Hl) as P. split.
  - intros Hlen. destruct (turns idxs map s (queue (u16 map) (pirq_last (boot s))) [] Hl) as (s' & E).
    { by rewrite app_nil_r. } { by rewrite P. }
    by eexists _, s'.
  - intros Hn index. rewrite Hn in P. apply Permutation_nil_r in P.
    unfold pciirq_5k, mbind, Run_bind, ask. by rewrite next_irq_queue, P by done.
Qed.

(** Four devices on the interrupts for PCI. *)
Lemma pciirq_5k_fair_witness :
  let s := mk_pci_state [] [] 0 0 [] (mk_boot_vars 0 [] [] 0 7 [] 4 [] false) in
  exists l s', map_run (fun index => pciirq_5k (hw:=machine) index IRQMAP_PCI) [0x10; 0x11; 0x12; 0x13] s = Some (l, s') /\
    Permutation l [5; 7; 11; 12].
Proof.
  intros s. destruct (proj1 (pciirq_5k_fair machine [0x10; 0x11; 0x12; 0x13] IRQMAP_PCI s
    ltac:(split; done)) eq_refl) as (l & s' & E & P).
  exists l, s'. split; [exact E|exact P].
Defined.
