(* ===== verification/MptableProofs.v ===== *)
(** * MptableProofs: the tables an operating system reads

    A reader of the multiprocessor tables after the documentation in [mptable.h]: it finds
    the configuration table through the floating pointer, checks the signatures and the
    sums, and takes the entries apart.  Here are the lemmas that it reads back the bytes of
    an entry ([Entry]) and of a list of entries; [MptableBuild] shows
    what the code writes. *)

From stdpp Require Import strings.
From S2P Require Import Prelude CmosIo PciIo Pci Acpi Mptable.
Open Scope list_scope.
Open Scope Z_scope.

(** ** The reader *)

(** An entry of the configuration table, with its fields. *)
Inductive mp_entry :=
| E_CPU (id version enable bsp stepping model family features : Z)
| E_BUS (id : Z) (type : list Z)
| E_IOAPIC (id version enable address : Z)
| E_INT (e : mptable_INT).

(** An extended entry. *)
Inductive mp_ext :=
| X_ADDR (bus type base len : Z)
| X_TREE (bus decode parent : Z)
| X_COMPAT (bus modifier range : Z).

Definition bits (lo n v : Z) : Z := Z.land (Z.shiftr v lo) (Z.ones n).
Definition byte (i : nat) (bs : list Z) : Z := default 0 (bs !! i).

Definition decode_cpu (bs : list Z) : mp_entry :=
  E_CPU (byte 1 bs) (byte 2 bs) (bits 0 1 (byte 3 bs)) (bits 1 1 (byte 3 bs))
    (bits 0 4 (get32 4 bs)) (bits 4 4 (get32 4 bs)) (bits 8 4 (get32 4 bs)) (get32 8 bs).
Definition decode_int (bs : list Z) : mp_entry :=
  E_INT (mk_mptable_INT (byte 0 bs) (byte 1 bs) (bits 0 2 (get16 2 bs)) (bits 2 2 (get16 2 bs))
           (byte 4 bs) (byte 5 bs) (byte 6 bs) (byte 7 bs)).

(** The first entry: the type says how long it is. *)
Definition decode_entry (bs : list Z) : option (nat * mp_entry) :=
  match bs with
  | [] => None
  | t :: _ =>
    if t =? mp_entry_CPU then Some (20%nat, decode_cpu bs)
    else if t =? mp_entry_BUS then Some (8%nat, E_BUS (byte 1 bs) (sub 2 6 bs))
    else if t =? mp_entry_IOAPIC
    then Some (8%nat, E_IOAPIC (byte 1 bs) (byte 2 bs) (bits 0 1 (byte 3 bs)) (get32 4 bs))
    else if (t =? mp_entry_IOINT) || (t =? mp_entry_LocalINT) then Some (8%nat, decode_int bs)
    else None
  end.

Fixpoint read_entries (count : nat) (bs : list Z) : option (list mp_entry * list Z) :=
  match count with
  | O => Some ([], bs)
  | S count =>
    '(n, e) ← decode_entry bs;
    '(es, rest) ← read_entries count (drop n bs);
    Some (e :: es, rest)
  end.

(** Extended entries say how long they are. *)
Definition decode_ext (bs : list Z) : option (nat * mp_ext) :=
  match bs with
  | t :: n :: _ =>
    if t =? mp_entry_SysAddrMap
    then Some (Z.to_nat n, X_ADDR (byte 2 bs) (byte 3 bs) (le_val (sub 4 8 bs)) (le_val (sub 12 8 bs)))
    else if t =? mp_entry_BusTree then Some (Z.to_nat n, X_TREE (byte 2 bs) (bits 0 1 (byte 3 bs)) (byte 4 bs))
    else if t =? mp_entry_BusCompat
    then Some (Z.to_nat n, X_COMPAT (byte 2 bs) (bits 0 1 (byte 3 bs)) (get32 4 bs))
    else None
  | _ => None
  end.

Fixpoint read_exts (fuel : nat) (bs : list Z) : option (list mp_ext) :=
  match bs with
  | [] => Some []
  | _ =>
    match fuel with
    | O => None
    | S fuel => '(n, e) ← decode_ext bs; es ← read_exts fuel (drop n bs); Some (e :: es)
    end
  end.

Definition sums_to_zero (bs : list Z) : bool := byte_sum bs mod 256 =? 0.

(** From the memory at [MP_BASE_ADDRESS]: the entries, the extended entries and the address
    of the local controllers. *)
Definition read_tables (m : list Z) : option (list mp_entry * list mp_ext * Z) :=
  let fl := sub 0 16 m in
  if negb ((get32 0 fl =? MPTABLE_FLPOINTER_SIG) && sums_to_zero fl) then None
  else
    let at_ := Z.to_nat (get32 4 fl - MP_BASE_ADDRESS) in
    let base := drop at_ m in
    let len := Z.to_nat (get16 4 base) in
    let ext := sub len (Z.to_nat (get16 40 base)) base in
    if negb ((get32 0 base =? MPTABLE_CFHEADER_SIG) && sums_to_zero (take len base) &&
             sums_to_zero (byte 42 base :: ext)) then None
    else
      '(es, rest) ← read_entries (Z.to_nat (get16 34 base)) (sub 44 (len - 44) base);
      match rest with
      | [] => xs ← read_exts (length ext) ext; Some (es, xs, get32 36 base)
      | _ => None
      end.

(** ** Entries and their bytes *)

(** What [mptable.c] writes for a value that reads back as it. *)
Class Entry (A : Type) (encode : A -> list Z) (decode : list Z -> option (nat * A)) (ok : A -> Prop) := {
  entry_bytes : forall a, ok a -> (0 < length (encode a))%nat;
  entry_decode : forall a rest, ok a -> decode (encode a ++ rest) = Some (length (encode a), a);
}.

Definition encode_entry (e : mp_entry) : list Z :=
  match e with
  | E_CPU id version _ bsp stepping model family features =>
    cpu_bytes (mk_cpu_info family model stepping features bsp id version)
  | E_BUS id type => bus_bytes id type
  | E_IOAPIC id version _ address => ioapic_bytes id version address
  | E_INT e => int_bytes e
  end.

(** Fields within their widths. *)
Definition int_ok (e : mptable_INT) : Prop :=
  (int_entry e = mp_entry_IOINT \/ int_entry e = mp_entry_LocalINT) /\ 0 <= int_type e < 256 /\
  0 <= int_polarity e < 4 /\ 0 <= int_trigger e < 4 /\ 0 <= int_bus e < 256 /\ 0 <= int_irq e < 256 /\
  0 <= int_dest_id e < 256 /\ 0 <= int_dest_input e < 256.
Definition entry_ok (e : mp_entry) : Prop :=
  match e with
  | E_CPU id version enable bsp stepping model family features =>
    0 <= id < 256 /\ 0 <= version < 256 /\ enable = 1 /\ 0 <= bsp < 2 /\ 0 <= stepping < 16 /\
    0 <= model < 16 /\ 0 <= family < 16 /\ 0 <= features < 4294967296
  | E_BUS id type => 0 <= id < 256 /\ length type = 6%nat
  | E_IOAPIC id version enable address =>
    0 <= id < 256 /\ 0 <= version < 256 /\ enable = 1 /\ 0 <= address < 4294967296
  | E_INT e => int_ok e
  end.

Definition encode_ext (e : mp_ext) : list Z :=
  match e with
  | X_ADDR bus type base len => addr_map_bytes bus type base len
  | X_TREE bus decode parent => bus_tree_bytes bus decode parent
  | X_COMPAT bus mod_ range => bus_compat_bytes bus mod_ range
  end.
Definition ext_ok (e : mp_ext) : Prop :=
  match e with
  | X_ADDR bus type base len =>
    0 <= bus < 256 /\ 0 <= type < 256 /\ 0 <= base < 4294967296 /\ 0 <= len < 4294967296
  | X_TREE bus decode parent => 0 <= bus < 256 /\ 0 <= decode < 2 /\ 0 <= parent < 256
  | X_COMPAT bus mod_ range => 0 <= bus < 256 /\ 0 <= mod_ < 2 /\ 0 <= range < 4294967296
  end.


(** A little-endian field at the start of what is left. *)
Lemma get16_le v rest : 0 <= v < 65536 -> get16 0 (le_bytes 2 v ++ rest) = v.
Proof.
  intros. unfold get16, sub. rewrite drop_0, take_app_length' by done. rewrite le_val_bytes16. by apply u16_small.
Qed.
Lemma get32_le v rest : 0 <= v < 4294967296 -> get32 0 (le_bytes 4 v ++ rest) = v.
Proof.
  intros. unfold get32, sub. rewrite drop_0, take_app_length' by done. rewrite le_val_bytes32. by apply u32_small.
Qed.

(** A bit field below another. *)
Lemma bits_low k a b : 0 <= k -> 0 <= a < 2 ^ k -> bits 0 k (Z.lor a (Z.shiftl b k)) = a.
Proof.
  intros Hk Ha. unfold bits. rewrite Z.shiftr_0_r, Z.land_lor_distr_l, Z.land_ones by done.
  rewrite Z.mod_small by done. rewrite Z.land_ones, Z.shiftl_mul_pow2, Z_mod_mult by done. apply Z.lor_0_r.
Qed.
Lemma bits_high k n a b : 0 <= k -> 0 <= n -> 0 <= a < 2 ^ k -> 0 <= b < 2 ^ n -> bits k n (Z.lor a (Z.shiftl b k)) = b.
Proof.
  intros Hk Hn Ha Hb. unfold bits. rewrite Z.shiftr_lor, Z.shiftr_div_pow2, Z.div_small by done.
  rewrite Z.shiftr_shiftl_l, Z.sub_diag, Z.shiftl_0_r, Z.lor_0_l, Z.land_ones by lia. by apply Z.mod_small.
Qed.

Lemma bits_below lo n k a b : 0 <= lo -> 0 <= n -> lo + n <= k -> bits lo n (Z.lor a (Z.shiftl b k)) = bits lo n a.
Proof.
  intros Hl Hn Hk. unfold bits. apply Z.bits_inj_iff'. intros i Hi.
  rewrite !Z.land_spec, !Z.shiftr_spec, Z.lor_spec by lia.
  destruct (decide (i < n)).
  - rewrite (Z.shiftl_spec_low b) by lia. by rewrite orb_false_r.
  - rewrite (Z.ones_spec_high n i) by lia. by rewrite !andb_false_r.
Qed.
Lemma field_range k n a b : 0 <= k -> 0 <= n -> 0 <= a < 2 ^ k -> 0 <= b < 2 ^ n ->
  0 <= Z.lor a (Z.shiftl b k) < 2 ^ (k + n).
Proof. intros. rewrite Z.lor_comm, lor_shifted, Z.pow_add_r by lia. nia. Qed.

Lemma land_mask k m a : m = Z.ones k -> 0 <= k -> 0 <= a < 2 ^ k -> Z.land a m = a.
Proof. intros -> ??. rewrite Z.land_ones by lia. by apply Z.mod_small. Qed.

Lemma sub_here n bs rest : length bs = n -> sub 0 n (bs ++ rest) = bs.
Proof. intros <-. unfold sub. by rewrite drop_0, take_app_length. Qed.

(** A processor as its entry shows it. *)
Lemma decode_cpu_bytes id version bsp stepping model family features rest :
  entry_ok (E_CPU id version 1 bsp stepping model family features) ->
  decode_cpu (cpu_bytes (mk_cpu_info family model stepping features bsp id version) ++ rest) =
  E_CPU id version 1 bsp stepping model family features.
Proof.
  intros (H1 & H2 & _ & H3 & H4 & H5 & H6 & H7). unfold cpu_bytes. cbn [apic_id apic_version Mptable.bsp cpu_stepping cpu_model cpu_family feature_mask].
  rewrite (land_mask 4 0xf stepping), (land_mask 4 0xf model), (land_mask 4 0xf family), (land_mask 1 1 bsp), !u8_small by (done || lia).
  set (v := Z.lor (Z.lor stepping (Z.shiftl model 4)) (Z.shiftl family 8)).
  assert (Hin : 0 <= Z.lor stepping (Z.shiftl model 4) < 2 ^ 8) by (apply (field_range 4 4); lia).
  assert (Hv : 0 <= v < 2 ^ 12) by (apply (field_range 8 4); lia).
  rewrite <- !app_assoc. unfold decode_cpu.
  change (get32 4 _) with (get32 0 (le_bytes 4 v ++ le_bytes 4 features ++ zeros 8 ++ rest)).
  change (get32 8 _) with (get32 0 (le_bytes 4 features ++ zeros 8 ++ rest)).
  rewrite !get32_le by lia.
  change (byte 1 _) with id. change (byte 2 _) with version. change (byte 3 _) with (Z.lor 1 (Z.shiftl bsp 1)).
  rewrite (bits_low 1), (bits_high 1 1) by lia. unfold v.
  rewrite !(bits_below _ _ 8), (bits_low 4), (bits_high 4 4), (bits_high 8 4) by lia. done.
Qed.

Lemma decode_int_bytes e rest : int_ok e -> decode_int (int_bytes e ++ rest) = E_INT e.
Proof.
  destruct e as [en ty po tr bu ir di dn]. intros (He & H1 & H2 & H3 & H4 & H5 & H6 & H7). cbn in He, H1, H2, H3, H4, H5, H6, H7.
  assert (He' : 0 <= en < 256) by (destruct He as [-> | ->]; unfold mp_entry_IOINT, mp_entry_LocalINT; lia).
  unfold int_bytes. cbn [int_entry int_type int_polarity int_trigger int_bus int_irq int_dest_id int_dest_input].
  rewrite (land_mask 2 3 po), (land_mask 2 3 tr), !u8_small by (done || lia).
  set (v := Z.lor po (Z.shiftl tr 2)). assert (Hv : 0 <= v < 2 ^ 4) by (apply (field_range 2 2); lia).
  rewrite <- !app_assoc. unfold decode_int.
  change (get16 2 _) with (get16 0 (le_bytes 2 v ++ [bu; ir; di; dn] ++ rest)).
  rewrite get16_le by lia. unfold v. by rewrite (bits_low 2), (bits_high 2 2) by lia.
Qed.

#[export] Instance entry_decodes : Entry mp_entry encode_entry decode_entry entry_ok.
Proof.
  split.
  - intros [] H; simpl in H |- *; len.
  - intros [id ver en bsp st mo fa fe|id ty|id ver en ad|e] rest H.
    + destruct (H) as (_ & _ & -> & _).
      change (Some (20%nat, decode_cpu (cpu_bytes (mk_cpu_info fa mo st fe bsp id ver) ++ rest)) = Some (20%nat, E_CPU id ver 1 bsp st mo fa fe)).
      by rewrite decode_cpu_bytes.
    + destruct H as (H1 & H2). simpl encode_entry. unfold bus_bytes. rewrite u8_small, take_ge by lia.
      change (Some (8%nat, E_BUS id (sub 0 6 (ty ++ rest))) = Some (length ([mp_entry_BUS; id] ++ ty), E_BUS id ty)).
      rewrite sub_here by done. by rewrite length_app, H2.
    + destruct H as (H1 & H2 & -> & H3). simpl encode_entry. unfold ioapic_bytes. rewrite !u8_small by lia.
      change (Some (8%nat, E_IOAPIC id ver 1 (get32 0 (le_bytes 4 ad ++ rest))) = Some (8%nat, E_IOAPIC id ver 1 ad)).
      by rewrite get32_le by lia.
    + simpl encode_entry. transitivity (Some (8%nat, decode_int (int_bytes e ++ rest))).
      * destruct e as [en ty po tr bu ir di dn]. destruct H as [[H|H] _]; simpl in H; by subst en.
      * by rewrite decode_int_bytes.
Qed.

#[export] Instance ext_decodes : Entry mp_ext encode_ext decode_ext ext_ok.
Proof.
  split.
  - intros [] H; simpl; len.
  - intros [bus ty base n|bus de pa|bus mo ra] rest H; simpl encode_ext.
    + destruct H as (H1 & H2 & H3 & H4). unfold addr_map_bytes. rewrite !u8_small, !u32_small by lia.
      rewrite <- !app_assoc.
      change (Some (20%nat, X_ADDR bus ty (le_val (sub 0 8 (le_bytes 8 base ++ le_bytes 8 n ++ rest)))
                 (le_val (sub 0 8 (le_bytes 8 n ++ rest)))) = Some (20%nat, X_ADDR bus ty base n)).
      rewrite !sub_here, !le_val_le_bytes by done. change (256 ^ Z.of_nat 8) with (2 ^ 64). by rewrite !Z.mod_small by lia.
    + destruct H as (H1 & H2 & H3). unfold bus_tree_bytes. rewrite !u8_small, (land_mask 1 1 de) by (done || lia).
      change (Some (8%nat, X_TREE bus (bits 0 1 de) pa) = Some (8%nat, X_TREE bus de pa)).
      unfold bits. by rewrite Z.shiftr_0_r, (land_mask 1 (Z.ones 1) de) by (done || lia).
    + destruct H as (H1 & H2 & H3). unfold bus_compat_bytes. rewrite !u8_small, (land_mask 1 1 mo) by (done || lia).
      change (Some (8%nat, X_COMPAT bus (bits 0 1 mo) (get32 0 (le_bytes 4 ra ++ rest))) = Some (8%nat, X_COMPAT bus mo ra)).
      rewrite get32_le by (done || lia). unfold bits. by rewrite Z.shiftr_0_r, (land_mask 1 (Z.ones 1) mo) by (done || lia).
Qed.

(** ** Lists of entries *)

Definition entries_bytes (es : list mp_entry) : list Z := concat (encode_entry <$> es).
Definition exts_bytes (xs : list mp_ext) : list Z := concat (encode_ext <$> xs).

Lemma read_entries_bytes es rest : Forall entry_ok es ->
  read_entries (length es) (entries_bytes es ++ rest) = Some (es, rest).
Proof.
  induction 1 as [|e es He _ IH]; [done|]. change (entries_bytes (e :: es)) with (encode_entry e ++ entries_bytes es).
  rewrite <- app_assoc. cbn [length read_entries]. rewrite entry_decode by done. cbn [mbind option_bind].
  rewrite drop_app_length, IH. done.
Qed.

Lemma read_exts_bytes xs : Forall ext_ok xs -> forall fuel, (length xs <= fuel)%nat ->
  read_exts fuel (exts_bytes xs) = Some xs.
Proof.
  induction 1 as [|x xs Hx _ IH]; intros fuel Hf; [by destruct fuel|]. simpl in Hf. destruct fuel as [|fuel]; [lia|].
  change (exts_bytes (x :: xs)) with (encode_ext x ++ exts_bytes xs). cbn [read_exts].
  pose proof (entry_bytes x Hx) as Hb. destruct (encode_ext x ++ exts_bytes xs) as [|b bs] eqn:E.
  { destruct (encode_ext x); [simpl in Hb; lia|done]. }
  rewrite <- E, entry_decode by done. cbn [mbind option_bind]. rewrite drop_app_length, IH by lia. done.
Qed.
