(* ===== verification/MptableBuild.v ===== *)
(** * MptableBuild: what the functions of mptable.c add to the tables

    The memory of the tables as an image of lists of entries, and for every function the
    entries it adds.  Registers of the I/O controllers keep their values ([Controllers]). *)

From stdpp Require Import strings.
From S2P Require Import Prelude CmosIo PciIo Pci Acpi Mptable MptableProofs.
Open Scope list_scope.
Open Scope Z_scope.

(** ** Computations that append to a list *)

Section Growing.
Context {S E : Type} (T : list E -> S -> Prop) (fit : list E -> Prop).

(** [m] returns [a] and adds [es] to the list, where there is room for it. *)
Definition grows {A} (m : Run S A) (a : A) (es : list E) : Prop :=
  forall l s, T l s -> fit (l ++ es) -> exists s', m s = Some (a, s') /\ T (l ++ es) s'.

Lemma grows_ret {A} (a : A) : grows (mret a) a [].
Proof. intros l s HT _. exists s. by rewrite app_nil_r. Qed.

Lemma grows_bind {A B} (m : Run S A) (k : A -> Run S B) a b es1 es2 :
  (forall l l', fit (l ++ l') -> fit l) -> grows m a es1 -> grows (k a) b es2 -> grows (m ≫= k) b (es1 ++ es2).
Proof.
  intros Hf Hm Hk l s HT Hfit. rewrite app_assoc in Hfit.
  destruct (Hm l s HT (Hf _ _ Hfit)) as (s1 & E1 & HT1). destruct (Hk _ s1 HT1 Hfit) as (s2 & E2 & HT2).
  exists s2. rewrite app_assoc. split; [|done]. unfold mbind, Run_bind. by rewrite E1.
Qed.

End Growing.

(** ** The image of the tables *)

Definition flpointer_with (c : Z) : list Z :=
  le_bytes 4 MPTABLE_FLPOINTER_SIG ++ le_bytes 4 (MP_BASE_ADDRESS + Z.of_nat FLPOINTER_SIZE) ++
  [1; MP_SPEC_REV; c] ++ zeros 5.

Section Image.
Context (prod_id : list Z) (apic : Z) (m0 : list Z).

(** The parts of the header between the fields that change. *)
Definition head_id (c : Z) : list Z := [MP_SPEC_REV; c] ++ MP_OEM_ID ++ take 12 prod_id ++ zeros 6.
Definition header (c x : Z) (len count ext : nat) : list Z :=
  le_bytes 4 MPTABLE_CFHEADER_SIG ++ le_bytes 2 (Z.of_nat len) ++ head_id c ++
  le_bytes 2 (Z.of_nat count) ++ le_bytes 4 apic ++ le_bytes 2 (Z.of_nat ext) ++ [x; 0].

(** How much the tables take. *)
Definition base_len (es : list mp_entry) : nat := 44 + length (entries_bytes es).
Definition used (es : list mp_entry) (xs : list mp_ext) : nat :=
  16 + base_len es + length (exts_bytes xs).
Definition fits (es : list mp_entry) (xs : list mp_ext) : Prop := (used es xs <= length m0)%nat.

(** The memory with the tables in it, and the checksums [f], [c] and [x]. *)
Definition image (f c x : Z) (es : list mp_entry) (xs : list mp_ext) : list Z :=
  flpointer_with f ++ header c x (base_len es) (length es) (length (exts_bytes xs)) ++
  entries_bytes es ++ exts_bytes xs ++ drop (used es xs) m0.

Lemma entries_bytes_app a b : entries_bytes (a ++ b) = entries_bytes a ++ entries_bytes b.
Proof. unfold entries_bytes. by rewrite fmap_app, concat_app. Qed.
Lemma exts_bytes_app a b : exts_bytes (a ++ b) = exts_bytes a ++ exts_bytes b.
Proof. unfold exts_bytes. by rewrite fmap_app, concat_app. Qed.
Lemma entries_bytes_one e : entries_bytes [e] = encode_entry e.
Proof. unfold entries_bytes. simpl. apply app_nil_r. Qed.
Lemma exts_bytes_one x : exts_bytes [x] = encode_ext x.
Proof. unfold exts_bytes. simpl. apply app_nil_r. Qed.

Lemma fits_entries xs a b : fits (a ++ b) xs -> fits a xs.
Proof. unfold fits, used, base_len. rewrite entries_bytes_app. len. Qed.
Lemma fits_exts es a b : fits es (a ++ b) -> fits es a.
Proof. unfold fits, used, base_len. rewrite exts_bytes_app. len. Qed.

(** An entry takes a byte at least, so there are no more entries than bytes. *)
Lemma length_entries es : Forall entry_ok es -> (length es <= length (entries_bytes es))%nat.
Proof.
  induction 1 as [|e es He _ IH]; [done|]. change (entries_bytes (e :: es)) with (encode_entry e ++ entries_bytes es).
  pose proof (entry_bytes e He). rewrite length_app. simpl. lia.
Qed.

Context (Hprod : (12 <= length prod_id)%nat).

Lemma length_head_id c : length (head_id c) = 28%nat.
Proof. unfold head_id. rewrite !length_app, length_take, length_zeros. rewrite Nat.min_l by done. done. Qed.
Lemma length_header c x len count ext : length (header c x len count ext) = 44%nat.
Proof. unfold header. rewrite !length_app, !length_le_bytes, length_head_id. done. Qed.
Lemma length_flpointer f : length (flpointer_with f) = 16%nat.
Proof. done. Qed.
Lemma length_image f c x es xs : fits es xs -> length (image f c x es xs) = length m0.
Proof.
  unfold fits, image, used, base_len. intros. rewrite !length_app, length_header, length_flpointer, length_drop. lia.
Qed.

End Image.

(** ** Stores *)

Lemma put_here P bs R : put (length P) bs (P ++ R) = P ++ bs ++ drop (length bs) R.
Proof.
  unfold put. rewrite take_app_length, <- drop_drop, drop_app_length. done.
Qed.
Lemma get16_here P v R : 0 <= v < 65536 -> get16 (length P) (P ++ le_bytes 2 v ++ R) = v.
Proof. intros. unfold get16, sub. rewrite drop_app_length. by apply get16_le. Qed.

Section Stores.
Context {hw : Type}.
Implicit Types s : mp_state hw.

Lemma mp_store_here P bs R s : mp_mem s = P ++ R -> (length bs <= length R)%nat ->
  mp_store (length P) bs s = Some (tt, set_mem (P ++ bs ++ drop (length bs) R) s).
Proof.
  intros E Hl. unfold mp_store. rewrite E, put_here, length_app.
  by replace (_ <=? _)%nat with true by (symmetry; apply Nat.leb_le; lia).
Qed.

Lemma mp_add16_here P v R n s : mp_mem s = P ++ le_bytes 2 v ++ R -> 0 <= v < 65536 ->
  mp_add16 (length P) n s = Some (tt, set_mem (P ++ le_bytes 2 (v + n) ++ R) s).
Proof.
  intros E Hv. unfold mp_add16, mp_ask. unfold mbind at 1, Run_bind at 1.
  rewrite E, get16_here by done. erewrite mp_store_here by (exact E || (rewrite length_app, !length_le_bytes; lia)).
  rewrite length_le_bytes, drop_app_length' by done. done.
Qed.

End Stores.

(** ** What the tables say *)

(** The entries of processors and buses. *)
Definition cpu_entry (c : cpu_info) : mp_entry :=
  E_CPU (u8 (apic_id c)) (u8 (apic_version c)) 1 (Z.land (bsp c) 1) (Z.land (cpu_stepping c) 0xf)
    (Z.land (cpu_model c) 0xf) (Z.land (cpu_family c) 0xf) (u32 (feature_mask c)).
Definition bus_entry (type : list Z) (n : Z) : mp_entry := E_BUS (u8 n) type.
Lemma land_twice a m : Z.land (Z.land a m) m = Z.land a m.
Proof. by rewrite <- Z.land_assoc, Z.land_diag. Qed.
Lemma u8_twice v : u8 (u8 v) = u8 v.
Proof. apply Z.mod_mod. lia. Qed.
Lemma le_bytes_u32 v : le_bytes 4 (u32 v) = le_bytes 4 v.
Proof.
  rewrite <- (le_bytes_le_val (le_bytes 4 (u32 v))), <- (le_bytes_le_val (le_bytes 4 v)) by apply bytes_ok_le_bytes.
  rewrite !length_le_bytes, !le_val_bytes32. f_equal. unfold u32. by rewrite Z.mod_mod.
Qed.
Lemma cpu_entry_bytes c : encode_entry (cpu_entry c) = cpu_bytes c.
Proof.
  unfold cpu_entry, encode_entry, cpu_bytes.
  cbn [apic_id apic_version bsp cpu_stepping cpu_model cpu_family feature_mask].
  by rewrite !u8_twice, !land_twice, le_bytes_u32.
Qed.
Lemma land_low k m v : m = Z.ones k -> 0 <= k -> 0 <= Z.land v m < 2 ^ k.
Proof. intros -> Hk. rewrite Z.land_ones by done. apply Z.mod_pos_bound. lia. Qed.
Lemma cpu_entry_ok c : entry_ok (cpu_entry c).
Proof.
  refine (conj (u8_bounds _) (conj (u8_bounds _) (conj eq_refl (conj _ (conj _ (conj _ (conj _ (u32_range _)))))))).
  - by apply (land_low 1).
  - by apply (land_low 4).
  - by apply (land_low 4).
  - by apply (land_low 4).
Qed.

(** The buses in the order of the walk. *)
Fixpoint preorder (b : pci_bus) : list bus_info :=
  let 'mk_bus i _ ks := b in i :: foldr (fun b l => preorder b ++ l) [] ks.
Definition all_buses (bs : list pci_bus) : list bus_info := foldr (fun b l => preorder b ++ l) [] bs.
Definition pci_entry (i : bus_info) : mp_entry := bus_entry MPTABLE_BUS_PCI (busnum i).

(** The entries of interrupts. *)
Definition bus_INTs (l : list mptable_INT) (b : Z) : list mp_entry :=
  E_INT <$> filter (fun e => int_bus e = b) l.

Lemma ints_filter (P : mptable_INT -> Prop) {dec : forall e, Decision (P e)} l :
  Forall int_ok l -> Forall int_ok (filter P l).
Proof. rewrite !Forall_forall. intros Hl e [_ He]%list_elem_of_filter. by apply Hl. Qed.

Definition isa_irq (isa d j : Z) : mptable_INT := isa_INT mp_entry_IOINT mpINT_type__INT (u8 isa) j d j.

Lemma isa_INT_ok entry type isa irq d input :
  entry = mp_entry_IOINT \/ entry = mp_entry_LocalINT -> 0 <= type < 4 -> 0 <= irq < 256 -> 0 <= d < 256 ->
  0 <= input < 256 -> int_ok (isa_INT entry type (u8 isa) irq d input).
Proof.
  intros. pose proof (u8_bounds isa). unfold int_ok, isa_INT, mpINT_polarity__Hi, mpINT_trigger__Edge.
  cbn [int_entry int_type int_polarity int_trigger int_bus int_irq int_dest_id int_dest_input].
  split; [done|]. lia.
Qed.

(** The interrupts of the ISA bus among the first inputs of the controller. *)
Definition isa_irqs (n : Z) : list Z := filter (fun j => Z.testbit IRQMAP_ISA j = true) (seqZ 0 n).

(** The extra entries, which go from the mark 0xff to the number of the bus. *)
Definition extra_INTs (isa : Z) (l : list mptable_INT) : list mp_entry :=
  E_INT <$> (number_extra isa <$> filter (fun e => int_bus e = 0xff) l).

Lemma number_extra_ok isa l : Forall int_ok l -> Forall int_ok (number_extra isa <$> l).
Proof.
  intros Hl. apply Forall_fmap, (Forall_impl _ _ _ Hl). intros e He. unfold compose, number_extra.
  case_match; [|done]. destruct He as (H1 & H2 & H3 & H4 & H5 & H6 & H7 & H8).
  exact (conj H1 (conj H2 (conj H3 (conj H4 (conj (u8_bounds _) (conj H6 (conj H7 H8))))))).
Qed.

(** The extended entries of the buses. *)
Definition addr_ext (bus : Z) (t : pci_bar_t) (m : pci_bar) : mp_ext :=
  X_ADDR (u8 bus) (u8 (bar_id t - 1)) (u32 (bar_base m)) (u32 (bar_size m)).
Definition tree_ext (bus decode parent : Z) : mp_ext := X_TREE (u8 bus) (Z.land decode 1) (u8 parent).
Definition compat_ext (bus modifier : Z) : mp_ext := X_COMPAT (u8 bus) (Z.land modifier 1) mpextable_range__ISA.

Definition hier_exts (e : bus_info * Z) : list mp_ext := [tree_ext (busnum e.1) 0 e.2; compat_ext (busnum e.1) 1].
Definition map_exts (i : bus_info) : list mp_ext :=
  [addr_ext (busnum i) PCI_BAR_IO (map_of PCI_BAR_IO i)] ++
  [addr_ext (busnum i) PCI_BAR_MMIO (map_of PCI_BAR_MMIO i)] ++
  [addr_ext (busnum i) PCI_BAR_PMMIO (map_of PCI_BAR_PMMIO i)].
Definition bus_exts (b : pci_bus) : list mp_ext :=
  let i := info b in
  map_exts i ++ [compat_ext (busnum i) (if busnum i =? 0 then 0 else 1)] ++ (hierarchy i (kids b) ≫= hier_exts).

(** ** The buses of the machine

    Every bus below a bus, depth first, with the number of its parent.  The walk of the
    program takes this way if of the buses side by side below one bus only the last has buses
    below it. *)
Fixpoint below (parent : Z) (b : pci_bus) : list (bus_info * Z) :=
  let 'mk_bus i _ ks := b in (i, parent) :: foldr (fun b l => below (busnum i) b ++ l) [] ks.
Definition all_below (i : bus_info) (ks : list pci_bus) : list (bus_info * Z) :=
  foldr (fun b l => below (busnum i) b ++ l) [] ks.

Definition childless (b : pci_bus) : bool := match kids b with [] => true | _ => false end.
Fixpoint walkable (b : pci_bus) : bool :=
  let 'mk_bus _ _ ks := b in forallb walkable ks && forallb childless (removelast ks).

Lemma walk_list p ks :
  Forall (fun b => forall p rest, hier_bus p b rest = below p b ++ (if childless b then rest else [])) ks ->
  forallb childless (removelast ks) = true ->
  foldr (hier_bus p) [] ks = foldr (fun b l => below p b ++ l) [] ks.
Proof.
  induction 1 as [|b ks Hb _ IH]; intros Hc; [done|]. cbn [foldr]. rewrite Hb. destruct ks as [|b' ks].
  - cbn [foldr]. by destruct (childless b).
  - change (removelast (b :: b' :: ks)) with (b :: removelast (b' :: ks)) in Hc. cbn [forallb] in Hc.
    apply andb_true_iff in Hc as [-> Hc]. by rewrite IH.
Qed.

Lemma walk_bus b : walkable b = true ->
  forall p rest, hier_bus p b rest = below p b ++ (if childless b then rest else []).
Proof.
  induction b as [i d ks IH] using pci_bus_nested_ind. intros Hw p rest. cbn [walkable] in Hw.
  apply andb_true_iff in Hw as [Hk Hl]. cbn [hier_bus below]. rewrite <- app_comm_cons. f_equal.
  assert (E : foldr (hier_bus (busnum i)) [] ks = foldr (fun b l => below (busnum i) b ++ l) [] ks).
  { apply walk_list; [|done]. rewrite forallb_forall in Hk. rewrite Forall_forall in IH |- *.
    intros b Hb. apply IH; [done|]. by apply Hk, list_elem_of_In. }
  destruct ks as [|b ks]; [done|]. rewrite E. cbn [childless kids]. by rewrite app_nil_r.
Qed.

Lemma hierarchy_complete b : walkable b = true -> hierarchy (info b) (kids b) = all_below (info b) (kids b).
Proof.
  destruct b as [i d ks]. cbn [walkable info kids]. intros [Hk Hl]%andb_true_iff.
  apply walk_list; [|done]. rewrite forallb_forall in Hk. rewrite Forall_forall. intros b Hb.
  by apply walk_bus, Hk, list_elem_of_In.
Qed.

(** ** The tables under construction *)

(** Two registers of each controller, which nothing here writes: [reg n idx] is what
    register [idx] of controller [n] reads as. *)
Class Controllers {hw} `{!Mmio hw} (ok : hw -> Prop) (reg : Z -> Z -> Z) := {
  controller_reads n idx h : n = 0 \/ n = 1 -> idx = IOAPIC_ID \/ idx = IOAPIC_VERSION -> ok h ->
    let r := mmio_read (Z.lor (Z.lor IOAPIC_BASE 0x10) (Z.shiftl n 12))
               (mmio_write (Z.lor IOAPIC_BASE (Z.shiftl n 12)) idx h) in
    ok r.2 /\ r.1 = reg n idx;
}.

Section Build.
Context {hw : Type} `{!Mmio hw} (ok : hw -> Prop) (reg : Z -> Z -> Z) `{!Controllers ok reg}.
Context (prod_id : list Z) (apic : Z) (m0 : list Z).
Context (Hprod : (12 <= length prod_id)%nat) (Hmax : Z.of_nat (length m0) < 65536).
Abbreviation M := (Run (mp_state hw)).
Abbreviation image := (image prod_id apic m0).
Abbreviation fits := (fits m0).

(** The state while the tables are built: [isa] and [l] are the variables. *)
Record tables (isa : Z) (l : list mptable_INT) (es : list mp_entry) (xs : list mp_ext) (s : mp_state hw) : Prop := {
  tb_mem : mp_mem s = image 0 0 0 es xs;
  tb_mpe : mpe s = (16 + base_len es)%nat;
  tb_isa : ISA_busid s = isa;
  tb_list : mpINT_list (boot (pci s)) = l;
  tb_save : mptable_save_flag s = true;
  tb_ok : ok (hardware (pci s));
  tb_fits : fits es xs;
  tb_entries : Forall entry_ok es;
  tb_exts : Forall ext_ok xs;
}.

Lemma small n : (n <= length m0)%nat -> 0 <= Z.of_nat n < 65536.
Proof. lia. Qed.

Lemma mp_append_grows isa l e es s : entry_ok e -> tables isa l es [] s -> fits (es ++ [e]) [] ->
  exists s', mp_append (encode_entry e) s = Some (tt, s') /\ tables isa l (es ++ [e]) [] s'.
Proof.
  intros He [Hm Hp Hi Hl Hs Ho Hf Hes Hxs] Hfit. pose proof (entry_bytes e He) as Hne.
  unfold MptableBuild.fits, used, base_len in Hf, Hfit. rewrite entries_bytes_app, entries_bytes_one, length_app in Hfit.
  pose proof (length_entries es Hes) as Hle. change (length (exts_bytes [])) with 0%nat in Hf, Hfit.
  set (bs := encode_entry e) in *. set (B := entries_bytes es) in *.
  set (P := flpointer_with 0 ++ header prod_id apic 0 0 (base_len es) (length es) 0 ++ B).
  assert (HP : length P = mpe s).
  { unfold P. rewrite !length_app, length_header, Hp by done. unfold base_len. fold B. rewrite length_flpointer. lia. }
  unfold mp_append, mp_ask, mbind, Run_bind, mp_upd. rewrite <- HP.
  rewrite (mp_store_here P bs (drop (used es []) m0)).
  2: { rewrite Hm. unfold P, MptableBuild.image. fold B. by rewrite <- !app_assoc. }
  2: { rewrite length_drop. unfold used, base_len. fold B. change (length (exts_bytes [])) with 0%nat. lia. }
  change mptable_length with (length (flpointer_with 0 ++ le_bytes 4 MPTABLE_CFHEADER_SIG)).
  erewrite mp_add16_here.
  2: { unfold set_mem. cbn [mp_mem]. unfold P, header. rewrite <- !app_assoc. done. }
  2: { apply small. unfold base_len. fold B. lia. }
  replace mptable_count with (length (flpointer_with 0 ++ le_bytes 4 MPTABLE_CFHEADER_SIG ++
    le_bytes 2 (Z.of_nat (base_len es) + Z.of_nat (length bs)) ++ head_id prod_id 0)).
  2: { rewrite !length_app, !length_le_bytes, length_head_id by done. done. }
  erewrite mp_add16_here.
  2: { unfold set_mem. cbn [mp_mem]. rewrite <- !app_assoc. done. }
  2: { apply small. lia. }
  eexists. split; [done|]. split; try done.
  - unfold set_mpe, set_mem. cbn [mp_mem]. unfold MptableBuild.image, header. rewrite entries_bytes_app, entries_bytes_one. fold B bs.
    rewrite <- !app_assoc, !length_app, drop_drop. unfold base_len, used, base_len. rewrite entries_bytes_app, entries_bytes_one, length_app. fold B bs.
    rewrite <- !Nat2Z.inj_add. change (exts_bytes []) with (@nil Z). rewrite !app_nil_l. change (length [e]) with 1%nat. change (length (@nil Z)) with 0%nat. repeat first [lia | f_equal].
  - unfold set_mpe. cbn [mpe]. rewrite HP, Hp. unfold base_len. rewrite entries_bytes_app, entries_bytes_one, length_app. fold B bs. lia.
  - unfold MptableBuild.fits, used, base_len. rewrite entries_bytes_app, entries_bytes_one, length_app. fold B bs. change (length (exts_bytes [])) with 0%nat. lia.
  - apply Forall_app. auto.
Qed.

(** The image up to the length of the extended entries, and up to them. *)
Definition upto_ext (es : list mp_entry) : list Z :=
  flpointer_with 0 ++ le_bytes 4 MPTABLE_CFHEADER_SIG ++ le_bytes 2 (Z.of_nat (base_len es)) ++
  head_id prod_id 0 ++ le_bytes 2 (Z.of_nat (length es)) ++ le_bytes 4 apic.
Definition upto_exts (es : list mp_entry) (n : nat) : list Z :=
  upto_ext es ++ le_bytes 2 (Z.of_nat n) ++ [0; 0] ++ entries_bytes es.

Lemma length_upto_ext es : length (upto_ext es) = ext_length.
Proof. unfold upto_ext. by rewrite !length_app, !length_le_bytes, length_head_id. Qed.
Lemma length_upto_exts es n : length (upto_exts es n) = (16 + base_len es)%nat.
Proof. unfold upto_exts, base_len. rewrite !length_app, !length_le_bytes, length_upto_ext. simpl. lia. Qed.
Lemma image_ext es xs : image 0 0 0 es xs =
  upto_ext es ++ le_bytes 2 (Z.of_nat (length (exts_bytes xs))) ++ [0; 0] ++ entries_bytes es ++
  exts_bytes xs ++ drop (used es xs) m0.
Proof. unfold MptableBuild.image, header, upto_ext. by rewrite <- !app_assoc. Qed.

Lemma mp_append_ext_grows isa l es x xs s : ext_ok x -> tables isa l es xs s -> fits es (xs ++ [x]) ->
  exists s', mp_append_ext (encode_ext x) s = Some (tt, s') /\ tables isa l es (xs ++ [x]) s'.
Proof.
  intros He [Hm Hp Hi Hl Hs Ho Hf Hes Hxs] Hfit. pose proof Hfit as Hfit'.
  unfold MptableBuild.fits, used in Hf, Hfit. rewrite exts_bytes_app, exts_bytes_one, length_app in Hfit.
  set (bs := encode_ext x) in *. set (X := exts_bytes xs) in *.
  assert (Hx : 0 <= Z.of_nat (length X) < 65536) by (apply small; lia).
  unfold mp_append_ext, mp_ask, mbind, Run_bind. rewrite image_ext in Hm. fold X in Hm.
  replace (get16 ext_length (mp_mem s)) with (Z.of_nat (length X))
    by (rewrite Hm, <- (length_upto_ext es); by rewrite get16_here).
  rewrite Nat2Z.id. replace (mpe s + length X)%nat with (length (upto_exts es (length X) ++ X))
    by (rewrite length_app, length_upto_exts, Hp; done).
  rewrite (mp_store_here _ bs (drop (used es xs) m0)).
  2: { rewrite Hm. unfold upto_exts. by rewrite <- !app_assoc. }
  2: { rewrite length_drop. unfold used. fold X. lia. }
  rewrite <- (length_upto_ext es). erewrite mp_add16_here.
  2: { unfold set_mem. cbn [mp_mem]. unfold upto_exts. rewrite <- !app_assoc. done. }
  2: { done. }
  eexists. split; [done|]. split; try done.
  - unfold set_mem. cbn [mp_mem]. rewrite image_ext, exts_bytes_app, exts_bytes_one. fold X bs.
    rewrite <- !app_assoc, !length_app, drop_drop. unfold used. rewrite exts_bytes_app, exts_bytes_one, length_app. fold X bs.
    repeat first [lia | f_equal].
  - apply Forall_app. auto.
Qed.

(** ** What each function adds *)

Definition adds (isa : Z) (l : list mptable_INT) {A} (m : M A) (a : A) (es : list mp_entry) : Prop :=
  grows (fun es => tables isa l es []) (fun es => fits es []) m a es.
Definition extends (isa : Z) (l : list mptable_INT) (es : list mp_entry) (m : M unit) (xs : list mp_ext) : Prop :=
  grows (tables isa l es) (fits es) m tt xs.

Lemma adds_ret isa l {A} (a : A) : adds isa l (mret a) a [].
Proof. apply grows_ret. Qed.
Lemma adds_bind isa l {A B} (m : M A) (k : A -> M B) a b es1 es2 :
  adds isa l m a es1 -> adds isa l (k a) b es2 -> adds isa l (m ≫= k) b (es1 ++ es2).
Proof. apply grows_bind. intros ??. apply fits_entries. Qed.
Lemma adds_ask isa l {A} (m : M A) (k : A -> M unit) a es :
  adds isa l m a [] -> adds isa l (k a) tt es -> adds isa l (m ≫= k) tt es.
Proof. intros Hm Hk. by apply (adds_bind _ _ _ _ a tt [] es). Qed.
Lemma adds_then isa l (m1 m2 : M unit) es1 es2 :
  adds isa l m1 tt es1 -> adds isa l m2 tt es2 -> adds isa l (m1;; m2) tt (es1 ++ es2).
Proof. apply (adds_bind isa l m1 (fun _ => m2)). Qed.

Lemma extends_ret isa l es : extends isa l es (mret tt) [].
Proof. apply grows_ret. Qed.
Lemma extends_then isa l es (m1 m2 : M unit) xs1 xs2 :
  extends isa l es m1 xs1 -> extends isa l es m2 xs2 -> extends isa l es (m1;; m2) (xs1 ++ xs2).
Proof. apply (grows_bind _ _ m1 (fun _ => m2)). intros ??. apply fits_exts. Qed.

Lemma adds_saving isa l m es : adds isa l m tt es -> adds isa l (when_saving m) tt es.
Proof.
  intros Hm es0 s HT Hf. unfold when_saving, mp_ask, mbind, Run_bind. rewrite (tb_save _ _ _ _ _ HT). by apply Hm.
Qed.
Lemma extends_saving isa l es m xs : extends isa l es m xs -> extends isa l es (when_saving m) xs.
Proof.
  intros Hm xs0 s HT Hf. unfold when_saving, mp_ask, mbind, Run_bind. rewrite (tb_save _ _ _ _ _ HT). by apply Hm.
Qed.
Lemma adds_entry isa l e : entry_ok e -> adds isa l (when_saving (mp_append (encode_entry e))) tt [e].
Proof. intros He. apply adds_saving. intros es s HT Hf. by apply mp_append_grows. Qed.
Lemma extends_ext isa l es x : ext_ok x -> extends isa l es (when_saving (mp_append_ext (encode_ext x))) [x].
Proof. intros Hx. apply extends_saving. intros xs s HT Hf. by apply mp_append_ext_grows. Qed.

(** Reading the variables and the registers of the controllers. *)
Lemma adds_isa isa l : adds isa l (mp_ask ISA_busid) isa [].
Proof. intros es s HT _. exists s. rewrite app_nil_r. unfold mp_ask. by rewrite (tb_isa _ _ _ _ _ HT). Qed.
Lemma adds_list isa l : adds isa l (mp_ask (fun s => mpINT_list (boot (pci s)))) l [].
Proof. intros es s HT _. exists s. rewrite app_nil_r. unfold mp_ask. by rewrite (tb_list _ _ _ _ _ HT). Qed.

Definition id_of (n : Z) : Z := u8 (Z.land (Z.shiftr (u32 (reg n IOAPIC_ID)) 24) 0xf).
Definition version_of (n : Z) : Z := u8 (Z.land (u32 (reg n IOAPIC_VERSION)) 0xff).
Definition entries_of (n : Z) : Z := u8 (1 + Z.land (Z.shiftr (u32 (reg n IOAPIC_VERSION)) 16) 0xff).

Lemma adds_register isa l n idx (f : Z -> Z) : n = 0 \/ n = 1 -> idx = IOAPIC_ID \/ idx = IOAPIC_VERSION ->
  adds isa l (on_pci (ioapic_index n idx;; v ← ioapic_get n; mret (f v))) (f (u32 (reg n idx))) [].
Proof.
  intros Hn Hi es s HT _. pose proof (controller_reads n idx _ Hn Hi (tb_ok _ _ _ _ _ HT)) as Hr.
  unfold on_pci, ioapic_index, ioapic_get, on_hw, ask_hw, mbind, Run_bind, option_bind.
  replace (u32 idx) with idx by (by destruct Hi as [-> | ->]).
  cbn [hardware set_hw]. destruct (mmio_read _ _) as [v h']. destruct Hr as [Ho Hv]. cbn [fst snd] in Ho, Hv. subst v.
  eexists. split; [done|]. rewrite app_nil_r. by destruct HT.
Qed.
Lemma adds_id isa l n : n = 0 \/ n = 1 -> adds isa l (on_pci (ioapic_get_id n)) (id_of n) [].
Proof. intros Hn. apply (adds_register isa l n IOAPIC_ID (fun v => u8 (Z.land (Z.shiftr v 24) 0xf))); auto. Qed.
Lemma adds_version isa l n : n = 0 \/ n = 1 -> adds isa l (on_pci (ioapic_get_version n)) (version_of n) [].
Proof. intros Hn. apply (adds_register isa l n IOAPIC_VERSION (fun v => u8 (Z.land v 0xff))); auto. Qed.
Lemma adds_entries isa l n : n = 0 \/ n = 1 -> adds isa l (on_pci (ioapic_get_entries n)) (entries_of n) [].
Proof. intros Hn. apply (adds_register isa l n IOAPIC_VERSION (fun v => u8 (1 + Z.land (Z.shiftr v 16) 0xff))); auto. Qed.

Definition ioapic_entry (n : Z) : mp_entry := E_IOAPIC (id_of n) (version_of n) 1 (ioapic_get_base n).

Lemma adds_BUS isa l n type : length type = 6%nat -> adds isa l (mptable_add_BUS n type) tt [bus_entry type n].
Proof. intros Ht. apply (adds_entry isa l (bus_entry type n)). split; [apply u8_bounds|done]. Qed.

Lemma adds_IOAPIC isa l n : n = 0 \/ n = 1 -> adds isa l (mptable_add_IOAPIC n) tt [ioapic_entry n].
Proof.
  intros Hn. apply adds_saving. apply (adds_ask _ _ _ _ (id_of n)); [by apply adds_id|].
  apply (adds_ask _ _ _ _ (version_of n)); [by apply adds_version|].
  intros es s HT Hf. apply (mp_append_grows isa l (ioapic_entry n)); [|done..].
  exact (conj (u8_bounds _) (conj (u8_bounds _) (conj eq_refl (u32_range _)))).
Qed.

Lemma adds_INT isa l e : int_ok e -> adds isa l (mptable_add_INT e) tt [E_INT e].
Proof. intros He. by apply (adds_entry isa l (E_INT e)). Qed.

Lemma adds_INTs isa l es : Forall int_ok es -> adds isa l (add_INTs es) tt (E_INT <$> es).
Proof.
  induction 1 as [|e es He _ IH]; [apply adds_ret|]. change (E_INT <$> e :: es) with ([E_INT e] ++ (E_INT <$> es)).
  apply adds_then; [by apply adds_INT|done].
Qed.

Lemma adds_CPU isa l c : adds isa l (mptable_add_CPU c) tt [cpu_entry c].
Proof.
  apply adds_saving. intros es s HT Hf. unfold mp_ask, mbind, Run_bind.
  rewrite (tb_mem _ _ _ _ _ HT), image_ext. change (exts_bytes []) with (@nil Z).
  rewrite <- (length_upto_ext es), get16_here by done. rewrite <- cpu_entry_bytes.
  by apply (mp_append_grows isa l (cpu_entry c) es s (cpu_entry_ok c)).
Qed.
Lemma adds_CPUs isa l cs : adds isa l (add_CPUs cs) tt (cpu_entry <$> cs).
Proof.
  induction cs as [|c cs IH]; [apply adds_ret|]. change (cpu_entry <$> c :: cs) with ([cpu_entry c] ++ (cpu_entry <$> cs)).
  apply adds_then; [apply adds_CPU|done].
Qed.

Lemma walk_cons (m : M Z) (k : Z -> Z -> Z) (m2 : M Z) isa l a b es1 es2 :
  adds isa l m a es1 -> adds isa l m2 b es2 ->
  adds isa l (n ← m; id ← m2; mret (k n id)) (k a b) (es1 ++ es2).
Proof.
  intros H1 H2. apply (adds_bind _ _ _ _ a _ es1 es2); [done|]. rewrite <- (app_nil_r es2).
  apply (adds_bind _ _ _ _ b _ es2 []); [done|]. apply adds_ret.
Qed.

Lemma adds_walk_bus isa l b :
  adds isa l (pci_walk_bus b) (Z.of_nat (length (preorder b))) (pci_entry <$> preorder b).
Proof.
  induction b as [i ds ks IH] using pci_bus_nested_ind.
  change (pci_entry <$> preorder (mk_bus i ds ks)) with ([pci_entry i] ++ (pci_entry <$> all_buses ks)).
  cbn [pci_walk_bus]. apply (adds_bind _ _ _ _ tt); [by apply adds_BUS|].
  rewrite <- (app_nil_r (pci_entry <$> all_buses ks)).
  apply (adds_bind _ _ _ _ (Z.of_nat (length (all_buses ks)))).
  - induction IH as [|b ks Hb _ IHks]; [apply adds_ret|].
    change (all_buses (b :: ks)) with (preorder b ++ all_buses ks). rewrite fmap_app, length_app, Nat2Z.inj_add.
    by apply (walk_cons _ Z.add).
  - replace (Z.of_nat (length (preorder (mk_bus i ds ks)))) with (Z.of_nat (length (all_buses ks)) + 1)
      by (change (length (preorder (mk_bus i ds ks))) with (S (length (all_buses ks))); lia).
    apply adds_ret.
Qed.

Lemma adds_walk isa l bs :
  adds isa l (mptable_pci_walk bs) (Z.of_nat (length (all_buses bs))) (pci_entry <$> all_buses bs).
Proof.
  induction bs as [|b bs IH]; [apply adds_ret|]. change (all_buses (b :: bs)) with (preorder b ++ all_buses bs).
  rewrite fmap_app, length_app, Nat2Z.inj_add. by apply (walk_cons _ Z.add); [apply adds_walk_bus|].
Qed.

Lemma adds_bus_INTs isa l : Forall int_ok l -> forall n j,
  adds isa l (add_bus_INTs n j) tt (seqZ j (Z.of_nat n) ≫= bus_INTs l).
Proof.
  intros Hl. induction n as [|n IH]; intros j; [apply adds_ret|].
  rewrite seqZ_cons by lia. replace (Z.pred (Z.of_nat (S n))) with (Z.of_nat n) by lia. cbn [add_bus_INTs].
  apply (adds_ask _ _ _ _ l); [apply adds_list|]. apply (adds_then _ _ _ _ (bus_INTs l j)); [|apply IH].
  by apply adds_INTs, ints_filter.
Qed.

Lemma adds_ISA_INTs isa l d : 0 <= d < 256 -> entries_of IOAPIC_ISA <= 32 -> forall fuel j, 0 <= j <= entries_of IOAPIC_ISA ->
  entries_of IOAPIC_ISA - j < Z.of_nat fuel ->
  adds isa l (add_ISA_INTs fuel d j) tt
    ((fun j => E_INT (isa_irq isa d j)) <$>
     filter (fun j => Z.testbit IRQMAP_ISA j = true) (seqZ j (entries_of IOAPIC_ISA - j))).
Proof.
  intros Hd He. pose proof (u8_bounds (1 + Z.land (Z.shiftr (u32 (reg IOAPIC_ISA IOAPIC_VERSION)) 16) 0xff)) as Hb.
  fold (entries_of IOAPIC_ISA) in Hb. induction fuel as [|fuel IH]; intros j Hj Hf; [lia|]. cbn [add_ISA_INTs].
  apply (adds_ask _ _ _ _ (entries_of IOAPIC_ISA)); [apply adds_entries; by left|].
  destruct (Z.leb_spec (entries_of IOAPIC_ISA) j) as [Hle|Hlt].
  { rewrite seqZ_nil by lia. apply adds_ret. }
  destruct (Z.ltb_spec 31 j); [lia|]. rewrite seqZ_cons by lia. rewrite filter_cons.
  replace (Z.pred (entries_of IOAPIC_ISA - j)) with (entries_of IOAPIC_ISA - Z.succ j) by lia.
  apply (adds_ask _ _ _ _ isa); [apply adds_isa|]. specialize (IH (Z.succ j) ltac:(lia) ltac:(lia)).
  case_decide as Hbit.
  - rewrite Hbit. rewrite fmap_cons. apply (adds_then isa l _ _ [_]); [|done].
    apply adds_INT. apply isa_INT_ok; [by left|done|lia..].
  - apply not_true_is_false in Hbit. rewrite Hbit. apply (adds_then isa l _ _ []); [apply adds_ret|done].
Qed.

Lemma adds_extra isa l es s : Forall int_ok l -> tables isa l es [] s -> fits (es ++ extra_INTs isa l) [] ->
  exists s', add_extra_INTs s = Some (tt, s') /\ tables isa (number_extra isa <$> l) (es ++ extra_INTs isa l) [] s'.
Proof.
  intros Hl HT Hf. unfold add_extra_INTs, mp_ask, on_pci, upd_boot, upd, mbind, Run_bind, option_bind.
  rewrite (tb_list _ _ _ _ _ HT), (tb_isa _ _ _ _ _ HT).
  apply (adds_INTs isa (number_extra isa <$> l) (number_extra isa <$> filter (fun e => int_bus e = 0xff) l)); [|by destruct HT|done].
  by apply number_extra_ok, ints_filter.
Qed.

Lemma extends_map isa l es i t :
  extends isa l es (mp_add_map i t) [addr_ext (busnum i) t (map_of t i)].
Proof.
  unfold mp_add_map, mpextable_add_SysAddrMap. replace (addr_map_bytes _ _ _ _) with (encode_ext (addr_ext (busnum i) t (map_of t i))).
  - apply extends_ext. exact (conj (u8_bounds _) (conj (u8_bounds _) (conj (u32_range _) (u32_range _)))).
  - unfold addr_ext, encode_ext, addr_map_bytes. rewrite !u8_twice. unfold u32. by rewrite !Z.mod_mod.
Qed.
Lemma extends_tree isa l es bus decode parent :
  extends isa l es (mpextable_add_BusTree bus decode parent) [tree_ext bus decode parent].
Proof.
  unfold mpextable_add_BusTree. replace (bus_tree_bytes _ _ _) with (encode_ext (tree_ext bus decode parent)).
  - apply extends_ext. exact (conj (u8_bounds _) (conj (land_low 1 1 _ eq_refl ltac:(done)) (u8_bounds _))).
  - unfold tree_ext, encode_ext, bus_tree_bytes. by rewrite !u8_twice, land_twice.
Qed.
Lemma extends_compat isa l es bus modifier :
  extends isa l es (mpextable_add_BusCompat bus modifier mpextable_range__ISA) [compat_ext bus modifier].
Proof.
  unfold mpextable_add_BusCompat. replace (bus_compat_bytes _ _ _) with (encode_ext (compat_ext bus modifier)).
  - apply extends_ext. refine (conj (u8_bounds _) (conj (land_low 1 1 _ eq_refl ltac:(done)) _)). done.
  - unfold compat_ext, encode_ext, bus_compat_bytes. by rewrite !u8_twice, land_twice.
Qed.

Lemma extends_maps isa l es i : extends isa l es (mpextable_add_PCIAddrMap i) (map_exts i).
Proof.
  apply extends_saving. apply extends_then; [apply extends_map|]. apply extends_then; apply extends_map.
Qed.

Lemma extends_hierarchy isa l es h : extends isa l es (add_hierarchy h) (h ≫= hier_exts).
Proof.
  induction h as [|[i parent] h IH]; [apply extends_ret|].
  change (((i, parent) :: h) ≫= hier_exts)
    with ([tree_ext (busnum i) 0 parent] ++ ([compat_ext (busnum i) 1] ++ (h ≫= hier_exts))).
  apply extends_then; [apply extends_tree|]. apply extends_then; [apply extends_compat|done].
Qed.

Lemma extends_buses isa l es bs : extends isa l es (add_buses bs) (bs ≫= bus_exts).
Proof.
  induction bs as [|b bs IH]; [apply extends_ret|].
  change ((b :: bs) ≫= bus_exts) with (bus_exts b ++ (bs ≫= bus_exts)). unfold bus_exts at 1.
  rewrite <- !app_assoc. cbn [add_buses]. apply extends_then; [apply extends_maps|].
  apply extends_then; [apply extends_compat|]. apply extends_then; [apply extends_hierarchy|done].
Qed.

End Build.

(** * an operating system reads what the firmware wrote

    [mptable_checksum] makes the sums zero, the reader takes the image of the tables apart,
    and [mptable_build] leaves the image of the machine. *)

(** ** Fields at an offset *)

Lemma get16_at off P v R m : m = P ++ le_bytes 2 v ++ R -> length P = off -> 0 <= v < 65536 -> get16 off m = v.
Proof. intros -> <- Hv. by apply get16_here. Qed.
Lemma get32_at off P v R m : m = P ++ le_bytes 4 v ++ R -> length P = off -> 0 <= v < 4294967296 -> get32 off m = v.
Proof. intros -> <- Hv. unfold get32, sub. rewrite drop_app_length. by apply get32_le. Qed.
Lemma sub_at off n P bs R m : m = P ++ bs ++ R -> length P = off -> length bs = n -> sub off n m = bs.
Proof. intros -> <- <-. unfold sub. by rewrite drop_app_length, take_app_length. Qed.
Lemma byte_there off P v R m : m = P ++ v :: R -> length P = off -> byte off m = v.
Proof. intros -> <-. unfold byte. by rewrite list_lookup_middle. Qed.

Section Tables.
Context (prod_id : list Z) (apic : Z) (m0 : list Z).
Context (Hprod : (12 <= length prod_id)%nat) (Hmax : Z.of_nat (length m0) < 65536) (Hapic : 0 <= apic < 4294967296).
Abbreviation image := (image prod_id apic m0).
Abbreviation fits := (fits m0).

(** The part of the image the length of the header covers, and its parts. *)
Definition config (c x : Z) (es : list mp_entry) (xs : list mp_ext) : list Z :=
  header prod_id apic c x (base_len es) (length es) (length (exts_bytes xs)) ++ entries_bytes es.
Definition upto_count (c : Z) (es : list mp_entry) : list Z :=
  le_bytes 4 MPTABLE_CFHEADER_SIG ++ le_bytes 2 (Z.of_nat (base_len es)) ++ head_id prod_id c.

Lemma length_config c x es xs : length (config c x es xs) = base_len es.
Proof. unfold config. by rewrite length_app, length_header. Qed.
Lemma length_upto_count c es : length (upto_count c es) = 34%nat.
Proof. unfold upto_count. by rewrite !length_app, !length_le_bytes, length_head_id. Qed.
Lemma image_config f c x es xs :
  image f c x es xs = flpointer_with f ++ config c x es xs ++ exts_bytes xs ++ drop (used es xs) m0.
Proof. unfold MptableBuild.image, config. by rewrite <- !app_assoc. Qed.
Lemma config_fields c x es xs : config c x es xs =
  upto_count c es ++ le_bytes 2 (Z.of_nat (length es)) ++ le_bytes 4 apic ++
  le_bytes 2 (Z.of_nat (length (exts_bytes xs))) ++ [x; 0] ++ entries_bytes es.
Proof. unfold config, header, upto_count. by rewrite <- !app_assoc. Qed.

Section Fields.
Context (f c x : Z) (es : list mp_entry) (xs : list mp_ext) (R : list Z).
Context (Hes : Forall entry_ok es) (Hfit : fits es xs).

Lemma ranges : 0 <= Z.of_nat (base_len es) < 65536 /\ 0 <= Z.of_nat (length es) < 65536 /\
  0 <= Z.of_nat (length (exts_bytes xs)) < 65536.
Proof.
  unfold MptableBuild.fits, used in Hfit. pose proof (length_entries es Hes). unfold base_len in *.
  split_and!; lia.
Qed.

(** The header up to the address, up to the length of the extended entries, and up to
    their checksum. *)
Definition upto_apic : list Z := upto_count c es ++ le_bytes 2 (Z.of_nat (length es)).
Definition upto_length : list Z := upto_apic ++ le_bytes 4 apic.
Definition upto_sum : list Z := upto_length ++ le_bytes 2 (Z.of_nat (length (exts_bytes xs))).
Definition after_sum : list Z := [0] ++ entries_bytes es ++ R.

Lemma config_split : config c x es xs ++ R = upto_sum ++ x :: after_sum.
Proof.
  rewrite config_fields. unfold upto_sum, upto_length, upto_apic, after_sum.
  rewrite <- !app_assoc. done.
Qed.
Lemma config_length : get16 4 (config c x es xs ++ R) = Z.of_nat (base_len es).
Proof.
  apply (get16_at 4 (le_bytes 4 MPTABLE_CFHEADER_SIG) _
           (head_id prod_id c ++ le_bytes 2 (Z.of_nat (length es)) ++ le_bytes 4 apic ++
            le_bytes 2 (Z.of_nat (length (exts_bytes xs))) ++ x :: after_sum)); [|done|apply ranges].
  rewrite config_split. unfold upto_sum, upto_length, upto_apic, upto_count. by rewrite <- !app_assoc.
Qed.
Lemma config_count : get16 34 (config c x es xs ++ R) = Z.of_nat (length es).
Proof.
  apply (get16_at 34 (upto_count c es) _
           (le_bytes 4 apic ++ le_bytes 2 (Z.of_nat (length (exts_bytes xs))) ++ x :: after_sum));
    [|apply length_upto_count|apply ranges].
  rewrite config_split. unfold upto_sum, upto_length, upto_apic. by rewrite <- !app_assoc.
Qed.
Lemma config_apic : get32 36 (config c x es xs ++ R) = apic.
Proof.
  apply (get32_at 36 upto_apic _ (le_bytes 2 (Z.of_nat (length (exts_bytes xs))) ++ x :: after_sum)); [| |done].
  - rewrite config_split. unfold upto_sum, upto_length. by rewrite <- !app_assoc.
  - unfold upto_apic. by rewrite length_app, length_upto_count, length_le_bytes.
Qed.
Lemma length_upto_length : length upto_length = 40%nat.
Proof. unfold upto_length, upto_apic. by rewrite !length_app, length_upto_count, !length_le_bytes. Qed.
Lemma config_ext : get16 40 (config c x es xs ++ R) = Z.of_nat (length (exts_bytes xs)).
Proof.
  apply (get16_at 40 upto_length _ (x :: after_sum)); [|apply length_upto_length|apply ranges].
  rewrite config_split. unfold upto_sum. by rewrite <- !app_assoc.
Qed.
Lemma config_sum : byte 42 (config c x es xs ++ R) = x.
Proof.
  apply (byte_there 42 upto_sum _ after_sum); [apply config_split|].
  unfold upto_sum. by rewrite length_app, length_upto_length, length_le_bytes.
Qed.
Lemma config_entries : sub 44 (base_len es - 44) (config c x es xs ++ R) = entries_bytes es.
Proof.
  unfold config. rewrite <- app_assoc. apply (sub_at 44 _ _ (entries_bytes es) R _ eq_refl); [by apply length_header|].
  unfold base_len. lia.
Qed.
Lemma config_sig : get32 0 (config c x es xs ++ R) = MPTABLE_CFHEADER_SIG.
Proof. rewrite config_fields. unfold upto_count. rewrite <- !app_assoc. by apply get32_le. Qed.

End Fields.

(** ** The reader on the image *)

Definition summed (f c x : Z) (es : list mp_entry) (xs : list mp_ext) : Prop :=
  byte_sum (flpointer_with f) mod 256 = 0 /\ byte_sum (config c x es xs) mod 256 = 0 /\
  byte_sum (x :: exts_bytes xs) mod 256 = 0.

Lemma length_exts xs : Forall ext_ok xs -> (length xs <= length (exts_bytes xs))%nat.
Proof.
  induction 1 as [|x xs Hx _ IH]; [done|]. change (exts_bytes (x :: xs)) with (encode_ext x ++ exts_bytes xs).
  pose proof (entry_bytes x Hx). rewrite length_app. simpl. lia.
Qed.

Lemma read_image f c x es xs : Forall entry_ok es -> Forall ext_ok xs -> fits es xs -> summed f c x es xs ->
  read_tables (image f c x es xs) = Some (es, xs, apic).
Proof.
  intros Hes Hxs Hfit (S1 & S2 & S3). unfold read_tables.
  rewrite image_config, sub_here by done. set (X := exts_bytes xs) in *. set (T := drop (used es xs) m0).
  replace (get32 0 (flpointer_with f) =? MPTABLE_FLPOINTER_SIG) with true
    by (symmetry; apply Z.eqb_eq; by apply get32_le).
  replace (get32 4 (flpointer_with f)) with (MP_BASE_ADDRESS + Z.of_nat FLPOINTER_SIZE)
    by (symmetry; by apply (get32_at 4 (le_bytes 4 MPTABLE_FLPOINTER_SIG) _ ([1; MP_SPEC_REV; f] ++ zeros 5))).
  change (Z.to_nat (MP_BASE_ADDRESS + Z.of_nat FLPOINTER_SIZE - MP_BASE_ADDRESS)) with 16%nat.
  rewrite drop_app_length' by done. unfold sums_to_zero at 1. rewrite S1. cbn [Z.eqb andb negb].
  rewrite !(config_length c x es xs (X ++ T) Hes Hfit), !(config_ext c x es xs (X ++ T) Hes Hfit).
  rewrite (config_sig c x es xs (X ++ T)), (config_sum c x es xs (X ++ T)), Z.eqb_refl, !Nat2Z.id.
  rewrite (sub_at (base_len es) (length (exts_bytes xs)) (config c x es xs) X T) by (done || apply length_config).
  rewrite take_app_length' by (symmetry; apply length_config). unfold sums_to_zero. rewrite S2. fold X in S3. rewrite S3.
  cbn [Z.eqb andb negb]. rewrite (config_count c x es xs (X ++ T) Hes Hfit), Nat2Z.id.
  rewrite (config_entries c x es xs (X ++ T)), (config_apic c x es xs (X ++ T)).
  rewrite <- (app_nil_r (entries_bytes es)), read_entries_bytes by done. cbn [mbind option_bind].
  unfold X. rewrite read_exts_bytes by (done || by apply length_exts). done.
Qed.

(** ** The checksums *)

(** What the three loops compute. *)
Definition fl_sum : Z := sub_sum (flpointer_with 0) 0.
Definition ext_sum (xs : list mp_ext) : Z := sub_sum (exts_bytes xs) 0.
Definition config_total (es : list mp_entry) (xs : list mp_ext) : Z := sub_sum (config 0 (ext_sum xs) es xs) 0.

Lemma sub_sum_zero bs a b : bs <> [] -> byte_sum a + byte_sum b = byte_sum bs ->
  byte_sum (a ++ sub_sum bs 0 :: b) mod 256 = 0.
Proof.
  intros Hne Hs. rewrite byte_sum_app, sub_sum_spec by done.
  change (byte_sum (u8 (0 - byte_sum bs) :: b)) with (u8 (0 - byte_sum bs) + byte_sum b).
  replace (byte_sum a + (u8 (0 - byte_sum bs) + byte_sum b)) with (byte_sum bs + u8 (0 - byte_sum bs)) by lia.
  unfold u8. rewrite Z.add_mod_idemp_r by done. by replace (_ + _) with 0 by lia.
Qed.

Lemma sums_zero es xs : xs <> [] -> Forall ext_ok xs -> summed fl_sum (config_total es xs) (ext_sum xs) es xs.
Proof.
  intros Hne Hxs. split_and!.
  - vm_compute. done.
  - set (A := le_bytes 4 MPTABLE_CFHEADER_SIG ++ le_bytes 2 (Z.of_nat (base_len es)) ++ [MP_SPEC_REV]).
    set (B := MP_OEM_ID ++ take 12 prod_id ++ zeros 6 ++ le_bytes 2 (Z.of_nat (length es)) ++ le_bytes 4 apic ++
              le_bytes 2 (Z.of_nat (length (exts_bytes xs))) ++ [ext_sum xs; 0] ++ entries_bytes es).
    assert (E : forall c, config c (ext_sum xs) es xs = A ++ c :: B).
    { intros c. unfold config, header, head_id, A, B. by rewrite <- !app_assoc. }
    rewrite E. unfold config_total. apply sub_sum_zero.
    + rewrite E. unfold A. done.
    + rewrite E, byte_sum_app. done.
  - apply (sub_sum_zero _ []); [|done]. pose proof (length_exts xs Hxs). destruct xs; [done|]. intros E. rewrite E in H. simpl in H. lia.
Qed.

Lemma sub_past n k f m : sub (16 + n) k (flpointer_with f ++ m) = sub n k m.
Proof. unfold sub. rewrite <- drop_drop, drop_app_length' by done. done. Qed.

Section Checksum.
Context {hw : Type} `{!Mmio hw} (ok : hw -> Prop).
Implicit Types s : mp_state hw.

Lemma store_byte off P v R w s : mp_mem s = P ++ v :: R -> length P = off ->
  mp_store off [w] s = Some (tt, set_mem (P ++ w :: R) s).
Proof. intros E <-. by rewrite (mp_store_here P [w] (v :: R)) by (done || (simpl; lia)). Qed.

Lemma store_f w f c x es xs s : mp_mem s = image f c x es xs ->
  mp_store mpptr_checksum [w] s = Some (tt, set_mem (image w c x es xs) s).
Proof.
  intros E. rewrite (store_byte _ (take 10 (flpointer_with 0)) f
    (zeros 5 ++ config c x es xs ++ exts_bytes xs ++ drop (used es xs) m0)); [|rewrite E|done]; by rewrite image_config.
Qed.
Lemma store_c w f c x es xs s : mp_mem s = image f c x es xs ->
  mp_store mptable_csum [w] s = Some (tt, set_mem (image f w x es xs) s).
Proof.
  intros E. rewrite (store_byte _ (flpointer_with f ++ le_bytes 4 MPTABLE_CFHEADER_SIG ++
      le_bytes 2 (Z.of_nat (base_len es)) ++ [MP_SPEC_REV]) c
    (MP_OEM_ID ++ take 12 prod_id ++ zeros 6 ++ le_bytes 2 (Z.of_nat (length es)) ++ le_bytes 4 apic ++
     le_bytes 2 (Z.of_nat (length (exts_bytes xs))) ++ [x; 0] ++ entries_bytes es ++ exts_bytes xs ++
     drop (used es xs) m0)); [|rewrite E|done];
    unfold MptableBuild.image, header, head_id; rewrite <- !app_assoc; done.
Qed.
Lemma store_x w f c x es xs s : mp_mem s = image f c x es xs ->
  mp_store ext_checksum [w] s = Some (tt, set_mem (image f c w es xs) s).
Proof.
  intros E. rewrite (store_byte _ (flpointer_with f ++ upto_sum c es xs) x
    (after_sum es (exts_bytes xs ++ drop (used es xs) m0))).
  - by rewrite image_config, config_split, <- app_assoc.
  - by rewrite E, image_config, config_split, <- app_assoc.
  - rewrite length_app. unfold upto_sum. by rewrite length_app, length_upto_length, length_le_bytes.
Qed.

Lemma checksum_image isa l es xs s : tables ok prod_id apic m0 isa l es xs s ->
  exists s', mptable_checksum s = Some (tt, s') /\
    mp_mem s' = image fl_sum (config_total es xs) (ext_sum xs) es xs /\ pci s' = pci s.
Proof.
  intros [Hm Hp Hi Hl Hs Ho Hfit Hes Hxs]. unfold mptable_checksum, when_saving, mp_ask, mbind, Run_bind. rewrite Hs.
  set (T := exts_bytes xs ++ drop (used es xs) m0). cbn [negb].
  replace (sub 0 FLPOINTER_SIZE (mp_mem s)) with (flpointer_with 0) by (rewrite Hm; by apply eq_sym, sub_here).
  rewrite (store_f _ _ _ _ _ _ _ Hm), (store_c 0 fl_sum 0 0 es xs), (store_x 0 fl_sum 0 0 es xs) by done.
  cbn [mp_mem set_mem mpe]. rewrite image_config. fold T.
  unfold get16. change ext_length with (16 + 40)%nat. rewrite (sub_past 40).
  fold (get16 40 (config 0 0 es xs ++ T)). rewrite config_ext, Nat2Z.id, Hp by done.
  rewrite (sub_past (base_len es)), (sub_at (base_len es) _ (config 0 0 es xs) (exts_bytes xs) (drop (used es xs) m0))
    by (done || apply length_config).
  rewrite (store_x (ext_sum xs) fl_sum 0 0 es xs) by (cbn [mp_mem set_mem]; by rewrite image_config).
  cbn [mp_mem set_mem]. rewrite image_config. fold T. change mptable_length with (16 + 4)%nat. rewrite (sub_past 4).
  fold (get16 4 (config 0 (ext_sum xs) es xs ++ T)). rewrite config_length, Nat2Z.id by done.
  change mptable with (16 + 0)%nat. rewrite (sub_past 0), sub_here by apply length_config.
  rewrite (store_c _ fl_sum 0 (ext_sum xs) es xs) by (cbn [mp_mem set_mem]; by rewrite image_config).
  eexists. split_and!; done.
Qed.

End Checksum.

End Tables.

(** ** The machine and its tables *)

(** What the tables say of a machine: the processors, the PCI buses, the ISA bus, the
    controllers, the interrupts of the PCI buses, the timer twice, the ISA bus, the devices
    of the chipset, and the local inputs. *)
Definition isa_number (root : list pci_bus) : Z := Z.of_nat (length (all_buses root)).
Definition timer_INT (reg : Z -> Z -> Z) (isa type : Z) : mptable_INT :=
  isa_INT mp_entry_IOINT type (u8 isa) 0 (id_of reg IOAPIC_ISA) 0.
Definition machine_entries (reg : Z -> Z -> Z) (cpus : list cpu_info) (root : list pci_bus)
  (l : list mptable_INT) : list mp_entry :=
  let isa := isa_number root in
  (cpu_entry <$> cpus) ++ (pci_entry <$> all_buses root) ++ [bus_entry MPTABLE_BUS_ISA isa] ++
  [ioapic_entry reg 0] ++ [ioapic_entry reg 1] ++ (seqZ 0 isa ≫= bus_INTs l) ++
  [E_INT (timer_INT reg isa mpINT_type__EXT)] ++ [E_INT (timer_INT reg isa mpINT_type__INT)] ++
  ((fun j => E_INT (isa_irq isa (id_of reg IOAPIC_ISA) j)) <$> isa_irqs (entries_of reg IOAPIC_ISA)) ++
  extra_INTs isa l ++
  [E_INT (isa_INT mp_entry_LocalINT mpINT_type__EXT (u8 isa) 0 0xff 0)] ++
  [E_INT (isa_INT mp_entry_LocalINT mpINT_type__NMI (u8 0) 0 0xff 1)].
Definition machine_exts (root : list pci_bus) : list mp_ext :=
  (root ≫= bus_exts) ++ [tree_ext (isa_number root) 1 0].

(** The extended entries of the machine: for every bus on the top its address ranges and the
    ISA range, for every bus below it the place in the tree and the ISA range, and the place
    of the ISA bus. *)
Definition all_exts (root : list pci_bus) : list mp_ext :=
  (root ≫= fun b => map_exts (info b) ++
     [compat_ext (busnum (info b)) (if busnum (info b) =? 0 then 0 else 1)] ++
     (all_below (info b) (kids b) ≫= hier_exts)) ++
  [tree_ext (isa_number root) 1 0].

Lemma machine_exts_all root : forallb walkable root = true -> machine_exts root = all_exts root.
Proof.
  intros Hw. unfold machine_exts, all_exts. f_equal. induction root as [|b root IH]; [done|].
  cbn [forallb] in Hw. apply andb_true_iff in Hw as [Hb Hw]. cbn [mbind list_bind]. rewrite IH by done. f_equal.
  unfold bus_exts. by rewrite hierarchy_complete.
Qed.

(** The tables after [mptable_init], with the state of the PCI code it is then given. *)
Definition with_pci {hw} (p : pci_state hw) (s : mp_state hw) : mp_state hw :=
  mk_mp_state p (mp_mem s) (mpe s) (ISA_busid s) (mptable_save_flag s).

Section Machine.
Context {hw : Type} `{!Mmio hw} (ok : hw -> Prop) (reg : Z -> Z -> Z) `{!Controllers ok reg}.
Context (prod_id : list Z) (apic : Z) (m0 : list Z).
Context (Hprod : (12 <= length prod_id)%nat) (Hmax : Z.of_nat (length m0) < 65536).
Abbreviation tables := (tables ok prod_id apic m0).
Abbreviation adds := (adds ok prod_id apic m0).

Lemma init_image (s : mp_state hw) : mp_mem s = m0 -> fits m0 [] [] -> exists s', mptable_init prod_id apic s = Some (tt, s') /\
  mp_mem s' = image prod_id apic m0 0 0 0 [] [] /\ mpe s' = 60%nat.
Proof.
  intros E Hf. assert (Hl : (60 <= length m0)%nat) by exact Hf. unfold mptable_init, mbind, Run_bind.
  rewrite (mp_store_here [] flpointer m0) by (done || (change (length flpointer) with 16%nat; lia)).
  change (length flpointer) with 16%nat. change flpointer with (flpointer_with 0).
  assert (Hh : cfheader prod_id apic = header prod_id apic 0 0 44 0 0)
    by (unfold cfheader, header, head_id; by rewrite <- !app_assoc).
  change mptable with (length ([] ++ flpointer_with 0)).
  rewrite (mp_store_here _ (cfheader prod_id apic) (drop 16 m0)).
  2: { done. }
  2: { rewrite Hh, length_header, length_drop by done. lia. }
  rewrite Hh, length_header, drop_drop by done. eexists. split; [done|]. split; [|done].
  unfold MptableBuild.image. cbn [mp_mem set_mem set_mpe]. by rewrite <- app_assoc.
Qed.

(** One step of the construction. *)
Lemma adds_run isa l {A B} (m : Run (mp_state hw) A) (k : A -> Run (mp_state hw) B) a es1 es s :
  adds isa l m a es1 -> tables isa l es [] s -> fits m0 (es ++ es1) [] ->
  exists s', (m ≫= k) s = k a s' /\ tables isa l (es ++ es1) [] s'.
Proof.
  intros Hm HT Hf. destruct (Hm es s HT Hf) as (s' & E & HT'). exists s'. unfold mbind, Run_bind. by rewrite E.
Qed.
Lemma extends_run isa l es (m : Run (mp_state hw) unit) {B} (k : unit -> Run (mp_state hw) B) xs1 xs s :
  extends ok prod_id apic m0 isa l es m xs1 -> tables isa l es xs s -> fits m0 es (xs ++ xs1) ->
  exists s', (m ≫= k) s = k tt s' /\ tables isa l es (xs ++ xs1) s'.
Proof.
  intros Hm HT Hf. destruct (Hm xs s HT Hf) as (s' & E & HT'). exists s'. unfold mbind, Run_bind. by rewrite E.
Qed.
Lemma upd_run {B} f (k : unit -> Run (mp_state hw) B) s : (mp_upd f ≫= k) s = k tt (f s).
Proof. done. Qed.
Lemma ask_run {A B} (f : mp_state hw -> A) (k : A -> Run (mp_state hw) B) s : (mp_ask f ≫= k) s = k (f s) s.
Proof. done. Qed.

Context (cpus : list cpu_info) (pci_root : list pci_bus) (l : list mptable_INT).
Let root : list pci_bus := pci_lookup_bus 0 pci_root.
Let isa : Z := isa_number root.
Context (Hl : Forall int_ok l) (Hroot : isa <= 255) (Hn : entries_of reg IOAPIC_ISA <= 32).
Context (Hfit : fits m0 (machine_entries reg cpus root l) (machine_exts root)).

Let es : list mp_entry := machine_entries reg cpus root l.
Let xs : list mp_ext := machine_exts root.

Lemma base_fits a b : es = a ++ b -> fits m0 a [].
Proof. intros E. apply (fits_entries m0 [] a b). rewrite <- E. by apply (fits_exts m0 _ [] xs). Qed.
Lemma ext_fits a b : xs = a ++ b -> fits m0 es a.
Proof. intros E. apply (fits_exts m0 es a b). by rewrite <- E. Qed.

Lemma timer_ok type : 0 <= type < 4 -> int_ok (timer_INT reg isa type).
Proof. intros. apply isa_INT_ok; [by left|done|lia|apply u8_bounds|lia]. Qed.
Lemma local_ok type n input : 0 <= type < 4 -> 0 <= input < 256 ->
  int_ok (isa_INT mp_entry_LocalINT type (u8 n) 0 0xff input).
Proof. intros. apply isa_INT_ok; [by right|done..|lia]. Qed.

Ltac room := eapply base_fits; unfold es, machine_entries; cbv zeta; rewrite <- ?app_assoc; reflexivity.
Tactic Notation "step" uconstr(lem) :=
  match goal with
  | H : MptableBuild.tables _ _ _ _ ?i ?v _ _ ?s |- context [mbind ?k ?m ?s] =>
    let s' := fresh "s" in let E := fresh "E" in let H' := fresh "HT" in
    edestruct (adds_run i v m k) as (s' & E & H'); [eapply lem; first [done|by left|by right|auto]|exact H|room|];
    rewrite E; clear E H; try clear s; revert s' H'; intros s HT
  end.
Ltac register := eapply adds_id; auto.

Lemma adds_all_bus_INTs : adds isa l (add_bus_INTs (Z.to_nat isa) 0) tt (seqZ 0 isa ≫= bus_INTs l).
Proof.
  pose proof (adds_bus_INTs ok prod_id apic m0 Hprod Hmax isa l Hl (Z.to_nat isa) 0) as H.
  rewrite Z2Nat.id in H; [exact H|]. unfold isa, isa_number. lia.
Qed.
Lemma adds_all_ISA_INTs : adds isa l (add_ISA_INTs 257 (id_of reg IOAPIC_ISA) 0) tt
  ((fun j => E_INT (isa_irq isa (id_of reg IOAPIC_ISA) j)) <$> isa_irqs (entries_of reg IOAPIC_ISA)).
Proof.
  pose proof (u8_bounds (1 + Z.land (Z.shiftr (u32 (reg IOAPIC_ISA IOAPIC_VERSION)) 16) 0xff)) as Hb.
  fold (entries_of reg IOAPIC_ISA) in Hb.
  pose proof (adds_ISA_INTs ok reg prod_id apic m0 Hprod Hmax isa l (id_of reg IOAPIC_ISA) (u8_bounds _) Hn 257 0) as H.
  rewrite Z.sub_0_r in H. apply H; lia.
Qed.

Lemma extra_run es0 (s : mp_state hw) {B} (k : unit -> Run (mp_state hw) B) : tables isa l es0 [] s ->
  fits m0 (es0 ++ extra_INTs isa l) [] ->
  exists s', (add_extra_INTs ≫= k) s = k tt s' /\ tables isa (number_extra isa <$> l) (es0 ++ extra_INTs isa l) [] s'.
Proof.
  intros HT Hf. destruct (adds_extra ok prod_id apic m0 Hprod Hmax isa l es0 s Hl HT Hf) as (s' & E & HT').
  exists s'. unfold mbind, Run_bind. by rewrite E.
Qed.

Lemma build_tables isa0 (s : mp_state hw) : systype (boot (pci s)) <> SYSTYPE_3K ->
  tables isa0 l [] [] (set_save_flag true s) ->
  exists s', mptable_build true cpus pci_root s = Some (tt, s') /\
    mp_mem s' = image prod_id apic m0 fl_sum
      (config_total prod_id apic es xs) (ext_sum xs) es xs /\
    Forall entry_ok es /\ Forall ext_ok xs.
Proof.
  intros Hsys HT. unfold mptable_build. rewrite ask_run, (proj2 (Z.eqb_neq _ _) Hsys), upd_run. fold root.
  clear Hsys. revert HT. generalize (set_save_flag true s). clear s. intros s HT.
  step adds_CPUs. step adds_walk. fold (isa_number root). fold isa. rewrite upd_run.
  assert (HT1 : tables isa l (([] ++ (cpu_entry <$> cpus)) ++ (pci_entry <$> all_buses root)) [] (set_ISA_busid isa s))
    by (by destruct HT). clear HT. revert HT1. generalize (set_ISA_busid isa s). clear s. intros s HT.
  step adds_BUS. step adds_IOAPIC. step adds_IOAPIC. rewrite (proj2 (Z.ltb_ge _ _) Hroot).
  step adds_all_bus_INTs. step adds_id. step (adds_INT _ _ _ _ Hprod Hmax _ _ _ (timer_ok mpINT_type__EXT ltac:(done))).
  step adds_id. step (adds_INT _ _ _ _ Hprod Hmax _ _ _ (timer_ok mpINT_type__INT ltac:(done))).
  step adds_id. step adds_all_ISA_INTs.
  edestruct extra_run as (s' & E & HT'); [exact HT|room|]. rewrite E. clear E HT s. rename s' into s, HT' into HT.
  step (adds_INT _ _ _ _ Hprod Hmax _ _ _ (local_ok mpINT_type__EXT isa 0 ltac:(done) ltac:(done))).
  step (adds_INT _ _ _ _ Hprod Hmax _ _ _ (local_ok mpINT_type__NMI 0 1 ltac:(done) ltac:(done))).
  assert (HT1 : tables isa (number_extra isa <$> l) es [] s)
    by (unfold es, machine_entries; cbv zeta; rewrite <- ?app_assoc in HT; exact HT). clear HT.
  edestruct (extends_run isa) as (s1 & E & HT2); [by apply extends_buses|exact HT1|by eapply ext_fits|].
  rewrite E. clear E HT1 s.
  edestruct (extends_run isa) as (s2 & E & HT3); [by apply extends_tree|exact HT2|by apply (ext_fits _ []); rewrite app_nil_r|].
  rewrite E. clear E HT2 s1.
  destruct (checksum_image prod_id apic m0 Hprod Hmax ok isa _ es xs s2 HT3) as (s3 & E & Hm & _).
  exists s3. rewrite E. split_and!; [done..| |]; by destruct HT3.
Qed.

End Machine.

(** C27: what [mptable_build] leaves in memory, after [mptable_init] and with the devices and
    interrupts [pci_init] found, is a floating pointer and a configuration table from which
    the reader of the specification takes exactly the entries of the machine, in order, and
    the address of the local controllers: both checksums and that of the extended entries
    hold.  The extended entries name every PCI bus with its parent.  Memory behind the tables
    is not touched.  The machine is not of the 3000 series; of the buses side by side below
    one bus only the last has buses below it (the walk of the program loses the buses behind
    another); the tables are smaller than 64 KB and fit; there are fewer than 256 PCI buses
    and at most 32 inputs of the ISA controller, whose two registers nothing changes. *)
Theorem mptable_build_reads hw `{!Mmio hw} (ok : hw -> Prop) (reg : Z -> Z -> Z) `{!Controllers ok reg}
  prod_id apic cpus pci_root (s : mp_state hw) (p : pci_state hw) :
  let root := pci_lookup_bus 0 pci_root in
  let es := machine_entries reg cpus root (mpINT_list (boot p)) in
  let xs := all_exts root in
  forallb walkable root = true -> (12 <= length prod_id)%nat -> 0 <= apic < 4294967296 -> Z.of_nat (length (mp_mem s)) < 65536 ->
  fits (mp_mem s) es xs -> systype (boot p) <> SYSTYPE_3K -> ok (hardware p) ->
  Forall int_ok (mpINT_list (boot p)) -> isa_number root <= 255 -> entries_of reg IOAPIC_ISA <= 32 ->
  exists s1 s2, mptable_init prod_id apic s = Some (tt, s1) /\
    mptable_build true cpus pci_root (with_pci p s1) = Some (tt, s2) /\
    read_tables (mp_mem s2) = Some (es, xs, apic) /\
    length (mp_mem s2) = length (mp_mem s) /\ drop (used es xs) (mp_mem s2) = drop (used es xs) (mp_mem s).
Proof.
  intros root es xs Hwalk Hprod Hapic Hmax Hfit Hsys Hok Hl Hroot Hn. subst xs.
  rewrite <- (machine_exts_all root Hwalk) in *. set (xs := machine_exts root) in *.
  destruct (init_image prod_id apic (mp_mem s) Hprod s eq_refl) as (s1 & E1 & Hm1 & Hp1).
  { apply (fits_exts _ [] [] xs), (fits_entries _ xs [] es), Hfit. }
  destruct (build_tables ok reg prod_id apic (mp_mem s) Hprod Hmax cpus pci_root (mpINT_list (boot p)) Hl Hroot Hn Hfit
              (ISA_busid s1) (with_pci p s1) Hsys) as (s2 & E2 & Hm2 & Hes & Hxs).
  { split; try done. apply (fits_exts _ [] [] xs), (fits_entries _ xs [] es), Hfit. }
  exists s1, s2. split; [done|]. split; [done|]. rewrite Hm2. fold root es xs. split_and!.
  - apply read_image; try done. apply sums_zero; try done. unfold xs, machine_exts. by destruct (root ≫= bus_exts).
  - by apply length_image.
  - rewrite image_config. set (T := drop (used es xs) (mp_mem s)).
    set (P := flpointer_with fl_sum ++ config prod_id apic (config_total prod_id apic es xs) (ext_sum xs) es xs ++ exts_bytes xs).
    replace (used es xs) with (length P); [by unfold P; rewrite !app_assoc, drop_app_length|].
    unfold P, used. rewrite !length_app, length_config by done. change (length (flpointer_with fl_sum)) with 16%nat. lia.
Qed.

(** ** A machine *)

(** Two controllers that keep the index last written: numbers 4 and 5, 24 inputs each. *)
Definition sample_reg (n idx : Z) : Z := if idx =? 0 then Z.shiftl (4 + n) 24 else 0x00170011.
#[export] Instance sample_mmio : Mmio Z := {|
  mmio_write a v h := if Z.testbit a 4 then h else v;
  mmio_read a h := (sample_reg (Z.land (Z.shiftr a 12) 1) h, h);
|}.
#[export] Instance sample_controllers : Controllers (fun _ : Z => True) sample_reg.
Proof. split. intros n idx h [-> | ->] [-> | ->] _; by split. Qed.

(** A bridge on the host bus, one processor, an interrupt behind the bridge and one of the
    chipset. *)
Definition sample_buses : list pci_bus :=
  let i n sub p r := mk_bus_info n p sub sub 0 0 r None (resource pci_bus_blank) None in
  [mk_bus (i 0 1 0 1) [] [mk_bus (i 1 1 0 0) [] []]].
Definition sample_INTs : list mptable_INT :=
  [mk_mptable_INT mp_entry_IOINT mpINT_type__INT 3 3 1 (pci_irq 2 0) 5 4; mk_mptable_INT mp_entry_IOINT mpINT_type__INT 3 3 0xff 9 4 9].
Definition sample_pci : pci_state Z :=
  mk_pci_state 0 [] 0 0 [] (mk_boot_vars SYSTYPE_5K [] [] 0 0 [] 6 sample_INTs false).
Definition sample_state : mp_state Z := mk_mp_state sample_pci (zeros 512) 0 0 false.
Definition sample_cpu : cpu_info := mk_cpu_info 6 8 3 0x383fbff 1 0 0x11.

Lemma mptable_build_reads_witness : exists s1 s2,
  mptable_init (zeros 12) 0xfee00000 sample_state = Some (tt, s1) /\
  mptable_build true [sample_cpu] sample_buses (with_pci sample_pci s1) = Some (tt, s2) /\
  read_tables (mp_mem s2) =
    Some (machine_entries sample_reg [sample_cpu] sample_buses sample_INTs, all_exts sample_buses, 0xfee00000).
Proof.
  destruct (mptable_build_reads Z (fun _ => True) sample_reg (zeros 12) 0xfee00000 [sample_cpu] sample_buses
              sample_state sample_pci) as (s1 & s2 & H1 & H2 & H3 & _).
  - reflexivity.
  - reflexivity.
  - lia.
  - reflexivity.
  - apply Nat.leb_le. reflexivity.
  - done.
  - done.
  - constructor; [|constructor; [|constructor]]; (split; [by left|cbv -[Z.le Z.lt]; lia]).
  - done.
  - done.
  - exists s1, s2. done.
Defined.
