(* ===== verification/Memtest.v ===== *)
(** * Memtest: the test of the main memory

    Model of [x86/tests/memtest/memtest.c].  The memory under test is a parameter: reads
    and writes of one, two and four bytes that may go wrong ([Ram]).  The state is that
    memory with what was put out.  [x], [i] and [n] are numbers of elements; the inline
    assembly is modelled by the instructions it repeats. *)

From stdpp Require Import strings.
From S2P Require Import Prelude CmosIo Printf.
Open Scope list_scope.
Open Scope Z_scope.

(** Accesses of a number of bytes at an address. *)
Class Ram (mem : Type) := {
  ram_read : nat -> Z -> mem -> Z * mem;
  ram_write : nat -> Z -> Z -> mem -> mem;
}.

Definition MEMTEST_BY_BYTE : Z := 0.
Definition MEMTEST_BY_WORD : Z := 1.
Definition MEMTEST_BY_LONGWORD : Z := 2.
Definition MEMTEST_BY_LONGLONGWORD : Z := 3.
Definition MEMTEST_BY_BLOCKBYTE : Z := 4.
Definition MEMTEST_BY_BLOCKWORD : Z := 5.
Definition MEMTEST_BY_BLOCKLONGWORD : Z := 6.
Definition MEMTEST_BY_BLOCKLONGLONGWORD : Z := 7.

Definition patterns : list Z :=
  [0x00000000; 0x55555555; 0xaaaaaaaa; 0x5a5a5a5a; 0xa5a5a5a5; 0xffffffff].

Section Memtest.
Context {mem : Type} `{!Ram mem}.

Record test_state := mk_test_state { ram : mem; output : list Z }.
Abbreviation T := (St test_state).

Definition put_text (s : list Z) : T unit :=
  fun st => (tt, mk_test_state (ram st) (output st ++ (puts (Some s)).2)).
Definition rd (w : nat) (a : Z) : T Z :=
  fun st => let '(v, m) := ram_read w (u32 a) (ram st) in (v mod 256 ^ Z.of_nat w, mk_test_state m (output st)).
Definition wr (w : nat) (a v : Z) : T unit :=
  fun st => (tt, mk_test_state (ram_write w (u32 a) (v mod 256 ^ Z.of_nat w) (ram st)) (output st)).

(** [puthex]: the digits from the right; fifteen of them fit. *)
Fixpoint hex_loop (fuel : nat) (n : Z) (p : list Z) : list Z :=
  match fuel with
  | O => p
  | S fuel => if n =? 0 then p else hex_loop fuel (n / 16) (nth (Z.to_nat (n mod 16)) (chars "0123456789abcdef") 0 :: p)
  end.
Definition puthex (n : Z) : T unit :=
  let p := [nth (Z.to_nat (n mod 16)) (chars "0123456789abcdef") 0] in
  put_text (chars "0x");; put_text (hex_loop 15 (n / 16) p).

Definition error_at (kind : list Z) (a : Z) : T Z :=
  put_text kind;; puthex (u32 a);; put_text (chars "
");; mret (-1).

(** One check of three reads against the value; the result so far is [ret]. *)
Definition compare (a b c val at_ ret : Z) : T Z :=
  if (a =? b) && (b =? c) then
    if negb (a =? val) then error_at (chars "Write error at ") at_ else mret ret
  else error_at (chars "Read error at ") at_.

Definition dot (i : Z) : T unit := if i mod (1024 * 1024) =? 0 then put_text (chars ".") else mret tt.

(** ** The tests by elements of [w] bytes

    The variables [val], [a], [b] and [c] have [t] bytes. *)

Definition trunc (t : nat) (v : Z) : Z := v mod 256 ^ Z.of_nat t.

Fixpoint fill (w : nat) (base val : Z) (n : nat) (i : Z) : T unit :=
  match n with
  | O => mret tt
  | S n => dot i;; wr w (base + i * Z.of_nat w) val;; fill w base val n (i + 1)
  end.

Fixpoint check (w t : nat) (base val : Z) (n : nat) (i ret : Z) : T Z :=
  match n with
  | O => mret ret
  | S n =>
    let at_ := base + i * Z.of_nat w in
    dot i;;
    a ← rd w at_;
    b ← rd w at_;
    c ← rd w at_;
    ret ← compare (trunc t a) (trunc t b) (trunc t c) val at_ ret;
    check w t base val n (i + 1) ret
  end.

Fixpoint each_pattern (f : Z -> Z -> T Z) (l : list Z) (ret : Z) : T Z :=
  match l with [] => mret ret | p :: l => ret ← f p ret; each_pattern f l ret end.

Definition test_pattern (w t : nat) (base : Z) (n : nat) (pattern ret : Z) : T Z :=
  let val := trunc t pattern in
  fill w base val n 0;; check w t base val n 0 ret.

Definition memtest_by_byte (base size : Z) : T Z :=
  each_pattern (test_pattern 1 1 base (Z.to_nat size)) patterns 0.
Definition memtest_by_word (base size : Z) : T Z :=
  each_pattern (test_pattern 2 2 base (Z.to_nat (Z.shiftr size 1))) patterns 0.
(** The variables are [unsigned short] here. *)
Definition memtest_by_longword (base size : Z) : T Z :=
  each_pattern (test_pattern 4 2 base (Z.to_nat (Z.shiftr size 2))) patterns 0.
Definition memtest_by_longlongword (base size : Z) : T Z := mret (-1).

(** ** The tests by blocks *)

(** [rep stos]. *)
Fixpoint stos (w : nat) (val a : Z) (n : nat) : T unit :=
  match n with
  | O => mret tt
  | S n => wr w a val;; stos w val (a + Z.of_nat w) n
  end.

(** [repe scas]: the count that is left and the address behind the last element read. *)
Fixpoint scas (w : nat) (val a : Z) (n : nat) : T (nat * Z) :=
  match n with
  | O => mret (O, a)
  | S n => v ← rd w a; if v =? val then scas w val (a + Z.of_nat w) n else mret (n, a + Z.of_nat w)
  end.

(** [while (i > 0)]: every turn takes one off [i] at least, so [i] turns are enough. *)
Fixpoint block_loop (fuel : nat) (w : nat) (base val : Z) (i : nat) (p ret : Z) : T Z :=
  match fuel with
  | O => mret ret
  | S fuel =>
    if (i =? 0)%nat then mret ret
    else
      '(i, p) ← scas w val p i;
      if (i =? 0)%nat then mret ret
      else
        let at_ := base + Z.of_nat i * Z.of_nat w in
        a ← rd w at_;
        b ← rd w at_;
        c ← rd w at_;
        ret ← compare a b c val base ret;
        block_loop fuel w base val i p ret
  end.

Definition block_pattern (w : nat) (base : Z) (n : nat) (pattern ret : Z) : T Z :=
  let val := trunc w pattern in
  stos w val base n;; block_loop n w base val n base ret.

Definition memtest_by_blockbyte (base size : Z) : T Z :=
  each_pattern (block_pattern 1 base (Z.to_nat size)) patterns 0.
Definition memtest_by_blockword (base size : Z) : T Z :=
  each_pattern (block_pattern 2 base (Z.to_nat (Z.shiftr size 1))) patterns 0.
Definition memtest_by_blocklongword (base size : Z) : T Z :=
  each_pattern (block_pattern 4 base (Z.to_nat (Z.shiftr size 2))) patterns 0.
Definition memtest_by_blocklonglongword (base size : Z) : T Z := mret (-1).

Definition memtest (base size type : Z) : T Z :=
  if type =? MEMTEST_BY_BYTE then memtest_by_byte base size
  else if type =? MEMTEST_BY_WORD then memtest_by_word base size
  else if type =? MEMTEST_BY_LONGWORD then memtest_by_longword base size
  else if type =? MEMTEST_BY_LONGLONGWORD then memtest_by_longlongword base size
  else if type =? MEMTEST_BY_BLOCKBYTE then memtest_by_blockbyte base size
  else if type =? MEMTEST_BY_BLOCKWORD then memtest_by_blockword base size
  else if type =? MEMTEST_BY_BLOCKLONGWORD then memtest_by_blocklongword base size
  else if type =? MEMTEST_BY_BLOCKLONGLONGWORD then memtest_by_blocklonglongword base size
  else mret (-1).

(** [total_memtest] of main.c. *)
Definition report (name : string) (base size type : Z) : T unit :=
  put_text (chars name);;
  r ← memtest base size type;
  put_text (chars (if r <? 0 then "failed
" else "passed
")).
Definition total_memtest (base size : Z) : T unit :=
  report "8 bit: " base size MEMTEST_BY_BYTE;;
  report "16 bit: " base size MEMTEST_BY_WORD;;
  report "32 bit: " base size MEMTEST_BY_LONGWORD;;
  report "8 bit block: " base size MEMTEST_BY_BLOCKBYTE;;
  report "16 bit block: " base size MEMTEST_BY_BLOCKWORD;;
  report "32 bit block: " base size MEMTEST_BY_BLOCKLONGWORD.

End Memtest.
