(* ===== verification/MemtestProofs.v ===== *)
(** * MemtestProofs: which faults the memory test finds

    [chip] is a memory some bits of which are stuck.  The tests by elements find exactly the
    stuck bits of the bytes they look at; a test by blocks looks at an element other than the
    one that differs, and what it finds is characterised. *)

From S2P Require Import Prelude CmosIo Printf Memtest.

(** ** A memory with stuck bits *)

(** The bytes written last, the bits that always read as 0 and those that read as 1. *)
Record chip := mk_chip { cell : Z -> Z; low : Z -> Z; high : Z -> Z }.

Definition through (c : chip) (a v : Z) : Z := Z.lor (Z.land v (Z.lnot (low c a))) (high c a).
Definition faulty (c : chip) (a : Z) : bool := negb ((low c a =? 0) && (high c a =? 0)).
Definition masks_ok (c : chip) : Prop := forall a, 0 <= low c a < 256 /\ 0 <= high c a < 256.

Definition byte_of (k : nat) (v : Z) : Z := (v / 256 ^ Z.of_nat k) mod 256.
Definition element (w : nat) (a : Z) (c : chip) : Z :=
  le_val (map (fun k : nat => through c (a + Z.of_nat k) (cell c (a + Z.of_nat k))) (seq 0 w)).
Definition store_cells (w : nat) (a v : Z) (c : chip) : chip :=
  mk_chip (fun x => if (a <=? x) && (x <? a + Z.of_nat w) then byte_of (Z.to_nat (x - a)) v else cell c x) (low c) (high c).

#[export] Instance chip_ram : Ram chip := {|
  ram_read w a c := (element w a c, c);
  ram_write w a v c := store_cells w a v c;
|}.

(** ** Results, whatever is put out *)

Definition gives {A} (m : St test_state A) (c : chip) (a : A) (c' : chip) : Prop :=
  forall o, exists o', m (mk_test_state c o) = (a, mk_test_state c' o').

Lemma gives_ret {A} (a : A) c : gives (mret a) c a c.
Proof. intros o. by exists o. Qed.
Lemma gives_bind {A B} (m : St test_state A) (k : A -> St test_state B) c a c' b c'' :
  gives m c a c' -> gives (k a) c' b c'' -> gives (m ≫= k) c b c''.
Proof.
  intros Hm Hk o. destruct (Hm o) as (o1 & E1), (Hk o1) as (o2 & E2). exists o2.
  unfold mbind, St_bind. by rewrite E1.
Qed.
Lemma gives_text s c : gives (put_text s) c tt c.
Proof. intros o. by eexists. Qed.
Lemma yields_dot i c : gives (dot i) c tt c.
Proof. unfold dot. case_match; [apply gives_text|apply gives_ret]. Qed.
Lemma yields_error kind a c : gives (error_at kind a) c (-1) c.
Proof.
  eapply gives_bind; [apply gives_text|]. eapply gives_bind.
  - eapply gives_bind; apply gives_text.
  - eapply gives_bind; [apply gives_text|apply gives_ret].
Qed.

(** Bytes and elements. *)
Lemma byte_of_range k v : 0 <= byte_of k v < 256.
Proof. apply Z.mod_pos_bound. lia. Qed.
Lemma bytes_of_le w v : le_bytes w v = map (fun k => byte_of k v) (seq 0 w).
Proof.
  revert v. induction w as [|w IH]; intros v; [done|]. cbn [le_bytes seq map]. f_equal.
  - unfold byte_of. by rewrite Z.div_1_r.
  - rewrite IH, <- seq_shift, map_map. apply map_ext. intros k. unfold byte_of.
    rewrite Nat2Z.inj_succ, Z.pow_succ_r, Z.div_div by lia. done.
Qed.

Lemma through_range c a v : masks_ok c -> 0 <= v < 256 -> 0 <= through c a v < 256.
Proof.
  intros Hm Hv. destruct (Hm a) as [Hl Hh]. unfold through.
  assert (E : Z.lor (Z.land v (Z.lnot (low c a))) (high c a) = Z.land (Z.lor (Z.land v (Z.lnot (low c a))) (high c a)) 255).
  { rewrite Z.land_lor_distr_l. f_equal.
    - rewrite <- Z.land_assoc, (Z.land_comm _ 255), Z.land_assoc. f_equal.
      symmetry. change 255 with (Z.ones 8). rewrite Z.land_ones by lia. by apply Z.mod_small.
    - symmetry. change 255 with (Z.ones 8). rewrite Z.land_ones by lia. by apply Z.mod_small. }
  rewrite E. change 255 with (Z.ones 8). rewrite Z.land_ones by lia. by apply Z.mod_pos_bound.
Qed.

Lemma through_sound c a v : faulty c a = false -> through c a v = v.
Proof.
  unfold faulty, through. rewrite negb_false_iff, andb_true_iff, !Z.eqb_eq. intros [-> ->].
  by rewrite Z.lnot_0, Z.land_m1_r, Z.lor_0_r.
Qed.
(** A stuck bit shows with all bits clear or with all bits set. *)
Lemma through_faulty c a : masks_ok c -> faulty c a = true -> through c a 0 <> 0 \/ through c a 255 <> 255.
Proof.
  intros Hm Hf. destruct (Z.eq_dec (high c a) 0) as [Hh|Hh].
  - right. unfold through. rewrite Hh, Z.lor_0_r. intros E.
    destruct (Hm a) as [Hl _]. assert (E2 : Z.land 255 (low c a) = 0).
    { rewrite <- E at 1. by rewrite <- Z.land_assoc, (Z.land_comm (Z.lnot _)), Z.land_lnot_diag, Z.land_0_r. }
    rewrite Z.land_comm in E2. change 255 with (Z.ones 8) in E2. rewrite Z.land_ones, Z.mod_small in E2 by lia.
    unfold faulty in Hf. by rewrite E2, Hh in Hf.
  - left. unfold through. rewrite Z.land_0_l, Z.lor_0_l. done.
Qed.

(** ** What a read sees *)

Lemma le_val_app a b : le_val (a ++ b) = le_val a + 256 ^ Z.of_nat (length a) * le_val b.
Proof.
  induction a as [|x a IH]; [simpl; lia|]. cbn [app le_val length]. rewrite IH, Nat2Z.inj_succ, Z.pow_succ_r by lia. lia.
Qed.
Lemma le_val_take t bs : bytes_ok bs -> (t <= length bs)%nat -> le_val bs mod 256 ^ Z.of_nat t = le_val (take t bs).
Proof.
  intros Hb Ht. rewrite <- (take_drop t bs) at 1. rewrite le_val_app, length_take, Nat.min_l by done.
  rewrite Z.mul_comm, Z_mod_plus_full. apply Z.mod_small.
  assert (Hb' : bytes_ok (take t bs)) by (by apply Forall_take).
  pose proof (le_val_range _ Hb') as H. by rewrite length_take, Nat.min_l in H by done.
Qed.
Lemma le_val_inj xs ys : bytes_ok xs -> bytes_ok ys -> length xs = length ys -> le_val xs = le_val ys -> xs = ys.
Proof. intros Hx Hy Hl E. rewrite <- (le_bytes_le_val xs Hx), <- (le_bytes_le_val ys Hy). by rewrite Hl, E. Qed.

(** Whether an element, truncated to [t] bytes, differs from the value. *)
Definition differs (w t : nat) (val a : Z) (c : chip) : bool :=
  negb (trunc t (element w a c mod 256 ^ Z.of_nat w) =? val).

(** The cells of an element hold the bytes of a value. *)
Definition holds (w : nat) (a val : Z) (c : chip) : Prop :=
  forall k, (k < w)%nat -> cell c (a + Z.of_nat k) = byte_of k val.

Lemma element_bytes w a val c : masks_ok c -> holds w a val c ->
  let bs := map (fun k : nat => through c (a + Z.of_nat k) (byte_of k val)) (seq 0 w) in
  element w a c = le_val bs /\ bytes_ok bs /\ length bs = w.
Proof.
  intros Hm Hh. split_and!.
  - unfold element. f_equal. apply map_ext_in. intros k [_ Hk]%in_seq. by rewrite Hh by lia.
  - apply Forall_forall. intros x (k & -> & _)%list_elem_of_fmap. apply through_range; [done|apply byte_of_range].
  - by rewrite length_map, length_seq.
Qed.

Lemma differs_spec w t pattern a c : (t <= w)%nat -> masks_ok c -> holds w a (trunc t pattern) c ->
  differs w t (trunc t pattern) a c =
  existsb (fun k : nat => negb (through c (a + Z.of_nat k) (byte_of k (trunc t pattern)) =? byte_of k (trunc t pattern))) (seq 0 t).
Proof.
  intros Ht Hm Hh. set (val := trunc t pattern) in *. destruct (element_bytes w a val c Hm Hh) as (E & Hb & Hl).
  set (f := fun k : nat => through c (a + Z.of_nat k) (byte_of k val)) in *.
  unfold differs. rewrite E, (le_val_take w), take_ge by (done || lia). unfold trunc. rewrite le_val_take by (done || lia).
  rewrite firstn_map, take_seq, Nat.min_l by done.
  assert (Ev : val = le_val (map (fun k => byte_of k val) (seq 0 t))).
  { rewrite <- bytes_of_le, le_val_le_bytes. symmetry. apply Z.mod_small, Z.mod_pos_bound. lia. }
  apply eq_true_iff_eq. rewrite negb_true_iff, Z.eqb_neq, existsb_exists. split.
  - intros Hne. destruct (existsb (fun k => negb (f k =? byte_of k val)) (seq 0 t)) eqn:Hx.
    { by apply existsb_exists. }
    exfalso. apply Hne. rewrite Ev. f_equal. apply map_ext_in. intros k Hk.
    destruct (Z.eq_dec (f k) (byte_of k val)) as [|Hk']; [done|]. rewrite <- not_true_iff_false in Hx. exfalso. apply Hx.
    apply existsb_exists. exists k. split; [done|]. by apply negb_true_iff, Z.eqb_neq.
  - intros (k & Hk & Hd) Heq. apply negb_true_iff, Z.eqb_neq in Hd. apply Hd. rewrite Ev in Heq.
    apply le_val_inj in Heq; [| | |by rewrite !length_map].
    + apply in_seq in Hk. assert (Hi : seq 0 t !! k = Some k) by (apply lookup_seq; lia).
      assert (F := f_equal (fun l => l !! k) Heq). simpl in F. rewrite !list_lookup_fmap, Hi in F. simpl in F. by injection F.
    + apply Forall_forall. intros x (j & -> & _)%list_elem_of_fmap. apply through_range; [done|apply byte_of_range].
    + apply Forall_forall. intros x (j & -> & _)%list_elem_of_fmap. apply byte_of_range.
Qed.

(** ** Filling and checking *)

Definition fits (w : nat) (base : Z) (n : nat) : Prop := 0 <= base /\ base + Z.of_nat n * Z.of_nat w <= 2 ^ 32.
Definition same_masks (c c' : chip) : Prop := low c' = low c /\ high c' = high c.

Lemma yields_wr w a v c : 0 <= a < 2 ^ 32 -> 0 <= v < 256 ^ Z.of_nat w ->
  gives (wr w a v) c tt (store_cells w a v c).
Proof. intros Ha Hv o. exists o. unfold wr. simpl. by rewrite !u32_small, Z.mod_small by lia. Qed.
Lemma yields_rd w a c : 0 <= a < 2 ^ 32 -> gives (rd w a) c (element w a c mod 256 ^ Z.of_nat w) c.
Proof. intros Ha o. exists o. unfold rd. simpl. by rewrite u32_small by lia. Qed.

Lemma store_holds w a v c : holds w a v (store_cells w a v c).
Proof.
  intros k Hk. simpl. rewrite (proj2 (Z.leb_le _ _)), (proj2 (Z.ltb_lt _ _)) by lia. simpl.
  f_equal. lia.
Qed.
Lemma store_keeps w a v c x : x < a \/ a + Z.of_nat w <= x -> cell (store_cells w a v c) x = cell c x.
Proof. intros H. simpl. destruct (Z.leb_spec a x), (Z.ltb_spec x (a + Z.of_nat w)); simpl; (done || lia). Qed.

Lemma fill_yields w base val n i c : (0 < w)%nat -> 0 <= i -> 0 <= base -> base + (i + Z.of_nat n) * Z.of_nat w <= 2 ^ 32 ->
  0 <= val < 256 ^ Z.of_nat w ->
  exists c', gives (fill w base val n i) c tt c' /\ same_masks c c' /\
    (forall j, i <= j < i + Z.of_nat n -> holds w (base + j * Z.of_nat w) val c') /\
    (forall x, x < base + i * Z.of_nat w -> cell c' x = cell c x).
Proof.
  intros Hw. revert i c. induction n as [|n IH]; intros i c Hi Hb Hfit Hv.
  { exists c. split; [apply gives_ret|]. split; [done|]. split; [lia|done]. }
  destruct (IH (i + 1) (store_cells w (base + i * Z.of_nat w) val c)) as (c' & Hy & [Hl Hh] & Hin & Hout); [lia..|nia|done|].
  exists c'. split; [|split; [done|split]].
  - cbn [fill]. eapply gives_bind; [apply yields_dot|]. eapply gives_bind; [apply yields_wr; [nia|done]|]. exact Hy.
  - intros j Hj k Hk. destruct (decide (j = i)) as [->|Hne]; [|apply Hin; lia].
    rewrite Hout by nia. by apply store_holds.
  - intros x Hx. rewrite Hout by nia. apply store_keeps. lia.
Qed.

Lemma yields_compare v val at_ ret c : gives (compare v v v val at_ ret) c (if negb (v =? val) then -1 else ret) c.
Proof.
  unfold compare. rewrite !Z.eqb_refl. simpl. destruct (negb (v =? val)); [apply yields_error|apply gives_ret].
Qed.

Lemma seqZ_S i (n : nat) : seqZ i (Z.of_nat (S n)) = i :: seqZ (i + 1) (Z.of_nat n).
Proof. rewrite seqZ_cons by lia. f_equal. unfold Z.succ. f_equal. lia. Qed.

Lemma check_yields w t base val n i ret c : (0 < w)%nat -> 0 <= i -> 0 <= base -> base + (i + Z.of_nat n) * Z.of_nat w <= 2 ^ 32 ->
  gives (check w t base val n i ret) c
    (if existsb (fun j => differs w t val (base + j * Z.of_nat w) c) (seqZ i (Z.of_nat n)) then -1 else ret) c.
Proof.
  intros Hw. revert i ret. induction n as [|n IH]; intros i ret Hi Hb Hfit; [apply gives_ret|].
  rewrite seqZ_S. cbn [check existsb].
  assert (Ha : 0 <= base + i * Z.of_nat w < 2 ^ 32) by nia.
  eapply gives_bind; [apply yields_dot|].
  do 3 (eapply gives_bind; [by apply yields_rd|]).
  eapply gives_bind; [apply yields_compare|]. fold (differs w t val (base + i * Z.of_nat w) c).
  destruct (differs w t val (base + i * Z.of_nat w) c); simpl.
  - specialize (IH (i + 1) (-1)). destruct (existsb _ _) in IH; apply IH; (lia || nia).
  - apply IH; (lia || nia).
Qed.

(** What one pattern finds: the elements that differ when all hold the pattern. *)
Definition shows (w t : nat) (base : Z) (n : nat) (pattern : Z) (c : chip) : bool :=
  existsb (fun j => existsb (fun k : nat =>
      let a := base + j * Z.of_nat w + Z.of_nat k in
      negb (through c a (byte_of k (trunc t pattern)) =? byte_of k (trunc t pattern)))
    (seq 0 t)) (seqZ 0 (Z.of_nat n)).

Lemma shows_masks w t base n pattern c c' : same_masks c c' -> shows w t base n pattern c' = shows w t base n pattern c.
Proof. intros [El Eh]. unfold shows, through. by rewrite El, Eh. Qed.
Lemma masks_ok_same c c' : same_masks c c' -> masks_ok c -> masks_ok c'.
Proof. intros [El Eh] H a. rewrite El, Eh. apply H. Qed.

Lemma existsb_ext_in {A} (f g : A -> bool) l : (forall x, In x l -> f x = g x) -> existsb f l = existsb g l.
Proof.
  induction l as [|x l IH]; intros H; [done|]. simpl. rewrite (H x) by (by left). f_equal. apply IH. intros y Hy. apply H. by right.
Qed.

Lemma trunc_small t w v : (t <= w)%nat -> 0 <= trunc t v < 256 ^ Z.of_nat w.
Proof.
  intros H. unfold trunc. pose proof (Z.mod_pos_bound v (256 ^ Z.of_nat t) ltac:(lia)).
  pose proof (Z.pow_le_mono_r 256 (Z.of_nat t) (Z.of_nat w) ltac:(lia) ltac:(lia)). lia.
Qed.

Lemma pattern_yields w t base n pattern ret c : (0 < t <= w)%nat -> fits w base n -> masks_ok c ->
  exists c', same_masks c c' /\
    gives (test_pattern w t base n pattern ret) c (if shows w t base n pattern c then -1 else ret) c'.
Proof.
  intros Ht [Hb Hf] Hm.
  destruct (fill_yields w base (trunc t pattern) n 0 c) as (c' & Hy & Hs & Hh & _); [lia..|apply trunc_small; lia|].
  exists c'. split; [done|]. unfold test_pattern. eapply gives_bind; [exact Hy|].
  rewrite <- (shows_masks _ _ _ _ _ _ _ Hs).
  assert (E : shows w t base n pattern c' =
    existsb (fun j => differs w t (trunc t pattern) (base + j * Z.of_nat w) c') (seqZ 0 (Z.of_nat n))).
  { apply existsb_ext_in. intros j Hj%list_elem_of_In%elem_of_seqZ.
    rewrite differs_spec; [done|lia|by eapply masks_ok_same|apply Hh; lia]. }
  rewrite E. apply check_yields; lia.
Qed.

Lemma patterns_yields w t base n l ret c : (0 < t <= w)%nat -> fits w base n -> masks_ok c ->
  exists c', same_masks c c' /\
    gives (each_pattern (test_pattern w t base n) l ret) c
      (if existsb (fun p => shows w t base n p c) l then -1 else ret) c'.
Proof.
  intros Ht Hf. revert ret c. induction l as [|p l IH]; intros ret c Hm.
  { exists c. split; [done|apply gives_ret]. }
  destruct (pattern_yields w t base n p ret c Ht Hf Hm) as (c1 & Hs1 & Hy1).
  destruct (IH (if shows w t base n p c then -1 else ret) c1) as (c2 & Hs2 & Hy2); [by eapply masks_ok_same|].
  exists c2. split. { destruct Hs1, Hs2. split; congruence. }
  cbn [each_pattern existsb]. eapply gives_bind; [exact Hy1|].
  assert (E : existsb (fun p => shows w t base n p c1) l = existsb (fun p => shows w t base n p c) l).
  { apply existsb_ext_in. intros q _. by apply shows_masks. }
  rewrite E in Hy2. destruct (shows w t base n p c); simpl; [|done].
  by destruct (existsb _ l) in Hy2 |- *.
Qed.

(** ** What the tests by elements find *)

(** The bytes a test looks at: the first [t] of every element of [w] bytes that fits. *)
Definition tested (w t : nat) (base size x : Z) : Prop :=
  base <= x < base + size / Z.of_nat w * Z.of_nat w /\ (x - base) mod Z.of_nat w < Z.of_nat t.

Lemma byte_of_clear t k : byte_of k (trunc t 0) = 0.
Proof. unfold byte_of, trunc. rewrite (Zmod_0_l (256 ^ Z.of_nat t)), Zdiv_0_l. done. Qed.
Lemma byte_of_set t k : (k < t <= 4)%nat -> byte_of k (trunc t 0xffffffff) = 255.
Proof.
  intros H. assert (Hk : (k = 0 \/ k = 1 \/ k = 2 \/ k = 3)%nat) by lia.
  assert (Ht : (t = 1 \/ t = 2 \/ t = 3 \/ t = 4)%nat) by lia.
  destruct Hk as [-> | [-> | [-> | ->]]], Ht as [-> | [-> | [-> | ->]]]; (lia || reflexivity).
Qed.

Lemma shows_some w t base n l c : (0 < t <= w)%nat -> (t <= 4)%nat -> masks_ok c ->
  0 ∈ l -> 0xffffffff ∈ l ->
  existsb (fun p => shows w t base n p c) l = true <->
  exists j (k : nat), 0 <= j < Z.of_nat n /\ (k < t)%nat /\ faulty c (base + j * Z.of_nat w + Z.of_nat k) = true.
Proof.
  intros Ht Ht4 Hm H0 H1. rewrite existsb_exists. unfold shows. split.
  - intros (p & _ & (j & Hj & (k & Hk & Hd)%existsb_exists)%existsb_exists).
    apply list_elem_of_In, elem_of_seqZ in Hj. apply in_seq in Hk. exists j, k. split; [lia|]. split; [lia|].
    destruct (faulty c _) eqn:Hf; [done|]. rewrite through_sound, Z.eqb_refl in Hd by done. done.
  - intros (j & k & Hj & Hk & Hf). destruct (through_faulty c _ Hm Hf) as [Hd|Hd].
    + exists 0. split; [by apply list_elem_of_In|]. apply existsb_exists. exists j.
      split; [by apply list_elem_of_In, elem_of_seqZ; lia|]. apply existsb_exists. exists k. split; [apply in_seq; lia|].
      rewrite byte_of_clear. by apply negb_true_iff, Z.eqb_neq.
    + exists 0xffffffff. split; [by apply list_elem_of_In|]. apply existsb_exists. exists j.
      split; [by apply list_elem_of_In, elem_of_seqZ; lia|]. apply existsb_exists. exists k. split; [apply in_seq; lia|].
      rewrite byte_of_set by lia. by apply negb_true_iff, Z.eqb_neq.
Qed.

Lemma tested_spec (w t : nat) base size x : (0 < t <= w)%nat -> 0 <= size ->
  tested w t base size x <->
  exists j (k : nat), 0 <= j < size / Z.of_nat w /\ (k < t)%nat /\ x = base + j * Z.of_nat w + Z.of_nat k.
Proof.
  intros Ht Hs. unfold tested. split.
  - intros [Hx Hm]. exists ((x - base) / Z.of_nat w), (Z.to_nat ((x - base) mod Z.of_nat w)).
    pose proof (Z.mod_pos_bound (x - base) (Z.of_nat w) ltac:(lia)) as Hb.
    pose proof (Z.div_mod (x - base) (Z.of_nat w) ltac:(lia)) as He.
    split; [split|split; lia].
    + apply Z.div_pos; lia.
    + apply Z.div_lt_upper_bound; lia.
  - intros (j & k & Hj & Hk & ->). split; [nia|].
    replace (base + j * Z.of_nat w + Z.of_nat k - base) with (Z.of_nat k + j * Z.of_nat w) by lia.
    rewrite Z_mod_plus_full, Z.mod_small by lia. lia.
Qed.

Lemma elements_yields w t base size c : (0 < t <= w)%nat -> (t <= 4)%nat -> 0 <= base -> 0 <= size -> base + size <= 2 ^ 32 -> masks_ok c ->
  exists r c', same_masks c c' /\
    gives (each_pattern (test_pattern w t base (Z.to_nat (size / Z.of_nat w))) patterns 0) c r c' /\
    (r = 0 \/ r = -1) /\ (r = -1 <-> exists x, tested w t base size x /\ faulty c x = true).
Proof.
  intros Ht Ht4 Hb Hs Hf Hm. set (n := Z.to_nat (size / Z.of_nat w)).
  assert (Hn : Z.of_nat n = size / Z.of_nat w) by (unfold n; rewrite Z2Nat.id; [done|apply Z.div_pos; lia]).
  assert (Hfit : fits w base n).
  { split; [done|]. rewrite Hn. pose proof (Z.mul_div_le size (Z.of_nat w) ltac:(lia)). lia. }
  destruct (patterns_yields w t base n patterns 0 c Ht Hfit Hm) as (c' & Hsm & Hy).
  eexists _, c'. split; [done|]. split; [exact Hy|].
  assert (Hsome : existsb (fun p => shows w t base n p c) patterns = true <-> exists x, tested w t base size x /\ faulty c x = true).
  { rewrite shows_some; [|done..|by left|unfold patterns; by repeat constructor]. rewrite Hn. split.
    - intros (j & k & Hj & Hk & Hx). eexists. split; [|exact Hx]. apply tested_spec; [done..|]. by exists j, k.
    - intros (x & (j & k & Hj & Hk & ->)%tested_spec & Hx); [by exists j, k|done|done]. }
  rewrite <- Hsome. by destruct (existsb _ patterns); split; (by left) || (by right) || done.
Qed.

(** ** The tests by blocks *)

Section Blocks.
Context (w : nat) (base val : Z) (c : chip) (n : nat).
Hypothesis Hw : (0 < w)%nat.
Hypothesis Hfits : fits w base n.
Hypothesis Hval : 0 <= val < 256 ^ Z.of_nat w.

Definition at_elem (j : nat) : Z := base + Z.of_nat j * Z.of_nat w.
Definition odd (j : nat) : bool := differs w w val (at_elem j) c.

Lemma odd_spec j : (element w (at_elem j) c mod 256 ^ Z.of_nat w =? val) = negb (odd j).
Proof. unfold odd, differs, trunc. by rewrite Z.mod_mod, negb_involutive by lia. Qed.
Lemma at_elem_bound j : (j < n)%nat -> 0 <= at_elem j < 2 ^ 32.
Proof using Hfits Hw. intros H. destruct Hfits. unfold at_elem. nia. Qed.
Lemma at_elem_S j : at_elem j + Z.of_nat w = at_elem (S j).
Proof. unfold at_elem. lia. Qed.

Lemma stos_yields m k c0 : (k + m <= n)%nat -> exists c', gives (stos w val (at_elem k) m) c0 tt c' /\ same_masks c0 c' /\
  (forall j, (k <= j < k + m)%nat -> holds w (at_elem j) val c') /\ (forall x, x < at_elem k -> cell c' x = cell c0 x).
Proof using Hfits Hval Hw.
  revert k c0. induction m as [|m IH]; intros k c0 Hk.
  { exists c0. split; [apply gives_ret|]. split; [done|]. split; [lia|done]. }
  destruct (IH (S k) (store_cells w (at_elem k) val c0)) as (c' & Hy & [Hl Hh] & Hin & Hout); [lia|].
  exists c'. split; [|split; [done|split]].
  - cbn [stos]. eapply gives_bind; [apply yields_wr; [apply at_elem_bound; lia|done]|].
    rewrite at_elem_S. exact Hy.
  - intros j Hj i Hi. destruct (decide (j = k)) as [->|Hne]; [|apply Hin; lia].
    rewrite Hout by (rewrite <- at_elem_S; lia). by apply store_holds.
  - intros x Hx. rewrite Hout by (rewrite <- at_elem_S; lia). apply store_keeps. lia.
Qed.

(** The scan stops behind the first element that is odd; at the last one the count is 0
    whatever it holds. *)
Lemma scas_yields m k : (k + m = n)%nat -> exists i p, gives (scas w val (at_elem k) m) c (i, p) c /\
  (i = 0%nat /\ (forall j, (k <= j)%nat -> (S j < n)%nat -> odd j = false) \/
   (0 < i)%nat /\ (S (i + k) <= n)%nat /\ odd (n - 1 - i) = true /\ p = at_elem (n - i) /\
   (forall j, (k <= j < n - 1 - i)%nat -> odd j = false)).
Proof using Hfits Hw.
  revert k. induction m as [|m IH]; intros k Hk.
  { exists 0%nat, (at_elem k). split; [apply gives_ret|]. left. split; [done|lia]. }
  cbn [scas]. destruct (odd k) eqn:Ho.
  - exists m, (at_elem (S k)). split.
    { eapply gives_bind; [apply yields_rd, at_elem_bound; lia|]. rewrite odd_spec, Ho, at_elem_S. apply gives_ret. }
    destruct m as [|m]; [left; split; [done|lia]|right].
    replace (n - 1 - S m)%nat with k by lia. replace (n - S m)%nat with (S k) by lia.
    split; [lia|]. split; [lia|]. split; [done|]. split; [done|lia].
  - destruct (IH (S k)) as (i & p & Hy & Hr); [lia|]. exists i, p. split.
    { eapply gives_bind; [apply yields_rd, at_elem_bound; lia|]. rewrite odd_spec, Ho, at_elem_S. exact Hy. }
    destruct Hr as [[-> Hg]|(Hi & Hb & Hx & -> & Hg)]; [left|right].
    + split; [done|]. intros j Hj Hn. destruct (decide (j = k)) as [->|]; [done|apply Hg; lia].
    + split; [done|]. split; [lia|]. split; [done|]. split; [done|].
      intros j Hj. destruct (decide (j = k)) as [->|]; [done|apply Hg; lia].
Qed.

(** An odd element is reported when the one as far from the other end is odd too. *)
Definition pair_from (k : nat) : Prop := exists j, (k <= j)%nat /\ (S j < n)%nat /\ odd j = true /\ odd (n - 1 - j) = true.

Lemma block_loop_yields fuel i k ret : (i <= fuel)%nat -> (k + i = n)%nat ->
  exists r, gives (block_loop fuel w base val i (at_elem k) ret) c r c /\
    (pair_from k /\ r = -1 \/ ~ pair_from k /\ r = ret).
Proof using Hfits Hw.
  revert i k ret. induction fuel as [|fuel IH]; intros i k ret Hf Hk.
  { exists ret. split; [apply gives_ret|right]. split; [intros (j & Hj); lia|done]. }
  cbn [block_loop]. destruct (Nat.eqb_spec i 0) as [->|Hi].
  { exists ret. split; [apply gives_ret|right]. split; [intros (j & Hj); lia|done]. }
  destruct (scas_yields i k Hk) as (i' & p & Hy & Hr).
  destruct Hr as [[-> Hg]|(Hi' & Hb & Hx & -> & Hg)].
  { exists ret. split; [eapply gives_bind; [exact Hy|apply gives_ret]|right]. split; [|done].
    intros (j & Hj & Hn & Ho & _). by rewrite Hg in Ho by lia. }
  set (ret' := if odd i' then -1 else ret).
  destruct (IH i' (n - i')%nat ret') as (r & Hyr & Hres); [lia..|].
  exists r. split.
  - eapply gives_bind; [exact Hy|]. cbn beta iota. destruct (Nat.eqb_spec i' 0) as [|_]; [lia|].
    change (base + Z.of_nat i' * Z.of_nat w) with (at_elem i').
    do 3 (eapply gives_bind; [apply yields_rd, at_elem_bound; lia|]).
    eapply gives_bind; [apply yields_compare|]. rewrite odd_spec, negb_involutive. exact Hyr.
  - unfold pair_from in *. unfold ret' in Hres. destruct Hres as [[(j & Hj & Hn & Ho) ->]|[Hnp ->]].
    { left. split; [|done]. exists j. split; [lia|done]. }
    destruct (odd i') eqn:Ho; [left|right]; (split; [|done]).
    + exists (n - 1 - i')%nat. replace (n - 1 - (n - 1 - i'))%nat with i' by lia. split; [lia|]. split; [lia|done].
    + intros (j & Hj & Hn & Hoj & Hom). destruct (decide (j < n - 1 - i')%nat) as [Hl|Hl].
      * rewrite Hg in Hoj by lia. done.
      * destruct (decide (j = n - 1 - i')%nat) as [->|Hne].
        { replace (n - 1 - (n - 1 - i'))%nat with i' in Hom by lia. congruence. }
        apply Hnp. exists j. split; [lia|done].
Qed.
End Blocks.

(** Whether the stuck bits of an element change a pattern. *)
Definition spoils (w : nat) (pattern a : Z) (c : chip) : bool :=
  existsb (fun k : nat => negb (through c (a + Z.of_nat k) (byte_of k (trunc w pattern)) =? byte_of k (trunc w pattern))) (seq 0 w).
Definition mirrored (w : nat) (base : Z) (n : nat) (pattern : Z) (c : chip) : Prop :=
  exists j : nat, (S j < n)%nat /\ spoils w pattern (base + Z.of_nat j * Z.of_nat w) c = true /\
    spoils w pattern (base + Z.of_nat (n - 1 - j) * Z.of_nat w) c = true.

Lemma mirrored_masks w base n pattern c c' : same_masks c c' -> mirrored w base n pattern c' <-> mirrored w base n pattern c.
Proof. intros [El Eh]. unfold mirrored, spoils, through. by rewrite El, Eh. Qed.

Lemma block_pattern_yields w base n pattern ret c : (0 < w)%nat -> fits w base n -> masks_ok c ->
  exists r c', same_masks c c' /\ gives (block_pattern w base n pattern ret) c r c' /\
    (mirrored w base n pattern c /\ r = -1 \/ ~ mirrored w base n pattern c /\ r = ret).
Proof.
  intros Hw Hf Hm.
  destruct (stos_yields w base (trunc w pattern) n Hw Hf ltac:(by apply trunc_small) n 0 c) as (c' & Hy & Hs & Hh & _); [lia|].
  destruct (block_loop_yields w base (trunc w pattern) c' n Hw Hf n n 0 ret) as (r & Hy' & Hr); [lia..|].
  assert (E0 : at_elem w base 0 = base) by (unfold at_elem; lia). rewrite E0 in *.
  exists r, c'. split; [done|]. split. { unfold block_pattern. eapply gives_bind; [exact Hy|exact Hy']. }
  assert (E : pair_from w base (trunc w pattern) c' n 0 <-> mirrored w base n pattern c).
  { rewrite <- (mirrored_masks w base n pattern c c' Hs). unfold pair_from, mirrored.
    assert (Hodd : forall j, (j < n)%nat -> odd w base (trunc w pattern) c' j = spoils w pattern (base + Z.of_nat j * Z.of_nat w) c').
    { intros j Hj. unfold odd. rewrite differs_spec; [done|lia|by eapply masks_ok_same|apply Hh; lia]. }
    split.
    - intros (j & _ & Hj & H1 & H2). exists j. rewrite <- !Hodd by lia. done.
    - intros (j & Hj & H1 & H2). exists j. rewrite !Hodd by lia. repeat split; (done || lia). }
  rewrite <- E. exact Hr.
Qed.

Lemma blocks_yields w base n l ret c : (0 < w)%nat -> fits w base n -> masks_ok c ->
  exists r c', same_masks c c' /\ gives (each_pattern (block_pattern w base n) l ret) c r c' /\
    ((exists p, p ∈ l /\ mirrored w base n p c) /\ r = -1 \/ ~ (exists p, p ∈ l /\ mirrored w base n p c) /\ r = ret).
Proof.
  intros Hw Hf. revert ret c. induction l as [|p l IH]; intros ret c Hm.
  { exists ret, c. split; [done|]. split; [apply gives_ret|right]. split; [|done]. intros (q & Hq & _). by apply elem_of_nil in Hq. }
  destruct (block_pattern_yields w base n p ret c Hw Hf Hm) as (r1 & c1 & Hs1 & Hy1 & Hr1).
  destruct (IH r1 c1) as (r2 & c2 & Hs2 & Hy2 & Hr2); [by eapply masks_ok_same|].
  exists r2, c2. split. { destruct Hs1, Hs2. split; congruence. }
  split; [cbn [each_pattern]; eapply gives_bind; [exact Hy1|exact Hy2]|].
  assert (Ex : (exists q, q ∈ l /\ mirrored w base n q c1) <-> (exists q, q ∈ l /\ mirrored w base n q c)).
  { by setoid_rewrite (mirrored_masks _ _ _ _ _ _ Hs1). }
  rewrite Ex in Hr2. setoid_rewrite elem_of_cons.
  destruct Hr2 as [[(q & Hq & Hmq) ->]|[Hn ->]].
  { left. split; [|done]. exists q. split; [by right|done]. }
  destruct Hr1 as [[Hmp ->]|[Hnp ->]]; [left|right; split; [|done]; intros (q & [->|Hq] & Hmq); by eauto].
  split; [|done]. exists p. split; [by left|done].
Qed.

(** The sizes of the elements and of the variables of a test. *)
Definition element_tests : list (Z * nat * nat) := [(MEMTEST_BY_BYTE, 1, 1); (MEMTEST_BY_WORD, 2, 2); (MEMTEST_BY_LONGWORD, 4, 2)]%nat.
Definition block_tests : list (Z * nat) := [(MEMTEST_BY_BLOCKBYTE, 1); (MEMTEST_BY_BLOCKWORD, 2); (MEMTEST_BY_BLOCKLONGWORD, 4)]%nat.

(** ** The theorems *)

(** C30: The tests by elements find stuck bits, and only those: on a memory with any set of
    stuck bits the test returns -1 exactly when a byte it looks at has a stuck bit, and 0
    otherwise.  It looks at every byte of the elements that fit the size, but for the test by
    longwords, which keeps what it reads in variables of 16 bits and looks at the low half of
    every longword. *)
Theorem memtest_detects type w t base size c :
  (type, w, t) ∈ element_tests -> 0 <= base -> 0 <= size -> base + size <= 2 ^ 32 -> masks_ok c ->
  exists r c', gives (memtest base size type) c r c' /\ same_masks c c' /\ (r = 0 \/ r = -1) /\
    (r = -1 <-> exists x, tested w t base size x /\ faulty c x = true).
Proof.
  unfold element_tests. intros Hin Hb Hs Hf Hm. rewrite !elem_of_cons, elem_of_nil in Hin.
  destruct Hin as [[= -> -> ->]|[[= -> -> ->]|[[= -> -> ->]|[]]]].
  - destruct (elements_yields 1 1 base size c) as (r & c' & Hsm & Hy & Hr); [lia..|done|].
    rewrite Z.div_1_r in Hy. by exists r, c'.
  - destruct (elements_yields 2 2 base size c) as (r & c' & Hsm & Hy & Hr); [lia..|done|]. exists r, c'.
    split; [|done]. unfold memtest, memtest_by_word. rewrite Z.shiftr_div_pow2 by lia. exact Hy.
  - destruct (elements_yields 4 2 base size c) as (r & c' & Hsm & Hy & Hr); [lia..|done|]. exists r, c'.
    split; [|done]. unfold memtest, memtest_by_longword. rewrite Z.shiftr_div_pow2 by lia. exact Hy.
Qed.

(** What the tests by blocks find: an element that a pattern does not survive is reported
    only when the element at the same distance from the other end does not survive the pattern
    either, since the test looks at the element numbered by the count that is left; the result
    is -1 exactly when there is such a pair, other than with the last element first. *)
Theorem memtest_block_pairs type w base size c :
  (type, w) ∈ block_tests -> 0 <= base -> 0 <= size -> base + size <= 2 ^ 32 -> masks_ok c ->
  exists r c', gives (memtest base size type) c r c' /\ same_masks c c' /\ (r = 0 \/ r = -1) /\
    (r = -1 <-> exists p, p ∈ patterns /\ mirrored w base (Z.to_nat (size / Z.of_nat w)) p c).
Proof.
  unfold block_tests. intros Hin Hb Hs Hf Hm. rewrite !elem_of_cons, elem_of_nil in Hin.
  assert (Hw : (0 < w)%nat) by (destruct Hin as [[= _ ->]|[[= _ ->]|[[= _ ->]|[]]]]; lia).
  assert (Hfit : fits w base (Z.to_nat (size / Z.of_nat w))).
  { split; [done|]. rewrite Z2Nat.id by (apply Z.div_pos; lia). pose proof (Z.mul_div_le size (Z.of_nat w) ltac:(lia)). lia. }
  destruct (blocks_yields w base _ patterns 0 c Hw Hfit Hm) as (r & c' & Hsm & Hy & Hr).
  exists r, c'. split; [|split; [done|]; destruct Hr as [[H ->]|[H ->]]; (split; [by (left + right)|]); split; (done || intros; by destruct H)].
  destruct Hin as [[= -> ->]|[[= -> ->]|[[= -> ->]|[]]]]; [rewrite Z.div_1_r in Hy; exact Hy|..];
    unfold memtest, memtest_by_blockword, memtest_by_blocklongword; rewrite !Z.shiftr_div_pow2 by lia; exact Hy.
Qed.

(** A memory of 16 bytes with bit 3 of the byte at 5 stuck at 1. *)
Definition stuck_at_5 : chip := mk_chip (fun _ => 0) (fun _ => 0) (fun a => if a =? 5 then 8 else 0).
Lemma stuck_at_5_ok : masks_ok stuck_at_5.
Proof. intros a. simpl. destruct (a =? 5); lia. Qed.

Lemma memtest_detects_witness : exists c', gives (memtest 4 12 MEMTEST_BY_WORD) stuck_at_5 (-1) c'.
Proof.
  destruct (memtest_detects MEMTEST_BY_WORD 2 2 4 12 stuck_at_5) as (r & c' & Hy & _ & _ & Hr).
  - unfold element_tests. right. left.
  - lia.
  - lia.
  - lia.
  - exact stuck_at_5_ok.
  - exists c'. rewrite (proj2 Hr) in Hy; [exact Hy|]. exists 5. split; [|reflexivity]. split; [|reflexivity].
    change (12 / Z.of_nat 2 * Z.of_nat 2) with 12. lia.
Defined.

(** The bad byte is at element 1 of 12 and its mirror image is good: nothing is reported. *)
Lemma memtest_block_pairs_witness : exists c', gives (memtest 4 12 MEMTEST_BY_BLOCKBYTE) stuck_at_5 0 c'.
Proof.
  destruct (memtest_block_pairs MEMTEST_BY_BLOCKBYTE 1 4 12 stuck_at_5) as (r & c' & Hy & _ & H0 & Hr).
  - unfold block_tests. left.
  - lia.
  - lia.
  - lia.
  - exact stuck_at_5_ok.
  - exists c'. destruct H0 as [->| ->]; [exact Hy|exfalso].
    destruct (proj1 Hr eq_refl) as (p & _ & j & Hj & H1 & H2).
    assert (Hs : forall a, spoils 1 p a stuck_at_5 = true -> a = 5).
    { intros a Ha. destruct (Z.eq_dec a 5) as [|Hne]; [done|]. unfold spoils in Ha. cbn [seq existsb] in Ha.
      rewrite through_sound, Z.eqb_refl in Ha; [done|]. unfold faulty. simpl.
      rewrite Z.add_0_r. destruct (Z.eqb_spec a 5); [done|reflexivity]. }
    apply Hs in H1. apply Hs in H2. change (Z.to_nat (12 / Z.of_nat 1)) with 12%nat in *. lia.
Defined.
