(* ===== verification/Poll.v ===== *)
(** * Poll: waiting loops

    The drivers wait for a device in loops that ask a status register until it is ready or a
    counter has run out.  [poll] runs such a turn at most [n] times, with a binary count so
    that large bounds can be evaluated; [poll_times] is the loop as written, and both are the
    same.  The rules at the end say what a loop does when the device is ready within the
    bound and when it is not. *)

From S2P Require Import Prelude CmosIo.

Section Poll.
Context {S A : Type} (turn : St S (option A)).

Fixpoint poll_times (n : nat) : St S (option A) :=
  match n with
  | O => mret None
  | Datatypes.S n => r ← turn; match r with Some a => mret (Some a) | None => poll_times n end
  end.

Fixpoint poll (n : positive) : St S (option A) :=
  match n with
  | xH => turn
  | xO n => r ← poll n; match r with Some a => mret (Some a) | None => poll n end
  | xI n =>
    r ← turn;
    match r with
    | Some a => mret (Some a)
    | None => r ← poll n; match r with Some a => mret (Some a) | None => poll n end
    end
  end.

Lemma poll_times_add a b s :
  poll_times (a + b) s = (r ← poll_times a; match r with Some x => mret (Some x) | None => poll_times b end) s.
Proof.
  revert s. induction a as [|a IH]; intros s; [done|].
  cbn [Nat.add poll_times]. unfold mbind, St_bind in *. destruct (turn s) as [[x|] s']; [done|]. apply IH.
Qed.

Lemma poll_unary n s : poll n s = poll_times (Pos.to_nat n) s.
Proof.
  revert s. induction n as [n IH|n IH|]; intros s.
  - rewrite Pos2Nat.inj_xI. replace (2 * Pos.to_nat n)%nat with (Pos.to_nat n + Pos.to_nat n)%nat by lia.
    cbn [poll poll_times]. unfold mbind, St_bind. destruct (turn s) as [[x|] s1]; [done|].
    rewrite poll_times_add. unfold mbind, St_bind. rewrite <- IH.
    destruct (poll n s1) as [[x|] s2]; [done|apply IH].
  - rewrite Pos2Nat.inj_xO. replace (2 * Pos.to_nat n)%nat with (Pos.to_nat n + Pos.to_nat n)%nat by lia.
    rewrite poll_times_add. cbn [poll]. unfold mbind, St_bind. rewrite <- IH.
    destruct (poll n s) as [[x|] s1]; [done|apply IH].
  - change (Pos.to_nat 1) with 1%nat. cbn [poll poll_times]. unfold mbind, St_bind.
    by destruct (turn s) as [[x|] s1].
Qed.

(** The device is busy for a number of turns and ready then. *)
Lemma poll_ready (busy : nat -> S -> Prop) (good : A -> S -> Prop) n k s :
  (forall j s, busy (Datatypes.S j) s -> exists s', turn s = (None, s') /\ busy j s') ->
  (forall s, busy O s -> exists a s', turn s = (Some a, s') /\ good a s') ->
  busy k s -> Z.of_nat k < Z.pos n -> exists a s', poll n s = (Some a, s') /\ good a s'.
Proof.
  intros Hbusy Hready Hk Hn. rewrite poll_unary. assert (Hlt : (k < Pos.to_nat n)%nat) by lia.
  clear Hn. revert k s Hk Hlt. induction (Pos.to_nat n) as [|m IH]; intros k s Hk Hlt; [lia|].
  cbn [poll_times]. unfold mbind, St_bind. destruct k as [|k].
  - destruct (Hready s Hk) as (a & s' & -> & Hg). by exists a, s'.
  - destruct (Hbusy k s Hk) as (s' & -> & Hk'). apply (IH k); [done|lia].
Qed.

(** The device stays busy. *)
Lemma poll_gives_up (stuck : nat -> S -> Prop) n k s :
  (forall j s, stuck (Datatypes.S j) s -> exists s', turn s = (None, s') /\ stuck j s') ->
  stuck k s -> Z.pos n <= Z.of_nat k -> exists s', poll n s = (None, s') /\ stuck (k - Pos.to_nat n)%nat s'.
Proof.
  intros Hstep Hk Hn. rewrite poll_unary. assert (Hle : (Pos.to_nat n <= k)%nat) by lia.
  clear Hn. revert k s Hk Hle. induction (Pos.to_nat n) as [|m IH]; intros k s Hk Hle.
  { exists s. rewrite Nat.sub_0_r. done. }
  destruct k as [|k]; [lia|]. destruct (Hstep k s Hk) as (s' & E & Hk').
  cbn [poll_times]. unfold mbind, St_bind. rewrite E. apply IH; [done|lia].
Qed.
End Poll.

(** ** Loops with local variables

    A turn answers the variables of the next turn ([inl]) or the result ([inr]). *)
Section Turns.
Context {S L R : Type} (turn : L -> St S (L + R)).

Fixpoint turns_unary (n : nat) (l : L) : St S (L + R) :=
  match n with
  | O => mret (inl l)
  | Datatypes.S n => r ← turn l; match r with inl l => turns_unary n l | inr x => mret (inr x) end
  end.

Fixpoint turns (n : positive) (l : L) : St S (L + R) :=
  match n with
  | xH => turn l
  | xO n => r ← turns n l; match r with inl l => turns n l | inr x => mret (inr x) end
  | xI n =>
    r ← turn l;
    match r with
    | inr x => mret (inr x)
    | inl l => r ← turns n l; match r with inl l => turns n l | inr x => mret (inr x) end
    end
  end.

Lemma turns_unary_add a b l s :
  turns_unary (a + b) l s =
  (r ← turns_unary a l; match r with inl l => turns_unary b l | inr x => mret (inr x) end) s.
Proof.
  revert l s. induction a as [|a IH]; intros l s; [done|].
  cbn [Nat.add turns_unary]. unfold mbind, St_bind in *. destruct (turn l s) as [[l'|x] s']; [apply IH|done].
Qed.

Lemma turns_is_unary n l s : turns n l s = turns_unary (Pos.to_nat n) l s.
Proof.
  revert l s. induction n as [n IH|n IH|]; intros l s.
  - rewrite Pos2Nat.inj_xI. replace (2 * Pos.to_nat n)%nat with (Pos.to_nat n + Pos.to_nat n)%nat by lia.
    cbn [turns turns_unary]. unfold mbind, St_bind. destruct (turn l s) as [[l1|x] s1]; [|done].
    rewrite turns_unary_add. unfold mbind, St_bind. rewrite <- IH.
    destruct (turns n l1 s1) as [[l2|x] s2]; [apply IH|done].
  - rewrite Pos2Nat.inj_xO. replace (2 * Pos.to_nat n)%nat with (Pos.to_nat n + Pos.to_nat n)%nat by lia.
    rewrite turns_unary_add. cbn [turns]. unfold mbind, St_bind. rewrite <- IH.
    destruct (turns n l s) as [[l1|x] s1]; [apply IH|done].
  - change (Pos.to_nat 1) with 1%nat. cbn [turns turns_unary]. unfold mbind, St_bind.
    by destruct (turn l s) as [[l1|x] s1].
Qed.

(** A variant [v] that every turn takes down by one, to a turn that is the last. *)
Lemma turns_end (inv : nat -> L -> S -> Prop) (good : R -> S -> Prop) n v l s :
  (forall v l s, inv v l s ->
     (exists x s', turn l s = (inr x, s') /\ good x s') \/
     (exists l' s' v', turn l s = (inl l', s') /\ v = Datatypes.S v' /\ inv v' l' s')) ->
  inv v l s -> Z.of_nat v < Z.pos n -> exists x s', turns n l s = (inr x, s') /\ good x s'.
Proof.
  intros Hstep Hi Hn. rewrite turns_is_unary. assert (Hlt : (v < Pos.to_nat n)%nat) by lia.
  clear Hn. revert v l s Hi Hlt. induction (Pos.to_nat n) as [|m IH]; intros v l s Hi Hlt; [lia|].
  cbn [turns_unary]. unfold mbind, St_bind.
  destruct (Hstep v l s Hi) as [(x & s' & -> & Hg)|(l' & s' & v' & -> & -> & Hi')]; [by exists x, s'|].
  apply (IH v'); [done|lia].
Qed.
End Turns.
