(* ===== verification/Menu.v ===== *)
(** * Menu: the menus

    Model of [x86/common/menu.c].  The static items, the arrays of items and the functions of
    commands are parameters: a pointer to an item is the name of a static item or an item
    written in place.  What the menus use of the terminal, the panel and the commands is a class
    of operations on the state of the machine.  [None] is an access outside of an object, a null
    or wrong member of a union that is used, or a button that is not let go within [WAIT_TURNS]
    turns of a waiting loop, which has no bound of its own. *)

From stdpp Require Import strings.
From S2P Require Import Prelude CString CmosIo PciIo Pci Poll.
Open Scope list_scope.
Open Scope Z_scope.

Definition MENU_MAX_ARGS : Z := 0x10.
Definition EBADNUMARGS : Z := -11.
Definition EBADNUM : Z := -12.
Definition EBADARG : Z := -13.
Definition HELP_START : Z := 38.
Definition WAIT_TURNS : positive := 0x100000000.

Inductive menu_item_type := MENU_TYPE_NULL | MENU_TYPE_CMD | MENU_TYPE_MENU.

(** The union of an item: an array of items, or a function, which may be null. *)
Inductive menu_action (array fun_ : Type) := items (a : array) | func (f : option fun_).
Arguments items {array fun_} a.
Arguments func {array fun_} f.

Record menu_item (name array fun_ : Type) := mk_item {
  cmd : string;
  title : option string;
  help : option string;
  type : menu_item_type;
  action : menu_action array fun_;
  parent : option name;
}.
Arguments mk_item {name array fun_} _ _ _ _ _ _.
Arguments cmd {name array fun_} _.
Arguments title {name array fun_} _.
Arguments help {name array fun_} _.
Arguments type {name array fun_} _.
Arguments action {name array fun_} _.
Arguments parent {name array fun_} _.

Inductive menu_ref (name array fun_ : Type) := At (n : name) | Lit (i : menu_item name array fun_).
Arguments At {name array fun_} n.
Arguments Lit {name array fun_} i.

(** ** The words of a line *)

Inductive buf_state_t := ST_BLANK | ST_QSTR | ST_TOKEN.

(** The loop: the buffer, the place in it, the state, the character that ends a quoted string,
    and [argv], which has [MENU_MAX_ARGS] places. *)
Fixpoint split_loop (fuel : nat) (m : mem) (p : nat) (st : buf_state_t) (qchar : Z) (argv : list nat) :
    option (list nat * mem) :=
  match fuel with
  | O => None
  | S fuel =>
    c ← load m p;
    if c =? 0 then Some (argv, m)
    else
      let quote := (c =? 34) || (c =? 39) in
      match st with
      | ST_BLANK =>
        if negb (isblank c) then
          if (length argv <? Z.to_nat MENU_MAX_ARGS)%nat then
            if quote then split_loop fuel m (S p) ST_QSTR c (argv ++ [S p])
            else split_loop fuel m (S p) ST_TOKEN qchar (argv ++ [p])
          else None
        else split_loop fuel m (S p) st qchar argv
      | ST_TOKEN =>
        if isblank c then m ← store m p 0; split_loop fuel m (S p) ST_BLANK qchar argv
        else if quote then split_loop fuel m (S p) ST_QSTR c argv
        else split_loop fuel m (S p) st qchar argv
      | ST_QSTR =>
        if c =? qchar then
          d ← load m (S p);
          m ← store m p 0;
          split_loop fuel m (S p) (if isblank d then ST_BLANK else ST_TOKEN) 0 argv
        else split_loop fuel m (S p) st qchar argv
      end
  end.
Definition split_buffer (m : mem) : option (list nat * mem) := split_loop (length m) m 0 ST_BLANK 0 [].

(** The string at a pointer. *)
Definition string_of (m : mem) (p : nat) : option (list Z) :=
  n ← strlen m p; Some (sub p (Z.to_nat n) m).
Fixpoint strings_of (m : mem) (ps : list nat) : option (list (list Z)) :=
  match ps with
  | [] => Some []
  | p :: ps => s ← string_of m p; l ← strings_of m ps; Some (s :: l)
  end.

(** ** The buttons *)

Definition BUTTON_SELECT : Z := 0x80.
Definition BUTTON_ENTER : Z := 0x40.
Definition BUTTON_UP : Z := 0x08.
Definition BUTTON_DOWN : Z := 0x10.
Definition BUTTON_LEFT : Z := 0x04.
Definition BUTTON_RIGHT : Z := 0x20.
Definition BUTTON_NONE : Z := 0xfe.
Definition lcd_buttons_in_set (set buttons : Z) : bool := Z.land (Z.land (Z.lnot set) 0xfe) buttons =? buttons.
Definition lcd_button_eq (a b : Z) : bool := Z.land (Z.lnot a) 0xfe =? Z.land b 0xfe.

(** ** The machine *)

Class Machine (fun_ W : Type) := {
  print : list Z -> W -> W;
  readline : Run W (list Z);
  readline_history : W -> W;
  credits : W -> W;
  call : fun_ -> list (list Z) -> Run W Z;
  lcd_set_cur_pos : Z -> W -> W;
  lcd_write_str : list Z -> W -> W;
  lcd_button_read : St W Z;
}.

Section Menu.
Context {name array fun_ W : Type} `{!Machine fun_ W}.
Context (the_item : name -> menu_item name array fun_) (the_array : array -> list (menu_ref name array fun_)).
Context (VERSION BUILD_INFO : string).
Abbreviation ref := (menu_ref name array fun_).

Definition deref (r : ref) : menu_item name array fun_ := match r with At n => the_item n | Lit i => i end.

Definition act (f : W -> W) : Run W unit := fun w => Some (tt, f w).
Definition lift {A} (o : option A) : Run W A := fun w => a ← o; Some (a, w).
Definition put (l : list Z) : Run W unit := act (print l).
Definition puts (s : string) : Run W unit := put (chars s).
Definition newline : Run W unit := put [10].
(** A null string prints as "(NULL)". *)
Definition text (s : option string) : list Z := match s with Some s => chars s | None => chars "(NULL)" end.
Definition eol (s : string) : Run W unit := put (chars s ++ [10]).

(** [m->action.items], NULL at the end. *)
Definition items_of (r : ref) : option (list ref) :=
  match action (deref r) with items a => Some (the_array a) | func _ => None end.
Definition func_of (r : ref) : option fun_ := match action (deref r) with func f => f | items _ => None end.

(** ** Help *)

Definition spaces (n : Z) : list Z := replicate (Z.to_nat n) 32.
(** [while (len++ <= HELP_START) printf(" ")] *)
Definition pad (len : Z) : Run W unit := put (spaces (HELP_START + 1 - len)).

Fixpoint help_text (h : list Z) : Run W unit :=
  match h with
  | [] => mret tt
  | c :: h => put [c];; (if c =? 10 then pad 0 else mret tt);; help_text h
  end.

Definition help_item (r : ref) : Run W unit :=
  let i := deref r in
  puts (cmd i);;
  let len := Z.of_nat (length (chars (cmd i))) in
  len ← (match type i, title i with
         | MENU_TYPE_CMD, Some t => put ([32] ++ chars t ++ [32; 32]);; mret (len + Z.of_nat (length (chars t)) + 3)
         | _, _ => mret len
         end);
  pad len;;
  (match help i with Some h => help_text (chars h) | None => mret tt end);;
  newline.

Fixpoint help_items (l : list ref) : Run W unit :=
  match l with [] => mret tt | r :: l => help_item r;; help_items l end.

Definition menu_do_help (the_menu : ref) : Run W unit :=
  put ([10] ++ text (title (deref the_menu)) ++ [10]);;
  eol "------------------------------------------------------";;
  l ← lift (items_of the_menu);
  help_items l;;
  newline.

(** ** The console *)

(** The items are searched for the word; the first one is looked at twice. *)
Fixpoint search_items (word : list Z) (l : list ref) : option ref :=
  match l with
  | [] => None
  | m :: l =>
    if str_eqb word (chars (cmd (deref m))) then
      match type (deref m) with MENU_TYPE_NULL => search_items word l | _ => Some m end
    else search_items word l
  end.
Definition search_menu (word : list Z) (l : list ref) : option ref :=
  match l with [] => None | m :: _ => search_items word (m :: l) end.

Definition syntax_error (r : Z) : Run W unit :=
  puts "Syntax error: ";;
  (if r =? EBADNUMARGS then puts "wrong number of arguments"
   else if r =? EBADNUM then puts "bad number format"
   else if r =? EBADARG then puts "invalid argument"
   else puts "unknown error");;
  eol " (use ? or help for help info)".

(** One turn of the loop: the menu that is current then. *)
Definition console_turn (the_menu : ref) : Run W ref :=
  put ([10] ++ chars "Cobalt:" ++ text (title (deref the_menu)) ++ chars "> ");;
  buffer ← readline;
  '(argv, m) ← lift (split_buffer (buffer ++ [0]));
  args ← lift (strings_of m argv);
  match args with
  | [] => mret the_menu
  | word :: _ =>
    let word_is (s : string) := str_eqb word (chars s) in
    if word_is "?" || word_is "help" then menu_do_help the_menu;; mret the_menu
    else if word_is "up" || word_is ".." then
      mret (match parent (deref the_menu) with Some n => At n | None => the_menu end)
    else if word_is "ver" || word_is "version" then
      put (chars "Firmware version: " ++ chars VERSION ++ [10]);;
      put (chars "ROM Build Info: " ++ chars BUILD_INFO ++ [10]);;
      mret the_menu
    else if word_is "history" then act readline_history;; mret the_menu
    else if word_is "credits" then act credits;; mret the_menu
    else
      l ← lift (items_of the_menu);
      match search_menu word l with
      | None => eol "Invalid command";; mret the_menu
      | Some m =>
        match type (deref m) with
        | MENU_TYPE_CMD =>
          f ← lift (func_of m);
          r ← call f args;
          (if negb (r =? 0) then syntax_error r else mret tt);;
          mret the_menu
        | _ => mret m
        end
      end
  end.

(** [menu_handle_console] does not return: its first [n] turns. *)
Fixpoint menu_handle_console (n : nat) (the_menu : ref) : Run W ref :=
  match n with O => mret the_menu | S n => m ← console_turn the_menu; menu_handle_console n m end.

(** ** The panel *)

(** A loop that reads the buttons until [stop]: what was read last. *)
Definition wait_buttons (stop : Z -> bool) : Run W Z := fun w =>
  match poll (b ← lcd_button_read; mret (if stop b then Some b else None)) WAIT_TURNS w with
  | (Some b, w) => Some (b, w)
  | (None, _) => None
  end.

Definition blank_line : list Z := replicate 20 32.
Definition clear_line (pos : Z) : Run W unit :=
  act (lcd_set_cur_pos pos);; act (lcd_write_str blank_line);; act (lcd_set_cur_pos pos).

Definition scroll_down (l : list ref) (item : Z) : Z :=
  if (Z.to_nat (item + 1) <? length l)%nat then item + 1 else 0.
(** Below 0, the end of the array is looked for. *)
Definition scroll_up (l : list ref) (item : Z) : Z :=
  if item - 1 <? 0 then Z.max (item - 1) (Z.of_nat (length l) - 1) else item - 1.

(** What a button does: the menu and the item then.  The name of a command is copied to a
    buffer of 256 bytes. *)
Definition lcd_press (the_menu : ref) (item buttons : Z) : Run W (ref * Z) :=
  l ← lift (items_of the_menu);
  if lcd_button_eq buttons BUTTON_SELECT || lcd_button_eq buttons BUTTON_RIGHT || lcd_button_eq buttons BUTTON_DOWN then
    mret (the_menu, scroll_down l item)
  else if lcd_button_eq buttons BUTTON_UP || lcd_button_eq buttons BUTTON_LEFT then
    mret (the_menu, scroll_up l item)
  else if lcd_button_eq buttons BUTTON_ENTER then
    m ← lift (l !! Z.to_nat item);
    match type (deref m) with
    | MENU_TYPE_CMD =>
      f ← lift (func_of m);
      let name := chars (cmd (deref m)) in
      if (length name <? 0x100)%nat then
        _ ← call f [name];
        mret (match parent (deref the_menu) with Some n => (At n, 0) | None => (the_menu, item) end)
      else lift None
    | MENU_TYPE_MENU => mret (m, 0)
    | MENU_TYPE_NULL => mret (the_menu, item)
    end
  else mret (the_menu, item).

Definition lcd_title (the_menu : ref) : Run W unit :=
  clear_line 0x00;;
  t ← lift (title (deref the_menu));
  act (lcd_write_str (chars t));;
  clear_line 0x40.

(** The title and the item, on the two lines. *)
Definition lcd_show (the_menu : ref) (item : Z) : Run W unit :=
  lcd_title the_menu;;
  l ← lift (items_of the_menu);
  m ← lift (l !! Z.to_nat item);
  act (lcd_write_str (chars (cmd (deref m)))).

(** One turn of the loop; [buttons] is what was pressed last. *)
Definition lcd_turn (x : ref * Z * Z) : Run W (ref * Z * Z) :=
  let '(the_menu, item, buttons) := x in
  lcd_show the_menu item;;
  _ ← wait_buttons (fun b => negb (b =? buttons));
  _ ← wait_buttons (fun b => negb (lcd_buttons_in_set b BUTTON_ENTER));
  buttons ← wait_buttons (fun b => negb (b =? BUTTON_NONE));
  '(the_menu, item) ← lcd_press the_menu item buttons;
  mret (the_menu, item, buttons).

Fixpoint lcd_turns (n : nat) (x : ref * Z * Z) : Run W (ref * Z * Z) :=
  match n with O => mret x | S n => x ← lcd_turn x; lcd_turns n x end.

(** The first [n] turns. *)
Definition menu_handle_lcd (n : nat) (the_menu : ref) : Run W (ref * Z * Z) :=
  lcd_title the_menu;;
  _ ← wait_buttons (fun b => negb (lcd_buttons_in_set b BUTTON_SELECT));
  lcd_turns n (the_menu, 0, 0).
End Menu.
