(* ===== verification/MenuTables.v ===== *)
(** * MenuTables: the menus of the monitor

    Model of [x86/monitor/menu.c], built without the remote debugger.  The arrays end with a
    NULL, which is the end of the list here; the items written in place in an array are [Lit]. *)

From stdpp Require Import strings.
From S2P Require Import Prelude Menu.
Open Scope list_scope.
Open Scope Z_scope.

Definition nl : string := String (Ascii.ascii_of_nat 10) EmptyString.

(** The functions of the commands. *)
Inductive menu_func :=
  | bfr_func | bfd_func | bfn_func | bfX_func | reboot_func | halt_func
  | boot_default_func | load_kernel_func | dl_kernel_func | bunzip2_kernel_func | boot_kernel_func | net_kernel_func
  | load_func | set_params_func | set_load_params_func | read_boot_method_func | set_boot_method_func | read_root_dev_func
  | set_root_dev_func | read_boot_dev_func | set_boot_dev_func | set_mem_limit_func | boot_netbsd_func | display_romid_func
  | set_bank_func | erase_eeprom_func | write_eeprom_func | read_eeprom_func | ls_func | reinit_eeprom_func
  | read_mem_func | write_mem_func | disp_mem_func | copy_mem_func | move_mem_func | disp_mem_eeprom_func
  | enl1_func | enl2_func | set_caches_func | inbwl_func | outbwl_func | read_i2c_func
  | write_i2c_func | cmos_reset_func | read_cmos_func | write_cmos_func | dump_cmos_func | check_cmos_cks_func
  | update_cmos_cks_func | cmos_ver_func | bto_code_func | bto_ip_func | cmos_flags_func | lspci_func
  | read_pci_cfg_func | write_pci_cfg_func | print_pci_header_func | dump_pci_func | dump_all_pci_func | lapic_get_func
  | lapic_set_func | lapic_on_func | lapic_off_func | lapic_send_ipi_func | lapic_cast_ipi_func | ioapic_get_func
  | ioapic_set_func | read_voltage_func | read_temp_func | read_temp_thresh_func | write_temp_thresh_func | read_rtc_func
  | write_rtc_func | lcd_func | read_mac_func | write_mac_func | microcode_func | cpuid_func
  | read_msr_func | write_msr_func | nmi_enable_func | nmi_disable_func | hlt_func | read_test_func
  | write_test_func | mem_test_func | init_delay_func | bfnn_func | lcd_sysinfo_func.

(** The items that have a name, and the arrays. *)
Inductive menu_name :=
  | separator | bfr_cmd | bfd_cmd | bfn_cmd | bfX_cmd | reboot_cmd | halt_cmd | quit_cmd
  | main_menu | boot_menu | eeprom_menu | mem_menu | io_menu | cmos_menu | pci_menu | smp_menu
  | lowlevel_menu | test_menu | lcdboot_menu | lcd_cfg_menu | lcd_bfd_menu.
Inductive menu_array :=
  | main_menu_items | boot_menu_items | eeprom_menu_items | mem_menu_items | io_menu_items
  | cmos_menu_items | pci_menu_items | smp_menu_items | lowlevel_menu_items | test_menu_items
  | lcdboot_menu_items | lcd_cfg_menu_items | lcd_bfd_menu_items.

Abbreviation item := (menu_item menu_name menu_array menu_func).
Abbreviation entry := (menu_ref menu_name menu_array menu_func).

Definition main_menu_items_list : list entry := [
  At boot_menu;
  At eeprom_menu;
  At lowlevel_menu;
  At test_menu;
  At bfd_cmd;
  At bfr_cmd;
  At bfn_cmd;
  At bfX_cmd;
  At reboot_cmd;
  At halt_cmd;
  At quit_cmd].
Definition boot_menu_items_list : list entry := [
  Lit (mk_item "load_kernel" None (Some "Load/Decompress/Boot kernel") MENU_TYPE_CMD (func (Some load_kernel_func)) None);
  Lit (mk_item "dl_kernel" None (Some "Load kernel from serial port into RAM") MENU_TYPE_CMD (func (Some dl_kernel_func)) None);
  Lit (mk_item "bunzip2_kernel" None (Some "Decompress the kernel in RAM") MENU_TYPE_CMD (func (Some bunzip2_kernel_func)) None);
  Lit (mk_item "boot_kernel" None (Some "Boot the kernel from RAM") MENU_TYPE_CMD (func (Some boot_kernel_func)) None);
  Lit (mk_item "net_kernel" None (Some "Net boot the kernel in RAM") MENU_TYPE_CMD (func (Some net_kernel_func)) None);
  At bfr_cmd;
  At bfd_cmd;
  At bfn_cmd;
  At bfX_cmd;
  Lit (mk_item "load" (Some "file") (Some "Load a file from romfs") MENU_TYPE_CMD (func (Some load_func)) None);
  Lit (mk_item "set_params" (Some "parameters") (Some "Set parameters to pass to the boot kernel") MENU_TYPE_CMD (func (Some set_params_func)) None);
  Lit (mk_item "set_lparams" (Some "parameters") (Some "Set parameters to pass to the load kernel") MENU_TYPE_CMD (func (Some set_load_params_func)) None);
  Lit (mk_item "read_boot_type" None (Some "Read default boot method") MENU_TYPE_CMD (func (Some read_boot_method_func)) None);
  Lit (mk_item "set_boot_type" (Some "(disk|rom|net|netkernel|other)") (Some "Configure default boot method") MENU_TYPE_CMD (func (Some set_boot_method_func)) None);
  Lit (mk_item "read_root_dev" None (Some "Read default root device for disk boot") MENU_TYPE_CMD (func (Some read_root_dev_func)) None);
  Lit (mk_item "set_root_dev" (Some "device") (Some "Set default root device for disk boot (e.g.: hda1)") MENU_TYPE_CMD (func (Some set_root_dev_func)) None);
  Lit (mk_item "read_boot_dev" None (Some "Read default root device for ROM kernel") MENU_TYPE_CMD (func (Some read_boot_dev_func)) None);
  Lit (mk_item "set_boot_dev" (Some "device") (Some "Set default root device for ROM kernel (e.g.: hda1)") MENU_TYPE_CMD (func (Some set_boot_dev_func)) None);
  Lit (mk_item "set_mem_limit" (Some "megabytes") (Some "Set memory limit in MB for linux") MENU_TYPE_CMD (func (Some set_mem_limit_func)) None);
  Lit (mk_item "netbsd" (Some "image") (Some "Boot NetBSD") MENU_TYPE_CMD (func (Some boot_netbsd_func)) None);
  At reboot_cmd;
  At halt_cmd;
  At separator;
  At main_menu].
Definition eeprom_menu_items_list : list entry := [
  Lit (mk_item "display_romid" None (Some "Display the EEPROM id") MENU_TYPE_CMD (func (Some display_romid_func)) None);
  Lit (mk_item "set_bank" (Some "bank page") (Some "Set EEPROM bank and page") MENU_TYPE_CMD (func (Some set_bank_func)) None);
  Lit (mk_item "erase_eeprom" (Some "bank") (Some "Erase EEPROM in bank") MENU_TYPE_CMD (func (Some erase_eeprom_func)) None);
  Lit (mk_item "write_eeprom" (Some "[bank] [len]") (Some (" 1. load image from serial port" +:+ nl +:+ " 2. erase EEPROM bank (default 0)" +:+ nl +:+ " 3. write image to EEPROM")) MENU_TYPE_CMD (func (Some write_eeprom_func)) None);
  Lit (mk_item "read_eeprom" (Some "bank [len]") (Some "Read data from the EEPROM in bank into RAM") MENU_TYPE_CMD (func (Some read_eeprom_func)) None);
  Lit (mk_item "ls" (Some "dir") (Some "List contents of romfs dir") MENU_TYPE_CMD (func (Some ls_func)) None);
  Lit (mk_item "reinit_eeprom" None (Some "Re-detect and initialize EEPROMs") MENU_TYPE_CMD (func (Some reinit_eeprom_func)) None);
  At separator;
  At main_menu].
Definition mem_menu_items_list : list entry := [
  Lit (mk_item "rb" (Some "address") (Some "Read byte from memory") MENU_TYPE_CMD (func (Some read_mem_func)) None);
  Lit (mk_item "rw" (Some "address") (Some "Read 16 bit word from memory") MENU_TYPE_CMD (func (Some read_mem_func)) None);
  Lit (mk_item "rl" (Some "address") (Some "Read 32 bit word from memory") MENU_TYPE_CMD (func (Some read_mem_func)) None);
  Lit (mk_item "wb" (Some "address data") (Some "Write byte to memory") MENU_TYPE_CMD (func (Some write_mem_func)) None);
  Lit (mk_item "ww" (Some "address data") (Some "Write 16 bit word to memory") MENU_TYPE_CMD (func (Some write_mem_func)) None);
  Lit (mk_item "wl" (Some "address data") (Some "Write 32 bit word to memory") MENU_TYPE_CMD (func (Some write_mem_func)) None);
  Lit (mk_item "wm" (Some "address data count") (Some "Write 32-bit data count time to memory, starting at address") MENU_TYPE_CMD (func (Some write_mem_func)) None);
  Lit (mk_item "dm" (Some "address count") (Some "Display count bytes of memory") MENU_TYPE_CMD (func (Some disp_mem_func)) None);
  Lit (mk_item "cp" (Some "dest src count") (Some "Copy count bytes of memory from src to dest") MENU_TYPE_CMD (func (Some copy_mem_func)) None);
  Lit (mk_item "mv" (Some "dest src count") (Some "Move count bytes of memory from src to dest") MENU_TYPE_CMD (func (Some move_mem_func)) None);
  Lit (mk_item "disp_mem_eeprom" (Some "row") (Some "Display eeprom of DIMM in the row") MENU_TYPE_CMD (func (Some disp_mem_eeprom_func)) None);
  Lit (mk_item "enl1" None (Some "Turn on L1 cache now") MENU_TYPE_CMD (func (Some enl1_func)) None);
  Lit (mk_item "enl2" None (Some "Turn on L2 cache now") MENU_TYPE_CMD (func (Some enl2_func)) None);
  Lit (mk_item "set_caches" (Some "(0|1) (0|1)") (Some "Flag L1 and L2 caches for being enabled next boot") MENU_TYPE_CMD (func (Some set_caches_func)) None);
  At separator;
  At lowlevel_menu;
  At main_menu].
Definition io_menu_items_list : list entry := [
  Lit (mk_item "inb" (Some "port") (Some "Read byte from IO port") MENU_TYPE_CMD (func (Some inbwl_func)) None);
  Lit (mk_item "inw" (Some "port") (Some "Read 16 bit word from IO port") MENU_TYPE_CMD (func (Some inbwl_func)) None);
  Lit (mk_item "inl" (Some "port") (Some "Read 32 bit word from IO port") MENU_TYPE_CMD (func (Some inbwl_func)) None);
  Lit (mk_item "outb" (Some "port data") (Some "Write byte to IO port") MENU_TYPE_CMD (func (Some outbwl_func)) None);
  Lit (mk_item "outw" (Some "port data") (Some "Write 16 bit word to IO port") MENU_TYPE_CMD (func (Some outbwl_func)) None);
  Lit (mk_item "outl" (Some "port data") (Some "Write 32 bit word to IO port") MENU_TYPE_CMD (func (Some outbwl_func)) None);
  Lit (mk_item "read_i2c" (Some "dev index len") (Some "Read from i2c device dev at index") MENU_TYPE_CMD (func (Some read_i2c_func)) None);
  Lit (mk_item "write_i2c" (Some "dev index len val") (Some "Write to i2c device at index") MENU_TYPE_CMD (func (Some write_i2c_func)) None);
  At separator;
  At lowlevel_menu;
  At main_menu].
Definition cmos_menu_items_list : list entry := [
  Lit (mk_item "reset" None (Some "Reset CMOS defaults") MENU_TYPE_CMD (func (Some cmos_reset_func)) None);
  Lit (mk_item "read_cmos" (Some "bytenum") (Some "Read CMOS byte bytenum") MENU_TYPE_CMD (func (Some read_cmos_func)) None);
  Lit (mk_item "write_cmos" (Some "bytenum val") (Some "Write value to CMOS byte") MENU_TYPE_CMD (func (Some write_cmos_func)) None);
  Lit (mk_item "dump_cmos" None (Some "Dump the contents of CMOS") MENU_TYPE_CMD (func (Some dump_cmos_func)) None);
  Lit (mk_item "check_cmos_cks" None (Some "Check the validity of the CMOS checksum") MENU_TYPE_CMD (func (Some check_cmos_cks_func)) None);
  Lit (mk_item "update_cmos_cks" None (Some "Update CMOS checksum") MENU_TYPE_CMD (func (Some update_cmos_cks_func)) None);
  Lit (mk_item "cmos_ver" None (Some "Print CMOS version") MENU_TYPE_CMD (func (Some cmos_ver_func)) None);
  Lit (mk_item "bto_code" (Some "<code>") (Some "Query/set BTO code") MENU_TYPE_CMD (func (Some bto_code_func)) None);
  Lit (mk_item "btoip" (Some "oct1 oct2 oct3 oct4") (Some "Set the bto IP by octest") MENU_TYPE_CMD (func (Some bto_ip_func)) None);
  Lit (mk_item "cmos_flags" (Some "<flag> [on|off]") (Some "Query/Set CMOS flags, w/o args will list flags") MENU_TYPE_CMD (func (Some cmos_flags_func)) None);
  At separator;
  At lowlevel_menu;
  At main_menu].
Definition pci_menu_items_list : list entry := [
  Lit (mk_item "lspci" None (Some "List PCI devices") MENU_TYPE_CMD (func (Some lspci_func)) None);
  Lit (mk_item "read_cfg" (Some "bus dev fn reg (1|2|4)") (Some "Read 1,2,4 bytes from PCI config space") MENU_TYPE_CMD (func (Some read_pci_cfg_func)) None);
  Lit (mk_item "write_cfg" (Some "bus dev fn reg val (1|2|4)") (Some "Write 1,2,4 bytes to PCI config space") MENU_TYPE_CMD (func (Some write_pci_cfg_func)) None);
  Lit (mk_item "print_hdr" (Some "bus dev fn") (Some "Print formatted PCI config header") MENU_TYPE_CMD (func (Some print_pci_header_func)) None);
  Lit (mk_item "dump" (Some "bus dev fn") (Some "Dump PCI config space") MENU_TYPE_CMD (func (Some dump_pci_func)) None);
  Lit (mk_item "dump_all" None (Some "Dump PCI config space for all devs") MENU_TYPE_CMD (func (Some dump_all_pci_func)) None);
  At separator;
  At lowlevel_menu;
  At main_menu].
Definition smp_menu_items_list : list entry := [
  Lit (mk_item "lapic_get" (Some "reg") (Some "Get Local APIC register") MENU_TYPE_CMD (func (Some lapic_get_func)) None);
  Lit (mk_item "lapic_set" (Some "reg val") (Some "Set Local APIC register to val") MENU_TYPE_CMD (func (Some lapic_set_func)) None);
  Lit (mk_item "lapic_on" None (Some "Enable the Local APIC") MENU_TYPE_CMD (func (Some lapic_on_func)) None);
  Lit (mk_item "lapic_off" None (Some "Disable the Local APIC") MENU_TYPE_CMD (func (Some lapic_off_func)) None);
  Lit (mk_item "send_ipi" (Some "dest mode vector trigger level") (Some "Send an interprocessor interrupt to APIC ID") MENU_TYPE_CMD (func (Some lapic_send_ipi_func)) None);
  Lit (mk_item "broadcast_ipi" (Some "dest mode vector trigger level") (Some "Broadcast an interprocessor interrupt") MENU_TYPE_CMD (func (Some lapic_cast_ipi_func)) None);
  Lit (mk_item "ioapic_get" (Some "num reg") (Some "Get I/O APIC register") MENU_TYPE_CMD (func (Some ioapic_get_func)) None);
  Lit (mk_item "ioapic_set" (Some "num reg val") (Some "Set I/O APIC register to val") MENU_TYPE_CMD (func (Some ioapic_set_func)) None);
  At separator;
  At lowlevel_menu;
  At main_menu].
Definition lowlevel_menu_items_list : list entry := [
  Lit (mk_item "read_voltage" None (Some "Read the processor voltage") MENU_TYPE_CMD (func (Some read_voltage_func)) None);
  Lit (mk_item "read_temp" None (Some "Read the processor temperature") MENU_TYPE_CMD (func (Some read_temp_func)) None);
  Lit (mk_item "read_thresh" None (Some "Read the temperature alert thresholds") MENU_TYPE_CMD (func (Some read_temp_thresh_func)) None);
  Lit (mk_item "write_thresh" (Some "(hyst|low|high|crit) val") (Some "Write the temperature alert thresholds") MENU_TYPE_CMD (func (Some write_temp_thresh_func)) None);
  Lit (mk_item "read_rtc" None (Some "Read value of the RTC") MENU_TYPE_CMD (func (Some read_rtc_func)) None);
  Lit (mk_item "write_rtc" (Some "YYMMDDWHHmmss") (Some "Write value to the RTC") MENU_TYPE_CMD (func (Some write_rtc_func)) None);
  Lit (mk_item "lcd" (Some "(on|off|init|reset|clear)") (Some "Control the system LCD") MENU_TYPE_CMD (func (Some lcd_func)) None);
  Lit (mk_item "read_mac" None (Some "Read hardware ethernet address") MENU_TYPE_CMD (func (Some read_mac_func)) None);
  Lit (mk_item "write_mac" (Some "port d1 d2 d3 d4 d5 d6") (Some "Write hardware ethernet address") MENU_TYPE_CMD (func (Some write_mac_func)) None);
  Lit (mk_item "update_microcode" None (Some "Update the CPU microcode") MENU_TYPE_CMD (func (Some microcode_func)) None);
  Lit (mk_item "cpuid" (Some "level") (Some "Execute CPUID query with specified level") MENU_TYPE_CMD (func (Some cpuid_func)) None);
  Lit (mk_item "read_msr" (Some "index") (Some "Reads a model specific register") MENU_TYPE_CMD (func (Some read_msr_func)) None);
  Lit (mk_item "write_msr" (Some "index hi_word lo_word") (Some "Writes a model specific register") MENU_TYPE_CMD (func (Some write_msr_func)) None);
  Lit (mk_item "enable_nmi" None (Some "Enable parity error NMI") MENU_TYPE_CMD (func (Some nmi_enable_func)) None);
  Lit (mk_item "disable_nmi" None (Some "Disable parity error NMI") MENU_TYPE_CMD (func (Some nmi_disable_func)) None);
  Lit (mk_item "hlt" None (Some "Put the CPU into sleep mode (halt system)") MENU_TYPE_CMD (func (Some hlt_func)) None);
  At separator;
  At smp_menu;
  At pci_menu;
  At mem_menu;
  At io_menu;
  At cmos_menu;
  At main_menu].
Definition test_menu_items_list : list entry := [
  Lit (mk_item "read_test" (Some "(1|2|4) addr") (Some "Continuously read from an address") MENU_TYPE_CMD (func (Some read_test_func)) None);
  Lit (mk_item "write_test" (Some "(1|2|4) addr data") (Some "Continuously write to an address") MENU_TYPE_CMD (func (Some write_test_func)) None);
  Lit (mk_item "mem_test" None (Some "Simple mem test") MENU_TYPE_CMD (func (Some mem_test_func)) None);
  Lit (mk_item "init_delay" None (Some "Recalibrate udelay and CPU MHz") MENU_TYPE_CMD (func (Some init_delay_func)) None);
  At separator;
  At main_menu].
Definition lcdboot_menu_items_list : list entry := [
  Lit (mk_item "Boot from disk" None None MENU_TYPE_CMD (func (Some bfd_func)) None);
  Lit (mk_item "Boot from ROM" None None MENU_TYPE_CMD (func (Some bfr_func)) None);
  Lit (mk_item "Boot from net" None None MENU_TYPE_CMD (func (Some bfn_func)) None);
  Lit (mk_item "Boot net kernel" None None MENU_TYPE_CMD (func (Some bfnn_func)) None);
  Lit (mk_item "Boot from CMOS" None None MENU_TYPE_CMD (func (Some bfX_func)) None);
  At lcd_cfg_menu;
  At lcd_bfd_menu;
  Lit (mk_item "System Info" None None MENU_TYPE_CMD (func (Some lcd_sysinfo_func)) None)].
Definition lcd_cfg_menu_items_list : list entry := [
  Lit (mk_item "From disk" None None MENU_TYPE_CMD (func (Some set_boot_method_func)) None);
  Lit (mk_item "From ROM" None None MENU_TYPE_CMD (func (Some set_boot_method_func)) None);
  Lit (mk_item "From network" None None MENU_TYPE_CMD (func (Some set_boot_method_func)) None);
  Lit (mk_item "From net kernel" None None MENU_TYPE_CMD (func (Some set_boot_method_func)) None);
  Lit (mk_item "From settings" None None MENU_TYPE_CMD (func (Some set_boot_method_func)) None);
  At lcdboot_menu].
Definition lcd_bfd_menu_items_list : list entry := [
  Lit (mk_item "hda1" None None MENU_TYPE_CMD (func (Some set_root_dev_func)) None);
  Lit (mk_item "hda2" None None MENU_TYPE_CMD (func (Some set_root_dev_func)) None);
  Lit (mk_item "hda3" None None MENU_TYPE_CMD (func (Some set_root_dev_func)) None);
  Lit (mk_item "hda4" None None MENU_TYPE_CMD (func (Some set_root_dev_func)) None);
  Lit (mk_item "hdb1" None None MENU_TYPE_CMD (func (Some set_root_dev_func)) None);
  Lit (mk_item "hdb2" None None MENU_TYPE_CMD (func (Some set_root_dev_func)) None);
  Lit (mk_item "hdb3" None None MENU_TYPE_CMD (func (Some set_root_dev_func)) None);
  Lit (mk_item "hdb4" None None MENU_TYPE_CMD (func (Some set_root_dev_func)) None);
  Lit (mk_item "hdc1" None None MENU_TYPE_CMD (func (Some set_root_dev_func)) None);
  Lit (mk_item "hdc2" None None MENU_TYPE_CMD (func (Some set_root_dev_func)) None);
  Lit (mk_item "hdc3" None None MENU_TYPE_CMD (func (Some set_root_dev_func)) None);
  Lit (mk_item "hdc4" None None MENU_TYPE_CMD (func (Some set_root_dev_func)) None);
  Lit (mk_item "hdd1" None None MENU_TYPE_CMD (func (Some set_root_dev_func)) None);
  Lit (mk_item "hdd2" None None MENU_TYPE_CMD (func (Some set_root_dev_func)) None);
  Lit (mk_item "hdd3" None None MENU_TYPE_CMD (func (Some set_root_dev_func)) None);
  Lit (mk_item "hdd4" None None MENU_TYPE_CMD (func (Some set_root_dev_func)) None);
  Lit (mk_item "sda1" None None MENU_TYPE_CMD (func (Some set_root_dev_func)) None);
  Lit (mk_item "sda2" None None MENU_TYPE_CMD (func (Some set_root_dev_func)) None);
  Lit (mk_item "sda3" None None MENU_TYPE_CMD (func (Some set_root_dev_func)) None);
  Lit (mk_item "sda4" None None MENU_TYPE_CMD (func (Some set_root_dev_func)) None);
  Lit (mk_item "sdb1" None None MENU_TYPE_CMD (func (Some set_root_dev_func)) None);
  Lit (mk_item "sdb2" None None MENU_TYPE_CMD (func (Some set_root_dev_func)) None);
  Lit (mk_item "sdb3" None None MENU_TYPE_CMD (func (Some set_root_dev_func)) None);
  Lit (mk_item "sdb4" None None MENU_TYPE_CMD (func (Some set_root_dev_func)) None);
  Lit (mk_item "md0" None None MENU_TYPE_CMD (func (Some set_root_dev_func)) None);
  Lit (mk_item "md1" None None MENU_TYPE_CMD (func (Some set_root_dev_func)) None);
  Lit (mk_item "md2" None None MENU_TYPE_CMD (func (Some set_root_dev_func)) None);
  Lit (mk_item "md3" None None MENU_TYPE_CMD (func (Some set_root_dev_func)) None);
  At lcdboot_menu].

Definition separator_item : item := mk_item "------------------------------------------------------" None None MENU_TYPE_NULL (func None) None.
Definition bfr_cmd_item : item := mk_item "bfr" None (Some "Load kernel image from romfs and boot") MENU_TYPE_CMD (func (Some bfr_func)) None.
Definition bfd_cmd_item : item := mk_item "bfd" None (Some "Load kernel image from disk and boot") MENU_TYPE_CMD (func (Some bfd_func)) None.
Definition bfn_cmd_item : item := mk_item "bfn" None (Some "Boot from network") MENU_TYPE_CMD (func (Some bfn_func)) None.
Definition bfX_cmd_item : item := mk_item "bfx" (Some "(d|r|n|x) (d|n|x)") (Some "Load kernel from <x> with root fs <y>") MENU_TYPE_CMD (func (Some bfX_func)) None.
Definition reboot_cmd_item : item := mk_item "reboot" None (Some "Reboot the system now") MENU_TYPE_CMD (func (Some reboot_func)) None.
Definition halt_cmd_item : item := mk_item "halt" None (Some "Halt the system now") MENU_TYPE_CMD (func (Some halt_func)) None.
Definition quit_cmd_item : item := mk_item "quit" None (Some "Quit and boot default method") MENU_TYPE_CMD (func (Some boot_default_func)) None.
Definition main_menu_item : item := mk_item "main" (Some "Main Menu") (Some "Back to main menu") MENU_TYPE_MENU (items main_menu_items) (Some main_menu).
Definition boot_menu_item : item := mk_item "boot" (Some "Boot Menu") (Some "Loading and booting") MENU_TYPE_MENU (items boot_menu_items) (Some main_menu).
Definition eeprom_menu_item : item := mk_item "eeprom" (Some "EEPROM Menu") (Some "EEPROM commands") MENU_TYPE_MENU (items eeprom_menu_items) (Some main_menu).
Definition mem_menu_item : item := mk_item "mem" (Some "Memory Menu") (Some "Memory commands") MENU_TYPE_MENU (items mem_menu_items) (Some lowlevel_menu).
Definition io_menu_item : item := mk_item "io" (Some "I/O Port Menu") (Some "I/O Port commands") MENU_TYPE_MENU (items io_menu_items) (Some lowlevel_menu).
Definition cmos_menu_item : item := mk_item "cmos" (Some "CMOS Menu") (Some "CMOS commands") MENU_TYPE_MENU (items cmos_menu_items) (Some lowlevel_menu).
Definition pci_menu_item : item := mk_item "pci" (Some "PCI Menu") (Some "PCI commands") MENU_TYPE_MENU (items pci_menu_items) (Some lowlevel_menu).
Definition smp_menu_item : item := mk_item "smp" (Some "SMP Menu") (Some "SMP commands") MENU_TYPE_MENU (items smp_menu_items) (Some lowlevel_menu).
Definition lowlevel_menu_item : item := mk_item "lowlevel" (Some "Lowlevel Hardware Menu") (Some "Lowlevel hardware commands") MENU_TYPE_MENU (items lowlevel_menu_items) (Some main_menu).
Definition test_menu_item : item := mk_item "test" (Some "Test Menu") (Some "Tests and validation") MENU_TYPE_MENU (items test_menu_items) (Some main_menu).
Definition lcdboot_menu_item : item := mk_item "Main menu" (Some "Select option:") None MENU_TYPE_MENU (items lcdboot_menu_items) (Some lcdboot_menu).
Definition lcd_cfg_menu_item : item := mk_item "Configure boot" (Some "Select default:") None MENU_TYPE_MENU (items lcd_cfg_menu_items) (Some lcdboot_menu).
Definition lcd_bfd_menu_item : item := mk_item "Config boot disk" (Some "Select boot disk:") None MENU_TYPE_MENU (items lcd_bfd_menu_items) (Some lcdboot_menu).

Definition the_item (n : menu_name) : item :=
  match n with
  | separator => separator_item
  | bfr_cmd => bfr_cmd_item
  | bfd_cmd => bfd_cmd_item
  | bfn_cmd => bfn_cmd_item
  | bfX_cmd => bfX_cmd_item
  | reboot_cmd => reboot_cmd_item
  | halt_cmd => halt_cmd_item
  | quit_cmd => quit_cmd_item
  | main_menu => main_menu_item
  | boot_menu => boot_menu_item
  | eeprom_menu => eeprom_menu_item
  | mem_menu => mem_menu_item
  | io_menu => io_menu_item
  | cmos_menu => cmos_menu_item
  | pci_menu => pci_menu_item
  | smp_menu => smp_menu_item
  | lowlevel_menu => lowlevel_menu_item
  | test_menu => test_menu_item
  | lcdboot_menu => lcdboot_menu_item
  | lcd_cfg_menu => lcd_cfg_menu_item
  | lcd_bfd_menu => lcd_bfd_menu_item
  end.
Definition the_array (a : menu_array) : list entry :=
  match a with
  | main_menu_items => main_menu_items_list
  | boot_menu_items => boot_menu_items_list
  | eeprom_menu_items => eeprom_menu_items_list
  | mem_menu_items => mem_menu_items_list
  | io_menu_items => io_menu_items_list
  | cmos_menu_items => cmos_menu_items_list
  | pci_menu_items => pci_menu_items_list
  | smp_menu_items => smp_menu_items_list
  | lowlevel_menu_items => lowlevel_menu_items_list
  | test_menu_items => test_menu_items_list
  | lcdboot_menu_items => lcdboot_menu_items_list
  | lcd_cfg_menu_items => lcd_cfg_menu_items_list
  | lcd_bfd_menu_items => lcd_bfd_menu_items_list
  end.
