(* ===== verification/MenuProofs.v ===== *)
(** * MenuProofs: words, menus and commands

    What [split_buffer] makes of a line, and that the loops of the menus never use the wrong
    member of an item on tables that are well typed, which those of the monitor are. *)

From stdpp Require Import strings.
From S2P Require Import Prelude CString CStringProofs CmosIo PciIo Pci Poll Menu MenuTables.
Open Scope list_scope.
Open Scope Z_scope.

(** ** Words *)

Inductive word := Bare (w : list Z) | Quoted (q : Z) (w : list Z).
Definition contents (x : word) : list Z := match x with Bare w => w | Quoted _ w => w end.
Definition written (x : word) : list Z := match x with Bare w => w | Quoted q w => q :: w ++ [q] end.
Definition quote (c : Z) : bool := (c =? 34) || (c =? 39).
Definition plain (c : Z) : Prop := c <> 0 /\ isblank c = false /\ quote c = false.
Definition word_ok (x : word) : Prop :=
  match x with
  | Bare w => w <> [] /\ Forall plain w
  | Quoted q w => quote q = true /\ Forall (fun c => c <> 0 /\ c <> q) w
  end.
Definition blanks (s : list Z) : Prop := Forall (fun c => isblank c = true) s.

(** Words, each with the blanks behind it. *)
Fixpoint layout (l : list (word * list Z)) : list Z :=
  match l with [] => [] | (w, sep) :: l => written w ++ sep ++ layout l end.
Fixpoint layout_ok (l : list (word * list Z)) : Prop :=
  match l with
  | [] => True
  | (w, sep) :: l => word_ok w /\ blanks sep /\ (l <> [] -> sep <> []) /\ layout_ok l
  end.

Lemma isblank_0 c : isblank c = true -> c <> 0.
Proof. by intros H ->. Qed.
Lemma load_at pre c (rest : mem) : load (pre ++ c :: rest) (length pre) = Some c.
Proof. unfold load. rewrite lookup_app_r, Nat.sub_diag by lia. done. Qed.
Lemma store_at_end pre c d (rest : mem) : store (pre ++ c :: rest) (length pre) d = Some (pre ++ d :: rest).
Proof.
  unfold store. rewrite (proj2 (Nat.ltb_lt _ _)) by (rewrite length_app; simpl; lia).
  rewrite insert_app_r_alt by lia. by rewrite Nat.sub_diag.
Qed.
Lemma snoc_length {A} (pre : list A) c : S (length pre) = length (pre ++ [c]).
Proof. rewrite length_app. simpl. lia. Qed.
Lemma snoc_app {A} (pre : list A) c rest : pre ++ c :: rest = (pre ++ [c]) ++ rest.
Proof. by rewrite <- app_assoc. Qed.

(** Going over characters that do not change the state. *)
Lemma skip_chars st q argv (P : Z -> Prop) w pre rest :
  (forall fuel m p c, P c -> load m p = Some c -> split_loop (S fuel) m p st q argv = split_loop fuel m (S p) st q argv) ->
  Forall P w ->
  split_loop (length (w ++ rest)) (pre ++ w ++ rest) (length pre) st q argv =
  split_loop (length rest) ((pre ++ w) ++ rest) (length (pre ++ w)) st q argv.
Proof.
  intros Hstep Hw. revert pre. induction Hw as [|c w Hc _ IH]; intros pre; [by rewrite app_nil_r|].
  cbn [app length]. rewrite Hstep with (c := c) by (done || apply load_at).
  rewrite (snoc_length pre c), (snoc_app pre c), IH. by rewrite <- (app_assoc pre [c] w).
Qed.

Lemma skip_blanks s q argv pre rest : blanks s ->
  split_loop (length (s ++ rest)) (pre ++ s ++ rest) (length pre) ST_BLANK q argv =
  split_loop (length rest) ((pre ++ s) ++ rest) (length (pre ++ s)) ST_BLANK q argv.
Proof.
  apply skip_chars. intros fuel m p c Hc El. cbn [split_loop]. rewrite El. cbn [mbind option_bind].
  rewrite (proj2 (Z.eqb_neq c 0)) by by apply isblank_0. by rewrite Hc.
Qed.
Lemma skip_token w q argv pre rest : Forall plain w ->
  split_loop (length (w ++ rest)) (pre ++ w ++ rest) (length pre) ST_TOKEN q argv =
  split_loop (length rest) ((pre ++ w) ++ rest) (length (pre ++ w)) ST_TOKEN q argv.
Proof.
  apply skip_chars. intros fuel m p c (Hc & Hb & Hq) El. cbn [split_loop]. rewrite El. cbn [mbind option_bind].
  rewrite (proj2 (Z.eqb_neq c 0) Hc), Hb. cbv zeta. unfold quote in Hq. by rewrite Hq.
Qed.
Lemma skip_quoted w q argv pre rest : Forall (fun c => c <> 0 /\ c <> q) w ->
  split_loop (length (w ++ rest)) (pre ++ w ++ rest) (length pre) ST_QSTR q argv =
  split_loop (length rest) ((pre ++ w) ++ rest) (length (pre ++ w)) ST_QSTR q argv.
Proof.
  apply skip_chars. intros fuel m p c (Hc & Hq) El. cbn [split_loop]. rewrite El. cbn [mbind option_bind].
  by rewrite (proj2 (Z.eqb_neq c 0) Hc), (proj2 (Z.eqb_neq c q) Hq).
Qed.

(** The strings at [argv] end within [pre]. *)
Definition found (pre : mem) (argv : list nat) (ss : list (list Z)) : Prop :=
  forall rest, strings_of (pre ++ rest) argv = Some ss.

Lemma strings_of_app m ps qs ss ts : strings_of m ps = Some ss -> strings_of m qs = Some ts ->
  strings_of m (ps ++ qs) = Some (ss ++ ts).
Proof.
  revert ss. induction ps as [|p ps IH]; intros ss Hs Ht; [by injection Hs as <-|].
  cbn [app strings_of] in *. destruct (string_of m p) as [s|]; [|discriminate]. cbn [mbind option_bind] in *.
  destruct (strings_of m ps) as [l|]; [|discriminate]. injection Hs as <-. by rewrite (IH l eq_refl Ht).
Qed.
Lemma string_of_at pre w rest : Forall (fun c => c <> 0) w -> string_of (pre ++ w ++ 0 :: rest) (length pre) = Some w.
Proof.
  intros Hw. assert (Hs : str_at (pre ++ w ++ 0 :: rest) (length pre) w).
  { split; [done|]. unfold sub. rewrite drop_app_length. cbn [length]. rewrite cons_middle, app_assoc.
    by rewrite take_app_le, take_ge by (rewrite length_app; simpl; lia). }
  unfold string_of. rewrite (strlen_spec _ _ _ Hs). cbn [mbind option_bind]. rewrite Nat2Z.id.
  unfold sub. by rewrite drop_app_length, take_app_length.
Qed.
Lemma found_more pre argv ss w tail : found pre argv ss -> Forall (fun c => c <> 0) w ->
  found (pre ++ w ++ 0 :: tail) (argv ++ [length pre]) (ss ++ [w]).
Proof.
  intros Hf Hw rest. apply strings_of_app.
  - rewrite <- app_assoc. apply Hf.
  - rewrite <- app_assoc. cbn [strings_of]. rewrite <- app_assoc. cbn [app].
    by rewrite (string_of_at pre w (tail ++ rest)).
Qed.
Lemma found_past pre argv ss tail : found pre argv ss -> found (pre ++ tail) argv ss.
Proof. intros Hf rest. rewrite <- app_assoc. apply Hf. Qed.

Lemma split_end fuel pre st q argv :
  split_loop (S fuel) (pre ++ [0]) (length pre) st q argv = Some (argv, pre ++ [0]).
Proof. cbn [split_loop]. rewrite load_at. reflexivity. Qed.

Lemma nonzero_plain w : Forall plain w -> Forall (fun c => c <> 0) w.
Proof. intros H. eapply Forall_impl; [exact H|]. by intros c (Hc & _). Qed.
Lemma nonzero_quoted q w : Forall (fun c => c <> 0 /\ c <> q) w -> Forall (fun c => c <> 0) w.
Proof. intros H. eapply Forall_impl; [exact H|]. by intros c (Hc & _). Qed.

Lemma split_past fuel pre c rest st q argv :
  split_loop fuel (pre ++ c :: rest) (S (length pre)) st q argv =
  split_loop fuel ((pre ++ [c]) ++ rest) (length (pre ++ [c])) st q argv.
Proof. by rewrite (snoc_length pre c), (snoc_app pre c rest). Qed.

(** The first character of a word. *)
Lemma push_word c (rest : mem) pre q argv : c <> 0 -> isblank c = false -> (length argv < 16)%nat ->
  split_loop (length (c :: rest)) (pre ++ c :: rest) (length pre) ST_BLANK q argv =
  if quote c then split_loop (length rest) ((pre ++ [c]) ++ rest) (length (pre ++ [c])) ST_QSTR c (argv ++ [length (pre ++ [c])])
  else split_loop (length rest) ((pre ++ [c]) ++ rest) (length (pre ++ [c])) ST_TOKEN q (argv ++ [length pre]).
Proof.
  intros Hc Hb Hl. cbn [length split_loop]. rewrite load_at. cbn [mbind option_bind].
  rewrite (proj2 (Z.eqb_neq c 0) Hc), Hb. change (Z.to_nat MENU_MAX_ARGS) with 16%nat.
  rewrite (proj2 (Nat.ltb_lt _ _) Hl). cbv zeta. cbn [negb]. cbv iota. unfold quote.
  rewrite !split_past, (snoc_length pre c). by destruct ((c =? 34) || (c =? 39)).
Qed.

(** The blank behind a word, and the quote that ends one. *)
Lemma end_token s rest pre q argv : isblank s = true ->
  split_loop (length (s :: rest)) (pre ++ s :: rest) (length pre) ST_TOKEN q argv =
  split_loop (length rest) ((pre ++ [0]) ++ rest) (length (pre ++ [0])) ST_BLANK q argv.
Proof.
  intros Hs. cbn [length split_loop]. rewrite load_at. cbn [mbind option_bind].
  rewrite (proj2 (Z.eqb_neq s 0)) by by apply isblank_0. rewrite Hs, store_at_end. cbn [mbind option_bind].
  apply split_past.
Qed.
Lemma end_quoted q d rest pre argv : q <> 0 ->
  split_loop (length (q :: d :: rest)) (pre ++ q :: d :: rest) (length pre) ST_QSTR q argv =
  split_loop (length (d :: rest)) ((pre ++ [0]) ++ d :: rest) (length (pre ++ [0])) (if isblank d then ST_BLANK else ST_TOKEN) 0 argv.
Proof.
  intros Hq. change (length (q :: d :: rest)) with (S (length (d :: rest))). cbn [split_loop]. rewrite load_at. cbn [mbind option_bind].
  rewrite (proj2 (Z.eqb_neq q 0) Hq). cbv zeta. rewrite Z.eqb_refl.
  assert (load (pre ++ q :: d :: rest) (S (length pre)) = Some d) as ->.
  { rewrite (snoc_length pre q), (snoc_app pre q). apply load_at. }
  cbn [mbind option_bind]. rewrite store_at_end. cbn [mbind option_bind]. apply split_past.
Qed.

(** A word and the blanks behind it. *)
Lemma split_word x sep rest pre q argv ss : word_ok x -> blanks sep ->
  found pre argv ss -> (length argv < 16)%nat ->
  exists pre' q' argv', found pre' argv' (ss ++ [contents x]) /\ length argv' = S (length argv) /\
    split_loop (length (written x ++ sep ++ rest)) (pre ++ written x ++ sep ++ rest) (length pre) ST_BLANK q argv =
    match sep with
    | [] => match rest with [0] => Some (argv', pre') | _ => split_loop (length (written x ++ rest)) (pre ++ written x ++ rest) (length pre) ST_BLANK q argv end
    | _ => split_loop (length rest) (pre' ++ rest) (length pre') ST_BLANK q' argv'
    end.
Proof.
  intros Hx Hs Hf Hl. destruct x as [w|qc w]; cbn [contents written word_ok] in *.
  - destruct Hx as [Hne Hw]. destruct w as [|c w]; [done|]. inversion Hw as [|? ? (Hc & Hb & Hq) Hw']; subst.
    exists (pre ++ (c :: w) ++ 0 :: tl sep), q, (argv ++ [length pre]).
    split; [apply found_more; [done|by apply nonzero_plain]|]. split; [rewrite length_app; simpl; lia|].
    destruct sep as [|s sep]; cbn [app tl].
    + destruct rest as [|z rest]; [done|]. destruct z; [|done..]. destruct rest; [|done].
      rewrite push_word, Hq, skip_token by done. cbn [length]. rewrite split_end. by rewrite <- !app_assoc.
    + inversion Hs as [|? ? Hs0 Hs']; subst.
      rewrite push_word, Hq, skip_token by done. rewrite end_token, skip_blanks by done.
      assert (((((pre ++ [c]) ++ w) ++ [0]) ++ sep) = pre ++ c :: w ++ 0 :: sep) as ->; [|done].
      by rewrite <- !app_assoc.
  - destruct Hx as [Hq Hw].
    assert (Hqc : qc <> 0 /\ isblank qc = false) by (unfold quote in Hq; apply orb_true_iff in Hq as [->%Z.eqb_eq | ->%Z.eqb_eq]; done).
    destruct Hqc as [Hq0 Hqb].
    exists ((pre ++ [qc]) ++ w ++ 0 :: (match sep with [] => [0] | _ => sep end)), 0, (argv ++ [length (pre ++ [qc])]).
    split; [apply found_more; [by apply found_past|by eapply nonzero_quoted]|]. split; [rewrite length_app; simpl; lia|].
    destruct sep as [|s sep]; cbn [app].
    + destruct rest as [|z rest]; [done|]. destruct z; [|done..]. destruct rest; [|done].
      rewrite push_word, Hq by done. rewrite <- (app_assoc w). cbn [app]. rewrite skip_quoted by done.
      rewrite end_quoted by done. change (isblank 0) with false. cbv iota. cbn [length]. rewrite split_end.
      by rewrite <- !app_assoc.
    + inversion Hs as [|? ? Hs0 Hs']; subst.
      rewrite push_word, Hq by done. rewrite <- (app_assoc w). cbn [app]. rewrite skip_quoted by done.
      rewrite end_quoted by done. rewrite Hs0. cbv iota.
      change (s :: sep ++ rest) with ((s :: sep) ++ rest). rewrite skip_blanks by done.
      assert (((((pre ++ [qc]) ++ w) ++ [0]) ++ s :: sep) = (pre ++ [qc]) ++ w ++ 0 :: s :: sep) as ->; [|done].
      by rewrite <- !app_assoc.
Qed.

Lemma split_words l : forall pre q argv ss, layout_ok l -> found pre argv ss -> (length argv + length l <= 16)%nat ->
  exists argv' m, split_loop (length (layout l ++ [0])) (pre ++ layout l ++ [0]) (length pre) ST_BLANK q argv = Some (argv', m) /\
    strings_of m argv' = Some (ss ++ map (fun x => contents (fst x)) l).
Proof.
  induction l as [|[x sep] l IH]; intros pre q argv ss Hok Hf Hl.
  { exists argv, (pre ++ [0]). cbn [layout app length map]. rewrite split_end, app_nil_r. split; [done|apply Hf]. }
  destruct Hok as (Hx & Hs & Hne & Hok). cbn [layout length] in *. rewrite <- !app_assoc.
  destruct (split_word x sep (layout l ++ [0]) pre q argv ss Hx Hs Hf) as (pre' & q' & argv' & Hf' & Hlen & E); [lia|].
  destruct sep as [|s sep].
  - destruct l as [|y l]; [|by destruct Hne]. cbn [layout app] in *. exists argv', pre'. split; [exact E|].
    specialize (Hf' []). rewrite app_nil_r in Hf'. exact Hf'.
  - rewrite E. destruct (IH pre' q' argv' _ Hok Hf') as (argv2 & m & E2 & Hm); [lia|].
    exists argv2, m. split; [exact E2|]. cbn [map fst]. rewrite Hm. by rewrite <- app_assoc.
Qed.

Lemma split_line lead l : blanks lead -> layout_ok l -> (length l <= 16)%nat ->
  exists argv m, split_buffer ((lead ++ layout l) ++ [0]) = Some (argv, m) /\
    strings_of m argv = Some (map (fun x => contents (fst x)) l).
Proof.
  intros Hb Hok Hl. unfold split_buffer. rewrite <- app_assoc.
  pose proof (skip_blanks lead 0 [] [] (layout l ++ [0]) Hb) as E. cbn [app length] in E. rewrite E.
  by apply (split_words l lead 0 [] []).
Qed.

(** A line of at most 31 characters has at most 16 words, whatever is in it. *)
Definition odd_state (st : buf_state_t) : nat := match st with ST_BLANK => 0 | _ => 1 end.
Lemma split_bounded N fuel : forall m p st q argv,
  m !! N = Some 0 -> (p <= N)%nat -> (N <= 31)%nat -> (N < p + fuel)%nat ->
  (2 * length argv <= p + odd_state st)%nat -> Forall (fun a => a <= N)%nat argv ->
  exists argv' m', split_loop fuel m p st q argv = Some (argv', m') /\ m' !! N = Some 0 /\
    Forall (fun a => a <= N)%nat argv'.
Proof.
  induction fuel as [|fuel IH]; intros m p st q argv Hm Hp HN Hf Hl Ha; [lia|].
  pose proof (lookup_lt_Some _ _ _ Hm) as HNm.
  destruct (lookup_lt_is_Some_2 m p) as [c Hc]; [lia|].
  cbn [split_loop]. change (load m p) with (m !! p). rewrite Hc. cbn [mbind option_bind].
  destruct (Z.eqb_spec c 0) as [->|Hc0]; [by exists argv, m|].
  assert (Hlt : (p < N)%nat) by (destruct (decide (p = N)) as [->|]; [congruence|lia]).
  assert (Hst : forall v, exists m1, store m p v = Some m1 /\ m1 !! N = Some 0).
  { intros v. unfold store. rewrite (proj2 (Nat.ltb_lt _ _)) by lia. eexists. split; [done|].
    by rewrite list_lookup_insert_ne by lia. }
  destruct st; cbn [odd_state] in Hl; cbv zeta.
  - destruct (isblank c); cbn [negb]; [apply IH; (done || simpl; lia)|].
    change (Z.to_nat MENU_MAX_ARGS) with 16%nat. rewrite (proj2 (Nat.ltb_lt _ _)) by lia.
    destruct ((c =? 34) || (c =? 39)); apply IH; try done; try lia;
      try (rewrite length_app; simpl; lia); apply Forall_app; (split; [done|]); by repeat constructor; lia.
  - destruct (c =? q); [|apply IH; (done || simpl; lia)].
    destruct (lookup_lt_is_Some_2 m (S p)) as [d Hd]; [lia|]. change (load m (S p)) with (m !! S p). rewrite Hd. cbn [mbind option_bind].
    destruct (Hst 0) as (m1 & -> & Hm1). cbn [mbind option_bind].
    apply IH; try done; try lia.
  - destruct (isblank c).
    + destruct (Hst 0) as (m1 & -> & Hm1). cbn [mbind option_bind]. apply IH; (done || simpl; lia).
    + destruct ((c =? 34) || (c =? 39)); apply IH; (done || simpl; lia).
Qed.

Lemma strlen_defined m p N : m !! N = Some 0 -> (p <= N)%nat -> is_Some (strlen m p).
Proof.
  intros Hm Hp. pose proof (lookup_lt_Some _ _ _ Hm) as HN. unfold strlen.
  assert (H : forall fuel p len, (p <= N)%nat -> (N < p + fuel)%nat -> is_Some (strlen_loop fuel m p len)).
  { induction fuel as [|fuel IH]; intros p' l' Hp' Hf; [lia|].
    destruct (lookup_lt_is_Some_2 m p') as [c Hc]; [lia|]. cbn [strlen_loop]. unfold load. rewrite Hc.
    cbn [mbind option_bind]. destruct (Z.eqb_spec c 0); [done|].
    apply IH; [|lia]. destruct (decide (p' = N)) as [->|]; [congruence|lia]. }
  apply H; [done|lia].
Qed.
Lemma strings_defined m argv N : m !! N = Some 0 -> Forall (fun a => a <= N)%nat argv -> is_Some (strings_of m argv).
Proof.
  intros Hm. induction 1 as [|p ps Hp _ [l IH]]; [by exists []|].
  cbn [strings_of]. unfold string_of. destruct (strlen_defined m p N Hm Hp) as [n ->]. cbn [mbind option_bind].
  rewrite IH. by eexists.
Qed.
Lemma short_line line : (length line <= 31)%nat ->
  exists argv m args, split_buffer (line ++ [0]) = Some (argv, m) /\ strings_of m argv = Some args.
Proof.
  intros Hl. unfold split_buffer.
  destruct (split_bounded (length line) (length (line ++ [0])) (line ++ [0]) 0 ST_BLANK 0 []) as (argv & m & E & Hm & Ha);
    [by rewrite lookup_app_r, Nat.sub_diag by lia|lia|done|rewrite length_app; simpl; lia|simpl; lia|constructor|].
  destruct (strings_defined m argv _ Hm Ha) as [args Hs]. by exists argv, m, args.
Qed.

(** ** Tables that are well typed *)

Section Typed.
Context {name array fun_ W : Type} `{!Machine fun_ W}.
Context (the_item : name -> menu_item name array fun_) (the_array : array -> list (menu_ref name array fun_)).
Context (VERSION BUILD_INFO : string).
Context (menus : list name).
Abbreviation ref := (menu_ref name array fun_).
Abbreviation deref := (deref the_item).

(** The member of the union that the type of an item tells. *)
Definition entry_typed (r : ref) : Prop :=
  match type (deref r) with
  | MENU_TYPE_CMD => exists f, action (deref r) = func (Some f) /\ (length (chars (cmd (deref r))) < 256)%nat
  | MENU_TYPE_MENU => exists n, r = At n /\ n ∈ menus
  | MENU_TYPE_NULL => True
  end.
Record menu_typed (n : name) : Prop := {
  mt_type : type (the_item n) = MENU_TYPE_MENU;
  mt_title : is_Some (title (the_item n));
  mt_items : exists a, action (the_item n) = items a /\ the_array a <> [] /\ Forall entry_typed (the_array a);
  mt_parent : forall p, parent (the_item n) = Some p -> p ∈ menus;
}.
Hypothesis Hmenus : Forall menu_typed menus.

Lemma menu_items n : n ∈ menus ->
  exists l, items_of the_item the_array (At n) = Some l /\ l <> [] /\ Forall entry_typed l.
Proof using Hmenus.
  intros Hn. rewrite Forall_forall in Hmenus. destruct (mt_items n (Hmenus n Hn)) as (a & Ha & Hne & He).
  exists (the_array a). unfold items_of. cbn [Menu.deref]. by rewrite Ha.
Qed.

Lemma search_in w l m : search_menu the_item w l = Some m -> m ∈ l /\ type (deref m) <> MENU_TYPE_NULL.
Proof using.
  assert (H : forall l, search_items the_item w l = Some m -> m ∈ l /\ type (deref m) <> MENU_TYPE_NULL).
  { intros k. induction k as [|x k IH]; [done|]. cbn [search_items].
    destruct (str_eqb w (chars (cmd (deref x)))).
    - destruct (type (deref x)) eqn:Et; intros E.
      + destruct (IH E) as [H1 H2]. split; [by constructor 2|done].
      + injection E as <-. split; [by constructor|congruence].
      + injection E as <-. split; [by constructor|congruence].
    - intros E. destruct (IH E) as [H1 H2]. split; [by constructor 2|done]. }
  destruct l as [|x l]; [done|]. intros E. destruct (H (x :: x :: l) E) as [H1 H2]. split; [|done].
  apply elem_of_cons in H1 as [->|H1]; [by constructor|done].
Qed.

(** A computation that gives a result with a property. *)
Definition gives {A} (m : Run W A) (P : A -> Prop) : Prop := forall w, exists a w', m w = Some (a, w') /\ P a.
Lemma returns_bind {A B} (m : Run W A) (k : A -> Run W B) (P : A -> Prop) (Q : B -> Prop) :
  gives m P -> (forall a, P a -> gives (k a) Q) -> gives (m ≫= k) Q.
Proof using.
  intros Hm Hk w. destruct (Hm w) as (a & w1 & E & Ha), (Hk a Ha w1) as (b & w2 & E2 & Hb).
  exists b, w2. unfold mbind, Run_bind. by rewrite E.
Qed.
Lemma returns_ret {A} (a : A) (P : A -> Prop) : P a -> gives (mret a) P.
Proof using. intros Ha w. by exists a, w. Qed.
Lemma gives_act f (P : unit -> Prop) : P tt -> gives (act f) P.
Proof using. intros Hp w. by exists tt, (f w). Qed.
Lemma gives_lift {A} (o : option A) a : o = Some a -> gives (lift o) (fun x => x = a).
Proof using. intros -> w. by exists a, w. Qed.

Definition any {A} (_ : A) : Prop := True.
Lemma gives_put l : gives (put l) any.
Proof using. by apply gives_act. Qed.
Lemma gives_help_text h : gives (help_text h) any.
Proof using.
  induction h as [|c h IH]; [by apply returns_ret|]. cbn [help_text].
  eapply returns_bind; [apply gives_put|]. intros _ _.
  eapply returns_bind; [destruct (c =? 10); [apply gives_put|by apply returns_ret]|]. by intros _ _.
Qed.
Lemma gives_help_items l : gives (help_items the_item l) any.
Proof using.
  induction l as [|r l IH]; [by apply returns_ret|]. cbn [help_items].
  eapply returns_bind; [|by intros _ _]. unfold help_item.
  eapply returns_bind; [apply gives_put|]. intros _ _.
  eapply returns_bind.
  { instantiate (1 := any). destruct (type (deref r)), (title (deref r)); try (by apply returns_ret).
    eapply returns_bind; [apply gives_put|]. intros _ _. by apply returns_ret. }
  intros len _. eapply returns_bind; [apply gives_put|]. intros _ _.
  eapply returns_bind; [destruct (help (deref r)); [apply gives_help_text|by apply returns_ret]|]. intros _ _. apply gives_put.
Qed.
Lemma gives_help n : n ∈ menus -> gives (menu_do_help the_item the_array (At n)) any.
Proof using Hmenus.
  intros Hn. destruct (menu_items n Hn) as (l & El & _ & _). unfold menu_do_help.
  eapply returns_bind; [apply gives_put|]. intros _ _. eapply returns_bind; [apply gives_put|]. intros _ _.
  eapply returns_bind; [by apply gives_lift|]. intros ? ->.
  eapply returns_bind; [apply gives_help_items|]. intros _ _. apply gives_put.
Qed.
Lemma gives_syntax_error r : gives (syntax_error r) any.
Proof using.
  unfold syntax_error. eapply returns_bind; [apply gives_put|]. intros _ _.
  eapply returns_bind; [|intros _ _; apply gives_put].
  destruct (r =? EBADNUMARGS), (r =? EBADNUM), (r =? EBADARG); apply gives_put.
Qed.

(** Lines are short, and commands return. *)
Hypothesis Hline : gives readline (fun line => (length line <= 31)%nat).
Hypothesis Hcall : forall f args, gives (call f args) any.

Definition at_menu (r : ref) : Prop := exists n, r = At n /\ n ∈ menus.

Lemma console_turn_typed r : at_menu r -> gives (console_turn the_item the_array VERSION BUILD_INFO r) at_menu.
Proof using All.
  intros (n & -> & Hn). assert (Hhere : at_menu (At n)) by by exists n. unfold console_turn.
  eapply returns_bind; [apply gives_put|]. intros _ _.
  eapply returns_bind; [exact Hline|]. intros line Hl. destruct (short_line line Hl) as (argv & m & args & E & Ea).
  eapply returns_bind; [by apply gives_lift|]. intros ? ->.
  eapply returns_bind; [by apply gives_lift|]. intros ? ->.
  destruct args as [|w args]; [by apply returns_ret|]. cbv zeta.
  destruct (str_eqb w (chars "?") || _).
  { eapply returns_bind; [by apply gives_help|]. intros _ _. by apply returns_ret. }
  destruct (str_eqb w (chars "up") || _).
  { apply returns_ret. cbn [Menu.deref]. destruct (parent (the_item n)) as [p|] eqn:Ep; [|done].
    exists p. split; [done|]. rewrite Forall_forall in Hmenus. by apply (mt_parent n (Hmenus n Hn)). }
  destruct (str_eqb w (chars "ver") || _).
  { eapply returns_bind; [apply gives_put|]. intros _ _. eapply returns_bind; [apply gives_put|]. intros _ _. by apply returns_ret. }
  destruct (str_eqb w (chars "history")).
  { eapply returns_bind; [by apply (gives_act _ any)|]. intros _ _. by apply returns_ret. }
  destruct (str_eqb w (chars "credits")).
  { eapply returns_bind; [by apply (gives_act _ any)|]. intros _ _. by apply returns_ret. }
  destruct (menu_items n Hn) as (l & El & Hne & Hty).
  eapply returns_bind; [by apply gives_lift|]. intros ? ->.
  destruct (search_menu the_item w l) as [x|] eqn:Es.
  - destruct (search_in w l x Es) as [Hx Hnn]. rewrite Forall_forall in Hty. specialize (Hty x Hx). unfold entry_typed in Hty.
    destruct (type (deref x)) eqn:Et; [done| |by apply returns_ret].
    destruct Hty as (f & Ef & _).
    eapply returns_bind; [apply (gives_lift _ f); unfold func_of; by rewrite Ef|]. intros ? ->.
    eapply returns_bind; [apply Hcall|]. intros v _.
    eapply returns_bind; [destruct (negb (v =? 0)); [apply gives_syntax_error|by apply returns_ret]|]. intros _ _. by apply returns_ret.
  - eapply returns_bind; [apply gives_put|]. intros _ _. by apply returns_ret.
Qed.

Lemma console_typed k r : at_menu r -> gives (menu_handle_console the_item the_array VERSION BUILD_INFO k r) at_menu.
Proof using All.
  revert r. induction k as [|k IH]; intros r Hr; [by apply returns_ret|]. cbn [menu_handle_console].
  eapply returns_bind; [by apply console_turn_typed|exact IH].
Qed.
End Typed.

(** ** The panel *)

Section Panel.
Context {name array fun_ W : Type} `{!Machine fun_ W}.
Context (the_item : name -> menu_item name array fun_) (the_array : array -> list (menu_ref name array fun_)).
Context (menus : list name).
Hypothesis Hmenus : Forall (menu_typed the_item the_array menus) menus.
Hypothesis Hcall : forall f args, gives (W := W) (call f args) any.
Abbreviation ref := (menu_ref name array fun_).

(** The panel shows an item of a menu. *)
Definition at_item (x : ref * Z) : Prop :=
  exists n l, x.1 = At n /\ n ∈ menus /\ items_of the_item the_array (At n) = Some l /\
    0 <= x.2 < Z.of_nat (length l).

Lemma first_item n : n ∈ menus -> at_item (At n, 0).
Proof using Hmenus.
  intros Hn. destruct (menu_items the_item the_array menus Hmenus n Hn) as (l & El & Hne & _).
  exists n, l. split; [done|]. split; [done|]. split; [done|]. destruct l; [done|]. simpl. lia.
Qed.

Lemma scroll_down_mod (l : list ref) i : 0 <= i < Z.of_nat (length l) -> scroll_down l i = (i + 1) mod Z.of_nat (length l).
Proof using.
  intros Hi. unfold scroll_down. destruct (Nat.ltb_spec (Z.to_nat (i + 1)) (length l)).
  - by rewrite Z.mod_small by lia.
  - replace (i + 1) with (Z.of_nat (length l)) by lia. by rewrite Z.mod_same by lia.
Qed.
Lemma scroll_up_mod (l : list ref) i : 0 <= i < Z.of_nat (length l) -> scroll_up l i = (i - 1) mod Z.of_nat (length l).
Proof using.
  intros Hi. unfold scroll_up. destruct (Z.ltb_spec (i - 1) 0).
  - replace (i - 1) with (-1) by lia. rewrite Z.max_r by lia.
    apply (Z.mod_unique _ _ (-1)); lia.
  - by rewrite Z.mod_small by lia.
Qed.

Lemma press_typed r i b : at_item (r, i) -> gives (lcd_press the_item the_array r i b) at_item.
Proof using All.
  intros (n & l & Er & Hn & El & Hi). cbn [fst snd] in *. subst r.
  assert (Hhere : forall j, 0 <= j < Z.of_nat (length l) -> at_item (At n, j)) by (intros j Hj; by exists n, l).
  unfold lcd_press. eapply returns_bind; [by apply gives_lift|]. intros ? ->.
  destruct (lcd_button_eq b BUTTON_SELECT || _ || _).
  { apply returns_ret, Hhere. rewrite scroll_down_mod by done. apply Z.mod_pos_bound. lia. }
  destruct (lcd_button_eq b BUTTON_UP || _).
  { apply returns_ret, Hhere. rewrite scroll_up_mod by done. apply Z.mod_pos_bound. lia. }
  destruct (lcd_button_eq b BUTTON_ENTER); [|by apply returns_ret, Hhere].
  destruct (lookup_lt_is_Some_2 l (Z.to_nat i)) as [m Hm]; [lia|].
  eapply returns_bind; [by apply gives_lift|]. intros ? ->.
  destruct (menu_items the_item the_array menus Hmenus n Hn) as (l' & El' & _ & Hty).
  rewrite El in El'. injection El' as <-. rewrite Forall_forall in Hty.
  specialize (Hty m (list_elem_of_lookup_2 _ _ _ Hm)). unfold entry_typed in Hty.
  destruct (type (deref the_item m)) eqn:Et.
  - by apply returns_ret, Hhere.
  - destruct Hty as (f & Ef & Hlen).
    eapply returns_bind; [apply (gives_lift _ f); unfold func_of; by rewrite Ef|]. intros ? ->. cbv zeta.
    change (Z.to_nat 0x100) with 256%nat. rewrite (proj2 (Nat.ltb_lt _ _) Hlen).
    eapply returns_bind; [apply Hcall|]. intros _ _. apply returns_ret. cbn [deref].
    destruct (parent (the_item n)) as [p|] eqn:Ep; [|by apply Hhere].
    apply first_item. rewrite Forall_forall in Hmenus. by apply (mt_parent _ _ _ _ (Hmenus n Hn)).
  - destruct Hty as (n' & -> & Hn'). by apply returns_ret, first_item.
Qed.
End Panel.

(** ** The menus of the monitor *)

#[export] Instance menu_name_eq : EqDecision menu_name.
Proof. solve_decision. Defined.

Definition console_menus : list menu_name :=
  [main_menu; boot_menu; eeprom_menu; mem_menu; io_menu; cmos_menu; pci_menu; smp_menu; lowlevel_menu; test_menu].
Definition lcd_menus : list menu_name := [lcdboot_menu; lcd_cfg_menu; lcd_bfd_menu].

Definition entry_check (menus : list menu_name) (r : entry) : bool :=
  let i := deref the_item r in
  match type i, action i, r with
  | MENU_TYPE_CMD, func (Some _), _ => (length (chars (cmd i)) <? 256)%nat
  | MENU_TYPE_MENU, _, At n => bool_decide (n ∈ menus)
  | MENU_TYPE_NULL, _, _ => true
  | _, _, _ => false
  end.
Definition menu_check (menus : list menu_name) (n : menu_name) : bool :=
  let i := the_item n in
  match type i, title i, action i, parent i with
  | MENU_TYPE_MENU, Some _, items a, Some p =>
    negb (length (the_array a) =? 0)%nat && forallb (entry_check menus) (the_array a) && bool_decide (p ∈ menus)
  | _, _, _, _ => false
  end.
Lemma entry_check_ok menus r : entry_check menus r = true -> entry_typed the_item menus r.
Proof.
  unfold entry_check, entry_typed. destruct (type (deref the_item r)) eqn:Et; [done| |].
  - destruct (action (deref the_item r)) as [a|[f|]] eqn:Ea; [done| |done]. intros H. exists f. split; [done|]. by apply Nat.ltb_lt.
  - destruct r as [n|i].
    + destruct (action (deref the_item (At n))) as [|[]]; intros H; apply bool_decide_eq_true in H; by exists n.
    + destruct (action (deref the_item (Lit i))) as [|[]]; done.
Qed.
Lemma menu_check_ok menus n : menu_check menus n = true -> menu_typed the_item the_array menus n.
Proof.
  unfold menu_check. destruct (type (the_item n)) eqn:Et; [done..|]. destruct (title (the_item n)) as [t|] eqn:Eh; [|done].
  destruct (action (the_item n)) as [a|] eqn:Ea; [|done]. destruct (parent (the_item n)) as [p|] eqn:Ep; [|done].
  rewrite !andb_true_iff. intros ((Hne & Hall) & Hp). apply bool_decide_eq_true in Hp. split; [done|by eexists| |].
  - exists a. split; [done|]. split; [by intros E; rewrite E in Hne|].
    apply Forall_forall. intros r Hr. apply entry_check_ok. rewrite forallb_forall in Hall. apply Hall. by apply list_elem_of_In.
  - intros q. rewrite Ep. by intros [= <-].
Qed.

Lemma console_menus_typed : Forall (menu_typed the_item the_array console_menus) console_menus.
Proof. apply Forall_forall. intros n Hn. apply menu_check_ok. revert n Hn. apply Forall_forall. by repeat constructor. Qed.
Lemma lcd_menus_typed : Forall (menu_typed the_item the_array lcd_menus) lcd_menus.
Proof. apply Forall_forall. intros n Hn. apply menu_check_ok. revert n Hn. apply Forall_forall. by repeat constructor. Qed.

(** The names of the commands of a menu differ, and none is a word the console knows itself. *)
Definition name_of (r : entry) : list Z := chars (cmd (deref the_item r)).
Definition own_words : list (list Z) :=
  map chars ["?"; "help"; "up"; ".."; "ver"; "version"; "history"; "credits"]%string.
Definition names_check (n : menu_name) : bool :=
  match items_of the_item the_array (At n) with
  | Some l => bool_decide (NoDup (map name_of l)) && forallb (fun r => negb (bool_decide (name_of r ∈ own_words))) l
  | None => false
  end.
Lemma console_names : Forall (fun n => names_check n = true) console_menus.
Proof. by repeat constructor. Qed.

Lemma search_items_found w l r : NoDup (map name_of l) -> r ∈ l -> w = name_of r ->
  type (deref the_item r) <> MENU_TYPE_NULL -> search_items the_item w l = Some r.
Proof.
  intros Hnd Hr -> Ht. induction l as [|x l IH]; [by apply not_elem_of_nil in Hr|].
  cbn [map] in Hnd. apply NoDup_cons in Hnd as [Hni Hnd]. cbn [search_items]. fold (name_of x).
  apply elem_of_cons in Hr as [->|Hr].
  - unfold str_eqb. rewrite bool_decide_true by done. by destruct (type (deref the_item x)).
  - unfold str_eqb. rewrite bool_decide_false; [by apply IH|].
    intros E. apply Hni. rewrite <- E. by apply list_elem_of_fmap_2.
Qed.
Lemma search_cons w x k : search_items the_item w (x :: k) =
  if str_eqb w (name_of x) then match type (deref the_item x) with MENU_TYPE_NULL => search_items the_item w k | _ => Some x end
  else search_items the_item w k.
Proof. done. Qed.
Lemma search_found l r : NoDup (map name_of l) -> r ∈ l -> type (deref the_item r) <> MENU_TYPE_NULL ->
  search_menu the_item (name_of r) l = Some r.
Proof.
  intros Hnd Hr Ht. destruct l as [|x l]; [by apply not_elem_of_nil in Hr|]. cbn [search_menu].
  rewrite search_cons, (search_items_found _ (x :: l) r) by done. unfold str_eqb.
  destruct (decide (name_of r = name_of x)) as [E|E]; [|by rewrite bool_decide_false].
  rewrite bool_decide_true by done. apply elem_of_cons in Hr as [->|Hr]; [by destruct (type (deref the_item x))|].
  cbn [map] in Hnd. apply NoDup_cons in Hnd as [Hni _]. destruct Hni. rewrite <- E. by apply list_elem_of_fmap_2.
Qed.

(** ** The theorems *)

(** C23: the menus are used as they are typed.  Whatever lines of at most 31 characters are typed,
    and however often, the console stays in one of its ten menus and never takes the wrong member
    of an item, a null function or a null array, nor more than the 16 places of [argv]; and
    whatever buttons are pressed, the panel stays at an item of one of its three menus.  The
    commands are taken to return. *)
Theorem menus_typed {W : Type} `{!Machine menu_func W} (VERSION BUILD_INFO : string) :
  gives (W := W) readline (fun line => (length line <= 31)%nat) ->
  (forall f args, gives (W := W) (call f args) any) ->
  (forall k, gives (menu_handle_console the_item the_array VERSION BUILD_INFO k (At main_menu)) (at_menu console_menus)) /\
  at_item the_item the_array lcd_menus (At lcdboot_menu, 0) /\
  forall r i b, at_item the_item the_array lcd_menus (r, i) ->
    gives (lcd_press the_item the_array r i b) (at_item the_item the_array lcd_menus).
Proof.
  intros Hline Hcall. split; [|split].
  - intros k. apply console_typed; [exact console_menus_typed|exact Hline|exact Hcall|].
    exists main_menu. split; [done|]. by constructor.
  - apply first_item; [exact lcd_menus_typed|]. by constructor.
  - intros r i b. apply press_typed; [exact lcd_menus_typed|exact Hcall].
Qed.

(** What a command gets, and what is said about its result. *)
Definition run_entry {W : Type} `{!Machine menu_func W} (n : menu_name) (r : entry) (args : list (list Z)) : Run W entry :=
  match type (deref the_item r) with
  | MENU_TYPE_CMD =>
    f ← lift (func_of the_item r);
    v ← call f args;
    (if negb (v =? 0) then syntax_error v else mret tt);;
    mret (At n)
  | _ => mret r
  end.

(** C24: every command can be given, and gets its arguments.  In each menu of the console, when the
    line typed is the name of one of its items and up to 15 more words, with any blanks between
    them and quotes around those that have blanks, the console calls the function of that item,
    and of no other, with exactly those words, or goes to that menu. *)
Theorem console_command {W : Type} `{!Machine menu_func W} (VERSION BUILD_INFO : string)
    (n : menu_name) (l : list entry) (r : entry) (lead sep : list Z) (x : word) (ws : list (word * list Z)) (w w1 : W) :
  n ∈ console_menus -> items_of the_item the_array (At n) = Some l -> r ∈ l ->
  type (deref the_item r) <> MENU_TYPE_NULL ->
  contents x = name_of r -> blanks lead -> layout_ok ((x, sep) :: ws) -> (length ws <= 15)%nat ->
  readline (print ([10] ++ chars "Cobalt:" ++ text (title (the_item n)) ++ chars "> ") w) =
    Some (lead ++ layout ((x, sep) :: ws), w1) ->
  console_turn the_item the_array VERSION BUILD_INFO (At n) w =
    run_entry n r (name_of r :: map (fun y => contents (fst y)) ws) w1.
Proof.
  intros Hn El Hr Ht Hx Hlead Hok Hlen Hread.
  destruct (split_line lead ((x, sep) :: ws) Hlead Hok) as (argv & m & E & Em); [simpl; lia|].
  cbn [map fst] in Em. rewrite Hx in Em.
  pose proof console_names as Hnames. rewrite Forall_forall in Hnames. specialize (Hnames n Hn).
  unfold names_check in Hnames. rewrite El in Hnames. apply andb_true_iff in Hnames as [Hnd Hown].
  apply bool_decide_eq_true in Hnd. rewrite forallb_forall in Hown.
  specialize (Hown r (proj1 (list_elem_of_In _ _) Hr)). apply negb_true_iff, bool_decide_eq_false in Hown.
  assert (Hne : forall s, chars s ∈ own_words -> str_eqb (name_of r) (chars s) = false).
  { intros s Hs. unfold str_eqb. apply bool_decide_eq_false. intros Eq. apply Hown. by rewrite Eq. }
  unfold console_turn, put, act. unfold mbind at 1, Run_bind at 1. cbn [deref]. unfold mbind at 1, Run_bind at 1.
  rewrite Hread. unfold mbind at 1, Run_bind at 1, lift at 1. rewrite E. cbn [mbind option_bind].
  unfold mbind at 1, Run_bind at 1, lift at 1. rewrite Em. cbn [mbind option_bind]. cbv zeta.
  rewrite !Hne by (unfold own_words; simpl map; repeat constructor). cbn [orb].
  unfold mbind at 1, Run_bind at 1, lift at 1. rewrite El. cbn [mbind option_bind].
  rewrite (search_found l r Hnd Hr Ht). unfold run_entry. by destruct (type (deref the_item r)).
Qed.

(** A machine that is given its lines. *)
Definition script : Type := list (list Z).
#[export] Instance script_machine : Machine menu_func script := {|
  print _ s := s;
  readline s := match s with [] => Some ([], []) | l :: s => Some (take 31 l, s) end;
  readline_history s := s;
  credits s := s;
  call f args s := Some (EBADNUM, s);
  lcd_set_cur_pos _ s := s;
  lcd_write_str _ s := s;
  lcd_button_read s := (BUTTON_NONE, s);
|}.

Lemma menus_typed_witness :
  (forall k, gives (W := script) (menu_handle_console the_item the_array "2.10" "today" k (At main_menu)) (at_menu console_menus)) /\
  at_item the_item the_array lcd_menus (At lcdboot_menu, 0) /\
  forall r i b, at_item the_item the_array lcd_menus (r, i) ->
    gives (W := script) (lcd_press the_item the_array r i b) (at_item the_item the_array lcd_menus).
Proof.
  apply (menus_typed "2.10" "today").
  - intros [|l s]; eexists _, _; (split; [reflexivity|]); [simpl; lia|]. rewrite length_take. lia.
  - intros f args s. by exists EBADNUM, s.
Defined.

(** outb 0x80 '1 2' in the menu of ports. *)
Definition outb_line : list Z := chars "outb  0x80 '1 2'".
Lemma console_command_witness :
  console_turn the_item the_array "2.10" "today" (At io_menu) [outb_line] =
  Some (At io_menu, @nil (list Z)) /\
  console_turn the_item the_array "2.10" "today" (At io_menu) [outb_line] =
  run_entry io_menu (nth 3 io_menu_items_list (At main_menu)) [chars "outb"; chars "0x80"; chars "1 2"] (@nil (list Z)).
Proof.
  split; [reflexivity|].
  apply (console_command "2.10" "today" io_menu io_menu_items_list (nth 3 io_menu_items_list (At main_menu)) [] [32; 32]
           (Bare (chars "outb")) [(Bare (chars "0x80"), [32]); (Quoted 39 (chars "1 2"), [])] [outb_line] []).
  - by repeat (constructor || (left; reflexivity)).
  - reflexivity.
  - apply list_elem_of_In, nth_In. simpl. lia.
  - discriminate.
  - reflexivity.
  - constructor.
  - cbn [layout_ok word_ok]. split_and!; try done; try (intros _; discriminate); repeat constructor; discriminate.
  - simpl. lia.
  - reflexivity.
Defined.

(** Seventeen words are one more than [argv] has places for. *)
Example too_many_words : split_buffer (chars "a a a a a a a a a a a a a a a a a" ++ [0]) = None.
Proof. reflexivity. Qed.
