(* ===== verification/Gdb.v ===== *)
(** * Gdb: the remote debugging stub

    Model of the C part of [x86/common/gdb-x86.c]: the packets, the conversions between
    memory and hexadecimal, and the commands.  The line to the debugger and the memory of the
    program are a class of operations; a fault of an access marked so sets [mem_err], as the
    handler [mem_fault] does.  [None] is an access outside of a buffer, or a character the line
    does not have. *)

From stdpp Require Import strings.
From S2P Require Import Prelude CString Printf CmosIo PciIo Pci.
Open Scope list_scope.
Open Scope Z_scope.

Definition BUFMAX : nat := 400.
Definition NUMREGBYTES : nat := 64.
Definition PC : nat := 8.
Definition PS : nat := 9.
(** More characters than a line brings between two packets. *)
Definition LINE_FUEL : nat := Z.to_nat 0x100000.
#[global] Arguments LINE_FUEL : simpl never.

Class Target (W : Type) := {
  getDebugChar : Run W Z;
  putDebugChar : Z -> W -> Z * W;
  (* the byte, or a fault *)
  get_char : Z -> W -> option Z * W;
  (* whether there was no fault *)
  set_char : Z -> Z -> W -> bool * W;
}.

Definition hexchars : list Z := chars "0123456789abcdef".
Definition hexchar (n : Z) : Z := nth (Z.to_nat n) hexchars 0.

Definition hex (ch : Z) : Z :=
  if (97 <=? ch) && (ch <=? 102) then ch - 97 + 10
  else if (48 <=? ch) && (ch <=? 57) then ch - 48
  else if (65 <=? ch) && (ch <=? 70) then ch - 65 + 10
  else -1.

(** [computeSignal]: the vectors that have a signal of their own. *)
Definition computeSignal (exceptionVector : Z) : Z :=
  default 7 (list_to_map (M := gmap Z Z)
    [(0, 8); (1, 5); (3, 5); (4, 16); (5, 16); (6, 4); (7, 8); (8, 7); (9, 11); (10, 11); (11, 11); (12, 11);
     (13, 11); (14, 11); (16, 7)] !! exceptionVector).

Section Gdb.
Context {W : Type} `{!Target W}.

(** The globals: the registers as 64 bytes, the buffers, and what [printf] was given. *)
Record stub := mk_stub {
  world : W;
  registers : list Z;
  remcomInBuffer : mem;
  remcomOutBuffer : mem;
  remote_debug : bool;
  mem_err : bool;
  gdb_i386vector : Z;
  said : list (string * list arg);
}.
Abbreviation T := (Run stub).

Definition set_world (w : W) (s : stub) : stub :=
  mk_stub w (registers s) (remcomInBuffer s) (remcomOutBuffer s) (remote_debug s) (mem_err s) (gdb_i386vector s) (said s).
Definition set_registers (r : list Z) (s : stub) : stub :=
  mk_stub (world s) r (remcomInBuffer s) (remcomOutBuffer s) (remote_debug s) (mem_err s) (gdb_i386vector s) (said s).
Definition set_in (m : mem) (s : stub) : stub :=
  mk_stub (world s) (registers s) m (remcomOutBuffer s) (remote_debug s) (mem_err s) (gdb_i386vector s) (said s).
Definition set_out (m : mem) (s : stub) : stub :=
  mk_stub (world s) (registers s) (remcomInBuffer s) m (remote_debug s) (mem_err s) (gdb_i386vector s) (said s).
Definition set_debug (d : bool) (s : stub) : stub :=
  mk_stub (world s) (registers s) (remcomInBuffer s) (remcomOutBuffer s) d (mem_err s) (gdb_i386vector s) (said s).
Definition set_mem_err (e : bool) (s : stub) : stub :=
  mk_stub (world s) (registers s) (remcomInBuffer s) (remcomOutBuffer s) (remote_debug s) e (gdb_i386vector s) (said s).
Definition set_vector (v : Z) (s : stub) : stub :=
  mk_stub (world s) (registers s) (remcomInBuffer s) (remcomOutBuffer s) (remote_debug s) (mem_err s) v (said s).
Definition set_said (l : list (string * list arg)) (s : stub) : stub :=
  mk_stub (world s) (registers s) (remcomInBuffer s) (remcomOutBuffer s) (remote_debug s) (mem_err s) (gdb_i386vector s) l.

Definition ask {A} (f : stub -> A) : T A := fun s => Some (f s, s).
Definition chg (f : stub -> stub) : T unit := fun s => Some (tt, f s).
Definition lift {A} (o : option A) : T A := fun s => a ← o; Some (a, s).
Definition getc : T Z := fun s => '(c, w) ← getDebugChar (world s); Some (c, set_world w s).
Definition putc (c : Z) : T Z := fun s => let '(r, w) := putDebugChar c (world s) in Some (r, set_world w s).
Definition put_ (c : Z) : T unit := _ ← putc c; mret tt.
(** [if (remote_debug) printf(...)] *)
Definition debug_printf (fmt : string) (args : list arg) : T unit :=
  d ← ask remote_debug; if d : bool then chg (fun s => set_said (said s ++ [(fmt, args)]) s) else mret tt.

(** Stores in the two buffers. *)
Definition in_store (i : nat) (c : Z) : T unit := m ← ask remcomInBuffer; m ← lift (store m i (u8 c)); chg (set_in m).
Definition out_store (i : nat) (c : Z) : T unit := m ← ask remcomOutBuffer; m ← lift (store m i (u8 c)); chg (set_out m).
Definition in_load (i : nat) : T Z := m ← ask remcomInBuffer; lift (load m i).
(** [strcpy(remcomOutBuffer, s)] *)
Fixpoint out_string (i : nat) (l : list Z) : T unit :=
  match l with [] => out_store i 0 | c :: l => out_store i c;; out_string (S i) l end.

(** ** Packets *)

(** Waiting for the '$'. *)
Fixpoint wait_start (fuel : nat) : T unit :=
  match fuel with
  | O => lift None
  | S fuel => c ← getc; if Z.land c 0x7f =? 36 then mret tt else wait_start fuel
  end.

(** Reading to the '#' or the end of the buffer: the last character, the count, the checksum. *)
Fixpoint read_packet (n : nat) (count : nat) (ch checksum : Z) : T (Z * nat * Z) :=
  match n with
  | O => mret (ch, count, checksum)
  | S n =>
    c ← getc;
    let ch := Z.land c 0x7f in
    if ch =? 35 then mret (ch, count, checksum)
    else in_store count ch;; read_packet n (S count) ch (u8 (checksum + ch))
  end.

(** [for (i=3; i <= count; i++) buffer[i-3] = buffer[i]] *)
Fixpoint shift_packet (n i : nat) : T unit :=
  match n with O => mret tt | S n => c ← in_load (i + 3); in_store i c;; shift_packet n (S i) end.

Definition accept_packet : T unit :=
  put_ 43;;
  c ← in_load 2;
  if c =? 58 then
    c0 ← in_load 0; put_ c0;;
    c1 ← in_load 1; put_ c1;;
    m ← ask remcomInBuffer;
    count ← lift (strlen m 0);
    shift_packet (Z.to_nat count + 1 - 3) 0
  else mret tt.

Fixpoint getpacket (fuel : nat) : T unit :=
  match fuel with
  | O => lift None
  | S fuel =>
    wait_start LINE_FUEL;;
    '(ch, count, checksum) ← read_packet BUFMAX 0 36 0;
    in_store count 0;;
    xmitcsum ← (if ch =? 35 then
      a ← getc;
      let xmitcsum := u8 (Z.shiftl (hex (Z.land a 0x7f)) 4) in
      b ← getc;
      let xmitcsum := u8 (xmitcsum + hex (Z.land b 0x7f)) in
      (if negb (checksum =? xmitcsum) then
         m ← ask remcomInBuffer;
         n ← lift (strlen m 0);
         debug_printf "bad checksum.  My count = 0x%x, sent=0x%x. buf=%s\n"
           [AWord checksum; AWord xmitcsum; AStr (Some (take (Z.to_nat n) m ++ [0]))];;
         put_ 45
       else accept_packet);;
      mret xmitcsum
    else mret (u8 (-1)));
    if checksum =? xmitcsum then mret tt else getpacket fuel
  end.

(** The characters up to the NUL: the checksum, or [None] when one was not sent. *)
Fixpoint send_chars (fuel : nat) (i : nat) (checksum : Z) : T (option Z) :=
  match fuel with
  | O => lift None
  | S fuel =>
    m ← ask remcomOutBuffer;
    ch ← lift (load m i);
    if ch =? 0 then mret (Some checksum)
    else r ← putc ch; if r =? 0 then mret None else send_chars fuel (S i) (u8 (checksum + ch))
  end.

Fixpoint putpacket (fuel : nat) : T unit :=
  match fuel with
  | O => lift None
  | S fuel =>
    put_ 36;;
    r ← send_chars (S BUFMAX) 0 0;
    match r with
    | None => mret tt
    | Some checksum =>
      put_ 35;;
      put_ (hexchar (Z.shiftr checksum 4));;
      put_ (hexchar (checksum mod 16));;
      c ← getc;
      if Z.land c 0x7f =? 43 then mret tt else putpacket fuel
    end
  end.

(** ** Memory and hexadecimal *)

(** [mem2hex] to the output buffer at [i], with [may_fault]: it stops at a fault. *)
Fixpoint mem2hex (n : nat) (addr : Z) (i : nat) : T unit :=
  match n with
  | O => out_store i 0
  | S n =>
    r ← (fun s => let '(r, w) := get_char addr (world s) in Some (r, set_world w s));
    match r with
    | None => chg (set_mem_err true)
    | Some ch =>
      out_store i (hexchar (Z.shiftr (u8 ch) 4));;
      out_store (S i) (hexchar (u8 ch mod 16));;
      mem2hex n (u32 (addr + 1)) (S (S i))
    end
  end.

(** [hex2mem] from the input buffer at [i]. *)
Definition hex_byte (i : nat) : T Z :=
  a ← in_load i;
  b ← in_load (S i);
  mret (u8 (u8 (Z.shiftl (hex a) 4) + hex b)).
Fixpoint hex2mem (n : nat) (i : nat) (addr : Z) : T unit :=
  match n with
  | O => mret tt
  | S n =>
    ch ← hex_byte i;
    ok ← (fun s => let '(r, w) := set_char addr ch (world s) in Some (r, set_world w s));
    if ok : bool then hex2mem n (S (S i)) (u32 (addr + 1)) else chg (set_mem_err true)
  end.

(** The same on the registers, which do not fault. *)
Fixpoint regs2hex (l : list Z) (i : nat) : T unit :=
  match l with
  | [] => out_store i 0
  | ch :: l =>
    out_store i (hexchar (Z.shiftr (u8 ch) 4));;
    out_store (S i) (hexchar (u8 ch mod 16));;
    regs2hex l (S (S i))
  end.
Fixpoint hex2regs (n : nat) (i : nat) : T (list Z) :=
  match n with O => mret [] | S n => ch ← hex_byte i; l ← hex2regs n (S (S i)); mret (ch :: l) end.

(** The number of digits, the value and the place behind. *)
Fixpoint hexToInt (fuel : nat) (i : nat) (numChars intValue : Z) : T (Z * Z * nat) :=
  match fuel with
  | O => lift None
  | S fuel =>
    c ← in_load i;
    if c =? 0 then mret (numChars, intValue, i)
    else
      let v := hex c in
      if 0 <=? v then hexToInt fuel (S i) (numChars + 1) (s32 (Z.lor (u32 (Z.shiftl intValue 4)) v))
      else mret (numChars, intValue, i)
  end.
Definition hex_to_int (i : nat) : T (Z * Z * nat) := hexToInt (S BUFMAX) i 0 0.

(** ** Commands *)

Definition register (n : nat) (r : list Z) : Z := get32 (4 * n) r.
Definition set_register (n : nat) (v : Z) (r : list Z) : list Z := put32 (4 * n) (u32 v) r.

Definition signal_reply (sigval : Z) : T unit :=
  out_store 0 83;;
  out_store 1 (hexchar (Z.shiftr sigval 4));;
  out_store 2 (hexchar (sigval mod 16));;
  out_store 3 0.

(** AA..AA,LLLL at [ptr]: the address, the length and the place behind, when it is well formed. *)
Definition addr_length : T (option (Z * Z * nat)) :=
  '(n, addr, i) ← hex_to_int 1;
  if n =? 0 then mret None
  else
    c ← in_load i;
    if negb (c =? 44) then mret None
    else
      '(n, length, i) ← hex_to_int (S i);
      if n =? 0 then mret None else mret (Some (addr, length, i)).

Definition in_string : T arg := m ← ask remcomInBuffer; n ← lift (strlen m 0); mret (AStr (Some (take (Z.to_nat n) m ++ [0]))).

Definition read_memory : T unit :=
  r ← addr_length;
  match r with
  | Some (addr, length, _) =>
    chg (set_mem_err false);;
    mem2hex (Z.to_nat length) (u32 addr) 0;;
    e ← ask mem_err;
    if e : bool then out_string 0 (chars "E03");; debug_printf "memory fault" [] else mret tt
  | None =>
    out_string 0 (chars "E01");;
    a ← in_string; debug_printf "malformed read memory command: %s" [a]
  end.

Definition write_memory : T unit :=
  r ← addr_length;
  colon ← (match r with Some (_, _, i) => in_load i | None => mret 0 end);
  match r with
  | Some (addr, length, i) =>
    if colon =? 58 then
      chg (set_mem_err false);;
      hex2mem (Z.to_nat length) (S i) (u32 addr);;
      e ← ask mem_err;
      if e : bool then out_string 0 (chars "E03");; debug_printf "memory fault" [] else out_string 0 (chars "OK")
    else
      out_string 0 (chars "E02");;
      a ← in_string; debug_printf "malformed write memory command: %s" [a]
  | None =>
    out_string 0 (chars "E02");;
    a ← in_string; debug_printf "malformed write memory command: %s" [a]
  end.

(** The trace bit is set for a step and cleared for going on. *)
Definition resume (step : bool) : T unit :=
  '(n, addr, _) ← hex_to_int 1;
  (if n =? 0 then mret tt else chg (fun s => set_registers (set_register PC addr (registers s)) s));;
  chg (fun s => set_registers (set_register PS (Z.land (register PS (registers s)) 0xfffffeff) (registers s)) s);;
  if step then chg (fun s => set_registers (set_register PS (Z.lor (register PS (registers s)) 0x100) (registers s)) s)
  else mret tt.

(** One turn of the loop of [handle_exception]: whether the program goes on. *)
Definition command (sigval : Z) : T bool :=
  out_store 0 0;;
  getpacket LINE_FUEL;;
  c ← in_load 0;
  if c =? 63 then signal_reply sigval;; putpacket LINE_FUEL;; mret false
  else if c =? 100 then chg (fun s => set_debug (negb (remote_debug s)) s);; putpacket LINE_FUEL;; mret false
  else if c =? 103 then r ← ask registers; regs2hex r 0;; putpacket LINE_FUEL;; mret false
  else if c =? 71 then
    r ← hex2regs NUMREGBYTES 1; chg (set_registers r);; out_string 0 (chars "OK");; putpacket LINE_FUEL;; mret false
  else if c =? 109 then read_memory;; putpacket LINE_FUEL;; mret false
  else if c =? 77 then write_memory;; putpacket LINE_FUEL;; mret false
  else if (c =? 99) || (c =? 115) then resume (c =? 115);; mret true
  else putpacket LINE_FUEL;; mret false.

Fixpoint commands (fuel : nat) (sigval : Z) : T unit :=
  match fuel with
  | O => lift None
  | S fuel => back ← command sigval; if back : bool then mret tt else commands fuel sigval
  end.

(** The first commands after an exception, until the program goes on. *)
Definition handle_exception (fuel : nat) (exceptionVector : Z) : T unit :=
  chg (set_vector exceptionVector);;
  r ← ask registers;
  debug_printf "vector=%d, sr=0x%x, pc=0x%x\n" [AWord exceptionVector; AWord (register PS r); AWord (register PC r)];;
  let sigval := computeSignal exceptionVector in
  signal_reply sigval;;
  putpacket LINE_FUEL;;
  commands fuel sigval.
End Gdb.
Arguments stub : clear implicits.
Arguments mk_stub {W} _ _ _ _ _ _ _ _.
