(* ===== verification/GdbProofs.v ===== *)
(** * GdbProofs: the debugger on the other end of the line

    [wire] is a target with the characters that come in, those that went out, and a memory
    where some addresses fault.  A packet that one end sends is the packet the other end
    reads; a command that writes memory and one that reads it agree. *)

From stdpp Require Import strings.
From S2P Require Import Prelude CString CStringProofs Printf CmosIo PciIo Pci Gdb.
Open Scope list_scope.
Open Scope Z_scope.

Record wire := mk_wire { rx : list Z; tx : list Z; bytes : Z -> Z; faults : Z -> bool }.
#[export] Instance wire_target : Target wire := {|
  getDebugChar w := match rx w with [] => None | c :: l => Some (c, mk_wire l (tx w) (bytes w) (faults w)) end;
  putDebugChar c w := (1, mk_wire (rx w) (tx w ++ [c]) (bytes w) (faults w));
  get_char a w := (if faults w a then None else Some (bytes w a), w);
  set_char a v w :=
    if faults w a then (false, w)
    else (true, mk_wire (rx w) (tx w) (fun x => if x =? a then v else bytes w x) (faults w));
|}.

(** ** Packets *)

Definition sum_of (l : list Z) : Z := foldl (fun a c => u8 (a + c)) 0 l.
Definition frame (l : list Z) : list Z :=
  36 :: l ++ [35; hexchar (Z.shiftr (sum_of l) 4); hexchar (sum_of l mod 16)].
(** Characters a packet may have. *)
Definition packet_char (c : Z) : Prop := 0 < c < 128 /\ c <> 35.

Lemma hexchar_hex_char d : 0 <= d < 16 -> hexchar d = hex_char d.
Proof.
  intros Hd. assert (forallb (fun d => hexchar d =? hex_char d) (seqZ 0 16) = true) as H by reflexivity.
  rewrite forallb_forall in H. apply Z.eqb_eq, H, list_elem_of_In, elem_of_seqZ. lia.
Qed.
Lemma hex_hexchar d : 0 <= d < 16 -> hex (hexchar d) = d.
Proof.
  intros Hd. assert (forallb (fun d => hex (hexchar d) =? d) (seqZ 0 16) = true) as H by reflexivity.
  rewrite forallb_forall in H. apply Z.eqb_eq, H, list_elem_of_In, elem_of_seqZ. lia.
Qed.
Lemma hexchar_range d : 0 <= d < 16 -> 48 <= hexchar d < 128.
Proof. intros Hd. rewrite hexchar_hex_char by done. by destruct (hex_char_ok d Hd) as (_ & _ & _ & ?). Qed.
Lemma land_7f c : 0 <= c < 128 -> Z.land c 0x7f = c.
Proof. intros Hc. change 0x7f with (Z.ones 7). rewrite Z.land_ones by lia. by apply Z.mod_small. Qed.
Lemma nibbles v : 0 <= v < 256 -> 0 <= Z.shiftr v 4 < 16 /\ 0 <= v mod 16 < 16 /\ u8 (u8 (Z.shiftl (Z.shiftr v 4) 4) + v mod 16) = v.
Proof.
  intros Hv. rewrite Z.shiftr_div_pow2, Z.shiftl_mul_pow2 by lia. change (2 ^ 4) with 16.
  pose proof (Z.div_mod v 16 ltac:(lia)) as E. pose proof (Z.mod_pos_bound v 16 ltac:(lia)).
  assert (0 <= v / 16 < 16) by (split; [apply Z.div_pos; lia|apply Z.div_lt_upper_bound; lia]).
  split; [lia|]. split; [lia|]. rewrite (u8_small (v / 16 * 16)) by lia. rewrite u8_small by lia. lia.
Qed.
Lemma sum_of_range_acc l a : 0 <= a < 256 -> 0 <= foldl (fun a c => u8 (a + c)) a l < 256.
Proof. revert a. induction l as [|c l IH]; intros a Ha; [done|]. apply IH. by apply u8_bounds. Qed.
Lemma sum_of_range l : 0 <= sum_of l < 256.
Proof. by apply sum_of_range_acc. Qed.

Section Wire.
Context (m : Z -> Z) (fl : Z -> bool).
Abbreviation at_ rx tx r i o d e v p := (mk_stub (mk_wire rx tx m fl) r i o d e v p).

Lemma getc_next c l t r i o d e v p : getc (at_ (c :: l) t r i o d e v p) = Some (c, at_ l t r i o d e v p).
Proof. done. Qed.
Lemma put_next c l t r i o d e v p : put_ c (at_ l t r i o d e v p) = Some (tt, at_ l (t ++ [c]) r i o d e v p).
Proof. done. Qed.

Lemma wait_start_reads noise l fuel t r i o d e v p : Forall (fun c => Z.land c 0x7f <> 36) noise -> (length noise < fuel)%nat ->
  wait_start fuel (at_ (noise ++ 36 :: l) t r i o d e v p) = Some (tt, at_ l t r i o d e v p).
Proof.
  revert fuel. induction noise as [|c noise IH]; intros fuel Hn Hf; (destruct fuel as [|fuel]; [simpl in Hf; lia|]).
  - reflexivity.
  - inversion Hn as [|? ? Hc Hn']; subst. cbn [wait_start app]. unfold mbind, Run_bind. rewrite getc_next.
    rewrite (proj2 (Z.eqb_neq _ 36) Hc). apply IH; [done|simpl in Hf; lia].
Qed.

(** The bytes at and behind a place are as they were. *)
Definition same_from (k : nat) (i i' : mem) : Prop := forall j, (k <= j)%nat -> i' !! j = i !! j.

Lemma in_store_next k acc c l t r i o d e v p : take (length acc) i = acc -> (length acc < length i)%nat -> k = length acc -> 0 <= c < 256 ->
  exists i', in_store k c (at_ l t r i o d e v p) = Some (tt, at_ l t r i' o d e v p) /\
    take (length (acc ++ [c])) i' = acc ++ [c] /\ length i' = length i /\ same_from (S k) i i'.
Proof.
  intros Hi Hl -> Hc. destruct (store_at i acc c Hi Hl) as (i' & E & Ht & Hl'). exists i'.
  split; [unfold in_store, mbind, Run_bind, ask; cbn [remcomInBuffer]; rewrite u8_small by done; unfold lift; by rewrite E|].
  split; [done|]. split; [done|]. revert E. unfold store. destruct (length acc <? length i)%nat; [|done].
  intros [= <-] j Hj. by rewrite list_lookup_insert_ne by lia.
Qed.
Lemma out_store_next k acc c l t r i o d e v p : take (length acc) o = acc -> (length acc < length o)%nat -> k = length acc -> 0 <= c < 256 ->
  exists o', out_store k c (at_ l t r i o d e v p) = Some (tt, at_ l t r i o' d e v p) /\
    take (length (acc ++ [c])) o' = acc ++ [c] /\ length o' = length o.
Proof.
  intros Ho Hl -> Hc. destruct (store_at o acc c Ho Hl) as (o' & E & Ht & Hl'). exists o'.
  split; [unfold out_store, mbind, Run_bind, ask; cbn [remcomOutBuffer]; rewrite u8_small by done; unfold lift; by rewrite E|done].
Qed.

Lemma read_packet_reads l rest n ch sum acc t r i o d e v p :
  Forall packet_char l -> (length l < n)%nat -> take (length acc) i = acc -> (length acc + length l < length i)%nat ->
  exists i', read_packet n (length acc) ch sum (at_ (l ++ 35 :: rest) t r i o d e v p) =
      Some ((35, (length acc + length l)%nat, foldl (fun a c => u8 (a + c)) sum l), at_ rest t r i' o d e v p) /\
    take (length (acc ++ l)) i' = acc ++ l /\ length i' = length i /\ same_from (length acc + length l) i i'.
Proof.
  intros Hl. revert n ch sum acc i. induction Hl as [|c l [Hc H35] _ IH]; intros n ch sum acc i Hn Hi Hlen;
    (destruct n as [|n]; [simpl in Hn; lia|]); cbn [read_packet app]; unfold mbind, Run_bind; rewrite getc_next; cbv zeta.
  - change (Z.land 35 0x7f) with 35. rewrite Z.eqb_refl. exists i. rewrite Nat.add_0_r, app_nil_r. by split.
  - rewrite land_7f by lia. rewrite (proj2 (Z.eqb_neq c 35) H35). cbn [length] in *.
    destruct (in_store_next (length acc) acc c (l ++ 35 :: rest) t r i o d e v p Hi) as (i1 & E1 & Hi1 & Hl1 & Hs1); [lia|done|lia|].
    rewrite E1. destruct (IH n c (u8 (sum + c)) (acc ++ [c]) i1) as (i2 & E2 & Hi2 & Hl2 & Hs2);
      [lia|done|rewrite last_length; lia|].
    rewrite last_length in E2, Hs2. rewrite <- app_assoc in Hi2. cbn [app] in Hi2.
    exists i2. split; [rewrite E2; do 4 f_equal; lia|]. split; [exact Hi2|]. split; [lia|].
    intros j Hj. rewrite Hs2 by lia. apply Hs1. lia.
Qed.

(** A packet that starts with no sequence number. *)
Definition no_sequence (l : list Z) (i : mem) : Prop := match l with _ :: _ :: c :: _ => c <> 58 | [_; _] => True | _ => i !! 2%nat <> Some 58 end.

(** After noise, a packet is read, and acknowledged. *)
Lemma getpacket_reads noise l rest fuel t r i o d e v p :
  Forall (fun c => Z.land c 0x7f <> 36) noise -> (length noise < LINE_FUEL)%nat -> Forall packet_char l ->
  (length l < BUFMAX)%nat -> length i = BUFMAX -> no_sequence l i ->
  exists i', getpacket (S fuel) (at_ (noise ++ frame l ++ rest) t r i o d e v p) = Some (tt, at_ rest (t ++ [43]) r i' o d e v p) /\
    take (length (l ++ [0])) i' = l ++ [0] /\ length i' = BUFMAX /\ same_from (S (length l)) i i'.
Proof.
  intros Hnoise Hfuel Hl Hlen Hi Hseq. cbn [getpacket]. unfold frame. cbn [app]. rewrite <- app_assoc. cbn [app].
  unfold mbind at 1, Run_bind at 1. rewrite wait_start_reads by done.
  destruct (read_packet_reads l ([hexchar (Z.shiftr (sum_of l) 4); hexchar (sum_of l mod 16)] ++ rest) BUFMAX 36 0 [] t r i o d e v p)
    as (i1 & E1 & Hi1 & Hl1 & Hs1); [done|done|done|simpl; lia|]. cbn [app length Nat.add] in *.
  unfold mbind at 1, Run_bind at 1. rewrite E1.
  destruct (in_store_next (length l) l 0 ([hexchar (Z.shiftr (sum_of l) 4); hexchar (sum_of l mod 16)] ++ rest) t r i1 o d e v p)
    as (i2 & E2 & Hi2 & Hl2 & Hs2); [done|lia|done|lia|].
  unfold mbind at 1, Run_bind at 1. cbn [app] in E2. rewrite E2. change (35 =? 35) with true. cbv iota.
  pose proof (sum_of_range l) as Hsum. destruct (nibbles _ Hsum) as (H4 & H16 & Hn).
  fold (sum_of l).
  unfold mbind at 1, Run_bind at 1. unfold mbind at 1, Run_bind at 1. rewrite getc_next. cbv zeta.
  unfold mbind at 1, Run_bind at 1. rewrite getc_next. cbv zeta.
  rewrite !land_7f, !hex_hexchar, Hn by (done || (pose proof (hexchar_range _ H4); pose proof (hexchar_range _ H16); lia)).
  rewrite Z.eqb_refl. cbn [negb]. cbv iota.
  assert (Eacc : accept_packet (at_ rest t r i2 o d e v p) = Some (tt, at_ rest (t ++ [43]) r i2 o d e v p)).
  { unfold accept_packet. unfold mbind at 1, Run_bind at 1. rewrite put_next.
    assert (exists c, i2 !! 2%nat = Some c /\ c <> 58) as (c & Ec & Hc).
    { assert (Hlook : forall j, (j < length (l ++ [0%Z]))%nat -> i2 !! j = (l ++ [0]) !! j).
      { intros j Hj. rewrite <- (lookup_take_lt i2 (length (l ++ [0])) j) by done. by rewrite Hi2. }
      destruct l as [|c0 [|c1 [|c2 l']]]; cbn [no_sequence] in Hseq.
      - destruct (lookup_lt_is_Some_2 i 2) as [c Ec]; [unfold BUFMAX in Hi; lia|]. exists c.
        rewrite (Hs2 2%nat), (Hs1 2%nat) by (simpl; lia). split; [done|congruence].
      - destruct (lookup_lt_is_Some_2 i 2) as [c Ec]; [unfold BUFMAX in Hi; lia|]. exists c.
        rewrite (Hs2 2%nat), (Hs1 2%nat) by (simpl; lia). split; [done|congruence].
      - exists 0. by rewrite Hlook by (simpl; lia).
      - exists c2. by rewrite Hlook by (simpl; lia). }
    unfold in_load, mbind, Run_bind, ask, lift. cbn [remcomInBuffer]. unfold load. rewrite Ec.
    cbn [mbind option_bind]. by rewrite (proj2 (Z.eqb_neq c 58) Hc). }
  unfold mbind at 1, Run_bind at 1. rewrite Eacc. unfold mret, Run_ret. rewrite Z.eqb_refl. exists i2.
  split; [done|]. split; [done|]. split; [lia|]. intros j Hj. rewrite Hs2 by lia. apply Hs1. lia.
Qed.

Lemma send_chars_sends l k sum pre rest t r i o d e v p fuel :
  Forall (fun c => 0 < c < 256) l -> o = pre ++ l ++ 0 :: rest -> k = length pre -> (length l < fuel)%nat ->
  forall rx, send_chars fuel k sum (at_ rx t r i o d e v p) =
    Some (Some (foldl (fun a c => u8 (a + c)) sum l), at_ rx (t ++ l) r i o d e v p).
Proof.
  intros Hl. revert k sum pre t fuel. induction Hl as [|c l Hc _ IH]; intros k sum pre t fuel Ho Hk Hf rx;
    (destruct fuel as [|fuel]; [simpl in Hf; lia|]).
  - assert (El : load o k = Some 0) by (unfold load; rewrite Ho, Hk, lookup_app_r, Nat.sub_diag by lia; done).
    cbn [send_chars]. unfold mbind, Run_bind, ask, lift. cbn [remcomOutBuffer]. rewrite El. cbn. by rewrite app_nil_r.
  - assert (El : load o k = Some c) by (unfold load; rewrite Ho, Hk, lookup_app_r, Nat.sub_diag by lia; done).
    cbn [send_chars]. unfold mbind at 1, Run_bind at 1, ask at 1. cbn [remcomOutBuffer].
    unfold mbind at 1, Run_bind at 1, lift at 1. rewrite El. cbn [mbind option_bind].
    rewrite (proj2 (Z.eqb_neq c 0)) by lia.
    transitivity (send_chars fuel (S k) (u8 (sum + c)) (at_ rx (t ++ [c]) r i o d e v p)); [reflexivity|].
    rewrite (IH (S k) (u8 (sum + c)) (pre ++ [c]) (t ++ [c]) fuel); [|by rewrite <- app_assoc|by rewrite last_length, Hk|simpl in Hf; lia].
    by rewrite <- app_assoc.
Qed.

(** A packet is sent until it is acknowledged. *)
Lemma putpacket_sends l nak rest fuel t r i o tl d e v p :
  Forall (fun c => 0 < c < 256) l -> (length l <= BUFMAX)%nat -> o = l ++ 0 :: tl ->
  Forall (fun c => Z.land c 0x7f <> 43) nak -> (length nak < fuel)%nat ->
  putpacket fuel (at_ (nak ++ 43 :: rest) t r i o d e v p) =
    Some (tt, at_ rest (t ++ concat (replicate (S (length nak)) (frame l))) r i o d e v p).
Proof.
  intros Hl Hlen Ho Hn. revert t fuel. induction Hn as [|c nak Hc _ IH]; intros t fuel Hf;
    (destruct fuel as [|fuel]; [simpl in Hf; lia|]); cbn [putpacket]; unfold mbind at 1, Run_bind at 1; rewrite put_next;
    unfold mbind at 1, Run_bind at 1; rewrite (send_chars_sends l 0 0 [] tl) by (done || lia); cbv iota; fold (sum_of l);
    do 3 (unfold mbind at 1, Run_bind at 1; rewrite put_next); cbn [app]; unfold mbind at 1, Run_bind at 1; rewrite getc_next.
  - change (Z.land 43 0x7f =? 43) with true. cbv iota. unfold frame. cbn [length replicate concat].
    by list_simplifier.
  - rewrite (proj2 (Z.eqb_neq _ 43) Hc). rewrite IH by (simpl in Hf; lia). cbn [length replicate concat].
    unfold frame. by list_simplifier.
Qed.
End Wire.

(** ** Numbers and bytes in a packet *)

Definition hex_byte_chars (b : Z) : list Z := [hexchar (Z.shiftr b 4); hexchar (b mod 16)].
Definition hexbytes (data : list Z) : list Z := concat (map hex_byte_chars data).

Lemma hexbytes_length data : length (hexbytes data) = (2 * length data)%nat.
Proof. induction data as [|b data IH]; [done|]. unfold hexbytes in *. cbn [map concat]. rewrite length_app, IH. simpl. lia. Qed.
Lemma hexchar_packet d : 0 <= d < 16 -> packet_char (hexchar d).
Proof. intros Hd. pose proof (hexchar_range d Hd). unfold packet_char. lia. Qed.
Lemma hexbytes_packet data : bytes_ok data -> Forall packet_char (hexbytes data).
Proof.
  intros Hd. induction Hd as [|b data Hb _ IH]; [done|]. unfold hexbytes. cbn [map concat]. apply Forall_app. split; [|done].
  destruct (nibbles b Hb) as (H4 & H16 & _). repeat constructor; by apply hexchar_packet.
Qed.

Lemma s32_u32 a b : u32 a = u32 b -> s32 a = s32 b.
Proof. unfold s32. by intros ->. Qed.
Lemma s32_same a : u32 (s32 a) = u32 a.
Proof.
  unfold s32. pose proof (Z.mod_pos_bound a 4294967296 ltac:(lia)) as Hu. fold (u32 a) in Hu. destruct (u32 a <? 2147483648); [by apply u32_small|].
  unfold u32 at 1. replace (u32 a - 4294967296) with (u32 a + (-1) * 4294967296) by lia.
  rewrite Z.mod_add by lia. by apply Z.mod_small.
Qed.
Lemma s32_shift a h : 0 <= h < 16 -> s32 (Z.lor (u32 (Z.shiftl (s32 a) 4)) h) = s32 (a * 16 + h).
Proof.
  intros Hh. apply s32_u32.
  assert (E : u32 (Z.shiftl (s32 a) 4) = Z.shiftl (a mod 2 ^ 28) 4).
  { rewrite !Z.shiftl_mul_pow2 by lia. change (2 ^ 4) with 16.
    transitivity (u32 (a * 16)).
    - pose proof (s32_same a) as Es. unfold u32 in *. by rewrite <- Z.mul_mod_idemp_l, Es, Z.mul_mod_idemp_l by lia.
    - unfold u32. change 4294967296 with (2 ^ 28 * 16). by rewrite Z.mul_mod_distr_r by lia. }
  rewrite E, lor_shifted by (simpl; lia). change (2 ^ 4) with 16.
  rewrite (Z.div_mod a (2 ^ 28)) at 2 by lia. unfold u32.
  replace ((2 ^ 28 * (a / 2 ^ 28) + a mod 2 ^ 28) * 16 + h) with (a mod 2 ^ 28 * 16 + h + a / 2 ^ 28 * 4294967296) by lia.
  by rewrite Z.mod_add by lia.
Qed.

(** Running the first step of a sequence. *)
Lemma bind_next {S A B : Type} (f : Run S A) (g : A -> Run S B) s a s' : f s = Some (a, s') -> (f ≫= g) s = g a s'.
Proof. intros E. unfold mbind, Run_bind. by rewrite E. Qed.

Section Hex.
Context (fl : Z -> bool).
Abbreviation at_ m rx tx r i o d e v p := (mk_stub (mk_wire rx tx m fl) r i o d e v p).

Lemma in_load_at m pre c post k l t r o d e v p : k = length pre ->
  in_load k (at_ m l t r (pre ++ c :: post) o d e v p) = Some (c, at_ m l t r (pre ++ c :: post) o d e v p).
Proof. intros ->. unfold in_load, mbind, Run_bind, ask, lift, load. cbn [remcomInBuffer]. by rewrite list_lookup_middle. Qed.

(** A number ends at a character that is no digit. *)
Lemma hexToInt_reads m ds c post n fuel k pre a l t r o d e v p : is_hex ds -> hex c < 0 -> (length ds < fuel)%nat -> k = length pre ->
  let s := at_ m l t r (pre ++ map hex_char ds ++ c :: post) o d e v p in
  hexToInt fuel k n (s32 a) s = Some ((n + Z.of_nat (length ds), s32 (hex_value a ds), (k + length ds)%nat), s).
Proof.
  intros Hds Hc. cbv zeta. revert n fuel k pre a. induction Hds as [|h ds Hh _ IH]; intros n fuel k pre a Hf Hk;
    (destruct fuel as [|fuel]; [simpl in Hf; lia|]); cbn [map app hexToInt length].
  - rewrite (bind_next _ _ _ _ _ (in_load_at m pre c post k l t r o d e v p Hk)). cbv zeta. rewrite (proj2 (Z.leb_gt 0 (hex c))) by lia.
    rewrite Z.add_0_r, Nat.add_0_r. by destruct (c =? 0).
  - rewrite (bind_next _ _ _ _ _ (in_load_at m pre (hex_char h) (map hex_char ds ++ c :: post) k l t r o d e v p Hk)). cbv zeta.
    destruct (hex_char_ok h Hh) as (_ & _ & _ & Hb). rewrite (proj2 (Z.eqb_neq (hex_char h) 0)) by lia.
    rewrite <- hexchar_hex_char, hex_hexchar by done. rewrite (proj2 (Z.leb_le 0 h)) by lia. rewrite s32_shift by done.
    specialize (IH (n + 1) fuel (S k) (pre ++ [hexchar h]) (a * 16 + h) ltac:(simpl in Hf; lia) ltac:(rewrite length_app; simpl; lia)).
    rewrite <- app_assoc in IH. cbn [app] in IH. rewrite IH. rewrite Nat2Z.inj_succ. unfold hex_value. cbn [foldl].
    do 3 f_equal; [f_equal|]; lia.
Qed.

Lemma hex_byte_at m pre b post k l t r o d e v p : k = length pre -> 0 <= b < 256 ->
  let s := at_ m l t r (pre ++ hex_byte_chars b ++ post) o d e v p in hex_byte k s = Some (b, s).
Proof.
  intros Hk Hb. cbv zeta. unfold hex_byte, hex_byte_chars. cbn [app]. destruct (nibbles b Hb) as (H4 & H16 & E).
  rewrite (bind_next _ _ _ _ _ (in_load_at m pre _ _ k l t r o d e v p Hk)).
  replace (pre ++ hexchar (Z.shiftr b 4) :: hexchar (b mod 16) :: post) with ((pre ++ [hexchar (Z.shiftr b 4)]) ++ hexchar (b mod 16) :: post)
    by (by rewrite <- app_assoc).
  rewrite (bind_next _ _ _ _ _ (in_load_at m (pre ++ [hexchar (Z.shiftr b 4)]) _ _ (S k) l t r o d e v p ltac:(rewrite last_length; lia))).
  by rewrite !hex_hexchar, E.
Qed.
(** Bytes written to memory. *)
Lemma hex2mem_writes data : bytes_ok data -> forall m pre post k addr l t r o d e v p,
  k = length pre -> 0 <= addr -> addr + Z.of_nat (length data) < 4294967296 ->
  (forall x, addr <= x < addr + Z.of_nat (length data) -> fl x = false) ->
  hex2mem (length data) k addr (at_ m l t r (pre ++ hexbytes data ++ post) o d e v p) =
    Some (tt, at_ (stored addr data m) l t r (pre ++ hexbytes data ++ post) o d e v p).
Proof.
  induction 1 as [|b data Hb _ IH]; intros m pre post k addr l t r o d e v p Hk Ha Hend Hfl.
  - cbn [length hex2mem]. unfold mret, Run_ret. by rewrite stored_nil.
  - cbn [length hex2mem] in *. change (hexbytes (b :: data)) with (hex_byte_chars b ++ hexbytes data). rewrite <- app_assoc.
    rewrite (bind_next _ _ _ _ _ (hex_byte_at m pre b _ k l t r o d e v p Hk Hb)).
    unfold mbind at 1, Run_bind at 1. cbn [set_char wire_target world faults]. rewrite (Hfl addr) by lia.
    unfold set_world. cbn [world registers remcomInBuffer remcomOutBuffer remote_debug mem_err gdb_i386vector said rx tx bytes faults].
    rewrite u32_small by lia. rewrite (app_assoc pre).
    rewrite (IH _ (pre ++ hex_byte_chars b) post (S (S k)) (addr + 1));
      [by rewrite stored_cons|rewrite length_app; cbn [length hex_byte_chars]; lia|lia|lia|intros; apply Hfl; lia].
Qed.

(** Bytes read from memory. *)
Lemma mem2hex_reads data : bytes_ok data -> forall m acc addr l t r i o d e v p,
  (forall j, (j < length data)%nat -> m (addr + Z.of_nat j) = nth j data 0 /\ fl (addr + Z.of_nat j) = false) ->
  0 <= addr -> addr + Z.of_nat (length data) < 4294967296 ->
  take (length acc) o = acc -> (length acc + 2 * length data < length o)%nat ->
  exists o', mem2hex (length data) addr (length acc) (at_ m l t r i o d e v p) = Some (tt, at_ m l t r i o' d e v p) /\
    take (length (acc ++ hexbytes data ++ [0])) o' = acc ++ hexbytes data ++ [0] /\ length o' = length o.
Proof.
  induction 1 as [|b data Hb _ IH]; intros m acc addr l t r i o d e v p Hm Ha Hend Ho Hlen.
  - cbn [length mem2hex hexbytes map concat app]. apply out_store_next; [done|simpl in Hlen; lia|done|lia].
  - cbn [length mem2hex] in *. destruct (Hm 0%nat ltac:(lia)) as [Eb Ef]. rewrite Z.add_0_r in Eb, Ef. cbn [nth] in Eb.
    unfold mbind at 1, Run_bind at 1. cbn [get_char wire_target world faults bytes]. rewrite Ef, Eb.
    unfold set_world. cbn [world registers remcomInBuffer remcomOutBuffer remote_debug mem_err gdb_i386vector said].
    rewrite u8_small by done. destruct (nibbles b Hb) as (H4 & H16 & _).
    pose proof (hexchar_range _ H4). pose proof (hexchar_range _ H16).
    destruct (out_store_next m fl (length acc) acc (hexchar (Z.shiftr b 4)) l t r i o d e v p) as (o1 & E1 & Ho1 & Hl1); [done|lia|done|lia|].
    rewrite (bind_next _ _ _ _ _ E1).
    destruct (out_store_next m fl (S (length acc)) (acc ++ [hexchar (Z.shiftr b 4)]) (hexchar (b mod 16)) l t r i o1 d e v p)
      as (o2 & E2 & Ho2 & Hl2); [done|rewrite last_length; lia|by rewrite last_length|lia|].
    rewrite (bind_next _ _ _ _ _ E2). rewrite u32_small by lia.
    destruct (IH m ((acc ++ [hexchar (Z.shiftr b 4)]) ++ [hexchar (b mod 16)]) (addr + 1) l t r i o2 d e v p) as (o3 & E3 & Ho3 & Hl3).
    + intros j Hj. specialize (Hm (S j) ltac:(lia)). by replace (addr + 1 + Z.of_nat j) with (addr + Z.of_nat (S j)) by lia.
    + lia.
    + lia.
    + done.
    + rewrite !last_length. lia.
    + rewrite !last_length in E3. exists o3. split; [exact E3|].
      rewrite <- !app_assoc in Ho3. cbn [app] in Ho3. split; [exact Ho3|lia].
Qed.
End Hex.

(** ** Writing and reading the memory of the program *)

Definition write_request (ads lds data : list Z) : list Z :=
  77 :: map hex_char ads ++ 44 :: map hex_char lds ++ 58 :: hexbytes data.
Definition read_request (ads lds : list Z) : list Z := 109 :: map hex_char ads ++ 44 :: map hex_char lds.

Lemma hex_value_nonneg ds a : is_hex ds -> 0 <= a -> 0 <= hex_value a ds.
Proof. intros Hd. revert a. induction Hd as [|d ds Hd _ IH]; intros a Ha; [done|]. apply IH. lia. Qed.
Lemma hex_chars_packet ds : is_hex ds -> Forall packet_char (map hex_char ds).
Proof.
  induction 1 as [|d ds Hd _ IH]; [done|]. constructor; [|done].
  rewrite <- hexchar_hex_char by done. by apply hexchar_packet.
Qed.
Lemma packet_byte l : Forall packet_char l -> Forall (fun c => 0 < c < 256) l.
Proof. intros H. eapply Forall_impl; [exact H|]. intros c [Hc _]. lia. Qed.
Lemma write_request_packet ads lds data : is_hex ads -> is_hex lds -> bytes_ok data -> Forall packet_char (write_request ads lds data).
Proof.
  intros. unfold write_request. constructor; [unfold packet_char; lia|]. apply Forall_app. split; [by apply hex_chars_packet|].
  constructor; [unfold packet_char; lia|]. apply Forall_app. split; [by apply hex_chars_packet|].
  constructor; [unfold packet_char; lia|]. by apply hexbytes_packet.
Qed.
Lemma read_request_packet ads lds : is_hex ads -> is_hex lds -> Forall packet_char (read_request ads lds).
Proof.
  intros. unfold read_request. constructor; [unfold packet_char; lia|]. apply Forall_app. split; [by apply hex_chars_packet|].
  constructor; [unfold packet_char; lia|]. by apply hex_chars_packet.
Qed.
Lemma request_no_sequence c ads tl i : is_hex ads -> ads <> [] -> no_sequence (c :: map hex_char ads ++ 44 :: tl) i.
Proof.
  intros Ha Hne. destruct Ha as [|a ads Ha Has]; [done|]. cbn [map app no_sequence].
  destruct Has as [|a' ads Ha' _]; cbn [map app]; [lia|].
  rewrite <- hexchar_hex_char by done.
  assert (forallb (fun d => negb (hexchar d =? 58)) (seqZ 0 16) = true) as H by reflexivity.
  rewrite forallb_forall in H. specialize (H a' ltac:(apply list_elem_of_In, elem_of_seqZ; lia)).
  rewrite negb_true_iff in H. by apply Z.eqb_neq in H.
Qed.
Lemma line_fuel_S : LINE_FUEL = S (pred LINE_FUEL).
Proof. unfold LINE_FUEL. lia. Qed.

Section Commands.
Context (fl : Z -> bool).
Abbreviation at_ m rx tx r i o d e v p := (mk_stub (mk_wire rx tx m fl) r i o d e v p).

Lemma addr_length_reads m c0 ads lds c post l t r o d e v p :
  is_hex ads -> is_hex lds -> ads <> [] -> lds <> [] -> (length ads <= BUFMAX)%nat -> (length lds <= BUFMAX)%nat -> hex c < 0 ->
  let s := at_ m l t r (c0 :: map hex_char ads ++ 44 :: map hex_char lds ++ c :: post) o d e v p in
  addr_length s = Some (Some (s32 (hex_value 0 ads), s32 (hex_value 0 lds), (2 + length ads + length lds)%nat), s).
Proof.
  intros Ha Hl Hane Hlne Hla Hll Hc. cbv zeta. unfold addr_length, hex_to_int.
  pose proof (hexToInt_reads fl m ads 44 (map hex_char lds ++ c :: post) 0 (S BUFMAX) 1 [c0] 0 l t r o d e v p
    Ha ltac:(by vm_compute) ltac:(lia) eq_refl) as E1.
  cbv zeta in E1. change (s32 0) with 0 in E1. cbn [app] in E1. rewrite (bind_next _ _ _ _ _ E1). clear E1. cbv beta iota.
  rewrite (proj2 (Z.eqb_neq (0 + Z.of_nat (length ads)) 0)) by (destruct ads; simpl; (done || lia)).
  rewrite (app_comm_cons _ _ c0).
  rewrite (bind_next _ _ _ _ _ (in_load_at fl m (c0 :: map hex_char ads) 44 _ (1 + length ads) l t r o d e v p ltac:(simpl; by rewrite length_map))).
  change (44 =? 44) with true. cbn [negb].
  replace ((c0 :: map hex_char ads) ++ 44 :: map hex_char lds ++ c :: post)
    with ((c0 :: map hex_char ads ++ [44]) ++ map hex_char lds ++ c :: post) by (cbn [app]; by rewrite <- app_assoc).
  assert (Hk : S (1 + length ads) = length (c0 :: map hex_char ads ++ [44])) by (simpl; rewrite last_length, length_map; lia).
  pose proof (hexToInt_reads fl m lds c post 0 (S BUFMAX) _ (c0 :: map hex_char ads ++ [44]) 0 l t r o d e v p Hl Hc ltac:(lia) Hk) as E1.
  cbv zeta in E1. change (s32 0) with 0 in E1. rewrite (bind_next _ _ _ _ _ E1). clear E1. cbv beta iota.
  rewrite (proj2 (Z.eqb_neq (0 + Z.of_nat (length lds)) 0)) by (destruct lds; simpl; (done || lia)). done.
Qed.

(** A reply of fixed characters. *)
Lemma out_string_puts s : forall acc m l t r i o d e v p, Forall (fun c => 0 < c < 256) s ->
  take (length acc) o = acc -> (length acc + length s < length o)%nat ->
  exists o', out_string (length acc) s (at_ m l t r i o d e v p) = Some (tt, at_ m l t r i o' d e v p) /\
    take (length (acc ++ s ++ [0])) o' = acc ++ s ++ [0] /\ length o' = length o.
Proof.
  induction s as [|c s IH]; intros acc m l t r i o d e v p Hs Ho Hlen; cbn [out_string length] in *.
  - apply out_store_next; [done|lia|done|lia].
  - inversion Hs as [|? ? Hc Hs']; subst.
    destruct (out_store_next m fl (length acc) acc c l t r i o d e v p) as (o1 & E1 & Ho1 & Hl1); [done|lia|done|lia|].
    rewrite (bind_next _ _ _ _ _ E1). destruct (IH (acc ++ [c]) m l t r i o1 d e v p) as (o2 & E2 & Ho2 & Hl2);
      [done|done|rewrite last_length; lia|]. rewrite last_length in E2. exists o2. split; [exact E2|].
    rewrite <- app_assoc in Ho2. split; [exact Ho2|lia].
Qed.
Lemma app_comm_cons' (l1 l2 : list Z) c : l1 ++ c :: l2 = (l1 ++ [c]) ++ l2.
Proof. by rewrite <- app_assoc. Qed.
Lemma take_split (o l : list Z) : take (length (l ++ [0])) o = l ++ [0] -> o = l ++ 0 :: drop (length (l ++ [0])) o.
Proof. intros H. rewrite <- (take_drop (length (l ++ [0])) o) at 1. rewrite H, <- app_assoc. done. Qed.

Lemma s32_small a : 0 <= a < 2147483648 -> s32 a = a.
Proof. intros. unfold s32. rewrite u32_small by lia. by rewrite (proj2 (Z.ltb_lt a 2147483648)) by lia. Qed.

(** The requests a debugger may make of memory. *)
Record request (ads lds : list Z) (n : nat) : Prop := {
  req_ads : is_hex ads; req_lds : is_hex lds; req_ads_some : ads <> []; req_lds_some : lds <> [];
  req_len : hex_value 0 lds = Z.of_nat n;
  req_end : hex_value 0 ads + Z.of_nat n < 4294967296;
  req_ok : forall x, hex_value 0 ads <= x < hex_value 0 ads + Z.of_nat n -> fl x = false;
}.

Lemma write_memory_ok ads lds data m post l t r o d e v p :
  request ads lds (length data) -> bytes_ok data -> (length (write_request ads lds data) < BUFMAX)%nat -> length o = BUFMAX ->
  let i := write_request ads lds data ++ 0 :: post in
  exists o', write_memory (at_ m l t r i o d e v p) =
    Some (tt, at_ (stored (hex_value 0 ads) data m) l t r i o' d false v p) /\
    take 3 o' = chars "OK" ++ [0] /\ length o' = BUFMAX.
Proof.
  intros [Ha Hl Hane Hlne Hn Hend Hfl] Hd Hlen Ho. cbv zeta.
  assert (Hsz : (3 + length ads + length lds + 2 * length data < BUFMAX)%nat).
  { unfold write_request in Hlen. cbn [length] in Hlen. rewrite !length_app in Hlen. cbn [length] in Hlen.
    rewrite !length_app, !length_map in Hlen. cbn [length] in Hlen. rewrite hexbytes_length in Hlen. lia. }
  pose proof (hex_value_nonneg ads 0 Ha ltac:(lia)) as Hpos. unfold BUFMAX in Hsz.
  assert (Ei : write_request ads lds data ++ 0 :: post = 77 :: map hex_char ads ++ 44 :: map hex_char lds ++ 58 :: (hexbytes data ++ 0 :: post)).
  { unfold write_request. by list_simplifier. }
  rewrite Ei. unfold write_memory.
  pose proof (addr_length_reads m 77 ads lds 58 (hexbytes data ++ 0 :: post) l t r o d e v p Ha Hl Hane Hlne
    ltac:(unfold BUFMAX; lia) ltac:(unfold BUFMAX; lia) ltac:(by vm_compute)) as E1. cbv zeta in E1.
  rewrite (bind_next _ _ _ _ _ E1). clear E1. cbv beta iota.
  rewrite Hn, (s32_small (Z.of_nat _)), Nat2Z.id, s32_same, u32_small by lia.
  replace (77 :: map hex_char ads ++ 44 :: map hex_char lds ++ 58 :: hexbytes data ++ 0 :: post)
    with ((77 :: map hex_char ads ++ 44 :: map hex_char lds) ++ 58 :: hexbytes data ++ 0 :: post) by by list_simplifier.
  assert (Hk : (2 + length ads + length lds)%nat = length (77 :: map hex_char ads ++ 44 :: map hex_char lds)).
  { cbn [length]. rewrite length_app. cbn [length]. rewrite !length_map. lia. }
  rewrite (bind_next _ _ _ _ _ (in_load_at fl m _ 58 _ _ l t r o d e v p Hk)). change (58 =? 58) with true. cbv iota.
  unfold chg at 1. unfold mbind at 1, Run_bind at 1. unfold set_mem_err. cbn [world registers remcomInBuffer remcomOutBuffer remote_debug gdb_i386vector said].
  rewrite (app_comm_cons' _ (hexbytes data ++ 0 :: post) 58).
  rewrite (bind_next _ _ _ _ _ (hex2mem_writes fl data Hd m _ (0 :: post) (S (2 + length ads + length lds)) _ l t r o d false v p
    ltac:(rewrite last_length, Hk; done) Hpos Hend Hfl)).
  unfold ask. unfold mbind at 1, Run_bind at 1. cbn [mem_err]. cbv iota.
  destruct (out_string_puts (chars "OK") [] (stored (hex_value 0 ads) data m) l t r ((( 77 :: map hex_char ads ++ 44 :: map hex_char lds) ++ [58]) ++ hexbytes data ++ 0 :: post) o d false v p)
    as (o' & E2 & Ho' & Hl'); [repeat constructor; lia|done|rewrite Ho; unfold BUFMAX; simpl; lia|].
  exists o'. split; [exact E2|]. split; [exact Ho'|lia].
Qed.

Lemma read_memory_ok ads lds data m post l t r o d e v p :
  request ads lds (length data) -> bytes_ok data -> (2 * length data < BUFMAX)%nat -> length o = BUFMAX ->
  (length ads <= BUFMAX)%nat -> (length lds <= BUFMAX)%nat ->
  (forall j, (j < length data)%nat -> m (hex_value 0 ads + Z.of_nat j) = nth j data 0) ->
  let i := read_request ads lds ++ 0 :: post in
  exists o', read_memory (at_ m l t r i o d e v p) = Some (tt, at_ m l t r i o' d false v p) /\
    take (length (hexbytes data ++ [0])) o' = hexbytes data ++ [0] /\ length o' = BUFMAX.
Proof.
  intros [Ha Hl Hane Hlne Hn Hend Hfl] Hd Hlen Ho Hla Hll Hm. cbv zeta.
  pose proof (hex_value_nonneg ads 0 Ha ltac:(lia)) as Hpos. unfold BUFMAX in Hlen.
  unfold read_request. cbn [app]. rewrite <- app_assoc. cbn [app]. unfold read_memory.
  pose proof (addr_length_reads m 109 ads lds 0 post l t r o d e v p Ha Hl Hane Hlne Hla Hll ltac:(by vm_compute)) as E1.
  cbv zeta in E1. rewrite (bind_next _ _ _ _ _ E1). clear E1. cbv beta iota.
  rewrite Hn, (s32_small (Z.of_nat _)), Nat2Z.id, s32_same, u32_small by lia.
  unfold chg at 1. unfold mbind at 1, Run_bind at 1. unfold set_mem_err. cbn [world registers remcomInBuffer remcomOutBuffer remote_debug gdb_i386vector said].
  destruct (mem2hex_reads fl data Hd m [] (hex_value 0 ads) l t r (109 :: map hex_char ads ++ 44 :: map hex_char lds ++ 0 :: post) o d false v p)
    as (o' & E2 & Ho' & Hl'); [intros j Hj; split; [by apply Hm|apply Hfl; lia]|lia|lia|done|rewrite Ho; unfold BUFMAX; simpl; lia|].
  rewrite (bind_next _ _ _ _ _ E2). unfold ask. unfold mbind at 1, Run_bind at 1. cbn [mem_err]. cbv iota.
  exists o'. split; [reflexivity|]. split; [exact Ho'|lia].
Qed.

(** A command that writes memory, and the answer to it. *)
Lemma command_writes sigval ads lds data m rest t r i o d e v p :
  request ads lds (length data) -> bytes_ok data -> (length (write_request ads lds data) < BUFMAX)%nat ->
  length i = BUFMAX -> length o = BUFMAX ->
  exists i' o', command sigval (at_ m (frame (write_request ads lds data) ++ 43 :: rest) t r i o d e v p) =
    Some (false, at_ (stored (hex_value 0 ads) data m) rest (t ++ 43 :: frame (chars "OK")) r i' o' d false v p) /\
    length i' = BUFMAX /\ length o' = BUFMAX.
Proof.
  intros Hreq Hd Hlen Hi Ho. unfold command.
  destruct (out_store_next m fl 0 [] 0 (frame (write_request ads lds data) ++ 43 :: rest) t r i o d e v p)
    as (o1 & E1 & _ & Hl1); [done|rewrite Ho; unfold BUFMAX; simpl; lia|done|lia|].
  rewrite (bind_next _ _ _ _ _ E1). rewrite line_fuel_S.
  destruct (getpacket_reads m fl [] (write_request ads lds data) (43 :: rest) (pred LINE_FUEL) t r i o1 d e v p) as (i1 & E2 & Hi1 & Hl2 & _).
  { done. } { unfold LINE_FUEL. simpl. lia. } { by apply write_request_packet; [apply Hreq|apply Hreq|]. } { done. } { done. }
  { apply request_no_sequence; apply Hreq. }
  cbn [app] in E2. rewrite (bind_next _ _ _ _ _ E2). apply take_split in Hi1. rewrite Hi1 in Hl2 |- *. clear E1 E2.
  set (post := drop _ _) in *.
  assert (Hin : in_load 0 (at_ m (43 :: rest) (t ++ [43]) r (write_request ads lds data ++ 0 :: post) o1 d e v p) =
    Some (77, at_ m (43 :: rest) (t ++ [43]) r (write_request ads lds data ++ 0 :: post) o1 d e v p)) by reflexivity.
  rewrite (bind_next _ _ _ _ _ Hin). change (77 =? 63) with false. change (77 =? 100) with false. change (77 =? 103) with false.
  change (77 =? 71) with false. change (77 =? 109) with false. change (77 =? 77) with true. cbv iota.
  destruct (write_memory_ok ads lds data m post (43 :: rest) (t ++ [43]) r o1 d e v p Hreq Hd Hlen ltac:(lia)) as (o2 & E3 & Ho2 & Hl3).
  cbv zeta in E3. rewrite (bind_next _ _ _ _ _ E3).
  pose proof (take_split o2 (chars "OK") Ho2) as Eo.
  rewrite <- line_fuel_S.
  pose proof (putpacket_sends (stored (hex_value 0 ads) data m) fl (chars "OK") [] rest LINE_FUEL (t ++ [43]) r
    (write_request ads lds data ++ 0 :: post) o2 _ d false v p ltac:(repeat constructor; lia) ltac:(unfold BUFMAX; simpl; lia) Eo
    ltac:(done) ltac:(unfold LINE_FUEL; simpl; lia)) as E4.
  cbn [app length replicate concat] in E4. rewrite (bind_next _ _ _ _ _ E4).
  exists (write_request ads lds data ++ 0 :: post), o2. split; [|by split]. unfold mret, Run_ret. rewrite app_nil_r, <- app_assoc. reflexivity.
Qed.

Lemma command_reads sigval ads lds data m rest t r i o d e v p :
  request ads lds (length data) -> bytes_ok data -> (2 * length data < BUFMAX)%nat -> (length (read_request ads lds) < BUFMAX)%nat ->
  length i = BUFMAX -> length o = BUFMAX ->
  (forall j, (j < length data)%nat -> m (hex_value 0 ads + Z.of_nat j) = nth j data 0) ->
  exists i' o', command sigval (at_ m (frame (read_request ads lds) ++ 43 :: rest) t r i o d e v p) =
    Some (false, at_ m rest (t ++ 43 :: frame (hexbytes data)) r i' o' d false v p) /\
    length i' = BUFMAX /\ length o' = BUFMAX.
Proof.
  intros Hreq Hd Hdl Hlen Hi Ho Hm. unfold command.
  destruct (out_store_next m fl 0 [] 0 (frame (read_request ads lds) ++ 43 :: rest) t r i o d e v p)
    as (o1 & E1 & _ & Hl1); [done|rewrite Ho; unfold BUFMAX; simpl; lia|done|lia|].
  rewrite (bind_next _ _ _ _ _ E1). rewrite line_fuel_S.
  destruct (getpacket_reads m fl [] (read_request ads lds) (43 :: rest) (pred LINE_FUEL) t r i o1 d e v p) as (i1 & E2 & Hi1 & Hl2 & _).
  { done. } { unfold LINE_FUEL. simpl. lia. } { by apply read_request_packet; apply Hreq. } { done. } { done. }
  { apply request_no_sequence; apply Hreq. }
  cbn [app] in E2. rewrite (bind_next _ _ _ _ _ E2). apply take_split in Hi1. rewrite Hi1 in Hl2 |- *. clear E1 E2.
  set (post := drop _ _) in *.
  assert (Hin : in_load 0 (at_ m (43 :: rest) (t ++ [43]) r (read_request ads lds ++ 0 :: post) o1 d e v p) =
    Some (109, at_ m (43 :: rest) (t ++ [43]) r (read_request ads lds ++ 0 :: post) o1 d e v p)) by reflexivity.
  rewrite (bind_next _ _ _ _ _ Hin). change (109 =? 63) with false. change (109 =? 100) with false. change (109 =? 103) with false.
  change (109 =? 71) with false. change (109 =? 109) with true. cbv iota.
  assert (Hads : (length ads <= BUFMAX /\ length lds <= BUFMAX)%nat).
  { unfold read_request in Hlen. cbn [length] in Hlen. rewrite length_app in Hlen. cbn [length] in Hlen. rewrite !length_map in Hlen. lia. }
  destruct (read_memory_ok ads lds data m post (43 :: rest) (t ++ [43]) r o1 d e v p Hreq Hd Hdl ltac:(lia) ltac:(lia) ltac:(lia) Hm)
    as (o2 & E3 & Ho2 & Hl3).
  cbv zeta in E3. rewrite (bind_next _ _ _ _ _ E3).
  pose proof (take_split o2 (hexbytes data) Ho2) as Eo.
  rewrite <- line_fuel_S.
  pose proof (putpacket_sends m fl (hexbytes data) [] rest LINE_FUEL (t ++ [43]) r
    (read_request ads lds ++ 0 :: post) o2 _ d false v p (packet_byte _ (hexbytes_packet _ Hd)) ltac:(rewrite hexbytes_length; lia) Eo
    ltac:(done) ltac:(unfold LINE_FUEL; simpl; lia)) as E4.
  cbn [app length replicate concat] in E4. rewrite (bind_next _ _ _ _ _ E4).
  exists (read_request ads lds ++ 0 :: post), o2. split; [|by split]. unfold mret, Run_ret. rewrite app_nil_r, <- app_assoc. reflexivity.
Qed.
End Commands.

(** C22: the debugger's two requests on memory agree with each other and with the program's
    memory: after the packet [M addr,len:data] the memory has the data at the address and is
    otherwise as it was, the stub has acknowledged the packet and said OK in a framed packet,
    and the packet [m addr,len] that follows is answered with the hexadecimal of that data.
    The packets fit in the stub's buffers and no address of the range faults. *)
Theorem gdb_memory_roundtrip sigval fl ads lds data m rest t r i o d e v p :
  request fl ads lds (length data) -> bytes_ok data -> (length (write_request ads lds data) < BUFMAX)%nat ->
  length i = BUFMAX -> length o = BUFMAX ->
  exists i' o',
    (command sigval;; command sigval)
      (mk_stub (mk_wire (frame (write_request ads lds data) ++ 43 :: frame (read_request ads lds) ++ 43 :: rest) t m fl) r i o d e v p) =
    Some (false, mk_stub
      (mk_wire rest (t ++ 43 :: frame (chars "OK") ++ 43 :: frame (hexbytes data)) (stored (hex_value 0 ads) data m) fl)
      r i' o' d false v p).
Proof.
  intros Hreq Hd Hlen Hi Ho.
  destruct (command_writes fl sigval ads lds data m (frame (read_request ads lds) ++ 43 :: rest) t r i o d e v p) as (i1 & o1 & E1 & Hi1 & Ho1); try done.
  rewrite (bind_next _ _ _ _ _ E1).
  assert (Hsz : (length (read_request ads lds) < BUFMAX)%nat /\ (2 * length data < BUFMAX)%nat).
  { unfold write_request, read_request in *. cbn [length] in *. rewrite !length_app in *. cbn [length] in *.
    rewrite !length_app, !length_map in *. cbn [length] in *. rewrite hexbytes_length in Hlen. lia. }
  destruct (command_reads fl sigval ads lds data (stored (hex_value 0 ads) data m) rest (t ++ 43 :: frame (chars "OK")) r i1 o1 d false v p)
    as (i2 & o2 & E2 & _ & _); try done; try apply Hsz.
  { intros j Hj. unfold stored. rewrite (proj2 (Z.leb_le _ _)), (proj2 (Z.ltb_lt _ _)) by lia. cbn [andb]. f_equal. lia. }
  exists i2, o2. rewrite E2. by list_simplifier.
Qed.
Lemma gdb_memory_roundtrip_witness : exists i' o',
  (command 5;; command 5) (mk_stub (mk_wire (frame (chars "M1f0,2:beef") ++ 43 :: frame (chars "m1f0,2") ++ 43 :: []) [] (fun _ => 0) (fun x => x <? 256))
      [] (replicate BUFMAX 0) (replicate BUFMAX 0) false false 0 []) =
    Some (false, mk_stub (mk_wire [] (43 :: frame (chars "OK") ++ 43 :: frame (chars "beef")) (stored 0x1f0 [0xbe; 0xef] (fun _ => 0)) (fun x => x <? 256))
      [] i' o' false false 0 []).
Proof.
  apply (gdb_memory_roundtrip 5 (fun x => x <? 256) [1; 15; 0] [2] [0xbe; 0xef] (fun _ => 0) [] [] [] (replicate BUFMAX 0) (replicate BUFMAX 0) false false 0 []).
  - split; [repeat constructor; lia|repeat constructor; lia|done|done|reflexivity|reflexivity|].
    intros x Hx. apply Z.ltb_ge. change (hex_value 0 [1; 15; 0]) with 496 in Hx. lia.
  - repeat constructor; lia.
  - vm_compute. lia.
  - reflexivity.
  - reflexivity.
Defined.

(** As many characters as the buffer has bytes, and the NUL behind them is outside of it. *)
Example packet_overruns fuel :
  getpacket (S fuel) (mk_stub (mk_wire (36 :: replicate BUFMAX 65) [] (fun _ => 0) (fun _ => false)) []
    (replicate BUFMAX 0) (replicate BUFMAX 0) false false 0 []) = None.
Proof.
  cbn [getpacket].
  pose proof (wait_start_reads (fun _ => 0) (fun _ => false) [] (replicate BUFMAX 65) LINE_FUEL [] [] (replicate BUFMAX 0) (replicate BUFMAX 0) false false 0 []
    ltac:(done) ltac:(unfold LINE_FUEL; simpl; lia)) as E1.
  cbn [app] in E1. rewrite (bind_next _ _ _ _ _ E1). reflexivity.
Qed.
