(* ===== verification/I2c.v ===== *)
(** * I2c: the system management bus

    Model of [x86/common/i2c.c] and of [x86/common/id_eeprom.c], which uses it.  The
    hardware is a parameter: ports and PCI configuration space.  The system type and
    [i2c_io_port] are part of the state.  [data] of the block functions is the memory from
    the pointer on, and [count] is not negative. *)

From S2P Require Import Prelude CmosIo PciIo Poll.

Definition I2C_3K_STATUS : Z := 0x00.
Definition I2C_3K_CMD : Z := 0x01.
Definition I2C_3K_START : Z := 0x02.
Definition I2C_3K_ADDR : Z := 0x03.
Definition I2C_3K_LOW_DATA : Z := 0x04.
Definition I2C_3K_HIGH_DATA : Z := 0x05.
Definition I2C_3K_BLOCK_DATA : Z := 0x06.
Definition I2C_3K_INDEX : Z := 0x07.
Definition I2C_3K_STATUS_IDLE : Z := 0x04.
Definition I2C_3K_CMD_RW_BYTE : Z := 0x20.
Definition I2C_3K_CMD_RW_WORD : Z := 0x30.
Definition I2C_3K_CMD_RW_BLOCK : Z := 0xC0.
Definition I2C_5K_HOST_STATUS : Z := 0x00.
Definition I2C_5K_HOST_CONTROL : Z := 0x02.
Definition I2C_5K_HOST_COMMAND : Z := 0x03.
Definition I2C_5K_HOST_ADDR : Z := 0x04.
Definition I2C_5K_DATA_0 : Z := 0x05.
Definition I2C_5K_DATA_1 : Z := 0x06.
Definition I2C_5K_BLOCK_DATA : Z := 0x07.
Definition I2C_5K_HOST_STATUS_BUSY : Z := 0x01.
Definition I2C_5K_HOST_CMD_START : Z := 0x40.
Definition I2C_5K_HOST_CMD_BYTE_DATA_RW : Z := 0x08.
Definition I2C_5K_HOST_CMD_WORD_DATA_RW : Z := 0x0c.
Definition I2C_5K_HOST_CMD_BLOCK_DATA_RW : Z := 0x14.
Definition I2C_DEV_LM77 : Z := 0x90.
Definition I2C_DEV_AT24C02 : Z := 0xae.
Definition LM77_HYST : Z := 0x2.
Definition LM77_CRIT : Z := 0x3.
Definition LM77_LOW : Z := 0x4.
Definition LM77_HIGH : Z := 0x5.
Definition TEMP_LOW : Z := 55 + -8.
Definition TEMP_HIGH : Z := 135 + -8.
Definition TEMP_CRIT : Z := 150 + -8.
Definition TEMP_HYST : Z := 8.
Definition ics_init_block : list Z := [0xf6; 0xff; 0xff; 0xff; 0xff; 0xff].

Section I2c.
Context {hw : Type} `{!IoPorts hw, !Config hw}.

Record i2c_state := mk_i2c_state { bus_hw : hw; bus_systype : Z; i2c_io_port : Z }.
Abbreviation T := (St i2c_state).

Definition set_bus_hw (h : hw) (s : i2c_state) : i2c_state := mk_i2c_state h (bus_systype s) (i2c_io_port s).
Definition out (v port : Z) : T unit := fun s => (tt, set_bus_hw (PciIo.outb v port (bus_hw s)) s).
Definition in_ (port : Z) : T Z := fun s => let '(v, h) := PciIo.inb port (bus_hw s) in (u8 v, set_bus_hw h s).
(** A register of the controller. *)
Definition put (v reg : Z) : T unit := fun s => out v (i2c_io_port s + reg) s.
Definition get (reg : Z) : T Z := fun s => in_ (i2c_io_port s + reg) s.

Definition is_3k (s : i2c_state) : bool := Z.land (bus_systype s) 0xffff0000 =? SYSTYPE_3K.
Definition is_5k (s : i2c_state) : bool := Z.land (bus_systype s) 0xffff0000 =? SYSTYPE_5K.
(** [if (systype_is_3k()) ... else if (systype_is_5k()) ...] *)
Definition by_systype {A} (on3k on5k other : T A) : T A :=
  fun s => if is_3k s then on3k s else if is_5k s then on5k s else other s.

(** [timeout] goes from 0xffff down to 0. *)
Definition i2c_wait_for_smi : T Z :=
  r ← poll (
    out 0xff 0x80;;
    by_systype
      (status ← get I2C_3K_STATUS;
       mret (if Z.land status I2C_3K_STATUS_IDLE =? 0 then None else Some tt))
      (status ← get I2C_5K_HOST_STATUS;
       mret (if Z.land status I2C_5K_HOST_STATUS_BUSY =? 0 then Some tt else None))
      (mret None)) 0xffff;
  mret (match r with Some _ => 0 | None => -1 end).

Definition i2c_reset : T Z :=
  by_systype
    (put 0xff I2C_3K_STATUS;; put 0x08 I2C_3K_CMD;; put 0xff I2C_3K_START;; i2c_wait_for_smi)
    (put 0xff I2C_5K_HOST_STATUS;; mret 0)
    (mret (-1)).

Definition i2c_read_byte (dv index : Z) : T Z :=
  by_systype
    (put 0xff I2C_3K_STATUS;;
     put (Z.land (Z.lor dv 0x1) 0xff) I2C_3K_ADDR;;
     put I2C_3K_CMD_RW_BYTE I2C_3K_CMD;;
     put (Z.land index 0xff) I2C_3K_INDEX;;
     put 0xff I2C_3K_START)
    (put 0xff I2C_5K_HOST_STATUS;;
     put (Z.land (Z.lor dv 0x1) 0xff) I2C_5K_HOST_ADDR;;
     put (Z.land index 0xff) I2C_5K_HOST_COMMAND;;
     put (Z.lor I2C_5K_HOST_CMD_START I2C_5K_HOST_CMD_BYTE_DATA_RW) I2C_5K_HOST_CONTROL)
    (mret tt);;
  w ← i2c_wait_for_smi;
  if w <? 0 then mret (-1)
  else by_systype (get I2C_3K_LOW_DATA) (get I2C_5K_DATA_0) (mret (-1)).

Definition i2c_read_word (dv index : Z) : T Z :=
  by_systype
    (put 0xff I2C_3K_STATUS;;
     put (Z.land (Z.lor dv 0x1) 0xff) I2C_3K_ADDR;;
     put I2C_3K_CMD_RW_WORD I2C_3K_CMD;;
     put (Z.land index 0xff) I2C_3K_INDEX;;
     put 0xff I2C_3K_START)
    (put 0xff I2C_5K_HOST_STATUS;;
     put (Z.land (Z.lor dv 0x1) 0xff) I2C_5K_HOST_ADDR;;
     put (Z.land index 0xff) I2C_5K_HOST_COMMAND;;
     put (Z.lor I2C_5K_HOST_CMD_START I2C_5K_HOST_CMD_WORD_DATA_RW) I2C_5K_HOST_CONTROL)
    (mret tt);;
  w ← i2c_wait_for_smi;
  if w <? 0 then mret (-1)
  else
    by_systype
      (lo ← get I2C_3K_LOW_DATA; hi ← get I2C_3K_HIGH_DATA; mret (lo + Z.shiftl hi 8))
      (lo ← get I2C_5K_DATA_0; hi ← get I2C_5K_DATA_1; mret (lo + Z.shiftl hi 8))
      (mret (-1)).

Definition i2c_write_byte (dv index val : Z) : T Z :=
  by_systype
    (put 0xff I2C_3K_STATUS;;
     put (Z.land dv 0xff) I2C_3K_ADDR;;
     put I2C_3K_CMD_RW_BYTE I2C_3K_CMD;;
     put (Z.land val 0xff) I2C_3K_LOW_DATA;;
     put (Z.land index 0xff) I2C_3K_INDEX;;
     put 0xff I2C_3K_START)
    (put 0xff I2C_5K_HOST_STATUS;;
     put (Z.land dv 0xff) I2C_5K_HOST_ADDR;;
     put (Z.land index 0xff) I2C_5K_HOST_COMMAND;;
     put (Z.land val 0xff) I2C_5K_DATA_0;;
     put (Z.lor I2C_5K_HOST_CMD_START I2C_5K_HOST_CMD_BYTE_DATA_RW) I2C_5K_HOST_CONTROL)
    (mret tt);;
  w ← i2c_wait_for_smi;
  mret (if w <? 0 then -1 else 0).

Definition i2c_write_word (dv index val : Z) : T Z :=
  by_systype
    (put 0xff I2C_3K_STATUS;;
     put (Z.land dv 0xff) I2C_3K_ADDR;;
     put I2C_3K_CMD_RW_WORD I2C_3K_CMD;;
     put (Z.land val 0xff) I2C_3K_LOW_DATA;;
     put (Z.land (Z.shiftr val 8) 0xff) I2C_3K_HIGH_DATA;;
     put (Z.land index 0xff) I2C_3K_INDEX;;
     put 0xff I2C_3K_START)
    (put 0xff I2C_5K_HOST_STATUS;;
     put (Z.land dv 0xff) I2C_5K_HOST_ADDR;;
     put (Z.land index 0xff) I2C_5K_HOST_COMMAND;;
     put (Z.land val 0xff) I2C_5K_DATA_0;;
     put (Z.land (Z.shiftr val 8) 0xff) I2C_5K_DATA_1;;
     put (Z.lor I2C_5K_HOST_CMD_START I2C_5K_HOST_CMD_WORD_DATA_RW) I2C_5K_HOST_CONTROL)
    (mret tt);;
  w ← i2c_wait_for_smi;
  mret (if w <? 0 then -1 else 0).

(** [while (count)]: the bytes that are read, in order. *)
Fixpoint read_data (count : nat) (data : list Z) : T (list Z) :=
  match count with
  | O => mret data
  | S count =>
    b ← by_systype (get I2C_3K_BLOCK_DATA) (get I2C_5K_BLOCK_DATA) (mret (nth 0 data 0));
    rest ← read_data count (drop 1 data);
    mret (b :: rest)
  end.

Definition i2c_read_block (dv index : Z) (data : list Z) (count : nat) : T (Z * list Z) :=
  by_systype
    (put 0xff I2C_3K_STATUS;;
     put (Z.land (Z.lor dv 0x1) 0xff) I2C_3K_ADDR;;
     put I2C_3K_CMD_RW_BLOCK I2C_3K_CMD;;
     put (Z.land (Z.of_nat count) 0xff) I2C_3K_LOW_DATA;;
     put (Z.land index 0xff) I2C_3K_INDEX;;
     put 0xff I2C_3K_START)
    (put 0xff I2C_5K_HOST_STATUS;;
     put (Z.land (Z.lor dv 0x1) 0xff) I2C_5K_HOST_ADDR;;
     put (Z.land index 0xff) I2C_5K_HOST_COMMAND;;
     put (Z.land (Z.of_nat count) 0xff) I2C_5K_DATA_0;;
     put (Z.land (Z.of_nat count) 0xff) I2C_5K_DATA_1;;
     put (Z.lor I2C_5K_HOST_CMD_START I2C_5K_HOST_CMD_BLOCK_DATA_RW) I2C_5K_HOST_CONTROL)
    (mret tt);;
  w ← i2c_wait_for_smi;
  if w <? 0 then mret (-1, data)
  else data ← read_data count data; mret (0, data).

Definition i2c_write_block (dv index : Z) (data : list Z) (count : nat) : T Z :=
  by_systype
    (put 0xff I2C_3K_STATUS;;
     put (Z.land dv 0xff) I2C_3K_ADDR;;
     put I2C_3K_CMD_RW_BLOCK I2C_3K_CMD;;
     put (Z.land (Z.of_nat count) 0xff) I2C_3K_LOW_DATA)
    (put 0xff I2C_5K_HOST_STATUS;;
     put (Z.land dv 0xff) I2C_5K_HOST_ADDR;;
     put (Z.land index 0xff) I2C_5K_HOST_COMMAND;;
     put (Z.land (Z.of_nat count) 0xff) I2C_5K_DATA_0;;
     put (Z.land (Z.of_nat count) 0xff) I2C_5K_DATA_1)
    (mret tt);;
  each (fun b => by_systype (put b I2C_3K_BLOCK_DATA) (put b I2C_5K_BLOCK_DATA) (mret tt)) (take count data);;
  by_systype
    (put (Z.land index 0xff) I2C_3K_INDEX;; put 0xff I2C_3K_START)
    (put (Z.lor I2C_5K_HOST_CMD_START I2C_5K_HOST_CMD_BLOCK_DATA_RW) I2C_5K_HOST_CONTROL)
    (mret tt);;
  w ← i2c_wait_for_smi;
  mret (if w <? 0 then -1 else 0).

(** ** Set-up *)

Definition init_ics : T unit := _ ← i2c_write_block 0xd2 0x0 ics_init_block 6; mret tt.

(** The two bytes of a temperature, exchanged. *)
Definition temp_word (t : Z) : Z :=
  let tmp := Z.shiftl t 4 in Z.land (Z.shiftl tmp 8) 0xff00 + Z.land (Z.shiftr tmp 8) 0x00ff.

Definition i2c_set_temp_defaults : T unit :=
  _ ← i2c_write_word I2C_DEV_LM77 LM77_LOW (temp_word TEMP_LOW);
  _ ← i2c_write_word I2C_DEV_LM77 LM77_HIGH (temp_word TEMP_HIGH);
  _ ← i2c_write_word I2C_DEV_LM77 LM77_CRIT (temp_word TEMP_CRIT);
  _ ← i2c_write_word I2C_DEV_LM77 LM77_HYST (temp_word TEMP_HYST);
  mret tt.

Definition set_io_port (d fn reg size : Z) : T unit := fun s =>
  let '(v, h) := read_config 0 (PCI_DEVFN d fn) reg size (bus_hw s) in
  (tt, mk_i2c_state h (bus_systype s) (Z.land v 0xfff0)).

Definition i2c_init : T Z :=
  by_systype (set_io_port 3 0 0x14 2) (set_io_port 0xf 0 0x90 4) (mret tt);;
  by_systype (init_ics;; i2c_set_temp_defaults) (mret tt) (mret tt);;
  mret 0.

(** ** id_eeprom.c *)

Definition ID_EEPROM_DEV : Z := I2C_DEV_AT24C02.
Definition ID_EEPROM_BOARDTYPE : Z := 0.
Definition ID_EEPROM_BOARDREV : Z := 4.
Definition ID_EEPROM_MANUF_DATE : Z := 8.
Definition ID_EEPROM_UID : Z := 12.
Definition ID_EEPROM_SCRATCH : Z := 127.

Definition get_field_size (index : Z) : Z :=
  if index =? ID_EEPROM_SCRATCH then 1
  else if (index =? ID_EEPROM_BOARDTYPE) || (index =? ID_EEPROM_BOARDREV) || (index =? ID_EEPROM_MANUF_DATE) then 4
  else -1.

(** The eight characters of [sbuffer]. *)
Fixpoint read_serial (n : nat) (i : Z) : T (list Z) :=
  match n with
  | O => mret []
  | S n => b ← i2c_read_byte ID_EEPROM_DEV (ID_EEPROM_UID + i); rest ← read_serial n (i + 1); mret (u8 b :: rest)
  end.
Definition id_eeprom_read_serial_num : T (list Z) := read_serial 8 0.

Definition id_eeprom_read (index : Z) : T Z :=
  let size := get_field_size index in
  if size <? 0 then mret 0
  else if size =? 1 then v ← i2c_read_byte ID_EEPROM_DEV index; mret (u32 v)
  else if size =? 2 then v ← i2c_read_word ID_EEPROM_DEV index; mret (u32 v)
  else if size =? 4 then
    a ← i2c_read_byte ID_EEPROM_DEV index;
    b ← i2c_read_byte ID_EEPROM_DEV (index + 1);
    c ← i2c_read_byte ID_EEPROM_DEV (index + 2);
    d ← i2c_read_byte ID_EEPROM_DEV (index + 3);
    mret (Z.lor (Z.lor (Z.lor (u32 (Z.shiftl a 24)) (u32 (Z.shiftl b 16))) (u32 (Z.shiftl c 8))) (u32 d))
  else mret 0.

Definition id_eeprom_write (index val : Z) : T Z :=
  let size := get_field_size index in
  if size <? 0 then mret (-1)
  else if size =? 1 then i2c_write_byte ID_EEPROM_DEV index (u8 val)
  else if size =? 2 then i2c_write_word ID_EEPROM_DEV index (u16 val)
  else if size =? 4 then
    a ← i2c_write_byte ID_EEPROM_DEV index (Z.land (Z.shiftr val 24) 0xff);
    b ← i2c_write_byte ID_EEPROM_DEV index (Z.land (Z.shiftr val 16) 0xff);
    c ← i2c_write_byte ID_EEPROM_DEV index (Z.land (Z.shiftr val 8) 0xff);
    d ← i2c_write_byte ID_EEPROM_DEV index (Z.land val 0xff);
    mret (a + b + c + d)
  else mret (-1).

End I2c.
Arguments i2c_state : clear implicits.
Arguments mk_i2c_state {hw} _ _ _.
Arguments bus_hw {hw} _.
Arguments bus_systype {hw} _.
Arguments i2c_io_port {hw} _.
