(* ===== verification/I2cProofs.v ===== *)
(** * I2cProofs: transfers on the system management bus

    [smb] is a controller of either kind of system with devices behind it: the registers of
    a device hold bytes for every index; a transfer takes a number of turns ([latency]),
    during which the controller is busy, and takes place at the end of them. *)

From S2P Require Import Prelude CmosIo PciIo Poll I2c.

Inductive size_of := Byte | Word | Block.

Record smb := mk_smb {
  on_5k : bool;
  latency : nat;
  addr : Z; ctl : Z; low : Z; high : Z; idx : Z; fifo : list Z;
  pending : option nat;
  devs : Z -> Z -> list Z;
}.

Definition with_addr v m := mk_smb (on_5k m) (latency m) v (ctl m) (low m) (high m) (idx m) (fifo m) (pending m) (devs m).
Definition with_ctl v m := mk_smb (on_5k m) (latency m) (addr m) v (low m) (high m) (idx m) (fifo m) (pending m) (devs m).
Definition with_data l h m := mk_smb (on_5k m) (latency m) (addr m) (ctl m) l h (idx m) (fifo m) (pending m) (devs m).
Definition with_idx v m := mk_smb (on_5k m) (latency m) (addr m) (ctl m) (low m) (high m) v (fifo m) (pending m) (devs m).
Definition with_fifo l m := mk_smb (on_5k m) (latency m) (addr m) (ctl m) (low m) (high m) (idx m) l (pending m) (devs m).
Definition with_pending p m := mk_smb (on_5k m) (latency m) (addr m) (ctl m) (low m) (high m) (idx m) (fifo m) p (devs m).
Definition with_devs d m := mk_smb (on_5k m) (latency m) (addr m) (ctl m) (low m) (high m) (idx m) (fifo m) (pending m) d.

Definition upd2 (f : Z -> Z -> list Z) (a i : Z) (v : list Z) : Z -> Z -> list Z :=
  fun a' i' => if (a' =? a) && (i' =? i) then v else f a' i'.

Definition transfer_size (m : smb) : option size_of :=
  let c := Z.land (ctl m) (if on_5k m then 0x1c else 0x70) in
  if on_5k m then
    if c =? 0x08 then Some Byte else if c =? 0x0c then Some Word else if c =? 0x14 then Some Block else None
  else
    if c =? 0x20 then Some Byte else if c =? 0x30 then Some Word else if c =? 0x40 then Some Block else None.

(** The transfer: bit 0 of the address selects a read. *)
Definition finish (m : smb) : smb :=
  let a := Z.land (addr m) 0xfe in
  let cell := devs m a (idx m) in
  let m := with_pending None m in
  match transfer_size m with
  | None => m
  | Some sz =>
    if Z.testbit (addr m) 0 then
      match sz with
      | Byte => with_data (nth 0 cell 0xff) (high m) m
      | Word => with_data (nth 0 cell 0xff) (nth 1 cell 0xff) m
      | Block => with_fifo (map (fun k => nth k cell 0xff) (seq 0 (Z.to_nat (low m)))) m
      end
    else
      match sz with
      | Byte => with_devs (upd2 (devs m) a (idx m) [low m]) m
      | Word => with_devs (upd2 (devs m) a (idx m) [low m; high m]) m
      | Block => with_fifo [] (with_devs (upd2 (devs m) a (idx m) (fifo m)) m)
      end
  end.

Definition status (m : smb) : Z * smb :=
  let idle := if on_5k m then 0x00 else 0x04 in
  let busy := if on_5k m then 0x01 else 0x08 in
  match pending m with
  | None => (idle, m)
  | Some O => (idle, finish m)
  | Some (S k) => (busy, with_pending (Some k) m)
  end.

Definition start (m : smb) : smb := with_pending (Some (latency m)) m.

Definition smb_write (r v : Z) (m : smb) : smb :=
  if on_5k m then
    if r =? 2 then let m := with_ctl v m in if Z.testbit v 6 then start m else m
    else if r =? 3 then with_idx v m
    else if r =? 4 then with_addr v m
    else if r =? 5 then with_data v (high m) m
    else if r =? 6 then with_data (low m) v m
    else if r =? 7 then with_fifo (fifo m ++ [v]) m
    else m
  else
    if r =? 1 then let m := with_ctl v m in if Z.testbit v 7 then with_fifo [] m else m
    else if r =? 2 then start m
    else if r =? 3 then with_addr v m
    else if r =? 4 then with_data v (high m) m
    else if r =? 5 then with_data (low m) v m
    else if r =? 6 then with_fifo (fifo m ++ [v]) m
    else if r =? 7 then with_idx v m
    else m.

Definition pop (m : smb) : Z * smb :=
  match fifo m with [] => (0xff, m) | b :: l => (b, with_fifo l m) end.

Definition smb_read (r : Z) (m : smb) : Z * smb :=
  if r =? 0 then status m
  else if r =? (if on_5k m then 5 else 4) then (low m, m)
  else if r =? (if on_5k m then 6 else 5) then (high m, m)
  else if r =? (if on_5k m then 7 else 6) then pop m
  else (0xff, m).

(** The controller behind its ports. *)
Record board := mk_board { io_base : Z; bus : smb }.
Definition at_reg (b : board) (port : Z) : bool := (io_base b <=? port) && (port <? io_base b + 16).

#[export] Instance board_ports : IoPorts board := {|
  port_out n v port b := if at_reg b port then mk_board (io_base b) (smb_write (port - io_base b) v (bus b)) else b;
  port_in n port b :=
    if at_reg b port then let '(v, m) := smb_read (port - io_base b) (bus b) in (v, mk_board (io_base b) m)
    else (0xff, b);
|}.
#[export] Instance board_config : Config board := {|
  read_config _ _ _ _ b := (io_base b, b);
  write_config _ _ _ _ _ b := b;
|}.

(** ** The state of the driver with this board *)

Definition type_of (b : bool) : Z := if b then SYSTYPE_5K else SYSTYPE_3K.
Definition on_bus (base : Z) (m : smb) : i2c_state board := mk_i2c_state (mk_board base m) (type_of (on_5k m)) base.
Definition base_ok (base : Z) : Prop := 0x100 <= base /\ base + 16 <= 0x10000.

Lemma is_3k_on base m : is_3k (on_bus base m) = negb (on_5k m).
Proof. unfold is_3k, on_bus, type_of. simpl. by destruct (on_5k m). Qed.
Lemma is_5k_on base m : is_5k (on_bus base m) = on_5k m.
Proof. unfold is_5k, on_bus, type_of. simpl. by destruct (on_5k m). Qed.
Lemma by_systype_on {A} (f g h : St (i2c_state board) A) base m :
  by_systype f g h (on_bus base m) = if on_5k m then g (on_bus base m) else f (on_bus base m).
Proof. unfold by_systype. rewrite is_3k_on, is_5k_on. by destruct (on_5k m). Qed.

Lemma smb_write_kind r v m : on_5k (smb_write r v m) = on_5k m.
Proof. unfold smb_write. destruct (on_5k m) eqn:E; repeat case_match; (exact E || by simpl; rewrite E). Qed.
Lemma smb_read_kind r m : on_5k (smb_read r m).2 = on_5k m.
Proof. unfold smb_read, status, pop, finish. by repeat (case_match; simpl). Qed.

Lemma put_on v r base m : base_ok base -> 0 <= r < 16 -> put v r (on_bus base m) = (tt, on_bus base (smb_write r (u8 v) m)).
Proof.
  intros [Hb1 Hb2] Hr. unfold put, out, set_bus_hw, on_bus. simpl. unfold PciIo.outb. simpl. unfold at_reg. simpl.
  rewrite (u16_small (base + r)) by lia. rewrite (proj2 (Z.leb_le _ _)), (proj2 (Z.ltb_lt _ _)) by lia. simpl.
  rewrite smb_write_kind. by replace (base + r - base) with r by lia.
Qed.
Lemma get_on r base m : base_ok base -> 0 <= r < 16 ->
  get r (on_bus base m) = (u8 (smb_read r m).1, on_bus base (smb_read r m).2).
Proof.
  intros [Hb1 Hb2] Hr. unfold get, in_, set_bus_hw, on_bus. simpl. unfold PciIo.inb. simpl. unfold at_reg. simpl.
  rewrite (u16_small (base + r)) by lia. rewrite (proj2 (Z.leb_le _ _)), (proj2 (Z.ltb_lt _ _)) by lia. simpl.
  replace (base + r - base) with r by lia. rewrite smb_read_kind. by destruct (smb_read r m).
Qed.
Lemma out80_on base m : base_ok base -> out 0xff 0x80 (on_bus base m) = (tt, on_bus base m).
Proof.
  intros [Hb1 Hb2]. unfold out, set_bus_hw, on_bus. simpl. unfold PciIo.outb. simpl. unfold at_reg. simpl.
  change (u16 128) with 128. rewrite (proj2 (Z.leb_gt _ _)) by lia. done.
Qed.

(** ** Waiting *)

Lemma finish_kind m : on_5k (finish m) = on_5k m.
Proof. unfold finish. by repeat (case_match; simpl). Qed.
Lemma finish_pending p m : finish (with_pending p m) = finish m.
Proof. done. Qed.

(** The turn of [i2c_wait_for_smi]. *)
Definition smi_turn : St (i2c_state board) (option unit) :=
  out 0xff 0x80;;
  by_systype
    (status ← get I2C_3K_STATUS;
     mret (if Z.land status I2C_3K_STATUS_IDLE =? 0 then None else Some tt))
    (status ← get I2C_5K_HOST_STATUS;
     mret (if Z.land status I2C_5K_HOST_STATUS_BUSY =? 0 then Some tt else None))
    (mret None).

Lemma smi_turn_on base m : base_ok base ->
  smi_turn (on_bus base m) =
  (match pending m with Some (S _) => None | _ => Some tt end, on_bus base (status m).2).
Proof.
  intros Hb. unfold smi_turn, mbind, St_bind. rewrite out80_on by done. rewrite by_systype_on.
  unfold status. destruct (on_5k m) eqn:E.
  - rewrite get_on by (done || lia). unfold smb_read. simpl. unfold status. rewrite E.
    by destruct (pending m) as [[|]|].
  - rewrite get_on by (done || lia). unfold smb_read. simpl. unfold status. rewrite E.
    by destruct (pending m) as [[|]|].
Qed.

Lemma i2c_wait_on base m k : base_ok base -> pending m = Some k -> Z.of_nat k < 0xffff ->
  i2c_wait_for_smi (on_bus base m) = (0, on_bus base (finish m)).
Proof.
  intros Hb Hp Hk.
  destruct (poll_ready smi_turn (fun j s => s = on_bus base (with_pending (Some j) m))
              (fun _ s => s = on_bus base (finish m)) 0xffff k (on_bus base m)) as (a & s' & E & ->).
  - intros j s ->. eexists. rewrite smi_turn_on by done. split; [reflexivity|]. done.
  - intros s ->. eexists _, _. rewrite smi_turn_on by done. split; [reflexivity|]. done.
  - f_equal. destruct m. simpl in *. by subst.
  - lia.
  - unfold i2c_wait_for_smi. fold smi_turn. unfold mbind, St_bind. by rewrite E.
Qed.

Lemma i2c_wait_late base m k : base_ok base -> pending m = Some k -> 0xffff <= Z.of_nat k ->
  exists j, Z.of_nat j = Z.of_nat k - 0xffff /\
    i2c_wait_for_smi (on_bus base m) = (-1, on_bus base (with_pending (Some j) m)).
Proof.
  intros Hb Hp Hk.
  destruct (poll_gives_up smi_turn (fun j s => s = on_bus base (with_pending (Some j) m)) 0xffff k (on_bus base m))
    as (s' & E & ->).
  - intros j s ->. eexists. rewrite smi_turn_on by done. split; [reflexivity|]. done.
  - f_equal. destruct m. simpl in *. by subst.
  - lia.
  - exists (k - Pos.to_nat 0xffff)%nat. split; [rewrite Nat2Z.inj_sub, positive_nat_Z by lia; reflexivity|].
    unfold i2c_wait_for_smi. fold smi_turn. unfold mbind, St_bind. rewrite E. reflexivity.
Qed.

(** ** Transfers *)

(** The controller is idle and answers in time. *)
Definition idle (m : smb) : Prop := pending m = None /\ fifo m = [] /\ Z.of_nat (latency m) < 0xffff.
Definition dev_ok (dv : Z) : Prop := 0 <= dv < 256 /\ Z.land dv 0xfe = dv.

(** The addresses sent for a write and for a read. *)
Lemma dev_write_addr dv : dev_ok dv -> u8 (Z.land dv 0xff) = dv /\ Z.testbit dv 0 = false.
Proof.
  intros [Hd He]. split.
  - change 0xff with (Z.ones 8). rewrite Z.land_ones, (Z.mod_small dv) by lia. by apply u8_small.
  - rewrite <- He, Z.land_spec. apply andb_false_r.
Qed.
Lemma dev_read_addr dv : dev_ok dv ->
  u8 (Z.land (Z.lor dv 0x1) 0xff) = Z.lor dv 1 /\ Z.testbit (Z.lor dv 1) 0 = true /\ Z.land (Z.lor dv 1) 0xfe = dv.
Proof.
  intros [Hd He]. split_and!.
  - assert (E : Z.lor dv 1 = Z.land (Z.lor dv 1) 0xff).
    { rewrite Z.land_lor_distr_l. f_equal. change 0xff with (Z.ones 8). rewrite Z.land_ones, Z.mod_small by lia. done. }
    rewrite <- E. apply u8_small. rewrite E. change 0xff with (Z.ones 8). rewrite Z.land_ones by lia. by apply Z.mod_pos_bound.
  - rewrite Z.lor_spec. apply orb_true_r.
  - by rewrite Z.land_lor_distr_l, He, Z.lor_0_r.
Qed.
Lemma index_sent i : 0 <= i < 256 -> u8 (Z.land i 0xff) = i.
Proof. intros H. change 0xff with (Z.ones 8). rewrite Z.land_ones, (Z.mod_small i) by lia. by apply u8_small. Qed.
Lemma byte_sent v : u8 (Z.land v 0xff) = u8 v.
Proof. change 0xff with (Z.ones 8). rewrite Z.land_ones by lia. unfold u8. by rewrite Z.mod_mod. Qed.

(** What a transfer leaves: the controller idle, and the registers of the devices [d]. *)
Definition left_with (d : Z -> Z -> list Z) (m m' : smb) : Prop :=
  idle m' /\ on_5k m' = on_5k m /\ latency m' = latency m /\ devs m' = d.

(** What the controller is set to when a transfer starts. *)
Definition started (a c i l h : Z) (q : list Z) (m : smb) : smb :=
  mk_smb (on_5k m) (latency m) a c l h i q (Some (latency m)) (devs m).
Definition code (k5 : bool) (sz : size_of) : Z :=
  match sz with
  | Byte => if k5 then 0x48 else 0x20
  | Word => if k5 then 0x4c else 0x30
  | Block => if k5 then 0x54 else 0xc0
  end.
Definition sent (sz : size_of) (l h : Z) (q : list Z) : list Z :=
  match sz with Byte => [l] | Word => [l; h] | Block => q end.

Lemma started_size a i l h q m sz : transfer_size (with_pending None (started a (code (on_5k m) sz) i l h q m)) = Some sz.
Proof. unfold transfer_size, started. simpl. by destruct (on_5k m), sz. Qed.

Lemma finish_write sz dv i l h q m : dev_ok dv -> Z.of_nat (latency m) < 0xffff -> (sz = Block \/ q = []) ->
  left_with (upd2 (devs m) dv i (sent sz l h q)) m (finish (started dv (code (on_5k m) sz) i l h q m)).
Proof.
  intros Hd Hl Hq. destruct (dev_write_addr dv Hd) as [_ Et]. unfold finish.
  rewrite started_size. cbv zeta.
  change (addr (with_pending None (started _ _ _ _ _ _ _))) with dv. change (addr (started _ _ _ _ _ _ _)) with dv.
  rewrite Et, (proj2 Hd).
  unfold left_with, idle. destruct sz; simpl; (split_and!; try done); destruct Hq as [?|Hq]; (done || by rewrite Hq).
Qed.

Lemma finish_read sz dv i l h q m : dev_ok dv ->
  let cell := devs m dv i in
  let m' := finish (started (Z.lor dv 1) (code (on_5k m) sz) i l h q m) in
  m' = mk_smb (on_5k m) (latency m) (Z.lor dv 1) (code (on_5k m) sz)
         (match sz with Block => l | _ => nth 0 cell 0xff end)
         (match sz with Word => nth 1 cell 0xff | _ => h end) i
         (match sz with Block => map (fun k => nth k cell 0xff) (seq 0 (Z.to_nat l)) | _ => q end) None (devs m).
Proof.
  intros Hd. destruct (dev_read_addr dv Hd) as (_ & Et & Ea). cbv zeta. unfold finish.
  rewrite started_size. cbv zeta.
  change (addr (with_pending None (started _ _ _ _ _ _ _))) with (Z.lor dv 1).
  change (addr (started _ _ _ _ _ _ _)) with (Z.lor dv 1). rewrite Et, Ea. by destruct sz.
Qed.

Ltac puts_on := unfold mbind, St_bind; repeat (rewrite put_on by (done || (unfold I2C_3K_STATUS; lia))).
(** The controller has been set up as [m] says and the transfer takes place. *)
Ltac transfer m :=
  match goal with |- context [i2c_wait_for_smi (on_bus _ ?x)] => change x with m end;
  erewrite i2c_wait_on; [|done|reflexivity|done].

Ltac set_up m := match goal with |- context [on_bus _ ?x] => change x with m end.

Section Transfers.
Context (base dv index : Z).
Hypothesis Hbase : base_ok base.
Hypothesis Hdv : dev_ok dv.
Hypothesis Hindex : 0 <= index < 256.

Lemma i2c_write_byte_on m val : idle m ->
  exists m', i2c_write_byte dv index val (on_bus base m) = (0, on_bus base m') /\
    left_with (upd2 (devs m) dv index [u8 val]) m m'.
Proof using All.
  intros (Hp & Hf & Hl). destruct m as [k5 lat a c l h i q p d]. simpl in *. subst.
  destruct (dev_write_addr dv Hdv) as [Ea _].
  set (m := mk_smb k5 lat a c l h i [] None d). unfold i2c_write_byte, mbind at 1, St_bind at 1. rewrite by_systype_on.
  exists (finish (started dv (code k5 Byte) index (u8 val) h [] m)).
  split; [|apply (finish_write Byte); by auto].
  destruct k5; cbn [m on_5k]; puts_on; rewrite Ea, (index_sent index), (byte_sent val) by done;
    transfer (started dv (code (on_5k m) Byte) index (u8 val) h [] m); done.
Qed.

Lemma i2c_write_word_on m val : idle m ->
  exists m', i2c_write_word dv index val (on_bus base m) = (0, on_bus base m') /\
    left_with (upd2 (devs m) dv index [u8 val; u8 (Z.shiftr val 8)]) m m'.
Proof using All.
  intros (Hp & Hf & Hl). destruct m as [k5 lat a c l h i q p d]. simpl in *. subst.
  destruct (dev_write_addr dv Hdv) as [Ea _].
  set (m := mk_smb k5 lat a c l h i [] None d). unfold i2c_write_word, mbind at 1, St_bind at 1. rewrite by_systype_on.
  exists (finish (started dv (code k5 Word) index (u8 val) (u8 (Z.shiftr val 8)) [] m)).
  split; [|apply (finish_write Word); by auto].
  destruct k5; cbn [m on_5k]; puts_on;
    rewrite Ea, (index_sent index), (byte_sent val), (byte_sent (Z.shiftr val 8)) by done;
    transfer (started dv (code (on_5k m) Word) index (u8 val) (u8 (Z.shiftr val 8)) [] m); done.
Qed.

Lemma i2c_read_byte_on m : idle m ->
  exists m', i2c_read_byte dv index (on_bus base m) = (u8 (nth 0 (devs m dv index) 0xff), on_bus base m') /\
    left_with (devs m) m m'.
Proof using All.
  intros (Hp & Hf & Hl). destruct m as [k5 lat a c l h i q p d]. simpl in *. subst.
  destruct (dev_read_addr dv Hdv) as [Ea _].
  set (m := mk_smb k5 lat a c l h i [] None d). unfold i2c_read_byte, mbind at 1, St_bind at 1. rewrite by_systype_on.
  destruct k5; eexists; cbn [m on_5k]; puts_on; rewrite Ea, (index_sent index) by done;
    transfer (started (Z.lor dv 1) (code (on_5k m) Byte) index l h [] m);
    rewrite finish_read by done; change (0 <? 0) with false; cbv iota; rewrite by_systype_on; cbn [m on_5k];
    rewrite get_on by (done || (unfold I2C_3K_LOW_DATA, I2C_5K_DATA_0; lia));
    (split; [reflexivity|by unfold left_with, idle]).
Qed.

Lemma i2c_read_word_on m : idle m ->
  exists m', i2c_read_word dv index (on_bus base m) =
      (u8 (nth 0 (devs m dv index) 0xff) + Z.shiftl (u8 (nth 1 (devs m dv index) 0xff)) 8, on_bus base m') /\
    left_with (devs m) m m'.
Proof using All.
  intros (Hp & Hf & Hl). destruct m as [k5 lat a c l h i q p d]. simpl in *. subst.
  destruct (dev_read_addr dv Hdv) as [Ea _].
  set (m := mk_smb k5 lat a c l h i [] None d). unfold i2c_read_word, mbind at 1, St_bind at 1. rewrite by_systype_on.
  destruct k5; eexists; cbn [m on_5k]; puts_on; rewrite Ea, (index_sent index) by done;
    transfer (started (Z.lor dv 1) (code (on_5k m) Word) index l h [] m);
    rewrite finish_read by done; change (0 <? 0) with false; cbv iota; rewrite by_systype_on; cbn [m on_5k];
    unfold mbind, St_bind;
    do 2 rewrite get_on by (done || (unfold I2C_3K_LOW_DATA, I2C_5K_DATA_0, I2C_3K_HIGH_DATA, I2C_5K_DATA_1; lia));
    (split; [reflexivity|by unfold left_with, idle]).
Qed.

(** The bytes of a block go through the queue of the controller. *)
Lemma push_data_on bs m :
  each (fun b => by_systype (put b I2C_3K_BLOCK_DATA) (put b I2C_5K_BLOCK_DATA) (mret tt)) bs (on_bus base m) =
  (tt, on_bus base (with_fifo (fifo m ++ map u8 bs) m)).
Proof using Hbase.
  revert m. induction bs as [|b bs IH]; intros m.
  { simpl. rewrite app_nil_r. by destruct m. }
  cbn [each]. unfold mbind, St_bind. rewrite by_systype_on.
  destruct (on_5k m) eqn:Ek; rewrite put_on by (done || (unfold I2C_3K_BLOCK_DATA, I2C_5K_BLOCK_DATA; lia));
    unfold smb_write; rewrite Ek; cbn [Z.eqb Pos.eqb I2C_3K_BLOCK_DATA I2C_5K_BLOCK_DATA];
    rewrite IH; simpl; by rewrite <- app_assoc.
Qed.

Lemma read_data_on q data m : read_data (length q) data (on_bus base (with_fifo q m)) =
  (map u8 q ++ drop (length q) data, on_bus base (with_fifo [] m)).
Proof using Hbase.
  revert data. induction q as [|b q IH]; intros data; [by rewrite drop_0|].
  cbn [length read_data]. unfold mbind, St_bind. rewrite by_systype_on.
  assert (E : forall r, r = (if on_5k m then 7 else 6) ->
    get r (on_bus base (with_fifo (b :: q) m)) = (u8 b, on_bus base (with_fifo q m))).
  { intros r ->. rewrite get_on by (destruct (on_5k m); (done || lia)). unfold smb_read. simpl. by destruct (on_5k m). }
  cbn [on_5k with_fifo].
  destruct (on_5k m); [rewrite (E I2C_5K_BLOCK_DATA eq_refl)|rewrite (E I2C_3K_BLOCK_DATA eq_refl)];
    rewrite IH; simpl; by rewrite drop_drop.
Qed.

Lemma i2c_write_block_on m data : idle m -> (length data < 256)%nat ->
  exists m', i2c_write_block dv index data (length data) (on_bus base m) = (0, on_bus base m') /\
    left_with (upd2 (devs m) dv index (map u8 data)) m m'.
Proof using All.
  intros (Hp & Hf & Hl) Hlen. destruct m as [k5 lat a c l h i q p d]. simpl in *. subst.
  destruct (dev_write_addr dv Hdv) as [Ea _].
  set (m := mk_smb k5 lat a c l h i [] None d). unfold i2c_write_block, mbind at 1, St_bind at 1. rewrite by_systype_on.
  rewrite take_ge by done. clear Hlen. remember (Z.of_nat (length data)) as n eqn:En. clear En.
  exists (finish (started dv (code k5 Block) index (u8 n) (if k5 then u8 n else h) (map u8 data) m)).
  split; [|apply (finish_write Block); by auto].
  destruct k5; cbn [m on_5k]; puts_on; rewrite Ea, (byte_sent n), ?(index_sent index) by done.
  - set_up (mk_smb true lat dv c (u8 n) (u8 n) index [] None d).
    rewrite push_data_on, by_systype_on. cbn [on_5k with_fifo fifo app]. puts_on.
    transfer (started dv (code (on_5k m) Block) index (u8 n) (u8 n) (map u8 data) m). done.
  - set_up (mk_smb false lat dv 0xc0 (u8 n) h i [] None d).
    rewrite push_data_on, by_systype_on. cbn [on_5k with_fifo fifo app]. puts_on. rewrite (index_sent index) by done.
    transfer (started dv (code (on_5k m) Block) index (u8 n) h (map u8 data) m). done.
Qed.

Lemma i2c_read_block_on m data count : idle m -> (count < 256)%nat ->
  exists m', i2c_read_block dv index data count (on_bus base m) =
      ((0, map (fun k => u8 (nth k (devs m dv index) 0xff)) (seq 0 count) ++ drop count data), on_bus base m') /\
    left_with (devs m) m m'.
Proof using All.
  intros (Hp & Hf & Hl) Hlen. destruct m as [k5 lat a c l h i q p d]. simpl in *. subst.
  destruct (dev_read_addr dv Hdv) as [Ea _]. set (n := Z.of_nat count).
  set (m := mk_smb k5 lat a c l h i [] None d). unfold i2c_read_block, mbind at 1, St_bind at 1. rewrite by_systype_on.
  assert (En : u8 (Z.land n 255) = n) by (rewrite byte_sent; apply u8_small; lia).
  set (cells := map (fun k => nth k (d dv index) 0xff) (seq 0 count)).
  assert (Hc : count = length cells) by (unfold cells; by rewrite length_map, length_seq).
  assert (Hr : forall m0, read_data count data (on_bus base (with_fifo cells m0)) =
    (map (fun k => u8 (nth k (d dv index) 0xff)) (seq 0 count) ++ drop count data, on_bus base (with_fifo [] m0))).
  { intros m0. rewrite Hc at 1. rewrite read_data_on, <- Hc. unfold cells. by rewrite map_map. }
  destruct k5; eexists; cbn [m on_5k]; puts_on; fold n; rewrite Ea, ?En, ?(index_sent index) by done.
  - transfer (started (Z.lor dv 1) (code (on_5k m) Block) index n n [] m).
    rewrite finish_read by done. unfold n at 3. rewrite Nat2Z.id. change (0 <? 0) with false. cbv iota.
    set_up (with_fifo cells (mk_smb true lat (Z.lor dv 1) 84 n n index [] None d)). cbn beta. rewrite Hr.
    split; [reflexivity|by unfold left_with, idle].
  - transfer (started (Z.lor dv 1) (code (on_5k m) Block) index n h [] m).
    rewrite finish_read by done. unfold n at 2. rewrite Nat2Z.id. change (0 <? 0) with false. cbv iota.
    set_up (with_fifo cells (mk_smb false lat (Z.lor dv 1) 192 n h index [] None d)). cbn beta. rewrite Hr.
    split; [reflexivity|by unfold left_with, idle].
Qed.
End Transfers.

(** ** The theorems *)

Lemma map_nth_all {A} (d : A) l : map (fun k => nth k l d) (seq 0 (length l)) = l.
Proof.
  induction l as [|x l IH]; [done|]. cbn [length seq map nth]. f_equal. by rewrite <- seq_shift, map_map.
Qed.

(** Any two operations in a row. *)
Definition run2 {S A B} (f : St S A) (g : St S B) : St S (A * B) := a ← f; b ← g; mret (a, b).

(** C32: A block written to a register of a device on the bus is read back, on both kinds of
    system, whatever the number of turns below 0xffff that a transfer takes: for fewer than
    256 bytes [i2c_write_block] and then [i2c_read_block] both return 0 and the buffer holds
    the bytes, with what was behind them left alone; the registers at other indices and of
    other devices keep their contents, and the controller is idle again. *)
Theorem i2c_block_roundtrip base dv index data buf m :
  base_ok base -> dev_ok dv -> 0 <= index < 256 -> idle m -> bytes_ok data -> (length data < 256)%nat ->
  exists m', run2 (i2c_write_block dv index data (length data)) (i2c_read_block dv index buf (length data)) (on_bus base m) =
      ((0, (0, data ++ drop (length data) buf)), on_bus base m') /\
    left_with (upd2 (devs m) dv index data) m m'.
Proof.
  intros Hb Hd Hi Hm Hok Hlen.
  assert (Hu : map u8 data = data).
  { rewrite <- (map_id data) at 2. apply map_ext_in. intros b Hin. apply u8_small.
    by apply list_elem_of_In, (proj1 (Forall_forall _ _) Hok) in Hin. }
  destruct (i2c_write_block_on base dv index Hb Hd Hi m data Hm Hlen) as (m1 & E1 & H1). rewrite Hu in H1.
  destruct (i2c_read_block_on base dv index Hb Hd Hi m1 buf (length data) (proj1 H1) Hlen) as (m2 & E2 & H2).
  exists m2. unfold run2, mbind, St_bind. rewrite E1, E2. destruct H1 as (_ & Hk & Hl & Hd1).
  rewrite Hd1 in H2 |- *. unfold upd2 at 1. rewrite !Z.eqb_refl. simpl. split.
  - do 4 f_equal. rewrite <- (map_map (fun k => nth k data 0xff) u8), map_nth_all. done.
  - destruct H2 as (H2 & H3 & H4 & H5). unfold left_with. rewrite H3, H4. done.
Qed.

Lemma i2c_block_roundtrip_witness : exists m',
  run2 (i2c_write_block 0xd2 0 [1; 2; 3] 3) (i2c_read_block 0xd2 0 [9; 9; 9; 9] 3)
    (on_bus 0x5000 (mk_smb true 7 0 0 0 0 0 [] None (fun _ _ => []))) = ((0, (0, [1; 2; 3; 9])), on_bus 0x5000 m').
Proof.
  destruct (i2c_block_roundtrip 0x5000 0xd2 0 [1; 2; 3] [9; 9; 9; 9] (mk_smb true 7 0 0 0 0 0 [] None (fun _ _ => [])))
    as (m' & E & _).
  - unfold base_ok. lia.
  - split; [lia|reflexivity].
  - lia.
  - unfold idle. simpl. split; [done|]. split; [done|lia].
  - repeat (apply Forall_cons; split; [lia|]). constructor.
  - simpl. lia.
  - exists m'. exact E.
Defined.

(** The transfers by their result codes. *)
Inductive request :=
  | ReadByte (dv i : Z) | ReadWord (dv i : Z) | WriteByte (dv i v : Z) | WriteWord (dv i v : Z)
  | ReadBlock (dv i : Z) (buf : list Z) (n : nat) | WriteBlock (dv i : Z) (data : list Z) (n : nat).

Definition serve {hw} `{!IoPorts hw} (r : request) : St (i2c_state hw) Z :=
  match r with
  | ReadByte dv i => i2c_read_byte dv i
  | ReadWord dv i => i2c_read_word dv i
  | WriteByte dv i v => i2c_write_byte dv i v
  | WriteWord dv i v => i2c_write_word dv i v
  | ReadBlock dv i buf n => r ← i2c_read_block dv i buf n; mret r.1
  | WriteBlock dv i data n => i2c_write_block dv i data n
  end.

(** C34: When a transfer takes 0xffff turns or more, the functions that read or write a byte, a
    word or a block return -1 on both kinds of system after exactly 0xffff looks at the
    status: that many turns of the transfer are gone by, no register of a device has changed
    and the transfer is still pending.  [i2c_reset], which does not wait on the 5000 series,
    and [i2c_init], which ignores the results, are left out. *)
Theorem i2c_timeout base m r :
  base_ok base -> 0xffff <= Z.of_nat (latency m) ->
  exists m' k, serve r (on_bus base m) = (-1, on_bus base m') /\ devs m' = devs m /\
    pending m' = Some k /\ Z.of_nat k = Z.of_nat (latency m) - 0xffff.
Proof.
  intros Hb Hl. destruct m as [k5 lat a c l h i q p d]. simpl in Hl.
  set (m := mk_smb k5 lat a c l h i q p d).
  assert (Hlate : forall m', pending m' = Some lat -> devs m' = d ->
    exists m'' k, i2c_wait_for_smi (on_bus base m') = (-1, on_bus base m'') /\ devs m'' = d /\
      pending m'' = Some k /\ Z.of_nat k = Z.of_nat lat - 0xffff).
  { intros m' Hp Hd. destruct (i2c_wait_late base m' _ Hb Hp Hl) as (j & Ej & E). by exists (with_pending (Some j) m'), j. }
  destruct r as [dv x|dv x|dv x v|dv x v|dv x buf n|dv x data n];
    cbn [serve]; unfold i2c_read_byte, i2c_read_word, i2c_write_byte, i2c_write_word, i2c_read_block, i2c_write_block;
    unfold mbind at 1, St_bind at 1.
  1-5: try (unfold mbind at 1, St_bind at 1); rewrite by_systype_on; destruct k5; cbn [m on_5k]; puts_on;
    match goal with |- context [i2c_wait_for_smi (on_bus _ ?x)] =>
      destruct (Hlate x eq_refl eq_refl) as (m2 & k2 & -> & Hd & Hk) end; exists m2, k2; done.
  rewrite by_systype_on. destruct k5; cbn [m on_5k]; puts_on; rewrite push_data_on, by_systype_on by done;
    match goal with |- context [on_5k ?x] => first [change (on_5k x) with true|change (on_5k x) with false] end; cbv iota;
    puts_on;
    match goal with |- context [i2c_wait_for_smi (on_bus _ ?x)] =>
      destruct (Hlate x eq_refl eq_refl) as (m2 & k2 & -> & Hd & Hk) end; exists m2, k2; done.
Qed.

Lemma i2c_timeout_witness : exists m' k,
  serve (WriteWord 0x90 3 77) (on_bus 0x5000 (mk_smb false (Z.to_nat 0xffff) 0 0 0 0 0 [] None (fun _ _ => [5]))) =
    (-1, on_bus 0x5000 m') /\ devs m' = (fun _ _ => [5]) /\ pending m' = Some k /\
    Z.of_nat k = Z.of_nat (Z.to_nat 0xffff) - 0xffff.
Proof.
  apply (i2c_timeout 0x5000 (mk_smb false (Z.to_nat 0xffff) 0 0 0 0 0 [] None (fun _ _ => [5])) (WriteWord 0x90 3 77)).
  - unfold base_ok. lia.
  - cbn [latency]. rewrite Z2Nat.id; lia.
Defined.

(** ** The serial memory of the board *)

Lemma id_dev_ok : dev_ok ID_EEPROM_DEV.
Proof. split; [unfold ID_EEPROM_DEV, I2C_DEV_AT24C02; lia|reflexivity]. Qed.

(** The four bytes of a field go to the same index, one over the other: only the low byte of
    the value is left, at the index of the high byte. *)
Theorem id_eeprom_write_one_byte base index val m : base_ok base -> idle m -> get_field_size index = 4 ->
  exists m', id_eeprom_write index val (on_bus base m) = (0, on_bus base m') /\
    idle m' /\ devs m' ID_EEPROM_DEV index = [u8 val] /\
    forall i, i <> index -> devs m' ID_EEPROM_DEV i = devs m ID_EEPROM_DEV i.
Proof.
  intros Hb Hm Hs. assert (Hi : 0 <= index < 256).
  { unfold get_field_size, ID_EEPROM_BOARDTYPE, ID_EEPROM_BOARDREV, ID_EEPROM_MANUF_DATE in Hs.
    destruct (Z.eqb_spec index ID_EEPROM_SCRATCH); [done|].
    destruct (Z.eqb_spec index 0), (Z.eqb_spec index 4), (Z.eqb_spec index 8); simpl in Hs; (lia || done). }
  unfold id_eeprom_write. rewrite Hs. change (4 <? 0) with false. change (4 =? 1) with false.
  change (4 =? 2) with false. change (4 =? 4) with true. cbv iota zeta.
  assert (Hw : forall m v, idle m -> exists m', i2c_write_byte ID_EEPROM_DEV index v (on_bus base m) = (0, on_bus base m') /\
    left_with (upd2 (devs m) ID_EEPROM_DEV index [u8 v]) m m').
  { intros m0 v H0. by apply (i2c_write_byte_on base ID_EEPROM_DEV index Hb id_dev_ok Hi). }
  destruct (Hw m (Z.land (Z.shiftr val 24) 255) Hm) as (m1 & E1 & H1 & _ & _ & D1).
  destruct (Hw m1 (Z.land (Z.shiftr val 16) 255) H1) as (m2 & E2 & H2 & _ & _ & D2).
  destruct (Hw m2 (Z.land (Z.shiftr val 8) 255) H2) as (m3 & E3 & H3 & _ & _ & D3).
  destruct (Hw m3 (Z.land val 255) H3) as (m4 & E4 & H4 & _ & _ & D4).
  exists m4. unfold mbind, St_bind. rewrite E1, E2, E3, E4. split; [done|]. split; [done|].
  rewrite D4, D3, D2, D1. unfold upd2. rewrite !Z.eqb_refl. simpl. split; [by rewrite byte_sent|].
  intros i Hne. by destruct (Z.eqb_spec i index).
Qed.
