(* ===== verification/Systype.v ===== *)
(** * Systype: which board this is

    Model of [x86/common/systype.c] over PCI configuration space.  [cur_systype] is what
    [systype_init] gives and what the queries take.  At the end is the theorem that every
    board is recognised, over a configuration space in which the pin that tells the two
    boards of the 3000 series apart can be read while it is an input only. *)

From Stdlib Require Import FunctionalExtensionality.
From stdpp Require Import strings.
From S2P Require Import Prelude CmosIo PciIo.
Open Scope list_scope.
Open Scope Z_scope.

Definition SYSTYPE_UNKNOWN : Z := 0.
Definition BOARDTYPE_UNKNOWN : Z := 0.
Definition BOARDTYPE_PACIFICA : Z := 0x1.
Definition BOARDTYPE_CARMEL : Z := 0x2.
Definition PCI_VENDOR_AL : Z := 0x10b9.
Definition PCI_DEVICE_AL_M1541 : Z := 0x1541.
Definition PCI_VENDOR_SERVERWORKS : Z := 0x1166.
Definition PCI_DEVICE_SERVERWORKS_LE : Z := 0x0009.
Definition PCI_DEVICE_SERVERWORKS_OSB4 : Z := 0x0200.
Definition PCI_DEVICE_SERVERWORKS_CSB5 : Z := 0x0201.

Section Detect.
Context {hw : Type} `{!Config hw}.
Abbreviation T := (St hw).

Definition pci_read_config_word (bus devfn reg : Z) : T Z :=
  v ← read_config bus devfn reg 2; mret (u16 (Z.land v 0xffff)).
Definition write_byte (devfn reg v : Z) : T unit := fun h => (tt, write_config 0 devfn reg v 1 h).
(** [a() && b()]: the second is not asked when the first says no. *)
Definition both (a b : T bool) : T bool := x ← a; if x : bool then b else mret false.
Definition word_is (devfn reg v : Z) : T bool := w ← pci_read_config_word 0 devfn reg; mret (w =? v).

Definition systype_check_3k : T bool :=
  both (word_is (PCI_DEVFN 0 0) 0 PCI_VENDOR_AL) (word_is (PCI_DEVFN 0 0) 2 PCI_DEVICE_AL_M1541).
Definition systype_check_5k : T bool :=
  both (word_is (PCI_DEVFN 0 0) 0 PCI_VENDOR_SERVERWORKS) (word_is (PCI_DEVFN 0 0) 2 PCI_DEVICE_SERVERWORKS_LE).

Definition boardtype_detect_3k : T Z :=
  confreg ← read_config 0 (PCI_DEVFN 3 0) 0x7d 1;
  write_byte (PCI_DEVFN 3 0) 0x7d (Z.land confreg (Z.lnot 0x20));;
  i ← read_config 0 (PCI_DEVFN 3 0) 0x7f 1;
  confreg ← read_config 0 (PCI_DEVFN 3 0) 0x7d 1;
  write_byte (PCI_DEVFN 3 0) 0x7d (Z.lor confreg 0x20);;
  mret (if negb (Z.land i 0x20 =? 0) then BOARDTYPE_PACIFICA else BOARDTYPE_CARMEL).

Definition boardtype_detect_5k : T Z :=
  osb4 ← both (word_is (PCI_DEVFN 0xf 0) 0 PCI_VENDOR_SERVERWORKS) (word_is (PCI_DEVFN 0xf 0) 2 PCI_DEVICE_SERVERWORKS_OSB4);
  if osb4 : bool then mret BOARDTYPE_MONTEREY
  else
    csb5 ← both (word_is (PCI_DEVFN 0xf 0) 0 PCI_VENDOR_SERVERWORKS) (word_is (PCI_DEVFN 0xf 0) 2 PCI_DEVICE_SERVERWORKS_CSB5);
    mret (if csb5 : bool then BOARDTYPE_ALPINE else BOARDTYPE_UNKNOWN).

Definition systype_init : T Z :=
  is3k ← systype_check_3k;
  if is3k : bool then b ← boardtype_detect_3k; mret (Z.lor SYSTYPE_3K b)
  else
    is5k ← systype_check_5k;
    if is5k : bool then b ← boardtype_detect_5k; mret (Z.lor SYSTYPE_5K b)
    else mret (Z.lor SYSTYPE_UNKNOWN BOARDTYPE_UNKNOWN).
End Detect.

(** ** The queries *)

Definition systype (cur : Z) : Z := Z.land cur 0xffff0000.
Definition boardtype (cur : Z) : Z := Z.land cur 0x0000ffff.
Definition systype_is_3k (cur : Z) : bool := systype cur =? SYSTYPE_3K.
Definition systype_is_5k (cur : Z) : bool := systype cur =? SYSTYPE_5K.
Definition systype_str (cur : Z) : string :=
  if systype_is_3k cur then "3000 series system"
  else if systype_is_5k cur then "5000 series system"
  else "Unknown system".
Definition boardtype_str (cur : Z) : string :=
  if systype_is_3k cur && (boardtype cur =? BOARDTYPE_PACIFICA) then "Version 1 board"
  else if systype_is_3k cur && (boardtype cur =? BOARDTYPE_CARMEL) then "Version 2 board"
  else if systype_is_5k cur && (boardtype cur =? BOARDTYPE_MONTEREY) then "Version 1 board"
  else if systype_is_5k cur && (boardtype cur =? BOARDTYPE_ALPINE) then "Version 2 board"
  else "Unknown board".
Definition systype_productid_str (cur : Z) : string :=
  if systype_is_5k cur && (boardtype cur =? BOARDTYPE_MONTEREY) then "5000 RaQ-XTR"
  else if systype_is_5k cur && (boardtype cur =? BOARDTYPE_ALPINE) then "5000 Alpine "
  else "OEM Unknown ".

(** ** The boards *)

(** The bytes of configuration space on bus 0, and what the pin is tied to. *)
Record board := mk_board { cfg : Z -> Z -> Z; strap : bool }.
Definition PMU : Z := PCI_DEVFN 3 0.
(** Bit 5 of register 0x7f shows the pin while bit 5 of 0x7d makes it an input, and what is
    driven otherwise. *)
Definition reads (b : board) (df r : Z) : Z :=
  if (df =? PMU) && (r =? 0x7f) && negb (Z.testbit (cfg b PMU 0x7d) 5) then
    (if strap b then Z.lor (cfg b df r) 0x20 else Z.land (cfg b df r) 0xdf)
  else cfg b df r.
Fixpoint reads_n (n : nat) (b : board) (df r : Z) : Z :=
  match n with O => 0 | S n => reads b df r + 256 * reads_n n b df (r + 1) end.
Definition put_cfg (df r v : Z) (b : board) : board :=
  mk_board (fun df' r' => if (df' =? df) && (r' =? r) then v else cfg b df' r') (strap b).
#[export] Instance board_config : Config board := {|
  read_config bus df r n b := (if bus =? 0 then reads_n (Z.to_nat n) b df r else 2 ^ (8 * n) - 1, b);
  write_config bus df r v n b := if (bus =? 0) && (n =? 1) then put_cfg df r (u8 v) b else b;
|}.

Inductive model := Pacifica | Carmel | Monterey | Alpine.
Definition code (k : model) : Z :=
  match k with
  | Pacifica => SYSTYPE_3K + BOARDTYPE_PACIFICA
  | Carmel => SYSTYPE_3K + BOARDTYPE_CARMEL
  | Monterey => SYSTYPE_5K + BOARDTYPE_MONTEREY
  | Alpine => SYSTYPE_5K + BOARDTYPE_ALPINE
  end.
Definition word_at (b : board) (df r : Z) : Z := cfg b df r + 256 * cfg b df (r + 1).
Definition cfg_ok (b : board) : Prop := forall df r, 0 <= cfg b df r < 256.
Definition is_model (k : model) (b : board) : Prop :=
  cfg_ok b /\
  match k with
  | Pacifica | Carmel =>
    word_at b 0 0 = PCI_VENDOR_AL /\ word_at b 0 2 = PCI_DEVICE_AL_M1541 /\
    strap b = (match k with Pacifica => true | _ => false end)
  | Monterey | Alpine =>
    word_at b 0 0 = PCI_VENDOR_SERVERWORKS /\ word_at b 0 2 = PCI_DEVICE_SERVERWORKS_LE /\
    word_at b 0x78 0 = PCI_VENDOR_SERVERWORKS /\
    word_at b 0x78 2 = (match k with Monterey => PCI_DEVICE_SERVERWORKS_OSB4 | _ => PCI_DEVICE_SERVERWORKS_CSB5 end)
  end.
(** What detection leaves: on the 3000 series the pin is an output. *)
Definition detected (k : model) (b : board) : board :=
  match k with
  | Pacifica | Carmel => put_cfg PMU 0x7d (Z.lor (cfg b PMU 0x7d) 0x20) b
  | _ => b
  end.

Lemma word_is_at df r v b : cfg_ok b -> df <> PMU -> word_is df r v b = (word_at b df r =? v, b).
Proof.
  intros Hb Hdf. unfold word_is, pci_read_config_word, mbind, St_bind, mret, St_ret. cbn [read_config board_config Z.eqb].
  change (Z.to_nat 2) with 2%nat. cbn [reads_n]. unfold reads. rewrite (proj2 (Z.eqb_neq df PMU) Hdf). cbn [andb].
  assert (Hw : 0 <= word_at b df r < 65536) by (unfold word_at; pose proof (Hb df r); pose proof (Hb df (r + 1)); lia).
  unfold word_at in *. replace (cfg b df r + 256 * (cfg b df (r + 1) + 256 * 0)) with (cfg b df r + 256 * cfg b df (r + 1)) by lia.
  change 0xffff with (Z.ones 16). rewrite Z.land_ones, Z.mod_small by lia. by rewrite u16_small.
Qed.
Lemma both_at (x y : bool) (f g : St board bool) b : f b = (x, b) -> g b = (y, b) -> both f g b = (x && y, b).
Proof. intros Ef Eg. unfold both, mbind, St_bind. rewrite Ef. by destruct x. Qed.

Lemma pin_bit v : 0 <= v < 256 ->
  0 <= Z.land v (Z.lnot 0x20) < 256 /\ Z.testbit (Z.land v (Z.lnot 0x20)) 5 = false /\
  Z.lor (Z.land v (Z.lnot 0x20)) 0x20 = Z.lor v 0x20 /\ 0 <= Z.lor v 0x20 < 256 /\
  (Z.land (Z.lor v 0x20) 0x20 =? 0) = false /\ (Z.land (Z.land v 0xdf) 0x20 =? 0) = true.
Proof.
  intros Hv.
  set (f := fun v => (0 <=? Z.land v (Z.lnot 0x20)) && (Z.land v (Z.lnot 0x20) <? 256) && negb (Z.testbit (Z.land v (Z.lnot 0x20)) 5) &&
    (Z.lor (Z.land v (Z.lnot 0x20)) 0x20 =? Z.lor v 0x20) && (0 <=? Z.lor v 0x20) && (Z.lor v 0x20 <? 256) &&
    negb (Z.land (Z.lor v 0x20) 0x20 =? 0) && (Z.land (Z.land v 0xdf) 0x20 =? 0)).
  assert (H : forallb f (seqZ 0 256) = true) by reflexivity.
  rewrite forallb_forall in H. specialize (H v ltac:(apply list_elem_of_In, elem_of_seqZ; lia)). unfold f in H.
  rewrite !andb_true_iff, !negb_true_iff, !Z.leb_le, !Z.ltb_lt, Z.eqb_eq in H. destruct_and!. by split_and!.
Qed.

Lemma put_cfg_twice df r v w b : put_cfg df r v (put_cfg df r w b) = put_cfg df r v b.
Proof.
  unfold put_cfg. cbn [cfg strap]. f_equal. apply functional_extensionality. intros df'. apply functional_extensionality. intros r'.
  by destruct ((df' =? df) && (r' =? r)).
Qed.
Lemma read_byte_at df r b : read_config 0 df r 1 b = (reads b df r, b).
Proof. cbn [read_config board_config Z.eqb]. change (Z.to_nat 1) with 1%nat. cbn [reads_n]. by rewrite Z.mul_0_r, Z.add_0_r. Qed.
Lemma write_byte_at df r v b : write_byte df r v b = (tt, put_cfg df r (u8 v) b).
Proof. done. Qed.
Lemma reads_direction b : reads b PMU 0x7d = cfg b PMU 0x7d.
Proof. done. Qed.
Lemma cfg_put df r v b : cfg (put_cfg df r v b) df r = v.
Proof. cbn. by rewrite !Z.eqb_refl. Qed.
Lemma reads_pin v b : Z.testbit v 5 = false ->
  reads (put_cfg PMU 0x7d v b) PMU 0x7f = (if strap b then Z.lor (cfg b PMU 0x7f) 0x20 else Z.land (cfg b PMU 0x7f) 0xdf).
Proof. intros Hv. unfold reads. by rewrite cfg_put, Hv. Qed.
Lemma detect_3k b : cfg_ok b ->
  boardtype_detect_3k b = (if strap b then BOARDTYPE_PACIFICA else BOARDTYPE_CARMEL, put_cfg PMU 0x7d (Z.lor (cfg b PMU 0x7d) 0x20) b).
Proof.
  intros Hb. destruct (pin_bit _ (Hb PMU 0x7d)) as (H1 & H2 & H3 & H4 & _). destruct (pin_bit _ (Hb PMU 0x7f)) as (_ & _ & _ & _ & H5 & H6).
  unfold boardtype_detect_3k, mbind, St_bind, mret, St_ret. change (PCI_DEVFN 3 0) with PMU.
  rewrite read_byte_at, write_byte_at, reads_direction, u8_small by done.
  rewrite !read_byte_at, write_byte_at, reads_pin, reads_direction, cfg_put, H3, u8_small, put_cfg_twice by done.
  f_equal. destruct (strap b); [by rewrite H5|by rewrite H6].
Qed.

(** C33: every board is recognised: [systype_init] gives the type of the system and of the board for
    each of the four, and leaves configuration space as it was, except that on the 3000 series
    the pin that was read is an output afterwards. *)
Theorem systype_init_detects k b : is_model k b -> systype_init b = (code k, detected k b).
Proof.
  intros [Hb Hk]. unfold systype_init, systype_check_3k, systype_check_5k. change (PCI_DEVFN 0 0) with 0.
  unfold mbind at 1, St_bind at 1.
  assert (Hp : 0 <> PMU /\ 0x78 <> PMU) by done. destruct Hp as [Hp0 Hp1].
  rewrite (both_at _ _ _ _ b (word_is_at 0 0 PCI_VENDOR_AL b Hb Hp0) (word_is_at 0 2 PCI_DEVICE_AL_M1541 b Hb Hp0)).
  destruct k; cbn in Hk.
  1,2: destruct Hk as (-> & -> & Hs); rewrite !Z.eqb_refl; cbn [andb]; unfold mbind, St_bind; rewrite detect_3k, Hs by done; reflexivity.
  all: destruct Hk as (E1 & E2 & Hv & Hd); rewrite E1, E2; change (PCI_VENDOR_SERVERWORKS =? PCI_VENDOR_AL) with false; cbn [andb];
    unfold mbind at 1, St_bind at 1;
    rewrite (both_at _ _ _ _ b (word_is_at 0 0 PCI_VENDOR_SERVERWORKS b Hb Hp0) (word_is_at 0 2 PCI_DEVICE_SERVERWORKS_LE b Hb Hp0)); rewrite E1, E2.
  all: rewrite !Z.eqb_refl; cbn [andb]; unfold boardtype_detect_5k, mbind, St_bind, mret, St_ret; change (PCI_DEVFN 0xf 0) with 0x78;
    rewrite (both_at _ _ _ _ b (word_is_at 0x78 0 PCI_VENDOR_SERVERWORKS b Hb Hp1) (word_is_at 0x78 2 PCI_DEVICE_SERVERWORKS_OSB4 b Hb Hp1));
    rewrite Hv, Hd, Z.eqb_refl; cbn [andb].
  - by rewrite Z.eqb_refl.
  - change (PCI_DEVICE_SERVERWORKS_CSB5 =? PCI_DEVICE_SERVERWORKS_OSB4) with false. cbv beta iota.
    rewrite (both_at _ _ _ _ b (word_is_at 0x78 0 PCI_VENDOR_SERVERWORKS b Hb Hp1) (word_is_at 0x78 2 PCI_DEVICE_SERVERWORKS_CSB5 b Hb Hp1)).
    by rewrite Hv, Hd, !Z.eqb_refl.
Qed.

(** A board with a Version 2 of each series. *)
Definition ids (w : list (Z * Z * Z)) (df r : Z) : Z :=
  foldr (fun x v => let '(d, q, i) := x in
           if (df =? d) && (r =? q) then i mod 256 else if (df =? d) && (r =? q + 1) then i / 256 else v) 0 w.
Definition qube3 : board := mk_board (ids [(0, 0, 0x10b9); (0, 2, 0x1541); (PMU, 0x7c, 0x3500)]) false.
Definition alpine : board := mk_board (ids [(0, 0, 0x1166); (0, 2, 0x0009); (0x78, 0, 0x1166); (0x78, 2, 0x0201)]) false.
Lemma ids_ok w s : forallb (fun x => (0 <=? x.2) && (x.2 <? 65536)) w = true -> cfg_ok (mk_board (ids w) s).
Proof.
  intros Hw df r. cbn [cfg]. unfold ids. induction w as [|[[d q] i] w IH]; [done|]. cbn [forallb snd] in Hw.
  apply andb_prop in Hw as [Hi Hw]. cbn [foldr]. destruct ((df =? d) && (r =? q)); [by apply Z.mod_pos_bound|].
  destruct ((df =? d) && (r =? q + 1)); [|by apply IH].
  split; [apply Z.div_pos; lia|apply Z.div_lt_upper_bound; lia].
Qed.
Lemma systype_init_detects_witness : systype_init qube3 = (0x10002, detected Carmel qube3) /\ systype_init alpine = (0x20004, alpine).
Proof.
  split.
  - apply (systype_init_detects Carmel qube3). split; [by apply ids_ok|by split_and!].
  - apply (systype_init_detects Alpine alpine). split; [by apply ids_ok|by split_and!].
Defined.
