(* ===== verification/Serial.v ===== *)
(** * Serial: the serial line

    Model of [x86/common/serial.c] over the ports.  The loops of [serial_outb] and [serial_inb]
    have no bound: [None] is that nothing came in [SERIAL_TURNS] turns.  At the end is what
    [serial_inb_timeout] does with a receiver of the documented behaviour. *)

From S2P Require Import Prelude CmosIo PciIo Pci Poll.
Open Scope list_scope.
Open Scope Z_scope.

Definition SERIAL_BASE_UART1 : Z := 0x3f8.
Definition UART_RX : Z := 0.
Definition UART_TX : Z := 0.
Definition UART_DLL : Z := 0.
Definition UART_DLM : Z := 1.
Definition UART_IER : Z := 1.
Definition UART_FCR : Z := 2.
Definition UART_LCR : Z := 3.
Definition UART_MCR : Z := 4.
Definition UART_LSR : Z := 5.
Definition UART_LCR_DLAB : Z := 0x80.
Definition UART_LCR_WLEN8 : Z := 0x03.
Definition UART_LSR_TXRDY : Z := 0x20.
Definition UART_LSR_FE : Z := 0x08.
Definition UART_LSR_OE : Z := 0x02.
Definition UART_LSR_DR : Z := 0x01.
Definition UART_MCR_ISEN : Z := 0x08.
Definition UART_MCR_RTS : Z := 0x02.
Definition UART_MCR_DTR : Z := 0x01.
Definition PNP_CONFIG_PORT : Z := 0x3f0.
Definition PNP_DATA_PORT : Z := 0x3f1.
Definition SERIAL_TURNS : positive := 0x100000000.

Section Serial.
Context {hw : Type} `{!IoPorts hw}.

Record serial_state := mk_serial_state { line_hw : hw; line_systype : Z; serconsole : Z }.
Abbreviation T := (St serial_state).

Definition set_line_hw (h : hw) (s : serial_state) : serial_state := mk_serial_state h (line_systype s) (serconsole s).
Definition out_port (v port : Z) : T unit := fun s => (tt, set_line_hw (PciIo.outb v port (line_hw s)) s).
Definition in_port (port : Z) : T Z := fun s => let '(v, h) := PciIo.inb port (line_hw s) in (u8 v, set_line_hw h s).
Definition uart_read_port (u p : Z) : T Z := in_port (u + p).
Definition uart_write_port (u p v : Z) : T unit := out_port v (u + p).
Definition serial_read_port (p : Z) : T Z := in_port (SERIAL_BASE_UART1 + p).
Definition serial_write_port (p v : Z) : T unit := out_port v (SERIAL_BASE_UART1 + p).
Definition console_on : T bool := fun s => (negb (serconsole s =? 0), s).

Definition serial_init_16550 (u : Z) : T unit :=
  uart_write_port u UART_LCR (Z.lor UART_LCR_WLEN8 UART_LCR_DLAB);;
  uart_write_port u UART_DLM 0;;
  uart_write_port u UART_DLL 1;;
  uart_write_port u UART_LCR UART_LCR_WLEN8;;
  uart_write_port u UART_IER 0;;
  uart_write_port u UART_MCR (Z.lor UART_MCR_DTR UART_MCR_RTS);;
  m ← uart_read_port u UART_MCR;
  uart_write_port u UART_MCR (Z.land m (Z.lnot UART_MCR_ISEN));;
  uart_write_port u UART_FCR 1.

Definition serial_init_pnp : T unit := fun s =>
  if Z.land (line_systype s) 0xffff0000 =? SYSTYPE_3K then
    (out_port 0x51 PNP_CONFIG_PORT;; out_port 0x23 PNP_CONFIG_PORT;;
     out_port 0x07 PNP_CONFIG_PORT;; out_port 0x04 PNP_DATA_PORT;;
     out_port 0x30 PNP_CONFIG_PORT;; out_port 0x01 PNP_DATA_PORT;;
     out_port 0x07 PNP_CONFIG_PORT;; out_port 0x05 PNP_DATA_PORT;;
     out_port 0x30 PNP_CONFIG_PORT;; out_port 0x01 PNP_DATA_PORT;;
     out_port 0xBB PNP_CONFIG_PORT) s
  else (tt, s).

Definition serial_init (con_on : Z) : T unit :=
  (fun s => (tt, mk_serial_state (line_hw s) (line_systype s) con_on));;
  serial_init_pnp;;
  serial_init_16550 SERIAL_BASE_UART1.

(** A turn of a loop that waits for a bit of the line status. *)
Definition lsr_turn (bit : Z) : T (option unit) :=
  lsr ← serial_read_port UART_LSR; mret (if Z.land lsr bit =? 0 then None else Some tt).

Definition serial_outb (outbyte : Z) : Run serial_state unit := fun s =>
  if serconsole s =? 0 then Some (tt, s)
  else
    match poll (lsr_turn UART_LSR_TXRDY) SERIAL_TURNS s with
    | (Some _, s) => Some (serial_write_port UART_TX (u8 outbyte) s)
    | (None, _) => None
    end.

(** [*inbyte] is left alone when the console is off. *)
Definition serial_inb (inbyte : Z) : Run serial_state Z := fun s =>
  if serconsole s =? 0 then Some (inbyte, s)
  else
    match poll (lsr_turn UART_LSR_DR) SERIAL_TURNS s with
    | (Some _, s) => Some (serial_read_port UART_RX s)
    | (None, _) => None
    end.

(** The status is asked one time less than [timeout], and 2^32 - 1 times for 0; a [continue] goes
    to the condition of the loop, so an error does not change what a turn does.  The return
    value, and what is stored. *)
Definition serial_inb_timeout (timeout : Z) : T (Z * option Z) :=
  on ← console_on;
  if negb on then mret (0xff, None)
  else
    ier ← serial_read_port UART_IER;
    serial_write_port UART_IER 0x00;;
    r ← (if u32 (timeout - 1) =? 0 then mret None else poll (lsr_turn UART_LSR_DR) (Z.to_pos (u32 (timeout - 1))));
    match r with
    | None => mret (0xff, None)
    | Some _ =>
      inbyte ← serial_read_port UART_RX;
      serial_write_port UART_IER ier;;
      mret (0, Some inbyte)
    end.
End Serial.
Arguments serial_state : clear implicits.
Arguments mk_serial_state {hw} _ _ _.
Arguments line_hw {hw} _.
Arguments line_systype {hw} _.
Arguments serconsole {hw} _.

(** ** A receiver *)

(** A character is there after [away] looks at the status; the error bits are as given. *)
Record uart := mk_uart { ier : Z; away : nat; received : Z; lsr_errors : Z; seen : nat }.
Definition status (u : uart) : Z := Z.lor (lsr_errors u) (match away u with O => UART_LSR_DR | _ => 0 end).
#[export] Instance uart_ports : IoPorts uart := {|
  port_out n v port u :=
    if port =? SERIAL_BASE_UART1 + UART_IER then mk_uart v (away u) (received u) (lsr_errors u) (seen u) else u;
  port_in n port u :=
    if port =? SERIAL_BASE_UART1 + UART_LSR then (status u, mk_uart (ier u) (pred (away u)) (received u) (lsr_errors u) (S (seen u)))
    else if port =? SERIAL_BASE_UART1 + UART_IER then (ier u, u)
    else if port =? SERIAL_BASE_UART1 + UART_RX then (received u, u)
    else (0xff, u);
|}.
Record uart_ok (u : uart) : Prop := {
  ok_ier : 0 <= ier u < 256;
  ok_received : 0 <= received u < 256;
  ok_errors : 0 <= lsr_errors u < 256 /\ Z.land (lsr_errors u) 1 = 0;
}.
Abbreviation on_line u ty con := (mk_serial_state u ty con).

Lemma status_facts u : uart_ok u -> u8 (status u) = status u /\ (Z.land (status u) UART_LSR_DR =? 0) = negb (away u =? 0)%nat.
Proof.
  intros [_ _ [He H1]]. unfold status, UART_LSR_DR.
  assert (Hm : 0 <= Z.lor (lsr_errors u) 1 < 256).
  { split; [apply Z.lor_nonneg; lia|]. destruct (Z.eq_dec (lsr_errors u) 0) as [->|]; [done|].
    apply Z.log2_lt_pow2 with (b := 8); [|rewrite Z.log2_lor by lia; change (Z.log2 1) with 0].
    - assert (Z.lor (lsr_errors u) 1 <> 0) by (intros E; apply Z.lor_eq_0_iff in E; lia).
      pose proof (proj2 (Z.lor_nonneg (lsr_errors u) 1)). lia.
    - apply Z.max_lub_lt; [apply Z.log2_lt_pow2; lia|lia]. }
  destruct (away u) as [|n].
  - split; [by apply u8_small|]. rewrite Z.land_lor_distr_l, H1. done.
  - rewrite Z.lor_0_r. split; [by apply u8_small|]. by rewrite H1.
Qed.

Lemma look u ty con : uart_ok u ->
  lsr_turn UART_LSR_DR (on_line u ty con) =
    (if (away u =? 0)%nat then Some tt else None, on_line (mk_uart (ier u) (pred (away u)) (received u) (lsr_errors u) (S (seen u))) ty con).
Proof.
  intros Hu. destruct (status_facts u Hu) as [E1 E2].
  transitivity ((if Z.land (u8 (status u)) UART_LSR_DR =? 0 then None else Some tt) : option unit,
    on_line (mk_uart (ier u) (pred (away u)) (received u) (lsr_errors u) (S (seen u))) ty con); [reflexivity|].
  rewrite E1, E2. by destruct (away u).
Qed.

(** The receiver after some looks. *)
Definition looked (n : nat) (u : uart) : uart := mk_uart (ier u) (away u - n) (received u) (lsr_errors u) (seen u + n).
Definition set_ier (v : Z) (u : uart) : uart := mk_uart v (away u) (received u) (lsr_errors u) (seen u).

Lemma looks n u ty con : uart_ok u ->
  poll_times (lsr_turn UART_LSR_DR) n (on_line u ty con) =
    if (away u <? n)%nat then (Some tt, on_line (looked (S (away u)) u) ty con) else (None, on_line (looked n u) ty con).
Proof.
  revert u. induction n as [|n IH]; intros u Hu.
  { unfold looked. cbn [poll_times]. rewrite Nat.sub_0_r, Nat.add_0_r. by destruct u. }
  cbn [poll_times]. unfold mbind, St_bind. rewrite look by done. destruct (Nat.eqb_spec (away u) 0) as [E|E].
  - rewrite E. change (0 <? S n)%nat with true. unfold looked. rewrite E, Nat.add_1_r. done.
  - rewrite IH by (split; apply Hu). cbn [away].
    replace (away u <? S n)%nat with (pred (away u) <? n)%nat by (apply eq_true_iff_eq; rewrite !Nat.ltb_lt; lia).
    destruct (pred (away u) <? n)%nat; unfold looked; cbn [ier away received lsr_errors seen]; do 2 f_equal; f_equal; lia.
Qed.

(** reading with a time limit.  When a character comes before the status has been asked one time
    less than the limit, [serial_inb_timeout] gives it, whatever errors the status shows, and
    the interrupts are enabled as before; when it comes later, the answer is 0xff, nothing is
    stored, and the interrupts stay disabled. *)
Theorem serial_inb_timeout_waits timeout u ty con :
  uart_ok u -> con <> 0 -> 1 < timeout < 4294967296 ->
  serial_inb_timeout timeout (on_line u ty con) =
    if Z.of_nat (away u) <? timeout - 1 then ((0, Some (received u)), on_line (looked (S (away u)) u) ty con)
    else ((0xff, None), on_line (set_ier 0 (looked (Z.to_nat (timeout - 1)) u)) ty con).
Proof.
  intros Hu Hcon Ht. unfold serial_inb_timeout.
  assert (Eon : console_on (on_line u ty con) = (true, on_line u ty con)) by (unfold console_on; cbn; by rewrite (proj2 (Z.eqb_neq con 0) Hcon)).
  unfold mbind at 1, St_bind at 1. rewrite Eon. cbn [negb].
  assert (Eier : serial_read_port UART_IER (on_line u ty con) = (u8 (ier u), on_line u ty con)) by reflexivity.
  unfold mbind at 1, St_bind at 1. rewrite Eier, u8_small by apply Hu.
  assert (Ew : serial_write_port UART_IER 0x00 (on_line u ty con) = (tt, on_line (set_ier 0 u) ty con)) by reflexivity.
  unfold mbind at 1, St_bind at 1. rewrite Ew. rewrite u32_small, (proj2 (Z.eqb_neq (timeout - 1) 0)) by lia.
  unfold mbind at 1, St_bind at 1. rewrite poll_unary, looks by (split; [done|apply Hu|apply Hu]).
  replace (Pos.to_nat (Z.to_pos (timeout - 1))) with (Z.to_nat (timeout - 1)) by lia. cbn [away set_ier].
  replace (away u <? Z.to_nat (timeout - 1))%nat with (Z.of_nat (away u) <? timeout - 1)
    by (apply eq_true_iff_eq; rewrite Z.ltb_lt, Nat.ltb_lt; lia).
  destruct (Z.of_nat (away u) <? timeout - 1); [|done].
  assert (Er : forall v, 0 <= received v < 256 -> serial_read_port UART_RX (on_line v ty con) = (received v, on_line v ty con)).
  { intros v Hv. transitivity (u8 (received v), on_line v ty con); [reflexivity|]. by rewrite u8_small. }
  unfold mbind at 1, St_bind at 1. rewrite Er by apply Hu.
  assert (Ei : forall v i, 0 <= i < 256 -> serial_write_port UART_IER i (on_line v ty con) = (tt, on_line (set_ier i v) ty con)).
  { intros v i Hi. transitivity (tt, on_line (set_ier (u8 i) v) ty con); [reflexivity|]. by rewrite u8_small. }
  unfold mbind at 1, St_bind at 1. rewrite Ei by apply Hu. by destruct u.
Qed.

(** A character with a framing error that comes at the third look: a limit of 4 is too short. *)
Definition late : uart := mk_uart 0x0f 3 0x41 UART_LSR_FE 0.
Lemma serial_inb_timeout_waits_witness :
  serial_inb_timeout 5 (on_line late SYSTYPE_3K 1) = ((0, Some 0x41), on_line (mk_uart 0x0f 0 0x41 UART_LSR_FE 4) SYSTYPE_3K 1) /\
  serial_inb_timeout 4 (on_line late SYSTYPE_3K 1) = ((0xff, None), on_line (mk_uart 0 0 0x41 UART_LSR_FE 3) SYSTYPE_3K 1).
Proof.
  assert (Hl : uart_ok late) by (split; [split; reflexivity || (intros; discriminate) | split; [intros H; discriminate H|reflexivity] | split; [split; [intros H; discriminate H|reflexivity]|reflexivity]]).
  split.
  - apply (serial_inb_timeout_waits 5 late SYSTYPE_3K 1); [exact Hl|intros H; discriminate H|lia].
  - apply (serial_inb_timeout_waits 4 late SYSTYPE_3K 1); [exact Hl|intros H; discriminate H|lia].
Defined.
