(* ===== verification/Lcd.v ===== *)
(** * Lcd: the panel

    Model of [x86/common/lcd.c] and [x86/common/parallel.c]: the display and its buttons,
    behind the parallel port or behind the system management bus, and the lamps.  The state is
    that of [I2c] with [use_i2c].  What lcd.c asks of the CMOS flags and of the page of the ROM
    with the logo is the class [PanelData]; a delay has no effect here.  A string is the list
    of its characters. *)

From S2P Require Import Prelude CString CmosIo PciIo Poll I2c.
Open Scope list_scope.
Open Scope Z_scope.

Definition LCD_PORT : Z := 0x0378.
Definition LCD_DATA_PORT : Z := LCD_PORT + 0.
Definition LCD_CONTROL_PORT : Z := LCD_PORT + 2.
Definition LCD_CMD_INIT1 : Z := 0x38.
Definition LCD_CMD_INIT2 : Z := 0x06.
Definition LCD_CMD_INIT3 : Z := 0x0c.
Definition LCD_CMD_ON : Z := 0x0f.
Definition LCD_CMD_OFF : Z := 0x08.
Definition LCD_CMD_RESET1 : Z := 0x3f.
Definition LCD_CMD_RESET2 : Z := 0x01.
Definition LCD_CMD_RESET3 : Z := 0x06.
Definition LCD_CMD_CLEAR : Z := 0x01.
Definition LCD_CMD_CUR_LEFT : Z := 0x10.
Definition LCD_CMD_CUR_RIGHT : Z := 0x14.
Definition LCD_CMD_CUR_OFF : Z := 0x0c.
Definition LCD_CMD_CUR_ON : Z := 0x0f.
Definition LCD_CMD_BLINK_OFF : Z := 0x0e.
Definition LCD_SET_POS_MASK : Z := 0x80.
Definition LCD_SET_CHAR_MASK : Z := 0x40.
Definition LCD_MAX_POLL : positive := 100.
Definition BUTTON_MASK : Z := 0xfe.
Definition COBALT_I2C_DEV_LED_I : Z := 0x40.
Definition COBALT_I2C_DEV_LED_II : Z := 0x42.
Definition FPLED_MASK : Z :=
  foldl Z.lor 0 [0x8000; 0x1000; 0x4000; 0x0800; 0x2000; 0x0200; 0x0080; 0x0040; 0x0010; 0x0400; 0x0100; 0x0020].
Definition PNP_CONFIG_PORT : Z := 0x3f0.
Definition PNP_DATA_PORT : Z := 0x3f1.
Definition BOARDTYPE_PACIFICA : Z := 0x1.
Definition BOARDTYPE_CARMEL : Z := 0x2.

(** [cmos_read_flag] of the two flags, and the structure [logo] in bank 0, page 0 of the ROM. *)
Class PanelData (hw : Type) := {
  nologo_flag : St hw bool;
  sysfault_flag : St hw bool;
  rom_logo : St hw mem;
}.

Section Lcd.
Context {hw : Type} `{!IoPorts hw, !Config hw, !PanelData hw}.

Record lcd_state := mk_lcd_state { lcd_bus : i2c_state hw; use_i2c : bool }.
Abbreviation T := (St lcd_state).

Definition set_lcd_bus (b : i2c_state hw) (s : lcd_state) : lcd_state := mk_lcd_state b (use_i2c s).
Definition on_i2c {A} (f : St (i2c_state hw) A) : T A := fun s => let '(a, b) := f (lcd_bus s) in (a, set_lcd_bus b s).
Definition on_hw {A} (f : St hw A) : T A :=
  on_i2c (fun b => let '(a, h) := f (bus_hw b) in (a, set_bus_hw h b)).
Definition outb (v port : Z) : T unit := on_i2c (out v port).
Definition inb (port : Z) : T Z := on_i2c (in_ port).
Definition queries {A} (f : lcd_state -> A) : T A := fun s => (f s, s).
Definition systype (s : lcd_state) : Z := Z.land (bus_systype (lcd_bus s)) 0xffff0000.
Definition boardtype (s : lcd_state) : Z := Z.land (bus_systype (lcd_bus s)) 0x0000ffff.
(** [if (use_i2c) ... else ...] *)
Definition by_bus {A} (i2c port : T A) : T A := b ← queries use_i2c; if b : bool then i2c else port.

(** ** parallel.c *)

Definition init_parallel_port : T unit :=
  t ← queries systype;
  if t =? SYSTYPE_3K then
    outb 0x51 PNP_CONFIG_PORT;; outb 0x23 PNP_CONFIG_PORT;;
    outb 0x07 PNP_CONFIG_PORT;; outb 0x03 PNP_DATA_PORT;;
    outb 0x30 PNP_CONFIG_PORT;; outb 0x01 PNP_DATA_PORT;;
    outb 0xf0 PNP_CONFIG_PORT;; outb 0x01 PNP_DATA_PORT;;
    outb 0xBB PNP_CONFIG_PORT
  else mret tt.

(** ** The four transfers *)

Definition lcd_read_inst : T Z :=
  by_bus
    (v ← on_i2c (i2c_read_byte 0x49 0); mret (u8 v))
    (outb 0x21 LCD_CONTROL_PORT;;
     outb 0x20 LCD_CONTROL_PORT;;
     inst ← inb LCD_DATA_PORT;
     outb 0x21 LCD_CONTROL_PORT;;
     outb 0x01 LCD_CONTROL_PORT;;
     mret inst).

(** At most [LCD_MAX_POLL] times. *)
Definition lcd_poll_wait : T unit :=
  _ ← poll (inst ← lcd_read_inst; mret (if Z.land inst 0x80 =? 0 then Some tt else None)) LCD_MAX_POLL;
  mret tt.

Definition lcd_write_inst (inst : Z) : T unit :=
  lcd_poll_wait;;
  by_bus
    (_ ← on_i2c (i2c_write_byte 0x48 0 (u8 inst)); mret tt)
    (outb 0x03 LCD_CONTROL_PORT;;
     outb inst LCD_DATA_PORT;;
     outb 0x02 LCD_CONTROL_PORT;;
     outb 0x03 LCD_CONTROL_PORT;;
     outb 0x01 LCD_CONTROL_PORT).

Definition lcd_write_data (data : Z) : T unit :=
  lcd_poll_wait;;
  by_bus
    (_ ← on_i2c (i2c_write_byte 0x4a 0 (u8 data)); mret tt)
    (outb 0x07 LCD_CONTROL_PORT;;
     outb data LCD_DATA_PORT;;
     outb 0x06 LCD_CONTROL_PORT;;
     outb 0x07 LCD_CONTROL_PORT;;
     outb 0x05 LCD_CONTROL_PORT).

Definition lcd_read_data : T Z :=
  lcd_poll_wait;;
  by_bus
    (v ← on_i2c (i2c_read_byte 0x4b 0); mret (u8 v))
    (outb 0x25 LCD_CONTROL_PORT;;
     outb 0x24 LCD_CONTROL_PORT;;
     data ← inb LCD_DATA_PORT;
     outb 0x25 LCD_CONTROL_PORT;;
     outb 0x01 LCD_CONTROL_PORT;;
     mret data).

(** ** Instructions *)

Definition lcd_on : T unit := lcd_write_inst LCD_CMD_ON.
Definition lcd_off : T unit := lcd_write_inst LCD_CMD_OFF.
Definition lcd_reset : T unit :=
  lcd_write_inst LCD_CMD_RESET1;; lcd_write_inst LCD_CMD_RESET1;; lcd_write_inst LCD_CMD_RESET1;;
  lcd_write_inst LCD_CMD_RESET1;; lcd_write_inst LCD_CMD_RESET2;; lcd_write_inst LCD_CMD_RESET3.
Definition lcd_clear : T unit := lcd_write_inst LCD_CMD_CLEAR.
Definition lcd_cursor_left : T unit := lcd_write_inst LCD_CMD_CUR_LEFT.
Definition lcd_cursor_right : T unit := lcd_write_inst LCD_CMD_CUR_RIGHT.
Definition lcd_cursor_off : T unit := lcd_write_inst LCD_CMD_CUR_OFF.
Definition lcd_cursor_on : T unit := lcd_write_inst LCD_CMD_CUR_ON.
Definition lcd_blink_off : T unit := lcd_write_inst LCD_CMD_BLINK_OFF.

Definition lcd_get_cur_pos : T Z := inst ← lcd_read_inst; mret (Z.land inst 0x7f).
Definition lcd_set_cur_pos (pos : Z) : T unit := lcd_write_inst (Z.lor (Z.land pos 0x7f) LCD_SET_POS_MASK).
Definition lcd_write_char (c : Z) : T unit := lcd_write_data c.
Definition lcd_write_str (str : list Z) : T unit := each (fun c => lcd_write_char (u8 c)) str.
Definition lcd_write_str_at (pos : Z) (str : list Z) : T unit := lcd_set_cur_pos pos;; lcd_write_str str.

(** The first eight bytes of [data]. *)
Definition lcd_set_char (c : Z) (data : list Z) : T unit :=
  pos ← lcd_get_cur_pos;
  lcd_write_inst (Z.lor LCD_SET_CHAR_MASK (Z.land (Z.shiftl c 3) 0x3f));;
  each lcd_write_data (take 8 data);;
  lcd_set_cur_pos pos.

(** ** Start *)

Definition lcd_set_led_defaults : T unit :=
  t ← queries systype;
  if t =? SYSTYPE_3K then
    tmp ← on_hw (read_config 0 (PCI_DEVFN 3 0) 0x7e 1);
    b ← queries boardtype;
    let tmp := u8 tmp in
    let tmp :=
      if b =? BOARDTYPE_PACIFICA then Z.lor (Z.land tmp (Z.lnot 0x40)) 0x80
      else if b =? BOARDTYPE_CARMEL then Z.lor tmp (Z.lor 0x40 0x80)
      else tmp in
    on_hw (fun h => (tt, write_config 0 (PCI_DEVFN 3 0) 0x7e (u8 tmp) 1 h))
  else mret tt.

Definition set_use_i2c (b : bool) : T unit := fun s => (tt, mk_lcd_state (lcd_bus s) b).

Definition lcd_init : T unit :=
  p ← on_hw (read_config 0 (PCI_DEVFN 0xf 0) 0x90 4);
  (if negb (Z.land p 0xfff0 =? 0) then
     v ← on_i2c (i2c_read_byte 0x41 0);
     if negb (v =? 0xff) then set_use_i2c true else mret tt
   else mret tt);;
  by_bus (mret tt) init_parallel_port;;
  lcd_write_inst LCD_CMD_INIT1;; lcd_write_inst LCD_CMD_INIT1;; lcd_write_inst LCD_CMD_INIT1;;
  lcd_write_inst LCD_CMD_INIT2;; lcd_write_inst LCD_CMD_INIT3;;
  lcd_on;;
  lcd_cursor_off;;
  lcd_set_cur_pos 0;;
  lcd_set_led_defaults.

(** ** Buttons *)

(** The buttons as the bus shows them. *)
Definition i2c_buttons : list (Z * Z) :=
  [(0x3e, 0x80); (0x3d, 0x40); (0x1f, 0x04); (0x3b, 0x20); (0x2f, 0x08); (0x37, 0x10)].
Fixpoint i2c_button (l : list (Z * Z)) (inst : Z) : Z :=
  match l with
  | [] => if inst =? 0x3f then 0xfe else inst
  | (i, b) :: l => if inst =? i then Z.land (Z.lnot b) 0xfe else i2c_button l inst
  end.
Definition lcd_button_read : T Z :=
  by_bus
    (v ← on_i2c (i2c_read_byte 0x41 0); mret (i2c_button i2c_buttons (u8 v)))
    (outb 0x29 LCD_CONTROL_PORT;; v ← inb LCD_DATA_PORT; mret (Z.land v BUTTON_MASK)).

(** ** Logo, progress and lamps *)

Definition lcd_set_font (font_num : Z) : T unit :=
  nologo ← (if font_num =? 0 then on_hw nologo_flag else mret false);
  if nologo : bool then each (fun i => lcd_set_char i (replicate 8 0)) (seqZ 0 8)
  else
    m ← on_hw rom_logo;
    each (fun i => lcd_set_char i (drop (Z.to_nat (26 + (64 * font_num + i * 8))) m)) (seqZ 0 8).

(** Two titles of at most twelve characters. *)
Definition title_at (m : mem) (p : nat) : option (list Z) :=
  n ← strlen m p; if n <? 13 then Some (sub p (Z.to_nat n) m) else None.
Definition lcd_get_title : T (option (list Z * list Z)) :=
  m ← on_hw rom_logo;
  mret (a ← title_at m 0; b ← title_at m 13; Some (a, b)).

Definition lcd_write_progress_bar (percent : Z) : T unit :=
  let target := Z.quot (percent * 12) 100 in
  lcd_set_cur_pos 0x44;;
  each (fun _ => lcd_write_char 0xff) (seqZ 0 target);;
  each (fun _ => lcd_write_char 0x20) (seqZ (Z.max 0 target) (12 - Z.max 0 target)).

Definition lcd_set_boot_leds (state : Z) : T unit :=
  t ← queries systype;
  if t =? SYSTYPE_5K then
    by_bus
      (hi ← on_i2c (i2c_read_byte COBALT_I2C_DEV_LED_II 0);
       lo ← on_i2c (i2c_read_byte COBALT_I2C_DEV_LED_I 0);
       let val := Z.lor (u32 (Z.shiftl (u32 hi) 8)) (u32 lo) in
       let val := Z.land val (u32 (Z.lnot FPLED_MASK)) in
       let val := if negb (state =? 0) then Z.lor val FPLED_MASK else val in
       _ ← on_i2c (i2c_write_byte COBALT_I2C_DEV_LED_I 0 (Z.land val 0xff));
       _ ← on_i2c (i2c_write_byte COBALT_I2C_DEV_LED_II 0 (Z.shiftr val 8));
       mret tt)
      (if negb (state =? 0) then
         outb 0x00 (0x600 + 0xe);; outb 0x07 (0x500 + 0xb);; outb 0x23 0x2e;; outb 0x61 0x2f
       else
         outb 0x20 (0x600 + 0xe);; outb 0x00 (0x500 + 0xb);; outb 0x23 0x2e;; outb 0x63 0x2f)
  else mret tt.

Definition lcd_clean_leds : T unit :=
  t ← queries systype;
  i ← queries use_i2c;
  if (t =? SYSTYPE_5K) && negb i then
    f ← on_hw sysfault_flag;
    outb (if f : bool then 0x7 else 0x00) (0x500 + 0xb);;
    outb 0x23 0x2e;;
    outb 0x61 0x2f
  else mret tt.
End Lcd.
Arguments lcd_state : clear implicits.
Arguments mk_lcd_state {hw} _ _.
Arguments lcd_bus {hw} _.
Arguments use_i2c {hw} _.
