(* ===== verification/LcdProofs.v ===== *)
(** * LcdProofs: what the panel shows

    [display] is the documented behaviour of the controller of the display: two memories, the
    address counter, and a number of turns it is busy for after an instruction, during which it
    takes no other.  [Wiring] is what lcd.c needs of the way to it, [parallel_wiring] and
    [bus_wiring] are the two ways of the boards.  The theorems hold for every wiring. *)

From Stdlib Require Import FunctionalExtensionality.
From stdpp Require Import strings.
From S2P Require Import Prelude CString CStringProofs CmosIo PciIo Pci Poll Menu MenuTables MenuProofs I2c Lcd.
Open Scope list_scope.
Open Scope Z_scope.

(** ** The display *)

Record display := mk_display {
  ddram : Z -> Z; cgram : Z -> Z;
  ac : Z; in_cg : bool;
  busy : nat; takes : nat;
}.
Definition set_busy (n : nat) (d : display) : display := mk_display (ddram d) (cgram d) (ac d) (in_cg d) n (takes d).
Definition at_ac (a : Z) (cg : bool) (d : display) : display := mk_display (ddram d) (cgram d) a cg (busy d) (takes d).
Definition with_ram (f : Z -> Z) (d : display) : display := mk_display f (cgram d) (ac d) (in_cg d) (busy d) (takes d).
Definition with_glyphs (f : Z -> Z) (d : display) : display := mk_display (ddram d) f (ac d) (in_cg d) (busy d) (takes d).

(** The two lines are at 0x00 and at 0x40, of 0x28 characters each. *)
Definition next_ac (a : Z) : Z := if a =? 0x27 then 0x40 else if a =? 0x67 then 0x00 else a + 1.
Definition put_at (a v : Z) (f : Z -> Z) (x : Z) : Z := if x =? a then v else f x.

Definition execute (i : Z) (d : display) : display :=
  if 0x80 <=? i then at_ac (i - 0x80) false d
  else if 0x40 <=? i then at_ac (i - 0x40) true d
  else if 0x20 <=? i then d
  else if 0x10 <=? i then (if Z.testbit i 3 then d else at_ac (if Z.testbit i 2 then next_ac (ac d) else ac d - 1) (in_cg d) d)
  else if 0x04 <=? i then d
  else if 0x02 <=? i then at_ac 0 false d
  else if i =? 0x01 then at_ac 0 false (with_ram (fun _ => 0x20) d)
  else d.
Definition instruction (i : Z) (d : display) : display :=
  if (busy d =? 0)%nat then set_busy (takes d) (execute i d) else d.
Definition datum (v : Z) (d : display) : display :=
  if (busy d =? 0)%nat then
    set_busy (takes d)
      (if in_cg d then at_ac ((ac d + 1) mod 64) true (with_glyphs (put_at (ac d) v (cgram d)) d)
       else at_ac (next_ac (ac d)) false (with_ram (put_at (ac d) v (ddram d)) d))
  else d.
(** The busy flag and the address counter. *)
Definition status (d : display) : Z := (if (busy d =? 0)%nat then 0 else 0x80) + ac d.
Definition asked (d : display) : display := set_busy (pred (busy d)) d.

Record display_ok (d : display) : Prop := {
  ac_ok : 0 <= ac d < 128;
  busy_ok : (busy d < 100)%nat;
  takes_ok : (takes d < 100)%nat;
}.

(** ** Ways to the display *)

Definition send_inst {hw} `{!IoPorts hw} (inst : Z) : St (lcd_state hw) unit :=
  by_bus
    (_ ← on_i2c (i2c_write_byte 0x48 0 (u8 inst)); mret tt)
    (outb 0x03 LCD_CONTROL_PORT;; outb inst LCD_DATA_PORT;; outb 0x02 LCD_CONTROL_PORT;;
     outb 0x03 LCD_CONTROL_PORT;; outb 0x01 LCD_CONTROL_PORT).
Definition send_data {hw} `{!IoPorts hw} (data : Z) : St (lcd_state hw) unit :=
  by_bus
    (_ ← on_i2c (i2c_write_byte 0x4a 0 (u8 data)); mret tt)
    (outb 0x07 LCD_CONTROL_PORT;; outb data LCD_DATA_PORT;; outb 0x06 LCD_CONTROL_PORT;;
     outb 0x07 LCD_CONTROL_PORT;; outb 0x05 LCD_CONTROL_PORT).

Class Wiring (hw : Type) `{!IoPorts hw} := {
  shows : lcd_state hw -> display -> Prop;
  shows_status s d : shows s d -> display_ok d -> exists s', lcd_read_inst s = (status d, s') /\ shows s' (asked d);
  shows_inst s d i : shows s d -> 0 <= i < 256 -> exists s', send_inst i s = (tt, s') /\ shows s' (instruction i d);
  shows_data s d v : shows s d -> 0 <= v < 256 -> exists s', send_data v s = (tt, s') /\ shows s' (datum v d);
}.

Section Display.
Context {hw : Type} `{!IoPorts hw, !Wiring hw}.

(** After a computation the display is in a state with a property. *)
Definition leads {A} (m : St (lcd_state hw) A) (d : display) (P : A -> display -> Prop) : Prop :=
  forall s, shows s d -> exists a s' d', m s = (a, s') /\ shows s' d' /\ P a d'.

Lemma leads_ret {A} (a : A) d (P : A -> display -> Prop) : P a d -> leads (mret a) d P.
Proof. intros Hp s Hs. by exists a, s, d. Qed.
Lemma leads_bind {A B} (m : St (lcd_state hw) A) (k : A -> St (lcd_state hw) B) d P Q :
  leads m d P -> (forall a d', P a d' -> leads (k a) d' Q) -> leads (m ≫= k) d Q.
Proof.
  intros Hm Hk s Hs. destruct (Hm s Hs) as (a & s1 & d1 & E & Hs1 & Hp).
  destruct (Hk a d1 Hp s1 Hs1) as (b & s2 & d2 & E2 & Hs2 & Hq). exists b, s2, d2.
  split; [|by split]. unfold mbind, St_bind. by rewrite E.
Qed.
Lemma leads_weaken {A} (m : St (lcd_state hw) A) d (P Q : A -> display -> Prop) :
  leads m d P -> (forall a d', P a d' -> Q a d') -> leads m d Q.
Proof. intros Hm Hpq s Hs. destruct (Hm s Hs) as (a & s1 & d1 & E & Hs1 & Hp). exists a, s1, d1. by split_and!; [| |apply Hpq]. Qed.

Lemma status_busy d : display_ok d -> (Z.land (status d) 0x80 =? 0) = (busy d =? 0)%nat.
Proof.
  intros [Hac _ _]. unfold status. assert (Hl : Z.land (ac d) 0x80 = 0).
  { apply Z.bits_inj'. intros n Hn. rewrite Z.land_spec, Z.bits_0. destruct (decide (n = 7)) as [->|Hn7].
    - rewrite <- (Z.mod_small (ac d) (2 ^ 7)), Z.mod_pow2_bits_high by lia. done.
    - change 0x80 with (2 ^ 7). by rewrite (Z.pow2_bits_false 7 n) by done; rewrite andb_false_r. }
  destruct (Nat.eqb_spec (busy d) 0) as [E|E].
  - rewrite Z.add_0_l, Hl. done.
  - apply Z.eqb_neq. replace (0x80 + ac d) with (Z.lor (Z.shiftl 1 7) (ac d)) by (rewrite lor_shifted by lia; done).
    rewrite Z.land_lor_distr_l, Hl, Z.lor_0_r. done.
Qed.

(** Waiting ends with the display ready. *)
Lemma lcd_poll_wait_leads d : display_ok d -> leads lcd_poll_wait d (fun _ d' => d' = set_busy 0 d).
Proof.
  intros Hd s Hs. unfold lcd_poll_wait.
  destruct (poll_ready (inst ← lcd_read_inst; mret (if Z.land inst 0x80 =? 0 then Some tt else None))
    (fun j s => shows s (set_busy j d) /\ (j < 100)%nat) (fun _ s => shows s (set_busy 0 d)) LCD_MAX_POLL (busy d) s) as (a & s' & E & Hs').
  - intros j s1 [H1 Hj]. destruct (shows_status s1 (set_busy (S j) d) H1) as (s2 & E & H2); [split; [apply Hd|done|apply Hd]|].
    exists s2. unfold mbind, St_bind. rewrite E, status_busy by (split; [apply Hd|done|apply Hd]).
    split; [done|]. split; [done|lia].
  - intros s1 [H1 _]. destruct (shows_status s1 (set_busy 0 d) H1) as (s2 & E & H2); [split; [apply Hd|simpl; lia|apply Hd]|].
    exists tt, s2. unfold mbind, St_bind. rewrite E, status_busy by (split; [apply Hd|simpl; lia|apply Hd]). done.
  - split; [by destruct d|apply Hd].
  - unfold LCD_MAX_POLL. pose proof (busy_ok d Hd). lia.
  - exists tt, s', (set_busy 0 d). split; [unfold mbind at 1, St_bind at 1; by rewrite E|done].
Qed.

Lemma lcd_write_inst_leads d i : display_ok d -> 0 <= i < 256 ->
  leads (lcd_write_inst i) d (fun _ d' => d' = set_busy (takes d) (execute i (set_busy 0 d))).
Proof.
  intros Hd Hi. change (lcd_write_inst i) with (lcd_poll_wait;; send_inst i).
  eapply leads_bind; [by apply lcd_poll_wait_leads|]. intros _ d' -> s Hs.
  destruct (shows_inst s _ i Hs Hi) as (s' & E & Hs'). by exists tt, s', (instruction i (set_busy 0 d)).
Qed.
Lemma lcd_write_data_leads d v : display_ok d -> 0 <= v < 256 ->
  leads (lcd_write_data v) d (fun _ d' => d' = datum v (set_busy 0 d)).
Proof.
  intros Hd Hv. change (lcd_write_data v) with (lcd_poll_wait;; send_data v).
  eapply leads_bind; [by apply lcd_poll_wait_leads|]. intros _ d' -> s Hs.
  destruct (shows_data s _ v Hs Hv) as (s' & E & Hs'). by exists tt, s', (datum v (set_busy 0 d)).
Qed.

(** [n] places from [a] on are in one line. *)
Definition in_line (a n : Z) : Prop := n = 0 \/ (0 <= a /\ a + n <= 0x28) \/ (0x40 <= a /\ a + n <= 0x68).
(** The display after some characters: the rest of both memories is as it was. *)
Definition written (a : Z) (str : list Z) (d d' : display) : Prop :=
  ddram d' = stored a str (ddram d) /\ cgram d' = cgram d /\ in_cg d' = false /\ display_ok d'.

Lemma next_ac_in_line a : in_line a 1 -> 0 <= a < 128 /\ 0 <= next_ac a < 128.
Proof. unfold in_line, next_ac. intros H. destruct (Z.eqb_spec a 0x27), (Z.eqb_spec a 0x67); lia. Qed.

Lemma lcd_write_str_leads str d : display_ok d -> in_cg d = false -> bytes_ok str -> in_line (ac d) (Z.of_nat (length str)) ->
  leads (lcd_write_str str) d (fun _ d' => written (ac d) str d d').
Proof.
  intros Hd Hcg Hstr. revert d Hd Hcg. unfold lcd_write_str. induction Hstr as [|c str Hc _ IH]; intros d Hd Hcg Hline; cbn [each length] in *.
  - apply leads_ret. unfold written. by rewrite stored_nil.
  - eapply leads_bind; [apply lcd_write_data_leads; [done|by rewrite u8_small]|]. intros _ d' ->. rewrite u8_small by done.
    assert (H1 : in_line (ac d) 1) by (unfold in_line in *; lia). pose proof (next_ac_in_line _ H1) as [Ha Hn].
    unfold datum. cbn [busy set_busy Nat.eqb in_cg]. rewrite Hcg.
    eapply leads_weaken; [apply IH; [destruct Hd; split; simpl; lia|done|]|].
    + cbn. unfold in_line, next_ac in *. destruct (Z.eqb_spec (ac d) 0x27), (Z.eqb_spec (ac d) 0x67); lia.
    + intros _ d' (E1 & E2 & E3 & E4). unfold written. cbn in E1, E2. split; [|done]. rewrite E1.
      destruct str as [|c' str]; [by rewrite <- (stored_cons (ac d) c), !stored_nil|].
      rewrite <- (stored_cons (ac d) c). replace (next_ac (ac d)) with (ac d + 1); [done|]. unfold in_line, next_ac in *. cbn [length] in Hline.
      destruct (Z.eqb_spec (ac d) 0x27), (Z.eqb_spec (ac d) 0x67); lia.
Qed.

Lemma set_pos_inst pos : 0 <= pos < 128 -> Z.lor (Z.land pos 0x7f) LCD_SET_POS_MASK = 0x80 + pos.
Proof.
  intros Hp. change 0x7f with (Z.ones 7). rewrite Z.land_ones, Z.mod_small, Z.lor_comm by lia.
  change LCD_SET_POS_MASK with (Z.shiftl 1 7). by rewrite lor_shifted by lia.
Qed.
Lemma lcd_set_cur_pos_leads d pos : display_ok d -> 0 <= pos < 128 ->
  leads (lcd_set_cur_pos pos) d (fun _ d' => d' = set_busy (takes d) (at_ac pos false (set_busy 0 d))).
Proof.
  intros Hd Hp. unfold lcd_set_cur_pos. rewrite set_pos_inst by done.
  eapply leads_weaken; [apply lcd_write_inst_leads; [done|lia]|]. intros _ d' ->. unfold execute.
  rewrite (proj2 (Z.leb_le 0x80 (0x80 + pos))) by lia. by replace (0x80 + pos - 0x80) with pos by lia.
Qed.

(** A string at a place. *)
Lemma lcd_write_str_at_leads pos str d : display_ok d -> 0 <= pos < 128 -> bytes_ok str -> in_line pos (Z.of_nat (length str)) ->
  leads (lcd_write_str_at pos str) d (fun _ d' => written pos str d d').
Proof.
  intros Hd Hp Hs Hl. unfold lcd_write_str_at. eapply leads_bind; [by apply lcd_set_cur_pos_leads|]. intros _ d' ->.
  eapply leads_weaken; [apply lcd_write_str_leads; [destruct Hd; split; simpl; lia|done|done|done]|].
  intros ? ? H. exact H.
Qed.

(** The eight bytes of a character. *)
Definition glyph (c : Z) : Z := 8 * (c mod 8).
Lemma glyph_inst c : Z.lor LCD_SET_CHAR_MASK (Z.land (Z.shiftl c 3) 0x3f) = 0x40 + glyph c.
Proof.
  unfold glyph. change 0x3f with (Z.ones 6). rewrite Z.land_ones, Z.shiftl_mul_pow2 by lia. change (2 ^ 3) with 8. change (2 ^ 6) with (8 * 8).
  rewrite (Z.mul_comm c 8), Z.mul_mod_distr_l by lia. pose proof (Z.mod_pos_bound c 8 ltac:(lia)).
  change LCD_SET_CHAR_MASK with (Z.shiftl 1 6). by rewrite lor_shifted by (simpl; lia).
Qed.
Lemma write_glyph_leads data d : display_ok d -> in_cg d = true -> bytes_ok data -> ac d + Z.of_nat (length data) <= 64 ->
  leads (each lcd_write_data data) d (fun _ d' => ddram d' = ddram d /\ cgram d' = stored (ac d) data (cgram d) /\ display_ok d').
Proof.
  intros Hd Hcg Hdata. revert d Hd Hcg. induction Hdata as [|v data Hv _ IH]; intros d Hd Hcg Hend; cbn [each length] in *.
  - apply leads_ret. by rewrite stored_nil.
  - eapply leads_bind; [by apply lcd_write_data_leads|]. intros _ d' ->.
    unfold datum. cbn [busy set_busy Nat.eqb in_cg]. rewrite Hcg. pose proof (ac_ok d Hd) as Ha.
    assert (Hm : 0 <= (ac d + 1) mod 64 < 64) by (by apply Z.mod_pos_bound).
    eapply leads_weaken; [apply IH; [destruct Hd; split; simpl; lia|done|]|].
    + cbn. destruct (Z.eq_dec (ac d) 63) as [->|]; [change ((63 + 1) mod 64) with 0; lia|]. rewrite Z.mod_small by lia. lia.
    + intros _ d' (E1 & E2 & E3). cbn in E1, E2. split; [done|]. split; [|done]. rewrite E2.
      destruct data as [|v' data]; [by rewrite <- (stored_cons (ac d) v), !stored_nil|].
      cbn [length] in Hend. rewrite Z.mod_small by lia. by rewrite <- (stored_cons (ac d) v).
Qed.

Lemma status_pos d : display_ok d -> Z.land (status d) 0x7f = ac d.
Proof.
  intros [Hac _ _]. unfold status. change 0x7f with (Z.ones 7). rewrite Z.land_ones by lia.
  destruct (busy d =? 0)%nat; [by rewrite Z.mod_small by lia|].
  replace (0x80 + ac d) with (ac d + 1 * 2 ^ 7) by lia. rewrite Z.mod_add by lia. by apply Z.mod_small.
Qed.

(** A character of the program's own.  On either kind of board, whatever the display still has
    to do, [lcd_set_char] puts the eight bytes in the place of character [c], leaves every
    other byte of both memories, and leaves the cursor in the text at the place it was. *)
Theorem lcd_set_char_defines c data d s :
  shows s d -> display_ok d -> in_cg d = false -> bytes_ok data -> (8 <= length data)%nat ->
  exists s' d', lcd_set_char c data s = (tt, s') /\ shows s' d' /\
    ddram d' = ddram d /\ cgram d' = stored (glyph c) (take 8 data) (cgram d) /\ ac d' = ac d /\ in_cg d' = false.
Proof.
  intros Hs Hd Hcg Hdata Hlen. enough (leads (lcd_set_char c data) d (fun _ d' =>
    ddram d' = ddram d /\ cgram d' = stored (glyph c) (take 8 data) (cgram d) /\ ac d' = ac d /\ in_cg d' = false)) as Hl.
  { destruct (Hl s Hs) as ([] & s' & d' & E & Hs' & P). by exists s', d'. }
  assert (Hg : 0 <= glyph c /\ glyph c + 8 <= 64) by (unfold glyph; pose proof (Z.mod_pos_bound c 8 ltac:(lia)); lia).
  unfold lcd_set_char.
  eapply (leads_bind _ _ _ (fun pos d' => pos = ac d /\ d' = asked d)).
  { intros s1 Hs1. destruct (shows_status s1 d Hs1 Hd) as (s2 & E & Hs2). exists (ac d), s2, (asked d).
    unfold lcd_get_cur_pos, mbind, St_bind. rewrite E, status_pos by done. done. }
  intros pos d1 [-> ->]. assert (Hd1 : display_ok (asked d)) by (destruct Hd; split; simpl; lia).
  rewrite glyph_inst. eapply leads_bind; [apply lcd_write_inst_leads; [done|lia]|]. intros _ d2 ->.
  assert (Ex : execute (0x40 + glyph c) (set_busy 0 (asked d)) = at_ac (glyph c) true (set_busy 0 (asked d))).
  { unfold execute. rewrite (proj2 (Z.leb_gt 0x80 _)), (proj2 (Z.leb_le 0x40 _)) by lia.
    by replace (64 + glyph c - 64) with (glyph c) by lia. }
  rewrite Ex. eapply leads_bind.
  { apply write_glyph_leads; [destruct Hd; split; simpl; lia|done|by apply Forall_take|simpl; rewrite length_take; lia]. }
  intros _ d3 (E1 & E2 & Hd3). eapply leads_weaken; [apply lcd_set_cur_pos_leads; [done|apply Hd]|].
  intros _ d4 ->. done.
Qed.
End Display.

(** ** The display behind the parallel port *)

(** The data lines are as written, the enable line is the inverse of bit 0 of the control port,
    bit 1 selects a write, bit 2 the data register, bit 3 the buttons, bit 5 turns the data lines
    round.  The display takes what is on the lines when the enable line falls. *)
Record parallel := mk_parallel { control : Z; lines : Z; behind_port : display; pressed : Z }.
Definition enable (c : Z) : bool := negb (Z.testbit c 0).
Definition falls (p : parallel) : display :=
  let d := behind_port p in
  if Z.testbit (control p) 1 then if Z.testbit (control p) 2 then datum (lines p) d else instruction (lines p) d
  else if Z.testbit (control p) 2 then at_ac (if in_cg d then (ac d + 1) mod 64 else next_ac (ac d)) (in_cg d) d
  else d.
#[export] Instance parallel_ports : IoPorts parallel := {|
  port_out n v port p :=
    if port =? LCD_DATA_PORT then mk_parallel (control p) v (behind_port p) (pressed p)
    else if port =? LCD_CONTROL_PORT then
      mk_parallel v (lines p) (if enable (control p) && negb (enable v) then falls p else behind_port p) (pressed p)
    else p;
  port_in n port p :=
    if port =? LCD_DATA_PORT then
      if Z.testbit (control p) 3 then (pressed p, p)
      else if enable (control p) && negb (Z.testbit (control p) 1) && Z.testbit (control p) 5 then
        let d := behind_port p in
        if Z.testbit (control p) 2 then ((if in_cg d then cgram d else ddram d) (ac d), p)
        else (status d, mk_parallel (control p) (lines p) (asked d) (pressed p))
      else (0xff, p)
    else (0xff, p);
|}.

(** The driver uses the port, and the enable line is low. *)
Definition at_port (s : lcd_state parallel) (d : display) : Prop :=
  use_i2c s = false /\ behind_port (bus_hw (lcd_bus s)) = d /\ enable (control (bus_hw (lcd_bus s))) = false.

Lemma status_byte d : display_ok d -> 0 <= status d < 256.
Proof. intros [Hac _ _]. unfold status. destruct (busy d =? 0)%nat; lia. Qed.

Lemma bind_step {S A B} (m : St S A) (k : A -> St S B) s a s' : m s = (a, s') -> (m ≫= k) s = k a s'.
Proof. intros E. unfold mbind, St_bind. by rewrite E. Qed.

Section Port.
Context (ty io pr : Z).
Definition on_port (c l : Z) (d : display) : lcd_state parallel :=
  mk_lcd_state (mk_i2c_state (mk_parallel c l d pr) ty io) false.
Lemma outb_lines v c l d : outb v LCD_DATA_PORT (on_port c l d) = (tt, on_port c (u8 v) d).
Proof. reflexivity. Qed.
Lemma outb_control v c l d : outb v LCD_CONTROL_PORT (on_port c l d) =
  (tt, on_port (u8 v) l (if enable c && negb (enable (u8 v)) then falls (mk_parallel c l d pr) else d)).
Proof. reflexivity. Qed.
Lemma inb_status l d : display_ok d -> inb LCD_DATA_PORT (on_port 0x20 l d) = (status d, on_port 0x20 l (asked d)).
Proof. intros Hd. transitivity (u8 (status d), on_port 0x20 l (asked d)); [reflexivity|]. by rewrite u8_small by (by apply status_byte). Qed.
Lemma by_bus_port {A} (x y : St (lcd_state parallel) A) c l d : by_bus x y (on_port c l d) = y (on_port c l d).
Proof. reflexivity. Qed.
End Port.

Lemma at_port_is s d : at_port s d -> exists ty io pr c l, s = on_port ty io pr c l d /\ enable c = false.
Proof. destruct s as [[[c l d0 b] ty io] i2c]. intros (Hu & <- & He). cbn in *. subst. by exists ty, io, b, c, l. Qed.

#[export, program] Instance parallel_wiring : Wiring parallel := {| shows := at_port |}.
Next Obligation.
  intros s d Hs Hd. destruct (at_port_is s d Hs) as (ty & io & pr & c & l & -> & He). unfold lcd_read_inst. rewrite by_bus_port.
  do 2 (erewrite bind_step by apply outb_control). rewrite He. cbn [andb].
  erewrite bind_step by (by apply inb_status). do 2 (erewrite bind_step by apply outb_control).
  eexists. split; [reflexivity|]. by split_and!.
Qed.
Next Obligation.
  intros s d i Hs Hi. destruct (at_port_is s d Hs) as (ty & io & pr & c & l & -> & He). unfold send_inst. rewrite by_bus_port.
  erewrite bind_step by apply outb_control. erewrite bind_step by apply outb_lines.
  do 2 (erewrite bind_step by apply outb_control). rewrite outb_control, He, (u8_small i) by done.
  eexists. split; [reflexivity|]. by split_and!.
Qed.
Next Obligation.
  intros s d i Hs Hi. destruct (at_port_is s d Hs) as (ty & io & pr & c & l & -> & He). unfold send_data. rewrite by_bus_port.
  erewrite bind_step by apply outb_control. erewrite bind_step by apply outb_lines.
  do 2 (erewrite bind_step by apply outb_control). rewrite outb_control, He, (u8_small i) by done.
  eexists. split; [reflexivity|]. by split_and!.
Qed.

(** ** The display behind the bus *)

(** A controller of the 5000 series at [SMB_BASE] that is done at once, with the display and the
    buttons as its devices. *)
Definition SMB_BASE : Z := 0x580.
Record smb_panel := mk_smb_panel { sm_addr : Z; sm_data : Z; behind_bus : display; sm_pressed : Z }.
Definition sm_transfer (p : smb_panel) : smb_panel :=
  let d := behind_bus p in
  let with_disp d := mk_smb_panel (sm_addr p) (sm_data p) d (sm_pressed p) in
  if sm_addr p =? 0x48 then with_disp (instruction (sm_data p) d)
  else if sm_addr p =? 0x4a then with_disp (datum (sm_data p) d)
  else if sm_addr p =? 0x49 then mk_smb_panel (sm_addr p) (status d) (asked d) (sm_pressed p)
  else if sm_addr p =? 0x41 then mk_smb_panel (sm_addr p) (sm_pressed p) d (sm_pressed p)
  else p.
#[export] Instance smb_panel_ports : IoPorts smb_panel := {|
  port_out n v port p :=
    let r := port - SMB_BASE in
    if r =? 2 then if Z.testbit v 6 then sm_transfer p else p
    else if r =? 4 then mk_smb_panel v (sm_data p) (behind_bus p) (sm_pressed p)
    else if r =? 5 then mk_smb_panel (sm_addr p) v (behind_bus p) (sm_pressed p)
    else p;
  port_in n port p :=
    let r := port - SMB_BASE in (if r =? 0 then 0 else if r =? 5 then sm_data p else 0xff, p);
|}.

Section Bus.
Context (pr : Z).
Definition on_smb (a v : Z) (d : display) : lcd_state smb_panel :=
  mk_lcd_state (mk_i2c_state (mk_smb_panel a v d pr) SYSTYPE_5K SMB_BASE) true.
Lemma by_bus_smb {A} (x y : St (lcd_state smb_panel) A) a v d : by_bus x y (on_smb a v d) = x (on_smb a v d).
Proof. reflexivity. Qed.
Lemma smb_writes dv val a v d : Z.land dv 0xff = dv -> u8 dv = dv ->
  on_i2c (i2c_write_byte dv 0 val) (on_smb a v d) =
    (0, mk_lcd_state (mk_i2c_state (sm_transfer (mk_smb_panel dv (u8 (Z.land val 0xff)) d pr)) SYSTYPE_5K SMB_BASE) true).
Proof.
  intros E1 E2. transitivity (0, mk_lcd_state (mk_i2c_state (sm_transfer (mk_smb_panel (u8 (Z.land dv 0xff)) (u8 (Z.land val 0xff)) d pr)) SYSTYPE_5K SMB_BASE) true);
    [reflexivity|]. by rewrite E1, E2.
Qed.
Lemma smb_reads_status a v d : display_ok d -> on_i2c (i2c_read_byte 0x49 0) (on_smb a v d) = (status d, on_smb 0x49 (status d) (asked d)).
Proof.
  intros Hd. transitivity (u8 (status d), on_smb 0x49 (status d) (asked d)); [reflexivity|]. by rewrite u8_small by (by apply status_byte).
Qed.
End Bus.

(** The driver uses the bus. *)
Definition at_smb (s : lcd_state smb_panel) (d : display) : Prop := exists pr a v, s = on_smb pr a v d.
#[export, program] Instance bus_wiring : Wiring smb_panel := {| shows := at_smb |}.
Next Obligation.
  intros s d (pr & a & v & ->) Hd. unfold lcd_read_inst. rewrite by_bus_smb. erewrite bind_step by (by apply smb_reads_status).
  eexists. rewrite u8_small by (by apply status_byte). split; [reflexivity|]. by eexists _, _, _.
Qed.
Next Obligation.
  intros s d i (pr & a & v & ->) Hi. unfold send_inst. rewrite by_bus_smb. erewrite bind_step by (by apply smb_writes).
  eexists. split; [reflexivity|]. rewrite (u8_small i) by done.
  rewrite (land_small 8 i ltac:(lia) Hi : Z.land i 255 = i), u8_small by done.
  by eexists _, _, _.
Qed.
Next Obligation.
  intros s d i (pr & a & v & ->) Hi. unfold send_data. rewrite by_bus_smb. erewrite bind_step by (by apply smb_writes).
  eexists. split; [reflexivity|]. rewrite (u8_small i) by done.
  rewrite (land_small 8 i ltac:(lia) Hi : Z.land i 255 = i), u8_small by done.
  by eexists _, _, _.
Qed.

(** ** The menus on the panel *)

(** A machine whose panel is the one of lcd.c. *)
Section PanelMachine.
Context {hw fun_ : Type} `{!IoPorts hw} (c : Machine fun_ (lcd_state hw)).
Definition panel_machine : Machine fun_ (lcd_state hw) := {|
  print := @print _ _ c;
  readline := @readline _ _ c;
  readline_history := @readline_history _ _ c;
  credits := @credits _ _ c;
  call := @call _ _ c;
  Menu.lcd_set_cur_pos p s := (Lcd.lcd_set_cur_pos p s).2;
  Menu.lcd_write_str l s := (Lcd.lcd_write_str l s).2;
  Menu.lcd_button_read := Lcd.lcd_button_read;
|}.
End PanelMachine.

(** A text in a line of twenty characters. *)
Definition line (l : list Z) : list Z := l ++ replicate (20 - length l) 32.

Lemma stored_over a t b f : (length t <= length b)%nat -> stored a t (stored a b f) = stored a (t ++ drop (length t) b) f.
Proof.
  intros Hl. apply functional_extensionality. intros x. unfold stored. rewrite length_app, length_drop.
  replace (length t + (length b - length t))%nat with (length b) by lia.
  destruct (Z.leb_spec a x), (Z.ltb_spec x (a + Z.of_nat (length t))), (Z.ltb_spec x (a + Z.of_nat (length b))); try lia; cbn [andb]; try done.
  - by rewrite app_nth1 by lia.
  - rewrite app_nth2 by lia. rewrite nth_skipn. f_equal. lia.
Qed.
Lemma drop_blanks n : drop n blank_line = replicate (20 - n) 32.
Proof. unfold blank_line. by rewrite skipn_replicate || by rewrite drop_replicate. Qed.

Section Shown.
Context {hw fun_ : Type} `{!IoPorts hw, !Wiring hw} (c : Machine fun_ (lcd_state hw)).
#[local] Instance on_panel : Machine fun_ (lcd_state hw) := panel_machine c.

Definition runs {A} (m : Run (lcd_state hw) A) (d : display) (P : A -> display -> Prop) : Prop :=
  forall s, shows s d -> exists a s' d', m s = Some (a, s') /\ shows s' d' /\ P a d'.
Lemma runs_bind {A B} (m : Run (lcd_state hw) A) (k : A -> Run (lcd_state hw) B) d P Q :
  runs m d P -> (forall a d', P a d' -> runs (k a) d' Q) -> runs (m ≫= k) d Q.
Proof.
  intros Hm Hk s Hs. destruct (Hm s Hs) as (a & s1 & d1 & E & Hs1 & Hp).
  destruct (Hk a d1 Hp s1 Hs1) as (b & s2 & d2 & E2 & Hs2 & Hq). exists b, s2, d2.
  split; [|by split]. unfold mbind, Run_bind. by rewrite E.
Qed.
Lemma runs_lift {A} (o : option A) a d (P : A -> display -> Prop) : o = Some a -> P a d -> runs (Menu.lift o) d P.
Proof. intros -> Hp s Hs. by exists a, s, d. Qed.
Lemma runs_act (f : lcd_state hw -> lcd_state hw) (m : St (lcd_state hw) unit) d P :
  (forall s, f s = (m s).2) -> leads m d P -> runs (act f) d P.
Proof.
  intros Hf Hm s Hs. destruct (Hm s Hs) as ([] & s' & d' & E & Hs' & Hp). exists tt, s', d'.
  split; [|by split]. unfold act. by rewrite Hf, E.
Qed.

(** What a line is like when it has been cleared: the cursor is at its start. *)
Definition cleared (pos : Z) (d d' : display) : Prop :=
  ddram d' = stored pos blank_line (ddram d) /\ cgram d' = cgram d /\ in_cg d' = false /\ ac d' = pos /\ display_ok d'.
Lemma clear_line_runs pos d : display_ok d -> pos = 0x00 \/ pos = 0x40 -> runs (Menu.clear_line pos) d (fun _ d' => cleared pos d d').
Proof.
  intros Hd Hpos. assert (0 <= pos < 128) by lia. unfold Menu.clear_line.
  eapply runs_bind; [by apply (runs_act _ (Lcd.lcd_set_cur_pos pos)), lcd_set_cur_pos_leads|]. intros _ d1 ->.
  eapply runs_bind.
  { apply (runs_act _ (Lcd.lcd_write_str blank_line)); [done|].
    apply lcd_write_str_leads; [destruct Hd; split; simpl; lia|done|by apply Forall_replicate|simpl; unfold in_line; lia]. }
  intros _ d2 (E1 & E2 & _ & Hd2). cbn in E1, E2.
  intros s Hs. destruct (runs_act (Menu.lcd_set_cur_pos pos) (Lcd.lcd_set_cur_pos pos) d2
    (fun _ d' => d' = set_busy (takes d2) (at_ac pos false (set_busy 0 d2))) ltac:(done) ltac:(by apply lcd_set_cur_pos_leads) s Hs)
    as (a & s' & d' & E & Hs' & ->).
  exists a, s', (set_busy (takes d2) (at_ac pos false (set_busy 0 d2))). split; [done|]. split; [done|].
  unfold cleared. cbn. split_and!; try done. destruct Hd2. split; simpl; lia.
Qed.
Lemma write_cleared pos str d d' : cleared pos d d' -> pos = 0x00 \/ pos = 0x40 -> bytes_ok str -> (length str <= 20)%nat ->
  runs (act (Menu.lcd_write_str str)) d' (fun _ d2 => written pos (line str) d d2).
Proof.
  intros (E1 & E2 & Hcg & Eac & Hd) Hpos Hs Hl s Hshow.
  destruct (runs_act (Menu.lcd_write_str str) (Lcd.lcd_write_str str) d' _ ltac:(done)
    (lcd_write_str_leads str d' Hd Hcg Hs ltac:(rewrite Eac; unfold in_line; lia)) s Hshow) as (a & s2 & d2 & E & Hs2 & (F1 & F2 & F3 & F4)).
  exists a, s2, d2. split; [done|]. split; [done|]. split; [|split_and!; [by rewrite F2|done|done]].
  rewrite F1, E1, Eac, stored_over by (simpl; lia). by rewrite drop_blanks.
Qed.
End Shown.

(** The texts of the menus of the panel fit in its lines. *)
Definition fits (s : string) : bool :=
  (length (chars s) <=? 20)%nat && forallb (fun c => (0 <=? c) && (c <? 256)) (chars s).
Definition menu_fits (n : menu_name) : bool :=
  match title (the_item n), items_of the_item the_array (At n) with
  | Some t, Some l => fits t && forallb (fun r => fits (cmd (deref the_item r))) l
  | _, _ => false
  end.
Lemma lcd_menus_fit : Forall (fun n => menu_fits n = true) lcd_menus.
Proof. by repeat constructor. Qed.
Lemma fits_ok s : fits s = true -> (length (chars s) <= 20)%nat /\ bytes_ok (chars s).
Proof.
  unfold fits. rewrite andb_true_iff, Nat.leb_le, forallb_forall. intros [Hl Hb]. split; [done|].
  apply Forall_forall. intros c Hc. specialize (Hb c ltac:(by apply list_elem_of_In)). lia.
Qed.

(** C25: what a menu of the panel shows.  For every menu of the panel in the monitor's table and
    every item of it, on either kind of board, whatever stood on the display: if what the
    display still has to do, and each operation from then on, takes fewer than 100 looks at
    its status (the driver does not wait longer), [menu_handle_lcd] writes the title in the
    first line and the item in the second, each filled up with blanks to twenty characters,
    and no other byte of the display. *)
Theorem lcd_menu_shown {hw} `{!IoPorts hw, !Wiring hw} (c : Machine menu_func (lcd_state hw)) n l item r s d :
  n ∈ lcd_menus -> items_of the_item the_array (At n) = Some l -> l !! item = Some r -> shows s d -> display_ok d ->
  exists t s' d', title (the_item n) = Some t /\
    lcd_show (Machine0 := panel_machine c) the_item the_array (At n) (Z.of_nat item) s = Some (tt, s') /\ shows s' d' /\
    ddram d' = stored 0x40 (line (chars (cmd (deref the_item r)))) (stored 0x00 (line (chars t)) (ddram d)) /\
    cgram d' = cgram d.
Proof.
  intros Hn Hi Hr Hs Hd. pose proof lcd_menus_fit as Hf. rewrite Forall_forall in Hf. specialize (Hf n Hn).
  unfold menu_fits in Hf. rewrite Hi in Hf. destruct (title (the_item n)) as [t|] eqn:Et; [|done].
  apply andb_prop in Hf as [Hft Hfl]. rewrite forallb_forall in Hfl.
  destruct (fits_ok t Hft) as [Hlt Hbt].
  destruct (fits_ok _ (Hfl r ltac:(by eapply list_elem_of_In, list_elem_of_lookup_2))) as [Hlc Hbc].
  enough (runs (lcd_show (Machine0 := panel_machine c) the_item the_array (At n) (Z.of_nat item)) d (fun _ d' =>
    ddram d' = stored 0x40 (line (chars (cmd (deref the_item r)))) (stored 0x00 (line (chars t)) (ddram d)) /\ cgram d' = cgram d)) as Hrun.
  { destruct (Hrun s Hs) as ([] & s' & d' & E & Hs' & P). by exists t, s', d'. }
  unfold lcd_show, lcd_title.
  eapply (runs_bind _ _ _ (fun _ d' => exists d1, written 0x00 (line (chars t)) d d1 /\ cleared 0x40 d1 d')).
  { eapply runs_bind; [apply clear_line_runs; [done|by left]|]. intros [] d1 Hc1.
    eapply runs_bind; [by apply (runs_lift _ t _ (fun x d' => x = t /\ d' = d1))|]. intros t' d2 [-> ->].
    eapply runs_bind; [apply (write_cleared c 0x00 (chars t) d d1 Hc1); [by left|done|done]|]. intros [] d2 Hw.
    intros s1 Hs1. destruct (clear_line_runs c 0x40 d2 ltac:(apply Hw) ltac:(by right) s1 Hs1) as (a & s2 & d3 & E & Hs2 & Hc2).
    exists a, s2, d3. split; [exact E|]. split; [done|]. by exists d2. }
  intros [] d' (d1 & Hw & Hc).
  eapply runs_bind; [by apply (runs_lift _ l _ (fun x d2 => x = l /\ d2 = d'))|]. intros l' d2 [-> ->].
  eapply runs_bind; [by apply (runs_lift _ r _ (fun x d2 => x = r /\ d2 = d')); [rewrite Nat2Z.id|]|]. intros r' d2 [-> ->].
  intros s1 Hs1. destruct (write_cleared c 0x40 (chars (cmd (deref the_item r))) d1 d' Hc ltac:(by right) Hbc Hlc s1 Hs1)
    as (a & s2 & d2 & E & Hs2 & (F1 & F2 & _)).
  exists a, s2, d2. split; [exact E|]. split; [done|]. destruct Hw as (G1 & G2 & _). by rewrite F1, F2, G1, G2.
Qed.

(** A display that was just started, on either kind of board, and a machine that does nothing
    else. *)
Definition new_display : display := mk_display (fun _ => 0x20) (fun _ => 0) 5 false 99 99.
Definition by_port : lcd_state parallel := on_port SYSTYPE_3K 0 0xfe 0x01 0x38 new_display.
Definition by_smb : lcd_state smb_panel := on_smb 0x3f 0x48 0x01 new_display.
Definition idle_machine {fun_ W} : Machine fun_ W := {|
  print _ w := w;
  readline w := Some ([], w);
  readline_history w := w;
  credits w := w;
  call _ _ w := Some (0, w);
  Menu.lcd_set_cur_pos _ w := w;
  Menu.lcd_write_str _ w := w;
  Menu.lcd_button_read w := (0xfe, w);
|}.
Lemma new_display_ok : display_ok new_display.
Proof. split; simpl; lia. Qed.

Lemma lcd_set_char_defines_witness :
  (exists s' d', lcd_set_char 3 (seqZ 1 8) by_port = (tt, s') /\ shows s' d' /\
    ddram d' = ddram new_display /\ cgram d' = stored (glyph 3) (take 8 (seqZ 1 8)) (cgram new_display) /\ ac d' = 5 /\ in_cg d' = false) /\
  (exists s' d', lcd_set_char 3 (seqZ 1 8) by_smb = (tt, s') /\ shows s' d' /\
    ddram d' = ddram new_display /\ cgram d' = stored (glyph 3) (take 8 (seqZ 1 8)) (cgram new_display) /\ ac d' = 5 /\ in_cg d' = false).
Proof.
  split; apply (lcd_set_char_defines 3 (seqZ 1 8) new_display); try exact new_display_ok; try reflexivity; try (repeat constructor; lia).
  exists 0x3f, 0x48, 0x01. reflexivity.
Defined.

Lemma lcd_menu_shown_witness :
  (exists t s' d', title (the_item lcd_bfd_menu) = Some t /\
    lcd_show (Machine0 := panel_machine idle_machine) the_item the_array (At lcd_bfd_menu) (Z.of_nat 24) by_port = Some (tt, s') /\ shows s' d' /\
    ddram d' = stored 0x40 (line (chars "md0")) (stored 0x00 (line (chars t)) (ddram new_display)) /\ cgram d' = cgram new_display) /\
  (exists t s' d', title (the_item lcd_bfd_menu) = Some t /\
    lcd_show (Machine0 := panel_machine idle_machine) the_item the_array (At lcd_bfd_menu) (Z.of_nat 24) by_smb = Some (tt, s') /\ shows s' d' /\
    ddram d' = stored 0x40 (line (chars "md0")) (stored 0x00 (line (chars t)) (ddram new_display)) /\ cgram d' = cgram new_display).
Proof.
  split; apply (lcd_menu_shown idle_machine lcd_bfd_menu lcd_bfd_menu_items_list 24 (nth 24 lcd_bfd_menu_items_list (At separator)));
    try exact new_display_ok; try reflexivity; try (apply (bool_decide_unpack _); reflexivity).
  - exact (conj eq_refl (conj eq_refl eq_refl)).
  - exists 0x3f, 0x48, 0x01. reflexivity.
Defined.
