(* ===== verification/Eeprom.v ===== *)
(** * Eeprom: the flash memory

    Model of [x86/common/eeprom.c], [x86/common/eeprom_ops.c] and [x86/common/spin.c].  The
    hardware is a parameter: bytes of the address space, ports and PCI configuration space.
    The function pointers of a chip type are its [driver]; output is recorded as the calls of
    [printf] with their arguments, and [delay] has no effect on the state.  [data] is the
    memory from the pointer on.  [None] is an access outside of an object, or a waiting loop
    that has taken [WAIT_TURNS] turns: the loops that count end before that, and the loops
    that do not count go on forever there. *)

From stdpp Require Import strings.
From S2P Require Import Prelude CString Printf CmosIo PciIo Pci Poll.
Open Scope list_scope.
Open Scope Z_scope.

(** Bytes of the address space. *)
Class Bytes (hw : Type) := {
  bus_read : Z -> hw -> Z * hw;
  bus_write : Z -> Z -> hw -> hw;
}.

Definition MAX_TIMEOUT : Z := 0x07ffffff.
Definition WAIT_TURNS : positive := 0x08000001.
Definition EEPROM_MAX_BANKS : Z := 2.
Definition ROM_PAGESIZE : Z := 0x10000.
Definition SW_MISC_CONTROL : Z := 0xC6F.
Definition SW_EEPROM_CSE : Z := 0x40.
Definition SW_BLACKBOX_CONTROL : Z := 0xC06.
Definition SW_BLACKBOX_FWE : Z := 0x02.
Definition FLAT_ROM_BASE_ADDR : Z := 0xffc00000.

Inductive driver := Amd | Intel.

(** [eeprom_type]. *)
Record eeprom_type := mk_eeprom_type { vendor_id : Z; device_id : Z; size : Z; name : string; ops : option driver }.

Definition eeprom_types : list eeprom_type := [
  mk_eeprom_type 0x01 0xd5 0x00100000 "AMD AM29F080B" (Some Amd);
  mk_eeprom_type 0x01 0xad 0x00200000 "AMD AM29F016B" (Some Amd);
  mk_eeprom_type 0x01 0x3d 0x00200000 "AMD AM29F017B - untested" (Some Amd);
  mk_eeprom_type 0x01 0x41 0x00400000 "AMD AM29F032B" (Some Amd);
  mk_eeprom_type 0x89 0xa6 0x00100000 "Intel E28F008S5/Sharp LM28F008SCT" (Some Intel);
  mk_eeprom_type 0x89 0xaa 0x00200000 "Intel E28F016S5/Sharp LM28016SCT" (Some Intel);
  mk_eeprom_type 0x20 0xf1 0x00100000 "ST Microelectronics M29F080A" (Some Amd);
  mk_eeprom_type 0xad 0xd5 0x00100000 "Hyundai HY29F080" (Some Amd);
  mk_eeprom_type 0x00 0x00 0x00000000 "Unknown flash module" None].

Section Eeprom.
Context {hw : Type} `{!Bytes hw, !IoPorts hw, !Config hw}.

(** The globals. *)
Record flash_state := mk_flash_state {
  fl_hw : hw;
  fl_systype : Z;
  rom : Z;
  flat_rom_base : Z;
  eeprom_bank : Z;
  eeprom_page : Z;
  eeproms : list (option eeprom_type);
  eeprom_ids : list Z;
  eeprom_ttl_size : Z;
  eeprom_fs_offset : Z;
  spinstat : Z;
  console : list (string * list arg);
}.
Abbreviation T := (Run flash_state).

Definition set_fl_hw (h : hw) (s : flash_state) : flash_state :=
  mk_flash_state h (fl_systype s) (rom s) (flat_rom_base s) (eeprom_bank s) (eeprom_page s) (eeproms s) (eeprom_ids s)
    (eeprom_ttl_size s) (eeprom_fs_offset s) (spinstat s) (console s).
Definition set_rom (r f : Z) (s : flash_state) : flash_state :=
  mk_flash_state (fl_hw s) (fl_systype s) r f (eeprom_bank s) (eeprom_page s) (eeproms s) (eeprom_ids s)
    (eeprom_ttl_size s) (eeprom_fs_offset s) (spinstat s) (console s).
Definition set_at (b p : Z) (s : flash_state) : flash_state :=
  mk_flash_state (fl_hw s) (fl_systype s) (rom s) (flat_rom_base s) b p (eeproms s) (eeprom_ids s)
    (eeprom_ttl_size s) (eeprom_fs_offset s) (spinstat s) (console s).
Definition set_eeproms (l : list (option eeprom_type)) (ids : list Z) (ttl : Z) (s : flash_state) : flash_state :=
  mk_flash_state (fl_hw s) (fl_systype s) (rom s) (flat_rom_base s) (eeprom_bank s) (eeprom_page s) l ids
    ttl (eeprom_fs_offset s) (spinstat s) (console s).
Definition set_fs_offset (n : Z) (s : flash_state) : flash_state :=
  mk_flash_state (fl_hw s) (fl_systype s) (rom s) (flat_rom_base s) (eeprom_bank s) (eeprom_page s) (eeproms s) (eeprom_ids s)
    (eeprom_ttl_size s) n (spinstat s) (console s).
Definition set_console (sp : Z) (l : list (string * list arg)) (s : flash_state) : flash_state :=
  mk_flash_state (fl_hw s) (fl_systype s) (rom s) (flat_rom_base s) (eeprom_bank s) (eeprom_page s) (eeproms s) (eeprom_ids s)
    (eeprom_ttl_size s) (eeprom_fs_offset s) sp l.

Definition ask {A} (f : flash_state -> A) : T A := fun s => Some (f s, s).
Definition chg (f : flash_state -> flash_state) : T unit := fun s => Some (tt, f s).
Definition stop {A} : T A := fun _ => None.
Definition lift {A} (o : option A) : T A := fun s => a ← o; Some (a, s).
(** A waiting loop. *)
Definition wait {L R} (turn : L -> St flash_state (L + R)) (l : L) : T R :=
  fun s => match turns turn WAIT_TURNS l s with (inr r, s) => Some (r, s) | (Datatypes.inl _, _) => None end.

Definition out (v port : Z) : T unit := chg (fun s => set_fl_hw (PciIo.outb v port (fl_hw s)) s).
Definition cfg_read (d fn reg size : Z) : T Z := fun s =>
  let '(v, h) := read_config 0 (PCI_DEVFN d fn) reg size (fl_hw s) in Some (v, set_fl_hw h s).
Definition cfg_write (d fn reg v size : Z) : T unit :=
  chg (fun s => set_fl_hw (write_config 0 (PCI_DEVFN d fn) reg v size (fl_hw s)) s).

(** [rom[i]]. *)
Definition peek (i : Z) : St flash_state Z := fun s =>
  let '(v, h) := bus_read (u32 (rom s + i)) (fl_hw s) in (u8 v, set_fl_hw h s).
Definition rd (i : Z) : T Z := fun s => Some (peek i s).
Definition poke (i v : Z) : St flash_state unit := fun s =>
  (tt, set_fl_hw (bus_write (u32 (rom s + i)) (u8 v) (fl_hw s)) s).
Definition wr (i v : Z) : T unit := fun s => Some (poke i v s).

(** [printf]. *)
Definition say_ (fmt : string) (args : list arg) : St flash_state unit := fun s =>
  (tt, set_console (spinstat s) (console s ++ [(fmt, args)]) s).
Definition say (fmt : string) (args : list arg) : T unit := fun s => Some (say_ fmt args s).
Definition says (b : bool) (l : list (string * list arg)) : T unit :=
  if b then (fix go l := match l with [] => mret tt | (f, a) :: l => say f a;; go l end) l else mret tt.

(** spin.c *)
Definition phases : list string := (["\b"; "\\"; "\b"; "|"; "\b"; "/"; "\b"; "-"])%string.
Definition spin_step : St flash_state unit := fun s =>
  let n := spinstat s in
  let '(_, s) := say_ (nth (Z.to_nat n) phases EmptyString) [] s in
  (tt, set_console (Z.rem (n + 1) 8) (console s) s).
Definition spin : St flash_state unit := spin_step;; spin_step.
Definition spin_ : T unit := fun s => Some (spin s).
Definition spin_reset : T unit := chg (fun s => set_console 0 (console s) s).

Definition sys (s : flash_state) : Z := Z.land (fl_systype s) 0xffff0000.
Definition brd (s : flash_state) : Z := Z.land (fl_systype s) 0x0000ffff.
Definition is_monterey (s : flash_state) : bool := (sys s =? SYSTYPE_5K) && (brd s =? BOARDTYPE_MONTEREY).

(** [eeproms[bank]]; banks outside of the table are outside of the object. *)
Definition eeprom_at (bank : Z) : T (option eeprom_type) :=
  l ← ask eeproms;
  if bank <? 0 then stop else lift (l !! Z.to_nat bank).
(** [eeproms[bank]->...] *)
Definition eeprom_of (bank : Z) : T eeprom_type := e ← eeprom_at bank; lift e.

(** ** Banks and pages *)

Definition eeprom_set_bank_page (bank page : Z) : T Z :=
  b ← ask brd;
  if EEPROM_MAX_BANKS <=? bank then mret (-1)
  else if (b =? BOARDTYPE_ALPINE) && negb (bank =? 0) then mret (-1)
  else
    ob ← ask eeprom_bank;
    op ← ask eeprom_page;
    if (ob =? bank) && (op =? page) then mret 0
    else
      y ← ask sys;
      (if y =? SYSTYPE_3K then
         flags ← cfg_read 3 0 0xb8 2;
         let flags := Z.lor (Z.land flags 0xff80) (Z.lor (Z.land page 0x3f) (Z.shiftl (Z.land bank 0x1) 6)) in
         cfg_write 3 0 0xb8 flags 2
       else if y =? SYSTYPE_5K then
         if b =? BOARDTYPE_MONTEREY then
           cfg_write 0xf 0 0x72 0x08 1;;
           out (Z.lor (Z.land page 0x3f) (Z.shiftl (Z.land bank 0x1) 6)) 0x900;;
           cfg_write 0xf 0 0x72 0x0c 1
         else if b =? BOARDTYPE_ALPINE then
           chg (fun s => set_rom (u32 (flat_rom_base s + page * 0x10000)) (flat_rom_base s) s)
         else mret tt
       else mret tt);;
      chg (set_at (s8 (u8 bank)) (s8 (u8 page)));;
      mret 0.

(** A call whose result is ignored. *)
Definition select (bank page : Z) : T unit := _ ← eeprom_set_bank_page bank page; mret tt.

(** ** AMD *)

Definition amd_reset : T unit := wr 0x00 0xf0.

(** The loops that wait for an erase: [r] and [timeout]. *)
Definition amd_erase_turn (output : bool) (l : Z * Z) : St flash_state ((Z * Z) + Z) :=
  let '(r, timeout) := l in
  v ← peek 0x0;
  if negb (Z.land v 0x80 =? 0) || negb (r =? 0) then mret (inr r)
  else
    v ← peek 0x0;
    (* the right operand of && is evaluated when the left one is not 0 *)
    r ← (if Z.land v 0x20 =? 0 then mret r else w ← peek 0x0; mret (if Z.land w 0x80 =? 0 then -1 else r));
    let timeout := if output then timeout + 1 else timeout in
    (if output && (Z.land timeout 0x7fff =? 0) then spin else mret tt);;
    mret (Datatypes.inl (if timeout =? MAX_TIMEOUT then -1 else r, timeout)).

Definition amd_erase_chip (output : bool) : T Z :=
  oldbank ← ask eeprom_bank;
  oldpage ← ask eeprom_page;
  (if output then spin_reset;; say "-" [] else mret tt);;
  wr 0x555 0xaa;; wr 0x2aa 0x55;; wr 0x555 0x80;; wr 0x555 0xaa;; wr 0x2aa 0x55;; wr 0x555 0x10;;
  r ← wait (amd_erase_turn output) (0, 0);
  (if output then say "\b \b" [] else mret tt);;
  amd_reset;;
  select oldbank oldpage;;
  mret r.

(** [!eeproms[eeprom_bank] || block >= eeproms[eeprom_bank]->size>>16] *)
Definition no_block (block : Z) : T bool :=
  b ← ask eeprom_bank;
  e ← eeprom_at b;
  mret (match e with None => true | Some e => Z.shiftr (size e) 16 <=? block end).

Definition amd_erase_block (block : Z) (output : bool) : T Z :=
  oldbank ← ask eeprom_bank;
  oldpage ← ask eeprom_page;
  bad ← no_block block;
  if bad : bool then mret (-1)
  else
    wr 0x555 0xaa;; wr 0x2aa 0x55;; wr 0x555 0x80;; wr 0x555 0xaa;; wr 0x2aa 0x55;; wr (Z.shiftl block 16) 0x30;;
    r ← wait (amd_erase_turn output) (0, 0);
    select oldbank oldpage;;
    mret r.

(** The loop that waits for byte [i]. *)
Definition amd_write_turn (i c : Z) (l : Z * Z) : St flash_state ((Z * Z) + Z) :=
  let '(r, timeout) := l in
  v ← peek i;
  if (Z.land v 0x80 =? c) || negb (r =? 0) then mret (inr r)
  else
    v ← peek i;
    r ← (if Z.land v 0x20 =? 0 then mret r else w ← peek i; mret (if Z.land w 0x80 =? c then r else i + 1));
    let timeout := timeout + 1 in
    mret (Datatypes.inl (if timeout =? MAX_TIMEOUT then -1 else r, timeout)).

(** The counter on the screen. *)
Definition counter (output : bool) (n i : Z) : T unit :=
  says (output && (Z.land i 0xfff =? 0)) [("\b\b\b\b\b\b\b\b", []); ("%08x", [AWord n])].

Fixpoint amd_write_bytes (n : nat) (block i : Z) (data : list Z) (output : bool) : T Z :=
  match n with
  | O => mret 0
  | S n =>
    d ← lift (data !! Z.to_nat i);
    let c := Z.land d 0x80 in
    wr 0x555 0xaa;; wr 0x2aa 0x55;; wr 0x555 0xa0;;
    wr i d;;
    r ← wait (amd_write_turn i c) (0, 0);
    counter output (block * ROM_PAGESIZE + i) i;;
    if negb (r =? 0) then mret r else amd_write_bytes n block (i + 1) data output
  end.

Definition amd_write_block (block : Z) (data : list Z) (output : bool) : T Z :=
  oldbank ← ask eeprom_bank;
  oldpage ← ask eeprom_page;
  bad ← no_block block;
  if bad : bool then mret (-1)
  else
    select oldbank block;;
    r ← amd_write_bytes (Z.to_nat ROM_PAGESIZE) block 0 data output;
    select oldbank oldpage;;
    mret r.

(** The loop over the pages of both families. *)
Fixpoint write_pages (write_block : Z -> list Z -> bool -> T Z) (n : nat) (page : Z) (data : list Z) (output : bool) : T Z :=
  match n with
  | O => mret 0
  | S n =>
    b ← ask eeprom_bank;
    select b page;;
    r ← write_block page (drop (Z.to_nat (page * ROM_PAGESIZE)) data) output;
    says output [("\b\b\b\b\b\b\b\b", []); ("%08x", [AWord ((page + 1) * ROM_PAGESIZE)])];;
    if negb (r =? 0) then mret r else write_pages write_block n (page + 1) data output
  end.

Definition wipe (output : bool) : T unit :=
  says output [("\b\b\b\b\b\b\b\b\b\b", []); ("          ", []); ("\b\b\b\b\b\b\b\b\b\b", [])].

(** [!eeproms[eeprom_bank] || size > eeproms[eeprom_bank]->size] *)
Definition too_big (n : Z) : T bool :=
  b ← ask eeprom_bank;
  e ← eeprom_at b;
  mret (match e with None => true | Some e => size e <? n end).

Definition amd_write_chip (data : list Z) (sz : Z) (output : bool) : T Z :=
  oldbank ← ask eeprom_bank;
  oldpage ← ask eeprom_page;
  bad ← too_big sz;
  if bad : bool then mret 1
  else
    says output [("0x00000000", [])];;
    r ← write_pages amd_write_block (Z.to_nat (Z.shiftr sz 16)) 0 data output;
    wipe output;;
    amd_reset;;
    select oldbank oldpage;;
    mret r.

(** ** Verification *)

(** The bytes of one page: the position behind the first that differs. *)
Fixpoint verify_bytes (n : nat) (page i : Z) (data : list Z) (output : bool) : T (option Z) :=
  match n with
  | O => mret None
  | S n =>
    counter output (page * ROM_PAGESIZE + i) i;;
    d ← lift (data !! Z.to_nat (page * ROM_PAGESIZE + i));
    v ← rd i;
    if v =? u8 d then verify_bytes n page (i + 1) data output
    else mret (Some (page * ROM_PAGESIZE + i + 1))
  end.

Fixpoint verify_pages (n : nat) (page : Z) (data : list Z) (output : bool) : T (option Z) :=
  match n with
  | O => mret None
  | S n =>
    b ← ask eeprom_bank;
    select b page;;
    x ← verify_bytes (Z.to_nat ROM_PAGESIZE) page 0 data output;
    match x with None => verify_pages n (page + 1) data output | Some p => mret (Some p) end
  end.

Definition generic_verify_chip (data : list Z) (sz : Z) (output : bool) : T Z :=
  oldbank ← ask eeprom_bank;
  oldpage ← ask eeprom_page;
  bad ← too_big sz;
  if bad : bool then mret 1
  else
    says output [("0x00000000", [])];;
    x ← verify_pages (Z.to_nat (Z.shiftr sz 16)) 0 data output;
    wipe output;;
    select oldbank oldpage;;
    mret (default 0 x).

Definition amd_verify_chip (data : list Z) (sz : Z) (output : bool) : T Z :=
  amd_reset;; generic_verify_chip data sz output.

(** ** Intel *)

Definition intel_reset : T unit := wr 0x0 0xff.

Definition not_supported : T unit := say "not supported for this flash module or system - " [].

Definition intel_erase_turn (output : bool) (l : Z * Z) : St flash_state ((Z * Z) + Z) :=
  let '(r, timeout) := l in
  v ← peek 0x0;
  if negb (Z.land v 0x80 =? 0) || negb (r =? 0) then mret (inr r)
  else
    v ← peek 0x0;
    r ← (if Z.land v 0x20 =? 0 then mret r else poke 0x0 0x50;; mret (-1));
    let timeout := if output then timeout + 1 else timeout in
    (if output && (Z.land timeout 0x7fff =? 0) then spin else mret tt);;
    mret (Datatypes.inl (if timeout =? MAX_TIMEOUT then -1 else r, timeout)).

Definition intel_erase_block (block : Z) (output : bool) : T Z :=
  oldbank ← ask eeprom_bank;
  oldpage ← ask eeprom_page;
  bad ← no_block block;
  if bad : bool then mret (-1)
  else
    mon ← ask is_monterey;
    if mon : bool then not_supported;; mret (-1)
    else
      select oldbank block;;
      wr 0x00 0x20;; wr 0x00 0xd0;;
      r ← wait (intel_erase_turn output) (0, 0);
      select oldbank oldpage;;
      mret r.

Fixpoint intel_erase_blocks (n : nat) (block : Z) (output : bool) : T Z :=
  match n with
  | O => mret 0
  | S n =>
    r ← intel_erase_block block output;
    (if output then
       say "\b\b\b\b%s%d  " [AStr (Some (chars (if block + 1 <? 10 then "0" else EmptyString) ++ [0])); AWord (block + 1)];;
       spin_
     else mret tt);;
    if negb (r =? 0) then mret r else intel_erase_blocks n (block + 1) output
  end.

Definition intel_erase_chip (output : bool) : T Z :=
  oldbank ← ask eeprom_bank;
  oldpage ← ask eeprom_page;
  mon ← ask is_monterey;
  if mon : bool then not_supported;; mret (-1)
  else
    (if output then say "block 00 -" [];; spin_reset else mret tt);;
    e ← eeprom_of oldbank;
    r ← intel_erase_blocks (Z.to_nat (Z.shiftr (size e) 16)) 0 output;
    wipe output;;
    intel_reset;;
    select oldbank oldpage;;
    mret r.

Definition intel_write_turn (i : Z) (l : Z * Z) : St flash_state ((Z * Z) + Z) :=
  let '(r, timeout) := l in
  v ← peek 0x0;
  if negb (Z.land v 0x80 =? 0) || negb (r =? 0) then mret (inr r)
  else
    v ← peek 0x0;
    r ← (if Z.land v 0x10 =? 0 then mret r else poke 0x0 0x50;; mret (i + 1));
    let timeout := timeout + 1 in
    mret (Datatypes.inl (if timeout =? MAX_TIMEOUT then -1 else r, timeout)).

(** The loop does not end when [r] is set: the bytes behind an error are still written, and
    are not waited for. *)
Fixpoint intel_write_bytes (n : nat) (block i r : Z) (data : list Z) (output : bool) : T Z :=
  match n with
  | O => mret r
  | S n =>
    d ← lift (data !! Z.to_nat i);
    wr i 0x40;;
    wr i d;;
    r ← wait (intel_write_turn i) (r, 0);
    counter output (block * ROM_PAGESIZE + i) i;;
    intel_write_bytes n block (i + 1) r data output
  end.

Definition intel_write_block (block : Z) (data : list Z) (output : bool) : T Z :=
  oldbank ← ask eeprom_bank;
  oldpage ← ask eeprom_page;
  bad ← no_block block;
  if bad : bool then mret (-1)
  else
    mon ← ask is_monterey;
    if mon : bool then not_supported;; mret 1
    else
      select oldbank block;;
      r ← intel_write_bytes (Z.to_nat ROM_PAGESIZE) block 0 0 data output;
      select oldbank oldpage;;
      mret r.

Definition intel_write_chip (data : list Z) (sz : Z) (output : bool) : T Z :=
  oldbank ← ask eeprom_bank;
  oldpage ← ask eeprom_page;
  bad ← too_big sz;
  if bad : bool then mret 1
  else
    mon ← ask is_monterey;
    if mon : bool then not_supported;; mret 1
    else
      says output [("0x00000000", [])];;
      r ← write_pages intel_write_block (Z.to_nat (Z.shiftr sz 16)) 0 data output;
      wipe output;;
      intel_reset;;
      select oldbank oldpage;;
      mret r.

Definition intel_verify_chip (data : list Z) (sz : Z) (output : bool) : T Z :=
  intel_reset;; generic_verify_chip data sz output.

(** ** The operations of a chip type *)

Definition reset (d : driver) : T unit := match d with Amd => amd_reset | Intel => intel_reset end.
Definition erase_block (d : driver) : Z -> bool -> T Z := match d with Amd => amd_erase_block | Intel => intel_erase_block end.
Definition erase_chip (d : driver) : bool -> T Z := match d with Amd => amd_erase_chip | Intel => intel_erase_chip end.
Definition write_block_op (d : driver) : Z -> list Z -> bool -> T Z :=
  match d with Amd => amd_write_block | Intel => intel_write_block end.
Definition write_chip (d : driver) : list Z -> Z -> bool -> T Z :=
  match d with Amd => amd_write_chip | Intel => intel_write_chip end.
Definition verify_chip (d : driver) : list Z -> Z -> bool -> T Z :=
  match d with Amd => amd_verify_chip | Intel => intel_verify_chip end.
(** [if (eeproms[bank]->reset) eeproms[bank]->reset();] *)
Definition reset_bank (bank : Z) : T unit :=
  e ← eeprom_of bank; match ops e with Some d => reset d | None => mret tt end.

(** ** Identification *)

Definition eeprom_get_romid (bank : Z) : T Z :=
  select bank 0;;
  wr 0x555 0xaa;; wr 0x2aa 0x55;; wr 0x555 0x90;;
  hi ← rd 0x00;
  lo ← rd 0x01;
  let id := Z.shiftl hi 8 + lo in
  e ← eeprom_at bank;
  match e with Some e => match ops e with Some d => reset d | None => mret tt end | None => mret tt end;;
  mret id.

(** The first type with the numbers, or the last, whose size is 0. *)
Fixpoint find_type (l : list eeprom_type) (romid : Z) : option eeprom_type :=
  match l with
  | [] => None
  | t :: l =>
    if size t =? 0 then Some t
    else if (vendor_id t =? Z.land 0xff (Z.shiftr romid 8)) && (device_id t =? Z.land 0xff romid) then Some t
    else find_type l romid
  end.

Definition probe_bank (i : Z) : T unit :=
  chg (fun s => set_eeproms (<[Z.to_nat i := None]> (eeproms s)) (eeprom_ids s) (eeprom_ttl_size s) s);;
  r ← eeprom_set_bank_page i 0;
  if r <? 0 then mret tt
  else
    romid ← eeprom_get_romid i;
    if romid =? 0xffff then mret tt
    else
      t ← lift (find_type eeprom_types romid);
      chg (fun s => set_eeproms (<[Z.to_nat i := Some t]> (eeproms s)) (<[Z.to_nat i := romid]> (eeprom_ids s))
                      (s32 (u32 (eeprom_ttl_size s + size t))) s);;
      match ops t with Some d => reset d | None => mret tt end;;
      b ← ask brd;
      if b =? BOARDTYPE_ALPINE then
        let base := u32 (Z.lnot (size t - 1)) in chg (set_rom base base)
      else mret tt.

Fixpoint probe_banks (n : nat) (i : Z) : T unit :=
  match n with O => mret tt | S n => probe_bank i;; probe_banks n (i + 1) end.

Definition eeprom_init : T Z :=
  y ← ask sys;
  b ← ask brd;
  let probe := probe_banks (Z.to_nat EEPROM_MAX_BANKS) 0;; select 0 0;; mret 0 in
  if y =? SYSTYPE_5K then
    if b =? BOARDTYPE_MONTEREY then
      out 0x00 0xF50;; out 0x09 0xF51;; out 0xfe 0xF52;;
      chg (set_fs_offset 0x10000);;
      out SW_EEPROM_CSE SW_MISC_CONTROL;;
      out SW_BLACKBOX_FWE SW_BLACKBOX_CONTROL;;
      probe
    else if b =? BOARDTYPE_ALPINE then
      chg (set_fs_offset 0x0);;
      chg (set_rom FLAT_ROM_BASE_ADDR FLAT_ROM_BASE_ADDR);;
      out SW_EEPROM_CSE SW_MISC_CONTROL;;
      probe
    else probe
  else if y =? SYSTYPE_3K then chg (set_fs_offset 0x10000);; probe
  else mret (-1).

(** ** Blocks of the file system *)

Definition CRFS_BLOCK : Z := 4096.

(** [memcpy] out of the window. *)
Fixpoint read_bytes (n : nat) (i : Z) : T (list Z) :=
  match n with
  | O => mret []
  | S n => v ← rd i; rest ← read_bytes n (i + 1); mret (v :: rest)
  end.

Definition flash_read_block (block_ndx : Z) (block : list Z) : T (Z * list Z) :=
  y ← ask sys;
  off ← ask eeprom_fs_offset;
  let rom_addr := block_ndx * CRFS_BLOCK + off in
  if y =? SYSTYPE_3K then
    e0 ← eeprom_of 0;
    if rom_addr <? size e0 then
      select 0 (Z.shiftr rom_addr 16);;
      bs ← read_bytes (Z.to_nat CRFS_BLOCK) (Z.land rom_addr 0xffff);
      mret (0, bs)
    else
      e1 ← eeprom_at 1;
      match e1 with
      | Some e1 =>
        if rom_addr <? size e0 + size e1 then
          let rom_addr := rom_addr - size e0 in
          select 1 (Z.shiftr rom_addr 16);;
          bs ← read_bytes (Z.to_nat CRFS_BLOCK) (Z.land rom_addr 0xffff);
          mret (0, bs)
        else mret (-1, block)
      | None => mret (-1, block)
      end
  else if y =? SYSTYPE_5K then
    select 0 (Z.shiftr rom_addr 16);;
    bs ← read_bytes (Z.to_nat CRFS_BLOCK) (Z.land rom_addr 0xffff);
    mret (0, bs)
  else
    say "Invalid system type!\n" [];; mret (0, block).

(** The block of the flash that holds the address is erased and written from [block]. *)
Definition rewrite_block (bank rom_addr : Z) (block : list Z) : T Z :=
  select bank (Z.shiftr rom_addr 16);;
  e ← eeprom_of bank;
  match ops e with
  | None => mret (-1)
  | Some d =>
    r ← erase_block d (Z.shiftr rom_addr 16) false;
    reset_bank bank;;
    if negb (r =? 0) then mret r
    else
      r ← write_block_op d (Z.shiftr rom_addr 16) block false;
      reset_bank bank;;
      mret r
  end.

Definition flash_write_block (block_ndx : Z) (block : list Z) : T Z :=
  off ← ask eeprom_fs_offset;
  let rom_addr := block_ndx * CRFS_BLOCK + off in
  e0 ← eeprom_of 0;
  if rom_addr <? size e0 then rewrite_block 0 rom_addr block
  else
    e1 ← eeprom_at 1;
    match e1 with
    | Some e1 =>
      if rom_addr <? size e0 + size e1 then rewrite_block 1 (rom_addr - size e0) block else mret (-1)
    | None => mret (-1)
    end.

(** ** eeprom_ops.c *)

Fixpoint list_banks (n : nat) (i : Z) : T unit :=
  match n with
  | O => mret tt
  | S n =>
    say "  Flash Bank %d: " [AWord i];;
    e ← eeprom_at i;
    match e with
    | None => say "not installed.\n" []
    | Some e =>
      ids ← ask eeprom_ids;
      id ← lift (ids !! Z.to_nat i);
      say "%s %dKB (%02x:%02x)\n" [AStr (Some (chars (name e) ++ [0])); AWord (Z.shiftr (size e) 10);
        AWord (Z.land (Z.shiftr id 8) 0xff); AWord (Z.land id 0xff)]
    end;;
    list_banks n (i + 1)
  end.
Definition eeprom_list : T unit := list_banks (Z.to_nat EEPROM_MAX_BANKS) 0.

Definition eeprom_erase_chip (bank : Z) (output : bool) : T Z :=
  select bank 0;;
  say "Erasing eeprom in bank %d: " [AWord bank];;
  e ← eeprom_of bank;
  ret ← (match ops e with Some d => erase_chip d output | None => mret 0 end);
  reset_bank bank;;
  say "%s\n" [AStr (Some (chars (if negb (ret =? 0) then "failed" else "done") ++ [0]))];;
  mret ret.

Definition eeprom_write_chip (bank : Z) (data : list Z) (sz : Z) (output : bool) : T Z :=
  select bank 0;;
  say "Writing eeprom in bank %d:   0x%08x:" [AWord bank; AWord sz];;
  e ← eeprom_of bank;
  ret ← (match ops e with Some d => write_chip d data sz output | None => mret 0 end);
  reset_bank bank;;
  if negb (ret =? 0) then say "0x%08x failed\n" [AWord (u32 (ret - 1))];; mret ret
  else
    say "0x%08x done\n" [AWord sz];;
    say "Verifying eeprom in bank %d: 0x%08x:" [AWord bank; AWord sz];;
    ret ← (match ops e with Some d => verify_chip d data sz output | None => mret ret end);
    reset_bank bank;;
    (if ret =? 0 then say "0x%08x done\n" [AWord sz] else say "0x%08x failed\n" [AWord (u32 (ret - 1))]);;
    mret ret.

Definition eeprom_get_bank : T Z := ask eeprom_bank.
Definition eeprom_get_page : T Z := ask eeprom_page.
Definition eeprom_set_bank (bank : Z) : T unit := p ← ask eeprom_page; select bank p.
Definition eeprom_set_page (page : Z) : T unit := b ← ask eeprom_bank; select b page.
Definition eeprom_read_rom (pos : Z) : T Z := if pos <? ROM_PAGESIZE then rd pos else mret 0.

End Eeprom.
Arguments flash_state : clear implicits.
Arguments mk_flash_state {hw} _ _ _ _ _ _ _ _ _ _ _ _.
