(* ===== verification/EepromProofs.v ===== *)
(** * EepromProofs: programming the flash memory

    [flash] is a flash chip of either family, with the command sequences of its data sheet;
    [FlashBoard] is what the drivers need of the board, the window on a page of a chip and
    its selection.  The drivers are proved against it: [does] says what an operation answers
    and what it leaves in the chip. *)

From stdpp Require Import strings.
From S2P Require Import Prelude CString Printf CmosIo PciIo Pci Poll Eeprom.

(** ** A flash chip *)

(** Where the chip is in a sequence of commands; a busy chip has a number of reads to go and
    will then hold other bytes. *)
Inductive mode :=
  | MRead | MId
  | MUnlock1 | MUnlock2 | MProg | MErase1 | MErase2 | MErase3       (* AMD *)
  | MStatus | MIProg | MIErase                                      (* Intel *)
  | MBusy (n : nat) (at_ d : Z) (next : Z -> Z).

Record flash := mk_flash {
  family : driver;
  ids : Z * Z;
  latency : nat;
  noise : Z;
  cells : Z -> Z;
  fmode : mode;
}.

Definition set_mode (m : mode) (c : flash) : flash := mk_flash (family c) (ids c) (latency c) (noise c) (cells c) m.
Definition set_cells (f : Z -> Z) (m : mode) (c : flash) : flash := mk_flash (family c) (ids c) (latency c) (noise c) f m.

Definition upd1 (f : Z -> Z) (a v : Z) : Z -> Z := fun x => if x =? a then v else f x.
Lemma upd1_other f a v x : x <> a -> upd1 f a v x = f x.
Proof. intros H. unfold upd1. by rewrite (proj2 (Z.eqb_neq x a)). Qed.
(** Programming clears bits; erasing sets them, in a sector of 64K or everywhere. *)
Definition programmed (a v : Z) (f : Z -> Z) : Z -> Z := upd1 f a (Z.land (f a) v).
Definition sector_erased (a : Z) (f : Z -> Z) : Z -> Z := fun x => if Z.shiftr x 16 =? Z.shiftr a 16 then 0xff else f x.
Definition all_erased : Z -> Z := fun _ => 0xff.

(** The status of a busy AMD chip has the complement of bit 7 of the byte to come; bit 5 is
    clear.  That of an Intel chip has bit 7 clear. *)
Definition busy_status (c : flash) (d : Z) : Z :=
  match family c with
  | Amd => Z.lor (Z.land (noise c) 0x5f) (Z.lxor (Z.land d 0x80) 0x80)
  | Intel => 0
  end.

Definition flash_read (a : Z) (c : flash) : Z * flash :=
  match fmode c with
  | MBusy (S n) at_ d next => (busy_status c d, set_mode (MBusy n at_ d next) c)
  | MBusy O at_ d next =>
    match family c with
    | Amd => (next a, set_cells next MRead c)
    | Intel => (0x80, set_cells next MStatus c)
    end
  | MId => (if Z.land a 0xff =? 0 then fst (ids c) else if Z.land a 0xff =? 1 then snd (ids c) else 0, c)
  | MStatus => (0x80, c)
  | _ => (cells c a, c)
  end.

Definition busy (a d : Z) (next : Z -> Z) (c : flash) : flash := set_mode (MBusy (latency c) a d next) c.

Definition amd_write (a v : Z) (c : flash) : flash :=
  let cmd := Z.land a 0x7ff in
  match fmode c with
  | MBusy _ _ _ _ => c
  | MProg => busy a v (programmed a v (cells c)) c
  | MUnlock1 => set_mode (if (cmd =? 0x2aa) && (v =? 0x55) then MUnlock2 else MRead) c
  | MUnlock2 =>
    set_mode (if cmd =? 0x555 then if v =? 0x90 then MId else if v =? 0xa0 then MProg else if v =? 0x80 then MErase1 else MRead
              else MRead) c
  | MErase1 => set_mode (if (cmd =? 0x555) && (v =? 0xaa) then MErase2 else MRead) c
  | MErase2 => set_mode (if (cmd =? 0x2aa) && (v =? 0x55) then MErase3 else MRead) c
  | MErase3 =>
    if v =? 0x30 then busy a 0xff (sector_erased a (cells c)) c
    else if (cmd =? 0x555) && (v =? 0x10) then busy a 0xff all_erased c
    else set_mode MRead c
  | MRead | MId => if (cmd =? 0x555) && (v =? 0xaa) then set_mode MUnlock1 c else if v =? 0xf0 then set_mode MRead c else c
  | _ => set_mode MRead c
  end.

Definition intel_write (a v : Z) (c : flash) : flash :=
  match fmode c with
  | MBusy _ _ _ _ => c
  | MIProg => busy a v (programmed a v (cells c)) c
  | MIErase => if v =? 0xd0 then busy a 0xff (sector_erased a (cells c)) c else set_mode MStatus c
  | _ =>
    if v =? 0xff then set_mode MRead c
    else if v =? 0x90 then set_mode MId c
    else if (v =? 0x70) || (v =? 0x50) then set_mode MStatus c
    else if (v =? 0x40) || (v =? 0x10) then set_mode MIProg c
    else if v =? 0x20 then set_mode MIErase c
    else c
  end.

Definition flash_write (a v : Z) (c : flash) : flash :=
  match family c with Amd => amd_write a v c | Intel => intel_write a v c end.

Definition is_byte_ (v : Z) : Prop := 0 <= v < 256.
Definition idle_flash (c : flash) : Prop := fmode c = MRead.

(** Bit [k] of a byte, and the low bits of an address in a page. *)
Lemma land_bit d k : 0 <= k -> Z.land d (2 ^ k) = if Z.testbit d k then 2 ^ k else 0.
Proof.
  intros Hk. apply Z.bits_inj'. intros n Hn. rewrite Z.land_spec, Z.pow2_bits_eqb by done.
  destruct (Z.eqb_spec k n) as [<-|Hne].
  - destruct (Z.testbit d k); [by rewrite Z.pow2_bits_true|by rewrite Z.bits_0].
  - rewrite andb_false_r. destruct (Z.testbit d k); [by rewrite Z.pow2_bits_false|by rewrite Z.bits_0].
Qed.
Lemma land_u8 v k : 0 <= k < 8 -> Z.land (u8 v) (2 ^ k) = Z.land v (2 ^ k).
Proof.
  intros Hk. rewrite !land_bit by lia. unfold u8. change 256 with (2 ^ 8). by rewrite Z.mod_pow2_bits_low by lia.
Qed.
Lemma in_page p i m : 0 <= i < 2 ^ m -> 0 <= m <= 16 -> Z.land (p * 0x10000 + i) (Z.ones m) = i.
Proof.
  intros Hi Hm. rewrite Z.land_ones by lia. replace (p * 0x10000 + i) with (i + p * 2 ^ (16 - m) * 2 ^ m).
  - rewrite Z_mod_plus_full. by apply Z.mod_small.
  - rewrite <- Z.mul_assoc, <- Z.pow_add_r by lia. replace (16 - m + m) with 16 by lia. change (2 ^ 16) with 65536. lia.
Qed.
Lemma command_addr p i : 0 <= i < 0x800 -> Z.land (p * 0x10000 + i) 0x7ff = i.
Proof. intros Hi. change 0x7ff with (Z.ones 11). apply in_page; [exact Hi|lia]. Qed.

(** The status of a busy AMD chip: bit 7 is not that of the byte, bit 5 is clear. *)
Lemma amd_status_7 c d : family c = Amd -> Z.land (u8 (busy_status c d)) 0x80 <> Z.land d 0x80.
Proof.
  intros Hf. unfold busy_status. rewrite Hf. change 0x80 with (2 ^ 7). rewrite land_u8 by lia. rewrite !land_bit by lia.
  rewrite Z.lor_spec, Z.land_spec, Z.lxor_spec.
  change (Z.testbit 0x5f 7) with false. rewrite andb_false_r. change (Z.testbit (2 ^ 7) 7) with true.
  by destruct (Z.testbit d 7).
Qed.
Lemma amd_status_5 c d : family c = Amd -> Z.land (u8 (busy_status c d)) 0x20 = 0.
Proof.
  intros Hf. unfold busy_status. rewrite Hf. change 0x20 with (2 ^ 5). rewrite land_u8 by lia. rewrite !land_bit by lia.
  rewrite Z.lor_spec, Z.land_spec, Z.lxor_spec. change 0x80 with (2 ^ 7). rewrite land_bit by lia.
  change (Z.testbit 0x5f 5) with false. rewrite andb_false_r. change (Z.testbit (2 ^ 7) 5) with false.
  by destruct (Z.testbit d 7).
Qed.

Lemma amd_status_erase c : family c = Amd -> Z.land (u8 (busy_status c 0xff)) 0x80 = 0.
Proof.
  intros Hf. pose proof (amd_status_7 c 0xff Hf) as H. revert H. change 0x80 with (2 ^ 7). rewrite !land_bit by lia.
  change (Z.testbit 255 7) with true. by destruct (Z.testbit _ 7).
Qed.

(** A run of bytes programmed one after the other. *)
Fixpoint prog (a : Z) (ds : list Z) (f : Z -> Z) : Z -> Z :=
  match ds with [] => f | d :: ds => prog (a + 1) ds (programmed a d f) end.

(** The bytes only need bits to be cleared. *)
Definition fits (a : Z) (ds : list Z) (f : Z -> Z) : Prop :=
  forall (j : nat) d, ds !! j = Some d -> is_byte_ d /\ Z.land (f (a + Z.of_nat j)) d = d.

Lemma fits_cons a d ds f : fits a (d :: ds) f ->
  is_byte_ d /\ Z.land (f a) d = d /\ fits (a + 1) ds (programmed a d f).
Proof.
  intros H. destruct (H 0%nat d eq_refl) as [Hb Hf]. rewrite Z.add_0_r in Hf. split; [done|]. split; [done|].
  intros j e He. destruct (H (S j) e He) as [Hb' Hf']. split; [done|]. unfold programmed, upd1.
  replace (a + Z.of_nat (S j)) with (a + 1 + Z.of_nat j) in Hf' by lia.
  by rewrite (proj2 (Z.eqb_neq (a + 1 + Z.of_nat j) a)) by lia.
Qed.

Lemma prog_spec a ds f x : fits a ds f ->
  prog a ds f x = if (a <=? x) && (x <? a + Z.of_nat (length ds)) then default 0 (ds !! Z.to_nat (x - a)) else f x.
Proof.
  revert a f. induction ds as [|d ds IH]; intros a f Hf.
  { cbn [prog length]. destruct (Z.leb_spec a x), (Z.ltb_spec x (a + Z.of_nat 0)); simpl; (done || lia). }
  destruct (fits_cons a d ds f Hf) as (_ & Hd & Hf'). cbn [prog]. rewrite (IH _ _ Hf'). cbn [length].
  destruct (Z.eq_dec x a) as [->|Hne].
  - destruct (Z.leb_spec (a + 1) a), (Z.leb_spec a a), (Z.ltb_spec a (a + Z.of_nat (S (length ds)))); try lia. simpl.
    unfold programmed, upd1. by rewrite Z.eqb_refl, Z.sub_diag.
  - destruct (Z.leb_spec (a + 1) x), (Z.leb_spec a x); try lia; simpl; [|by apply upd1_other].
    replace (a + Z.of_nat (S (length ds))) with (a + 1 + Z.of_nat (length ds)) by lia.
    destruct (x <? a + 1 + Z.of_nat (length ds)); [|by apply upd1_other].
    replace (Z.to_nat (x - a)) with (S (Z.to_nat (x - (a + 1)))) by lia. done.
Qed.

Lemma prog_app a xs ys f : prog a (xs ++ ys) f = prog (a + Z.of_nat (length xs)) ys (prog a xs f).
Proof.
  revert a f. induction xs as [|x xs IH]; intros a f; [by rewrite Z.add_0_r|].
  cbn [app prog length]. rewrite IH. by replace (a + Z.of_nat (S (length xs))) with (a + 1 + Z.of_nat (length xs)) by lia.
Qed.
Lemma fits_app a xs ys f : fits a (xs ++ ys) f -> fits a xs f /\ fits (a + Z.of_nat (length xs)) ys (prog a xs f).
Proof.
  intros H. assert (Hx : fits a xs f).
  { intros j d Hd. apply H. by apply lookup_app_l_Some. }
  split; [exact Hx|]. intros j d Hd.
  destruct (H (length xs + j)%nat d) as [Hb Hf].
  { rewrite lookup_app_r by lia. by replace (length xs + j - length xs)%nat with j by lia. }
  split; [done|]. rewrite prog_spec by done.
  rewrite (proj2 (Z.ltb_ge _ _)) by lia. rewrite andb_false_r. by rewrite <- Z.add_assoc, <- Nat2Z.inj_add.
Qed.

(** ** The board *)

Definition WINDOW : Z := 0xffff0000.

Class FlashBoard (hw : Type) `{!Bytes hw, !IoPorts hw, !Config hw} (systype : Z) := {
  selected : hw -> Z -> Z -> Prop;
  chip_of : hw -> Z -> flash;
  window_read h b p i : selected h b p -> 0 <= i < 0x10000 ->
    let '(v, h') := bus_read (WINDOW + i) h in
    let '(v', c') := flash_read (p * 0x10000 + i) (chip_of h b) in
    v = v' /\ selected h' b p /\ chip_of h' b = c' /\ forall b', b' <> b -> chip_of h' b' = chip_of h b';
  window_write h b p i v : selected h b p -> 0 <= i < 0x10000 ->
    let h' := bus_write (WINDOW + i) v h in
    selected h' b p /\ chip_of h' b = flash_write (p * 0x10000 + i) v (chip_of h b) /\
    forall b', b' <> b -> chip_of h' b' = chip_of h b';
  paging s b p : fl_systype s = systype -> 0 <= b < 2 -> 0 <= p < 64 ->
    (eeprom_bank s =? b) && (eeprom_page s =? p) = false ->
    exists h', eeprom_set_bank_page b p s = Some (0, set_at b p (set_fl_hw h' s)) /\
      selected h' b p /\ forall b', chip_of h' b' = chip_of (fl_hw s) b';
}.

Section Driver.
Context {hw : Type} `{!Bytes hw, !IoPorts hw, !Config hw} (systype : Z) `{!FlashBoard hw systype}.
(** What the operations do not change: the table of the chips, the bank and the other chip. *)
Context (tbl : list (option eeprom_type)) (b : Z) (others : Z -> flash).
Hypothesis Hbank : 0 <= b < 2.

Record holds (p : Z) (c : flash) (s : flash_state hw) : Prop := {
  h_rom : rom s = WINDOW;
  h_sys : fl_systype s = systype;
  h_tbl : eeproms s = tbl;
  h_bank : eeprom_bank s = b;
  h_page : eeprom_page s = p;
  h_range : 0 <= p < 64;
  h_sel : selected (fl_hw s) b p;
  h_chip : chip_of (fl_hw s) b = c;
  h_others : forall b', b' <> b -> chip_of (fl_hw s) b' = others b';
}.

(** From page [p] and chip [c], [m] answers [a] and leaves page [p'] and chip [c']. *)
Definition does {A} (m : Run (flash_state hw) A) p c a p' c' : Prop :=
  forall s, holds p c s -> exists s', m s = Some (a, s') /\ holds p' c' s'.
Definition acts {A} (m : St (flash_state hw) A) p c a c' : Prop :=
  forall s, holds p c s -> exists s', m s = (a, s') /\ holds p c' s'.

Lemma fl_ret {A} (a : A) p c : does (mret a) p c a p c.
Proof. intros s Hs. by exists s. Qed.
Lemma fl_bind {A B} (m : Run _ A) (k : A -> Run _ B) p c a p1 c1 x p2 c2 :
  does m p c a p1 c1 -> does (k a) p1 c1 x p2 c2 -> does (m ≫= k) p c x p2 c2.
Proof.
  intros Hm Hk s Hs. destruct (Hm s Hs) as (s1 & E1 & H1), (Hk s1 H1) as (s2 & E2 & H2).
  exists s2. unfold mbind, Run_bind. by rewrite E1.
Qed.
Lemma acts_ret {A} (a : A) p c : acts (mret a) p c a c.
Proof. intros s Hs. by exists s. Qed.
Lemma acts_bind {A B} (m : St _ A) (k : A -> St _ B) p c a c1 x c2 :
  acts m p c a c1 -> acts (k a) p c1 x c2 -> acts (m ≫= k) p c x c2.
Proof.
  intros Hm Hk s Hs. destruct (Hm s Hs) as (s1 & E1 & H1), (Hk s1 H1) as (s2 & E2 & H2).
  exists s2. unfold mbind, St_bind. by rewrite E1.
Qed.
Lemma does_acts {A} (m : St _ A) p c a c' : acts m p c a c' -> does (fun s => Some (m s)) p c a p c'.
Proof. intros Hm s Hs. destruct (Hm s Hs) as (s' & E & H'). exists s'. by rewrite E. Qed.
Lemma does_ask {A} (f : flash_state hw -> A) a p c : (forall s, holds p c s -> f s = a) -> does (ask f) p c a p c.
Proof. intros Hf s Hs. exists s. unfold ask. by rewrite (Hf s Hs). Qed.
Lemma does_lift {A} (o : option A) a p c : o = Some a -> does (lift o) p c a p c.
Proof. intros -> s Hs. by exists s. Qed.

(** Output leaves the chip alone. *)
Lemma holds_console sp l p c s : holds p c s -> holds p c (set_console sp l s).
Proof. intros [H1 H2 H3 H4 H5 H6 H7 H8 H9]. by split. Qed.
Lemma acts_say f l p c : acts (say_ f l) p c tt c.
Proof. intros s Hs. eexists. split; [reflexivity|]. by apply holds_console. Qed.
Lemma does_say f l p c : does (say f l) p c tt p c.
Proof. apply (does_acts (say_ f l)), acts_say. Qed.
Lemma does_says x l p c : does (says x l) p c tt p c.
Proof.
  unfold says. destruct x; [|apply fl_ret]. induction l as [|[f a] l IH]; [apply fl_ret|].
  eapply fl_bind; [apply does_say|exact IH].
Qed.
Lemma acts_spin_step p c : acts spin_step p c tt c.
Proof.
  intros s Hs. unfold spin_step, say_. eexists. split; [reflexivity|]. by apply holds_console, holds_console.
Qed.
Lemma acts_spin p c : acts spin p c tt c.
Proof. eapply acts_bind; apply acts_spin_step. Qed.
Lemma does_spin_reset p c : does spin_reset p c tt p c.
Proof. intros s Hs. eexists. split; [reflexivity|]. by apply holds_console. Qed.

(** Accesses of the window. *)
Lemma acts_peek i p c : 0 <= i < 0x10000 ->
  acts (peek i) p c (u8 (flash_read (p * 0x10000 + i) c).1) (flash_read (p * 0x10000 + i) c).2.
Proof.
  intros Hi s [H1 H2 H3 H4 H5 H6 H7 H8 H9]. unfold peek. rewrite H1.
  rewrite u32_small by (unfold WINDOW; lia).
  pose proof (window_read (fl_hw s) b p i H7 Hi) as W.
  destruct (bus_read (WINDOW + i) (fl_hw s)) as [v h']. rewrite H8 in W.
  destruct (flash_read (p * 0x10000 + i) c) as [v' c']. destruct W as (-> & Hs & Hc & Ho).
  eexists. split; [reflexivity|]. split; simpl; try done. intros b' Hb'. by rewrite Ho, H9.
Qed.
Lemma acts_poke i v p c : 0 <= i < 0x10000 ->
  acts (poke i v) p c tt (flash_write (p * 0x10000 + i) (u8 v) c).
Proof.
  intros Hi s [H1 H2 H3 H4 H5 H6 H7 H8 H9]. unfold poke. rewrite H1.
  rewrite u32_small by (unfold WINDOW; lia).
  destruct (window_write (fl_hw s) b p i (u8 v) H7 Hi) as (Hs & Hc & Ho).
  eexists. split; [reflexivity|]. split; simpl; try done; [by rewrite Hc, H8|]. intros b' Hb'. by rewrite Ho, H9.
Qed.
Lemma does_rd i p c : 0 <= i < 0x10000 ->
  does (rd i) p c (u8 (flash_read (p * 0x10000 + i) c).1) p (flash_read (p * 0x10000 + i) c).2.
Proof. intros Hi. apply (does_acts (peek i)). by apply acts_peek. Qed.
Lemma does_wr i v p c : 0 <= i < 0x10000 -> does (wr i v) p c tt p (flash_write (p * 0x10000 + i) (u8 v) c).
Proof. intros Hi. apply (does_acts (poke i v)). by apply acts_poke. Qed.

Lemma does_select p p' c : 0 <= p' < 64 -> does (select b p') p c tt p' c.
Proof.
  intros Hp s Hs. destruct Hs as [H1 H2 H3 H4 H5 H6 H7 H8 H9]. unfold select, mbind, Run_bind.
  destruct ((eeprom_bank s =? b) && (eeprom_page s =? p')) eqn:E.
  - assert (Hpp : p = p') by (apply andb_true_iff in E; lia). subst p'.
    exists s. split; [|by split]. unfold eeprom_set_bank_page.
    unfold mbind, Run_bind, ask.
    destruct (Z.leb_spec EEPROM_MAX_BANKS b); [unfold EEPROM_MAX_BANKS in *; lia|].
    destruct ((brd s =? BOARDTYPE_ALPINE) && negb (b =? 0)) eqn:Ea; [done|]. by rewrite E.
  - destruct (paging s b p' H2 Hbank Hp E) as (h' & -> & Hsel & Hc).
    eexists. split; [reflexivity|]. split; simpl; try done; [by rewrite Hc|]. intros b' Hb'. by rewrite Hc, H9.
Qed.

(** A waiting loop with an invariant on its variables and the chip. *)
Lemma does_wait {L R} (turn : L -> St _ (L + R)) (inv : nat -> L -> flash -> Prop) v l p c a c' :
  (forall v l c, inv v l c ->
     acts (turn l) p c (inr a) c' \/
     (exists l' v' c1, acts (turn l) p c (Datatypes.inl l') c1 /\ v = S v' /\ inv v' l' c1)) ->
  inv v l c -> Z.of_nat v < 0x08000001 -> does (wait turn l) p c a p c'.
Proof.
  intros Hstep Hi Hv s Hs. unfold wait.
  destruct (turns_end turn (fun v l s => exists c, inv v l c /\ holds p c s) (fun x s => x = a /\ holds p c' s)
              WAIT_TURNS v l s) as (x & s' & -> & -> & Hs'); [|by exists c|done|by exists s'].
  intros v0 l0 s0 (c0 & Hi0 & H0). destruct (Hstep v0 l0 c0 Hi0) as [Ha|(l' & v' & c1 & Ha & -> & Hi1)].
  - destruct (Ha s0 H0) as (s1 & -> & H1). left. by exists a, s1.
  - destruct (Ha s0 H0) as (s1 & -> & H1). right. exists l', s1, v'. split; [done|]. split; [done|]. by exists c1.
Qed.

(** ** AMD *)

(** Three writes that make a command. *)
Lemma amd_command {A} v (k : Run (flash_state hw) A) p c a p' c' : family c = Amd -> fmode c = MRead -> is_byte_ v ->
  does k p (set_mode (if v =? 0x90 then MId else if v =? 0xa0 then MProg else if v =? 0x80 then MErase1 else MRead) c) a p' c' ->
  does (wr 0x555 0xaa;; wr 0x2aa 0x55;; wr 0x555 v;; k) p c a p' c'.
Proof.
  intros Hf Hm Hv Hk.
  eapply fl_bind; [apply does_wr; lia|]. unfold flash_write at 1. rewrite Hf. unfold amd_write at 1. rewrite Hm.
  rewrite command_addr by lia. change ((0x555 =? 0x555) && (u8 0xaa =? 0xaa)) with true. cbv iota.
  eapply fl_bind; [apply does_wr; lia|]. unfold flash_write at 1, amd_write at 1. simpl family. rewrite Hf. simpl fmode.
  rewrite command_addr by lia. change ((0x2aa =? 0x2aa) && (u8 0x55 =? 0x55)) with true. cbv iota.
  eapply fl_bind; [apply does_wr; lia|]. unfold flash_write at 1, amd_write at 1. simpl family. rewrite Hf. simpl fmode.
  rewrite command_addr by lia. change (0x555 =? 0x555) with true. cbv iota. rewrite u8_small by exact Hv. exact Hk.
Qed.

(** The number of turns a chip may take. *)
Definition in_time (c : flash) : Prop := Z.of_nat (latency c) + 2 < MAX_TIMEOUT.

(** The loops look at the chip twice in every turn: [counts] says whether the turns are
    counted.  [busy_at n] is the chip with [n] reads to go, [fin] the chip that is done. *)
Lemma wait_busy (turn : Z * Z -> St (flash_state hw) ((Z * Z) + Z)) counts p (busy_at : nat -> flash) fin k :
  let next t := if counts : bool then t + 1 else t in
  (forall t, acts (turn (0, t)) p fin (inr 0) fin) ->
  (forall t, acts (turn (0, t)) p (busy_at O) (inr 0) fin) ->
  (forall t, (next t =? MAX_TIMEOUT) = false -> acts (turn (0, t)) p (busy_at 1%nat) (Datatypes.inl (0, next t)) fin) ->
  (forall t n, (next t =? MAX_TIMEOUT) = false -> acts (turn (0, t)) p (busy_at (S (S n))) (Datatypes.inl (0, next t)) (busy_at n)) ->
  Z.of_nat k + 2 < MAX_TIMEOUT -> does (wait turn (0, 0)) p (busy_at k) 0 p fin.
Proof.
  intros next Hd H0 H1 H2 Hk.
  apply (does_wait _ (fun v l c => l.1 = 0 /\ 0 <= l.2 /\
    ((exists n, c = busy_at n /\ (n < v)%nat /\ l.2 + Z.of_nat n + 2 < MAX_TIMEOUT) \/ (c = fin /\ l.2 < MAX_TIMEOUT))) (S k)).
  3:{ unfold MAX_TIMEOUT in *. lia. }
  2:{ split; [done|]. split; [simpl; lia|]. left. exists k. split; [done|]. split; [lia|simpl; lia]. }
  intros v [r t] c0 (E1 & E2 & Hw). simpl in E1, E2, Hw. subst r.
  destruct Hw as [(n & -> & Hv & Ht)|[-> Ht]]; [|left; apply Hd].
  assert (Hnt : (next t =? MAX_TIMEOUT) = false) by (apply Z.eqb_neq; unfold next; destruct counts; lia).
  assert (Hb : 0 <= next t <= t + 1) by (unfold next; destruct counts; lia).
  destruct v as [|v]; [lia|]. destruct n as [|[|n]]; [left; apply H0|right..].
  - exists (0, next t), v, fin. split; [by apply H1|]. split; [done|]. split; [done|]. simpl. split; [lia|]. right. split; [done|lia].
  - exists (0, next t), v, (busy_at n). split; [by apply H2|]. split; [done|]. split; [done|]. simpl. split; [lia|].
    left. exists n. split; [done|]. split; [lia|lia].
Qed.

(** A read of a busy chip. *)
Lemma read_busy_S a n at_ d next c : flash_read a (set_mode (MBusy (S n) at_ d next) c) =
  (busy_status c d, set_mode (MBusy n at_ d next) c).
Proof. done. Qed.
Lemma read_busy_O a at_ d next c : family c = Amd ->
  flash_read a (set_mode (MBusy O at_ d next) c) = (next a, set_cells next MRead c).
Proof. intros Hf. unfold flash_read. simpl. by rewrite Hf. Qed.
Lemma read_done a next c : flash_read a (set_cells next MRead c) = (next a, set_cells next MRead c).
Proof. done. Qed.

Ltac peeks := eapply acts_bind; [by apply acts_peek|]; cbn [snd].

(** One byte. *)
Lemma amd_write_wait i d p c : family c = Amd -> in_time c -> 0 <= i < 0x10000 -> is_byte_ d ->
  Z.land (cells c (p * 0x10000 + i)) d = d ->
  does (wait (amd_write_turn i (Z.land d 0x80)) (0, 0)) p
    (busy (p * 0x10000 + i) d (programmed (p * 0x10000 + i) d (cells c)) c) 0 p
    (set_cells (programmed (p * 0x10000 + i) d (cells c)) MRead c).
Proof.
  intros Hf Ht Hi Hd Hfit. set (at_ := p * 0x10000 + i). set (next := programmed at_ d (cells c)).
  assert (Hn : u8 (next at_) = d).
  { unfold next, programmed, upd1. rewrite Z.eqb_refl. unfold at_. rewrite Hfit. apply u8_small. exact Hd. }
  pose proof (amd_status_7 c d Hf) as H7%Z.eqb_neq. pose proof (amd_status_5 c d Hf) as H5.
  apply (wait_busy (amd_write_turn i (Z.land d 0x80)) true p (fun n => set_mode (MBusy n at_ d next) c)); [..|exact Ht];
    unfold amd_write_turn.
  - intros t. peeks. fold at_. rewrite read_done. cbn [fst]. rewrite Hn, Z.eqb_refl. apply acts_ret.
  - intros t. peeks. fold at_. rewrite read_busy_O by done. cbn [fst]. rewrite Hn, Z.eqb_refl. apply acts_ret.
  - intros t Hnt. peeks. fold at_. rewrite read_busy_S. cbn [fst snd]. rewrite H7. cbn [orb negb Z.eqb].
    peeks. fold at_. rewrite read_busy_O by done. cbn [fst snd]. rewrite Hn.
    eapply (acts_bind _ _ _ _ 0).
    { destruct (Z.land d 32 =? 0); [apply acts_ret|]. peeks. fold at_. rewrite read_done. cbn [fst snd].
      rewrite Hn, Z.eqb_refl. apply acts_ret. }
    rewrite Hnt. apply acts_ret.
  - intros t n Hnt. peeks. fold at_. rewrite read_busy_S. cbn [fst snd]. rewrite H7. cbn [orb negb Z.eqb].
    peeks. fold at_. rewrite read_busy_S. cbn [fst snd]. rewrite H5. cbn [Z.eqb].
    eapply acts_bind; [apply acts_ret|]. rewrite Hnt. apply acts_ret.
Qed.

(** The spinner of the loops that show one. *)
Lemma acts_maybe_spin (x : bool) p c : acts (if x then spin else mret tt) p c tt c.
Proof. destruct x; [apply acts_spin|apply acts_ret]. Qed.
Ltac spins := eapply acts_bind; [apply acts_maybe_spin|].

Lemma amd_erase_wait output at_ next p c : family c = Amd -> in_time c -> next (p * 0x10000 + 0) = 0xff ->
  does (wait (amd_erase_turn output) (0, 0)) p (busy at_ 0xff next c) 0 p (set_cells next MRead c).
Proof.
  intros Hf Ht Hn. pose proof (amd_status_erase c Hf) as H7. pose proof (amd_status_5 c 0xff Hf) as H5.
  apply (wait_busy (amd_erase_turn output) output p (fun n => set_mode (MBusy n at_ 0xff next) c)); [..|exact Ht];
    unfold amd_erase_turn.
  - intros t. peeks. rewrite read_done. cbn [fst]. rewrite Hn. apply acts_ret.
  - intros t. peeks. rewrite read_busy_O by done. cbn [fst]. rewrite Hn. apply acts_ret.
  - intros t Hnt. peeks. rewrite read_busy_S. cbn [fst snd]. rewrite H7. cbn [orb negb Z.eqb].
    peeks. rewrite read_busy_O by done. cbn [fst snd]. rewrite Hn. change (Z.land (u8 255) 32 =? 0) with false. cbv iota.
    eapply (acts_bind _ _ _ _ 0).
    { peeks. rewrite read_done. cbn [fst snd]. rewrite Hn. apply acts_ret. }
    spins. rewrite Hnt. apply acts_ret.
  - intros t n Hnt. peeks. rewrite read_busy_S. cbn [fst snd]. rewrite H7. cbn [orb negb Z.eqb].
    peeks. rewrite read_busy_S. cbn [fst snd]. rewrite H5. cbn [Z.eqb].
    eapply acts_bind; [apply acts_ret|]. spins. rewrite Hnt. apply acts_ret.
Qed.

(** ** Intel *)

Lemma read_intel_S a n at_ d next c : family c = Intel ->
  flash_read a (set_mode (MBusy (S n) at_ d next) c) = (0, set_mode (MBusy n at_ d next) c).
Proof. intros Hf. unfold flash_read, busy_status. simpl. by rewrite Hf. Qed.
Lemma read_intel_O a at_ d next c : family c = Intel ->
  flash_read a (set_mode (MBusy O at_ d next) c) = (0x80, set_cells next MStatus c).
Proof. intros Hf. unfold flash_read. simpl. by rewrite Hf. Qed.
Lemma read_status a next c : flash_read a (set_cells next MStatus c) = (0x80, set_cells next MStatus c).
Proof. done. Qed.

Lemma intel_erase_wait output at_ d next p c : family c = Intel -> in_time c ->
  does (wait (intel_erase_turn output) (0, 0)) p (busy at_ d next c) 0 p (set_cells next MStatus c).
Proof.
  intros Hf Ht. apply (wait_busy (intel_erase_turn output) output p (fun n => set_mode (MBusy n at_ d next) c)); [..|exact Ht];
    unfold intel_erase_turn.
  - intros t. peeks. rewrite read_status. apply acts_ret.
  - intros t. peeks. rewrite read_intel_O by done. apply acts_ret.
  - intros t Hnt. peeks. rewrite read_intel_S by done. peeks. rewrite read_intel_O by done.
    eapply acts_bind; [apply acts_ret|]. spins. rewrite Hnt. apply acts_ret.
  - intros t n Hnt. peeks. rewrite read_intel_S by done. peeks. rewrite read_intel_S by done.
    eapply acts_bind; [apply acts_ret|]. spins. rewrite Hnt. apply acts_ret.
Qed.

Lemma intel_write_wait i at_ d next p c : family c = Intel -> in_time c ->
  does (wait (intel_write_turn i) (0, 0)) p (busy at_ d next c) 0 p (set_cells next MStatus c).
Proof.
  intros Hf Ht. apply (wait_busy (intel_write_turn i) true p (fun n => set_mode (MBusy n at_ d next) c)); [..|exact Ht];
    unfold intel_write_turn.
  - intros t. peeks. rewrite read_status. apply acts_ret.
  - intros t. peeks. rewrite read_intel_O by done. apply acts_ret.
  - intros t Hnt. peeks. rewrite read_intel_S by done. peeks. rewrite read_intel_O by done.
    eapply acts_bind; [apply acts_ret|]. rewrite Hnt. apply acts_ret.
  - intros t n Hnt. peeks. rewrite read_intel_S by done. peeks. rewrite read_intel_S by done.
    eapply acts_bind; [apply acts_ret|]. rewrite Hnt. apply acts_ret.
Qed.

(** ** Pages *)

Lemma take_drop_step {A} (l : list A) (i n : nat) d : l !! i = Some d -> take (S n) (drop i l) = d :: take n (drop (S i) l).
Proof. intros H. by rewrite (drop_S _ _ _ H). Qed.

Lemma does_counter output n i p c : does (counter output n i) p c tt p c.
Proof. apply does_says. Qed.

Section Write.
Context (c : flash) (p block : Z) (data : list Z) (output : bool).
Hypothesis Htime : in_time c.

Lemma amd_bytes n i f : family c = Amd -> 0 <= i -> i + Z.of_nat n <= 0x10000 -> i + Z.of_nat n <= Z.of_nat (length data) ->
  fits (p * 0x10000 + i) (take n (drop (Z.to_nat i) data)) f ->
  does (amd_write_bytes n block i data output) p (set_cells f MRead c) 0 p
    (set_cells (prog (p * 0x10000 + i) (take n (drop (Z.to_nat i) data)) f) MRead c).
Proof using Htime.
  intros Hfam. revert i f. induction n as [|n IH]; intros i f Hi Hpage Hlen Hfits.
  { rewrite take_0. apply fl_ret. }
  destruct (lookup_lt_is_Some_2 data (Z.to_nat i)) as (d & Hd); [lia|].
  rewrite (take_drop_step _ _ _ d Hd) in Hfits |- *. destruct (fits_cons _ _ _ _ Hfits) as (Hb & Hl & Hf').
  assert (Hin : 0 <= i < 0x10000) by lia.
  cbn [amd_write_bytes prog]. eapply fl_bind; [by apply does_lift|].
  apply amd_command; [exact Hfam|done|done|]. cbn [Z.eqb Pos.eqb].
  eapply fl_bind; [apply does_wr; lia|]. unfold flash_write at 1. simpl family. rewrite Hfam. unfold amd_write at 1. simpl fmode. cbv iota.
  rewrite u8_small by exact Hb.
  eapply fl_bind; [exact (amd_write_wait i d p (set_cells f MProg c) Hfam Htime Hin Hb Hl)|].
  eapply fl_bind; [apply does_counter|]. change (negb (0 =? 0)) with false. cbv iota.
  replace (S (Z.to_nat i)) with (Z.to_nat (i + 1)) by lia. rewrite <- Z.add_assoc.
  apply IH; [lia..|]. replace (Z.to_nat (i + 1)) with (S (Z.to_nat i)) by lia. by rewrite Z.add_assoc.
Qed.

Lemma intel_bytes n i f m : family c = Intel -> m = MRead \/ m = MStatus ->
  0 <= i -> i + Z.of_nat n <= 0x10000 -> i + Z.of_nat n <= Z.of_nat (length data) ->
  fits (p * 0x10000 + i) (take n (drop (Z.to_nat i) data)) f ->
  does (intel_write_bytes n block i 0 data output) p (set_cells f m c) 0 p
    (set_cells (prog (p * 0x10000 + i) (take n (drop (Z.to_nat i) data)) f) (match n with O => m | _ => MStatus end) c).
Proof using Htime.
  intros Hfam Hm. revert i f m Hm. induction n as [|n IH]; intros i f m Hm Hi Hpage Hlen Hfits.
  { rewrite take_0. apply fl_ret. }
  destruct (lookup_lt_is_Some_2 data (Z.to_nat i)) as (d & Hd); [lia|].
  rewrite (take_drop_step _ _ _ d Hd) in Hfits |- *. destruct (fits_cons _ _ _ _ Hfits) as (Hb & Hl & Hf').
  assert (Hin : 0 <= i < 0x10000) by lia.
  cbn [intel_write_bytes prog]. eapply fl_bind; [by apply does_lift|].
  eapply fl_bind; [by apply does_wr|]. unfold flash_write at 1. simpl family. rewrite Hfam.
  assert (E : intel_write (p * 65536 + i) (u8 0x40) (set_cells f m c) = set_cells f MIProg c).
  { unfold intel_write. by destruct Hm as [-> | ->]. }
  rewrite E. eapply fl_bind; [by apply does_wr|]. unfold flash_write at 1. simpl family. rewrite Hfam.
  unfold intel_write at 1. simpl fmode. cbv iota. rewrite u8_small by exact Hb.
  eapply fl_bind; [by apply (intel_write_wait i _ d _ p (set_cells f MIProg c))|].
  eapply fl_bind; [apply does_counter|].
  replace (S (Z.to_nat i)) with (Z.to_nat (i + 1)) in * by lia. rewrite <- Z.add_assoc in *.
  specialize (IH (i + 1) (programmed (p * 65536 + i) d f) MStatus (or_intror eq_refl)).
  destruct n; apply IH; (lia || exact Hf').
Qed.
End Write.

(** The mode a chip is in when its driver has written. *)
Definition rest (d : driver) : mode := match d with Amd => MRead | Intel => MStatus end.
Definition PAGE : nat := Z.to_nat ROM_PAGESIZE.
Lemma PAGE_Z : Z.of_nat PAGE = 0x10000.
Proof. unfold PAGE, ROM_PAGESIZE. rewrite Z2Nat.id; lia. Qed.
Lemma PAGE_S : exists n, PAGE = S n.
Proof. exists (PAGE - 1)%nat. pose proof PAGE_Z. lia. Qed.
#[local] Opaque PAGE.

Section Blocks.
Context (c : flash) (e : eeprom_type) (output : bool).
Hypothesis Htime : in_time c.
Hypothesis Htbl : tbl !! Z.to_nat b = Some (Some e).
Hypothesis Hsize : Z.shiftr (size e) 16 <= 64.
Hypothesis Hsupp : family c = Intel -> (Z.land systype 0xffff0000 =? SYSTYPE_5K) && (Z.land systype 0xffff =? BOARDTYPE_MONTEREY) = false.

Lemma does_bank p c0 : does (ask eeprom_bank) p c0 b p c0.
Proof. apply does_ask. by intros s []. Qed.
Lemma does_page p c0 : does (ask eeprom_page) p c0 p p c0.
Proof. apply does_ask. by intros s []. Qed.
Lemma does_eeprom_at p c0 : does (eeprom_at b) p c0 (Some e) p c0.
Proof using Hbank Htbl.
  unfold eeprom_at. eapply fl_bind; [by apply does_ask; intros s []|].
  rewrite (proj2 (Z.ltb_ge _ _)) by lia. by apply does_lift.
Qed.
Lemma does_no_block block p c0 : block < Z.shiftr (size e) 16 -> does (no_block block) p c0 false p c0.
Proof using Hbank Htbl.
  intros Hb. unfold no_block. eapply fl_bind; [apply does_bank|]. eapply fl_bind; [apply does_eeprom_at|]. cbv beta iota.
  rewrite (proj2 (Z.leb_gt _ _)) by lia. apply fl_ret.
Qed.
Lemma does_too_big n p c0 : n <= size e -> does (too_big n) p c0 false p c0.
Proof using Hbank Htbl.
  intros Hn. unfold too_big. eapply fl_bind; [apply does_bank|]. eapply fl_bind; [apply does_eeprom_at|]. cbv beta iota.
  rewrite (proj2 (Z.ltb_ge _ _)) by lia. apply fl_ret.
Qed.
Lemma does_supported p c0 : family c = Intel -> does (ask is_monterey) p c0 false p c0.
Proof using Hsupp. intros Hf. apply does_ask. intros s [_ Hs _ _ _ _ _ _ _]. unfold is_monterey, sys, brd. rewrite Hs. by apply Hsupp. Qed.

(** A page is written. *)
Lemma block_written block data f m p : m = MRead \/ m = rest (family c) -> 0 <= p < 64 ->
  0 <= block < Z.shiftr (size e) 16 -> (PAGE <= length data)%nat -> fits (block * 0x10000) (take PAGE data) f ->
  does (write_block_op (family c) block data output) p (set_cells f m c) 0 p
    (set_cells (prog (block * 0x10000) (take PAGE data) f) (rest (family c)) c).
Proof using All.
  intros Hm Hp Hb Hlen Hf. assert (Hb64 : 0 <= block < 64) by lia. pose proof PAGE_Z as HP.
  assert (Ef : fits (block * 65536 + 0) (take PAGE (drop (Z.to_nat 0) data)) f) by (by rewrite Z.add_0_r).
  assert (Hfam : family c = Amd \/ family c = Intel) by (destruct (family c); by auto).
  destruct Hfam as [Hfam|Hfam]; rewrite Hfam in Hm |- *; cbn [write_block_op rest] in *.
  - assert (m = MRead) as -> by (by destruct Hm).
    unfold amd_write_block. eapply fl_bind; [apply does_bank|]. eapply fl_bind; [apply does_page|].
    eapply fl_bind; [apply does_no_block; lia|]. cbv iota.
    eapply fl_bind; [by apply does_select|]. change (Z.to_nat ROM_PAGESIZE) with PAGE.
    eapply fl_bind; [apply (amd_bytes c block block data output Htime PAGE 0 f); (lia || assumption)|].
    rewrite Z.add_0_r, drop_0. eapply fl_bind; [by apply does_select|]. apply fl_ret.
  - unfold intel_write_block. eapply fl_bind; [apply does_bank|]. eapply fl_bind; [apply does_page|].
    eapply fl_bind; [apply does_no_block; lia|]. cbv iota.
    eapply fl_bind; [by apply does_supported|]. cbv iota.
    eapply fl_bind; [by apply does_select|]. change (Z.to_nat ROM_PAGESIZE) with PAGE. destruct PAGE_S as (n & En).
    eapply fl_bind; [apply (intel_bytes c block block data output Htime PAGE 0 f m); (lia || assumption)|].
    assert (Em : match PAGE with O => m | S _ => MStatus end = MStatus) by (by rewrite En).
    rewrite Em, Z.add_0_r, drop_0. eapply fl_bind; [by apply does_select|]. apply fl_ret.
Qed.

Lemma page_offset k : 0 <= k -> Z.to_nat (k * ROM_PAGESIZE) = (Z.to_nat k * PAGE)%nat.
Proof using. intros Hk. pose proof PAGE_Z. unfold ROM_PAGESIZE. apply Nat2Z.inj. rewrite Nat2Z.inj_mul, !Z2Nat.id by lia. lia. Qed.

(** All pages from [k] on. *)
Lemma pages_written n k data f m p : m = MRead \/ m = rest (family c) -> 0 <= p < 64 ->
  0 <= k -> k + Z.of_nat n <= Z.shiftr (size e) 16 -> ((Z.to_nat k + n) * PAGE <= length data)%nat ->
  fits (k * 0x10000) (take (n * PAGE) (drop (Z.to_nat k * PAGE) data)) f ->
  exists p', 0 <= p' < 64 /\
    does (write_pages (write_block_op (family c)) n k data output) p (set_cells f m c) 0 p'
      (set_cells (prog (k * 0x10000) (take (n * PAGE) (drop (Z.to_nat k * PAGE) data)) f)
         (match n with O => m | _ => rest (family c) end) c).
Proof using All.
  pose proof PAGE_Z as HP. revert k f m p. induction n as [|n IH]; intros k f m p Hm Hp Hk Hn Hlen Hfits.
  { exists p. split; [done|]. rewrite take_0. apply fl_ret. }
  set (here := drop (Z.to_nat k * PAGE) data) in *.
  assert (Hh : length here = (length data - Z.to_nat k * PAGE)%nat) by (unfold here; by rewrite length_drop).
  assert (Esplit : take (S n * PAGE) here = take PAGE here ++ take (n * PAGE) (drop PAGE here)).
  { rewrite <- (take_drop PAGE here) at 1. replace (S n * PAGE)%nat with (PAGE + n * PAGE)%nat by lia.
    apply take_app_add'. rewrite length_take, Hh. nia. }
  assert (Edrop : drop PAGE here = drop (Z.to_nat (k + 1) * PAGE) data).
  { unfold here. rewrite drop_drop. f_equal. nia. }
  rewrite Esplit, Edrop in Hfits |- *. destruct (fits_app _ _ _ _ Hfits) as [Hf1 Hf2].
  assert (Hl1 : length (take PAGE here) = PAGE) by (rewrite length_take, Hh; nia).
  rewrite Hl1, HP in Hf2. replace (k * 65536 + 65536) with ((k + 1) * 65536) in Hf2 by lia.
  destruct (IH (k + 1) (prog (k * 65536) (take PAGE here) f) (rest (family c)) k) as (p' & Hp' & Hrun);
    [by right|lia..|nia|done|].
  exists p'. split; [done|]. cbn [write_pages].
  eapply fl_bind; [apply does_bank|]. eapply fl_bind; [apply does_select; lia|].
  rewrite page_offset by done. fold here.
  eapply fl_bind; [apply block_written; (assumption || lia)|].
  eapply fl_bind; [apply does_says|]. change (negb (0 =? 0)) with false. cbv iota.
  rewrite prog_app, Hl1, HP. replace (k * 65536 + 65536) with ((k + 1) * 65536) by lia.
  destruct n; exact Hrun.
Qed.

(** ** Verification *)

Lemma bytes_verified n page i data f : 0 <= page -> 0 <= i -> i + Z.of_nat n <= 0x10000 ->
  page * 0x10000 + i + Z.of_nat n <= Z.of_nat (length data) ->
  (forall x d, page * 0x10000 + i <= x < page * 0x10000 + i + Z.of_nat n -> data !! Z.to_nat x = Some d -> u8 (f x) = u8 d) ->
  does (verify_bytes n page i data output) page (set_cells f MRead c) None page (set_cells f MRead c).
Proof using All.
  intros Hpg. revert i. induction n as [|n IH]; intros i Hi Hn Hlen Heq; [apply fl_ret|].
  cbn [verify_bytes]. eapply fl_bind; [apply does_counter|]. unfold ROM_PAGESIZE.
  destruct (lookup_lt_is_Some_2 data (Z.to_nat (page * 65536 + i))) as (d & Hd); [lia|].
  eapply fl_bind; [by apply does_lift|]. eapply fl_bind; [apply does_rd; lia|]. rewrite read_done. cbn [fst snd].
  rewrite (Heq _ d) by (done || lia). rewrite Z.eqb_refl. apply IH; [lia..|].
  intros x d' Hx Hd'. apply (Heq x d'); [lia|done].
Qed.

Lemma pages_verified n k data f p : 0 <= p < 64 -> 0 <= k -> k + Z.of_nat n <= Z.shiftr (size e) 16 ->
  (k + Z.of_nat n) * 0x10000 <= Z.of_nat (length data) ->
  (forall x d, k * 0x10000 <= x < (k + Z.of_nat n) * 0x10000 -> data !! Z.to_nat x = Some d -> u8 (f x) = u8 d) ->
  exists p', 0 <= p' < 64 /\
    does (verify_pages n k data output) p (set_cells f MRead c) None p' (set_cells f MRead c).
Proof using All.
  pose proof PAGE_Z as HP. revert k p. induction n as [|n IH]; intros k p Hp Hk Hn Hlen Heq.
  { exists p. split; [done|]. apply fl_ret. }
  destruct (IH (k + 1) k) as (p' & Hp' & Hrun); [lia..| |].
  { intros x d Hx. apply Heq. lia. }
  exists p'. split; [done|]. cbn [verify_pages].
  eapply fl_bind; [apply does_bank|]. eapply fl_bind; [apply does_select; lia|].
  change (Z.to_nat ROM_PAGESIZE) with PAGE.
  eapply fl_bind; [apply (bytes_verified PAGE k 0 data f); [lia..|]|exact Hrun].
  intros x d Hx. apply Heq. lia.
Qed.

(** ** Whole chips *)

Lemma reset_done p f m : 0 <= p -> m = MRead \/ m = rest (family c) -> does (reset (family c)) p (set_cells f m c) tt p (set_cells f MRead c).
Proof using All.
  intros Hp Hm. assert (Hfam : family c = Amd \/ family c = Intel) by (destruct (family c); by auto).
  assert (Hw : flash_write (p * 0x10000 + 0) (match family c with Amd => 0xf0 | Intel => 0xff end) (set_cells f m c) = set_cells f MRead c).
  { unfold flash_write. simpl family. destruct Hfam as [Hfam|Hfam]; rewrite Hfam in Hm |- *; cbn [rest] in Hm.
    - assert (m = MRead) as -> by (by destruct Hm). unfold amd_write. simpl fmode. cbv iota.
      rewrite (command_addr p 0) by lia. reflexivity.
    - by destruct Hm as [-> | ->]. }
  destruct Hfam as [Hfam|Hfam]; rewrite Hfam in Hw |- *; cbn [reset].
  - unfold amd_reset. rewrite <- Hw. apply (does_wr 0 0xf0). lia.
  - unfold intel_reset. rewrite <- Hw. apply (does_wr 0 0xff). lia.
Qed.

Lemma does_wipe p c0 : does (wipe output) p c0 tt p c0.
Proof using. apply does_says. Qed.

(** The data are programmed, page by page; the chip answers reads again. *)
Lemma chip_written data sz f p : 0 <= p < 64 -> 0 <= sz <= size e -> sz <= Z.of_nat (length data) ->
  fits 0 (take (Z.to_nat (Z.shiftr sz 16) * PAGE) data) f ->
  does (write_chip (family c) data sz output) p (set_cells f MRead c) 0 p
    (set_cells (prog 0 (take (Z.to_nat (Z.shiftr sz 16) * PAGE) data) f) MRead c).
Proof using All.
  intros Hp Hsz Hlen Hfits. pose proof PAGE_Z as HP. set (n := Z.to_nat (Z.shiftr sz 16)) in *.
  assert (Hn : Z.of_nat n = sz / 65536).
  { unfold n. rewrite Z.shiftr_div_pow2 by lia. change (2 ^ 16) with 65536. rewrite Z2Nat.id; [done|]. apply Z.div_pos; lia. }
  assert (Hn2 : Z.of_nat n <= Z.shiftr (size e) 16).
  { rewrite Hn, Z.shiftr_div_pow2 by lia. apply Z.div_le_mono; lia. }
  pose proof (Z.mul_div_le sz 65536 ltac:(lia)) as Hdiv.
  destruct (pages_written n 0 data f MRead p (or_introl eq_refl) Hp) as (p' & Hp' & Hrun); [lia|lia| | |].
  { change (Z.to_nat 0) with 0%nat. nia. }
  { change (Z.to_nat 0 * PAGE)%nat with 0%nat. rewrite drop_0. exact Hfits. }
  change (Z.to_nat 0 * PAGE)%nat with 0%nat in Hrun. rewrite drop_0 in Hrun. change (0 * 65536) with 0 in Hrun.
  assert (Hm : match n with O => MRead | _ => rest (family c) end = MRead \/
               match n with O => MRead | _ => rest (family c) end = rest (family c)) by (destruct n; by auto).
  pose proof (reset_done p' (prog 0 (take (n * PAGE) data) f) _ ltac:(lia) Hm) as Hreset.
  assert (Hfam : family c = Amd \/ family c = Intel) by (destruct (family c); by auto).
  destruct Hfam as [Hfam|Hfam]; rewrite Hfam in Hrun, Hreset |- *; cbn [write_chip write_block_op reset] in *.
  - unfold amd_write_chip. eapply fl_bind; [apply does_bank|]. eapply fl_bind; [apply does_page|].
    eapply fl_bind; [apply does_too_big; lia|]. cbv iota.
    eapply fl_bind; [apply does_says|]. eapply fl_bind; [exact Hrun|].
    eapply fl_bind; [apply does_wipe|]. eapply fl_bind; [exact Hreset|].
    eapply fl_bind; [apply does_select; lia|]. apply fl_ret.
  - unfold intel_write_chip. eapply fl_bind; [apply does_bank|]. eapply fl_bind; [apply does_page|].
    eapply fl_bind; [apply does_too_big; lia|]. cbv iota.
    eapply fl_bind; [by apply does_supported|]. cbv iota.
    eapply fl_bind; [apply does_says|]. eapply fl_bind; [exact Hrun|].
    eapply fl_bind; [apply does_wipe|]. eapply fl_bind; [exact Hreset|].
    eapply fl_bind; [apply does_select; lia|]. apply fl_ret.
Qed.

Lemma chip_verified data sz f p : 0 <= p < 64 -> 0 <= sz <= size e -> sz <= Z.of_nat (length data) ->
  (forall x d, 0 <= x < Z.shiftr sz 16 * 0x10000 -> data !! Z.to_nat x = Some d -> u8 (f x) = u8 d) ->
  does (verify_chip (family c) data sz output) p (set_cells f MRead c) 0 p (set_cells f MRead c).
Proof using All.
  intros Hp Hsz Hlen Heq. set (n := Z.to_nat (Z.shiftr sz 16)) in *.
  assert (Hn : Z.of_nat n = sz / 65536 /\ Z.shiftr sz 16 = Z.of_nat n).
  { unfold n. rewrite Z.shiftr_div_pow2 by lia. change (2 ^ 16) with 65536. rewrite Z2Nat.id; [done|]. apply Z.div_pos; lia. }
  destruct Hn as [Hn Hn']. rewrite Hn' in Heq.
  assert (Hn2 : Z.of_nat n <= Z.shiftr (size e) 16).
  { rewrite Hn, Z.shiftr_div_pow2 by lia. apply Z.div_le_mono; lia. }
  pose proof (Z.mul_div_le sz 65536 ltac:(lia)) as Hdiv.
  destruct (pages_verified n 0 data f p Hp) as (p' & Hp' & Hrun); [lia..| |].
  { intros x d Hx. apply Heq. lia. }
  assert (Hg : does (generic_verify_chip data sz output) p (set_cells f MRead c) 0 p (set_cells f MRead c)).
  { unfold generic_verify_chip. eapply fl_bind; [apply does_bank|]. eapply fl_bind; [apply does_page|].
    eapply fl_bind; [apply does_too_big; lia|]. cbv iota.
    eapply fl_bind; [apply does_says|]. eapply fl_bind; [exact Hrun|].
    eapply fl_bind; [apply does_wipe|]. eapply fl_bind; [apply does_select; lia|]. apply fl_ret. }
  pose proof (reset_done p f MRead ltac:(lia) (or_introl eq_refl)) as Hreset.
  assert (Hfam : family c = Amd \/ family c = Intel) by (destruct (family c); by auto).
  destruct Hfam as [Hfam|Hfam]; rewrite Hfam in Hreset |- *; cbn [verify_chip reset] in *;
    (eapply fl_bind; [exact Hreset|exact Hg]).
Qed.

(** *** Erasing *)

Lemma sector_is_erased block f x : sector_erased (block * 65536 + 0) f x = if x / 65536 =? block then 0xff else f x.
Proof using.
  unfold sector_erased. rewrite !Z.shiftr_div_pow2 by lia. change (2 ^ 16) with 65536.
  by rewrite Z.add_0_r, Z.div_mul by lia.
Qed.

Lemma intel_block_erased block f m p : family c = Intel -> m = MRead \/ m = MStatus -> 0 <= p < 64 ->
  0 <= block < Z.shiftr (size e) 16 ->
  does (intel_erase_block block output) p (set_cells f m c) 0 p
    (set_cells (sector_erased (block * 65536 + 0) f) MStatus c).
Proof using All.
  intros Hfam Hm Hp Hb. unfold intel_erase_block.
  eapply fl_bind; [apply does_bank|]. eapply fl_bind; [apply does_page|].
  eapply fl_bind; [apply does_no_block; lia|]. cbv iota.
  eapply fl_bind; [by apply does_supported|]. cbv iota.
  eapply fl_bind; [apply does_select; lia|].
  eapply fl_bind; [apply does_wr; lia|]. unfold flash_write at 1. simpl family. rewrite Hfam.
  assert (E : intel_write (block * 65536 + 0) (u8 0x20) (set_cells f m c) = set_cells f MIErase c).
  { unfold intel_write. by destruct Hm as [-> | ->]. }
  rewrite E. eapply fl_bind; [apply does_wr; lia|]. unfold flash_write at 1. simpl family. rewrite Hfam.
  unfold intel_write at 1. simpl fmode. change (u8 0xd0 =? 0xd0) with true. cbv iota.
  eapply fl_bind; [by apply (intel_erase_wait output _ _ _ block (set_cells f MIErase c))|].
  eapply fl_bind; [apply does_select; lia|]. apply fl_ret.
Qed.

Lemma intel_blocks_erased n k f m p : family c = Intel -> m = MRead \/ m = MStatus -> 0 <= p < 64 ->
  0 <= k -> k + Z.of_nat n <= Z.shiftr (size e) 16 ->
  exists f', does (intel_erase_blocks n k output) p (set_cells f m c) 0 p
      (set_cells f' (match n with O => m | _ => MStatus end) c) /\
    forall x, f' x = if (k <=? x / 65536) && (x / 65536 <? k + Z.of_nat n) then 0xff else f x.
Proof using All.
  intros Hfam Hm Hp. revert k f m Hm. induction n as [|n IH]; intros k f m Hm Hk Hn.
  { exists f. split; [apply fl_ret|]. intros x. destruct (Z.leb_spec k (x / 65536)), (Z.ltb_spec (x / 65536) (k + Z.of_nat 0)); simpl; (done || lia). }
  destruct (IH (k + 1) (sector_erased (k * 65536 + 0) f) MStatus (or_intror eq_refl)) as (f' & Hrun & Hf'); [lia..|].
  exists f'. split.
  - cbn [intel_erase_blocks]. eapply fl_bind; [apply intel_block_erased; (done || lia)|].
    eapply fl_bind.
    { instantiate (1 := set_cells (sector_erased (k * 65536 + 0) f) MStatus c). instantiate (1 := p). instantiate (1 := tt).
      destruct output; [|apply fl_ret]. eapply fl_bind; [apply does_say|]. apply (does_acts spin), acts_spin. }
    change (negb (0 =? 0)) with false. cbv iota. by destruct n.
  - intros x. rewrite Hf', sector_is_erased.
    destruct (Z.eqb_spec (x / 65536) k) as [->|Hne].
    + destruct (Z.leb_spec (k + 1) k), (Z.leb_spec k k), (Z.ltb_spec k (k + Z.of_nat (S n))); simpl; (done || lia).
    + destruct (Z.leb_spec (k + 1) (x / 65536)), (Z.leb_spec k (x / 65536)),
        (Z.ltb_spec (x / 65536) (k + 1 + Z.of_nat n)), (Z.ltb_spec (x / 65536) (k + Z.of_nat (S n))); simpl; (done || lia).
Qed.

Lemma amd_chip_erased f p : family c = Amd -> 0 <= p < 64 ->
  does (amd_erase_chip output) p (set_cells f MRead c) 0 p (set_cells all_erased MRead c).
Proof using All.
  intros Hfam Hp. unfold amd_erase_chip. eapply fl_bind; [apply does_bank|]. eapply fl_bind; [apply does_page|].
  eapply fl_bind.
  { instantiate (1 := set_cells f MRead c). instantiate (1 := p). instantiate (1 := tt).
    destruct output; [|apply fl_ret]. eapply fl_bind; [apply does_spin_reset|apply does_say]. }
  apply amd_command; [exact Hfam|done|done|]. cbn [Z.eqb Pos.eqb].
  eapply fl_bind; [apply does_wr; lia|]. unfold flash_write at 1. simpl family. rewrite Hfam. unfold amd_write at 1. simpl fmode.
  rewrite command_addr by lia. change ((0x555 =? 0x555) && (u8 0xaa =? 0xaa)) with true. cbv iota.
  eapply fl_bind; [apply does_wr; lia|]. unfold flash_write at 1. simpl family. rewrite Hfam. unfold amd_write at 1. simpl fmode.
  rewrite command_addr by lia. change ((0x2aa =? 0x2aa) && (u8 0x55 =? 0x55)) with true. cbv iota.
  eapply fl_bind; [apply does_wr; lia|]. unfold flash_write at 1. simpl family. rewrite Hfam. unfold amd_write at 1. simpl fmode.
  rewrite command_addr by lia. change (u8 0x10 =? 0x30) with false. change ((0x555 =? 0x555) && (u8 0x10 =? 0x10)) with true. cbv iota.
  eapply fl_bind; [exact (amd_erase_wait output (p * 65536 + 0x555) all_erased p (set_cells f MErase3 c) Hfam Htime eq_refl)|].
  eapply fl_bind.
  { instantiate (1 := set_cells all_erased MRead c). instantiate (1 := p). instantiate (1 := tt).
    destruct output; [apply does_say|apply fl_ret]. }
  pose proof (reset_done p all_erased MRead ltac:(lia) (or_introl eq_refl)) as Hreset. rewrite Hfam in Hreset.
  eapply fl_bind; [exact Hreset|]. eapply fl_bind; [apply does_select; lia|]. apply fl_ret.
Qed.

Lemma does_eeprom_of p c0 : does (eeprom_of b) p c0 e p c0.
Proof using Hbank Htbl. unfold eeprom_of. eapply fl_bind; [apply does_eeprom_at|]. by apply does_lift. Qed.

Lemma chip_erased f p : 0 <= p < 64 -> 0 <= size e ->
  exists f', does (erase_chip (family c) output) p (set_cells f MRead c) 0 p (set_cells f' MRead c) /\
    forall x, 0 <= x < Z.shiftr (size e) 16 * 65536 -> f' x = 0xff.
Proof using All.
  intros Hp He. assert (Hfam : family c = Amd \/ family c = Intel) by (destruct (family c); by auto).
  destruct Hfam as [Hfam|Hfam]; rewrite Hfam; cbn [erase_chip].
  { exists all_erased. split; [by apply amd_chip_erased|done]. }
  assert (Hn : Z.of_nat (Z.to_nat (Z.shiftr (size e) 16)) = Z.shiftr (size e) 16).
  { apply Z2Nat.id. by apply Z.shiftr_nonneg. }
  destruct (intel_blocks_erased (Z.to_nat (Z.shiftr (size e) 16)) 0 f MRead p Hfam (or_introl eq_refl) Hp) as (f' & Hrun & Hf'); [lia..|].
  exists f'. split.
  - unfold intel_erase_chip. eapply fl_bind; [apply does_bank|]. eapply fl_bind; [apply does_page|].
    eapply fl_bind; [by apply does_supported|]. cbv iota.
    eapply fl_bind.
    { instantiate (1 := set_cells f MRead c). instantiate (1 := p). instantiate (1 := tt).
      destruct output; [|apply fl_ret]. eapply fl_bind; [apply does_say|apply does_spin_reset]. }
    eapply fl_bind; [apply does_eeprom_of|]. eapply fl_bind; [exact Hrun|].
    eapply fl_bind; [apply does_wipe|].
    pose proof (reset_done p f' (match Z.to_nat (Z.shiftr (size e) 16) with O => MRead | _ => MStatus end) ltac:(lia)) as Hreset.
    rewrite Hfam in Hreset. cbn [rest reset] in Hreset.
    eapply fl_bind; [apply Hreset; destruct (Z.to_nat (Z.shiftr (size e) 16)); by auto|].
    eapply fl_bind; [apply does_select; lia|]. apply fl_ret.
  - intros x Hx. rewrite Hf', Hn. assert (0 <= x / 65536 < Z.shiftr (size e) 16).
    { split; [apply Z.div_pos; lia|]. apply Z.div_lt_upper_bound; lia. }
    destruct (Z.leb_spec 0 (x / 65536)), (Z.ltb_spec (x / 65536) (0 + Z.shiftr (size e) 16)); (done || lia).
Qed.

(** ** The operations of eeprom_ops.c *)

Hypothesis Hops : ops e = Some (family c).

Lemma does_reset_bank p f : 0 <= p -> does (reset_bank b) p (set_cells f MRead c) tt p (set_cells f MRead c).
Proof using All.
  intros Hp. unfold reset_bank. eapply fl_bind; [apply does_eeprom_of|]. rewrite Hops. cbv iota.
  apply reset_done; [done|by left].
Qed.

Lemma does_erase f p : 0 <= size e ->
  exists f', does (eeprom_erase_chip b output) p (set_cells f MRead c) 0 0 (set_cells f' MRead c) /\
    forall x, 0 <= x < Z.shiftr (size e) 16 * 65536 -> f' x = 0xff.
Proof using All.
  intros He. destruct (chip_erased f 0 ltac:(lia) He) as (f' & Hrun & Hf'). exists f'. split; [|done].
  unfold eeprom_erase_chip. eapply fl_bind; [apply does_select; lia|]. eapply fl_bind; [apply does_say|].
  eapply fl_bind; [apply does_eeprom_of|]. rewrite Hops. cbv iota. eapply fl_bind; [exact Hrun|].
  eapply fl_bind; [apply does_reset_bank; lia|]. eapply fl_bind; [apply does_say|]. apply fl_ret.
Qed.

Lemma fl_write data sz f p : 0 <= sz <= size e -> sz <= Z.of_nat (length data) -> Z.shiftr sz 16 * 65536 = sz ->
  fits 0 (take (Z.to_nat sz) data) f ->
  does (eeprom_write_chip b data sz output) p (set_cells f MRead c) 0 0
    (set_cells (prog 0 (take (Z.to_nat sz) data) f) MRead c).
Proof using All.
  intros Hsz Hlen Hmul Hfits. pose proof PAGE_Z as HP.
  assert (Hn : 0 <= Z.shiftr sz 16) by (apply Z.shiftr_nonneg; lia).
  assert (Et : (Z.to_nat (Z.shiftr sz 16) * PAGE)%nat = Z.to_nat sz).
  { apply Nat2Z.inj. rewrite Nat2Z.inj_mul, !Z2Nat.id by lia. lia. }
  pose proof (chip_written data sz f 0 ltac:(lia) Hsz Hlen) as Hw. rewrite Et in Hw. specialize (Hw Hfits).
  set (g := prog 0 (take (Z.to_nat sz) data) f) in *.
  assert (Hv : does (verify_chip (family c) data sz output) 0 (set_cells g MRead c) 0 0 (set_cells g MRead c)).
  { apply chip_verified; [lia|done|done|]. intros x d Hx Hd. unfold g. rewrite prog_spec by done.
    rewrite length_take, Z.sub_0_r.
    assert (Hin : x < 0 + Z.of_nat (Z.to_nat sz `min` length data)) by lia.
    rewrite (proj2 (Z.leb_le 0 x)), (proj2 (Z.ltb_lt _ _) Hin) by lia. simpl.
    rewrite lookup_take_lt by lia. by rewrite Hd. }
  unfold eeprom_write_chip. eapply fl_bind; [apply does_select; lia|]. eapply fl_bind; [apply does_say|].
  eapply fl_bind; [apply does_eeprom_of|]. rewrite Hops. cbv iota. eapply fl_bind; [exact Hw|].
  eapply fl_bind; [apply does_reset_bank; lia|]. change (negb (0 =? 0)) with false. cbv iota.
  eapply fl_bind; [apply does_say|]. eapply fl_bind; [apply does_say|].
  eapply fl_bind; [exact Hv|]. eapply fl_bind; [apply does_reset_bank; lia|].
  change (0 =? 0) with true. cbv iota. eapply fl_bind; [apply does_say|]. apply fl_ret.
Qed.
End Blocks.
End Driver.

(** * erasing and writing a flash chip

    The boards with a page register, and the theorem on the two operations of the monitor. *)

(** ** Any board *)

Section Update.
Context {hw : Type} `{!Bytes hw, !IoPorts hw, !Config hw} (systype : Z) `{!FlashBoard hw systype}.

(** A chip the operations know, that ends its work in time, on a system that can program it. *)
Record usable (e : eeprom_type) (c : flash) : Prop := {
  u_ops : ops e = Some (family c);
  u_size : 0 <= size e <= 64 * ROM_PAGESIZE;
  u_time : in_time c;
  u_supported : family c = Intel ->
    (Z.land systype 0xffff0000 =? SYSTYPE_5K) && (Z.land systype 0xffff =? BOARDTYPE_MONTEREY) = false;
  u_idle : fmode c = MRead;
}.

(** Before an operation: what [eeprom_init] leaves.  Where [eeprom_bank] and [eeprom_page] say
    that page 0 of the bank is in the window, it is. *)
Record installed (b : Z) (e : eeprom_type) (s : flash_state hw) : Prop := {
  i_rom : rom s = WINDOW;
  i_sys : fl_systype s = systype;
  i_tbl : eeproms s !! Z.to_nat b = Some (Some e);
  i_sel : eeprom_bank s = b -> eeprom_page s = 0 -> selected (fl_hw s) b 0;
  i_chip : usable e (chip_of (fl_hw s) b);
}.

Lemma selected_already b s : eeprom_bank s = b -> eeprom_page s = 0 -> select b 0 s = Some (tt, s).
Proof.
  intros Eb Ep. unfold select, mbind, Run_bind, eeprom_set_bank_page, mbind, Run_bind, ask.
  destruct (EEPROM_MAX_BANKS <=? b); [done|]. destruct ((brd s =? BOARDTYPE_ALPINE) && negb (b =? 0)); [done|].
  by rewrite Eb, Ep, !Z.eqb_refl.
Qed.
(** The first call of an operation brings page 0 to the window; to do it again changes nothing. *)
Lemma enters b e s : 0 <= b < 2 -> installed b e s ->
  exists s0, select b 0 s = Some (tt, s0) /\
    holds systype (eeproms s) b (chip_of (fl_hw s)) 0 (chip_of (fl_hw s) b) s0.
Proof.
  intros Hb [H1 H2 H3 H4 H5]. unfold select, mbind, Run_bind.
  destruct ((eeprom_bank s =? b) && (eeprom_page s =? 0)) eqn:E.
  - apply andb_true_iff in E as [Eb%Z.eqb_eq Ep%Z.eqb_eq]. exists s. split; [exact (selected_already b s Eb Ep)|by split; auto; lia].
  - destruct (paging s b 0 H2 Hb ltac:(lia) E) as (h' & -> & Hsel & Hc).
    eexists. split; [reflexivity|]. by split; simpl; auto; lia.
Qed.
Lemma enter_bind {A} (k : unit -> Run (flash_state hw) A) b s s0 : select b 0 s = Some (tt, s0) -> (select b 0 ≫= k) s = k tt s0.
Proof. intros E. unfold mbind, Run_bind. by rewrite E. Qed.
Lemma enter_same b s s0 o : select b 0 s = Some (tt, s0) -> eeprom_bank s0 = b -> eeprom_page s0 = 0 ->
  eeprom_erase_chip b o s = eeprom_erase_chip b o s0.
Proof.
  intros E0 Hb Hp. unfold eeprom_erase_chip.
  by rewrite (enter_bind _ b s s0 E0), (enter_bind _ b s0 s0 (selected_already b s0 Hb Hp)).
Qed.
Lemma set_cells_same c : fmode c = MRead -> set_cells (cells c) MRead c = c.
Proof. destruct c. by simpl; intros ->. Qed.

Lemma erase_then_write b e data sz o1 o2 s : 0 <= b < 2 -> installed b e s ->
  bytes_ok data -> 0 <= sz <= size e -> Z.shiftr sz 16 * 0x10000 = sz -> sz <= Z.of_nat (length data) ->
  exists s' f, (eeprom_erase_chip b o1;; eeprom_write_chip b data sz o2) s = Some (0, s') /\
    holds systype (eeproms s) b (chip_of (fl_hw s)) 0 (set_cells f MRead (chip_of (fl_hw s) b)) s' /\
    forall x, 0 <= x < Z.shiftr (size e) 16 * 0x10000 -> f x = if x <? sz then data !!! Z.to_nat x else 0xff.
Proof.
  intros Hb Hi Hdata Hsz Hmul Hlen. destruct (enters b e s Hb Hi) as (s0 & E0 & H0).
  destruct Hi as [_ _ Htbl _ [Hops Hsize Htime Hsupp Hidle]].
  set (c := chip_of (fl_hw s) b) in *. set (others := chip_of (fl_hw s)) in *.
  assert (Hpages : Z.shiftr (size e) 16 <= 64).
  { rewrite Z.shiftr_div_pow2 by lia. unfold ROM_PAGESIZE in Hsize. change (2 ^ 16) with 65536.
    apply Z.div_le_upper_bound; lia. }
  destruct (does_erase systype (eeproms s) b others Hb c e o1 Htime Htbl Hpages Hsupp Hops (cells c) 0 ltac:(lia)) as (f1 & Her & Hf1).
  assert (Hfull : sz <= Z.shiftr (size e) 16 * 65536).
  { rewrite <- Hmul at 1. apply Z.mul_le_mono_nonneg_r; [lia|]. rewrite !Z.shiftr_div_pow2 by lia. apply Z.div_le_mono; lia. }
  assert (Hfits : fits 0 (take (Z.to_nat sz) data) f1).
  { intros j d Hd. apply lookup_take_Some in Hd as [Hd Hj]. pose proof (Forall_lookup_1 _ _ _ _ Hdata Hd) as Hr. simpl in Hr.
    split; [exact Hr|]. rewrite Hf1 by lia. rewrite Z.land_comm. change 255 with (Z.ones 8). rewrite Z.land_ones by lia.
    by apply Z.mod_small. }
  pose proof (fl_write systype (eeproms s) b others Hb c e o2 Htime Htbl Hpages Hsupp Hops data sz f1 0 Hsz Hlen Hmul Hfits) as Hw.
  rewrite (set_cells_same c Hidle) in Her.
  destruct (Her s0 H0) as (s1 & E1 & H1), (Hw s1 H1) as (s2 & E2 & H2).
  exists s2. eexists. split; [|split; [exact H2|]].
  - unfold mbind at 1, Run_bind at 1. rewrite (enter_same b s s0 o1 E0 (h_bank _ _ _ _ _ _ _ H0) (h_page _ _ _ _ _ _ _ H0)). by rewrite E1.
  - intros x Hx. rewrite prog_spec by done. rewrite length_take, Z.sub_0_r.
    rewrite (proj2 (Z.leb_le 0 x)) by lia. cbn [andb]. replace (0 + Z.of_nat (Z.to_nat sz `min` length data)) with sz by lia.
    destruct (Z.ltb_spec x sz); [|by apply Hf1]. rewrite lookup_take_lt by lia.
    destruct (data !! Z.to_nat x) eqn:Ex; [by rewrite (list_lookup_total_correct _ _ _ Ex)|].
    apply lookup_ge_None in Ex. lia.
Qed.
End Update.

(** ** A board with two chips behind a page register

    The register is at 0xb8 of PCI device 3 on the 3000 series and at port 0x900 on the first
    board of the 5000 series: bits 0 to 5 are the page, bit 6 the bank. *)

Record pager := mk_pager { page_reg : Z; banks : Z -> flash }.
Definition reg_bank (h : pager) : Z := Z.land (Z.shiftr (page_reg h) 6) 1.
Definition reg_page (h : pager) : Z := Z.land (page_reg h) 0x3f.
Definition put_bank (b : Z) (c : flash) (h : pager) : pager :=
  mk_pager (page_reg h) (fun b' => if b' =? b then c else banks h b').

#[export] Instance pager_bytes : Bytes pager := {|
  bus_read a h :=
    if WINDOW <=? a then
      let '(v, c) := flash_read (reg_page h * 0x10000 + (a - WINDOW)) (banks h (reg_bank h)) in (v, put_bank (reg_bank h) c h)
    else (0, h);
  bus_write a v h :=
    if WINDOW <=? a then put_bank (reg_bank h) (flash_write (reg_page h * 0x10000 + (a - WINDOW)) v (banks h (reg_bank h))) h
    else h;
|}.
#[export] Instance pager_ports : IoPorts pager := {|
  port_out n v port h := if port =? 0x900 then mk_pager v (banks h) else h;
  port_in n port h := (0, h);
|}.
#[export] Instance pager_config : Config pager := {|
  read_config bus df reg n h := (if (df =? PCI_DEVFN 3 0) && (reg =? 0xb8) then page_reg h else 0, h);
  write_config bus df reg v n h := if (df =? PCI_DEVFN 3 0) && (reg =? 0xb8) then mk_pager v (banks h) else h;
|}.

Definition page_value (b p : Z) : Z := Z.lor (Z.land p 0x3f) (Z.shiftl (Z.land b 0x1) 6).

Lemma page_value_selects x b p f : 0 <= b < 2 -> 0 <= p < 64 ->
  x = page_value b p \/ x = Z.lor (Z.land f 0xff80) (page_value b p) ->
  Z.land (Z.shiftr x 6) 1 = b /\ Z.land x 0x3f = p.
Proof.
  intros Hb Hp Hx. assert (Ep : Z.land p 0x3f = p).
  { change 0x3f with (Z.ones 6). rewrite Z.land_ones by lia. by apply Z.mod_small. }
  assert (Es : Z.shiftr p 6 = 0) by (rewrite Z.shiftr_div_pow2 by lia; by apply Z.div_small).
  assert (Hv : Z.land (Z.shiftr (page_value b p) 6) 1 = b /\ Z.land (page_value b p) 0x3f = p).
  { unfold page_value. rewrite Ep. assert (b = 0 \/ b = 1) as [-> | ->] by lia.
    - change (Z.shiftl (Z.land 0 1) 6) with 0. rewrite Z.lor_0_r, Es, Ep. done.
    - change (Z.shiftl (Z.land 1 1) 6) with 64. split; [by rewrite Z.shiftr_lor, Es|]. rewrite Z.land_lor_distr_l, Ep. apply Z.lor_0_r. }
  destruct Hx as [-> | ->]; [exact Hv|]. destruct Hv as [Hv1 Hv2].
  rewrite Z.shiftr_lor, !Z.land_lor_distr_l, Hv1, Hv2. rewrite Z.shiftr_land, <- !Z.land_assoc.
  change (Z.land (Z.shiftr 65408 6) 1) with 0. change (Z.land 65408 63) with 0. by rewrite !Z.land_0_r.
Qed.

(** The laws of the window hold whatever the system type. *)
Definition pager_selected (h : pager) (b p : Z) : Prop := reg_bank h = b /\ reg_page h = p.

Lemma pager_read h b p i : pager_selected h b p -> 0 <= i < 0x10000 ->
  let '(v, h') := bus_read (WINDOW + i) h in
  let '(v', c') := flash_read (p * 0x10000 + i) (banks h b) in
  v = v' /\ pager_selected h' b p /\ banks h' b = c' /\ forall b', b' <> b -> banks h' b' = banks h b'.
Proof.
  intros [Hb Hp] Hi. unfold bus_read, pager_bytes. rewrite (proj2 (Z.leb_le _ _)) by lia.
  rewrite Hb, Hp. replace (WINDOW + i - WINDOW) with i by lia. destruct (flash_read _ _) as [v c].
  split; [done|]. split; [by split|]. simpl. rewrite Z.eqb_refl. split; [done|].
  intros b' Hne. by destruct (Z.eqb_spec b' b).
Qed.
Lemma pager_write h b p i v : pager_selected h b p -> 0 <= i < 0x10000 ->
  let h' := bus_write (WINDOW + i) v h in
  pager_selected h' b p /\ banks h' b = flash_write (p * 0x10000 + i) v (banks h b) /\
  forall b', b' <> b -> banks h' b' = banks h b'.
Proof.
  intros [Hb Hp] Hi. unfold bus_write, pager_bytes. rewrite (proj2 (Z.leb_le _ _)) by lia.
  rewrite Hb, Hp. replace (WINDOW + i - WINDOW) with i by lia. cbv zeta.
  split; [by split|]. simpl. rewrite Z.eqb_refl. split; [done|].
  intros b' Hne. by destruct (Z.eqb_spec b' b).
Qed.

Lemma s8_small v : 0 <= v < 64 -> s8 (u8 v) = v.
Proof. intros H. rewrite u8_small by lia. unfold s8. by rewrite (proj2 (Z.ltb_lt _ _)) by lia. Qed.

Definition BOARDTYPE_PACIFICA : Z := 0x1.
Definition BOARDTYPE_CARMEL : Z := 0x2.
Definition SYSTEM_3K : Z := SYSTYPE_3K + BOARDTYPE_PACIFICA.
Definition SYSTEM_MONTEREY : Z := SYSTYPE_5K + BOARDTYPE_MONTEREY.

Lemma paging_3k (s : flash_state pager) b p : fl_systype s = SYSTEM_3K -> 0 <= b < 2 -> 0 <= p < 64 ->
  (eeprom_bank s =? b) && (eeprom_page s =? p) = false ->
  exists h', eeprom_set_bank_page b p s = Some (0, set_at b p (set_fl_hw h' s)) /\
    pager_selected h' b p /\ forall b', banks h' b' = banks (fl_hw s) b'.
Proof.
  intros Hs Hb Hp Hne. exists (mk_pager (Z.lor (Z.land (page_reg (fl_hw s)) 0xff80) (page_value b p)) (banks (fl_hw s))).
  split; [|split; [|done]].
  - unfold eeprom_set_bank_page, mbind, Run_bind, ask, chg, cfg_read, cfg_write, brd, sys. cbv beta iota. rewrite Hs.
    rewrite (proj2 (Z.leb_gt EEPROM_MAX_BANKS b)) by (unfold EEPROM_MAX_BANKS; lia).
    change (Z.land SYSTEM_3K 0x0000ffff =? BOARDTYPE_ALPINE) with false. cbn [andb]. cbv beta iota. rewrite Hne. cbv beta iota. rewrite Hs.
    simpl. unfold set_at, set_fl_hw. simpl. rewrite !s8_small by lia. by rewrite Hs.
  - eapply page_value_selects; [done|done|]. by right.
Qed.
Lemma paging_monterey (s : flash_state pager) b p : fl_systype s = SYSTEM_MONTEREY -> 0 <= b < 2 -> 0 <= p < 64 ->
  (eeprom_bank s =? b) && (eeprom_page s =? p) = false ->
  exists h', eeprom_set_bank_page b p s = Some (0, set_at b p (set_fl_hw h' s)) /\
    pager_selected h' b p /\ forall b', banks h' b' = banks (fl_hw s) b'.
Proof.
  intros Hs Hb Hp Hne. exists (mk_pager (u8 (page_value b p)) (banks (fl_hw s))).
  assert (Hv : u8 (page_value b p) = page_value b p).
  { apply u8_small. unfold page_value. assert (Ep : Z.land p 0x3f = p).
    { change 0x3f with (Z.ones 6). rewrite Z.land_ones by lia. by apply Z.mod_small. }
    rewrite Ep. assert (b = 0 \/ b = 1) as [-> | ->] by lia.
    - change (Z.shiftl (Z.land 0 1) 6) with 0. rewrite Z.lor_0_r. lia.
    - rewrite Z.lor_comm. change (Z.shiftl (Z.land 1 1) 6) with (Z.shiftl 1 6). rewrite (lor_shifted 6) by lia. lia. }
  split; [|split; [|done]].
  - unfold eeprom_set_bank_page, mbind, Run_bind, ask, chg, cfg_write, out, brd, sys. cbv beta iota. rewrite Hs.
    rewrite (proj2 (Z.leb_gt EEPROM_MAX_BANKS b)) by (unfold EEPROM_MAX_BANKS; lia).
    change (Z.land SYSTEM_MONTEREY 0x0000ffff =? BOARDTYPE_ALPINE) with false. cbn [andb]. cbv beta iota. rewrite Hne. cbv beta iota. rewrite Hs.
    simpl. unfold set_at, set_fl_hw. simpl. rewrite !s8_small by lia. by rewrite Hs.
  - eapply (page_value_selects _ b p 0); [done|done|]. rewrite Hv. by left.
Qed.

#[export] Instance board_3k : FlashBoard pager SYSTEM_3K := {|
  selected := pager_selected; chip_of := banks;
  window_read := pager_read; window_write := pager_write; paging := paging_3k;
|}.
#[export] Instance board_monterey : FlashBoard pager SYSTEM_MONTEREY := {|
  selected := pager_selected; chip_of := banks;
  window_read := pager_read; window_write := pager_write; paging := paging_monterey;
|}.

(** ** The theorem *)

(** C31: to erase a chip and to write it with [eeprom_erase_chip] and [eeprom_write_chip] answers
    0, wherever the pages of the window stand: the chip then holds the data, and 0xff behind
    them, answers reads with its bytes, and is ready for the next operation; the other chip is
    as it was.  The size to write is a multiple of 64 KB (of another size the end would not
    be written) and not beyond the chip, of at most 4 MB, which ends its work in time.  The
    boards are those with a window on their chips that stays where it is, the 3000 series and
    Monterey but not Alpine; the chips are AMD, and on the 3000 series Intel too (on Monterey
    the Intel functions fail). *)
Theorem flash_update {hw : Type} `{!Bytes hw, !IoPorts hw, !Config hw} (systype : Z) `{!FlashBoard hw systype}
    (b : Z) (e : eeprom_type) (data : list Z) (sz : Z) (o1 o2 : bool) (s : flash_state hw) :
  0 <= b < 2 -> installed systype b e s -> bytes_ok data ->
  0 <= sz <= size e -> Z.shiftr sz 16 * 0x10000 = sz -> sz <= Z.of_nat (length data) ->
  exists s', (eeprom_erase_chip b o1;; eeprom_write_chip b data sz o2) s = Some (0, s') /\
    (forall x, 0 <= x < Z.shiftr (size e) 16 * 0x10000 ->
       fst (flash_read x (chip_of (fl_hw s') b)) = if x <? sz then data !!! Z.to_nat x else 0xff) /\
    (forall b', b' <> b -> chip_of (fl_hw s') b' = chip_of (fl_hw s) b') /\
    installed systype b e s'.
Proof.
  intros Hb Hi Hdata Hsz Hmul Hlen.
  destruct (erase_then_write systype b e data sz o1 o2 s Hb Hi Hdata Hsz Hmul Hlen) as (s' & f & E & [K1 K2 K3 K4 K5 K6 K7 K8 K9] & Hf).
  exists s'. split; [exact E|]. rewrite K8. split; [exact Hf|]. split; [exact K9|].
  destruct Hi as [_ _ I3 _ [U1 U2 U3 U4 U5]]. split; [exact K1|exact K2|by rewrite K3|done|]. rewrite K8. by split.
Qed.

(** A Monterey board with two AMD chips, as [eeprom_init] finds it. *)
Definition amd_chip : flash := mk_flash Amd (0x01, 0xd5) 3 0x55 (fun x => x mod 251) MRead.
Definition am29f080b : eeprom_type := mk_eeprom_type 0x01 0xd5 0x00100000 "AMD AM29F080B"%string (Some Amd).
Definition bench : flash_state pager :=
  mk_flash_state (mk_pager 0x12 (fun _ => amd_chip)) SYSTEM_MONTEREY WINDOW 0 (-1) (-1)
    [Some am29f080b; Some am29f080b] [0x01d5; 0x01d5] 0x200000 0x10000 0 [].
Definition image : list Z := repeat 0x5a (Z.to_nat 0x10000).
Lemma image_length : Z.of_nat (length image) = 0x10000.
Proof. unfold image. rewrite repeat_length. apply Z2Nat.id. lia. Qed.
Lemma image_bytes : bytes_ok image.
Proof. apply List.Forall_forall. intros x Hx. apply repeat_spec in Hx. lia. Qed.

Lemma bench_installed : installed SYSTEM_MONTEREY 1 am29f080b bench.
Proof. split; try reflexivity; [discriminate|]. split; [reflexivity|unfold ROM_PAGESIZE; simpl; lia|reflexivity|discriminate|reflexivity]. Qed.

Lemma flash_update_witness : exists s',
  (eeprom_erase_chip 1 true;; eeprom_write_chip 1 image 0x10000 true) bench = Some (0, s') /\
  (forall x, 0 <= x < 0x100000 ->
     fst (flash_read x (banks (fl_hw s') 1)) = if x <? 0x10000 then image !!! Z.to_nat x else 0xff) /\
  (forall b', b' <> 1 -> banks (fl_hw s') b' = amd_chip) /\ installed SYSTEM_MONTEREY 1 am29f080b s'.
Proof.
  destruct (flash_update SYSTEM_MONTEREY 1 am29f080b image 0x10000 true true bench ltac:(lia) bench_installed image_bytes
              ltac:(simpl; lia) eq_refl ltac:(pose proof image_length; lia)) as (s' & E & Hc & Ho & Hi).
  exists s'. split; [exact E|]. split; [exact Hc|]. split; [exact Ho|exact Hi].
Defined.
