(* ===== verification/Cmos.v ===== *)
(** * Cmos: the settings kept in battery-backed memory

    Model of [x86/common/cmos.c] as it is built into the ROM ([INROM]), of the
    constants of [x86/include/common/cmos.h] it uses, and of [do_first_boot]
    ([x86/monitor/main.c], [x86/ramcode/main.c]).  Strings are lists of [char] values
    0..255; [None] is a read outside the string.  The version numbers [V_MAJ], [V_MIN],
    [V_REV] come from the build and are arguments; [printf] is not modelled. *)

From stdpp Require Import strings.
From S2P Require Import Prelude CString CmosIo.

Definition CMOS_CONSOLE_FLAG : Z := 0x0001.
Definition CMOS_DEBUG_FLAG : Z := 0x0002.
Definition CMOS_AUTO_PROMPT_FLAG : Z := 0x0004.
Definition CMOS_CLEAN_BOOT_FLAG : Z := 0x0008.
Definition CMOS_SYSFAULT_FLAG : Z := 0x0020.
Definition CMOS_NOLOGO_FLAG : Z := 0x0100.
Definition CMOS_VERSION_FLAG : Z := 0x0200.
Definition CMOS_UNIQUE_FLAG : Z := 0x0800.
Definition CMOS_BIOS_DRIVE_INFO : Z := 0x12.
Definition CMOS_VERSION : Z := 0x13.
Definition CMOS_VERSION_CURRENT : Z := 1.
Definition CMOS_VER_BTOCODE : Z := 1.
Definition CMOS_BOOT_METHOD : Z := 0x20.
Definition CMOS_BOOT_METHOD_DISK : Z := 0.
Definition CMOS_BOOT_METHOD_NNET : Z := 3.
Definition CMOS_BOOT_DEV_MAJ : Z := 0x21.
Definition CMOS_BOOT_DEV_MIN : Z := 0x22.
Definition CMOS_ROOT_DEV_MAJ : Z := 0x23.
Definition CMOS_ROOT_DEV_MIN : Z := 0x24.
Definition CMOS_UPTIME_0 : Z := 0x30.
Definition CMOS_BOOTCOUNT_0 : Z := 0x38.
Definition CMOS_SYS_SERNUM_LEN : nat := 13.
Definition CMOS_SYS_SERNUM_0 : Z := 0x40.
Definition CMOS_SYS_SERNUM_CSUM : Z := 0x4f.
Definition CMOS_SYS_SERNUM_OLD_CSUM : Z := 0xfe.
Definition CMOS_ROM_REV_MAJ : Z := 0x50.
Definition CMOS_ROM_REV_MIN : Z := 0x51.
Definition CMOS_ROM_REV_REV : Z := 0x52.
Definition CMOS_BTO_CODE_0 : Z := 0x53.
Definition CMOS_BTO_IP_CSUM : Z := 0x57.
Definition CMOS_BTO_IP_0 : Z := 0x58.
Definition CMOS_BOOT_TYPE : Z := 0x5c.
Definition CMOS_BOOT_TYPE_DEF : Z := Z.lor 0x01 0x10.

Open Scope string_scope.
Open Scope list_scope.
Open Scope Z_scope.

(** The initial table [cmos_flags]. *)
Definition cmos_flags_init : list cmos_flag := [
  mk_cmos_flag (chars "debug") CMOS_DEBUG_FLAG 0;
  mk_cmos_flag (chars "console") CMOS_CONSOLE_FLAG 0;
  mk_cmos_flag (chars "prompt") CMOS_AUTO_PROMPT_FLAG 0;
  mk_cmos_flag (chars "clean_boot") CMOS_CLEAN_BOOT_FLAG 0;
  mk_cmos_flag (chars "sysfault") CMOS_SYSFAULT_FLAG 0;
  mk_cmos_flag (chars "nologo") CMOS_NOLOGO_FLAG 0;
  mk_cmos_flag (chars "unique_root") CMOS_UNIQUE_FLAG 0 ].

(** ** Serial number checksum *)

Definition csum_key : list Z := chars "cNoEbTaWlOtR!".

(** The loop of [cmos_gen_csum]: [char]s are signed, [sum] is an [int]. *)
Fixpoint csum_loop (str key : list Z) (n : nat) (sum : Z) : option Z :=
  match n with
  | O => Some sum
  | S n =>
    match str, key with
    | c :: str, k :: key => csum_loop str key n (sum + Z.lxor (s8 c) (s8 k))
    | _, _ => None
    end
  end.

Definition cmos_gen_csum (str : list Z) : option Z :=
  sum ← csum_loop str csum_key CMOS_SYS_SERNUM_LEN 0;
  Some (Z.land (Z.lxor (Z.land sum 0x7f) 0xd6) 0xff).

Section Cmos.
Context {hw : Type} `{!Ports hw}.
Abbreviation M := (St (rom hw)).

Definition upd (f : cmos_vars -> cmos_vars) : M unit :=
  fun s => (tt, mk_rom (dev s) (cur_systype s) (f (vars s))).

(** Bytes written to consecutive addresses from [i]. *)
Fixpoint write_bytes (i : Z) (vs : list Z) : M unit :=
  match vs with
  | [] => mret tt
  | v :: vs => write_byte i v;; write_bytes (i + 1) vs
  end.

(** [n] bytes read from consecutive addresses from [i]. *)
Fixpoint read_bytes (i : Z) (n : nat) : M (list Z) :=
  match n with
  | O => mret []
  | S n => b ← cmos_read_byte i; bs ← read_bytes (i + 1) n; mret (b :: bs)
  end.

(** [cmos_write_serial_num]: [None] when the string is shorter than the 13 bytes read.
    The caller's buffer, cut at 13 by [sn[13] = 0], is not used afterwards. *)
Definition cmos_write_serial_num (sn : list Z) : M (option unit) :=
  let str := cstr sn ++ [0] in
  match cmos_gen_csum str with
  | None => mret None
  | Some csum =>
    write_bytes CMOS_SYS_SERNUM_0 (take CMOS_SYS_SERNUM_LEN str);;
    write_byte CMOS_SYS_SERNUM_CSUM csum;;
    cmos_set_checksum;;
    mret (Some tt)
  end.

(** [cmos_read_serial_num]: the result is the buffer [sernum] up to the end of what is
    written to it. *)
Definition cmos_read_serial_num : M (list Z) :=
  sn ← read_bytes CMOS_SYS_SERNUM_0 CMOS_SYS_SERNUM_LEN;
  let sernum := sn ++ [0] in
  cmos_csum ← cmos_read_byte CMOS_SYS_SERNUM_CSUM;
  let read_csum := default 0 (cmos_gen_csum sernum) in
  if read_csum =? cmos_csum then mret sernum
  else
    is3k ← gets systype_is_3k;
    cmos_csum ← (if is3k then cmos_read_byte CMOS_SYS_SERNUM_OLD_CSUM else mret cmos_csum);
    if is3k && (read_csum =? cmos_csum)
    then
      write_byte CMOS_SYS_SERNUM_CSUM cmos_csum;;
      cmos_set_checksum;;
      mret sernum
    else mret (chars "invalid csum!" ++ [0]).

Definition cmos_write_rom_rev (V_MAJ V_MIN V_REV : Z) : M unit :=
  write_byte CMOS_ROM_REV_MAJ V_MAJ;;
  write_byte CMOS_ROM_REV_MIN V_MIN;;
  write_byte CMOS_ROM_REV_REV V_REV;;
  cmos_set_checksum.

Definition cmos_read_boot_dev : M Z :=
  maj ← cmos_read_byte CMOS_BOOT_DEV_MAJ;
  min ← cmos_read_byte CMOS_BOOT_DEV_MIN;
  mret (Z.lor (Z.shiftl maj 8) min).

Definition cmos_read_root_dev : M Z :=
  maj ← cmos_read_byte CMOS_ROOT_DEV_MAJ;
  min ← cmos_read_byte CMOS_ROOT_DEV_MIN;
  mret (Z.lor (Z.shiftl maj 8) min).

(** ** BTO server address *)

Definition set_bto_ip (ip : Z) (v : cmos_vars) : cmos_vars :=
  mk_cmos_vars (serial_num v) (console v) (debug v) (boot_method v) (auto_prompt v)
    (first_boot v) (clean_boot v) (show_logo v) (unique_root v) (sysfault v) ip
    (cmos_version v) (boot_type v) (cmos_flags v).

Definition init_bto_ip : M unit :=
  btoar ← read_bytes CMOS_BTO_IP_0 4;
  csum ← cmos_read_byte CMOS_BTO_IP_CSUM;
  let calcsum := u8 (foldl Z.add 0 btoar) in
  if calcsum =? csum
  then upd (set_bto_ip (foldl (fun ip b => Z.lor (Z.shiftl ip 8) b) 0 btoar))
  else
    write_bytes CMOS_BTO_IP_0 [0; 0; 0; 0];;
    write_byte CMOS_BTO_IP_CSUM 0;;
    cmos_set_checksum;;
    upd (set_bto_ip 0).

Definition cmos_set_bto_ip (ip : Z) : M unit :=
  let b k := Z.land (Z.shiftr ip k) 0xff in
  let csum := u8 (b 24 + b 16 + b 8 + b 0) in
  write_bytes CMOS_BTO_IP_0 [b 24; b 16; b 8; b 0];;
  write_byte CMOS_BTO_IP_CSUM csum;;
  cmos_set_checksum;;
  upd (set_bto_ip ip).

(** ** The table of flags *)

Definition cmos_flags_find (f : Z) (t : list cmos_flag) : option cmos_flag :=
  list_find (fun e => flag e = f) t ≫= fun r => Some (snd r).

(** [strncmp(name, f->name, strlen(name))] is zero when [name] is a prefix. *)
Definition cmos_flags_namefind (name : list Z) (t : list cmos_flag) : option cmos_flag :=
  list_find (fun e => name `prefix_of` fname e) t ≫= fun r => Some (snd r).

(** The variable a flag of the table stands for, or [None] in the default case. *)
Definition flag_var (v : cmos_vars) (f : Z) : option Z :=
  if f =? CMOS_DEBUG_FLAG then Some (debug v)
  else if f =? CMOS_CONSOLE_FLAG then Some (console v)
  else if f =? CMOS_AUTO_PROMPT_FLAG then Some (auto_prompt v)
  else if f =? CMOS_CLEAN_BOOT_FLAG then Some (clean_boot v)
  else if f =? CMOS_SYSFAULT_FLAG then Some (sysfault v)
  else if f =? CMOS_NOLOGO_FLAG then Some (show_logo v)
  else if f =? CMOS_UNIQUE_FLAG then Some (unique_root v)
  else None.

Definition set_flag_var (f x : Z) (v : cmos_vars) : cmos_vars :=
  let pick g old := if f =? g then x else old in
  mk_cmos_vars (serial_num v) (pick CMOS_CONSOLE_FLAG (console v))
    (pick CMOS_DEBUG_FLAG (debug v)) (boot_method v)
    (pick CMOS_AUTO_PROMPT_FLAG (auto_prompt v)) (first_boot v)
    (pick CMOS_CLEAN_BOOT_FLAG (clean_boot v)) (pick CMOS_NOLOGO_FLAG (show_logo v))
    (pick CMOS_UNIQUE_FLAG (unique_root v)) (pick CMOS_SYSFAULT_FLAG (sysfault v))
    (bto_ip v) (cmos_version v) (boot_type v) (cmos_flags v).

Definition set_table (t : list cmos_flag) (v : cmos_vars) : cmos_vars :=
  mk_cmos_vars (serial_num v) (console v) (debug v) (boot_method v) (auto_prompt v)
    (first_boot v) (clean_boot v) (show_logo v) (unique_root v) (sysfault v) (bto_ip v)
    (cmos_version v) (boot_type v) t.

(** [cmos_flags_sync]: with [dir] the table sets the variables, else they set it. *)
Definition cmos_flags_sync (dir : Z) : M unit :=
  upd (fun v =>
    if dir =? 0
    then set_table (map (fun e => mk_cmos_flag (fname e) (flag e)
                                    (default (fstate e) (flag_var v (flag e)))) (cmos_flags v)) v
    else foldl (fun v e => set_flag_var (flag e) (fstate e) v) v (cmos_flags v)).

(** ** Defaults *)

Definition cmos_set_defaults : M unit :=
  write_byte CMOS_FLAG_BYTE_0 0;;
  write_byte CMOS_FLAG_BYTE_1 0;;
  _ ← cmos_write_flag CMOS_CONSOLE_FLAG 1;
  _ ← cmos_write_flag CMOS_DEBUG_FLAG 1;
  _ ← cmos_write_flag CMOS_CLEAN_BOOT_FLAG 1;
  _ ← cmos_write_flag CMOS_VERSION_FLAG 1;
  write_byte CMOS_BOOT_METHOD CMOS_BOOT_METHOD_DISK;;
  write_byte CMOS_BOOT_TYPE CMOS_BOOT_TYPE_DEF;;
  is3k ← gets systype_is_3k;
  let maj := if (is3k : bool) then 0x03 else 0x09 in
  let min := 0x01 in
  write_byte CMOS_BOOT_DEV_MAJ maj;;
  write_byte CMOS_BOOT_DEV_MIN min;;
  write_byte CMOS_ROOT_DEV_MAJ maj;;
  write_byte CMOS_ROOT_DEV_MIN min;;
  cmos_set_powerapply 0;;
  cmos_set_powerfail 0;;
  write_bytes CMOS_BTO_IP_0 [0; 0; 0; 0];;
  write_byte CMOS_BTO_IP_CSUM 0;;
  cmos_set_checksum.

(** The wake event registers an Alpine board needs cleared: after its index [i] is
    written to port 0x500, each is cleared through port 0x501. *)
Definition clear_wake_event (i : Z) : M unit := outb i 0x500;; outb 0x00 0x501.

Definition cmos_first_boot_defaults_only (reset_sn : Z) : M unit :=
  write_bytes CMOS_UPTIME_0 [0; 0; 0; 0];;
  write_bytes CMOS_BOOTCOUNT_0 [0; 0; 0; 0];;
  write_bytes CMOS_BTO_CODE_0 [0; 0; 0; 0];;
  (if reset_sn =? 0 then mret tt
   else _ ← cmos_write_serial_num (chars "Uninitialized"); mret tt);;
  write_byte CMOS_BOOT_METHOD CMOS_BOOT_METHOD_NNET;;
  b ← gets boardtype;
  (if b =? BOARDTYPE_ALPINE then each clear_wake_event (seqZ 0 32) else mret tt);;
  cmos_set_checksum.

(** [do_first_boot] of the monitor; that of the ram code does nothing.
    [rtc_set_defaults] sets the clock. *)
Definition do_first_boot (rtc_set_defaults : M unit) : M unit :=
  cmos_set_defaults;;
  cmos_first_boot_defaults_only 1;;
  rtc_set_defaults.

(** ** Initialisation *)

Definition truth (b : Z) : Z := if b =? 0 then 0 else 1.

(** The globals [cmos_init] sets from the flags and bytes it reads. *)
Definition set_vars (con dbg clean logo prompt uniq fault meth ver typ : Z) (v : cmos_vars) :
    cmos_vars :=
  mk_cmos_vars (serial_num v) con dbg meth prompt (first_boot v) clean logo uniq fault
    (bto_ip v) ver typ (cmos_flags v).

Definition set_first_boot (x : Z) (v : cmos_vars) : cmos_vars :=
  mk_cmos_vars (serial_num v) (console v) (debug v) (boot_method v) (auto_prompt v) x
    (clean_boot v) (show_logo v) (unique_root v) (sysfault v) (bto_ip v) (cmos_version v)
    (boot_type v) (cmos_flags v).

Definition set_version (x : Z) (v : cmos_vars) : cmos_vars :=
  mk_cmos_vars (serial_num v) (console v) (debug v) (boot_method v) (auto_prompt v)
    (first_boot v) (clean_boot v) (show_logo v) (unique_root v) (sysfault v) (bto_ip v) x
    (boot_type v) (cmos_flags v).

Definition set_serial_num (sn : list Z) (v : cmos_vars) : cmos_vars :=
  mk_cmos_vars sn (console v) (debug v) (boot_method v) (auto_prompt v) (first_boot v)
    (clean_boot v) (show_logo v) (unique_root v) (sysfault v) (bto_ip v) (cmos_version v)
    (boot_type v) (cmos_flags v).

(** The first part of [cmos_init]: the checksum and the defaults of a first boot. *)
Definition check_first_boot (first_boot_hook : M unit) : M unit :=
  ok ← cmos_check_checksum;
  if (ok : bool) then upd (set_first_boot 0)
  else upd (set_first_boot 1);; first_boot_hook;; cmos_set_checksum.

(** "If the version valid flag is not set, set it and zero the version." *)
Definition check_version_flag : M unit :=
  vf ← cmos_read_flag CMOS_VERSION_FLAG;
  if vf =? 0
  then _ ← cmos_write_flag CMOS_VERSION_FLAG 1; write_byte CMOS_VERSION 0
  else mret tt.

(** The reads that set the globals. *)
Definition read_vars : M unit :=
  con ← cmos_read_flag CMOS_CONSOLE_FLAG;
  dbg ← cmos_read_flag CMOS_DEBUG_FLAG;
  clean ← cmos_read_flag CMOS_CLEAN_BOOT_FLAG;
  nologo ← cmos_read_flag CMOS_NOLOGO_FLAG;
  prompt ← cmos_read_flag CMOS_AUTO_PROMPT_FLAG;
  uniq ← cmos_read_flag CMOS_UNIQUE_FLAG;
  fault ← cmos_read_flag CMOS_SYSFAULT_FLAG;
  meth ← cmos_read_byte CMOS_BOOT_METHOD;
  ver ← cmos_read_byte CMOS_VERSION;
  typ ← cmos_read_byte CMOS_BOOT_TYPE;
  upd (set_vars con (Z.land (truth dbg) (truth con)) clean (1 - truth nologo)
         (Z.land (truth prompt) (truth con)) uniq fault meth ver typ).

(** The migration of an older format. *)
Definition update_version : M unit :=
  ver ← gets (fun s => cmos_version (vars s));
  if ver <? CMOS_VERSION_CURRENT
  then
    (if ver <? CMOS_VER_BTOCODE then write_bytes CMOS_BTO_CODE_0 [0; 0; 0; 0] else mret tt);;
    write_byte CMOS_VERSION CMOS_VERSION_CURRENT;;
    upd (set_version CMOS_VERSION_CURRENT);;
    cmos_set_checksum
  else mret tt.

Definition cmos_init (first_boot_hook : M unit) (V_MAJ V_MIN V_REV : Z) : M Z :=
  check_first_boot first_boot_hook;;
  write_byte CMOS_BIOS_DRIVE_INFO 0x0;;
  cmos_write_rom_rev V_MAJ V_MIN V_REV;;
  check_version_flag;;
  read_vars;;
  update_version;;
  init_bto_ip;;
  sn ← cmos_read_serial_num;
  upd (set_serial_num sn);;
  cmos_flags_sync 0;;
  mret 0.
End Cmos.
