(* ===== verification/CmosProofs.v ===== *)
(** * CmosProofs: what the memory operations do to the bytes

    [Rtc] is the contract of the clock chip; [chip] is a device that meets it.  The
    operations are specified by [does]: from a state whose bytes are the list [c] they
    return a value and leave the bytes [c'], whatever the chip does besides. *)

From stdpp Require Import strings.
From S2P Require Import Prelude CString CStringProofs CmosIo Cmos.

(** The bytes used as memory: 0x0e to 0x7f of bank 0, and one register of bank 2. *)
Definition ram_cell (b i : Z) : Prop :=
  (b = PNP_NS_RTC_BANK_0 /\ CMOS_CKS_START <= i <= CMOS_CKS_END) \/
  (b = PNP_NS_RTC_BANK_2 /\ i = PNP_NS_APCR6).

Definition is_byte (v : Z) : Prop := 0 <= v < 256.

(** The clock chip: [latch] is the address register, [sel] the bank that bits 4 to 6 of
    register A select, [cell b i] byte [i] of bank [b]. *)
Class Rtc (hw : Type) `{!Ports hw} := {
  latch : hw -> Z;
  sel : hw -> Z;
  cell : hw -> Z -> Z -> Z;
  cell_byte h b i : is_byte (cell h b i);
  addr_latch h i : is_byte i -> latch (dev_outb i CMOS_ADDR_PORT h) = i;
  addr_sel h i : sel (dev_outb i CMOS_ADDR_PORT h) = sel h;
  addr_cell h i b j : cell (dev_outb i CMOS_ADDR_PORT h) b j = cell h b j;
  data_byte h : is_byte (fst (dev_inb CMOS_DATA_PORT h));
  data_cell h : ram_cell (sel h) (latch h) ->
    fst (dev_inb CMOS_DATA_PORT h) = cell h (sel h) (latch h);
  data_cra h : latch h = PNP_NS_RTC_CRA -> Z.land (fst (dev_inb CMOS_DATA_PORT h)) 0x70 = sel h;
  in_latch h p : latch (snd (dev_inb p h)) = latch h;
  in_sel h p : sel (snd (dev_inb p h)) = sel h;
  in_cell h p b j : cell (snd (dev_inb p h)) b j = cell h b j;
  put_latch h v : latch (dev_outb v CMOS_DATA_PORT h) = latch h;
  put_cra h v : latch h = PNP_NS_RTC_CRA -> is_byte v ->
    sel (dev_outb v CMOS_DATA_PORT h) = Z.land v 0x70;
  put_cra_cell h v b j : latch h = PNP_NS_RTC_CRA -> ram_cell b j ->
    cell (dev_outb v CMOS_DATA_PORT h) b j = cell h b j;
  put_sel h v : ram_cell (sel h) (latch h) -> sel (dev_outb v CMOS_DATA_PORT h) = sel h;
  put_same h v : ram_cell (sel h) (latch h) -> is_byte v ->
    cell (dev_outb v CMOS_DATA_PORT h) (sel h) (latch h) = v;
  put_other h v b j : ram_cell (sel h) (latch h) -> ram_cell b j ->
    (b, j) <> (sel h, latch h) -> cell (dev_outb v CMOS_DATA_PORT h) b j = cell h b j;
  other_sel h v p : p <> CMOS_ADDR_PORT -> p <> CMOS_DATA_PORT -> sel (dev_outb v p h) = sel h;
  other_cell h v p b j : p <> CMOS_ADDR_PORT -> p <> CMOS_DATA_PORT ->
    cell (dev_outb v p h) b j = cell h b j;
}.

(** ** A chip *)

Record chip := mk_chip { ch_latch : Z; ch_cra : Z; ch_mem : Z -> Z -> Z; ch_ports : Z -> Z }.

Definition ch_sel (h : chip) : Z := Z.land (ch_cra h) 0x70.

Definition chip_outb (v p : Z) (h : chip) : chip :=
  if p =? CMOS_ADDR_PORT then mk_chip v (ch_cra h) (ch_mem h) (ch_ports h)
  else if p =? CMOS_DATA_PORT then
    if ch_latch h =? PNP_NS_RTC_CRA then mk_chip (ch_latch h) v (ch_mem h) (ch_ports h)
    else
      mk_chip (ch_latch h) (ch_cra h)
        (fun b i => if (b =? ch_sel h) && (i =? ch_latch h) then v else ch_mem h b i) (ch_ports h)
  else mk_chip (ch_latch h) (ch_cra h) (ch_mem h)
         (fun q => if q =? p then v else ch_ports h q).

Definition chip_inb (p : Z) (h : chip) : Z * chip :=
  (if p =? CMOS_DATA_PORT then
     if ch_latch h =? PNP_NS_RTC_CRA then u8 (ch_cra h) else u8 (ch_mem h (ch_sel h) (ch_latch h))
   else u8 (ch_ports h p), h).

#[export] Instance chip_ports : Ports chip := { dev_outb := chip_outb; dev_inb := chip_inb }.

Lemma u8_byte v : is_byte (u8 v).
Proof. unfold is_byte, u8. pose proof (Z.mod_pos_bound v 256). lia. Qed.

Lemma u8_is v : is_byte v -> u8 v = v.
Proof. intros H. by apply Z.mod_small. Qed.

Lemma land_u8_70 v : Z.land (u8 v) 0x70 = Z.land v 0x70.
Proof.
  unfold u8. change 256 with (2 ^ 8). rewrite <- Z.land_ones by done. by rewrite <- Z.land_assoc.
Qed.

Lemma ram_cell_not_cra b i : ram_cell b i -> i <> PNP_NS_RTC_CRA.
Proof. unfold ram_cell, PNP_NS_RTC_CRA, CMOS_CKS_START, PNP_NS_APCR6. lia. Qed.

#[export] Program Instance chip_rtc : Rtc chip := {
  latch := ch_latch;
  sel := ch_sel;
  cell h b i := u8 (ch_mem h b i);
}.
Solve Obligations with
  try first [ done | intros; apply u8_byte
        | intros; unfold dev_outb, dev_inb, chip_ports, chip_outb, chip_inb, ch_sel in *;
          repeat case_match; simpl in *; repeat case_match;
          first [ done | apply u8_byte | by apply u8_is | by apply land_u8_70 | lia
                | by match goal with
                     | H : ram_cell _ _ |- _ => apply ram_cell_not_cra in H; lia
                     end ] ].
Next Obligation.
  intros h v b j Hr _ Hne. apply ram_cell_not_cra in Hr. simpl. unfold chip_outb. cbn [Z.eqb].
  simpl. rewrite (proj2 (Z.eqb_neq _ _) Hr). simpl.
  destruct (Z.eqb_spec b (ch_sel h)), (Z.eqb_spec j (ch_latch h)); simpl; congruence.
Qed.

Section CmosProofs.
Context {hw : Type} `{!Ports hw, !Rtc hw}.
Implicit Types (s : rom hw) (c : list Z) (v : cmos_vars).

(** ** The logic of operations *)

(** The byte functions reach bank 0: the board switches to it, or it is selected. *)
Definition bank_ok (s : rom hw) : Prop :=
  boardtype s = BOARDTYPE_MONTEREY \/ sel (dev s) = PNP_NS_RTC_BANK_0.

(** Byte [i] of the memory. *)
Definition byte_of (s : rom hw) (i : Z) : Z := cell (dev s) PNP_NS_RTC_BANK_0 i.

Definition bytes (s : rom hw) : list Z := map (byte_of s) (seqZ CMOS_CKS_START 114).

Record at_ (sys : Z) (v : cmos_vars) (c : list Z) (s : rom hw) : Prop := {
  at_bank : bank_ok s;
  at_sys : cur_systype s = sys;
  at_vars : vars s = v;
  at_bytes : bytes s = c;
}.

(** From system [sys], globals [v] and bytes [c], [m] returns [a] and leaves [v'], [c']. *)
Definition does {A} (sys : Z) (m : St (rom hw) A) v c (a : A) v' c' : Prop :=
  forall s, at_ sys v c s -> exists s', m s = (a, s') /\ at_ sys v' c' s'.

Lemma does_ret {A} sys (a : A) v c : does sys (mret a) v c a v c.
Proof. intros s Hs. by exists s. Qed.

Lemma does_bind {A B} sys (m : St (rom hw) A) (k : A -> St (rom hw) B) v c a v1 c1 b v2 c2 :
  does sys m v c a v1 c1 -> does sys (k a) v1 c1 b v2 c2 -> does sys (m ≫= k) v c b v2 c2.
Proof.
  intros Hm Hk s Hs. destruct (Hm s Hs) as (s1 & E1 & H1). destruct (Hk s1 H1) as (s2 & E2 & H2).
  exists s2. split; [|done]. unfold mbind, St_bind. by rewrite E1.
Qed.

Lemma does_upd sys f v c : does sys (upd f) v c tt (f v) c.
Proof. intros s [Hb Hs Hv Hc]. eexists. split; [done|]. split; [done..| |done]. by simpl; rewrite Hv. Qed.

Lemma does_gets {A} sys (f : rom hw -> A) a v c :
  (forall s, at_ sys v c s -> f s = a) -> does sys (gets f) v c a v c.
Proof. intros Hf s Hs. exists s. unfold gets. by rewrite (Hf s Hs). Qed.

(** Steps that leave the bytes alone. *)
Definition quiet (s s' : rom hw) : Prop :=
  cur_systype s' = cur_systype s /\ vars s' = vars s /\
  (forall b i, ram_cell b i -> cell (dev s') b i = cell (dev s) b i).

Lemma quiet_refl s : quiet s s.
Proof. done. Qed.

Lemma quiet_trans s1 s2 s3 : quiet s1 s2 -> quiet s2 s3 -> quiet s1 s3.
Proof.
  intros (? & ? & H1) (? & ? & H2). split; [congruence|split; [congruence|]].
  intros b i Hr. by rewrite H2, H1.
Qed.

Lemma ram0 i : CMOS_CKS_START <= i <= CMOS_CKS_END -> ram_cell PNP_NS_RTC_BANK_0 i.
Proof. by left. Qed.

Lemma quiet_bytes s s' : quiet s s' -> bytes s' = bytes s.
Proof.
  intros (_ & _ & H). unfold bytes. apply map_ext_in. intros i Hi.
  apply list_elem_of_In, elem_of_seqZ in Hi. apply H, ram0. unfold CMOS_CKS_END, CMOS_INFO_MAX, CMOS_CKS_START in *. lia.
Qed.

(** "Force bank 0". *)
Lemma force_bank0_quiet s :
  bank_ok s -> exists s', force_bank0 s = (tt, s') /\ quiet s s' /\ sel (dev s') = PNP_NS_RTC_BANK_0.
Proof.
  intros Hb. unfold force_bank0, gets, mbind, St_bind, mret, St_ret.
  destruct (Z.eqb_spec (boardtype s) BOARDTYPE_MONTEREY) as [Hm|Hm].
  - unfold outb, inb. simpl.
    set (h1 := dev_outb _ CMOS_ADDR_PORT (dev s)).
    assert (Hl : latch h1 = PNP_NS_RTC_CRA) by by apply addr_latch.
    pose proof (in_latch h1 CMOS_DATA_PORT). pose proof (in_cell h1 CMOS_DATA_PORT).
    destruct (dev_inb CMOS_DATA_PORT h1) as [bank h2]. simpl in *.
    eexists. split; [done|]. split.
    + split; [done|split; [done|]]. intros b i Hr. simpl.
      rewrite put_cra_cell by (done || congruence). etrans; [apply H0|]. apply addr_cell.
    + simpl. rewrite put_cra by (apply u8_byte || congruence).
      rewrite land_u8_70, Z.land_lor_distr_l, <- Z.land_assoc. by rewrite Z.land_0_r.
  - exists s. destruct Hb; [done|]. by split; [|split; [apply quiet_refl|]].
Qed.

(** ** Bytes *)

(** The position of address [i] in the list of bytes. *)
Definition pos (i : Z) : nat := Z.to_nat (i - CMOS_CKS_START).

Lemma length_bytes s : length (bytes s) = 114%nat.
Proof. unfold bytes. by rewrite length_map, length_seqZ. Qed.

Lemma bytes_lookup s i :
  CMOS_CKS_START <= i <= CMOS_CKS_END -> bytes s !! pos i = Some (byte_of s i).
Proof.
  intros Hi. unfold bytes, pos, CMOS_CKS_END, CMOS_INFO_MAX, CMOS_CKS_START in *.
  rewrite list_lookup_fmap, lookup_seqZ_lt by lia. simpl. do 2 f_equal. lia.
Qed.

Lemma does_read sys v c i b :
  CMOS_CKS_START <= i <= CMOS_CKS_END -> c !! pos i = Some b ->
  does sys (cmos_read_byte i) v c b v c.
Proof.
  intros Hi Hc s [Hb Hsys Hv Hbs]. unfold cmos_read_byte.
  rewrite (proj2 (Z.ltb_ge _ _)) by (unfold CMOS_CKS_END in Hi; lia).
  destruct (force_bank0_quiet s Hb) as (s1 & E & Hq & Hs1). unfold mbind, St_bind. rewrite E.
  unfold outb, inb. simpl. rewrite u8_is by (unfold is_byte, CMOS_CKS_START, CMOS_CKS_END, CMOS_INFO_MAX in *; lia).
  set (h := dev_outb i CMOS_ADDR_PORT (dev s1)).
  assert (Hl : latch h = i)
    by (apply addr_latch; unfold is_byte, CMOS_CKS_START, CMOS_CKS_END, CMOS_INFO_MAX in *; lia).
  assert (Hsel : sel h = PNP_NS_RTC_BANK_0) by (unfold h; by rewrite addr_sel).
  pose proof (data_cell h) as Hd. rewrite Hl, Hsel in Hd. specialize (Hd (ram0 i Hi)).
  pose proof (in_sel h CMOS_DATA_PORT) as Hsel'. pose proof (in_cell h CMOS_DATA_PORT) as Hcell.
  destruct (dev_inb CMOS_DATA_PORT h) as [b' h']. simpl in *.
  assert (Hq' : quiet s (set_dev h' (set_dev h s1))).
  { apply (quiet_trans _ _ _ Hq). split; [done|split; [done|]]. intros b0 j _. simpl.
    rewrite Hcell. apply addr_cell. }
  eexists. split.
  - f_equal. rewrite Hd. unfold h. rewrite addr_cell.
    destruct Hq as (_ & _ & Hq). rewrite Hq by by apply ram0.
    rewrite <- Hbs, bytes_lookup in Hc by done. by simplify_eq.
  - split; [right; simpl; congruence| | |].
    + by destruct Hq' as (-> & _).
    + by destruct Hq' as (_ & -> & _).
    + by rewrite (quiet_bytes _ _ Hq').
Qed.

Lemma bytes_insert s s' i b :
  CMOS_CKS_START <= i <= CMOS_CKS_END -> byte_of s' i = b ->
  (forall j, CMOS_CKS_START <= j <= CMOS_CKS_END -> j <> i -> byte_of s' j = byte_of s j) ->
  bytes s' = <[pos i := b]> (bytes s).
Proof.
  intros Hi Hb Ho. apply list_eq. intros k.
  destruct (decide (k < 114)%nat) as [Hk|Hk].
  - assert (Hk' : k = pos (CMOS_CKS_START + Z.of_nat k)) by (unfold pos; lia).
    assert (Hr : CMOS_CKS_START <= CMOS_CKS_START + Z.of_nat k <= CMOS_CKS_END)
      by (unfold CMOS_CKS_END, CMOS_INFO_MAX, CMOS_CKS_START; lia).
    destruct (decide (k = pos i)) as [->|Hne].
    + rewrite list_lookup_insert_eq by (rewrite length_bytes; lia).
      by rewrite bytes_lookup, Hb.
    + rewrite list_lookup_insert_ne by done. rewrite Hk', !bytes_lookup by done.
      f_equal. apply Ho; [done|]. intros E. apply Hne. by rewrite <- E.
  - by rewrite !lookup_ge_None_2 by (rewrite ?length_insert, length_bytes; lia).
Qed.

Lemma does_write sys v c i b :
  CMOS_CKS_START <= i <= CMOS_CKS_END ->
  does sys (write_byte i b) v c tt v (<[pos i := u8 b]> c).
Proof.
  intros Hi s [Hb Hsys Hv Hbs]. unfold write_byte, cmos_write_byte.
  rewrite (proj2 (Z.ltb_ge _ _)) by (unfold CMOS_CKS_END in Hi; lia).
  destruct (force_bank0_quiet s Hb) as (s1 & E & Hq & Hs1). unfold mbind, St_bind. rewrite E.
  unfold outb. simpl. rewrite (u8_is i) by (unfold is_byte, CMOS_CKS_START, CMOS_CKS_END, CMOS_INFO_MAX in *; lia).
  set (h := dev_outb i CMOS_ADDR_PORT (dev s1)).
  assert (Hl : latch h = i)
    by (apply addr_latch; unfold is_byte, CMOS_CKS_START, CMOS_CKS_END, CMOS_INFO_MAX in *; lia).
  assert (Hsel : sel h = PNP_NS_RTC_BANK_0) by (unfold h; by rewrite addr_sel).
  assert (Hr : ram_cell (sel h) (latch h)) by (rewrite Hl, Hsel; by apply ram0).
  assert (Hc : forall j, CMOS_CKS_START <= j <= CMOS_CKS_END ->
             cell h PNP_NS_RTC_BANK_0 j = byte_of s j).
  { intros j Hj. unfold h. rewrite addr_cell. destruct Hq as (_ & _ & Hq). by apply Hq, ram0. }
  eexists. split; [done|]. destruct Hq as (Hq1 & Hq2 & _). split; simpl.
  - right. simpl. by rewrite put_sel.
  - congruence.
  - congruence.
  - rewrite <- Hbs. apply bytes_insert; [done| |]; unfold byte_of; simpl.
    + pose proof (put_same h (u8 b) Hr (u8_byte b)) as P. by rewrite Hl, Hsel in P.
    + intros j Hj Hne. rewrite put_other; [by apply Hc|done|by apply ram0|].
      rewrite Hl. congruence.
Qed.

Lemma does_wf {A} sys (m : St (rom hw) A) v c a v' c' :
  (length c = 114%nat -> bytes_ok c -> does sys m v c a v' c') -> does sys m v c a v' c'.
Proof.
  intros H s Hs. apply H; [|..|done].
  - rewrite <- (at_bytes _ _ _ _ Hs). apply length_bytes.
  - rewrite <- (at_bytes _ _ _ _ Hs). unfold bytes_ok, bytes.
    apply Forall_forall. intros x Hx. apply list_elem_of_In, in_map_iff in Hx.
    destruct Hx as (i & <- & _). apply cell_byte.
Qed.

Lemma does_byte sys v c i :
  CMOS_CKS_START <= i <= CMOS_CKS_END -> does sys (cmos_read_byte i) v c (c !!! pos i) v c.
Proof.
  intros Hi. apply does_wf. intros Hlen _. apply does_read; [done|].
  apply list_lookup_lookup_total_lt. rewrite Hlen. unfold pos, CMOS_CKS_END, CMOS_INFO_MAX, CMOS_CKS_START in *. lia.
Qed.

(** ** The checksum *)

Definition is_csum (i : Z) : bool := (i =? CMOS_CHECKSUM) || (i =? CMOS_CHECKSUM + 1).

Fixpoint sum_from (n : nat) (i : Z) c : Z :=
  match n with
  | O => 0
  | S n => (if is_csum i then 0 else c !!! pos i) + sum_from n (i + 1) c
  end.

(** The checksum of the bytes, and whether they carry it. *)
Definition total c : Z := u16 (sum_from checksum_count CMOS_CKS_START c).
Definition valid c : bool :=
  total c =? 256 * (c !!! pos CMOS_CHECKSUM) + c !!! pos (CMOS_CHECKSUM + 1).
Definition sealed c : list Z :=
  <[pos (CMOS_CHECKSUM + 1) := total c mod 256]> (<[pos CMOS_CHECKSUM := total c / 256]> c).

Lemma does_checksum_loop sys v c n : forall i sum,
  CMOS_CKS_START <= i -> i + Z.of_nat n <= CMOS_CKS_END + 1 -> 0 <= sum < 65536 ->
  does sys (checksum_loop n i sum) v c (u16 (sum + sum_from n i c)) v c.
Proof.
  induction n as [|n IH]; intros i sum Hi Hn Hs; cbn [checksum_loop sum_from].
  - rewrite Z.add_0_r, u16_small by done. apply does_ret.
  - fold (is_csum i). destruct (is_csum i).
    + rewrite Z.add_0_l. apply IH; lia.
    + eapply does_bind; [apply does_byte; lia|].
      replace (u16 (sum + (c !!! pos i + sum_from n (i + 1) c)))
        with (u16 (u16 (sum + c !!! pos i) + sum_from n (i + 1) c)).
      * apply IH; [lia|lia|apply u16_range].
      * unfold u16. rewrite Zplus_mod_idemp_l. f_equal. lia.
Qed.

Lemma total_range c : 0 <= total c < 65536.
Proof. apply u16_range. Qed.

Lemma does_total sys v c :
  does sys (checksum_loop checksum_count CMOS_CKS_START 0) v c (total c) v c.
Proof.
  unfold total. rewrite <- (Z.add_0_l (sum_from _ _ c)).
  apply does_checksum_loop; unfold checksum_count, CMOS_CKS_END, CMOS_INFO_MAX, CMOS_CKS_START; lia.
Qed.

Lemma lor_bytes hi lo : is_byte lo -> Z.lor (Z.shiftl hi 8) lo = 256 * hi + lo.
Proof.
  unfold is_byte. intros Hlo. rewrite Z.shiftl_mul_pow2 by lia.
  pose proof (Z.add_lor_land (hi * 2 ^ 8) lo).
  assert (E : Z.land (hi * 2 ^ 8) lo = 0); [|rewrite E in *; lia].
  apply Z.bits_inj'. intros k Hk. rewrite Z.land_spec, Z.bits_0.
  destruct (decide (k < 8)) as [Hl|Hl].
  - by rewrite Z.mul_pow2_bits_low.
  - rewrite (Z.bits_above_log2 lo k); [by rewrite andb_false_r|lia|].
    destruct (decide (lo = 0)) as [->|]; [simpl; lia|]. apply Z.log2_lt_pow2; [lia|].
    assert (2 ^ 8 <= 2 ^ k) by (apply Z.pow_le_mono_r; lia). lia.
Qed.

Lemma does_check sys v c : does sys cmos_check_checksum v c (valid c) v c.
Proof.
  apply does_wf. intros Hlen Hb. unfold cmos_check_checksum.
  eapply does_bind; [apply does_total|]. eapply does_bind; [apply does_byte; by vm_compute|].
  eapply does_bind; [apply does_byte; by vm_compute|].
  assert (is_byte (c !!! pos (CMOS_CHECKSUM + 1))).
  { eapply Forall_lookup_1 in Hb; [exact Hb|]. apply list_lookup_lookup_total_lt.
    rewrite Hlen. vm_compute. lia. }
  rewrite lor_bytes by done. change 0xffff with (Z.ones 16).
  rewrite Z.land_ones by lia. pose proof (total_range c).
  rewrite (Z.mod_small (total c)) by (simpl; lia). apply does_ret.
Qed.

Lemma does_seal sys v c : does sys cmos_set_checksum v c tt v (sealed c).
Proof.
  unfold cmos_set_checksum. eapply does_bind; [apply does_total|].
  pose proof (total_range c). unfold sealed.
  assert (E1 : u8 (Z.shiftr (total c) 8) = total c / 256).
  { rewrite Z.shiftr_div_pow2 by lia. apply u8_is. unfold is_byte. simpl. dlia. }
  assert (E2 : u8 (Z.land (total c) 0xff) = total c mod 256).
  { change 0xff with (Z.ones 8). rewrite Z.land_ones by lia. apply u8_is. apply u8_byte. }
  rewrite <- E1, <- E2. eapply does_bind; apply does_write; by vm_compute.
Qed.

(** The address is one of the bytes of the memory. *)
Definition in_ram (i : Z) : Prop := CMOS_CKS_START <= i <= CMOS_CKS_END.

Lemma pos_lt i : in_ram i -> (pos i < 114)%nat.
Proof. unfold in_ram, pos, CMOS_CKS_END, CMOS_INFO_MAX, CMOS_CKS_START. lia. Qed.

Lemma pos_inj i j : in_ram i -> in_ram j -> pos i = pos j -> i = j.
Proof. unfold in_ram, pos. lia. Qed.

Lemma lookup_insert_pos c i j b :
  length c = 114%nat -> in_ram i -> in_ram j ->
  <[pos j := b]> c !!! pos i = if decide (i = j) then b else c !!! pos i.
Proof.
  intros Hlen Hi Hj. pose proof (pos_lt i Hi). pose proof (pos_lt j Hj).
  case_decide as E.
  - subst. apply list_lookup_total_insert_eq. lia.
  - apply list_lookup_total_insert_ne. intros H'. by apply pos_inj in H'.
Qed.

Lemma sum_from_insert c j b n : forall i,
  length c = 114%nat -> in_ram j -> CMOS_CKS_START <= i -> i + Z.of_nat n <= CMOS_CKS_END + 1 ->
  sum_from n i (<[pos j := b]> c) =
  sum_from n i c +
  (if is_csum j then 0 else if decide (i <= j < i + Z.of_nat n) then b - c !!! pos j else 0).
Proof.
  induction n as [|n IH]; intros i Hlen Hj Hi Hn; cbn [sum_from].
  - rewrite decide_False by lia. by destruct (is_csum j).
  - rewrite IH by (done || lia). rewrite lookup_insert_pos by (try done; unfold in_ram; lia).
    destruct (decide (i = j)) as [<-|Hne].
    + destruct (is_csum i); [lia|]. rewrite decide_False by lia. rewrite decide_True by lia. lia.
    + assert (E : bool_decide (i + 1 <= j < i + 1 + Z.of_nat n) =
                  bool_decide (i <= j < i + Z.of_nat (S n))).
      { apply bool_decide_ext. lia. }
      rewrite !(decide_bool_decide _ (_ - _)), E. lia.
Qed.

Lemma total_insert c j b :
  length c = 114%nat -> in_ram j ->
  total (<[pos j := b]> c) = u16 (total c + if is_csum j then 0 else b - c !!! pos j).
Proof.
  intros Hlen Hj. unfold total.
  rewrite sum_from_insert by (done || by vm_compute).
  unfold u16. rewrite Zplus_mod_idemp_l. f_equal. f_equal.
  destruct (is_csum j); [done|]. rewrite decide_True; [done|].
  unfold in_ram, checksum_count, CMOS_CKS_END, CMOS_INFO_MAX, CMOS_CKS_START in *. lia.
Qed.

Lemma total_insert_csum c j b :
  length c = 114%nat -> in_ram j -> is_csum j = true -> total (<[pos j := b]> c) = total c.
Proof. intros ? ? E. rewrite total_insert, E, Z.add_0_r by done. apply u16_small, total_range. Qed.

Lemma ram_csum : in_ram CMOS_CHECKSUM /\ in_ram (CMOS_CHECKSUM + 1).
Proof. by vm_compute. Qed.

Lemma total_sealed c : length c = 114%nat -> total (sealed c) = total c.
Proof.
  intros Hlen. destruct ram_csum. unfold sealed.
  by rewrite !total_insert_csum by (rewrite ?length_insert; done).
Qed.

Lemma sealed_lookup c i : length c = 114%nat -> in_ram i -> is_csum i = false ->
  sealed c !!! pos i = c !!! pos i.
Proof.
  intros Hlen Hi Hc. destruct ram_csum. unfold sealed.
  rewrite !lookup_insert_pos by (rewrite ?length_insert; done).
  unfold is_csum in Hc. by rewrite !decide_False by lia.
Qed.

Lemma valid_sealed c : length c = 114%nat -> valid (sealed c) = true.
Proof.
  intros Hlen. destruct ram_csum. unfold valid. rewrite total_sealed by done. unfold sealed.
  rewrite !lookup_insert_pos by (rewrite ?length_insert; done).
  repeat case_decide; try lia. apply Z.eqb_eq. pose proof (Z.div_mod (total c) 256). lia.
Qed.

(** The checksum tells one changed byte. *)
Lemma valid_changed c j b :
  length c = 114%nat -> bytes_ok c -> in_ram j -> is_csum j = false -> is_byte b ->
  b <> c !!! pos j -> valid c = true -> valid (<[pos j := b]> c) = false.
Proof.
  intros Hlen Hok Hj Hc Hb Hne Hv. destruct ram_csum. unfold valid in *.
  apply Z.eqb_eq in Hv. apply Z.eqb_neq.
  rewrite total_insert, Hc, !lookup_insert_pos by done. unfold is_csum in Hc.
  rewrite !decide_False by lia. rewrite <- Hv. pose proof (total_range c).
  assert (is_byte (c !!! pos j)).
  { eapply Forall_lookup_1 in Hok; [exact Hok|]. apply list_lookup_lookup_total_lt.
    rewrite Hlen. by apply pos_lt. }
  unfold is_byte, u16 in *. dlia.
Qed.

(** ** Flags *)

Definition all_flags c : Z := c !!! pos CMOS_FLAG_BYTE_1 + 256 * c !!! pos CMOS_FLAG_BYTE_0.
Definition with_flags (fl : Z) c : list Z :=
  sealed (<[pos CMOS_FLAG_BYTE_0 := u8 (Z.shiftr fl 8)]> (<[pos CMOS_FLAG_BYTE_1 := u8 fl]> c)).

Lemma does_flags sys v c : does sys cmos_read_all_flags v c (all_flags c) v c.
Proof.
  unfold cmos_read_all_flags. eapply does_bind; [apply does_byte; by vm_compute|].
  eapply does_bind; [apply does_byte; by vm_compute|].
  replace (le_val _) with (all_flags c); [apply does_ret|]. unfold all_flags. cbn [le_val]. lia.
Qed.

Lemma does_write_flags sys v c fl : does sys (cmos_write_all_flags fl) v c tt v (with_flags fl c).
Proof.
  unfold with_flags.
  rewrite <- (u8_is (u8 fl)), <- (u8_is (u8 (Z.shiftr fl 8))) by apply u8_byte.
  unfold cmos_write_all_flags. eapply does_bind; [apply does_write; by vm_compute|].
  eapply does_bind; [apply does_write; by vm_compute|]. apply does_seal.
Qed.

Lemma byte_at c i : length c = 114%nat -> bytes_ok c -> in_ram i -> is_byte (c !!! pos i).
Proof.
  intros Hlen Hok Hi. eapply Forall_lookup_1 in Hok; [exact Hok|].
  apply list_lookup_lookup_total_lt. rewrite Hlen. by apply pos_lt.
Qed.

Lemma all_flags_range c : length c = 114%nat -> bytes_ok c -> 0 <= all_flags c < 65536.
Proof.
  intros Hlen Hok. pose proof (byte_at c CMOS_FLAG_BYTE_0 Hlen Hok ltac:(by vm_compute)).
  pose proof (byte_at c CMOS_FLAG_BYTE_1 Hlen Hok ltac:(by vm_compute)).
  unfold is_byte, all_flags in *. lia.
Qed.

Lemma with_flags_lookup c fl i : length c = 114%nat -> in_ram i -> is_csum i = false ->
  with_flags fl c !!! pos i =
  if decide (i = CMOS_FLAG_BYTE_0) then u8 (Z.shiftr fl 8)
  else if decide (i = CMOS_FLAG_BYTE_1) then u8 fl else c !!! pos i.
Proof.
  intros Hlen Hi Hc. unfold with_flags.
  rewrite sealed_lookup by (rewrite ?length_insert; done).
  by rewrite !lookup_insert_pos by (rewrite ?length_insert; done || by vm_compute).
Qed.

Lemma all_flags_with c fl :
  length c = 114%nat -> 0 <= fl < 65536 -> all_flags (with_flags fl c) = fl.
Proof.
  intros Hlen Hfl. unfold all_flags.
  rewrite !with_flags_lookup by (done || by vm_compute).
  repeat case_decide; try done. unfold u8. rewrite Z.shiftr_div_pow2 by lia. simpl. dlia.
Qed.

Definition flag_ok (f : Z) : Prop := CMOS_FLAG_MIN <= f <= CMOS_FLAG_MAX.

Lemma flag_ok_guard f : flag_ok f -> (f <? CMOS_FLAG_MIN) || (CMOS_FLAG_MAX <? f) = false.
Proof. unfold flag_ok. lia. Qed.

Definition flag_of (f : Z) c : Z := if Z.land (all_flags c) f =? 0 then 0 else 1.
Definition put_flag (f x : Z) c : list Z :=
  with_flags (if x =? 0 then Z.land (all_flags c) (Z.lnot f) else Z.lor (all_flags c) f) c.

Lemma does_read_flag sys v c f :
  flag_ok f -> does sys (cmos_read_flag f) v c (flag_of f c) v c.
Proof.
  intros Hf. unfold cmos_read_flag. rewrite flag_ok_guard by done.
  eapply does_bind; [apply does_flags|]. apply does_ret.
Qed.

Lemma does_write_flag sys v c f x :
  flag_ok f -> does sys (cmos_write_flag f x) v c 0 v (put_flag f x c).
Proof.
  intros Hf. unfold cmos_write_flag. rewrite flag_ok_guard by done.
  eapply does_bind; [apply does_flags|]. eapply does_bind; [apply does_write_flags|].
  apply does_ret.
Qed.

Lemma put_flag_range c f x :
  length c = 114%nat -> bytes_ok c -> flag_ok f ->
  0 <= (if x =? 0 then Z.land (all_flags c) (Z.lnot f) else Z.lor (all_flags c) f) < 65536.
Proof.
  intros Hlen Hok Hf. pose proof (all_flags_range c Hlen Hok) as Hr.
  unfold flag_ok, CMOS_FLAG_MIN, CMOS_FLAG_MAX in Hf. destruct (x =? 0).
  - rewrite <- Z.ldiff_land.
    assert (E : Z.ldiff (all_flags c) f + Z.land (all_flags c) f = all_flags c).
    { rewrite Z.add_nocarry_lxor, Z.lxor_lor, Z.lor_ldiff_and; [done| |].
      all: apply Z.bits_inj'; intros k Hk; rewrite !Z.land_spec, Z.ldiff_spec, Z.bits_0;
        by destruct (Z.testbit _ k), (Z.testbit f k). }
    assert (0 <= Z.land (all_flags c) f) by (apply Z.land_nonneg; lia).
    assert (0 <= Z.ldiff (all_flags c) f) by (apply Z.ldiff_nonneg; lia). lia.
  - split; [apply Z.lor_nonneg; lia|].
    destruct (decide (Z.lor (all_flags c) f = 0)) as [->|]; [lia|].
    apply (Z.log2_lt_pow2 _ 16); [pose proof (proj2 (Z.lor_nonneg (all_flags c) f)); lia|].
    rewrite Z.log2_lor by lia. apply Z.max_lub_lt.
    + destruct (decide (all_flags c = 0)) as [->|]; [simpl; lia|].
      apply Z.log2_lt_pow2; lia.
    + apply Z.log2_lt_pow2; lia.
Qed.

Lemma land_land_disjoint a f g : Z.land f g = 0 -> Z.land (Z.land a (Z.lnot f)) g = Z.land a g.
Proof.
  intros H. apply Z.bits_inj'. intros k Hk. assert (E : Z.testbit (Z.land f g) k = false)
    by (rewrite H; apply Z.bits_0).
  rewrite Z.land_spec in E. rewrite !Z.land_spec, Z.lnot_spec by done.
  by destruct (Z.testbit a k), (Z.testbit f k), (Z.testbit g k).
Qed.

(** Writing a flag: the flag reads as written, those with no bit in common as before. *)
Lemma flag_of_put c f x g :
  length c = 114%nat -> bytes_ok c -> flag_ok f ->
  flag_of f (put_flag f x c) = (if x =? 0 then 0 else 1) /\
  (Z.land f g = 0 -> flag_of g (put_flag f x c) = flag_of g c).
Proof.
  intros Hlen Hok Hf. unfold flag_of, put_flag. rewrite all_flags_with; [|done|by apply put_flag_range].
  destruct (x =? 0); split.
  - replace (Z.land (Z.land _ _) f) with 0; [done|]. symmetry.
    apply Z.bits_inj'. intros k Hk. rewrite !Z.land_spec, Z.lnot_spec, Z.bits_0 by done.
    by destruct (Z.testbit (all_flags c) k), (Z.testbit f k).
  - intros Hd. by rewrite land_land_disjoint.
  - rewrite (proj2 (Z.eqb_neq _ 0)); [done|]. rewrite Z.land_comm, Z.lor_comm, Z.land_comm.
    intros E. apply (f_equal (fun z => Z.testbit z (Z.log2 f))) in E.
    rewrite Z.land_spec, Z.lor_spec, Z.bits_0 in E.
    unfold flag_ok, CMOS_FLAG_MIN in Hf. rewrite Z.bit_log2 in E by lia. done.
  - intros Hd. by rewrite Z.land_lor_distr_l, Hd, Z.lor_0_r.
Qed.

(** ** Runs of bytes *)

Lemma does_write_bytes sys v vs : forall c i,
  CMOS_CKS_START <= i -> i + Z.of_nat (length vs) <= CMOS_CKS_END + 1 ->
  does sys (write_bytes i vs) v c tt v (put (pos i) (map u8 vs) c).
Proof.
  induction vs as [|b vs IH]; intros c i Hi Hn; cbn [write_bytes map].
  - rewrite put_nil. apply does_ret.
  - apply does_wf. intros Hlen _. cbn [length] in Hn.
    rewrite <- put_cons.
    + replace (S (pos i)) with (pos (i + 1)) by (unfold pos; lia).
      eapply does_bind; [apply does_write; lia|apply IH; lia].
    + rewrite length_map, Hlen. unfold pos, CMOS_CKS_START, CMOS_CKS_END, CMOS_INFO_MAX in *. lia.
Qed.

Lemma does_read_bytes sys v n : forall c i,
  CMOS_CKS_START <= i -> i + Z.of_nat n <= CMOS_CKS_END + 1 ->
  does sys (read_bytes i n) v c (sub (pos i) n c) v c.
Proof.
  induction n as [|n IH]; intros c i Hi Hn; cbn [read_bytes].
  - change (sub (pos i) 0 c) with (@nil Z). apply does_ret.
  - apply does_wf. intros Hlen _.
    destruct (lookup_lt_is_Some_2 c (pos i)) as [b Hb].
    { rewrite Hlen. apply pos_lt. unfold in_ram. lia. }
    rewrite (sub_cons _ _ _ _ Hb). eapply does_bind; [apply does_read; [lia|done]|].
    eapply does_bind; [apply (IH c (i + 1)); lia|].
    replace (S (pos i)) with (pos (i + 1)) by (unfold pos; lia). apply does_ret.
Qed.

(** Sealing changes nothing in a run of bytes away from the checksum. *)
Lemma sub_sealed c i n :
  in_ram i -> CMOS_CHECKSUM + 1 < i -> sub (pos i) n (sealed c) = sub (pos i) n c.
Proof.
  intros Hi Hc. unfold sealed. rewrite !sub_insert_out; [done|..];
    left; unfold pos, in_ram, CMOS_CHECKSUM, CMOS_CKS_START in *; lia.
Qed.

(** ** The serial number *)

Definition serial_of c : list Z := sub (pos CMOS_SYS_SERNUM_0) CMOS_SYS_SERNUM_LEN c ++ [0].
Definition with_serial (sn : list Z) (csum : Z) c : list Z :=
  sealed (<[pos CMOS_SYS_SERNUM_CSUM := u8 csum]>
    (put (pos CMOS_SYS_SERNUM_0) (map u8 (take CMOS_SYS_SERNUM_LEN sn)) c)).

Lemma csum_loop_total n : forall str key sum,
  (n <= length str)%nat -> (n <= length key)%nat -> exists r, csum_loop str key n sum = Some r.
Proof.
  induction n as [|n IH]; intros [|a str] [|k key] sum Hs Hk; simpl in *; try lia; eauto.
  apply IH; lia.
Qed.

(** The checksum has its high bit set. *)
Lemma gen_csum_range str :
  (13 <= length str)%nat -> exists r, cmos_gen_csum str = Some r /\ 128 <= r < 256.
Proof.
  intros Hlen. unfold cmos_gen_csum.
  destruct (csum_loop_total 13 str csum_key 0 Hlen ltac:(vm_compute; lia)) as [r E].
  change CMOS_SYS_SERNUM_LEN with 13%nat. rewrite E. cbn [mbind option_bind]. eexists. split; [done|].
  change 0x7f with (Z.ones 7). rewrite Z.land_ones by lia.
  pose proof (Z.mod_pos_bound r (2 ^ 7) ltac:(lia)) as Hb. set (x := r mod 2 ^ 7) in *.
  assert (Hx : Forall (fun y => 128 <= Z.land (Z.lxor y 0xd6) 0xff < 256) (seqZ 0 128))
    by (apply (bool_decide_unpack _); by vm_compute).
  rewrite Forall_forall in Hx. apply Hx. apply elem_of_seqZ. simpl in Hb. lia.
Qed.

Lemma length_serial c : length c = 114%nat -> length (serial_of c) = 14%nat.
Proof.
  intros Hlen. unfold serial_of. rewrite length_app, length_sub; [done|].
  rewrite Hlen. vm_compute. lia.
Qed.

Definition serial_read c : list Z :=
  if decide (cmos_gen_csum (serial_of c) = Some (c !!! pos CMOS_SYS_SERNUM_CSUM))
  then serial_of c else chars "invalid csum!" ++ [0].

Lemma does_read_serial sys v c : does sys cmos_read_serial_num v c (serial_read c) v c.
Proof.
  apply does_wf. intros Hlen Hok. unfold cmos_read_serial_num.
  eapply does_bind; [apply does_read_bytes; by vm_compute|].
  eapply does_bind; [apply does_byte; by vm_compute|]. fold (serial_of c).
  destruct (gen_csum_range (serial_of c)) as (r & E & Hr); [rewrite length_serial; [lia|done]|].
  unfold serial_read. rewrite E. change (default 0 (Some r)) with r.
  destruct (Z.eqb_spec r (c !!! pos CMOS_SYS_SERNUM_CSUM)) as [<-|Hne].
  - rewrite decide_True by done. apply does_ret.
  - rewrite decide_False by congruence.
    eapply does_bind.
    { apply (does_gets _ _ (Z.land sys 0xffff0000 =? SYSTYPE_3K)). intros s [_ Hs _ _].
      unfold systype_is_3k, systype. by rewrite Hs. }
    destruct (_ =? SYSTYPE_3K); cbn [andb].
    + eapply does_bind; [apply (does_ret _ 0)|].
      rewrite (proj2 (Z.eqb_neq r 0)) by lia. apply does_ret.
    + eapply does_bind; [apply does_ret|]. apply does_ret.
Qed.

Lemma does_write_serial sys v c sn :
  nonzero sn -> (12 <= length sn)%nat ->
  exists csum, cmos_gen_csum (sn ++ [0]) = Some csum /\
    does sys (cmos_write_serial_num sn) v c (Some tt) v (with_serial (sn ++ [0]) csum c).
Proof.
  intros Hnz Hlen.
  destruct (gen_csum_range (sn ++ [0])) as (r & E & Hr); [rewrite length_app; simpl; lia|].
  exists r. split; [done|]. unfold cmos_write_serial_num. rewrite cstr_idem, E by done.
  eapply does_bind.
  { apply does_write_bytes; [by vm_compute|].
    rewrite length_take, length_app, Nat.min_l by (unfold CMOS_SYS_SERNUM_LEN; simpl; lia).
    by vm_compute. }
  eapply does_bind; [apply does_write; by vm_compute|].
  eapply does_bind; [apply does_seal|]. apply does_ret.
Qed.

(** ** The BTO address *)

Definition ip_bytes c : list Z := sub (pos CMOS_BTO_IP_0) 4 c.
Definition ip_of c : Z := foldl (fun ip b => Z.lor (Z.shiftl ip 8) b) 0 (ip_bytes c).
Definition ip_ok c : bool := u8 (foldl Z.add 0 (ip_bytes c)) =? c !!! pos CMOS_BTO_IP_CSUM.
Definition put_ip (bs : list Z) (csum : Z) c : list Z :=
  sealed (<[pos CMOS_BTO_IP_CSUM := csum]> (put (pos CMOS_BTO_IP_0) bs c)).

Lemma does_init_ip sys v c :
  does sys init_bto_ip v c tt (set_bto_ip (if ip_ok c then ip_of c else 0) v)
    (if ip_ok c then c else put_ip [0; 0; 0; 0] 0 c).
Proof.
  unfold init_bto_ip. eapply does_bind; [apply does_read_bytes; by vm_compute|].
  eapply does_bind; [apply does_byte; by vm_compute|].
  change (Z.eqb _ _) with (ip_ok c). destruct (ip_ok c); [apply does_upd|].
  eapply does_bind; [apply does_write_bytes; by vm_compute|].
  eapply does_bind; [apply does_write; by vm_compute|].
  eapply does_bind; [apply does_seal|]. apply does_upd.
Qed.

Definition ip_byte (ip k : Z) : Z := Z.land (Z.shiftr ip k) 0xff.
Definition split_ip (ip : Z) : list Z := [ip_byte ip 24; ip_byte ip 16; ip_byte ip 8; ip_byte ip 0].

Lemma ip_byte_mod ip k : 0 <= k -> ip_byte ip k = (ip / 2 ^ k) mod 256.
Proof.
  intros Hk. unfold ip_byte. change 0xff with (Z.ones 8).
  by rewrite Z.land_ones, Z.shiftr_div_pow2 by lia.
Qed.

Lemma ip_byte_is ip k : 0 <= k -> is_byte (ip_byte ip k).
Proof. intros Hk. rewrite ip_byte_mod by done. apply u8_byte. Qed.

Lemma split_ip_u8 ip : map u8 (split_ip ip) = split_ip ip.
Proof. unfold split_ip. cbn [map]. by rewrite !u8_is by (by apply ip_byte_is). Qed.

Lemma split_ip_join ip :
  0 <= ip < 2 ^ 32 -> foldl (fun ip b => Z.lor (Z.shiftl ip 8) b) 0 (split_ip ip) = ip.
Proof.
  intros Hip. unfold split_ip. cbn [foldl]. rewrite Z.shiftl_0_l, Z.lor_0_l.
  rewrite !lor_bytes by by apply ip_byte_is. rewrite !ip_byte_mod by lia.
  change (2 ^ 24) with 16777216. change (2 ^ 16) with 65536. change (2 ^ 8) with 256.
  change (2 ^ 0) with 1. change (2 ^ 32) with 4294967296 in Hip. dlia.
Qed.

Lemma does_set_ip sys v c ip :
  does sys (cmos_set_bto_ip ip) v c tt (set_bto_ip ip v)
    (put_ip (split_ip ip) (u8 (foldl Z.add 0 (split_ip ip))) c).
Proof.
  unfold cmos_set_bto_ip. eapply does_bind; [apply does_write_bytes; by vm_compute|].
  eapply does_bind; [apply does_write; by vm_compute|].
  eapply does_bind; [apply does_seal|].
  change [Z.land (Z.shiftr ip 24) 255; _; _; _] with (split_ip ip). rewrite split_ip_u8.
  rewrite u8_is by apply u8_byte. apply does_upd.
Qed.

(** ** Where the operations write *)

Lemma length_sealed c : length (sealed c) = length c.
Proof. unfold sealed. by rewrite !length_insert. Qed.

Lemma length_put_pos c i l :
  length c = 114%nat -> CMOS_CKS_START <= i -> i + Z.of_nat (length l) <= CMOS_CKS_END + 1 ->
  length (put (pos i) l c) = 114%nat.
Proof.
  intros Hlen Hi Hn. rewrite length_put, Hlen; [done|].
  unfold pos, CMOS_CKS_START, CMOS_CKS_END, CMOS_INFO_MAX in *. lia.
Qed.

Lemma put_lookup_pos c i l j :
  length c = 114%nat -> CMOS_CKS_START <= i -> i + Z.of_nat (length l) <= CMOS_CKS_END + 1 ->
  in_ram j -> ~ (i <= j < i + Z.of_nat (length l)) -> put (pos i) l c !!! pos j = c !!! pos j.
Proof.
  intros Hlen Hi Hn Hj Hout. unfold in_ram in Hj.
  rewrite !list_lookup_total_alt, lookup_put.
  - rewrite decide_False; [done|].
    unfold pos, CMOS_CKS_START, CMOS_CKS_END, CMOS_INFO_MAX in *. lia.
  - unfold pos, CMOS_CKS_START, CMOS_CKS_END, CMOS_INFO_MAX in *. lia.
Qed.

Lemma length_put_ip c bs x : length c = 114%nat -> length bs = 4%nat ->
  length (put_ip bs x c) = 114%nat.
Proof.
  intros Hlen Hbs. unfold put_ip. rewrite length_sealed, length_insert.
  apply length_put_pos; rewrite ?Hbs; by vm_compute.
Qed.

Lemma put_ip_lookup c bs x j : length c = 114%nat -> length bs = 4%nat -> in_ram j ->
  is_csum j = false -> ~ (CMOS_BTO_IP_CSUM <= j <= CMOS_BTO_IP_0 + 3) ->
  put_ip bs x c !!! pos j = c !!! pos j.
Proof.
  intros Hlen Hbs Hj Hc Hout. unfold put_ip.
  assert (length (put (pos CMOS_BTO_IP_0) bs c) = 114%nat)
    by (apply length_put_pos; rewrite ?Hbs; by vm_compute).
  unfold CMOS_BTO_IP_CSUM, CMOS_BTO_IP_0 in *.
  rewrite sealed_lookup, lookup_insert_pos, decide_False
    by (rewrite ?length_insert; done || lia || by vm_compute).
  apply put_lookup_pos; rewrite ?Hbs; try done. simpl. lia.
Qed.

Lemma put_ip_reads c bs x :
  length c = 114%nat -> length bs = 4%nat ->
  ip_bytes (put_ip bs x c) = bs /\ put_ip bs x c !!! pos CMOS_BTO_IP_CSUM = x.
Proof.
  intros Hlen Hbs. assert (length (put (pos CMOS_BTO_IP_0) bs c) = 114%nat)
    by (apply length_put_pos; rewrite ?Hbs; by vm_compute).
  unfold ip_bytes, put_ip. split.
  - rewrite sub_sealed by by vm_compute. rewrite sub_insert_out by (left; vm_compute; lia).
    apply sub_put_same'; [done|]. rewrite Hlen. vm_compute. lia.
  - rewrite sealed_lookup, lookup_insert_pos, decide_True
      by (rewrite ?length_insert; done || by vm_compute). done.
Qed.
End CmosProofs.
