(* ===== verification/CmosInit.v ===== *)
(** * CmosInit: what the initialisation at boot establishes

    Each part of [cmos_init] as a function on the bytes, the bytes each one leaves
    alone, and the state the whole of it ends in. *)

From stdpp Require Import strings.
From S2P Require Import Prelude CString CStringProofs CmosIo Cmos CmosProofs.

Section CmosInit.
Context {hw : Type} `{!Ports hw, !Rtc hw}.
Implicit Types (c : list Z) (v : cmos_vars).
Abbreviation does := (does (hw := hw)).

(** ** The parts, on bytes *)

Definition rev_bytes (mj mn rv : Z) c : list Z :=
  sealed (<[pos CMOS_ROM_REV_REV := u8 rv]> (<[pos CMOS_ROM_REV_MIN := u8 mn]>
    (<[pos CMOS_ROM_REV_MAJ := u8 mj]> (<[pos CMOS_BIOS_DRIVE_INFO := 0]> c)))).
Definition flagged_bytes c : list Z :=
  if flag_of CMOS_VERSION_FLAG c =? 0
  then <[pos CMOS_VERSION := 0]> (put_flag CMOS_VERSION_FLAG 1 c) else c.
Definition updated_bytes c : list Z :=
  if c !!! pos CMOS_VERSION <? 1
  then sealed (<[pos CMOS_VERSION := 1]> (put (pos CMOS_BTO_CODE_0) [0; 0; 0; 0] c)) else c.
Definition addressed_bytes c : list Z := if ip_ok c then c else put_ip [0; 0; 0; 0] 0 c.

Definition init_bytes (mj mn rv : Z) c : list Z :=
  addressed_bytes (updated_bytes (flagged_bytes (rev_bytes mj mn rv c))).

(** The globals read from the bytes [c]. *)
Definition read_from c v : cmos_vars :=
  set_vars (flag_of CMOS_CONSOLE_FLAG c)
    (Z.land (truth (flag_of CMOS_DEBUG_FLAG c)) (truth (flag_of CMOS_CONSOLE_FLAG c)))
    (flag_of CMOS_CLEAN_BOOT_FLAG c) (1 - truth (flag_of CMOS_NOLOGO_FLAG c))
    (Z.land (truth (flag_of CMOS_AUTO_PROMPT_FLAG c)) (truth (flag_of CMOS_CONSOLE_FLAG c)))
    (flag_of CMOS_UNIQUE_FLAG c) (flag_of CMOS_SYSFAULT_FLAG c) (c !!! pos CMOS_BOOT_METHOD)
    (c !!! pos CMOS_VERSION) (c !!! pos CMOS_BOOT_TYPE) v.

Lemma does_read_vars sys v c : does sys read_vars v c tt (read_from c v) c.
Proof.
  unfold read_vars, read_from.
  do 7 (eapply does_bind; [apply does_read_flag; by vm_compute|]).
  do 3 (eapply does_bind; [apply does_byte; by vm_compute|]). apply does_upd.
Qed.

Lemma does_rev sys v c mj mn rv :
  does sys (write_byte CMOS_BIOS_DRIVE_INFO 0x0;; cmos_write_rom_rev mj mn rv) v c tt v
    (rev_bytes mj mn rv c).
Proof.
  eapply does_bind; [apply does_write; by vm_compute|]. unfold cmos_write_rom_rev.
  do 3 (eapply does_bind; [apply does_write; by vm_compute|]). apply does_seal.
Qed.

Lemma does_flagged sys v c : does sys check_version_flag v c tt v (flagged_bytes c).
Proof.
  unfold check_version_flag, flagged_bytes.
  eapply does_bind; [apply does_read_flag; by vm_compute|].
  destruct (flag_of CMOS_VERSION_FLAG c =? 0); [|apply does_ret].
  eapply does_bind; [apply does_write_flag; by vm_compute|]. apply does_write. by vm_compute.
Qed.

(** The update, when the global [cmos_version] is the byte of the memory. *)
Lemma does_update sys v c :
  cmos_version v = c !!! pos CMOS_VERSION ->
  does sys update_version v c tt
    (if c !!! pos CMOS_VERSION <? 1 then set_version 1 v else v) (updated_bytes c).
Proof.
  intros Hv. unfold update_version, updated_bytes.
  eapply does_bind.
  { apply (does_gets _ _ (c !!! pos CMOS_VERSION)). intros s Hs.
    by rewrite (at_vars _ _ _ _ Hs). }
  unfold CMOS_VERSION_CURRENT, CMOS_VER_BTOCODE. destruct (_ <? 1); [|apply does_ret].
  eapply does_bind; [apply does_write_bytes; by vm_compute|].
  eapply does_bind; [apply does_write; by vm_compute|].
  eapply does_bind; [apply does_upd|]. apply does_seal.
Qed.

(** The globals at the end. *)
Definition init_vars (fb mj mn rv : Z) c v : cmos_vars :=
  let c1 := flagged_bytes (rev_bytes mj mn rv c) in
  let c2 := updated_bytes c1 in
  let v1 := read_from c1 (set_first_boot fb v) in
  let v2 := if c1 !!! pos CMOS_VERSION <? 1 then set_version 1 v1 else v1 in
  let v3 := set_bto_ip (if ip_ok c2 then ip_of c2 else 0) v2 in
  let v4 := set_serial_num (serial_read (addressed_bytes c2)) v3 in
  set_table (map (fun e => mk_cmos_flag (fname e) (flag e)
                             (default (fstate e) (flag_var v4 (flag e)))) (cmos_flags v4)) v4.

(** A hook that ends and keeps the globals. *)
Definition hook_ok (hook : St (rom hw) unit) : Prop :=
  forall sys v c, length c = 114%nat ->
    exists c', length c' = 114%nat /\ does sys hook v c tt v c'.

Lemma does_first sys hook v c :
  hook_ok hook -> length c = 114%nat ->
  exists c1, does sys (check_first_boot hook) v c tt
               (set_first_boot (if valid c then 0 else 1) v) c1 /\
             length c1 = 114%nat /\ valid c1 = true /\ (valid c = true -> c1 = c).
Proof.
  intros Hh Hlen. unfold check_first_boot.
  destruct (valid c) eqn:Ev.
  - exists c. split; [|done]. eapply does_bind; [apply does_check|]. rewrite Ev. apply does_upd.
  - destruct (Hh sys (set_first_boot 1 v) c Hlen) as (c' & Hlen' & Hc'). exists (sealed c').
    split; [|split; [by rewrite length_sealed|split; [by apply valid_sealed|done]]].
    eapply does_bind; [apply does_check|]. rewrite Ev. eapply does_bind; [apply does_upd|].
    eapply does_bind; [exact Hc'|]. apply does_seal.
Qed.

Lemma does_assoc {A B C} sys (m : St (rom hw) A) (k : A -> St (rom hw) B) (l : B -> St (rom hw) C)
    v c a v' c' :
  does sys ((m ≫= k) ≫= l) v c a v' c' -> does sys (m ≫= fun x => k x ≫= l) v c a v' c'.
Proof.
  intros H s Hs. destruct (H s Hs) as (s' & E & Hs'). exists s'. split; [|done].
  unfold mbind, St_bind in *. by destruct (m s).
Qed.

(** [cmos_init] after the first boot test. *)
Lemma does_init sys hook mj mn rv v c c1 :
  does sys (check_first_boot hook) v c tt (set_first_boot (if valid c then 0 else 1) v) c1 ->
  does sys (cmos_init hook mj mn rv) v c 0
    (init_vars (if valid c then 0 else 1) mj mn rv c1 v) (init_bytes mj mn rv c1).
Proof.
  intros Hf. unfold cmos_init, init_vars, init_bytes.
  eapply does_bind; [exact Hf|]. apply does_assoc. eapply does_bind; [apply does_rev|].
  set (c2 := rev_bytes mj mn rv c1).
  eapply does_bind; [apply does_flagged|].
  eapply does_bind; [apply does_read_vars|].
  eapply does_bind; [by apply does_update|].
  eapply does_bind; [apply does_init_ip|]. fold (addressed_bytes (updated_bytes (flagged_bytes c2))).
  eapply does_bind; [apply does_read_serial|].
  eapply does_bind; [apply does_upd|].
  eapply does_bind; [apply does_upd|]. apply does_ret.
Qed.

(** ** The bytes each part leaves alone *)

(** The bytes of [c'] differ from those of [c] at most at the checksum and where [P]. *)
Definition changes (P : Z -> bool) c c' : Prop :=
  length c = 114%nat -> length c' = 114%nat /\
  (forall j, in_ram j -> is_csum j = false -> P j = false -> c' !!! pos j = c !!! pos j).

Lemma changes_refl P c : changes P c c.
Proof. done. Qed.

Lemma changes_trans P Q c c' c'' :
  changes P c c' -> changes Q c' c'' -> changes (fun j => P j || Q j) c c''.
Proof.
  intros H1 H2 Hlen. destruct (H1 Hlen) as [L1 E1]. destruct (H2 L1) as [L2 E2]. split; [done|].
  intros j Hj Hc HP. apply orb_false_elim in HP as [? ?]. by rewrite E2, E1.
Qed.

Lemma changes_insert i b c : in_ram i -> changes (Z.eqb i) c (<[pos i := b]> c).
Proof.
  intros Hi Hlen. split; [by rewrite length_insert|]. intros j Hj _ Hne.
  rewrite lookup_insert_pos by done. apply Z.eqb_neq in Hne. by rewrite decide_False.
Qed.

Lemma changes_sealed c : changes (fun _ => false) c (sealed c).
Proof. intros Hlen. split; [by rewrite length_sealed|]. intros. by apply sealed_lookup. Qed.

Lemma changes_put i l c :
  CMOS_CKS_START <= i -> i + Z.of_nat (length l) <= CMOS_CKS_END + 1 ->
  changes (fun j => (i <=? j) && (j <? i + Z.of_nat (length l))) c (put (pos i) l c).
Proof.
  intros Hi Hn Hlen. split; [by apply length_put_pos|]. intros j Hj _ HP.
  apply put_lookup_pos; try done. lia.
Qed.

Lemma changes_put_flag f x c :
  changes (fun j => (CMOS_FLAG_BYTE_1 =? j) || (CMOS_FLAG_BYTE_0 =? j) || false) c (put_flag f x c).
Proof.
  unfold put_flag, with_flags. eapply changes_trans; [|apply changes_sealed].
  eapply changes_trans; apply changes_insert; by vm_compute.
Qed.

Lemma changes_put_ip bs x c :
  length bs = 4%nat ->
  changes (fun j => (CMOS_BTO_IP_CSUM <=? j) && (j <=? CMOS_BTO_IP_0 + 3)) c (put_ip bs x c).
Proof.
  intros Hbs Hlen. split; [by apply length_put_ip|]. intros j Hj Hc HP.
  apply put_ip_lookup; try done. lia.
Qed.

Lemma changes_weaken P Q c c' :
  (forall j, Q j = false -> P j = false) -> changes P c c' -> changes Q c c'.
Proof. intros HPQ H Hlen. destruct (H Hlen) as [? E]. split; [done|]. intros. apply E; auto. Qed.

Definition rev_addr (j : Z) : bool :=
  (j =? CMOS_BIOS_DRIVE_INFO) || (CMOS_ROM_REV_MAJ <=? j) && (j <=? CMOS_ROM_REV_REV).
Definition version_addr (j : Z) : bool :=
  (j =? CMOS_FLAG_BYTE_0) || (j =? CMOS_FLAG_BYTE_1) || (j =? CMOS_VERSION).
Definition update_addr (j : Z) : bool :=
  (j =? CMOS_VERSION) || (CMOS_BTO_CODE_0 <=? j) && (j <? CMOS_BTO_CODE_0 + 4).
Definition ip_addr (j : Z) : bool := (CMOS_BTO_IP_CSUM <=? j) && (j <=? CMOS_BTO_IP_0 + 3).

(** The bytes a boot may write. *)
Definition init_addr (j : Z) : bool := rev_addr j || (version_addr j || (update_addr j || ip_addr j)).

Lemma changes_rev mj mn rv c : changes rev_addr c (rev_bytes mj mn rv c).
Proof.
  unfold rev_bytes. eapply changes_weaken; [|eapply changes_trans; [|apply changes_sealed]].
  2: { do 3 (eapply changes_trans; [|apply changes_insert; by vm_compute]).
       apply changes_insert. by vm_compute. }
  intros j. unfold rev_addr, CMOS_ROM_REV_MAJ, CMOS_ROM_REV_MIN, CMOS_ROM_REV_REV. lia.
Qed.

Lemma changes_flagged c : changes version_addr c (flagged_bytes c).
Proof.
  unfold flagged_bytes. destruct (_ =? 0); [|apply changes_refl].
  eapply changes_weaken; [|eapply changes_trans;
    [apply changes_put_flag|apply changes_insert; by vm_compute]].
  intros j. unfold version_addr. lia.
Qed.

Lemma changes_updated c : changes update_addr c (updated_bytes c).
Proof.
  unfold updated_bytes. destruct (_ <? 1); [|apply changes_refl].
  eapply changes_weaken; [|eapply changes_trans; [|apply changes_sealed]].
  2: { eapply changes_trans; [|apply changes_insert; by vm_compute].
       apply (changes_put CMOS_BTO_CODE_0 [0; 0; 0; 0] c); by vm_compute. }
  intros j. unfold update_addr. change (Z.of_nat (length [0; 0; 0; 0])) with 4. lia.
Qed.

Lemma changes_addressed c : changes ip_addr c (addressed_bytes c).
Proof.
  unfold addressed_bytes. destruct (ip_ok c); [apply changes_refl|]. by apply changes_put_ip.
Qed.

Lemma changes_init mj mn rv c : changes init_addr c (init_bytes mj mn rv c).
Proof.
  unfold init_bytes, init_addr.
  eapply changes_weaken; [|eapply changes_trans; [apply changes_rev|eapply changes_trans;
    [apply changes_flagged|eapply changes_trans; [apply changes_updated|apply changes_addressed]]]].
  done.
Qed.

(** What the later parts of a boot keep of the bytes the globals were read from. *)
Lemma changes_late c :
  changes (fun j => update_addr j || ip_addr j) c (addressed_bytes (updated_bytes c)).
Proof. eapply changes_trans; [apply changes_updated|apply changes_addressed]. Qed.

Lemma flag_of_changes P c c' f :
  length c = 114%nat -> P CMOS_FLAG_BYTE_0 = false -> P CMOS_FLAG_BYTE_1 = false ->
  changes P c c' -> flag_of f c' = flag_of f c.
Proof.
  intros Hlen H0 H1 H. destruct (H Hlen) as [_ E]. unfold flag_of, all_flags.
  by rewrite !E by (done || by vm_compute).
Qed.

(** ** What holds at the end *)

Lemma length_rev mj mn rv c : length c = 114%nat -> length (rev_bytes mj mn rv c) = 114%nat.
Proof. intros H. apply (changes_rev mj mn rv c H). Qed.
Lemma length_flagged c : length c = 114%nat -> length (flagged_bytes c) = 114%nat.
Proof. intros H. apply (changes_flagged c H). Qed.
Lemma length_updated c : length c = 114%nat -> length (updated_bytes c) = 114%nat.
Proof. intros H. apply (changes_updated c H). Qed.

Lemma flagged_version c : length c = 114%nat -> bytes_ok c ->
  flag_of CMOS_VERSION_FLAG (flagged_bytes c) = 1 /\
  (flagged_bytes c = c \/ flagged_bytes c !!! pos CMOS_VERSION = 0).
Proof.
  intros Hlen Hok. unfold flagged_bytes.
  destruct (Z.eqb_spec (flag_of CMOS_VERSION_FLAG c) 0) as [E|E].
  - assert (Hl : length (put_flag CMOS_VERSION_FLAG 1 c) = 114%nat)
      by (apply (changes_put_flag CMOS_VERSION_FLAG 1 c Hlen)).
    split.
    + rewrite (flag_of_changes (Z.eqb CMOS_VERSION) (put_flag CMOS_VERSION_FLAG 1 c))
        by (done || by apply changes_insert).
      by apply (flag_of_put c CMOS_VERSION_FLAG 1 CMOS_VERSION_FLAG).
    + right. by rewrite lookup_insert_pos, decide_True by (done || by vm_compute).
  - split; [|by left]. unfold flag_of in *. by destruct (_ =? 0).
Qed.

Lemma updated_version c : length c = 114%nat ->
  updated_bytes c !!! pos CMOS_VERSION =
  (if c !!! pos CMOS_VERSION <? 1 then 1 else c !!! pos CMOS_VERSION).
Proof.
  intros Hlen. unfold updated_bytes. destruct (_ <? 1); [|done].
  assert (length (put (pos CMOS_BTO_CODE_0) [0; 0; 0; 0] c) = 114%nat)
    by (apply length_put_pos; done || by vm_compute).
  by rewrite sealed_lookup, lookup_insert_pos, decide_True
    by (rewrite ?length_insert; done || by vm_compute).
Qed.

Lemma insert_bytes_ok c i b : bytes_ok c -> is_byte b -> bytes_ok (<[pos i := b]> c).
Proof. intros H Hb. by apply Forall_insert. Qed.

Lemma sealed_bytes_ok c : bytes_ok c -> bytes_ok (sealed c).
Proof.
  intros H. pose proof (total_range c). unfold sealed.
  repeat apply insert_bytes_ok; [done| |]; unfold is_byte; dlia.
Qed.

Lemma rev_bytes_ok mj mn rv c : bytes_ok c -> bytes_ok (rev_bytes mj mn rv c).
Proof.
  intros H. apply sealed_bytes_ok. repeat apply insert_bytes_ok; try apply u8_byte; [done|].
  by unfold is_byte.
Qed.

Lemma valid_init mj mn rv c : length c = 114%nat -> bytes_ok c ->
  valid (init_bytes mj mn rv c) = true.
Proof.
  intros Hlen Hok. unfold init_bytes. pose proof (length_rev mj mn rv c Hlen) as Hl1.
  set (c1 := rev_bytes mj mn rv c) in *.
  assert (Hv1 : valid c1 = true).
  { unfold c1, rev_bytes. apply valid_sealed. by rewrite !length_insert. }
  pose proof (length_flagged c1 Hl1) as Hl2.
  assert (Hv3 : valid (updated_bytes (flagged_bytes c1)) = true).
  { unfold updated_bytes. destruct (Z.ltb_spec (flagged_bytes c1 !!! pos CMOS_VERSION) 1).
    - apply valid_sealed. rewrite length_insert. apply length_put_pos; done || by vm_compute.
    - destruct (flagged_version c1 Hl1) as [_ [->|E]]; [|done|lia].
      by apply rev_bytes_ok. }
  unfold addressed_bytes. destruct (ip_ok _); [done|]. unfold put_ip. apply valid_sealed.
  rewrite length_insert. apply length_put_pos; [by apply length_updated|..]; by vm_compute.
Qed.
End CmosInit.

(** * the power management bits

    The bit that says what happens after a power failure is in bank 2 of the clock chip:
    the functions switch banks and back.  The defaults of a first boot set it, and with
    it every setting of the memory. *)

Section CmosPower.
Context {hw : Type} `{!Ports hw, !Rtc hw}.
Implicit Types (s : rom hw) (c : list Z) (v : cmos_vars).

(** The opening of the two functions: bank [b] is selected, and register A read. *)
Lemma select_bank s b :
  Z.land b 0x70 = b ->
  exists bank s', is_byte bank /\ Z.land bank 0x70 = sel (dev s) /\ quiet s s' /\ sel (dev s') = b /\
    forall A (k : Z -> St (rom hw) A),
      (outb PNP_NS_RTC_CRA CMOS_ADDR_PORT;; bank ← inb CMOS_DATA_PORT;
       outb (Z.lor (Z.land bank 0x8f) b) CMOS_DATA_PORT;; k bank) s = k bank s'.
Proof.
  intros Hb. unfold outb, inb, mbind, St_bind. simpl.
  set (h1 := dev_outb _ CMOS_ADDR_PORT (dev s)).
  assert (Hl : latch h1 = PNP_NS_RTC_CRA) by by apply addr_latch.
  pose proof (in_latch h1 CMOS_DATA_PORT) as Hl2. pose proof (in_cell h1 CMOS_DATA_PORT) as Hc2.
  pose proof (data_byte h1) as Hd. pose proof (data_cra h1 Hl) as Hsel.
  destruct (dev_inb CMOS_DATA_PORT h1) as [bank h2]. simpl in *.
  exists bank. eexists. split; [done|]. split; [rewrite Hsel; apply addr_sel|].
  split; [|split; [|done]].
  - split; [done|split; [done|]]. intros b' i Hr. simpl.
    rewrite put_cra_cell by (done || congruence). rewrite Hc2. apply addr_cell.
  - simpl. rewrite put_cra by (apply u8_byte || congruence).
    by rewrite land_u8_70, Z.land_lor_distr_l, <- Z.land_assoc, Z.land_0_r.
Qed.

(** The end of both: the saved register A is written back. *)
Lemma restore_bank s bank :
  is_byte bank ->
  exists s', quiet s s' /\ sel (dev s') = Z.land bank 0x70 /\
    forall A (k : St (rom hw) A),
      (outb PNP_NS_RTC_CRA CMOS_ADDR_PORT;; outb bank CMOS_DATA_PORT;; k) s = k s'.
Proof.
  intros Hb. unfold outb, mbind, St_bind. simpl.
  set (h1 := dev_outb _ CMOS_ADDR_PORT (dev s)).
  assert (Hl : latch h1 = PNP_NS_RTC_CRA) by by apply addr_latch.
  eexists. split; [|split; [|done]].
  - split; [done|split; [done|]]. intros b' i Hr. simpl.
    rewrite put_cra_cell by done. apply addr_cell.
  - simpl. rewrite put_cra by (done || apply u8_byte). apply land_u8_70.
Qed.

(** Register APCR6, with bank 2 selected. *)
Lemma apcr6_read s :
  sel (dev s) = PNP_NS_RTC_BANK_2 ->
  exists s', quiet s s' /\ sel (dev s') = PNP_NS_RTC_BANK_2 /\ latch (dev s') = PNP_NS_APCR6 /\
    forall A (k : Z -> St (rom hw) A),
      (outb PNP_NS_APCR6 CMOS_ADDR_PORT;; r ← inb CMOS_DATA_PORT; k r) s =
      k (cell (dev s) PNP_NS_RTC_BANK_2 PNP_NS_APCR6) s'.
Proof.
  intros Hs. unfold outb, inb, mbind, St_bind. simpl.
  set (h1 := dev_outb _ CMOS_ADDR_PORT (dev s)).
  assert (Hl : latch h1 = PNP_NS_APCR6) by by apply addr_latch.
  assert (Hs1 : sel h1 = PNP_NS_RTC_BANK_2) by (unfold h1; by rewrite addr_sel).
  pose proof (in_latch h1 CMOS_DATA_PORT). pose proof (in_cell h1 CMOS_DATA_PORT) as Hc2.
  pose proof (in_sel h1 CMOS_DATA_PORT). pose proof (data_cell h1) as Hd.
  rewrite Hl, Hs1 in Hd. specialize (Hd (or_intror (conj eq_refl eq_refl))).
  destruct (dev_inb CMOS_DATA_PORT h1) as [r h2]. simpl in *.
  exists (set_dev h2 (set_dev h1 s)). split; [|split; [|split; [|intros A k]]].
  - split; [done|split; [done|]]. intros b' i Hr. simpl. rewrite Hc2. apply addr_cell.
  - simpl. congruence.
  - simpl. congruence.
  - rewrite Hd. unfold h1. by rewrite addr_cell.
Qed.

(** The value [cmos_set_powerfail] stores. *)
Definition wake_value (state old : Z) : Z :=
  let r := Z.land old (Z.lnot APCR6_WAKE_MASK) in
  if state =? 0 then Z.lor r APCR6_WAKE_VAL else r.

Lemma wake_value_byte st old : is_byte old -> is_byte (wake_value st old).
Proof.
  intros Ho. assert (H : Forall (fun x => is_byte (wake_value 0 x) /\ is_byte (wake_value 1 x)) (seqZ 0 256)).
  { unfold is_byte. apply (bool_decide_unpack _). by vm_compute. }
  rewrite Forall_forall in H. destruct (H old) as [H0 H1].
  { apply elem_of_seqZ. unfold is_byte in Ho. lia. }
  unfold wake_value in *. destruct (st =? 0); [done|]. exact H1.
Qed.

Lemma wake_value_reads st old : is_byte old ->
  negb (Z.land (wake_value st old) APCR6_WAKE_MASK =? APCR6_WAKE_VAL) = negb (st =? 0).
Proof.
  intros Ho.
  assert (H : Forall (fun x => Z.land (wake_value 0 x) APCR6_WAKE_MASK = APCR6_WAKE_VAL /\
                               Z.land (wake_value 1 x) APCR6_WAKE_MASK = 0) (seqZ 0 256))
    by (apply (bool_decide_unpack _); by vm_compute).
  rewrite Forall_forall in H. destruct (H old) as [H0 H1].
  { apply elem_of_seqZ. unfold is_byte in Ho. lia. }
  unfold wake_value in *. cbn [Z.eqb] in H0, H1. destruct (st =? 0); [by rewrite H0|by rewrite H1].
Qed.

Lemma set_powerfail_run s st :
  systype_is_5k s = true ->
  exists s', cmos_set_powerfail st s = (tt, s') /\ cur_systype s' = cur_systype s /\ vars s' = vars s /\
    sel (dev s') = sel (dev s) /\
    (forall i, in_ram i -> byte_of s' i = byte_of s i) /\
    cell (dev s') PNP_NS_RTC_BANK_2 PNP_NS_APCR6 =
    wake_value st (cell (dev s) PNP_NS_RTC_BANK_2 PNP_NS_APCR6).
Proof.
  intros H5. unfold cmos_set_powerfail. unfold mbind at 1, St_bind at 1. unfold gets at 1.
  rewrite H5. cbn [negb].
  destruct (select_bank s PNP_NS_RTC_BANK_2 eq_refl) as (bank & s1 & Hbk & Hbs & Q1 & S1 & E1).
  rewrite (E1 _ (fun bank => outb PNP_NS_APCR6 CMOS_ADDR_PORT;; apcr6 ← inb CMOS_DATA_PORT;
    outb (wake_value st apcr6) CMOS_DATA_PORT;; outb PNP_NS_RTC_CRA CMOS_ADDR_PORT;;
    outb bank CMOS_DATA_PORT)).
  destruct (apcr6_read s1 S1) as (s2 & Q2 & S2 & L2 & E2). rewrite E2.
  unfold mbind at 1, St_bind at 1. unfold outb at 1.
  set (s3 := set_dev _ s2). destruct (restore_bank s3 bank Hbk) as (s4 & Q4 & S4 & E4).
  pose proof (E4 _ (mret tt)) as E4'. exists s4. split.
  { revert E4'. unfold mbind, St_bind, mret, St_ret, outb. intros E4'. by rewrite <- E4'. }
  destruct Q1 as (Qa1 & Qb1 & Qc1), Q2 as (Qa2 & Qb2 & Qc2), Q4 as (Qa4 & Qb4 & Qc4).
  assert (Hold : forall b i, ram_cell b i -> cell (dev s2) b i = cell (dev s) b i).
  { intros b i Hr. by rewrite Qc2, Qc1. }
  assert (Hr : ram_cell (sel (dev s2)) (latch (dev s2))) by (rewrite S2, L2; by right).
  split; [rewrite Qa4; simpl; congruence|]. split; [rewrite Qb4; simpl; congruence|].
  split; [by rewrite S4|]. split.
  - intros i Hi. unfold byte_of. rewrite Qc4 by by apply ram0. unfold s3. simpl.
    rewrite put_other; [apply Hold, ram0, Hi|done|by apply ram0|]. rewrite S2. by intros [= ? ?].
  - rewrite Qc4 by by right. unfold s3. simpl.
    pose proof (put_same (dev s2) (u8 (wake_value st (cell (dev s1) PNP_NS_RTC_BANK_2 PNP_NS_APCR6)))
                  Hr (u8_byte _)) as P.
    rewrite S2, L2 in P. rewrite P, Qc1 by by right. apply u8_is, wake_value_byte, cell_byte.
Qed.

Lemma get_powerfail_run s :
  systype_is_5k s = true ->
  fst (cmos_get_powerfail s) =
  Z.b2z (negb (Z.land (cell (dev s) PNP_NS_RTC_BANK_2 PNP_NS_APCR6) APCR6_WAKE_MASK =? APCR6_WAKE_VAL)).
Proof.
  intros H5. unfold cmos_get_powerfail. unfold mbind at 1, St_bind at 1. unfold gets at 1.
  rewrite H5. cbn [negb].
  destruct (select_bank s PNP_NS_RTC_BANK_2 eq_refl) as (bank & s1 & Hbk & Hbs & Q1 & S1 & E1).
  rewrite (E1 _ (fun bank => outb PNP_NS_APCR6 CMOS_ADDR_PORT;; apcr6 ← inb CMOS_DATA_PORT;
    outb PNP_NS_RTC_CRA CMOS_ADDR_PORT;; outb bank CMOS_DATA_PORT;;
    mret (Z.b2z (negb (Z.land apcr6 APCR6_WAKE_MASK =? APCR6_WAKE_VAL))))).
  destruct (apcr6_read s1 S1) as (s2 & Q2 & S2 & L2 & E2). rewrite E2.
  destruct (restore_bank s2 bank Hbk) as (s4 & Q4 & S4 & E4). rewrite E4. simpl.
  destruct Q1 as (_ & _ & Qc). by rewrite Qc by by right.
Qed.

Lemma does_set_powerfail sys st v c : does sys (cmos_set_powerfail st : St (rom hw) unit) v c tt v c.
Proof.
  intros s [Hb Hs Hv Hc]. destruct (systype_is_5k s) eqn:E5.
  - destruct (set_powerfail_run s st E5) as (s' & E & E1 & E2 & E3 & E4 & _).
    exists s'. split; [done|]. split; try congruence.
    + unfold bank_ok, boardtype in *. by rewrite E1, E3.
    + rewrite <- Hc. unfold bytes. apply map_ext_in. intros i Hi. apply E4.
      apply list_elem_of_In, elem_of_seqZ in Hi.
      unfold in_ram, CMOS_CKS_END, CMOS_INFO_MAX, CMOS_CKS_START in *. lia.
  - exists s. split; [|done]. unfold cmos_set_powerfail, mbind, St_bind, gets. by rewrite E5.
Qed.

(** A port other than the two of the chip. *)
Lemma does_outb_other sys x p v c :
  p <> CMOS_ADDR_PORT -> p <> CMOS_DATA_PORT -> does sys (outb x p : St (rom hw) unit) v c tt v c.
Proof.
  intros H1 H2 s [Hb Hs Hv Hc]. eexists. split; [done|]. split; try done.
  - destruct Hb as [Hb|Hb]; [by left|right]. simpl. by rewrite other_sel.
  - rewrite <- Hc. apply map_ext. intros i. unfold byte_of. simpl. by apply other_cell.
Qed.

Lemma does_set_powerapply sys st v c :
  does sys (cmos_set_powerapply st : St (rom hw) unit) v c tt v c.
Proof.
  intros s Hat. unfold cmos_set_powerapply, mbind, St_bind, gets.
  destruct (systype_is_5k s) eqn:E5; cbn [negb]; [|by exists s].
  unfold inb. pose proof (in_sel (dev s) (Z.lor NATSEMI_GPE1_PORT NS_GP1_EN0)) as E1.
  pose proof (in_cell (dev s) (Z.lor NATSEMI_GPE1_PORT NS_GP1_EN0)) as E2.
  destruct (dev_inb _ (dev s)) as [r h]. simpl in E1, E2. apply does_outb_other; [done..|].
  destruct Hat as [Hb Hs Hv Hc]. split; try done.
  - destruct Hb as [Hb|Hb]; [by left|right]. simpl. by rewrite E1.
  - rewrite <- Hc. apply map_ext. intros i. unfold byte_of. simpl. apply E2.
Qed.
End CmosPower.
