(* ===== verification/CmosTheorems.v ===== *)
(** * CmosTheorems: checksum, flags, serial number, boot settings

    The theorems about the battery-backed memory, for every device that meets the
    contract [Rtc]; the witnesses run them on [chip]. *)

From stdpp Require Import strings.
From S2P Require Import Prelude CString CStringProofs CmosIo Cmos CmosProofs CmosInit.


Section CmosTheorems.
Context {hw : Type} `{!Ports hw, !Rtc hw}.
Implicit Types (s : rom hw) (v : cmos_vars).

(** The state a function leaves. *)
Abbreviation after m s := (snd (m s)).

Lemma at_self s : bank_ok s -> at_ (cur_systype s) (vars s) (bytes s) s.
Proof. by split. Qed.

Lemma bytes_wf s : length (bytes s) = 114%nat /\ bytes_ok (bytes s).
Proof.
  split; [apply length_bytes|]. unfold bytes_ok, bytes. apply Forall_forall. intros x Hx.
  apply list_elem_of_In, in_map_iff in Hx. destruct Hx as (i & <- & _). apply cell_byte.
Qed.

(** What [does] says of a run. *)
Lemma does_run {A} (m : St (rom hw) A) s a v' c' :
  bank_ok s -> does (cur_systype s) m (vars s) (bytes s) a v' c' ->
  fst (m s) = a /\ at_ (cur_systype s) v' c' (after m s).
Proof. intros Hb Hm. by destruct (Hm s (at_self s Hb)) as (s' & -> & H). Qed.

Lemma byte_lookup s i : in_ram i -> bytes s !!! pos i = byte_of s i.
Proof. intros Hi. by rewrite list_lookup_total_alt, bytes_lookup. Qed.

Lemma at_byte sys v c s i : at_ sys v c s -> in_ram i -> byte_of s i = c !!! pos i.
Proof. intros H Hi. rewrite <- (at_bytes _ _ _ _ H). by rewrite byte_lookup. Qed.

(** The answer of the checksum test, and of a flag read. *)
Lemma check_run s : bank_ok s -> fst (cmos_check_checksum s) = valid (bytes s).
Proof. intros Hb. by apply (does_run _ _ _ _ _ Hb (does_check _ _ _)). Qed.

Lemma flag_run s f : bank_ok s -> flag_ok f -> fst (cmos_read_flag f s) = flag_of f (bytes s).
Proof. intros Hb Hf. by apply (does_run _ _ _ _ _ Hb (does_read_flag _ _ _ _ Hf)). Qed.

Lemma bytes_ext s s' i : in_ram i ->
  (forall j, in_ram j -> j <> i -> byte_of s' j = byte_of s j) ->
  bytes s' = <[pos i := byte_of s' i]> (bytes s).
Proof. intros Hi H. by apply bytes_insert. Qed.

(** C37: after [cmos_set_checksum] the checksum test succeeds and no other byte has
    changed; and from then on a state in which any one byte under the checksum (not of the
    checksum itself) has another value fails it. *)
Theorem cmos_checksum_detects s s2 i :
  bank_ok s -> bank_ok s2 -> in_ram i -> is_csum i = false ->
  byte_of s2 i <> byte_of (after cmos_set_checksum s) i ->
  (forall j, in_ram j -> j <> i -> byte_of s2 j = byte_of (after cmos_set_checksum s) j) ->
  fst (cmos_check_checksum (after cmos_set_checksum s)) = true /\
  (forall j, in_ram j -> is_csum j = false ->
     byte_of (after cmos_set_checksum s) j = byte_of s j) /\
  fst (cmos_check_checksum s2) = false.
Proof.
  intros Hb Hb2 Hi Hc Hne Hsame. destruct (bytes_wf s) as [Hlen Hok].
  destruct (does_run _ _ _ _ _ Hb (does_seal _ _ _)) as [_ Hat].
  set (s1 := after cmos_set_checksum s) in *. pose proof (at_bank _ _ _ _ Hat) as Hb1.
  pose proof (at_bytes _ _ _ _ Hat) as E1. split; [|split].
  - rewrite check_run, E1 by done. by apply valid_sealed.
  - intros j Hj Hcj. rewrite (at_byte _ _ _ _ j Hat Hj), sealed_lookup by done.
    by apply byte_lookup.
  - rewrite check_run by done. rewrite (bytes_ext s1 s2 i) by done.
    destruct (bytes_wf s1). apply valid_changed; try done.
    + apply cell_byte.
    + by rewrite byte_lookup.
    + rewrite E1. by apply valid_sealed.
Qed.

(** [cmos_write_flag] sets or clears its flag: it reads back as written, every flag
    with no bit in common reads as before, the checksum is valid, and only the flag bytes
    and the checksum have changed. *)
Theorem cmos_write_flag_sets s f x :
  bank_ok s -> flag_ok f ->
  fst (cmos_write_flag f x s) = 0 /\
  let s1 := after (cmos_write_flag f x) s in
  bank_ok s1 /\
  fst (cmos_read_flag f s1) = (if x =? 0 then 0 else 1) /\
  (forall g, flag_ok g -> Z.land f g = 0 -> fst (cmos_read_flag g s1) = fst (cmos_read_flag g s)) /\
  fst (cmos_check_checksum s1) = true /\
  (forall i, in_ram i -> is_csum i = false -> i <> CMOS_FLAG_BYTE_0 -> i <> CMOS_FLAG_BYTE_1 ->
     byte_of s1 i = byte_of s i).
Proof.
  intros Hb Hf. destruct (bytes_wf s) as [Hlen Hok].
  destruct (does_run _ _ _ _ _ Hb (does_write_flag _ _ _ f x Hf)) as [E Hat].
  split; [done|]. cbv zeta. set (s1 := after _ s) in *.
  pose proof (at_bank _ _ _ _ Hat) as Hb1. pose proof (at_bytes _ _ _ _ Hat) as E1.
  split; [done|]. split; [|split; [|split]].
  - rewrite flag_run, E1 by done. by apply (flag_of_put (bytes s) f x f).
  - intros g Hg Hd. rewrite !flag_run, E1 by done. by apply (flag_of_put (bytes s) f x g).
  - rewrite check_run, E1 by done. unfold put_flag, with_flags. apply valid_sealed.
    by rewrite !length_insert.
  - intros i Hi Hc H0 H1. rewrite (at_byte _ _ _ _ i Hat Hi). unfold put_flag.
    rewrite with_flags_lookup by done. rewrite !decide_False by done. by apply byte_lookup.
Qed.

(** the serial number written by [cmos_write_serial_num] is what
    [cmos_read_serial_num] gives back, and the checksum of the memory is valid. *)
Theorem cmos_serial_roundtrip s sn :
  bank_ok s -> length sn = CMOS_SYS_SERNUM_LEN -> nonzero sn -> bytes_ok sn ->
  let s1 := after (cmos_write_serial_num sn) s in
  fst (cmos_write_serial_num sn s) = Some tt /\
  fst (cmos_read_serial_num s1) = sn ++ [0] /\ fst (cmos_check_checksum s1) = true.
Proof.
  intros Hb Hl Hnz Hsn. cbv zeta. destruct (bytes_wf s) as [Hlen Hok].
  destruct (does_write_serial (cur_systype s) (vars s) (bytes s) sn Hnz) as (csum & Ec & Hm);
    [rewrite Hl; unfold CMOS_SYS_SERNUM_LEN; lia|].
  destruct (does_run _ _ _ _ _ Hb Hm) as [E Hat]. set (s1 := after _ s) in *.
  pose proof (at_bank _ _ _ _ Hat) as Hb1. pose proof (at_bytes _ _ _ _ Hat) as E1.
  split; [done|].
  assert (Ht : map u8 (take CMOS_SYS_SERNUM_LEN (sn ++ [0])) = sn).
  { rewrite <- Hl, take_app_length. rewrite <- (map_id sn) at 2. apply map_ext_in.
    intros x Hx. apply u8_is. by eapply Forall_forall in Hsn; [|apply list_elem_of_In]. }
  assert (Hput : length (put (pos CMOS_SYS_SERNUM_0) sn (bytes s)) = 114%nat)
    by (apply length_put_pos; [done|by vm_compute|rewrite Hl; by vm_compute]).
  unfold with_serial in E1. rewrite Ht in E1. split.
  - pose proof (does_run _ _ _ _ _ Hb1 (does_read_serial _ _ _)) as [-> _]. rewrite E1.
    assert (Es : serial_of (sealed (<[pos CMOS_SYS_SERNUM_CSUM:=u8 csum]>
                   (put (pos CMOS_SYS_SERNUM_0) sn (bytes s)))) = sn ++ [0]).
    { unfold serial_of. rewrite sub_sealed by by vm_compute.
      rewrite sub_insert_out by (right; vm_compute; lia).
      rewrite sub_put_same' by (done || rewrite Hlen; vm_compute; lia). done. }
    unfold serial_read. rewrite Es, decide_True; [done|]. rewrite Ec. f_equal.
    rewrite sealed_lookup, lookup_insert_pos, decide_True
      by (rewrite ?length_insert; done || by vm_compute).
    symmetry. apply u8_is. destruct (gen_csum_range (sn ++ [0])) as (r & Er & Hr).
    { rewrite length_app, Hl. unfold CMOS_SYS_SERNUM_LEN. lia. }
    unfold is_byte. simplify_eq. lia.
  - rewrite check_run, E1 by done. apply valid_sealed. by rewrite length_insert.
Qed.

(** The read of the serial number changes no byte on any board: when the checksum
    does not match it answers "invalid csum!", and the branch that would move the checksum
    of an older layout to its new place is never taken. *)
Theorem cmos_read_serial_no_migration s :
  bank_ok s ->
  bytes (after cmos_read_serial_num s) = bytes s /\
  (fst (cmos_read_serial_num s) = chars "invalid csum!" ++ [0] \/
   cmos_gen_csum (fst (cmos_read_serial_num s)) = Some (byte_of s CMOS_SYS_SERNUM_CSUM)).
Proof.
  intros Hb. destruct (does_run _ _ _ _ _ Hb (does_read_serial _ _ _)) as [-> Hat].
  split; [apply (at_bytes _ _ _ _ Hat)|]. unfold serial_read. case_decide as E; [right|by left].
  rewrite E. by f_equal.
Qed.

(** The address set by [cmos_set_bto_ip] is the one [init_bto_ip] finds at the next
    boot, without changing a byte. *)
Theorem cmos_bto_ip_roundtrip s ip :
  bank_ok s -> 0 <= ip < 2 ^ 32 ->
  let s1 := after (cmos_set_bto_ip ip) s in
  fst (cmos_check_checksum s1) = true /\
  bto_ip (vars (after init_bto_ip s1)) = ip /\ bytes (after init_bto_ip s1) = bytes s1.
Proof.
  intros Hb Hip. cbv zeta. destruct (bytes_wf s) as [Hlen Hok].
  destruct (does_run _ _ _ _ _ Hb (does_set_ip _ _ _ ip)) as [E Hat]. set (s1 := after _ s) in *.
  pose proof (at_bank _ _ _ _ Hat) as Hb1. pose proof (at_bytes _ _ _ _ Hat) as E1.
  destruct (put_ip_reads (bytes s) (split_ip ip) (u8 (foldl Z.add 0 (split_ip ip))) Hlen eq_refl)
    as [R1 R2].
  pose proof (does_run _ _ _ _ _ Hb1 (does_init_ip _ _ _)) as [_ Hat2].
  assert (Hok1 : ip_ok (bytes s1) = true).
  { unfold ip_ok. rewrite E1, R1, R2. apply Z.eqb_refl. }
  rewrite Hok1 in Hat2. split; [|split].
  - rewrite check_run, E1 by done. unfold put_ip. apply valid_sealed. rewrite length_insert.
    apply length_put_pos; by vm_compute.
  - rewrite (at_vars _ _ _ _ Hat2). simpl. unfold ip_of. rewrite E1, R1. by apply split_ip_join.
  - apply (at_bytes _ _ _ _ Hat2).
Qed.

(** ** First boot *)

Lemma does_each sys (f : Z -> St (rom hw) unit) v c l :
  (forall i, does sys (f i) v c tt v c) -> does sys (each f l) v c tt v c.
Proof.
  intros Hf. induction l as [|i l IH]; [apply does_ret|]. by eapply does_bind; [apply Hf|].
Qed.

(** A step that ends, keeps the globals and the number of bytes. *)
Lemma hook_step (m k : St (rom hw) unit) :
  (forall sys v c, length c = 114%nat ->
     exists c', length c' = 114%nat /\ does sys m v c tt v c') ->
  hook_ok k -> hook_ok (m;; k).
Proof.
  intros Hm Hk sys v c Hlen. destruct (Hm sys v c Hlen) as (c1 & L1 & D1).
  destruct (Hk sys v c1 L1) as (c2 & L2 & D2). exists c2. split; [done|].
  eapply does_bind; [exact D1|exact D2].
Qed.

Lemma hook_write i b : in_ram i -> hook_ok (write_byte i b).
Proof.
  intros Hi sys v c Hlen. eexists. split; [|by apply does_write]. by rewrite length_insert.
Qed.

Lemma hook_writes i bs :
  CMOS_CKS_START <= i -> i + Z.of_nat (length bs) <= CMOS_CKS_END + 1 -> hook_ok (write_bytes i bs).
Proof.
  intros Hi Hn sys v c Hlen. eexists. split; [|by apply does_write_bytes].
  apply length_put_pos; by rewrite ?length_map.
Qed.

Lemma hook_seal : hook_ok cmos_set_checksum.
Proof. intros sys v c Hlen. eexists. split; [|by apply does_seal]. by rewrite length_sealed. Qed.

Lemma hook_flag f x (k : St (rom hw) unit) :
  flag_ok f -> hook_ok k -> hook_ok (_ ← cmos_write_flag f x; k).
Proof.
  intros Hf Hk sys v c Hlen.
  destruct (Hk sys v (put_flag f x c)) as (c2 & L2 & D2).
  { by apply (changes_put_flag f x c). }
  exists c2. split; [done|]. eapply does_bind; [by apply does_write_flag|exact D2].
Qed.

Lemma hook_quiet (m : St (rom hw) unit) : (forall sys v c, does sys m v c tt v c) -> hook_ok m.
Proof. intros Hm sys v c Hlen. by exists c. Qed.

(** The defaults of the first boot end and keep the globals. *)
Lemma cmos_set_defaults_ok : hook_ok cmos_set_defaults.
Proof.
  unfold cmos_set_defaults.
  do 2 (apply hook_step; [apply hook_write; by vm_compute|]).
  do 4 (apply hook_flag; [by vm_compute|]).
  do 2 (apply hook_step; [apply hook_write; by vm_compute|]).
  intros sys v c Hlen.
  assert (H : forall maj, hook_ok (hw := hw)
    (write_byte CMOS_BOOT_DEV_MAJ maj;; write_byte CMOS_BOOT_DEV_MIN 0x01;;
     write_byte CMOS_ROOT_DEV_MAJ maj;; write_byte CMOS_ROOT_DEV_MIN 0x01;;
     cmos_set_powerapply 0;; cmos_set_powerfail 0;;
     write_bytes CMOS_BTO_IP_0 [0; 0; 0; 0];; write_byte CMOS_BTO_IP_CSUM 0;; cmos_set_checksum)).
  { intros maj. do 4 (apply hook_step; [apply hook_write; by vm_compute|]).
    apply hook_step; [apply hook_quiet; intros; apply does_set_powerapply|].
    apply hook_step; [apply hook_quiet; intros; apply does_set_powerfail|].
    apply hook_step; [apply hook_writes; by vm_compute|].
    apply hook_step; [apply hook_write; by vm_compute|]. apply hook_seal. }
  destruct (H (if Z.land sys 0xffff0000 =? SYSTYPE_3K then 3 else 9) sys v c Hlen) as (c' & L & D).
  exists c'. split; [done|].
  eapply does_bind; [|exact D].
  apply does_gets. intros s Hs. unfold systype_is_3k, systype. by rewrite (at_sys _ _ _ _ Hs).
Qed.

Lemma does_gets_boardtype {B} sys (k : Z -> St (rom hw) B) v c b v' c' :
  does sys (k (Z.land sys 0x0000ffff)) v c b v' c' -> does sys (b ← gets boardtype; k b) v c b v' c'.
Proof.
  intros H. eapply does_bind; [|exact H]. apply does_gets. intros s Hs.
  unfold boardtype. by rewrite (at_sys _ _ _ _ Hs).
Qed.

Lemma first_boot_defaults_ok reset : hook_ok (cmos_first_boot_defaults_only reset).
Proof.
  unfold cmos_first_boot_defaults_only.
  do 3 (apply hook_step; [apply hook_writes; by vm_compute|]).
  assert (Hend : hook_ok (hw := hw) (write_byte CMOS_BOOT_METHOD CMOS_BOOT_METHOD_NNET;;
    b ← gets boardtype;
    (if b =? BOARDTYPE_ALPINE then each clear_wake_event (seqZ 0 32) else mret tt);;
    cmos_set_checksum)).
  { apply hook_step; [apply hook_write; by vm_compute|]. intros sys v c Hlen.
    exists (sealed c). split; [by rewrite length_sealed|].
    apply does_gets_boardtype. eapply does_bind; [|apply does_seal].
    destruct (_ =? BOARDTYPE_ALPINE); [|apply does_ret].
    apply does_each. intros i. unfold clear_wake_event.
    eapply does_bind; by apply does_outb_other. }
  apply hook_step; [|exact Hend]. destruct (reset =? 0); [by apply hook_quiet; intros; apply does_ret|].
  intros sys v c Hlen.
  destruct (does_write_serial sys v c (chars "Uninitialized")) as (cs & _ & D).
  { by apply (bool_decide_unpack (nonzero _)); vm_compute. }
  { vm_compute. lia. }
  eexists. split; [|eapply does_bind; [exact D|apply does_ret]].
  unfold with_serial. rewrite length_sealed, length_insert. by apply length_put_pos.
Qed.

Lemma do_first_boot_ok rtc_set_defaults :
  (forall sys v c, does sys rtc_set_defaults v c tt v c) ->
  hook_ok (do_first_boot rtc_set_defaults).
Proof.
  intros Hr. unfold do_first_boot. apply hook_step; [apply cmos_set_defaults_ok|].
  apply hook_step; [apply first_boot_defaults_ok|]. by apply hook_quiet.
Qed.

(** ** Initialisation *)

Lemma init_vars_facts fb mj mn rv c v :
  length c = 114%nat -> bytes_ok c ->
  let v' := init_vars fb mj mn rv c v in let c' := init_bytes mj mn rv c in
  first_boot v' = fb /\ console v' = flag_of CMOS_CONSOLE_FLAG c' /\
  debug v' = Z.land (flag_of CMOS_DEBUG_FLAG c') (flag_of CMOS_CONSOLE_FLAG c') /\
  clean_boot v' = flag_of CMOS_CLEAN_BOOT_FLAG c' /\
  show_logo v' = 1 - flag_of CMOS_NOLOGO_FLAG c' /\
  boot_method v' = c' !!! pos CMOS_BOOT_METHOD /\ boot_type v' = c' !!! pos CMOS_BOOT_TYPE /\
  cmos_version v' = c' !!! pos CMOS_VERSION /\ serial_num v' = serial_read c' /\
  flag_of CMOS_VERSION_FLAG c' = 1 /\ 1 <= c' !!! pos CMOS_VERSION.
Proof.
  intros Hlen Hok. cbv zeta. unfold init_vars, init_bytes.
  pose proof (length_rev mj mn rv c Hlen) as L1. pose proof (rev_bytes_ok mj mn rv c Hok) as O1.
  destruct (flagged_version _ L1 O1) as [F _]. set (c1 := flagged_bytes _) in *.
  assert (L : length c1 = 114%nat) by by apply length_flagged.
  pose proof (changes_late c1) as Hch. pose proof (Hch L) as [_ E].
  assert (Hfl : forall f, flag_of f c1 = flag_of f (addressed_bytes (updated_bytes c1)))
    by (intros f; symmetry; by apply (flag_of_changes _ c1 _ f L eq_refl eq_refl Hch)).
  assert (Hm : addressed_bytes (updated_bytes c1) !!! pos CMOS_BOOT_METHOD = c1 !!! pos CMOS_BOOT_METHOD)
    by (apply E; by vm_compute).
  assert (Ht : addressed_bytes (updated_bytes c1) !!! pos CMOS_BOOT_TYPE = c1 !!! pos CMOS_BOOT_TYPE)
    by (apply E; by vm_compute).
  assert (Hv : addressed_bytes (updated_bytes c1) !!! pos CMOS_VERSION =
               (if c1 !!! pos CMOS_VERSION <? 1 then 1 else c1 !!! pos CMOS_VERSION)).
  { destruct (changes_addressed (updated_bytes c1) (length_updated _ L)) as [_ Ea].
    rewrite Ea by by vm_compute. by apply updated_version. }
  assert (Htr : forall f, truth (flag_of f c1) = flag_of f c1).
  { intros f. unfold truth, flag_of. by destruct (Z.land _ f =? 0). }
  rewrite Hm, Ht, Hv, <- !Hfl.
  destruct (Z.ltb_spec (c1 !!! pos CMOS_VERSION) 1); cbn; rewrite ?Htr;
    repeat split; try done; lia.
Qed.

(** What a flag of the bytes [c] tells the system: debug and prompt count with a console, and
    nologo is turned round. *)
Definition flag_says (read : Z -> Z) (f : Z) : Z :=
  if (f =? CMOS_DEBUG_FLAG) || (f =? CMOS_AUTO_PROMPT_FLAG)
  then Z.land (read f) (read CMOS_CONSOLE_FLAG)
  else if f =? CMOS_NOLOGO_FLAG then 1 - read f else read f.
Definition table_flags : list Z := map flag cmos_flags_init.

(** The globals of the flags. *)
Record flags_read (read : Z -> Z) v : Prop := {
  fr_console : console v = flag_says read CMOS_CONSOLE_FLAG;
  fr_debug : debug v = flag_says read CMOS_DEBUG_FLAG;
  fr_prompt : auto_prompt v = flag_says read CMOS_AUTO_PROMPT_FLAG;
  fr_clean : clean_boot v = flag_says read CMOS_CLEAN_BOOT_FLAG;
  fr_logo : show_logo v = flag_says read CMOS_NOLOGO_FLAG;
  fr_unique : unique_root v = flag_says read CMOS_UNIQUE_FLAG;
  fr_fault : sysfault v = flag_says read CMOS_SYSFAULT_FLAG;
  fr_table : forall e, e ∈ cmos_flags v -> flag e ∈ table_flags -> fstate e = flag_says read (flag e);
}.

Lemma flags_read_ext read read' v :
  (forall f, f ∈ table_flags -> read' f = read f) -> flags_read read v -> flags_read read' v.
Proof.
  intros E.
  assert (H : forall f, f ∈ table_flags -> flag_says read' f = flag_says read f).
  { intros f Hf. unfold flag_says. rewrite (E f Hf), (E CMOS_CONSOLE_FLAG); [done|].
    by apply (bool_decide_unpack _); vm_compute. }
  intros []. split; try (rewrite H; [done|by apply (bool_decide_unpack _); vm_compute]).
  intros e He Hf. rewrite H by done. auto.
Qed.

Lemma flag_of_init mj mn rv c f : length c = 114%nat ->
  flag_of f (init_bytes mj mn rv c) = flag_of f (flagged_bytes (rev_bytes mj mn rv c)).
Proof.
  intros Hlen. unfold init_bytes.
  apply (flag_of_changes _ _ _ f (length_flagged _ (length_rev mj mn rv c Hlen)) eq_refl eq_refl (changes_late _)).
Qed.

Lemma init_flags fb mj mn rv c v : length c = 114%nat ->
  flags_read (fun f => flag_of f (init_bytes mj mn rv c)) (init_vars fb mj mn rv c v).
Proof.
  intros Hlen. apply (flags_read_ext (fun f => flag_of f (flagged_bytes (rev_bytes mj mn rv c)))).
  { intros f _. by apply flag_of_init. }
  unfold init_vars. set (c1 := flagged_bytes _).
  assert (Htr : forall f, truth (flag_of f c1) = flag_of f c1).
  { intros f. unfold truth, flag_of. by destruct (Z.land _ f =? 0). }
  cbv zeta. set (v4 := set_serial_num _ _).
  assert (H : flags_read (fun f => flag_of f c1) (set_table [] v4)).
  { unfold v4. destruct (c1 !!! pos CMOS_VERSION <? 1); split; cbn; rewrite ?Htr; try done; by intros e ?%elem_of_nil. }
  destruct H as [H1 H2 H3 H4 H5 H6 H7 _]. split; try done. clear Htr.
  cbn [set_table cmos_flags]. intros e (e0 & -> & _)%list_elem_of_fmap Hf. cbn [fstate flag] in *.
  unfold table_flags in Hf. cbn [map cmos_flags_init flag] in Hf. rewrite !elem_of_cons, elem_of_nil in Hf.
  destruct Hf as [E|[E|[E|[E|[E|[E|[E|[]]]]]]]]; rewrite E; cbn [flag_var Z.eqb]; assumption.
Qed.

Lemma ip_bytes_four c : length c = 114%nat -> let k := pos CMOS_BTO_IP_0 in
  ip_bytes c = [c !!! k; c !!! (k + 1)%nat; c !!! (k + 2)%nat; c !!! (k + 3)%nat].
Proof.
  intros Hlen k. unfold ip_bytes, sub. fold k. assert (Hk : (k + 4 <= length c)%nat) by (rewrite Hlen; vm_compute; lia).
  clearbody k. apply list_eq. intros i. destruct (decide (i < 4)%nat) as [Hi|Hi].
  - rewrite lookup_take_lt, lookup_drop by done. rewrite list_lookup_lookup_total_lt by lia.
    do 4 (destruct i as [|i]; [cbn [lookup list_lookup]; do 2 f_equal; lia|]). lia.
  - rewrite lookup_take_ge, lookup_ge_None_2 by (simpl; lia). done.
Qed.

Lemma init_address fb mj mn rv c v : length c = 114%nat ->
  let c' := init_bytes mj mn rv c in
  ip_ok c' = true /\ bto_ip (init_vars fb mj mn rv c v) = ip_of c' /\
  (ip_ok c = true -> ip_of c' = ip_of c).
Proof.
  intros Hlen c'. subst c'. unfold init_bytes, init_vars.
  set (c2 := updated_bytes (flagged_bytes (rev_bytes mj mn rv c))). cbv zeta. cbn [set_table bto_ip set_serial_num set_bto_ip].
  assert (L1 : length (rev_bytes mj mn rv c) = 114%nat) by by apply length_rev.
  assert (L2 : length c2 = 114%nat) by by apply length_updated, length_flagged.
  assert (Hch : changes (fun j => rev_addr j || (version_addr j || update_addr j)) c c2).
  { eapply changes_trans; [apply changes_rev|]. eapply changes_trans; [apply changes_flagged|apply changes_updated]. }
  destruct (Hch Hlen) as [_ Ec].
  assert (Hk : ip_bytes c2 = ip_bytes c /\ c2 !!! pos CMOS_BTO_IP_CSUM = c !!! pos CMOS_BTO_IP_CSUM).
  { split; [|apply Ec; by vm_compute]. rewrite !ip_bytes_four by done.
    change (pos CMOS_BTO_IP_0 + 1)%nat with (pos (CMOS_BTO_IP_0 + 1)).
    change (pos CMOS_BTO_IP_0 + 2)%nat with (pos (CMOS_BTO_IP_0 + 2)).
    change (pos CMOS_BTO_IP_0 + 3)%nat with (pos (CMOS_BTO_IP_0 + 3)). by rewrite !Ec by by vm_compute. }
  unfold addressed_bytes. destruct (ip_ok c2) eqn:E.
  - split; [done|]. split; [done|]. intros _. unfold ip_of. by destruct Hk as [-> _].
  - destruct (put_ip_reads c2 [0; 0; 0; 0] 0 L2 eq_refl) as [R1 R2].
    split; [unfold ip_ok; by rewrite R1, R2|]. split; [unfold ip_of; by rewrite R1|].
    intros Hc. unfold ip_ok in *. destruct Hk as [E1 E2]. rewrite E1, E2 in E. congruence.
Qed.

(** The bytes that say what the ROM is, and its format. *)
Lemma init_rev mj mn rv c : length c = 114%nat -> let c' := init_bytes mj mn rv c in
  c' !!! pos CMOS_BIOS_DRIVE_INFO = 0 /\ c' !!! pos CMOS_ROM_REV_MAJ = u8 mj /\
  c' !!! pos CMOS_ROM_REV_MIN = u8 mn /\ c' !!! pos CMOS_ROM_REV_REV = u8 rv.
Proof.
  intros Hlen c'. subst c'. unfold init_bytes. set (r := rev_bytes mj mn rv c).
  assert (L1 : length r = 114%nat) by by apply length_rev.
  assert (Hch : changes (fun j => version_addr j || (update_addr j || ip_addr j)) r
            (addressed_bytes (updated_bytes (flagged_bytes r)))).
  { eapply changes_trans; [apply changes_flagged|apply changes_late]. }
  destruct (Hch L1) as [_ E]. rewrite !E by by vm_compute. unfold r, rev_bytes.
  rewrite !sealed_lookup by by (rewrite ?length_insert; vm_compute).
  rewrite !lookup_insert_pos by by (rewrite ?length_insert; vm_compute).
  by repeat (rewrite decide_True by done || rewrite decide_False by done).
Qed.

Lemma init_version mj mn rv c : length c = 114%nat -> bytes_ok c ->
  init_bytes mj mn rv c !!! pos CMOS_VERSION =
  (if (flag_of CMOS_VERSION_FLAG c =? 1) && (CMOS_VERSION_CURRENT <=? c !!! pos CMOS_VERSION)
   then c !!! pos CMOS_VERSION else CMOS_VERSION_CURRENT).
Proof.
  intros Hlen Hok. unfold init_bytes. set (r := rev_bytes mj mn rv c).
  assert (L1 : length r = 114%nat) by by apply length_rev.
  pose proof (length_flagged r L1) as L2. pose proof (length_updated _ L2) as L3.
  destruct (changes_addressed (updated_bytes (flagged_bytes r)) L3) as [_ Ea].
  rewrite Ea by by vm_compute. rewrite updated_version by done.
  destruct (changes_rev mj mn rv c Hlen) as [_ Er]. fold r in Er.
  assert (Ev : r !!! pos CMOS_VERSION = c !!! pos CMOS_VERSION) by (apply Er; by vm_compute).
  assert (Ef : flag_of CMOS_VERSION_FLAG r = flag_of CMOS_VERSION_FLAG c)
    by (apply (flag_of_changes rev_addr); [done..|apply changes_rev]).
  unfold flagged_bytes. rewrite Ef. unfold CMOS_VERSION_CURRENT.
  assert (Hf : flag_of CMOS_VERSION_FLAG c = 0 \/ flag_of CMOS_VERSION_FLAG c = 1)
    by (unfold flag_of; destruct (_ =? 0); auto).
  destruct Hf as [-> | ->]; cbn [Z.eqb Pos.eqb andb].
  - assert (Lp : length (put_flag CMOS_VERSION_FLAG 1 r) = 114%nat)
      by (apply (changes_put_flag CMOS_VERSION_FLAG 1 r L1)).
    set (p := put_flag CMOS_VERSION_FLAG 1 r) in *. clearbody p.
    by rewrite lookup_insert_pos, decide_True by (done || by vm_compute).
  - rewrite Ev. destruct (Z.ltb_spec (c !!! pos CMOS_VERSION) 1), (Z.leb_spec 1 (c !!! pos CMOS_VERSION)); (done || lia).
Qed.

Lemma table_flags_ok f : f ∈ table_flags -> flag_ok f.
Proof.
  unfold table_flags. cbn [map cmos_flags_init flag]. rewrite !elem_of_cons, elem_of_nil.
  intros [->|[->|[->|[->|[->|[->|[->|[]]]]]]]]; by vm_compute.
Qed.

(** The other flags stay. *)
Lemma init_flag_kept mj mn rv c f : length c = 114%nat -> bytes_ok c -> f ∈ table_flags ->
  flag_of f (init_bytes mj mn rv c) = flag_of f c.
Proof.
  intros Hlen Hok Hf. rewrite flag_of_init by done. set (r := rev_bytes mj mn rv c).
  assert (L1 : length r = 114%nat) by by apply length_rev.
  pose proof (rev_bytes_ok mj mn rv c Hok) as O1. fold r in O1.
  transitivity (flag_of f r); [|by apply (flag_of_changes rev_addr); [done..|apply changes_rev]].
  unfold flagged_bytes. destruct (flag_of CMOS_VERSION_FLAG r =? 0); [|done].
  rewrite (flag_of_changes (Z.eqb CMOS_VERSION) (put_flag CMOS_VERSION_FLAG 1 r)); [|by apply (changes_put_flag CMOS_VERSION_FLAG 1 r)|done..|by apply changes_insert].
  apply (flag_of_put r CMOS_VERSION_FLAG 1 f L1 O1); [done|].
  unfold table_flags in Hf. cbn [map cmos_flags_init flag] in Hf. rewrite !elem_of_cons, elem_of_nil in Hf.
  by destruct Hf as [->|[->|[->|[->|[->|[->|[->|[]]]]]]]].
Qed.

(** C36: from any memory, valid or not, [cmos_init] ends with a valid checksum, the format flag
    set and a version that is current or later; [first_boot] says whether the checksum was
    wrong; the revision of the ROM is in the memory.  The globals hold what the memory then
    says: console, clean_boot, unique_root and sysfault their flags, debug and auto_prompt
    theirs with that of the console, show_logo the opposite of nologo; boot_method, boot_type
    and the version their bytes, bto_ip the address, whose sum holds, and the serial number.
    The table of flags has the same values as the globals (for nologo the opposite of the
    flag).  A memory that was valid keeps every byte outside of the revision, the flags, the
    version, the BTO code and the address, these flags, a version that is current or later,
    and its address if the sum holds.  The first boot is any function that ends and
    keeps the globals. *)
Theorem cmos_init_establishes hook mj mn rv s :
  bank_ok s -> hook_ok hook ->
  fst (cmos_init hook mj mn rv s) = 0 /\
  let s1 := after (cmos_init hook mj mn rv) s in
  bank_ok s1 /\ fst (cmos_check_checksum s1) = true /\
  first_boot (vars s1) = (if fst (cmos_check_checksum s) then 0 else 1) /\
  flags_read (fun f => fst (cmos_read_flag f s1)) (vars s1) /\
  map (fun e => (fname e, flag e)) (cmos_flags (vars s1)) = map (fun e => (fname e, flag e)) (cmos_flags (vars s)) /\
  boot_method (vars s1) = byte_of s1 CMOS_BOOT_METHOD /\ boot_type (vars s1) = byte_of s1 CMOS_BOOT_TYPE /\
  serial_num (vars s1) = fst (cmos_read_serial_num s1) /\
  ip_ok (bytes s1) = true /\ bto_ip (vars s1) = ip_of (bytes s1) /\
  fst (cmos_read_flag CMOS_VERSION_FLAG s1) = 1 /\
  cmos_version (vars s1) = byte_of s1 CMOS_VERSION /\ CMOS_VERSION_CURRENT <= byte_of s1 CMOS_VERSION /\
  (byte_of s1 CMOS_BIOS_DRIVE_INFO = 0 /\ byte_of s1 CMOS_ROM_REV_MAJ = u8 mj /\
   byte_of s1 CMOS_ROM_REV_MIN = u8 mn /\ byte_of s1 CMOS_ROM_REV_REV = u8 rv) /\
  (fst (cmos_check_checksum s) = true ->
   (forall i, in_ram i -> is_csum i = false -> init_addr i = false -> byte_of s1 i = byte_of s i) /\
   (forall f, f ∈ table_flags -> fst (cmos_read_flag f s1) = fst (cmos_read_flag f s)) /\
   byte_of s1 CMOS_VERSION =
     (if (fst (cmos_read_flag CMOS_VERSION_FLAG s) =? 1) && (CMOS_VERSION_CURRENT <=? byte_of s CMOS_VERSION)
      then byte_of s CMOS_VERSION else CMOS_VERSION_CURRENT) /\
   (ip_ok (bytes s) = true -> ip_of (bytes s1) = ip_of (bytes s))).
Proof.
  intros Hb Hh. destruct (bytes_wf s) as [Hlen Hok].
  destruct (does_first (cur_systype s) hook (vars s) (bytes s) Hh Hlen) as (c1 & D & L1 & V1 & K1).
  destruct (does_run _ _ _ _ _ Hb (does_init _ hook mj mn rv _ _ _ D)) as [E Hat].
  assert (O1 : bytes_ok c1).
  { destruct (does_run _ _ _ _ _ Hb D) as [_ Hat1].
    rewrite <- (at_bytes _ _ _ _ Hat1). apply bytes_wf. }
  split; [done|]. cbv zeta. set (s1 := after _ s) in *.
  pose proof (at_bank _ _ _ _ Hat) as Hb1. pose proof (at_bytes _ _ _ _ Hat) as E1.
  pose proof (at_vars _ _ _ _ Hat) as Ev.
  set (fb := if valid (bytes s) then 0 else 1) in *.
  destruct (init_vars_facts fb mj mn rv c1 (vars s) L1 O1) as (F1 & _ & _ & _ & _ & F4 & F5 & F6 & F7 & F8 & F9).
  pose proof (init_flags fb mj mn rv c1 (vars s) L1) as G1.
  destruct (init_address fb mj mn rv c1 (vars s) L1) as (G2 & G3 & G4).
  destruct (init_rev mj mn rv c1 L1) as (R1 & R2 & R3 & R4).
  pose proof (init_version mj mn rv c1 L1 O1) as G5.
  assert (G6 : map (fun e => (fname e, flag e)) (cmos_flags (vars s1)) = map (fun e => (fname e, flag e)) (cmos_flags (vars s))).
  { rewrite Ev. unfold init_vars. cbv zeta. cbn [set_table cmos_flags]. rewrite map_map. cbn [fname flag].
    by destruct (_ <? 1). }
  rewrite <- Ev in F1, F4, F5, F6, F7, G1, G3. rewrite <- E1 in F4, F5, F6, F7, F8, F9, G1, G2, G3, G4, G5, R1, R2, R3, R4.
  rewrite !check_run, (flag_run s1 CMOS_VERSION_FLAG), (flag_run s CMOS_VERSION_FLAG) by (done || by vm_compute).
  rewrite <- !byte_lookup by by vm_compute.
  pose proof (does_run _ _ _ _ _ Hb1 (does_read_serial _ _ _)) as [-> _].
  split; [done|]. split; [rewrite E1; by apply valid_init|]. split; [done|].
  split; [refine (flags_read_ext _ _ _ _ G1); intros f Hf; apply flag_run; [done|by apply table_flags_ok]|].
  do 9 (split; [done|]). split; [by split_and!|]. intros Hv. rewrite (K1 Hv) in G4, G5. split_and!; try done.
  - intros i Hi Hc Ha.
    rewrite (at_byte _ _ _ _ i Hat Hi). rewrite <- byte_lookup by done. rewrite <- (K1 Hv).
    by apply (changes_init mj mn rv c1 L1).
  - intros f Hf. rewrite !flag_run by (done || by apply table_flags_ok). rewrite E1, <- (K1 Hv).
    by apply init_flag_kept.
Qed.

(** After [cmos_init] the entry "nologo" of the table of flags holds [show_logo]: it
    says on when the flag of the memory is clear, and off when it is set. *)
Theorem cmos_nologo_inverted hook mj mn rv s e :
  bank_ok s -> hook_ok hook ->
  let s1 := after (cmos_init hook mj mn rv) s in
  e ∈ cmos_flags (vars s1) -> flag e = CMOS_NOLOGO_FLAG ->
  fstate e = 1 - fst (cmos_read_flag CMOS_NOLOGO_FLAG s1).
Proof.
  intros Hb Hh. cbv zeta. destruct (bytes_wf s) as [Hlen Hok].
  destruct (does_first (cur_systype s) hook (vars s) (bytes s) Hh Hlen) as (c1 & D & L1 & V1 & K1).
  destruct (does_run _ _ _ _ _ Hb (does_init _ hook mj mn rv _ _ _ D)) as [_ Hat].
  assert (O1 : bytes_ok c1).
  { destruct (does_run _ _ _ _ _ Hb D) as [_ Hat1].
    rewrite <- (at_bytes _ _ _ _ Hat1). apply bytes_wf. }
  set (s1 := after _ s) in *. pose proof (at_bytes _ _ _ _ Hat) as E1.
  pose proof (at_vars _ _ _ _ Hat) as Ev. pose proof (at_bank _ _ _ _ Hat) as Hb1.
  destruct (init_vars_facts (if valid (bytes s) then 0 else 1) mj mn rv c1 (vars s) L1 O1)
    as (_ & _ & _ & _ & F & _). rewrite <- Ev, <- E1 in F. intros He Hf.
  rewrite flag_run by (done || by vm_compute). rewrite <- F. rewrite Ev in He |- *.
  unfold init_vars in He |- *. cbv zeta in He |- *. set (v4 := set_serial_num _ _) in *.
  cbn [set_table cmos_flags show_logo] in *.
  apply list_elem_of_fmap in He as (e0 & -> & _). cbn [fstate flag] in *. by rewrite Hf.
Qed.

(** What [cmos_set_powerfail] stores [cmos_get_powerfail] reads back, on any 5000
    series system; the bytes of the memory and the selected bank are as they were. *)
Theorem cmos_powerfail_roundtrip s st :
  bank_ok s -> systype_is_5k s = true ->
  let s1 := after (cmos_set_powerfail st) s in
  fst (cmos_get_powerfail s1) = (if st =? 0 then 0 else 1) /\
  (forall i, in_ram i -> byte_of s1 i = byte_of s i) /\ sel (dev s1) = sel (dev s) /\ bank_ok s1.
Proof.
  intros Hb H5. destruct (set_powerfail_run s st H5) as (s' & E & E1 & E2 & E3 & E4 & E5).
  cbv zeta. rewrite E. cbn [snd]. split; [|split; [done|split; [done|]]].
  - rewrite get_powerfail_run by (unfold systype_is_5k, systype in *; by rewrite E1).
    rewrite E5, wake_value_reads by apply cell_byte. by destruct (st =? 0).
  - unfold bank_ok, boardtype in *. by rewrite E1, E3.
Qed.
End CmosTheorems.

(** ** Concrete runs *)

Definition vars0 : cmos_vars := mk_cmos_vars [] 0 0 0 0 0 0 0 0 0 0 0 0 cmos_flags_init.

(** A chip whose memory holds the same byte everywhere. *)
Definition chip_of (b : Z) : chip := mk_chip 0 PNP_NS_RTC_BANK_0 (fun _ _ => b) (fun _ => 0).

(** A 5000 series system with a Monterey board, and a 3000 series one. *)
Definition rom5k (b : Z) : rom chip :=
  mk_rom (chip_of b) (Z.lor SYSTYPE_5K BOARDTYPE_MONTEREY) vars0.
Definition rom3k (b : Z) : rom chip := mk_rom (chip_of b) (Z.lor SYSTYPE_3K 1) vars0.

Lemma bank5k b : bank_ok (rom5k b).
Proof. by left. Qed.

Lemma bank3k b : bank_ok (rom3k b).
Proof. by right. Qed.

(** The memory after a checksum is set, with byte 0x60 changed. *)
Definition tampered : rom chip :=
  let s := snd (cmos_set_checksum (rom5k 7)) in
  mk_rom (mk_chip (ch_latch (dev s)) (ch_cra (dev s))
            (fun b i => if i =? 0x60 then 8 else ch_mem (dev s) b i) (ch_ports (dev s)))
    (cur_systype s) (vars s).

Lemma cmos_checksum_detects_witness :
  fst (cmos_check_checksum (snd (cmos_set_checksum (rom5k 7)))) = true /\
  fst (cmos_check_checksum tampered) = false.
Proof.
  destruct (cmos_checksum_detects (rom5k 7) tampered 0x60) as (H1 & _ & H2).
  - left. reflexivity.
  - left. reflexivity.
  - by vm_compute.
  - reflexivity.
  - by vm_compute.
  - intros j _ Hj. unfold byte_of, tampered, cell, chip_rtc. cbn [dev ch_mem].
    by rewrite (proj2 (Z.eqb_neq j 0x60) Hj).
  - split; [exact H1|exact H2].
Defined.

Lemma flag_ok_debug : flag_ok CMOS_DEBUG_FLAG.
Proof. by vm_compute. Qed.

Lemma debug_on b :
  b = 255 -> fst (cmos_read_flag CMOS_DEBUG_FLAG (rom5k b)) = 1.
Proof. intros ->. vm_compute. reflexivity. Qed.

Lemma cmos_write_flag_sets_witness :
  fst (cmos_read_flag CMOS_NOLOGO_FLAG (snd (cmos_write_flag CMOS_NOLOGO_FLAG 0 (rom5k 255)))) = 0 /\
  fst (cmos_read_flag CMOS_DEBUG_FLAG (snd (cmos_write_flag CMOS_NOLOGO_FLAG 0 (rom5k 255)))) = 1.
Proof.
  destruct (cmos_write_flag_sets (rom5k 255) CMOS_NOLOGO_FLAG 0) as (_ & _ & H1 & H2 & _).
  - left. reflexivity.
  - by vm_compute.
  - split; [exact H1|].
    exact (eq_trans (H2 CMOS_DEBUG_FLAG (flag_ok_debug) eq_refl) (debug_on 255 eq_refl)).
Defined.

Lemma cmos_serial_roundtrip_witness :
  fst (cmos_read_serial_num (snd (cmos_write_serial_num (chars "1H09AD0000001") (rom3k 0)))) =
  chars "1H09AD0000001" ++ [0].
Proof.
  apply (cmos_serial_roundtrip (rom3k 0) (chars "1H09AD0000001")).
  - right. reflexivity.
  - reflexivity.
  - apply (bool_decide_unpack (nonzero (chars "1H09AD0000001"))). by vm_compute.
  - apply (bool_decide_unpack (bytes_ok (chars "1H09AD0000001"))). by vm_compute.
Defined.

Lemma cmos_read_serial_no_migration_witness :
  bytes (snd (cmos_read_serial_num (rom3k 65))) = bytes (rom3k 65) /\
  fst (cmos_read_serial_num (rom3k 65)) = chars "invalid csum!" ++ [0].
Proof.
  destruct (cmos_read_serial_no_migration (rom3k 65)) as [H1 _].
  - right. reflexivity.
  - split; [exact H1|]. reflexivity.
Defined.

Lemma cmos_bto_ip_roundtrip_witness :
  bto_ip (vars (snd (init_bto_ip (snd (cmos_set_bto_ip 0xC0A80A01 (rom3k 1)))))) = 0xC0A80A01.
Proof.
  apply (cmos_bto_ip_roundtrip (rom3k 1) 0xC0A80A01); [right; reflexivity|].
  split; [by vm_compute|reflexivity].
Defined.

Lemma cmos_init_establishes_witness :
  first_boot (vars (snd (cmos_init (do_first_boot (mret tt)) 2 10 3 (rom5k 255)))) = 1 /\
  fst (cmos_check_checksum (snd (cmos_init (do_first_boot (mret tt)) 2 10 3 (rom5k 255)))) = true.
Proof.
  destruct (cmos_init_establishes (do_first_boot (mret tt)) 2 10 3 (rom5k 255))
    as (_ & _ & H1 & H2 & _).
  - left. reflexivity.
  - apply do_first_boot_ok. intros sys v c. apply does_ret.
  - split; [|exact H1]. rewrite H2. reflexivity.
Defined.

Lemma cmos_nologo_inverted_witness :
  let s1 := snd (cmos_init (do_first_boot (mret tt)) 2 10 3 (rom5k 255)) in
  fst (cmos_read_flag CMOS_NOLOGO_FLAG s1) = 0 /\
  exists e, e ∈ cmos_flags (vars s1) /\ fname e = chars "nologo" /\ fstate e = 1.
Proof.
  cbv zeta. assert (H0 : fst (cmos_read_flag CMOS_NOLOGO_FLAG
    (snd (cmos_init (do_first_boot (mret tt)) 2 10 3 (rom5k 255)))) = 0) by (vm_compute; reflexivity).
  split; [exact H0|]. exists (mk_cmos_flag (chars "nologo") CMOS_NOLOGO_FLAG 1).
  assert (He : mk_cmos_flag (chars "nologo") CMOS_NOLOGO_FLAG 1 ∈
    cmos_flags (vars (snd (cmos_init (do_first_boot (mret tt)) 2 10 3 (rom5k 255))))).
  { apply (list_elem_of_lookup_2 _ 5). vm_compute. reflexivity. }
  split; [exact He|]. split; [reflexivity|].
  rewrite (cmos_nologo_inverted (do_first_boot (mret tt)) 2 10 3 (rom5k 255)
             (mk_cmos_flag (chars "nologo") CMOS_NOLOGO_FLAG 1)).
  - by rewrite H0.
  - left. reflexivity.
  - apply do_first_boot_ok. intros sys v c. apply does_ret.
  - exact He.
  - reflexivity.
Defined.

Lemma cmos_powerfail_roundtrip_witness :
  fst (cmos_get_powerfail (snd (cmos_set_powerfail 1 (rom5k 255)))) = 1 /\
  sel (dev (snd (cmos_set_powerfail 1 (rom5k 255)))) = PNP_NS_RTC_BANK_0.
Proof.
  destruct (cmos_powerfail_roundtrip (rom5k 255) 1) as (H1 & _ & H2 & _).
  - left. reflexivity.
  - reflexivity.
  - split; [exact H1|]. rewrite H2. reflexivity.
Defined.
