(* ===== verification/Rtc.v ===== *)
(** * Rtc: the clock

    Model of [x86/common/rtc.c] and of the monitor's commands in [x86/monitor/rtc.c], over the
    ports, the system type and the globals of [CmosIo].  Texts are the bytes of a string with
    its terminator; [malloc] is the allocator [printf] uses.  [None] is an access outside of
    an object. *)

From stdpp Require Import strings.
From S2P Require Import Prelude CString Strbuf Printf CmosIo CStringProofs CmosProofs.
Open Scope list_scope.
Open Scope Z_scope.

Definition RTC_ADDR_PORT : Z := 0x70.
Definition RTC_DATA_PORT : Z := 0x71.
Definition PM_ADDR_PORT : Z := 0x500.
Definition RTC_SECOND_REG : Z := 0x0.
Definition RTC_ALARM_SECOND_REG : Z := 0x1.
Definition RTC_MINUTE_REG : Z := 0x2.
Definition RTC_ALARM_MINUTE_REG : Z := 0x3.
Definition RTC_HOUR_REG : Z := 0x4.
Definition RTC_ALARM_HOUR_REG : Z := 0x5.
Definition RTC_DAY_OF_WEEK_REG : Z := 0x6.
Definition RTC_DAY_OF_MONTH_REG : Z := 0x7.
Definition RTC_MONTH_REG : Z := 0x8.
Definition RTC_YEAR_REG : Z := 0x9.
Definition RTC_STATUS_REG_A : Z := 0x0a.
Definition RTC_STATUS_REG_B : Z := 0x0b.
Definition RTC_STATUS_REG_D : Z := 0x0d.
Definition EBADNUMARGS : Z := -11.
Definition EBADNUM : Z := -12.
Definition EBADARG : Z := -13.

Definition BCD2BIN (x : Z) : Z := Z.land x 0xf + 10 * Z.land (Z.shiftr x 4) 0xf.
Definition BIN2BCD (x : Z) : Z := Z.shiftl (x ÷ 10) 4 + Z.rem x 10.

Section Rtc.
Context {hw : Type} `{!Ports hw} (malloc : Z -> option (list Z)).
Abbreviation T := (St (rom hw)).

(** ** rtc.c *)

Definition select_bank (base bank : Z) : T Z :=
  outb 0x0a base;;
  val ← inb (base + 1);
  outb (Z.lor (Z.land val 0x8f) bank) (base + 1);;
  mret (Z.land val 0x50).

Definition get_base (dv start : Z) : T Z :=
  outb start dv;;
  lo ← inb (dv + 1);
  outb (start + 1) dv;;
  hi ← inb (dv + 1);
  mret (Z.lor lo (Z.shiftl hi 8)).

Definition set_fer2 (base value : Z) : T Z :=
  outb 0x01 base;;
  val ← inb (base + 1);
  outb value (base + 1);;
  mret val.

Definition write_rtc (base index data : Z) : T unit := outb index base;; outb data (base + 1).
Definition read_rtc (base index : Z) : T Z := outb index base;; inb (base + 1).

Definition rtc_reset : T unit :=
  val ← select_bank RTC_ADDR_PORT 1;
  each (fun '(i, d) => write_rtc RTC_ADDR_PORT i d) [(0x48, 0x0); (0x49, 0x0); (0x4a, 0x0)];;
  _ ← select_bank RTC_ADDR_PORT 2;
  each (fun '(i, d) => write_rtc RTC_ADDR_PORT i d) [(0x40, 0x00); (0x41, 0x0)];;
  _ ← read_rtc RTC_ADDR_PORT 0x42;
  each (fun '(i, d) => write_rtc RTC_ADDR_PORT i d)
    [(0x43, 0xc0); (0x44, 0xc0); (0x45, 0xc0); (0x46, 0xc0); (0x47, 0xc0); (0x48, 0xc0); (0x49, 0xa0);
     (0x4a, 0x2d); (0x4b, 0x2d); (0x4c, 0xad); (0x4d, 0x15); (0x4f, 0xc9); (0x50, 0xca); (0x51, 0xc8)];;
  _ ← select_bank RTC_ADDR_PORT val;
  val ← set_fer2 PM_ADDR_PORT 0x78;
  base ← get_base PM_ADDR_PORT 0x08;
  (if base =? 0 then mret tt
   else outb 0xff base;; outb 0xff (base + 0x01);; outb 0xff (base + 0x02);; outb 0x00 (base + 0x03));;
  base ← get_base PM_ADDR_PORT 0x0c;
  (if base =? 0 then mret tt else outb 0x0 base;; outb 0x0 (base + 0x01));;
  base ← get_base PM_ADDR_PORT 0x0e;
  (if base =? 0 then mret tt else outb 0xff base;; outb 0x0 (base + 0x04);; outb 0x0 (base + 0x08));;
  _ ← set_fer2 PM_ADDR_PORT val;
  mret tt.

Definition rtc_begin_set : T unit :=
  outb RTC_STATUS_REG_B RTC_ADDR_PORT;;
  tmp ← inb RTC_DATA_PORT;
  outb (Z.lor tmp 0x80) RTC_DATA_PORT.
Definition rtc_end_set : T unit :=
  outb RTC_STATUS_REG_B RTC_ADDR_PORT;;
  tmp ← inb RTC_DATA_PORT;
  outb (Z.land tmp (Z.lnot 0x80)) RTC_DATA_PORT.

Definition set_reg (reg v : Z) : T unit := outb reg RTC_ADDR_PORT;; outb (Z.land v 0xff) RTC_DATA_PORT.

Definition rtc_set_vals (sec alarm_sec minute alarm_minute hour alarm_hour day_of_week day_of_month month year : Z) : T unit :=
  rtc_begin_set;;
  set_reg RTC_SECOND_REG sec;;
  set_reg RTC_ALARM_SECOND_REG alarm_sec;;
  set_reg RTC_MINUTE_REG minute;;
  set_reg RTC_ALARM_MINUTE_REG alarm_minute;;
  set_reg RTC_HOUR_REG hour;;
  set_reg RTC_ALARM_HOUR_REG alarm_hour;;
  set_reg RTC_DAY_OF_WEEK_REG day_of_week;;
  set_reg RTC_DAY_OF_MONTH_REG day_of_month;;
  set_reg RTC_MONTH_REG month;;
  set_reg RTC_YEAR_REG year;;
  rtc_end_set.

(** The initial date and time and the status registers. *)
Definition set_initial : T unit :=
  rtc_set_vals 0 0 (BIN2BCD 59) 0 (BIN2BCD 10) 0 (BIN2BCD 3) (BIN2BCD 2) (BIN2BCD 3) (BIN2BCD 76);;
  set_reg RTC_STATUS_REG_A 0x26;;
  set_reg RTC_STATUS_REG_B 0x02;;
  set_reg RTC_STATUS_REG_D 0x26.

Definition rtc_set_defaults : T unit := rtc_begin_set;; set_initial;; rtc_end_set.

Definition rtc_init : T Z :=
  rtc_begin_set;;
  first ← gets (fun s => first_boot (vars s));
  (if negb (first =? 0) then
     board ← gets boardtype;
     (if board =? BOARDTYPE_MONTEREY then rtc_reset else mret tt);;
     set_initial
   else
     outb RTC_STATUS_REG_A RTC_ADDR_PORT;;
     temp ← inb RTC_DATA_PORT;
     outb (Z.land (Z.lor 0x26 temp) (Z.lnot 0x50)) RTC_DATA_PORT;;
     outb RTC_STATUS_REG_B RTC_ADDR_PORT;;
     temp ← inb RTC_DATA_PORT;
     outb (Z.land temp (Z.lnot 0x24)) RTC_DATA_PORT);;
  rtc_end_set;;
  mret 0.

(** A register of the clock in binary. *)
Definition get_reg (reg mask : Z) : T Z :=
  outb reg RTC_ADDR_PORT;;
  tmp ← inb RTC_DATA_PORT;
  mret (BCD2BIN (Z.land tmp mask)).

Definition zero_below_10 (tmp : Z) : arg := AStr (Some (if tmp <? 10 then chars "0" ++ [0] else [0])).

Definition months : list string :=
  ["Jan"; "Feb"; "Mar"; "Apr"; "May"; "Jun"; "Jul"; "Aug"; "Sep"; "Oct"; "Nov"; "Dec"; "Bad"]%string.

(** [sprintf(p, fmt, ...)] into the static buffer, from the offset [off]. *)
Definition sprintf_at (off : nat) (fmt : string) (args : list arg) (text : option (list Z)) : option (list Z) :=
  text ← text;
  '(_, b, _) ← sprintf malloc (drop off text) (chars fmt ++ [0]) args;
  m ← buf b;
  Some (take off text ++ m).

(** [buf], from the 128 bytes it holds: [months[tmp-1]] is outside of the table for month 0. *)
Definition rtc_get_datestr (text : list Z) : T (option (list Z)) :=
  tmp ← get_reg RTC_MONTH_REG 0xff;
  let tmp := if 12 <? tmp then 13 else tmp in
  let text := name ← (if tmp <? 1 then None else nth_error months (Z.to_nat (tmp - 1)));
              sprintf_at 0 "%s " [AStr (Some (chars name ++ [0]))] (Some text) in
  tmp ← get_reg RTC_DAY_OF_MONTH_REG 0xff;
  let text := sprintf_at 4 "%s%d " [zero_below_10 tmp; AWord tmp] text in
  tmp ← get_reg RTC_HOUR_REG 0xff;
  let text := sprintf_at 7 "%s%d:" [zero_below_10 tmp; AWord tmp] text in
  tmp ← get_reg RTC_MINUTE_REG 0xff;
  let text := sprintf_at 10 "%s%d:" [zero_below_10 tmp; AWord tmp] text in
  tmp ← get_reg RTC_SECOND_REG 0xff;
  let text := sprintf_at 13 "%s%d UTC " [zero_below_10 tmp; AWord tmp] text in
  tmp ← get_reg RTC_YEAR_REG 0xff;
  let tmp := tmp + (if tmp <? 70 then 2000 else 1900) in
  let text := sprintf_at 20 "%d" [AWord tmp] text in
  mret (text ← text; if (24 <? length text)%nat then Some (<[24%nat := 0]> text) else None).

(** ** The monitor's commands *)

(** What is put out so far, and one more [printf]. *)
Definition then_print (out : option (list Z)) (fmt : string) (args : list arg) : option (list Z) :=
  o ← out; '(_, t) ← printf malloc (chars fmt ++ [0]) args; Some (o ++ t).

Definition read_rtc_func (argc : Z) : T (Z * option (list Z)) :=
  if negb (argc =? 1) then mret (EBADNUMARGS, Some [])
  else
    tmp ← get_reg RTC_YEAR_REG 0xff;
    let out := then_print (Some []) "%s%d" [zero_below_10 tmp; AWord tmp] in
    tmp ← get_reg RTC_MONTH_REG 0xff;
    let out := then_print out "%s%d" [zero_below_10 tmp; AWord tmp] in
    tmp ← get_reg RTC_DAY_OF_MONTH_REG 0xff;
    let out := then_print out "%s%d" [zero_below_10 tmp; AWord tmp] in
    tmp ← get_reg RTC_DAY_OF_WEEK_REG 0xf;
    let out := then_print out "%d" [AWord tmp] in
    tmp ← get_reg RTC_HOUR_REG 0xff;
    let out := then_print out "%s%d" [zero_below_10 tmp; AWord tmp] in
    tmp ← get_reg RTC_MINUTE_REG 0xff;
    let out := then_print out "%s%d" [zero_below_10 tmp; AWord tmp] in
    tmp ← get_reg RTC_SECOND_REG 0xff;
    let out := then_print out "%s%d" [zero_below_10 tmp; AWord tmp] in
    mret (0, then_print out "
" []).

(** [strdup(&argv[1][off])], cut after [n] characters, through [stoli]: the status and the
    value. *)
Definition field (arg1 : list Z) (off n : nat) : option (Z * Z) :=
  let dup := drop off arg1 in
  if (length dup <=? n)%nat then None
  else '(st, v, _) ← stoli (<[n := 0]> dup) 0; Some (st, v).

(** [argv] holds strings with their terminators.  Fields behind one that is not a number are
    not looked at. *)
Definition write_rtc_func (argv : list (list Z)) : T (option Z) :=
  match argv with
  | [_; arg1] =>
    if negb (length (cstr arg1) =? 13)%nat then mret (Some EBADARG)
    else
      match field arg1 0 2, field arg1 2 2, field arg1 4 2, field arg1 6 1, field arg1 7 2, field arg1 9 2, field arg1 11 2 with
      | Some (s1, year), Some (s2, month), Some (s3, day_of_month), Some (s4, day_of_week),
        Some (s5, hour), Some (s6, minute), Some (s7, sec) =>
        if negb (forallb (fun s => s =? 0) [s1; s2; s3; s4; s5; s6; s7]) then mret (Some EBADNUM)
        else
          rtc_set_vals (BIN2BCD sec) 0 (BIN2BCD minute) 0 (BIN2BCD hour) 0 (BIN2BCD day_of_week)
            (BIN2BCD day_of_month) (BIN2BCD month) (BIN2BCD year);;
          mret (Some 0)
      | _, _, _, _, _, _, _ => mret None
      end
  | _ => mret (Some EBADNUMARGS)
  end.
End Rtc.

(** * setting the clock and reading it

    Over the chip of [CmosProofs], whose registers keep what is written: time stands still. *)

(** Register [i] of the selected bank. *)
Definition clock (s : rom chip) (i : Z) : Z := u8 (ch_mem (dev s) (ch_sel (dev s)) i).

(** After [m], the registers are [f], and the address is not that of the bank selector. *)
Definition leaves {A} (m : St (rom chip) A) (s : rom chip) (a : A) (f : Z -> Z) : Prop :=
  exists s', m s = (a, s') /\ cur_systype s' = cur_systype s /\ vars s' = vars s /\ forall i, clock s' i = f i.

Lemma leaves_bind {A B} (m : St (rom chip) A) (k : A -> St (rom chip) B) s a f b g :
  leaves m s a f -> (forall s', (forall i, clock s' i = f i) -> leaves (k a) s' b g) -> leaves (m ≫= k) s b g.
Proof.
  intros (s1 & E1 & Hs1 & Hv1 & H1) Hk. destruct (Hk s1 H1) as (s2 & E2 & Hs2 & Hv2 & H2).
  exists s2. unfold mbind, St_bind. rewrite E1, E2. split; [done|]. split; [congruence|]. split; [congruence|done].
Qed.
Lemma leaves_ret {A} (a : A) s f : (forall i, clock s i = f i) -> leaves (mret a) s a f.
Proof. intros H. by exists s. Qed.

Lemma set_reg_leaves r v s f : (forall i, clock s i = f i) -> r <> PNP_NS_RTC_CRA -> is_byte r ->
  leaves (set_reg r v) s tt (fun i => if i =? r then u8 v else f i).
Proof.
  intros Hf Hr Hb. eexists. split; [reflexivity|]. split; [done|]. split; [done|]. intros i.
  unfold clock in *. simpl. unfold chip_outb. simpl. rewrite (u8_is r) by done.
  rewrite (proj2 (Z.eqb_neq _ _) Hr). unfold ch_sel. simpl. rewrite Z.eqb_refl. simpl.
  destruct (Z.eqb_spec i r); [|apply Hf]. unfold u8. rewrite Z.mod_mod by lia.
  change 0xff with (Z.ones 8). rewrite Z.land_ones by lia. by rewrite Z.mod_mod.
Qed.
Lemma get_reg_leaves r mask s f : (forall i, clock s i = f i) -> r <> PNP_NS_RTC_CRA -> is_byte r ->
  leaves (get_reg r mask) s (BCD2BIN (Z.land (f r) mask)) f.
Proof.
  intros Hf Hr Hb. exists (set_dev (mk_chip r (ch_cra (dev s)) (ch_mem (dev s)) (ch_ports (dev s))) s).
  split; [|split; [done|split; [done|exact Hf]]].
  unfold get_reg, outb, inb, mbind, St_bind. simpl. unfold chip_outb, chip_inb. simpl. rewrite (u8_is r) by done.
  rewrite (proj2 (Z.eqb_neq _ _) Hr). rewrite <- Hf. done.
Qed.

(** Register B goes through [g]. *)
Lemma status_b_leaves (g : Z -> Z) s f : (forall i, clock s i = f i) ->
  leaves (outb RTC_STATUS_REG_B RTC_ADDR_PORT;; tmp ← inb RTC_DATA_PORT; outb (g tmp) RTC_DATA_PORT) s tt
    (fun i => if i =? RTC_STATUS_REG_B then u8 (g (f RTC_STATUS_REG_B)) else f i).
Proof.
  intros Hf. eexists. split; [reflexivity|]. split; [done|]. split; [done|]. intros i. rewrite <- !Hf.
  unfold clock. simpl. unfold chip_outb, chip_inb. simpl. unfold ch_sel. simpl. rewrite Z.eqb_refl. simpl.
  change (u8 RTC_STATUS_REG_B) with 11. change RTC_STATUS_REG_B with 11.
  destruct (i =? 11); [unfold u8; by rewrite Z.mod_mod|reflexivity].
Qed.

Definition time_regs : list Z := [RTC_SECOND_REG; RTC_MINUTE_REG; RTC_HOUR_REG; RTC_DAY_OF_WEEK_REG; RTC_DAY_OF_MONTH_REG; RTC_MONTH_REG; RTC_YEAR_REG].

(** [rtc_set_vals] leaves the low bytes of its arguments in the registers. *)
Lemma rtc_set_vals_leaves sec asec minute aminute hour ahour dow dom month year s :
  exists f, leaves (rtc_set_vals sec asec minute aminute hour ahour dow dom month year) s tt f /\
    map f time_regs = map u8 [sec; minute; hour; dow; dom; month; year].
Proof.
  eexists. split.
  - unfold rtc_set_vals, rtc_begin_set. eapply leaves_bind; [by apply (status_b_leaves (fun v => Z.lor v 0x80))|].
    clear. intros s1 H1.
    do 10 (eapply leaves_bind; [eapply set_reg_leaves; [intros i; match goal with H : forall i, clock _ i = _ |- _ => exact (H i) end|done|split; vm_compute; (done || discriminate)]|];
      clear; intros ? ?).
    by apply (status_b_leaves (fun v => Z.land v (Z.lnot 0x80))).
  - reflexivity.
Qed.

(** ** Two digits *)

Lemma two_digits_bcd v : 0 <= v < 100 -> u8 (BIN2BCD v) = 16 * (v / 10) + v mod 10 /\
  BCD2BIN (Z.land (u8 (BIN2BCD v)) 0xff) = v.
Proof.
  intros Hv. assert (H : forallb (fun v => (u8 (BIN2BCD v) =? 16 * (v / 10) + v mod 10) &&
    (BCD2BIN (Z.land (u8 (BIN2BCD v)) 0xff) =? v)) (seqZ 0 100) = true) by reflexivity.
  rewrite forallb_forall in H. specialize (H v). rewrite andb_true_iff, !Z.eqb_eq in H.
  apply H, list_elem_of_In, elem_of_seqZ. lia.
Qed.

Lemma two_digits_printed v : 0 <= v < 100 ->
  printf endless (chars "%s%d" ++ [0]) [zero_below_10 v; AWord v] = Some (2, [48 + v / 10; 48 + v mod 10]).
Proof.
  intros Hv. assert (H : forallb (fun v => bool_decide (printf endless (chars "%s%d" ++ [0]) [zero_below_10 v; AWord v] =
    Some (2, [48 + v / 10; 48 + v mod 10]))) (seqZ 0 100) = true) by reflexivity.
  rewrite forallb_forall in H. apply (bool_decide_eq_true_1 _), H, list_elem_of_In, elem_of_seqZ. lia.
Qed.
Lemma one_digit_printed v : 0 <= v < 10 -> printf endless (chars "%d" ++ [0]) [AWord v] = Some (1, [48 + v]).
Proof.
  intros Hv. assert (H : forallb (fun v => bool_decide (printf endless (chars "%d" ++ [0]) [AWord v] =
    Some (1, [48 + v]))) (seqZ 0 10) = true) by reflexivity.
  rewrite forallb_forall in H. apply (bool_decide_eq_true_1 _), H, list_elem_of_In, elem_of_seqZ. lia.
Qed.

Lemma one_digit_bcd v : 0 <= v < 10 -> BCD2BIN (Z.land (u8 (BIN2BCD v)) 0xf) = v.
Proof.
  intros Hv. assert (H : forallb (fun v => BCD2BIN (Z.land (u8 (BIN2BCD v)) 0xf) =? v) (seqZ 0 10) = true) by reflexivity.
  rewrite forallb_forall in H. apply Z.eqb_eq, H, list_elem_of_In, elem_of_seqZ. lia.
Qed.

(** A field of the argument of [write_rtc_func]. *)
Lemma field_two a b l r : is_digits [a; b] ->
  field (l ++ [48 + a; 48 + b] ++ r ++ [0]) (length l) 2 = Some (0, 10 * a + b).
Proof.
  intros Hd. unfold field. rewrite drop_app_length.
  assert (exists x r', r ++ [0] = x :: r') as (x & r' & ->) by (destruct r; eauto).
  simpl. rewrite (stoli_spec _ 0 [a; b]); [|..|done|simpl; lia].
  - simpl. inversion Hd as [|? ? Ha Hd']; subst. inversion Hd'; subst. rewrite u32_small; [|lia]. do 3 f_equal. lia.
  - split; [by apply digit_chars_nonzero|reflexivity].
Qed.
Lemma field_one a l r : is_digits [a] ->
  field (l ++ [48 + a] ++ r ++ [0]) (length l) 1 = Some (0, a).
Proof.
  intros Hd. unfold field. rewrite drop_app_length.
  assert (exists x r', r ++ [0] = x :: r') as (x & r' & ->) by (destruct r; eauto).
  simpl. rewrite (stoli_spec _ 0 [a]); [|..|done|simpl; lia].
  - simpl. inversion Hd as [|? ? Ha Hd']; subst. rewrite u32_small by lia. done.
  - split; [by apply digit_chars_nonzero|reflexivity].
Qed.

(** ** The theorem *)

(** What a field prints, behind what is out already. *)
Lemma print_two v o : 0 <= v < 100 ->
  then_print endless (Some o) "%s%d" [zero_below_10 v; AWord v] = Some (o ++ [48 + v / 10; 48 + v mod 10]).
Proof. intros Hv. unfold then_print. cbn [mbind option_bind]. by rewrite two_digits_printed. Qed.
Lemma print_one v o : 0 <= v < 10 -> then_print endless (Some o) "%d" [AWord v] = Some (o ++ [48 + v]).
Proof. intros Hv. unfold then_print. cbn [mbind option_bind]. by rewrite one_digit_printed. Qed.

(** Binary values in the registers. *)
Record shows (f : Z -> Z) (year month dom dow hour minute sec : Z) : Prop := {
  sh_year : BCD2BIN (Z.land (f RTC_YEAR_REG) 0xff) = year;
  sh_month : BCD2BIN (Z.land (f RTC_MONTH_REG) 0xff) = month;
  sh_dom : BCD2BIN (Z.land (f RTC_DAY_OF_MONTH_REG) 0xff) = dom;
  sh_dow : BCD2BIN (Z.land (f RTC_DAY_OF_WEEK_REG) 0xf) = dow;
  sh_hour : BCD2BIN (Z.land (f RTC_HOUR_REG) 0xff) = hour;
  sh_minute : BCD2BIN (Z.land (f RTC_MINUTE_REG) 0xff) = minute;
  sh_sec : BCD2BIN (Z.land (f RTC_SECOND_REG) 0xff) = sec;
}.

Definition two (v : Z) : list Z := [48 + v / 10; 48 + v mod 10].

Lemma read_rtc_prints s f year month dom dow hour minute sec :
  (forall i, clock s i = f i) -> shows f year month dom dow hour minute sec ->
  Forall (fun v => 0 <= v < 100) [year; month; dom; hour; minute; sec] -> 0 <= dow < 10 ->
  leaves (read_rtc_func endless 1) s
    (0, Some (two year ++ two month ++ two dom ++ [48 + dow] ++ two hour ++ two minute ++ two sec ++ [10; 13])) f.
Proof.
  intros Hs Hf Hr Hdow. destruct Hf as [<- <- <- <- <- <- <-].
  repeat match goal with H : Forall _ (_ :: _) |- _ => inversion_clear H as [|? ? ?Hv H'0]; rename H'0 into Hr end.
  unfold read_rtc_func. change (negb (1 =? 1)) with false. cbv iota.
  do 7 (eapply leaves_bind; [eapply get_reg_leaves; [eassumption|done|split; vm_compute; (done || discriminate)]|];
    clear s Hs; intros s Hs; cbv zeta).
  rewrite print_two by done. rewrite print_two by done. rewrite print_two by done. rewrite print_one by done.
  do 3 rewrite print_two by done. unfold two. by apply leaves_ret.
Qed.

Lemma two_of_digits a b : 0 <= a < 10 -> 0 <= b < 10 -> two (10 * a + b) = [48 + a; 48 + b].
Proof.
  intros Ha Hb. unfold two. rewrite (Z.mul_comm 10), (Z.add_comm (a * 10)).
  rewrite Z.div_add, Z_mod_plus_full, Z.div_small, Z.mod_small by lia. done.
Qed.

Lemma cstr_digits ds r : is_digits ds -> cstr (digit_chars ds ++ 0 :: r) = digit_chars ds.
Proof.
  induction 1 as [|d ds Hd _ IH]; [done|]. cbn [digit_chars map app cstr].
  rewrite (proj2 (Z.eqb_neq (48 + d) 0)) by lia. f_equal. exact IH.
Qed.

Definition blank_clock : rom chip :=
  mk_rom (mk_chip 0 0x20 (fun _ _ => 0) (fun _ => 0)) SYSTYPE_5K
    (mk_cmos_vars [] 0 0 0 0 0 0 0 0 0 0 0 0 []).

(** C35: The clock keeps what the commands set: for any 13 digits, year, month, day of the
    month, day of the week, hour, minute and second in this order, [write_rtc_func] succeeds,
    and [read_rtc_func] then puts out the same 13 digits and a new line.  The digits need not
    be a date: 13 months or 99 hours are stored as well. *)
Theorem rtc_write_read name ds s :
  is_digits ds -> length ds = 13%nat ->
  exists s1 s2, write_rtc_func [name; digit_chars ds ++ [0]] s = (Some 0, s1) /\
    read_rtc_func endless 1 s1 = ((0, Some (digit_chars ds ++ [10; 13])), s2).
Proof.
  intros Hd Hl. destruct ds as [|y1 [|y2 [|m1 [|m2 [|d1 [|d2 [|w [|h1 [|h2 [|n1 [|n2 [|s1 [|s2 [|]]]]]]]]]]]]]]; try done.
  assert (Hc := cstr_digits _ [] Hd).
  unfold is_digits in Hd. repeat match goal with H : Forall _ (_ :: _) |- _ => inversion_clear H as [|? ? ?Hx H'0]; rename H'0 into Hd end. clear Hd.
  assert (Hf : forall a b, 0 <= a < 10 -> 0 <= b < 10 -> is_digits [a; b]).
  { intros. repeat (apply Forall_cons; split; [done|]). constructor. }
  assert (Hf1 : forall a, 0 <= a < 10 -> is_digits [a]).
  { intros. apply Forall_cons; split; [done|constructor]. }
  set (str := digit_chars _ ++ [0]).
  assert (E : field str 0 2 = Some (0, 10 * y1 + y2) /\ field str 2 2 = Some (0, 10 * m1 + m2) /\
    field str 4 2 = Some (0, 10 * d1 + d2) /\ field str 6 1 = Some (0, w) /\ field str 7 2 = Some (0, 10 * h1 + h2) /\
    field str 9 2 = Some (0, 10 * n1 + n2) /\ field str 11 2 = Some (0, 10 * s1 + s2)).
  { unfold str. cbn [digit_chars map]. split_and!.
    - apply (field_two y1 y2 []); by apply Hf.
    - apply (field_two m1 m2 [_; _]); by apply Hf.
    - apply (field_two d1 d2 [_; _; _; _]); by apply Hf.
    - apply (field_one w [_; _; _; _; _; _]); by apply Hf1.
    - apply (field_two h1 h2 [_; _; _; _; _; _; _]); by apply Hf.
    - apply (field_two n1 n2 [_; _; _; _; _; _; _; _; _]); by apply Hf.
    - apply (field_two s1 s2 [_; _; _; _; _; _; _; _; _; _; _] []); by apply Hf. }
  destruct E as (E1 & E2 & E3 & E4 & E5 & E6 & E7).
  destruct (rtc_set_vals_leaves (BIN2BCD (10 * s1 + s2)) 0 (BIN2BCD (10 * n1 + n2)) 0 (BIN2BCD (10 * h1 + h2)) 0 (BIN2BCD w)
    (BIN2BCD (10 * d1 + d2)) (BIN2BCD (10 * m1 + m2)) (BIN2BCD (10 * y1 + y2)) s) as (f & (s' & Ew & _ & _ & Hs') & Hf').
  injection Hf' as Fs Fn Fh Fw Fd Fm Fy.
  destruct (read_rtc_prints s' f (10 * y1 + y2) (10 * m1 + m2) (10 * d1 + d2) w (10 * h1 + h2) (10 * n1 + n2) (10 * s1 + s2) Hs')
    as (s'' & Er & _).
  - split; [rewrite Fy|rewrite Fm|rewrite Fd|rewrite Fw|rewrite Fh|rewrite Fn|rewrite Fs];
      first [apply two_digits_bcd; lia|idtac]. by apply one_digit_bcd.
  - repeat (apply Forall_cons; split; [lia|]). constructor.
  - done.
  - exists s', s''. split.
    + unfold write_rtc_func. unfold str at 1. rewrite Hc. rewrite E1, E2, E3, E4, E5, E6, E7. simpl.
      unfold mbind, St_bind. by rewrite Ew.
    + rewrite Er, !two_of_digits by done. done.
Qed.

Lemma rtc_write_read_witness : exists s1 s2,
  write_rtc_func [[0]; digit_chars [0; 3; 0; 6; 1; 0; 2; 2; 2; 4; 2; 2; 9] ++ [0]] blank_clock = (Some 0, s1) /\
  read_rtc_func endless 1 s1 = ((0, Some (digit_chars [0; 3; 0; 6; 1; 0; 2; 2; 2; 4; 2; 2; 9] ++ [10; 13])), s2).
Proof.
  apply (rtc_write_read [0] [0; 3; 0; 6; 1; 0; 2; 2; 2; 4; 2; 2; 9] blank_clock).
  - repeat (apply Forall_cons; split; [lia|]). constructor.
  - reflexivity.
Defined.

(** The date after [rtc_set_defaults], as [rtc_get_datestr] puts it. *)
Example datestr_default :
  option_map cstr ((_ ← rtc_set_defaults; rtc_get_datestr endless (replicate 128 0)) blank_clock).1 =
  Some (chars "Mar 02 10:59:00 UTC 1976").
Proof. vm_compute. reflexivity. Qed.

(** With the month register at 0, as in a new chip, the name is taken from [months[-1]]. *)
Example datestr_month_0 : (rtc_get_datestr endless (replicate 128 0) blank_clock).1 = None.
Proof. reflexivity. Qed.
