(* ===== verification/Freemap.v ===== *)
(** * Freemap: the block and inode allocation bitmaps of CRFS

    Model of [struct freemap] and its routines ([cobalt_romfs/crfs_func.c],
    [freemap_init], [freemap_flush], [freemap_next], [freemap_mark],
    [freemap_unmark], [freemap_isset]).  An item that is freed moves from
    [fm_map] to [fm_freed], and stays unavailable until [freemap_flush]: this is
    what keeps the blocks of the last committed file system intact until the next
    superblock is on the backing store. *)

From S2P Require Import Prelude.

Definition CHAR_BIT : Z := 8.

Record freemap := Freemap {
  fm_cur : Z;              (* byte before which we KNOW there are none free *)
  fm_mapsize : Z;
  fm_map : list Z;
  fm_freed : list Z;
}.

(** [map[i]] for an index inside the array. *)
Definition byte_at (l : list Z) (i : Z) : Z := default 0 (l !! Z.to_nat i).

(** The array access [map[by]] is inside the allocated [mapsize] bytes. *)
Definition fm_inside (m : freemap) (by_ : Z) : bool :=
  (0 <=? by_) && (by_ <? fm_mapsize m).

(** The outcomes of the calls of [malloc] to come whose result the file system
    tests; those after the end of the list succeed. *)
Abbreviation outcomes := (list bool).

Definition next_alloc (a : outcomes) : bool * outcomes := (hd true a, tl a).

(** A map with no item in use. *)
Definition zero_map (mapsize : Z) : freemap :=
  Freemap 0 mapsize (zeros (Z.to_nat mapsize)) (zeros (Z.to_nat mapsize)).

(** The map that a failing call leaves: an array that was not allocated, or that
    nothing was stored in yet, is [[]]. *)
Definition freemap_init (a : outcomes) (m : freemap) (mapsize : Z) : Z * freemap * outcomes :=
  let '(got, a) := next_alloc a in
  if negb got then (-1, Freemap (fm_cur m) (fm_mapsize m) [] (fm_freed m), a) else
  let '(got, a) := next_alloc a in
  if negb got then (-1, Freemap (fm_cur m) (fm_mapsize m) [] [], a) else
  (0, zero_map mapsize, a).

Definition freemap_flush (m : freemap) : freemap :=
  Freemap 0 (fm_mapsize m) (fm_map m) (zeros (Z.to_nat (fm_mapsize m))).

(** The inner loop of [freemap_next]: the first [j < CHAR_BIT] with
    [(val & (1<<j)) == 0]. *)
Definition first_clear (val : Z) : option Z :=
  List.find (fun j => Z.land val (Z.shiftl 1 j) =? 0) (seqZ 0 CHAR_BIT).

Fixpoint freemap_next_loop (fuel : nat) (i : Z) (m : freemap) : Z * freemap :=
  match fuel with
  | O => (-1, m)
  | S fuel =>
    if i <? fm_mapsize m then
      let val := Z.lor (byte_at (fm_map m) i) (byte_at (fm_freed m) i) in
      if negb (val =? 255) then
        match first_clear val with
        | Some j =>
          (i * CHAR_BIT + j,
           Freemap i (fm_mapsize m)
             (<[Z.to_nat i := Z.lor (byte_at (fm_map m) i) (Z.shiftl 1 j)]> (fm_map m))
             (fm_freed m))
        | None => freemap_next_loop fuel (i + 1) m
        end
      else
        freemap_next_loop fuel (i + 1)
          (Freemap (fm_cur m + 1) (fm_mapsize m) (fm_map m) (fm_freed m))
    else (-1, m)
  end.

(** The loop of the code runs from [fm_cur] to [fm_mapsize]: one unit of fuel
    for each byte of the map it can visit. *)
Definition freemap_next (m : freemap) : Z * freemap :=
  freemap_next_loop (Z.to_nat (fm_mapsize m - fm_cur m)) (fm_cur m) m.

(** [None]: the store is outside the map (undefined behaviour in C). *)
Definition freemap_mark (m : freemap) (bit : Z) : option freemap :=
  let by_ := Z.quot bit CHAR_BIT in
  if fm_inside m by_ then
    Some (Freemap (fm_cur m) (fm_mapsize m)
            (<[Z.to_nat by_ :=
                 Z.lor (byte_at (fm_map m) by_) (Z.shiftl 1 (Z.rem bit CHAR_BIT))]>
               (fm_map m))
            (fm_freed m))
  else None.

Definition freemap_unmark (m : freemap) (bit : Z) : option freemap :=
  let by_ := Z.quot bit CHAR_BIT in
  let bi := Z.shiftl 1 (Z.rem bit CHAR_BIT) in
  if fm_inside m by_ then
    Some (Freemap (fm_cur m) (fm_mapsize m)
            (<[Z.to_nat by_ := Z.land (byte_at (fm_map m) by_) (Z.lnot bi)]> (fm_map m))
            (<[Z.to_nat by_ :=
                 Z.lor (byte_at (fm_freed m) by_) (Z.land (byte_at (fm_map m) by_) bi)]>
               (fm_freed m)))
  else None.

(** [freemap_isset(map, b)]. *)
Definition freemap_isset (m : freemap) (b : Z) : bool :=
  negb (Z.land (byte_at (fm_map m) (Z.shiftr b 3))
          (Z.shiftl 1 (Z.land b 7)) =? 0).

(** ** The abstract bitmap

    [fm_used m n]: item [n] is allocated.  [fm_pending m n]: item [n] was freed
    since the last flush.  [fm_taken]: it cannot be handed out. *)

Definition bit_of (l : list Z) (n : Z) : bool := Z.testbit (byte_at l (n / 8)) (n mod 8).
Definition fm_used (m : freemap) (n : Z) : bool := bit_of (fm_map m) n.
Definition fm_pending (m : freemap) (n : Z) : bool := bit_of (fm_freed m) n.
Definition fm_taken (m : freemap) (n : Z) : bool := fm_used m n || fm_pending m n.
Definition fm_items (m : freemap) : Z := 8 * fm_mapsize m.

Record fm_wf (m : freemap) : Prop := {
  wf_map_len : length (fm_map m) = Z.to_nat (fm_mapsize m);
  wf_freed_len : length (fm_freed m) = Z.to_nat (fm_mapsize m);
  wf_size : 0 <= fm_mapsize m;
  wf_map_ok : bytes_ok (fm_map m);
  wf_freed_ok : bytes_ok (fm_freed m);
  wf_cur : 0 <= fm_cur m <= fm_mapsize m;
  (* "byte before which we KNOW there are none free" *)
  wf_full : forall n, 0 <= n < 8 * fm_cur m -> fm_taken m n = true;
}.

(** ** Bytes and bits *)

Lemma byte_at_range l i : bytes_ok l -> 0 <= byte_at l i < 256.
Proof.
  intros Hl. unfold byte_at. destruct (l !! Z.to_nat i) eqn:E; simpl; [|lia].
  exact (Forall_lookup_1 _ _ _ _ Hl E).
Qed.

Lemma byte_at_insert l i j v :
  0 <= i < Z.of_nat (length l) -> 0 <= j ->
  byte_at (<[Z.to_nat i := v]> l) j = if i =? j then v else byte_at l j.
Proof.
  intros Hi Hj. unfold byte_at. destruct (Z.eqb_spec i j) as [->|Hne].
  - rewrite list_lookup_insert_eq by lia. done.
  - by rewrite list_lookup_insert_ne by lia.
Qed.

Lemma bytes_ok_insert l i v : bytes_ok l -> 0 <= v < 256 -> bytes_ok (<[i := v]> l).
Proof. intros. by apply Forall_insert. Qed.

Lemma byte_at_zeros n i : byte_at (zeros n) i = 0.
Proof.
  unfold byte_at, zeros. destruct (replicate n 0 !! Z.to_nat i) eqn:E; [|done].
  by apply lookup_replicate in E as [-> _].
Qed.

Lemma testbit_lor_pow2 a j k :
  0 <= j -> Z.testbit (Z.lor a (Z.shiftl 1 j)) k = Z.testbit a k || (j =? k).
Proof.
  intros. rewrite Z.lor_spec. f_equal.
  rewrite Z.shiftl_1_l. by rewrite Z.pow2_bits_eqb.
Qed.

Lemma land_pow2_eqb a j :
  0 <= j -> (Z.land a (Z.shiftl 1 j) =? 0) = negb (Z.testbit a j).
Proof.
  intros Hj. apply eq_true_iff_eq. rewrite Z.eqb_eq, negb_true_iff. split.
  - intros H. apply (f_equal (fun x => Z.testbit x j)) in H.
    rewrite Z.land_spec, Z.shiftl_1_l, Z.pow2_bits_true, Z.bits_0 in H by lia.
    by rewrite andb_true_r in H.
  - intros H. apply Z.bits_inj'. intros k Hk.
    rewrite Z.land_spec, Z.shiftl_1_l, Z.pow2_bits_eqb, Z.bits_0 by lia.
    destruct (Z.eqb_spec j k) as [->|]; [by rewrite H | apply andb_false_r].
Qed.

Lemma testbit_byte_high v k : 0 <= v < 256 -> 8 <= k -> Z.testbit v k = false.
Proof.
  intros Hv Hk. destruct (decide (v = 0)) as [->|]; [apply Z.bits_0|].
  apply Z.bits_above_log2; [lia|]. apply Z.log2_lt_pow2; [lia|].
  apply Z.lt_le_trans with (2 ^ 8); [lia | by apply Z.pow_le_mono_r].
Qed.

Lemma byte_bits_lt v : 0 <= v -> (forall k, 8 <= k -> Z.testbit v k = false) -> v < 256.
Proof.
  intros Hv H. destruct (decide (v = 0)) as [->|]; [lia|].
  apply Z.log2_lt_cancel with (b := 256).
  destruct (decide (Z.log2 v < 8)) as [|Hge]; [done|].
  specialize (H (Z.log2 v) ltac:(lia)). rewrite Z.bit_log2 in H by lia. done.
Qed.

Lemma lor_byte a b : 0 <= a < 256 -> 0 <= b < 256 -> 0 <= Z.lor a b < 256.
Proof.
  intros Ha Hb. assert (0 <= Z.lor a b) by (apply Z.lor_nonneg; lia).
  split; [done|]. apply byte_bits_lt; [done|]. intros k Hk.
  by rewrite Z.lor_spec, !testbit_byte_high.
Qed.

Lemma land_byte a b : 0 <= a < 256 -> 0 <= Z.land a b < 256.
Proof.
  intros Ha. assert (0 <= Z.land a b) by (apply Z.land_nonneg; lia).
  split; [done|]. apply byte_bits_lt; [done|]. intros k Hk.
  by rewrite Z.land_spec, (testbit_byte_high a).
Qed.

Lemma pow2_byte j : 0 <= j < 8 -> 0 <= Z.shiftl 1 j < 256.
Proof.
  intros. rewrite Z.shiftl_1_l. split; [lia|].
  apply Z.lt_le_trans with (2 ^ 8); [apply Z.pow_lt_mono_r; lia | done].
Qed.

(** A byte is [0xff] exactly when its eight bits are set; otherwise the inner
    loop of [freemap_next] finds the lowest clear one. *)
Lemma byte_full v : 0 <= v < 256 -> (forall j, 0 <= j < 8 -> Z.testbit v j = true) <-> v = 255.
Proof.
  intros Hv. split; [intros Hall | intros -> j Hj].
  - apply Z.bits_inj'. intros k Hk. change 255 with (Z.ones 8).
    destruct (decide (k < 8)).
    + rewrite Z.ones_spec_low by lia. apply Hall. lia.
    + rewrite Z.ones_spec_high by lia. apply testbit_byte_high; lia.
  - change 255 with (Z.ones 8). by apply Z.ones_spec_low.
Qed.

Lemma first_clear_spec v :
  0 <= v < 256 -> v <> 255 ->
  exists j, first_clear v = Some j /\ 0 <= j < 8 /\ Z.testbit v j = false /\
    forall k, 0 <= k < j -> Z.testbit v k = true.
Proof.
  intros Hv Hne. unfold first_clear. destruct (List.find _ _) as [j|] eqn:E.
  - apply find_seqZ_Some in E as (Hj & Hf & Hk). rewrite land_pow2_eqb in Hf by lia.
    assert (0 <= j < 8) by (unfold CHAR_BIT in Hj; lia).
    exists j. split; [done|]. split; [done|]. split.
    + by apply negb_true_iff.
    + intros k Hk'. specialize (Hk k Hk'). rewrite land_pow2_eqb in Hk by lia.
      by apply negb_false_iff.
  - destruct Hne. apply byte_full; [done|]. intros j Hj.
    pose proof (find_seqZ_None _ _ _ E j Hj) as H. cbv beta in H.
    rewrite land_pow2_eqb in H by lia. by apply negb_false_iff.
Qed.

(** ** Reads after the three bit updates *)

Lemma bit_of_split l i j : 0 <= j < 8 -> bit_of l (i * 8 + j) = Z.testbit (byte_at l i) j.
Proof.
  intros. unfold bit_of. rewrite Z.add_comm, Z.div_add, Z.mod_add by lia.
  by rewrite Z.div_small, Z.mod_small by lia.
Qed.

Lemma bit_index n : n = n / 8 * 8 + n mod 8 /\ 0 <= n mod 8 < 8.
Proof. split; [dlia | by apply Z.mod_pos_bound]. Qed.

Lemma bit_of_zeros k n : bit_of (zeros k) n = false.
Proof. unfold bit_of. by rewrite byte_at_zeros, Z.bits_0. Qed.

(** Replacing byte [i] by [v] changes exactly the bits of byte [i]. *)
Lemma bit_of_insert l i v n :
  0 <= i < Z.of_nat (length l) -> 0 <= n ->
  bit_of (<[Z.to_nat i := v]> l) n =
    if i =? n / 8 then Z.testbit v (n mod 8) else bit_of l n.
Proof.
  intros. unfold bit_of. rewrite byte_at_insert by (try apply Z.div_pos; lia).
  by destruct (i =? n / 8).
Qed.

Lemma bit_of_set l i j n :
  0 <= i < Z.of_nat (length l) -> 0 <= j < 8 -> 0 <= n ->
  bit_of (<[Z.to_nat i := Z.lor (byte_at l i) (Z.shiftl 1 j)]> l) n =
    (n =? i * 8 + j) || bit_of l n.
Proof.
  intros Hi Hj Hn. rewrite bit_of_insert by done.
  destruct (bit_index n) as [Hnd Hnm]. destruct (Z.eqb_spec i (n / 8)) as [->|Hne].
  - rewrite testbit_lor_pow2 by lia. unfold bit_of. rewrite orb_comm. f_equal.
    destruct (Z.eqb_spec j (n mod 8)), (Z.eqb_spec n (n / 8 * 8 + j)); lia.
  - destruct (Z.eqb_spec n (i * 8 + j)) as [->|]; [|done].
    rewrite Z.add_comm, Z.div_add, Z.div_small in Hne by lia. lia.
Qed.

Lemma bit_of_clear l i j n :
  0 <= i < Z.of_nat (length l) -> 0 <= j < 8 -> 0 <= n ->
  bit_of (<[Z.to_nat i := Z.land (byte_at l i) (Z.lnot (Z.shiftl 1 j))]> l) n =
    negb (n =? i * 8 + j) && bit_of l n.
Proof.
  intros Hi Hj Hn. rewrite bit_of_insert by done.
  destruct (bit_index n) as [Hnd Hnm]. destruct (Z.eqb_spec i (n / 8)) as [->|Hne].
  - rewrite Z.land_spec, Z.lnot_spec, Z.shiftl_1_l, Z.pow2_bits_eqb by lia.
    unfold bit_of. rewrite andb_comm. f_equal. f_equal.
    destruct (Z.eqb_spec j (n mod 8)), (Z.eqb_spec n (n / 8 * 8 + j)); lia.
  - destruct (Z.eqb_spec n (i * 8 + j)) as [->|]; [|done].
    rewrite Z.add_comm, Z.div_add, Z.div_small in Hne by lia. lia.
Qed.

(** Moving a bit of [src] into [dst]. *)
Lemma bit_of_move dst src i j n :
  0 <= i < Z.of_nat (length dst) -> 0 <= j < 8 -> 0 <= n ->
  bit_of (<[Z.to_nat i := Z.lor (byte_at dst i) (Z.land (byte_at src i) (Z.shiftl 1 j))]> dst) n =
    ((n =? i * 8 + j) && bit_of src n) || bit_of dst n.
Proof.
  intros Hi Hj Hn. rewrite bit_of_insert by done.
  destruct (bit_index n) as [Hnd Hnm]. destruct (Z.eqb_spec i (n / 8)) as [->|Hne].
  - rewrite Z.lor_spec, Z.land_spec, Z.shiftl_1_l, Z.pow2_bits_eqb by lia.
    unfold bit_of. rewrite orb_comm. f_equal. rewrite andb_comm. f_equal.
    destruct (Z.eqb_spec j (n mod 8)), (Z.eqb_spec n (n / 8 * 8 + j)); lia.
  - destruct (Z.eqb_spec n (i * 8 + j)) as [->|]; [|done].
    rewrite Z.add_comm, Z.div_add, Z.div_small in Hne by lia. lia.
Qed.

(** ** Specifications *)

Lemma bit_of_lor_taken m i j :
  0 <= j < 8 ->
  fm_taken m (i * 8 + j) =
    Z.testbit (Z.lor (byte_at (fm_map m) i) (byte_at (fm_freed m) i)) j.
Proof. intros. unfold fm_taken, fm_used, fm_pending. by rewrite !bit_of_split, Z.lor_spec. Qed.

(** All items below byte [i + 1] are taken once byte [i] is [0xff]. *)
Lemma taken_full_byte m i :
  fm_wf m -> 0 <= i ->
  (forall n, 0 <= n < 8 * i -> fm_taken m n = true) ->
  Z.lor (byte_at (fm_map m) i) (byte_at (fm_freed m) i) = 255 ->
  forall n, 0 <= n < 8 * (i + 1) -> fm_taken m n = true.
Proof.
  intros Hwf Hi Hlow Hfull n Hn. destruct (decide (n < 8 * i)); [apply Hlow; lia|].
  replace n with (i * 8 + (n - i * 8)) by lia.
  rewrite bit_of_lor_taken, Hfull by lia. apply (byte_full 255); lia.
Qed.

Lemma wf_init n : 0 <= n -> fm_wf (zero_map n).
Proof.
  intros. unfold zero_map.
  split; simpl; rewrite ?length_zeros; auto using bytes_ok_zeros; lia.
Qed.

Lemma wf_flush m : fm_wf m -> fm_wf (freemap_flush m).
Proof.
  intros []. unfold freemap_flush.
  split; simpl; rewrite ?length_zeros; auto using bytes_ok_zeros; lia.
Qed.

Lemma flush_taken m n : fm_taken (freemap_flush m) n = fm_used m n.
Proof.
  unfold fm_taken, fm_used, fm_pending, freemap_flush; simpl.
  by rewrite bit_of_zeros, orb_false_r.
Qed.

Lemma init_used k n : fm_used (zero_map k) n = false.
Proof. apply bit_of_zeros. Qed.

(** What an allocation does: [r] is the lowest available item, it becomes used,
    and nothing else changes. *)
Record fm_allocated (m : freemap) (r : Z) (m' : freemap) : Prop := {
  alloc_range : 0 <= r < fm_items m;
  alloc_free : fm_taken m r = false;
  alloc_lowest : forall k, 0 <= k < r -> fm_taken m k = true;
  alloc_used : forall n, 0 <= n -> fm_used m' n = (n =? r) || fm_used m n;
  alloc_pending : forall n, fm_pending m' n = fm_pending m n;
  alloc_size : fm_mapsize m' = fm_mapsize m;
}.

(** What a full map looks like. *)
Record fm_exhausted (m : freemap) (r : Z) (m' : freemap) : Prop := {
  full_result : r = -1;
  full_all : forall n, 0 <= n < fm_items m -> fm_taken m n = true;
  full_used : forall n, fm_used m' n = fm_used m n;
  full_pending : forall n, fm_pending m' n = fm_pending m n;
  full_size : fm_mapsize m' = fm_mapsize m;
}.

Lemma freemap_next_loop_spec fuel m :
  fm_wf m -> fuel = Z.to_nat (fm_mapsize m - fm_cur m) ->
  let '(r, m') := freemap_next_loop fuel (fm_cur m) m in
  fm_wf m' /\ (fm_allocated m r m' \/ fm_exhausted m r m').
Proof.
  revert m. induction fuel as [|fuel IH]; intros m Hwf Hfuel; simpl.
  { split; [done|]. right. split; [done| |done..].
    intros n Hn. apply Hwf. pose proof (wf_cur m Hwf). unfold fm_items in Hn. lia. }
  pose proof Hwf as [Hml Hfl Hsz Hmo Hfo Hcur Hfull].
  destruct (Z.ltb_spec (fm_cur m) (fm_mapsize m)); [|lia].
  pose proof (lor_byte _ _ (byte_at_range _ (fm_cur m) Hmo)
                (byte_at_range _ (fm_cur m) Hfo)) as Hval.
  destruct (Z.eqb_spec (Z.lor (byte_at (fm_map m) (fm_cur m))
                          (byte_at (fm_freed m) (fm_cur m))) 255) as [He|Hne]; simpl.
  - (* a full byte: the search continues *)
    set (m1 := Freemap _ _ _ _).
    assert (fm_wf m1) as Hwf1.
    { split; simpl; try done; [lia|]. intros n Hn. simpl in Hn.
      apply (taken_full_byte m (fm_cur m)); done || lia. }
    specialize (IH m1 Hwf1 ltac:(simpl; lia)). simpl in IH.
    destruct (freemap_next_loop fuel (fm_cur m + 1) m1) as [r m'].
    destruct IH as [Hwf' IH]. split; [done|].
    destruct IH as [[]|[]]; [left|right]; split; done.
  - destruct (first_clear_spec _ Hval Hne) as (j & -> & Hj & Hclr & Hlow).
    unfold CHAR_BIT.
    assert (fm_taken m (fm_cur m * 8 + j) = false) as Hfree by (by rewrite bit_of_lor_taken).
    assert (forall k, 0 <= k < fm_cur m * 8 + j -> fm_taken m k = true) as Hlowest.
    { intros k Hk. destruct (decide (k < 8 * fm_cur m)); [apply Hfull; lia|].
      replace k with (fm_cur m * 8 + (k - fm_cur m * 8)) by lia.
      rewrite bit_of_lor_taken by lia. apply Hlow. lia. }
    set (m' := Freemap _ _ _ _).
    assert (forall n, 0 <= n -> fm_used m' n = (n =? fm_cur m * 8 + j) || fm_used m n) as Hused.
    { intros n Hn. unfold fm_used, m'; simpl. apply bit_of_set; lia. }
    split.
    + split; simpl; rewrite ?length_insert; try done.
      * apply bytes_ok_insert; [done|]. apply lor_byte; [by apply byte_at_range | by apply pow2_byte].
      * intros n Hn. unfold fm_taken. rewrite Hused by lia.
        specialize (Hfull n Hn). unfold fm_taken in Hfull. unfold fm_pending, m' in *; simpl.
        destruct (n =? _); [done|]. exact Hfull.
    + left. split; try done. unfold fm_items. lia.
Qed.

Lemma freemap_next_spec m :
  fm_wf m ->
  let '(r, m') := freemap_next m in
  fm_wf m' /\ (fm_allocated m r m' \/ fm_exhausted m r m').
Proof. intros. by apply freemap_next_loop_spec. Qed.

(** The fuel of [freemap_next] covers every byte the code's loop can visit. *)
Lemma freemap_next_loop_fuel fuel i m :
  (Z.to_nat (fm_mapsize m - i) <= fuel)%nat ->
  freemap_next_loop fuel i m = freemap_next_loop (Z.to_nat (fm_mapsize m - i)) i m.
Proof.
  revert i m. induction fuel as [|fuel IH]; intros i m Hf.
  { by replace (Z.to_nat (fm_mapsize m - i)) with O by lia. }
  destruct (Z.ltb_spec i (fm_mapsize m)) as [Hlt|Hge].
  - replace (Z.to_nat (fm_mapsize m - i)) with (S (Z.to_nat (fm_mapsize m - (i + 1)))) by lia.
    simpl. destruct (_ <? _); [|done].
    destruct (negb _); [destruct (first_clear _); [done|]|]; by rewrite IH by (simpl; lia).
  - replace (Z.to_nat (fm_mapsize m - i)) with O by lia. simpl.
    destruct (Z.ltb_spec i (fm_mapsize m)); [lia|done].
Qed.

Lemma mark_index n :
  0 <= n -> Z.quot n CHAR_BIT = n / 8 /\ Z.rem n CHAR_BIT = n mod 8 /\ n = n / 8 * 8 + n mod 8
    /\ 0 <= n mod 8 < 8 /\ 0 <= n / 8.
Proof.
  intros. unfold CHAR_BIT. rewrite Z.quot_div_nonneg, Z.rem_mod_nonneg by lia.
  pose proof (bit_index n). split_and!; try lia; try apply H; dlia.
Qed.

Lemma freemap_mark_spec m n :
  fm_wf m -> 0 <= n < fm_items m ->
  exists m', freemap_mark m n = Some m' /\ fm_wf m' /\
    (forall k, 0 <= k -> fm_used m' k = (k =? n) || fm_used m k) /\
    (forall k, fm_pending m' k = fm_pending m k) /\
    fm_mapsize m' = fm_mapsize m.
Proof.
  intros Hwf Hn. pose proof Hwf as [Hml Hfl Hsz Hmo Hfo Hcur Hfull].
  destruct (mark_index n) as (Hq & Hr & Hn' & Hm & Hd); [lia|]. unfold fm_items in Hn.
  assert (n / 8 < fm_mapsize m) by dlia.
  unfold freemap_mark, fm_inside. rewrite Hq, Hr.
  destruct (Z.leb_spec 0 (n / 8)), (Z.ltb_spec (n / 8) (fm_mapsize m)); try lia. simpl.
  set (m' := Freemap _ _ _ _).
  assert (forall k, 0 <= k -> fm_used m' k = (k =? n) || fm_used m k) as Hused.
  { intros k Hk. rewrite Hn' at 1. apply bit_of_set; lia. }
  exists m'. split; [done|]. split; [|done].
  split; simpl; rewrite ?length_insert; try done.
  - apply bytes_ok_insert; [done|]. apply lor_byte; [by apply byte_at_range | by apply pow2_byte].
  - intros k Hk. specialize (Hfull k Hk). unfold fm_taken in *. rewrite Hused by lia.
    destruct (k =? n); done.
Qed.

Lemma freemap_unmark_spec m n :
  fm_wf m -> 0 <= n < fm_items m ->
  exists m', freemap_unmark m n = Some m' /\ fm_wf m' /\
    (forall k, 0 <= k -> fm_used m' k = negb (k =? n) && fm_used m k) /\
    (forall k, 0 <= k -> fm_pending m' k = ((k =? n) && fm_used m k) || fm_pending m k) /\
    fm_mapsize m' = fm_mapsize m.
Proof.
  intros Hwf Hn. pose proof Hwf as [Hml Hfl Hsz Hmo Hfo Hcur Hfull].
  destruct (mark_index n) as (Hq & Hr & Hn' & Hm & Hd); [lia|]. unfold fm_items in Hn.
  assert (n / 8 < fm_mapsize m) by dlia.
  unfold freemap_unmark, fm_inside. rewrite Hq, Hr.
  destruct (Z.leb_spec 0 (n / 8)), (Z.ltb_spec (n / 8) (fm_mapsize m)); try lia. simpl.
  set (m' := Freemap _ _ _ _).
  assert (forall k, 0 <= k -> fm_used m' k = negb (k =? n) && fm_used m k) as Hused.
  { intros k Hk. rewrite Hn' at 1. apply bit_of_clear; lia. }
  assert (forall k, 0 <= k -> fm_pending m' k = ((k =? n) && fm_used m k) || fm_pending m k) as Hpend.
  { intros k Hk. rewrite Hn' at 1. apply bit_of_move; lia. }
  exists m'. split; [done|]. split; [|done].
  split; simpl; rewrite ?length_insert; try done.
  - apply bytes_ok_insert; [done|]. by apply land_byte, byte_at_range.
  - apply bytes_ok_insert; [done|]. apply lor_byte; [by apply byte_at_range|].
    by apply land_byte, byte_at_range.
  - intros k Hk. specialize (Hfull k Hk). unfold fm_taken in *.
    rewrite Hused, Hpend by lia. destruct (k =? n), (fm_used m k), (fm_pending m k); done.
Qed.

Lemma freemap_isset_spec m n : 0 <= n -> freemap_isset m n = fm_used m n.
Proof.
  intros Hn. unfold freemap_isset, fm_used, bit_of.
  change 7 with (Z.ones 3). rewrite Z.land_ones, Z.shiftr_div_pow2 by lia.
  change (2 ^ 3) with 8.
  rewrite land_pow2_eqb by (by apply Z.mod_pos_bound). apply negb_involutive.
Qed.
