(* ===== verification/Layout.v ===== *)
(** * Layout: the on-disk structures of CRFS

    Model of [cobalt_romfs/crfs.h]: blocks are 4096 bytes, and the structures are
    unions over those bytes, read and written at the offsets the C compiler gives
    them (little endian).  [crfs_checksum] is from [cobalt_romfs/crfs_func.c]. *)

From S2P Require Import Prelude.

(** 4k blocks *)
Definition CRFS_BLOCK_SIZE : Z := 4096.
Definition BLOCK : nat := 4096.

(** A block of the file system. *)
Abbreviation block := (list Z).
Definition block_ok (b : block) : Prop := length b = BLOCK /\ bytes_ok b.

Definition CRFS_FMASK_FILE : Z := 1.
Definition CRFS_FMASK_EXE : Z := 2.
Definition CRFS_FMASK_DIR : Z := 4.
Definition CRFS_FMASK_GZ : Z := 8.

(** ** The super block: [struct _crfs_super_block] *)

Definition CRFS_NSBLOCKS : Z := 2.
Definition CRFS_SB_VTABLE_LEN : nat := 16.

Definition sb_magic (sb : block) : list Z := cstr sb.     (* read by strcmp *)
Definition sb_fsver (sb : block) : Z := get32 4 sb.
Definition sb_checksum (sb : block) : Z := get32 8 sb.
Definition sb_blockver (sb : block) : Z := get32 12 sb.
Definition sb_fssize (sb : block) : Z := get32 16 sb.
Definition sb_root (sb : block) : Z := get16 20 sb.
Definition sb_vtable (sb : block) (i : Z) : Z := get16 (22 + 2 * Z.to_nat i) sb.

Definition set_sb_magic (m : list Z) (sb : block) : block := put 0 m sb.
Definition set_sb_fsver (v : Z) (sb : block) : block := put32 4 v sb.
Definition set_sb_checksum (v : Z) (sb : block) : block := put32 8 v sb.
Definition set_sb_blockver (v : Z) (sb : block) : block := put32 12 v sb.
Definition set_sb_fssize (v : Z) (sb : block) : block := put32 16 v sb.
Definition set_sb_root (v : Z) (sb : block) : block := put16 20 v sb.
Definition set_sb_vtable (i v : Z) (sb : block) : block := put16 (22 + 2 * Z.to_nat i) v sb.

(** "CRfs" *)
Definition CRFS_MAGIC : list Z := [67; 82; 102; 115].

(** ** Inodes: [struct _crfs_inode], 16 bytes *)

Record crfs_inode := Inode {
  in_inode : Z;   (* inode number *)
  in_first : Z;   (* first block of this inode *)
  in_last : Z;    (* last block of this inode *)
  in_fsize : Z;   (* size of file *)
  in_fmask : Z;   (* file features *)
}.

#[export] Instance inode_eq_dec : EqDecision crfs_inode.
Proof. solve_decision. Defined.

Definition decode_inode (b : list Z) : crfs_inode :=
  Inode (get16 0 b) (get16 2 b) (get16 4 b) (get32 8 b) (get32 12 b).

Definition encode_inode (i : crfs_inode) : list Z :=
  le_bytes 2 (in_inode i) ++ le_bytes 2 (in_first i) ++ le_bytes 2 (in_last i) ++
  zeros 2 ++ le_bytes 4 (in_fsize i) ++ le_bytes 4 (in_fmask i).

(** The fields hold what their C types can hold. *)
Record inode_ok (i : crfs_inode) : Prop := {
  ok_inode : 0 <= in_inode i < 65536;
  ok_first : 0 <= in_first i < 65536;
  ok_last : 0 <= in_last i < 65536;
  ok_fsize : 0 <= in_fsize i < 4294967296;
  ok_fmask : 0 <= in_fmask i < 4294967296;
}.

(** ** Inode tables: 256 inodes to a block *)

Definition CRFS_ITABLE_NINODES : Z := 256.
Definition it_get (it : block) (idx : Z) : crfs_inode :=
  decode_inode (sub (16 * Z.to_nat idx) 16 it).
Definition it_set (idx : Z) (i : crfs_inode) (it : block) : block :=
  put (16 * Z.to_nat idx) (encode_inode i) it.

(** ** File blocks: [struct _crfs_fblock], a 16 byte header and data *)

Definition FB_HEADER : nat := 16.
Definition CRFS_FBLOCK_DATA : Z := 4080.
Definition fb_prev (f : block) : Z := get16 0 f.
Definition fb_next (f : block) : Z := get16 2 f.
Definition fb_offset (f : block) : Z := get16 4 f.
Definition fb_data (f : block) : list Z := drop FB_HEADER f.
Definition set_fb_prev (v : Z) (f : block) : block := put16 0 v f.
Definition set_fb_next (v : Z) (f : block) : block := put16 2 v f.
Definition set_fb_offset (v : Z) (f : block) : block := put16 4 v f.
(** [memcpy(f->fb_data + off, bs, length bs)] *)
Definition put_fb_data (off : Z) (bs : list Z) (f : block) : block :=
  put (FB_HEADER + Z.to_nat off) bs f.

(** ** Directories: 64 entries of 64 bytes, [struct _crfs_dirent] *)

Definition CRFS_FILENAME_MAX : Z := 59.
Definition CRFS_DIR_NENTS : Z := 64.

Record crfs_dirent := Dirent { de_inode : Z; de_name : list Z }.

Definition d_inode (d : block) (i : Z) : Z := get16 (64 * Z.to_nat i) d.
(** The name as [strcmp] reads it. *)
Definition d_name (d : block) (i : Z) : list Z := cstr (drop (64 * Z.to_nat i + 2) d).
Definition d_entry (d : block) (i : Z) : crfs_dirent :=
  Dirent (d_inode d i) (sub (64 * Z.to_nat i + 2) 60 d).

Definition set_d_inode (i v : Z) (d : block) : block := put16 (64 * Z.to_nat i) v d.
(** [strcpy(d->d_entries[i].de_name, s)] *)
Definition strcpy_d_name (i : Z) (s : list Z) (d : block) : block :=
  put (64 * Z.to_nat i + 2) (s ++ [0]) d.
(** [strncpy(d->d_entries[i].de_name, s, CRFS_FILENAME_MAX)], which pads with zero
    bytes, followed by [de_name[CRFS_FILENAME_MAX] = 0]. *)
Definition strncpy_d_name (i : Z) (s : list Z) (d : block) : block :=
  let s := take 59 s in
  put (64 * Z.to_nat i + 2) (s ++ zeros (60 - length s)) d.

(** ** The super block checksum *)

Definition crfs_checksum (sblock : block) : Z :=
  let sum :=
    foldl (fun sum i => if (i =? 2)%nat then sum else u32 (sum + get32 (4 * i) sblock))
      0 (seq 0 (BLOCK / 4)) in
  u32 (Z.lnot (u32 (sum - 1))).

(** ** Lemmas *)

Lemma length_encode_inode i : length (encode_inode i) = 16%nat.
Proof. done. Qed.
#[export] Hint Rewrite length_encode_inode : rom_len.

Lemma decode_encode_inode i : inode_ok i -> decode_inode (encode_inode i) = i.
Proof.
  destruct i as [a b c d e]. intros []; simpl in *.
  unfold decode_inode, encode_inode, get16, get32, sub; simpl.
  f_equal; dlia.
Qed.

Lemma decode_inode_ok b : bytes_ok b -> inode_ok (decode_inode b).
Proof. intros. split; simpl; auto using get16_range, get32_range. Qed.

Lemma bytes_ok_encode_inode i : bytes_ok (encode_inode i).
Proof. unfold encode_inode. rewrite !bytes_ok_app. auto 10 using bytes_ok_le_bytes, bytes_ok_zeros. Qed.

Lemma block_len b : block_ok b -> length b = 4096%nat.
Proof. by intros [-> _]. Qed.

(** [blk]: side conditions on offsets inside a block. *)
Ltac blk :=
  repeat match goal with H : block_ok ?b |- _ =>
    lazymatch goal with
    | _ : length b = 4096%nat |- _ => fail
    | _ => pose proof (block_len b H)
    end end;
  unfold BLOCK, CRFS_ITABLE_NINODES, CRFS_DIR_NENTS, FB_HEADER in *;
  rewrite ?length_encode_inode, ?length_le_bytes, ?length_zeros;
  try done; try lia.

Lemma block_ok_put off bs b :
  block_ok b -> bytes_ok bs -> (off + length bs <= 4096)%nat -> block_ok (put off bs b).
Proof.
  intros Hb Hbs Hl. split; [|apply bytes_ok_put; [done|apply Hb]].
  rewrite length_put; blk.
Qed.

Lemma block_ok_put16 off v b : block_ok b -> (off + 2 <= 4096)%nat -> block_ok (put16 off v b).
Proof. intros. apply block_ok_put; [done|apply bytes_ok_le_bytes|blk]. Qed.
Lemma block_ok_put32 off v b : block_ok b -> (off + 4 <= 4096)%nat -> block_ok (put32 off v b).
Proof. intros. apply block_ok_put; [done|apply bytes_ok_le_bytes|blk]. Qed.
Lemma block_ok_zeros : block_ok (zeros BLOCK).
Proof. split; [apply length_zeros | apply bytes_ok_zeros]. Qed.
#[export] Hint Resolve block_ok_put16 block_ok_put32 block_ok_zeros : rom.

Lemma get16_block off b : block_ok b -> 0 <= get16 off b < 65536.
Proof. intros [_ ?]. by apply get16_range. Qed.
Lemma get32_block off b : block_ok b -> 0 <= get32 off b < 4294967296.
Proof. intros [_ ?]. by apply get32_range. Qed.
#[export] Hint Resolve get16_block get32_block : rom.

Lemma it_get_ok it idx : block_ok it -> inode_ok (it_get it idx).
Proof. intros [_ ?]. by apply decode_inode_ok, bytes_ok_sub. Qed.
#[export] Hint Resolve it_get_ok : rom.

Lemma it_get_set idx i it :
  block_ok it -> inode_ok i -> 0 <= idx < CRFS_ITABLE_NINODES ->
  it_get (it_set idx i it) idx = i.
Proof.
  intros Hb Hi Hidx. unfold it_get, it_set.
  rewrite sub_put_same' by blk. by apply decode_encode_inode.
Qed.

Lemma it_get_set_ne idx idx' i it :
  block_ok it -> 0 <= idx < CRFS_ITABLE_NINODES -> 0 <= idx' -> idx <> idx' ->
  it_get (it_set idx i it) idx' = it_get it idx'.
Proof. intros Hb Hidx Hidx' Hne. unfold it_get, it_set. rewrite sub_put_ne; blk. Qed.

Lemma block_ok_it_set idx i it :
  block_ok it -> 0 <= idx < CRFS_ITABLE_NINODES -> block_ok (it_set idx i it).
Proof. intros. apply block_ok_put; [done|apply bytes_ok_encode_inode|blk]. Qed.
#[export] Hint Resolve block_ok_it_set : rom.

(** The checksum does not depend on the checksum field, which is what makes
    storing it meaningful. *)
Lemma checksum_set_checksum v sb :
  block_ok sb -> crfs_checksum (set_sb_checksum v sb) = crfs_checksum sb.
Proof.
  intros Hb. unfold crfs_checksum. do 4 f_equal. generalize 0.
  induction (seq 0 (BLOCK / 4)) as [|i l IH]; intros a; [done|].
  cbn [foldl]. rewrite IH. f_equal. destruct (Nat.eqb_spec i 2); [done|].
  do 2 f_equal. unfold set_sb_checksum, put32. apply get32_put_ne; blk.
Qed.

Lemma crfs_checksum_range sb : 0 <= crfs_checksum sb < 4294967296.
Proof. apply u32_range. Qed.

Lemma stored_checksum_valid sb :
  block_ok sb ->
  sb_checksum (set_sb_checksum (crfs_checksum sb) sb) =
  crfs_checksum (set_sb_checksum (crfs_checksum sb) sb).
Proof.
  intros Hb. rewrite checksum_set_checksum by done.
  unfold sb_checksum, set_sb_checksum. rewrite get32_put32 by blk.
  apply u32_small, crfs_checksum_range.
Qed.
