(* ===== verification/BlockLayer.v ===== *)
(** * BlockLayer: the interfaces below the file system

    [BlockDevice] is what [crfs_block.h] promises: [read_block] and [write_block]
    of the backing store (a file or the flash).  [BlockLayer] is what the cache
    layer of [crfs_func.c] promises to the file system code above it: a logical
    array of blocks, a dirty mark for each block, and the backing store's own
    contents, which neither reads nor writes change.  The file system is proved
    against [BlockLayer]; [BlockCache.v] implements it over any [BlockDevice]. *)

From S2P Require Import Prelude Layout.

(** A [block_id_t]. *)
Definition block_id (i : Z) : Prop := 0 <= i < 65536.

Class BlockDevice (D : Type) := {
  read_block : D -> Z -> block;
  write_block : D -> Z -> block -> D;
  device_ok : D -> Prop;
  read_block_ok d i : device_ok d -> block_id i -> block_ok (read_block d i);
  write_block_ok d i b :
    device_ok d -> block_id i -> block_ok b -> device_ok (write_block d i b);
  read_write_eq d i b :
    device_ok d -> block_id i -> block_ok b -> read_block (write_block d i b) i = b;
  read_write_ne d i j b :
    device_ok d -> block_id i -> block_id j -> block_ok b -> i <> j ->
    read_block (write_block d i b) j = read_block d j;
}.

Class BlockLayer (St : Type) := {
  (* operations of the cache layer *)
  crfs_read_block : St -> Z -> block * St;
  crfs_write_block : St -> Z -> block -> St;
  block_is_dirty : St -> Z -> bool;
  cache_is_empty : St -> bool;               (* [crfs_block_cache == NULL] *)
  cache_drain : St -> St;                    (* write the dirty blocks, free the cache *)
  cache_drop : St -> St;                     (* [crfs_block_cache = NULL] *)
  dev_write : St -> Z -> block -> St;        (* [write_block], past the cache *)
  (* what they do, in terms of three observations *)
  bl_view : St -> Z -> block;   (* the logical contents of a block *)
  bl_base : St -> Z -> block;   (* its contents on the backing store *)
  bl_ok : St -> Prop;
  bl_view_ok s i : bl_ok s -> block_id i -> block_ok (bl_view s i);
  bl_read_result s i :
    bl_ok s -> block_id i -> fst (crfs_read_block s i) = bl_view s i;
  bl_read_ok s i : bl_ok s -> block_id i -> bl_ok (snd (crfs_read_block s i));
  bl_read_view s i j :
    bl_ok s -> block_id i -> bl_view (snd (crfs_read_block s i)) j = bl_view s j;
  bl_read_base s i j :
    bl_ok s -> block_id i -> bl_base (snd (crfs_read_block s i)) j = bl_base s j;
  bl_read_dirty s i j :
    bl_ok s -> block_id i ->
    block_is_dirty (snd (crfs_read_block s i)) j = block_is_dirty s j;
  bl_write_ok s i b :
    bl_ok s -> block_id i -> block_ok b -> bl_ok (crfs_write_block s i b);
  bl_write_view s i j b :
    bl_ok s -> bl_view (crfs_write_block s i b) j = if j =? i then b else bl_view s j;
  bl_write_base s i j b :
    bl_ok s -> bl_base (crfs_write_block s i b) j = bl_base s j;
  bl_write_dirty s i j b :
    bl_ok s -> block_is_dirty (crfs_write_block s i b) j = (j =? i) || block_is_dirty s j;
  bl_clean s i :
    bl_ok s -> block_is_dirty s i = false -> bl_view s i = bl_base s i;
  bl_empty_clean s i : cache_is_empty s = true -> block_is_dirty s i = false;
  bl_drain_ok s : bl_ok s -> bl_ok (cache_drain s);
  bl_drain_empty s : cache_is_empty (cache_drain s) = true;
  bl_drain_base s i : bl_ok s -> block_id i -> bl_base (cache_drain s) i = bl_view s i;
  bl_drop_ok s : bl_ok s -> bl_ok (cache_drop s);
  bl_drop_empty s : cache_is_empty (cache_drop s) = true;
  bl_drop_base s i : bl_base (cache_drop s) i = bl_base s i;
  bl_dev_write_ok s i b :
    bl_ok s -> cache_is_empty s = true -> block_id i -> block_ok b ->
    bl_ok (dev_write s i b);
  bl_dev_write_empty s i b : cache_is_empty (dev_write s i b) = cache_is_empty s;
  bl_dev_write_base s i j b :
    bl_ok s -> block_id i -> block_id j -> block_ok b ->
    bl_base (dev_write s i b) j = if j =? i then b else bl_base s j;
}.

(** ** Observational equivalence

    Two stores are equivalent when no observation tells them apart: reading a
    block fills the cache, and so changes the state, but only up to [≡]. *)
Section equivalence.
Context {St : Type} `{BlockLayer St}.

#[export] Instance bl_equiv : Equiv St := fun s t =>
  (bl_ok s <-> bl_ok t) /\
  forall i, bl_view s i = bl_view t i /\ bl_base s i = bl_base t i /\
            block_is_dirty s i = block_is_dirty t i.

#[export] Instance bl_equivalence : Equivalence (≡@{St}).
Proof.
  split.
  - intros s. split; [done|]. intros i. done.
  - intros s t [Hok Hi]. split; [by rewrite Hok|]. intros i.
    destruct (Hi i) as (-> & -> & ->). done.
  - intros s t u [Hok Hi] [Hok' Hi']. split; [by rewrite Hok|]. intros i.
    destruct (Hi i) as (-> & -> & ->). apply Hi'.
Qed.

#[export] Instance bl_view_proper : Proper ((≡) ==> (=) ==> (=)) bl_view.
Proof. intros s t [_ Hi] i ? <-. apply Hi. Qed.
#[export] Instance bl_base_proper : Proper ((≡) ==> (=) ==> (=)) bl_base.
Proof. intros s t [_ Hi] i ? <-. apply Hi. Qed.
#[export] Instance block_is_dirty_proper : Proper ((≡) ==> (=) ==> (=)) block_is_dirty.
Proof. intros s t [_ Hi] i ? <-. apply Hi. Qed.
#[export] Instance bl_ok_proper : Proper ((≡) ==> iff) bl_ok.
Proof. intros s t [Hok _]. done. Qed.

(** Reading a block gives its logical contents and an equivalent store. *)
Lemma read_block_spec s i :
  bl_ok s -> block_id i ->
  exists s', crfs_read_block s i = (bl_view s i, s') /\ s' ≡ s.
Proof.
  intros Hs Hi. exists (snd (crfs_read_block s i)). split.
  - rewrite <- (bl_read_result s i) by done. by destruct (crfs_read_block s i).
  - split; [split; [done | by intros; apply bl_read_ok]|]. intros j.
    by rewrite bl_read_view, bl_read_base, bl_read_dirty.
Qed.

Lemma write_view_eq s i b : bl_ok s -> bl_view (crfs_write_block s i b) i = b.
Proof. intros. by rewrite bl_write_view, Z.eqb_refl. Qed.

Lemma write_view_ne s i j b :
  bl_ok s -> j <> i -> bl_view (crfs_write_block s i b) j = bl_view s j.
Proof. intros ? Hne. rewrite bl_write_view by done. by apply Z.eqb_neq in Hne as ->. Qed.

(** With an empty cache, the logical contents are those of the backing store. *)
Lemma empty_view s i : bl_ok s -> cache_is_empty s = true -> bl_view s i = bl_base s i.
Proof. intros. by apply bl_clean, bl_empty_clean. Qed.

Lemma drain_view s i : bl_ok s -> block_id i -> bl_view (cache_drain s) i = bl_view s i.
Proof.
  intros. rewrite empty_view by auto using bl_drain_ok, bl_drain_empty.
  by apply bl_drain_base.
Qed.
End equivalence.
