(* ===== verification/BlockCache.v ===== *)
(** * BlockCache: the write-back block cache of CRFS

    Model of the cache layer of [cobalt_romfs/crfs_func.c]: [struct crfs_datum],
    [crfs_read_block], [crfs_write_block], [cache_add], [block_is_dirty] and the
    write-back loop of [cache_flush].  The linked list [crfs_block_cache] is a
    list with its head first.  [cache_add] asks for a node until [malloc] succeeds; the
    buffers of [block_dup], whose failure no caller tests, are taken to be there. *)

From S2P Require Import Prelude Layout BlockLayer.

Record crfs_datum := Datum {
  dt_blockaddr : Z;
  dt_dirty : bool;
  dt_data : block;
}.

#[global] Instance datum_eq_dec : EqDecision crfs_datum.
Proof. solve_decision. Defined.

Section cache.
Context {D : Type} `{BlockDevice D}.

Record cached := Cached {
  backing : D;
  crfs_block_cache : list crfs_datum;
}.

(** The search loop shared by the cache operations. *)
Definition cache_find (idx : Z) (l : list crfs_datum) : option crfs_datum :=
  List.find (fun head => dt_blockaddr head =? idx) l.

Definition cache_add (s : cached) (idx : Z) (data : block) (dirty : bool) : cached :=
  Cached (backing s) (Datum idx dirty data :: crfs_block_cache s).

Definition cache_read_block (s : cached) (idx : Z) : block * cached :=
  match cache_find idx (crfs_block_cache s) with
  | Some head => (dt_data head, s)
  | None =>
    let buf := read_block (backing s) idx in
    (buf, cache_add s idx buf false)
  end.

(** The update of the first entry for [idx], if there is one. *)
Fixpoint cache_update (idx : Z) (data : block) (l : list crfs_datum) :
    option (list crfs_datum) :=
  match l with
  | [] => None
  | head :: l =>
    if dt_blockaddr head =? idx then Some (Datum (dt_blockaddr head) true data :: l)
    else option_map (cons head) (cache_update idx data l)
  end.

Definition cache_write_block (s : cached) (idx : Z) (data : block) : cached :=
  match cache_update idx data (crfs_block_cache s) with
  | Some l => Cached (backing s) l
  | None => cache_add s idx data true
  end.

Definition cache_block_is_dirty (s : cached) (idx : Z) : bool :=
  match cache_find idx (crfs_block_cache s) with
  | Some head => dt_dirty head
  | None => false
  end.

(** The [while (head)] loop of [cache_flush]: dirty blocks are written, every
    entry is freed.  The writes in order are [flush_writes]. *)
Fixpoint flush_loop (d : D) (l : list crfs_datum) : D :=
  match l with
  | [] => d
  | head :: l =>
    flush_loop
      (if dt_dirty head then write_block d (dt_blockaddr head) (dt_data head) else d) l
  end.

Definition flush_writes (l : list crfs_datum) : list (Z * block) :=
  map (fun d => (dt_blockaddr d, dt_data d)) (List.filter dt_dirty l).

(** A sequence of [write_block] calls. *)
Definition write_all (d : D) (ws : list (Z * block)) : D :=
  foldl (fun d w => write_block d (fst w) (snd w)) d ws.

Definition cache_null (l : list crfs_datum) : bool :=
  match l with [] => true | _ => false end.

(** ** The cache as a block layer *)

Definition cache_view (s : cached) (i : Z) : block :=
  match cache_find i (crfs_block_cache s) with
  | Some head => dt_data head
  | None => read_block (backing s) i
  end.

(** The invariant: one entry for each cached block, and a clean entry holds
    what the backing store holds. *)
Definition datum_ok (d : D) (e : crfs_datum) : Prop :=
  block_id (dt_blockaddr e) /\ block_ok (dt_data e) /\
  (dt_dirty e = false -> dt_data e = read_block d (dt_blockaddr e)).

Record cache_ok (s : cached) : Prop := {
  cache_device_ok : device_ok (backing s);
  cache_nodup : NoDup (map dt_blockaddr (crfs_block_cache s));
  cache_data_ok : Forall (datum_ok (backing s)) (crfs_block_cache s);
}.

Lemma cache_find_Some idx l e :
  cache_find idx l = Some e -> e ∈ l /\ dt_blockaddr e = idx.
Proof.
  intros [Hin Heq]%List.find_some. split; [by apply list_elem_of_In|]. lia.
Qed.

Lemma cache_find_None idx l :
  cache_find idx l = None <-> idx ∉ map dt_blockaddr l.
Proof.
  unfold cache_find. induction l as [|e l IH]; simpl; [by split; [intros _ ?%elem_of_nil|]|].
  rewrite not_elem_of_cons. destruct (Z.eqb_spec (dt_blockaddr e) idx) as [->|Hne].
  - split; [done|]. by intros [? _].
  - rewrite IH. split; [intros; split; [congruence|done] | by intros [_ ?]].
Qed.

Lemma cache_update_None idx data l :
  cache_update idx data l = None <-> cache_find idx l = None.
Proof.
  unfold cache_find. induction l as [|e l IH]; simpl; [done|].
  destruct (Z.eqb_spec (dt_blockaddr e) idx); [done|].
  rewrite <- IH. by destruct (cache_update idx data l).
Qed.

Lemma cache_update_Some idx data l l' :
  cache_update idx data l = Some l' ->
  map dt_blockaddr l' = map dt_blockaddr l /\
  (forall j, cache_find j l' =
     if j =? idx then Some (Datum idx true data) else cache_find j l) /\
  (forall P : crfs_datum -> Prop, Forall P l -> P (Datum idx true data) -> Forall P l').
Proof.
  revert l'. induction l as [|e l IH]; intros l'; simpl; [done|].
  destruct (Z.eqb_spec (dt_blockaddr e) idx) as [<-|Hne].
  - intros [= <-]. split_and!; [done| |].
    + intros j. unfold cache_find; simpl.
      destruct (Z.eqb_spec (dt_blockaddr e) j), (Z.eqb_spec j (dt_blockaddr e)); done || lia.
    + intros P HP HD. inversion HP; subst. by constructor.
  - destruct (cache_update idx data l) as [l1|]; [|done].
    intros [= <-]. destruct (IH l1 eq_refl) as (Hm & Hf & HF). split_and!.
    + simpl. by rewrite Hm.
    + intros j. unfold cache_find in *; simpl. rewrite Hf.
      destruct (Z.eqb_spec (dt_blockaddr e) j), (Z.eqb_spec j idx); done || lia.
    + intros P HP HD. inversion HP; subst. constructor; auto.
Qed.

(** The three observations after a write, whichever branch it takes. *)
Lemma cache_write_find s idx data j :
  cache_find j (crfs_block_cache (cache_write_block s idx data)) =
    if j =? idx then Some (Datum idx true data) else cache_find j (crfs_block_cache s).
Proof.
  unfold cache_write_block. destruct (cache_update _ _ _) as [l'|] eqn:E.
  - by apply cache_update_Some in E as (_ & Hf & _).
  - unfold cache_add, cache_find; simpl. rewrite (Z.eqb_sym idx j). by destruct (j =? idx).
Qed.

Lemma cache_write_backing s idx data : backing (cache_write_block s idx data) = backing s.
Proof. unfold cache_write_block. by destruct (cache_update _ _ _). Qed.

Lemma cache_write_ok s idx data :
  cache_ok s -> block_id idx -> block_ok data -> cache_ok (cache_write_block s idx data).
Proof.
  intros [Hd Hnd HF] Hi Hb. split.
  - by rewrite cache_write_backing.
  - unfold cache_write_block. destruct (cache_update _ _ _) as [l'|] eqn:E.
    + apply cache_update_Some in E as (Hm & _). simpl. by rewrite Hm.
    + apply cache_update_None, cache_find_None in E. simpl. by constructor.
  - rewrite cache_write_backing.
    unfold cache_write_block. destruct (cache_update _ _ _) as [l'|] eqn:E.
    + apply cache_update_Some in E as (_ & _ & HP). apply HP; [done|]. by split_and!.
    + simpl. constructor; [by split_and!|done].
Qed.

Lemma cache_read_ok s idx : cache_ok s -> block_id idx -> cache_ok (snd (cache_read_block s idx)).
Proof.
  intros [Hd Hnd HF] Hi. unfold cache_read_block.
  destruct (cache_find idx _) eqn:E; [done|]. apply cache_find_None in E.
  split; simpl; [done|by constructor|]. constructor; [|done].
  split_and!; [done|by apply read_block_ok|done].
Qed.

Lemma cache_read_find s idx j :
  cache_find j (crfs_block_cache (snd (cache_read_block s idx))) =
    match cache_find idx (crfs_block_cache s) with
    | Some _ => cache_find j (crfs_block_cache s)
    | None => if j =? idx then Some (Datum idx false (read_block (backing s) idx))
              else cache_find j (crfs_block_cache s)
    end.
Proof.
  unfold cache_read_block. destruct (cache_find idx _) eqn:E; [done|].
  unfold cache_add, cache_find; simpl. rewrite (Z.eqb_sym idx j). by destruct (j =? idx).
Qed.

Lemma cache_read_backing s idx : backing (snd (cache_read_block s idx)) = backing s.
Proof. unfold cache_read_block. by destruct (cache_find idx _). Qed.

(** ** The write-back loop *)

Lemma flush_loop_writes d l : flush_loop d l = write_all d (flush_writes l).
Proof.
  revert d. induction l as [|e l IH]; intros d; [done|].
  simpl. unfold flush_writes. simpl. rewrite IH. by destruct (dt_dirty e).
Qed.

Lemma write_all_ok d ws :
  device_ok d -> Forall (fun w => block_id (fst w) /\ block_ok (snd w)) ws ->
  device_ok (write_all d ws).
Proof.
  intros Hd HF. revert d Hd. induction HF as [|w ws [Hi Hb] _ IH]; intros d Hd; [done|].
  apply IH. by apply write_block_ok.
Qed.

(** Writes to other blocks do not show. *)
Lemma write_all_other d ws i :
  device_ok d -> Forall (fun w => block_id (fst w) /\ block_ok (snd w)) ws ->
  block_id i -> i ∉ map fst ws -> read_block (write_all d ws) i = read_block d i.
Proof.
  intros Hd HF Hi. revert d Hd. induction HF as [|w ws [Hw Hb] _ IH]; intros d Hd Hni; [done|].
  simpl in *. apply not_elem_of_cons in Hni as [Hne Hni].
  unfold write_all in *. simpl. rewrite IH by (done || by apply write_block_ok).
  by apply read_write_ne.
Qed.

Lemma flush_writes_ok d l :
  Forall (datum_ok d) l -> Forall (fun w => block_id (fst w) /\ block_ok (snd w)) (flush_writes l).
Proof.
  intros HF. unfold flush_writes. apply Forall_map. apply Forall_forall. intros e He.
  apply list_elem_of_In, filter_In in He as [He _]. apply list_elem_of_In in He.
  rewrite Forall_forall in HF. by destruct (HF e He) as (? & ? & _).
Qed.

Lemma flush_writes_dirty l i :
  i ∈ map fst (flush_writes l) -> exists e, e ∈ l /\ dt_blockaddr e = i /\ dt_dirty e = true.
Proof.
  unfold flush_writes. rewrite map_map. simpl. intros Hin.
  apply list_elem_of_In, in_map_iff in Hin as (e & <- & [He Hd]%filter_In).
  exists e. split_and!; [by apply list_elem_of_In|done..].
Qed.

Lemma nodup_find e l :
  NoDup (map dt_blockaddr l) -> e ∈ l -> cache_find (dt_blockaddr e) l = Some e.
Proof.
  induction l as [|x l IH]; simpl; [set_solver|]. intros [Hx Hnd]%NoDup_cons [->|Hin]%elem_of_cons.
  - unfold cache_find. simpl. by rewrite Z.eqb_refl.
  - unfold cache_find in *. simpl. destruct (Z.eqb_spec (dt_blockaddr x) (dt_blockaddr e)) as [Heq|].
    + destruct Hx. rewrite Heq. apply list_elem_of_In, in_map, list_elem_of_In. done.
    + by apply IH.
Qed.

(** After the loop, the backing store holds the logical contents. *)
Lemma flush_loop_read s i :
  cache_ok s -> block_id i ->
  read_block (flush_loop (backing s) (crfs_block_cache s)) i = cache_view s i.
Proof.
  intros [Hd Hnd HF] Hi. unfold cache_view. destruct s as [d l]; simpl in *.
  revert d Hd HF. induction l as [|e l IH]; intros d Hd HF; [done|].
  inversion HF as [|? ? (He & Hb & Hc) HF']; subst. apply NoDup_cons in Hnd as [Hx Hnd].
  simpl. set (d' := if dt_dirty e then _ else d).
  assert (device_ok d') as Hd' by (unfold d'; destruct (dt_dirty e); [by apply write_block_ok|done]).
  assert (read_block d' (dt_blockaddr e) = dt_data e) as Hread.
  { unfold d'. destruct (dt_dirty e); [by apply read_write_eq|by rewrite Hc]. }
  assert (forall j, block_id j -> j <> dt_blockaddr e -> read_block d' j = read_block d j) as Hother.
  { intros j Hj Hne. unfold d'. destruct (dt_dirty e); [|done]. by apply read_write_ne. }
  assert (Forall (datum_ok d') l) as HF''.
  { apply Forall_forall. intros e' He'. rewrite Forall_forall in HF'.
    destruct (HF' e' He') as (Hi' & Hb' & Hc'). split_and!; [done..|].
    intros Hcl. rewrite Hother; [by apply Hc'|done|].
    intros Heq. apply Hx. rewrite <- Heq. by apply list_elem_of_In, in_map, list_elem_of_In. }
  rewrite IH by done. unfold cache_find. simpl.
  destruct (Z.eqb_spec (dt_blockaddr e) i) as [<-|Hne].
  - apply cache_find_None in Hx. unfold cache_find in Hx. by rewrite Hx.
  - destruct (List.find _ l); [done|]. by apply Hother.
Qed.

Lemma flush_loop_ok s : cache_ok s -> device_ok (flush_loop (backing s) (crfs_block_cache s)).
Proof.
  intros [Hd _ HF]. rewrite flush_loop_writes. apply write_all_ok; [done|].
  by eapply flush_writes_ok.
Qed.

#[export] Program Instance cache_layer : BlockLayer cached := {|
  crfs_read_block := cache_read_block;
  crfs_write_block := cache_write_block;
  block_is_dirty := cache_block_is_dirty;
  cache_is_empty := fun s => cache_null (crfs_block_cache s);
  cache_drain := fun s => Cached (flush_loop (backing s) (crfs_block_cache s)) [];
  cache_drop := fun s => Cached (backing s) [];
  dev_write := fun s i b => Cached (write_block (backing s) i b) (crfs_block_cache s);
  bl_view := cache_view;
  bl_base := fun s => read_block (backing s);
  bl_ok := cache_ok;
|}.
Next Obligation.
  intros s i [Hd _ HF] Hi. unfold cache_view.
  destruct (cache_find i _) as [e|] eqn:E; [|by apply read_block_ok].
  apply cache_find_Some in E as [Hin _]. rewrite Forall_forall in HF. by apply HF.
Qed.
Next Obligation.
  intros s i _ _. unfold cache_read_block, cache_view. by destruct (cache_find i _).
Qed.
Next Obligation. intros. by apply cache_read_ok. Qed.
Next Obligation.
  intros s i j _ _. unfold cache_view. rewrite cache_read_find, cache_read_backing.
  destruct (cache_find i _) eqn:E; [done|].
  destruct (Z.eqb_spec j i) as [->|]; [by rewrite E|done].
Qed.
Next Obligation. intros s i j _ _. cbv beta. by rewrite cache_read_backing. Qed.
Next Obligation.
  intros s i j _ _. unfold cache_block_is_dirty. rewrite cache_read_find.
  destruct (cache_find i _) eqn:E; [done|].
  destruct (Z.eqb_spec j i) as [->|]; [by rewrite E|done].
Qed.
Next Obligation. intros. by apply cache_write_ok. Qed.
Next Obligation.
  intros s i j b _. unfold cache_view. rewrite cache_write_find, cache_write_backing.
  by destruct (j =? i).
Qed.
Next Obligation. intros s i j b _. cbv beta. by rewrite cache_write_backing. Qed.
Next Obligation.
  intros s i j b _. unfold cache_block_is_dirty. rewrite cache_write_find.
  by destruct (j =? i).
Qed.
Next Obligation.
  intros s i [_ _ HF] Hd. unfold cache_view, cache_block_is_dirty in *.
  destruct (cache_find i _) as [e|] eqn:E; [|done].
  apply cache_find_Some in E as [Hin <-]. rewrite Forall_forall in HF.
  by apply (HF e Hin).
Qed.
Next Obligation.
  intros s i He. unfold cache_block_is_dirty. by destruct s as [d [|]].
Qed.
Next Obligation.
  intros s Hs. split; simpl; [by apply flush_loop_ok|constructor|constructor].
Qed.
Next Obligation. done. Qed.
Next Obligation. intros s i Hs Hi. by apply flush_loop_read. Qed.
Next Obligation. intros s [Hd _ _]. split; simpl; [done|constructor|constructor]. Qed.
Next Obligation. done. Qed.
Next Obligation. done. Qed.
Next Obligation.
  intros s i b [Hd _ _] He Hi Hb. destruct s as [d [|]]; simpl in *; [|done].
  split; simpl; [by apply write_block_ok|constructor|constructor].
Qed.
Next Obligation. done. Qed.
Next Obligation.
  intros s i j b [Hd _ _] Hi Hj Hb. simpl. destruct (Z.eqb_spec j i) as [->|Hne].
  - by apply read_write_eq.
  - apply read_write_ne; done || lia.
Qed.
End cache.

Arguments cached : clear implicits.
Arguments Cached {D} _ _.
