(* ===== verification/StdioDevice.v ===== *)
(** * StdioDevice: the backing store of the command line tools

    Model of [cobalt_romfs/crfs_block_stdio.c]: the file system image is a file,
    block [i] is its bytes from [i * CRFS_BLOCK_SIZE] on.  A file is the list of
    its bytes; a write past the end leaves a hole of zero bytes, and bytes that a
    short read does not fill (the FIXME of [read_block]) are taken to be zero. *)

From S2P Require Import Prelude Layout BlockLayer BlockCache.

Record stdio := Stdio {
  co_romfs_fd : Z;      (* 0 when no file is open *)
  co_file : list Z;
}.

(** [lseek] and [read] of [n] bytes. *)
Definition file_read (off n : nat) (f : list Z) : list Z :=
  let got := sub off n f in got ++ zeros (n - length got).

(** [lseek] and [write]. *)
Definition file_write (off : nat) (bs f : list Z) : list Z :=
  take off (f ++ zeros (off - length f)) ++ bs ++ drop (off + length bs) f.

Definition block_offset (block_ndx : Z) : nat := Z.to_nat (block_ndx * CRFS_BLOCK_SIZE).

(** Return value and the contents of the buffer; [buf] is the buffer before. *)
Definition stdio_read_block (d : stdio) (block_ndx : Z) (buf : block) : Z * block :=
  if co_romfs_fd d =? 0 then (-1, buf)
  else (0, file_read (block_offset block_ndx) BLOCK (co_file d)).

Definition stdio_write_block (d : stdio) (block_ndx : Z) (b : block) : Z * stdio :=
  if co_romfs_fd d =? 0 then (-1, d)
  else (0, Stdio (co_romfs_fd d) (file_write (block_offset block_ndx) b (co_file d))).

(** [open] of the image: its descriptor, never 0 in a process with stdin. *)
Definition init_stdio_block (fd : Z) (f : list Z) : stdio := Stdio fd f.
Definition deinit_stdio_block (d : stdio) : stdio :=
  if co_romfs_fd d =? 0 then d else Stdio 0 (co_file d).

(** ** A file is a block device *)

Lemma lookup_file_write off bs f (i : nat) :
  file_write off bs f !! i =
    if decide (off <= i < off + length bs)%nat then bs !! (i - off)%nat
    else if decide (length f <= i < off)%nat then Some 0 else f !! i.
Proof.
  unfold file_write.
  assert (length (take off (f ++ zeros (off - length f))) = off) as Hl by len.
  destruct (decide (i < off)%nat) as [Hlt|Hge].
  - rewrite decide_False by lia. rewrite lookup_app_l by lia. rewrite lookup_take_lt by lia.
    case_decide.
    + rewrite lookup_app_r by lia. unfold zeros. apply lookup_replicate. lia.
    + apply lookup_app_l. lia.
  - rewrite lookup_app_r by lia. rewrite Hl. case_decide.
    + apply lookup_app_l. lia.
    + rewrite decide_False by lia. rewrite lookup_app_r by lia.
      rewrite lookup_drop. f_equal. lia.
Qed.

(** A read in terms of the bytes of the file, zero outside it. *)
Lemma lookup_file_read off n f (i : nat) :
  file_read off n f !! i =
    if decide (i < n)%nat then Some (default 0 (f !! (off + i)%nat)) else None.
Proof.
  unfold file_read. set (got := sub off n f).
  assert (length got = min n (length f - off)) as Hl by (unfold got, sub; len).
  case_decide as Hi.
  - destruct (decide (i < length got)%nat) as [Hg|Hg].
    + rewrite lookup_app_l by done. unfold got. rewrite lookup_sub, decide_True by done.
      destruct (f !! (off + i)%nat) eqn:E; [done|].
      apply lookup_ge_None in E. lia.
    + rewrite lookup_app_r by lia. unfold zeros.
      rewrite (proj2 (lookup_ge_None f (off + i)%nat)) by lia. apply lookup_replicate_2. lia.
  - apply lookup_ge_None. len.
Qed.

Lemma length_file_read off n f : length (file_read off n f) = n.
Proof. unfold file_read, sub. len. Qed.

Lemma bytes_ok_file_write off bs f : bytes_ok bs -> bytes_ok f -> bytes_ok (file_write off bs f).
Proof.
  intros. unfold file_write. rewrite !bytes_ok_app. split_and!; [|done|by apply Forall_drop].
  apply Forall_take, Forall_app. split; [done|apply bytes_ok_zeros].
Qed.

#[export] Program Instance stdio_device : BlockDevice stdio := {|
  read_block d i := snd (stdio_read_block d i (zeros BLOCK));
  write_block d i b := snd (stdio_write_block d i b);
  device_ok d := co_romfs_fd d <> 0 /\ bytes_ok (co_file d);
|}.
Next Obligation.
  intros d i [Hfd Hf] Hi. unfold stdio_read_block. apply Z.eqb_neq in Hfd as ->. simpl.
  split; [apply length_file_read|]. unfold file_read. apply bytes_ok_app.
  split; [by apply bytes_ok_sub | apply bytes_ok_zeros].
Qed.
Next Obligation.
  intros d i b [Hfd Hf] Hi [_ Hb]. unfold stdio_write_block.
  destruct (Z.eqb_spec (co_romfs_fd d) 0); [done|]. simpl.
  split; [done|]. by apply bytes_ok_file_write.
Qed.
Next Obligation.
  intros d i b [Hfd Hf] Hi Hb. pose proof (block_len b Hb) as Hl.
  unfold stdio_write_block, stdio_read_block. apply Z.eqb_neq in Hfd as Hfd'. rewrite Hfd'. simpl.
  rewrite Hfd'. simpl. apply list_eq. intros j. rewrite lookup_file_read, lookup_file_write.
  unfold BLOCK. case_decide.
  - rewrite decide_True by lia. replace (_ - _)%nat with j by lia.
    destruct (b !! j) eqn:E; [done|]. apply lookup_ge_None in E. lia.
  - symmetry. apply lookup_ge_None. lia.
Qed.
Next Obligation.
  intros d i j b [Hfd Hf] Hi Hj Hb Hne. pose proof (block_len b Hb) as Hl.
  unfold stdio_write_block, stdio_read_block. apply Z.eqb_neq in Hfd as Hfd'. rewrite Hfd'. simpl.
  rewrite Hfd'. simpl. apply list_eq. intros k. rewrite !lookup_file_read, lookup_file_write.
  unfold BLOCK. case_decide; [|done].
  unfold block_id, block_offset, CRFS_BLOCK_SIZE in *.
  rewrite decide_False by lia. case_decide; [|done].
  by rewrite (proj2 (lookup_ge_None (co_file d) (Z.to_nat (j * 4096) + k)%nat)) by lia.
Qed.
