(* ===== verification/Fs.v ===== *)
(** * Fs: the state of a mounted CRFS and its inodes

    The static variables of [cobalt_romfs/crfs_func.c] are the record [fs]; the
    file system code threads it explicitly.  [crfs_lookup_inode] and
    [crfs_write_inode] are modelled here, with the view of the mounted file
    system ([inode_at], [dir_block]) that the higher operations are specified
    against. *)

From S2P Require Import Prelude Freemap Layout BlockLayer.

(** ** errno ([x86/include/errno.h]) *)
Definition ENOSPC : Z := 1.
Definition ENOMEM : Z := 2.
Definition ENOENT : Z := 3.
Definition ENOTDIR : Z := 4.
Definition EISDIR : Z := 5.
Definition ENAMETOOLONG : Z := 6.
Definition EEXIST : Z := 7.
Definition EBADF : Z := 8.
Definition EINVAL : Z := 9.
Definition ENOSYS : Z := 10.

Record fs (St : Type) := Fs {
  store : St;                 (* block cache and backing store *)
  block_freemap : freemap;
  inode_freemap : freemap;
  super_block : block;
  crfs_which_super : Z;
  crfs_pwd : Z;
  errno : Z;
  allocs : outcomes;          (* of the coming calls of malloc *)
}.
Arguments Fs {St} _ _ _ _ _ _ _ _.
Arguments store {St} _.
Arguments block_freemap {St} _.
Arguments inode_freemap {St} _.
Arguments super_block {St} _.
Arguments crfs_which_super {St} _.
Arguments crfs_pwd {St} _.
Arguments errno {St} _.
Arguments allocs {St} _.

Section fs.
Context {St : Type} `{BlockLayer St}.

Definition set_store (x : St) (s : fs St) : fs St :=
  Fs x (block_freemap s) (inode_freemap s) (super_block s) (crfs_which_super s)
    (crfs_pwd s) (errno s) (allocs s).
Definition set_block_freemap (x : freemap) (s : fs St) : fs St :=
  Fs (store s) x (inode_freemap s) (super_block s) (crfs_which_super s)
    (crfs_pwd s) (errno s) (allocs s).
Definition set_inode_freemap (x : freemap) (s : fs St) : fs St :=
  Fs (store s) (block_freemap s) x (super_block s) (crfs_which_super s)
    (crfs_pwd s) (errno s) (allocs s).
Definition set_super_block (x : block) (s : fs St) : fs St :=
  Fs (store s) (block_freemap s) (inode_freemap s) x (crfs_which_super s)
    (crfs_pwd s) (errno s) (allocs s).
Definition set_errno (x : Z) (s : fs St) : fs St :=
  Fs (store s) (block_freemap s) (inode_freemap s) (super_block s) (crfs_which_super s)
    (crfs_pwd s) x (allocs s).
Definition set_allocs (x : outcomes) (s : fs St) : fs St :=
  Fs (store s) (block_freemap s) (inode_freemap s) (super_block s) (crfs_which_super s)
    (crfs_pwd s) (errno s) x.

(** A call of [malloc]: whether it succeeds. *)
Definition fs_alloc (s : fs St) : bool * fs St :=
  let '(got, a) := next_alloc (allocs s) in (got, set_allocs a s).

(** The block operations on the whole state. *)
Definition fs_read (s : fs St) (idx : Z) : block * fs St :=
  let '(b, st) := crfs_read_block (store s) idx in (b, set_store st s).
Definition fs_write (s : fs St) (idx : Z) (b : block) : fs St :=
  set_store (crfs_write_block (store s) idx b) s.

(** ** Inodes *)

Definition ITABLE_BLOCKNUM (s : fs St) (inum : Z) : Z :=
  sb_vtable (super_block s) (Z.shiftr inum 8).
Definition INODE_IDX (inum : Z) : Z := Z.land inum 255.

Definition crfs_lookup_inode (s : fs St) (inum : Z) : crfs_inode * fs St :=
  let block_index := ITABLE_BLOCKNUM s inum in
  let '(it, s) := fs_read s block_index in
  (it_get it (INODE_IDX inum), s).

(** Storing [*inode] in the itable block, the end of [crfs_write_inode]. *)
Definition write_itable (s : fs St) (block_index : Z) (it : block) (inode : crfs_inode) :
    fs St :=
  fs_write s block_index (it_set (INODE_IDX (in_inode inode)) inode it).

(** [None] stands for undefined behaviour: a [freemap_unmark] outside the map. *)
Definition crfs_write_inode (s : fs St) (inode : crfs_inode) : option (Z * fs St) :=
  let block_index := ITABLE_BLOCKNUM s (in_inode inode) in
  if block_index =? 0 then
    (* hrrm, doesn't exist yet *)
    let '(tmp, bm) := freemap_next (block_freemap s) in
    let s := set_block_freemap bm s in
    if tmp <? 0 then Some (- ENOSPC, s) else
    let block_index := u16 tmp in
    let s := set_super_block
               (set_sb_vtable (Z.shiftr (in_inode inode) 8) block_index (super_block s)) s in
    let '(got, s) := fs_alloc s in
    if negb got then Some (- ENOMEM, s) else
    Some (0, write_itable s block_index (zeros BLOCK) inode)
  else
    let '(it, s) := fs_read s block_index in
    if negb (block_is_dirty (store s) block_index) then
      (* phased-commit *)
      let '(tmp, bm) := freemap_next (block_freemap s) in
      if tmp <? 0 then Some (- ENOSPC, set_block_freemap bm s) else
      bm ← freemap_unmark bm block_index;
      let s := set_block_freemap bm s in
      let block_index := u16 tmp in
      let s := set_super_block
                 (set_sb_vtable (Z.shiftr (in_inode inode) 8) block_index (super_block s)) s in
      Some (0, write_itable s block_index it inode)
    else Some (0, write_itable s block_index it inode).

(** ** The mounted file system as a function of the state *)

Definition view (s : fs St) (i : Z) : block := bl_view (store s) i.
Definition base (s : fs St) (i : Z) : block := bl_base (store s) i.
Definition dirty (s : fs St) (i : Z) : bool := block_is_dirty (store s) i.
Definition inode_at (s : fs St) (inum : Z) : crfs_inode :=
  it_get (view s (ITABLE_BLOCKNUM s inum)) (INODE_IDX inum).

(** Well-formedness of the state: the representation invariants of its parts, and
    memory for what the code allocates.  What happens without memory is stated for
    [set_allocs a s] with [fs_ok s]. *)
Record fs_ok (s : fs St) : Prop := {
  ok_store : bl_ok (store s);
  ok_bm : fm_wf (block_freemap s);
  ok_im : fm_wf (inode_freemap s);
  ok_bm_size : fm_mapsize (block_freemap s) <= 8192;  (* block numbers fit 16 bits *)
  ok_sb : block_ok (super_block s);
  ok_memory : allocs s = [];
}.

(** States that differ in what the cache holds and in [errno] only. *)
#[export] Instance fs_equiv : Equiv (fs St) := fun s t =>
  store s ≡ store t /\ block_freemap s = block_freemap t /\
  inode_freemap s = inode_freemap t /\ super_block s = super_block t /\
  crfs_which_super s = crfs_which_super t /\ crfs_pwd s = crfs_pwd t /\
  allocs s = allocs t.

#[export] Instance fs_equivalence : Equivalence (≡@{fs St}).
Proof.
  split.
  - intros s. by split_and!.
  - intros s t (?&?&?&?&?&?&?). by split_and!.
  - intros s t u (?&?&?&?&?&?&?) (?&?&?&?&?&?&?). split_and!; by etrans.
Qed.

#[export] Instance view_proper : Proper ((≡) ==> (=) ==> (=)) view.
Proof. intros s t (Hst&_) i ? <-. unfold view. by rewrite Hst. Qed.
#[export] Instance base_proper : Proper ((≡) ==> (=) ==> (=)) base.
Proof. intros s t (Hst&_) i ? <-. unfold base. by rewrite Hst. Qed.
#[export] Instance dirty_proper : Proper ((≡) ==> (=) ==> (=)) dirty.
Proof. intros s t (Hst&_) i ? <-. unfold dirty. by rewrite Hst. Qed.
#[export] Instance block_freemap_proper : Proper ((≡) ==> (=)) (@block_freemap St).
Proof. by intros s t (_&?&_). Qed.
#[export] Instance inode_freemap_proper : Proper ((≡) ==> (=)) (@inode_freemap St).
Proof. by intros s t (_&_&?&_). Qed.
#[export] Instance super_block_proper : Proper ((≡) ==> (=)) (@super_block St).
Proof. by intros s t (_&_&_&?&_). Qed.
#[export] Instance crfs_pwd_proper : Proper ((≡) ==> (=)) (@crfs_pwd St).
Proof. by intros s t (_&_&_&_&_&?&_).
Qed.
#[export] Instance allocs_proper : Proper ((≡) ==> (=)) (@allocs St).
Proof. by intros s t (_&_&_&_&_&_&?). Qed.
#[export] Instance ITABLE_BLOCKNUM_proper : Proper ((≡) ==> (=) ==> (=)) ITABLE_BLOCKNUM.
Proof. intros s t Hst i ? <-. unfold ITABLE_BLOCKNUM. by rewrite Hst. Qed.
#[export] Instance inode_at_proper : Proper ((≡) ==> (=) ==> (=)) inode_at.
Proof. intros s t Hst i ? <-. unfold inode_at. by rewrite Hst. Qed.
#[export] Instance fs_ok_proper : Proper ((≡) ==> iff) fs_ok.
Proof.
  assert (forall s t, s ≡ t -> fs_ok s -> fs_ok t) as Himp.
  { intros s t (Hs&Hb&Hi&Hsb&_&_&Ha) [Hst ? ? ? ? ?]. rewrite Hs in Hst. split; congruence. }
  intros s t Hst. split; by apply Himp.
Qed.

Lemma set_errno_equiv x s : set_errno x s ≡ s.
Proof. by split_and!. Qed.

(** With memory, [malloc] succeeds and the state is the same. *)
Lemma alloc_ok s : fs_ok s -> fs_alloc s = (true, s).
Proof. intros [_ _ _ _ _ Ha]. destruct s. simpl in Ha. subst. done. Qed.

(** ** Ranges *)

Lemma vtable_block_id s inum : fs_ok s -> block_id (ITABLE_BLOCKNUM s inum).
Proof. intros. apply get16_block, ok_sb. done. Qed.

Lemma INODE_IDX_range inum : 0 <= INODE_IDX inum < CRFS_ITABLE_NINODES.
Proof.
  unfold INODE_IDX. change 255 with (Z.ones 8). rewrite Z.land_ones by lia.
  by apply Z.mod_pos_bound.
Qed.

Lemma view_ok s i : fs_ok s -> block_id i -> block_ok (view s i).
Proof. intros. apply bl_view_ok; [apply ok_store|]; done. Qed.

Lemma inode_at_ok s inum : fs_ok s -> inode_ok (inode_at s inum).
Proof. intros. apply it_get_ok, view_ok; [done|]. by apply vtable_block_id. Qed.

Lemma inum_split a b :
  0 <= a -> 0 <= b -> Z.shiftr a 8 = Z.shiftr b 8 -> INODE_IDX a = INODE_IDX b -> a = b.
Proof.
  unfold INODE_IDX. change 255 with (Z.ones 8).
  rewrite !Z.land_ones, !Z.shiftr_div_pow2 by lia. change (2 ^ 8) with 256. intros. dlia.
Qed.

(** ** Reading *)

Lemma fs_read_spec s i :
  fs_ok s -> block_id i -> exists s', fs_read s i = (view s i, s') /\ s' ≡ s.
Proof.
  intros Hs Hi. destruct (read_block_spec (store s) i) as (st & E & Heq); [apply Hs|done|].
  exists (set_store st s). unfold fs_read. rewrite E. split; [done|]. by split_and!.
Qed.

Lemma lookup_inode_spec s inum :
  fs_ok s -> exists s', crfs_lookup_inode s inum = (inode_at s inum, s') /\ s' ≡ s.
Proof.
  intros Hs. unfold crfs_lookup_inode.
  destruct (fs_read_spec s (ITABLE_BLOCKNUM s inum)) as (s' & -> & Heq);
    [done|by apply vtable_block_id|]. by exists s'.
Qed.
End fs.
#[global] Arguments fs_alloc {St} s : simpl never.
