(* ===== verification/Inode.v ===== *)
(** * Inode: correctness of [crfs_write_inode]

    The invariant of the inode tables ([vtable_inv]), the phased-commit discipline
    ([phased]) and the specification of [crfs_write_inode] in terms of both. *)

From S2P Require Import Prelude Freemap Layout BlockLayer Fs.

(** ** More facts on freemaps *)

Lemma bit_of_range l n : 0 <= n -> bit_of l n = true -> n < 8 * Z.of_nat (length l).
Proof.
  unfold bit_of, byte_at. intros Hn Hb.
  destruct (l !! Z.to_nat (n / 8)) eqn:E; simpl in Hb; [|by rewrite Z.bits_0 in Hb].
  apply lookup_lt_Some in E. dlia.
Qed.

Lemma used_range m n : fm_wf m -> 0 <= n -> fm_used m n = true -> n < fm_items m.
Proof. intros [] Hn Hu. apply bit_of_range in Hu; [|done]. unfold fm_items. lia. Qed.

Lemma taken_range m n : fm_wf m -> 0 <= n -> fm_taken m n = true -> n < fm_items m.
Proof.
  intros Hwf Hn Ht. apply orb_true_iff in Ht as [Hu|Hp]; [by apply used_range|].
  destruct Hwf. apply bit_of_range in Hp; [|done]. unfold fm_items. lia.
Qed.

Lemma used_taken m n : fm_used m n = true -> fm_taken m n = true.
Proof. unfold fm_taken. by intros ->. Qed.

(** Freeing never makes an item available before the next flush. *)
Lemma unmark_taken m n m' k :
  fm_wf m -> 0 <= n < fm_items m -> freemap_unmark m n = Some m' -> 0 <= k ->
  fm_taken m' k = fm_taken m k.
Proof.
  intros Hwf Hn E Hk. destruct (freemap_unmark_spec m n) as (m1 & E1 & _ & Hu & Hp & _); [done..|].
  rewrite E in E1. injection E1 as <-. unfold fm_taken. rewrite Hu, Hp by done.
  destruct (k =? n), (fm_used m k), (fm_pending m k); done.
Qed.

Section inode.
Context {St : Type} `{BlockLayer St}.
Implicit Types s : fs St.

Definition taken s (i : Z) : bool := fm_taken (block_freemap s) i.
Definition used s (i : Z) : bool := fm_used (block_freemap s) i.

(** ** Inode tables *)

(** Block [i] holds an inode table. *)
Definition itable_block s (i : Z) : Prop :=
  exists inum, 0 <= inum < 65536 /\ ITABLE_BLOCKNUM s inum = i.

(** Every block of the vtable is marked (block 0, a super block, stands for
    "no table"), and two tables never share a block. *)
Record vtable_inv s : Prop := {
  vt_used i : itable_block s i -> used s i = true;
  vt_inj a b :
    0 <= a < 65536 -> 0 <= b < 65536 -> ITABLE_BLOCKNUM s a <> 0 ->
    ITABLE_BLOCKNUM s a = ITABLE_BLOCKNUM s b -> Z.shiftr a 8 = Z.shiftr b 8;
  vt_zero : used s 0 = true;
}.

(** ** Phased commit

    [phased C s]: the blocks [C] of the last committed file system are all
    unavailable for allocation, and none of them is going to be overwritten by
    the next flush. *)
Record phased (C : Z -> Prop) s : Prop := {
  ph_taken i : C i -> taken s i = true;
  ph_dirty i : C i -> dirty s i = false;
}.

(** One phased step: nothing reaches the backing store, nothing that was taken
    becomes available, and only available blocks become dirty. *)
Record phased_step s s' : Prop := {
  st_base i : base s' i = base s i;
  st_taken i : 0 <= i -> taken s i = true -> taken s' i = true;
  st_dirty i : 0 <= i -> dirty s' i = true -> dirty s i = true \/ taken s i = false;
}.

Lemma phased_step_equiv s s' : s' ≡ s -> phased_step s s'.
Proof. intros Heq. split; intros i; unfold taken; rewrite Heq; auto. Qed.

Lemma phased_step_trans s1 s2 s3 :
  phased_step s1 s2 -> phased_step s2 s3 -> phased_step s1 s3.
Proof.
  intros [B1 T1 D1] [B2 T2 D2]. split.
  - intros i. by rewrite B2.
  - auto.
  - intros i Hi Hd. destruct (D2 i Hi Hd) as [Hd'|Hf]; [by apply D1|].
    right. destruct (taken s1 i) eqn:E; [|done]. by rewrite T1 in Hf.
Qed.

Lemma phased_step_phased (C : Z -> Prop) s s' :
  (forall i, C i -> 0 <= i) -> phased_step s s' -> phased C s -> phased C s'.
Proof.
  intros HC [_ HT HD] [Ht Hd]. split; [auto|]. intros i Hi.
  destruct (dirty s' i) eqn:E; [|done].
  destruct (HD i (HC i Hi) E) as [Hd'|Hf].
  - by rewrite Hd in Hd'.
  - by rewrite Ht in Hf.
Qed.

(** ** Free space *)

(** At least [n] blocks are available. *)
Definition free_blocks s (n : nat) : Prop :=
  exists l : list Z, NoDup l /\ (n <= length l)%nat /\
    forall i, i ∈ l -> 0 <= i < fm_items (block_freemap s) /\ taken s i = false.

(** Going from [s] to [s'], at most one block was handed out. *)
Definition one_block s s' : Prop :=
  exists b, forall i, 0 <= i -> taken s' i = true -> taken s i = true \/ i = b.

Lemma free_blocks_step s s' n :
  one_block s s' -> fm_mapsize (block_freemap s') = fm_mapsize (block_freemap s) ->
  free_blocks s (S n) -> free_blocks s' n.
Proof.
  intros [b Hb] Hsz (l & Hnd & Hlen & Hl).
  exists (filter (fun i => i <> b) l). split; [by apply NoDup_filter|]. split.
  - pose proof (length_filter_ne b l Hnd). lia.
  - intros i [Hne Hi]%list_elem_of_filter. destruct (Hl i Hi) as [Hr Hf].
    unfold fm_items in *. rewrite Hsz. split; [done|].
    destruct (taken s' i) eqn:E; [|done].
    destruct (Hb i) as [Ht|]; [lia|done|congruence|done].
Qed.

Lemma free_blocks_weaken s n m : (m <= n)%nat -> free_blocks s n -> free_blocks s m.
Proof. intros Hle (l & Hnd & Hlen & Hl). exists l. split_and!; [done|lia|done]. Qed.

Lemma free_not_full s n :
  free_blocks s (S n) ->
  ~ (forall i, 0 <= i < fm_items (block_freemap s) -> taken s i = true).
Proof.
  intros (l & _ & Hlen & Hl) Hall. destruct l as [|i l]; simpl in Hlen; [lia|].
  destruct (Hl i) as [Hr Hf]; [apply elem_of_cons; by left|]. by rewrite Hall in Hf.
Qed.

(** ** Specification of [crfs_write_inode] *)

(** Blocks that are taken and hold no inode table keep their contents. *)
Definition data_preserved s s' : Prop :=
  forall i, block_id i -> taken s i = true -> ~ itable_block s i -> view s' i = view s i.

Record inode_written s (ino : crfs_inode) s' : Prop := {
  iw_ok : fs_ok s';
  iw_vtable : vtable_inv s';
  iw_same : inode_at s' (in_inode ino) = ino;
  iw_other j :
    0 <= j < 65536 -> j <> in_inode ino ->
    ITABLE_BLOCKNUM s j <> 0 \/ Z.shiftr j 8 <> Z.shiftr (in_inode ino) 8 ->
    inode_at s' j = inode_at s j;
  iw_data : data_preserved s s';
  iw_used i : 0 <= i -> used s i = true -> ~ itable_block s i -> used s' i = true;
  iw_tables i : block_id i -> used s i = true -> ~ itable_block s i -> ~ itable_block s' i;
  iw_step : phased_step s s';
  iw_inodes : inode_freemap s' = inode_freemap s;
  iw_pwd : crfs_pwd s' = crfs_pwd s;
  iw_root : sb_root (super_block s') = sb_root (super_block s);
  iw_items : fm_mapsize (block_freemap s') = fm_mapsize (block_freemap s);
  iw_exists : ITABLE_BLOCKNUM s' (in_inode ino) <> 0;
  iw_fresh : one_block s s';
  iw_keep j : 0 <= j < 65536 -> ITABLE_BLOCKNUM s j <> 0 -> ITABLE_BLOCKNUM s' j <> 0;
}.

Lemma write_view s b d i :
  fs_ok s -> view (fs_write s b d) i = if i =? b then d else view s i.
Proof. intros. unfold view, fs_write. simpl. apply bl_write_view, ok_store. done. Qed.
Lemma write_base s b d i : fs_ok s -> base (fs_write s b d) i = base s i.
Proof. intros. unfold base, fs_write. simpl. apply bl_write_base, ok_store. done. Qed.
Lemma write_dirty s b d i : fs_ok s -> dirty (fs_write s b d) i = (i =? b) || dirty s i.
Proof. intros. unfold dirty, fs_write. simpl. apply bl_write_dirty, ok_store. done. Qed.
Lemma write_fs_ok s b d : fs_ok s -> block_id b -> block_ok d -> fs_ok (fs_write s b d).
Proof. intros [] ? ?. split; simpl; try done. by apply bl_write_ok. Qed.

Lemma shiftr8_range inum : 0 <= inum < 65536 -> 0 <= Z.shiftr inum 8 < 256.
Proof. intros. rewrite Z.shiftr_div_pow2 by lia. change (2 ^ 8) with 256. dlia. Qed.

Lemma table_witness k : 0 <= k < 256 -> exists j, 0 <= j < 65536 /\ Z.shiftr j 8 = k.
Proof.
  intros. exists (k * 256). split; [lia|].
  rewrite Z.shiftr_div_pow2 by lia. by apply Z.div_mul.
Qed.

(** Writing the itable block [b] of the table of [ino]. *)
Lemma write_itable_inode s b it ino j :
  fs_ok s -> vtable_inv s -> inode_ok ino -> block_ok it -> block_id b -> b <> 0 ->
  ITABLE_BLOCKNUM s (in_inode ino) = b -> 0 <= j < 65536 ->
  inode_at (write_itable s b it ino) j =
    if decide (j = in_inode ino) then ino
    else if decide (Z.shiftr j 8 = Z.shiftr (in_inode ino) 8) then it_get it (INODE_IDX j)
    else inode_at s j.
Proof.
  intros Hs Hvt Hino Hit Hb Hb0 Hblk Hj. unfold inode_at.
  replace (ITABLE_BLOCKNUM (write_itable s b it ino) j) with (ITABLE_BLOCKNUM s j) by done.
  unfold write_itable. rewrite write_view by done.
  pose proof (ok_inode ino Hino).
  destruct (decide (j = in_inode ino)) as [->|Hne].
  - rewrite Hblk, Z.eqb_refl. apply it_get_set; auto using INODE_IDX_range.
  - destruct (decide (Z.shiftr j 8 = Z.shiftr (in_inode ino) 8)) as [Heq|Hne8].
    + replace (ITABLE_BLOCKNUM s j) with b
        by (rewrite <- Hblk; unfold ITABLE_BLOCKNUM; by rewrite Heq).
      rewrite Z.eqb_refl. apply it_get_set_ne; auto using INODE_IDX_range.
      * apply INODE_IDX_range.
      * intros Hidx. apply Hne, inum_split; done || lia.
    + destruct (Z.eqb_spec (ITABLE_BLOCKNUM s j) b) as [Hjb|]; [|done].
      destruct Hne8. apply (vt_inj s); try done; congruence.
Qed.

Lemma vtable_inv_write s b d : vtable_inv s -> vtable_inv (fs_write s b d).
Proof. by intros []. Qed.

(** The state after moving a table to the fresh block [b]. *)
Definition relocate s (bm : freemap) (k b : Z) : fs St :=
  set_super_block (set_sb_vtable k b (super_block s)) (set_block_freemap bm s).

Lemma relocate_ITABLE s bm k b j :
  fs_ok s -> 0 <= k < 256 -> 0 <= j < 65536 -> block_id b ->
  ITABLE_BLOCKNUM (relocate s bm k b) j =
    if Z.shiftr j 8 =? k then b else ITABLE_BLOCKNUM s j.
Proof.
  intros Hs Hk Hj Hb. unfold ITABLE_BLOCKNUM, relocate. simpl.
  pose proof (shiftr8_range j Hj). pose proof (ok_sb s Hs).
  unfold sb_vtable, set_sb_vtable.
  destruct (Z.eqb_spec (Z.shiftr j 8) k) as [->|Hne].
  - rewrite get16_put16 by blk. by apply u16_small.
  - unfold put16. rewrite get16_put_ne; blk.
Qed.

(** What a relocation needs: a fresh block, and a bitmap in which it is used and
    nothing else but the old table (if any) has been freed. *)
Record relocation s (k : Z) (bm : freemap) (b old : Z) : Prop := {
  rl_k : 0 <= k < 256;
  rl_block : block_id b;
  rl_fresh : taken s b = false;
  rl_wf : fm_wf bm;
  rl_size : fm_mapsize bm = fm_mapsize (block_freemap s);
  rl_old : forall j, 0 <= j < 65536 -> Z.shiftr j 8 = k -> ITABLE_BLOCKNUM s j = old;
  rl_used : forall i, 0 <= i -> i <> old \/ old = 0 ->
    fm_used bm i = (i =? b) || used s i;
  rl_taken : forall i, 0 <= i -> fm_taken bm i = (i =? b) || taken s i;
  rl_used_new : fm_used bm b = true;
}.

Lemma relocate_ok s k bm b old :
  fs_ok s -> relocation s k bm b old -> fs_ok (relocate s bm k b).
Proof.
  intros [] []. split; simpl; try done; [lia|].
  apply block_ok_put16; [done|lia].
Qed.

Lemma relocate_alloc s k bm b old :
  fs_ok s -> relocation s k bm b old ->
  fs_alloc (set_super_block (set_sb_vtable k b (super_block (set_block_freemap bm s)))
              (set_block_freemap bm s)) = (true, relocate s bm k b).
Proof. intros Hs Hr. exact (alloc_ok _ (relocate_ok _ _ _ _ _ Hs Hr)). Qed.

Lemma relocation_fresh_ne0 s k bm b old :
  vtable_inv s -> relocation s k bm b old -> b <> 0.
Proof.
  intros Hvt Hr ->. pose proof (rl_fresh _ _ _ _ _ Hr) as Hf.
  pose proof (used_taken _ _ (vt_zero s Hvt)) as Ht. unfold taken in Hf. congruence.
Qed.

(** A fresh block holds no table. *)
Lemma relocation_fresh_table s k bm b old j :
  vtable_inv s -> relocation s k bm b old -> 0 <= j < 65536 -> ITABLE_BLOCKNUM s j <> b.
Proof.
  intros Hvt Hr Hj Heq. pose proof (rl_fresh _ _ _ _ _ Hr) as Hf.
  assert (used s b = true) as Hu by (apply vt_used; [done|]; by exists j).
  apply used_taken in Hu. unfold taken in Hf. congruence.
Qed.

Lemma relocate_vtable s k bm b old :
  fs_ok s -> vtable_inv s -> relocation s k bm b old -> vtable_inv (relocate s bm k b).
Proof.
  intros Hs Hvt Hr. pose proof (relocation_fresh_ne0 _ _ _ _ _ Hvt Hr) as Hb0.
  pose proof Hr as [Hk Hb Hf Hwf Hsz Hold Hu Ht Hun].
  assert (fm_used bm 0 = true) as H0.
  { destruct (decide (old = 0)) as [->|].
    - rewrite Hu by (lia || by right). rewrite (vt_zero s Hvt). apply orb_true_r.
    - rewrite Hu by lia. rewrite (vt_zero s Hvt). apply orb_true_r. }
  split; [| |done].
  - intros i (j & Hj & <-). rewrite relocate_ITABLE by done.
    destruct (Z.eqb_spec (Z.shiftr j 8) k) as [|Hne]; [done|].
    change (fm_used bm (ITABLE_BLOCKNUM s j) = true).
    destruct (decide (ITABLE_BLOCKNUM s j = 0)) as [->|Hj0]; [done|].
    rewrite Hu.
    + rewrite (vt_used s Hvt) by (by exists j). apply orb_true_r.
    + by apply vtable_block_id.
    + destruct (decide (old = 0)); [by right|left]. intros Heq.
      destruct Hne. destruct (table_witness k Hk) as (j' & Hj' & <-).
      apply (vt_inj s); try done. rewrite Heq. symmetry. by apply Hold.
  - intros a c Ha Hc. rewrite !relocate_ITABLE by done.
    destruct (Z.eqb_spec (Z.shiftr a 8) k), (Z.eqb_spec (Z.shiftr c 8) k); intros Hn0 Heq.
    + congruence.
    + by destruct (relocation_fresh_table s k bm b old c Hvt Hr Hc).
    + by destruct (relocation_fresh_table s k bm b old a Hvt Hr Ha).
    + by apply (vt_inj s).
Qed.

(** The relocated table, rewritten with the new inode. *)
Lemma relocate_written s k bm b old it ino :
  fs_ok s -> vtable_inv s -> inode_ok ino -> block_ok it ->
  k = Z.shiftr (in_inode ino) 8 ->
  relocation s k bm b old ->
  (old <> 0 -> it = view s old) ->
  inode_written s ino (write_itable (relocate s bm k b) b it ino).
Proof.
  intros Hs Hvt Hino Hit -> Hr Hold. pose proof (ok_inode ino Hino) as Hi.
  set (k := Z.shiftr (in_inode ino) 8) in *. set (s1 := relocate s bm k b).
  pose proof (relocate_ok _ _ _ _ _ Hs Hr) as Hs1.
  pose proof (relocate_vtable _ _ _ _ _ Hs Hvt Hr) as Hvt1.
  pose proof (relocation_fresh_ne0 _ _ _ _ _ Hvt Hr) as Hb0.
  pose proof Hr as [Hk Hb Hf Hwf Hsz Hrold Hru Hrt Hrun].
  assert (forall j, 0 <= j < 65536 ->
            ITABLE_BLOCKNUM s1 j = if Z.shiftr j 8 =? k then b else ITABLE_BLOCKNUM s j) as HIT
    by (intros; by apply relocate_ITABLE).
  assert (ITABLE_BLOCKNUM s1 (in_inode ino) = b) as HITi.
  { rewrite HIT by done. by rewrite Z.eqb_refl. }
  assert (forall i, itable_block s1 i -> i <> b -> itable_block s i) as Htab.
  { intros i (j & Hj & <-) Hne. rewrite (HIT j Hj) in *.
    destruct (Z.shiftr j 8 =? k); [done|]. by exists j. }
  assert (forall i, used s i = true -> ~ itable_block s i -> i <> old) as Hnold.
  { intros i _ Hnt ->. apply Hnt. exists (in_inode ino). split; [done|]. by apply Hrold. }
  split; try done.
  - apply write_fs_ok; auto using INODE_IDX_range with rom.
  - by apply (vtable_inv_write _ b (it_set (INODE_IDX (in_inode ino)) ino it)).
  - rewrite (write_itable_inode _ _ _ _ (in_inode ino)) by done. by rewrite decide_True.
  - intros j Hj Hne Hex. rewrite (write_itable_inode _ _ _ _ j) by done.
    rewrite decide_False by done. case_decide as Hjk.
    + assert (old <> 0) as Hn0.
      { rewrite <- (Hrold j) by done. destruct Hex; [done|contradiction]. }
      rewrite Hold by done. unfold inode_at. by rewrite (Hrold j).
    + unfold inode_at. rewrite HIT by done.
      destruct (Z.eqb_spec (Z.shiftr j 8) k); [done|]. done.
  - intros i Hi' Ht Hnt. unfold write_itable. rewrite write_view by done.
    destruct (Z.eqb_spec i b) as [->|]; [|done]. congruence.
  - intros i Hi0 Hu Hnt. change (fm_used bm i = true). rewrite Hru; [|done|].
    + rewrite Hu. apply orb_true_r.
    + left. by apply Hnold.
  - intros i Hi0 Hu Hnt Hit'. destruct (decide (i = b)) as [->|Hne].
    + apply used_taken in Hu. unfold taken in *. congruence.
    + by apply Hnt, Htab.
  - split.
    + intros i. unfold write_itable. by rewrite write_base.
    + intros i Hi0 Ht. change (fm_taken bm i = true). rewrite Hrt by done.
      rewrite Ht. apply orb_true_r.
    + intros i Hi0. unfold write_itable. rewrite write_dirty by done.
      destruct (Z.eqb_spec i b) as [->|]; [by right | by left].
  - unfold write_itable, s1, relocate. simpl. unfold sb_root, set_sb_vtable, put16.
    pose proof (ok_sb s Hs). apply get16_put_ne; blk.
  - change (ITABLE_BLOCKNUM s1 (in_inode ino) <> 0). by rewrite HITi.
  - exists b. intros i Hi0. change (fm_taken bm i = true -> taken s i = true \/ i = b).
    rewrite Hrt by done. destruct (Z.eqb_spec i b); [by right|by left].
  - intros j Hj Hn0. change (ITABLE_BLOCKNUM s1 j <> 0). rewrite HIT by done.
    by destruct (_ =? k).
Qed.

(** A table that is already dirty is updated in place. *)
Lemma in_place_written s b ino :
  fs_ok s -> vtable_inv s -> inode_ok ino ->
  ITABLE_BLOCKNUM s (in_inode ino) = b -> b <> 0 -> dirty s b = true ->
  inode_written s ino (write_itable s b (view s b) ino).
Proof.
  intros Hs Hvt Hino HIT Hb0 Hd. pose proof (ok_inode ino Hino) as Hi.
  assert (block_id b) as Hb by (rewrite <- HIT; by apply vtable_block_id).
  assert (block_ok (view s b)) as Hbk by by apply view_ok.
  assert (itable_block s b) as Htb by by exists (in_inode ino).
  assert (forall i, itable_block (write_itable s b (view s b) ino) i -> itable_block s i)
    as Htab by (intros i (j & Hj & <-); by exists j).
  split; try done.
  - apply write_fs_ok; auto using INODE_IDX_range with rom.
  - by apply (vtable_inv_write _ b (it_set (INODE_IDX (in_inode ino)) ino (view s b))).
  - rewrite (write_itable_inode _ _ _ _ (in_inode ino)) by done. by rewrite decide_True.
  - intros j Hj Hne _. rewrite (write_itable_inode _ _ _ _ j) by done.
    rewrite decide_False by done. case_decide as Hjk; [|done].
    unfold inode_at. replace (ITABLE_BLOCKNUM s j) with b; [done|].
    rewrite <- HIT. unfold ITABLE_BLOCKNUM. by rewrite Hjk.
  - intros i Hi' Ht Hnt. unfold write_itable. rewrite write_view by done.
    by destruct (Z.eqb_spec i b) as [->|].
  - split.
    + intros i. unfold write_itable. by rewrite write_base.
    + done.
    + intros i _. unfold write_itable. rewrite write_dirty by done.
      destruct (Z.eqb_spec i b) as [->|]; by left.
  - change (ITABLE_BLOCKNUM s (in_inode ino) <> 0). congruence.
  - exists 0. by left.
Qed.

#[export] Instance taken_proper : Proper ((≡) ==> (=) ==> (=)) taken.
Proof. intros s t Hst i ? <-. unfold taken. by rewrite Hst. Qed.
#[export] Instance used_proper : Proper ((≡) ==> (=) ==> (=)) used.
Proof. intros s t Hst i ? <-. unfold used. by rewrite Hst. Qed.
#[export] Instance itable_block_proper : Proper ((≡) ==> (=) ==> iff) itable_block.
Proof.
  intros s t Hst i ? <-. unfold itable_block.
  split; intros (j & Hj & E); exists j; [by rewrite <- Hst | by rewrite Hst].
Qed.

#[export] Instance vtable_inv_proper : Proper ((≡) ==> iff) vtable_inv.
Proof.
  assert (forall s t, s ≡ t -> vtable_inv s -> vtable_inv t) as Himp.
  { intros s t Heq [Hu Hinj H0]. split.
    - intros i. rewrite <- Heq. apply Hu.
    - intros a b. rewrite <- Heq. apply Hinj.
    - by rewrite <- Heq. }
  intros s t Heq. split; by apply Himp.
Qed.

Lemma inode_written_equiv s s0 ino s' :
  s0 ≡ s -> inode_written s0 ino s' -> inode_written s ino s'.
Proof.
  intros Heq [? ? ? Hot Hda Hus Hta Hst Hin Hpw Hro Hit ? [fb Hfb] Hke].
  split; try done.
  - intros j. rewrite <- Heq. apply Hot.
  - intros i. rewrite <- Heq. apply Hda.
  - intros i. rewrite <- Heq. apply Hus.
  - intros i. rewrite <- Heq. apply Hta.
  - by apply phased_step_trans with s0; [apply phased_step_equiv|].
  - by rewrite <- Heq.
  - by rewrite <- Heq.
  - by rewrite <- Heq.
  - by rewrite <- Heq.
  - exists fb. intros i. rewrite <- Heq. apply Hfb.
  - intros j. rewrite <- Heq. apply Hke.
Qed.

(** A call that ran out of blocks: only the search position of the block map
    and the cache may have changed. *)
Record out_of_space s s' : Prop := {
  os_full i : 0 <= i < fm_items (block_freemap s) -> taken s i = true;
  os_ok : fs_ok s';
  os_view i : view s' i = view s i;
  os_step : phased_step s s';
  os_sb : super_block s' = super_block s;
  os_used i : used s' i = used s i;
  os_inodes : inode_freemap s' = inode_freemap s;
}.

Lemma exhausted_space s s0 bm tmp :
  fs_ok s -> s0 ≡ s -> fm_wf bm -> fm_exhausted (block_freemap s) tmp bm ->
  out_of_space s (set_block_freemap bm s0).
Proof.
  intros Hs Heq Hwf [_ Hall Hu Hp Hsz]. pose proof Hs as Hs0. rewrite <- Heq in Hs0.
  assert (forall i, taken (set_block_freemap bm s0) i = taken s i) as Ht
    by (intros i; unfold taken, fm_taken; simpl; by rewrite Hu, Hp).
  split; try done.
  - destruct Hs0, Hs. split; simpl; try done. by rewrite Hsz.
  - intros i. change (view s0 i = view s i). by rewrite Heq.
  - split; intros i.
    + change (base s0 i = base s i). by rewrite Heq.
    + by rewrite Ht.
    + change (dirty (set_block_freemap bm s0) i) with (dirty s0 i). rewrite Heq. by left.
  - change (super_block s0 = super_block s). by rewrite Heq.
  - change (inode_freemap s0 = inode_freemap s). by rewrite Heq.
Qed.

(** A fresh block for a new table, and for moving an existing one. *)
Lemma relocation_new s k bm tmp :
  fs_ok s -> 0 <= k < 256 ->
  (forall j, 0 <= j < 65536 -> Z.shiftr j 8 = k -> ITABLE_BLOCKNUM s j = 0) ->
  fm_wf bm -> fm_allocated (block_freemap s) tmp bm ->
  relocation s k bm (u16 tmp) 0.
Proof.
  intros Hs Hk Hold Hwf [Hr Hf Hlow Hu Hp Hsz]. pose proof (ok_bm_size s Hs).
  unfold fm_items in Hr. rewrite u16_small by lia.
  split; try done; [split; lia| | |].
  - intros i Hi _. by apply Hu.
  - intros i Hi. unfold fm_taken. rewrite Hu, Hp by done. by rewrite <- orb_assoc.
  - rewrite Hu by lia. by rewrite Z.eqb_refl.
Qed.

Lemma relocation_move s k bm tmp old bm' :
  fs_ok s -> 0 <= k < 256 -> old <> 0 -> used s old = true -> 0 <= old ->
  (forall j, 0 <= j < 65536 -> Z.shiftr j 8 = k -> ITABLE_BLOCKNUM s j = old) ->
  fm_wf bm -> fm_allocated (block_freemap s) tmp bm ->
  freemap_unmark bm old = Some bm' ->
  relocation s k bm' (u16 tmp) old.
Proof.
  intros Hs Hk Hn0 Huo Hold0 Hold Hwf [Hr Hf Hlow Hu Hp Hsz] E.
  pose proof (ok_bm_size s Hs). unfold fm_items in Hr. rewrite u16_small by lia.
  assert (tmp <> old) as Hne by (intros ->; apply used_taken in Huo; congruence).
  assert (0 <= old < fm_items bm) as Hor.
  { split; [done|]. apply used_range; [done..|]. rewrite Hu by done.
    unfold used in Huo. rewrite Huo. apply orb_true_r. }
  destruct (freemap_unmark_spec bm old Hwf Hor) as (bm1 & E1 & Hwf1 & Hu1 & Hp1 & Hsz1).
  rewrite E in E1. injection E1 as <-.
  split; try done; [split; lia|congruence| | |].
  - intros i Hi [Hio|]; [|done]. rewrite Hu1, Hu by done.
    by apply Z.eqb_neq in Hio as ->.
  - intros i Hi. rewrite (unmark_taken bm old bm') by done.
    unfold fm_taken. rewrite Hu, Hp by done. by rewrite <- orb_assoc.
  - rewrite Hu1, Hu by lia. rewrite Z.eqb_refl. by apply Z.eqb_neq in Hne as ->.
Qed.

Lemma same_table_number s a b :
  Z.shiftr a 8 = Z.shiftr b 8 -> ITABLE_BLOCKNUM s a = ITABLE_BLOCKNUM s b.
Proof. unfold ITABLE_BLOCKNUM. by intros ->. Qed.

(** [crfs_write_inode] always returns; it either stores the inode, or reports
    [ENOSPC] with every block taken. *)
Lemma write_inode_spec s ino :
  fs_ok s -> vtable_inv s -> inode_ok ino ->
  exists r s', crfs_write_inode s ino = Some (r, s') /\
    ((r = 0 /\ inode_written s ino s') \/ (r = - ENOSPC /\ out_of_space s s')).
Proof.
  intros Hs Hvt Hino. pose proof (ok_inode ino Hino) as Hi.
  pose proof (shiftr8_range _ Hi) as Hk. unfold crfs_write_inode.
  pose proof (freemap_next_spec (block_freemap s) (ok_bm s Hs)) as Hnext.
  set (b0 := ITABLE_BLOCKNUM s (in_inode ino)) in *.
  assert (forall j, 0 <= j < 65536 -> Z.shiftr j 8 = Z.shiftr (in_inode ino) 8 ->
            ITABLE_BLOCKNUM s j = b0) as Hold by (intros; by apply same_table_number).
  destruct (Z.eqb_spec b0 0) as [Hb0|Hb0].
  { (* no table yet *)
    destruct (freemap_next (block_freemap s)) as [tmp bm].
    destruct Hnext as [Hwf [Hal|Hex]].
    - destruct (Z.ltb_spec tmp 0); [destruct Hal; lia|].
      assert (relocation s (Z.shiftr (in_inode ino) 8) bm (u16 tmp) 0) as Hr
        by (apply relocation_new; try done; intros; rewrite <- Hb0; by apply Hold).
      rewrite (relocate_alloc _ _ _ _ _ Hs Hr). cbn [negb].
      eexists _, _. split; [done|]. left. split; [done|].
      by apply (relocate_written s (Z.shiftr (in_inode ino) 8) bm (u16 tmp) 0); auto with rom.
    - rewrite (full_result _ _ _ Hex). simpl. eexists _, _. split; [done|]. right.
      split; [done|]. by apply (exhausted_space s s bm tmp). }
  assert (block_id b0) as Hbid by by apply vtable_block_id.
  destruct (fs_read_spec s b0) as (s0 & -> & Heq); [done..|].
  change (block_is_dirty (store s0) b0) with (dirty s0 b0).
  assert (dirty s0 b0 = dirty s b0) as -> by by rewrite Heq.
  assert (block_freemap s0 = block_freemap s) as -> by by rewrite Heq.
  destruct (dirty s b0) eqn:Hd; simpl.
  { eexists _, _. split; [done|]. left. split; [done|].
    apply (inode_written_equiv s s0); [done|].
    rewrite <- Heq. apply in_place_written; try done; by rewrite Heq. }
  destruct (freemap_next (block_freemap s)) as [tmp bm].
  destruct Hnext as [Hwf [Hal|Hex]].
  - destruct (Z.ltb_spec tmp 0); [destruct Hal; lia|].
    assert (used s b0 = true) as Hub by (apply (vt_used s Hvt); by exists (in_inode ino)).
    destruct (freemap_unmark_spec bm b0 Hwf) as (bm' & E & _).
    { split; [apply Hbid|]. apply used_range; [done|apply Hbid|].
      rewrite (alloc_used _ _ _ Hal) by apply Hbid.
      unfold used in Hub. rewrite Hub. apply orb_true_r. }
    rewrite E. simpl. eexists _, _. split; [done|]. left. split; [done|].
    apply (inode_written_equiv s s0); [done|].
    apply (relocate_written s0 (Z.shiftr (in_inode ino) 8) bm' (u16 tmp) b0);
      try done; rewrite ?Heq; try done.
    + by apply view_ok.
    + apply (relocation_move s0 _ bm tmp b0 bm'); try done; rewrite ?Heq; try done.
      * apply Hbid.
      * intros j. rewrite Heq. apply Hold.
  - rewrite (full_result _ _ _ Hex). simpl. eexists _, _. split; [done|]. right.
    split; [done|]. by apply (exhausted_space s s0 bm tmp).
Qed.

(** ** Without memory for a new table *)

(** A call that found a block for a new table, and no memory to make it in: the
    block is taken and the vtable names it, but nothing was written there. *)
Record table_unwritten s (ino : crfs_inode) s' : Prop := {
  tu_new : ITABLE_BLOCKNUM s (in_inode ino) = 0;
  tu_ok : fs_ok s';
  tu_vtable : vtable_inv s';
  tu_block : exists b, 0 < b < 65536 /\ taken s b = false /\
    (forall i, 0 <= i -> used s' i = (i =? b) || used s i) /\
    (forall j, 0 <= j < 65536 -> ITABLE_BLOCKNUM s' j =
       if Z.shiftr j 8 =? Z.shiftr (in_inode ino) 8 then b else ITABLE_BLOCKNUM s j);
  tu_store : store s' = store s;
  tu_inodes : inode_freemap s' = inode_freemap s;
  tu_pwd : crfs_pwd s' = crfs_pwd s;
}.

(** Only a new table is allocated. *)
Lemma write_inode_allocs s ino a :
  ITABLE_BLOCKNUM s (in_inode ino) <> 0 ->
  crfs_write_inode (set_allocs a s) ino =
    ('(r, s') ← crfs_write_inode s ino; Some (r, set_allocs a s')).
Proof.
  intros Hne. unfold crfs_write_inode.
  change (ITABLE_BLOCKNUM (set_allocs a s) (in_inode ino)) with (ITABLE_BLOCKNUM s (in_inode ino)).
  apply Z.eqb_neq in Hne as ->. unfold fs_read. cbn [store set_allocs].
  destruct (crfs_read_block (store s) _) as [it st].
  cbn [set_store set_allocs store block_freemap inode_freemap super_block crfs_which_super
       crfs_pwd errno allocs].
  destruct (negb _); [|done]. destruct (freemap_next (block_freemap s)) as [tmp bm].
  destruct (tmp <? 0); [done|]. by destruct (freemap_unmark bm _).
Qed.

(** The three outcomes, whatever memory there is. *)
Lemma write_inode_outcomes s ino a :
  fs_ok s -> vtable_inv s -> inode_ok ino ->
  exists r s' a', crfs_write_inode (set_allocs a s) ino = Some (r, set_allocs a' s') /\
    ((r = 0 /\ inode_written s ino s') \/ (r = - ENOSPC /\ out_of_space s s') \/
     (r = - ENOMEM /\ hd true a = false /\ table_unwritten s ino s')).
Proof.
  intros Hs Hvt Hino. pose proof (ok_inode ino Hino) as Hi.
  pose proof (write_inode_spec s ino Hs Hvt Hino) as (r & s' & E & Hr).
  destruct (decide (ITABLE_BLOCKNUM s (in_inode ino) = 0)) as [H0|Hne]; last first.
  { exists r, s', a. rewrite write_inode_allocs, E by done. split; [done|]. tauto. }
  unfold crfs_write_inode in *.
  change (ITABLE_BLOCKNUM (set_allocs a s) (in_inode ino)) with (ITABLE_BLOCKNUM s (in_inode ino)).
  rewrite H0 in *. cbn [Z.eqb] in *. cbn [block_freemap set_allocs].
  pose proof (freemap_next_spec (block_freemap s) (ok_bm s Hs)) as Hnext.
  destruct (freemap_next (block_freemap s)) as [tmp bm].
  destruct Hnext as [Hwf [Hal|Hex]]; last first.
  { assert ((tmp <? 0) = true) as Hlt by by rewrite (full_result _ _ _ Hex).
    rewrite Hlt in *. injection E as <- <-.
    exists (- ENOSPC), (set_block_freemap bm s), a. split; [reflexivity|]. right. left.
    split; [done|]. by apply (exhausted_space s s bm tmp). }
  destruct (Z.ltb_spec tmp 0); [destruct Hal; lia|].
  assert (relocation s (Z.shiftr (in_inode ino) 8) bm (u16 tmp) 0) as Hrl.
  { apply relocation_new; try done; [by apply shiftr8_range|].
    intros j Hj Hk. rewrite <- H0. by apply same_table_number. }
  rewrite (relocate_alloc _ _ _ _ _ Hs Hrl) in E. cbn [negb] in E. injection E as <- <-.
  unfold fs_alloc, next_alloc. cbn [allocs set_allocs set_super_block set_block_freemap].
  destruct (hd true a) eqn:Ha; cbn [negb].
  - eexists 0, (write_itable (relocate s bm _ _) (u16 tmp) _ ino), (tl a).
    split; [reflexivity|]. left. destruct Hr as [[_ Hr]|[Hr _]]; [|done]. by split.
  - exists (- ENOMEM), (relocate s bm (Z.shiftr (in_inode ino) 8) (u16 tmp)), (tl a).
    split; [reflexivity|]. right. right. split; [done|]. split; [done|].
    pose proof (relocation_fresh_ne0 _ _ _ _ _ Hvt Hrl) as Hb0. destruct (rl_block _ _ _ _ _ Hrl).
    split; try done.
    + by apply (relocate_ok _ _ _ _ _ Hs Hrl).
    + by apply (relocate_vtable _ _ _ _ _ Hs Hvt Hrl).
    + exists (u16 tmp). split; [lia|]. split; [apply Hrl|]. split.
      * intros i Hi0. by apply (rl_used _ _ _ _ _ Hrl); [|right].
      * intros j Hj. apply relocate_ITABLE; try done. by apply shiftr8_range.
Qed.
End inode.
