(* ===== verification/Namei.v ===== *)
(** * Namei: directory lookup and path resolution

    Model of [crfs_lookup_dirent], [crfs_namei], [inode_lookup_from_namei] and
    [is_dir] of [cobalt_romfs/crfs_func.c].  A path is the list of its characters,
    without the terminating zero byte; the pointers [str_start] and [str_end] are
    the element read so far and the rest of the path. *)

From S2P Require Import Prelude Freemap Layout BlockLayer Fs Inode.

Definition slash : Z := 47.

(** The loop over the dirents: the first one in use with this name.  [None] is
    the code's return value -1. *)
Definition dirent_index (dir : block) (name : list Z) : option Z :=
  List.find (fun i => str_eqb name (d_name dir i) && negb (d_inode dir i =? 0))
    (seqZ 0 CRFS_DIR_NENTS).

Definition crfs_lookup_dirent (dir : block) (name : list Z) : option crfs_dirent :=
  if CRFS_FILENAME_MAX <? Z.of_nat (length name) then None
  else option_map (d_entry dir) (dirent_index dir name).

Definition is_dir_mask (i : crfs_inode) : bool :=
  negb (Z.land (in_fmask i) CRFS_FMASK_DIR =? 0).

Section namei.
Context {St : Type} `{BlockLayer St}.
Implicit Types s : fs St.

(** The [while (!done)] loop.  [name] is the text from [str_start] to
    [str_end], [rest] the text from [str_end] on.  An error is [inl]; success
    gives the inode of the directory and the last element of the path. *)
Fixpoint namei_loop s (inode : crfs_inode) (name rest : list Z) :
    (Z + crfs_inode * list Z) * fs St :=
  match rest with
  | [] => (inr (inode, name), s)
  | c :: rest =>
    if c =? slash then
      match name with
      | [] => namei_loop s inode [] rest     (* multiple slashes are OK *)
      | _ =>
        let '(d, s) := fs_read s (in_first inode) in
        match crfs_lookup_dirent d name with
        | None => (inl (- ENOENT), s)
        | Some de =>
          match rest with
          | [] => (inr (inode, name), s)     (* it is the end of path *)
          | _ =>
            let '(inode, s) := crfs_lookup_inode s (de_inode de) in
            if (in_inode inode =? 0) || negb (is_dir_mask inode)
            then (inl (- ENOTDIR), s)
            else namei_loop s inode [] rest
          end
        end
      end
    else namei_loop s inode (name ++ [c]) rest
  end.

Definition crfs_namei s (fname : list Z) : (Z + crfs_inode * list Z) * fs St :=
  match fname with
  | c :: rest =>
    if c =? slash then
      let '(inode, s) := crfs_lookup_inode s (sb_root (super_block s)) in
      namei_loop s inode [] rest
    else
      let '(inode, s) := crfs_lookup_inode s (crfs_pwd s) in
      namei_loop s inode [] fname
  | [] =>
    let '(inode, s) := crfs_lookup_inode s (crfs_pwd s) in
    namei_loop s inode [] fname
  end.

Definition inode_lookup_from_namei s (dirnode : crfs_inode) (fname : list Z) :
    crfs_inode * fs St :=
  match fname with
  | [] => (dirnode, s)                        (* hack for "/" *)
  | _ =>
    let '(d, s) := fs_read s (in_first dirnode) in
    match crfs_lookup_dirent d fname with
    | None => (Inode 0 0 0 0 0, s)
    | Some de => crfs_lookup_inode s (de_inode de)
    end
  end.

Definition is_dir s (dirnode : crfs_inode) (fname : list Z) : bool * fs St :=
  let '(inode, s) := inode_lookup_from_namei s dirnode fname in
  (is_dir_mask inode, s).

(** ** Specification *)

(** What a directory says about a name. *)
Definition lookup s (dirnode : crfs_inode) (name : list Z) : option Z :=
  option_map de_inode (crfs_lookup_dirent (view s (in_first dirnode)) name).

(** The inode is a directory that a path can go through. *)
Definition searchable (i : crfs_inode) : bool :=
  negb (in_inode i =? 0) && is_dir_mask i.

(** [resolves s dir p r]: resolving the path [p] from the directory [dir] gives
    [r]. *)
Inductive resolves s : crfs_inode -> list Z -> Z + crfs_inode * list Z -> Prop :=
| res_leaf dir name :
    slash ∉ name -> resolves s dir name (inr (dir, name))
| res_slash dir p r :
    resolves s dir p r -> resolves s dir (slash :: p) r
| res_trailing dir name n :
    name <> [] -> slash ∉ name -> lookup s dir name = Some n ->
    resolves s dir (name ++ [slash]) (inr (dir, name))
| res_enoent dir name p :
    name <> [] -> slash ∉ name -> lookup s dir name = None ->
    resolves s dir (name ++ slash :: p) (inl (- ENOENT))
| res_enotdir dir name n p :
    name <> [] -> slash ∉ name -> p <> [] -> lookup s dir name = Some n ->
    searchable (inode_at s n) = false ->
    resolves s dir (name ++ slash :: p) (inl (- ENOTDIR))
| res_step dir name n p r :
    name <> [] -> slash ∉ name -> p <> [] -> lookup s dir name = Some n ->
    searchable (inode_at s n) = true ->
    resolves s (inode_at s n) p r ->
    resolves s dir (name ++ slash :: p) r.

(** Where resolution starts. *)
Definition start_dir s (p : list Z) : crfs_inode :=
  inode_at s
    (match p with c :: _ => if c =? slash then sb_root (super_block s) else crfs_pwd s
     | [] => crfs_pwd s end).

(** ** Lookups in a directory block *)

Lemma lookup_dirent_Some d name de :
  crfs_lookup_dirent d name = Some de ->
  exists i, 0 <= i < 64 /\ d_name d i = name /\ d_inode d i <> 0 /\ de = d_entry d i /\
    (length name <= 59)%nat /\
    forall j, 0 <= j < i -> d_name d j = name -> d_inode d j = 0.
Proof.
  unfold crfs_lookup_dirent, dirent_index, CRFS_FILENAME_MAX, CRFS_DIR_NENTS.
  destruct (Z.ltb_spec 59 (Z.of_nat (length name))); [done|].
  destruct (List.find _ _) as [i|] eqn:E; simpl; [|done]. intros [= <-].
  apply find_seqZ_Some in E as (Hi & [Hn Hz]%andb_true_iff & Hlow).
  apply str_eqb_eq in Hn as ->. apply negb_true_iff, Z.eqb_neq in Hz.
  exists i. split; [lia|]. split_and!; try done; [lia|]. intros j Hj Hnj.
  specialize (Hlow j Hj). cbv beta in Hlow. rewrite <- Hnj, str_eqb_refl in Hlow.
  apply negb_false_iff in Hlow. lia.
Qed.

Lemma lookup_dirent_None d name :
  crfs_lookup_dirent d name = None ->
  (59 < length name)%nat \/ forall j, 0 <= j < 64 -> d_name d j = name -> d_inode d j = 0.
Proof.
  unfold crfs_lookup_dirent, dirent_index, CRFS_FILENAME_MAX, CRFS_DIR_NENTS.
  destruct (Z.ltb_spec 59 (Z.of_nat (length name))); [left; lia|].
  destruct (List.find _ _) as [i|] eqn:E; simpl; [done|]. intros _. right.
  intros j Hj Hnj. pose proof (find_seqZ_None _ _ _ E j Hj) as Hlow.
  cbv beta in Hlow. rewrite Hnj, str_eqb_refl in Hlow.
  apply negb_false_iff in Hlow. lia.
Qed.

(** A name is found exactly when some entry in use carries it. *)
Lemma lookup_dirent_iff d name :
  (length name <= 59)%nat ->
  is_Some (crfs_lookup_dirent d name) <->
  exists i, 0 <= i < 64 /\ d_name d i = name /\ d_inode d i <> 0.
Proof.
  intros Hl. split.
  - intros [de Hde]. apply lookup_dirent_Some in Hde as (i & Hi & Hn & Hz & _). by exists i.
  - intros (i & Hi & Hn & Hz). destruct (crfs_lookup_dirent d name) eqn:E; [done|].
    apply lookup_dirent_None in E as [|Hj]; [lia|]. by destruct Hz; apply Hj.
Qed.

Lemma d_inode_range d i : block_ok d -> 0 <= d_inode d i < 65536.
Proof. intros. by apply get16_block. Qed.

(** ** The code implements the specification *)

#[export] Instance lookup_proper : Proper ((≡) ==> (=) ==> (=) ==> (=)) lookup.
Proof. intros s t Heq d ? <- n ? <-. unfold lookup. by rewrite Heq. Qed.

Lemma resolves_equiv s t dir p r : s ≡ t -> resolves s dir p r -> resolves t dir p r.
Proof.
  intros Heq. induction 1.
  - by apply res_leaf.
  - by apply res_slash.
  - eapply res_trailing; [done..|]. by rewrite <- Heq.
  - apply res_enoent; [done..|]. by rewrite <- Heq.
  - eapply res_enotdir; [done..| |]; by rewrite <- Heq.
  - assert (inode_at t n = inode_at s n) as Hn by by rewrite Heq.
    eapply res_step; [done..| | |by rewrite Hn]; [by rewrite <- Heq|by rewrite Hn].
Qed.

Lemma cons_match {A B} (l : list A) (a b : B) :
  l <> [] -> match l with [] => a | _ => b end = b.
Proof. by destruct l. Qed.

Lemma namei_loop_spec rest s dir name :
  fs_ok s -> inode_ok dir -> slash ∉ name ->
  exists r s', namei_loop s dir name rest = (r, s') /\ s' ≡ s /\
    resolves s dir (name ++ rest) r.
Proof.
  revert s dir name. induction rest as [|c rest IH]; intros s dir name Hs Hdir Hn.
  { eexists _, s. split; [done|]. split; [done|]. rewrite app_nil_r. by apply res_leaf. }
  simpl. destruct (Z.eqb_spec c slash) as [->|Hc]; last first.
  { destruct (IH s dir (name ++ [c])) as (r & s' & -> & Heq & Hr);
      [done..|by rewrite not_elem_of_app, list_elem_of_singleton|].
    exists r, s'. rewrite <- app_assoc in Hr. done. }
  destruct (decide (name = [])) as [->|Hne].
  { destruct (IH s dir []) as (r & s' & -> & Heq & Hr); [done..|].
    exists r, s'. split_and!; [done..|]. by apply res_slash. }
  rewrite cons_match by done.
  pose proof (ok_first dir Hdir) as Hfirst.
  destruct (fs_read_spec s (in_first dir)) as (s1 & -> & Heq1); [done..|].
  destruct (crfs_lookup_dirent (view s (in_first dir)) name) as [de|] eqn:Hl; last first.
  { eexists _, s1. split_and!; [done..|].
    apply res_enoent; [done..|]. unfold lookup. by rewrite Hl. }
  assert (lookup s dir name = Some (de_inode de)) as Hlk by (unfold lookup; by rewrite Hl).
  destruct (decide (rest = [])) as [->|Hrest].
  { eexists _, s1. split_and!; [done..|]. by eapply res_trailing. }
  rewrite cons_match by done.
  destruct (lookup_inode_spec s1 (de_inode de)) as (s2 & -> & Heq2); [by rewrite Heq1|].
  assert (inode_at s1 (de_inode de) = inode_at s (de_inode de)) as -> by by rewrite Heq1.
  assert (s2 ≡ s) as Heq by by rewrite Heq2.
  destruct ((in_inode _ =? 0) || _) eqn:Hsr.
  { eexists _, s2. split_and!; [done..|].
    eapply res_enotdir; try done. unfold searchable.
    by destruct (in_inode _ =? 0), (is_dir_mask _). }
  destruct (IH s2 (inode_at s (de_inode de)) []) as (r & s3 & -> & Heq3 & Hr).
  - by rewrite Heq.
  - by apply inode_at_ok.
  - set_solver.
  - exists r, s3. split_and!; [done|by rewrite Heq3|].
    eapply res_step; try done.
    + unfold searchable. by destruct (in_inode _ =? 0), (is_dir_mask _).
    + by apply (resolves_equiv s2).
Qed.

Lemma namei_spec s p :
  fs_ok s ->
  exists r s', crfs_namei s p = (r, s') /\ s' ≡ s /\ resolves s (start_dir s p) p r.
Proof.
  intros Hs. unfold crfs_namei, start_dir.
  assert (forall n rest, exists r s',
            (let '(inode, s0) := crfs_lookup_inode s n in namei_loop s0 inode [] rest) = (r, s')
            /\ s' ≡ s /\ resolves s (inode_at s n) rest r) as Hgo.
  { intros n rest. destruct (lookup_inode_spec s n) as (s1 & -> & Heq1); [done|].
    destruct (namei_loop_spec rest s1 (inode_at s n) []) as (r & s2 & -> & Heq2 & Hr).
    - by rewrite Heq1.
    - by apply inode_at_ok.
    - set_solver.
    - exists r, s2. split_and!; [done|by rewrite Heq2|]. by apply (resolves_equiv s1). }
  destruct p as [|c p]; [apply Hgo|]. destruct (Z.eqb_spec c slash) as [->|]; [|apply Hgo].
  destruct (Hgo (sb_root (super_block s)) p) as (r & s' & E & Heq & Hr).
  exists r, s'. split_and!; [done..|]. by apply res_slash.
Qed.

(** Scanning a name that has no slash. *)
Lemma namei_loop_scan s dir acc name rest :
  slash ∉ name -> namei_loop s dir acc (name ++ rest) = namei_loop s dir (acc ++ name) rest.
Proof.
  revert acc. induction name as [|c name IH]; intros acc Hn; [by rewrite app_nil_r|].
  simpl. destruct (Z.eqb_spec c slash) as [->|]; [set_solver|].
  rewrite IH by set_solver. by rewrite <- app_assoc.
Qed.

(** One element of a path: the loop after [name] and its slash. *)
Lemma namei_loop_element s s0 dir name rest :
  fs_ok s -> inode_ok dir -> s0 ≡ s -> name <> [] -> slash ∉ name ->
  exists s', s' ≡ s /\
    namei_loop s0 dir [] (name ++ slash :: rest) =
    match lookup s dir name with
    | None => (inl (- ENOENT), s')
    | Some n =>
      match rest with
      | [] => (inr (dir, name), s')
      | _ =>
        let '(inode, s) := crfs_lookup_inode s' n in
        if (in_inode inode =? 0) || negb (is_dir_mask inode)
        then (inl (- ENOTDIR), s) else namei_loop s inode [] rest
      end
    end.
Proof.
  intros Hs Hdir Heq Hne Hn. rewrite namei_loop_scan by done. simpl.
  rewrite cons_match by done.
  destruct (fs_read_spec s0 (in_first dir)) as (s1 & -> & Heq1);
    [by rewrite Heq|by apply ok_first|].
  exists s1. split; [by rewrite Heq1|]. unfold lookup.
  assert (view s0 (in_first dir) = view s (in_first dir)) as -> by by rewrite Heq.
  by destruct (crfs_lookup_dirent _ name).
Qed.

Lemma searchable_test i :
  (in_inode i =? 0) || negb (is_dir_mask i) = negb (searchable i).
Proof. unfold searchable. by destruct (in_inode i =? 0), (is_dir_mask i). Qed.

Lemma namei_loop_complete s dir p r :
  fs_ok s -> inode_ok dir -> resolves s dir p r ->
  forall s0, s0 ≡ s -> fst (namei_loop s0 dir [] p) = r.
Proof.
  intros Hs Hdir Hr. induction Hr as
    [dir name Hn|dir p r Hr IH|dir name n Hne Hn Hl|dir name p Hne Hn Hl
    |dir name n p Hne Hn Hp Hl Hsr|dir name n p r Hne Hn Hp Hl Hsr Hr IH]; intros s0 Heq.
  - rewrite <- (app_nil_r name), namei_loop_scan by done. simpl. by rewrite app_nil_r.
  - simpl. by apply IH.
  - destruct (namei_loop_element s s0 dir name []) as (s1 & _ & ->); [done..|]. by rewrite Hl.
  - destruct (namei_loop_element s s0 dir name p) as (s1 & _ & ->); [done..|]. by rewrite Hl.
  - destruct (namei_loop_element s s0 dir name p) as (s1 & Heq1 & ->); [done..|].
    rewrite Hl, cons_match by done.
    destruct (lookup_inode_spec s1 n) as (s2 & -> & _); [by rewrite Heq1|].
    assert (inode_at s1 n = inode_at s n) as -> by by rewrite Heq1.
    by rewrite searchable_test, Hsr.
  - destruct (namei_loop_element s s0 dir name p) as (s1 & Heq1 & ->); [done..|].
    rewrite Hl, cons_match by done.
    destruct (lookup_inode_spec s1 n) as (s2 & -> & Heq2); [by rewrite Heq1|].
    assert (inode_at s1 n = inode_at s n) as -> by by rewrite Heq1.
    rewrite searchable_test, Hsr. simpl. apply IH; [by apply inode_at_ok|].
    by rewrite Heq2.
Qed.

Lemma resolves_det s dir p r1 r2 :
  fs_ok s -> inode_ok dir -> resolves s dir p r1 -> resolves s dir p r2 -> r1 = r2.
Proof.
  intros Hs Hdir H1 H2.
  rewrite <- (namei_loop_complete s dir p r1 Hs Hdir H1 s) by done.
  by rewrite <- (namei_loop_complete s dir p r2 Hs Hdir H2 s) by done.
Qed.

(** ** The leaf of a path *)

(** The inode of [fname] in [dirnode]: the directory itself for an empty name,
    and no inode when the name is not there. *)
Definition leaf_inode s (dirnode : crfs_inode) (fname : list Z) : crfs_inode :=
  match fname with
  | [] => dirnode
  | _ => match lookup s dirnode fname with
         | Some n => inode_at s n
         | None => Inode 0 0 0 0 0
         end
  end.

Lemma leaf_inode_spec s dirnode fname :
  fs_ok s -> inode_ok dirnode ->
  exists s', inode_lookup_from_namei s dirnode fname = (leaf_inode s dirnode fname, s') /\
    s' ≡ s.
Proof.
  intros Hs Hdir. unfold inode_lookup_from_namei, leaf_inode.
  destruct (decide (fname = [])) as [->|Hne]; [by exists s|].
  rewrite !cons_match by done.
  destruct (fs_read_spec s (in_first dirnode)) as (s1 & -> & Heq1);
    [done|by apply ok_first|].
  unfold lookup. destruct (crfs_lookup_dirent _ fname) as [de|]; simpl; [|by exists s1].
  destruct (lookup_inode_spec s1 (de_inode de)) as (s2 & -> & Heq2); [by rewrite Heq1|].
  assert (inode_at s1 (de_inode de) = inode_at s (de_inode de)) as -> by by rewrite Heq1.
  exists s2. split; [done|]. by rewrite Heq2.
Qed.

Lemma is_dir_spec s dirnode fname :
  fs_ok s -> inode_ok dirnode ->
  exists s', is_dir s dirnode fname = (is_dir_mask (leaf_inode s dirnode fname), s') /\
    s' ≡ s.
Proof.
  intros Hs Hdir. unfold is_dir.
  destruct (leaf_inode_spec s dirnode fname Hs Hdir) as (s' & -> & Heq). by exists s'.
Qed.

(** The directory a successful resolution returns is well formed. *)
Lemma resolves_dir_ok s dir p d leaf :
  fs_ok s -> inode_ok dir -> resolves s dir p (inr (d, leaf)) -> inode_ok d.
Proof.
  intros Hs Hdir Hr. remember (inr (d, leaf)) as r eqn:E.
  induction Hr; simplify_eq; auto using inode_at_ok.
Qed.

(** The leaf has no slash. *)
Lemma resolves_leaf s dir p d leaf :
  resolves s dir p (inr (d, leaf)) -> slash ∉ leaf.
Proof.
  intros Hr. remember (inr (d, leaf)) as r eqn:E. induction Hr; by simplify_eq; auto.
Qed.
(** ** Memory

    Path resolution allocates nothing: it does the same whatever [malloc] gives,
    and leaves that as it was. *)

Lemma fs_read_allocs s a i :
  fs_read (set_allocs a s) i = (fst (fs_read s i), set_allocs a (snd (fs_read s i))).
Proof. unfold fs_read. cbn [store set_allocs]. by destruct (crfs_read_block (store s) i). Qed.

Lemma lookup_inode_allocs s a n :
  crfs_lookup_inode (set_allocs a s) n =
    (fst (crfs_lookup_inode s n), set_allocs a (snd (crfs_lookup_inode s n))).
Proof.
  unfold crfs_lookup_inode.
  change (ITABLE_BLOCKNUM (set_allocs a s) n) with (ITABLE_BLOCKNUM s n).
  rewrite fs_read_allocs. by destruct (fs_read s _).
Qed.

Lemma namei_loop_allocs rest a s dir name :
  namei_loop (set_allocs a s) dir name rest =
    (fst (namei_loop s dir name rest), set_allocs a (snd (namei_loop s dir name rest))).
Proof.
  revert s dir name. induction rest as [|c rest IH]; intros s dir name; [done|].
  cbn [namei_loop]. destruct (c =? slash); [|apply IH]. destruct name as [|x name]; [apply IH|].
  rewrite fs_read_allocs. destruct (fs_read s (in_first dir)) as [d s1]. cbn [fst snd].
  destruct (crfs_lookup_dirent d _) as [de|]; [|done]. destruct rest as [|c' rest]; [done|].
  rewrite lookup_inode_allocs. destruct (crfs_lookup_inode s1 (de_inode de)) as [i s2].
  cbn [fst snd]. destruct (_ || _); [done|apply IH].
Qed.

Lemma namei_allocs s a p :
  crfs_namei (set_allocs a s) p = (fst (crfs_namei s p), set_allocs a (snd (crfs_namei s p))).
Proof.
  assert (forall n l,
    (let '(inode, s) := crfs_lookup_inode (set_allocs a s) n in namei_loop s inode [] l) =
    (let r := let '(inode, s) := crfs_lookup_inode s n in namei_loop s inode [] l in
     (fst r, set_allocs a (snd r)))) as Hgo.
  { intros n l. rewrite lookup_inode_allocs. destruct (crfs_lookup_inode s n) as [i s1].
    apply namei_loop_allocs. }
  unfold crfs_namei. destruct p as [|c p]; [apply Hgo|]. destruct (c =? slash); apply Hgo.
Qed.

Lemma inode_lookup_allocs s a d leaf :
  inode_lookup_from_namei (set_allocs a s) d leaf =
    (fst (inode_lookup_from_namei s d leaf), set_allocs a (snd (inode_lookup_from_namei s d leaf))).
Proof.
  destruct leaf as [|c leaf]; [done|]. unfold inode_lookup_from_namei. rewrite fs_read_allocs.
  destruct (fs_read s (in_first d)) as [b s1]. cbn [fst snd].
  destruct (crfs_lookup_dirent b _) as [de|]; [|done]. apply lookup_inode_allocs.
Qed.
End namei.
