(* ===== verification/Directory.v ===== *)
(** * Directory: creating and reading directories and their entries

    Model of [crfs_create], [crfs_mkdir], [crfs_stat], [crfs_open], [crfs_opendir],
    [crfs_readdir] and [crfs_closedir] of [cobalt_romfs/crfs_func.c].  A failing
    call returns -1 (or NULL) and sets [errno]. *)

From S2P Require Import Prelude Freemap Layout BlockLayer Fs Inode Namei.

Definition CO_FILE_MAGIC : Z := 12644608.   (* 0x00c0f100 *)
Definition CO_DIR_MAGIC : Z := 12636416.    (* 0x00c0d100 *)

Record CO_FILE := CoFile {
  F_magic : Z;
  F_inode : Z;       (* inode number *)
  F_curblock : Z;    (* current fblock block number *)
  F_fpos : Z;        (* file position *)
  F_nospc : Z;       (* are we out of disk space? *)
  F_fblock : block;  (* currently active fblock *)
}.

Record CO_DIR := CoDir {
  D_magic : Z;
  D_inode : Z;
  D_pos : Z;
  D_dirent : crfs_dirent;  (* last read dirent *)
}.

Record crfs_stat_t := CrfsStat { st_ino : Z; st_fmask : Z; st_size : Z }.

(** The first unused entry of a directory. *)
Definition free_dirent (d : block) : option Z :=
  List.find (fun i => d_inode d i =? 0) (seqZ 0 CRFS_DIR_NENTS).

(** The entry for a new inode. *)
Definition populate_dirent (i inum : Z) (name : list Z) (d : block) : block :=
  strncpy_d_name i name (set_d_inode i inum d).

Section directory.
Context {St : Type} `{BlockLayer St}.
Implicit Types s : fs St.

(** [errno = e; return -1] *)
Definition fail (e : Z) s : Z * fs St := (-1, set_errno e s).

(** The phased commit of a directory block, common to [crfs_create] and
    [crfs_mkdir]: a clean block is replaced by a fresh one.  Gives the block to
    write, or the error of [crfs_write_inode]. *)
Definition commit_dirblock s (dirnode : crfs_inode) (dirblock : Z) :
    option ((Z + Z) * fs St) :=
  if negb (block_is_dirty (store s) dirblock) then
    let '(dirblock2, bm) := freemap_next (block_freemap s) in
    bm ← freemap_unmark bm dirblock;
    let s := set_block_freemap bm s in
    let dirblock := u16 dirblock2 in
    let dirnode := Inode (in_inode dirnode) dirblock dirblock
                     (in_fsize dirnode) (in_fmask dirnode) in
    '(r, s) ← crfs_write_inode s dirnode;
    Some (if r <? 0 then inl r else inr dirblock, s)
  else Some (inr dirblock, s).

(** The end of [crfs_create] and [crfs_mkdir]: commit the directory block and
    populate entry [i] of its contents [d]. *)
Definition add_dirent s (dirnode : crfs_inode) (d : block) (i inum : Z) (name : list Z) :
    option (Z * fs St) :=
  '(c, s) ← commit_dirblock s dirnode (in_first dirnode);
  match c with
  | inl r => Some (fail (- r) s)
  | inr dirblock => Some (0, fs_write s dirblock (populate_dirent i inum name d))
  end.

(** The [if] in the loop body of [crfs_create], for the free entry [i]. *)
Definition create_in s (dirnode : crfs_inode) (d : block) (i : Z) (fname : list Z) :
    option (Z * fs St) :=
  let '(inum, im) := freemap_next (inode_freemap s) in
  let s := set_inode_freemap im s in
  let inode := Inode (u16 inum) 0 0 0 CRFS_FMASK_FILE in
  '(r, s) ← crfs_write_inode s inode;
  if r <? 0 then Some (fail (- r) s)
  else add_dirent s dirnode d i inum fname.

Definition crfs_create s (fname : list Z) : option (Z * fs St) :=
  let '(r, s) := crfs_namei s fname in
  match r with
  | inl r => Some (fail (- r) s)
  | inr (dirnode, fname) =>
    if CRFS_FILENAME_MAX <? Z.of_nat (length fname) then Some (fail ENAMETOOLONG s) else
    let '(isd, s) := is_dir s dirnode fname in
    if isd : bool then Some (fail EISDIR s) else
    let '(d, s) := fs_read s (in_first dirnode) in
    match crfs_lookup_dirent d fname with
    | Some _ => Some (fail EEXIST s)
    | None =>
      match free_dirent d with
      | None => Some (fail ENOSPC s)
      | Some i => create_in s dirnode d i fname
      end
    end
  end.

(** The contents of a new directory. *)
Definition new_directory (inum parent : Z) : block :=
  strcpy_d_name 1 [46; 46] (set_d_inode 1 parent
    (strcpy_d_name 0 [46] (set_d_inode 0 inum (zeros BLOCK)))).

Definition mkdir_in s (dirnode : crfs_inode) (d : block) (i : Z) (path : list Z) :
    option (Z * fs St) :=
  let '(inum, im) := freemap_next (inode_freemap s) in
  let s := set_inode_freemap im s in
  let '(blocknum, bm) := freemap_next (block_freemap s) in
  let s := set_block_freemap bm s in
  let inode := Inode (u16 inum) (u16 blocknum) (u16 blocknum) 0 CRFS_FMASK_DIR in
  let s := fs_write s (u16 blocknum) (new_directory inum (in_inode dirnode)) in
  '(r, s) ← crfs_write_inode s inode;
  if r <? 0 then Some (fail (- r) s)
  else add_dirent s dirnode d i inum path.

Definition crfs_mkdir s (path : list Z) : option (Z * fs St) :=
  let '(r, s) := crfs_namei s path in
  match r with
  | inl r => Some (fail (- r) s)
  | inr (dirnode, path) =>
    if CRFS_FILENAME_MAX <? Z.of_nat (length path) then Some (fail ENAMETOOLONG s) else
    let '(d, s) := fs_read s (in_first dirnode) in
    match crfs_lookup_dirent d path with
    | Some _ => Some (fail EEXIST s)
    | None =>
      match free_dirent d with
      | None => Some (fail ENOSPC s)
      | Some i => mkdir_in s dirnode d i path
      end
    end
  end.

(** A failing call that returns a pointer: [None] is NULL. *)
Definition fail_ptr {A} (e : Z) s : option A * fs St := (None, set_errno e s).

Definition crfs_open s (fname : list Z) : option CO_FILE * fs St :=
  let '(r, s) := crfs_namei s fname in
  match r with
  | inl r => fail_ptr (- r) s
  | inr (dirnode, fname) =>
    if CRFS_FILENAME_MAX <? Z.of_nat (length fname) then fail_ptr ENAMETOOLONG s else
    let '(isd, s) := is_dir s dirnode fname in
    if isd : bool then fail_ptr EISDIR s else
    let '(d, s) := fs_read s (in_first dirnode) in
    match crfs_lookup_dirent d fname with
    | None => fail_ptr ENOENT s
    | Some de =>
      let '(inode, s) := crfs_lookup_inode s (de_inode de) in
      let '(got, s) := fs_alloc s in
      if negb got then fail_ptr ENOMEM s else
      let '(got, s) := fs_alloc s in
      if negb got then fail_ptr ENOMEM s else
      if in_first inode =? 0 then
        (Some (CoFile CO_FILE_MAGIC (in_inode inode) (in_first inode) 0 0 (zeros BLOCK)), s)
      else
        let '(b, s) := fs_read s (in_first inode) in
        (Some (CoFile CO_FILE_MAGIC (in_inode inode) (in_first inode) 0 0 b), s)
    end
  end.

(** The second component is the contents of [*stbuf] when the call succeeds. *)
Definition crfs_stat s (fname : list Z) : (Z * option crfs_stat_t) * fs St :=
  let '(r, s) := crfs_namei s fname in
  match r with
  | inl r => ((-1, None), set_errno (- r) s)
  | inr (dirnode, fname) =>
    if CRFS_FILENAME_MAX <? Z.of_nat (length fname)
    then ((-1, None), set_errno ENAMETOOLONG s) else
    let '(d, s) := fs_read s (in_first dirnode) in
    match crfs_lookup_dirent d fname with
    | None => ((-1, None), set_errno ENOENT s)
    | Some de =>
      let '(inode, s) := crfs_lookup_inode s (de_inode de) in
      ((0, Some (CrfsStat (de_inode de) (in_fmask inode) (in_fsize inode))), s)
    end
  end.

Definition crfs_opendir s (dname : list Z) : option CO_DIR * fs St :=
  let '(r, s) := crfs_namei s dname in
  match r with
  | inl r => fail_ptr (- r) s
  | inr (dirnode, dname) =>
    if CRFS_FILENAME_MAX <? Z.of_nat (length dname) then fail_ptr ENAMETOOLONG s else
    let '(dirnode, s) := inode_lookup_from_namei s dirnode dname in
    if negb (is_dir_mask dirnode) then fail_ptr ENOTDIR s else
    let '(got, s) := fs_alloc s in
    if negb got then fail_ptr ENOMEM s
    else (Some (CoDir CO_DIR_MAGIC (in_inode dirnode) 0 (Dirent 0 [])), s)
  end.

(** The loop that skips unused entries; the position never passes the end, and
    the fuel is the number of entries. *)
Fixpoint skip_unused (fuel : nat) (d : block) (pos : Z) : Z :=
  match fuel with
  | O => pos
  | S fuel =>
    if (pos <? CRFS_DIR_NENTS) && (d_inode d pos =? 0)
    then skip_unused fuel d (pos + 1) else pos
  end.

(** Gives the entry read (NULL at the end of the directory), and the handle. *)
Definition crfs_readdir s (dir : CO_DIR) : (option crfs_dirent * CO_DIR) * fs St :=
  if negb (D_magic dir =? CO_DIR_MAGIC) then ((None, dir), set_errno EBADF s) else
  let '(inode, s) := crfs_lookup_inode s (D_inode dir) in
  let '(dirblock, s) := fs_read s (in_first inode) in
  let pos := skip_unused (Z.to_nat CRFS_DIR_NENTS) dirblock (D_pos dir) in
  if CRFS_DIR_NENTS <=? pos
  then ((None, CoDir (D_magic dir) (D_inode dir) pos (D_dirent dir)), s)
  else
    let de := d_entry dirblock pos in
    ((Some de, CoDir (D_magic dir) (D_inode dir) (pos + 1) de), s).

(** The handle is freed; [None] when it is no longer valid. *)
Definition crfs_closedir s (dir : CO_DIR) : (Z * option CO_DIR) * fs St :=
  if negb (D_magic dir =? CO_DIR_MAGIC)
  then ((-1, Some dir), set_errno EBADF s) else ((0, None), s).
End directory.
