(* ===== verification/Mount.v ===== *)
(** * Mount: making, mounting and committing a file system

    Model of [cache_flush], [crfs_flush], [crfs_close], [mark_inode], [crfs_init]
    and [crfs_mkfs] of [cobalt_romfs/crfs_func.c]. *)

From S2P Require Import Prelude Freemap Layout BlockLayer Fs Inode Namei Directory.

(** [#define SB_BLOCKNUM(sb) ((sb) * 16)] *)
Definition SB_BLOCKNUM (sb : Z) : Z := sb * 16.

Section mount.
Context {St : Type} `{BlockLayer St}.
Implicit Types s : fs St.

Definition set_which_super (x : Z) s : fs St :=
  Fs (store s) (block_freemap s) (inode_freemap s) (super_block s) x
    (crfs_pwd s) (errno s) (allocs s).
Definition set_pwd (x : Z) s : fs St :=
  Fs (store s) (block_freemap s) (inode_freemap s) (super_block s) (crfs_which_super s)
    x (errno s) (allocs s).

(** Setting the version and then the checksum, in [cache_flush] and
    [crfs_mkfs]. *)
Definition stamp_super (ver : Z) (sb : block) : block :=
  let sb := set_sb_blockver ver sb in
  set_sb_checksum (crfs_checksum sb) sb.

Definition next_super (sb : block) : block := stamp_super (sb_blockver sb + 1) sb.

(** Both tests at the end of the code flush [block_freemap]. *)
Definition cache_flush s : fs St :=
  let s :=
    if cache_is_empty (store s) then s
    else
      let s := set_store (cache_drain (store s)) s in
      let s := set_which_super (Z.rem (crfs_which_super s + 1) CRFS_NSBLOCKS) s in
      let s := set_super_block (next_super (super_block s)) s in
      set_store (dev_write (store s) (SB_BLOCKNUM (crfs_which_super s)) (super_block s)) s in
  let s := set_block_freemap (freemap_flush (block_freemap s)) s in
  set_block_freemap (freemap_flush (block_freemap s)) s.

Definition crfs_flush s : Z * fs St := (0, cache_flush s).

(** The handle is freed; [None] when it is no longer valid. *)
Definition crfs_close s (fp : CO_FILE) : (Z * option CO_FILE) * fs St :=
  if negb (F_magic fp =? CO_FILE_MAGIC)
  then ((-1, Some fp), set_errno EBADF s)
  else let '(_, s) := crfs_flush s in ((0, None), s).

(** The walk over a chain of file blocks.  The fuel bounds its length: a chain
    of distinct blocks has at most 65535 of them, and on a longer one the code
    does not terminate. *)
Fixpoint walk_chain (fuel : nat) (mark : freemap -> Z -> option freemap)
    s (block_index : Z) : option (fs St) :=
  if block_index =? 0 then Some s else
  match fuel with
  | O => None
  | S fuel =>
    bm ← mark (block_freemap s) block_index;
    let s := set_block_freemap bm s in
    let '(f, s) := fs_read s block_index in
    walk_chain fuel mark s (fb_next f)
  end.

Definition CHAIN_MAX : nat := Z.to_nat 65536.
#[global] Arguments CHAIN_MAX : simpl never.

(** [mark_inode]; the fuel bounds the depth of the recursion. *)
Fixpoint mark_inode (fuel : nat) s (inode : Z) : option (fs St) :=
  match fuel with
  | O => None
  | S fuel =>
    im ← freemap_mark (inode_freemap s) inode;
    let s := set_inode_freemap im s in
    let '(it, s) := fs_read s (ITABLE_BLOCKNUM s inode) in
    let in_ := it_get it (INODE_IDX inode) in
    if is_dir_mask in_ then
      bm ← freemap_mark (block_freemap s) (in_first in_);
      let s := set_block_freemap bm s in
      let '(d, s) := fs_read s (in_first in_) in
      foldl (fun os i =>
          s ← os;
          let de := d_inode d i in
          if de =? 0 then Some s
          else if freemap_isset (inode_freemap s) de then Some s
          else mark_inode fuel s de)
        (Some s) (seqZ 0 CRFS_DIR_NENTS)
    else walk_chain CHAIN_MAX freemap_mark s (in_first in_)
  end.

(** The valid super blocks, in the order they are read. *)
Definition read_super s (i : Z) : option block * fs St :=
  let '(sb, s) := fs_read s (SB_BLOCKNUM i) in
  if (sb_checksum sb =? crfs_checksum sb) && str_eqb (sb_magic sb) CRFS_MAGIC
  then (Some sb, s) else (None, s).

Fixpoint read_supers s (ixs : list Z) : list block * fs St :=
  match ixs with
  | [] => ([], s)
  | i :: ixs =>
    let '(o, s) := read_super s i in
    let '(l, s) := read_supers s ixs in
    (option_list o ++ l, s)
  end.

(** "look for the best one": the index in [sblocks], and its version. *)
Fixpoint best_super (i which sbver : Z) (sblocks : list block) : Z :=
  match sblocks with
  | [] => which
  | sb :: l =>
    if sbver <? sb_blockver sb then best_super (i + 1) i (sb_blockver sb) l
    else best_super (i + 1) which sbver l
  end.

Definition MARK_DEPTH : nat := Z.to_nat 65536.
#[global] Arguments MARK_DEPTH : simpl never.

Definition mark_all (m : freemap) (bits : list Z) : option freemap :=
  foldl (fun om b => m ← om; freemap_mark m b) (Some m) bits.

(** The end of [crfs_init]: the maps of the file system of [sb]. *)
Definition init_maps s : option (Z * fs St) :=
  let sb := super_block s in
  let '(r, bm, a) := freemap_init (allocs s) (block_freemap s)
                       (sb_fssize sb / CRFS_BLOCK_SIZE / CHAR_BIT) in
  let '(r', im, a) := freemap_init a (inode_freemap s) (65536 / CHAR_BIT) in
  let s := set_allocs a (set_block_freemap bm (set_inode_freemap im s)) in
  if negb (Z.lor r r' =? 0) then Some (-1, s) else
  im ← freemap_mark im 0;
  bm ← mark_all bm (map SB_BLOCKNUM (seqZ 0 CRFS_NSBLOCKS));
  bm ← mark_all bm
         (List.filter (fun b => negb (b =? 0))
            (map (sb_vtable sb) (seqZ 0 (Z.of_nat CRFS_SB_VTABLE_LEN))));
  let s := set_block_freemap bm (set_inode_freemap im s) in
  s ← mark_inode MARK_DEPTH s (sb_root sb);
  Some (0, set_pwd (sb_root sb) s).

Definition crfs_init s : option (Z * fs St) :=
  let s := set_store (cache_drop (store s)) s in
  let '(sblocks, s) := read_supers s (seqZ 0 CRFS_NSBLOCKS) in
  let which := best_super 0 (crfs_which_super s) 0 sblocks in
  let s := set_which_super which s in
  if which <? 0 then Some (-1, s) else
  (* a stale index past the valid ones reads a pointer the code never set *)
  sb ← sblocks !! Z.to_nat which;
  init_maps (set_super_block sb s).

(** The super block of a new file system of [size] bytes. *)
Definition mkfs_super (size : Z) : block :=
  let sb := set_sb_magic CRFS_MAGIC (zeros BLOCK) in
  let sb := set_sb_fsver 0 sb in
  let sb := set_sb_checksum 0 sb in
  let sb := set_sb_fssize size sb in
  let sb := set_sb_root 1 sb in
  set_sb_vtable 0 2 sb.

(** [size &= ~CRFS_BLOCK_SIZE], on a 32-bit [size_t]. *)
Definition mkfs_size (size : Z) : Z := Z.land size (u32 (Z.lnot CRFS_BLOCK_SIZE)).

Definition mkfs_itable : block :=
  it_set 1 (Inode 1 3 3 0 CRFS_FMASK_DIR) (zeros BLOCK).

Definition crfs_mkfs s (size : Z) : Z * fs St :=
  let size := mkfs_size size in
  let sblock := stamp_super 0 (mkfs_super size) in
  let s := fs_write s (SB_BLOCKNUM 0) sblock in
  let sblock := stamp_super 1 sblock in
  let s := fs_write s (SB_BLOCKNUM 1) sblock in
  let s := set_which_super (CRFS_NSBLOCKS - 1) s in
  let s := set_super_block sblock s in
  let s := fs_write s 2 mkfs_itable in
  let s := fs_write s 3 (new_directory 1 1) in
  (0, cache_flush s).
End mount.
