(* ===== verification/FileIO.v ===== *)
(** * FileIO: reading and writing open files

    Model of [next_fblock], [append_fblock], [crfs_read], [crfs_write] and
    [crfs_seek] of [cobalt_romfs/crfs_func.c].  A handle is passed and returned;
    the caller's buffer is the list of the bytes stored in it. *)

From S2P Require Import Prelude Freemap Layout BlockLayer Fs Inode Namei Directory.

Section fileio.
Context {St : Type} `{BlockLayer St}.
Implicit Types s : fs St.

(** ** Handle updates *)
Definition set_F_curblock (x : Z) (fp : CO_FILE) : CO_FILE :=
  CoFile (F_magic fp) (F_inode fp) x (F_fpos fp) (F_nospc fp) (F_fblock fp).
Definition set_F_fpos (x : Z) (fp : CO_FILE) : CO_FILE :=
  CoFile (F_magic fp) (F_inode fp) (F_curblock fp) x (F_nospc fp) (F_fblock fp).
Definition set_F_nospc (x : Z) (fp : CO_FILE) : CO_FILE :=
  CoFile (F_magic fp) (F_inode fp) (F_curblock fp) (F_fpos fp) x (F_fblock fp).
Definition set_F_fblock (x : block) (fp : CO_FILE) : CO_FILE :=
  CoFile (F_magic fp) (F_inode fp) (F_curblock fp) (F_fpos fp) (F_nospc fp) x.

(** [fp->F_fpos += n] on an [unsigned int]. *)
Definition advance (n : Z) (fp : CO_FILE) : CO_FILE := set_F_fpos (u32 (F_fpos fp + n)) fp.

Definition next_fblock s (fp : CO_FILE) : Z * CO_FILE * fs St :=
  let nxt := fb_next (F_fblock fp) in
  if negb (nxt =? 0) then
    let '(b, s) := fs_read s nxt in
    (0, set_F_fblock b (set_F_curblock nxt fp), s)
  else (-1, fp, s).

(** The result of [crfs_write_inode] is ignored, as in the code. *)
Definition append_fblock s (fp : CO_FILE) : option (Z * CO_FILE * fs St) :=
  let '(block_index, bm) := freemap_next (block_freemap s) in
  let s := set_block_freemap bm s in
  if block_index <? 0 then Some (- ENOSPC, set_F_nospc 1 fp, s) else
  let fp := set_F_nospc 0 fp in
  let '(inode, s) := crfs_lookup_inode s (F_inode fp) in
  let '(inode, fp, s) :=
    if negb (F_curblock fp =? 0) then
      let f := set_fb_next block_index (F_fblock fp) in
      let s := fs_write s (F_curblock fp) f in
      (inode, set_F_fblock (set_fb_offset (fb_offset f + 1) f) fp, s)
    else
      (Inode (in_inode inode) (u16 block_index) (in_last inode) (in_fsize inode) (in_fmask inode),
       set_F_fblock (set_fb_offset 0 (F_fblock fp)) fp, s) in
  let f := set_fb_next 0 (set_fb_prev (F_curblock fp) (F_fblock fp)) in
  let f := put_fb_data 0 (zeros (Z.to_nat CRFS_FBLOCK_DATA)) f in
  let fp := set_F_curblock (u16 block_index) (set_F_fblock f fp) in
  let s := fs_write s (u16 block_index) f in
  let inode := Inode (in_inode inode) (in_first inode) (u16 block_index)
                 (in_fsize inode) (in_fmask inode) in
  '(_, s) ← crfs_write_inode s inode;
  Some (0, fp, s).

(** ** crfs_read *)

(** Bytes [off, off + n) of the data of the current block. *)
Definition cur_data (fp : CO_FILE) (off n : Z) : list Z :=
  sub (Z.to_nat off) (Z.to_nat n) (fb_data (F_fblock fp)).

(** The loop over complete blocks.  [None]: the chain ends early.  One unit of
    fuel for each complete block that is left to read. *)
Fixpoint read_blocks (fuel : nat) s (fp : CO_FILE) (size : Z) (out : list Z) :
    option (list Z * Z) * CO_FILE * fs St :=
  match fuel with
  | O => (Some (out, size), fp, s)
  | S fuel =>
    if CRFS_FBLOCK_DATA <=? size then
      let out := out ++ cur_data fp 0 CRFS_FBLOCK_DATA in
      let size := size - CRFS_FBLOCK_DATA in
      let fp := advance CRFS_FBLOCK_DATA fp in
      let '(r, fp, s) := next_fblock s fp in
      if (r <? 0) && negb (size =? 0) then (None, fp, s)
      else read_blocks fuel s fp size out
    else (Some (out, size), fp, s)
  end.

(** The value returned, and the bytes stored in [buff]. *)
Definition crfs_read s (fp : CO_FILE) (size : Z) : (Z * list Z) * CO_FILE * fs St :=
  if negb (F_magic fp =? CO_FILE_MAGIC) then ((-1, []), fp, set_errno EBADF s) else
  let '(inode, s) := crfs_lookup_inode s (F_inode fp) in
  if in_fsize inode <=? F_fpos fp then ((0, []), fp, s) else
  let size := if in_fsize inode <? u32 (F_fpos fp + size)
              then in_fsize inode - F_fpos fp else size in
  if F_curblock fp =? 0 then ((0, []), fp, s) else
  let fboff := F_fpos fp mod CRFS_FBLOCK_DATA in
  let fbleft := CRFS_FBLOCK_DATA - fboff in
  let '(res, fboff, fp, s) :=
    if fbleft <=? size then
      let out := cur_data fp fboff fbleft in
      let size := size - fbleft in
      let fp := advance fbleft fp in
      let '(r, fp, s) := next_fblock s fp in
      if (r <? 0) && negb (size =? 0) then (None, 0, fp, s)
      else
        let '(res, fp, s) := read_blocks (Z.to_nat (size / CRFS_FBLOCK_DATA)) s fp size out in
        (res, 0, fp, s)
    else (Some ([], size), fboff, fp, s) in
  match res with
  | None => ((0, []), fp, s)
  | Some (out, size) =>
    if negb (size =? 0) then
      let out := out ++ cur_data fp fboff size in
      ((Z.of_nat (length out), out), advance size fp, s)
    else ((Z.of_nat (length out), out), fp, s)
  end.

(** ** crfs_write *)

(** Progress of a write: the bytes left ([cbuf], [size]) and [nwrote]. *)
Record wstate := WState { w_left : list Z; w_nwrote : Z }.

(** Storing [n] bytes of [cbuf] at [off] in the current block. *)
Definition store_data (fp : CO_FILE) (off n : Z) (w : wstate) : CO_FILE * wstate :=
  (advance n (set_F_fblock
     (put_fb_data off (take (Z.to_nat n) (w_left w)) (F_fblock fp)) fp),
   WState (drop (Z.to_nat n) (w_left w)) (w_nwrote w + n)).

(** After a block is complete: write it out, and step to the next one, or append
    one, if there is more to write. *)
Definition finish_block s (fp : CO_FILE) (w : wstate) : option (CO_FILE * wstate * fs St) :=
  let s := fs_write s (F_curblock fp) (F_fblock fp) in
  if decide (w_left w = []) then Some (fp, w, s) else
  let '(r, fp, s) := next_fblock s fp in
  if r <? 0 then
    '(r, fp, s) ← append_fblock s fp;
    if r <? 0 then Some (fp, WState [] (-1), set_errno (- r) s)
    else Some (fp, w, s)
  else Some (fp, w, s).

Fixpoint write_blocks (fuel : nat) s (fp : CO_FILE) (w : wstate) :
    option (CO_FILE * wstate * fs St) :=
  match fuel with
  | O => Some (fp, w, s)
  | S fuel =>
    if CRFS_FBLOCK_DATA <=? Z.of_nat (length (w_left w)) then
      let '(fp, w) := store_data fp 0 CRFS_FBLOCK_DATA w in
      '(fp, w, s) ← finish_block s fp w;
      write_blocks fuel s fp w
    else Some (fp, w, s)
  end.

(** The part of [crfs_write] after the current block is known. *)
Definition write_data s (fp : CO_FILE) (buff : list Z) : option (CO_FILE * wstate * fs St) :=
  let fboff := F_fpos fp mod CRFS_FBLOCK_DATA in
  let fbleft := CRFS_FBLOCK_DATA - fboff in
  let w := WState buff 0 in
  if fbleft <=? Z.of_nat (length buff) then
    let '(fp, w) := store_data fp fboff fbleft w in
    '(fp, w, s) ← finish_block s fp w;
    '(fp, w, s) ← write_blocks (length (w_left w)) s fp w;
    if decide (w_left w = []) then Some (fp, w, s)
    else let '(fp, w) := store_data fp 0 (Z.of_nat (length (w_left w))) w in
         Some (fp, w, s)
  else if decide (buff = []) then Some (fp, w, s)
  else let '(fp, w) := store_data fp fboff (Z.of_nat (length buff)) w in
       Some (fp, w, s).

(** "update the file length" *)
Definition update_size s (fp : CO_FILE) : option (fs St) :=
  let '(inode, s) := crfs_lookup_inode s (F_inode fp) in
  if in_fsize inode <? F_fpos fp then
    '(_, s) ← crfs_write_inode s
      (Inode (in_inode inode) (in_first inode) (in_last inode) (F_fpos fp) (in_fmask inode));
    Some s
  else Some s.

Definition crfs_write s (fp : CO_FILE) (buff : list Z) : option (Z * CO_FILE * fs St) :=
  if negb (F_magic fp =? CO_FILE_MAGIC) then Some (-1, fp, set_errno EBADF s) else
  '(r, fp, s) ← (if (F_curblock fp =? 0) || negb (F_nospc fp =? 0)
                 then append_fblock s fp else Some (0, fp, s));
  if r <? 0 then Some (-1, fp, set_errno (- r) s) else
  '(fp, w, s) ← write_data s fp buff;
  let s := fs_write s (F_curblock fp) (F_fblock fp) in
  s ← update_size s fp;
  Some (w_nwrote w, fp, s).

Definition CRFS_SEEK_SET : Z := 0.
Definition CRFS_SEEK_CUR : Z := 1.
Definition CRFS_SEEK_END : Z := 2.

(** "unimplemented": every call fails. *)
Definition crfs_seek s (fp : CO_FILE) (delta whence : Z) : Z * fs St :=
  if negb (F_magic fp =? CO_FILE_MAGIC) then (-1, set_errno EBADF s)
  else if negb (whence =? CRFS_SEEK_SET) && negb (whence =? CRFS_SEEK_CUR)
          && negb (whence =? CRFS_SEEK_END)
  then (-1, set_errno EINVAL s)
  else (-1, set_errno ENOSYS s).
End fileio.
