(* ===== verification/Remove.v ===== *)
(** * Remove: deleting files and directories

    Model of [unmark_inode], [rm_file], [crfs_remove] and [crfs_rmdir] of
    [cobalt_romfs/crfs_func.c]. *)

From S2P Require Import Prelude Freemap Layout BlockLayer Fs Inode Namei Directory Mount.

(** De-populating a dirent. *)
Definition clear_dirent (i : Z) (d : block) : block :=
  put (64 * Z.to_nat i + 2) [0] (set_d_inode i 0 d).

Section remove.
Context {St : Type} `{BlockLayer St}.
Implicit Types s : fs St.

(** [unmark_inode]; the fuel bounds the depth of the recursion. *)
Fixpoint unmark_inode (fuel : nat) s (inode : Z) : option (fs St) :=
  match fuel with
  | O => None
  | S fuel =>
    im ← freemap_unmark (inode_freemap s) inode;
    let s := set_inode_freemap im s in
    let '(it, s) := fs_read s (ITABLE_BLOCKNUM s inode) in
    let in_ := it_get it (INODE_IDX inode) in
    if is_dir_mask in_ then
      bm ← freemap_unmark (block_freemap s) (in_first in_);
      let s := set_block_freemap bm s in
      let '(d, s) := fs_read s (in_first in_) in
      (* skip "." and ".." *)
      foldl (fun os i =>
          s ← os;
          let de := d_inode d i in
          if de =? 0 then Some s else unmark_inode fuel s de)
        (Some s) (seqZ 2 (CRFS_DIR_NENTS - 2))
    else walk_chain CHAIN_MAX freemap_unmark s (in_first in_)
  end.

(** The entry that the loop of [rm_file] clears: the first with the name. *)
Definition named_dirent (d : block) (fname : list Z) : option Z :=
  List.find (fun i => str_eqb (d_name d i) fname) (seqZ 0 CRFS_DIR_NENTS).

Definition DOT : list Z := [46].
Definition DOTDOT : list Z := [46; 46].

Definition rm_file s (fname : list Z) (do_dirs : bool) : option (Z * fs St) :=
  let '(r, s) := crfs_namei s fname in
  match r with
  | inl r => Some (r, s)
  | inr (dirnode, fname) =>
    if CRFS_FILENAME_MAX <? Z.of_nat (length fname) then Some (- ENAMETOOLONG, s) else
    let '(r, s) := is_dir s dirnode fname in
    if r && negb do_dirs then Some (- EISDIR, s) else
    if str_eqb fname DOT || str_eqb fname DOTDOT then Some (- EINVAL, s) else
    let dirblock := in_first dirnode in
    let '(d, s) := fs_read s dirblock in
    match crfs_lookup_dirent d fname with
    | None => Some (- ENOENT, s)
    | Some de =>
      let s := match named_dirent d fname with
               | Some i => fs_write s dirblock (clear_dirent i d)
               | None => s
               end in
      s ← unmark_inode MARK_DEPTH s (de_inode de);
      Some (0, s)
    end
  end.

Definition rm_result (r : option (Z * fs St)) : option (Z * fs St) :=
  '(r, s) ← r;
  if r <? 0 then Some (-1, set_errno (- r) s) else Some (0, s).

Definition crfs_remove s (fname : list Z) : option (Z * fs St) :=
  rm_result (rm_file s fname false).
Definition crfs_rmdir s (dname : list Z) : option (Z * fs St) :=
  rm_result (rm_file s dname true).
End remove.
