(* ===== verification/Tools.v ===== *)
(** * Tools: the command line tools

    Model of the [main] functions of [cobalt_romfs/co_*.c].  A tool runs on the
    bytes of an image file and gives its exit status, the image it leaves, and
    what it writes elsewhere.  [None] stands for undefined behaviour: after a
    failed [crfs_init], whose result no tool looks at, [super_block] is a null
    pointer that the next operation dereferences. *)

From S2P Require Import Prelude Freemap Layout BlockLayer BlockCache StdioDevice Fs Inode.
From S2P Require Import Namei Directory Mount FileIO Remove.

Abbreviation tool_state := (fs (cached stdio)).
Abbreviation path := (list Z).

Section tools.
(** The outcomes of the calls of [malloc] in the process. *)
Variable memory : outcomes.

(** The descriptor [open] returns: any but 0. *)
Definition IMAGE_FD : Z := 3.

(** The static variables when a program starts, with the image open. *)
Definition program_start (image : list Z) : tool_state :=
  Fs (Cached (init_stdio_block IMAGE_FD image) []) (zero_map 0) (zero_map 0)
    (zeros BLOCK) (-1) 0 0 memory.

(** [init_stdio_block] and [crfs_init]. *)
Definition tool_mount (image : list Z) : option tool_state :=
  '(r, s) ← crfs_init (program_start image);
  if r =? 0 then Some s else None.

(** [deinit_stdio_block] at the end: the image. *)
Definition image_of (s : tool_state) : list Z :=
  co_file (deinit_stdio_block (backing (store s))).

(** [co_mkdir], [co_rm], [co_rmdir] and [co_touch]: one operation and a flush. *)
Definition one_operation (usage failure : Z)
    (op : tool_state -> path -> option (Z * tool_state))
    (argv : list path) (image : list Z) : option (Z * list Z) :=
  match argv with
  | [_; _; arg] =>
    s ← tool_mount image;
    '(r, s) ← op s arg;
    if negb (r =? 0) then Some (failure, image_of s)
    else let '(_, s) := crfs_flush s in Some (0, image_of s)
  | _ => Some (usage, image)
  end.

Definition co_mkdir := one_operation 1 1 crfs_mkdir.
Definition co_rm := one_operation (-1) (-1) crfs_remove.
Definition co_rmdir := one_operation (-1) (-1) crfs_rmdir.
Definition co_touch := one_operation (-1) (-1) crfs_create.

End tools.

(** ** Reading *)

Section loops.
Context {St : Type} `{BlockLayer St}.
Implicit Types s : fs St.

(** The loop shared by [co_cat] and [co_cpfrom]: the bytes written, and the last
    result of [crfs_read].  The fuel is one more than the number of chunks. *)
Fixpoint copy_out (fuel : nat) s (fp : CO_FILE) (out : list Z) :
    option (list Z * Z * CO_FILE * fs St) :=
  match fuel with
  | O => None
  | S fuel =>
    let '((read_bytes, buff), fp, s) := crfs_read s fp CRFS_BLOCK_SIZE in
    if 0 <? read_bytes then copy_out fuel s fp (out ++ take (Z.to_nat read_bytes) buff)
    else Some (out, read_bytes, fp, s)
  end.

(** The loop of [co_cpto]: [input] is what is left of the Unix file. *)
Fixpoint copy_in (fuel : nat) s (fp : CO_FILE) (input : list Z) :
    option (bool * CO_FILE * fs St) :=
  match fuel with
  | O => None
  | S fuel =>
    let buff := take BLOCK input in
    if decide (buff = []) then Some (true, fp, s)
    else
      '(r, fp, s) ← crfs_write s fp buff;
      if r <? 0 then Some (false, fp, s) else copy_in fuel s fp (drop BLOCK input)
  end.

(** The loop of [co_ls] over the entries: name and [crfs_stat] of each, up to
    the first [crfs_stat] that fails (the [bool] is then [false]). *)
Fixpoint list_entries (fuel : nat) s (dirname : path) (dir : CO_DIR)
    (out : list (path * crfs_stat_t)) : option (list (path * crfs_stat_t) * bool * fs St) :=
  match fuel with
  | O => None
  | S fuel =>
    let '((co_dirent, dir), s) := crfs_readdir s dir in
    match co_dirent with
    | None => Some (out, true, s)
    | Some de =>
      let name := cstr (de_name de) in
      let '((r, st), s) := crfs_stat s (dirname ++ [slash] ++ name) in
      match st with
      | None => Some (out, false, s)
      | Some st => list_entries fuel s dirname dir (out ++ [(name, st)])
      end
    end
  end.
End loops.

(** Enough for a file of 2^32 - 1 bytes. *)
Definition COPY_FUEL : nat := Z.to_nat 1048578.
#[global] Arguments COPY_FUEL : simpl never.
Definition LS_FUEL : nat := 65.

Section commands.
Variable memory : outcomes.

(** Exit status, image, bytes written. *)
Definition co_copy (argv_path : path) (image : list Z) : option (Z * list Z * list Z) :=
  s ← tool_mount memory image;
  let '(file_in, s) := crfs_open s argv_path in
  match file_in with
  | None => Some (-1, image_of s, [])
  | Some fp =>
    '(out, _, fp, s) ← copy_out COPY_FUEL s fp [];
    let '(_, s) := crfs_close s fp in
    Some (0, image_of s, out)
  end.

Definition co_cat (argv : list path) (image : list Z) : option (Z * list Z * list Z) :=
  match argv with
  | [_; _; file] => co_copy file image
  | _ => Some (-1, image, [])
  end.

(** The Unix file can be created. *)
Definition co_cpfrom (argv : list path) (image : list Z) : option (Z * list Z * list Z) :=
  match argv with
  | [_; _; file; _] => co_copy file image
  | _ => Some (-1, image, [])
  end.

(** [input] is the contents of the Unix file. *)
Definition co_cpto (argv : list path) (input image : list Z) : option (Z * list Z) :=
  match argv with
  | [_; _; _; file] =>
    s ← tool_mount memory image;
    '(r, s) ← crfs_create s file;
    if negb (r =? 0) then Some (-1, image_of s) else
    let '(file_out, s) := crfs_open s file in
    match file_out with
    | None => Some (-1, image_of s)
    | Some fp =>
      '(ok, fp, s) ← copy_in (S (length input)) s fp input;
      if negb ok then Some (-1, image_of s) else
      let '(_, s) := crfs_flush s in
      let '(_, s) := crfs_close s fp in
      Some (0, image_of s)
    end
  | _ => Some (-1, image)
  end.

Definition co_ls (argv : list path) (image : list Z) :
    option (Z * list Z * list (path * crfs_stat_t)) :=
  match argv with
  | [] | [_] => Some (-1, image, [])
  | _ =>
    let dirname := match argv with [_; _; d] => d | _ => DOT end in
    s ← tool_mount memory image;
    let '(dir, s) := crfs_opendir s dirname in
    match dir with
    | None => Some (-1, image_of s, [])
    | Some dir =>
      '(out, _, s) ← list_entries LS_FUEL s dirname dir [];
      let '(_, s) := crfs_closedir s dir in
      Some (0, image_of s, out)
    end
  end.

End commands.

(** ** Making a file system *)

(** C [isspace], and the value of a digit in base up to 16. *)
Definition c_isspace (c : Z) : bool := (c =? 32) || ((9 <=? c) && (c <=? 13)).
Definition digit_value (c : Z) : Z :=
  if (48 <=? c) && (c <=? 57) then c - 48
  else if (65 <=? c) && (c <=? 90) then c - 55
  else if (97 <=? c) && (c <=? 122) then c - 87
  else 36.

Fixpoint digits (base acc : Z) (l : list Z) : Z * list Z :=
  match l with
  | c :: l' => if digit_value c <? base then digits base (acc * base + digit_value c) l' else (acc, l)
  | [] => (acc, [])
  end.

Fixpoint skip_space (l : list Z) : list Z :=
  match l with c :: l' => if c_isspace c then skip_space l' else l | [] => [] end.

(** [strtol (_, _, 0)] of the C library, on 32 bits: the value, and what follows
    the number, or [None] when there is no number. *)
Definition strtol0 (s : list Z) : Z * option (list Z) :=
  let l := skip_space s in
  let '(neg, l) :=
    match l with
    | 45 :: l' => (true, l')
    | 43 :: l' => (false, l')
    | _ => (false, l)
    end in
  let number base l :=
    let '(v, rest) := digits base 0 l in
    (Z.max (-2147483648) (Z.min 2147483647 (if neg : bool then - v else v)), Some rest) in
  match l with
  | 48 :: x :: c :: l' =>
    if ((x =? 120) || (x =? 88)) && (digit_value c <? 16) then number 16 (c :: l')
    else number 8 l
  | 48 :: _ => number 8 l
  | c :: _ => if digit_value c <? 10 then number 10 l else (0, None)
  | [] => (0, None)
  end.

(** The value ([None]: signed overflow) and the error flag. *)
Definition cvt_int (numstr : list Z) : option (Z * bool) :=
  match strtol0 numstr with
  | (_, None) => Some (0, true)
  | (val, Some cvt) =>
    let factor :=
      match cvt with
      | c :: _ => if (c =? 109) || (c =? 77) then 1048576
                  else if (c =? 107) || (c =? 75) then 1024 else 1
      | [] => 1
      end in
    if (-2147483648 <=? val * factor) && (val * factor <=? 2147483647)
    then Some (val * factor, false) else None
  end.

Definition co_mkfs (memory : outcomes) (argv : list path) (image : list Z) : option (Z * list Z) :=
  match argv with
  | [_; _; size] =>
    let s := program_start memory image in
    '(val, err) ← cvt_int size;
    if err : bool then Some (-1, image_of s)
    else let '(_, s) := crfs_mkfs s (u32 val) in Some (0, image_of s)
  | _ => Some (-1, image)
  end.
