(* ===== verification/ReadProofs.v ===== *)
(** * ReadProofs: correctness of [crfs_read]

    A file is a chain of blocks; its contents are the data of the blocks in order,
    cut at the size in the inode.  [crfs_read] returns the next bytes of the
    contents and advances the handle. *)

From S2P Require Import Prelude Freemap Layout BlockLayer Fs Inode Namei Directory FileIO BlockCache StdioDevice Mount Remove Tools.

Section read.
Context {St : Type} `{BlockLayer St}.
Implicit Types s : fs St.

(** The blocks [bs] are the chain that starts at [b]. *)
Fixpoint chain s (b : Z) (bs : list Z) : Prop :=
  match bs with
  | [] => b = 0
  | x :: bs => b = x /\ x <> 0 /\ block_id x /\ chain s (fb_next (view s x)) bs
  end.

Definition content s (bs : list Z) : list Z :=
  concat (map (fun b => fb_data (view s b)) bs).

(** The file of inode [i] is stored in the chain [bs]. *)
Record file_at s (i : crfs_inode) (bs : list Z) : Prop := {
  fa_chain : chain s (in_first i) bs;
  fa_size : in_fsize i <= CRFS_FBLOCK_DATA * Z.of_nat (length bs);
}.

(** What a program reads: the contents up to the size. *)
Definition file_data s (i : crfs_inode) (bs : list Z) : list Z :=
  take (Z.to_nat (in_fsize i)) (content s bs).

Abbreviation DATA := CRFS_FBLOCK_DATA.

(** The handle is one of inode [n], and in position: its current block is the one of its position,
    unless it is at the end of the chain. *)
Record handle_at s (n : Z) (bs : list Z) (fp : CO_FILE) : Prop := {
  ha_magic : F_magic fp = CO_FILE_MAGIC;
  ha_inode : F_inode fp = n;
  ha_pos : 0 <= F_fpos fp <= DATA * Z.of_nat (length bs);
  ha_cur : F_fpos fp < DATA * Z.of_nat (length bs) ->
    bs !! Z.to_nat (F_fpos fp / DATA) = Some (F_curblock fp) /\
    F_fblock fp = view s (F_curblock fp);
}.

#[export] Instance content_proper : Proper ((≡) ==> (=) ==> (=)) content.
Proof. intros s t Heq bs ? <-. unfold content. f_equal. apply map_ext. intros b. by rewrite Heq. Qed.

#[export] Instance chain_proper : Proper ((≡) ==> (=) ==> (=) ==> iff) chain.
Proof.
  intros s t Heq b ? <- bs ? <-. revert b. induction bs as [|x bs IH]; intros b; [done|].
  simpl. rewrite IH. assert (view s x = view t x) as -> by by rewrite Heq. done.
Qed.

#[export] Instance handle_at_proper : Proper ((≡) ==> (=) ==> (=) ==> (=) ==> iff) handle_at.
Proof.
  assert (forall s t n bs fp, s ≡ t -> handle_at s n bs fp -> handle_at t n bs fp) as Himp.
  { intros s t n bs fp Heq [? ? ? Hc]. split; [done..|]. intros Hlt. rewrite <- Heq. by apply Hc. }
  intros s t Heq n ? <- bs ? <- fp ? <-. split; by apply Himp.
Qed.

Lemma fb_data_len f : block_ok f -> length (fb_data f) = Z.to_nat DATA.
Proof. intros Hf. unfold fb_data. pose proof (block_len f Hf). unfold FB_HEADER, CRFS_FBLOCK_DATA. len. Qed.

Lemma chain_ids s b bs : chain s b bs -> Forall (fun x => block_id x /\ x <> 0) bs.
Proof. revert b. induction bs as [|x bs IH]; intros b; simpl; [done|]. intros (_ & ? & ? & ?). eauto. Qed.

(** The link of block number [k] of the chain. *)
Lemma chain_next s b bs k x :
  chain s b bs -> bs !! k = Some x -> fb_next (view s x) = default 0 (bs !! S k).
Proof.
  revert b k. induction bs as [|y bs IH]; intros b k; [done|]. simpl. intros (_ & _ & _ & Hc).
  destruct k as [|k]; simpl; [|by eapply IH].
  intros [= <-]. destruct bs as [|z bs]; simpl in *; [done|]. by destruct Hc as [-> _].
Qed.

(** Bytes of the contents that lie in block number [k]. *)
Lemma content_sub s bs k x off n :
  fs_ok s -> Forall (fun x => block_id x /\ x <> 0) bs -> bs !! k = Some x ->
  (off + n <= Z.to_nat DATA)%nat ->
  sub (k * Z.to_nat DATA + off) n (content s bs) = sub off n (fb_data (view s x)).
Proof.
  intros Hs HF. revert k. induction HF as [|y bs [Hy _] _ IH]; intros k; [done|].
  intros Hk Hn. unfold content. cbn [map concat]. fold (content s bs).
  pose proof (fb_data_len (view s y) (view_ok s y Hs Hy)) as Hl.
  destruct k as [|k].
  - injection Hk as <-. unfold sub. cbn [Nat.mul Nat.add].
    rewrite drop_app_le by lia. rewrite take_app_le by len. done.
  - change (bs !! k = Some x) in Hk. rewrite <- (IH k) by done. unfold sub.
    rewrite drop_app_ge by lia. rewrite Hl. do 2 f_equal. lia.
Qed.

Lemma content_len s bs :
  fs_ok s -> Forall (fun x => block_id x /\ x <> 0) bs ->
  length (content s bs) = (length bs * Z.to_nat DATA)%nat.
Proof.
  intros Hs. induction 1 as [|y bs [Hy _] _ IH]; [done|]. unfold content. simpl.
  rewrite length_app. fold (content s bs). by rewrite IH, fb_data_len by by apply view_ok.
Qed.

(** ** Steps of the handle *)

(** Bytes from position [fpos] that lie in the current block. *)
Lemma cur_data_content s inum bs fp n :
  fs_ok s -> Forall (fun x => block_id x /\ x <> 0) bs -> handle_at s inum bs fp ->
  F_fpos fp < DATA * Z.of_nat (length bs) -> 0 <= n -> F_fpos fp mod DATA + n <= DATA ->
  cur_data fp (F_fpos fp mod DATA) n = sub (Z.to_nat (F_fpos fp)) (Z.to_nat n) (content s bs).
Proof.
  intros Hs HF [_ _ Hpos Hc] Hlt Hn Hle. destruct (Hc Hlt) as [Hk Hf].
  unfold cur_data. rewrite Hf. unfold CRFS_FBLOCK_DATA in *.
  pose proof (Z.mod_pos_bound (F_fpos fp) 4080 ltac:(lia)).
  rewrite <- (content_sub s bs (Z.to_nat (F_fpos fp / 4080))); try done.
  - f_equal. apply Nat2Z.inj. rewrite Nat2Z.inj_add, Nat2Z.inj_mul.
    unfold CRFS_FBLOCK_DATA. rewrite !Z2Nat.id by dlia. dlia.
  - unfold CRFS_FBLOCK_DATA. lia.
Qed.

(** A step inside the current block. *)
Lemma advance_inside s inum bs fp n :
  handle_at s inum bs fp -> F_fpos fp < DATA * Z.of_nat (length bs) ->
  0 <= n -> F_fpos fp mod DATA + n < DATA -> F_fpos fp + n < 4294967296 ->
  handle_at s inum bs (advance n fp) /\ F_fpos (advance n fp) = F_fpos fp + n.
Proof.
  intros [Hm Hino Hpos Hc] Hlt Hn Hle Hb. unfold advance, CRFS_FBLOCK_DATA in *.
  rewrite u32_small by lia. split; [|done]. destruct (Hc Hlt) as [Hk Hf].
  split; simpl; [done|done|unfold CRFS_FBLOCK_DATA; dlia|]. intros _. split; [|done]. rewrite <- Hk.
  unfold CRFS_FBLOCK_DATA. do 2 f_equal. dlia.
Qed.

(** A step to the start of the next block: [advance] and [next_fblock]. *)
Lemma advance_next s inum b bs fp n :
  fs_ok s -> chain s b bs -> handle_at s inum bs fp -> F_fpos fp < DATA * Z.of_nat (length bs) ->
  n = DATA - F_fpos fp mod DATA -> F_fpos fp + n < 4294967296 ->
  exists r fp' s', next_fblock s (advance n fp) = (r, fp', s') /\ s' ≡ s /\
    handle_at s inum bs fp' /\ F_fpos fp' = F_fpos fp + n /\
    (r <? 0) = (F_fpos fp + n =? DATA * Z.of_nat (length bs)).
Proof.
  intros Hs Hch Ha Hlt -> Hb. pose proof (chain_ids s b bs Hch) as HF. rewrite Forall_forall in HF.
  destruct Ha as [Hm Hino Hpos Hc]. destruct (Hc Hlt) as [Hk Hf].
  pose proof (chain_next s b bs _ _ Hch Hk) as Hnx.
  unfold next_fblock, advance. unfold CRFS_FBLOCK_DATA in *.
  change (F_fblock (set_F_fpos _ fp)) with (F_fblock fp). rewrite Hf, Hnx.
  rewrite u32_small by dlia. set (pos := F_fpos fp + _) in *.
  assert (Z.to_nat (pos / 4080) = S (Z.to_nat (F_fpos fp / 4080))) as Hq by (unfold pos; dlia).
  destruct (bs !! S (Z.to_nat (F_fpos fp / 4080))) as [y|] eqn:Hy; simpl.
  - destruct (HF y) as [Hyb Hy0]; [by eapply list_elem_of_lookup_2|].
    rewrite (proj2 (Z.eqb_neq y 0) Hy0). simpl.
    destruct (fs_read_spec s y Hs Hyb) as (s' & -> & Heq).
    eexists _, _, s'. split; [done|]. split; [done|]. apply lookup_lt_Some in Hy as Hlen.
    assert (pos < 4080 * Z.of_nat (length bs)) by (unfold pos in *; dlia).
    split; [|split; [done|]].
    + split; simpl; [done|done|unfold CRFS_FBLOCK_DATA, pos; dlia|]. intros _. split; [|done].
      unfold CRFS_FBLOCK_DATA. by rewrite Hq.
    + symmetry. apply Z.eqb_neq. lia.
  - apply lookup_ge_None in Hy. eexists _, _, s. split; [done|]. split; [done|].
    assert (pos = 4080 * Z.of_nat (length bs)) as Hend by (unfold pos in *; dlia).
    split; [|split; [done|]].
    + split; simpl; [done|done|unfold CRFS_FBLOCK_DATA; lia|unfold CRFS_FBLOCK_DATA; lia].
    + rewrite Hend. by rewrite Z.eqb_refl.
Qed.

Lemma sub_app off n m l : sub off n l ++ sub (off + n) m l = sub off (n + m) l.
Proof.
  unfold sub. rewrite <- drop_drop. apply list_eq. intros i.
  rewrite <- (take_drop n (take (n + m) (drop off l))).
  rewrite take_take, min_l by lia. do 2 f_equal.
  rewrite skipn_firstn_comm. f_equal. lia.
Qed.

Lemma data_mod n : (n - DATA) mod DATA = n mod DATA.
Proof. unfold CRFS_FBLOCK_DATA. dlia. Qed.
Lemma data_div n : (n - DATA) / DATA = n / DATA - 1.
Proof. unfold CRFS_FBLOCK_DATA. dlia. Qed.

(** The loop over complete blocks. *)
Lemma read_blocks_spec s inum b bs fp size out fuel :
  fs_ok s -> chain s b bs -> handle_at s inum bs fp -> F_fpos fp mod DATA = 0 -> 0 <= size ->
  F_fpos fp + size <= DATA * Z.of_nat (length bs) -> F_fpos fp + size < 4294967296 ->
  fuel = Z.to_nat (size / DATA) ->
  exists fp' s', read_blocks fuel s fp size out =
      (Some (out ++ sub (Z.to_nat (F_fpos fp)) (fuel * Z.to_nat DATA) (content s bs),
             size mod DATA), fp', s') /\
    s' ≡ s /\ handle_at s inum bs fp' /\ F_fpos fp' = F_fpos fp + DATA * (size / DATA).
Proof.
  revert s fp size out. induction fuel as [|fuel IH]; intros s fp size out Hs Hch Ha Hm0 Hsz Hle Hb Hfuel.
  { exists fp, s. unfold CRFS_FBLOCK_DATA in *. simpl. unfold sub. simpl. rewrite app_nil_r.
    rewrite Z.mod_small by dlia. split_and!; try done. dlia. }
  cbn [read_blocks]. assert (DATA <= size) as Hge by (unfold CRFS_FBLOCK_DATA in *; dlia).
  rewrite (proj2 (Z.leb_le _ _) Hge).
  assert (F_fpos fp < DATA * Z.of_nat (length bs)) as Hlt by (unfold CRFS_FBLOCK_DATA in *; lia).
  destruct (advance_next s inum b bs fp DATA) as (r & fp1 & s1 & -> & Heq1 & Ha1 & Hp1 & Hr);
    try done; [lia|unfold CRFS_FBLOCK_DATA in *; lia|].
  replace ((r <? 0) && negb (size - DATA =? 0)) with false; last first.
  { rewrite Hr. symmetry. apply andb_false_iff. rewrite negb_false_iff, Z.eqb_neq, Z.eqb_eq. lia. }
  destruct (IH s1 fp1 (size - DATA) (out ++ cur_data fp 0 DATA)) as (fp2 & s2 & -> & Heq2 & Ha2 & Hp2).
  - by rewrite Heq1.
  - by rewrite Heq1.
  - by rewrite Heq1.
  - rewrite Hp1. unfold CRFS_FBLOCK_DATA in *. dlia.
  - lia.
  - lia.
  - lia.
  - unfold CRFS_FBLOCK_DATA in *. dlia.
  - exists fp2, s2. split; [|split; [by rewrite Heq2|split]].
    + rewrite data_mod.
      pose proof (cur_data_content s inum bs fp DATA Hs (chain_ids _ _ _ Hch) Ha Hlt) as Hcd.
      rewrite Hm0 in Hcd. rewrite Hcd by (unfold CRFS_FBLOCK_DATA; lia).
      assert (content s1 bs = content s bs) as -> by by rewrite Heq1.
      pose proof (ha_pos _ _ _ _ Ha) as [Hp0 _].
      rewrite Hp1, Z2Nat.inj_add by (done || lia).
      rewrite <- app_assoc, sub_app. reflexivity.
    + by rewrite <- Heq1.
    + rewrite Hp2, Hp1, data_div. lia.
Qed.

Lemma sub_take off n m l : sub off n (take m l) = sub off (min n (m - off)) l.
Proof. unfold sub. by rewrite skipn_firstn_comm, take_take. Qed.

Lemma sub_0 off l : sub off 0 l = [].
Proof. done. Qed.

(** The part of [crfs_read] for a position inside the file. *)
Lemma read_inside s inum b bs fp n :
  fs_ok s -> chain s b bs -> handle_at s inum bs fp -> 0 < n ->
  F_fpos fp + n <= DATA * Z.of_nat (length bs) -> F_fpos fp + n < 4294967296 ->
  let fboff := F_fpos fp mod DATA in
  let fbleft := DATA - fboff in
  let out := sub (Z.to_nat (F_fpos fp)) (Z.to_nat n) (content s bs) in
  exists fp' s',
    (let '(res, fboff, fp, s) :=
       if fbleft <=? n then
         let out := cur_data fp fboff fbleft in
         let size := n - fbleft in
         let fp := advance fbleft fp in
         let '(r, fp, s) := next_fblock s fp in
         if (r <? 0) && negb (size =? 0) then (None, 0, fp, s)
         else
           let '(res, fp, s) := read_blocks (Z.to_nat (size / DATA)) s fp size out in
           (res, 0, fp, s)
       else (Some ([], n), fboff, fp, s) in
     match res with
     | None => ((0, []), fp, s)
     | Some (out, size) =>
       if negb (size =? 0) then
         let out := out ++ cur_data fp fboff size in
         ((Z.of_nat (length out), out), advance size fp, s)
       else ((Z.of_nat (length out), out), fp, s)
     end) = ((Z.of_nat (length out), out), fp', s') /\
    s' ≡ s /\ handle_at s inum bs fp' /\ F_fpos fp' = F_fpos fp + n.
Proof.
  intros Hs Hch Ha Hn Hle Hb fboff fbleft out. pose proof (chain_ids s b bs Hch) as HF.
  pose proof (ha_pos _ _ _ _ Ha) as [Hp0 _].
  assert (0 <= fboff < DATA) as Hoff by by apply Z.mod_pos_bound.
  assert (F_fpos fp < DATA * Z.of_nat (length bs)) as Hlt by lia.
  cbv zeta. destruct (Z.leb_spec fbleft n) as [Hge|Hlt']; last first.
  { rewrite (proj2 (Z.eqb_neq n 0)) by lia. cbn [negb].
    destruct (advance_inside s inum bs fp n) as [Ha' Hp']; try done; [lia|unfold fbleft, fboff in *; lia|].
    rewrite app_nil_l. unfold fboff.
    rewrite (cur_data_content s inum bs fp n) by (done || unfold fbleft, fboff in *; lia).
    by exists (advance n fp), s. }
  destruct (advance_next s inum b bs fp fbleft) as (r & fp1 & s1 & -> & Heq1 & Ha1 & Hp1 & Hr);
    try done; [lia|].
  replace ((r <? 0) && negb (n - fbleft =? 0)) with false; last first.
  { rewrite Hr. symmetry. apply andb_false_iff. rewrite negb_false_iff, Z.eqb_neq, Z.eqb_eq. lia. }
  assert (F_fpos fp1 mod DATA = 0) as Hm1.
  { rewrite Hp1. unfold fbleft, fboff, CRFS_FBLOCK_DATA. dlia. }
  destruct (read_blocks_spec s1 inum b bs fp1 (n - fbleft) (cur_data fp fboff fbleft)
    (Z.to_nat ((n - fbleft) / DATA))) as (fp2 & s2 & -> & Heq2 & Ha2 & Hp2);
    try done; [by rewrite Heq1|by rewrite Heq1|by rewrite Heq1|lia|lia|lia|].
  assert (s2 ≡ s) as Heq by by rewrite Heq2.
  assert (content s1 bs = content s bs) as -> by by rewrite Heq1.
  set (k := (n - fbleft) / DATA) in *.
  assert (0 <= k /\ n - fbleft = DATA * k + (n - fbleft) mod DATA) as [Hk0 Hk].
  { unfold k, CRFS_FBLOCK_DATA. dlia. }
  assert (0 <= DATA * k) as Hdk by (apply Z.mul_nonneg_nonneg; done).
  assert (0 <= (n - fbleft) mod DATA < DATA) as Hmr by by apply Z.mod_pos_bound.
  assert (cur_data fp fboff fbleft ++
            sub (Z.to_nat (F_fpos fp1)) (Z.to_nat k * Z.to_nat DATA) (content s bs) =
          sub (Z.to_nat (F_fpos fp)) (Z.to_nat (fbleft + DATA * k)) (content s bs)) as ->.
  { unfold fboff at 1.
    rewrite (cur_data_content s inum bs fp fbleft) by (done || unfold fbleft, fboff in *; lia).
    rewrite Hp1, Z2Nat.inj_add, sub_app by lia. f_equal.
    rewrite Z2Nat.inj_add, Z2Nat.inj_mul by lia. lia. }
  assert (handle_at s2 inum bs fp2) as Ha2' by by rewrite Heq2.
  destruct (Z.eqb_spec ((n - fbleft) mod DATA) 0) as [Hz|Hnz]; cbn [negb].
  - exists fp2, s2. replace (fbleft + DATA * k) with n by lia.
    split; [done|]. split; [done|]. split; [by rewrite <- Heq1|]. lia.
  - assert (F_fpos fp2 mod DATA = 0) as Hm2.
    { rewrite Hp2. by rewrite Z.mul_comm, Z.mod_add. }
    assert (F_fpos fp2 < DATA * Z.of_nat (length bs)) as Hlt2 by lia.
    destruct (advance_inside s2 inum bs fp2 ((n - fbleft) mod DATA)) as [Ha3 Hp3];
      try done; try lia.
    exists (advance ((n - fbleft) mod DATA) fp2), s2.
    pose proof (cur_data_content s2 inum bs fp2 ((n - fbleft) mod DATA)) as Hcd.
    rewrite Hm2 in Hcd. rewrite Hcd; try done; try lia; [|by rewrite Heq].
    assert (content s2 bs = content s bs) as -> by by rewrite Heq.
    replace (Z.to_nat (F_fpos fp2)) with (Z.to_nat (F_fpos fp) + Z.to_nat (fbleft + DATA * k))%nat
      by (rewrite <- Z2Nat.inj_add by lia; f_equal; lia).
    rewrite sub_app, <- Z2Nat.inj_add by lia.
    replace (fbleft + DATA * k + (n - fbleft) mod DATA) with n by lia.
    split; [done|]. split; [done|]. split; [by rewrite <- Heq|]. lia.
Qed.

(** [crfs_read] returns the next bytes of the file. *)
Lemma read_spec s inum bs fp size :
  fs_ok s -> file_at s (inode_at s inum) bs -> handle_at s inum bs fp ->
  0 <= size -> F_fpos fp + size < 4294967296 ->
  let out := sub (Z.to_nat (F_fpos fp)) (Z.to_nat size) (file_data s (inode_at s inum) bs) in
  exists fp' s', crfs_read s fp size = ((Z.of_nat (length out), out), fp', s') /\
    s' ≡ s /\ handle_at s inum bs fp' /\ F_fpos fp' = F_fpos fp + Z.of_nat (length out).
Proof.
  intros Hs [Hch Hsz] Ha Hsize Hb out. pose proof Ha as [Hm Hino [Hp0 Hp1] Hc].
  pose proof (inode_at_ok s inum Hs) as Hiok. pose proof (ok_fsize _ Hiok) as Hfs.
  unfold crfs_read. rewrite Hm, Z.eqb_refl. cbn [negb]. rewrite Hino.
  destruct (lookup_inode_spec s inum Hs) as (s1 & -> & Heq1).
  set (i := inode_at s inum) in *. unfold file_data in out.
  destruct (Z.leb_spec (in_fsize i) (F_fpos fp)) as [Hend|Hin].
  { assert (out = []) as ->.
    { unfold out. rewrite sub_take. replace (_ `min` _)%nat with O by lia. apply sub_0. }
    exists fp, s1. split_and!; try done. simpl. lia. }
  rewrite u32_small by lia.
  set (n := if in_fsize i <? F_fpos fp + size then in_fsize i - F_fpos fp else size).
  assert (n = Z.min size (in_fsize i - F_fpos fp)) as Hn.
  { unfold n. destruct (Z.ltb_spec (in_fsize i) (F_fpos fp + size)); lia. }
  assert (out = sub (Z.to_nat (F_fpos fp)) (Z.to_nat n) (content s bs)) as Hout.
  { unfold out. rewrite sub_take. f_equal. lia. }
  destruct (Hc ltac:(lia)) as [Hk _].
  pose proof (chain_ids _ _ _ Hch) as HF. rewrite Forall_forall in HF.
  destruct (HF (F_curblock fp)) as [_ Hn0]; [by eapply list_elem_of_lookup_2|].
  rewrite (proj2 (Z.eqb_neq _ _) Hn0).
  assert (length (content s bs) = (length bs * Z.to_nat DATA)%nat) as Hcl
    by (apply content_len; [done|by eapply chain_ids]).
  assert (Z.of_nat (length out) = n) as Hlen.
  { rewrite Hout, length_sub; [lia|]. rewrite Hcl.
    apply Nat2Z.inj_le. rewrite Nat2Z.inj_add, Nat2Z.inj_mul, !Z2Nat.id by (done || lia). lia. }
  destruct (decide (n = 0)) as [Hz|Hnz].
  - assert (out = []) as Hnil by (destruct out; [done|simpl in Hlen; lia]).
    rewrite Hnil. exists fp, s1. rewrite Hz.
    destruct (Z.leb_spec (DATA - F_fpos fp mod DATA) 0) as [Hle|_].
    { pose proof (Z.mod_pos_bound (F_fpos fp) DATA ltac:(done)). lia. }
    simpl. split_and!; try done. lia.
  - destruct (read_inside s1 inum (in_first i) bs fp n) as (fp' & s' & E & Heq & Ha' & Hp');
      [by rewrite Heq1|by rewrite Heq1|by rewrite Heq1|lia|lia|lia|].
    assert (content s1 bs = content s bs) as Hc1 by by rewrite Heq1.
    rewrite Hc1, <- Hout in E. exists fp', s'. split; [exact E|].
    split; [by rewrite Heq|]. split; [by rewrite <- Heq1|]. lia.
Qed.
End read.

(** * lemmas on reading directories and on the tools *)

Section dirs.
Context {St : Type} `{BlockLayer St}.
Implicit Types s : fs St.

(** ** [crfs_readdir] *)

(** The entries in use from position [pos] on. *)
Definition entries_from (d : block) (pos : Z) : list Z :=
  List.filter (fun i => negb (d_inode d i =? 0)) (seqZ pos (CRFS_DIR_NENTS - pos)).

Lemma seqZ_step a n : 0 < n -> seqZ a n = a :: seqZ (a + 1) (n - 1).
Proof. intros. by rewrite seqZ_cons by lia. Qed.

Lemma skip_unused_spec fuel d pos :
  0 <= pos <= CRFS_DIR_NENTS -> (Z.to_nat (CRFS_DIR_NENTS - pos) <= fuel)%nat ->
  let p := skip_unused fuel d pos in
  pos <= p <= CRFS_DIR_NENTS /\
  entries_from d pos =
    if CRFS_DIR_NENTS <=? p then [] else p :: entries_from d (p + 1).
Proof.
  revert pos. induction fuel as [|fuel IH]; intros pos Hpos Hf; cbn [skip_unused].
  { split; [lia|]. rewrite (proj2 (Z.leb_le _ _)) by lia.
    unfold entries_from. rewrite seqZ_nil by lia. done. }
  destruct (Z.ltb_spec pos CRFS_DIR_NENTS) as [Hlt|]; cbn [andb]; last first.
  { split; [lia|]. rewrite (proj2 (Z.leb_le _ _)) by lia.
    unfold entries_from. rewrite seqZ_nil by lia. done. }
  assert (entries_from d pos = if d_inode d pos =? 0 then entries_from d (pos + 1)
            else pos :: entries_from d (pos + 1)) as Hstep.
  { unfold entries_from. rewrite seqZ_step by lia. cbn [List.filter].
    replace (CRFS_DIR_NENTS - pos - 1) with (CRFS_DIR_NENTS - (pos + 1)) by lia.
    by destruct (d_inode d pos =? 0). }
  destruct (Z.eqb_spec (d_inode d pos) 0) as [Hz|Hnz].
  - destruct (IH (pos + 1)) as [Hr He]; [lia|lia|]. split; [lia|]. by rewrite Hstep.
  - split; [lia|]. rewrite (proj2 (Z.leb_gt _ _)) by lia. done.
Qed.

(** One call, on the handle of inode [n]. *)
Lemma readdir_spec s n pos de :
  fs_ok s -> 0 <= pos <= CRFS_DIR_NENTS ->
  let d := view s (in_first (inode_at s n)) in
  exists s', s' ≡ s /\
    match entries_from d pos with
    | [] => exists p, crfs_readdir s (CoDir CO_DIR_MAGIC n pos de) =
              ((None, CoDir CO_DIR_MAGIC n p de), s')
    | i :: rest => pos <= i < CRFS_DIR_NENTS /\ rest = entries_from d (i + 1) /\
        crfs_readdir s (CoDir CO_DIR_MAGIC n pos de) =
          ((Some (d_entry d i), CoDir CO_DIR_MAGIC n (i + 1) (d_entry d i)), s')
    end.
Proof.
  intros Hs Hpos d. unfold crfs_readdir. cbn [D_magic D_inode D_pos D_dirent].
  rewrite Z.eqb_refl. cbn [negb].
  destruct (lookup_inode_spec s n Hs) as (s1 & -> & Heq1).
  destruct (fs_read_spec s1 (in_first (inode_at s n))) as (s2 & -> & Heq2);
    [by rewrite Heq1|by apply ok_first, inode_at_ok|].
  assert (view s1 (in_first (inode_at s n)) = d) as -> by by rewrite Heq1.
  exists s2. split; [by rewrite Heq2|].
  destruct (skip_unused_spec (Z.to_nat CRFS_DIR_NENTS) d pos) as [Hr ->]; [done|lia|].
  set (p := skip_unused _ _ _) in *.
  destruct (Z.leb_spec CRFS_DIR_NENTS p); [by exists p|]. split_and!; try done; lia.
Qed.

(** The entries a program reads by calling [crfs_readdir] until it gives NULL. *)
Fixpoint read_dir_all (fuel : nat) s (dir : CO_DIR) : option (list crfs_dirent) :=
  match fuel with
  | O => None
  | S fuel =>
    let '((de, dir), s) := crfs_readdir s dir in
    match de with
    | None => Some []
    | Some de => option_map (cons de) (read_dir_all fuel s dir)
    end
  end.

Lemma read_dir_all_spec fuel s n pos de :
  fs_ok s -> 0 <= pos <= CRFS_DIR_NENTS -> (Z.to_nat (CRFS_DIR_NENTS - pos) < fuel)%nat ->
  let d := view s (in_first (inode_at s n)) in
  read_dir_all fuel s (CoDir CO_DIR_MAGIC n pos de) = Some (map (d_entry d) (entries_from d pos)).
Proof.
  revert s pos de. induction fuel as [|fuel IH]; intros s pos de Hs Hpos Hf d; [lia|].
  cbn [read_dir_all]. destruct (readdir_spec s n pos de Hs Hpos) as (s' & Heq & Hr).
  fold d in Hr. destruct (entries_from d pos) as [|i rest].
  { by destruct Hr as [p ->]. }
  destruct Hr as (Hi & -> & ->). rewrite IH; [|by rewrite Heq|lia|lia].
  assert (inode_at s' n = inode_at s n) as -> by by rewrite Heq.
  assert (view s' (in_first (inode_at s n)) = d) as -> by by rewrite Heq. done.
Qed.

(** ** The copy loop *)

Lemma sub_drop off n l : sub off n l = take n (drop off l).
Proof. done. Qed.

Lemma copy_out_spec fuel s inum bs fp out :
  fs_ok s -> file_at s (inode_at s inum) bs -> handle_at s inum bs fp ->
  let rest := drop (Z.to_nat (F_fpos fp)) (file_data s (inode_at s inum) bs) in
  F_fpos fp + Z.of_nat (length rest) + CRFS_BLOCK_SIZE < 4294967296 ->
  (length rest + BLOCK <= fuel * BLOCK)%nat ->
  exists fp' s', copy_out fuel s fp out = Some (out ++ rest, 0, fp', s') /\
    s' ≡ s /\ handle_at s inum bs fp'.
Proof.
  revert s fp out. induction fuel as [|fuel IH]; intros s fp out Hs Hf Ha rest Hb Hlen; [unfold BLOCK in *; lia|].
  cbn [copy_out].
  destruct (read_spec s inum bs fp CRFS_BLOCK_SIZE) as (fp1 & s1 & -> & Heq1 & Ha1 & Hp1);
    [done..|unfold CRFS_BLOCK_SIZE in *; lia|].
  rewrite sub_drop in *. fold rest in Hp1 |- *. change (Z.to_nat CRFS_BLOCK_SIZE) with BLOCK in *.
  pose proof (ha_pos _ _ _ _ Ha) as [Hp0 _].
  destruct (Z.ltb_spec 0 (Z.of_nat (length (take BLOCK rest)))) as [Hpos|Hz]; last first.
  { assert (take BLOCK rest = []) as Hnil by (destruct (take BLOCK rest); [done|simpl in Hz; lia]).
    rewrite Hnil. assert (rest = []) as ->.
    { rewrite <- (take_drop BLOCK rest), Hnil. apply length_zero_iff_nil.
      assert (length rest <= 0)%nat as Hl; [|simpl; len].
      assert (length (take BLOCK rest) = 0%nat) as Ht by by rewrite Hnil.
      rewrite length_take in Ht. unfold BLOCK in *. lia. }
    rewrite app_nil_r. by exists fp1, s1. }
  assert (take (Z.to_nat (Z.of_nat (length (take BLOCK rest)))) (take BLOCK rest) = take BLOCK rest)
    as -> by (apply take_ge; lia).
  rewrite length_take in Hp1, Hpos.
  assert (inode_at s1 inum = inode_at s inum) as Hin by by rewrite Heq1.
  assert (file_data s1 (inode_at s inum) bs = file_data s (inode_at s inum) bs) as Hfd
    by (unfold file_data; by rewrite Heq1).
  assert (drop (Z.to_nat (F_fpos fp1)) (file_data s (inode_at s inum) bs) = drop BLOCK rest) as Hd.
  { unfold rest. rewrite drop_drop, Hp1.
    destruct (decide (BLOCK <= length rest)%nat) as [Hge|Hlt].
    - f_equal. rewrite Z2Nat.inj_add by lia. lia.
    - rewrite !drop_ge; [done| |]; unfold rest in *; rewrite length_drop in *; lia. }
  destruct (IH s1 fp1 (out ++ take BLOCK rest)) as (fp2 & s2 & -> & Heq2 & Ha2).
  - by rewrite Heq1.
  - rewrite Hin. destruct Hf as [Hc Hsz]. split; [by rewrite Heq1|done].
  - by rewrite Heq1.
  - rewrite Hin, Hfd, Hd, length_drop. unfold CRFS_BLOCK_SIZE, BLOCK in *. lia.
  - rewrite Hin, Hfd, Hd, length_drop. unfold BLOCK in *. lia.
  - exists fp2, s2. rewrite Hin, Hfd, Hd, <- app_assoc, take_drop.
    split; [done|]. split; [by rewrite Heq2|by rewrite <- Heq1].
Qed.
End dirs.
