(* ===== verification/DirProofs.v ===== *)
(** * DirProofs: correctness of directory updates

    Specifications of [crfs_create] and [crfs_mkdir] against [lookup] and
    [inode_at]. *)

From S2P Require Import Prelude Freemap Layout BlockLayer Fs Inode Namei Directory.

(** ** Directory blocks *)

(** Every name is terminated inside its entry. *)
Definition dir_wf (d : block) : Prop :=
  block_ok d /\ forall j, 0 <= j < 64 -> 0 ∈ sub (64 * Z.to_nat j + 2) 60 d.

(** The name field of an entry. *)
Definition name_field (d : block) (j : Z) : list Z := sub (64 * Z.to_nat j + 2) 60 d.

Lemma d_name_field d j : dir_wf d -> 0 <= j < 64 -> d_name d j = cstr (name_field d j).
Proof.
  intros [_ Hwf] Hj. unfold d_name.
  rewrite (drop_sub _ 60), cstr_app_stop by by apply Hwf. done.
Qed.

(** A valid file name. *)
Record name_ok (name : list Z) : Prop := {
  no_nonzero : nonzero name;
  no_bytes : bytes_ok name;
  no_len : (length name <= 59)%nat;
}.

Lemma strncpy_field (name : list Z) :
  (length name <= 59)%nat ->
  take 59 name ++ zeros (60 - length (take 59 name)) =
  name ++ 0 :: zeros (59 - length name).
Proof.
  intros. rewrite take_ge by lia.
  by replace (60 - length name)%nat with (S (59 - length name)) by lia.
Qed.

Section populate.
Context (i inum : Z) (name : list Z) (d : block).
Context (Hd : dir_wf d) (Hi : 0 <= i < 64) (Hname : name_ok name).

Let Hblk : block_ok d := proj1 Hd.

Lemma populate_block_ok : block_ok (populate_dirent i inum name d).
Proof using Hd Hi Hname.
  unfold populate_dirent, strncpy_d_name, set_d_inode.
  rewrite strncpy_field by apply Hname. pose proof (no_len _ Hname).
  apply block_ok_put; [apply block_ok_put16; [done|blk]| |].
  - apply bytes_ok_app. split; [apply Hname|]. constructor; [lia|apply bytes_ok_zeros].
  - len.
Qed.

Lemma populate_field j :
  0 <= j < 64 ->
  name_field (populate_dirent i inum name d) j =
    if j =? i then name ++ 0 :: zeros (59 - length name) else name_field d j.
Proof using Hd Hi Hname.
  intros Hj. unfold populate_dirent, strncpy_d_name, set_d_inode, name_field.
  rewrite strncpy_field by apply Hname. pose proof (no_len _ Hname).
  assert (length (put16 (64 * Z.to_nat i) inum d) = 4096%nat) as Hl.
  { rewrite length_put16; blk. }
  assert (length (name ++ 0 :: zeros (59 - length name)) = 60%nat) as Hn by len.
  destruct (Z.eqb_spec j i) as [->|Hne].
  - rewrite sub_put_same'; [done|by rewrite Hn|lia].
  - rewrite sub_put_ne by lia. unfold put16. rewrite sub_put_ne; blk.
Qed.

Lemma populate_inode j :
  0 <= j < 64 ->
  d_inode (populate_dirent i inum name d) j = if j =? i then u16 inum else d_inode d j.
Proof using Hd Hi Hname.
  intros Hj. unfold populate_dirent, strncpy_d_name, set_d_inode, d_inode.
  rewrite strncpy_field by apply Hname. pose proof (no_len _ Hname).
  assert (length (put16 (64 * Z.to_nat i) inum d) = 4096%nat) as Hl.
  { rewrite length_put16; blk. }
  assert (length (name ++ 0 :: zeros (59 - length name)) = 60%nat) as Hn by len.
  rewrite get16_put_ne by lia.
  destruct (Z.eqb_spec j i) as [->|Hne].
  - apply get16_put16. blk.
  - unfold put16. apply get16_put_ne; blk.
Qed.

Lemma populate_wf : dir_wf (populate_dirent i inum name d).
Proof using Hd Hi Hname.
  split; [apply populate_block_ok|]. intros j Hj.
  change (0 ∈ name_field (populate_dirent i inum name d) j).
  rewrite populate_field by done. destruct (j =? i).
  - apply elem_of_app. right. apply elem_of_cons. by left.
  - by apply Hd.
Qed.

Lemma populate_name j :
  0 <= j < 64 ->
  d_name (populate_dirent i inum name d) j = if j =? i then name else d_name d j.
Proof using Hd Hi Hname.
  intros Hj. rewrite d_name_field by (done || apply populate_wf).
  rewrite populate_field by done. destruct (j =? i).
  - apply cstr_app0, Hname.
  - by rewrite d_name_field.
Qed.

(** Looking names up after a free entry was populated: the new name is found,
    with the new inode, and nothing else changes. *)
Lemma lookup_populate nm :
  d_inode d i = 0 -> u16 inum <> 0 -> crfs_lookup_dirent d name = None -> nonzero nm ->
  option_map de_inode (crfs_lookup_dirent (populate_dirent i inum name d) nm) =
    if decide (nm = name) then Some (u16 inum)
    else option_map de_inode (crfs_lookup_dirent d nm).
Proof using Hd Hi Hname.
  intros Hfree Hnz Hnone Hnm. apply lookup_dirent_None in Hnone as [Hlong|Hnone].
  { pose proof (no_len _ Hname). lia. }
  assert (forall j, 0 <= j < 64 -> d_name d j = name -> d_inode d j = 0) as Hun by done.
  case_decide as Hcase.
  - subst nm. destruct (crfs_lookup_dirent _ name) as [de|] eqn:E.
    + apply lookup_dirent_Some in E as (j & Hj & Hn & Hz & -> & _ & _).
      simpl. rewrite populate_inode in * by done. rewrite populate_name in Hn by done.
      destruct (j =? i); [done|]. by destruct Hz; apply Hun.
    + apply lookup_dirent_None in E as [|E]; [pose proof (no_len _ Hname); lia|].
      specialize (E i Hi). rewrite populate_name, populate_inode, Z.eqb_refl in E by done.
      by destruct Hnz; apply E.
  - assert (forall j, 0 <= j < 64 ->
      (str_eqb nm (d_name (populate_dirent i inum name d) j) &&
       negb (d_inode (populate_dirent i inum name d) j =? 0)) =
      (str_eqb nm (d_name d j) && negb (d_inode d j =? 0))) as Hsame.
    { intros j Hj. rewrite populate_name, populate_inode by done.
      destruct (Z.eqb_spec j i) as [->|]; [|done]. rewrite Hfree. rewrite andb_false_r.
      unfold str_eqb. by rewrite bool_decide_false. }
    unfold crfs_lookup_dirent, dirent_index, CRFS_FILENAME_MAX, CRFS_DIR_NENTS.
    destruct (59 <? _); [done|].
    replace (List.find (fun j => str_eqb nm (d_name (populate_dirent i inum name d) j) && _)
      (seqZ 0 64)) with
      (List.find (fun j => str_eqb nm (d_name d j) && negb (d_inode d j =? 0)) (seqZ 0 64)).
    + destruct (List.find _ _) as [j|] eqn:E; simpl; [|done].
      apply find_seqZ_Some in E as (Hj & [Hn Hz]%andb_true_iff & _).
      rewrite populate_inode by lia. destruct (Z.eqb_spec j i) as [->|]; [|done].
      by rewrite Hfree in Hz.
    + apply find_ext_seqZ. intros j Hj. symmetry. apply Hsame. lia.
Qed.
End populate.

(** ** Adding an entry to a directory *)

Section add.
Context {St : Type} `{BlockLayer St}.
Implicit Types s : fs St.

(** [d] is a directory of the file system, as its inode is stored. *)
Record dir_at s (d : crfs_inode) : Prop := {
  da_inum : 0 <= in_inode d < 65536;
  da_same : inode_at s (in_inode d) = d;
  da_exists : ITABLE_BLOCKNUM s (in_inode d) <> 0;
  da_mask : is_dir_mask d = true;
  da_used : used s (in_first d) = true;
  da_data : ~ itable_block s (in_first d);
  da_nz : in_first d <> 0;
}.

#[export] Instance dir_at_proper : Proper ((≡) ==> (=) ==> iff) dir_at.
Proof.
  assert (forall s t d, s ≡ t -> dir_at s d -> dir_at t d) as Himp.
  { intros s t d Heq []. split; try done; by rewrite <- Heq. }
  intros s t Heq d ? <-. split; by apply Himp.
Qed.

Lemma dir_at_ok s d : fs_ok s -> dir_at s d -> inode_ok d.
Proof. intros Hs []. rewrite <- da_same0. by apply inode_at_ok. Qed.

Lemma dir_at_block s d : fs_ok s -> dir_at s d -> block_id (in_first d).
Proof. intros Hs Hd. apply ok_first, (dir_at_ok s d); done. Qed.

(** Storing another inode keeps a directory where it is. *)
Lemma written_dir_at s ino s' d :
  fs_ok s -> inode_written s ino s' -> dir_at s d -> in_inode d <> in_inode ino ->
  dir_at s' d /\ view s' (in_first d) = view s (in_first d).
Proof.
  intros Hs Hw Hd Hne. pose proof (dir_at_block s d Hs Hd) as Hb. pose proof Hd as [? ? ? ? Hu ? ?].
  split.
  - split; try done.
    + rewrite (iw_other _ _ _ Hw); auto.
    + by apply (iw_keep _ _ _ Hw).
    + apply (iw_used _ _ _ Hw); [apply Hb|done..].
    + by apply (iw_tables _ _ _ Hw).
  - apply (iw_data _ _ _ Hw); [done|by apply used_taken|done].
Qed.

(** What [commit_dirblock] achieves: [b] is the block of the directory [d'], and
    may be written without touching a committed block. *)
Record committed s (dirnode : crfs_inode) (b : Z) s' : Prop := {
  cm_ok : fs_ok s';
  cm_vtable : vtable_inv s';
  cm_dir : dir_at s' (Inode (in_inode dirnode) b (in_last (inode_at s' (in_inode dirnode)))
                        (in_fsize dirnode) (in_fmask dirnode));
  cm_writable : dirty s b = true \/ taken s b = false;
  cm_block : b = in_first dirnode \/ taken s b = false;
  cm_other j :
    0 <= j < 65536 -> j <> in_inode dirnode -> ITABLE_BLOCKNUM s j <> 0 ->
    inode_at s' j = inode_at s j;
  cm_data i :
    block_id i -> used s i = true -> ~ itable_block s i -> i <> in_first dirnode ->
    view s' i = view s i /\ used s' i = true /\ ~ itable_block s' i;
  cm_step : phased_step s s';
  cm_inodes : inode_freemap s' = inode_freemap s;
  cm_pwd : crfs_pwd s' = crfs_pwd s;
  cm_root : sb_root (super_block s') = sb_root (super_block s);
  cm_keep j : 0 <= j < 65536 -> ITABLE_BLOCKNUM s j <> 0 -> ITABLE_BLOCKNUM s' j <> 0;
}.

(** A dirty directory block is used as it is. *)
Lemma commit_in_place s d :
  fs_ok s -> vtable_inv s -> dir_at s d -> dirty s (in_first d) = true ->
  committed s d (in_first d) s.
Proof.
  intros Hs Hvt Hd Hdirty. split; try done; auto.
  - pose proof Hd as [? Hsame ? ? ? ? ?]. rewrite Hsame. by destruct d.
  - by apply phased_step_equiv.
Qed.

(** Exchanging the clean block [old] for the fresh block [b] in the block map. *)
Record exchanged s (old b : Z) (bm : freemap) : Prop := {
  ex_wf : fm_wf bm;
  ex_size : fm_mapsize bm = fm_mapsize (block_freemap s);
  ex_block : block_id b;
  ex_fresh : taken s b = false;
  ex_used i : 0 <= i -> i <> old -> fm_used bm i = (i =? b) || used s i;
  ex_taken i : 0 <= i -> fm_taken bm i = (i =? b) || taken s i;
}.

Lemma exchange_spec s old :
  fs_ok s -> block_id old -> used s old = true -> free_blocks s 1 ->
  exists b bm bm', freemap_next (block_freemap s) = (b, bm) /\
    freemap_unmark bm old = Some bm' /\ 0 <= b /\ u16 b = b /\ exchanged s old b bm'.
Proof.
  intros Hs Hold Hu Hfree. pose proof (freemap_next_spec _ (ok_bm s Hs)) as Hnext.
  destruct (freemap_next (block_freemap s)) as [b bm]. destruct Hnext as [Hwf [Hal|Hex]]; last first.
  { destruct (free_not_full s 0 Hfree). apply Hex. }
  pose proof Hal as [Hr Hf Hlow Hau Hap Hsz]. pose proof (ok_bm_size s Hs) as Hsize.
  unfold fm_items in Hr. pose proof (used_taken _ _ Hu) as Htk.
  assert (0 <= old < fm_items bm) as Hor.
  { split; [apply Hold|]. apply used_range; [done|apply Hold|].
    rewrite Hau by apply Hold. unfold used in Hu. rewrite Hu. apply orb_true_r. }
  destruct (freemap_unmark_spec bm old Hwf Hor) as (bm' & E & Hwf' & Hu' & Hp' & Hsz').
  exists b, bm, bm'. split; [done|]. split; [done|]. split; [lia|].
  split; [apply u16_small; lia|]. split.
  - done.
  - congruence.
  - split; lia.
  - done.
  - intros i Hi Hne. rewrite Hu', Hau by done. by apply Z.eqb_neq in Hne as ->.
  - intros i Hi. rewrite (unmark_taken bm old bm') by done. unfold fm_taken.
    rewrite Hau, Hap by done. by rewrite <- orb_assoc.
Qed.

(** The state with the exchanged map. *)
Lemma exchanged_state s old b bm :
  fs_ok s -> vtable_inv s -> b <> old -> ~ itable_block s old -> old <> 0 ->
  exchanged s old b bm ->
  let s1 := set_block_freemap bm s in
  fs_ok s1 /\ vtable_inv s1 /\ phased_step s s1 /\ one_block s s1 /\ used s1 b = true.
Proof.
  intros Hs Hvt Hbo Hnt Hn0 [Hwf Hsz Hb Hf Hu Ht] s1.
  split_and!.
  - destruct Hs. split; simpl; try done. lia.
  - destruct Hvt as [Hvu Hvi Hv0]. split.
    + intros i Hi. change (itable_block s i) in Hi. change (fm_used bm i = true).
      rewrite Hu, Hvu by
        (done || (intros ->; done) || (destruct Hi as (j & Hj & <-); by apply vtable_block_id)).
      apply orb_true_r.
    + done.
    + change (fm_used bm 0 = true). rewrite Hu, Hv0 by done. apply orb_true_r.
  - split; intros i; try done.
    + intros Hi Hti. change (fm_taken bm i = true). rewrite Ht, Hti by done. apply orb_true_r.
    + by left.
  - exists b. intros i Hi. change (fm_taken bm i = true -> taken s i = true \/ i = b).
    rewrite Ht by done. destruct (Z.eqb_spec i b); [by right|by left].
  - change (fm_used bm b = true). rewrite Hu by (done || apply Hb). by rewrite Z.eqb_refl.
Qed.

Lemma commit_spec s d :
  fs_ok s -> vtable_inv s -> dir_at s d -> free_blocks s 2 ->
  exists b s', commit_dirblock s d (in_first d) = Some (inr b, s') /\ committed s d b s'.
Proof.
  intros Hs Hvt Hd Hfree. unfold commit_dirblock.
  change (block_is_dirty (store s) (in_first d)) with (dirty s (in_first d)).
  destruct (dirty s (in_first d)) eqn:Hdirty; simpl.
  { exists (in_first d), s. split; [done|]. by apply commit_in_place. }
  pose proof (dir_at_block s d Hs Hd) as Hblk. pose proof (dir_at_ok s d Hs Hd) as Hdok.
  pose proof Hd as [Hinum Hsame Hex Hmask Hu Hnt Hn0].
  assert (free_blocks s 1) as Hf0 by (apply (free_blocks_weaken s 2); [lia|done]).
  destruct (exchange_spec s (in_first d) Hs Hblk Hu Hf0)
    as (b & bm & bm' & -> & E & Hb0 & Hub & Hexc).
  rewrite E. simpl. rewrite Hub.
  assert (b <> in_first d) as Hbd.
  { intros ->. pose proof (ex_fresh _ _ _ _ Hexc). apply used_taken in Hu. unfold taken in *. congruence. }
  destruct (exchanged_state s (in_first d) b bm') as (Hs1 & Hvt1 & Hst1 & Hone & Hub1); [done..|].
  set (s1 := set_block_freemap bm' s) in *. pose proof Hexc as [_ Hsz Hbid Hfb Hexu _].
  set (d' := Inode (in_inode d) b b (in_fsize d) (in_fmask d)).
  assert (inode_ok d') as Hdok' by (destruct Hdok; by split).
  assert (free_blocks s1 1) as Hf1 by by apply (free_blocks_step s).
  destruct (write_inode_spec s1 d' Hs1 Hvt1 Hdok') as (r & s' & -> & [[-> Hw]|[-> Hos]]); last first.
  { destruct (free_not_full s1 0 Hf1). apply Hos. }
  simpl. exists b, s'. split; [done|].
  assert (~ itable_block s b) as Hbt.
  { intros Ht%(vt_used s Hvt). apply used_taken in Ht. unfold taken in Hfb. congruence. }
  assert (b <> 0) as Hbn0.
  { intros ->. pose proof (used_taken _ _ (vt_zero s Hvt)) as Ht. unfold taken in Hfb. congruence. }
  pose proof (iw_same _ _ _ Hw) as Hsame'. change (in_inode d') with (in_inode d) in Hsame'.
  split; try apply Hw; try done.
  - rewrite Hsame'. split; try done; simpl.
    + apply (iw_exists _ _ _ Hw).
    + by apply (iw_used _ _ _ Hw).
    + by apply (iw_tables _ _ _ Hw).
  - by right.
  - by right.
  - intros j Hj Hne Hexj. by rewrite (iw_other _ _ _ Hw j) by (done || by left).
  - intros i Hi Hui Hnti Hne. assert (used s1 i = true) as Hui1.
    { change (fm_used bm' i = true). rewrite Hexu by (apply Hi || done).
      rewrite Hui. apply orb_true_r. }
    split_and!.
    + by rewrite (iw_data _ _ _ Hw i) by (done || by apply used_taken).
    + apply (iw_used _ _ _ Hw); [apply Hi|done..].
    + by apply (iw_tables _ _ _ Hw).
  - apply (phased_step_trans s s1); [done|apply Hw].
Qed.

(** The directory after the entry was stored. *)
Record dirent_added s (dirnode : crfs_inode) (blk : block) s' : Prop := {
  ad_ok : fs_ok s';
  ad_vtable : vtable_inv s';
  ad_dir : dir_at s' (inode_at s' (in_inode dirnode));
  ad_inum : in_inode (inode_at s' (in_inode dirnode)) = in_inode dirnode;
  ad_content : view s' (in_first (inode_at s' (in_inode dirnode))) = blk;
  ad_block :
    in_first (inode_at s' (in_inode dirnode)) = in_first dirnode \/
    taken s (in_first (inode_at s' (in_inode dirnode))) = false;
  ad_other j :
    0 <= j < 65536 -> j <> in_inode dirnode -> ITABLE_BLOCKNUM s j <> 0 ->
    inode_at s' j = inode_at s j;
  ad_data i :
    block_id i -> used s i = true -> ~ itable_block s i -> i <> in_first dirnode ->
    view s' i = view s i /\ used s' i = true /\ ~ itable_block s' i;
  ad_step : phased_step s s';
  ad_inodes : inode_freemap s' = inode_freemap s;
  ad_pwd : crfs_pwd s' = crfs_pwd s;
  ad_root : sb_root (super_block s') = sb_root (super_block s);
  ad_keep j : 0 <= j < 65536 -> ITABLE_BLOCKNUM s j <> 0 -> ITABLE_BLOCKNUM s' j <> 0;
}.

(** Writing a block that holds no inode table. *)
Lemma write_data_inode s b blk j :
  fs_ok s -> 0 <= j < 65536 -> ~ itable_block s b ->
  inode_at (fs_write s b blk) j = inode_at s j.
Proof.
  intros Hs Hj Hnt. unfold inode_at.
  change (ITABLE_BLOCKNUM (fs_write s b blk) j) with (ITABLE_BLOCKNUM s j).
  rewrite write_view by done. destruct (Z.eqb_spec (ITABLE_BLOCKNUM s j) b) as [Heq|]; [|done].
  destruct Hnt. by exists j.
Qed.

Lemma write_dir_at s b blk d :
  fs_ok s -> block_id b -> ~ itable_block s b -> dir_at s d -> dir_at (fs_write s b blk) d.
Proof.
  intros Hs Hb Hnt []. split; try done. by rewrite write_data_inode.
Qed.

Lemma add_dirent_spec s d blk i inum name :
  fs_ok s -> vtable_inv s -> dir_at s d -> free_blocks s 2 ->
  block_ok (populate_dirent i inum name blk) ->
  exists s', add_dirent s d blk i inum name = Some (0, s') /\
    dirent_added s d (populate_dirent i inum name blk) s'.
Proof.
  intros Hs Hvt Hd Hfree Hpop. unfold add_dirent.
  destruct (commit_spec s d Hs Hvt Hd Hfree) as (b & s1 & -> & Hc). simpl.
  set (d' := Inode (in_inode d) b (in_last (inode_at s1 (in_inode d))) (in_fsize d) (in_fmask d)).
  pose proof (cm_ok _ _ _ _ Hc) as Hs1. pose proof (cm_dir _ _ _ _ Hc) as Hd'. fold d' in Hd'.
  pose proof (dir_at_block s1 d' Hs1 Hd') as Hb. pose proof Hd' as [Hinum Hsame Hex Hmask Hu Hnt Hn0].
  change (in_inode d') with (in_inode d) in *. change (in_first d') with b in *.
  eexists. split; [done|]. set (pb := populate_dirent i inum name blk) in *.
  assert (inode_at (fs_write s1 b pb) (in_inode d) = d') as Hat by by rewrite write_data_inode.
  split; try apply Hc; try done.
  - by apply write_fs_ok.
  - apply vtable_inv_write, Hc.
  - rewrite Hat. by apply write_dir_at.
  - by rewrite Hat.
  - rewrite Hat. rewrite write_view by done. by rewrite Z.eqb_refl.
  - rewrite Hat. apply (cm_block _ _ _ _ Hc).
  - intros j Hj Hne Hexj. rewrite write_data_inode by done. by apply (cm_other _ _ _ _ Hc).
  - intros k Hk Huk Hntk Hne. destruct (cm_data _ _ _ _ Hc k) as (Hv & Hu' & Hnt'); [done..|].
    split; [|done]. rewrite write_view by done.
    destruct (Z.eqb_spec k b) as [->|]; [|done].
    destruct (cm_block _ _ _ _ Hc) as [|Hf]; [done|].
    apply used_taken in Huk. unfold taken in Hf. congruence.
  - destruct (cm_step _ _ _ _ Hc) as [HB HT HD]. split; intros k.
    + by rewrite write_base.
    + apply HT.
    + intros Hk. rewrite write_dirty by done.
      destruct (Z.eqb_spec k b) as [->|]; [intros _; apply Hc|by apply HD].
Qed.
(** ** New inodes *)

(** The inode map covers the 65536 inode numbers, inode 0 is reserved, and some
    inode is available. *)
Record inodes_ok s : Prop := {
  im_size : fm_mapsize (inode_freemap s) = 8192;
  im_zero : fm_used (inode_freemap s) 0 = true;
}.
Definition free_inode s : Prop :=
  exists n, 0 <= n < 65536 /\ fm_taken (inode_freemap s) n = false.

(** The inode [n] is the one [freemap_next] hands out. *)
Record new_inode s (n : Z) (im : freemap) : Prop := {
  ni_wf : fm_wf im;
  ni_range : 0 < n < 65536;
  ni_fresh : fm_taken (inode_freemap s) n = false;
  ni_used i : 0 <= i -> fm_used im i = (i =? n) || fm_used (inode_freemap s) i;
  ni_size : fm_mapsize im = fm_mapsize (inode_freemap s);
}.

Lemma new_inode_spec s :
  fs_ok s -> inodes_ok s -> free_inode s ->
  exists n im, freemap_next (inode_freemap s) = (n, im) /\ new_inode s n im.
Proof.
  intros Hs [Hsz H0] (m & Hm & Hfm).
  pose proof (freemap_next_spec _ (ok_im s Hs)) as Hnext.
  destruct (freemap_next (inode_freemap s)) as [n im]. destruct Hnext as [Hwf [Hal|Hex]]; last first.
  { pose proof (full_all _ _ _ Hex m) as Hall. unfold fm_items in Hall.
    rewrite Hall in Hfm by lia. done. }
  destruct Hal as [Hr Hf Hlow Hu Hp Hs']. unfold fm_items in Hr.
  exists n, im. split; [done|]. split; try done.
  destruct (decide (n = 0)) as [->|]; [|lia]. by rewrite used_taken in Hf.
Qed.

Lemma set_inode_freemap_ok s im :
  fs_ok s -> fm_wf im -> fs_ok (set_inode_freemap im s).
Proof. intros [] Hwf. by split. Qed.

Lemma set_inode_freemap_vtable s im : vtable_inv s -> vtable_inv (set_inode_freemap im s).
Proof. by intros []. Qed.

Lemma set_inode_freemap_step s im : phased_step s (set_inode_freemap im s).
Proof. split; auto. Qed.

Lemma set_inode_freemap_dir s im d : dir_at s d -> dir_at (set_inode_freemap im s) d.
Proof. by intros []. Qed.

(** ** Specification of the creation of an entry *)

(** [name] was added to the directory [d] for the new inode [inum]. *)
Record entry_created s (d : crfs_inode) (name : list Z) (inum : Z) (ino : crfs_inode) s' : Prop := {
  ec_ok : fs_ok s';
  ec_vtable : vtable_inv s';
  ec_fresh : 0 < inum < 65536 /\ fm_taken (inode_freemap s) inum = false;
  ec_inode : inode_at s' inum = ino;
  ec_dir : dir_at s' (inode_at s' (in_inode d));
  ec_inum : in_inode (inode_at s' (in_inode d)) = in_inode d;
  ec_wf : dir_wf (view s' (in_first (inode_at s' (in_inode d))));
  ec_slots : exists i, 0 <= i < 64 /\ d_inode (view s (in_first d)) i = 0 /\
    forall j, 0 <= j < 64 ->
      d_inode (view s' (in_first (inode_at s' (in_inode d)))) j =
        if j =? i then inum else d_inode (view s (in_first d)) j;
  ec_block :
    in_first (inode_at s' (in_inode d)) = in_first d \/
    taken s (in_first (inode_at s' (in_inode d))) = false;
  ec_lookup nm :
    nonzero nm ->
    lookup s' (inode_at s' (in_inode d)) nm =
      if decide (nm = name) then Some inum else lookup s d nm;
  ec_other j :
    0 <= j < 65536 -> j <> in_inode d -> j <> inum -> ITABLE_BLOCKNUM s j <> 0 ->
    inode_at s' j = inode_at s j;
  ec_data i :
    block_id i -> used s i = true -> ~ itable_block s i -> i <> in_first d ->
    view s' i = view s i /\ used s' i = true /\ ~ itable_block s' i;
  ec_keep j : 0 <= j < 65536 -> ITABLE_BLOCKNUM s j <> 0 -> ITABLE_BLOCKNUM s' j <> 0;
  ec_inodes : inodes_ok s';
  ec_used j : 0 <= j ->
    fm_used (inode_freemap s') j = (j =? inum) || fm_used (inode_freemap s) j;
  ec_step : phased_step s s';
  ec_pwd : crfs_pwd s' = crfs_pwd s;
  ec_root : sb_root (super_block s') = sb_root (super_block s);
  ec_exists : ITABLE_BLOCKNUM s' inum <> 0;
}.

Lemma written_free s ino s' n :
  inode_written s ino s' -> free_blocks s (S n) -> free_blocks s' n.
Proof. intros Hw. apply free_blocks_step; apply Hw. Qed.

(** What both kinds of creation need of the directory. *)
Record can_add s (d : crfs_inode) (i : Z) (name : list Z) : Prop := {
  ca_ok : fs_ok s;
  ca_vtable : vtable_inv s;
  ca_inodes : inodes_ok s;
  ca_free_inode : free_inode s;
  ca_dir : dir_at s d;
  ca_live : fm_used (inode_freemap s) (in_inode d) = true;
  ca_wf : dir_wf (view s (in_first d));
  ca_name : name_ok name;
  ca_slot : 0 <= i < 64 /\ d_inode (view s (in_first d)) i = 0;
  ca_new : crfs_lookup_dirent (view s (in_first d)) name = None;
}.

(** From the stored inode [ino] (number [inum]) to the entry. *)
Lemma create_entry s s1 d i name inum im ino :
  can_add s d i name -> new_inode s inum im ->
  fs_ok s1 -> vtable_inv s1 -> dir_at s1 d ->
  view s1 (in_first d) = view s (in_first d) -> free_blocks s1 2 ->
  inode_freemap s1 = im -> inode_at s1 inum = ino -> ITABLE_BLOCKNUM s1 inum <> 0 ->
  (forall j, 0 <= j < 65536 -> j <> inum -> ITABLE_BLOCKNUM s j <> 0 ->
     inode_at s1 j = inode_at s j /\ ITABLE_BLOCKNUM s1 j <> 0) ->
  (forall i, block_id i -> used s i = true -> ~ itable_block s i ->
     view s1 i = view s i /\ used s1 i = true /\ ~ itable_block s1 i) ->
  phased_step s s1 -> crfs_pwd s1 = crfs_pwd s ->
  sb_root (super_block s1) = sb_root (super_block s) ->
  exists s', add_dirent s1 d (view s (in_first d)) i inum name = Some (0, s') /\
    entry_created s d name inum ino s' /\ dirent_added s1 d
      (populate_dirent i inum name (view s (in_first d))) s'.
Proof.
  intros [Hs Hvt Him Hfi Hd Hlive Hwf Hname [Hi Hslot] Hnew] [Hniw Hnr Hnf Hnu Hns]
    Hs1 Hvt1 Hd1 Hv1 Hf1 Him1 Hino Hitab Hoth Hdat Hst Hpwd Hroot.
  set (blk := view s (in_first d)) in *.
  pose proof (populate_block_ok i inum name blk Hwf Hi Hname) as Hpop.
  destruct (add_dirent_spec s1 d blk i inum name Hs1 Hvt1 Hd1 Hf1 Hpop) as (s' & -> & Ha).
  exists s'. split; [done|]. split; [|done].
  pose proof (da_inum s d Hd) as Hdn. pose proof (ad_block _ _ _ _ Ha) as Hblkn.
  set (d' := inode_at s' (in_inode d)) in *.
  assert (in_inode d <> inum) as Hdi.
  { intros Heq. rewrite <- Heq in Hnf. by rewrite used_taken in Hnf. }
  split; try apply Ha; try done.
  - rewrite (ad_other _ _ _ _ Ha) by (done || lia). done.
  - rewrite (ad_content _ _ _ _ Ha). by apply populate_wf.
  - exists i. split_and!; try done; try lia. intros j Hj. rewrite (ad_content _ _ _ _ Ha).
    rewrite populate_inode by done. by rewrite u16_small by lia.
  - destruct Hblkn as [|Hb]; [by left|right]. destruct (taken s (in_first d')) eqn:Et; [|done].
    rewrite (st_taken _ _ Hst) in Hb; [done| |done].
    apply (dir_at_block s' d'); apply Ha.
  - intros nm Hnm. unfold lookup. rewrite (ad_content _ _ _ _ Ha).
    rewrite lookup_populate by (done || rewrite u16_small; lia).
    by rewrite u16_small by lia.
  - intros j Hj Hne Hne' Hex. destruct (Hoth j) as [Heq Hex1]; [done..|].
    by rewrite (ad_other _ _ _ _ Ha).
  - intros k Hk Hu Hnt Hne. destruct (Hdat k) as (Heq & Hu1 & Hnt1); [done..|].
    destruct (ad_data _ _ _ _ Ha k) as (-> & ?); done.
  - intros j Hj Hex. destruct (decide (j = inum)) as [->|Hne].
    + apply (ad_keep _ _ _ _ Ha); [lia|done].
    + apply (ad_keep _ _ _ _ Ha); [done|]. by apply Hoth.
  - split.
    + rewrite (ad_inodes _ _ _ _ Ha), Him1, Hns. apply Him.
    + rewrite (ad_inodes _ _ _ _ Ha), Him1, Hnu by done. rewrite (im_zero s Him). apply orb_true_r.
  - intros j Hj. rewrite (ad_inodes _ _ _ _ Ha), Him1. by apply Hnu.
  - apply (phased_step_trans s s1); [done|apply Ha].
  - by rewrite (ad_pwd _ _ _ _ Ha).
  - by rewrite (ad_root _ _ _ _ Ha).
  - lia.
Qed.

Lemma create_in_spec s d i name :
  can_add s d i name -> free_blocks s 3 ->
  exists inum s', create_in s d (view s (in_first d)) i name = Some (0, s') /\
    entry_created s d name inum (Inode inum 0 0 0 CRFS_FMASK_FILE) s'.
Proof.
  intros Hc Hfree. pose proof Hc as [Hs Hvt Him Hfi Hd Hlive _ _ _ _].
  destruct (new_inode_spec s Hs Him Hfi) as (inum & im & E & Hn). unfold create_in. rewrite E.
  pose proof Hn as [Hniw Hnr Hnf Hnu Hns]. rewrite (u16_small inum) by lia.
  set (s0 := set_inode_freemap im s). set (ino := Inode inum 0 0 0 CRFS_FMASK_FILE).
  assert (fs_ok s0) as Hs0 by by apply set_inode_freemap_ok.
  pose proof (set_inode_freemap_vtable s im Hvt) as Hvt0. fold s0 in Hvt0.
  pose proof (set_inode_freemap_dir s im d Hd) as Hd0. fold s0 in Hd0.
  assert (inode_ok ino) as Hiok by (split; unfold ino, CRFS_FMASK_FILE; simpl; lia).
  assert (in_inode d <> inum) as Hdi.
  { intros Heq. rewrite <- Heq in Hnf. by rewrite used_taken in Hnf. }
  destruct (write_inode_spec s0 ino Hs0 Hvt0 Hiok) as (r & s1 & -> & [[-> Hw]|[-> Hos]]); last first.
  { destruct (free_not_full s 2 Hfree). apply Hos. }
  simpl. exists inum.
  destruct (written_dir_at s0 ino s1 d) as [Hd1 Hv1]; [done..|].
  destruct (create_entry s s1 d i name inum im ino) as (s' & E' & Hec & _);
    try done; try apply Hw; [..|by exists s'].
  - by apply (written_free s0 ino).
  - intros j Hj Hne Hex. split; [|by apply (iw_keep _ _ _ Hw)].
    by apply (iw_other _ _ _ Hw); [..|by left].
  - intros k Hk Hu Hnt. split_and!.
    + apply (iw_data _ _ _ Hw); [done|by apply used_taken|done].
    + apply (iw_used _ _ _ Hw); [apply Hk|done..].
    + by apply (iw_tables _ _ _ Hw).
  - apply (phased_step_trans s s0); [apply set_inode_freemap_step|apply Hw].
Qed.

(** ** New directories *)

Lemma dir_wf_zeros : dir_wf (zeros BLOCK).
Proof.
  split; [apply block_ok_zeros|]. intros j Hj. apply list_elem_of_lookup. exists 0%nat.
  rewrite lookup_sub, decide_True by lia. apply lookup_replicate_2. blk.
Qed.

Lemma zeros_inode j : d_inode (zeros BLOCK) j = 0.
Proof.
  unfold d_inode, get16, sub, zeros. rewrite drop_replicate, take_replicate.
  induction (min 2 _) as [|n IH]; simpl; [done|]. by rewrite IH.
Qed.

(** [strcpy] and [strncpy] agree on a cleared block. *)
Lemma new_directory_populate inum parent :
  new_directory inum parent =
    populate_dirent 1 parent [46; 46] (populate_dirent 0 inum [46] (zeros BLOCK)).
Proof. reflexivity. Qed.

Lemma name_ok_dot : name_ok [46].
Proof. by split; repeat constructor. Qed.
Lemma name_ok_dotdot : name_ok [46; 46].
Proof. split; repeat constructor; done. Qed.

Lemma new_directory_wf inum parent : dir_wf (new_directory inum parent).
Proof.
  rewrite new_directory_populate.
  apply populate_wf; [apply populate_wf| |]; auto using dir_wf_zeros, name_ok_dot, name_ok_dotdot;
    lia.
Qed.

(** A new directory has "." and "..", and nothing else. *)
Lemma new_directory_lookup inum parent nm :
  0 < inum < 65536 -> 0 < parent < 65536 -> nonzero nm ->
  option_map de_inode (crfs_lookup_dirent (new_directory inum parent) nm) =
    if decide (nm = [46; 46]) then Some parent
    else if decide (nm = [46]) then Some inum else None.
Proof.
  intros Hi Hp Hnm. pose proof dir_wf_zeros as Hz.
  assert (forall n, crfs_lookup_dirent (zeros BLOCK) n = None) as Hzn.
  { intros n. destruct (crfs_lookup_dirent _ n) eqn:E; [|done].
    apply lookup_dirent_Some in E as (k & _ & _ & Hk & _). by rewrite zeros_inode in Hk. }
  assert (dir_wf (populate_dirent 0 inum [46] (zeros BLOCK))) as Hw1
    by (apply populate_wf; auto using name_ok_dot; lia).
  rewrite new_directory_populate.
  assert (forall n, nonzero n ->
    option_map de_inode (crfs_lookup_dirent (populate_dirent 0 inum [46] (zeros BLOCK)) n) =
      if decide (n = [46]) then Some inum else None) as H1.
  { intros n Hn. rewrite lookup_populate; auto using name_ok_dot, zeros_inode; try lia.
    - rewrite Hzn. by rewrite u16_small by lia.
    - rewrite u16_small; lia. }
  rewrite lookup_populate; [|done|lia|apply name_ok_dotdot| |rewrite u16_small; lia| |done].
  - rewrite u16_small by lia. case_decide; [done|]. by apply H1.
  - rewrite populate_inode by (auto using name_ok_dot; lia). apply zeros_inode.
  - specialize (H1 [46; 46]). rewrite decide_False in H1 by done.
    destruct (crfs_lookup_dirent _ [46; 46]); [|done].
    discriminate H1. repeat constructor; done.
Qed.

(** Handing out one block. *)
Lemma alloc_spec s :
  fs_ok s -> free_blocks s 1 ->
  exists b bm, freemap_next (block_freemap s) = (b, bm) /\ u16 b = b /\ exchanged s (-1) b bm.
Proof.
  intros Hs Hfree. pose proof (freemap_next_spec _ (ok_bm s Hs)) as Hnext.
  destruct (freemap_next (block_freemap s)) as [b bm]. destruct Hnext as [Hwf [Hal|Hex]]; last first.
  { destruct (free_not_full s 0 Hfree). apply Hex. }
  destruct Hal as [Hr Hf Hlow Hau Hap Hsz]. pose proof (ok_bm_size s Hs) as Hsize.
  unfold fm_items in Hr. exists b, bm. split; [done|]. split; [apply u16_small; lia|].
  split; [done|done|split; lia|done| |].
  - intros i Hi _. by apply Hau.
  - intros i Hi. unfold fm_taken. rewrite Hau, Hap by done. by rewrite <- orb_assoc.
Qed.

(** The new directory: its own inode and block. *)
Record directory_created s (d : crfs_inode) (name : list Z) (inum b : Z) s' : Prop := {
  dc_entry : entry_created s d name inum (Inode inum b b 0 CRFS_FMASK_DIR) s';
  dc_fresh : taken s b = false;
  dc_content : view s' b = new_directory inum (in_inode d);
  dc_dir : dir_at s' (Inode inum b b 0 CRFS_FMASK_DIR);
  dc_new : in_first (inode_at s' (in_inode d)) <> b;
}.

(** A block [b] was handed out and written: what that leaves unchanged. *)
Record block_added s (b : Z) (blk : block) s' : Prop := {
  ba_ok : fs_ok s';
  ba_vtable : vtable_inv s';
  ba_id : block_id b /\ b <> 0;
  ba_fresh : taken s b = false;
  ba_used : used s' b = true;
  ba_data : ~ itable_block s' b;
  ba_content : view s' b = blk;
  ba_other k :
    block_id k -> used s k = true -> ~ itable_block s k ->
    view s' k = view s k /\ used s' k = true /\ ~ itable_block s' k;
  ba_inodes j : 0 <= j < 65536 -> inode_at s' j = inode_at s j;
  ba_tables j : ITABLE_BLOCKNUM s' j = ITABLE_BLOCKNUM s j;
  ba_step : phased_step s s';
  ba_free n : free_blocks s (S n) -> free_blocks s' n;
}.

Lemma add_block_spec s blk :
  fs_ok s -> vtable_inv s -> free_blocks s 1 -> block_ok blk ->
  exists b bm, freemap_next (block_freemap s) = (b, bm) /\ u16 b = b /\
    block_added s b blk (fs_write (set_block_freemap bm s) b blk).
Proof.
  intros Hs Hvt Hfree Hblk. destruct (alloc_spec s Hs Hfree) as (b & bm & E & Hub & Hexc).
  exists b, bm. split; [done|]. split; [done|]. pose proof Hexc as [_ Hsz Hb Hf Hexu _].
  assert (~ itable_block s (-1)) as Hm1.
  { intros (j & Hj & Hjt). pose proof (vtable_block_id s j Hs) as [? _]. lia. }
  destruct (exchanged_state s (-1) b bm) as (Hs1 & Hvt1 & [HB HT HD] & Hone & Hub1);
    try done; [destruct Hb; lia|]. set (s1 := set_block_freemap bm s) in *.
  assert (forall k, used s k = true -> k <> b) as Hne.
  { intros k Hu ->. apply used_taken in Hu. unfold taken in Hf. congruence. }
  assert (~ itable_block s1 b) as Hbt by (intros Ht%(vt_used s Hvt); by destruct (Hne b Ht)).
  split; try done.
  - by apply write_fs_ok.
  - by apply vtable_inv_write.
  - split; [done|]. apply not_eq_sym, Hne, (vt_zero s Hvt).
  - rewrite write_view by done. by rewrite Z.eqb_refl.
  - intros k Hk Hu Hnt. split_and!; [| |done].
    + rewrite write_view by done. by rewrite (proj2 (Z.eqb_neq k b)) by by apply Hne.
    + change (fm_used bm k = true). rewrite Hexu by (destruct Hk; lia). rewrite Hu. apply orb_true_r.
  - intros j Hj. by rewrite write_data_inode.
  - split; intros k.
    + rewrite write_base by done. apply HB.
    + apply HT.
    + intros Hk. rewrite write_dirty by done.
      destruct (Z.eqb_spec k b) as [->|]; [by right|by apply HD].
  - intros n Hn. change (free_blocks s1 n). by apply (free_blocks_step s).
Qed.

Lemma block_added_dir s b blk s' d :
  fs_ok s -> block_added s b blk s' -> dir_at s d -> dir_at s' d.
Proof.
  intros Hs Ha Hd. pose proof (dir_at_block s d Hs Hd) as Hk. pose proof Hd as [? Hsame ? ? ? ? ?].
  destruct (ba_other _ _ _ _ Ha (in_first d)) as (_ & ? & ?); [done..|].
  split; try done; [by rewrite (ba_inodes _ _ _ _ Ha)|by rewrite (ba_tables _ _ _ _ Ha)].
Qed.

Lemma mkdir_in_spec s d i name :
  can_add s d i name -> free_blocks s 4 ->
  exists inum b s', mkdir_in s d (view s (in_first d)) i name = Some (0, s') /\
    directory_created s d name inum b s'.
Proof.
  intros Hc Hfree. pose proof Hc as [Hs Hvt Him Hfi Hd Hlive _ _ _ _].
  destruct (new_inode_spec s Hs Him Hfi) as (inum & im & E & Hn). unfold mkdir_in. rewrite E.
  pose proof Hn as [Hniw Hnr Hnf Hnu Hns]. rewrite (u16_small inum) by lia.
  set (s0 := set_inode_freemap im s). set (nd := new_directory inum (in_inode d)).
  assert (fs_ok s0) as Hs0 by by apply set_inode_freemap_ok.
  destruct (add_block_spec s0 nd Hs0) as (b & bm & -> & -> & Hb);
    [by apply set_inode_freemap_vtable|by apply (free_blocks_weaken s 4); [lia|]
    |apply new_directory_wf|].
  set (s2 := fs_write _ b nd) in *. set (ino := Inode inum b b 0 CRFS_FMASK_DIR).
  pose proof (block_added_dir _ _ _ _ d Hs0 Hb (set_inode_freemap_dir s im d Hd)) as Hd2.
  pose proof (ba_free _ _ _ _ Hb 3 Hfree) as Hf2.
  pose proof Hb as [Hs2 Hvt2 [[Hb1 Hb2] Hbn0] Hfr Hbu Hbt Hbc Hoth Hins Htabs Hst2 _].
  assert (inode_ok ino) as Hiok by (split; unfold ino, CRFS_FMASK_DIR; simpl; lia).
  assert (in_inode d <> inum) as Hdi.
  { intros Heq. rewrite <- Heq in Hnf. by rewrite used_taken in Hnf. }
  assert (b <> in_first d) as Hbd.
  { intros ->. pose proof (used_taken _ _ (da_used s d Hd)). unfold taken in Hfr. simpl in Hfr. congruence. }
  destruct (write_inode_spec s2 ino Hs2 Hvt2 Hiok) as (r & s3 & -> & [[-> Hw]|[-> Hos]]); last first.
  { destruct (free_not_full s2 2 Hf2). apply Hos. }
  simpl. destruct (written_dir_at s2 ino s3 d) as [Hd3 Hv3]; [done..|].
  assert (forall k, block_id k -> used s2 k = true -> ~ itable_block s2 k ->
            view s3 k = view s2 k /\ used s3 k = true /\ ~ itable_block s3 k) as Hkeep.
  { intros k Hk Hu Hnt. split_and!.
    - apply (iw_data _ _ _ Hw); [done|by apply used_taken|done].
    - apply (iw_used _ _ _ Hw); [apply Hk|done..].
    - by apply (iw_tables _ _ _ Hw). }
  destruct (Hkeep b) as (Hvb & Hu3 & Ht3); [done..|]. exists inum, b.
  destruct (create_entry s s3 d i name inum im ino) as (s' & E' & Hec & Hrest);
    try done; try apply Hw.
  - rewrite Hv3. apply Hoth; [by apply (dir_at_block s)|apply Hd..].
  - by apply (written_free s2 ino).
  - intros j Hj Hne Hex.
    assert (ITABLE_BLOCKNUM s2 j <> 0) as Hex2 by by rewrite Htabs.
    split; [|by apply (iw_keep _ _ _ Hw)].
    rewrite (iw_other _ _ _ Hw) by (done || by left). by apply Hins.
  - intros k Hk Hu Hnt. destruct (Hoth k Hk Hu Hnt) as (Hv & Hu2 & Hnt2).
    destruct (Hkeep k Hk Hu2 Hnt2) as (-> & ?). done.
  - apply (phased_step_trans s s2); [|apply Hw].
    apply (phased_step_trans s s0); [apply set_inode_freemap_step|done].
  - exists s'. split; [done|]. destruct (ad_data _ _ _ _ Hrest b) as (Hvb' & Hub' & Htb'); [done..|].
    split; [done|done|by rewrite Hvb', Hvb| |].
    + split; try done; simpl; [lia|apply (ec_inode _ _ _ _ _ _ Hec)|apply (ec_exists _ _ _ _ _ _ Hec)].
    + destruct (ad_block _ _ _ _ Hrest) as [->|Hfb]; [done|]. intros Heq. rewrite Heq in Hfb.
      apply used_taken in Hu3. unfold taken in Hfb. congruence.
Qed.
End add.

(** The entries of a new directory. *)
Lemma new_directory_inode inum parent i :
  0 <= i < 64 ->
  d_inode (new_directory inum parent) i =
    if i =? 1 then u16 parent else if i =? 0 then u16 inum else 0.
Proof.
  intros Hi. pose proof dir_wf_zeros as Hz.
  rewrite new_directory_populate.
  rewrite populate_inode;
    [|apply populate_wf; auto using name_ok_dot; lia|lia|apply name_ok_dotdot|done].
  rewrite populate_inode by (auto using name_ok_dot; lia). by rewrite zeros_inode.
Qed.
