(* ===== verification/WriteProofs.v ===== *)
(** * WriteProofs: correctness of [crfs_write]

    While a file is written its current block is in the handle; [pending] is the file system
    with that block stored.  What [crfs_write] does is stated on the contents of the blocks of
    the file ([file_blocks]), with the other files left alone ([file_step]). *)

From S2P Require Import Prelude Freemap Layout BlockLayer Fs Inode Namei Directory FileIO ReadProofs DirProofs.

(** ** Putting bytes over others *)

Lemma put_none pos l : put pos [] l = l.
Proof. unfold put. simpl. rewrite Nat.add_0_r. apply take_drop. Qed.
Lemma put_app pos d l z : (pos + length d <= length l)%nat -> put pos d (l ++ z) = put pos d l ++ z.
Proof.
  intros Hl. unfold put. rewrite take_app_le, drop_app_le by lia. by rewrite <- !app_assoc.
Qed.
Lemma put_twice pos d e l : (pos + length d + length e <= length l)%nat ->
  put (pos + length d) e (put pos d l) = put pos (d ++ e) l.
Proof.
  intros Hl. unfold put at 2. unfold put.
  assert (Ht : length (take pos l) = pos) by (rewrite length_take; lia).
  rewrite (app_assoc (take pos l) d). rewrite take_app_le by (rewrite length_app; lia).
  rewrite (firstn_all2 (n := pos + length d)) by (rewrite length_app; lia).
  rewrite drop_app_ge by (rewrite length_app; lia). rewrite drop_drop, length_app, Ht, length_app.
  rewrite <- !app_assoc. do 4 f_equal. lia.
Qed.

(** One block among others of the same size. *)
Lemma put_concat (ls : list (list Z)) (n k off : nat) d x :
  Forall (fun l => length l = n) ls -> ls !! k = Some x -> (off + length d <= n)%nat ->
  concat (<[k := put off d x]> ls) = put (k * n + off) d (concat ls).
Proof.
  intros HF. revert k. induction HF as [|y ls Hy HF IH]; intros k Hk Hd; [done|]. destruct k as [|k].
  - injection Hk as ->. cbn [insert list_insert concat Nat.mul Nat.add]. symmetry. apply put_app. lia.
  - change (ls !! k = Some x) in Hk. change (<[S k := put off d x]> (y :: ls)) with (y :: <[k := put off d x]> ls).
    cbn [concat]. rewrite (IH k Hk Hd). unfold put.
    rewrite take_app_ge, drop_app_ge by lia. rewrite Hy, <- !app_assoc. do 3 f_equal; [f_equal; lia|do 2 f_equal; lia].
Qed.

Section write.
Context {St : Type} `{BlockLayer St}.
Implicit Types s t : fs St.

Abbreviation DATA := CRFS_FBLOCK_DATA.

(** States that differ in what is dirty, and in what the cache holds, only. *)
Record alike s t : Prop := {
  al_ok : fs_ok t;
  al_view i : view t i = view s i;
  al_bm : block_freemap t = block_freemap s;
  al_im : inode_freemap t = inode_freemap s;
  al_sb : super_block t = super_block s;
  al_pwd : crfs_pwd t = crfs_pwd s;
}.
Lemma alike_equiv s t : fs_ok s -> t ≡ s -> alike s t.
Proof. intros Hs Heq. split; try (intros; by rewrite Heq). Qed.
Lemma alike_trans s t u : alike s t -> alike t u -> alike s u.
Proof. intros [] []. split; congruence. Qed.
Lemma alike_write s b : fs_ok s -> block_id b -> alike s (fs_write s b (view s b)).
Proof.
  intros Hs Hb. split; try done; [by apply write_fs_ok; [..|apply view_ok]|].
  intros i. rewrite write_view by done. by destruct (Z.eqb_spec i b) as [->|].
Qed.

Lemma alike_itable s t i : alike s t -> itable_block t i <-> itable_block s i.
Proof. intros Ha. unfold itable_block, ITABLE_BLOCKNUM. by rewrite (al_sb _ _ Ha). Qed.
Lemma alike_used s t i : alike s t -> used t i = used s i.
Proof. intros Ha. unfold used. by rewrite (al_bm _ _ Ha). Qed.
Lemma alike_inode s t n : alike s t -> inode_at t n = inode_at s n.
Proof. intros Ha. unfold inode_at, ITABLE_BLOCKNUM. by rewrite (al_sb _ _ Ha), (al_view _ _ Ha). Qed.
Lemma alike_free s t n : alike s t -> free_blocks s n -> free_blocks t n.
Proof. intros Ha. unfold free_blocks, taken. by rewrite (al_bm _ _ Ha). Qed.

Lemma content_ext s t bs : (forall b, b ∈ bs -> fb_data (view t b) = fb_data (view s b)) -> content t bs = content s bs.
Proof. intros Hv. unfold content. f_equal. apply map_ext_in. intros b Hb. apply Hv. by apply list_elem_of_In. Qed.
Lemma chain_ext s t b bs : (forall x, x ∈ bs -> view t x = view s x) -> chain s b bs -> chain t b bs.
Proof.
  revert b. induction bs as [|x bs IH]; intros b Hv; [done|]. intros (-> & Hx & Hi & Hc). split; [done|].
  split; [done|]. split; [done|]. rewrite Hv by left. apply IH; [|done].
  intros y Hy. apply Hv. by right.
Qed.

(** The blocks of the file of inode [n]: nobody else has them. *)
Record file_blocks s (n : Z) (bs : list Z) : Prop := {
  fl_ok : fs_ok s;
  fl_vtable : vtable_inv s;
  fl_range : 0 <= n < 65536;
  fl_inum : in_inode (inode_at s n) = n;
  fl_table : ITABLE_BLOCKNUM s n <> 0;
  fl_chain : chain s (in_first (inode_at s n)) bs;
  fl_nodup : NoDup bs;
  fl_used b : b ∈ bs -> used s b = true /\ ~ itable_block s b;
}.
Lemma file_blocks_alike s t n bs : alike s t -> file_blocks s n bs -> file_blocks t n bs.
Proof.
  intros Ha [Hs Hv Hr Hi Ht Hc Hn Hu]. pose proof (alike_inode s t n Ha) as Hin.
  split; try done; [apply Ha| | | | |].
  - destruct Hv as [V1 V2 V3]. split; [intros i|intros i j|]; unfold ITABLE_BLOCKNUM; rewrite ?(al_sb _ _ Ha).
    + rewrite (alike_itable s t) by done. rewrite (alike_used s t) by done. apply V1.
    + apply V2.
    + by rewrite (alike_used s t).
  - by rewrite Hin.
  - unfold ITABLE_BLOCKNUM. by rewrite (al_sb _ _ Ha).
  - rewrite Hin. apply (chain_ext s); [|done]. intros x _. apply (al_view _ _ Ha).
  - intros b Hb. rewrite (alike_used s t), (alike_itable s t) by done. by apply Hu.
Qed.

(** What writing to that file leaves alone; [bs'] are its blocks then. *)
Record file_step s (n : Z) (bs : list Z) t (bs' : list Z) : Prop := {
  sp_other j : 0 <= j < 65536 -> j <> n -> ITABLE_BLOCKNUM s j <> 0 ->
    inode_at t j = inode_at s j /\ ITABLE_BLOCKNUM t j <> 0;
  sp_data i : block_id i -> used s i = true -> ~ itable_block s i -> i ∉ bs ->
    view t i = view s i /\ used t i = true /\ ~ itable_block t i /\ i ∉ bs';
  sp_mask : in_fmask (inode_at t n) = in_fmask (inode_at s n);
  sp_inodes : inode_freemap t = inode_freemap s;
  sp_pwd : crfs_pwd t = crfs_pwd s;
  sp_root : sb_root (super_block t) = sb_root (super_block s);
}.
Lemma file_step_trans s n bs t bs' u bs'' :
  file_step s n bs t bs' -> file_step t n bs' u bs'' -> file_step s n bs u bs''.
Proof.
  intros [O1 D1 M1 I1 P1 R1] [O2 D2 M2 I2 P2 R2]. split; try congruence.
  - intros j Hj Hne Ht. destruct (O1 j Hj Hne Ht) as [E1 T1]. destruct (O2 j Hj Hne T1) as [E2 T2].
    split; [congruence|done].
  - intros i Hi Hu Hn Hb. destruct (D1 i Hi Hu Hn Hb) as (V1 & U1 & N1 & B1).
    destruct (D2 i Hi U1 N1 B1) as (V2 & U2 & N2 & B2). split; [congruence|done].
Qed.
Lemma file_step_alike s t n bs : alike s t -> file_step s n bs t bs.
Proof.
  intros Ha. split; try apply Ha.
  - intros j Hj Hne Ht. rewrite (alike_inode s t) by done. unfold ITABLE_BLOCKNUM. by rewrite (al_sb _ _ Ha).
  - intros i Hi Hu Hn Hb. rewrite (al_view _ _ Ha), (alike_used s t), (alike_itable s t) by done. done.
  - by rewrite (alike_inode s t).
  - by rewrite (al_sb _ _ Ha).
Qed.

(** ** Storing into the current block *)

Lemma fb_data_put f (off : nat) d : block_ok f -> (off + length d <= 4080)%nat ->
  fb_data (put_fb_data (Z.of_nat off) d f) = put off d (fb_data f).
Proof.
  intros Hf Hl. pose proof (block_len f Hf) as Hlen. unfold fb_data, put_fb_data. rewrite Nat2Z.id.
  apply list_eq. intros i. rewrite lookup_drop, !lookup_put by (rewrite ?length_drop; unfold FB_HEADER; lia).
  rewrite lookup_drop. unfold FB_HEADER in *. repeat case_decide; try lia; [f_equal; lia|done].
Qed.
Lemma fb_next_put f off d : block_ok f -> (Z.to_nat off + length d <= 4080)%nat ->
  fb_next (put_fb_data off d f) = fb_next f.
Proof.
  intros Hf Hl. pose proof (block_len f Hf) as Hlen. unfold fb_next, put_fb_data, FB_HEADER.
  apply get16_put_ne; lia.
Qed.
Lemma put_data_ok f off d : block_ok f -> bytes_ok d -> (Z.to_nat off + length d <= 4080)%nat ->
  block_ok (put_fb_data off d f).
Proof. intros Hf Hd Hl. unfold put_fb_data, FB_HEADER. apply block_ok_put; [done|done|lia]. Qed.

Lemma content_write s b blk k bs : fs_ok s -> NoDup bs -> bs !! k = Some b ->
  content (fs_write s b blk) bs = concat (<[k := fb_data blk]> (map (fun x => fb_data (view s x)) bs)).
Proof.
  intros Hs Hn Hk. unfold content. f_equal. apply list_eq. intros i.
  change (map ?f bs) with (f <$> bs). rewrite list_lookup_fmap.
  destruct (decide (i = k)) as [->|Hne].
  - rewrite list_lookup_insert_eq by (rewrite length_fmap; by eapply lookup_lt_Some).
    rewrite Hk. cbn [fmap option_fmap option_map]. by rewrite write_view, Z.eqb_refl.
  - rewrite list_lookup_insert_ne by done. rewrite list_lookup_fmap.
    destruct (bs !! i) as [x|] eqn:Hx; [|done]. cbn [fmap option_fmap option_map].
    rewrite write_view by done. destruct (Z.eqb_spec x b) as [->|]; [|done].
    by destruct Hne; eapply NoDup_lookup.
Qed.

(** Writing a block of the file that keeps its link. *)
Lemma write_file s n bs b blk : file_blocks s n bs -> b ∈ bs -> block_ok blk ->
  fb_next blk = fb_next (view s b) ->
  file_blocks (fs_write s b blk) n bs /\ file_step s n bs (fs_write s b blk) bs /\
  inode_at (fs_write s b blk) n = inode_at s n.
Proof.
  intros [Hs Hv Hr Hi Ht Hc Hn Hu] Hb Hblk Hnx. destruct (Hu b Hb) as [Hub Hnt].
  assert (Hbi : block_id b).
  { pose proof (chain_ids _ _ _ Hc) as HF. rewrite Forall_forall in HF. by apply HF. }
  assert (Hin : forall j, 0 <= j < 65536 -> inode_at (fs_write s b blk) j = inode_at s j)
    by (intros j Hj; by apply write_data_inode).
  split; [|split; [split; try done|by apply Hin]].
  - split; try done; [by apply write_fs_ok|by apply vtable_inv_write|by rewrite Hin|].
    rewrite Hin by done. clear - Hc Hs Hnx. revert Hc. generalize (in_first (inode_at s n)). clear -Hs Hnx.
    induction bs as [|x bs IH]; intros a; [done|]. intros (-> & Hx & Hxi & Hc). split; [done|]. split; [done|]. split; [done|].
    rewrite write_view by done. destruct (Z.eqb_spec x b) as [->|]; [rewrite Hnx|]; by apply IH.
  - intros j Hj _ Htj. split; [by apply Hin|exact Htj].
  - intros i Hi' Hui Hnti Hib. split; [|done]. rewrite write_view by done.
    destruct (Z.eqb_spec i b) as [->|]; [done|done].
  - by rewrite Hin.
Qed.

(** The file system with the current block stored. *)
Definition pending s (fp : CO_FILE) : fs St := fs_write s (F_curblock fp) (F_fblock fp).

(** The file is being written, in its block number [k]. *)
Record writing s (n : Z) (bs : list Z) (k : nat) (fp : CO_FILE) : Prop := {
  wr_ok : fs_ok s;
  wr_file : file_blocks (pending s fp) n bs;
  wr_cur : bs !! k = Some (F_curblock fp);
  wr_block : block_ok (F_fblock fp);
  wr_magic : F_magic fp = CO_FILE_MAGIC;
  wr_inode : F_inode fp = n;
  wr_nospc : F_nospc fp = 0;
}.

Lemma pending_view s fp : fs_ok s -> view (pending s fp) (F_curblock fp) = F_fblock fp.
Proof. intros Hs. unfold pending. by rewrite write_view, Z.eqb_refl. Qed.
Lemma pending_again s fp blk : fs_ok s -> block_id (F_curblock fp) -> block_ok (F_fblock fp) -> block_ok blk ->
  alike (fs_write (pending s fp) (F_curblock fp) blk) (fs_write s (F_curblock fp) blk).
Proof.
  intros Hs Hb Hf Hblk. unfold pending. assert (Hp : fs_ok (fs_write s (F_curblock fp) (F_fblock fp))) by by apply write_fs_ok.
  split; try done; [by apply write_fs_ok|]. intros i. rewrite !write_view by done. by destruct (_ =? _).
Qed.

Lemma wr_id s n bs k fp : writing s n bs k fp -> block_id (F_curblock fp) /\ F_curblock fp <> 0 /\ F_curblock fp ∈ bs.
Proof.
  intros Hw. pose proof (chain_ids _ _ _ (fl_chain _ _ _ (wr_file _ _ _ _ _ Hw))) as HF. rewrite Forall_forall in HF.
  assert (Hin : F_curblock fp ∈ bs) by (eapply list_elem_of_lookup_2, Hw). by destruct (HF _ Hin).
Qed.

(** Storing bytes in the current block puts them over those of the file. *)
Lemma store_writing s n bs k fp (off m : nat) w fp' w' :
  writing s n bs k fp -> (off + m <= 4080)%nat -> (m <= length (w_left w))%nat -> bytes_ok (w_left w) ->
  store_data fp (Z.of_nat off) (Z.of_nat m) w = (fp', w') ->
  writing s n bs k fp' /\ F_curblock fp' = F_curblock fp /\ F_fpos fp' = u32 (F_fpos fp + Z.of_nat m) /\
  content (pending s fp') bs = put (k * 4080 + off) (take m (w_left w)) (content (pending s fp) bs) /\
  file_step (pending s fp) n bs (pending s fp') bs /\
  inode_at (pending s fp') n = inode_at (pending s fp) n /\
  w' = WState (drop m (w_left w)) (w_nwrote w + Z.of_nat m).
Proof.
  intros Hw Hoff Hm Hby. unfold store_data, advance. rewrite Nat2Z.id. intros [= <- <-].
  destruct (wr_id _ _ _ _ _ Hw) as (Hid & Hn0 & Hin). pose proof Hw as [Hs Hf Hc Hb Hmg Hi Hns].
  set (d := take m (w_left w)). assert (Hd : length d = m) by (unfold d; rewrite length_take; lia).
  assert (Hbd : bytes_ok d) by (by apply Forall_take).
  assert (Hblk : block_ok (put_fb_data (Z.of_nat off) d (F_fblock fp))) by (apply put_data_ok; [done|done|lia]).
  destruct (write_file (pending s fp) n bs (F_curblock fp) (put_fb_data (Z.of_nat off) d (F_fblock fp))) as (F1 & F2 & F3);
    [done..|rewrite pending_view by done; apply fb_next_put; [done|lia]|].
  pose proof (pending_again s fp (put_fb_data (Z.of_nat off) d (F_fblock fp)) Hs Hid Hb Hblk) as Ha.
  set (fp' := set_F_fpos _ _).
  assert (Hp' : pending s fp' = fs_write s (F_curblock fp) (put_fb_data (Z.of_nat off) d (F_fblock fp))) by reflexivity.
  split; [split; try done; rewrite Hp'; by apply (file_blocks_alike (fs_write (pending s fp) (F_curblock fp) (put_fb_data (Z.of_nat off) d (F_fblock fp))))|].
  split; [done|]. split; [done|]. split; [|split; [|split; [|done]]]; rewrite Hp'.
  - rewrite (content_write s _ _ k) by (done || apply Hf). rewrite fb_data_put by (done || lia).
    unfold pending. rewrite (content_write s _ _ k) by (done || apply Hf).
    rewrite <- (put_concat _ 4080 k off d (fb_data (F_fblock fp))).
    + by rewrite list_insert_insert_eq.
    + apply Forall_lookup. intros i x Hx. destruct (decide (i = k)) as [->|Hne].
      * rewrite list_lookup_insert_eq in Hx by (rewrite length_map; by eapply lookup_lt_Some).
        injection Hx as <-. by rewrite fb_data_len.
      * rewrite list_lookup_insert_ne in Hx by done. change (map ?f bs) with (f <$> bs) in Hx.
        rewrite list_lookup_fmap in Hx. destruct (bs !! i) as [y|] eqn:Ey; [|done]. injection Hx as <-.
        rewrite fb_data_len; [done|]. apply view_ok; [done|].
        pose proof (chain_ids _ _ _ (fl_chain _ _ _ Hf)) as HF. rewrite Forall_forall in HF.
        apply HF. by eapply list_elem_of_lookup_2.
    + apply list_lookup_insert_eq. rewrite length_map. by eapply lookup_lt_Some.
    + lia.
  - eapply file_step_trans; [exact F2|]. by apply file_step_alike.
  - by rewrite (alike_inode _ _ n Ha).
Qed.

(** ** A block more *)

(** The last block of the file links to the block that is to be appended. *)
Record linked t (bs : list Z) (b : Z) s : Prop := {
  lk_ok : fs_ok s;
  lk_bm : block_freemap s = block_freemap t;
  lk_im : inode_freemap s = inode_freemap t;
  lk_sb : super_block s = super_block t;
  lk_pwd : crfs_pwd s = crfs_pwd t;
  lk_view i : view s i = if decide (last bs = Some i) then set_fb_next b (view t i) else view t i;
}.

Lemma write_next f b : block_ok f -> block_id b -> fb_next (set_fb_next b f) = b /\ fb_data (set_fb_next b f) = fb_data f.
Proof.
  intros Hf Hb. pose proof (block_len f Hf) as Hl. split.
  - unfold fb_next, set_fb_next. rewrite get16_put16 by lia. by apply u16_small.
  - unfold fb_data, set_fb_next, put16. apply list_eq. intros i.
    rewrite !lookup_drop, lookup_put by (rewrite length_le_bytes; lia). rewrite length_le_bytes. unfold FB_HEADER.
    case_decide; [lia|done].
Qed.

Lemma chain_snoc t u a bs b :
  chain t a bs -> NoDup bs -> (forall x, x ∈ bs -> block_ok (view t x)) ->
  (forall x, x ∈ bs -> view u x = if decide (last bs = Some x) then set_fb_next b (view t x) else view t x) ->
  block_id b -> b <> 0 -> fb_next (view u b) = 0 ->
  chain u (if decide (bs = []) then b else a) (bs ++ [b]).
Proof.
  intros Hc Hn Hok Hv Hb Hb0 Hnx. revert a Hc Hn Hok Hv. induction bs as [|x bs IH]; intros a Hc Hn Hok Hv.
  { cbn [app chain]. by rewrite decide_True. }
  destruct Hc as (-> & Hx & Hxi & Hc). apply NoDup_cons in Hn as [Hxb Hn]. rewrite decide_False by done.
  cbn [app chain]. split; [done|]. split; [done|]. split; [done|].
  assert (Hx0 : x ∈ x :: bs) by by left.
  destruct bs as [|y bs].
  - rewrite (Hv x Hx0), decide_True by done. destruct (write_next (view t x) b) as [-> _]; [by apply Hok|done|].
    by cbn [app chain].
  - assert (Hl : last (x :: y :: bs) <> Some x).
    { change (last (x :: y :: bs)) with (last (y :: bs)). intros Hl. apply Hxb. by apply last_Some_elem_of. }
    rewrite (Hv x Hx0), decide_False by done. specialize (IH (fb_next (view t x)) Hc Hn).
    rewrite decide_False in IH by done. apply IH.
    + intros z Hz. apply Hok. by right.
    + intros z Hz. rewrite Hv by by right. done.
Qed.

(** The new block is in use, and the inode has been written. *)
Lemma appended t n bs b bm s blk s3 ino s4 :
  file_blocks t n bs -> linked t bs b s -> s3 = fs_write (set_block_freemap bm s) b blk -> block_added s b blk s3 -> fb_next blk = 0 ->
  ino = Inode n (if decide (bs = []) then b else in_first (inode_at t n)) b (in_fsize (inode_at t n)) (in_fmask (inode_at t n)) ->
  inode_written s3 ino s4 ->
  file_blocks s4 n (bs ++ [b]) /\ view s4 b = blk /\ content s4 (bs ++ [b]) = content t bs ++ fb_data blk /\
  file_step t n bs s4 (bs ++ [b]) /\ in_fsize (inode_at s4 n) = in_fsize (inode_at t n) /\
  (forall m, free_blocks t (S (S m)) -> free_blocks s4 m).
Proof.
  intros [Ht Hvt Hr Hi Hex Hc Hnd Hu] [Hok Hbm Him Hsb Hpwd Hv] E3 Ha Hnx Hino Hw.
  assert (Hit : forall i, itable_block s i <-> itable_block t i) by (intros i; unfold itable_block, ITABLE_BLOCKNUM; by rewrite Hsb).
  assert (Hus : forall i, used s i = used t i) by (intros i; unfold used; by rewrite Hbm).
  assert (HIT : forall j, ITABLE_BLOCKNUM s j = ITABLE_BLOCKNUM t j) by (intros j; unfold ITABLE_BLOCKNUM; by rewrite Hsb).
  assert (Hinum : in_inode ino = n) by by subst ino.
  pose proof (iw_same _ _ _ Hw) as Hsame. rewrite Hinum in Hsame.
  destruct (ba_id _ _ _ _ Ha) as [Hbid Hb0].
  pose proof (chain_ids _ _ _ Hc) as HF. rewrite Forall_forall in HF.
  assert (Hblast : last bs <> Some b).
  { intros Hl. apply last_Some_elem_of in Hl. destruct (Hu b Hl) as [Hub _]. rewrite <- Hus in Hub.
    apply used_taken in Hub. pose proof (ba_fresh _ _ _ _ Ha). unfold taken in *. congruence. }
  assert (Hnb : b ∉ bs).
  { intros Hl. destruct (Hu b Hl) as [Hub _]. rewrite <- Hus in Hub.
    apply used_taken in Hub. pose proof (ba_fresh _ _ _ _ Ha). unfold taken in *. congruence. }
  (* blocks in use keep what they have *)
  assert (Hkeep : forall i, block_id i -> used t i = true -> ~ itable_block t i ->
            view s4 i = view s i /\ used s4 i = true /\ ~ itable_block s4 i).
  { intros i Hib Hui Hni. destruct (ba_other _ _ _ _ Ha i) as (V & U & N); [done|by rewrite Hus|by rewrite Hit|].
    split; [|split].
    - rewrite (iw_data _ _ _ Hw) by (done || by apply used_taken). done.
    - apply (iw_used _ _ _ Hw); [apply Hib|done|done].
    - by apply (iw_tables _ _ _ Hw). }
  assert (Hb4 : view s4 b = blk).
  { rewrite (iw_data _ _ _ Hw); [apply (ba_content _ _ _ _ Ha)|done| |apply (ba_data _ _ _ _ Ha)].
    apply used_taken, (ba_used _ _ _ _ Ha). }
  assert (Hvs : forall x, x ∈ bs -> view s4 x = if decide (last bs = Some x) then set_fb_next b (view t x) else view t x).
  { intros x Hx. destruct (Hu x Hx) as [Hux Hnx']. destruct (HF x Hx) as [Hxi _].
    destruct (Hkeep x) as (V & _); [done..|]. by rewrite V, Hv. }
  assert (Htok : forall x, x ∈ bs -> block_ok (view t x)) by (intros x Hx; apply view_ok; [done|]; by apply HF).
  split.
  { split; [apply (iw_ok _ _ _ Hw)|apply (iw_vtable _ _ _ Hw)|done|..].
    - by rewrite Hsame, Hino.
    - pose proof (iw_exists _ _ _ Hw) as He. rewrite Hinum in He. exact He.
    - rewrite Hsame, Hino. cbn [in_first]. apply (chain_snoc t); [done..|by rewrite Hb4].
    - apply NoDup_app. split; [done|]. split; [|apply NoDup_singleton]. intros x Hx ->%list_elem_of_singleton. done.
    - intros x [Hx| ->%list_elem_of_singleton]%elem_of_app.
      + destruct (Hu x Hx) as [Hux Hnx']. destruct (HF x Hx) as [Hxi _]. by apply Hkeep.
      + split; [apply (iw_used _ _ _ Hw)|apply (iw_tables _ _ _ Hw)]; try apply Hbid; try apply (ba_data _ _ _ _ Ha); apply (ba_used _ _ _ _ Ha). }
  split; [done|]. split.
  { assert (Hct : content s4 bs = content t bs).
    { apply content_ext. intros x Hx. rewrite Hvs by done. destruct (decide (last bs = Some x)); [|done].
      apply write_next; [by apply Htok|done]. }
    rewrite <- Hct. unfold content. rewrite map_app, concat_app. cbn [map concat]. by rewrite app_nil_r, Hb4. }
  split.
  { split.
    - intros j Hj Hne Hexj. assert (Hexs : ITABLE_BLOCKNUM s j <> 0) by by rewrite HIT.
      assert (Hex3 : ITABLE_BLOCKNUM s3 j <> 0) by by rewrite (ba_tables _ _ _ _ Ha).
      split; [|by apply (iw_keep _ _ _ Hw)].
      rewrite (iw_other _ _ _ Hw) by (rewrite ?Hinum; (done || by left)). rewrite (ba_inodes _ _ _ _ Ha) by done.
      unfold inode_at. rewrite HIT, Hv. destruct (decide (last bs = Some (ITABLE_BLOCKNUM t j))) as [Hl|]; [|done]. exfalso.
      apply last_Some_elem_of in Hl. destruct (Hu _ Hl) as [_ Hni]. apply Hni. by exists j.
    - intros i Hib Hui Hni Hbs. destruct (Hkeep i) as (V & U & N); [done..|]. split; [|split; [done|split; [done|]]].
      + rewrite V, Hv. destruct (decide (last bs = Some i)) as [Hl|]; [|done]. by apply last_Some_elem_of in Hl.
      + intros [Hx| ->%list_elem_of_singleton]%elem_of_app; [done|].
        rewrite <- Hus in Hui. apply used_taken in Hui. pose proof (ba_fresh _ _ _ _ Ha). unfold taken in *. congruence.
    - by rewrite Hsame, Hino.
    - rewrite (iw_inodes _ _ _ Hw), <- Him. by subst s3.
    - rewrite (iw_pwd _ _ _ Hw), <- Hpwd. by subst s3.
    - rewrite (iw_root _ _ _ Hw), <- Hsb. by subst s3. }
  split; [by rewrite Hsame, Hino|].
  intros m Hm. apply (free_blocks_step s3); [apply Hw|apply Hw|]. apply (ba_free _ _ _ _ Ha).
  unfold free_blocks, taken. by rewrite Hbm.
Qed.

Lemma set_bm_ok s bm : fs_ok s -> fm_wf bm -> fm_mapsize bm = fm_mapsize (block_freemap s) -> fs_ok (set_block_freemap bm s).
Proof. intros [] Hw Hsz. split; simpl; try done. by rewrite Hsz. Qed.
Lemma set_bm_back s bm u : u ≡ set_block_freemap bm s ->
  set_block_freemap (block_freemap s) u ≡ s /\ set_block_freemap bm (set_block_freemap (block_freemap s) u) = u.
Proof.
  intros (E1 & E2 & E3 & E4 & E5 & E6 & E7). split; [by split_and!|]. cbn in E2. rewrite <- E2. by destruct u.
Qed.
Lemma vtable_inv_same s t : block_freemap t = block_freemap s -> super_block t = super_block s -> vtable_inv s -> vtable_inv t.
Proof.
  intros Hb Hsb [V1 V2 V3]. unfold used, itable_block, ITABLE_BLOCKNUM in *. split; unfold used, itable_block, ITABLE_BLOCKNUM; by rewrite ?Hb, ?Hsb.
Qed.

(** The block that is appended. *)
Lemma new_block_ok f cur : block_ok f ->
  let g := put_fb_data 0 (zeros (Z.to_nat DATA)) (set_fb_next 0 (set_fb_prev cur f)) in
  block_ok g /\ fb_next g = 0 /\ fb_data g = zeros (Z.to_nat DATA).
Proof.
  intros Hf g. assert (Hl : Z.to_nat DATA = 4080%nat) by reflexivity.
  assert (Hz : length (zeros (Z.to_nat DATA)) = 4080%nat) by by rewrite length_zeros.
  assert (Hp : block_ok (set_fb_prev cur f)) by (apply block_ok_put16; [done|lia]).
  assert (Hn : block_ok (set_fb_next 0 (set_fb_prev cur f))) by (apply block_ok_put16; [done|lia]).
  split; [apply put_data_ok; [done|apply bytes_ok_zeros|simpl; lia]|]. split.
  - unfold g. rewrite fb_next_put by (done || simpl; lia). apply write_next; [done|split; lia].
  - unfold g. change 0 with (Z.of_nat 0) at 1. rewrite fb_data_put by (done || lia).
    unfold put. rewrite take_0, drop_ge by (rewrite fb_data_len, Hz by done; lia). cbn [app]. apply app_nil_r.
Qed.

(** [append_fblock], with the cases of the code in one place. *)
Definition linked_block (b : Z) (fp : CO_FILE) : block :=
  let f1 := if F_curblock fp =? 0 then set_fb_offset 0 (F_fblock fp)
            else set_fb_offset (fb_offset (set_fb_next b (F_fblock fp)) + 1) (set_fb_next b (F_fblock fp)) in
  put_fb_data 0 (zeros (Z.to_nat DATA)) (set_fb_next 0 (set_fb_prev (F_curblock fp) f1)).
Lemma append_unfold s fp b bm i u :
  freemap_next (block_freemap s) = (b, bm) -> u16 b = b -> 0 <= b ->
  crfs_lookup_inode (set_block_freemap bm s) (F_inode fp) = (i, u) ->
  append_fblock s fp =
    ('(_, t) ← crfs_write_inode
       (fs_write (if F_curblock fp =? 0 then u else fs_write u (F_curblock fp) (set_fb_next b (F_fblock fp))) b (linked_block b fp))
       (Inode (in_inode i) (if F_curblock fp =? 0 then b else in_first i) b (in_fsize i) (in_fmask i));
     Some (0, CoFile (F_magic fp) (F_inode fp) b (F_fpos fp) 0 (linked_block b fp), t)).
Proof.
  intros E Hb H0 Eu. unfold append_fblock, linked_block. rewrite E. rewrite (proj2 (Z.ltb_ge b 0)) by done. cbv zeta.
  change (F_inode (set_F_nospc 0 fp)) with (F_inode fp). rewrite Eu, Hb.
  change (F_curblock (set_F_nospc 0 fp)) with (F_curblock fp). by destruct (F_curblock fp =? 0).
Qed.

(** [append_fblock]: the file has a block of zeros more, and the handle is on it. *)
Lemma append_spec s n bs fp :
  fs_ok s -> block_ok (F_fblock fp) -> F_magic fp = CO_FILE_MAGIC -> F_inode fp = n -> free_blocks s 2 ->
  let t := if F_curblock fp =? 0 then s else pending s fp in
  file_blocks t n bs -> (F_curblock fp = 0 -> bs = []) -> (F_curblock fp <> 0 -> last bs = Some (F_curblock fp)) ->
  exists fp' s', append_fblock s fp = Some (0, fp', s') /\ F_fpos fp' = F_fpos fp /\
    let bs' := bs ++ [F_curblock fp'] in let t' := pending s' fp' in
    writing s' n bs' (length bs) fp' /\
    content t' bs' = content t bs ++ zeros (Z.to_nat DATA) /\ file_step t n bs t' bs' /\
    in_fsize (inode_at t' n) = in_fsize (inode_at t n) /\ (forall m, free_blocks s (S (S m)) -> free_blocks s' m).
Proof.
  intros Hs Hblk Hmg Hi Hfree t Hf Hz Hnz.
  destruct (alloc_spec s Hs (free_blocks_weaken s 2 1 ltac:(lia) Hfree)) as (b & bm & E & Hub & Hexc).
  destruct Hexc as [Hwf Hsz Hb Hfr _ _].
  destruct (lookup_inode_spec (set_block_freemap bm s) n) as (u & Eu & Hu); [by apply set_bm_ok|].
  rewrite <- Hi in Eu. rewrite (append_unfold s fp b bm _ u E Hub (proj1 Hb) Eu).
  destruct (set_bm_back s bm u Hu) as [Hv Huv].
  set (v := set_block_freemap (block_freemap s) u) in *. assert (Hvok : fs_ok v) by by rewrite Hv.
  change (inode_at (set_block_freemap bm s) (F_inode fp)) with (inode_at s (F_inode fp)). rewrite Hi.
  (* the state with the link *)
  set (q := if F_curblock fp =? 0 then v else fs_write v (F_curblock fp) (set_fb_next b (F_fblock fp))).
  assert (Hcid : F_curblock fp <> 0 -> block_id (F_curblock fp)).
  { intros Hc. pose proof (chain_ids _ _ _ (fl_chain _ _ _ Hf)) as HF. rewrite Forall_forall in HF.
    apply HF. apply last_Some_elem_of. by apply Hnz. }
  assert (Hq : linked t bs b q).
  { unfold q, t. destruct (Z.eqb_spec (F_curblock fp) 0) as [Hc|Hc].
    - split; [done|by rewrite Hv..|]. intros i. rewrite (Hz Hc). by rewrite Hv.
    - assert (Hlk : block_ok (set_fb_next b (F_fblock fp))) by (apply block_ok_put16; [done|lia]).
      split; [apply write_fs_ok; auto|change (block_freemap v = block_freemap s); by rewrite Hv|
        change (inode_freemap v = inode_freemap s); by rewrite Hv|change (super_block v = super_block s); by rewrite Hv|
        change (crfs_pwd v = crfs_pwd s); by rewrite Hv|]. intros i. unfold pending.
      rewrite !write_view by done. rewrite Hnz by done. destruct (Z.eqb_spec i (F_curblock fp)) as [->|Hne].
      + by rewrite decide_True.
      + rewrite decide_False by congruence. by rewrite Hv. }
  assert (Htb : block_freemap t = block_freemap s) by (unfold t; by destruct (_ =? _)).
  assert (Hqb : block_freemap q = block_freemap s) by by rewrite (lk_bm _ _ _ _ Hq).
  assert (Hqv : vtable_inv q) by (eapply vtable_inv_same; [apply Hq|apply Hq|apply Hf]).
  assert (Hqf : forall m, free_blocks s m -> free_blocks q m) by (intros m; unfold free_blocks, taken; by rewrite Hqb).
  assert (Hnt : F_curblock fp <> 0 -> ~ itable_block s (F_curblock fp)).
  { intros Hc Hit. destruct (fl_used _ _ _ Hf (F_curblock fp)) as [_ Hni]; [apply last_Some_elem_of; by apply Hnz|].
    apply Hni. unfold t. by destruct (_ =? _). }
  assert (Hino : inode_at t n = inode_at s n).
  { unfold t, pending. destruct (Z.eqb_spec (F_curblock fp) 0) as [Hc|Hc]; [done|].
    apply write_data_inode; [done|apply Hf|by apply Hnt]. }
  (* the new block *)
  set (blk := linked_block b fp).
  set (f1 := if F_curblock fp =? 0 then set_fb_offset 0 (F_fblock fp)
             else set_fb_offset (fb_offset (set_fb_next b (F_fblock fp)) + 1) (set_fb_next b (F_fblock fp))).
  assert (Hf1 : block_ok f1).
  { unfold f1. destruct (_ =? _); repeat (apply block_ok_put16; [|lia]); done. }
  destruct (new_block_ok f1 (F_curblock fp) Hf1) as (Hblk' & Hnx & Hdata). change (put_fb_data 0 _ _) with blk in Hblk', Hnx, Hdata.
  destruct (add_block_spec q blk (lk_ok _ _ _ _ Hq) Hqv) as (b2 & bm2 & E2 & _ & Ha); [|done|].
  { by apply Hqf, (free_blocks_weaken s 2); [lia|]. }
  rewrite Hqb, E in E2. injection E2 as <- <-.
  set (ino := Inode n (if decide (bs = []) then b else in_first (inode_at t n)) b (in_fsize (inode_at t n)) (in_fmask (inode_at t n))).
  assert (Hinok : inode_ok ino).
  { pose proof (inode_at_ok t n (fl_ok _ _ _ Hf)) as Hio. pose proof (fl_range _ _ _ Hf).
    destruct Hio, Hb. split; cbn; try done; destruct (decide _); done. }
  destruct (write_inode_spec (fs_write (set_block_freemap bm q) b blk) ino (ba_ok _ _ _ _ Ha) (ba_vtable _ _ _ _ Ha) Hinok)
    as (r & s4 & Ew & Hcase).
  destruct Hcase as [[-> Hw]|[-> Hos]]; last first.
  { assert (Hf1' : free_blocks (fs_write (set_block_freemap bm q) b blk) 1) by by apply (ba_free _ _ _ _ Ha), Hqf.
    destruct (free_not_full _ 0 Hf1'). apply Hos. }
  destruct (appended t n bs b bm q blk _ ino s4 Hf Hq eq_refl Ha Hnx eq_refl Hw) as (G1 & G2 & G3 & G4 & G5 & G6).
  set (fp' := CoFile (F_magic fp) n b (F_fpos fp) 0 blk).
  exists fp', s4. split.
  { assert (Hsq : set_block_freemap bm q = if F_curblock fp =? 0 then u else fs_write u (F_curblock fp) (set_fb_next b (F_fblock fp))).
    { unfold q. destruct (_ =? _); [exact Huv|].
      transitivity (fs_write (set_block_freemap bm v) (F_curblock fp) (set_fb_next b (F_fblock fp))); [reflexivity|]. by rewrite Huv. }
    assert (Hni : in_inode (inode_at s n) = n) by (rewrite <- Hino; apply Hf).
    rewrite <- Hsq, Hni. fold blk.
    assert (Hio : Inode n (if F_curblock fp =? 0 then b else in_first (inode_at s n)) b (in_fsize (inode_at s n)) (in_fmask (inode_at s n)) = ino).
    { unfold ino. rewrite Hino. destruct (Z.eqb_spec (F_curblock fp) 0) as [Hc|Hc].
      - by rewrite (Hz Hc), decide_True.
      - rewrite decide_False; [done|]. intros Hbs. specialize (Hnz Hc). by rewrite Hbs in Hnz. }
    rewrite Hio, Ew. reflexivity. }
  cbv zeta. cbn [F_curblock fp' F_fpos].
  assert (Hal : alike s4 (pending s4 fp')).
  { unfold pending. cbn [F_curblock F_fblock fp']. rewrite <- G2. apply alike_write; [apply G1|done]. }
  split; [done|]. split; [|split; [|split; [|split]]].
  - split; try done; [apply G1|by apply (file_blocks_alike s4)|]. cbn [F_curblock fp']. by apply list_lookup_middle.
  - rewrite (content_ext s4) by (intros; by rewrite (al_view _ _ Hal)). by rewrite G3, Hdata.
  - eapply file_step_trans; [exact G4|by apply file_step_alike].
  - by rewrite (alike_inode _ _ n Hal).
  - intros m Hm. apply G6. unfold free_blocks, taken in *. by rewrite Htb.
Qed.

(** ** From block to block *)

(** Writing [d] at [pos] took the file from one state to the other. *)
Record progress (n : Z) s fp bs (pos : nat) (d : list Z) s' fp' bs' : Prop := {
  pg_len : (length bs <= length bs')%nat;
  pg_room : (pos + length d <= length bs' * 4080)%nat;
  pg_content : content (pending s' fp') bs' =
    put pos d (content (pending s fp) bs ++ zeros ((length bs' - length bs) * 4080));
  pg_step : file_step (pending s fp) n bs (pending s' fp') bs';
  pg_size : in_fsize (inode_at (pending s' fp') n) = in_fsize (inode_at (pending s fp) n);
  pg_free m : free_blocks s (2 * (length bs' - length bs) + m) -> free_blocks s' m;
}.

Lemma wr_content_len s n bs k fp : writing s n bs k fp -> length (content (pending s fp) bs) = (length bs * 4080)%nat.
Proof.
  intros Hw. pose proof (wr_file _ _ _ _ _ Hw) as Hf.
  rewrite content_len; [|apply Hf|exact (chain_ids _ _ _ (fl_chain _ _ _ Hf))].
  change (Z.to_nat DATA) with 4080%nat. lia.
Qed.

Lemma progress_trans n s fp bs k pos d s1 fp1 bs1 k1 e s2 fp2 bs2 :
  writing s n bs k fp -> writing s1 n bs1 k1 fp1 ->
  progress n s fp bs pos d s1 fp1 bs1 -> progress n s1 fp1 bs1 (pos + length d) e s2 fp2 bs2 ->
  progress n s fp bs pos (d ++ e) s2 fp2 bs2.
Proof.
  intros W0 W1 [L1 R1 C1 S1 Z1 F1] [L2 R2 C2 S2 Z2 F2].
  pose proof (wr_content_len _ _ _ _ _ W0) as H0. pose proof (wr_content_len _ _ _ _ _ W1) as H1.
  split; [lia|rewrite length_app; lia| |by eapply file_step_trans|congruence|].
  - rewrite C2, C1. rewrite <- put_app by (rewrite length_app, length_zeros, H0; lia).
    rewrite put_twice.
    + rewrite <- app_assoc. unfold zeros. rewrite <- replicate_add, <- Nat.mul_add_distr_r.
      by replace (length bs1 - length bs + (length bs2 - length bs1))%nat
        with (length bs2 - length bs)%nat by lia.
    + rewrite !length_app, !length_zeros, H0. lia.
  - intros m Hm. apply F2, F1. eapply free_blocks_weaken; [|exact Hm]. lia.
Qed.

Lemma progress_alike n s fp bs k s' : writing s n bs k fp -> alike (pending s fp) (pending s' fp) ->
  (forall m, free_blocks s m -> free_blocks s' m) -> progress n s fp bs 0 [] s' fp bs.
Proof.
  intros Hw Ha Hf. split; [lia|simpl; lia| |by apply file_step_alike|by rewrite (alike_inode _ _ n Ha)|].
  - rewrite put_none, Nat.sub_diag, Nat.mul_0_l. cbn [zeros replicate]. rewrite app_nil_r.
    apply content_ext. intros b _. by rewrite (al_view _ _ Ha).
  - intros m Hm. apply Hf. by rewrite Nat.sub_diag in Hm.
Qed.
Lemma progress_at n s fp bs pos k s' fp' bs' : writing s n bs k fp -> (pos <= length bs' * 4080)%nat ->
  progress n s fp bs 0 [] s' fp' bs' -> progress n s fp bs pos [] s' fp' bs'.
Proof. intros Hw Hp [L R C S Z F]. split; try done; [simpl; lia|]. by rewrite put_none in *. Qed.

Lemma pending_twice s n bs k fp : writing s n bs k fp -> alike (pending s fp) (pending (pending s fp) fp).
Proof.
  intros Hw. unfold pending at 2. destruct (wr_id _ _ _ _ _ Hw) as (Hid & _ & _).
  rewrite <- (pending_view s fp (wr_ok _ _ _ _ _ Hw)). apply alike_write; [apply Hw|done].
Qed.
Lemma pending_writing s n bs k fp : writing s n bs k fp -> writing (pending s fp) n bs k fp.
Proof.
  intros Hw. pose proof (pending_twice _ _ _ _ _ Hw) as Ha. destruct Hw as [Hs Hf Hc Hb Hm Hi Hn].
  split; try done; [apply Hf|by apply (file_blocks_alike (pending s fp))].
Qed.

Lemma fs_free s t m : block_freemap t = block_freemap s -> free_blocks s m -> free_blocks t m.
Proof. intros Hb. unfold free_blocks, taken. by rewrite Hb. Qed.

(** The next block of the file, when there is one. *)
Lemma next_writing s n bs k fp y : writing s n bs k fp -> bs !! S k = Some y ->
  exists s' fp', next_fblock (pending s fp) fp = (0, fp', s') /\ F_fpos fp' = F_fpos fp /\
    writing s' n bs (S k) fp' /\ progress n s fp bs 0 [] s' fp' bs.
Proof.
  intros Hw Hy. pose proof Hw as [Hs Hf Hc Hb Hm Hi Hn]. pose proof (fl_chain _ _ _ Hf) as Hch.
  pose proof (chain_ids _ _ _ Hch) as HF. rewrite Forall_forall in HF.
  assert (Hyb : y ∈ bs) by by eapply list_elem_of_lookup_2. destruct (HF y Hyb) as [Hyi Hy0].
  pose proof (chain_next _ _ _ _ _ Hch Hc) as Hnx. rewrite pending_view, Hy in Hnx by done. change (fb_next (F_fblock fp) = y) in Hnx.
  unfold next_fblock. cbv zeta. rewrite Hnx. rewrite (proj2 (Z.eqb_neq y 0) Hy0). cbn [negb].
  destruct (fs_read_spec (pending s fp) y) as (s' & -> & Heq); [apply Hf|done|].
  set (fp' := set_F_fblock (view (pending s fp) y) (set_F_curblock y fp)). exists s', fp'.
  assert (Hs' : fs_ok s') by (rewrite Heq; apply Hf).
  assert (Ha : alike (pending s fp) (pending s' fp')).
  { eapply alike_trans; [apply (alike_equiv _ s'); [apply Hf|done]|].
    unfold pending at 1. cbn [F_curblock F_fblock fp' set_F_fblock set_F_curblock].
    assert (view (pending s fp) y = view s' y) as -> by by rewrite Heq. by apply alike_write. }
  split; [done|]. split; [done|]. split.
  - split; try done; [by apply (file_blocks_alike (pending s fp))|]. apply view_ok; [apply Hf|done].
  - split; [lia|simpl; lia| |by apply file_step_alike|by rewrite (alike_inode _ _ n Ha)|].
    + rewrite put_none, Nat.sub_diag, Nat.mul_0_l. cbn [zeros replicate]. rewrite app_nil_r.
      apply content_ext. intros b _. by rewrite (al_view _ _ Ha).
    + intros m. rewrite Nat.sub_diag. apply fs_free. rewrite (block_freemap_proper _ _ Heq). done.
Qed.


(** The end of a block: on to the next one, which is appended when there is none. *)
Lemma finish_writing s n bs k fp w : writing s n bs k fp -> w_left w <> [] ->
  (S k = length bs -> free_blocks s 2) ->
  exists fp' s' bs', finish_block s fp w = Some (fp', w, s') /\ F_fpos fp' = F_fpos fp /\
    length bs' = Nat.max (length bs) (S (S k)) /\ writing s' n bs' (S k) fp' /\ progress n s fp bs 0 [] s' fp' bs'.
Proof.
  intros Hw Hl Hfree. unfold finish_block. change (fs_write s (F_curblock fp) (F_fblock fp)) with (pending s fp).
  rewrite decide_False by done. pose proof (lookup_lt_Some _ _ _ (wr_cur _ _ _ _ _ Hw)) as Hk.
  destruct (bs !! S k) as [y|] eqn:Hy.
  - destruct (next_writing _ _ _ _ _ y Hw Hy) as (s' & fp' & -> & Hp & Hw' & Hg).
    exists fp', s', bs. apply lookup_lt_Some in Hy. split; [done|]. split; [done|]. split; [lia|]. by split.
  - apply lookup_ge_None in Hy. assert (Hlen : length bs = S k) by lia.
    pose proof Hw as [Hs Hf Hc Hb Hm Hi Hn]. destruct (wr_id _ _ _ _ _ Hw) as (Hid & Hn0 & Hin).
    pose proof (chain_next _ _ _ _ _ (fl_chain _ _ _ Hf) Hc) as Hnx. rewrite pending_view in Hnx by done.
    rewrite (lookup_ge_None_2 bs (S k)) in Hnx by lia.
    change (fb_next (F_fblock fp) = 0) in Hnx. unfold next_fblock. cbv zeta. rewrite Hnx. change (negb (0 =? 0)) with false. cbv iota. change (-1 <? 0) with true. cbv iota.
    assert (Hlast : last bs = Some (F_curblock fp)) by (rewrite last_lookup, Hlen; exact Hc).
    pose proof (pending_twice _ _ _ _ _ Hw) as Ha.
    assert (Hcz : (F_curblock fp =? 0) = false) by by apply Z.eqb_neq.
    pose proof (append_spec (pending s fp) n bs fp (fl_ok _ _ _ Hf) Hb Hm Hi) as Happ. rewrite Hcz in Happ.
    destruct Happ as (fp' & s' & E & Hp & Hw' & Hct & Hst & Hsz & Hfr);
      [by apply (fs_free s); [|apply Hfree]|by apply (file_blocks_alike (pending s fp))|done|done|].
    rewrite E. cbn [mbind option_bind]. change (0 <? 0) with false. cbv iota.
    exists fp', s', (bs ++ [F_curblock fp']). split; [done|]. split; [done|]. split; [rewrite length_app; simpl; lia|].
    rewrite Hlen in Hw'. split; [done|].
    assert (Hl1 : (length (bs ++ [F_curblock fp']) - length bs = 1)%nat) by (rewrite length_app; simpl; lia).
    split; rewrite ?Hl1; [lia|simpl; lia| | | |].
    + rewrite put_none, Hct, Nat.mul_1_l. f_equal. apply content_ext. intros b _. by rewrite (al_view _ _ Ha).
    + eapply file_step_trans; [by apply file_step_alike|done].
    + by rewrite Hsz, (alike_inode _ _ n Ha).
    + intros m Hm'. apply Hfr. by apply (fs_free s).
Qed.

(** ** The loop over the blocks *)

(** The number of blocks for [p] bytes. *)
Definition blocks_for (p : Z) : nat := Z.to_nat ((p + 4079) / 4080).

Lemma store_progress s n bs k fp (off m : nat) w fp' w' :
  writing s n bs k fp -> F_fpos fp = 4080 * Z.of_nat k + Z.of_nat off -> (off + m <= 4080)%nat ->
  (m <= length (w_left w))%nat -> bytes_ok (w_left w) -> F_fpos fp + Z.of_nat m < 4294967296 ->
  store_data fp (Z.of_nat off) (Z.of_nat m) w = (fp', w') ->
  writing s n bs k fp' /\ F_fpos fp' = F_fpos fp + Z.of_nat m /\
  progress n s fp bs (Z.to_nat (F_fpos fp)) (take m (w_left w)) s fp' bs /\
  w' = WState (drop m (w_left w)) (w_nwrote w + Z.of_nat m).
Proof.
  intros Hw Hp Hoff Hm Hby Hb E. destruct (store_writing s n bs k fp off m w fp' w') as (Hw' & Hc & Hp' & Hct & Hst & Hin & Hwe); [done..|].
  rewrite u32_small in Hp' by lia. split; [done|]. split; [done|]. split; [|done].
  pose proof (lookup_lt_Some _ _ _ (wr_cur _ _ _ _ _ Hw)) as Hk.
  assert (Hpos : Z.to_nat (F_fpos fp) = (k * 4080 + off)%nat) by lia.
  split; rewrite ?Hpos; [lia|rewrite length_take; lia| |done|by rewrite Hin|].
  - rewrite Nat.sub_diag, Nat.mul_0_l. cbn [zeros replicate]. by rewrite app_nil_r.
  - intros i Hi. by rewrite Nat.sub_diag in Hi.
Qed.

(** All of [d] is written, from the position of the handle on. *)
Definition written (n : Z) s fp bs (d : list Z) (c : Z) (r : option (CO_FILE * wstate * fs St)) : Prop :=
  exists fp' s' bs' k', r = Some (fp', WState [] c, s') /\ writing s' n bs' k' fp' /\
    progress n s fp bs (Z.to_nat (F_fpos fp)) d s' fp' bs' /\ F_fpos fp' = F_fpos fp + Z.of_nat (length d) /\
    (F_fpos fp' mod DATA <> 0 -> Z.of_nat k' = F_fpos fp' / DATA) /\
    length bs' = Nat.max (length bs) (blocks_for (F_fpos fp')).

(** What is done behind the first block. *)
Definition write_tail (r : option (CO_FILE * wstate * fs St)) : option (CO_FILE * wstate * fs St) :=
  '(fp, w, s) ← r;
  if decide (w_left w = []) then Some (fp, w, s)
  else let '(fp, w) := store_data fp 0 (Z.of_nat (length (w_left w))) w in Some (fp, w, s).

Lemma written_after n s fp bs k s1 fp1 bs1 k1 d e c r :
  writing s n bs k fp -> writing s1 n bs1 k1 fp1 ->
  progress n s fp bs (Z.to_nat (F_fpos fp)) d s1 fp1 bs1 -> F_fpos fp1 = F_fpos fp + Z.of_nat (length d) ->
  0 <= F_fpos fp -> (length bs1 <= Nat.max (length bs) (blocks_for (F_fpos fp1 + Z.of_nat (length e))))%nat ->
  written n s1 fp1 bs1 e c r -> written n s fp bs (d ++ e) c r.
Proof.
  intros W0 W1 Hg Hp H0 Hlen (fp' & s' & bs' & k' & -> & Hw' & Hg' & Hp' & Hk & Hl).
  exists fp', s', bs', k'. split; [done|]. split; [done|]. pose proof (pg_len _ _ _ _ _ _ _ _ _ Hg) as Hle.
  split; [|split; [rewrite length_app; lia|split; [done|]]].
  - eapply progress_trans; [exact W0|exact W1|exact Hg|].
    by replace (Z.to_nat (F_fpos fp) + length d)%nat with (Z.to_nat (F_fpos fp1)) by lia.
  - rewrite <- Hp' in Hlen. lia.
Qed.

(** The rest of the bytes, from the start of a block on. *)
Definition rest_written (fuel : nat) : Prop := forall s n bs k fp w,
  writing s n bs k fp -> F_fpos fp = 4080 * Z.of_nat k -> w_left w <> [] -> bytes_ok (w_left w) ->
  (length (w_left w) <= fuel)%nat -> F_fpos fp + Z.of_nat (length (w_left w)) < 4294967296 ->
  free_blocks s (2 * (blocks_for (F_fpos fp + Z.of_nat (length (w_left w))) - length bs)) ->
  written n s fp bs (w_left w) (w_nwrote w + Z.of_nat (length (w_left w))) (write_tail (write_blocks fuel s fp w)).

(** The same behind a full block. *)
Lemma finish_written fuel s n bs k fp w : rest_written fuel ->
  writing s n bs k fp -> F_fpos fp = 4080 * Z.of_nat (S k) -> bytes_ok (w_left w) ->
  (length (w_left w) <= fuel)%nat -> F_fpos fp + Z.of_nat (length (w_left w)) < 4294967296 ->
  free_blocks s (2 * (blocks_for (F_fpos fp + Z.of_nat (length (w_left w))) - length bs)) ->
  written n s fp bs (w_left w) (w_nwrote w + Z.of_nat (length (w_left w)))
    ('(fp, w, s) ← finish_block s fp w; write_tail (write_blocks fuel s fp w)).
Proof.
  intros IH Hw Hp Hby Hfuel Hb Hfree. pose proof (lookup_lt_Some _ _ _ (wr_cur _ _ _ _ _ Hw)) as Hk.
  destruct (decide (w_left w = [])) as [Hl|Hl].
  - unfold finish_block. rewrite decide_True by done. cbn [mbind option_bind].
    assert (Hwb : write_blocks fuel (fs_write s (F_curblock fp) (F_fblock fp)) fp w = Some (fp, w, fs_write s (F_curblock fp) (F_fblock fp))).
    { destruct fuel; [done|]. cbn [write_blocks]. by rewrite Hl. }
    rewrite Hwb. unfold write_tail. cbn [mbind option_bind]. rewrite decide_True by done. rewrite Hl. cbn [length].
    exists fp, (pending s fp), bs, k. destruct w as [lft nw]. cbn in Hl. subst lft. cbn [w_nwrote].
    split; [unfold pending; do 3 f_equal; f_equal; lia|]. split; [by apply pending_writing|].
    split; [|split; [cbn [w_left length]; lia|split]].
    + apply (progress_at _ _ _ _ _ k); [done|lia|]. eapply progress_alike; [done| |intros m; by apply fs_free].
      by apply (pending_twice _ _ _ _ _ Hw).
    + intros Hm. destruct Hm. rewrite Hp. unfold CRFS_FBLOCK_DATA. by rewrite Z.mul_comm, Z.mod_mul.
    + unfold blocks_for. rewrite Hp. assert ((4080 * Z.of_nat (S k) + 4079) / 4080 = Z.of_nat (S k)) as -> by dlia. lia.
  - assert (Hll : (0 < length (w_left w))%nat) by (destruct (w_left w); [done|simpl; lia]).
    destruct (finish_writing s n bs k fp w Hw Hl) as (fp1 & s1 & bs1 & E & Hp1 & Hlen & Hw1 & Hg).
    { intros Hlast. eapply free_blocks_weaken; [|exact Hfree]. rewrite Hp. unfold blocks_for. dlia. }
    rewrite E. cbn [mbind option_bind]. rewrite <- (app_nil_l (w_left w)).
    assert (Hbf : (S (S k) <= blocks_for (F_fpos fp + Z.of_nat (length (w_left w))))%nat) by (unfold blocks_for; rewrite Hp; dlia).
    eapply (written_after n s fp bs k s1 fp1 bs1 (S k)); [done|done| |cbn [length]; lia|lia|rewrite Hp1; lia|].
    + apply (progress_at _ _ _ _ _ k); [done|lia|done].
    + apply (IH s1 n bs1 (S k) fp1 w); [done|lia|done|done|done|by rewrite Hp1|].
      apply (pg_free _ _ _ _ _ _ _ _ _ Hg). eapply free_blocks_weaken; [|exact Hfree]. rewrite Hp1. lia.
Qed.

Lemma rest_spec fuel : rest_written fuel.
Proof.
  induction fuel as [|fuel IH]; intros s n bs k fp w Hw Hp Hl Hby Hfuel Hb Hfree.
  { destruct (w_left w); [done|simpl in Hfuel; lia]. }
  pose proof (lookup_lt_Some _ _ _ (wr_cur _ _ _ _ _ Hw)) as Hk.
  cbn [write_blocks]. unfold CRFS_FBLOCK_DATA. destruct (Z.leb_spec 4080 (Z.of_nat (length (w_left w)))) as [Hge|Hlt].
  - assert (exists m, Z.of_nat m = 4080) as [m Hm] by by exists 4080%nat.
    rewrite <- Hm. destruct (store_data fp 0 (Z.of_nat m) w) as [fp1 w1] eqn:E.
    destruct (store_progress s n bs k fp 0 m w fp1 w1) as (Hw1 & Hp1 & Hg & Ew); [done|lia|lia|lia|done|lia|done|].
    assert (El : w_left w1 = drop m (w_left w)) by by rewrite Ew.
    assert (En : w_nwrote w1 = w_nwrote w + Z.of_nat m) by by rewrite Ew. clear Ew E.
    assert (Hlt : length (take m (w_left w)) = m) by (rewrite length_take; lia).
    assert (Hld : length (w_left w1) = (length (w_left w) - m)%nat) by (rewrite El; apply length_drop).
    assert (Hsum : F_fpos fp1 + Z.of_nat (length (w_left w1)) = F_fpos fp + Z.of_nat (length (w_left w))) by lia.
    assert (Hby1 : bytes_ok (w_left w1)) by (rewrite El; by apply Forall_drop).
    rewrite <- (take_drop m (w_left w)) at 1. rewrite <- El.
    replace (w_nwrote w + Z.of_nat (length (w_left w))) with
      (w_nwrote w1 + Z.of_nat (length (w_left w1))) by lia.
    eapply (written_after n s fp bs k s fp1 bs k); [done|done|exact Hg|lia|lia|lia|].
    assert (Hbind : forall r, write_tail ('(fp, w, s) ← r; write_blocks fuel s fp w) =
              ('(fp, w, s) ← r; write_tail (write_blocks fuel s fp w))) by by intros [[[? ?] ?]|].
    rewrite Hbind. apply (finish_written fuel s n bs k fp1 w1 IH);
      [done|lia|done|lia|lia|by rewrite Hsum].
  - unfold write_tail. cbn [mbind option_bind]. rewrite decide_False by done.
    destruct (store_data fp 0 (Z.of_nat (length (w_left w))) w) as [fp1 w1] eqn:E.
    destruct (store_progress s n bs k fp 0 (length (w_left w)) w fp1 w1) as (Hw1 & Hp1 & Hg & ->); [done|lia|lia|lia|done|lia|done|].
    rewrite firstn_all in Hg. rewrite drop_all. exists fp1, s, bs, k. split; [done|]. split; [done|]. split; [done|].
    split; [done|]. split.
    + intros _. rewrite Hp1, Hp. unfold CRFS_FBLOCK_DATA. dlia.
    + rewrite Hp1, Hp. unfold blocks_for. dlia.
Qed.

(** [write_data]: from the position in the current block on. *)
Lemma write_data_spec s n bs k fp d :
  writing s n bs k fp -> 4080 * Z.of_nat k <= F_fpos fp < 4080 * Z.of_nat (S k) -> bytes_ok d ->
  F_fpos fp + Z.of_nat (length d) < 4294967296 ->
  free_blocks s (2 * (blocks_for (F_fpos fp + Z.of_nat (length d)) - length bs)) ->
  written n s fp bs d (Z.of_nat (length d)) (write_data s fp d).
Proof.
  intros Hw Hp Hby Hb Hfree. pose proof (lookup_lt_Some _ _ _ (wr_cur _ _ _ _ _ Hw)) as Hk.
  unfold write_data, CRFS_FBLOCK_DATA. cbv zeta.
  set (off := F_fpos fp - 4080 * Z.of_nat k). assert (Hmod : F_fpos fp mod 4080 = off) by (unfold off; dlia). rewrite Hmod.
  destruct (Z.leb_spec (4080 - off) (Z.of_nat (length d))) as [Hge|Hlt].
  - set (m := Z.to_nat (4080 - off)). assert (Hm : Z.of_nat m = 4080 - off) by (unfold m, off; lia).
    rewrite <- Hm. replace off with (Z.of_nat (Z.to_nat off)) by (unfold off; lia).
    destruct (store_data fp _ _ _) as [fp1 w1] eqn:E.
    destruct (store_progress s n bs k fp (Z.to_nat off) m (WState d 0) fp1 w1) as (Hw1 & Hp1 & Hg & ->);
      cbn [w_left w_nwrote] in *; [done|unfold off; lia|unfold m, off; lia|lia|done|unfold m, off; lia|done|].
    rewrite <- (take_drop m d) at 1.
    assert (Hlt : length (take m d) = m) by (rewrite length_take; lia).
    assert (Hld : length (drop m d) = (length d - m)%nat) by apply length_drop.
    replace (Z.of_nat (length d)) with (0 + Z.of_nat m + Z.of_nat (length (drop m d))) by lia.
    eapply (written_after n s fp bs k s fp1 bs k); [done|done|exact Hg|lia|lia|lia|].
    assert (Hbind : forall r, ('(fp, w, s) ← r; '(fp, w, s) ← write_blocks (length (w_left w)) s fp w;
               if decide (w_left w = []) then Some (fp, w, s)
               else let '(fp, w) := store_data fp 0 (Z.of_nat (length (w_left w))) w in Some (fp, w, s)) =
              ('(fp, w, s) ← r; write_tail (write_blocks (length (w_left w)) s fp w))) by by intros [[[? ?] ?]|].
    rewrite Hbind. clear Hbind.
    set (w1 := WState (drop m d) (0 + Z.of_nat m)).
    assert (Hfb : ('(fp, w, s) ← finish_block s fp1 w1; write_tail (write_blocks (length (w_left w)) s fp w)) =
                  ('(fp, w, s) ← finish_block s fp1 w1; write_tail (write_blocks (length (drop m d)) s fp w))).
    { unfold finish_block. destruct (decide (w_left w1 = [])); [done|].
      destruct (next_fblock _ _) as [[r ?] ?]. destruct (r <? 0); [|done].
      destruct (append_fblock _ _) as [[[r' ?] ?]|]; [|done]. cbn [mbind option_bind]. destruct (r' <? 0); [|done].
      cbn [mbind option_bind w_left length]. by destruct (length (drop m d)). }
    rewrite Hfb. apply (finish_written _ s n bs k fp1 w1 (rest_spec _)); cbn [w_left w_nwrote w1];
      [done|unfold off in *; lia|by apply Forall_drop|done|lia|].
    by replace (F_fpos fp1 + Z.of_nat (length (drop m d))) with (F_fpos fp + Z.of_nat (length d)) by lia.
  - destruct (decide (d = [])) as [->|Hd].
    + exists fp, s, bs, k. split; [done|]. split; [done|]. cbn [length].
      assert (Hg : progress n s fp bs 0 [] s fp bs) by (eapply progress_alike; [done| |done]; split; done || apply (fl_ok _ _ _ (wr_file _ _ _ _ _ Hw))).
      split; [apply (progress_at _ _ _ _ _ k); [done|lia|done]|]. split; [lia|]. split.
      * intros _. unfold CRFS_FBLOCK_DATA. dlia.
      * unfold blocks_for. dlia.
    + replace off with (Z.of_nat (Z.to_nat off)) by (unfold off; lia).
      destruct (store_data fp _ _ _) as [fp1 w1] eqn:E.
      destruct (store_progress s n bs k fp (Z.to_nat off) (length d) (WState d 0) fp1 w1) as (Hw1 & Hp1 & Hg & ->);
        cbn [w_left w_nwrote] in *; [done|unfold off; lia|unfold off in *; lia|lia|done|lia|done|].
      rewrite firstn_all in Hg. rewrite drop_all. exists fp1, s, bs, k. split; [done|]. split; [done|]. split; [done|].
      split; [done|]. split.
      * intros _. rewrite Hp1. unfold CRFS_FBLOCK_DATA, off in *. dlia.
      * rewrite Hp1. unfold blocks_for, off in *. dlia.
Qed.

(** ** The size, and the whole call *)

(** Storing the inode of the file again, with another size. *)
Lemma inode_rewritten s n bs ino s' :
  file_blocks s n bs -> inode_written s ino s' -> in_inode ino = n ->
  in_first ino = in_first (inode_at s n) -> in_fmask ino = in_fmask (inode_at s n) ->
  file_blocks s' n bs /\ file_step s n bs s' bs /\ inode_at s' n = ino /\
  (forall b, b ∈ bs -> view s' b = view s b).
Proof.
  intros [Hs Hv Hr Hi Ht Hc Hn Hu] Hw Hino Hfi Hma.
  pose proof (chain_ids _ _ _ Hc) as HF. rewrite Forall_forall in HF.
  pose proof (iw_same _ _ _ Hw) as Hsame. rewrite Hino in Hsame.
  assert (Hvs : forall b, b ∈ bs -> view s' b = view s b).
  { intros b Hb. destruct (Hu b Hb) as [Hub Hnb]. apply (iw_data _ _ _ Hw); [apply HF, Hb|by apply used_taken|done]. }
  split; [|split; [|done]].
  - split; [apply Hw|apply Hw|done|by rewrite Hsame|rewrite <- Hino; apply Hw| |done|].
    + rewrite Hsame, Hfi. by apply (chain_ext s).
    + intros b Hb. destruct (Hu b Hb) as [Hub Hnb]. destruct (HF b Hb) as [Hbi _]. split.
      * apply (iw_used _ _ _ Hw); [apply Hbi|done|done].
      * by apply (iw_tables _ _ _ Hw).
  - split.
    + intros j Hj Hne Hj0. split; [|by apply (iw_keep _ _ _ Hw)].
      apply (iw_other _ _ _ Hw); [done|by rewrite Hino|by left].
    + intros i Hi' Hui Hni Hib. split; [apply (iw_data _ _ _ Hw); [done|by apply used_taken|done]|].
      split; [apply (iw_used _ _ _ Hw); [apply Hi'|done|done]|]. split; [by apply (iw_tables _ _ _ Hw)|done].
    + by rewrite Hsame.
    + apply Hw.
    + apply Hw.
    + apply Hw.
Qed.

Lemma update_size_spec s n bs fp :
  file_blocks s n bs -> F_inode fp = n -> 0 <= F_fpos fp < 4294967296 -> free_blocks s 1 ->
  exists s', update_size s fp = Some s' /\ file_blocks s' n bs /\ file_step s n bs s' bs /\
    in_fsize (inode_at s' n) = Z.max (in_fsize (inode_at s n)) (F_fpos fp) /\
    (forall b, b ∈ bs -> view s' b = view s b).
Proof.
  intros Hf Hi Hp Hfree. pose proof Hf as [Hs Hv Hr Hin Ht Hc Hn Hu]. unfold update_size.
  destruct (lookup_inode_spec s (F_inode fp) Hs) as (u & -> & Hu'). rewrite Hi.
  assert (Ha : alike s u) by by apply alike_equiv.
  pose proof (file_blocks_alike _ _ _ _ Ha Hf) as Hfu. pose proof (alike_inode s u n Ha) as Hiu.
  pose proof (file_step_alike s u n bs Ha) as Hsu.
  destruct (Z.ltb_spec (in_fsize (inode_at s n)) (F_fpos fp)) as [Hlt|Hge].
  - set (ino := Inode _ _ _ _ _).
    assert (Hok : inode_ok ino) by (destruct (inode_at_ok s n Hs); split; simpl; try done; lia).
    destruct (write_inode_spec u ino) as (r & s' & -> & [[-> Hw]|[-> Hos]]); [apply Hfu|apply Hfu|done| |].
    + exists s'. split; [done|].
      destruct (inode_rewritten u n bs ino s' Hfu Hw) as (H1 & H2 & H3 & H4); [done|by rewrite Hiu|by rewrite Hiu|].
      split; [done|]. split; [by eapply file_step_trans|]. split; [rewrite H3; unfold ino; cbn [in_fsize]; lia|].
      intros b Hb. rewrite H4 by done. apply (al_view _ _ Ha).
    + destruct (free_not_full u 0); [by apply (alike_free s u)|]. apply Hos.
  - exists u. split; [done|]. split; [done|]. split; [done|]. split; [rewrite Hiu; lia|].
    intros b _. apply (al_view _ _ Ha).
Qed.

(** A handle from which the file can be written on: its current block is the one of
    its position, as it is stored; a file without blocks has none. *)
Record write_at s (n : Z) (bs : list Z) (fp : CO_FILE) : Prop := {
  wa_magic : F_magic fp = CO_FILE_MAGIC;
  wa_inode : F_inode fp = n;
  wa_nospc : F_nospc fp = 0;
  wa_block : block_ok (F_fblock fp);
  wa_cur : if decide (bs = []) then F_curblock fp = 0 /\ F_fpos fp = 0
           else exists k, bs !! k = Some (F_curblock fp) /\ F_fblock fp = view s (F_curblock fp) /\
                  4080 * Z.of_nat k <= F_fpos fp < 4080 * Z.of_nat (S k);
}.

Lemma write_at_pos s n bs fp : write_at s n bs fp -> 0 <= F_fpos fp.
Proof. intros [_ _ _ _ Hc]. destruct (decide (bs = [])); [lia|]. destruct Hc as (k & _ & _ & Hp). lia. Qed.

(** Handles in position: what is pending is what is stored. *)
Lemma write_at_writing s n bs fp k :
  file_blocks s n bs -> write_at s n bs fp -> bs !! k = Some (F_curblock fp) ->
  F_fblock fp = view s (F_curblock fp) ->
  writing s n bs k fp /\ alike s (pending s fp).
Proof.
  intros Hf [Hm Hi Hn Hb _] Hk Hbl. pose proof (chain_ids _ _ _ (fl_chain _ _ _ Hf)) as HF.
  rewrite Forall_forall in HF. destruct (HF (F_curblock fp)) as [Hid _]; [by eapply list_elem_of_lookup_2|].
  assert (Ha : alike s (pending s fp)) by (unfold pending; rewrite Hbl; apply alike_write; [apply Hf|done]).
  split; [|done]. split; try done; [apply Hf|by apply (file_blocks_alike s)].
Qed.

(** What [crfs_write] does behind the first block. *)
Definition write_rest s (fp : CO_FILE) (buff : list Z) : option (Z * CO_FILE * fs St) :=
  '(fp, w, s) ← write_data s fp buff;
  let s := fs_write s (F_curblock fp) (F_fblock fp) in
  s ← update_size s fp;
  Some (w_nwrote w, fp, s).

(** The outcome of a write of [d] at position [pos], from the state [t] of the file. *)
Record write_done t (n : Z) bs (pos : nat) (d : list Z) s' (fp' : CO_FILE) bs' : Prop := {
  wd_file : file_blocks s' n bs';
  wd_len : (length bs <= length bs')%nat;
  wd_room : (pos + length d <= length bs' * 4080)%nat;
  wd_content : content s' bs' = put pos d (content t bs ++ zeros ((length bs' - length bs) * 4080));
  wd_size : in_fsize (inode_at s' n) = Z.max (in_fsize (inode_at t n)) (Z.of_nat (pos + length d));
  wd_step : file_step t n bs s' bs';
  wd_pos : F_fpos fp' = Z.of_nat (pos + length d);
  wd_handle : Z.of_nat (pos + length d) mod 4080 <> 0 -> write_at s' n bs' fp';
}.

Lemma write_rest_spec s n bs k fp d :
  writing s n bs k fp -> 4080 * Z.of_nat k <= F_fpos fp < 4080 * Z.of_nat (S k) -> bytes_ok d ->
  F_fpos fp + Z.of_nat (length d) < 4294967296 ->
  free_blocks s (2 * (blocks_for (F_fpos fp + Z.of_nat (length d)) - length bs) + 1) ->
  exists fp' s' bs', write_rest s fp d = Some (Z.of_nat (length d), fp', s') /\
    write_done (pending s fp) n bs (Z.to_nat (F_fpos fp)) d s' fp' bs'.
Proof.
  intros Hw Hp Hby Hb Hfree. pose proof (lookup_lt_Some _ _ _ (wr_cur _ _ _ _ _ Hw)) as Hk.
  destruct (write_data_spec s n bs k fp d Hw Hp Hby Hb) as (fp' & u & bs' & k' & E & Hw' & Hg & Hp' & Hk' & Hl).
  { eapply free_blocks_weaken; [|exact Hfree]. lia. }
  unfold write_rest. rewrite E. cbn [mbind option_bind].
  change (fs_write u (F_curblock fp') (F_fblock fp')) with (pending u fp').
  destruct (update_size_spec (pending u fp') n bs' fp') as (s' & -> & Hf & Hst & Hsz & Hv); [apply Hw'|apply Hw'|lia| |].
  { apply (fs_free u); [done|]. apply (pg_free _ _ _ _ _ _ _ _ _ Hg).
    eapply free_blocks_weaken; [|exact Hfree]. rewrite Hl, Hp'. lia. }
  cbn [mbind option_bind w_nwrote]. exists fp', s', bs'. split; [done|].
  destruct Hg as [Hgl Hgr Hgc Hgs Hgz _]. split; [done|done|done| | | | |].
  - rewrite (content_ext (pending u fp')) by (intros b Hb'; by rewrite Hv). done.
  - rewrite Hsz, Hgz, Hp'. f_equal. lia.
  - by eapply file_step_trans.
  - lia.
  - intros Hm. split; [apply Hw'|apply Hw'|apply Hw'|apply Hw'|].
    assert (Hne : bs' <> []) by (intros ->; simpl in Hgl; lia). rewrite decide_False by done.
    exists k'. split; [apply Hw'|]. split.
    + rewrite Hv by (eapply list_elem_of_lookup_2, Hw'). by rewrite pending_view by apply Hw'.
    + assert (Hmz : F_fpos fp' mod DATA <> 0).
      { unfold CRFS_FBLOCK_DATA. by replace (F_fpos fp') with (Z.of_nat (Z.to_nat (F_fpos fp) + length d)) by lia. }
      specialize (Hk' Hmz). unfold CRFS_FBLOCK_DATA in *. dlia.
Qed.

(** [crfs_write], from the handle on. *)
Lemma write_spec s n bs fp d :
  file_blocks s n bs -> write_at s n bs fp -> d <> [] -> bytes_ok d ->
  F_fpos fp + Z.of_nat (length d) < 4294967296 ->
  free_blocks s (2 * (blocks_for (F_fpos fp + Z.of_nat (length d)) - length bs) + 1) ->
  exists fp' s' bs', crfs_write s fp d = Some (Z.of_nat (length d), fp', s') /\
    write_done s n bs (Z.to_nat (F_fpos fp)) d s' fp' bs'.
Proof.
  intros Hf Hwa Hd Hby Hb Hfree. pose proof Hwa as [Hm Hi Hn Hbl Hc].
  assert (Hll : (0 < length d)%nat) by (destruct d; [done|simpl; lia]).
  unfold crfs_write. rewrite Hm, Z.eqb_refl, Hn. cbn [negb Z.eqb orb].
  destruct (decide (bs = [])) as [->|Hne].
  - destruct Hc as [Hc Hp]. rewrite Hc, Hp in *. cbn [Z.eqb orb length] in *.
    assert (Hb1 : (1 <= blocks_for (0 + Z.of_nat (length d)))%nat) by (unfold blocks_for; dlia).
    pose proof (append_spec s n [] fp (fl_ok _ _ _ Hf) Hbl Hm Hi) as Happ. rewrite Hc in Happ.
    destruct Happ as (fp1 & s1 & -> & Hp1 & Hw1 & Hct & Hst & Hsz & Hfr);
      [eapply free_blocks_weaken; [|exact Hfree]; lia|done|done|done|].
    cbn [mbind option_bind]. change (0 <? 0) with false. cbv iota. cbn [app length] in *.
    destruct (write_rest_spec s1 n [F_curblock fp1] 0 fp1 d Hw1) as (fp' & s' & bs' & E & W);
      [lia|done|lia| |].
    { apply Hfr. eapply free_blocks_weaken; [|exact Hfree]. cbn [length]. rewrite Hp1, Hp. lia. }
    exists fp', s', bs'. split; [exact E|]. rewrite Hp1, Hp in W. destruct W as [W1 W2 W3 W4 W5 W6 W7 W8].
    cbn [length] in W2, W4. split; try done; [simpl; lia| |by rewrite W5, Hsz|by eapply file_step_trans].
    rewrite W4, Hct. f_equal. rewrite <- app_assoc. f_equal. unfold zeros, CRFS_FBLOCK_DATA. cbn [length].
    rewrite <- replicate_add. by replace (Z.to_nat 4080 + (length bs' - 1) * 4080)%nat with ((length bs' - 0) * 4080)%nat by lia.
  - destruct Hc as (k & Hk & Hv & Hp). destruct (write_at_writing s n bs fp k Hf Hwa Hk Hv) as [Hw Ha].
    destruct (wr_id _ _ _ _ _ Hw) as (_ & Hc0 & _). rewrite (proj2 (Z.eqb_neq _ 0) Hc0).
    cbn [orb mbind option_bind]. change (0 <? 0) with false. cbv iota.
    destruct (write_rest_spec s n bs k fp d Hw Hp Hby Hb Hfree) as (fp' & s' & bs' & E & [W1 W2 W3 W4 W5 W6 W7 W8]).
    exists fp', s', bs'. split; [exact E|]. split; try done.
    + rewrite W4. f_equal. f_equal. apply content_ext. intros b _. by rewrite (al_view _ _ Ha).
    + by rewrite W5, (alike_inode _ _ n Ha).
    + eapply file_step_trans; [by apply file_step_alike|done].
Qed.

(** Bytes put over others, up to the new size. *)
Lemma put_take (l : list Z) (pos size : nat) d z :
  (pos <= size)%nat -> (size <= length l)%nat -> (pos + length d <= length (l ++ z))%nat ->
  take (Nat.max size (pos + length d)) (put pos d (l ++ z)) =
  take pos (take size l) ++ d ++ drop (pos + length d) (take size l).
Proof.
  intros Hp Hs Hl. unfold put. rewrite take_take, Nat.min_l by lia.
  rewrite (take_app_le l z pos) by lia.
  rewrite app_assoc, take_app_ge by (rewrite length_app, length_take; lia).
  rewrite <- app_assoc. do 2 f_equal. rewrite length_app, length_take, Nat.min_l by lia.
  destruct (decide (size <= pos + length d)%nat) as [Hle|Hgt].
  - rewrite Nat.max_r, Nat.sub_diag, take_0 by lia. symmetry. apply drop_ge. rewrite length_take. lia.
  - rewrite Nat.max_l, take_drop_commute by lia.
    replace (pos + length d + (size - (pos + length d)))%nat with size by lia.
    by rewrite take_app_le.
Qed.

(** What a reader sees of it. *)
Lemma write_data_read t n bs pos d s' fp' bs' :
  file_blocks t n bs -> write_done t n bs pos d s' fp' bs' ->
  in_fsize (inode_at t n) <= 4080 * Z.of_nat (length bs) -> Z.of_nat pos <= in_fsize (inode_at t n) ->
  let old := file_data t (inode_at t n) bs in
  file_at s' (inode_at s' n) bs' /\
  file_data s' (inode_at s' n) bs' = take pos old ++ d ++ drop (pos + length d) old.
Proof.
  intros Hf [W1 W2 W3 W4 W5 W6 W7 W8] Hsz Hp old.
  assert (Hlen : length (content t bs) = (length bs * 4080)%nat).
  { rewrite content_len; [|apply Hf|exact (chain_ids _ _ _ (fl_chain _ _ _ Hf))].
    change (Z.to_nat CRFS_FBLOCK_DATA) with 4080%nat. lia. }
  pose proof (ok_fsize _ (inode_at_ok t n (fl_ok _ _ _ Hf))) as Hr.
  split; [split; [apply W1|unfold CRFS_FBLOCK_DATA; lia]|].
  unfold old, file_data. rewrite W5, W4.
  replace (Z.to_nat (Z.max (in_fsize (inode_at t n)) (Z.of_nat (pos + length d))))
    with (Nat.max (Z.to_nat (in_fsize (inode_at t n))) (pos + length d)) by lia.
  apply put_take; [lia|lia|]. rewrite length_app, length_zeros. lia.
Qed.
End write.
