(* ===== verification/Tree.v ===== *)
(** * Tree: the well-formed directory tree

    The invariant [tree_ok] of a mounted file system: every inode in use has a
    table, every directory in use has its own block with well-formed entries, and
    every entry names an inode in use.  Paths resolve inside the tree, and the
    creation of an entry ([entry_created], [directory_created] of [DirProofs.v])
    keeps it. *)

From S2P Require Import Prelude Freemap Layout BlockLayer Fs Inode Namei Directory.
From S2P Require Import DirProofs.

Section tree.
Context {St : Type} `{BlockLayer St}.
Implicit Types s : fs St.

Definition iused s (n : Z) : bool := fm_used (inode_freemap s) n.

(** The inode [n] is in use, and is a directory. *)
Record live_dir s (n : Z) : Prop := {
  ld_range : 0 < n < 65536;
  ld_used : iused s n = true;
  ld_mask : is_dir_mask (inode_at s n) = true;
}.

Record tree_ok s : Prop := {
  tr_ok : fs_ok s;
  tr_vtable : vtable_inv s;
  tr_inodes : inodes_ok s;
  tr_root : live_dir s (sb_root (super_block s));
  tr_pwd : live_dir s (crfs_pwd s);
  tr_live n :
    0 < n < 65536 -> iused s n = true ->
    ITABLE_BLOCKNUM s n <> 0 /\ in_inode (inode_at s n) = n;
  tr_dir n :
    live_dir s n -> dir_at s (inode_at s n) /\ dir_wf (view s (in_first (inode_at s n)));
  tr_entry n i :
    live_dir s n -> 0 <= i < 64 -> d_inode (view s (in_first (inode_at s n))) i <> 0 ->
    iused s (d_inode (view s (in_first (inode_at s n))) i) = true;
  tr_distinct n m :
    live_dir s n -> live_dir s m -> n <> m ->
    in_first (inode_at s n) <> in_first (inode_at s m);
}.

#[export] Instance iused_proper : Proper ((≡) ==> (=) ==> (=)) iused.
Proof. intros s t Heq n ? <-. unfold iused. by rewrite Heq. Qed.
#[export] Instance live_dir_proper : Proper ((≡) ==> (=) ==> iff) live_dir.
Proof.
  assert (forall s t n, s ≡ t -> live_dir s n -> live_dir t n) as Himp.
  { intros s t n Heq []. split; [done|by rewrite <- Heq..]. }
  intros s t Heq n ? <-. split; by apply Himp.
Qed.

Lemma tr_first s n : tree_ok s -> live_dir s n -> block_id (in_first (inode_at s n)).
Proof. intros Ht Hn. apply ok_first, inode_at_ok. by apply tr_ok. Qed.

Lemma live_inj s n m :
  tree_ok s -> live_dir s n -> live_dir s m -> inode_at s n = inode_at s m -> n = m.
Proof.
  intros Ht [Hn Hnu _] [Hm Hmu _] Heq. destruct (tr_live s Ht n Hn Hnu) as [_ <-].
  rewrite Heq. by apply tr_live.
Qed.

(** A name in a directory denotes an inode in use. *)
Lemma lookup_live s n name m :
  tree_ok s -> live_dir s n -> lookup s (inode_at s n) name = Some m ->
  0 < m < 65536 /\ iused s m = true.
Proof.
  intros Ht Hn. unfold lookup.
  destruct (crfs_lookup_dirent _ name) as [de|] eqn:E; simpl; [|done]. intros [= <-].
  apply lookup_dirent_Some in E as (i & Hi & _ & Hz & -> & _).
  change (de_inode (d_entry ?d i)) with (d_inode d i).
  assert (0 <= d_inode (view s (in_first (inode_at s n))) i < 65536) as Hr.
  { apply d_inode_range, view_ok; [by apply tr_ok|by apply tr_first]. }
  split; [lia|]. by apply tr_entry.
Qed.

Lemma searchable_live s n :
  0 < n < 65536 -> iused s n = true -> searchable (inode_at s n) = true -> live_dir s n.
Proof. intros Hr Hu [_ Hm]%andb_true_iff. by split. Qed.

(** Resolution from a directory of the tree ends in a directory of the tree. *)
Lemma resolves_live s n p d leaf :
  tree_ok s -> live_dir s n -> resolves s (inode_at s n) p (inr (d, leaf)) ->
  exists m, live_dir s m /\ d = inode_at s m.
Proof.
  intros Ht Hn Hr. remember (inode_at s n) as dir eqn:Ed. remember (inr (d, leaf)) as r eqn:Er.
  revert n Hn Ed. induction Hr as
    [|dir p r Hr IH| | | |dir name k p r Hne Hsl Hp Hl Hsr Hr IH]; intros n' Hn Ed; simplify_eq; eauto.
  destruct (lookup_live s n' name k) as [Hk Hu]; [done..|].
  apply (IH eq_refl k); [|done]. by apply searchable_live.
Qed.

Lemma start_dir_live s p : tree_ok s -> exists n, live_dir s n /\ start_dir s p = inode_at s n.
Proof.
  intros Ht. unfold start_dir. destruct p as [|c p]; [eauto using tr_pwd|].
  destruct (c =? slash); eauto using tr_pwd, tr_root.
Qed.

(** A state whose directories keep the names they had. *)
Record names_kept s s' : Prop := {
  nk_live n : live_dir s n -> live_dir s' n;
  nk_inum n : live_dir s n -> in_inode (inode_at s' n) = in_inode (inode_at s n);
  nk_lookup n name m :
    live_dir s n -> nonzero name ->
    lookup s (inode_at s n) name = Some m -> lookup s' (inode_at s' n) name = Some m;
}.

(** Paths that resolve keep resolving to the same directory. *)
Lemma resolves_kept s s' n p m leaf :
  tree_ok s -> names_kept s s' -> live_dir s n -> live_dir s m -> nonzero p ->
  resolves s (inode_at s n) p (inr (inode_at s m, leaf)) ->
  resolves s' (inode_at s' n) p (inr (inode_at s' m, leaf)).
Proof.
  intros Ht Hk Hn Hm Hp Hr. remember (inode_at s n) as dir eqn:Ed.
  remember (inode_at s m) as dm eqn:Em. remember (inr (dm, leaf)) as r eqn:Er.
  revert n Hn Ed Hp. induction Hr as
    [dir name Hsl|dir p r Hr IH|dir name k Hne Hsl Hl|dir name p|dir name k p
    |dir name k p r Hne Hsl Hpe Hl Hsr Hr IH];
    intros n Hn Ed Hp; try discriminate Er.
  - injection Er as -> ->.
    assert (n = m) as -> by (apply (live_inj s); congruence). by apply res_leaf.
  - apply res_slash. apply IH; try done. by inversion Hp.
  - injection Er as -> ->. rewrite Ed in Hl.
    assert (n = m) as -> by (apply (live_inj s); congruence).
    eapply res_trailing; [done..|]. apply (nk_lookup _ _ Hk); [done| |done].
    by apply Forall_app in Hp as [? _].
  - rewrite Ed in Hl. apply Forall_app in Hp as [Hname Hp]. inversion Hp; subst.
    destruct (lookup_live s n name k) as [Hkr Hku]; [done..|].
    assert (live_dir s k) as Hlk by by apply searchable_live.
    eapply res_step; [done..| | |by apply IH].
    + by apply (nk_lookup _ _ Hk).
    + unfold searchable. rewrite (nk_inum _ _ Hk) by done.
      rewrite (ld_mask _ _ (nk_live _ _ Hk k Hlk)). rewrite andb_true_r.
      apply andb_true_iff in Hsr. apply Hsr.
Qed.

(** ** Creation keeps the tree *)

Section created.
Context (s s' : fs St) (dn : Z) (name : list Z) (inum : Z) (ino : crfs_inode).
Context (Ht : tree_ok s) (Hdn : live_dir s dn).
Context (Hec : entry_created s (inode_at s dn) name inum ino s').

Lemma created_dn : in_inode (inode_at s dn) = dn.
Proof using Ht Hdn. apply (tr_live s Ht dn (ld_range _ _ Hdn) (ld_used _ _ Hdn)). Qed.

Lemma created_iused n : 0 <= n -> iused s' n = (n =? inum) || iused s n.
Proof using Hec. intros. by apply (ec_used _ _ _ _ _ _ Hec). Qed.

Lemma created_fresh n : iused s n = true -> n <> inum.
Proof using Hec.
  intros Hu ->. destruct (ec_fresh _ _ _ _ _ _ Hec) as [_ Hf].
  by rewrite (used_taken _ _ Hu) in Hf.
Qed.

Lemma created_other n :
  0 < n < 65536 -> iused s n = true -> n <> dn -> inode_at s' n = inode_at s n.
Proof using Ht Hdn Hec.
  intros Hn Hu Hne. apply (ec_other _ _ _ _ _ _ Hec); [lia|by rewrite created_dn|by apply created_fresh|].
  by apply tr_live.
Qed.

(** A directory that was there. *)
Lemma created_dir n :
  live_dir s n ->
  live_dir s' n /\ in_inode (inode_at s' n) = n /\ dir_at s' (inode_at s' n) /\
  dir_wf (view s' (in_first (inode_at s' n))).
Proof using Ht Hdn Hec.
  intros Hn. pose proof Hn as [Hr Hu Hm].
  assert (iused s' n = true) as Hu' by (rewrite created_iused, Hu by lia; apply orb_true_r).
  destruct (decide (n = dn)) as [->|Hne].
  - pose proof (ec_dir _ _ _ _ _ _ Hec) as Hd. pose proof (ec_inum _ _ _ _ _ _ Hec) as Hi.
    pose proof (ec_wf _ _ _ _ _ _ Hec) as Hw. rewrite created_dn in *.
    split_and!; try done. split; [done..|apply Hd].
  - rewrite created_other by done. destruct (tr_dir s Ht n Hn) as [Hda Hwf].
    destruct (ec_data _ _ _ _ _ _ Hec (in_first (inode_at s n))) as (Hv & Hu1 & Ht1).
    + by apply tr_first.
    + apply Hda.
    + apply Hda.
    + by apply tr_distinct.
    + rewrite Hv. split_and!; try done; [split; [done..|by rewrite created_other]|by apply tr_live|].
      destruct (tr_live s Ht n Hr Hu) as [Hex Hin]. destruct Hda.
      split; try done; rewrite ?Hin; [by apply created_other|].
      apply (ec_keep _ _ _ _ _ _ Hec); [lia|done].
Qed.

Lemma created_names : u16 inum <> 0 -> lookup s (inode_at s dn) name = None -> names_kept s s'.
Proof using Ht Hdn Hec.
  intros Hnz Hnew. split.
  - intros n Hn. by apply created_dir.
  - intros n Hn. destruct (created_dir n Hn) as (_ & -> & _). symmetry. apply tr_live; [done|apply Hn..].
  - intros n nm m Hn Hnm Hl. destruct (decide (n = dn)) as [->|Hne].
    + pose proof (ec_lookup _ _ _ _ _ _ Hec nm Hnm) as Hlk. rewrite created_dn in Hlk.
      rewrite Hlk. case_decide as Hcase; [|done]. congruence.
    + rewrite created_other by (done || apply Hn). unfold lookup in *.
      destruct (tr_dir s Ht n Hn) as [Hda _].
      destruct (ec_data _ _ _ _ _ _ Hec (in_first (inode_at s n))) as (-> & _); try done;
        [by apply tr_first|apply Hda|apply Hda|by apply tr_distinct].
Qed.

(** What the new inode needs when it is a directory. *)
Record new_dir_ok : Prop := {
  nd_at : dir_at s' ino;
  nd_wf : dir_wf (view s' (in_first ino));
  nd_entries i : 0 <= i < 64 -> d_inode (view s' (in_first ino)) i <> 0 ->
    d_inode (view s' (in_first ino)) i = inum \/ d_inode (view s' (in_first ino)) i = dn;
  nd_fresh : taken s (in_first ino) = false;
  nd_apart : in_first (inode_at s' dn) <> in_first ino;
}.

Lemma created_live n :
  live_dir s' n -> (n <> inum /\ live_dir s n) \/ (n = inum /\ is_dir_mask ino = true).
Proof using Ht Hdn Hec.
  intros [Hr Hu Hm]. destruct (decide (n = inum)) as [->|Hne].
  - right. split; [done|]. by rewrite (ec_inode _ _ _ _ _ _ Hec) in Hm.
  - left. split; [done|]. rewrite created_iused in Hu by lia.
    apply Z.eqb_neq in Hne. rewrite Hne in Hu. split; [done..|].
    destruct (decide (n = dn)) as [->|Hn]; [apply Hdn|]. by rewrite created_other in Hm.
Qed.

(** Two directories, the first there before, have distinct blocks. *)
Lemma created_apart n m :
  live_dir s n -> live_dir s m -> n <> m ->
  in_first (inode_at s' n) <> in_first (inode_at s' m).
Proof using Ht Hdn Hec.
  assert (forall k, live_dir s k -> k <> dn ->
            in_first (inode_at s' dn) <> in_first (inode_at s' k)) as Hk.
  { intros k Hk Hne. rewrite (created_other k) by (done || apply Hk).
    pose proof (ec_block _ _ _ _ _ _ Hec) as Hb. rewrite created_dn in Hb.
    destruct Hb as [->|Hb]; [by apply tr_distinct, not_eq_sym|].
    intros Heq. rewrite Heq in Hb. destruct (tr_dir s Ht k Hk) as [Hda _].
    pose proof (used_taken _ _ (da_used _ _ Hda)). unfold taken in Hb. congruence. }
  intros Hn Hm Hne. destruct (decide (n = dn)) as [->|Hnd]; [by apply Hk, not_eq_sym|].
  destruct (decide (m = dn)) as [->|Hmd]; [by apply not_eq_sym, Hk|].
  rewrite !created_other by (done || apply Hn || apply Hm). by apply tr_distinct.
Qed.

(** The directory blocks that were there name inodes in use. *)
Lemma created_entry n i :
  live_dir s n -> 0 <= i < 64 -> d_inode (view s' (in_first (inode_at s' n))) i <> 0 ->
  iused s' (d_inode (view s' (in_first (inode_at s' n))) i) = true.
Proof using Ht Hdn Hec.
  intros Hn Hi. pose proof (ec_ok _ _ _ _ _ _ Hec) as Hs'.
  assert (0 <= d_inode (view s' (in_first (inode_at s' n))) i) as Hge.
  { apply d_inode_range, view_ok; [done|]. by apply ok_first, inode_at_ok. }
  rewrite created_iused by done. revert Hge. destruct (decide (n = dn)) as [->|Hne].
  - destruct (ec_slots _ _ _ _ _ _ Hec) as (k & Hk & Hz & Hsl).
    rewrite created_dn in Hsl. rewrite Hsl by done. destruct (i =? k).
    + by rewrite Z.eqb_refl.
    + intros _ Hnz. rewrite tr_entry by done. apply orb_true_r.
  - rewrite created_other by (done || apply Hn). destruct (tr_dir s Ht n Hn) as [Hda _].
    destruct (ec_data _ _ _ _ _ _ Hec (in_first (inode_at s n))) as (-> & _);
      [by apply tr_first|apply Hda|apply Hda|by apply tr_distinct|].
    intros _ Hnz. rewrite tr_entry by done. apply orb_true_r.
Qed.

Lemma created_tree :
  in_inode ino = inum -> (is_dir_mask ino = true -> new_dir_ok) -> tree_ok s'.
Proof using Ht Hdn Hec.
  intros Hin Hnew. pose proof (ec_inode _ _ _ _ _ _ Hec) as Hat.
  assert (forall n, live_dir s n -> n <> inum) as Hne by (intros n Hn; apply created_fresh, Hn).
  assert (forall n, live_dir s n -> is_dir_mask ino = true ->
            in_first (inode_at s' n) <> in_first ino) as Hap.
  { intros n Hn Hm. destruct (Hnew Hm) as [? ? ? Hf Hd]. destruct (decide (n = dn)) as [->|]; [done|].
    rewrite created_other by (done || apply Hn). intros Heq. rewrite <- Heq in Hf.
    destruct (tr_dir s Ht n Hn) as [Hda _].
    pose proof (used_taken _ _ (da_used _ _ Hda)). unfold taken in Hf. congruence. }
  split; try apply Hec.
  - rewrite (ec_root _ _ _ _ _ _ Hec). by apply created_dir, tr_root.
  - rewrite (ec_pwd _ _ _ _ _ _ Hec). by apply created_dir, tr_pwd.
  - intros n Hn Hu. rewrite created_iused in Hu by lia.
    destruct (Z.eqb_spec n inum) as [->|Hni].
    + rewrite Hat. split; [apply (ec_exists _ _ _ _ _ _ Hec)|done].
    + destruct (tr_live s Ht n Hn Hu) as [Hex Hi].
      split; [apply (ec_keep _ _ _ _ _ _ Hec); [lia|done]|].
      destruct (decide (n = dn)) as [->|]; [by apply created_dir|by rewrite created_other].
  - intros n [[_ Hn]|[-> Hm]]%created_live; [by apply created_dir|].
    rewrite Hat. by split; apply Hnew.
  - intros n i [[_ Hn]|[-> Hm]]%created_live; [by apply created_entry|].
    rewrite Hat. intros Hi Hnz. destruct (nd_entries (Hnew Hm) i Hi Hnz) as [->| ->].
    + destruct (ec_fresh _ _ _ _ _ _ Hec). rewrite created_iused, Z.eqb_refl by lia. done.
    + destruct Hdn as [? Hu _]. rewrite created_iused, Hu by lia. apply orb_true_r.
  - intros n m [[_ Hn]|[-> Hm]]%created_live [[_ Hm']|[-> Hm']]%created_live Hnm; rewrite ?Hat.
    + by apply created_apart.
    + by apply Hap.
    + by apply not_eq_sym, Hap.
    + done.
Qed.
End created.
End tree.
