(* ===== verification/MountProofs.v ===== *)
(** * MountProofs: committing and mounting

    What [cache_flush] leaves on the backing store, which super block [crfs_init]
    selects, and the file system that [crfs_mkfs] makes. *)

From S2P Require Import Prelude Freemap Layout BlockLayer Fs Inode Namei Directory Mount DirProofs Tree BlockCache.

(** ** Super blocks *)

(** The test of [crfs_init] on what it reads. *)
Definition super_valid (sb : block) : bool :=
  (sb_checksum sb =? crfs_checksum sb) && str_eqb (sb_magic sb) CRFS_MAGIC.

Lemma stamp_super_ok ver sb : block_ok sb -> block_ok (stamp_super ver sb).
Proof.
  intros. unfold stamp_super, set_sb_checksum, set_sb_blockver. apply block_ok_put32; [|lia].
  by apply block_ok_put32; [|lia].
Qed.

Lemma stamp_super_checksum ver sb :
  block_ok sb -> sb_checksum (stamp_super ver sb) = crfs_checksum (stamp_super ver sb).
Proof. intros. apply stored_checksum_valid. by apply block_ok_put32; [|lia]. Qed.

Lemma stamp_super_ver ver sb : block_ok sb -> sb_blockver (stamp_super ver sb) = u32 ver.
Proof.
  intros Hb. unfold stamp_super, sb_blockver, set_sb_checksum, set_sb_blockver.
  assert (block_ok (put32 12 ver sb)) by by apply block_ok_put32; [|lia].
  unfold put32 at 1. rewrite get32_put_ne by blk. apply get32_put32. blk.
Qed.

(** Bytes outside the version and the checksum. *)
Lemma stamp_super_sub off n ver sb :
  block_ok sb -> (off + n <= 8 \/ 16 <= off)%nat ->
  sub off n (stamp_super ver sb) = sub off n sb.
Proof.
  intros Hb Ho. unfold stamp_super, set_sb_checksum, set_sb_blockver.
  assert (block_ok (put32 12 ver sb)) by by apply block_ok_put32; [|lia].
  unfold put32 at 1. rewrite sub_put_ne by blk. unfold put32. by rewrite sub_put_ne by blk.
Qed.

Lemma stamp_super_fields ver sb :
  block_ok sb ->
  sb_fssize (stamp_super ver sb) = sb_fssize sb /\ sb_root (stamp_super ver sb) = sb_root sb /\
  forall i, sb_vtable (stamp_super ver sb) i = sb_vtable sb i.
Proof.
  intros Hb. unfold sb_fssize, sb_root, sb_vtable, get32, get16.
  split_and!; intros; by rewrite stamp_super_sub by (done || lia).
Qed.

(** The magic is read up to a zero byte: the bytes of [sb_magic] and the first of
    [sb_fsver]. *)
Lemma stamp_super_magic ver sb :
  block_ok sb -> sb_magic sb = CRFS_MAGIC -> sb_magic (stamp_super ver sb) = CRFS_MAGIC.
Proof.
  intros Hb Hm. unfold sb_magic in *.
  assert (forall b : block, block_ok b -> b = sub 0 8 b ++ drop 8 b) as Hsplit.
  { intros b _. unfold sub. simpl. by rewrite take_drop. }
  rewrite (Hsplit _ (stamp_super_ok ver sb Hb)), stamp_super_sub by (done || lia).
  rewrite (Hsplit sb Hb) in Hm. assert (length (sub 0 8 sb) = 8%nat) as Hl.
  { apply length_sub. blk. }
  destruct (sub 0 8 sb) as [|a [|b [|c [|d [|e l]]]]]; try discriminate Hl.
  revert Hm. unfold CRFS_MAGIC. simpl.
  destruct (a =? 0), (b =? 0), (c =? 0), (d =? 0), (e =? 0); naive_solver.
Qed.

Lemma stamp_super_valid ver sb :
  block_ok sb -> sb_magic sb = CRFS_MAGIC -> super_valid (stamp_super ver sb) = true.
Proof.
  intros Hb Hm. unfold super_valid. rewrite stamp_super_checksum, Z.eqb_refl by done.
  rewrite stamp_super_magic by done. apply str_eqb_refl.
Qed.

Lemma super_valid_magic sb : super_valid sb = true -> sb_magic sb = CRFS_MAGIC.
Proof. intros [_ Hm]%andb_true_iff. by apply str_eqb_eq. Qed.

(** The two copies of the super block. *)
Definition slot (i : Z) : Prop := 0 <= i < CRFS_NSBLOCKS.
Definition other_slot (i : Z) : Z := Z.rem (i + 1) CRFS_NSBLOCKS.

Lemma slot_block_id i : slot i -> block_id (SB_BLOCKNUM i).
Proof. unfold slot, CRFS_NSBLOCKS, block_id, SB_BLOCKNUM. lia. Qed.

Lemma other_slot_slot i : slot i -> slot (other_slot i).
Proof.
  unfold slot, other_slot, CRFS_NSBLOCKS. intros. rewrite Z.rem_mod_nonneg by lia.
  by apply Z.mod_pos_bound.
Qed.

Lemma other_slot_ne i : slot i -> SB_BLOCKNUM (other_slot i) <> SB_BLOCKNUM i.
Proof.
  unfold slot, other_slot, CRFS_NSBLOCKS, SB_BLOCKNUM. intros.
  rewrite Z.rem_mod_nonneg by lia. dlia.
Qed.

Lemma slot_cases i j : slot i -> slot j -> j = i \/ j = other_slot i.
Proof.
  unfold slot, other_slot, CRFS_NSBLOCKS. intros. rewrite Z.rem_mod_nonneg by lia. dlia.
Qed.

Section mount.
Context {St : Type} `{BlockLayer St}.
Implicit Types s : fs St.

(** ** [cache_flush] *)

(** What a flush that writes something leaves. *)
Record flushed s s' : Prop := {
  fl_which : crfs_which_super s' = other_slot (crfs_which_super s);
  fl_super : super_block s' = next_super (super_block s);
  fl_store : bl_ok (store s') /\ cache_is_empty (store s') = true;
  fl_base i : block_id i ->
    base s' i = if i =? SB_BLOCKNUM (crfs_which_super s') then super_block s' else view s i;
  fl_bm : block_freemap s' = freemap_flush (block_freemap s);
  fl_im : inode_freemap s' = inode_freemap s;
}.

Lemma freemap_flush_idem m : freemap_flush (freemap_flush m) = freemap_flush m.
Proof. done. Qed.

Lemma cache_flush_empty s :
  cache_is_empty (store s) = true ->
  cache_flush s = set_block_freemap (freemap_flush (block_freemap s)) s.
Proof. intros He. unfold cache_flush. by rewrite He. Qed.

Lemma cache_flush_allocs s : allocs (cache_flush s) = allocs s.
Proof. unfold cache_flush. by destruct (cache_is_empty (store s)). Qed.

Lemma cache_flush_spec s :
  bl_ok (store s) -> block_ok (super_block s) -> slot (crfs_which_super s) ->
  cache_is_empty (store s) = false -> flushed s (cache_flush s).
Proof.
  intros Hs Hsb Hw He. unfold cache_flush. rewrite He.
  assert (slot (other_slot (crfs_which_super s))) as Hw' by by apply other_slot_slot.
  assert (block_ok (next_super (super_block s))) as Hn by by apply stamp_super_ok.
  pose proof (slot_block_id _ Hw') as Hb. unfold other_slot in *.
  split; try done; simpl.
  - split; [|by rewrite bl_dev_write_empty, bl_drain_empty].
    apply bl_dev_write_ok; auto using bl_drain_ok, bl_drain_empty.
  - intros i Hi. unfold base; simpl. rewrite bl_dev_write_base by auto using bl_drain_ok.
    by rewrite bl_drain_base by done.
Qed.

Lemma flushed_view s s' i :
  flushed s s' -> block_id i -> view s' i = base s' i.
Proof. intros [_ _ [Hok He] _ _ _] Hi. by apply empty_view. Qed.

(** What a write leaves alone. *)
Lemma write_which s b d : crfs_which_super (fs_write s b d) = crfs_which_super s.
Proof. done. Qed.
Lemma write_super s b d : super_block (fs_write s b d) = super_block s.
Proof. done. Qed.
Lemma write_taken s b d i : taken (fs_write s b d) i = taken s i.
Proof. done. Qed.

(** ** The choice of [crfs_init] *)

Lemma read_super_spec s i :
  fs_ok s -> slot i ->
  exists s', s' ≡ s /\ read_super s i =
    (if super_valid (view s (SB_BLOCKNUM i)) then Some (view s (SB_BLOCKNUM i)) else None, s').
Proof.
  intros Hs Hi. unfold read_super.
  destruct (fs_read_spec s (SB_BLOCKNUM i)) as (s' & -> & Heq); [done|by apply slot_block_id|].
  exists s'. split; [done|]. unfold super_valid. by destruct (_ && _).
Qed.

Lemma read_supers_spec s ixs :
  fs_ok s -> Forall slot ixs ->
  exists s', s' ≡ s /\ read_supers s ixs =
    (List.filter super_valid (map (fun i => view s (SB_BLOCKNUM i)) ixs), s').
Proof.
  intros Hs HF. revert s Hs. induction HF as [|i ixs Hi _ IH]; intros s Hs; [by exists s|].
  simpl. destruct (read_super_spec s i Hs Hi) as (s1 & Heq1 & ->).
  destruct (IH s1) as (s2 & Heq2 & ->); [by rewrite Heq1|]. exists s2. split; [by rewrite Heq2|].
  f_equal. replace (map (fun i => view s1 (SB_BLOCKNUM i)) ixs)
    with (map (fun i => view s (SB_BLOCKNUM i)) ixs).
  - by destruct (super_valid _).
  - apply map_ext. intros k. by rewrite Heq1.
Qed.

(** Slot [w] holds a valid super block, newer than any other valid one. *)
Record newest s (w : Z) : Prop := {
  nw_slot : slot w;
  nw_valid : super_valid (base s (SB_BLOCKNUM w)) = true;
  nw_pos : 0 < sb_blockver (base s (SB_BLOCKNUM w));
  nw_other : super_valid (base s (SB_BLOCKNUM (other_slot w))) = true ->
    sb_blockver (base s (SB_BLOCKNUM (other_slot w))) < sb_blockver (base s (SB_BLOCKNUM w));
}.

Lemma newest_base s t w : (forall i, base t i = base s i) -> newest s w -> newest t w.
Proof. intros Hb []. split; rewrite ?Hb; done. Qed.

(** What [best_super] selects from the valid super blocks of the two slots. *)
Lemma best_super_newest s w which :
  newest s w ->
  let l := List.filter super_valid (map (fun i => base s (SB_BLOCKNUM i)) (seqZ 0 CRFS_NSBLOCKS)) in
  let k := best_super 0 which 0 l in
  0 <= k /\ l !! Z.to_nat k = Some (base s (SB_BLOCKNUM w)) /\
  (super_valid (base s (SB_BLOCKNUM (other_slot w))) = true -> k = w).
Proof.
  intros [Hw Hv Hp Ho]. change (seqZ 0 CRFS_NSBLOCKS) with [0; 1]. cbn [map List.filter].
  assert (w = 0 \/ w = 1) as [-> | ->] by (unfold slot, CRFS_NSBLOCKS in Hw; lia).
  - change (other_slot 0) with 1 in *. rewrite Hv.
    destruct (super_valid (base s (SB_BLOCKNUM 1))); cbn [best_super];
      rewrite (proj2 (Z.ltb_lt _ _) Hp); [|done].
    destruct (Z.ltb_spec (sb_blockver (base s (SB_BLOCKNUM 0))) (sb_blockver (base s (SB_BLOCKNUM 1))));
      [|done]. specialize (Ho eq_refl). lia.
  - change (other_slot 1) with 0 in *. rewrite Hv.
    destruct (super_valid (base s (SB_BLOCKNUM 0))); cbn [best_super].
    + specialize (Ho eq_refl). destruct (0 <? _); rewrite ?(proj2 (Z.ltb_lt _ _) Ho); [done|].
      by rewrite (proj2 (Z.ltb_lt _ _) Hp).
    + by rewrite (proj2 (Z.ltb_lt _ _) Hp).
Qed.

(** The state in which [crfs_init] starts to read. *)
Definition dropped s : fs St := set_store (cache_drop (store s)) s.

Lemma dropped_ok s : fs_ok s -> fs_ok (dropped s).
Proof. intros []. split; try done. by apply bl_drop_ok. Qed.

Lemma dropped_view s i : fs_ok s -> view (dropped s) i = base s i.
Proof.
  intros Hs. unfold view, base, dropped; simpl.
  rewrite empty_view by (apply bl_drop_empty || apply bl_drop_ok, Hs). apply bl_drop_base.
Qed.

(** [crfs_init] as a function of the two super blocks. *)
Lemma init_reads s :
  fs_ok s ->
  exists s', s' ≡ dropped s /\
    crfs_init s =
      let l := List.filter super_valid [base s (SB_BLOCKNUM 0); base s (SB_BLOCKNUM 1)] in
      let k := best_super 0 (crfs_which_super s') 0 l in
      if k <? 0 then Some (-1, set_which_super k s')
      else sb ← l !! Z.to_nat k; init_maps (set_super_block sb (set_which_super k s')).
Proof.
  intros Hs. unfold crfs_init. fold (dropped s).
  destruct (read_supers_spec (dropped s) (seqZ 0 CRFS_NSBLOCKS)) as (s1 & Heq & ->).
  { by apply dropped_ok. }
  { apply Forall_forall. intros i Hi%elem_of_seqZ. unfold slot. lia. }
  exists s1. split; [done|].
  replace (map (fun i => view (dropped s) (SB_BLOCKNUM i)) (seqZ 0 CRFS_NSBLOCKS))
    with [base s (SB_BLOCKNUM 0); base s (SB_BLOCKNUM 1)]; [done|].
  change (seqZ 0 CRFS_NSBLOCKS) with [0; 1]. cbn [map]. by rewrite !dropped_view.
Qed.

(** Without memory for one of its two maps, [crfs_init] fails at that point. *)
Lemma init_maps_no_memory s :
  forallb id (take 4 (allocs s)) = false ->
  exists s', init_maps s = Some (-1, s') /\ store s' = store s /\
    super_block s' = super_block s /\ crfs_pwd s' = crfs_pwd s.
Proof.
  intros Ha. unfold init_maps, freemap_init, next_alloc.
  destruct (allocs s) as [|[|] [|[|] [|[|] [|[|] l]]]]; try done;
    eexists; (split; [reflexivity|done]).
Qed.

(** [crfs_init] mounts the newest valid super block. *)
Lemma init_chooses s w :
  fs_ok s -> newest s w ->
  exists k s', s' ≡ dropped s /\ 0 <= k /\
    (super_valid (base s (SB_BLOCKNUM (other_slot w))) = true -> k = w) /\
    crfs_init s = init_maps (set_super_block (base s (SB_BLOCKNUM w)) (set_which_super k s')).
Proof.
  intros Hs Hn. destruct (init_reads s Hs) as (s1 & Heq & ->).
  destruct (best_super_newest s w (crfs_which_super s1) Hn) as (Hk & Hl & Hb).
  change (map (fun i => base s (SB_BLOCKNUM i)) (seqZ 0 CRFS_NSBLOCKS))
    with [base s (SB_BLOCKNUM 0); base s (SB_BLOCKNUM 1)] in *. cbv zeta.
  set (k := best_super _ _ _ _) in *. exists k, s1. split_and!; [done..|].
  destruct (Z.ltb_spec k 0); [lia|]. by rewrite Hl.
Qed.
End mount.

(** * a commit is atomic

    [cache_flush] writes the dirty blocks one by one and the new super block last.
    Between commits the operations only dirty blocks that the committed file
    system does not use ([phased] of [Inode.v]).  So wherever the sequence of
    writes is cut, the next [crfs_init] finds either the old file system, complete,
    or the new one, complete. *)

Section crash.
Context {D : Type} `{BlockDevice D}.
Implicit Types s : fs (cached D).

(** The writes of [cache_flush], in order. *)
Definition flush_log s : list (Z * block) :=
  flush_writes (crfs_block_cache (store s)) ++
  [(SB_BLOCKNUM (other_slot (crfs_which_super s)), next_super (super_block s))].

Lemma cache_flush_log s :
  cache_is_empty (store s) = false ->
  backing (store (cache_flush s)) = write_all (backing (store s)) (flush_log s).
Proof.
  intros He. unfold cache_flush. rewrite He. simpl. unfold write_all, flush_log.
  rewrite foldl_app. simpl. rewrite flush_loop_writes. done.
Qed.

(** The backing store when the machine stops after [n] of the writes. *)
Definition crash_at (n : nat) s : D := write_all (backing (store s)) (take n (flush_log s)).

(** The machine starts again: nothing is cached. *)
Definition reboot (d : D) s : fs (cached D) := set_store (Cached d []) s.

Definition super_block_at (i : Z) : Prop := exists j, slot j /\ i = SB_BLOCKNUM j.

(** A mounted file system between two commits: slot [w] holds its last committed
    super block, and no block of [C], the blocks of that file system, and no
    super block is dirty. *)
Record between_commits (C : Z -> Prop) (w : Z) s : Prop := {
  bc_ok : fs_ok s;
  bc_which : crfs_which_super s = w;
  bc_newest : newest s w;
  bc_magic : sb_magic (super_block s) = CRFS_MAGIC;
  bc_ver : sb_blockver (super_block s) = sb_blockver (base s (SB_BLOCKNUM w));
  bc_ver_max : sb_blockver (super_block s) + 1 < 4294967296;
  bc_phased : phased (fun i => C i \/ super_block_at i) s;
  bc_blocks i : C i -> block_id i;
}.

Lemma clean_not_written s i n :
  fs_ok s -> dirty s i = false ->
  i ∉ map fst (take n (flush_writes (crfs_block_cache (store s)))).
Proof.
  intros Hs Hd Hin. assert (i ∈ map fst (flush_writes (crfs_block_cache (store s)))) as Hin'.
  { apply list_elem_of_In, in_map_iff in Hin as (w & <- & Hw).
    apply list_elem_of_In, in_map, list_elem_of_In.
    apply list_elem_of_In in Hw. apply elem_of_take in Hw as (k & Hk & _).
    by eapply list_elem_of_lookup_2. }
  apply flush_writes_dirty in Hin' as (e & He & <- & Hde).
  pose proof (ok_store s Hs) as [_ Hnd _].
  pose proof (nodup_find e _ Hnd He) as Hf.
  unfold dirty in Hd. simpl in Hd. unfold cache_block_is_dirty in Hd. rewrite Hf in Hd. congruence.
Qed.

Lemma log_prefix_ok s n :
  fs_ok s ->
  Forall (fun w => block_id (fst w) /\ block_ok (snd w))
    (take n (flush_writes (crfs_block_cache (store s)))).
Proof.
  intros Hs. apply Forall_take. pose proof (ok_store s Hs) as [_ _ HF].
  by eapply flush_writes_ok.
Qed.

(** Before the last write, clean blocks are as they were. *)
Lemma crash_clean s n i :
  fs_ok s -> (n <= length (flush_writes (crfs_block_cache (store s))))%nat ->
  block_id i -> dirty s i = false ->
  read_block (crash_at n s) i = base s i /\ device_ok (crash_at n s).
Proof.
  intros Hs Hn Hi Hd. unfold crash_at, flush_log. rewrite take_app_le by done.
  pose proof (ok_store s Hs) as [Hdev _ _]. split.
  - rewrite write_all_other; [done|done|by apply log_prefix_ok|done|by apply clean_not_written].
  - apply write_all_ok; [done|by apply log_prefix_ok].
Qed.

Lemma reboot_ok d s : fs_ok s -> device_ok d -> fs_ok (reboot d s).
Proof. intros [] Hd. split; try done. split; simpl; [done|constructor|constructor]. Qed.

Lemma super_block_at_slot j : slot j -> super_block_at (SB_BLOCKNUM j).
Proof. intros. by exists j. Qed.

(** Before the last write: the old file system. *)
Lemma crash_old C w s n :
  between_commits C w s -> (n <= length (flush_writes (crfs_block_cache (store s))))%nat ->
  let t := reboot (crash_at n s) s in
  fs_ok t /\ newest t w /\ (forall j, slot j -> base t (SB_BLOCKNUM j) = base s (SB_BLOCKNUM j)) /\
  forall i, C i -> base t i = base s i.
Proof.
  intros [Hs Hw Hnw Hmg Hv Hvm Hph HC] Hn t.
  assert (forall j, slot j -> base t (SB_BLOCKNUM j) = base s (SB_BLOCKNUM j)) as Hsb.
  { intros j Hj. apply crash_clean; [done..|by apply slot_block_id|].
    apply Hph. right. by apply super_block_at_slot. }
  pose proof Hnw as [Hsl Hva Hp Ho]. pose proof (other_slot_slot w Hsl) as Hsl'.
  split_and!.
  - apply reboot_ok; [done|]. apply (crash_clean s n (SB_BLOCKNUM w)); [done..|by apply slot_block_id|].
    apply Hph. right. by apply super_block_at_slot.
  - split; rewrite ?Hsb by done; done.
  - done.
  - intros i Hi. apply crash_clean; [done..|by apply HC|]. apply Hph. by left.
Qed.

(** After the last write: the new one. *)
Lemma crash_new C w s :
  between_commits C w s -> cache_is_empty (store s) = false ->
  let t := reboot (crash_at (length (flush_log s)) s) s in
  fs_ok t /\ newest t (other_slot w) /\
  base t (SB_BLOCKNUM (other_slot w)) = next_super (super_block s) /\
  super_valid (base t (SB_BLOCKNUM w)) = true /\
  forall i, block_id i -> i <> SB_BLOCKNUM (other_slot w) -> base t i = view s i.
Proof.
  intros [Hs Hw Hnw Hmg Hv Hvm Hph HC] He t. pose proof Hnw as [Hsl Hva Hp Ho].
  pose proof (other_slot_slot w Hsl) as Hsl'. pose proof (ok_sb s Hs) as Hsb.
  assert (slot (crfs_which_super s)) as Hws by by rewrite Hw.
  destruct (cache_flush_spec s (ok_store s Hs) Hsb Hws He) as [Hfw Hfs [Hfo _] Hfb _ _].
  rewrite Hw in Hfw. rewrite Hfs, Hfw in Hfb.
  assert (crash_at (length (flush_log s)) s = backing (store (cache_flush s))) as Hd.
  { rewrite cache_flush_log by done. unfold crash_at. by rewrite take_ge. }
  assert (forall i, base t i = base (cache_flush s) i) as Hbt
    by (intros i; unfold base, t, reboot; simpl; by rewrite Hd).
  assert (forall i, block_id i -> i <> SB_BLOCKNUM (other_slot w) -> base t i = view s i) as Hview.
  { intros i Hi Hne. rewrite Hbt, Hfb by done. by apply Z.eqb_neq in Hne as ->. }
  assert (base t (SB_BLOCKNUM (other_slot w)) = next_super (super_block s)) as Hnew.
  { rewrite Hbt, Hfb by by apply slot_block_id. by rewrite Z.eqb_refl. }
  assert (base t (SB_BLOCKNUM w) = base s (SB_BLOCKNUM w)) as Hold.
  { rewrite Hview; [|by apply slot_block_id|by apply not_eq_sym, other_slot_ne].
    apply bl_clean; [apply Hs|]. apply Hph. right. by apply super_block_at_slot. }
  assert (other_slot (other_slot w) = w) as Hww.
  { destruct (slot_cases (other_slot w) w) as [E|E]; try done.
    pose proof (other_slot_ne w Hsl). congruence. }
  assert (sb_blockver (next_super (super_block s)) = sb_blockver (super_block s) + 1) as Hver.
  { unfold next_super. rewrite stamp_super_ver by done. apply u32_small.
    pose proof (get32_block 12 (super_block s) Hsb). unfold sb_blockver in *. lia. }
  split_and!; try done.
  - apply reboot_ok; [done|]. rewrite Hd. apply Hfo.
  - split; rewrite ?Hww, ?Hnew, ?Hold; [done| |lia|lia].
    by apply stamp_super_valid.
  - by rewrite Hold.
Qed.
End crash.
