(* ===== verification/MkfsProofs.v ===== *)
(** * MkfsProofs: a new file system

    [crfs_mkfs] followed by [crfs_init] gives the well-formed tree that holds the
    root directory and nothing else. *)

From S2P Require Import Prelude Freemap Layout BlockLayer Fs Inode Namei Directory Mount.
From S2P Require Import DirProofs Tree MountProofs.

(** ** Marking *)

Lemma mark_all_None l : foldl (fun om b => m ← om; freemap_mark m b) None l = None.
Proof. by induction l. Qed.

Lemma mark_all_spec m bits :
  fm_wf m -> Forall (fun n => 0 <= n < fm_items m) bits ->
  exists m', mark_all m bits = Some m' /\ fm_wf m' /\
    (forall k, 0 <= k -> fm_used m' k = bool_decide (k ∈ bits) || fm_used m k) /\
    (forall k, fm_pending m' k = fm_pending m k) /\
    fm_mapsize m' = fm_mapsize m.
Proof.
  intros Hwf HF. revert m Hwf HF. induction bits as [|b bits IH]; intros m Hwf HF.
  { exists m. by split_and!. }
  inversion HF as [|? ? Hb HF']; subst. unfold mark_all. simpl.
  destruct (freemap_mark_spec m b Hwf Hb) as (m1 & -> & Hwf1 & Hu1 & Hp1 & Hs1).
  destruct (IH m1 Hwf1) as (m2 & E & Hwf2 & Hu2 & Hp2 & Hs2).
  { unfold fm_items in *. by rewrite Hs1. }
  exists m2. split; [exact E|]. split_and!; [done| | |congruence].
  - intros k Hk. rewrite Hu2, Hu1 by done. rewrite orb_assoc. f_equal.
    apply eq_true_iff_eq.
    rewrite orb_true_iff, !bool_decide_eq_true, Z.eqb_eq, elem_of_cons. tauto.
  - intros k. by rewrite Hp2, Hp1.
Qed.

Lemma bind_Some {A B} (f : A -> option B) (x : A) : (Some x ≫= f) = f x.
Proof. done. Qed.

Lemma init_pending n k : fm_pending (zero_map n) k = false.
Proof. unfold fm_pending, zero_map. simpl. apply bit_of_zeros. Qed.

(** ** The contents [crfs_mkfs] writes *)

Section mkfs_super.
Context (size : Z).

Lemma mkfs_super_ok : block_ok (mkfs_super size).
Proof using.
  unfold mkfs_super, set_sb_vtable, set_sb_root, set_sb_fssize, set_sb_checksum, set_sb_fsver.
  apply block_ok_put16; [|simpl; lia]. apply block_ok_put16; [|lia].
  do 3 (apply block_ok_put32; [|lia]).
  apply block_ok_put; [apply block_ok_zeros|repeat constructor; lia|simpl; lia].
Qed.

Lemma get16_zeros off n : get16 off (zeros n) = 0.
Proof using.
  unfold get16, sub, zeros. rewrite drop_replicate, take_replicate.
  induction (min 2 (n - off)) as [|k IH]; simpl; [done|]. by rewrite IH.
Qed.

Lemma mkfs_super_fields :
  sb_magic (mkfs_super size) = CRFS_MAGIC /\ sb_fssize (mkfs_super size) = u32 size /\
  sb_root (mkfs_super size) = 1 /\ sb_vtable (mkfs_super size) 0 = 2 /\
  forall i, 0 < i < 256 -> sb_vtable (mkfs_super size) i = 0.
Proof using.
  pose proof mkfs_super_ok as Hok. unfold mkfs_super in *.
  set (b0 := set_sb_checksum 0 (set_sb_fsver 0 (set_sb_magic CRFS_MAGIC (zeros BLOCK)))) in *.
  assert (block_ok b0) as Hb0.
  { unfold b0, set_sb_checksum, set_sb_fsver.
    do 2 (apply block_ok_put32; [|lia]).
    apply block_ok_put; [apply block_ok_zeros|repeat constructor; lia|simpl; lia]. }
  assert (block_ok (set_sb_fssize size b0)) as Hb1 by (apply block_ok_put32; [done|lia]).
  assert (block_ok (set_sb_root 1 (set_sb_fssize size b0))) as Hb2
    by (apply block_ok_put16; [done|lia]).
  split_and!.
  - done.
  - unfold sb_fssize, set_sb_vtable, put16 at 1. rewrite get32_put_ne by (simpl; blk).
    unfold set_sb_root, put16. rewrite get32_put_ne by (simpl; blk).
    unfold set_sb_fssize. rewrite get32_put32 by blk. done.
  - unfold sb_root, set_sb_vtable, put16 at 1. rewrite get16_put_ne by (simpl; blk).
    unfold set_sb_root. by rewrite get16_put16 by blk.
  - unfold sb_vtable, set_sb_vtable. by rewrite get16_put16 by blk.
  - intros i Hi. unfold sb_vtable, set_sb_vtable, put16 at 1. rewrite get16_put_ne by (simpl; blk).
    unfold set_sb_root, put16. rewrite get16_put_ne by (simpl; blk).
    unfold set_sb_fssize, put32. rewrite get16_put_ne by (simpl; blk).
    unfold b0. unfold set_sb_checksum, set_sb_fsver, put32.
    assert (block_ok (set_sb_magic CRFS_MAGIC (zeros BLOCK))) as Hm.
    { apply block_ok_put; [apply block_ok_zeros|repeat constructor; lia|simpl; lia]. }
    assert (block_ok (put 4 (le_bytes 4 0) (set_sb_magic CRFS_MAGIC (zeros BLOCK)))) as Hm2
      by (apply block_ok_put32; [done|lia]).
    rewrite !get16_put_ne by (simpl; blk). unfold set_sb_magic.
    rewrite get16_put_ne by (simpl; blk). apply get16_zeros.
Qed.
End mkfs_super.

Lemma mkfs_itable_ok : block_ok mkfs_itable.
Proof. apply block_ok_it_set; [apply block_ok_zeros|done]. Qed.

Definition ROOT_INODE : crfs_inode := Inode 1 3 3 0 CRFS_FMASK_DIR.

Lemma root_inode_ok : inode_ok ROOT_INODE.
Proof. by split. Qed.

Lemma mkfs_itable_root : it_get mkfs_itable 1 = ROOT_INODE.
Proof. apply it_get_set; [apply block_ok_zeros|apply root_inode_ok|done]. Qed.

Lemma mkfs_size_range size : 0 <= mkfs_size size < 4294967296.
Proof.
  unfold mkfs_size.
  replace (u32 (Z.lnot CRFS_BLOCK_SIZE)) with (Z.land (u32 (Z.lnot CRFS_BLOCK_SIZE)) (Z.ones 32))
    by reflexivity.
  rewrite Z.land_assoc, Z.land_ones by lia. by apply Z.mod_pos_bound.
Qed.

Section mkfs.
Context {St : Type} `{BlockLayer St}.
Implicit Types s : fs St.

(** What [crfs_mkfs] leaves on the backing store. *)
Record formatted (size : Z) s : Prop := {
  fmt_ok : fs_ok s;
  fmt_newest : newest s 0;
  fmt_both : super_valid (base s (SB_BLOCKNUM (other_slot 0))) = true;
  fmt_super : block_ok (base s (SB_BLOCKNUM 0));
  fmt_ver : sb_blockver (base s (SB_BLOCKNUM 0)) = 2;
  fmt_size : sb_fssize (base s (SB_BLOCKNUM 0)) = size;
  fmt_root : sb_root (base s (SB_BLOCKNUM 0)) = 1;
  fmt_table : sb_vtable (base s (SB_BLOCKNUM 0)) 0 = 2;
  fmt_tables i : 0 < i < 256 -> sb_vtable (base s (SB_BLOCKNUM 0)) i = 0;
  fmt_inodes : base s 2 = mkfs_itable;
  fmt_dir : base s 3 = new_directory 1 1;
}.

Lemma set_which_super_ok k s : fs_ok s -> fs_ok (set_which_super k s).
Proof. by intros []. Qed.
Lemma set_super_block_ok sb s : fs_ok s -> block_ok sb -> fs_ok (set_super_block sb s).
Proof. by intros []. Qed.

Lemma written_not_empty s i b :
  fs_ok s -> cache_is_empty (store (fs_write s i b)) = false.
Proof.
  intros Hs. destruct (cache_is_empty _) eqn:E; [|done].
  apply (bl_empty_clean _ i) in E. change (dirty (fs_write s i b) i = false) in E.
  rewrite write_dirty, Z.eqb_refl in E by done. done.
Qed.

(** The state before the flush. *)
Definition mkfs_state s (sb0 sb1 : block) : fs St :=
  let s := fs_write s (SB_BLOCKNUM 0) sb0 in
  let s := fs_write s (SB_BLOCKNUM 1) sb1 in
  let s := set_which_super (CRFS_NSBLOCKS - 1) s in
  let s := set_super_block sb1 s in
  let s := fs_write s 2 mkfs_itable in
  fs_write s 3 (new_directory 1 1).

Lemma mkfs_state_spec s sb0 sb1 :
  fs_ok s -> block_ok sb0 -> block_ok sb1 ->
  fs_ok (mkfs_state s sb0 sb1) /\ cache_is_empty (store (mkfs_state s sb0 sb1)) = false /\
  forall i, view (mkfs_state s sb0 sb1) i =
    if i =? 3 then new_directory 1 1 else if i =? 2 then mkfs_itable
    else if i =? 16 then sb1 else if i =? 0 then sb0 else view s i.
Proof.
  intros Hs Hsb0 Hsb1. unfold mkfs_state.
  set (s1 := fs_write s (SB_BLOCKNUM 0) sb0). set (s2 := fs_write s1 (SB_BLOCKNUM 1) sb1).
  set (s3 := set_super_block sb1 (set_which_super (CRFS_NSBLOCKS - 1) s2)).
  set (s4 := fs_write s3 2 mkfs_itable).
  assert (fs_ok s1) as Hs1 by exact (write_fs_ok _ _ _ Hs (slot_block_id 0 ltac:(done)) Hsb0).
  assert (fs_ok s2) as Hs2 by exact (write_fs_ok _ _ _ Hs1 (slot_block_id 1 ltac:(done)) Hsb1).
  assert (fs_ok s3) as Hs3
    by exact (set_super_block_ok _ _ (set_which_super_ok _ _ Hs2) Hsb1).
  assert (fs_ok s4) as Hs4 by (apply write_fs_ok; [exact Hs3|done|apply mkfs_itable_ok]).
  split_and!.
  - apply write_fs_ok; [exact Hs4|done|apply new_directory_wf].
  - exact (written_not_empty s4 3 (new_directory 1 1) Hs4).
  - intros i. rewrite (write_view s4) by exact Hs4. destruct (i =? 3); [done|].
    unfold s4. rewrite (write_view s3) by exact Hs3. destruct (i =? 2); [done|].
    change (view s3 i) with (view s2 i). unfold s2. rewrite (write_view s1) by exact Hs1.
    unfold s1. by rewrite (write_view s) by exact Hs.
Qed.

(** The flush of that state, for super blocks that differ in their versions. *)
Lemma mkfs_flushed s sb0 sb1 size :
  fs_ok s -> block_ok sb0 -> block_ok sb1 -> sb_magic sb1 = CRFS_MAGIC ->
  super_valid sb1 = true -> sb_blockver sb1 = 1 ->
  sb_fssize sb1 = size -> sb_root sb1 = 1 -> sb_vtable sb1 0 = 2 ->
  (forall i, 0 < i < 256 -> sb_vtable sb1 i = 0) ->
  formatted size (cache_flush (mkfs_state s sb0 sb1)).
Proof.
  intros Hs Hsb0 Hsb1 Hmag Hval Hver Hsize Hroot Hv0 Hv.
  destruct (mkfs_state_spec s sb0 sb1 Hs Hsb0 Hsb1) as (Hs5 & Hne & Hview).
  assert (super_block (mkfs_state s sb0 sb1) = sb1) as Hsb5 by done.
  assert (crfs_which_super (mkfs_state s sb0 sb1) = 1) as Hw5 by done.
  set (s5 := mkfs_state s sb0 sb1) in *. clearbody s5.
  destruct (cache_flush_spec s5) as [Hw Hsup [Hst He] Hb Hbm Him];
    [apply Hs5|by apply ok_sb|by rewrite Hw5|done|].
  rewrite Hw5 in Hw. rewrite Hsb5 in Hsup. change (other_slot 1) with 0 in Hw.
  rewrite Hw, Hsup in Hb. pose proof (cache_flush_allocs s5) as Hmem.
  set (s' := cache_flush s5) in *. clearbody s'.
  assert (base s' (SB_BLOCKNUM 0) = next_super sb1) as Hb0 by by rewrite Hb.
  assert (base s' (SB_BLOCKNUM (other_slot 0)) = sb1) as Hb1
    by (rewrite Hb by done; by rewrite Hview).
  assert (block_ok (next_super sb1)) as Hn by (apply stamp_super_ok; exact Hsb1).
  assert (sb_blockver (next_super sb1) = 2) as Hver'.
  { unfold next_super. rewrite stamp_super_ver, Hver by exact Hsb1. done. }
  destruct (stamp_super_fields (sb_blockver sb1 + 1) sb1 Hsb1) as (Hf1 & Hf2 & Hf3).
  fold (next_super sb1) in *.
  split; rewrite ?Hb0, ?Hb1; try done; try congruence.
  - split; [done| | | | |by rewrite Hmem; apply Hs5]; rewrite ?Hbm, ?Him, ?Hsup.
    + apply wf_flush, Hs5.
    + apply Hs5.
    + apply (ok_bm_size s5 Hs5).
    + exact Hn.
  - split; [done| | |]; rewrite ?Hb0, ?Hb1; try lia.
    by apply stamp_super_valid.
  - intros i Hi. rewrite Hf3. by apply Hv.
  - by rewrite Hb, Hview.
  - by rewrite Hb, Hview.
Qed.

Lemma mkfs_spec s size :
  fs_ok s -> exists s', crfs_mkfs s size = (0, s') /\ formatted (mkfs_size size) s'.
Proof.
  intros Hs. pose proof (mkfs_super_ok (mkfs_size size)) as Hm.
  destruct (mkfs_super_fields (mkfs_size size)) as (Hmag & Hsz & Hroot & Hv0 & Hv).
  rewrite (u32_small (mkfs_size size)) in Hsz by apply mkfs_size_range.
  eexists. split; [reflexivity|]. fold (mkfs_state s
    (stamp_super 0 (mkfs_super (mkfs_size size)))
    (stamp_super 1 (stamp_super 0 (mkfs_super (mkfs_size size))))).
  set (sb := mkfs_super (mkfs_size size)) in *. clearbody sb.
  pose proof (stamp_super_ok 0 sb Hm) as Hsb0.
  pose proof (stamp_super_ok 1 _ Hsb0) as Hsb1.
  destruct (stamp_super_fields 0 sb Hm) as (Hg1 & Hg2 & Hg3).
  destruct (stamp_super_fields 1 _ Hsb0) as (Hf1 & Hf2 & Hf3).
  apply mkfs_flushed; try congruence.
  - apply stamp_super_magic; [exact Hsb0|]. by apply stamp_super_magic.
  - apply stamp_super_valid; [exact Hsb0|]. by apply stamp_super_magic.
  - apply stamp_super_ver. exact Hsb0.
  - intros i Hi. rewrite Hf3, Hg3. by apply Hv.
Qed.

(** ** Mounting it *)

(** The file system that holds an empty root directory, just mounted. *)
Record mounted_empty s : Prop := {
  me_tree : tree_ok s;
  me_which : slot (crfs_which_super s);
  me_newest : newest s 0 /\ crfs_which_super s = 0;
  me_super : super_block s = base s (SB_BLOCKNUM 0);
  me_ver : sb_blockver (super_block s) = 2;
  me_root : sb_root (super_block s) = 1;
  me_pwd : crfs_pwd s = 1;
  me_inode : inode_at s 1 = ROOT_INODE;
  me_dir : view s 3 = new_directory 1 1;
  me_used n : 0 <= n -> iused s n = bool_decide (n = 0 \/ n = 1);
  me_used_blocks i : 0 <= i -> used s i = bool_decide (i = 0 \/ i = 2 \/ i = 3 \/ i = 16);
  me_available i : 0 <= i -> taken s i = used s i;
  me_size : fm_mapsize (block_freemap s) = sb_fssize (super_block s) / CRFS_BLOCK_SIZE / CHAR_BIT;
  me_clean i : dirty s i = false;
  me_blocks : free_blocks s 12;
  me_free : free_inode s;
}.

(** Marking a directory whose entries are all marked already. *)
Lemma mark_known_entries fuel s d l :
  Forall (fun i => d_inode d i = 0 \/ freemap_isset (inode_freemap s) (d_inode d i) = true) l ->
  foldl (fun os i =>
      s ← os;
      let de := d_inode d i in
      if de =? 0 then Some s
      else if freemap_isset (inode_freemap s) de then Some s
      else mark_inode fuel s de) (Some s) l = Some s.
Proof.
  induction 1 as [|i l Hi _ IH]; [done|]. simpl.
  destruct (Z.eqb_spec (d_inode d i) 0); [done|]. destruct Hi as [|Hi]; [done|]. by rewrite Hi.
Qed.

Lemma mark_root fuel s :
  fs_ok s -> inodes_ok s -> fm_items (block_freemap s) >= 8 ->
  inode_at s 1 = ROOT_INODE -> view s 3 = new_directory 1 1 ->
  exists s' im bm, mark_inode (S fuel) s 1 = Some s' /\
    freemap_mark (inode_freemap s) 1 = Some im /\ freemap_mark (block_freemap s) 3 = Some bm /\
    s' ≡ set_block_freemap bm (set_inode_freemap im s).
Proof.
  intros Hs Him Hit Hin Hv.
  destruct (freemap_mark_spec (inode_freemap s) 1 (ok_im s Hs)) as (im & E & Hwf & Hu & _).
  { unfold fm_items. rewrite (im_size s Him). lia. }
  destruct (freemap_mark_spec (block_freemap s) 3 (ok_bm s Hs)) as (bm & E' & Hwf' & _ & _ & Hsz);
    [lia|].
  cbn [mark_inode]. rewrite E. cbn [mbind option_bind]. set (s0 := set_inode_freemap im s).
  assert (fs_ok s0) as Hs0 by by apply set_inode_freemap_ok.
  destruct (fs_read_spec s0 (ITABLE_BLOCKNUM s0 1)) as (s1 & -> & Heq1);
    [done|by apply vtable_block_id|].
  change (it_get (view s0 (ITABLE_BLOCKNUM s0 1)) (INODE_IDX 1)) with (inode_at s 1).
  rewrite Hin. change (is_dir_mask ROOT_INODE) with true. cbv iota.
  change (in_first ROOT_INODE) with 3.
  assert (block_freemap s1 = block_freemap s) as -> by by rewrite Heq1.
  rewrite E'. cbn [mbind option_bind]. set (s2 := set_block_freemap bm s1).
  assert (s2 ≡ set_block_freemap bm s0) as Heq2.
  { destruct Heq1 as (? & ? & ? & ? & ? & ? & ?). by split_and!. }
  assert (fs_ok s2) as Hs2.
  { rewrite Heq2. destruct Hs0. split; simpl; try done. by rewrite Hsz. }
  destruct (fs_read_spec s2 3) as (s3 & -> & Heq3); [done..|].
  assert (view s2 3 = new_directory 1 1) as ->.
  { assert (view s2 3 = view (set_block_freemap bm s0) 3) as -> by by rewrite Heq2. exact Hv. }
  exists s3, im, bm. split_and!; [|done..|by rewrite Heq3].
  apply mark_known_entries. apply Forall_forall. intros i Hi%elem_of_seqZ.
  unfold CRFS_DIR_NENTS in Hi. rewrite new_directory_inode by lia.
  assert (inode_freemap s3 = im) as -> by (rewrite Heq3, Heq2; done).
  rewrite (freemap_isset_spec im (if i =? 1 then u16 1 else if i =? 0 then u16 1 else 0));
    [|by destruct (i =? 1), (i =? 0)].
  destruct (i =? 1), (i =? 0); try (right; by rewrite Hu). by left.
Qed.

Lemma vtable_bits sb :
  sb_vtable sb 0 = 2 -> (forall i, 0 < i < 256 -> sb_vtable sb i = 0) ->
  List.filter (fun b => negb (b =? 0))
    (map (sb_vtable sb) (seqZ 0 (Z.of_nat CRFS_SB_VTABLE_LEN))) = [2].
Proof.
  intros H0 Hi. change (seqZ 0 (Z.of_nat CRFS_SB_VTABLE_LEN)) with
    [0; 1; 2; 3; 4; 5; 6; 7; 8; 9; 10; 11; 12; 13; 14; 15].
  cbn [map]. rewrite H0, !Hi by lia. done.
Qed.

Lemma mark_depth_succ : exists n, MARK_DEPTH = S n.
Proof. exists (Z.to_nat 65535). unfold MARK_DEPTH. rewrite <- Z2Nat.inj_succ by lia. done. Qed.

(** The maps before the walk over the tree. *)
Lemma init_block_map size :
  24 * CRFS_BLOCK_SIZE <= size <= 268435456 ->
  exists bm bm',
    mark_all (zero_map (size / CRFS_BLOCK_SIZE / CHAR_BIT))
      (map SB_BLOCKNUM (seqZ 0 CRFS_NSBLOCKS)) = Some bm /\
    mark_all bm [2] = Some bm' /\ fm_wf bm' /\
    (forall k, 0 <= k -> fm_used bm' k = bool_decide (k = 2) || bool_decide (k = 0 \/ k = 16)) /\
    (forall k, fm_pending bm' k = false) /\
    3 <= fm_mapsize bm' <= 8192 /\ fm_mapsize bm' = size / CRFS_BLOCK_SIZE / CHAR_BIT.
Proof.
  intros Hsize. unfold CRFS_BLOCK_SIZE in *. set (n := size / 4096 / CHAR_BIT).
  assert (3 <= n <= 8192) as Hn by (unfold n, CHAR_BIT; dlia).
  pose proof (wf_init n ltac:(lia)) as Hwf.
  change (map SB_BLOCKNUM (seqZ 0 CRFS_NSBLOCKS)) with [0; 16].
  destruct (mark_all_spec (zero_map n) [0; 16] Hwf) as (bm & E & Hwf1 & Hu1 & Hp1 & Hs1).
  { unfold fm_items; simpl. repeat constructor; lia. }
  destruct (mark_all_spec bm [2] Hwf1) as (bm' & E' & Hwf2 & Hu2 & Hp2 & Hs2).
  { unfold fm_items. rewrite Hs1. simpl. repeat constructor; lia. }
  exists bm, bm'. split_and!; try done; simpl in *; try lia.
  - intros k Hk. rewrite Hu2, Hu1, init_used, orb_false_r by done.
    f_equal; apply bool_decide_ext; rewrite !elem_of_cons, elem_of_nil; tauto.
  - intros k. by rewrite Hp2, Hp1, init_pending.
Qed.

Lemma init_inode_map :
  exists im, freemap_mark (zero_map (65536 / CHAR_BIT)) 0 = Some im /\ fm_wf im /\
    (forall k, 0 <= k -> fm_used im k = bool_decide (k = 0)) /\
    (forall k, fm_pending im k = false) /\ fm_mapsize im = 8192.
Proof.
  pose proof (wf_init (65536 / CHAR_BIT) ltac:(done)) as Hwf.
  destruct (freemap_mark_spec _ 0 Hwf) as (im & E & Hwf1 & Hu1 & Hp1 & Hs1); [done|].
  exists im. split_and!; try done.
  - intros k Hk. rewrite Hu1, init_used, orb_false_r by done.
    destruct (Z.eqb_spec k 0); [by rewrite bool_decide_true|by rewrite bool_decide_false].
  - intros k. rewrite Hp1. apply init_pending.
Qed.

(** The state [crfs_init] starts [init_maps] from, for a formatted store. *)
Record fresh_super (size : Z) s : Prop := {
  fs_state : fs_ok s;
  fs_which : crfs_which_super s = 0;
  fs_newest : newest s 0;
  fs_super : super_block s = base s (SB_BLOCKNUM 0);
  fs_ver : sb_blockver (super_block s) = 2;
  fs_size : sb_fssize (super_block s) = size;
  fs_root : sb_root (super_block s) = 1;
  fs_table : sb_vtable (super_block s) 0 = 2;
  fs_tables i : 0 < i < 256 -> sb_vtable (super_block s) i = 0;
  fs_inodes : view s 2 = mkfs_itable;
  fs_dir : view s 3 = new_directory 1 1;
  fs_clean i : dirty s i = false;
}.

Lemma formatted_fresh size s :
  formatted size s ->
  exists t, crfs_init s = init_maps t /\ fresh_super size t.
Proof.
  intros [Hs Hn Hboth Hsb Hver Hsz Hr H0 Hv Hit Hd].
  destruct (init_chooses s 0 Hs Hn) as (k & s' & Heq & Hk & Hkw & ->).
  specialize (Hkw Hboth). subst k. eexists. split; [reflexivity|].
  pose proof (dropped_ok s Hs) as Hdr. rewrite <- Heq in Hdr.
  assert (forall i, view s' i = base s i) as Hview
    by (intros i; rewrite Heq; by apply dropped_view).
  assert (forall i, base s' i = base s i) as Hbase.
  { intros i. rewrite Heq. unfold base, dropped; simpl. apply bl_drop_base. }
  split; try done.
  - by apply set_super_block_ok; [apply set_which_super_ok|].
  - by apply (newest_base s).
  - change (base s (SB_BLOCKNUM 0) = base s' (SB_BLOCKNUM 0)). by rewrite Hbase.
  - change (view s' 2 = mkfs_itable). by rewrite Hview.
  - change (view s' 3 = new_directory 1 1). by rewrite Hview.
  - intros i. change (dirty s' i = false). rewrite Heq.
    apply bl_empty_clean, bl_drop_empty.
Qed.

Lemma fresh_itable size s n : fresh_super size s -> 0 <= n < 65536 ->
  ITABLE_BLOCKNUM s n = if decide (n < 256) then 2 else 0.
Proof.
  intros Hf Hn. unfold ITABLE_BLOCKNUM. pose proof (shiftr8_range n Hn).
  rewrite Z.shiftr_div_pow2 in * by lia. change (2 ^ 8) with 256 in *. case_decide.
  - rewrite Z.div_small by lia. apply Hf.
  - apply (fs_tables _ _ Hf). dlia.
Qed.

(** The maps after the walk, and what the state they are in is. *)
Record marked s s' : Prop := {
  mk_ok : fs_ok s';
  mk_view i : view s' i = view s i;
  mk_dirty i : dirty s' i = dirty s i;
  mk_base i : base s' i = base s i;
  mk_super : super_block s' = super_block s;
  mk_which : crfs_which_super s' = crfs_which_super s;
  mk_pwd : crfs_pwd s' = sb_root (super_block s);
  mk_used k : 0 <= k ->
    used s' k = bool_decide (k = 0 \/ k = 2 \/ k = 3 \/ k = 16);
  mk_taken k : 0 <= k -> taken s' k = used s' k;
  mk_items : 24 <= fm_items (block_freemap s');
  mk_size : fm_mapsize (block_freemap s') = sb_fssize (super_block s) / CRFS_BLOCK_SIZE / CHAR_BIT;
  mk_iused k : 0 <= k -> iused s' k = bool_decide (k = 0 \/ k = 1);
  mk_itaken k : fm_taken (inode_freemap s') k = iused s' k;
  mk_isize : fm_mapsize (inode_freemap s') = 8192;
}.

(** [init_maps] from its steps. *)
Lemma init_maps_steps s im bm bm' s' :
  allocs s = [] ->
  freemap_mark (zero_map (65536 / CHAR_BIT)) 0 = Some im ->
  mark_all (zero_map (sb_fssize (super_block s) / CRFS_BLOCK_SIZE / CHAR_BIT))
    (map SB_BLOCKNUM (seqZ 0 CRFS_NSBLOCKS)) = Some bm ->
  mark_all bm (List.filter (fun b => negb (b =? 0))
    (map (sb_vtable (super_block s)) (seqZ 0 (Z.of_nat CRFS_SB_VTABLE_LEN)))) = Some bm' ->
  mark_inode MARK_DEPTH (set_block_freemap bm' (set_inode_freemap im s))
    (sb_root (super_block s)) = Some s' ->
  init_maps s = Some (0, set_pwd (sb_root (super_block s)) s').
Proof.
  intros Ha E1 E2 E3 E4. unfold init_maps. cbv zeta. rewrite Ha. cbn [freemap_init next_alloc hd tl negb Z.lor Z.eqb].
  rewrite E1, bind_Some, E2, bind_Some, E3, bind_Some.
  assert (forall bm0 im0, set_block_freemap bm' (set_inode_freemap im
            (set_allocs [] (set_block_freemap bm0 (set_inode_freemap im0 s)))) =
            set_block_freemap bm' (set_inode_freemap im s)) as ->
    by (intros; unfold set_block_freemap, set_inode_freemap, set_allocs; cbn; by rewrite Ha).
  rewrite E4, bind_Some. reflexivity.
Qed.

Lemma init_maps_marked size s :
  24 * CRFS_BLOCK_SIZE <= size <= 268435456 -> fresh_super size s ->
  exists s', init_maps s = Some (0, s') /\ marked s s'.
Proof.
  intros Hsize Hf. pose proof Hf as [Hs Hw Hnw Hsu Hver Hsz Hr H0 Hv Hit Hd Hcl].
  destruct (init_block_map size Hsize) as (bm & bm' & E & E' & Hwf & Hu & Hp & Hms & Hmz).
  destruct init_inode_map as (im & Ei & Hwfi & Hui & Hpi & Hmsi).
  destruct mark_depth_succ as [n Hn].
  set (t := set_block_freemap bm' (set_inode_freemap im s)).
  assert (fs_ok t) as Ht by (destruct Hs; split; simpl; try done; lia).
  assert (inodes_ok t) as Hti.
  { split; [done|]. change (fm_used im 0 = true). by rewrite Hui. }
  assert (inode_at t 1 = ROOT_INODE) as Hri.
  { unfold inode_at. change (ITABLE_BLOCKNUM t 1) with (ITABLE_BLOCKNUM s 1).
    rewrite (fresh_itable size s 1 Hf) by lia. rewrite decide_True by lia.
    change (view t 2) with (view s 2). rewrite Hit. apply mkfs_itable_root. }
  assert (3 <= fm_mapsize (block_freemap t)) as Hms' by (simpl; lia).
  destruct (mark_root n t Ht Hti) as (t' & im' & bm2 & Et & Em & Em' & Heq);
    [unfold fm_items; lia|done|done|].
  eexists. split.
  { apply (init_maps_steps s im bm bm' t'); [apply Hs|exact Ei|by rewrite Hsz|by rewrite vtable_bits|].
    rewrite Hr, Hn. exact Et. }
  clear Et Hn.
  destruct (freemap_mark_spec (inode_freemap t) 1 (ok_im t Ht)) as (im1 & E1 & Hwf1 & Hu1 & Hp1 & Hs1);
    [unfold fm_items; simpl; lia|]. rewrite Em in E1. injection E1 as <-.
  destruct (freemap_mark_spec (block_freemap t) 3 (ok_bm t Ht)) as (bm1 & E1 & Hwf2 & Hu2 & Hp2 & Hs2);
    [unfold fm_items; lia|]. rewrite Em' in E1. injection E1 as <-.
  change (block_freemap t) with bm' in *. change (inode_freemap t) with im in *.
  destruct Heq as (Hst & Hbm & Him & Hsb & Hws & _ & Hmem). simpl in Hbm, Him, Hsb, Hws, Hst, Hmem.
  assert (forall k, fm_pending bm2 k = false) as Hp2' by (intros; by rewrite Hp2).
  assert (forall k, fm_pending im' k = false) as Hp1' by (intros; by rewrite Hp1).
  split; try done.
  - split; simpl; [rewrite Hst; apply Hs|by rewrite Hbm|by rewrite Him|rewrite Hbm; lia| |].
    + rewrite Hsb. apply Hs.
    + rewrite Hmem. apply Hs.
  - intros i. unfold view; simpl. by rewrite Hst.
  - intros i. unfold dirty; simpl. by rewrite Hst.
  - intros i. unfold base; simpl. by rewrite Hst.
  - intros k Hk. unfold used; simpl. rewrite Hbm, Hu2, Hu by done.
    apply eq_true_iff_eq. rewrite !orb_true_iff, !bool_decide_eq_true, Z.eqb_eq. lia.
  - intros k Hk. unfold taken, used, fm_taken; simpl. by rewrite Hbm, Hp2', orb_false_r.
  - simpl. rewrite Hbm. unfold fm_items. lia.
  - simpl. by rewrite Hbm, Hs2, Hmz, Hsz.
  - intros k Hk. unfold iused; simpl. rewrite Him, Hu1, Hui by done.
    apply eq_true_iff_eq. rewrite !orb_true_iff, !bool_decide_eq_true, Z.eqb_eq. lia.
  - intros k. unfold fm_taken, iused; simpl. by rewrite Him, Hp1', orb_false_r.
  - simpl. rewrite Him. lia.
Qed.

Lemma me_taken s i : mounted_empty s -> i = 2 \/ i = 3 \/ i = 0 \/ i = 16 -> used s i = true.
Proof. intros Hm Hi. rewrite (me_used_blocks _ Hm) by lia. apply bool_decide_eq_true. lia. Qed.

Lemma marked_empty size s s' :
  fresh_super size s -> marked s s' -> mounted_empty s'.
Proof.
  intros Hf [Hok Hv Hd Hbase Hsb Hw Hp Hu Ht Hit Hmz Hiu Hitk His].
  pose proof Hf as [Hs Hws Hnw Hsu Hver Hsz Hr H0 Hvt Hitab Hdir Hcl].
  assert (forall n, 0 <= n < 65536 -> ITABLE_BLOCKNUM s' n = if decide (n < 256) then 2 else 0) as HI.
  { intros n Hn. rewrite <- (fresh_itable size s n Hf Hn). unfold ITABLE_BLOCKNUM. by rewrite Hsb. }
  assert (inode_at s' 1 = ROOT_INODE) as Hroot.
  { unfold inode_at. rewrite HI by lia. rewrite decide_True by lia. rewrite Hv, Hitab.
    apply mkfs_itable_root. }
  assert (view s' 3 = new_directory 1 1) as Hd3 by by rewrite Hv.
  assert (forall n, 0 < n < 65536 -> iused s' n = true -> n = 1) as Hlive.
  { intros n Hn Hun. rewrite Hiu in Hun by lia. apply bool_decide_eq_true in Hun. lia. }
  assert (live_dir s' 1) as Hl1.
  { split; [lia|by rewrite Hiu|by rewrite Hroot]. }
  assert (vtable_inv s') as Hvi.
  { split.
    - intros i (j & Hj & <-). rewrite HI by done. case_decide; by rewrite Hu.
    - intros a b Ha Hb. rewrite !HI by done. intros Hn0.
      case_decide; [|done]. case_decide; [|done]. intros _.
      rewrite !Z.shiftr_div_pow2 by lia. change (2 ^ 8) with 256. by rewrite !Z.div_small by lia.
    - by rewrite Hu. }
  assert (~ itable_block s' 3) as Hn3.
  { intros (j & Hj & Hj3). rewrite HI in Hj3 by done. by case_decide. }
  split; try done.
  - split; try done.
    + split; [done|]. change (iused s' 0 = true). by rewrite Hiu.
    + by rewrite Hsb, Hr.
    + by rewrite Hp, Hr.
    + intros n Hn Hun. rewrite (Hlive n Hn Hun), Hroot, HI by lia. by rewrite decide_True by lia.
    + intros n [Hn Hun _]. rewrite (Hlive n Hn Hun), Hroot. simpl. rewrite Hd3.
      split; [|apply new_directory_wf]. split; try done; [by rewrite HI|by rewrite Hu].
    + intros n i [Hn Hun _] Hi. rewrite (Hlive n Hn Hun), Hroot. simpl. rewrite Hd3.
      rewrite new_directory_inode by done. intros Hne.
      rewrite Hiu by by destruct (i =? 1), (i =? 0).
      destruct (i =? 1), (i =? 0); try done.
    + intros n m [Hn Hun _] [Hm Hum _] Hne. rewrite (Hlive n Hn Hun), (Hlive m Hm Hum) in Hne. done.
  - rewrite Hw, Hws. done.
  - split; [|by rewrite Hw]. by apply (newest_base s).
  - by rewrite Hsb, Hbase.
  - by rewrite Hsb.
  - by rewrite Hsb.
  - by rewrite Hp, Hr.
  - by rewrite Hmz, Hsb.
  - intros i. by rewrite Hd.
  - exists (seqZ 4 12). split_and!.
    + apply NoDup_seqZ.
    + rewrite length_seqZ. lia.
    + intros i Hi%elem_of_seqZ.
      split; [lia|]. rewrite Ht, Hu by lia. apply bool_decide_eq_false. lia.
  - exists 2. split; [lia|]. rewrite Hitk, Hiu by lia. done.
Qed.

Lemma mkfs_init s size :
  fs_ok s -> 24 * CRFS_BLOCK_SIZE <= mkfs_size size <= 268435456 ->
  exists s1 s2, crfs_mkfs s size = (0, s1) /\ crfs_init s1 = Some (0, s2) /\ mounted_empty s2 /\
    sb_fssize (super_block s2) = mkfs_size size.
Proof.
  intros Hs Hsize. destruct (mkfs_spec s size Hs) as (s1 & -> & Hf).
  destruct (formatted_fresh _ _ Hf) as (t & E & Hfr).
  destruct (init_maps_marked _ _ Hsize Hfr) as (s2 & E' & Hm).
  exists s1, s2. split_and!; [done|by rewrite E|by apply (marked_empty (mkfs_size size) t)|].
  rewrite (mk_super _ _ Hm). apply (fs_size _ _ Hfr).
Qed.
End mkfs.
