(* ===== verification/DirTheorems.v ===== *)
(** * DirTheorems: what the directory operations do

    Each exported operation is first brought to the form "resolve the path, then
    refuse with this error or go on", with everything up to there leaving the
    state as it was ([≡]); the theorems follow from the lemmas of [DirProofs.v]. *)

From S2P Require Import Prelude Freemap Layout BlockLayer Fs Inode Namei Directory.
From S2P Require Import DirProofs Tree.

Section theorems.
Context {St : Type} `{BlockLayer St}.
Implicit Types s : fs St.

Definition too_long (leaf : list Z) : bool := CRFS_FILENAME_MAX <? Z.of_nat (length leaf).

(** Why [crfs_create] refuses a name in a directory, if it does. *)
Definition create_refusal s (d : crfs_inode) (leaf : list Z) : option Z :=
  if too_long leaf then Some ENAMETOOLONG
  else if is_dir_mask (leaf_inode s d leaf) then Some EISDIR
  else match lookup s d leaf, free_dirent (view s (in_first d)) with
       | Some _, _ => Some EEXIST
       | None, None => Some ENOSPC
       | None, Some _ => None
       end.

Definition mkdir_refusal s (d : crfs_inode) (leaf : list Z) : option Z :=
  if too_long leaf then Some ENAMETOOLONG
  else match lookup s d leaf, free_dirent (view s (in_first d)) with
       | Some _, _ => Some EEXIST
       | None, None => Some ENOSPC
       | None, Some _ => None
       end.

Definition open_refusal s (d : crfs_inode) (leaf : list Z) : option Z :=
  if too_long leaf then Some ENAMETOOLONG
  else if is_dir_mask (leaf_inode s d leaf) then Some EISDIR
  else match lookup s d leaf with Some _ => None | None => Some ENOENT end.

Definition stat_refusal s (d : crfs_inode) (leaf : list Z) : option Z :=
  if too_long leaf then Some ENAMETOOLONG
  else match lookup s d leaf with Some _ => None | None => Some ENOENT end.

Definition opendir_refusal s (d : crfs_inode) (leaf : list Z) : option Z :=
  if too_long leaf then Some ENAMETOOLONG
  else if is_dir_mask (leaf_inode s d leaf) then None else Some ENOTDIR.

#[export] Instance leaf_inode_proper : Proper ((≡) ==> (=) ==> (=) ==> (=)) leaf_inode.
Proof.
  intros s t Heq d ? <- n ? <-. destruct n as [|c n]; [done|]. unfold leaf_inode.
  assert (lookup s d (c :: n) = lookup t d (c :: n)) as -> by by rewrite Heq.
  destruct (lookup t d _); [by rewrite Heq|done].
Qed.

(** The common beginning: path resolution, from any equivalent state. *)
Lemma namei_resolves s p r :
  fs_ok s -> resolves s (start_dir s p) p r ->
  exists s', crfs_namei s p = (r, s') /\ s' ≡ s /\
    forall d leaf, r = inr (d, leaf) -> inode_ok d.
Proof.
  intros Hs Hr. destruct (namei_spec s p Hs) as (r' & s' & E & Heq & Hr').
  pose proof (inode_at_ok s) as Hok.
  assert (inode_ok (start_dir s p)) as Hst by (apply inode_at_ok; done).
  pose proof (resolves_det _ _ _ _ _ Hs Hst Hr Hr') as ->.
  exists s'. split_and!; [done..|]. intros d leaf ->.
  by apply (resolves_dir_ok s (start_dir s p) p d leaf).
Qed.

Lemma lookup_de s d name de :
  crfs_lookup_dirent (view s (in_first d)) name = de ->
  lookup s d name = option_map de_inode de.
Proof. unfold lookup. by intros ->. Qed.

Lemma create_checks s p r :
  fs_ok s -> resolves s (start_dir s p) p r ->
  exists s1, s1 ≡ s /\
    crfs_create s p =
      match r with
      | inl e => Some (fail (- e) s1)
      | inr (d, leaf) =>
        match create_refusal s d leaf, free_dirent (view s (in_first d)) with
        | None, Some i => create_in s1 d (view s (in_first d)) i leaf
        | Some e, _ => Some (fail e s1)
        | None, None => None
        end
      end.
Proof.
  intros Hs Hr. destruct (namei_resolves s p r Hs Hr) as (s1 & E & Heq1 & Hdok).
  unfold crfs_create. rewrite E. destruct r as [e|[d leaf]]; [by exists s1|].
  specialize (Hdok d leaf eq_refl). unfold create_refusal, too_long.
  destruct (CRFS_FILENAME_MAX <? _); [by exists s1|].
  destruct (is_dir_spec s1 d leaf) as (s2 & -> & Heq2); [by rewrite Heq1|done|].
  assert (leaf_inode s1 d leaf = leaf_inode s d leaf) as -> by by rewrite Heq1.
  assert (s2 ≡ s) as Heq by by rewrite Heq2.
  destruct (is_dir_mask _); [by exists s2|].
  destruct (fs_read_spec s2 (in_first d)) as (s3 & -> & Heq3);
    [by rewrite Heq|by apply ok_first|].
  assert (view s2 (in_first d) = view s (in_first d)) as -> by by rewrite Heq.
  exists s3. split; [by rewrite Heq3|]. unfold lookup.
  destruct (crfs_lookup_dirent _ leaf); simpl; [done|]. by destruct (free_dirent _).
Qed.

Lemma mkdir_checks s p r :
  fs_ok s -> resolves s (start_dir s p) p r ->
  exists s1, s1 ≡ s /\
    crfs_mkdir s p =
      match r with
      | inl e => Some (fail (- e) s1)
      | inr (d, leaf) =>
        match mkdir_refusal s d leaf, free_dirent (view s (in_first d)) with
        | None, Some i => mkdir_in s1 d (view s (in_first d)) i leaf
        | Some e, _ => Some (fail e s1)
        | None, None => None
        end
      end.
Proof.
  intros Hs Hr. destruct (namei_resolves s p r Hs Hr) as (s1 & E & Heq1 & Hdok).
  unfold crfs_mkdir. rewrite E. destruct r as [e|[d leaf]]; [by exists s1|].
  specialize (Hdok d leaf eq_refl). unfold mkdir_refusal, too_long.
  destruct (CRFS_FILENAME_MAX <? _); [by exists s1|].
  destruct (fs_read_spec s1 (in_first d)) as (s3 & -> & Heq3);
    [by rewrite Heq1|by apply ok_first|].
  assert (view s1 (in_first d) = view s (in_first d)) as -> by by rewrite Heq1.
  exists s3. split; [by rewrite Heq3|]. unfold lookup.
  destruct (crfs_lookup_dirent _ leaf); simpl; [done|]. by destruct (free_dirent _).
Qed.

Lemma stat_checks s p r :
  fs_ok s -> resolves s (start_dir s p) p r ->
  exists s1, s1 ≡ s /\
    crfs_stat s p =
      match r with
      | inl e => ((-1, None), set_errno (- e) s1)
      | inr (d, leaf) =>
        match stat_refusal s d leaf, lookup s d leaf with
        | None, Some n =>
          ((0, Some (CrfsStat n (in_fmask (inode_at s n)) (in_fsize (inode_at s n)))), s1)
        | Some e, _ => ((-1, None), set_errno e s1)
        | None, None => ((-1, None), s1)
        end
      end.
Proof.
  intros Hs Hr. destruct (namei_resolves s p r Hs Hr) as (s1 & E & Heq1 & Hdok).
  unfold crfs_stat. rewrite E. destruct r as [e|[d leaf]]; [by exists s1|].
  specialize (Hdok d leaf eq_refl). unfold stat_refusal, too_long.
  destruct (CRFS_FILENAME_MAX <? _); [by exists s1|].
  destruct (fs_read_spec s1 (in_first d)) as (s3 & -> & Heq3);
    [by rewrite Heq1|by apply ok_first|].
  assert (view s1 (in_first d) = view s (in_first d)) as -> by by rewrite Heq1.
  assert (s3 ≡ s) as Heq by by rewrite Heq3. unfold lookup.
  destruct (crfs_lookup_dirent _ leaf) as [de|]; simpl; [|by exists s3].
  destruct (lookup_inode_spec s3 (de_inode de)) as (s4 & -> & Heq4); [by rewrite Heq|].
  assert (inode_at s3 (de_inode de) = inode_at s (de_inode de)) as -> by by rewrite Heq.
  exists s4. split; [by rewrite Heq4|done].
Qed.

(** The handle [crfs_open] makes for inode [i]. *)
Definition opened s (i : crfs_inode) : CO_FILE :=
  CoFile CO_FILE_MAGIC (in_inode i) (in_first i) 0 0
    (if in_first i =? 0 then zeros BLOCK else view s (in_first i)).

Lemma open_checks s p r :
  fs_ok s -> resolves s (start_dir s p) p r ->
  exists s1, s1 ≡ s /\
    crfs_open s p =
      match r with
      | inl e => fail_ptr (- e) s1
      | inr (d, leaf) =>
        match open_refusal s d leaf, lookup s d leaf with
        | None, Some n => (Some (opened s (inode_at s n)), s1)
        | Some e, _ => fail_ptr e s1
        | None, None => (None, s1)
        end
      end.
Proof.
  intros Hs Hr. destruct (namei_resolves s p r Hs Hr) as (s1 & E & Heq1 & Hdok).
  unfold crfs_open. rewrite E. destruct r as [e|[d leaf]]; [by exists s1|].
  specialize (Hdok d leaf eq_refl). unfold open_refusal, too_long.
  destruct (CRFS_FILENAME_MAX <? _); [by exists s1|].
  destruct (is_dir_spec s1 d leaf) as (s2 & -> & Heq2); [by rewrite Heq1|done|].
  assert (leaf_inode s1 d leaf = leaf_inode s d leaf) as -> by by rewrite Heq1.
  assert (s2 ≡ s) as Heq by by rewrite Heq2.
  destruct (is_dir_mask _); [by exists s2|].
  destruct (fs_read_spec s2 (in_first d)) as (s3 & -> & Heq3);
    [by rewrite Heq|by apply ok_first|].
  assert (view s2 (in_first d) = view s (in_first d)) as -> by by rewrite Heq.
  assert (s3 ≡ s) as Heq' by by rewrite Heq3. unfold lookup.
  destruct (crfs_lookup_dirent _ leaf) as [de|]; cbn [fmap option_fmap option_map]; [|by exists s3].
  destruct (lookup_inode_spec s3 (de_inode de)) as (s4 & -> & Heq4); [by rewrite Heq'|].
  assert (inode_at s3 (de_inode de) = inode_at s (de_inode de)) as -> by by rewrite Heq'.
  assert (s4 ≡ s) as Heq5 by by rewrite Heq4. unfold opened.
  assert (fs_ok s4) as Hs4 by by rewrite Heq5.
  rewrite !(alloc_ok s4 Hs4). cbn [negb].
  destruct (in_first _ =? 0); [by exists s4|].
  destruct (fs_read_spec s4 (in_first (inode_at s (de_inode de)))) as (s5 & -> & Heq6);
    [by rewrite Heq5|by apply ok_first, inode_at_ok|].
  assert (view s4 (in_first (inode_at s (de_inode de))) =
          view s (in_first (inode_at s (de_inode de)))) as -> by by rewrite Heq5.
  exists s5. split; [by rewrite Heq6|done].
Qed.

Lemma opendir_checks s p r :
  fs_ok s -> resolves s (start_dir s p) p r ->
  exists s1, s1 ≡ s /\
    crfs_opendir s p =
      match r with
      | inl e => fail_ptr (- e) s1
      | inr (d, leaf) =>
        match opendir_refusal s d leaf with
        | None => (Some (CoDir CO_DIR_MAGIC (in_inode (leaf_inode s d leaf)) 0 (Dirent 0 [])), s1)
        | Some e => fail_ptr e s1
        end
      end.
Proof.
  intros Hs Hr. destruct (namei_resolves s p r Hs Hr) as (s1 & E & Heq1 & Hdok).
  unfold crfs_opendir. rewrite E. destruct r as [e|[d leaf]]; [by exists s1|].
  specialize (Hdok d leaf eq_refl). unfold opendir_refusal, too_long.
  destruct (CRFS_FILENAME_MAX <? _); [by exists s1|].
  destruct (leaf_inode_spec s1 d leaf) as (s2 & -> & Heq2); [by rewrite Heq1|done|].
  assert (leaf_inode s1 d leaf = leaf_inode s d leaf) as -> by by rewrite Heq1.
  assert (s2 ≡ s) as Heq by by rewrite Heq2.
  exists s2. split; [done|]. destruct (is_dir_mask _); [|done].
  by rewrite alloc_ok by by rewrite Heq.
Qed.

(** ** Opening without memory *)

(** The two calls of [malloc] in [crfs_open] are the last thing that can fail:
    when one does, the call gives NULL with ENOMEM. *)
Theorem open_memory s p d leaf n a :
  fs_ok s -> resolves s (start_dir s p) p (inr (d, leaf)) ->
  open_refusal s d leaf = None -> lookup s d leaf = Some n ->
  exists s1, s1 ≡ s /\
    crfs_open (set_allocs a s) p =
      if hd true a
      then if hd true (tl a) then (Some (opened s (inode_at s n)), set_allocs (tl (tl a)) s1)
           else fail_ptr ENOMEM (set_allocs (tl (tl a)) s1)
      else fail_ptr ENOMEM (set_allocs (tl a) s1).
Proof.
  intros Hs Hr Href Hl. destruct (namei_resolves s p _ Hs Hr) as (s1 & E & Heq1 & Hdok).
  specialize (Hdok d leaf eq_refl). unfold crfs_open. rewrite namei_allocs, E. cbn [fst snd].
  revert Href. unfold open_refusal, too_long. rewrite Hl.
  destruct (CRFS_FILENAME_MAX <? _); [done|]. destruct (is_dir_mask _) eqn:Hmask; [done|]. intros _.
  unfold is_dir. rewrite inode_lookup_allocs.
  destruct (leaf_inode_spec s1 d leaf) as (s2 & -> & Heq2); [by rewrite Heq1|done|]. cbn [fst snd].
  assert (leaf_inode s1 d leaf = leaf_inode s d leaf) as -> by by rewrite Heq1.
  assert (s2 ≡ s) as Heq by by rewrite Heq2. rewrite Hmask, fs_read_allocs.
  destruct (fs_read_spec s2 (in_first d)) as (s3 & -> & Heq3);
    [by rewrite Heq|by apply ok_first|]. cbn [fst snd].
  assert (view s2 (in_first d) = view s (in_first d)) as -> by by rewrite Heq.
  assert (s3 ≡ s) as Heq' by by rewrite Heq3. unfold lookup in Hl.
  destruct (crfs_lookup_dirent _ leaf) as [de|]; [|done]. injection Hl as <-.
  rewrite lookup_inode_allocs.
  destruct (lookup_inode_spec s3 (de_inode de)) as (s4 & -> & Heq4); [by rewrite Heq'|]. cbn [fst snd].
  assert (inode_at s3 (de_inode de) = inode_at s (de_inode de)) as -> by by rewrite Heq'.
  assert (s4 ≡ s) as Heq5 by by rewrite Heq4.
  unfold fs_alloc, next_alloc. cbn [allocs set_allocs].
  destruct (hd true a) eqn:E1; cbn [negb]; [|by exists s4].
  destruct (hd true (tl a)) eqn:E2; cbn [negb]; [|by exists s4].
  unfold opened. destruct (in_first _ =? 0); [by exists s4|].
  change (set_allocs (tl (tl a)) (set_allocs (tl a) (set_allocs a s4)))
    with (set_allocs (tl (tl a)) s4). rewrite fs_read_allocs.
  destruct (fs_read_spec s4 (in_first (inode_at s (de_inode de)))) as (s5 & -> & Heq6);
    [by rewrite Heq5|by apply ok_first, inode_at_ok|]. cbn [fst snd].
  assert (view s4 (in_first (inode_at s (de_inode de))) =
          view s (in_first (inode_at s (de_inode de)))) as -> by by rewrite Heq5.
  exists s5. split; [by rewrite Heq6|done].
Qed.

Theorem opendir_memory s p d leaf a :
  fs_ok s -> resolves s (start_dir s p) p (inr (d, leaf)) -> opendir_refusal s d leaf = None ->
  exists s1, s1 ≡ s /\
    crfs_opendir (set_allocs a s) p =
      if hd true a
      then (Some (CoDir CO_DIR_MAGIC (in_inode (leaf_inode s d leaf)) 0 (Dirent 0 [])),
            set_allocs (tl a) s1)
      else fail_ptr ENOMEM (set_allocs (tl a) s1).
Proof.
  intros Hs Hr Href. destruct (namei_resolves s p _ Hs Hr) as (s1 & E & Heq1 & Hdok).
  specialize (Hdok d leaf eq_refl). unfold crfs_opendir. rewrite namei_allocs, E. cbn [fst snd].
  revert Href. unfold opendir_refusal, too_long. destruct (CRFS_FILENAME_MAX <? _); [done|].
  destruct (is_dir_mask _) eqn:Hmask; [|done]. intros _. rewrite inode_lookup_allocs.
  destruct (leaf_inode_spec s1 d leaf) as (s2 & -> & Heq2); [by rewrite Heq1|done|]. cbn [fst snd].
  assert (leaf_inode s1 d leaf = leaf_inode s d leaf) as -> by by rewrite Heq1.
  rewrite Hmask. cbn [negb]. unfold fs_alloc, next_alloc. cbn [allocs set_allocs].
  exists s2. split; [by rewrite Heq2|]. by destruct (hd true a).
Qed.

(** ** Creation from a resolved path *)

#[export] Instance free_blocks_proper : Proper ((≡) ==> (=) ==> iff) free_blocks.
Proof.
  assert (forall s t n, s ≡ t -> free_blocks s n -> free_blocks t n) as Himp.
  { intros s t n Heq (l & Hnd & Hlen & Hl). exists l. split_and!; [done..|].
    intros i Hi. rewrite <- Heq. by apply Hl. }
  intros s t Heq n ? <-. split; by apply Himp.
Qed.

#[export] Instance inodes_ok_proper : Proper ((≡) ==> iff) inodes_ok.
Proof.
  assert (forall s t, s ≡ t -> inodes_ok s -> inodes_ok t) as Himp.
  { intros s t Heq []. split; by rewrite <- Heq. }
  intros s t Heq. split; by apply Himp.
Qed.

#[export] Instance free_inode_proper : Proper ((≡) ==> iff) free_inode.
Proof.
  assert (forall s t, s ≡ t -> free_inode s -> free_inode t) as Himp.
  { intros s t Heq (n & Hn & Hf). exists n. by rewrite <- Heq. }
  intros s t Heq. split; by apply Himp.
Qed.

#[export] Instance tree_ok_proper : Proper ((≡) ==> iff) tree_ok.
Proof.
  assert (forall s t, s ≡ t -> tree_ok s -> tree_ok t) as Himp.
  { intros s t Heq [H1 H2 H3 H4 H5 H6 H7 H8 H9].
    split; [by rewrite <- Heq|by rewrite <- Heq|by rewrite <- Heq|by rewrite <- Heq
           |by rewrite <- Heq|..].
    - intros n. rewrite <- Heq. apply H6.
    - intros n. rewrite <- Heq. apply H7.
    - intros n i. rewrite <- Heq. apply H8.
    - intros n m. rewrite <- Heq. apply H9. }
  intros s t Heq. split; by apply Himp.
Qed.

Lemma entry_created_equiv s s0 d name inum ino s' :
  s0 ≡ s -> entry_created s0 d name inum ino s' -> entry_created s d name inum ino s'.
Proof.
  intros Heq [H1 H2 H3 H4 H5 H6 H7 H8 H9 H10 H11 H12 H13 H14 H15 H16 H17 H18 H19].
  split; [exact H1|exact H2|by rewrite <- Heq|exact H4|exact H5|exact H6|exact H7|..|exact H19].
  - destruct H8 as (i & Hi & Hz & Hsl). exists i. split_and!; [lia|lia|by rewrite <- Heq|].
    intros j Hj. rewrite (Hsl j Hj).
    assert (view s (in_first d) = view s0 (in_first d)) as -> by by rewrite Heq. done.
  - by rewrite <- Heq.
  - intros nm Hnm. rewrite H10 by done.
    assert (lookup s d nm = lookup s0 d nm) as -> by by rewrite Heq. done.
  - intros j. rewrite <- Heq. apply H11.
  - intros i. rewrite <- Heq. apply H12.
  - intros j. rewrite <- Heq. apply H13.
  - exact H14.
  - intros j. rewrite <- Heq. apply H15.
  - apply (phased_step_trans s s0); [by apply phased_step_equiv|done].
  - by rewrite <- Heq.
  - by rewrite <- Heq.
Qed.

(** A leaf is made of characters of the path. *)
Lemma resolves_Forall (P : Z -> Prop) s dir p d leaf :
  resolves s dir p (inr (d, leaf)) -> Forall P p -> Forall P leaf.
Proof.
  intros Hr. remember (inr (d, leaf)) as r eqn:E.
  induction Hr; intros HP; try discriminate E.
  - by injection E as -> ->.
  - inversion HP; auto.
  - injection E as -> ->. by apply Forall_app in HP as [? _].
  - apply Forall_app in HP as [_ HP]. inversion HP; auto.
Qed.

(** What creation needs of the file system. *)
Record can_create s (p : list Z) (blocks : nat) : Prop := {
  cc_tree : tree_ok s;
  cc_inode : free_inode s;
  cc_blocks : free_blocks s blocks;
  cc_nonzero : nonzero p;
  cc_bytes : bytes_ok p;
}.

Lemma can_create_add s p n d leaf i :
  can_create s p n -> resolves s (start_dir s p) p (inr (d, leaf)) ->
  too_long leaf = false -> lookup s d leaf = None ->
  free_dirent (view s (in_first d)) = Some i ->
  can_add s d i leaf /\ exists m, live_dir s m /\ d = inode_at s m.
Proof.
  intros [Ht Hfi Hfb Hnz Hb] Hr Hlen Hl Hi.
  destruct (start_dir_live s p Ht) as (n0 & Hn0 & E0). rewrite E0 in Hr.
  destruct (resolves_live s n0 p d leaf) as (m & Hm & ->); [done..|].
  split; [|by exists m]. destruct (tr_dir s Ht m Hm) as [Hda Hwf].
  split; try done; try apply Ht.
  - destruct (tr_live s Ht m) as [_ ->]; [apply Hm..|]. apply Hm.
  - split; [by eapply resolves_Forall|by eapply resolves_Forall|].
    unfold too_long, CRFS_FILENAME_MAX in Hlen. lia.
  - apply find_seqZ_Some in Hi as (Hi & Hz & _). unfold CRFS_DIR_NENTS in Hi. lia.
  - unfold lookup in Hl. by destruct (crfs_lookup_dirent _ leaf).
Qed.

Lemma can_add_equiv s t d i name : s ≡ t -> can_add s d i name -> can_add t d i name.
Proof.
  intros Heq [H1 H2 H3 H4 H5 H6 H7 H8 H9 H10].
  split; [by rewrite <- Heq..|done|by rewrite <- Heq|by rewrite <- Heq].
Qed.

(** The body of [crfs_create] keeps the tree. *)
Lemma create_in_tree s s1 m d i leaf :
  tree_ok s -> s1 ≡ s -> live_dir s m -> d = inode_at s m -> can_add s d i leaf ->
  free_blocks s 3 ->
  exists inum s', create_in s1 d (view s (in_first d)) i leaf = Some (0, s') /\
    entry_created s d leaf inum (Inode inum 0 0 0 CRFS_FMASK_FILE) s' /\ tree_ok s'.
Proof.
  intros Ht Heq Hm -> Hadd Hfb.
  assert (can_add s1 (inode_at s m) i leaf) as Hadd1 by by apply (can_add_equiv s).
  assert (free_blocks s1 3) as Hfb1 by by rewrite Heq.
  destruct (create_in_spec s1 _ i leaf Hadd1 Hfb1) as (inum & s' & E & Hec).
  assert (view s1 (in_first (inode_at s m)) = view s (in_first (inode_at s m))) as Hv
    by by rewrite Heq.
  rewrite Hv in E. apply (entry_created_equiv s) in Hec; [|done].
  exists inum, s'. split_and!; [done..|].
  by apply (created_tree s s' m leaf inum (Inode inum 0 0 0 CRFS_FMASK_FILE)).
Qed.

(** The body of [crfs_mkdir] keeps the tree. *)
Lemma mkdir_in_tree s s1 m d i leaf :
  tree_ok s -> s1 ≡ s -> live_dir s m -> d = inode_at s m -> can_add s d i leaf ->
  free_blocks s 4 ->
  exists inum b s', mkdir_in s1 d (view s (in_first d)) i leaf = Some (0, s') /\
    directory_created s d leaf inum b s' /\ tree_ok s'.
Proof.
  intros Ht Heq Hm -> Hadd Hfb.
  assert (can_add s1 (inode_at s m) i leaf) as Hadd1 by by apply (can_add_equiv s).
  assert (free_blocks s1 4) as Hfb1 by by rewrite Heq.
  destruct (mkdir_in_spec s1 _ i leaf Hadd1 Hfb1) as (inum & b & s' & E & [Hec Hf Hc Hd Hnew]).
  assert (view s1 (in_first (inode_at s m)) = view s (in_first (inode_at s m))) as Hv
    by by rewrite Heq.
  rewrite Hv in E. apply (entry_created_equiv s) in Hec; [|done]. rewrite Heq in Hf.
  destruct (tr_live s Ht m) as [_ Hin]; [apply Hm..|]. rewrite Hin in *.
  exists inum, b, s'. split_and!; [done|split; rewrite ?Hin; done|].
  apply (created_tree s s' m leaf inum (Inode inum b b 0 CRFS_FMASK_DIR)); try done.
  intros _. destruct (ec_fresh _ _ _ _ _ _ Hec) as [Hir _]. pose proof (ld_range _ _ Hm).
  split; simpl; rewrite ?Hc; try done.
  - apply new_directory_wf.
  - intros k Hk. rewrite new_directory_inode by done. rewrite !u16_small by lia.
    destruct (k =? 1), (k =? 0); auto; done.
Qed.

Lemma start_dir_number s p :
  exists n, start_dir s p = inode_at s n /\ (n = sb_root (super_block s) \/ n = crfs_pwd s) /\
    forall s', crfs_pwd s' = crfs_pwd s -> sb_root (super_block s') = sb_root (super_block s) ->
      start_dir s' p = inode_at s' n.
Proof.
  unfold start_dir. destruct p as [|c p]; [|destruct (c =? slash)].
  - exists (crfs_pwd s). split_and!; [done|by right|]. by intros s' -> _.
  - exists (sb_root (super_block s)). split_and!; [done|by left|]. by intros s' _ ->.
  - exists (crfs_pwd s). split_and!; [done|by right|]. by intros s' -> _.
Qed.

(** The path of the new entry in the new state. *)
Lemma created_resolves s s' m leaf inum ino p :
  tree_ok s -> live_dir s m -> nonzero p -> lookup s (inode_at s m) leaf = None ->
  resolves s (start_dir s p) p (inr (inode_at s m, leaf)) ->
  entry_created s (inode_at s m) leaf inum ino s' ->
  resolves s' (start_dir s' p) p (inr (inode_at s' m, leaf)) /\
  lookup s' (inode_at s' m) leaf = Some inum /\ inode_at s' inum = ino.
Proof.
  intros Ht Hm Hnz Hl Hr Hec. destruct (ec_fresh _ _ _ _ _ _ Hec) as [Hi _].
  split_and!.
  - destruct (start_dir_number s p) as (n & E & Hn & Hst).
    rewrite Hst; [|apply (ec_pwd _ _ _ _ _ _ Hec)|apply (ec_root _ _ _ _ _ _ Hec)].
    rewrite E in Hr. apply (resolves_kept s); [exact Ht| | |exact Hm|exact Hnz|exact Hr].
    + apply (created_names s s' m leaf inum ino); [exact Ht|exact Hm|exact Hec| |exact Hl].
      rewrite u16_small; lia.
    + destruct Hn as [-> | ->]; [exact (tr_root s Ht)|exact (tr_pwd s Ht)].
  - pose proof (ec_lookup _ _ _ _ _ _ Hec leaf) as Hlk.
    rewrite (created_dn s m Ht Hm) in Hlk. rewrite Hlk; [by rewrite decide_True|].
    exact (resolves_Forall _ _ _ _ _ _ Hr Hnz).
  - apply (ec_inode _ _ _ _ _ _ Hec).
Qed.

Lemma leaf_inode_found s d leaf n :
  leaf <> [] -> lookup s d leaf = Some n -> leaf_inode s d leaf = inode_at s n.
Proof. intros Hne Hl. unfold leaf_inode. destruct leaf; [done|]. by rewrite Hl. Qed.

Lemma leaf_not_empty s d leaf :
  is_dir_mask d = true -> is_dir_mask (leaf_inode s d leaf) = false -> leaf <> [].
Proof. intros Hd Hl ->. unfold leaf_inode in Hl. congruence. Qed.
End theorems.
