(* ===== verification/Scenario.v ===== *)
(** * Scenario: a concrete file system

    The image that [co_mkfs] makes of an empty file of 1 MB, mounted: the concrete
    state at which the theorems on the file system are instantiated.  [disk1] has a file,
    [disk2] the same file under the names of the monitor and of the kernel as well. *)

From S2P Require Import Prelude Freemap Layout BlockLayer BlockCache StdioDevice Fs Inode.
From S2P Require Import Namei Directory Mount FileIO Remove Tools ReadProofs DirProofs Tree.
From S2P Require Import MountProofs MkfsProofs DirTheorems WriteProofs.

(** The static variables before [crfs_mkfs], with an empty image open. *)
Definition blank : fs (cached stdio) :=
  Fs (Cached (Stdio 3 []) []) (zero_map 0) (zero_map 0) (zeros BLOCK) (-1) 0 0 [].

Definition disk_size : Z := 1048576.

Definition disk : fs (cached stdio) :=
  match crfs_init (snd (crfs_mkfs blank disk_size)) with
  | Some (_, s) => s
  | None => blank
  end.

Lemma blank_ok : fs_ok blank.
Proof.
  split.
  - split; [by split; [|constructor]|constructor|constructor].
  - by apply wf_init.
  - by apply wf_init.
  - done.
  - apply block_ok_zeros.
  - done.
Qed.

Lemma disk_mounted : mounted_empty disk.
Proof.
  destruct (mkfs_init blank disk_size blank_ok) as (s1 & s2 & E & E' & Hm & _); [done|].
  unfold disk. rewrite E. cbn [snd]. by rewrite E'.
Qed.

#[global] Opaque disk.

(** ** Paths in it *)

Definition new_name : list Z := [47; 102].   (* "/f" *)
Definition new_leaf : list Z := [102].

Lemma disk_start p : start_dir disk p = ROOT_INODE.
Proof.
  pose proof disk_mounted as Hm. unfold start_dir. rewrite (me_root _ Hm), (me_pwd _ Hm).
  destruct p as [|c p]; [|destruct (c =? slash)]; exact (me_inode _ Hm).
Qed.

Lemma disk_resolves : resolves disk (start_dir disk new_name) new_name (inr (ROOT_INODE, new_leaf)).
Proof. rewrite disk_start. apply res_slash, res_leaf. by apply (bool_decide_unpack _). Qed.

Lemma disk_lookup nm :
  nonzero nm -> lookup disk ROOT_INODE nm =
    if decide (nm = [46; 46]) then Some 1 else if decide (nm = [46]) then Some 1 else None.
Proof.
  intros Hn. unfold lookup. change (in_first ROOT_INODE) with 3.
  rewrite (me_dir _ disk_mounted). by apply new_directory_lookup.
Qed.

Lemma disk_new : lookup disk ROOT_INODE new_leaf = None.
Proof. apply disk_lookup. by repeat constructor. Qed.

Lemma disk_free : free_dirent (view disk (in_first ROOT_INODE)) = Some 2.
Proof. change (in_first ROOT_INODE) with 3. rewrite (me_dir _ disk_mounted). by vm_compute. Qed.

Lemma disk_can_create n : (n <= 12)%nat -> can_create disk new_name n.
Proof.
  intros Hn. pose proof disk_mounted as Hm.
  split; [apply (me_tree _ Hm)|apply (me_free _ Hm)
    |apply (free_blocks_weaken disk 12); [done|apply (me_blocks _ Hm)]|by repeat constructor|].
  repeat constructor; lia.
Qed.

Lemma disk_ok : fs_ok disk.
Proof. exact (tr_ok _ (me_tree _ disk_mounted)). Qed.

Lemma disk_create_refusal : create_refusal disk ROOT_INODE new_leaf = None.
Proof.
  unfold create_refusal, leaf_inode. change (too_long new_leaf) with false.
  unfold new_leaf. fold new_leaf. rewrite disk_new, disk_free. done.
Qed.

Lemma disk_mkdir_refusal : mkdir_refusal disk ROOT_INODE new_leaf = None.
Proof.
  unfold mkdir_refusal. change (too_long new_leaf) with false. by rewrite disk_new, disk_free.
Qed.

(** A block written since the mount, and nothing else. *)
Lemma mounted_between_commits (s : fs (cached stdio)) (b : block) :
  mounted_empty s -> block_ok b ->
  between_commits (fun i => i = 2 \/ i = 3) 0 (fs_write s 5 b).
Proof.
  intros Hm Hblk. pose proof (tr_ok _ (me_tree _ Hm)) as Hs.
  destruct (me_newest _ Hm) as [Hn Hw].
  assert (forall i, base (fs_write s 5 b) i = base s i) as Hb
    by (intros; by apply write_base).
  split; rewrite ?write_which, ?write_super, ?Hb.
  - apply write_fs_ok; [exact Hs|done|exact Hblk].
  - exact Hw.
  - by apply (newest_base s).
  - rewrite (me_super _ Hm). apply super_valid_magic, (nw_valid _ _ Hn).
  - by rewrite (me_super _ Hm).
  - by rewrite (me_ver _ Hm).
  - split.
    + intros i Hi. rewrite write_taken. apply used_taken.
      apply (me_taken _ _ Hm). destruct Hi as [[-> | ->]|(j & Hj & ->)]; [by left|by right; left|].
      right; right. unfold slot, CRFS_NSBLOCKS, SB_BLOCKNUM in *. lia.
    + intros i Hi. rewrite write_dirty by exact Hs. rewrite (me_clean _ Hm).
      destruct (Z.eqb_spec i 5) as [->|]; [|done].
      destruct Hi as [[?|?]|(j & Hj & Heq)]; [lia..|]. unfold SB_BLOCKNUM in Heq. lia.
  - intros i [-> | ->]; done.
Qed.

Lemma disk_between_commits :
  between_commits (fun i => i = 2 \/ i = 3) 0 (fs_write disk 5 (zeros BLOCK)).
Proof. exact (mounted_between_commits disk _ disk_mounted block_ok_zeros). Qed.

(** ** An image with a file

    [co_mkfs] and then [co_cpto] of a file with one message. *)

Definition file_name : list Z := [47; 115; 116; 114; 105; 110; 103; 115; 46; 101; 110].   (* "/strings.en" *)
Definition file_leaf : list Z := [115; 116; 114; 105; 110; 103; 115; 46; 101; 110].
(** 0x0000001a="Hi" *)
Definition file_bytes : list Z := [48; 120; 48; 48; 48; 48; 48; 48; 49; 97; 61; 34; 72; 105; 34; 10].

Definition image_or (r : option (Z * list Z)) : list Z :=
  match r with Some (_, i) => i | None => [] end.
Definition image0 : list Z := image_or (co_mkfs [] [[]; []; [49; 77]] []).
Definition image1 : list Z :=
  image_or (co_cpto [] [[]; []; []; file_name] file_bytes image0).
Definition disk1 : fs (cached stdio) := default blank (tool_mount [] image1).
Definition disk1_block : Z := in_first (inode_at disk1 2).

(** The same image, with the file under two more names. *)
Definition monitor_leaf : list Z := [109; 111; 110; 105; 116; 111; 114; 46; 98; 122; 50].
Definition kernel_leaf : list Z := [118; 109; 108; 105; 110; 117; 120; 46; 98; 122; 50].
Definition disk2 : fs (cached stdio) :=
  let d := view disk1 (in_first (start_dir disk1 file_name)) in
  fs_write disk1 (in_first (start_dir disk1 file_name)) (populate_dirent 4 2 kernel_leaf (populate_dirent 3 2 monitor_leaf d)).

(** A decision procedure for [fs_ok] at this level. *)
Definition byte_list (l : list Z) : bool := forallb (fun x => (0 <=? x) && (x <? 256)) l.
Definition block_okb (b : block) : bool := (length b =? BLOCK)%nat && byte_list b.
Definition datum_okb (d : stdio) (e : crfs_datum) : bool :=
  (0 <=? dt_blockaddr e) && (dt_blockaddr e <? 65536) && block_okb (dt_data e) &&
  (dt_dirty e || bool_decide (dt_data e = read_block d (dt_blockaddr e))).
Definition freemap_okb (m : freemap) : bool :=
  (Z.of_nat (length (fm_map m)) =? fm_mapsize m) &&
  (Z.of_nat (length (fm_freed m)) =? fm_mapsize m) &&
  byte_list (fm_map m) && byte_list (fm_freed m) && (fm_cur m =? 0).
Definition fs_okb (s : fs (cached stdio)) : bool :=
  negb (co_romfs_fd (backing (store s)) =? 0) && byte_list (co_file (backing (store s))) &&
  bool_decide (NoDup (map dt_blockaddr (crfs_block_cache (store s)))) &&
  forallb (datum_okb (backing (store s))) (crfs_block_cache (store s)) &&
  freemap_okb (block_freemap s) && freemap_okb (inode_freemap s) &&
  (fm_mapsize (block_freemap s) <=? 8192) && block_okb (super_block s) && match allocs s with [] => true | _ => false end.

Lemma byte_list_spec l : byte_list l = true -> bytes_ok l.
Proof.
  unfold byte_list. rewrite forallb_forall. intros Hl. apply Forall_forall. intros x Hx.
  apply list_elem_of_In, Hl in Hx. lia.
Qed.

Lemma block_okb_spec b : block_okb b = true -> block_ok b.
Proof.
  intros [Hl Hb]%andb_true_iff. split; [by apply Nat.eqb_eq|by apply byte_list_spec].
Qed.

Lemma freemap_okb_spec m : freemap_okb m = true -> fm_wf m.
Proof.
  unfold freemap_okb. rewrite !andb_true_iff. intros ((((Hl & Hf) & Hm) & Hb) & Hc).
  apply Z.eqb_eq in Hl, Hf, Hc. pose proof (Nat2Z.is_nonneg (length (fm_map m))).
  split; [lia|lia|lia|by apply byte_list_spec|by apply byte_list_spec|lia|].
  intros n Hn. lia.
Qed.

Lemma fs_okb_spec s : fs_okb s = true -> fs_ok s.
Proof.
  unfold fs_okb. rewrite !andb_true_iff.
  intros ((((((((Hfd & Hf) & Hnd) & Hc) & Hbm) & Him) & Hsz) & Hsb) & Ha).
  split; [|by apply freemap_okb_spec|by apply freemap_okb_spec|lia|by apply block_okb_spec|by destruct (allocs s)].
  split; [split; [lia|by apply byte_list_spec]|by apply bool_decide_eq_true in Hnd|].
  apply Forall_forall. intros e He. rewrite forallb_forall in Hc.
  apply list_elem_of_In, Hc in He. unfold datum_okb in He. rewrite !andb_true_iff in He.
  destruct He as [[[? ?] Hd] Hr].
  split; [unfold block_id; lia|]. split; [by apply block_okb_spec|].
  intros Hcl. rewrite Hcl in Hr. by apply bool_decide_eq_true in Hr.
Qed.

(** ** Facts on them, by one evaluation *)

(** Inode 2 is the file. *)
Definition content_check (s : fs (cached stdio)) (blk : Z) : bool :=
  let n := inode_at s 2 in
  let b := view s blk in
  fs_okb s &&
  ((in_inode n =? 2) && (in_first n =? blk) && (in_last n =? blk) &&
   (in_fsize n =? 16) && (in_fmask n =? CRFS_FMASK_FILE)) &&
  ((0 <? blk) && (blk <? 65536)) &&
  (fb_next b =? 0) && bool_decide (take 16 (fb_data b) = file_bytes).

Record content_facts (s : fs (cached stdio)) (blk : Z) : Prop := {
  ff_ok : fs_ok s;
  ff_inode_at : inode_at s 2 = Inode 2 blk blk 16 CRFS_FMASK_FILE;
  ff_block : 0 < blk < 65536;
  ff_next : fb_next (view s blk) = 0;
  ff_bytes : take 16 (fb_data (view s blk)) = file_bytes;
}.

Lemma content_check_facts s blk : content_check s blk = true -> content_facts s blk.
Proof.
  unfold content_check. cbv zeta. rewrite !andb_true_iff, !Z.eqb_eq, !bool_decide_eq_true.
  intros ((((Hok & Hi) & Hb) & Hn) & Hd).
  split; [by apply fs_okb_spec| |lia|exact Hn|exact Hd].
  destruct (inode_at s 2) as [a b c d e]. cbn [in_inode in_first in_last in_fsize in_fmask] in Hi.
  destruct Hi as ((((-> & ->) & ->) & ->) & ->). reflexivity.
Qed.

(** What writing to the file needs: its inode table is the only one, and a block is
    available. *)
Definition write_check (s : fs (cached stdio)) (blk : Z) : bool :=
  let sb := super_block s in
  (negb (sb_vtable sb 0 =? 0) && used s (sb_vtable sb 0)) &&
  (used s 0 && forallb (fun k => sb_vtable sb k =? 0) (seqZ 1 255)) &&
  (used s blk && negb (blk =? sb_vtable sb 0)) && negb (blk =? 0) &&
  ((24 <=? fm_items (block_freemap s)) && existsb (fun i => negb (taken s i)) (seqZ 4 20)).

Record write_facts (s : fs (cached stdio)) (blk : Z) : Prop := {
  wf_vtable : vtable_inv s;
  wf_table : ITABLE_BLOCKNUM s 2 <> 0;
  wf_block : used s blk = true /\ ~ itable_block s blk;
  wf_free : free_blocks s 1;
}.

Lemma one_table (s : fs (cached stdio)) j :
  (forall k, k ∈ seqZ 1 255 -> sb_vtable (super_block s) k = 0) -> 0 <= j < 65536 ->
  ITABLE_BLOCKNUM s j = if Z.shiftr j 8 =? 0 then sb_vtable (super_block s) 0 else 0.
Proof.
  intros Hk Hj. unfold ITABLE_BLOCKNUM. pose proof (shiftr8_range j Hj) as Hr.
  destruct (Z.eqb_spec (Z.shiftr j 8) 0) as [->|Hne]; [done|].
  apply Hk, elem_of_seqZ. lia.
Qed.

Lemma write_check_facts s blk : write_check s blk = true -> write_facts s blk.
Proof.
  unfold write_check. cbv zeta. rewrite !andb_true_iff, !negb_true_iff, !Z.eqb_neq, forallb_forall, Z.leb_le.
  intros (((((Ht & Hut) & (Hu0 & Hk)) & (Hub & Hbt)) & Hb0) & (Hi & Hx)).
  assert (Hk' : forall k, k ∈ seqZ 1 255 -> sb_vtable (super_block s) k = 0)
    by (intros k Hin; apply Z.eqb_eq, Hk, list_elem_of_In, Hin).
  split.
  - split.
    + intros i (j & Hj & <-). rewrite (one_table s j Hk' Hj). by destruct (_ =? 0).
    + intros a b Ha Hb. rewrite (one_table s a Hk' Ha), (one_table s b Hk' Hb).
      destruct (Z.eqb_spec (Z.shiftr a 8) 0) as [->|], (Z.eqb_spec (Z.shiftr b 8) 0) as [->|]; intros; congruence.
    + exact Hu0.
  - rewrite (one_table s 2 Hk') by lia. exact Ht.
  - split; [exact Hub|]. intros (j & Hj & Hjb). rewrite (one_table s j Hk' Hj) in Hjb.
    destruct (_ =? 0); congruence.
  - apply existsb_exists in Hx as (i & Hin & Hf). apply list_elem_of_In, elem_of_seqZ in Hin.
    apply negb_true_iff in Hf. exists [i]. split; [apply NoDup_singleton|]. split; [done|].
    intros i' ->%list_elem_of_singleton. split; [lia|exact Hf].
Qed.

Definition finds (s : fs (cached stdio)) (leaf : list Z) (n : option Z) : bool :=
  bool_decide (lookup s (start_dir s (slash :: leaf)) leaf = n).
Definition mounts (image : list Z) : bool := match tool_mount [] image with Some _ => true | None => false end.
Lemma mounts_spec image : mounts image = true -> is_Some (tool_mount [] image).
Proof. unfold mounts. by destruct (tool_mount [] image). Qed.
Lemma finds_spec s leaf n : finds s leaf n = true -> lookup s (start_dir s (slash :: leaf)) leaf = n.
Proof. apply bool_decide_eq_true. Qed.
Lemma scenario_checks :
  (write_check disk1 disk1_block && content_check disk1 disk1_block && content_check disk2 disk1_block && mounts image1 &&
   finds disk1 file_leaf (Some 2) && finds disk2 monitor_leaf (Some 2) && finds disk2 kernel_leaf (Some 2) &&
   finds disk2 (kernel_leaf ++ [46; 98; 122; 50]) None) = true.
Proof. vm_cast_no_check (eq_refl true). Qed.

Lemma scenario_facts : write_facts disk1 disk1_block /\ content_facts disk1 disk1_block /\ content_facts disk2 disk1_block /\ is_Some (tool_mount [] image1) /\
  lookup disk1 (start_dir disk1 (slash :: file_leaf)) file_leaf = Some 2 /\ lookup disk2 (start_dir disk2 (slash :: monitor_leaf)) monitor_leaf = Some 2 /\
  lookup disk2 (start_dir disk2 (slash :: kernel_leaf)) kernel_leaf = Some 2 /\
  lookup disk2 (start_dir disk2 (slash :: kernel_leaf ++ [46; 98; 122; 50])) (kernel_leaf ++ [46; 98; 122; 50]) = None.
Proof.
  destruct (andb_prop _ _ scenario_checks) as [Ha H7]. destruct (andb_prop _ _ Ha) as [Hb H6]. destruct (andb_prop _ _ Hb) as [Hc H5].
  destruct (andb_prop _ _ Hc) as [Hd H4]. destruct (andb_prop _ _ Hd) as [He H3]. destruct (andb_prop _ _ He) as [Hf H2]. destruct (andb_prop _ _ Hf) as [H0 H1].
  exact (conj (write_check_facts _ _ H0) (conj (content_check_facts _ _ H1) (conj (content_check_facts _ _ H2) (conj (mounts_spec _ H3)
    (conj (finds_spec _ _ _ H4) (conj (finds_spec _ _ _ H5) (conj (finds_spec _ _ _ H6) (finds_spec _ _ _ H7)))))))).
Qed.
Lemma disk1_write_facts : write_facts disk1 disk1_block.
Proof. exact (proj1 scenario_facts). Qed.
Lemma disk1_facts : content_facts disk1 disk1_block.
Proof. exact (proj1 (proj2 scenario_facts)). Qed.
Lemma disk2_facts : content_facts disk2 disk1_block.
Proof. exact (proj1 (proj2 (proj2 scenario_facts))). Qed.

Lemma mounted_default (o : option (fs (cached stdio))) d : is_Some o -> o = Some (default d o).
Proof. by intros [s ->]. Qed.
Lemma disk1_image : tool_mount [] image1 = Some disk1.
Proof. exact (mounted_default _ blank (proj1 (proj2 (proj2 (proj2 scenario_facts))))). Qed.

#[global] Opaque disk1 disk2 image1 disk1_block.

(** ** The file, under its names *)

Section File.
Context (s : fs (cached stdio)) (blk : Z) (Hs : content_facts s blk).

Lemma scenario_inode : in_inode (inode_at s 2) = 2.
Proof. by rewrite (ff_inode_at _ _ Hs). Qed.
Lemma scenario_size : in_fsize (inode_at s 2) + CRFS_BLOCK_SIZE < 4294967296.
Proof. by rewrite (ff_inode_at _ _ Hs). Qed.
Lemma scenario_file : file_at s (inode_at s 2) [blk].
Proof.
  pose proof (ff_block _ _ Hs) as Hr. rewrite (ff_inode_at _ _ Hs). split.
  - cbn [chain in_first]. split; [reflexivity|]. split; [lia|].
    split; [unfold block_id; lia|exact (ff_next _ _ Hs)].
  - cbn [in_fsize length]. unfold CRFS_FBLOCK_DATA. lia.
Qed.
Lemma scenario_data : file_data s (inode_at s 2) [blk] = file_bytes.
Proof.
  rewrite (ff_inode_at _ _ Hs). unfold file_data, content.
  cbn [map concat in_fsize]. rewrite app_nil_r. exact (ff_bytes _ _ Hs).
Qed.
Lemma scenario_refusal d leaf : leaf <> [] -> too_long leaf = false -> lookup s d leaf = Some 2 ->
  open_refusal s d leaf = None.
Proof.
  intros Hn Hl E. unfold open_refusal. rewrite Hl.
  by rewrite (leaf_inode_found s d leaf 2 Hn E), E, (ff_inode_at _ _ Hs).
Qed.
End File.

Lemma leaf_resolves (s : fs (cached stdio)) dir leaf : slash ∉ leaf -> resolves s dir (slash :: leaf) (inr (dir, leaf)).
Proof. intros Hl. by apply res_slash, res_leaf. Qed.

Lemma disk1_ok : fs_ok disk1.
Proof. exact (ff_ok _ _ disk1_facts). Qed.
Lemma disk1_lookup : lookup disk1 (start_dir disk1 file_name) file_leaf = Some 2.
Proof. exact (proj1 (proj2 (proj2 (proj2 (proj2 scenario_facts))))). Qed.
Lemma disk1_resolves :
  resolves disk1 (start_dir disk1 file_name) file_name (inr (start_dir disk1 file_name, file_leaf)).
Proof. apply leaf_resolves. by apply (bool_decide_unpack _). Qed.
Lemma disk1_inode : in_inode (inode_at disk1 2) = 2.
Proof. exact (scenario_inode _ _ disk1_facts). Qed.
Lemma disk1_size : in_fsize (inode_at disk1 2) + CRFS_BLOCK_SIZE < 4294967296.
Proof. exact (scenario_size _ _ disk1_facts). Qed.
Lemma disk1_refusal : open_refusal disk1 (start_dir disk1 file_name) file_leaf = None.
Proof. exact (scenario_refusal _ _ disk1_facts _ file_leaf ltac:(discriminate) eq_refl disk1_lookup). Qed.
Lemma disk1_file : file_at disk1 (inode_at disk1 2) [disk1_block].
Proof. exact (scenario_file _ _ disk1_facts). Qed.
Lemma disk1_data : file_data disk1 (inode_at disk1 2) [disk1_block] = file_bytes.
Proof. exact (scenario_data _ _ disk1_facts). Qed.

(** A handle at the start of the file, from which it can be written. *)
Lemma disk1_file_blocks : file_blocks disk1 2 [disk1_block].
Proof.
  destruct disk1_write_facts as [Hv Ht Hb _].
  split; [exact disk1_ok|exact Hv|lia|exact disk1_inode|exact Ht|exact (fa_chain _ _ _ disk1_file)
    |apply NoDup_singleton|].
  intros b ->%list_elem_of_singleton. exact Hb.
Qed.
Lemma disk1_write_at : write_at disk1 2 [disk1_block] (opened disk1 (inode_at disk1 2)).
Proof.
  pose proof (ff_block _ _ disk1_facts) as Hr.
  assert (Hfi : in_first (inode_at disk1 2) = disk1_block) by by rewrite (ff_inode_at _ _ disk1_facts).
  assert (Hb : block_ok (view disk1 disk1_block)) by (apply view_ok; [exact disk1_ok|split; lia]).
  assert (Hz : (disk1_block =? 0) = false) by (apply Z.eqb_neq; lia).
  unfold opened. rewrite Hfi, disk1_inode, Hz. split; [reflexivity|reflexivity|reflexivity|exact Hb|].
  rewrite decide_False by discriminate. exists 0%nat. split; [reflexivity|]. split; [reflexivity|].
  cbn [F_fpos]. lia.
Qed.
