(* ===== verification/FsTheorems.v ===== *)
(** * FsTheorems: properties of the directory operations

    Each theorem speaks of one exported operation of [cobalt_romfs/crfs_func.c];
    it is instantiated at the concrete file system of [Scenario.v]. *)

From S2P Require Import Prelude Freemap Layout BlockLayer BlockCache StdioDevice Fs Inode.
From S2P Require Import Namei Directory Mount FileIO Remove Tools ReadProofs.
From S2P Require Import DirProofs Tree MountProofs MkfsProofs DirTheorems.
From S2P Require Import FileIO WriteProofs Scenario.

Section theorems.
Context {St : Type} `{BlockLayer St}.
Implicit Types s : fs St.

(** C1: [crfs_create] creates.  In a well-formed file system with space, for a
    path that resolves to a directory and a leaf that nothing refuses, it
    returns 0; the directory then maps the leaf to a fresh inode, an empty file,
    and every other name as before; other inodes and the blocks in use keep
    their contents; nothing reached the backing store and no committed block
    was overwritten; and the file system is well-formed again. *)
Theorem crfs_create_creates s p d leaf :
  can_create s p 3 ->
  resolves s (start_dir s p) p (inr (d, leaf)) ->
  create_refusal s d leaf = None ->
  exists inum s', crfs_create s p = Some (0, s') /\
    entry_created s d leaf inum (Inode inum 0 0 0 CRFS_FMASK_FILE) s' /\ tree_ok s'.
Proof.
  intros Hc Hr Href. pose proof Hc as [Ht Hfi Hfb _ _].
  destruct (create_checks s p _ (tr_ok _ Ht) Hr) as (s1 & Heq & ->). rewrite Href.
  revert Href. unfold create_refusal. destruct (too_long leaf) eqn:Hlen; [done|].
  destruct (is_dir_mask _); [done|]. destruct (lookup s d leaf) eqn:Hl; [done|].
  destruct (free_dirent _) as [i|] eqn:Hi; [|done]. intros _.
  destruct (can_create_add s p 3 d leaf i) as (Hadd & m & Hm & Hd); [done..|].
  by apply (create_in_tree s s1 m).
Qed.

(** C2: [crfs_create] refuses as documented: the error of path resolution
    (ENOENT, ENOTDIR), ENAMETOOLONG, EISDIR, EEXIST and ENOSPC for a full
    directory, in this order; it returns -1 with [errno] set and changes nothing. *)
Theorem crfs_create_refuses s p r e :
  fs_ok s -> resolves s (start_dir s p) p r ->
  match r with inl e' => e = - e' | inr (d, leaf) => create_refusal s d leaf = Some e end ->
  exists s', crfs_create s p = Some (-1, s') /\ s' ≡ s /\ errno s' = e.
Proof.
  intros Hs Hr He. destruct (create_checks s p r Hs Hr) as (s1 & Heq & ->).
  exists (set_errno e s1). split; [|by split; [rewrite set_errno_equiv|]].
  destruct r as [e'|[d leaf]]; [by subst e|]. by rewrite He.
Qed.


(** C4: a file that was just created is there: [crfs_stat] of the same path, in
    the state [crfs_create] leaves, reports an empty regular file with the new
    inode number, and [crfs_open] gives a handle at position 0. *)
Theorem crfs_create_stat_open s p d leaf :
  can_create s p 3 ->
  resolves s (start_dir s p) p (inr (d, leaf)) ->
  create_refusal s d leaf = None ->
  exists inum s' s2 s3, crfs_create s p = Some (0, s') /\
    crfs_stat s' p = ((0, Some (CrfsStat inum CRFS_FMASK_FILE 0)), s2) /\
    crfs_open s' p = (Some (CoFile CO_FILE_MAGIC inum 0 0 0 (zeros BLOCK)), s3) /\
    s2 ≡ s' /\ s3 ≡ s'.
Proof.
  intros Hc Hr Href. pose proof Hc as [Ht Hfi Hfb Hnz _].
  destruct (create_checks s p _ (tr_ok _ Ht) Hr) as (s1 & Heq & ->). rewrite Href.
  revert Href. unfold create_refusal. destruct (too_long leaf) eqn:Hlen; [done|].
  destruct (is_dir_mask _) eqn:Hmask; [done|]. destruct (lookup s d leaf) eqn:Hl; [done|].
  destruct (free_dirent _) as [i|] eqn:Hi; [|done]. intros _.
  destruct (can_create_add s p 3 d leaf i) as (Hadd & m & Hm & Hd); [done..|].
  apply leaf_not_empty in Hmask; [|by rewrite Hd; apply Hm].
  destruct (create_in_tree s s1 m d i leaf) as (inum & s' & E & Hec & Ht'); [done..|]. subst d.
  destruct (created_resolves s s' m leaf inum (Inode inum 0 0 0 CRFS_FMASK_FILE) p)
    as (Hr' & Hlk' & Hin'); [done..|].
  destruct (stat_checks s' p _ (tr_ok _ Ht') Hr') as (s2 & Heq2 & Es).
  destruct (open_checks s' p _ (tr_ok _ Ht') Hr') as (s3 & Heq3 & Eo).
  exists inum, s', s2, s3. split; [exact E|].
  rewrite Es, Eo. unfold stat_refusal, open_refusal. rewrite Hlen, Hlk'.
  by rewrite (leaf_inode_found s' (inode_at s' m) leaf inum), Hin'.
Qed.

(** C5: path resolution.  [crfs_namei] gives a result exactly when the path
    resolves to it: each element but the last is looked up in the directory
    before it and must be a directory (ENOENT, ENOTDIR otherwise); the last one is
    returned without being looked up, unless a slash follows it: then it must exist
    (ENOENT otherwise), of any type, so that "/x" of a missing x resolves and "/x/" does not;
    more than one slash in a row counts as one, except after the last element,
    which must then be a directory (ENOTDIR otherwise).
    The state is left as it was. *)
Theorem crfs_namei_resolves s p r :
  fs_ok s ->
  (exists s', crfs_namei s p = (r, s') /\ s' ≡ s) <-> resolves s (start_dir s p) p r.
Proof.
  intros Hs. split.
  - intros (s' & E & _). destruct (namei_spec s p Hs) as (r' & s2 & E' & _ & Hr).
    rewrite E in E'. by injection E' as -> _.
  - intros Hr. destruct (namei_resolves s p r Hs Hr) as (s' & E & Heq & _). by exists s'.
Qed.

(** C7: storing an inode, whatever [malloc] gives ([a]: its outcomes).
    [crfs_write_inode] either stores the inode - which is
    then the one read back, with all other inodes of existing tables and all data
    blocks unchanged, the old table untouched on the backing store, and the
    table invariant kept - or reports ENOSPC, only when every block is taken, and
    then no block and no map changed but for the search position; or reports
    ENOMEM, only when the inode has no table and [malloc] failed: then a block
    is taken for the table and named in the vtable, but the table was not written
    there. *)
Theorem crfs_write_inode_stores s ino a :
  fs_ok s -> vtable_inv s -> inode_ok ino ->
  exists r s' a', crfs_write_inode (set_allocs a s) ino = Some (r, set_allocs a' s') /\
    ((r = 0 /\ inode_written s ino s') \/ (r = - ENOSPC /\ out_of_space s s') \/
     (r = - ENOMEM /\ hd true a = false /\ table_unwritten s ino s')).
Proof. apply write_inode_outcomes. Qed.

(** C8: listing a directory.  Calling [crfs_readdir] on a handle of
    [crfs_opendir] until it gives NULL reads each entry in use of the directory's
    block once, in order, and the end is reached. *)
Theorem crfs_readdir_lists s p d leaf :
  fs_ok s -> resolves s (start_dir s p) p (inr (d, leaf)) ->
  opendir_refusal s d leaf = None ->
  inode_at s (in_inode (leaf_inode s d leaf)) = leaf_inode s d leaf ->
  exists dir s', crfs_opendir s p = (Some dir, s') /\ s' ≡ s /\
    let b := view s (in_first (leaf_inode s d leaf)) in
    read_dir_all LS_FUEL s' dir =
      Some (map (d_entry b) (List.filter (fun i => negb (d_inode b i =? 0)) (seqZ 0 64))).
Proof.
  intros Hs Hr Href Hsame. destruct (opendir_checks s p _ Hs Hr) as (s' & Heq & ->).
  rewrite Href. eexists _, s'. split; [done|]. split; [done|].
  assert (fs_ok s') as Hs' by by rewrite Heq.
  rewrite (read_dir_all_spec LS_FUEL s' (in_inode (leaf_inode s d leaf)) 0 (Dirent 0 []) Hs');
    [|done|unfold LS_FUEL, CRFS_DIR_NENTS; lia].
  assert (inode_at s' (in_inode (leaf_inode s d leaf)) = leaf_inode s d leaf) as ->
    by (by rewrite Heq).
  assert (view s' (in_first (leaf_inode s d leaf)) = view s (in_first (leaf_inode s d leaf))) as ->
    by by rewrite Heq. done.
Qed.

(** C9: reading.  On a handle in position, [crfs_read] returns the next [size]
    bytes of the file's contents, fewer at the end of the file, and leaves the
    handle in position after them; the file system is unchanged. *)
Theorem crfs_read_returns_content s inum bs fp size :
  fs_ok s -> file_at s (inode_at s inum) bs -> handle_at s inum bs fp ->
  0 <= size -> F_fpos fp + size < 4294967296 ->
  let out := sub (Z.to_nat (F_fpos fp)) (Z.to_nat size) (file_data s (inode_at s inum) bs) in
  exists fp' s', crfs_read s fp size = ((Z.of_nat (length out), out), fp', s') /\
    s' ≡ s /\ handle_at s inum bs fp' /\ F_fpos fp' = F_fpos fp + Z.of_nat (length out).
Proof. apply read_spec. Qed.

(** C40: writing.  From a handle at a position of the file - just opened, or after a
    write that did not end at the end of a block of 4080 bytes - [crfs_write] of any
    bytes, of any length, takes as many blocks as it needs and gives the length;
    reading then gives the old contents with the bytes put at the position, over what was
    there and beyond the old end, and the size is that of the result; the blocks of the
    file still form a chain that nothing else has, and the other inodes and the
    blocks of the other files are as they were; the handle is after the bytes,
    and ready to write on unless they ended exactly at the end of a block.
    It takes that the position is not beyond the size, that two blocks for each
    new one and one more are available, and that the position stays below 2^32.
    The blocks are written in place: this is no phased commit. *)
Theorem crfs_write_splices s n bs fp d :
  file_blocks s n bs -> write_at s n bs fp -> file_at s (inode_at s n) bs ->
  F_fpos fp <= in_fsize (inode_at s n) -> d <> [] -> bytes_ok d ->
  F_fpos fp + Z.of_nat (length d) < 4294967296 ->
  free_blocks s (2 * (blocks_for (F_fpos fp + Z.of_nat (length d)) - length bs) + 1) ->
  let pos := Z.to_nat (F_fpos fp) in
  let old := file_data s (inode_at s n) bs in
  exists fp' s' bs', crfs_write s fp d = Some (Z.of_nat (length d), fp', s') /\
    file_blocks s' n bs' /\ file_at s' (inode_at s' n) bs' /\
    file_data s' (inode_at s' n) bs' = take pos old ++ d ++ drop (pos + length d) old /\
    in_fsize (inode_at s' n) = Z.max (in_fsize (inode_at s n)) (Z.of_nat (pos + length d)) /\
    file_step s n bs s' bs' /\ F_fpos fp' = Z.of_nat (pos + length d) /\
    (Z.of_nat (pos + length d) mod CRFS_FBLOCK_DATA <> 0 -> write_at s' n bs' fp').
Proof.
  intros Hf Hw Ha Hp Hd Hby Hb Hfree pos old. pose proof (write_at_pos s n bs fp Hw) as H0.
  destruct (write_spec s n bs fp d Hf Hw Hd Hby Hb Hfree) as (fp' & s' & bs' & E & W).
  exists fp', s', bs'. split; [exact E|].
  destruct (write_data_read s n bs pos d s' fp' bs' Hf W (fa_size _ _ _ Ha)) as [Ha' Hr];
    [unfold pos; lia|].
  destruct W as [W1 W2 W3 W4 W5 W6 W7 W8]. by split_and!.
Qed.

(** C10: a new file system can be mounted.  After [crfs_mkfs] on any state, for a
    size (without its bit 12) from 24 blocks to 2^28 bytes, and with memory for its maps,
    [crfs_init] succeeds and gives the well-formed tree that holds only the root
    directory, with its entries "." and ".."; the block map has one bit for each
    block, eight to the byte and any rest left out, and exactly the super blocks 0
    and 16, the inode table 2 and the root directory 3 are in use: every other block is
    available. *)
Theorem crfs_mkfs_init s size :
  fs_ok s -> 24 * CRFS_BLOCK_SIZE <= mkfs_size size <= 268435456 ->
  exists s1 s2, crfs_mkfs s size = (0, s1) /\ crfs_init s1 = Some (0, s2) /\ mounted_empty s2 /\
    sb_fssize (super_block s2) = mkfs_size size.
Proof. apply mkfs_init. Qed.

(** Every [crfs_seek] fails: EBADF for a handle that is not open, EINVAL for
    an unknown origin, ENOSYS otherwise; nothing but [errno] changes. *)
Theorem crfs_seek_fails s fp delta whence :
  exists e, crfs_seek s fp delta whence = (-1, set_errno e s) /\
    (e = EBADF /\ F_magic fp <> CO_FILE_MAGIC \/
     e = EINVAL /\ F_magic fp = CO_FILE_MAGIC /\ ~ (0 <= whence <= 2) \/
     e = ENOSYS /\ F_magic fp = CO_FILE_MAGIC /\ 0 <= whence <= 2).
Proof.
  unfold crfs_seek, CRFS_SEEK_SET, CRFS_SEEK_CUR, CRFS_SEEK_END.
  destruct (Z.eqb_spec (F_magic fp) CO_FILE_MAGIC); simpl; [|exists EBADF; naive_solver].
  destruct (Z.eqb_spec whence 0), (Z.eqb_spec whence 1), (Z.eqb_spec whence 2); simpl;
    try (exists ENOSYS; split; [done|]; right; right; split_and!; (done || lia)).
  exists EINVAL. split; [done|]. right; left. split_and!; [done|done|lia].
Qed.

Lemma opened_pos s i : F_fpos (opened s i) = 0.
Proof. reflexivity. Qed.

(** The handle of [crfs_open] is in position. *)
Lemma opened_handle s n bs :
  in_inode (inode_at s n) = n -> chain s (in_first (inode_at s n)) bs ->
  handle_at s n bs (opened s (inode_at s n)).
Proof.
  intros Hn Hc. unfold opened. split; cbn [F_magic F_inode F_fpos F_curblock F_fblock];
    [done|done|unfold CRFS_FBLOCK_DATA; lia|]. intros Hlt.
  destruct bs as [|x bs]; [cbn [length] in Hlt; lia|]. destruct Hc as (Hfi & Hx & _).
  rewrite Hfi, (proj2 (Z.eqb_neq x 0) Hx). done.
Qed.
End theorems.

Section device.
Context {D : Type} `{BlockDevice D}.
Implicit Types s : fs (cached D).

(** C6: a commit is atomic.  The machine may stop after any number [n] of the
    writes that [cache_flush] makes.  If the last one, the super block, was not
    made, the next [crfs_init] mounts the super block of the last commit and all
    blocks [C] of that file system are as they were; if it was, [crfs_init]
    mounts the new super block, and every block but the one of the old super block
    is as the operations since left it.  The first conjunct says that the writes
    are those of [cache_flush].  It holds in a state between two commits
    ([between_commits]): slot [w] is the current one and holds the newest valid
    super block, of the version in memory, below 2^32 - 1; and no block of [C] and
    no super block is dirty or can be handed out.  [crfs_write] and the removal of a
    file (about line 664) write blocks in place: when they touched a block of [C]
    the commit is not atomic and this theorem does not apply. *)
Theorem cache_flush_atomic C w s n :
  between_commits C w s -> cache_is_empty (store s) = false ->
  (n <= length (flush_log s))%nat ->
  let t := reboot (crash_at n s) s in
  backing (store (cache_flush s)) = write_all (backing (store s)) (flush_log s) /\
  if decide (n < length (flush_log s))%nat then
    (exists k t', t' ≡ dropped t /\
      crfs_init t = init_maps (set_super_block (base s (SB_BLOCKNUM w)) (set_which_super k t'))) /\
    forall i, C i -> base t i = base s i
  else
    (exists t', t' ≡ dropped t /\
      crfs_init t = init_maps (set_super_block (next_super (super_block s))
                                 (set_which_super (other_slot w) t'))) /\
    forall i, block_id i -> i <> SB_BLOCKNUM (other_slot w) -> base t i = view s i.
Proof.
  intros Hb He Hn t. split; [by apply cache_flush_log|]. case_decide as Hlt.
  - destruct (crash_old C w s n Hb) as (Hok & Hnw & Hsb & HC).
    { unfold flush_log in Hlt. rewrite length_app in Hlt. simpl in Hlt. lia. }
    fold t in Hok, Hnw, Hsb, HC. split; [|done].
    destruct (init_chooses t w Hok Hnw) as (k & t' & Heq & _ & _ & E).
    exists k, t'. split; [done|]. rewrite E, (Hsb w (nw_slot _ _ (bc_newest _ _ _ Hb))). reflexivity.
  - assert (n = length (flush_log s)) as -> by lia.
    destruct (crash_new C w s Hb He) as (Hok & Hnw & Hsup & Hval & Hv). fold t in Hok, Hnw, Hsup, Hval, Hv.
    split; [|done]. pose proof (nw_slot _ _ (bc_newest _ _ _ Hb)) as Hsl.
    destruct (init_chooses t (other_slot w) Hok Hnw) as (k & t' & Heq & _ & Hk & E).
    assert (other_slot (other_slot w) = w) as Hww.
    { destruct (slot_cases (other_slot w) w) as [E'|E']; [by apply other_slot_slot|done| |done].
      pose proof (other_slot_ne w Hsl). congruence. }
    rewrite Hww in Hk. specialize (Hk Hval). subst k.
    exists t'. split; [done|]. rewrite E, Hsup. reflexivity.
Qed.
End device.

(** C15: [co_cat] prints the file.  On an image that mounts as a well-formed file
    system, for a path to a regular file whose blocks form a chain, it exits with 0
    after writing exactly the contents of the file, of any length. *)
Theorem co_cat_prints memory prog img p image s d leaf n bs :
  tool_mount memory image = Some s -> fs_ok s ->
  resolves s (start_dir s p) p (inr (d, leaf)) ->
  open_refusal s d leaf = None -> lookup s d leaf = Some n ->
  in_inode (inode_at s n) = n -> file_at s (inode_at s n) bs ->
  in_fsize (inode_at s n) + CRFS_BLOCK_SIZE < 4294967296 ->
  exists image', co_cat memory [prog; img; p] image = Some (0, image', file_data s (inode_at s n) bs).
Proof.
  intros E Hs Hr Href Hl Hn Hf Hsz. unfold co_cat, co_copy. rewrite E. cbn [mbind option_bind].
  destruct (open_checks s p _ Hs Hr) as (s1 & Heq & ->). rewrite Href, Hl.
  pose proof (opened_handle s n bs Hn (fa_chain _ _ _ Hf)) as Ha.
  set (fp := opened s (inode_at s n)) in *.
  assert (length (file_data s (inode_at s n) bs) <= Z.to_nat (in_fsize (inode_at s n)))%nat as Hlen
    by (unfold file_data; rewrite length_take; lia).
  pose proof (ok_fsize _ (inode_at_ok s n Hs)) as Hfs.
  assert (inode_at s1 n = inode_at s n) as Hin by by rewrite Heq.
  assert (file_data s1 (inode_at s n) bs = file_data s (inode_at s n) bs) as Hfd
    by (unfold file_data; by rewrite Heq).
  destruct (copy_out_spec COPY_FUEL s1 n bs fp []) as (fp' & s2 & -> & Heq2 & Ha').
  - by rewrite Heq.
  - rewrite Hin. destruct Hf. split; [by rewrite Heq|done].
  - by rewrite Heq.
  - rewrite Hin, Hfd. cbn [F_fpos fp opened]. rewrite drop_0. lia.
  - rewrite Hin, Hfd. cbn [F_fpos fp opened]. rewrite drop_0.
    unfold COPY_FUEL, BLOCK, CRFS_BLOCK_SIZE in *. lia.
  - cbn [mbind option_bind]. destruct (crfs_close s2 fp') as [[r o] s3].
    rewrite Hin, Hfd. cbn [F_fpos fp opened]. rewrite drop_0, app_nil_l. by exists (image_of s3).
Qed.

(** ** The theorems at concrete states *)

Lemma crfs_create_creates_witness :
  can_create disk new_name 3 /\
  exists inum s', crfs_create disk new_name = Some (0, s') /\
    entry_created disk ROOT_INODE new_leaf inum (Inode inum 0 0 0 CRFS_FMASK_FILE) s' /\ tree_ok s'.
Proof.
  split; [apply disk_can_create; lia|].
  apply (crfs_create_creates disk new_name ROOT_INODE new_leaf).
  - apply disk_can_create. lia.
  - apply disk_resolves.
  - apply disk_create_refusal.
Defined.

Lemma crfs_create_refuses_witness :
  exists s', crfs_create disk [47] = Some (-1, s') /\ s' ≡ disk /\ errno s' = EISDIR.
Proof.
  apply (crfs_create_refuses disk [47] (inr (ROOT_INODE, [])) EISDIR).
  - apply disk_ok.
  - rewrite disk_start. apply res_slash, res_leaf. apply not_elem_of_nil.
  - reflexivity.
Defined.


Lemma crfs_create_stat_open_witness :
  exists inum s' s2 s3, crfs_create disk new_name = Some (0, s') /\
    crfs_stat s' new_name = ((0, Some (CrfsStat inum CRFS_FMASK_FILE 0)), s2) /\
    crfs_open s' new_name = (Some (CoFile CO_FILE_MAGIC inum 0 0 0 (zeros BLOCK)), s3) /\
    s2 ≡ s' /\ s3 ≡ s'.
Proof.
  apply (crfs_create_stat_open disk new_name ROOT_INODE new_leaf).
  - apply disk_can_create. lia.
  - apply disk_resolves.
  - apply disk_create_refusal.
Defined.

Lemma crfs_namei_resolves_witness :
  exists s', crfs_namei disk new_name = (inr (ROOT_INODE, new_leaf), s') /\ s' ≡ disk.
Proof.
  apply (crfs_namei_resolves disk new_name (inr (ROOT_INODE, new_leaf)) disk_ok).
  apply disk_resolves.
Defined.

Lemma crfs_write_inode_stores_witness :
  exists r s' a', crfs_write_inode (set_allocs [false] disk) (Inode 300 0 0 0 CRFS_FMASK_FILE) =
      Some (r, set_allocs a' s') /\
    ((r = 0 /\ inode_written disk (Inode 300 0 0 0 CRFS_FMASK_FILE) s') \/
     (r = - ENOSPC /\ out_of_space disk s') \/
     (r = - ENOMEM /\ hd true [false] = false /\
      table_unwritten disk (Inode 300 0 0 0 CRFS_FMASK_FILE) s')).
Proof.
  apply (crfs_write_inode_stores disk (Inode 300 0 0 0 CRFS_FMASK_FILE) [false] disk_ok).
  - apply (tr_vtable _ (me_tree _ disk_mounted)).
  - split; simpl; unfold CRFS_FMASK_FILE; lia.
Defined.

Lemma crfs_readdir_lists_witness :
  exists dir s', crfs_opendir disk [47] = (Some dir, s') /\ s' ≡ disk /\
    read_dir_all LS_FUEL s' dir =
      Some (map (d_entry (view disk 3))
              (List.filter (fun i => negb (d_inode (view disk 3) i =? 0)) (seqZ 0 64))).
Proof.
  apply (crfs_readdir_lists disk [47] ROOT_INODE []).
  - apply disk_ok.
  - rewrite disk_start. apply res_slash, res_leaf. apply not_elem_of_nil.
  - reflexivity.
  - apply (me_inode _ disk_mounted).
Defined.

Lemma crfs_mkfs_init_witness :
  24 * CRFS_BLOCK_SIZE <= mkfs_size disk_size <= 268435456 /\
  exists s1 s2, crfs_mkfs blank disk_size = (0, s1) /\ crfs_init s1 = Some (0, s2) /\
    mounted_empty s2 /\ sb_fssize (super_block s2) = mkfs_size disk_size.
Proof.
  split; [by vm_compute|]. apply (crfs_mkfs_init blank disk_size blank_ok). by vm_compute.
Defined.

Lemma cache_flush_atomic_witness :
  let s := fs_write disk 5 (zeros BLOCK) in
  let t := reboot (crash_at 1 s) s in
  backing (store (cache_flush s)) = write_all (backing (store s)) (flush_log s) /\
  if decide (1 < length (flush_log s))%nat then
    (exists k t', t' ≡ dropped t /\
      crfs_init t = init_maps (set_super_block (base s (SB_BLOCKNUM 0)) (set_which_super k t'))) /\
    forall i, i = 2 \/ i = 3 -> base t i = base s i
  else
    (exists t', t' ≡ dropped t /\
      crfs_init t = init_maps (set_super_block (next_super (super_block s))
                                 (set_which_super (other_slot 0) t'))) /\
    forall i, block_id i -> i <> SB_BLOCKNUM (other_slot 0) -> base t i = view s i.
Proof.
  apply (cache_flush_atomic (fun i => i = 2 \/ i = 3) 0 (fs_write disk 5 (zeros BLOCK)) 1).
  - apply disk_between_commits.
  - apply written_not_empty, disk_ok.
  - unfold flush_log. rewrite length_app. simpl. lia.
Defined.

Lemma crfs_read_returns_content_witness :
  exists fp' s', crfs_read disk1 (opened disk1 (inode_at disk1 2)) 3 = ((3, [48; 120; 48]), fp', s') /\
    s' ≡ disk1 /\ handle_at disk1 2 [disk1_block] fp' /\ F_fpos fp' = 3.
Proof.
  destruct (crfs_read_returns_content disk1 2 [disk1_block] (opened disk1 (inode_at disk1 2)) 3
    disk1_ok disk1_file) as (fp' & s' & H1 & H2 & H3 & H4).
  - exact (opened_handle disk1 2 _ disk1_inode (fa_chain _ _ _ disk1_file)).
  - lia.
  - rewrite opened_pos. lia.
  - exists fp', s'. rewrite opened_pos, disk1_data in *.
    split; [exact H1|]. split; [exact H2|]. split; [exact H3|exact H4].
Defined.

Lemma co_cat_prints_witness :
  exists image', co_cat [] [[]; []; file_name] image1 = Some (0, image', file_bytes).
Proof.
  rewrite <- disk1_data.
  apply (co_cat_prints [] [] [] file_name image1 disk1 (start_dir disk1 file_name) file_leaf 2 [disk1_block]).
  - apply disk1_image.
  - apply disk1_ok.
  - apply disk1_resolves.
  - apply disk1_refusal.
  - apply disk1_lookup.
  - apply disk1_inode.
  - apply disk1_file.
  - apply disk1_size.
Defined.

Lemma crfs_write_splices_witness :
  exists fp' s' bs', crfs_write disk1 (opened disk1 (inode_at disk1 2)) [49; 50; 51] = Some (3, fp', s') /\
    file_blocks s' 2 bs' /\ file_at s' (inode_at s' 2) bs' /\
    file_data s' (inode_at s' 2) bs' = [49; 50; 51] ++ drop 3 file_bytes /\
    in_fsize (inode_at s' 2) = 16 /\
    file_step disk1 2 [disk1_block] s' bs' /\ F_fpos fp' = 3 /\ write_at s' 2 bs' fp'.
Proof.
  destruct (crfs_write_splices disk1 2 [disk1_block] (opened disk1 (inode_at disk1 2)) [49; 50; 51]
    disk1_file_blocks disk1_write_at disk1_file) as (fp' & s' & bs' & H1 & H2 & H3 & H4 & H5 & H6 & H7 & H8).
  - rewrite (ff_inode_at _ _ disk1_facts). cbn [in_fsize]. rewrite opened_pos. lia.
  - discriminate.
  - repeat constructor; lia.
  - rewrite opened_pos. cbn [length]. lia.
  - rewrite opened_pos. exact (wf_free _ _ disk1_write_facts).
  - exists fp', s', bs'. rewrite opened_pos, disk1_data, (ff_inode_at _ _ disk1_facts) in *.
    split; [exact H1|]. split; [exact H2|]. split; [exact H3|]. split; [exact H4|].
    split; [exact H5|]. split; [exact H6|]. split; [exact H7|]. apply H8. discriminate.
Defined.
