(* ===== verification/I18n.v ===== *)
(** * I18n: the table of messages

    Model of [x86/common/i18n.c].  A file of messages is read from the file system in blocks
    and parsed one character at a time; the buffers [tmp] and [key] are memory, with what is in
    them at first as arguments.  [malloc_ok] says whether [strdup] gets its memory.  [None] is
    an access outside of an object, such as [__ctype[c+1]] for a character below -1. *)

From S2P Require Import Prelude Freemap Layout BlockLayer Fs Inode Namei Directory FileIO CString.

Definition I18N_MAX_STRINGS : Z := 2048.
Definition I18N_MAX_STRLEN : Z := 2048.
Definition I18N_MAX_KEYLEN : Z := 32.

(** [i18n_string]; [str] may be NULL. *)
Record i18n_string := mk_string { id : Z; str : option (list Z) }.

Inductive STATE :=
  | STATE_BOL | STATE_FOUND_0 | STATE_FOUND_X | STATE_READ_HEX | STATE_POST_HEX_BLANK | STATE_FOUND_EQ
  | STATE_READ_STRING | STATE_END_STRING | STATE_ESCAPE | STATE_ESCAPED_OCTAL | STATE_COMMENT.

(** The variables of [i18n_parse_file], and the table. *)
Record parser := mk_parser {
  state : STATE;
  tmp : mem;
  tmp_n : Z;
  key : mem;
  key_n : Z;
  tmp_val : Z;
  chars : Z;
  lineno : Z;
  i18n_strings : list i18n_string;
}.

Definition goto (st : STATE) (p : parser) : parser :=
  mk_parser st (tmp p) (tmp_n p) (key p) (key_n p) (tmp_val p) (chars p) (lineno p) (i18n_strings p).
Definition set_tmp (m : mem) (n : Z) (p : parser) : parser :=
  mk_parser (state p) m n (key p) (key_n p) (tmp_val p) (chars p) (lineno p) (i18n_strings p).
Definition set_key (m : mem) (n : Z) (p : parser) : parser :=
  mk_parser (state p) (tmp p) (tmp_n p) m n (tmp_val p) (chars p) (lineno p) (i18n_strings p).
Definition set_octal (v n : Z) (p : parser) : parser :=
  mk_parser (state p) (tmp p) (tmp_n p) (key p) (key_n p) v n (lineno p) (i18n_strings p).
Definition set_lineno (n : Z) (p : parser) : parser :=
  mk_parser (state p) (tmp p) (tmp_n p) (key p) (key_n p) (tmp_val p) (chars p) n (i18n_strings p).
Definition set_strings (l : list i18n_string) (p : parser) : parser :=
  mk_parser (state p) (tmp p) (tmp_n p) (key p) (key_n p) (tmp_val p) (chars p) (lineno p) l.

Definition SAVE_VAL_CHAR (c : Z) (p : parser) : option parser :=
  if tmp_n p <? I18N_MAX_STRLEN - 1 then
    m ← store (tmp p) (Z.to_nat (tmp_n p)) c; Some (set_tmp m (tmp_n p + 1) p)
  else Some p.
Definition SAVE_KEY_CHAR (c : Z) (p : parser) : option parser :=
  if key_n p <? I18N_MAX_KEYLEN - 1 then
    m ← store (key p) (Z.to_nat (key_n p)) c; Some (set_key m (key_n p + 1) p)
  else Some p.

(** The macros of ctype.h on a [char], which is signed: -1 is the entry for EOF. *)
Definition ctype (f : Z -> bool) (c : Z) : option bool :=
  if c <? 128 then Some (f c) else if c =? 255 then Some false else None.

(** Going on, and returning from the function. *)
Abbreviation step_result := (option (option Z * parser)).
Definition go (p : parser) : step_result := Some (None, p).
Definition fail (p : parser) : step_result := Some (Some (- lineno p), p).

(** The end of a line: [stoli], [strdup] and the next entry of the table. *)
Definition end_line (malloc_ok : Z -> bool) (p : parser) : step_result :=
  p ← SAVE_VAL_CHAR 0 p;
  '(r, v, k) ← stoli (key p) 0;
  let p := set_key k (key_n p) p in
  if negb (r =? 0) then fail p
  else
    n ← strlen (tmp p) 0;
    let s := mk_string v (if malloc_ok (n + 1) then Some (take (Z.to_nat n) (tmp p)) else None) in
    if (length (i18n_strings p) <? Z.to_nat I18N_MAX_STRINGS)%nat then
      go (goto STATE_BOL (set_tmp (tmp p) 0 (set_key (key p) 0 (set_strings (i18n_strings p ++ [s]) p))))
    else None.

Definition is_octal (c : Z) : bool := (48 <=? c) && (c <=? 55).

(** One turn of the loop over the characters. *)
Definition parse_char (malloc_ok : Z -> bool) (c : Z) (p : parser) : step_result :=
  match state p with
  | STATE_BOL =>
    let p := set_lineno (lineno p + 1) p in
    if I18N_MAX_STRINGS <=? lineno p then fail p
    else
      sp ← ctype isspace c;
      if sp : bool then go p
      else if c =? 35 then go (goto STATE_COMMENT p)
      else if c =? 48 then p ← SAVE_KEY_CHAR c p; go (goto STATE_FOUND_0 p)
      else fail p
  | STATE_FOUND_0 =>
    if (c =? 120) || (c =? 88) then p ← SAVE_KEY_CHAR 120 p; go (goto STATE_FOUND_X p) else fail p
  | STATE_FOUND_X =>
    x ← ctype isxdigit c;
    if x : bool then p ← SAVE_KEY_CHAR c p; go (goto STATE_READ_HEX p) else fail p
  | STATE_READ_HEX =>
    x ← ctype isxdigit c;
    if x : bool then p ← SAVE_KEY_CHAR c p; go p
    else
      b ← ctype isblank c;
      if b : bool then p ← SAVE_KEY_CHAR 0 p; go (goto STATE_POST_HEX_BLANK p)
      else if c =? 61 then p ← SAVE_KEY_CHAR 0 p; go (goto STATE_FOUND_EQ p)
      else fail p
  | STATE_POST_HEX_BLANK =>
    b ← ctype isblank c;
    if b : bool then go p else if c =? 61 then go (goto STATE_FOUND_EQ p) else fail p
  | STATE_FOUND_EQ =>
    b ← ctype isblank c;
    if b : bool then go p else if c =? 34 then go (goto STATE_READ_STRING p) else fail p
  | STATE_READ_STRING =>
    if c =? 34 then go (goto STATE_END_STRING p)
    else if c =? 92 then go (goto STATE_ESCAPE p)
    else if c =? 10 then fail p
    else p ← SAVE_VAL_CHAR c p; go p
  | STATE_END_STRING =>
    b ← ctype isblank c;
    if b : bool then go p
    else if c =? 10 then end_line malloc_ok p
    else if c =? 34 then go (goto STATE_READ_STRING p)
    else fail p
  | STATE_ESCAPE =>
    if is_octal c then go (goto STATE_ESCAPED_OCTAL (set_octal (c - 48) 1 p))
    else
      a ← ctype isalpha c;
      let v := if a : bool then
                 if c =? 116 then 9 else if c =? 110 then 10 else if c =? 98 then 8 else if c =? 114 then 13
                 else if c =? 92 then 92 else c
               else c in
      p ← SAVE_VAL_CHAR v p; go (goto STATE_READ_STRING p)
  | STATE_ESCAPED_OCTAL =>
    if (chars p <? 3) && is_octal c then
      go (set_octal (u32 (u32 (Z.shiftl (tmp_val p) 3) + (c - 48))) (chars p + 1) p)
    else
      p ← SAVE_VAL_CHAR (Z.land (tmp_val p) 0xff) p;
      p ← SAVE_VAL_CHAR c p;
      go (goto STATE_READ_STRING p)
  | STATE_COMMENT => if c =? 10 then go (goto STATE_BOL p) else go p
  end.

Fixpoint parse_chars (malloc_ok : Z -> bool) (cs : list Z) (p : parser) : step_result :=
  match cs with
  | [] => go p
  | c :: cs =>
    '(r, p) ← parse_char malloc_ok c p;
    match r with Some v => Some (Some v, p) | None => parse_chars malloc_ok cs p end
  end.

(** The state at the start of the function; the table is static. *)
Definition parse_start (tmp key : mem) (l : list i18n_string) : parser :=
  mk_parser STATE_BOL tmp 0 key 0 0 0 0 l.

(** The chunks a file may have, and one more. *)
Definition PARSE_FUEL : nat := Z.to_nat 1048578.
#[global] Arguments PARSE_FUEL : simpl never.

Section I18n.
Context {St : Type} `{BlockLayer St} (malloc_ok : Z -> bool) (tmp0 key0 : mem).
Implicit Types s : fs St.

Fixpoint parse_loop (fuel : nat) s (fp : CO_FILE) (p : parser) : option (Z * parser * fs St) :=
  match fuel with
  | O => None
  | S fuel =>
    let '((read_bytes, buff), fp, s) := crfs_read s fp CRFS_BLOCK_SIZE in
    if 0 <? read_bytes then
      '(r, p) ← parse_chars malloc_ok (take (Z.to_nat read_bytes) buff) p;
      match r with Some v => Some (v, p, s) | None => parse_loop fuel s fp p end
    else Some (0, p, s)
  end.

Definition i18n_parse_file s (fp : CO_FILE) (l : list i18n_string) : option (Z * list i18n_string * fs St) :=
  '(r, p, s) ← parse_loop PARSE_FUEL s fp (parse_start tmp0 key0 l); Some (r, i18n_strings p, s).

(** "/strings." *)
Definition strings_prefix : list Z := [47; 115; 116; 114; 105; 110; 103; 115; 46].

(** The file name is built in 32 bytes.  The result, and the line of an error that is printed. *)
Definition init_i18n s (lang : list Z) (l : list i18n_string) :
    option (Z * option Z * list i18n_string * fs St) :=
  let fn := strings_prefix ++ lang in
  if (32 <? S (length fn))%nat then None
  else
    let '(f, s) := crfs_open s fn in
    match f with
    | None => Some (-1, None, l, s)
    | Some fp =>
      '(error, l, s) ← i18n_parse_file s fp l;
      if error <? 0 then Some (error, Some (- error), l, s) else Some (0, None, l, s)
    end.
End I18n.

(** "String not found" *)
Definition string_not_found : list Z :=
  [83; 116; 114; 105; 110; 103; 32; 110; 111; 116; 32; 102; 111; 117; 110; 100].

Fixpoint i18n_lookup_str (l : list i18n_string) (n : Z) : option (list Z) :=
  match l with
  | [] => Some string_not_found
  | s :: l => if id s =? n then str s else i18n_lookup_str l n
  end.
