(* ===== verification/I18nProofs.v ===== *)
(** * I18nProofs: messages written and read back

    [render] writes a table of messages as a file; the parser gives it back, whatever the
    blocks it is read in. *)

From S2P Require Import Prelude Freemap Layout BlockLayer BlockCache StdioDevice Fs Inode Namei Directory FileIO Tools.
From S2P Require Import ReadProofs DirProofs Tree MountProofs MkfsProofs DirTheorems Scenario FsTheorems.
From S2P Require Import CString CStringProofs I18n.

(** ** A table as a file *)

Definition escape (c : Z) : list Z :=
  if (c =? 34) || (c =? 92) then [92; c] else if c =? 10 then [92; 110] else [c].
(** 0xNNNNNNNN="text" *)
Definition render_entry (e : Z * list Z) : list Z :=
  [48; 120] ++ map hex_char (hex_digits 8 (fst e)) ++ [61; 34] ++ concat (map escape (snd e)) ++ [34; 10].
Definition render (t : list (Z * list Z)) : list Z := concat (map render_entry t).

Definition char_ok (c : Z) : Prop := 0 < c < 256.
(** What the buffers and the counter of lines have room for. *)
Record table_ok (t : list (Z * list Z)) : Prop := {
  ok_lines : Z.of_nat (length t) < I18N_MAX_STRINGS;
  ok_ids : Forall (fun e => 0 <= fst e < 4294967296) t;
  ok_texts : Forall (fun e => Forall char_ok (snd e) /\ Z.of_nat (length (snd e)) < I18N_MAX_STRLEN - 1) t;
}.

Definition entry_of (e : Z * list Z) : i18n_string := mk_string (fst e) (Some (snd e)).

(** ** The parser *)

Section Parser.
Context (malloc_ok : Z -> bool) (Hmalloc : forall n, malloc_ok n = true).

(** The parser is in state [st], with [acc] and [k] in its buffers. *)
Record at_ (st : STATE) (acc k : list Z) (ln : Z) (l : list i18n_string) (p : parser) : Prop := {
  a_state : state p = st;
  a_tmp : take (length acc) (tmp p) = acc;
  a_tmp_n : tmp_n p = Z.of_nat (length acc);
  a_tmp_size : Z.of_nat (length (tmp p)) = I18N_MAX_STRLEN;
  a_key : take (length k) (key p) = k;
  a_key_n : key_n p = Z.of_nat (length k);
  a_key_size : Z.of_nat (length (key p)) = I18N_MAX_KEYLEN;
  a_line : lineno p = ln;
  a_strings : i18n_strings p = l;
}.

Lemma at_goto st st' acc k ln l p : at_ st acc k ln l p -> at_ st' acc k ln l (goto st' p).
Proof. intros []. by split. Qed.

Lemma save_val st acc k ln l p c : at_ st acc k ln l p -> Z.of_nat (length acc) < I18N_MAX_STRLEN - 1 ->
  exists p', SAVE_VAL_CHAR c p = Some p' /\ at_ st (acc ++ [c]) k ln l p'.
Proof.
  intros [H1 H2 H3 H4 H5 H6 H7 H8 H9] Hlen. unfold SAVE_VAL_CHAR. rewrite (proj2 (Z.ltb_lt _ _)) by lia.
  rewrite H3, Nat2Z.id. destruct (store_at (tmp p) acc c H2) as (m & -> & Ht & Hm); [lia|].
  eexists. split; [reflexivity|]. split; simpl; try done; [rewrite length_app; simpl; lia|by rewrite Hm].
Qed.
Lemma save_key st acc k ln l p c : at_ st acc k ln l p -> Z.of_nat (length k) < I18N_MAX_KEYLEN - 1 ->
  exists p', SAVE_KEY_CHAR c p = Some p' /\ at_ st acc (k ++ [c]) ln l p'.
Proof.
  intros [H1 H2 H3 H4 H5 H6 H7 H8 H9] Hlen. unfold SAVE_KEY_CHAR. rewrite (proj2 (Z.ltb_lt _ _)) by lia.
  rewrite H6, Nat2Z.id. destruct (store_at (key p) k c H5) as (m & -> & Ht & Hm); [lia|].
  eexists. split; [reflexivity|]. split; simpl; try done; [rewrite length_app; simpl; lia|by rewrite Hm].
Qed.

(** From [p] the characters lead to a parser with the property. *)
Definition leads (cs : list Z) (p : parser) (Q : parser -> Prop) : Prop :=
  exists p', parse_chars malloc_ok cs p = go p' /\ Q p'.
Lemma leads_app cs ds p (Q R : parser -> Prop) :
  leads cs p Q -> (forall p', Q p' -> leads ds p' R) -> leads (cs ++ ds) p R.
Proof.
  intros (p1 & E & Hq) Hr. destruct (Hr p1 Hq) as (p2 & E2 & Hp2). exists p2. split; [|done].
  clear Hr Hq Hp2. revert p E. induction cs as [|c cs IH]; intros p E; [injection E as <-; exact E2|].
  cbn [parse_chars app] in *. destruct (parse_char malloc_ok c p) as [[[v|] q]|]; [discriminate| |discriminate].
  by apply IH.
Qed.
Lemma leads_nil p (Q : parser -> Prop) : Q p -> leads [] p Q.
Proof. intros Hq. by exists p. Qed.
Lemma leads_cons c cs p p1 (R : parser -> Prop) :
  parse_char malloc_ok c p = go p1 -> leads cs p1 R -> leads (c :: cs) p R.
Proof. intros E (p2 & E2 & Hr). exists p2. split; [|done]. cbn [parse_chars]. by rewrite E. Qed.
Lemma leads_impl cs p (Q R : parser -> Prop) : leads cs p Q -> (forall p', Q p' -> R p') -> leads cs p R.
Proof. intros (p' & E & Hq) H. exists p'. auto. Qed.
(** *** The parts of a line *)

Lemma ctype_low f c : c < 128 -> ctype f c = Some (f c).
Proof. intros H. unfold ctype. by rewrite (proj2 (Z.ltb_lt _ _)). Qed.

Lemma key_digits ds acc k ln l p : is_hex ds -> at_ STATE_READ_HEX acc k ln l p ->
  Z.of_nat (length k + length ds) < I18N_MAX_KEYLEN ->
  leads (map hex_char ds) p (at_ STATE_READ_HEX acc (k ++ map hex_char ds) ln l).
Proof.
  intros Hd. revert k p. induction Hd as [|d ds Hd _ IH]; intros k p Hp Hlen.
  { apply leads_nil. by rewrite app_nil_r. }
  destruct (hex_char_ok d Hd) as (_ & _ & Hx & Hc). cbn [length] in Hlen.
  destruct (save_key _ _ _ _ _ p (hex_char d) Hp) as (p1 & E1 & Hp1); [lia|].
  apply (leads_cons (hex_char d) _ p p1).
  - unfold parse_char. rewrite (a_state _ _ _ _ _ _ Hp), (ctype_low isxdigit) by lia. cbn [mbind option_bind].
    by rewrite Hx, E1.
  - cbn [map]. rewrite cons_middle, app_assoc. apply IH; [exact Hp1|]. rewrite length_app. simpl. lia.
Qed.

Lemma body_char c acc k ln l p : char_ok c -> at_ STATE_READ_STRING acc k ln l p ->
  Z.of_nat (length acc) < I18N_MAX_STRLEN - 1 ->
  leads (escape c) p (at_ STATE_READ_STRING (acc ++ [c]) k ln l).
Proof.
  intros Hc Hp Hlen. unfold escape.
  assert (Hesc : forall x, is_octal x = false -> x < 128 ->
    (if isalpha x then if x =? 116 then 9 else if x =? 110 then 10 else if x =? 98 then 8 else if x =? 114 then 13
       else if x =? 92 then 92 else x else x) = c ->
    leads [92; x] p (at_ STATE_READ_STRING (acc ++ [c]) k ln l)).
  { intros x Ho Hx Hv. apply (leads_cons 92 _ p (goto STATE_ESCAPE p)).
    { unfold parse_char. by rewrite (a_state _ _ _ _ _ _ Hp). }
    destruct (save_val STATE_ESCAPE acc k ln l (goto STATE_ESCAPE p) c) as (p1 & E1 & Hp1);
      [eapply at_goto, Hp|exact Hlen|].
    apply (leads_cons x _ _ (goto STATE_READ_STRING p1)).
    - unfold parse_char. cbn [state goto]. rewrite Ho, ctype_low by exact Hx. cbn [mbind option_bind].
      by rewrite Hv, E1.
    - apply leads_nil. eapply at_goto, Hp1. }
  destruct ((c =? 34) || (c =? 92)) eqn:Eq.
  { apply orb_true_iff in Eq as [->%Z.eqb_eq | ->%Z.eqb_eq]; by apply Hesc. }
  apply orb_false_iff in Eq as [Eq Eb].
  destruct (Z.eqb_spec c 10) as [->|Hn]; [by apply Hesc|].
  destruct (save_val _ acc k ln l p c Hp Hlen) as (p1 & E1 & Hp1).
  apply (leads_cons c _ p p1); [|by apply leads_nil].
  unfold parse_char. rewrite (a_state _ _ _ _ _ _ Hp), Eq, Eb, (proj2 (Z.eqb_neq c 10) Hn). by rewrite E1.
Qed.

Lemma body s acc k ln l p : Forall char_ok s -> at_ STATE_READ_STRING acc k ln l p ->
  Z.of_nat (length acc + length s) < I18N_MAX_STRLEN ->
  leads (concat (map escape s)) p (at_ STATE_READ_STRING (acc ++ s) k ln l).
Proof.
  intros Hs. revert acc p. induction Hs as [|c s Hc _ IH]; intros acc p Hp Hlen.
  { apply leads_nil. by rewrite app_nil_r. }
  cbn [length] in Hlen. cbn [map concat]. eapply leads_app; [apply body_char; [done|exact Hp|lia]|].
  intros p1 Hp1. rewrite (cons_middle c acc s), app_assoc. apply IH; [exact Hp1|].
  rewrite length_app. simpl. lia.
Qed.

(** The end of a line, in which the key and the text are complete. *)
Lemma line_ended ds s ln l p : is_hex ds -> (1 <= length ds <= 8)%nat -> Forall char_ok s ->
  Z.of_nat (length s) < I18N_MAX_STRLEN - 1 -> Z.of_nat (length l) < I18N_MAX_STRINGS ->
  at_ STATE_END_STRING s (48 :: 120 :: map hex_char ds ++ [0]) ln l p ->
  leads [10] p (at_ STATE_BOL [] [] ln (l ++ [mk_string (u32 (hex_value 0 ds)) (Some s)])).
Proof.
  intros Hd Hdl Hs Hlen Hl Hp.
  destruct (save_val _ s _ ln l p 0 Hp Hlen) as (p1 & E1 & [H1 H2 H3 H4 H5 H6 H7 H8 H9]).
  assert (Hk : str_at (key p1) 0 (48 :: 120 :: map hex_char ds)).
  { apply take_str_at; [|exact H5]. constructor; [done|]. constructor; [done|]. apply Forall_map.
    eapply Forall_impl; [exact Hd|]. intros d Hd'. destruct (hex_char_ok d Hd') as (_ & _ & _ & ?). simpl. lia. }
  destruct (stoli_hex_number (key p1) 0 ds Hk Hd Hdl) as (k' & Ek & Hk').
  assert (Ht : str_at (tmp p1) 0 s).
  { apply take_str_at; [|exact H2]. eapply Forall_impl; [exact Hs|]. intros c Hc. unfold char_ok in Hc. lia. }
  eapply leads_cons; [|apply leads_nil].
  - unfold parse_char. rewrite (a_state _ _ _ _ _ _ Hp), ctype_low by lia. cbn [mbind option_bind].
    change (isblank 10) with false. cbv iota. unfold end_line. rewrite E1. cbn [mbind option_bind].
    rewrite Ek. cbn [mbind option_bind]. change (negb (0 =? 0)) with false. cbv iota. cbn [tmp set_key].
    rewrite (strlen_spec _ 0 s Ht). cbn [mbind option_bind]. rewrite Hmalloc, Nat2Z.id. cbn [i18n_strings set_key].
    rewrite H9, (proj2 (Nat.ltb_lt _ _)) by lia.
    rewrite length_app in H2. cbn [length] in H2. assert (take (length s) (tmp p1) = s) as ->.
    { pose proof (f_equal (take (length s)) H2) as E. rewrite take_take, take_app_length in E.
      rewrite Nat.min_l in E by lia. exact E. } reflexivity.
  - split; simpl; try done. by rewrite Hk'.
Qed.

(** A line. *)
Lemma entry_read e ln l p : at_ STATE_BOL [] [] ln l p -> 0 <= fst e < 4294967296 -> Forall char_ok (snd e) ->
  Z.of_nat (length (snd e)) < I18N_MAX_STRLEN - 1 -> 0 <= ln -> ln + 1 < I18N_MAX_STRINGS ->
  Z.of_nat (length l) < I18N_MAX_STRINGS ->
  leads (render_entry e) p (at_ STATE_BOL [] [] (ln + 1) (l ++ [entry_of e])).
Proof.
  destruct e as [n s]. cbn [fst snd]. intros Hp Hn Hs Hlen H0 Hln Hl. unfold render_entry, entry_of. cbn [fst snd].
  assert (Hp0 : at_ STATE_BOL [] [] (ln + 1) l (set_lineno (lineno p + 1) p)).
  { destruct Hp as [? ? ? ? ? ? ? Hln' ?]. split; simpl; try done. by rewrite Hln'. }
  destruct (save_key _ [] [] _ l _ 48 Hp0) as (p1 & E1 & Hp1); [done|].
  cbn [app]. eapply leads_cons.
  { unfold parse_char. rewrite (a_state _ _ _ _ _ _ Hp). cbv zeta. rewrite (a_line _ _ _ _ _ _ Hp0).
    rewrite (proj2 (Z.leb_gt _ _)) by exact Hln. rewrite ctype_low by lia. cbn [mbind option_bind].
    change (isspace 48) with false. change (48 =? 35) with false. change (48 =? 48) with true. cbv iota.
    rewrite E1. reflexivity. }
  destruct (save_key STATE_FOUND_0 [] [48] (ln + 1) l (goto STATE_FOUND_0 p1) 120) as (p2 & E2 & Hp2);
    [by eapply at_goto|done|].
  eapply leads_cons; [unfold parse_char; cbn [state goto]; change ((120 =? 120) || (120 =? 88)) with true; cbv iota; rewrite E2; reflexivity|].
  (* the first digit *)
  pose proof (hex_digits_is_hex 8 n) as Hd. pose proof (hex_digits_length 8 n) as Hdl.
  assert (Hv : u32 (hex_value 0 (hex_digits 8 n)) = n).
  { rewrite hex_digits_value. change (16 ^ Z.of_nat 8) with 4294967296. rewrite Z.mul_0_l, Z.add_0_l.
    unfold u32. rewrite Z.mod_mod by lia. by apply Z.mod_small. }
  destruct (hex_digits 8 n) as [|d ds] eqn:Ed; [discriminate|].
  assert (Hd0 : 0 <= d < 16) by (by inversion Hd). assert (Hds : is_hex ds) by (by inversion Hd).
  destruct (hex_char_ok d Hd0) as (_ & _ & Hx & Hc).
  destruct (save_key STATE_FOUND_X [] [48; 120] (ln + 1) l (goto STATE_FOUND_X p2) (hex_char d)) as (p3 & E3 & Hp3);
    [by eapply at_goto|done|].
  cbn [map app]. eapply leads_cons.
  { unfold parse_char. cbn [state goto]. rewrite (ctype_low isxdigit) by lia. cbn [mbind option_bind]. rewrite Hx, E3. reflexivity. }
  eapply leads_app.
  { apply (key_digits ds [] [48; 120; hex_char d] (ln + 1) l (goto STATE_READ_HEX p3)); [done|by eapply at_goto|].
    cbn [length] in *. unfold I18N_MAX_KEYLEN. lia. }
  intros p4 Hp4.
  destruct (save_key _ _ _ _ _ p4 0 Hp4) as (p5 & E5 & Hp5).
  { rewrite length_app, length_map. cbn [length] in *. unfold I18N_MAX_KEYLEN. lia. }
  eapply leads_cons.
  { unfold parse_char. rewrite (a_state _ _ _ _ _ _ Hp4), (ctype_low isxdigit 61) by lia. cbn [mbind option_bind].
    change (isxdigit 61) with false. cbv iota. rewrite (ctype_low isblank 61) by lia. cbn [mbind option_bind].
    change (isblank 61) with false. change (61 =? 61) with true. cbv iota. rewrite E5. reflexivity. }
  eapply leads_cons.
  { unfold parse_char. cbn [state goto]. rewrite ctype_low by lia. cbn [mbind option_bind].
    change (isblank 34) with false. change (34 =? 34) with true. cbv iota. reflexivity. }
  eapply leads_app; [eapply (body s []); [done|by eapply at_goto, at_goto|simpl; lia]|].
  intros p6 Hp6. eapply leads_cons.
  { unfold parse_char. rewrite (a_state _ _ _ _ _ _ Hp6). reflexivity. }
  rewrite <- Hv. apply (line_ended (d :: ds) s); [done|simpl in *; lia|done|done|done|].
  apply at_goto with STATE_READ_STRING. exact Hp6.
Qed.

Lemma render_read t ln l p : at_ STATE_BOL [] [] ln l p -> 0 <= ln ->
  ln + Z.of_nat (length t) < I18N_MAX_STRINGS -> Z.of_nat (length l + length t) <= I18N_MAX_STRINGS ->
  Forall (fun e => 0 <= fst e < 4294967296) t ->
  Forall (fun e => Forall char_ok (snd e) /\ Z.of_nat (length (snd e)) < I18N_MAX_STRLEN - 1) t ->
  leads (render t) p (at_ STATE_BOL [] [] (ln + Z.of_nat (length t)) (l ++ map entry_of t)).
Proof.
  intros Hp H0 Hln Hl Hi Ht. revert ln l p Hp H0 Hln Hl. induction t as [|e t IH]; intros ln l p Hp H0 Hln Hl.
  { apply leads_nil. by rewrite Z.add_0_r, app_nil_r. }
  inversion Hi as [|? ? Hi0 Hi']; subst. inversion Ht as [|? ? [Hc He] Ht']; subst. cbn [length] in *.
  unfold render. cbn [map concat]. eapply leads_app; [apply entry_read; (done || lia)|].
  intros p1 Hp1. cbn [map]. rewrite cons_middle, app_assoc.
  replace (ln + Z.of_nat (S (length t))) with (ln + 1 + Z.of_nat (length t)) by lia.
  apply IH; [done..|lia|lia|]. rewrite length_app. simpl. lia.
Qed.
End Parser.

(** ** The file *)

Lemma parse_chars_app malloc_ok cs ds p p' : parse_chars malloc_ok (cs ++ ds) p = go p' ->
  exists p1, parse_chars malloc_ok cs p = go p1 /\ parse_chars malloc_ok ds p1 = go p'.
Proof.
  revert p. induction cs as [|c cs IH]; intros p E; [by exists p|].
  cbn [parse_chars app] in *. destruct (parse_char malloc_ok c p) as [[[v|] q]|]; [discriminate| |discriminate].
  by apply IH.
Qed.

(** The blocks a file is read in do not matter. *)
Lemma parse_loop_reads {St : Type} `{BlockLayer St} malloc_ok fuel (s : fs St) fp out out' r fp' s' :
  copy_out fuel s fp out = Some (out', r, fp', s') ->
  exists rest, out' = out ++ rest /\
    forall p p', parse_chars malloc_ok rest p = go p' -> parse_loop malloc_ok fuel s fp p = Some (0, p', s').
Proof.
  revert s fp out. induction fuel as [|fuel IH]; intros s fp out E; [discriminate|].
  cbn [copy_out] in E. destruct (crfs_read s fp CRFS_BLOCK_SIZE) as [[[n buff] fp1] s1] eqn:Er.
  destruct (0 <? n) eqn:En.
  - destruct (IH s1 fp1 (out ++ take (Z.to_nat n) buff) E) as (rest & -> & Hp).
    exists (take (Z.to_nat n) buff ++ rest). split; [by rewrite app_assoc|].
    intros p p' Hc. destruct (parse_chars_app _ _ _ _ _ Hc) as (p1 & H1 & H2).
    cbn [parse_loop]. rewrite Er, En, H1. by apply Hp.
  - injection E as <- _ _ <-. exists []. split; [by rewrite app_nil_r|].
    intros p p' [= <-]. cbn [parse_loop]. by rewrite Er, En.
Qed.

Lemma lookup_entry t n v : NoDup (map fst t) -> (n, v) ∈ t -> i18n_lookup_str (map entry_of t) n = Some v.
Proof.
  induction t as [|[m w] t IH]; intros Hn Hin; [by apply not_elem_of_nil in Hin|].
  cbn [map fst] in Hn. apply NoDup_cons in Hn as [Hni Hn]. cbn [map i18n_lookup_str entry_of id str fst snd].
  apply elem_of_cons in Hin as [[= <- <-]|Hin]; [by rewrite Z.eqb_refl|].
  destruct (Z.eqb_spec m n) as [->|]; [|by apply IH].
  destruct Hni. apply list_elem_of_fmap. by exists (n, v).
Qed.
Lemma lookup_no_entry t n : n ∉ map fst t -> i18n_lookup_str (map entry_of t) n = Some string_not_found.
Proof.
  induction t as [|[m w] t IH]; intros Hn; [done|]. cbn [map fst] in Hn. apply not_elem_of_cons in Hn as [Hm Hn].
  cbn [map i18n_lookup_str entry_of id fst]. rewrite (proj2 (Z.eqb_neq m n)) by done. by apply IH.
Qed.

(** C18: messages come back.  On a well-formed file system where the path /strings.LANG leads to a
    file with the rendering of a table, [init_i18n] returns 0 and leaves the file system as it was,
    and [i18n_lookup_str] then gives for each number of the table its text, with every character
    that had to be escaped, and for other numbers that there is no such string. *)
Theorem init_i18n_loads {St : Type} `{BlockLayer St} malloc_ok tmp0 key0 (s : fs St) lang t d leaf n bs :
  (forall k, malloc_ok k = true) ->
  Z.of_nat (length tmp0) = I18N_MAX_STRLEN -> Z.of_nat (length key0) = I18N_MAX_KEYLEN ->
  (length lang <= 22)%nat -> table_ok t -> NoDup (map fst t) ->
  fs_ok s -> resolves s (start_dir s (strings_prefix ++ lang)) (strings_prefix ++ lang) (inr (d, leaf)) ->
  open_refusal s d leaf = None -> lookup s d leaf = Some n ->
  in_inode (inode_at s n) = n -> file_at s (inode_at s n) bs ->
  in_fsize (inode_at s n) + CRFS_BLOCK_SIZE < 4294967296 ->
  file_data s (inode_at s n) bs = render t ->
  exists l s', init_i18n malloc_ok tmp0 key0 s lang [] = Some (0, None, l, s') /\ s' ≡ s /\
    (forall k v, (k, v) ∈ t -> i18n_lookup_str l k = Some v) /\
    (forall k, k ∉ map fst t -> i18n_lookup_str l k = Some string_not_found).
Proof.
  intros Hmalloc Ht Hk Hlang [Tl Ti Tt] Hnd Hs Hr Href Hl Hn Hf Hsz Hdata.
  exists (map entry_of t).
  destruct (open_checks s _ _ Hs Hr) as (s1 & Heq & Eo). rewrite Href, Hl in Eo.
  pose proof (opened_handle s n bs Hn (fa_chain _ _ _ Hf)) as Ha.
  set (fp := opened s (inode_at s n)) in *.
  assert (length (file_data s (inode_at s n) bs) <= Z.to_nat (in_fsize (inode_at s n)))%nat as Hlen
    by (unfold file_data; rewrite length_take; lia).
  pose proof (ok_fsize _ (inode_at_ok s n Hs)) as Hfs.
  assert (inode_at s1 n = inode_at s n) as Hin by by rewrite Heq.
  assert (file_data s1 (inode_at s n) bs = file_data s (inode_at s n) bs) as Hfd
    by (unfold file_data; by rewrite Heq).
  destruct (copy_out_spec PARSE_FUEL s1 n bs fp []) as (fp' & s2 & Ec & Heq2 & Ha').
  - by rewrite Heq.
  - rewrite Hin. destruct Hf. split; [by rewrite Heq|done].
  - by rewrite Heq.
  - rewrite Hin, Hfd. cbn [F_fpos fp opened]. rewrite drop_0. lia.
  - rewrite Hin, Hfd. cbn [F_fpos fp opened]. rewrite drop_0.
    unfold PARSE_FUEL, BLOCK, CRFS_BLOCK_SIZE in *. lia.
  - rewrite Hin, Hfd, Hdata in Ec. cbn [F_fpos fp opened] in Ec. rewrite drop_0, app_nil_l in Ec.
    destruct (parse_loop_reads malloc_ok _ _ _ _ _ _ _ _ Ec) as (rest & Erest & Hp). cbn [app] in Erest. subst rest.
    destruct (render_read malloc_ok Hmalloc t 0 [] (parse_start tmp0 key0 [])) as (p' & Ep & Hat); [by split|lia|lia|simpl; lia|done|done|].
    exists s2. split; [|split; [by rewrite Heq2|split; [by intros; apply lookup_entry|by intros; apply lookup_no_entry]]].
    unfold init_i18n. cbv zeta. rewrite (proj2 (Nat.ltb_ge _ _)) by (rewrite length_app; change (length strings_prefix) with 9%nat; lia).
    rewrite Eo. unfold i18n_parse_file. fold fp. rewrite (Hp _ _ Ep). cbn [mbind option_bind].
    change (0 <? 0) with false. cbv iota. by rewrite (a_strings _ _ _ _ _ _ Hat).
Qed.

(** The image of the scenario has such a file. *)
Lemma init_i18n_loads_witness : exists l s',
  init_i18n (fun _ => true) (zeros (Z.to_nat 2048)) (zeros 32) disk1 [101; 110] [] = Some (0, None, l, s') /\ s' ≡ disk1 /\
  (forall k v, (k, v) ∈ [(26, [72; 105])] -> i18n_lookup_str l k = Some v) /\
  (forall k, k ∉ [26] -> i18n_lookup_str l k = Some string_not_found).
Proof.
  apply (init_i18n_loads (fun _ => true) (zeros (Z.to_nat 2048)) (zeros 32) disk1 [101; 110] [(26, [72; 105])]
           (start_dir disk1 file_name) file_leaf 2 [disk1_block]).
  - done.
  - reflexivity.
  - reflexivity.
  - simpl. lia.
  - split; [simpl; unfold I18N_MAX_STRINGS; lia|by repeat constructor|].
    repeat constructor; unfold char_ok; simpl; unfold I18N_MAX_STRLEN; lia.
  - apply NoDup_singleton.
  - apply disk1_ok.
  - apply disk1_resolves.
  - apply disk1_refusal.
  - apply disk1_lookup.
  - apply disk1_inode.
  - apply disk1_file.
  - apply disk1_size.
  - apply disk1_data.
Defined.

(** An octal escape takes the character behind it, here the closing quote, into the text, so
    that the line break is an error.  The text is 0x1="\101". *)
Example octal_takes_quote :
  option_map fst (parse_chars (fun _ => true) [48; 120; 49; 61; 34; 92; 49; 48; 49; 34; 10]
    (parse_start (zeros 16) (zeros 32) [])) = Some (Some (-1)).
Proof. reflexivity. Qed.
