(* ===== verification/Boot.v ===== *)
(** * Boot: loading and starting a kernel

    Model of [x86/common/fs.c], [x86/common/boot_main.c] and [x86/common/x86-boot.c], of the
    commands of [x86/monitor/boot.c] but for [init_delay_func], [checksum_kernel_func] and
    [reboot_func], of [x86/monitor/fs.c], and of the small monitor and the start of the monitor
    in [x86/ramcode/main.c].  The state holds the CMOS
    memory with its variables ([CmosIo.rom]), the memory, the file system in the ROM and the
    variables of these files; the class [Around] is what they use of the rest of the machine,
    and of the two decompressors, which are third-party code.  A computation ends by returning,
    by jumping to a kernel, or by hanging; [None] is undefined behaviour.  What is printed in
    debug mode is left out, and so is the spinner on the console. *)

From stdpp Require Import strings.
From S2P Require Import Prelude Strbuf Printf CString CmosIo Cmos Bootdevs Freemap Layout BlockLayer Fs Inode Namei Directory FileIO Elf.
Open Scope list_scope.
Open Scope Z_scope.

Definition ROM_KERNEL : list Z := chars "/vmlinux.bz2".
Definition BOOT_KERNEL_LINUX : list Z := chars "/boot/vmlinux.bz2,/vmlinux.bz2,/boot/vmlinux.gz,/vmlinux.gz".
Definition BOOT_KERNEL_NETBSD : list Z := chars "/boot/netbsd.bz2".
Definition BOOT_STAGE_LOAD : Z := 1.
Definition BOOT_STAGE_RUN : Z := 2.
Definition CMOS_BOOT_KERN_DEV : Z := 0x01.
Definition CMOS_BOOT_KERN_ROM : Z := 0x02.
Definition CMOS_BOOT_KERN_NET : Z := 0x03.
Definition CMOS_BOOT_KERN_MASK : Z := 0x0F.
Definition CMOS_BOOT_KERN_INVALID : Z := 0x0F.
Definition CMOS_BOOT_FS_DEV : Z := 0x10.
Definition CMOS_BOOT_FS_NET : Z := 0x30.
Definition CMOS_BOOT_FS_MASK : Z := 0xF0.
Definition CMOS_BOOT_FS_INVALID : Z := 0xF0.
Definition BOOT_OPT_BFD : Z := Z.lor CMOS_BOOT_KERN_DEV CMOS_BOOT_FS_DEV.
Definition BOOT_OPT_BFR : Z := Z.lor CMOS_BOOT_KERN_ROM CMOS_BOOT_FS_DEV.
Definition BOOT_OPT_BFN : Z := Z.lor CMOS_BOOT_KERN_ROM CMOS_BOOT_FS_NET.
Definition BOOT_OPT_BFNN : Z := Z.lor CMOS_BOOT_KERN_NET CMOS_BOOT_FS_NET.
Definition BOOT_OPT_MASK : Z := Z.lor CMOS_BOOT_KERN_MASK CMOS_BOOT_FS_MASK.
Definition BOOT_OPT_OTHER : Z := Z.lor CMOS_BOOT_KERN_INVALID CMOS_BOOT_FS_INVALID.
Definition CMOS_BOOT_METHOD_ROM : Z := 1.
Definition CMOS_BOOT_METHOD_NET : Z := 2.
Definition CMOS_BOOT_METHOD_OTHER : Z := 4.
Definition EBADNUMARGS : Z := -11.
Definition EBADNUM : Z := -12.
Definition EBADARG : Z := -13.

Definition RAM_DECOMP_AREA : Z := 0x01000000.
Definition RAM_DECOMP_AREA_MAX : Z := RAM_DECOMP_AREA + 0x00600000.
Definition RAMCODE_END : Z := 0x02000000.
Definition BOGO_SEC : Z := 0x0003F940.
Definition CL_OFF : Z := 0x800.
Definition PAGE_SIZE : nat := Z.to_nat 0x1000.
Definition LINUX_MAGIC : Z := 0xA33F.
Definition CONSOLE_DEF : list Z := chars "ttyS0,115200".
Definition CONSOLE_OFF : list Z := chars "/dev/null".
Definition SHUTDOWN_CODE : Z := 0xf.
Definition WARM_RESET_VECTOR_LO : Z := 0x467.
Definition WARM_RESET_VECTOR_HI : Z := 0x469.
Definition LINUX_ENTRY_ADDR : Z := 0x100000.
Definition LINUX_ENTRY_STACK : Z := 0x90000.
Definition GDT_MEM : Z := 0x500.
#[global] Arguments PAGE_SIZE : simpl never.

Definition gdt_data : list Z :=
  [0x00000000; 0x00000000; 0x0000ffff; 0x008f9300; 0x0000ffff; 0x00cf9b00; 0x0000ffff; 0x00cf9300].

(** The functions that a kernel which loads another one may return to. *)
Inductive return_func_t := bfd_linux_fn | bfn_linux_fn | bfd_netbsd_fn.
(** [lcd_set_font], [lcd_set_cur_pos], [lcd_write_char], [lcd_write_str] and [lcd_clear]. *)
Inductive lcd_op := Font (n : Z) | Pos (p : Z) | Char (c : Z) | Str (s : list Z) | Clear.

(** What the boot code uses of the machine.  [serial_inb] gives no character when none ever
    comes.  The decompressors say whether they succeeded, and give the bytes they have stored
    from [RAM_DECOMP_AREA] on. *)
Class Around (W : Type) := {
  printf : list Z -> list arg -> W -> W;
  lcd : lcd_op -> W -> W;
  enable_caches : W -> W;
  eeprom_set_bank_page : Z -> Z -> W -> W;
  eth_get_first_mac : W -> list Z;
  eth_wol_setup : W -> W;
  serial_inb : W -> option (Z * W);
  serial_inb_timeout : Z -> W -> option Z * W;
  BZ2_bzBuffToBuffDecompress : list Z -> bool * list Z;
  uncompress_kernel : memory -> Z -> bool * list Z;
}.

(** The addresses that are fixed when the ROM is linked, and the titles of the display. *)
Record settings := mk_settings {
  mem_size : Z;
  title1 : list Z; title2 : list Z;
  RAM_RAMCODE_ADDR : Z; RAM_MONITOR_ADDR : Z;
  return_from_kernel_at : Z; return_data_at : Z;
  layout : elf_layout;
}.
Definition RAMCODE_START (c : settings) : Z := RAM_RAMCODE_ADDR c.
Definition RAM_MONITOR_CODE (c : settings) : Z := RAM_MONITOR_ADDR c.
Definition RAM_MONITOR_MAX (c : settings) : Z := RAMCODE_START c + 0x100000.
Definition RAM_SERIAL_LOAD (c : settings) : Z := RAM_MONITOR_MAX c.
Definition RAM_SERIAL_LOAD_MAX (c : settings) : Z := RAM_SERIAL_LOAD c + 0x400000.
Definition MEMSIZE_DEFAULT (c : settings) : Z := Z.shiftr (RAMCODE_START c) 20.

(** A file has less than 2^20 + 2 blocks. *)
Definition LOAD_FUEL : nat := Z.to_nat 1048578.
(** The bytes of a segment, and of a download, and the values of an unsigned char. *)
Definition SPACE_FUEL : nat := Z.to_nat 0x100000000.
Definition CTR_FUEL : nat := 257.
#[global] Arguments LOAD_FUEL : simpl never.
#[global] Arguments SPACE_FUEL : simpl never.
#[global] Arguments CTR_FUEL : simpl never.

Section Boot.
Context {St : Type} `{BlockLayer St} {hw : Type} `{!Ports hw} {W : Type} `{!Around W}.
Context (malloc : Z -> option (list Z)) (c : settings).

Record boot_state := mk_boot {
  around : W; mach : rom hw; files : fs St; ram : memory;
  kernel_image : list Z; boot_opt : Z; boot_fcn : return_func_t;
  root_device : Z; load_device : Z;
  boot_params : option (list Z); load_params : option (list Z);
  mem_limit : Z; serial_load_size : Z; kernel_start_addr : Z;
  return_from_load_func : option return_func_t;
  return_data_error : Z; return_data_flen : Z;
}.

Definition set_around w s := mk_boot w (mach s) (files s) (ram s) (kernel_image s) (boot_opt s) (boot_fcn s) (root_device s) (load_device s) (boot_params s) (load_params s) (mem_limit s) (serial_load_size s) (kernel_start_addr s) (return_from_load_func s) (return_data_error s) (return_data_flen s).
Definition set_mach r s := mk_boot (around s) r (files s) (ram s) (kernel_image s) (boot_opt s) (boot_fcn s) (root_device s) (load_device s) (boot_params s) (load_params s) (mem_limit s) (serial_load_size s) (kernel_start_addr s) (return_from_load_func s) (return_data_error s) (return_data_flen s).
Definition set_files f s := mk_boot (around s) (mach s) f (ram s) (kernel_image s) (boot_opt s) (boot_fcn s) (root_device s) (load_device s) (boot_params s) (load_params s) (mem_limit s) (serial_load_size s) (kernel_start_addr s) (return_from_load_func s) (return_data_error s) (return_data_flen s).
Definition set_ram m s := mk_boot (around s) (mach s) (files s) m (kernel_image s) (boot_opt s) (boot_fcn s) (root_device s) (load_device s) (boot_params s) (load_params s) (mem_limit s) (serial_load_size s) (kernel_start_addr s) (return_from_load_func s) (return_data_error s) (return_data_flen s).
Definition set_image k s := mk_boot (around s) (mach s) (files s) (ram s) k (boot_opt s) (boot_fcn s) (root_device s) (load_device s) (boot_params s) (load_params s) (mem_limit s) (serial_load_size s) (kernel_start_addr s) (return_from_load_func s) (return_data_error s) (return_data_flen s).
Definition set_opt o s := mk_boot (around s) (mach s) (files s) (ram s) (kernel_image s) o (boot_fcn s) (root_device s) (load_device s) (boot_params s) (load_params s) (mem_limit s) (serial_load_size s) (kernel_start_addr s) (return_from_load_func s) (return_data_error s) (return_data_flen s).
Definition set_fcn f s := mk_boot (around s) (mach s) (files s) (ram s) (kernel_image s) (boot_opt s) f (root_device s) (load_device s) (boot_params s) (load_params s) (mem_limit s) (serial_load_size s) (kernel_start_addr s) (return_from_load_func s) (return_data_error s) (return_data_flen s).
Definition set_root d s := mk_boot (around s) (mach s) (files s) (ram s) (kernel_image s) (boot_opt s) (boot_fcn s) d (load_device s) (boot_params s) (load_params s) (mem_limit s) (serial_load_size s) (kernel_start_addr s) (return_from_load_func s) (return_data_error s) (return_data_flen s).
Definition set_load d s := mk_boot (around s) (mach s) (files s) (ram s) (kernel_image s) (boot_opt s) (boot_fcn s) (root_device s) d (boot_params s) (load_params s) (mem_limit s) (serial_load_size s) (kernel_start_addr s) (return_from_load_func s) (return_data_error s) (return_data_flen s).
Definition set_boot_params p s := mk_boot (around s) (mach s) (files s) (ram s) (kernel_image s) (boot_opt s) (boot_fcn s) (root_device s) (load_device s) p (load_params s) (mem_limit s) (serial_load_size s) (kernel_start_addr s) (return_from_load_func s) (return_data_error s) (return_data_flen s).
Definition set_load_params p s := mk_boot (around s) (mach s) (files s) (ram s) (kernel_image s) (boot_opt s) (boot_fcn s) (root_device s) (load_device s) (boot_params s) p (mem_limit s) (serial_load_size s) (kernel_start_addr s) (return_from_load_func s) (return_data_error s) (return_data_flen s).
Definition set_limit n s := mk_boot (around s) (mach s) (files s) (ram s) (kernel_image s) (boot_opt s) (boot_fcn s) (root_device s) (load_device s) (boot_params s) (load_params s) n (serial_load_size s) (kernel_start_addr s) (return_from_load_func s) (return_data_error s) (return_data_flen s).
Definition set_load_size n s := mk_boot (around s) (mach s) (files s) (ram s) (kernel_image s) (boot_opt s) (boot_fcn s) (root_device s) (load_device s) (boot_params s) (load_params s) (mem_limit s) n (kernel_start_addr s) (return_from_load_func s) (return_data_error s) (return_data_flen s).
Definition set_start a s := mk_boot (around s) (mach s) (files s) (ram s) (kernel_image s) (boot_opt s) (boot_fcn s) (root_device s) (load_device s) (boot_params s) (load_params s) (mem_limit s) (serial_load_size s) a (return_from_load_func s) (return_data_error s) (return_data_flen s).
Definition set_return f s := mk_boot (around s) (mach s) (files s) (ram s) (kernel_image s) (boot_opt s) (boot_fcn s) (root_device s) (load_device s) (boot_params s) (load_params s) (mem_limit s) (serial_load_size s) (kernel_start_addr s) f (return_data_error s) (return_data_flen s).
Definition set_return_error e s := mk_boot (around s) (mach s) (files s) (ram s) (kernel_image s) (boot_opt s) (boot_fcn s) (root_device s) (load_device s) (boot_params s) (load_params s) (mem_limit s) (serial_load_size s) (kernel_start_addr s) (return_from_load_func s) e (return_data_flen s).
Definition set_return_flen n s := mk_boot (around s) (mach s) (files s) (ram s) (kernel_image s) (boot_opt s) (boot_fcn s) (root_device s) (load_device s) (boot_params s) (load_params s) (mem_limit s) (serial_load_size s) (kernel_start_addr s) (return_from_load_func s) (return_data_error s) n.

(** How a computation ends: [Linux] jumps to [LINUX_ENTRY_ADDR], [NetBSD] calls
    [kernel_start_addr] and [Monitor] an entry point, both with arguments; [Hung] is a loop
    without end or a halted processor. *)
Inductive outcome (A : Type) :=
  | Ret (a : A) (s : boot_state)
  | Linux (s : boot_state)
  | NetBSD (args : list Z) (s : boot_state)
  | Monitor (entry : Z) (args : list Z) (s : boot_state)
  | Hung (s : boot_state).
#[global] Arguments Ret {A} a s.
#[global] Arguments Linux {A} s.
#[global] Arguments NetBSD {A} args s.
#[global] Arguments Monitor {A} entry args s.
#[global] Arguments Hung {A} s.

Definition B (A : Type) : Type := boot_state -> option (outcome A).
#[global] Instance B_ret : MRet B := fun A a s => Some (Ret a s).
#[global] Instance B_bind : MBind B := fun A A' k m s =>
  match m s with
  | Some (Ret a s) => k a s
  | Some (Linux s) => Some (Linux s)
  | Some (NetBSD l s) => Some (NetBSD l s)
  | Some (Monitor e l s) => Some (Monitor e l s)
  | Some (Hung s) => Some (Hung s)
  | None => None
  end.

Definition get_ {A} (f : boot_state -> A) : B A := fun s => Some (Ret (f s) s).
Definition put_ (f : boot_state -> boot_state) : B unit := fun s => Some (Ret tt (f s)).
Definition undefined {A} : B A := fun _ => None.
Definition hung {A} : B A := fun s => Some (Hung s).
Definition do_around (f : W -> W) : B unit := put_ (fun s => set_around (f (around s)) s).
Definition do_mach {A} (f : CmosIo.St (rom hw) A) : B A :=
  fun s => let '(a, r) := f (mach s) in Some (Ret a (set_mach r s)).
Definition do_files {A} (f : fs St -> A * fs St) : B A :=
  fun s => let '(a, t) := f (files s) in Some (Ret a (set_files t s)).
Definition store (a : Z) (bs : list Z) : B unit := put_ (fun s => set_ram (stored a bs (ram s)) s).
Definition say (fmt : list Z) (args : list arg) : B unit := do_around (printf (fmt ++ [0]) args).
Definition line (text : String.string) : B unit := say (chars text ++ [10]) [].
Definition show (ops : list lcd_op) : B unit := do_around (fun w => foldl (fun w o => lcd o w) w ops).

(** The characters from an address on. *)
Definition bytes_at (m : memory) (a : Z) (n : Z) : list Z := get m a (Z.to_nat n).

(** ** common/fs.c *)

Fixpoint load_loop (fuel : nat) (fp : CO_FILE) (total_read : Z) : B Z :=
  match fuel with
  | O => undefined
  | S fuel =>
    '(n, buff, fp) ← do_files (fun t => crfs_read t fp CRFS_BLOCK_SIZE);
    if n =? 0 then mret total_read
    else if n <? 0 then undefined
    else
      store (RAM_SERIAL_LOAD c + total_read) (take (Z.to_nat n) buff);;
      load_loop fuel fp (total_read + n)
  end.

(** The buffer has room for ".bz2" and the NUL behind a name of less than [CRFS_BLOCK_SIZE] - 4. *)
Definition load_from_romfs (fname : list Z) : B Z :=
  fp ← (if Z.of_nat (length fname) <? CRFS_BLOCK_SIZE - 4
        then do_files (fun t => crfs_open t (fname ++ chars ".bz2")) else mret None);
  let compressed := match fp with Some _ => true | None => false end in
  fp ← match fp with Some fp => mret (Some fp) | None => do_files (fun t => crfs_open t fname) end;
  match fp with
  | None => say (chars "Can't open crfs file " ++ [34; 37; 115; 34; 10]) [AStr (Some fname)];; mret (-1)
  | Some fp =>
    total_read ← load_loop LOAD_FUEL fp 0;
    if compressed then
      data ← get_ (fun s => bytes_at (ram s) (RAM_SERIAL_LOAD c) total_read);
      let '(ok, bytes) := BZ2_bzBuffToBuffDecompress (W := W) data in
      store RAM_DECOMP_AREA bytes;;
      if ok : bool then
        store (RAM_SERIAL_LOAD c) bytes;;
        put_ (set_load_size (Z.of_nat (length bytes)));; mret (Z.of_nat (length bytes))
      else line "Error bunziping monitor:";; mret (-1)
    else put_ (set_load_size total_read);; mret total_read
  end.

(** ** common/boot_main.c: the kernel image *)

Definition L : elf_layout := layout c.

(** The copy and the zeros; the sizes are read again each time. *)
Fixpoint copy_segment (fuel : nat) (m : memory) (phdr dest src ctr : Z) : option (memory * Z) :=
  if ctr <? read32 m (phdr + p_filesz L) then
    match fuel with
    | O => None
    | S fuel => copy_segment fuel (upd m dest (m src)) phdr (u32 (dest + 1)) (u32 (src + 1)) (ctr + 1)
    end
  else Some (m, dest).
Fixpoint zero_segment (fuel : nat) (m : memory) (phdr dest ctr : Z) : option memory :=
  if ctr <? read32 m (phdr + p_memsz L) then
    match fuel with
    | O => None
    | S fuel => zero_segment fuel (upd m dest 0) phdr (u32 (dest + 1)) (ctr + 1)
    end
  else Some m.

Definition relocate_and_zero (phdr : Z) : B unit :=
  m ← get_ ram;
  if read32 m (phdr + p_filesz L) =? 0 then
    say (chars "ERROR: cannot relocate with filesize %d" ++ [10]) [AWord 0]
  else
    let dest := Z.land (read32 m (phdr + p_vaddr L)) 0x00ffffff in
    let src := u32 (RAM_DECOMP_AREA + read32 m (phdr + p_offset L)) in
    match copy_segment SPACE_FUEL m phdr dest src 0 with
    | None => undefined
    | Some (m, dest) =>
      if read32 m (phdr + p_filesz L) <? read32 m (phdr + p_memsz L) then
        match zero_segment SPACE_FUEL m phdr dest (read32 m (phdr + p_filesz L)) with
        | None => undefined
        | Some m => put_ (set_ram m)
        end
      else put_ (set_ram m)
    end.

(** The counter is an unsigned char. *)
Fixpoint header_loop (fuel : nat) (addr ctr : Z) : B unit :=
  m ← get_ ram;
  if ctr <? read16 m (addr + e_phnum L) then
    match fuel with
    | O => undefined
    | S fuel =>
      relocate_and_zero (u32 (addr + read32 m (addr + e_phoff L) + read16 m (addr + e_phentsize L) * ctr));;
      header_loop fuel addr (u8 (ctr + 1))
    end
  else mret tt.
Definition extract_header_info (addr : Z) : B unit :=
  header_loop CTR_FUEL addr 0;;
  m ← get_ ram;
  put_ (set_start (Z.land (read32 m (addr + e_entry L)) 0xffffff)).

Definition reset_lcd_for_boot : B unit :=
  show [Font 3;
        Pos 0x00; Char 0x00; Char 0x01; Char 0x02; Char 0x03; Str (chars "                ");
        Pos 0x04; Str (title1 c);
        Pos 0x40; Char 0x04; Char 0x05; Char 0x06; Char 0x07; Str (chars "                ");
        Pos 0x44; Str (title2 c)].

Fixpoint dl_loop (fuel : nat) (limit : option Z) (inbyte ctr : Z) : B Z :=
  match fuel with
  | O => undefined
  | S fuel =>
    store (RAM_SERIAL_LOAD c + ctr) [inbyte];;
    let ctr := ctr + 1 in
    (if ctr mod 0x400 =? 0 then say ([13] ++ chars "%dk") [AWord (Z.shiftr ctr 10)] else mret tt);;
    r ← (fun s => let '(r, w) := serial_inb_timeout (8 * BOGO_SEC) (around s) in Some (Ret r (set_around w s)));
    match r with
    | Some b =>
      if match limit with Some max => RAM_SERIAL_LOAD c + ctr <? max | None => true end
      then dl_loop fuel limit b ctr else mret ctr
    | None => mret ctr
    end
  end.

Definition read_byte : B Z :=
  fun s => match serial_inb (around s) with
           | Some (b, w) => Some (Ret b (set_around w s))
           | None => Some (Hung s)
           end.

Definition dl_kernel : B unit :=
  line "Loading Kernel...";;
  inbyte ← read_byte;
  ctr ← dl_loop SPACE_FUEL None inbyte 0;
  put_ (set_load_size ctr);;
  say ([13] ++ chars "%dk done" ++ [10]) [AWord (Z.shiftr ctr 10)].

Definition bunzip2_kernel : B unit :=
  do_around enable_caches;;
  reset_lcd_for_boot;;
  say (chars "Decompressing -") [];;
  data ← get_ (fun s => bytes_at (ram s) (RAM_SERIAL_LOAD c) (serial_load_size s));
  let '(ok, bytes) := BZ2_bzBuffToBuffDecompress (W := W) data in
  store RAM_DECOMP_AREA bytes;;
  let finish := say ([8] ++ chars "- done" ++ [10]) [];; extract_header_info RAM_DECOMP_AREA in
  if ok : bool then finish
  else
    line "Error bunzip2ing kernel. Trying gunzip.";;
    m ← get_ ram;
    let '(ok, bytes) := uncompress_kernel (W := W) m (RAM_SERIAL_LOAD c) in
    store RAM_DECOMP_AREA bytes;;
    if ok : bool then finish else line "Error gunziping kernel. Giving up.".

(** ** common/x86-boot.c *)

(** [snprintf] into memory; nothing is written when the text cannot be made. *)
Definition snprintf_at (a maxlen : Z) (fmt : list Z) (args : list arg) : B unit :=
  old ← get_ (fun s => bytes_at (ram s) a maxlen);
  match snprintf malloc old maxlen (fmt ++ [0]) args with
  | Some (_, b, _) => match buf b with Some m => store a m | None => undefined end
  | None => undefined
  end.

(** A string that may be NULL, or is empty for it. *)
Definition or_empty (p : option (list Z)) : list Z := match p with Some p => p | None => [] end.

Definition var_ (f : cmos_vars -> Z) : B Z := get_ (fun s => f (vars (mach s))).

(** The command line; a [params] of the code is the text in front of [load_params] or [boot_params]. *)
Definition command_line (stage : Z) (params : list Z) (kernel_image : list Z) : B unit :=
  console ← var_ console; debug ← var_ debug;
  let clp := LINUX_ENTRY_STACK + CL_OFF in
  let str t := AStr (Some t) in
  let dbg := str (if debug =? 0 then [] else chars " debug") in
  if stage =? BOOT_STAGE_LOAD then
    p ← get_ load_params;
    snprintf_at clp 2048
      (chars "console=%s%s mem=%dM cobalt_boot_image=%s cobalt_boot_return=0x%0x " ++
       chars "cobalt_boot_data=0x%0x cobalt_boot_load=0x%0x cobalt_ramcode_map=0x%0x,0x%0x %s%s")
      [str (if (console =? 0) || (debug =? 0) then CONSOLE_OFF else CONSOLE_DEF); dbg;
       AWord (MEMSIZE_DEFAULT c); str kernel_image; AWord (return_from_kernel_at c);
       AWord (return_data_at c); AWord (RAM_SERIAL_LOAD c);
       AWord (RAMCODE_START c); AWord (u32 (RAMCODE_END - RAMCODE_START c)); str params; str (or_empty p)]
  else
    p ← get_ boot_params; limit ← get_ mem_limit;
    let con := str (if console =? 0 then CONSOLE_OFF else CONSOLE_DEF) in
    if limit =? 0 then
      snprintf_at clp 2048 (chars "console=%s%s %s%s") [con; dbg; str params; str (or_empty p)]
    else
      snprintf_at clp 2048 (chars "console=%s%s mem=%dM %s%s") [con; dbg; AWord (u32 limit); str params; str (or_empty p)].

(** The zero page; [p] is a pointer to char where the vector is set. *)
Definition setup_boot_linux (stage : Z) (params kernel_image : list Z) : B unit :=
  let boot_sect := LINUX_ENTRY_STACK in
  let reset := RAM_MONITOR_CODE c in
  store SHUTDOWN_CODE [0xa];;
  store WARM_RESET_VECTOR_LO [u8 (Z.land reset 0xffff)];;
  store WARM_RESET_VECTOR_HI [u8 (Z.land (Z.shiftr reset 16) 0xffff)];;
  do_around enable_caches;;
  store boot_sect (zeros PAGE_SIZE);;
  let above := u32 (Z.shiftr (mem_size c) 10 - 1024) in
  store (boot_sect + 0x002) (le_bytes 2 above);;
  store (boot_sect + 0x1E0) (le_bytes 4 above);;
  store (boot_sect + 0x1F1) [0x4];;
  store (boot_sect + 0x1F2) (le_bytes 2 0x1);;
  store (boot_sect + 0x210) [0xff];;
  root ← get_ root_device;
  store (boot_sect + 0x1FC) (le_bytes 2 root);;
  store (boot_sect + 0x214) (le_bytes 4 LINUX_ENTRY_ADDR);;
  store (boot_sect + 0x020) (le_bytes 2 LINUX_MAGIC);;
  store (boot_sect + 0x022) (le_bytes 2 CL_OFF);;
  store (boot_sect + 0x211) [0x01];;
  (if stage =? BOOT_STAGE_LOAD then
     dev ← get_ load_device; store (boot_sect + 0x1FC) (le_bytes 2 dev)
   else mret tt);;
  command_line stage params kernel_image;;
  do_around (eeprom_set_bank_page 0 0).

Definition START_LINUX : B unit := fun s => Some (Linux s).

Definition read_kernel_from_disk (kernel_image : list Z) (return_func : return_func_t) : B unit :=
  put_ (set_return (Some return_func));;
  setup_boot_linux BOOT_STAGE_LOAD (chars "ip=off ") kernel_image;;
  START_LINUX.

(** [str] is a local buffer of 100 bytes, of which [snprintf] uses no contents. *)
Definition nfsroot : B (list Z) :=
  unique_root ← var_ unique_root; bto_ip ← var_ bto_ip; mac ← get_ (fun s => eth_get_first_mac (around s));
  let pre := "ip=on root=/dev/nfs nfsroot=" in
  let octet n := AWord (Z.land (Z.shiftr bto_ip n) 0xff) in
  let ip := [octet 24; octet 16; octet 8; octet 0] in
  let unique := negb (unique_root =? 0) in let bto := negb (bto_ip =? 0) in
  let '(fmt, args) :=
    if unique && bto then (chars pre ++ chars "%d.%d.%d.%d:/nfsroot-x86-%s,rsize=8192 ", ip ++ [AStr (Some mac)])
    else if unique then (chars pre ++ chars "/nfsroot-x86-%s,rsize=8192 ", [AStr (Some mac)])
    else if bto then (chars pre ++ chars "%d.%d.%d.%d:/nfsroot-x86,rsize=8192 ", ip)
    else (chars pre ++ chars "/nfsroot-x86,rsize=8192 ", []) in
  match snprintf malloc (zeros 100) 100 (fmt ++ [0]) args with
  | Some (_, b, _) => match buf b with Some m => mret (cstr m) | None => undefined end
  | None => undefined
  end.

Definition setup_net_boot (type : Z) (kernel_image : list Z) (return_func : return_func_t) : B unit :=
  put_ (set_return (Some return_func));;
  str ← nfsroot;
  setup_boot_linux type str kernel_image;;
  START_LINUX.

Definition boot_kernel_linux : B unit :=
  setup_boot_linux BOOT_STAGE_RUN (chars "ip=off ") [];;
  START_LINUX.

Definition start_netbsd (args : list Z) : B unit := fun s => Some (NetBSD args s).
Definition boot_kernel_netbsd : B unit :=
  entry ← get_ kernel_start_addr;
  let flags := Z.lor 0x02 (Z.lor 0x800 0x1000) in
  let ext := u32 (Z.shiftr (mem_size c) 10 - 1) in
  say ([10] ++ chars "Booting NetBSD:" ++ [10]) [];;
  say (chars "     Entry: 0x%0x" ++ [10]) [AWord entry];;
  say (chars "     Flags: 0x%0x" ++ [10]) [AWord flags];;
  say (chars "   Low Mem: %d Kb" ++ [10]) [AWord (640 - 1)];;
  say (chars "   Ext Mem: %d Kb" ++ [10]) [AWord ext];;
  say ([10] ++ chars "jumping to kernel..." ++ [10]) [];;
  start_netbsd [flags; 0; 0; 0; ext; 640 - 1].

Definition set_mem_limit (limit : Z) : B unit := put_ (set_limit limit).

(** ** common/boot_main.c: what is booted *)

Definition set_kernel_image (image : option (list Z)) : B unit :=
  match image with Some k => put_ (set_image k) | None => mret tt end;;
  root ← do_mach cmos_read_root_dev; put_ (set_root root);;
  load ← do_mach cmos_read_boot_dev; put_ (set_load load).

Definition set_boot_opt (mask method : Z) : B unit :=
  put_ (fun s => set_opt (Z.lor (Z.land (boot_opt s) (Z.lnot mask)) (Z.land method mask)) s).

Definition net_boot (type : Z) : B unit :=
  image ← get_ kernel_image; f ← get_ boot_fcn; setup_net_boot type image f.

Definition boot_prep : B Z :=
  do_around enable_caches;;
  reset_lcd_for_boot;;
  r ← load_from_romfs ROM_KERNEL;
  if r <? 0 then mret (-1)
  else say (chars "First stage kernel (Linux): ") [];; bunzip2_kernel;; mret 0.

Definition do_bfd_netbsd : B Z :=
  r ← boot_prep;
  if r <? 0 then mret (-1)
  else image ← get_ kernel_image; read_kernel_from_disk image bfd_netbsd_fn;; mret (-4).

Definition return_func_eqb (f g : return_func_t) : bool :=
  match f, g with
  | bfd_linux_fn, bfd_linux_fn | bfn_linux_fn, bfn_linux_fn | bfd_netbsd_fn, bfd_netbsd_fn => true
  | _, _ => false
  end.

Definition do_bfX (options : Z) : B Z :=
  r ← boot_prep;
  if r <? 0 then mret (-1)
  else
    (if negb (options =? BOOT_OPT_OTHER) then set_boot_opt BOOT_OPT_MASK options else mret tt);;
    put_ (fun s => set_fcn (if Z.land (boot_opt s) CMOS_BOOT_FS_MASK =? CMOS_BOOT_FS_NET
                            then bfn_linux_fn else bfd_linux_fn) s);;
    opt ← get_ boot_opt; f ← get_ boot_fcn; image ← get_ kernel_image;
    let options := Z.land opt CMOS_BOOT_KERN_MASK in
    (if options =? CMOS_BOOT_KERN_ROM then
       if return_func_eqb f bfn_linux_fn then net_boot BOOT_STAGE_RUN else boot_kernel_linux
     else if options =? CMOS_BOOT_KERN_NET then net_boot BOOT_STAGE_LOAD
     else read_kernel_from_disk image f);;
    mret (-2).

Definition bfd_netbsd : B unit :=
  say (chars "Second stage kernel (NetBSD): ") [];;
  put_ (fun s => set_load_size (u32 (return_data_flen s)) s);;
  bunzip2_kernel;;
  boot_kernel_netbsd.

Definition bfX_linux_prep : B unit :=
  error ← get_ return_data_error;
  (if error <? 0 then
     line "Second stage load failed.  Booting ROM kernel...";;
     show [Pos 0x04; Str (chars "Failed! Boot"); Pos 0x44; Str (chars "ing from ROM")];;
     r ← load_from_romfs ROM_KERNEL;
     if r <? 0 then
       line "Can't Load ROM kernel!!!!";;
       show [Pos 0x04; Str (chars "ROM Boot    "); Pos 0x44; Str (chars "Failed!     ")];;
       hung
     else mret tt
   else
     say (chars "Second stage kernel: ") [];;
     show [Pos 0x44; Char 0xff; Char 0xff; Char 0xff; Char 0xff; Char 0xff; Char 0xff; Char 0xff; Str (chars "      ")];;
     put_ (fun s => set_load_size (u32 (return_data_flen s)) s));;
  bunzip2_kernel.
Definition bfd_linux : B unit := bfX_linux_prep;; boot_kernel_linux.
Definition bfn_linux : B unit := bfX_linux_prep;; net_boot BOOT_STAGE_RUN.

(** What a loader kernel calls when it is done; the segment registers are not modelled. *)
Definition return_from_kernel : B unit :=
  store GDT_MEM (concat (map (le_bytes 4) gdt_data));;
  f ← get_ return_from_load_func;
  match f with
  | None => undefined
  | Some bfd_linux_fn => bfd_linux
  | Some bfn_linux_fn => bfn_linux
  | Some bfd_netbsd_fn => bfd_netbsd
  end.

Definition boot_methods : list (String.string * Z) :=
  [("From disk", BOOT_OPT_BFD); ("From ROM", BOOT_OPT_BFR); ("From network", BOOT_OPT_BFN);
   ("From network (kernel)", BOOT_OPT_BFNN); ("From settings", BOOT_OPT_OTHER)]%string.

Definition boot_default : B Z :=
  i ← var_ boot_method;
  match boot_methods !! Z.to_nat i with
  | None => undefined
  | Some (desc, arg) =>
    say (chars "Booting default method - %s" ++ [10; 10]) [AStr (Some (chars desc))];; do_bfX arg
  end.
(** ** monitor/boot.c: commands

    [argv] has the arguments; [None] is an access beyond it.  A name given to
    [set_kernel_image] stays in the line that was typed; what is kept here is the text it had. *)

Definition argv_ (argv : list (list Z)) (i : nat) : B (list Z) :=
  match argv !! i with Some a => mret a | None => undefined end.
Definition argc (argv : list (list Z)) : Z := Z.of_nat (length argv).
(** [*argv[i]]; the string ends with NUL. *)
Definition first_char (a : list Z) : Z := default 0 (head a).

Definition bfX_func (argv : list (list Z)) : B Z :=
  if 3 <? argc argv then mret EBADNUMARGS
  else
    (if 1 <? argc argv then
       a ← argv_ argv 1;
       let ch := first_char a in
       let i := if ch =? 100 then CMOS_BOOT_KERN_DEV else if ch =? 114 then CMOS_BOOT_KERN_ROM
                else if ch =? 110 then CMOS_BOOT_KERN_NET else 0 in
       if negb (i =? 0) then set_boot_opt CMOS_BOOT_KERN_MASK i else mret tt
     else mret tt);;
    (if 2 <? argc argv then
       a ← argv_ argv 2;
       let ch := first_char a in
       let i := if ch =? 100 then CMOS_BOOT_FS_DEV else if ch =? 110 then CMOS_BOOT_FS_NET else 0 in
       if negb (i =? 0) then set_boot_opt CMOS_BOOT_FS_MASK i else mret tt
     else mret tt);;
    do_bfX BOOT_OPT_OTHER.

(** A command without arguments. *)
Definition alone {A} (argv : list A) (r : B Z) : B Z :=
  if negb (Z.of_nat (length argv) =? 1) then mret EBADNUMARGS else r.
Definition bfr_func (argv : list (list Z)) : B Z := alone argv (do_bfX BOOT_OPT_BFR).
Definition boot_netbsd_func (argv : list (list Z)) : B Z :=
  if argc argv =? 1 then set_kernel_image (Some BOOT_KERNEL_NETBSD);; do_bfd_netbsd
  else if argc argv =? 2 then a ← argv_ argv 1; set_kernel_image (Some a);; do_bfd_netbsd
  else mret EBADNUMARGS.
Definition bfd_func (argv : list (list Z)) : B Z :=
  (if argc argv =? 2 then a ← argv_ argv 1; set_kernel_image (Some a) else mret tt);;
  do_bfX BOOT_OPT_BFD.
Definition bfn_func (argv : list (list Z)) : B Z := alone argv (do_bfX BOOT_OPT_BFN).
Definition bfnn_func (argv : list (list Z)) : B Z := alone argv (do_bfX BOOT_OPT_BFNN).
Definition load_kernel_func (argv : list (list Z)) : B Z :=
  alone argv (dl_kernel;; bunzip2_kernel;; boot_kernel_linux;; mret 0).
Definition dl_kernel_func (argv : list (list Z)) : B Z := alone argv (dl_kernel;; mret 0).
Definition bunzip2_kernel_func (argv : list (list Z)) : B Z := alone argv (bunzip2_kernel;; mret 0).
Definition net_kernel_func (argv : list (list Z)) : B Z := alone argv (net_boot BOOT_STAGE_RUN;; mret 0).
Definition boot_kernel_func (argv : list (list Z)) : B Z := alone argv (boot_kernel_linux;; mret 0).
Definition boot_func (argv : list (list Z)) : B Z := alone argv (boot_kernel_linux;; mret 0).
Definition boot_default_func (argv : list (list Z)) : B Z := alone argv boot_default.
Definition hlt_func (argv : list (list Z)) : B Z := alone argv hung.

(** [strdup]; NULL when there is no memory. *)
Definition strdup_ (a : list Z) : option (list Z) :=
  match malloc (Z.of_nat (length a) + 1) with Some _ => Some a | None => None end.
Definition set_params_func (argv : list (list Z)) : B Z :=
  if negb (argc argv =? 2) then mret EBADNUMARGS
  else a ← argv_ argv 1; put_ (set_boot_params (strdup_ a));; mret 0.
Definition set_load_params_func (argv : list (list Z)) : B Z :=
  if negb (argc argv =? 2) then mret EBADNUMARGS
  else a ← argv_ argv 1; put_ (set_load_params (strdup_ a));; mret 0.

(** [stoli] may write to the string. *)
Definition set_mem_limit_func (argv : list (list Z)) : B Z :=
  if negb (argc argv =? 2) then mret EBADNUMARGS
  else
    a ← argv_ argv 1;
    match stoli (a ++ [0]) 0 with
    | None => undefined
    | Some (r, limit, _) => if negb (r =? 0) then mret EBADNUM else set_mem_limit (s32 limit);; mret 0
    end.

(** *** What is kept in the CMOS memory *)

Definition done : list lcd_op := [Pos 0x40; Str (chars "                "); Pos 0x40; Str (chars "done")].
(** The name of a method in the menu of the display, on the console, and its number. *)
Definition method_names : list (String.string * String.string * Z) :=
  [("From disk", "disk", CMOS_BOOT_METHOD_DISK); ("From ROM", "rom", CMOS_BOOT_METHOD_ROM);
   ("From network", "net", CMOS_BOOT_METHOD_NET); ("From net kernel", "netkernel", CMOS_BOOT_METHOD_NNET);
   ("From settings", "other", CMOS_BOOT_METHOD_OTHER)]%string.
Definition set_method_var (x : Z) (v : cmos_vars) : cmos_vars :=
  mk_cmos_vars (serial_num v) (console v) (debug v) x (auto_prompt v) (first_boot v) (clean_boot v)
    (show_logo v) (unique_root v) (sysfault v) (bto_ip v) (cmos_version v) (boot_type v) (cmos_flags v).
Definition set_method (x : Z) : CmosIo.St (rom hw) unit :=
  write_byte CMOS_BOOT_METHOD x;; Cmos.upd (set_method_var x);; cmos_set_checksum.
Definition find_method (f : String.string * String.string * Z -> String.string) (name : list Z) : option Z :=
  snd <$> List.find (fun e => str_eqb (cstr name) (chars (f e))) method_names.

Definition set_boot_method_func (argv : list (list Z)) : B Z :=
  if argc argv =? 1 then
    a ← argv_ argv 0;
    match find_method (fun e => fst (fst e)) a with
    | Some x => do_mach (set_method x);; show done;; mret 0
    | None => mret EBADARG
    end
  else if argc argv =? 2 then
    a ← argv_ argv 1;
    match find_method (fun e => snd (fst e)) a with
    | Some x => do_mach (set_method x);; mret 0
    | None => mret EBADARG
    end
  else mret EBADNUMARGS.

Definition read_boot_method_func (argv : list (list Z)) : B Z :=
  alone argv (
    i ← var_ boot_method;
    match boot_methods !! Z.to_nat i with
    | None => undefined
    | Some (desc, _) => say (chars "%s" ++ [10]) [AStr (Some (chars desc))];; mret 0
    end).

(** Both bytes of a device number. *)
Definition write_dev (at_maj at_min : Z) (d : boot_dev_t) : CmosIo.St (rom hw) unit :=
  write_byte at_maj (maj d);; write_byte at_min (min d);; cmos_set_checksum.

Definition set_root_dev_func (argv : list (list Z)) : B Z :=
  let finish d := do_mach (write_dev CMOS_ROOT_DEV_MAJ CMOS_ROOT_DEV_MIN d);; set_kernel_image None;; mret 0 in
  if argc argv =? 1 then
    a ← argv_ argv 0;
    match find_dev_by_name a with
    | None => mret EBADARG
    | Some d => show done;; finish d
    end
  else if argc argv =? 2 then
    a ← argv_ argv 1;
    match find_dev_by_name a with
    | None => line "Unknown boot device";; mret 0
    | Some d => finish d
    end
  else mret EBADNUMARGS.

Definition print_dev (unknown : String.string) (d : option boot_dev_t) : B Z :=
  match d with
  | None => line unknown;; mret 0
  | Some d => say (chars "%s" ++ [10]) [AStr (Some (dev_name d))];; mret 0
  end.
Definition read_root_dev_func (argv : list (list Z)) : B Z :=
  alone argv (n ← do_mach cmos_read_root_dev; print_dev "Unknown root device" (find_dev_by_num n)).

Definition set_boot_dev_func (argv : list (list Z)) : B Z :=
  if negb (argc argv =? 2) then mret EBADNUMARGS
  else
    a ← argv_ argv 1;
    match find_dev_by_name a with
    | None => line "Unknown boot device";; mret 0
    | Some d => do_mach (write_dev CMOS_BOOT_DEV_MAJ CMOS_BOOT_DEV_MIN d);; set_kernel_image None;; mret 0
    end.
Definition read_boot_dev_func (argv : list (list Z)) : B Z :=
  alone argv (n ← do_mach cmos_read_boot_dev; print_dev "Unknown boot device" (find_dev_by_num n)).
(** *** Power *)

Definition PNP_NS_INDEX_PORT : Z := 0x2e.
Definition PNP_NS_DATA_PORT : Z := 0x2f.
Definition PNP_NS_LOGICAL_DEV : Z := 0x07.
Definition PNP_NS_DEV_RAQXTR_RTC : Z := 0x02.
Definition PNP_NS_ADDR_HIGH : Z := 0x60.
Definition PNP_NS_ADDR_LOW : Z := 0x61.
Definition PNP_NS_APCR1 : Z := 0x40.

(** The calls that turn a Monterey board and an Alpine board off. *)
Definition halt_monterey : CmosIo.St (rom hw) unit :=
  outb PNP_NS_LOGICAL_DEV PNP_NS_INDEX_PORT;;
  outb PNP_NS_DEV_RAQXTR_RTC PNP_NS_DATA_PORT;;
  outb PNP_NS_ADDR_HIGH PNP_NS_INDEX_PORT;;
  hi ← inb PNP_NS_DATA_PORT;
  outb PNP_NS_ADDR_LOW PNP_NS_INDEX_PORT;;
  lo ← inb PNP_NS_DATA_PORT;
  let addr := Z.lor (Z.shiftl hi 8) lo in
  if addr =? 0 then mret tt
  else
    outb PNP_NS_RTC_CRA addr;;
    val ← inb (addr + 1);
    outb (Z.lor (Z.land val 0x8f) PNP_NS_RTC_BANK_2) (addr + 1);;
    outb PNP_NS_APCR1 addr;;
    val ← inb (addr + 1);
    outb (Z.lor 0x20 val) (addr + 1).
Definition halt_alpine : CmosIo.St (rom hw) unit :=
  each (fun val => outb 0xff (0x540 + val)) [0; 1; 2; 3];;
  outb 0x34 0x531.

Definition halt_func (argv : list (list Z)) : B Z :=
  alone argv (
    do_around eth_wol_setup;;
    m ← get_ mach;
    (if systype m =? SYSTYPE_3K then
       line "This system does not support software power-off.";; say [10] []
     else if systype m =? SYSTYPE_5K then
       line "Halting system - please wait.";; say [10] [];;
       if boardtype m =? BOARDTYPE_MONTEREY then do_mach halt_monterey
       else if boardtype m =? BOARDTYPE_ALPINE then do_mach halt_alpine
       else mret tt
     else mret tt);;
    mret 0).

(** ** monitor/fs.c *)

(** The entries of a directory; a NULL [de_name] does not occur, it is an array. *)
Fixpoint ls_loop (fuel : nat) (dirname : list Z) (dir : CO_DIR) : B CO_DIR :=
  match fuel with
  | O => undefined
  | S fuel =>
    '(de, dir) ← do_files (fun t => crfs_readdir t dir);
    match de with
    | None => mret dir
    | Some de =>
      if de_inode de =? 0 then mret dir
      else
        let name := cstr (de_name de) in
        let path := dirname ++ [47] ++ name in
        '(r, st) ← do_files (fun t => crfs_stat t path);
        e ← get_ (fun s => errno (files s));
        match st with
        | None => say (chars "can't crfs_stat(" ++ [34] ++ chars "%s" ++ [34] ++ chars "): %d" ++ [10]) [AStr (Some path); AWord (u32 e)]
        | Some st =>
          say (if negb (Z.land (st_fmask st) CRFS_FMASK_DIR =? 0) then chars "%8d %s/" ++ [10] else chars "%8d %s" ++ [10])
            [AWord (st_size st); AStr (Some name)]
        end;;
        ls_loop fuel dirname dir
    end
  end.
(** A directory has at most 64 entries. *)
Definition ls_func (argv : list (list Z)) : B Z :=
  if negb (argc argv =? 2) && negb (argc argv =? 1) then mret EBADNUMARGS
  else
    dirname ← (if argc argv =? 1 then mret [46] else argv_ argv 1);
    dir ← do_files (fun t => crfs_opendir t dirname);
    match dir with
    | None =>
      e ← get_ (fun s => errno (files s));
      say (chars "can't crfs_opendir(" ++ [34] ++ chars "%s" ++ [34] ++ chars "): %d" ++ [10]) [AStr (Some dirname); AWord (u32 e)];;
      mret (-1)
    | Some dir => dir ← ls_loop 65 dirname dir; do_files (fun t => crfs_closedir t dir);; mret 0
    end.

Definition load_func (argv : list (list Z)) : B Z :=
  if negb (argc argv =? 2) then mret EBADNUMARGS
  else a ← argv_ argv 1; r ← load_from_romfs a; if r <? 1 then mret (-1) else mret 0.

(** ** ramcode/main.c *)

Definition pic_init : CmosIo.St (rom hw) unit :=
  each (fun '(v, p) => outb v p)
    [(0x11, 0x20); (0x11, 0xa0); (0x20, 0x21); (0x28, 0xa1); (0x04, 0x21); (0x02, 0xa1);
     (0x01, 0x21); (0x01, 0xa1); (0x00, 0x21); (0x00, 0xa1)].

Definition mini_monitor_help : B unit :=
  line "h - display help";;
  line "m - download and run new monitor";;
  line "b - download and run a bzip2ed monitor";;
  line "q - quit MiniMonitor (proceed to Monitor)";;
  say [10] [].

(** A monitor that is called does not return. *)
Definition start_monitor (entry memsize monsize : Z) : B unit := fun s => Some (Monitor entry [memsize; monsize] s).
(** The image at [RAM_SERIAL_LOAD] in its place: whether that worked. *)
Definition relocate_monitor : B (option Z) :=
  m ← get_ ram;
  if elf_valid L m (RAM_SERIAL_LOAD c) =? 0 then mret None
  else
    match elf_relocate L m (RAM_SERIAL_LOAD c) (RAM_MONITOR_CODE c) (RAM_MONITOR_MAX c - RAM_MONITOR_CODE c) with
    | None => undefined
    | Some (r, m) => put_ (set_ram m);; mret (Some r)
    end.

Definition mini_monitor_dl (bz : bool) : B unit :=
  line "Loading monitor from serial port...";;
  inp ← read_byte;
  sz ← dl_loop SPACE_FUEL (Some (RAM_SERIAL_LOAD_MAX c)) inp 0;
  say ([13] ++ chars "%dk done" ++ [10]) [AWord (Z.shiftr sz 10)];;
  ok ← (if bz then
          data ← get_ (fun s => bytes_at (ram s) (RAM_SERIAL_LOAD c) sz);
          let '(ok, bytes) := BZ2_bzBuffToBuffDecompress (W := W) data in
          store RAM_DECOMP_AREA bytes;;
          if ok : bool then store (RAM_SERIAL_LOAD c) bytes;; mret true
          else line "Error bunziping monitor:";; mret false
        else mret true);
  if negb ok then mret tt
  else
    r ← relocate_monitor;
    match r with
    | None => line "Loading monitor failed - not ELF?"
    | Some r =>
      if negb (r =? 0) then line "Loading monitor failed"
      else
        m ← get_ ram;
        start_monitor (elf_entry L m (RAM_SERIAL_LOAD c)) (mem_size c) sz
    end.

(** One unit of fuel for each character typed. *)
Fixpoint mini_loop (fuel : nat) (prompt : bool) : B unit :=
  match fuel with
  | O => undefined
  | S fuel =>
    (if prompt then say (chars ">") [] else mret tt);;
    command ← read_byte;
    if command =? 32 then mini_loop fuel false
    else
      say (chars "%c" ++ [10]) [AWord command];;
      if command =? 104 then mini_monitor_help;; mini_loop fuel true
      else if command =? 109 then mini_monitor_dl false;; mini_loop fuel true
      else if command =? 98 then mini_monitor_dl true;; mini_loop fuel true
      else if command =? 113 then mret tt
      else say (chars "Unknown command '%c'.  h for help" ++ [10]) [AWord command];; mini_loop fuel true
  end.
Definition mini_monitor (typed : nat) : B unit :=
  say [10] [];; line "Sun Cobalt MiniMonitor";; line "-------------------------------------";;
  mini_monitor_help;; mini_loop typed true.

Definition hang (typed : nat) : B unit :=
  mini_monitor typed;; say (chars "Halting system....") [];; hung.

(** The end of [ram_main], from the question whether somebody types on. *)
Definition load_monitor (typed : nat) : B unit :=
  r ← (fun s => let '(r, w) := serial_inb_timeout (Z.shiftr BOGO_SEC 2) (around s) in Some (Ret r (set_around w s)));
  (match r with Some b => if b =? 32 then mini_monitor typed else mret tt | None => mret tt end);;
  monsize ← load_from_romfs (chars "/monitor");
  (if monsize <? 0 then line "Load monitor failed";; hang typed
   else
     r ← relocate_monitor;
     match r with
     | None => line "Load monitor failed";; hang typed
     | Some r =>
       (if negb (r =? 0) then line "Load monitor failed - not ELF?";; hang typed else mret tt);;
       m ← get_ ram;
       start_monitor (elf_entry L m (RAM_SERIAL_LOAD c)) (mem_size c) monsize
     end);;
  line "ACK!! I shouldn't be here!";;
  hang typed.
End Boot.
