(* ===== verification/BootProofs.v ===== *)
(** * BootProofs: kernels and the monitor get started

    [rom_file] says that the file system has a file, as it is or compressed; [kernel_ok] that
    an image in the area for decompressed kernels is loaded to places below it, and
    [kernel_in] is the memory with its segments in place.  [returns] specifies a computation
    that comes back; [same] is what it leaves of the variables.  The theorems are on the start
    of the monitor, the zero page of Linux and booting from disk; their witnesses run on the
    file system [disk2] of [Scenario]. *)

From stdpp Require Import strings.
From S2P Require Import Prelude CStringProofs Strbuf Printf PrintfProofs CString CmosIo Cmos Bootdevs Elf.
From S2P Require Import Freemap Layout BlockLayer BlockCache StdioDevice Fs Inode Namei Directory FileIO Tools.
From S2P Require Import ReadProofs DirProofs Tree MountProofs MkfsProofs DirTheorems Scenario FsTheorems Boot.
Open Scope list_scope.
Open Scope Z_scope.

#[global] Arguments get : simpl never.
#[global] Arguments zeros : simpl never.

(** ** Memory *)

Lemma stored_outside a d m x : ~ (a <= x < a + Z.of_nat (length d)) -> stored a d m x = m x.
Proof. intros H. unfold stored. by rewrite not_in_range. Qed.
Lemma stored_inside a d m x : a <= x < a + Z.of_nat (length d) -> stored a d m x = nth (Z.to_nat (x - a)) d 0.
Proof. intros H. unfold stored. by rewrite in_range. Qed.

Lemma stored_app a d e m : stored (a + Z.of_nat (length d)) e (stored a d m) = stored a (d ++ e) m.
Proof.
  revert a m. induction d as [|b d IH]; intros a m.
  { rewrite stored_nil. cbn [length app]. by rewrite Z.add_0_r. }
  cbn [length app]. rewrite <- !stored_cons, <- IH. f_equal. lia.
Qed.

Lemma get_ext m m' a n : (forall j, 0 <= j < Z.of_nat n -> m (u32 (a + j)) = m' (u32 (a + j))) -> get m a n = get m' a n.
Proof. intros H. unfold get. apply map_ext_in. intros i Hi%in_seq. apply H. lia. Qed.
Lemma get_succ m a n : get m a (S n) = m (u32 a) :: get m (a + 1) n.
Proof.
  unfold get. cbn [seq map]. rewrite Z.add_0_r. f_equal. rewrite <- seq_shift, map_map.
  apply map_ext. intros i. do 2 f_equal. lia.
Qed.

Lemma get_stored a d m : 0 <= a -> a + Z.of_nat (length d) <= 4294967296 -> get (stored a d m) a (length d) = d.
Proof.
  revert a m. induction d as [|b d IH]; intros a m Ha Hd; [done|]. cbn [length] in Hd |- *.
  rewrite get_succ, u32_small by lia. f_equal.
  - rewrite stored_inside by (cbn [length]; lia). by rewrite Z.sub_diag.
  - rewrite <- stored_cons. apply IH; lia.
Qed.
Lemma get_outside a d m b n : 0 <= b -> b + Z.of_nat n <= 4294967296 ->
  b + Z.of_nat n <= a \/ a + Z.of_nat (length d) <= b -> get (stored a d m) b n = get m b n.
Proof. intros Hb Hn Ho. apply get_ext. intros j Hj. rewrite u32_small by lia. apply stored_outside. lia. Qed.
Lemma get_zeros a n m b k : a <= b -> 0 <= a -> a + Z.of_nat n <= 4294967296 -> b + Z.of_nat k <= a + Z.of_nat n ->
  get (stored a (zeros n) m) b k = zeros k.
Proof.
  intros Hb Ha Hn Hk. revert b Hb Hk. induction k as [|k IH]; intros b Hb Hk; [done|].
  rewrite get_succ, IH by lia. rewrite u32_small by lia. rewrite stored_inside by (unfold zeros; rewrite length_replicate; lia).
  unfold zeros. rewrite nth_lookup, lookup_replicate_2 by lia. done.
Qed.

(** ** The segments of a kernel *)

Definition KERNEL_SPACE : Z := 0x1000000.

Section Kernel.
Variables (c : settings) (m : memory).
Let L : elf_layout := layout c.
Let addr : Z := RAM_DECOMP_AREA.

Definition k_count : Z := read16 m (addr + e_phnum L).
Definition k_header (i : Z) : Z := u32 (addr + read32 m (addr + e_phoff L) + read16 m (addr + e_phentsize L) * i).
Definition k_filesz (i : Z) : Z := read32 m (k_header i + p_filesz L).
Definition k_memsz (i : Z) : Z := read32 m (k_header i + p_memsz L).
Definition k_dest (i : Z) : Z := Z.land (read32 m (k_header i + p_vaddr L)) 0x00ffffff.
Definition k_src (i : Z) : Z := u32 (addr + read32 m (k_header i + p_offset L)).

(** The bytes of the file, and zeros up to the size in memory. *)
Definition k_place (v : memory) (i : Z) : memory := fun a =>
  if k_filesz i =? 0 then v a
  else if (k_dest i <=? a) && (a <? k_dest i + k_filesz i) then m (u32 (k_src i + (a - k_dest i)))
  else if (k_dest i + k_filesz i <=? a) && (a <? k_dest i + k_memsz i) then 0
  else v a.
Definition kernel_in : memory := foldl k_place m (seqZ 0 k_count).
Definition kernel_entry : Z := Z.land (read32 m (addr + e_entry L)) 0xffffff.

(** What is read of the image is above the places it is loaded to. *)
Record kernel_ok : Prop := {
  ko_bytes : forall a, 0 <= m a < 256;
  ko_count : k_count < 256;
  ko_phnum : apart 0 KERNEL_SPACE (addr + e_phnum L) 2;
  ko_phoff : apart 0 KERNEL_SPACE (addr + e_phoff L) 4;
  ko_phentsize : apart 0 KERNEL_SPACE (addr + e_phentsize L) 2;
  ko_entry : apart 0 KERNEL_SPACE (addr + e_entry L) 4;
  ko_header : forall i, 0 <= i < k_count ->
    apart 0 KERNEL_SPACE (k_header i + p_vaddr L) 4 /\ apart 0 KERNEL_SPACE (k_header i + p_memsz L) 4 /\
    apart 0 KERNEL_SPACE (k_header i + p_filesz L) 4 /\ apart 0 KERNEL_SPACE (k_header i + p_offset L) 4;
  ko_src : forall i, 0 <= i < k_count -> apart 0 KERNEL_SPACE (k_src i) (k_filesz i);
  ko_room : forall i, 0 <= i < k_count ->
    k_dest i + k_filesz i <= KERNEL_SPACE /\ k_dest i + k_memsz i <= KERNEL_SPACE;
}.

Hypothesis Hk : kernel_ok.
Abbreviation same_image := (agrees m 0 KERNEL_SPACE).

Lemma k_get_bytes a n : bytes_ok (get m a n).
Proof.
  unfold get. apply Forall_forall. intros x Hx. apply list_elem_of_fmap in Hx as (i & -> & _). apply (ko_bytes Hk).
Qed.
Lemma k_word a : word (read32 m a).
Proof. unfold read32. pose proof (le_val_range _ (k_get_bytes a 4)) as H. rewrite get_length in H. exact H. Qed.
Lemma k_count_range : 0 <= k_count < 256.
Proof.
  split; [|apply (ko_count Hk)]. unfold k_count, read16.
  apply (le_val_range _ (k_get_bytes (addr + e_phnum L) 2)).
Qed.
Lemma k_dest_range i : 0 <= k_dest i < KERNEL_SPACE.
Proof.
  unfold k_dest. change 0x00ffffff with (Z.ones 24). rewrite Z.land_ones by lia.
  apply Z.mod_pos_bound. done.
Qed.

Lemma upd_agrees m' a v : same_image m' -> 0 <= a < KERNEL_SPACE -> same_image (upd m' a v).
Proof.
  intros Hm Ha x Hx. rewrite upd_ne; [by apply Hm|]. intros ->. apply Hx. unfold in_target. lia.
Qed.

(** The loops, in a memory that differs from [m] in the kernel's places only. *)
Lemma copy_segment_spec n : forall fuel m' i src ctr dest,
  same_image m' -> 0 <= i < k_count -> ctr + Z.of_nat n = k_filesz i -> (n <= fuel)%nat ->
  0 <= dest -> dest + Z.of_nat n <= KERNEL_SPACE ->
  copy_segment c fuel m' (k_header i) dest src ctr =
    Some (copy_up m' dest src n, dest + Z.of_nat n).
Proof.
  induction n as [|n IH]; intros fuel m' i src ctr dest Hm Hi Hc Hf Hd Hn;
    destruct (ko_header Hk i Hi) as (_ & _ & Af & _).
  all: assert (E : read32 m' (k_header i + p_filesz L) = k_filesz i) by (apply (read32_agrees m 0 KERNEL_SPACE); done).
  - destruct fuel as [|fuel]; cbn [copy_segment]; unfold Boot.L; fold L; rewrite E, (proj2 (Z.ltb_ge _ _)) by lia;
      cbn [copy_up]; by rewrite Z.add_0_r.
  - destruct fuel as [|fuel]; [lia|]. cbn [copy_segment]; unfold Boot.L; fold L.
    rewrite E, (proj2 (Z.ltb_lt _ _)) by lia.
    rewrite (u32_small (dest + 1)) by (unfold KERNEL_SPACE in *; lia).
    rewrite IH; [|by apply upd_agrees; [|lia]|done|lia|lia|lia|lia].
    cbn [copy_up]. rewrite (u32_small (dest + 1)) by (unfold KERNEL_SPACE in *; lia). do 2 f_equal. lia.
Qed.

Lemma zero_segment_spec n : forall fuel m' i ctr dest,
  same_image m' -> 0 <= i < k_count -> ctr + Z.of_nat n = k_memsz i -> (n <= fuel)%nat ->
  0 <= dest -> dest + Z.of_nat n <= KERNEL_SPACE ->
  exists m2, zero_segment c fuel m' (k_header i) dest ctr = Some m2 /\ same_image m2 /\
    forall a, m2 a = if (dest <=? a) && (a <? dest + Z.of_nat n) then 0 else m' a.
Proof.
  induction n as [|n IH]; intros fuel m' i ctr dest Hm Hi Hc Hf Hd Hn;
    destruct (ko_header Hk i Hi) as (_ & Am & _ & _).
  all: assert (E : read32 m' (k_header i + p_memsz L) = k_memsz i) by (apply (read32_agrees m 0 KERNEL_SPACE); done).
  - exists m'. split; [|split; [done|]].
    + destruct fuel as [|fuel]; cbn [zero_segment]; unfold Boot.L; fold L; by rewrite E, (proj2 (Z.ltb_ge _ _)) by lia.
    + intros a. by rewrite not_in_range by lia.
  - destruct fuel as [|fuel]; [lia|]. cbn [zero_segment]; unfold Boot.L; fold L.
    rewrite E, (proj2 (Z.ltb_lt _ _)) by lia.
    rewrite (u32_small (dest + 1)) by (unfold KERNEL_SPACE in *; lia).
    destruct (IH fuel (upd m' dest 0) i (ctr + 1) (dest + 1)) as (m2 & -> & Hm2 & E2); [|done|lia|lia|lia|lia|].
    { apply upd_agrees; [done|lia]. }
    exists m2. split; [done|]. split; [done|]. intros a. rewrite E2. unfold upd.
    destruct (Z.leb_spec dest a), (Z.leb_spec (dest + 1) a), (Z.eqb_spec a dest); try lia; cbn [andb].
    + by replace (dest + 1 + Z.of_nat n) with (dest + Z.of_nat (S n)) by lia.
    + by rewrite (proj2 (Z.ltb_lt _ _)) by lia.
    + done.
Qed.

Lemma k_filesz_word i : word (k_filesz i). Proof. apply k_word. Qed.
Lemma k_memsz_word i : word (k_memsz i). Proof. apply k_word. Qed.
Lemma space_fuel n : n <= KERNEL_SPACE -> (Z.to_nat n <= SPACE_FUEL)%nat.
Proof. unfold KERNEL_SPACE, SPACE_FUEL. lia. Qed.

(** A segment that is in the file. *)
Lemma segment_placed m' i : same_image m' -> 0 <= i < k_count -> k_filesz i <> 0 ->
  exists m1 m2, copy_segment c SPACE_FUEL m' (k_header i) (k_dest i) (k_src i) 0 = Some (m1, k_dest i + k_filesz i) /\
    same_image m1 /\
    (if k_filesz i <? k_memsz i then
       zero_segment c SPACE_FUEL m1 (k_header i) (k_dest i + k_filesz i) (k_filesz i) = Some m2
     else m2 = m1) /\
    same_image m2 /\ forall a, m2 a = k_place m' i a.
Proof.
  intros Hm Hi Hf. destruct (ko_room Hk i Hi) as [R1 R2]. pose proof (k_dest_range i) as Hd.
  pose proof (k_filesz_word i) as Hfw. pose proof (k_memsz_word i) as Hmw. unfold word in *.
  pose proof (ko_src Hk i Hi) as Hs.
  set (m1 := copy_up m' (k_dest i) (k_src i) (Z.to_nat (k_filesz i))).
  assert (Ec : copy_segment c SPACE_FUEL m' (k_header i) (k_dest i) (k_src i) 0 = Some (m1, k_dest i + k_filesz i)).
  { rewrite (copy_segment_spec (Z.to_nat (k_filesz i))); [by rewrite Z2Nat.id by lia|done|done|lia|apply space_fuel; lia|lia|lia]. }
  assert (E1 : forall a, m1 a = if (k_dest i <=? a) && (a <? k_dest i + k_filesz i) then m (u32 (k_src i + (a - k_dest i))) else m' a).
  { intros a. unfold m1. rewrite memcpy_apart; [|lia|unfold KERNEL_SPACE in *; lia| |apply u32_range].
    - rewrite Z2Nat.id by lia. destruct ((k_dest i <=? a) && (a <? k_dest i + k_filesz i)) eqn:E; [|done].
      apply Hm, Hs. lia.
    - intros j Hj. rewrite Z2Nat.id in * by lia. specialize (Hs j Hj). unfold in_target in Hs. lia. }
  assert (Hm1 : same_image m1).
  { intros a Ha. rewrite E1, not_in_range; [by apply Hm|]. unfold in_target in Ha. lia. }
  assert (Ht : exists m2, (if k_filesz i <? k_memsz i then
       zero_segment c SPACE_FUEL m1 (k_header i) (k_dest i + k_filesz i) (k_filesz i) = Some m2 else m2 = m1) /\ same_image m2 /\
     forall a, m2 a = if (k_dest i + k_filesz i <=? a) && (a <? k_dest i + k_memsz i) then 0 else m1 a).
  { destruct (Z.ltb_spec (k_filesz i) (k_memsz i)).
    - destruct (zero_segment_spec (Z.to_nat (k_memsz i - k_filesz i)) SPACE_FUEL m1 i (k_filesz i) (k_dest i + k_filesz i))
        as (m2 & E & Hm2 & E2); [done|done|lia|apply space_fuel; lia|lia|lia|].
      exists m2. split; [done|]. split; [done|]. intros a. rewrite E2.
      by replace (k_dest i + k_filesz i + Z.of_nat (Z.to_nat (k_memsz i - k_filesz i))) with (k_dest i + k_memsz i) by lia.
    - exists m1. split; [done|]. split; [done|]. intros a. by rewrite not_in_range by lia. }
  destruct Ht as (m2 & Ez & Hm2 & E2). exists m1, m2. split; [done|]. split; [done|]. split; [done|]. split; [done|].
  intros a. rewrite E2, E1. unfold k_place. rewrite (proj2 (Z.eqb_neq _ 0) Hf).
  destruct ((k_dest i <=? a) && (a <? k_dest i + k_filesz i)) eqn:Ea; [|done].
  by rewrite not_in_range by lia.
Qed.
End Kernel.

(** ** Computations *)

Section Boot.
Context {St : Type} `{BlockLayer St} {hw : Type} `{!Ports hw} {W : Type} `{!Around W}.
Context (malloc : Z -> option (list Z)) (c : settings).
Implicit Types s : boot_state (St := St) (hw := hw) (W := W).

(** What loading a kernel leaves as it is. *)
Record same s (t : boot_state (St := St) (hw := hw) (W := W)) : Prop := {
  sm_mach : mach t = mach s;
  sm_files : files t ≡ files s;
  sm_image : kernel_image t = kernel_image s;
  sm_opt : boot_opt t = boot_opt s;
  sm_fcn : boot_fcn t = boot_fcn s;
  sm_root : root_device t = root_device s;
  sm_load : load_device t = load_device s;
  sm_boot_params : boot_params t = boot_params s;
  sm_load_params : load_params t = load_params s;
  sm_limit : mem_limit t = mem_limit s;
  sm_return : return_from_load_func t = return_from_load_func s;
  sm_error : return_data_error t = return_data_error s;
  sm_flen : return_data_flen t = return_data_flen s;
}.
#[local] Instance same_preorder : PreOrder same.
Proof.
  split; [by split|]. intros s t u [] []. split; (etransitivity; [eassumption|done]) || congruence.
Qed.

Lemma bind_ret {A A'} (m : B A) (k : A -> B A') s a t : m s = Some (Ret a t) -> (m ≫= k) s = k a t.
Proof. intros E. unfold mbind, B_bind. by rewrite E. Qed.

Lemma bind_put {A} f (k : unit -> B A) s : (put_ f ≫= k) s = k tt (f s). Proof. done. Qed.
Lemma bind_get {A A'} (f : _ -> A) (k : A -> B A') s : (get_ f ≫= k) s = k (f s) s. Proof. done. Qed.
Lemma bind_linux {A A'} (m : B A) (k : A -> B A') s t : m s = Some (Linux t) -> (m ≫= k) s = Some (Linux t).
Proof. intros E. unfold mbind, B_bind. by rewrite E. Qed.

(** A computation that returns, in a state that is the same but for memory; and what is known of it. *)
Definition returns {A} (m : B A) s (a : A) (P : boot_state (St := St) (hw := hw) (W := W) -> Prop) : Prop :=
  exists t, m s = Some (Ret a t) /\ same s t /\ P t.

Lemma boot_bind {A A'} (m : B A) (k : A -> B A') s a a' P Q :
  returns m s a P -> (forall t, same s t -> P t -> returns (k a) t a' Q) -> returns (m ≫= k) s a' Q.
Proof.
  intros (t & E & Hs & Hp) Hk. destruct (Hk t Hs Hp) as (u & E' & Hu & Hq). exists u.
  rewrite (bind_ret _ _ _ _ _ E). split; [done|]. split; [by transitivity t|done].
Qed.
Lemma boot_impl {A} (m : B A) s a (P Q : _ -> Prop) : returns m s a P -> (forall t, same s t -> P t -> Q t) -> returns m s a Q.
Proof. intros (t & E & Hs & Hp) Hq. exists t. auto. Qed.
Lemma boot_ret {A} (a : A) s (P : _ -> Prop) : P s -> returns (mret a) s a P.
Proof. intros Hp. by exists s. Qed.

(** The memory, the size of what was loaded and the entry stay. *)
Record calm s (t : boot_state (St := St) (hw := hw) (W := W)) : Prop := {
  ca_ram : ram t = ram s; ca_size : serial_load_size t = serial_load_size s; ca_entry : kernel_start_addr t = kernel_start_addr s
}.
Lemma around_returns f s : returns (do_around f) s tt (calm s).
Proof. eexists. split; [reflexivity|]. by split. Qed.
Lemma store_returns a d s : returns (Boot.store a d) s tt
  (fun t => ram t = stored a d (ram s) /\ serial_load_size t = serial_load_size s /\ kernel_start_addr t = kernel_start_addr s).
Proof. eexists. split; [reflexivity|]. by split. Qed.
Lemma get_bind {A A'} (f : _ -> A) (k : A -> B A') s a P : returns (k (f s)) s a P -> returns (get_ f ≫= k) s a P.
Proof. done. Qed.
Lemma around_bind {A} f (k : unit -> B A) s a P :
  (forall t, same s t -> calm s t -> returns (k tt) t a P) -> returns (do_around f ≫= k) s a P.
Proof. apply boot_bind, around_returns. Qed.
Lemma store_bind {A} a' d (k : unit -> B A) s a P :
  (forall t, same s t -> ram t = stored a' d (ram s) -> serial_load_size t = serial_load_size s ->
     kernel_start_addr t = kernel_start_addr s -> returns (k tt) t a P) -> returns (Boot.store a' d ≫= k) s a P.
Proof. intros Hk. eapply boot_bind; [apply store_returns|]. intros t Ht (E1 & E2 & E3). by apply Hk. Qed.

(** *** Loading a kernel's segments *)

Lemma relocate_returns (m : memory) i s : kernel_ok c m -> agrees m 0 KERNEL_SPACE (ram s) -> 0 <= i < k_count c m ->
  returns (relocate_and_zero c (k_header c m i)) s tt
    (fun t => agrees m 0 KERNEL_SPACE (ram t) /\ (forall a, ram t a = k_place c m (ram s) i a) /\
              serial_load_size t = serial_load_size s).
Proof.
  intros Hk Hm Hi. destruct (ko_header c m Hk i Hi) as (Av & Am & Af & Ao).
  unfold relocate_and_zero. apply get_bind. unfold Boot.L.
  assert (Ef : read32 (ram s) (k_header c m i + p_filesz (layout c)) = k_filesz c m i) by (apply (read32_agrees m 0 KERNEL_SPACE); done).
  rewrite Ef. destruct (Z.eqb_spec (k_filesz c m i) 0) as [E0|E0].
  { eapply boot_impl; [apply around_returns|]. intros t _ []. rewrite ca_ram0. split; [done|]. split; [|done].
    intros a. unfold k_place. by rewrite E0. }
  assert (Ev : read32 (ram s) (k_header c m i + p_vaddr (layout c)) = read32 m (k_header c m i + p_vaddr (layout c)))
    by (apply (read32_agrees m 0 KERNEL_SPACE); done).
  assert (Eo : read32 (ram s) (k_header c m i + p_offset (layout c)) = read32 m (k_header c m i + p_offset (layout c)))
    by (apply (read32_agrees m 0 KERNEL_SPACE); done).
  cbv zeta. rewrite Ev, Eo. fold (k_dest c m i) (k_src c m i).
  destruct (segment_placed c m Hk (ram s) i Hm Hi E0) as (m1 & m2 & Ec & Hm1 & Ez & Hm2 & Hp). rewrite Ec.
  assert (Ef1 : read32 m1 (k_header c m i + p_filesz (layout c)) = k_filesz c m i) by (apply (read32_agrees m 0 KERNEL_SPACE); done).
  assert (Em1 : read32 m1 (k_header c m i + p_memsz (layout c)) = k_memsz c m i) by (apply (read32_agrees m 0 KERNEL_SPACE); done).
  rewrite Ef1, Em1. destruct (k_filesz c m i <? k_memsz c m i).
  - rewrite Ez. eexists. split; [reflexivity|]. split; [by split|]. split; [exact Hm2|]. split; [exact Hp|reflexivity].
  - subst m2. eexists. split; [reflexivity|]. split; [by split|]. split; [exact Hm2|]. split; [exact Hp|reflexivity].
Qed.

Lemma k_place_ext (m : memory) i v v' : (forall a, v a = v' a) -> forall a, k_place c m v i a = k_place c m v' i a.
Proof. intros E a. unfold k_place. by rewrite E. Qed.
Lemma k_places_ext (m : memory) l : forall v v', (forall a, v a = v' a) ->
  forall a, foldl (k_place c m) v l a = foldl (k_place c m) v' l a.
Proof. induction l as [|i l IH]; intros v v' E a; [apply E|]. cbn [foldl]. apply IH. by apply k_place_ext. Qed.

Lemma header_loop_returns (m : memory) n : forall fuel s i, kernel_ok c m -> agrees m 0 KERNEL_SPACE (ram s) ->
  0 <= i -> i + Z.of_nat n = k_count c m -> (n <= fuel)%nat ->
  returns (header_loop c fuel RAM_DECOMP_AREA i) s tt
    (fun t => agrees m 0 KERNEL_SPACE (ram t) /\
              (forall a, ram t a = foldl (k_place c m) (ram s) (seqZ i (Z.of_nat n)) a) /\
              serial_load_size t = serial_load_size s).
Proof.
  induction n as [|n IH]; intros fuel s i Hk Hm Hi Hn Hf; pose proof (k_count_range c m Hk) as Hc;
    assert (En : read16 (ram s) (RAM_DECOMP_AREA + e_phnum (layout c)) = k_count c m)
      by (apply (read16_agrees m 0 KERNEL_SPACE); [done|apply (ko_phnum c m Hk)]).
  - exists s. split; [|split; [done|by split]].
    destruct fuel as [|fuel]; cbn [header_loop]; rewrite (bind_ret _ _ _ _ _ eq_refl); unfold Boot.L;
      rewrite En, (proj2 (Z.ltb_ge _ _)) by lia; done.
  - destruct fuel as [|fuel]; [lia|]. cbn [header_loop]. apply get_bind. unfold Boot.L.
    rewrite En, (proj2 (Z.ltb_lt _ _)) by lia.
    rewrite (read32_agrees m 0 KERNEL_SPACE), (read16_agrees m 0 KERNEL_SPACE); try done; try apply Hk.
    eapply boot_bind; [apply (relocate_returns m i s); (done || lia)|].
    intros t Ht (Hmt & Hpt & Hst). rewrite (u8_small (i + 1)) by lia.
    eapply boot_impl; [apply (IH fuel t (i + 1)); (done || lia)|].
    intros u _ (Hmu & Hpu & Hsu). split; [done|]. split; [|congruence]. intros a. rewrite Hpu.
    rewrite (seqZ_cons i) by lia. cbn [foldl]. replace (Z.pred (Z.of_nat (S n))) with (Z.of_nat n) by lia.
    replace (Z.succ i) with (i + 1) by lia. by apply k_places_ext.
Qed.

(** The image in the area for decompressed kernels gets loaded. *)
Lemma extract_returns (m : memory) s : kernel_ok c m -> ram s = m ->
  returns (extract_header_info c RAM_DECOMP_AREA) s tt
    (fun t => (forall a, ram t a = kernel_in c m a) /\ agrees m 0 KERNEL_SPACE (ram t) /\
              serial_load_size t = serial_load_size s).
Proof.
  intros Hk Hm. pose proof (k_count_range c m Hk) as Hc. unfold extract_header_info.
  eapply boot_bind; [apply (header_loop_returns m (Z.to_nat (k_count c m)) CTR_FUEL s 0 Hk)|].
  - by rewrite Hm.
  - lia.
  - lia.
  - unfold CTR_FUEL. lia.
  - intros t Ht (Hmt & Hpt & Hst). apply get_bind. eexists. split; [reflexivity|]. split; [by split|].
    split; [|by split]. intros a. cbn [ram set_start]. rewrite Hpt, Hm, Z2Nat.id by lia. done.
Qed.

(** [z] unpacks, by the first decompressor or by the second, and leaves the memory [m']. *)
Inductive unpacked (m : memory) (z : list Z) : memory -> Prop :=
  | unpacked_bz2 img : BZ2_bzBuffToBuffDecompress (W := W) z = (true, img) ->
      unpacked m z (stored RAM_DECOMP_AREA img m)
  | unpacked_gz junk img : BZ2_bzBuffToBuffDecompress (W := W) z = (false, junk) ->
      uncompress_kernel (W := W) (stored RAM_DECOMP_AREA junk m) (RAM_SERIAL_LOAD c) = (true, img) ->
      unpacked m z (stored RAM_DECOMP_AREA img (stored RAM_DECOMP_AREA junk m)).

Definition loaded_image s : list Z := bytes_at (ram s) (RAM_SERIAL_LOAD c) (serial_load_size s).

Lemma bunzip2_returns s m : unpacked (ram s) (loaded_image s) m -> kernel_ok c m ->
  returns (bunzip2_kernel c) s tt
    (fun t => (forall a, ram t a = kernel_in c m a) /\ agrees m 0 KERNEL_SPACE (ram t)).
Proof.
  intros Hu Hk. unfold bunzip2_kernel. apply around_bind. intros t1 Hs1 [Hr1 Hl1 _].
  unfold reset_lcd_for_boot, show. apply around_bind. intros t2 Hs2 [Hr2 Hl2 _].
  unfold say. apply around_bind. intros t3 Hs3 [Hr3 Hl3 _]. apply get_bind.
  assert (Er : ram t3 = ram s) by congruence. assert (El : serial_load_size t3 = serial_load_size s) by congruence.
  rewrite Er, El. fold (loaded_image s). clear t1 t2 Hs1 Hs2 Hr1 Hr2 Hl1 Hl2 Hr3 Hl3 Hs3.
  destruct Hu as [img Eb|junk img Eb Eg]; rewrite Eb; cbv zeta.
  - apply store_bind. intros t4 _ Hr4 _ _. rewrite Er in Hr4. apply around_bind. intros t5 _ [Hr5 _ _].
    eapply boot_impl; [apply (extract_returns _ t5 Hk); congruence|]. intros u _ (H1 & H2 & _). by split.
  - apply store_bind. intros t4 _ Hr4 _ _. rewrite Er in Hr4. unfold line, say. apply around_bind.
    intros t5 _ [Hr5 _ _]. apply get_bind. rewrite Hr5, Hr4, Eg. cbv zeta.
    apply store_bind. intros t6 _ Hr6 _ _. rewrite Hr5, Hr4 in Hr6. apply around_bind. intros t7 _ [Hr7 _ _].
    eapply boot_impl; [apply (extract_returns _ t7 Hk); congruence|]. intros u _ (H1 & H2 & _). by split.
Qed.

(** *** Files *)

#[local] Instance start_dir_proper : Proper ((≡) ==> (=) ==> (=)) (start_dir (St := St)).
Proof. intros t t' Heq p ? <-. unfold start_dir. destruct p as [|x p]; [|destruct (x =? slash)]; by rewrite Heq. Qed.
#[local] Instance open_refusal_proper : Proper ((≡) ==> (=) ==> (=) ==> (=)) (open_refusal (St := St)).
Proof.
  intros t t' Heq d ? <- n ? <-. unfold open_refusal.
  rewrite (leaf_inode_proper _ _ Heq d d eq_refl n n eq_refl), (lookup_proper _ _ Heq d d eq_refl n n eq_refl). reflexivity.
Qed.

(** What is behind a path. *)
Definition path_holds (t : fs St) (p data : list Z) : Prop :=
  exists d leaf n bs, resolves t (start_dir t p) p (inr (d, leaf)) /\ open_refusal t d leaf = None /\
    lookup t d leaf = Some n /\ in_inode (inode_at t n) = n /\ file_at t (inode_at t n) bs /\
    in_fsize (inode_at t n) + CRFS_BLOCK_SIZE < 4294967296 /\ file_data t (inode_at t n) bs = data.
Definition path_refused (t : fs St) (p : list Z) : Prop :=
  exists r, resolves t (start_dir t p) p r /\
    match r with inl _ => True | inr (d, leaf) => is_Some (open_refusal t d leaf) end.

Lemma path_holds_equiv (t t' : fs St) p data : t ≡ t' -> path_holds t p data -> path_holds t' p data.
Proof.
  intros Heq (d & leaf & n & bs & Hr & Ho & Hl & Hn & Hf & Hz & Hd). exists d, leaf, n, bs.
  assert (Ei : inode_at t' n = inode_at t n) by by rewrite Heq. rewrite Ei.
  split; [rewrite <- (start_dir_proper _ _ Heq p p eq_refl); by apply (resolves_equiv t)|]. split; [by rewrite <- (open_refusal_proper _ _ Heq d d eq_refl leaf leaf eq_refl)|].
  split; [by rewrite <- (lookup_proper _ _ Heq d d eq_refl leaf leaf eq_refl)|]. split; [done|]. split; [destruct Hf; split; [by rewrite <- Heq|done]|].
  split; [done|]. rewrite <- Hd. unfold file_data. by rewrite Heq.
Qed.
Lemma path_refused_equiv (t t' : fs St) p : t ≡ t' -> path_refused t p -> path_refused t' p.
Proof.
  intros Heq (r & Hr & Ho). exists r. split; [rewrite <- (start_dir_proper _ _ Heq p p eq_refl); by apply (resolves_equiv t)|].
  destruct r as [|[d leaf]]; [done|]. by rewrite <- (open_refusal_proper _ _ Heq d d eq_refl leaf leaf eq_refl).
Qed.

(** The file [name] can be loaded, and is then [data]: compressed ([z]), or as it is. *)
Inductive rom_file (t : fs St) (name data : list Z) : option (list Z) -> Prop :=
  | rom_plain : (Z.of_nat (length name) < CRFS_BLOCK_SIZE - 4 -> path_refused t (name ++ chars ".bz2")) ->
      path_holds t name data -> rom_file t name data None
  | rom_compressed z : Z.of_nat (length name) < CRFS_BLOCK_SIZE - 4 -> path_holds t (name ++ chars ".bz2") z ->
      BZ2_bzBuffToBuffDecompress (W := W) z = (true, data) -> rom_file t name data (Some z).
Lemma rom_file_equiv (t t' : fs St) name data z : t ≡ t' -> rom_file t name data z -> rom_file t' name data z.
Proof.
  intros Heq [Hr Hh|z' Hl Hh Hb]; [apply rom_plain|by apply rom_compressed; [|apply (path_holds_equiv t)|]].
  - intros Hl. by apply (path_refused_equiv t), Hr.
  - by apply (path_holds_equiv t).
Qed.

(** The memory after that. *)
Definition loaded_ram (m : memory) (data : list Z) (z : option (list Z)) : memory :=
  match z with
  | None => stored (RAM_SERIAL_LOAD c) data m
  | Some z => stored (RAM_SERIAL_LOAD c) data (stored RAM_DECOMP_AREA data (stored (RAM_SERIAL_LOAD c) z m))
  end.

Lemma read_count (t : fs St) fp size n buff fp' (t' : fs St) : crfs_read t fp size = ((n, buff), fp', t') ->
  n = Z.of_nat (length buff) \/ n < 0.
Proof.
  unfold crfs_read. intros E. repeat case_match; simplify_eq; auto; right; lia.
Qed.

Lemma load_loop_reads fuel (t : fs St) fp out out' fp' (t' : fs St) :
  copy_out fuel t fp out = Some (out', 0, fp', t') ->
  exists rest, out' = out ++ rest /\
    forall s total, files s = t ->
      load_loop c fuel fp total s =
        Some (Ret (total + Z.of_nat (length rest)) (set_files t' (set_ram (stored (RAM_SERIAL_LOAD c + total) rest (ram s)) s))).
Proof.
  revert t fp out. induction fuel as [|fuel IH]; intros t fp out E; [discriminate|].
  cbn [copy_out] in E. destruct (crfs_read t fp CRFS_BLOCK_SIZE) as [[[n buff] fp1] t1] eqn:Er.
  assert (Ek : forall s, files s = t -> do_files (fun t0 : fs St => crfs_read t0 fp CRFS_BLOCK_SIZE) s = Some (Ret (n, buff, fp1) (set_files t1 s))).
  { intros s <-. unfold do_files. by rewrite Er. }
  destruct (Z.ltb_spec 0 n) as [Hn|Hn].
  - destruct (read_count _ _ _ _ _ _ _ Er) as [En|]; [|lia].
    assert (Et : take (Z.to_nat n) buff = buff) by (apply take_ge; lia). rewrite Et in E.
    destruct (IH t1 fp1 (out ++ buff) E) as (rest & -> & Hp). exists (buff ++ rest). split; [by rewrite app_assoc|].
    intros s total Hs. cbn [load_loop]. rewrite (bind_ret _ _ _ _ _ (Ek s Hs)).
    rewrite (proj2 (Z.eqb_neq n 0)), (proj2 (Z.ltb_ge n 0)) by lia. rewrite Et.
    rewrite (bind_ret _ _ _ _ _ eq_refl), (Hp _ (total + n)) by done. do 2 f_equal.
    + rewrite length_app. lia.
    + rewrite En, Z.add_assoc. destruct s. unfold set_files, set_ram. cbn. f_equal. by rewrite stored_app.
  - injection E as <- -> _ <-. exists []. split; [by rewrite app_nil_r|]. intros s total Hs. cbn [load_loop].
    rewrite (bind_ret _ _ _ _ _ (Ek s Hs)). change (0 =? 0) with true. cbv iota. rewrite stored_nil. cbn [length].
    rewrite Z.add_0_r. destruct s. reflexivity.
Qed.

Lemma open_holds (t : fs St) p data : fs_ok t -> path_holds t p data ->
  exists fp t1, crfs_open t p = (Some fp, t1) /\ t1 ≡ t /\
    exists fp' t2, copy_out LOAD_FUEL t1 fp [] = Some (data, 0, fp', t2) /\ t2 ≡ t.
Proof.
  intros Hs (d & leaf & n & bs & Hr & Href & Hl & Hn & Hf & Hsz & Hdata).
  destruct (open_checks t _ _ Hs Hr) as (t1 & Heq & Eo). rewrite Href, Hl in Eo.
  pose proof (opened_handle t n bs Hn (fa_chain _ _ _ Hf)) as Ha.
  exists (opened t (inode_at t n)), t1. split; [done|]. split; [done|].
  assert (Hlen : (length (file_data t (inode_at t n) bs) <= Z.to_nat (in_fsize (inode_at t n)))%nat)
    by (unfold file_data; rewrite length_take; lia).
  pose proof (ok_fsize _ (inode_at_ok t n Hs)) as Hfs.
  assert (Hin : inode_at t1 n = inode_at t n) by by rewrite Heq.
  assert (Hfd : file_data t1 (inode_at t n) bs = file_data t (inode_at t n) bs) by (unfold file_data; by rewrite Heq).
  destruct (copy_out_spec LOAD_FUEL t1 n bs (opened t (inode_at t n)) []) as (fp' & t2 & Ec & Heq2 & _).
  - by rewrite Heq.
  - rewrite Hin. destruct Hf. split; [by rewrite Heq|done].
  - by rewrite Heq.
  - rewrite Hin, Hfd. cbn [F_fpos opened]. rewrite drop_0. lia.
  - rewrite Hin, Hfd. cbn [F_fpos opened]. rewrite drop_0. unfold LOAD_FUEL, BLOCK, CRFS_BLOCK_SIZE in *. lia.
  - rewrite Hin, Hfd, Hdata in Ec. cbn [F_fpos opened] in Ec. rewrite drop_0, app_nil_l in Ec.
    exists fp', t2. split; [exact Ec|]. by transitivity t1.
Qed.
Lemma open_refused (t : fs St) p : fs_ok t -> path_refused t p -> exists t1, crfs_open t p = (None, t1) /\ t1 ≡ t.
Proof.
  intros Hs (r & Hr & Ho). destruct (open_checks t p r Hs Hr) as (t1 & Heq & ->).
  assert (He : forall e, exists t2, fail_ptr (A := CO_FILE) e t1 = (None, t2) /\ t2 ≡ t).
  { intros e. exists (set_errno e t1). split; [done|]. by rewrite set_errno_equiv. }
  destruct r as [e|[d leaf]]; [apply He|]. destruct Ho as [e ->]. apply He.
Qed.

Lemma do_files_returns {A} (f : fs St -> A * fs St) s a t : f (files s) = (a, t) -> t ≡ files s ->
  returns (do_files f) s a (fun u => files u = t /\ calm s u).
Proof. intros E Heq. exists (set_files t s). unfold do_files. rewrite E. split; [done|]. split; [by split|]. by split. Qed.

(** A file that the file system has is loaded. *)
Lemma load_returns s name data z : fs_ok (files s) -> rom_file (files s) name data z -> 0 <= RAM_SERIAL_LOAD c ->
  RAM_SERIAL_LOAD c + Z.of_nat (length (default [] z)) <= 4294967296 ->
  returns (load_from_romfs c name) s (Z.of_nat (length data))
    (fun t => ram t = loaded_ram (ram s) data z /\ serial_load_size t = Z.of_nat (length data)).
Proof.
  intros Hs Hf H0 Hz. unfold load_from_romfs. destruct Hf as [Hno Hh|z Hl Hh Hb].
  - assert (Hfirst : returns (if Z.of_nat (length name) <? CRFS_BLOCK_SIZE - 4
       then do_files (fun t : fs St => crfs_open t (name ++ chars ".bz2")) else mret None) s None (calm s)).
    { destruct (Z.ltb_spec (Z.of_nat (length name)) (CRFS_BLOCK_SIZE - 4)) as [Hlt|]; [|by apply boot_ret].
      destruct (open_refused _ _ Hs (Hno Hlt)) as (t1 & E & Heq).
      eapply boot_impl; [by apply (do_files_returns _ s None t1)|]. by intros t _ [_ ?]. }
    eapply boot_bind; [exact Hfirst|]. intros t Ht [Hr _ _]. cbv zeta.
    assert (Hst : fs_ok (files t)) by (rewrite (sm_files _ _ Ht); exact Hs).
    destruct (open_holds _ _ _ Hst (path_holds_equiv _ _ _ _ (symmetry (sm_files _ _ Ht)) Hh)) as (fp & t1 & E & Heq & fp' & t2 & Ec & Heq2).
    eapply boot_bind; [by apply (do_files_returns _ t (Some fp) t1)|]. intros u Hu [Hfu [Hru _ _]].
    destruct (load_loop_reads LOAD_FUEL t1 fp [] data fp' t2 Ec) as (rest & Er & Hloop). cbn [app] in Er. subst rest.
    eapply (boot_bind _ _ _ _ _ (fun v => ram v = stored (RAM_SERIAL_LOAD c) data (ram s))).
    { eexists. split; [apply (Hloop u 0 Hfu)|]. split; [|cbn [ram set_files set_ram]; by rewrite Z.add_0_r, Hru, Hr].
      split; try done. cbn [files set_files set_ram]. rewrite Heq2. symmetry. apply (sm_files _ _ Hu). }
    intros v _ Hv. rewrite Z.add_0_l. eexists. split; [reflexivity|]. split; [by split|]. by split.
  - rewrite (proj2 (Z.ltb_lt _ _)) by exact Hl.
    destruct (open_holds _ _ _ Hs Hh) as (fp & t1 & E & Heq & fp' & t2 & Ec & Heq2).
    eapply boot_bind; [by apply (do_files_returns _ s (Some fp) t1)|]. intros u Hu [Hfu [Hru _ _]]. cbv zeta.
    eapply boot_bind; [by apply (boot_ret (Some fp) u (fun v => v = u))|]. intros ? _ ->.
    destruct (load_loop_reads LOAD_FUEL t1 fp [] z fp' t2 Ec) as (rest & Er & Hloop). cbn [app] in Er. subst rest.
    eapply (boot_bind _ _ _ _ _ (fun v => ram v = stored (RAM_SERIAL_LOAD c) z (ram s))).
    { eexists. split; [apply (Hloop u 0 Hfu)|]. split; [|cbn [ram set_files set_ram]; by rewrite Z.add_0_r, Hru].
      split; try done. cbn [files set_files set_ram]. rewrite Heq2. symmetry. apply (sm_files _ _ Hu). }
    intros v _ Hv. rewrite Z.add_0_l. apply get_bind.
    assert (Eb : bytes_at (ram v) (RAM_SERIAL_LOAD c) (Z.of_nat (length z)) = z).
    { unfold bytes_at. rewrite Hv, Nat2Z.id. by apply get_stored. }
    rewrite Eb, Hb. cbv zeta. apply store_bind. intros v1 _ Hr1 _ _. apply store_bind. intros v2 _ Hr2 _ _.
    eexists. split; [reflexivity|]. split; [by split|]. split; [|done]. cbn [ram set_load_size loaded_ram]. congruence.
Qed.

(** *** The monitor *)

Abbreviation window := (RAM_MONITOR_MAX c - RAM_MONITOR_CODE c).

(** The fields of the header are in its first 4096 bytes. *)
Record layout_ok (L : elf_layout) : Prop := {
  lo_ident : forall i, i ∈ [EI_MAG0 L; EI_MAG1 L; EI_MAG2 L; EI_MAG3 L; EI_CLASS L; EI_DATA L] -> 0 <= e_ident L + i < 4092;
  lo_type : 0 <= e_type L < 4092;
  lo_machine : 0 <= e_machine L < 4092;
  lo_entry : 0 <= e_entry L < 4092;
}.

(** The header is behind the window that the monitor is loaded to. *)
Lemma header_apart x n : 0 <= RAM_MONITOR_CODE c -> RAM_SERIAL_LOAD c + 4096 <= 4294967296 -> 0 <= RAM_SERIAL_LOAD c ->
  0 <= x -> 0 <= n <= 4 -> x < 4092 -> apart (RAM_MONITOR_CODE c) window (RAM_SERIAL_LOAD c + x) n.
Proof.
  intros Hc Ha H0 Hx Hn Hxl j Hj. rewrite u32_small by lia. unfold in_target, RAM_SERIAL_LOAD in *. lia.
Qed.

Lemma elf_valid_agrees m m' : layout_ok (layout c) -> 0 <= RAM_MONITOR_CODE c -> 0 <= RAM_SERIAL_LOAD c ->
  RAM_SERIAL_LOAD c + 4096 <= 4294967296 -> agrees m (RAM_MONITOR_CODE c) window m' ->
  elf_valid (layout c) m' (RAM_SERIAL_LOAD c) = elf_valid (layout c) m (RAM_SERIAL_LOAD c).
Proof.
  intros [Hi Ht Hm He] Hc H0 Ha Hag. unfold elf_valid.
  rewrite !(read16_agrees m (RAM_MONITOR_CODE c) window m') by (done || (apply header_apart; lia)).
  assert (E : forall i, i ∈ [EI_MAG0 (layout c); EI_MAG1 (layout c); EI_MAG2 (layout c); EI_MAG3 (layout c);
     EI_CLASS (layout c); EI_DATA (layout c)] -> ident (layout c) m' (RAM_SERIAL_LOAD c) i = ident (layout c) m (RAM_SERIAL_LOAD c) i).
  { intros i Hin. specialize (Hi i Hin). unfold ident. apply Hag.
    pose proof (header_apart (e_ident (layout c) + i) 1 Hc Ha H0 ltac:(lia) ltac:(lia) ltac:(lia) 0 ltac:(lia)) as Hap.
    replace (RAM_SERIAL_LOAD c + (e_ident (layout c) + i) + 0) with (RAM_SERIAL_LOAD c + e_ident (layout c) + i) in Hap by lia. exact Hap. }
  rewrite !E by (repeat (apply elem_of_cons; (by left) || right)). reflexivity.
Qed.

Lemma accepted_all to max segs : forallb (within to max) segs = true -> accepted to max segs = segs.
Proof.
  induction segs as [|x segs IH]; intros Hf; [done|]. cbn [forallb accepted] in *.
  apply andb_true_iff in Hf as [-> Hf]. by rewrite IH.
Qed.

(** C12: the ROM starts its monitor.  When nobody types a space and the file system has the file
    /monitor, or a compressed /monitor.bz2, and what that holds is a valid image whose segments
    fit into the window for the monitor, then [load_monitor] calls the entry point of the image
    with the size of the memory and of the image; every segment is then in its place, nothing
    else has changed in memory but the areas the file was loaded to, and the file system is as
    it was. *)
Theorem load_monitor_starts typed s data z :
  fs_ok (files s) -> rom_file (files s) (chars "/monitor") data z ->
  fst (serial_inb_timeout (W := W) (Z.shiftr BOGO_SEC 2) (around s)) <> Some 32 ->
  layout_ok (layout c) -> 0 <= RAM_MONITOR_CODE c -> 0 <= RAM_SERIAL_LOAD c ->
  RAM_SERIAL_LOAD c + Z.max 4096 (Z.of_nat (length (default [] z))) <= 4294967296 ->
  let m := loaded_ram (ram s) data z in
  image_apart (layout c) m (RAM_SERIAL_LOAD c) (RAM_MONITOR_CODE c) window ->
  elf_valid (layout c) m (RAM_SERIAL_LOAD c) <> 0 ->
  let segs := segments (layout c) m (RAM_SERIAL_LOAD c) in
  forallb (within (RAM_MONITOR_CODE c) window) segs = true ->
  exists t, load_monitor c typed s =
      Some (Monitor (read32 m (RAM_SERIAL_LOAD c + e_entry (layout c))) [mem_size c; Z.of_nat (length data)] t) /\
    (forall a, ram t a = loaded m segs a) /\
    (forall a, ~ in_target (RAM_MONITOR_CODE c) window a -> ram t a = m a) /\ files t ≡ files s.
Proof.
  intros Hs Hf Hq Hlo Hc H0 Hz m Him Hv segs Hw.
  destruct (elf_relocate_loads (layout c) m (RAM_SERIAL_LOAD c) (RAM_MONITOR_CODE c) window Him Hv) as (m' & Er & Hm' & Hag).
  fold segs in Er, Hm'. rewrite Hw in Er. rewrite accepted_all in Hm' by exact Hw.
  unfold load_monitor. destruct (serial_inb_timeout (Z.shiftr BOGO_SEC 2) (around s)) as [r w] eqn:Eq. cbn [fst] in Hq.
  erewrite bind_ret by (cbv beta; rewrite Eq; reflexivity).
  erewrite bind_ret.
  2: { destruct r as [b|]; [|reflexivity]. destruct (Z.eqb_spec b 32) as [->|]; [done|reflexivity]. }
  destruct (load_returns (set_around w s) (chars "/monitor") data z Hs Hf H0 ltac:(lia)) as (t & El & Ht & Hr & _).
  change (ram (set_around w s)) with (ram s) in Hr. fold m in Hr.
  rewrite (bind_ret _ _ _ _ _ El). rewrite (proj2 (Z.ltb_ge _ 0)) by lia.
  exists (set_ram m' t). split; [|split; [exact Hm'|split; [exact Hag|exact (sm_files _ _ Ht)]]].
  unfold mbind at 1, B_bind at 1.
  erewrite (bind_ret (relocate_monitor c)).
  2: { unfold relocate_monitor. rewrite (bind_ret _ _ _ _ _ eq_refl). rewrite Hr. unfold Boot.L.
       rewrite (proj2 (Z.eqb_neq _ 0) Hv), Er. reflexivity. }
  change (negb (0 =? 0)) with false. cbv iota. rewrite (bind_ret _ _ _ _ _ eq_refl).
  rewrite (bind_ret _ _ _ _ _ eq_refl). cbn [ram set_ram]. unfold start_monitor, elf_entry, Boot.L.
  rewrite (elf_valid_agrees m m' Hlo Hc H0 ltac:(lia) Hag), (proj2 (Z.eqb_neq _ 0) Hv).
  rewrite (read32_agrees m (RAM_MONITOR_CODE c) window m'); [reflexivity|exact Hag|].
  apply header_apart; destruct Hlo; lia.
Qed.

(** *** The zero page *)


(** "%d" and "%0x". *)
Definition dec (n : Z) : list Z := let c := conv_of [] [] in field c (is_neg c n) (magnitude c n) 10.
Definition hex (n : Z) : list Z := let c := unsigned (conv_of [48] []) in field c (is_neg c n) (magnitude c n) 16.

Definition on (x : Z) (yes no : list Z) : list Z := if x =? 0 then no else yes.
Abbreviation var f s := (f (vars (mach s))).

(** The command lines of the first and of the second stage. *)
Definition load_line (image params : list Z) s : list Z :=
  chars "console=" ++ (if (var console s =? 0) || (var debug s =? 0) then CONSOLE_OFF else CONSOLE_DEF) ++
  on (var debug s) (chars " debug") [] ++ chars " mem=" ++ dec (MEMSIZE_DEFAULT c) ++
  chars "M cobalt_boot_image=" ++ image ++ chars " cobalt_boot_return=0x" ++ hex (return_from_kernel_at c) ++
  chars " cobalt_boot_data=0x" ++ hex (return_data_at c) ++ chars " cobalt_boot_load=0x" ++ hex (RAM_SERIAL_LOAD c) ++
  chars " cobalt_ramcode_map=0x" ++ hex (RAMCODE_START c) ++ chars ",0x" ++ hex (u32 (RAMCODE_END - RAMCODE_START c)) ++
  chars " " ++ params ++ or_empty (load_params s).
Definition run_line (params : list Z) s : list Z :=
  chars "console=" ++ on (var console s) CONSOLE_DEF CONSOLE_OFF ++ on (var debug s) (chars " debug") [] ++
  (if mem_limit s =? 0 then [] else chars " mem=" ++ dec (u32 (mem_limit s)) ++ chars "M") ++
  chars " " ++ params ++ or_empty (boot_params s).

Definition load_pieces : list piece :=
  let s := Conv [] [] 115 in let x := Conv [48] [] 120 in let t l := Text (chars l) in
  [t "console="; s; s; t " mem="; Conv [] [] 100; t "M cobalt_boot_image="; s; t " cobalt_boot_return=0x"; x;
   t " cobalt_boot_data=0x"; x; t " cobalt_boot_load=0x"; x; t " cobalt_ramcode_map=0x"; x; t ",0x"; x; t " "; s; s]%string.
Definition run_pieces (limit : bool) : list piece :=
  let s := Conv [] [] 115 in let t l := Text (chars l) in
  [t "console="; s; s]%string ++ (if limit then [t " mem="; Conv [] [] 100; t "M "]%string else [t " "%string]) ++ [s; s].

Lemma snprintf_at_returns a ps args s t :
  0 <= a -> a + 2048 <= 4294967296 -> forallb piece_ok ps = true -> Forall arg_ok args ->
  text_of ps args = Some t -> nonzero t ->
  returns (snprintf_at malloc a 2048 (format ps) args) s tt (fun u => exists m,
    Z.of_nat (length m) = 2048 /\ cstr m = take (Z.to_nat 2047) t /\ ram u = stored a m (ram s)).
Proof.
  intros Ha He Hp Hargs Ht Hnz. unfold snprintf_at. apply get_bind.
  assert (Hl : Z.of_nat (length (bytes_at (ram s) a 2048)) = 2048) by (unfold bytes_at; rewrite get_length; lia).
  destruct (snprintf_text malloc ps (bytes_at (ram s) a 2048) 2048 args t)
    as (n & b & m & E & Eb & Em & _ & Elen); [lia|done..|]. rewrite E, Eb.
  eexists. split; [reflexivity|]. split; [by split|]. exists m. split; [lia|]. split; [exact Em|done].
Qed.

Lemma nonzero_field_d n : 0 <= n < 2 ^ 32 -> nonzero (dec n).
Proof.
  intros Hn. unfold dec. cbv zeta. apply nonzero_field; [lia|].
  pose proof (magnitude_range (conv_of [] []) n Hn). change (2 ^ 32) with 4294967296 in *. change (2 ^ 64) with 18446744073709551616. lia.
Qed.
Lemma nonzero_field_x n : 0 <= n < 2 ^ 32 -> nonzero (hex n).
Proof.
  intros Hn. unfold hex. cbv zeta. apply nonzero_field; [lia|].
  pose proof (magnitude_range (unsigned (conv_of [48] [])) n Hn). change (2 ^ 32) with 4294967296 in *. change (2 ^ 64) with 18446744073709551616. lia.
Qed.

(** What the texts and the addresses of the settings must be. *)
Record line_ok (params image : list Z) s : Prop := {
  li_params : nonzero params; li_image : nonzero image;
  li_boot : nonzero (or_empty (boot_params s)); li_load : nonzero (or_empty (load_params s));
  li_code : 0 <= RAMCODE_START c < 4000000000;
  li_return : 0 <= return_from_kernel_at c < 4294967296; li_data : 0 <= return_data_at c < 4294967296;
}.
Definition the_line (stage : Z) (params image : list Z) s : list Z :=
  if stage =? BOOT_STAGE_LOAD then load_line image params s else run_line params s.

Lemma nonzero_chars l : forallb (fun x => negb (x =? 0)) (chars l) = true -> nonzero (chars l).
Proof.
  intros Hf. apply Forall_forall. intros x Hx. rewrite forallb_forall in Hf. apply list_elem_of_In, Hf in Hx.
  apply Z.eqb_neq. by destruct (x =? 0).
Qed.
Lemma nonzero_on x yes no : nonzero yes -> nonzero no -> nonzero (on x yes no).
Proof. unfold on. by destruct (x =? 0). Qed.

Lemma command_line_returns stage params image s : line_ok params image s ->
  returns (command_line malloc c stage params image) s tt (fun u => exists m,
    Z.of_nat (length m) = 2048 /\ cstr m = take (Z.to_nat 2047) (the_line stage params image s) /\
    ram u = stored (LINUX_ENTRY_STACK + CL_OFF) m (ram s)).
Proof.
  intros [Hp Hi Hb Hl Hc Hr Hd]. unfold command_line, the_line, var_. apply get_bind. apply get_bind. cbv zeta.
  pose proof (u32_range (RAMCODE_END - RAMCODE_START c)) as Hu.
  assert (Hm : 0 <= MEMSIZE_DEFAULT c < 2 ^ 32).
  { unfold MEMSIZE_DEFAULT. rewrite Z.shiftr_div_pow2 by lia. change (2 ^ 32) with 4294967296. change (2 ^ 20) with 1048576. dlia. }
  assert (Hsl : 0 <= RAM_SERIAL_LOAD c < 2 ^ 32) by (unfold RAM_SERIAL_LOAD, RAM_MONITOR_MAX; change (2 ^ 32) with 4294967296; lia).
  assert (Ha : 0 <= LINUX_ENTRY_STACK + CL_OFF /\ LINUX_ENTRY_STACK + CL_OFF + 2048 <= 4294967296) by (unfold LINUX_ENTRY_STACK, CL_OFF; lia).
  assert (Hcon : nonzero CONSOLE_OFF /\ nonzero CONSOLE_DEF) by (split; by apply nonzero_chars).
  assert (Hdbg : nonzero (chars " debug")) by by apply nonzero_chars.
  destruct (stage =? BOOT_STAGE_LOAD).
  - apply get_bind.
    match goal with |- returns (snprintf_at _ _ _ ?f _) _ _ _ => change f with (format load_pieces) end.
    apply snprintf_at_returns; [lia|lia|reflexivity| | |].
    + change (2 ^ 32) with 4294967296 in *. repeat (constructor; [simpl; change (2 ^ 32) with 4294967296|]); try done; try lia.
      * destruct (_ || _); apply Hcon.
      * destruct (_ =? 0); [constructor|done].
    + rewrite <- (app_nil_r (load_line image params s)). unfold load_line. rewrite <- !app_assoc. reflexivity.
    + unfold load_line. rewrite !nonzero_app. split_and!; try (by apply nonzero_chars); try (apply nonzero_field_x);
        try (apply nonzero_field_d); try apply nonzero_on; try done; change (2 ^ 32) with 4294967296 in *; try lia; [|constructor].
      destruct (_ || _); apply Hcon.
  - apply get_bind, get_bind.
    pose proof (u32_range (mem_limit s)) as Hlim.
    assert (Hnz : nonzero (run_line params s)).
    { unfold run_line. rewrite !nonzero_app. split_and!; try (by apply nonzero_chars); try apply nonzero_on; try apply Hcon; try done;
        try (by apply Forall_nil_2). rewrite !nonzero_app. split_and!; try (by apply nonzero_chars). apply nonzero_field_d. change (2 ^ 32) with 4294967296. lia. }
    rewrite <- (app_nil_r (run_line params s)) in Hnz |- *.
    revert Hnz. unfold run_line. destruct (mem_limit s =? 0); rewrite <- !app_assoc; intros Hnz.
    + match goal with |- returns (snprintf_at _ _ _ ?f _) _ _ _ => change f with (format (run_pieces false)) end.
      apply snprintf_at_returns; [lia|lia|reflexivity| |reflexivity|exact Hnz].
      repeat (constructor; [simpl|]); try done; [by destruct (_ =? 0); apply Hcon|destruct (_ =? 0); [constructor|done]].
    + match goal with |- returns (snprintf_at _ _ _ ?f _) _ _ _ => change f with (format (run_pieces true)) end.
      apply snprintf_at_returns; [lia|lia|reflexivity| |reflexivity|exact Hnz].
      repeat (constructor; [simpl; change (2 ^ 32) with 4294967296|]); try done; try lia; [by destruct (_ =? 0); apply Hcon|destruct (_ =? 0); [constructor|done]].
Qed.

(** Where the page has fields. *)
Definition page_fields : list (Z * Z) :=
  [(0x90002, 2); (0x90020, 4); (0x901E0, 4); (0x901F1, 3); (0x901FC, 2); (0x90210, 2); (0x90214, 4); (0x90800, 2048)].

(** What Linux finds in the zero page, and that nothing else changed but the reset code and vector. *)
Record zero_page (stage : Z) (params image : list Z) s (before m : memory) : Prop := {
  zp_ext : read16 m 0x90002 = u16 (u32 (Z.shiftr (mem_size c) 10 - 1024));
  zp_magic : read16 m 0x90020 = LINUX_MAGIC;
  zp_offset : read16 m 0x90022 = CL_OFF;
  zp_alt : read32 m 0x901E0 = u32 (Z.shiftr (mem_size c) 10 - 1024);
  zp_setup : m 0x901F1 = 4;
  zp_rdonly : read16 m 0x901F2 = 1;
  zp_root : read16 m 0x901FC = u16 (if stage =? BOOT_STAGE_LOAD then load_device s else root_device s);
  zp_loader : m 0x90210 = 0xff;
  zp_flags : m 0x90211 = 1;
  zp_start : read32 m 0x90214 = LINUX_ENTRY_ADDR;
  zp_line : cstr (bytes_at m 0x90800 2048) = take (Z.to_nat 2047) (the_line stage params image s);
  zp_reset : m SHUTDOWN_CODE = 0xa;
  zp_zero : forall a, 0x90000 <= a < 0x91000 -> Forall (fun f => ~ (fst f <= a < fst f + snd f)) page_fields -> m a = 0;
  zp_rest : forall a, ~ (0x90000 <= a < 0x91000) -> a ∉ [SHUTDOWN_CODE; WARM_RESET_VECTOR_LO; WARM_RESET_VECTOR_HI] ->
    m a = before a;
}.

(** Reading a field through what was stored around it. *)
Lemma get_here a d m b n : b = a -> n = length d -> 0 <= a -> a + Z.of_nat (length d) <= 4294967296 ->
  get (stored a d m) b n = d.
Proof. intros -> -> Ha Hd. by apply get_stored. Qed.
Lemma byte_here a x m b : b = a -> stored a [x] m b = x.
Proof. intros ->. rewrite stored_inside by (simpl; lia). by rewrite Z.sub_diag. Qed.

Lemma line_same stage params image s t : same s t -> the_line stage params image t = the_line stage params image s.
Proof.
  intros [Hm _ _ _ _ _ _ Hb Hl Hlim _ _ _]. unfold the_line, load_line, run_line. by rewrite Hm, Hb, Hl, Hlim.
Qed.
Lemma line_ok_same params image s t : same s t -> line_ok params image s -> line_ok params image t.
Proof. intros [Hm _ _ _ _ _ _ Hb Hl Hlim _ _ _] []. split; try done; by rewrite ?Hb, ?Hl. Qed.

(** Stores in sequence. *)
Definition stores (ws : list (Z * list Z)) (m : memory) : memory := foldl (fun m w => stored (fst w) (snd w) m) m ws.
Lemma stores_snoc ws a d m : stores (ws ++ [(a, d)]) m = stored a d (stores ws m).
Proof. unfold stores. by rewrite foldl_app. Qed.
Lemma stores_outside ws m x : Forall (fun w => ~ (fst w <= x < fst w + Z.of_nat (length (snd w)))) ws -> stores ws m x = m x.
Proof.
  revert m. induction ws as [|[a d] ws IH]; intros m Hw; [done|]. inversion Hw; subst. cbn [stores foldl fst snd].
  change (stores ws (stored a d m) x = m x). rewrite IH by done. by apply stored_outside.
Qed.
Lemma store_step {A} ws a' d (k : unit -> B A) s t a P : same s t -> ram t = stores ws (ram s) ->
  (forall u, same s u -> ram u = stores (ws ++ [(a', d)]) (ram s) -> returns (k tt) u a P) ->
  returns (Boot.store a' d ≫= k) t a P.
Proof.
  intros Hs Hr Hk. apply store_bind. intros u Hu Er _ _. apply Hk; [by transitivity t|].
  by rewrite stores_snoc, <- Hr.
Qed.

Definition page_stores (stage : Z) s : list (Z * list Z) :=
  let reset := RAM_MONITOR_CODE c in let above := u32 (Z.shiftr (mem_size c) 10 - 1024) in
  [(0xf, [0xa]); (0x467, [u8 (Z.land reset 0xffff)]); (0x469, [u8 (Z.land (Z.shiftr reset 16) 0xffff)]);
   (0x90000, zeros PAGE_SIZE); (0x90002, le_bytes 2 above); (0x901E0, le_bytes 4 above); (0x901F1, [4]);
   (0x901F2, le_bytes 2 1); (0x90210, [0xff]); (0x901FC, le_bytes 2 (root_device s));
   (0x90214, le_bytes 4 LINUX_ENTRY_ADDR); (0x90020, le_bytes 2 LINUX_MAGIC); (0x90022, le_bytes 2 CL_OFF); (0x90211, [1])] ++
  (if stage =? BOOT_STAGE_LOAD then [(0x901FC, le_bytes 2 (load_device s))] else []).

Ltac next_store := eapply (store_step _ _ _ _ _); [eassumption|eassumption|]; intros ? ? ?.

Lemma setup_stores stage params image s : line_ok params image s ->
  returns (setup_boot_linux malloc c stage params image) s tt (fun u => exists m, Z.of_nat (length m) = 2048 /\
    cstr m = take (Z.to_nat 2047) (the_line stage params image s) /\
    ram u = stores (page_stores stage s ++ [(0x90800, m)]) (ram s)).
Proof.
  intros Hok. unfold setup_boot_linux. cbv zeta.
  apply (store_step [] _ _ _ s); [done|done|]. intros t0 H0 R0. do 2 next_store.
  apply around_bind. intros t Ht [Hr _ _]. rewrite <- Hr in *.
  match goal with Hx : same s ?u, Hy : same ?u t |- _ => assert (Hst : same s t) by (by transitivity u) end.
  do 6 next_store. apply get_bind.
  match goal with Hx : same s ?u |- returns (Boot.store _ (le_bytes 2 (root_device ?u)) ≫= _) _ _ _ => rewrite (sm_root _ _ Hx) end.
  do 5 next_store. cbn [app] in *.
  match goal with Hx : same s ?u, Hy : ram ?u = stores _ (ram s) |- returns _ ?u _ _ => rename u into t1, Hx into S1, Hy into R1 end.
  eapply (boot_bind _ _ _ tt _ (fun u => same s u /\ ram u = stores (page_stores stage s) (ram s))).
  { unfold page_stores. destruct (stage =? BOOT_STAGE_LOAD).
    - apply get_bind. rewrite (sm_load _ _ S1). eapply boot_impl; [apply store_returns|]. intros v Hv (Er & _ & _).
      split; [by transitivity t1|]. rewrite stores_snoc, Er. f_equal. rewrite R1. reflexivity.
    - apply boot_ret. split; [exact S1|]. rewrite app_nil_r. exact R1. }
  intros v Hv [Hsu Ru].
  eapply boot_bind; [apply (command_line_returns stage params image v), (line_ok_same _ _ _ _ Hsu Hok)|].
  intros x Hx (m & Hm & Em & Rv). eapply boot_impl; [apply around_returns|]. intros y Hy [Rw _ _].
  exists m. split; [exact Hm|]. split; [by rewrite <- (line_same stage params image _ _ Hsu)|].
  rewrite stores_snoc, Rw, Rv, Ru. reflexivity.
Qed.

Lemma nth_zeros i n : nth i (zeros n) 0 = 0.
Proof. unfold zeros. rewrite nth_lookup. destruct (_ !! i) as [x|] eqn:E; [|done]. by apply lookup_replicate_1 in E as [-> _]. Qed.

Ltac sizes := rewrite ?length_le_bytes; cbn [length]; lia.
Ltac field := unfold read16, read32; repeat (rewrite get_outside by sizes); rewrite get_here by sizes;
  rewrite ?le_val_bytes16, ?le_val_bytes32; try reflexivity.
Ltac byte := repeat (rewrite stored_outside by sizes); apply byte_here; lia.

Lemma setup_page stage params image s : line_ok params image s ->
  returns (setup_boot_linux malloc c stage params image) s tt (fun t => zero_page stage params image s (ram s) (ram t)).
Proof.
  intros Hok. eapply boot_impl; [by apply setup_stores|]. intros t _ (m & Hm & Em & ->).
  assert (Hz : Z.of_nat (length (zeros PAGE_SIZE)) = 4096) by (unfold zeros; rewrite length_replicate; done).
  assert (Hu : u32 (u32 (Z.shiftr (mem_size c) 10 - 1024)) = u32 (Z.shiftr (mem_size c) 10 - 1024)).
  { apply u32_small, u32_range. }
  split.
  13: { intros a Ha Hf. unfold page_fields in Hf. rewrite !Forall_cons in Hf. cbn [fst snd] in Hf.
        unfold page_stores; destruct (stage =? BOOT_STAGE_LOAD); unfold stores; cbn [app foldl fst snd];
          repeat (rewrite stored_outside by sizes); rewrite stored_inside by lia; apply nth_zeros. }
  13: { intros a Ha1 Ha2. apply stores_outside. rewrite !not_elem_of_cons in Ha2. unfold SHUTDOWN_CODE, WARM_RESET_VECTOR_LO, WARM_RESET_VECTOR_HI in Ha2.
        unfold page_stores. apply Forall_app. split; [apply Forall_app; split|]; [|destruct (_ =? _)|];
          repeat constructor; cbn [fst snd]; rewrite ?length_le_bytes; cbn [length]; try lia. }
  all: unfold page_stores; destruct (stage =? BOOT_STAGE_LOAD) eqn:Est; unfold stores; cbn [app foldl fst snd].
  all: try (field; exact Hu).
  all: try (field; fail).
  all: try byte.
  all: try (unfold bytes_at; rewrite get_here by lia; exact Em).
  all: unfold SHUTDOWN_CODE; byte.
Qed.

(** C17: the zero page.  Whatever memory holds, [setup_boot_linux] leaves a page at 0x90000 in
    which Linux finds the size of the memory above 1 MB, the magic number, the start of the
    kernel, the root device of the second stage or the device the first stage loads from, and
    a command line of at most 2047 characters: the start of the one for the stage, with the
    console, the limit of the memory, the image to load and where the loader is to return to;
    the rest of the page is zero, and outside of it only the shutdown code and the reset vector change. *)
Theorem setup_boot_linux_page stage params image s : line_ok params image s ->
  exists t, setup_boot_linux malloc c stage params image s = Some (Ret tt t) /\ same s t /\
    zero_page stage params image s (ram s) (ram t).
Proof. apply setup_page. Qed.

(** *** Booting from the disk, in two stages *)

Definition gdt_bytes : list Z := concat (map (le_bytes 4) gdt_data).

Lemma zero_page_from stage params image s t before m : same s t ->
  (forall a, ram t a = before a) -> zero_page stage params image t (ram t) m -> zero_page stage params image s before m.
Proof.
  intros Hs Hb []. split; try done.
  - by rewrite <- (sm_load _ _ Hs), <- (sm_root _ _ Hs).
  - by rewrite <- (line_same stage params image _ _ Hs).
  - intros a Ha Hn. rewrite <- Hb. auto.
Qed.

(** Setting the page up and jumping to the kernel. *)
Lemma linux_started stage params image s t before : same s t -> (forall a, ram t a = before a) ->
  line_ok params image s ->
  exists u, (setup_boot_linux malloc c stage params image;; START_LINUX) t = Some (Linux u) /\ same s u /\
    zero_page stage params image s before (ram u).
Proof.
  intros Hs Hb Hok. destruct (setup_page stage params image t) as (u & E & Hu & Hz); [by apply (line_ok_same _ _ s)|].
  exists u. rewrite (bind_ret _ _ _ _ _ E). split; [done|]. split; [by transitivity t|]. by apply (zero_page_from _ _ _ s t).
Qed.

Lemma loaded_back m data z : 0 <= RAM_SERIAL_LOAD c -> RAM_SERIAL_LOAD c + Z.of_nat (length data) <= 4294967296 ->
  bytes_at (loaded_ram m data z) (RAM_SERIAL_LOAD c) (Z.of_nat (length data)) = data.
Proof. intros H0 Hd. unfold bytes_at. rewrite Nat2Z.id. destruct z; by apply get_stored. Qed.

(** The kernel in the ROM can be loaded, into the memory [m]. *)
Record rom_kernel (s : boot_state (St := St) (hw := hw) (W := W)) (m : memory) (m1 : memory) : Prop := {
  rk_fs : fs_ok (files s);
  rk_kernel : exists zk z, rom_file (files s) ROM_KERNEL zk z /\
    RAM_SERIAL_LOAD c + Z.of_nat (length (default [] z)) <= 4294967296 /\
    RAM_SERIAL_LOAD c + Z.of_nat (length zk) <= 4294967296 /\ unpacked (loaded_ram m zk z) zk m1;
  rk_area : 0 <= RAM_SERIAL_LOAD c;
  rk_ok : kernel_ok c m1;
}.

(** Loading and unpacking it, with what is shown in between. *)
Lemma rom_kernel_loaded s t m1 : rom_kernel s (ram s) m1 -> same s t -> ram t = ram s ->
  exists n u, load_from_romfs c ROM_KERNEL t = Some (Ret n u) /\ 0 <= n /\ same t u /\
    forall v, same u v -> calm u v ->
      returns (bunzip2_kernel c) v tt (fun w => forall a, ram w a = kernel_in c m1 a).
Proof.
  intros [Hfs (zk & z & Hf & Hz & Hzk & Hu) H0 Hk] Hs Hr.
  destruct (load_returns t ROM_KERNEL zk z) as (u & E & Hsu & Hru & Hlu).
  - rewrite (sm_files _ _ Hs). exact Hfs.
  - eapply rom_file_equiv; [symmetry; apply (sm_files _ _ Hs)|exact Hf].
  - exact H0.
  - exact Hz.
  - exists (Z.of_nat (length zk)), u. split; [exact E|]. split; [lia|]. split; [done|].
    intros v Hv [Hrv Hlv _]. eapply boot_impl; [apply (bunzip2_returns v m1); [|exact Hk]|by intros ? _ [? _]].
    unfold loaded_image. rewrite Hrv, Hlv, Hru, Hlu, Hr, loaded_back by done. exact Hu.
Qed.

Lemma boot_prep_returns s m1 : rom_kernel s (ram s) m1 ->
  returns (boot_prep c) s 0 (fun t => forall a, ram t a = kernel_in c m1 a).
Proof.
  intros Hk. unfold boot_prep. apply around_bind. intros t1 Hs1 [Hr1 _ _].
  unfold reset_lcd_for_boot, show. apply around_bind. intros t2 Hs2 [Hr2 _ _].
  destruct (rom_kernel_loaded s t2 m1 Hk) as (n & u & E & Hn & Hsu & Hb); [by transitivity t1|congruence|].
  eapply (boot_bind _ _ _ n _ (fun v => v = u)); [by exists u|]. intros ? _ ->.
  rewrite (proj2 (Z.ltb_ge n 0)) by lia. unfold say. apply around_bind. intros v Hv Hcv.
  eapply boot_bind; [apply (Hb v Hv Hcv)|]. intros w _ Hw. by apply boot_ret.
Qed.

(** What a kernel that loaded another one has kept of the state in which it was started. *)
Definition loader_kept (t u : boot_state (St := St) (hw := hw) (W := W)) : Prop :=
  same (set_return_error (return_data_error u) (set_return_flen (return_data_flen u) t)) u.

Definition with_gdt (m : memory) : memory := stored GDT_MEM gdt_bytes m.

(** The second stage: the kernel that was loaded is started, or the one in the ROM. *)
Lemma second_stage s u m2 : fs_ok (files s) -> loader_kept s u -> return_from_load_func s = Some bfd_linux_fn ->
  line_ok (chars "ip=off ") [] s ->
  (0 <= return_data_error u /\ kernel_ok c m2 /\
     unpacked (with_gdt (ram u)) (bytes_at (with_gdt (ram u)) (RAM_SERIAL_LOAD c) (u32 (return_data_flen u))) m2) \/
  (return_data_error u < 0 /\ rom_kernel s (with_gdt (ram u)) m2) ->
  exists v, return_from_kernel malloc c u = Some (Linux v) /\
    zero_page BOOT_STAGE_RUN (chars "ip=off ") [] s (kernel_in c m2) (ram v).
Proof.
  intros Hfs Hku Hret Hok Hcase. unfold return_from_kernel, Boot.store.
  rewrite (bind_ret _ _ _ _ _ eq_refl). fold gdt_bytes. fold (with_gdt (ram u)).
  set (u1 := set_ram (with_gdt (ram u)) u).
  assert (Hu1 : same u u1) by by split. rewrite (bind_ret _ _ _ _ _ eq_refl).
  assert (Hru : return_from_load_func u1 = Some bfd_linux_fn).
  { rewrite (sm_return _ _ Hu1), (sm_return _ _ Hku). exact Hret. }
  rewrite Hru. unfold bfd_linux.
  assert (Hprep : returns (bfX_linux_prep c) u1 tt (fun w => forall a, ram w a = kernel_in c m2 a)).
  { unfold bfX_linux_prep. apply get_bind. change (return_data_error u1) with (return_data_error u).
    destruct Hcase as [(He & Hk & Hun)|(He & Hrk)].
    - rewrite (proj2 (Z.ltb_ge _ 0)) by exact He. unfold say, show.
      eapply (boot_bind _ _ _ tt _ (fun w => ram w = with_gdt (ram u) /\ serial_load_size w = u32 (return_data_flen u))).
      + apply around_bind. intros w1 S1 [R1 _ _]. apply around_bind. intros w2 S2 [R2 _ _].
        eexists. split; [reflexivity|]. split; [by split|]. cbn [ram serial_load_size set_load_size]. split; [by rewrite R2, R1|].
        by rewrite (sm_flen _ _ S2), (sm_flen _ _ S1).
      + intros w _ [Rw Lw]. eapply boot_impl; [apply (bunzip2_returns w m2); [|exact Hk]|by intros ? _ [? _]].
        unfold loaded_image. by rewrite Rw, Lw.
    - rewrite (proj2 (Z.ltb_lt _ 0)) by exact He. unfold line, say, show.
      eapply (boot_bind _ _ _ tt _ (fun w => returns (bunzip2_kernel c) w tt (fun v => forall a, ram v a = kernel_in c m2 a))).
      + apply around_bind. intros w1 S1 [R1 _ _]. apply around_bind. intros w2 S2 [R2 _ _].
        assert (Hrk' : rom_kernel u1 (ram u1) m2).
        { destruct Hrk as [_ (zk & z & Hf & Hz & Hzk & Hun) H0 Hk]. pose proof (sm_files _ _ Hku) as Hfu.
          split; [by rewrite (sm_files _ _ Hu1), Hfu| |exact H0|exact Hk]. exists zk, z. split; [|done].
          eapply rom_file_equiv; [|exact Hf]. symmetry. rewrite (sm_files _ _ Hu1). exact Hfu. }
        destruct (rom_kernel_loaded u1 w2 m2 Hrk') as (n & w & E & Hn & Hw & Hb); [by transitivity w1|by rewrite R2, R1|].
        eapply (boot_bind _ _ _ n _ (fun v => v = w)); [by exists w|]. intros ? _ ->.
        rewrite (proj2 (Z.ltb_ge n 0)) by lia. apply boot_ret. apply Hb; [done|by split].
      + intros w _ Hw. exact Hw. }
  destruct Hprep as (w & Ew & Hw & Hm). rewrite (bind_ret _ _ _ _ _ Ew). unfold boot_kernel_linux.
  destruct (linux_started BOOT_STAGE_RUN (chars "ip=off ") [] (set_return_error (return_data_error u) (set_return_flen (return_data_flen u) s))
    w (kernel_in c m2)) as (v & Ev & _ & Hz); [|exact Hm|destruct Hok; by split|].
  { transitivity u; [exact Hku|]. by transitivity u1. }
  exists v. split; [exact Ev|]. destruct Hz. by split.
Qed.

(** C11: booting from the disk.  When the ROM has a kernel that unpacks and fits below 16 MB,
    "boot from disk" starts it with its segments in place and a command line that names the
    kernel to load and where to return to.  Whatever that kernel then does, as long as it keeps
    the state of the ROM and returns: if it reports a length, the image it has left is unpacked
    and started as the second stage, with the root device of the settings; if it reports an
    error, the kernel of the ROM is loaded again and started in that way. *)
Theorem disk_boots s m1 : rom_kernel s (ram s) m1 -> line_ok (chars "ip=off ") (kernel_image s) s ->
  exists t, do_bfX malloc c BOOT_OPT_BFD s = Some (Linux t) /\
    zero_page BOOT_STAGE_LOAD (chars "ip=off ") (kernel_image s) s (kernel_in c m1) (ram t) /\
    forall u m2, loader_kept t u ->
      (0 <= return_data_error u /\ kernel_ok c m2 /\
         unpacked (with_gdt (ram u)) (bytes_at (with_gdt (ram u)) (RAM_SERIAL_LOAD c) (u32 (return_data_flen u))) m2) \/
      (return_data_error u < 0 /\ rom_kernel s (with_gdt (ram u)) m2) ->
      exists v, return_from_kernel malloc c u = Some (Linux v) /\
        zero_page BOOT_STAGE_RUN (chars "ip=off ") [] s (kernel_in c m2) (ram v).
Proof.
  intros Hrk Hok. destruct (boot_prep_returns s m1 Hrk) as (t1 & E1 & S1 & M1).
  unfold do_bfX. rewrite (bind_ret _ _ _ _ _ E1). change (0 <? 0) with false. change (negb (BOOT_OPT_BFD =? BOOT_OPT_OTHER)) with true. cbv iota.
  unfold set_boot_opt. rewrite bind_put, bind_put, !bind_get. cbn [boot_opt boot_fcn kernel_image set_fcn set_opt].
  set (o := Z.lor (Z.land (boot_opt t1) (Z.lnot BOOT_OPT_MASK)) (Z.land BOOT_OPT_BFD BOOT_OPT_MASK)).
  assert (Ho : forall k, Z.land (Z.lnot BOOT_OPT_MASK) k = 0 -> Z.land o k = Z.land BOOT_OPT_BFD k).
  { intros k Hk. unfold o. rewrite Z.land_lor_distr_l, <- Z.land_assoc, Hk, Z.land_0_r. reflexivity. }
  rewrite !Ho by reflexivity. change (Z.land BOOT_OPT_BFD CMOS_BOOT_FS_MASK =? CMOS_BOOT_FS_NET) with false. cbv iota.
  change (Z.land BOOT_OPT_BFD CMOS_BOOT_KERN_MASK =? CMOS_BOOT_KERN_ROM) with false.
  change (Z.land BOOT_OPT_BFD CMOS_BOOT_KERN_MASK =? CMOS_BOOT_KERN_NET) with false. cbv iota.
  rewrite (sm_image _ _ S1).
  set (s0 := set_return (Some bfd_linux_fn) (set_fcn bfd_linux_fn (set_opt o s))).
  assert (S0 : same s0 (set_return (Some bfd_linux_fn) (set_fcn bfd_linux_fn (set_opt o t1)))) by (destruct S1; by split).
  destruct (linux_started BOOT_STAGE_LOAD (chars "ip=off ") (kernel_image s) s0 _ (kernel_in c m1) S0) as (t & E & St0 & Hz);
    [exact M1|destruct Hok; by split|].
  exists t. split; [|split].
  - apply bind_linux. unfold read_kernel_from_disk. rewrite bind_put. exact E.
  - destruct Hz. by split.
  - assert (St1 : forall e n, same (set_return_error e (set_return_flen n s0)) (set_return_error e (set_return_flen n t)))
      by (intros e n; destruct St0; split; assumption || reflexivity).
    intros u m2 Hku Hcase. destruct (second_stage s0 u m2) as (v & Ev & Hv).
    + exact (rk_fs _ _ _ Hrk).
    + exact (transitivity (St1 (return_data_error u) (return_data_flen u)) Hku).
    + reflexivity.
    + destruct Hok. split; [assumption|apply Forall_nil_2|assumption..].
    + destruct Hcase as [?|[He [? ? ? ?]]]; [by left|right]. split; [exact He|]. by split.
    + exists v. split; [exact Ev|]. destruct Hv. by split.
Qed.
End Boot.

(** ** A concrete machine *)

Lemma stored_bytes a d m : bytes_ok d -> (forall x, 0 <= m x < 256) -> forall x, 0 <= stored a d m x < 256.
Proof.
  intros Hd Hm x. unfold stored. destruct ((a <=? x) && (x <? a + Z.of_nat (length d))) eqn:E; [|apply Hm].
  rewrite nth_lookup. destruct (d !! Z.to_nat (x - a)) as [y|] eqn:Ey; [|simpl; lia].
  exact (proj1 (Forall_lookup _ _) Hd _ y Ey).
Qed.
Lemma above_apart to max_size a n : to + max_size <= a -> a + n <= 4294967296 -> 0 <= a -> apart to max_size a n.
Proof. intros Ha Hn H0 j Hj. rewrite u32_small by lia. unfold in_target. lia. Qed.

(** Nobody types, and what is unpacked is always [img]. *)
Definition quiet (img : list Z) : Around unit := {|
  printf := fun _ _ w => w; lcd := fun _ w => w; enable_caches := fun w => w; eeprom_set_bank_page := fun _ _ w => w;
  eth_get_first_mac := fun _ => []; eth_wol_setup := fun w => w; serial_inb := fun _ => None;
  serial_inb_timeout := fun _ w => (None, w); BZ2_bzBuffToBuffDecompress := fun _ => (true, img);
  uncompress_kernel := fun _ _ => (false, []) |}.
#[local] Instance no_ports : Ports unit := {| dev_outb := fun _ _ h => h; dev_inb := fun _ h => (0, h) |}.

Definition demo : settings := mk_settings 0x4000000 [] [] 0x1600000 0x1620000 0x1621000 0x1622000 abi.
Definition demo_vars : cmos_vars := mk_cmos_vars [] 1 0 0 0 0 1 1 0 0 0 1 0x11 [].
Definition demo_state : boot_state (St := cached stdio) (hw := unit) (W := unit) :=
  mk_boot tt (mk_rom tt 0x10000 demo_vars) disk2 (fun _ => 0) BOOT_KERNEL_LINUX 0x11 bfd_linux_fn 0x301 0x302 None None 0 0 0
    None 0 0.

Lemma leaf_holds (s : fs (cached stdio)) blk leaf : content_facts s blk -> leaf <> [] -> too_long leaf = false -> slash ∉ leaf ->
  lookup s (start_dir s (slash :: leaf)) leaf = Some 2 -> path_holds s (slash :: leaf) file_bytes.
Proof.
  intros Hs Hn Hl Hi E. exists (start_dir s (slash :: leaf)), leaf, 2, [blk].
  split; [exact (leaf_resolves _ _ _ Hi)|]. split; [exact (scenario_refusal _ _ Hs _ _ Hn Hl E)|]. split; [exact E|].
  split; [exact (scenario_inode _ _ Hs)|]. split; [exact (scenario_file _ _ Hs)|].
  split; [exact (scenario_size _ _ Hs)|exact (scenario_data _ _ Hs)].
Qed.
Lemma leaf_refused (s : fs (cached stdio)) leaf : slash ∉ leaf -> lookup s (start_dir s (slash :: leaf)) leaf = None ->
  path_refused s (slash :: leaf).
Proof.
  intros Hi E. exists (inr (start_dir s (slash :: leaf), leaf)). split; [exact (leaf_resolves _ _ _ Hi)|].
  unfold open_refusal. rewrite E. destruct (too_long leaf); [by eexists|]. destruct (is_dir_mask _); by eexists.
Qed.
Definition no_slash (l : list Z) : bool := forallb (fun x => negb (x =? slash)) l.
Lemma no_slash_spec l : no_slash l = true -> slash ∉ l.
Proof.
  unfold no_slash. rewrite forallb_forall. intros Hl Hi. apply list_elem_of_In, Hl in Hi. by rewrite Z.eqb_refl in Hi.
Qed.
Lemma disk2_monitor : path_holds disk2 (slash :: monitor_leaf) file_bytes.
Proof.
  exact (leaf_holds disk2 _ monitor_leaf disk2_facts ltac:(discriminate) eq_refl (no_slash_spec monitor_leaf eq_refl)
    (proj1 (proj2 (proj2 (proj2 (proj2 (proj2 scenario_facts))))))).
Qed.
Lemma disk2_kernel : path_holds disk2 (slash :: kernel_leaf) file_bytes.
Proof.
  exact (leaf_holds disk2 _ kernel_leaf disk2_facts ltac:(discriminate) eq_refl (no_slash_spec kernel_leaf eq_refl)
    (proj1 (proj2 (proj2 (proj2 (proj2 (proj2 (proj2 scenario_facts)))))))).
Qed.
Lemma disk2_no_kernel : path_refused disk2 (slash :: kernel_leaf ++ [46; 98; 122; 50]).
Proof.
  exact (leaf_refused disk2 _ (no_slash_spec (kernel_leaf ++ [46; 98; 122; 50]) eq_refl) (proj2 (proj2 (proj2 (proj2 (proj2 (proj2 (proj2 scenario_facts)))))))).
Qed.

(** A monitor of three bytes. *)
Definition monitor_image : list Z := ehdr 0x1620000 52 32 1 ++ phdr_bytes 84 0x1620000 3 8 ++ [1; 2; 3].
Definition monitor_memory : memory := loaded_ram demo (fun _ => 0) monitor_image (Some file_bytes).
Lemma monitor_bytes x : 0 <= monitor_memory x < 256.
Proof.
  repeat (apply stored_bytes; [by apply byte_list_spec|intros ?]). lia.
Qed.
Lemma monitor_apart : image_apart abi monitor_memory (RAM_SERIAL_LOAD demo) (RAM_MONITOR_CODE demo) 0xE0000.
Proof.
  assert (Hi : forall i, 0 <= i < phnum abi monitor_memory (RAM_SERIAL_LOAD demo) -> i = 0).
  { assert (E : phnum abi monitor_memory (RAM_SERIAL_LOAD demo) = 1) by (by vm_compute). rewrite E. lia. }
  split.
  - exact monitor_bytes.
  - by vm_compute.
  - by vm_compute.
  - by vm_compute.
  - apply above_apart; by vm_compute.
  - apply above_apart; by vm_compute.
  - intros i ->%Hi. split_and!; apply above_apart; by vm_compute.
  - intros i ->%Hi. split; [by vm_compute|]. split; [by vm_compute|]. apply above_apart; by vm_compute.
Qed.
Lemma abi_layout : layout_ok abi.
Proof.
  split; try (simpl; lia). intros i Hi. change (i ∈ [0; 1; 2; 3; 4; 5]) in Hi. rewrite !elem_of_cons, elem_of_nil in Hi. simpl. lia.
Qed.

Lemma load_monitor_starts_witness : exists t,
  load_monitor (Around0 := quiet monitor_image) demo 0 demo_state =
    Some (Monitor (read32 monitor_memory (RAM_SERIAL_LOAD demo + e_entry (layout demo))) [0x4000000; 87] t) /\
  (forall a, ram t a = loaded monitor_memory (segments (layout demo) monitor_memory (RAM_SERIAL_LOAD demo)) a) /\
  (forall a, ~ in_target (RAM_MONITOR_CODE demo) (RAM_MONITOR_MAX demo - RAM_MONITOR_CODE demo) a -> ram t a = monitor_memory a) /\
  files t ≡ disk2.
Proof.
  apply (load_monitor_starts (Around0 := quiet monitor_image) demo 0 demo_state monitor_image (Some file_bytes)).
  - exact (ff_ok _ _ disk2_facts).
  - apply rom_compressed; [done|exact disk2_monitor|reflexivity].
  - done.
  - exact abi_layout.
  - done.
  - done.
  - done.
  - exact monitor_apart.
  - by vm_compute.
  - by vm_compute.
Defined.

Lemma demo_line i : nonzero i -> line_ok demo (chars "ip=off ") i demo_state.
Proof. intros Hi. split; [by apply nonzero_chars|exact Hi|constructor|constructor|by split..]. Qed.

Lemma setup_boot_linux_page_witness : exists t,
  setup_boot_linux (Around0 := quiet []) (fun _ => None) demo BOOT_STAGE_RUN (chars "ip=off ") [] demo_state = Some (Ret tt t) /\
  same demo_state t /\ zero_page demo BOOT_STAGE_RUN (chars "ip=off ") [] demo_state (ram demo_state) (ram t).
Proof. exact (setup_boot_linux_page (Around0 := quiet []) _ demo _ _ [] demo_state (demo_line [] (Forall_nil_2 _))). Defined.

(** A kernel of three bytes, with five zeros after them. *)
Definition kernel_bytes : list Z := ehdr 0x100000 52 32 1 ++ phdr_bytes 84 0x100000 3 8 ++ [1; 2; 3].
Definition kernel_memory (m : memory) : memory := stored RAM_DECOMP_AREA kernel_bytes (loaded_ram demo m file_bytes None).
Lemma kernel_memory_ok m : (forall x, 0 <= m x < 256) -> kernel_ok demo (kernel_memory m).
Proof.
  intros Hm. assert (E : k_count demo (kernel_memory m) = 1) by (by vm_compute).
  assert (Hi : forall i, 0 <= i < k_count demo (kernel_memory m) -> i = 0) by (rewrite E; lia).
  split.
  - intros x. repeat (apply stored_bytes; [by apply byte_list_spec|intros ?]). apply Hm.
  - by rewrite E.
  - apply above_apart; by vm_compute.
  - apply above_apart; by vm_compute.
  - apply above_apart; by vm_compute.
  - apply above_apart; by vm_compute.
  - intros i ->%Hi. split_and!; apply above_apart; by vm_compute.
  - intros i ->%Hi. apply above_apart; by vm_compute.
  - intros i ->%Hi. split; by vm_compute.
Qed.
Lemma demo_kernel_file : rom_file (Around0 := quiet kernel_bytes) disk2 ROM_KERNEL file_bytes None.
Proof.
  assert (E : ROM_KERNEL = slash :: kernel_leaf) by (by vm_compute). rewrite E.
  assert (E' : (slash :: kernel_leaf) ++ chars ".bz2" = slash :: kernel_leaf ++ [46; 98; 122; 50]) by (by vm_compute).
  apply rom_plain; [|exact disk2_kernel]. intros _. rewrite E'. exact disk2_no_kernel.
Qed.
Lemma demo_kernel m : (forall x, 0 <= m x < 256) ->
  rom_kernel (Around0 := quiet kernel_bytes) demo demo_state m (kernel_memory m).
Proof.
  intros Hm. split; [exact (ff_ok _ _ disk2_facts)| |by vm_compute|by apply kernel_memory_ok].
  exists file_bytes, None. split; [exact demo_kernel_file|].
  split; [by vm_compute|]. split; [by vm_compute|]. by apply unpacked_bz2.
Qed.

(** A kernel that reports an error: the one in the ROM is started again. *)
Lemma disk_boots_witness : exists t v,
  do_bfX (Around0 := quiet kernel_bytes) (fun _ => None) demo BOOT_OPT_BFD demo_state = Some (Linux t) /\
  zero_page demo BOOT_STAGE_LOAD (chars "ip=off ") BOOT_KERNEL_LINUX demo_state (kernel_in demo (kernel_memory (fun _ => 0))) (ram t) /\
  return_from_kernel (Around0 := quiet kernel_bytes) (fun _ => None) demo (set_ram (fun _ => 0) (set_return_error (-1) t)) = Some (Linux v) /\
  zero_page demo BOOT_STAGE_RUN (chars "ip=off ") [] demo_state (kernel_in demo (kernel_memory (with_gdt (fun _ => 0)))) (ram v).
Proof.
  assert (H0 : forall x : Z, 0 <= 0 < 256) by lia.
  assert (Hi : nonzero BOOT_KERNEL_LINUX) by by apply nonzero_chars.
  destruct (disk_boots (Around0 := quiet kernel_bytes) (fun _ => None) demo demo_state (kernel_memory (fun _ => 0))
    (demo_kernel _ H0) (demo_line _ Hi)) as (t & E & Hz & Hret).
  destruct (Hret (set_ram (fun _ => 0) (set_return_error (-1) t)) (kernel_memory (with_gdt (fun _ => 0)))) as (v & Ev & Hv).
  - by split.
  - right. split; [reflexivity|]. apply demo_kernel. intros x. apply stored_bytes; [by apply byte_list_spec|exact H0].
  - exists t, v. split; [exact E|]. split; [exact Hz|]. split; [exact Ev|exact Hv].
Defined.
