(* ===== verification/Findings.v ===== *)
(** * Findings: where the code does not do what it means to

    Theorems about behaviour that a comment of the code, or its evident purpose,
    contradicts. *)

From S2P Require Import Prelude Freemap Layout BlockLayer BlockCache StdioDevice Fs Inode.
From S2P Require Import Namei Directory Mount FileIO Remove Tools ReadProofs DirProofs Tree.
From S2P Require Import MountProofs MkfsProofs DirTheorems Scenario.

Section findings.
Context {St : Type} `{BlockLayer St}.
Implicit Types s : fs St.

(** [cache_flush] never flushes the inode map (it flushes the block map
    twice): the inodes that were freed stay unavailable after any commit. *)
Theorem cache_flush_inode_map s n :
  inode_freemap (cache_flush s) = inode_freemap s /\
  fm_taken (inode_freemap (cache_flush s)) n = fm_taken (inode_freemap s) n.
Proof. unfold cache_flush. by destruct (cache_is_empty (store s)). Qed.

(** When only the second copy of the super block is valid, [crfs_init] takes
    it for the first one: the next commit overwrites the only valid copy. *)
Theorem crfs_init_second_copy s :
  fs_ok s -> newest s 1 -> super_valid (base s (SB_BLOCKNUM 0)) = false ->
  exists s', s' ≡ dropped s /\
    crfs_init s = init_maps (set_super_block (base s (SB_BLOCKNUM 1)) (set_which_super 0 s')) /\
    SB_BLOCKNUM (other_slot 0) = SB_BLOCKNUM 1.
Proof.
  intros Hs Hn Hv. destruct (init_reads s Hs) as (s' & Heq & E).
  exists s'. split; [done|]. split; [|done].
  pose proof Hn as [_ Hval Hpos _].
  cbv zeta in E. cbn [List.filter] in E. rewrite Hval, Hv in E. cbn [best_super] in E.
  rewrite (proj2 (Z.ltb_lt _ _) Hpos) in E. exact E.
Qed.

(** The maps [crfs_init] makes do not depend on the tables from number 16 on,
    though [crfs_write_inode] stores the tables of the inodes from 4096 on there:
    after a mount their blocks are available to anyone. *)
Theorem init_ignores_high_tables s k v :
  block_ok (super_block s) -> 16 <= k < 256 ->
  ITABLE_BLOCKNUM (set_super_block (set_sb_vtable k v (super_block s)) s) (k * 256) = u16 v /\
  map (sb_vtable (set_sb_vtable k v (super_block s))) (seqZ 0 (Z.of_nat CRFS_SB_VTABLE_LEN)) =
    map (sb_vtable (super_block s)) (seqZ 0 (Z.of_nat CRFS_SB_VTABLE_LEN)).
Proof.
  intros Hb Hk. split.
  - unfold ITABLE_BLOCKNUM, set_super_block, set_sb_vtable, sb_vtable. cbn [super_block].
    rewrite Z.shiftr_div_pow2 by lia. change (2 ^ 8) with 256. rewrite Z.div_mul by lia.
    apply get16_put16. blk.
  - apply map_ext_in. intros i Hi. apply list_elem_of_In, elem_of_seqZ in Hi.
    unfold CRFS_SB_VTABLE_LEN in Hi. unfold sb_vtable, set_sb_vtable, put16.
    apply get16_put_ne; simpl; blk.
Qed.
End findings.

Lemma land_power (x j : Z) :
  0 <= x -> 0 <= j -> Z.land x (2 ^ j) = 2 ^ j * (x / 2 ^ j mod 2).
Proof.
  intros Hx Hj. pose proof (Z.testbit_spec' x j Hj) as Hb.
  apply Z.bits_inj'. intros k Hk. rewrite Z.land_spec, Z.pow2_bits_eqb by done.
  rewrite Z.mul_comm, <- Z.shiftl_mul_pow2 by done. rewrite Z.shiftl_spec, <- Hb by done.
  destruct (Z.eqb_spec j k) as [<-|Hne].
  - rewrite Z.sub_diag, andb_true_r. by destruct (Z.testbit x j).
  - rewrite andb_false_r. destruct (Z.testbit x j); simpl; [|by rewrite Z.bits_0].
    change 1 with (2 ^ 0). rewrite Z.pow2_bits_eqb by done. symmetry. apply Z.eqb_neq. lia.
Qed.

(** [crfs_mkfs] does not round the size down to a multiple of the block size:
    it clears bit 12 of it, which drops a block from an odd number of blocks and
    keeps the bytes of a partial block. *)
Theorem mkfs_size_not_rounded size :
  0 <= size < 4294967296 ->
  mkfs_size size = size - CRFS_BLOCK_SIZE * (size / CRFS_BLOCK_SIZE mod 2).
Proof.
  intros Hs. unfold mkfs_size. change (u32 (Z.lnot CRFS_BLOCK_SIZE)) with (Z.ldiff (Z.ones 32) (2 ^ 12)).
  change CRFS_BLOCK_SIZE with (2 ^ 12). rewrite <- land_power by lia.
  replace (Z.land size (Z.ldiff (Z.ones 32) (2 ^ 12)))
    with (Z.ldiff (Z.land size (Z.ones 32)) (2 ^ 12)); last first.
  { apply Z.bits_inj'. intros k Hk. by rewrite !Z.ldiff_spec, !Z.land_spec, Z.ldiff_spec, andb_assoc. }
  rewrite Z.land_ones, Z.mod_small by lia.
  rewrite Z.sub_nocarry_ldiff.
  - apply Z.bits_inj'. intros k Hk. rewrite !Z.ldiff_spec, Z.land_spec.
    by destruct (Z.testbit size k), (Z.testbit (2 ^ 12) k).
  - apply Z.bits_inj'. intros k Hk. rewrite Z.ldiff_spec, Z.land_spec, Z.bits_0.
    by destruct (Z.testbit size k), (Z.testbit (2 ^ 12) k).
Qed.

(** ** A write that ends at the end of a block *)

(** The file "/f" is created and written in two pieces through one handle; its
    size, and what a new handle reads. *)
Definition written_twice (a b : list Z) : option (Z * list Z) :=
  '(_, s) ← crfs_create disk new_name;
  let '(fp, s) := crfs_open s new_name in
  fp ← fp;
  '(_, fp, s) ← crfs_write s fp a;
  '(_, fp, s) ← crfs_write s fp b;
  let '((_, st), s) := crfs_stat s new_name in
  st ← st;
  let '(fp, s) := crfs_open s new_name in
  fp ← fp;
  let '((_, out), _, _) := crfs_read s fp 8000 in
  Some (st_size st, out).

(** A [crfs_write] that ends exactly at the end of a file block leaves the
    handle on the full block: the next one overwrites the start of that block
    instead of appending, and the file cannot be read to its size.  A write that
    ends elsewhere is continued as it should be. *)
Theorem crfs_write_boundary :
  written_twice (replicate 4080 1) (replicate 10 2) = Some (4090, []) /\
  written_twice (replicate 4079 1) (replicate 10 2) =
    Some (4089, replicate 4079 1 ++ replicate 10 2).
Proof.
  split; [vm_cast_no_check (eq_refl (Some (4090, @nil Z)))|].
  vm_cast_no_check (eq_refl (Some (4089, replicate 4079 1 ++ replicate 10 2))).
Qed.

(** The file system of [Scenario.v] after its first super block was lost. *)
Definition second_copy : fs (cached stdio) :=
  set_store (dev_write (cache_drop (store disk)) (SB_BLOCKNUM 0) (zeros BLOCK)) disk.

Definition lost_check (s : fs (cached stdio)) : bool :=
  fs_okb s && super_valid (base s (SB_BLOCKNUM 1)) &&
  (0 <? sb_blockver (base s (SB_BLOCKNUM 1))) && negb (super_valid (base s (SB_BLOCKNUM 0))).

Lemma lost_check_facts s : lost_check s = true ->
  fs_ok s /\ super_valid (base s (SB_BLOCKNUM 1)) = true /\
  0 < sb_blockver (base s (SB_BLOCKNUM 1)) /\ super_valid (base s (SB_BLOCKNUM 0)) = false.
Proof.
  unfold lost_check. rewrite !andb_true_iff, Z.ltb_lt, negb_true_iff.
  intros (((Hok & Hv) & Hp) & Hl). split; [by apply fs_okb_spec|]. by split.
Qed.

Lemma second_copy_facts :
  fs_ok second_copy /\ super_valid (base second_copy (SB_BLOCKNUM 1)) = true /\
  0 < sb_blockver (base second_copy (SB_BLOCKNUM 1)) /\
  super_valid (base second_copy (SB_BLOCKNUM 0)) = false.
Proof. apply (lost_check_facts second_copy). vm_cast_no_check (eq_refl true). Qed.

#[global] Opaque second_copy.

Lemma second_copy_ok : fs_ok second_copy.
Proof. exact (proj1 second_copy_facts). Qed.

Lemma second_copy_lost : super_valid (base second_copy (SB_BLOCKNUM 0)) = false.
Proof. exact (proj2 (proj2 (proj2 second_copy_facts))). Qed.

Lemma second_copy_newest : newest second_copy 1.
Proof.
  split; [done|exact (proj1 (proj2 second_copy_facts))
    |exact (proj1 (proj2 (proj2 second_copy_facts)))|].
  change (other_slot 1) with 0. rewrite second_copy_lost. discriminate.
Qed.

Lemma crfs_init_second_copy_witness :
  exists s', s' ≡ dropped second_copy /\
    crfs_init second_copy =
      init_maps (set_super_block (base second_copy (SB_BLOCKNUM 1)) (set_which_super 0 s')) /\
    SB_BLOCKNUM (other_slot 0) = SB_BLOCKNUM 1.
Proof.
  exact (crfs_init_second_copy second_copy second_copy_ok second_copy_newest second_copy_lost).
Defined.

Lemma init_ignores_high_tables_witness :
  ITABLE_BLOCKNUM (set_super_block (set_sb_vtable 16 9 (super_block disk)) disk) (16 * 256) = u16 9 /\
  map (sb_vtable (set_sb_vtable 16 9 (super_block disk))) (seqZ 0 (Z.of_nat CRFS_SB_VTABLE_LEN)) =
    map (sb_vtable (super_block disk)) (seqZ 0 (Z.of_nat CRFS_SB_VTABLE_LEN)).
Proof. exact (init_ignores_high_tables disk 16 9 (ok_sb disk disk_ok) ltac:(lia)). Defined.

Lemma mkfs_size_not_rounded_witness :
  mkfs_size 12388 = 12388 - CRFS_BLOCK_SIZE * (12388 / CRFS_BLOCK_SIZE mod 2).
Proof. apply (mkfs_size_not_rounded 12388). lia. Defined.
